(* ===== verification/_CoqProject ===== *)
-Q . S2P
Prelude.v
Go.v
GoTime.v
GoCodec.v
GoText.v
Links.v
Response.v
CaseValidator.v
Http.v
JobQueue.v
WorkerPool.v
QueueProps.v
Redis.v
World.v
ConnPool.v
RedisIndex.v
Index.v
Search.v
DBSpec.v
AsModel.v
Auth.v
Session.v
Account.v
Role.v
Rpc.v
AsSpec.v
TModel.v
THandle.v
Services.v
Proto.v
HandleAccess.v
HandleResources.v
HandleServices.v
HandleFixed.v
TaskSystem.v
TaskSpec.v
TModelProps.v
Scenario.v
IndexProps.v
StoreProps.v
ResponseProps.v
CaseProps.v
AuthProps.v
SessionSpec.v
SessionProps.v
AccountProps.v
RoleProps.v
System.v
GatewayRpc.v
Router.v
Gateway.v
SystemProps.v
GatewaySpec.v
GatewayProps.v
GatewayGuard.v
GatewayScenario.v
Frame.v
SearchProps.v
SearchSpec.v
TaskProps.v
TaskCancel.v
TaskFrame.v
TaskStoreImpl.v
TaskService.v
AgData.v
AgModel.v
Aggregates.v
AgSpec.v
AggHistory.v
AgPlugin.v
AgTask.v
AgBatch.v
AgReset.v
AgTaskProps.v
AgResetProps.v
AgRpc.v
AgRpcProps.v
AgScenario.v
Events.v
EventsProps.v
