(* ===== verification/Prelude.v ===== *)
(** * ODIM's services, verified

    ODIM is a set of Go micro-services that keep their state in two Redis databases, one in memory
    (sessions, tasks, inventory) and one on disk (accounts, roles, aggregates, plugins), authorise
    every request through the account-session service, and reach the managed servers through
    plugins.  A client's HTTP request enters at the API gateway, which hands it to a service by a
    remote procedure call; work that takes long is given to a goroutine, and the client gets a task.

    This development models the account-session service and the task service completely, from their
    gRPC handlers down to the Redis commands; the API gateway, with every route and handler; the
    search of the systems; the job queue and the worker pool; and of the aggregation service the
    aggregates, connection methods and sources as they are stored, the update of a source, and the
    resets and default boot orders with their goroutines; and of the event service the delivery of
    events.  It proves what they promise their clients, and where they do not.

    ** The parts of the program and the files that model them

    The language and its libraries, and what lies outside of the repository:
    - [Prelude]: this file.  A Go call is a computation of the monad [M]: it returns or panics
      ([outcome]) and leaves a state.  Weakest preconditions ([wp]) with a rule for each
      constructor, loops over slices ([forM_], [loopM]) with their rule, and the tactics
      [wp_step], [wp_go], [wp_call] that walk a computation.
    - [Go]: strings, JSON values, their decoding into structs with the errors and the partial results
      of [json.Unmarshal], regexp classes, durations.  [GoTime], [GoCodec]: the texts of instants and
      their parsing, splitting, integers of 32 and 64 bits; base64, and fields of other types.
      [GoText]: more of strings, strconv, hex and regexp, the scanner of JSON texts and their
      writing, float64, and the paths of net/url.  [Http]: the requests and responses of net/http.
    - [Redis], [RedisIndex]: the classes [Env] and [IndexEnv] are the Redis servers, the sentinels, the
      clock and the random identifiers; [EnvLaws] and [IndexLaws] are the documented behaviour the
      services rely on (GET, SET, DEL, KEYS, FLUSHALL, sorted sets, transactions; an error may come
      at any command and then the write may or may not have happened); [Libs] the hash and the rest
      of regexp.  Module [Sim] is an executable server with a script of faults that satisfies the
      laws, and runs the examples; [Scenario] has the one with sorted sets.
    - [World]: the configuration, and the state of a process: the two global connection pools, the
      time of the last clean-up, the pending clean-up goroutines, and the environment.

    The libraries of the repository:
    - [Response]: lib-utilities/response, lib-utilities/errors and common/generalerror.go.
      [CaseValidator]: common/caseValidator.go.
    - [ConnPool]: lib-persistence-manager/persistencemgr/redis.go, with the fail-over of the write
      pools, and common/dbconn.go.  [Index]: its index, subscription and transaction operations.
    - [JobQueue], [WorkerPool]: lib-utilities/common/jobqueue.go and workerpool.go, as transition
      systems whose steps are the actions of the goroutines on channels, locks and wait groups.
    - [Services]: lib-utilities/services/auth.go, the calls of the other services to the
      account-session service; the class [Network] says whether they arrive.
    - [Links]: lib-dmtf/model/Links.go, slices that share their arrays.

    The services:
    - Account and session: [AsModel] is asmodel and asresponse; [Auth], [Session], [Account], [Role]
      the packages of these names, one definition for each function, with every guard and early
      return in the order of the code; [Rpc] the handlers; [System] all requests together, a history
      of requests, faults and restarts, and the databases as a transition system ([change]).
    - Tasks: [TModel] is tmodel; [THandle] the handlers on an arbitrary state, through the record of
      functions [TasksRPC] as in the code; [TaskSystem] the service as main.go puts it together, with
      the message bus and the goroutines that were started and have not ended.
    - Gateway: [Proto] the messages; [HandleAccess], [HandleResources], [HandleServices],
      [HandleFixed] the handlers of svc-api/handle, [GatewayRpc] its calls of the services,
      [Router] the routes of router.go, and [Gateway] the wrappers of main.go and router.go, the
      audit log, and what a request does to the account-session and task services behind it.
    - Search: [Search] is svc-systems/systems/getresource.go and smodel, from the query of the client
      to the commands on the indices.
    - Aggregation: [AgData] and [AgModel] are agmodel; [Aggregates] the handlers of aggregates,
      connection methods and sources that need no plugin; [AgPlugin] the requests to a plugin
      (pmbhandle, pluginstatus.go, agcommon, system/common.go); [AgTask] services/task.go and what the
      goroutines tell the task service; [AgReset] the resets and the default boot orders, each in a
      part before and a part after its goroutines, which [AgBatch] schedules; [AgRpc] the remote
      procedure calls, and system/update.go, the update of a source with its checks at the plugin.
      Of the twenty-one calls of aggregator.proto the eighteen whose request has a session token are
      [agCall] and [serveCall]; RediscoverSystemInventory, which checks no session, is modelled up to
      the goroutine it starts.  [AgWorld] is the process with the two services it asks.
    - Events: [Events] is evmodel/events.go, subscriptions and undelivered events as they are stored,
      and events/publishevttosubscriber.go: which events of a message go to which subscriber
      ([forward]), and the goroutines that post them, try again, and send stored events again.
      [EvWorld] is the process, what was sent, and its goroutines.

    ** Specifications and proofs

    - [DBSpec]: the interface between the persistence manager and its clients.  [view w db] is the
      finite map a database holds; [evolves], [ro] and [written] relate worlds by what was written;
      [healthy w] says that no command will fail and no write pool was lost.  [same_data] is the
      equivalence of worlds that show the same data, along which what is read can be rewritten.  Each
      operation has a [wp_] lemma that says what it does in any well-formed world ([wf]), faults
      included.  [Frame] says what a program leaves alone.
    - [AsSpec]: the same for asmodel: [session_of], [user_of], [role_of] read a record, and [typed]
      says that every document of the tables decodes and is stored under its own name.
    - [AuthProps], [SessionSpec], [SessionProps], [AccountProps], [RoleProps]: for each operation a
      postcondition (the definitions named [..._post]) that covers every branch, then the
      properties read off it: authorisation, logging in and out, the clean-up, passwords, and what
      each operation on accounts and roles may change, for whom.
    - [StoreProps]: the operations refine an abstract key-value store when no command fails; what
      they still promise when commands fail; the loss and the recovery of a write pool.
    - [ResponseProps], [CaseProps]: when building an error body, or checking property names, panics,
      and what the result is.
    - [SystemProps]: every request refines the transition system; the invariants of any history; who
      may change the on-disk database; which requests can panic.
    - [IndexProps]: deleting from an index ends and removes what it should, and what writing the
      indices of a resource adds.  [QueueProps]: the queue is first-in first-out in every
      interleaving, the workers process every job exactly once and stop.
    - [TaskSpec]: the interface of the handlers.  [TaskView] shows a state as documents by identifier,
      the index of completed tasks, the notices and the goroutines ([tview]); [becomes] and [stays]
      relate states by what is shown; the class [TaskStore] says what each function of [TasksRPC]
      does, in any state and whatever commands fail.
    - [TModelProps], [TaskProps], [TaskCancel]: documents and index entries are read as they were
      written; and for each handler, against [TaskStore], what it answers and changes on every
      branch ([update_post], [create_post], [child_post], [get_post], [delete_post], [purged]).
    - [TaskFrame], [TaskStoreImpl]: what the functions of tmodel do to the databases, and the proof
      that the service of [TaskSystem] keeps [TaskStore].  [TaskService]: every request to it, with the
      change of the task documents that each kind of request may make ([task_effect]), and that the
      answers are true to it ([answer_true]).
    - [SearchProps], [SearchSpec]: the indices a search reads are read as they are; what a search
      answers; comparisons, the logical operators, and the conditions that go wrong.
    - [GatewaySpec], [GatewayProps], [GatewayGuard]: [does] says that what a handler does it does on
      behalf of the token of the request ([on_behalf]); [gw_good] is the invariant, [PeersLaws] what
      the other services are relied on for.  Every HTTP request refines the services behind it; Basic
      credentials; what is done without a token; which handlers panic; the audit log.
    - [AgSpec], [AggHistory]: what each handler of the aggregates answers and writes, as the outcomes
      that a request has on an abstract map of aggregates ([agg_outcome]: performed, shown, refused,
      failed, panicked); the invariant of any history; reading what was created; removing elements,
      which loses more than was asked for ([removal]).
    - [AgTaskProps]: what a goroutine of the aggregation service may rely on ([works], [steady]).
      [AgBatch], [AgResetProps]: every interleaving of the goroutines of a reset, or of the default boot
      orders, ends, and with which status.  [AgRpcProps]: who may call, and how long work is started.
    - [EventsProps]: who gets which events; which events survive being stored; that no stored event is
      lost, in any history of goroutines, messages, faults, panics and restarts ([ev_step]), and no
      event at all while the process is not ended ([ev_goes]); what the end of the process loses
      ([ev_dies]); and how a subscriber that cannot be reached stops the sending.
    - [Scenario], [GatewayScenario], [AgScenario], and the ends of [TaskService] and [EventsProps]: concrete configurations and
      services, on which the witnesses of the properties run.

    ** Choices

    - A request runs to its end before the next: interleavings of two requests are not modelled.
      Goroutines are steps of their own: the clean-up that [CheckSessionTimeOut] starts ([CleanUp]),
      the clean-up of old tasks and one round of the loop that waits for a cancelled task
      ([runThread]), those of a reset, and those that deliver events.  A goroutine of a reset runs
      without interruption between two of its operations on the channel and the wait groups; one that
      delivers events to its end, but for a pause between two tries.
    - Times are integers, in nanoseconds; the time-outs of the configuration are rationals, in
      minutes, and the comparison of a float64 number of minutes is made exactly.  A float64 is the
      rational it denotes.
    - A stored document, and the body of a request, is a JSON value or bytes that are none ([jtext]);
      where the code also passes on the text of a body, the model has both.  Marshalling a struct
      gives the value of its fields, and marshalling never fails for the structs of the services.  A
      slice grows as encoding/json up to Go 1.20 makes it grow.
    - A Go map that is iterated is a list of entries in the order of the run, and where the order is
      not of the data it is a parameter ([MapIter]).
    - Only the scans of an index need fuel: the recursions are structural otherwise, and the wait for
      a new master is the fixed number of rounds of the code.  A scan takes at most as many rounds as
      the server has pages ([pages_left]), so more fuel than that is enough ([Del_spec]); the task
      service asks for it with [scannable].
    - The services work on the same databases, each in a process of its own; the handler of a call
      runs within the call.  A handler that panics ends its process, which is restarted with empty
      pools.  Other services than those modelled are parameters of the gateway.
    - What net/http, the framework of the routes, gRPC, the parser of URIs and crypto do is a
      parameter: whether a request can be made, what a plugin answers, how an error of the other
      side reads, which route is found, what a password is encrypted and a ciphertext decrypted to, whether a subscriber answers
      ([Subscribers]).  A plugin or a subscriber does not change the databases.
    - Logging is left out, except where it has effects on the session ([CustomAuthLog]), and for the
      lines of the audit and authentication logs, without their time.  log.Fatal is a panic.
      fmt.Errorf of a text without verbs is the text.
    - The properties of the services assume single-node Redis ([SingleNode]: high availability off,
      two different addresses); with high availability the fail-over itself is specified in
      [StoreProps].

    ** Not modelled

    FilterSearch of redis.go, which nothing calls; of the aggregation service the goroutines that
    add and remove a source and that rediscover a system, the calls UpdateSystemState and
    SendStartUpData, the health check of the plugins, and start-up; of
    svc-systems all but the collection with its search; of the event service the creation and deletion
    of subscriptions at the plugins, test events, the fabrics and start-up messages of plugins, and the
    remote procedure calls; the services for managers, updates and telemetry, which mostly read stored resources
    and forward requests to plugins; the ONF device manager, a program of its own; and reading the configuration and registering the services. *)
From stdpp Require Import base gmap sets list strings.
From Stdlib Require Import QArith.

Declare Scope go_scope.
Delimit Scope go_scope with go.

(** ** Outcomes and the state monad of a Go call *)

(** A Go call returns or panics; either way the state it changed stays changed. *)
Inductive outcome (A : Type) : Type :=
| Ok (a : A)
| Panic.
Arguments Ok {A} a.
Arguments Panic {A}.

Definition M (S A : Type) : Type := S -> outcome A * S.

Definition ret {S A} (a : A) : M S A := fun s => (Ok a, s).
Definition panic {S A} : M S A := fun s => (Panic, s).
Definition bind {S A B} (m : M S A) (k : A -> M S B) : M S B :=
  fun s => match m s with
           | (Ok a, s') => k a s'
           | (Panic, s') => (Panic, s')
           end.
Definition get {S} : M S S := fun s => (Ok s, s).
Definition modify {S} (f : S -> S) : M S unit := fun s => (Ok tt, f s).
(** A pure computation that may panic, run in any state. *)
Definition lift {S A} (o : outcome A) : M S A := fun s => (o, s).

Notation "'let!' x ':=' m 'in' k" := (bind m (fun x => k))
  (at level 10, x pattern, m at level 200, k at level 200,
   format "'[v' 'let!'  x  ':='  m  'in' '/' k ']'") : go_scope.
Notation "m ;;; k" := (bind m (fun _ => k))
  (at level 100, k at level 200, right associativity) : go_scope.
Open Scope go_scope.

(** Panics inside pure code. *)
Definition obind {A B} (o : outcome A) (k : A -> outcome B) : outcome B :=
  match o with Ok a => k a | Panic => Panic end.

(** ** Weakest preconditions *)

Definition wp {S A} (m : M S A) (Q : outcome A -> S -> Prop) (s : S) : Prop :=
  Q (m s).1 (m s).2.

(** The continuation of a [bind]: what must hold after the first part. *)
Definition wp_cont {S A B} (k : A -> M S B) (Q : outcome B -> S -> Prop)
  : outcome A -> S -> Prop :=
  fun o s => match o with Ok a => wp (k a) Q s | Panic => Q Panic s end.

Section wp_rules.
Context {S A B : Type}.
Implicit Types (s : S).

Lemma wp_ret (a : A) Q s : Q (Ok a) s -> wp (ret a) Q s.
Proof. done. Qed.

Lemma wp_panic (Q : outcome A -> S -> Prop) s : Q Panic s -> wp panic Q s.
Proof. done. Qed.

Lemma wp_lift (o : outcome A) Q s : Q o s -> wp (lift o) Q s.
Proof. done. Qed.

Lemma wp_get (Q : outcome S -> S -> Prop) s : Q (Ok s) s -> wp get Q s.
Proof. done. Qed.

Lemma wp_modify f (Q : outcome unit -> S -> Prop) s : Q (Ok tt) (f s) -> wp (modify f) Q s.
Proof. done. Qed.

Lemma wp_bind (m : M S A) (k : A -> M S B) Q s :
  wp m (wp_cont k Q) s -> wp (bind m k) Q s.
Proof. unfold wp, bind. destruct (m s) as [[a|] s']; done. Qed.

Lemma wp_mono (m : M S A) (P Q : outcome A -> S -> Prop) s :
  wp m P s -> (forall r s', P r s' -> Q r s') -> wp m Q s.
Proof. unfold wp. auto. Qed.

Lemma wp_both (m : M S A) (P Q : outcome A -> S -> Prop) s :
  wp m P s -> wp m Q s -> wp m (fun r s' => P r s' /\ Q r s') s.
Proof. by split. Qed.

(** From a weakest precondition back to a run of the program. *)
Lemma wp_run (m : M S A) Q s r s' : wp m Q s -> m s = (r, s') -> Q r s'.
Proof. unfold wp. intros H E. by rewrite E in H. Qed.

Lemma wp_elim (m : M S A) (Q : outcome A -> S -> Prop) s :
  wp m Q s -> exists o s', m s = (o, s') /\ Q o s'.
Proof. unfold wp. destruct (m s) as [o s']. by exists o, s'. Qed.

Lemma wp_intro (m : M S A) (Q : outcome A -> S -> Prop) s :
  (forall r s', m s = (r, s') -> Q r s') -> wp m Q s.
Proof. unfold wp. intros H. apply H. by destruct (m s). Qed.
End wp_rules.

(** Symbolic execution of the structural part of a computation. *)
Ltac wp_step :=
  match goal with
  | |- wp (bind _ _) _ _ => apply wp_bind
  | |- wp (ret _) _ _ => apply wp_ret; cbn [wp_cont]
  | |- wp panic _ _ => apply wp_panic; cbn [wp_cont]
  | |- wp (lift _) _ _ => apply wp_lift; cbn [wp_cont]
  | |- wp get _ _ => apply wp_get; cbn [wp_cont]
  | |- wp (modify _) _ _ => apply wp_modify; cbn [wp_cont]
  | |- wp_cont _ _ (Ok _) _ => cbn [wp_cont]
  end.
Ltac wp_go := repeat wp_step.
(** Runs a call with its specification [L] and leaves the continuation. *)
Tactic Notation "wp_call" uconstr(L) := wp_go; (eapply wp_mono; [eapply L|]).

(** ** Loops over a slice *)

(** [for _, x := range l { body }] whose body only has effects. *)
Fixpoint forM_ {S A} (l : list A) (f : A -> M S unit) : M S unit :=
  match l with
  | [] => ret tt
  | x :: l' => f x ;;; forM_ l' f
  end.

(** A loop whose body threads a local variable and may return from the enclosing function:
    [inl r] leaves the loop with the function's result, [inr acc] goes on. *)
Fixpoint loopM {S A L R} (l : list A) (acc : L) (f : L -> A -> M S (R + L)) : M S (R + L) :=
  match l with
  | [] => ret (inr acc)
  | x :: l' =>
      let! r := f acc x in
      match r with
      | inl r => ret (inl r)
      | inr acc' => loopM l' acc' f
      end
  end.

(** The loop rule: an invariant of the elements already processed, the local variable and the
    state, or a result that leaves the loop. *)
Lemma wp_loopM {S A L R} (Inv : list A -> L -> S -> Prop) (l : list A)
    (f : L -> A -> M S (R + L)) (Q : outcome (R + L) -> S -> Prop) acc s :
  Inv [] acc s ->
  (forall done x acc s, (exists todo, l = done ++ x :: todo) -> Inv done acc s ->
     wp (f acc x) (fun o s' => match o with
                               | Ok (inl r) => Q (Ok (inl r)) s'
                               | Ok (inr acc') => Inv (done ++ [x]) acc' s'
                               | Panic => Q Panic s'
                               end) s) ->
  (forall acc s, Inv l acc s -> Q (Ok (inr acc)) s) ->
  wp (loopM l acc f) Q s.
Proof.
  intros H0 Hstep Hend.
  enough (forall todo pre acc s, l = pre ++ todo -> Inv pre acc s -> wp (loopM todo acc f) Q s)
    as Hg by (by apply (Hg l [])).
  clear H0. induction todo as [|x todo IH]; intros pre acc' s' -> HI; simpl.
  - apply wp_ret. apply Hend. by rewrite app_nil_r in *.
  - apply wp_bind. eapply wp_mono; [eapply Hstep; [by eexists|done]|].
    intros [[r|acc'']|] s'' HQ; simpl; [by apply wp_ret | | done].
    apply (IH (pre ++ [x])); [by rewrite <- app_assoc | done].
Qed.

Lemma wp_forM {S A} (Inv : list A -> S -> Prop) (l : list A) (f : A -> M S unit)
    (Q : outcome unit -> S -> Prop) s :
  Inv [] s ->
  (forall done x s, (exists todo, l = done ++ x :: todo) -> Inv done s ->
     wp (f x) (fun o s' => match o with Ok _ => Inv (done ++ [x]) s' | Panic => Q Panic s' end) s) ->
  (forall s, Inv l s -> Q (Ok tt) s) ->
  wp (forM_ l f) Q s.
Proof.
  intros H0 Hstep Hend.
  enough (forall todo pre s, l = pre ++ todo -> Inv pre s -> wp (forM_ todo f) Q s)
    as Hg by (by apply (Hg l [])).
  clear H0. induction todo as [|x todo IH]; intros pre s' -> HI; simpl.
  - apply wp_ret. apply Hend. by rewrite app_nil_r in *.
  - apply wp_bind. eapply wp_mono; [eapply Hstep; [by eexists|done]|].
    intros [a|] s'' HQ; simpl; [|done].
    apply (IH (pre ++ [x])); [by rewrite <- app_assoc | done].
Qed.

(** ** Options and lists *)

(** A Go slice is nil or has elements; [len] and iteration do not tell nil from empty. *)
Abbreviation slice A := (option (list A)).
Definition items {A} (s : slice A) : list A := default [] s.

Lemma existsb_In {A} (f : A -> bool) l : existsb f l = true <-> exists x, In x l /\ f x = true.
Proof. apply existsb_exists. Qed.

Lemma filter_keep {A} (P : A -> Prop) `{forall x, Decision (P x)} (l : list A) :
  (forall x, x ∈ l -> P x) -> filter P l = l.
Proof.
  induction l as [|x l IH]; intros Hl; [done|]. rewrite filter_cons_True by (apply Hl, elem_of_cons; auto).
  f_equal. apply IH. intros y Hy. apply Hl, elem_of_cons. auto.
Qed.
