(* ===== verification/Go.v ===== *)
(** The parts of the Go standard library the services use: byte strings, JSON documents with the
    struct decoding of encoding/json, base64, and durations.  Nothing here models code of the
    repository; the other files build on it.

    A JSON text is represented by the document it denotes ([Text]) or, when it does not parse, by
    the raw text together with the error the parser reports for it ([NotJson]).  A JSON string
    that holds an RFC 3339 instant, which is how encoding/json writes a [time.Time], is kept as
    the instant ([JTime]).  Strings are sequences of bytes, and case folding is ASCII folding. *)
From stdpp Require Import base gmap sets list strings.
From Stdlib Require Import QArith.
From Stdlib Require Import Ascii.
From S2P Require Import Prelude.
Open Scope string_scope.

(** ** Package strings *)

Definition HasPrefix (s pre : string) : bool := String.prefix pre s.

(** [strings.TrimPrefix] *)
Fixpoint drop_string (n : nat) (s : string) : string :=
  match n, s with
  | S n', String _ s' => drop_string n' s'
  | _, _ => s
  end.
Definition TrimPrefix (s pre : string) : string :=
  if HasPrefix s pre then drop_string (String.length pre) s else s.

Fixpoint HasSuffix (s suf : string) : bool :=
  String.eqb s suf || match s with EmptyString => false | String _ s' => HasSuffix s' suf end.

Fixpoint Contains (s sub : string) : bool :=
  HasPrefix s sub || match s with EmptyString => false | String _ s' => Contains s' sub end.

Definition is_upper (c : ascii) : bool :=
  let n := nat_of_ascii c in (65 <=? n)%nat && (n <=? 90)%nat.
Definition is_lower (c : ascii) : bool :=
  let n := nat_of_ascii c in (97 <=? n)%nat && (n <=? 122)%nat.
Definition is_digit (c : ascii) : bool :=
  let n := nat_of_ascii c in (48 <=? n)%nat && (n <=? 57)%nat.
Definition lower (c : ascii) : ascii :=
  if is_upper c then ascii_of_nat (nat_of_ascii c + 32) else c.

Fixpoint ToLower (s : string) : string :=
  match s with EmptyString => EmptyString | String c s' => String (lower c) (ToLower s') end.
Definition EqualFold (s t : string) : bool := String.eqb (ToLower s) (ToLower t).

Definition is_space (c : ascii) : bool :=
  let n := nat_of_ascii c in ((9 <=? n)%nat && (n <=? 13)%nat) || (n =? 32)%nat.
Fixpoint string_forall (f : ascii -> bool) (s : string) : bool :=
  match s with EmptyString => true | String c s' => f c && string_forall f s' end.
Fixpoint string_exists (f : ascii -> bool) (s : string) : bool :=
  match s with EmptyString => false | String c s' => f c || string_exists f s' end.
(** [len(strings.TrimSpace(s)) == 0] *)
Definition blank (s : string) : bool := string_forall is_space s.

Lemma string_forall_app f s t : string_forall f (s +:+ t) = string_forall f s && string_forall f t.
Proof.
  induction s as [|c s IH]; [done|]. change (String c s +:+ t) with (String c (s +:+ t)).
  cbn. by rewrite IH, andb_assoc.
Qed.
Lemma string_forall_impl (f g : ascii -> bool) s :
  (forall c, f c = true -> g c = true) -> string_forall f s = true -> string_forall g s = true.
Proof.
  intros Hfg. induction s as [|c s IH]; [done|]. cbn. intros [? ?]%andb_true_iff. apply andb_true_iff. auto.
Qed.
Lemma HasPrefix_app p s : HasPrefix (p +:+ s) p = true.
Proof.
  unfold HasPrefix. induction p as [|c p IH]; simpl; [by destruct s|].
  destruct (Ascii.ascii_dec c c); [exact IH | congruence].
Qed.

Lemma drop_string_app p s : drop_string (String.length p) (p +:+ s) = s.
Proof. by induction p. Qed.

Lemma TrimPrefix_app p s : TrimPrefix (p +:+ s) p = s.
Proof. unfold TrimPrefix. by rewrite HasPrefix_app, drop_string_app. Qed.

Lemma HasPrefix_split s p : HasPrefix s p = true -> s = p +:+ TrimPrefix s p.
Proof.
  intros H. unfold TrimPrefix. rewrite H. revert s H. unfold HasPrefix.
  induction p as [|c p IH]; intros [|d s] H; simpl in *; try done.
  destruct (Ascii.ascii_dec c d); [subst | done]. 
  change (String d s = String d (p +:+ drop_string (String.length p) s)). f_equal. by apply IH.
Qed.

Lemma String_append_assoc (s t u : string) : s +:+ (t +:+ u) = (s +:+ t) +:+ u.
Proof.
  induction s as [|c s IH]; [done|].
  change (String c (s +:+ (t +:+ u)) = String c ((s +:+ t) +:+ u)). by rewrite IH.
Qed.

Lemma app_string_inj (p s t : string) : p +:+ s = p +:+ t -> s = t.
Proof. induction p as [|c p IH]; [done|]. intros [=]. auto. Qed.

(** ** Package regexp: patterns that are one repeated character class *)

(** The items of a class body, read from left to right: a single character, or a range [lo-hi];
    a dash that is last stands for itself.  [None] is a range whose ends are out of order. *)
Fixpoint class_items (fuel : nat) (s : string) : option (list (ascii * ascii)) :=
  match fuel with
  | 0%nat => Some []
  | S fuel' =>
      match s with
      | EmptyString => Some []
      | String lo (String "-" (String hi s')) =>
          if (nat_of_ascii hi <? nat_of_ascii lo)%nat then None
          else cons (lo, hi) <$> class_items fuel' s'
      | String c s' => cons (c, c) <$> class_items fuel' s'
      end
  end.
Definition in_class (items : list (ascii * ascii)) (c : ascii) : bool :=
  existsb (fun r => (nat_of_ascii r.1 <=? nat_of_ascii c)%nat
                    && (nat_of_ascii c <=? nat_of_ascii r.2)%nat) items.

(** ASCII bodies without brackets and backslashes are the fragment modelled here. *)
Definition plain_class (body : string) : bool :=
  negb (String.eqb body "") && negb (String.eqb body "^") &&
  string_forall (fun c => let n := nat_of_ascii c in
    (n <? 128)%nat && negb ((91 <=? n)%nat && (n <=? 93)%nat)) body.

(** Does ["[" + body + "]+"] occur in [s]?  A pattern that does not compile matches nothing. *)
Definition match_class (body s : string) : bool :=
  match body with
  | String "^" body' =>
      match class_items (String.length body') body' with
      | Some items => string_exists (fun c => negb (in_class items c)) s
      | None => false
      end
  | _ =>
      match class_items (String.length body) body with
      | Some items => string_exists (in_class items) s
      | None => false
      end
  end.

(** ** Package encoding/base64 (URL alphabet, padded) *)

Definition b64_char (n : nat) : ascii :=
  if (n <? 26)%nat then ascii_of_nat (65 + n)
  else if (n <? 52)%nat then ascii_of_nat (97 + (n - 26))
  else if (n <? 62)%nat then ascii_of_nat (48 + (n - 52))
  else if (n =? 62)%nat then "-"%char else "_"%char.

Fixpoint URLEncoding (s : string) : string :=
  let enc n := b64_char n in
  match s with
  | EmptyString => EmptyString
  | String a EmptyString =>
      let x := nat_of_ascii a in
      String (enc (x / 4)%nat) (String (enc ((x mod 4) * 16)%nat) "==")
  | String a (String b EmptyString) =>
      let x := nat_of_ascii a in let y := nat_of_ascii b in
      String (enc (x / 4)%nat) (String (enc ((x mod 4) * 16 + y / 16)%nat)
        (String (enc ((y mod 16) * 4)%nat) "="))
  | String a (String b (String c r)) =>
      let x := nat_of_ascii a in let y := nat_of_ascii b in let z := nat_of_ascii c in
      String (enc (x / 4)%nat) (String (enc ((x mod 4) * 16 + y / 16)%nat)
        (String (enc ((y mod 16) * 4 + z / 64)%nat) (String (enc (z mod 64)%nat) (URLEncoding r))))
  end.

(** ** Durations *)

(** [time.Since(t).Minutes() > m]: a duration in nanoseconds against a number of minutes; the
    float64 quotient is taken as the exact rational. *)
Definition minutes_exceed (d : Z) (m : Q) : bool :=
  (Qnum m * 60000000000 <? d * Zpos (Qden m))%Z.

(** ** JSON documents *)

#[local] Set Warnings "-register-all".
Inductive json : Type :=
| JNull
| JBool (b : bool)
| JNum (n : Z)
| JStr (s : string)
| JTime (t : Z)
| JArr (l : list json)
| JObj (kvs : list (string * json)).

Inductive jtext : Type :=
| Text (j : json)
| NotJson (raw : string) (err : string).

(** The empty string as a text. *)
Definition empty_text : jtext := NotJson "" "unexpected end of JSON input".
Definition text_is_empty (t : jtext) : bool :=
  match t with NotJson "" _ => true | _ => false end.

(** How an UnmarshalTypeError names the JSON value it could not store. *)
Definition json_kind (j : json) : string :=
  match j with
  | JNull => "null"
  | JBool _ => "bool"
  | JNum _ => "number"
  | JStr _ | JTime _ => "string"
  | JArr _ => "array"
  | JObj _ => "object"
  end.

(** Decoding a value into a field: the new value, and the first error: the kind of a JSON value and
    the Go type it does not fit, or the text of an error inside the value.  An error does not stop
    the decoder. *)
Inductive decode_error := Mismatch (kind ty : string) | Inner (msg : string).
Definition mismatch : Type := option decode_error.
Definition field_decoder (A : Type) : Type := A -> json -> A * mismatch.

Definition dec_string : field_decoder string := fun old j =>
  match j with
  | JStr s => (s, None)
  | JNull => (old, None)
  | _ => (old, Some (Mismatch (json_kind j) "string"))
  end.
Definition dec_bool : field_decoder bool := fun old j =>
  match j with
  | JBool b => (b, None)
  | JNull => (old, None)
  | _ => (old, Some (Mismatch (json_kind j) "bool"))
  end.
Definition dec_time : field_decoder Z := fun old j =>
  match j with
  | JTime t => (t, None)
  | JNull => (old, None)
  | _ => (old, Some (Mismatch (json_kind j) "time.Time"))
  end.
Definition first_mismatch (a b : mismatch) : mismatch :=
  match a with Some _ => a | None => b end.
Fixpoint dec_elems (l : list json) : list string * mismatch :=
  match l with
  | [] => ([], None)
  | j :: l' =>
      let (s, e) := dec_string "" j in
      let (ss, es) := dec_elems l' in
      (s :: ss, first_mismatch e es)
  end.
Definition dec_strings : field_decoder (slice string) := fun old j =>
  match j with
  | JArr l => let (ss, e) := dec_elems l in (Some ss, e)
  | JNull => (None, None)
  | _ => (old, Some (Mismatch (json_kind j) "[]string"))
  end.
Definition dec_bool_entry (acc : gmap string bool * mismatch) (kv : string * json)
  : gmap string bool * mismatch :=
  let (b, e) := dec_bool false kv.2 in (<[kv.1 := b]> acc.1, first_mismatch acc.2 e).
Definition dec_bool_map : field_decoder (gmap string bool) := fun old j =>
  match j with
  | JObj kvs => fold_left dec_bool_entry kvs (old, None)
  | JNull => (∅, None)
  | _ => (old, Some (Mismatch (json_kind j) "map[string]bool"))
  end.

(** A struct type is given by its name and its fields in order: the JSON name of each and how its
    decoder updates the struct. *)
Record struct_type (A : Type) := {
  st_name : string;
  st_fields : list (string * field_decoder A);
}.
Arguments st_name {A} _.
Arguments st_fields {A} _.

(** The field a key is stored in: the exact name first, else the first name that differs in case
    only. *)
Definition find_field {A} (st : struct_type A) (k : string) : option (string * field_decoder A) :=
  match List.find (fun f => String.eqb f.1 k) (st_fields st) with
  | Some f => Some f
  | None => List.find (fun f => EqualFold f.1 k) (st_fields st)
  end.

(** [path] is the path of the enclosing fields in error messages. *)
Definition decode_entry_at {A} (path : string) (st : struct_type A) (acc : A * option string)
    (kv : string * json) : A * option string :=
  match find_field st kv.1 with
  | None => acc
  | Some (name, dec) =>
      let (a, e) := dec acc.1 kv.2 in
      (a, match acc.2, e with
          | None, Some (Inner msg) => Some msg
          | None, Some (Mismatch kind ty) =>
              Some ("json: cannot unmarshal " +:+ kind +:+ " into Go struct field "
                    +:+ st_name st +:+ "." +:+ path +:+ name +:+ " of type " +:+ ty)
          | err, _ => err
          end)
  end.

Definition decode_entry {A} (st : struct_type A) := decode_entry_at "" st.

(** A struct in a field: the package of its type and the path to the field. *)
Definition dec_struct {A} (pkg path : string) (st : struct_type A) : field_decoder A := fun old j =>
  match j with
  | JObj kvs => let (a, e) := fold_left (decode_entry_at path st) kvs (old, None) in (a, Inner <$> e)
  | JNull => (old, None)
  | _ => (old, Some (Mismatch (json_kind j) (pkg +:+ st_name st)))
  end.

(** [json.Unmarshal(text, &a)] *)
Definition Unmarshal {A} (st : struct_type A) (t : jtext) (a : A) : A * option string :=
  match t with
  | NotJson _ err => (a, Some err)
  | Text (JObj kvs) => fold_left (decode_entry st) kvs (a, None)
  | Text JNull => (a, None)
  | Text j => (a, Some ("json: cannot unmarshal " +:+ json_kind j +:+ " into Go value of type "
                         +:+ st_name st))
  end.

(** [json.Unmarshal(text, &m)] with [m] a nil [map[string]interface{}], its error ignored: the
    entries of the object, the last one of a repeated key. *)
Definition dedup_keys (kvs : list (string * json)) : list (string * json) :=
  fold_right (fun kv acc => if existsb (fun kv' => String.eqb kv'.1 kv.1) acc
                            then acc else kv :: acc) [] kvs.
Definition unmarshal_map (t : jtext) : list (string * json) :=
  match t with Text (JObj kvs) => dedup_keys kvs | _ => [] end.

(** ** Encoding *)

Definition enc_strings (s : slice string) : json :=
  match s with None => JNull | Some l => JArr (JStr <$> l) end.
Definition enc_bool_map (m : gmap string bool) : json :=
  JObj ((fun kv => (kv.1, JBool kv.2)) <$> map_to_list m).

Lemma dec_elems_strings l : dec_elems (JStr <$> l) = (l, None).
Proof.
  induction l as [|s l IH]; [done|]. rewrite fmap_cons. cbn [dec_elems dec_string]. by rewrite IH.
Qed.

Lemma dec_enc_strings old s : dec_strings old (enc_strings s) = (s, None).
Proof.
  destruct s as [l|]; [|done]. unfold dec_strings, enc_strings. by rewrite dec_elems_strings.
Qed.

Lemma dec_bool_map_fold (kvs : list (string * bool)) (acc : gmap string bool) :
  fold_left dec_bool_entry ((fun kv => (kv.1, JBool kv.2)) <$> kvs) (acc, None)
  = (list_to_map (reverse kvs) ∪ acc, None).
Proof.
  revert acc. induction kvs as [|[k b] kvs IH]; intros acc.
  { rewrite reverse_nil. simpl. by rewrite (left_id_L ∅ _). }
  rewrite fmap_cons. simpl fold_left.
  change (dec_bool_entry (acc, None) (k, JBool b)) with (<[k := b]> acc, @None decode_error).
  rewrite IH, reverse_cons, list_to_map_app. f_equal.
  rewrite <- (assoc_L (∪)). f_equal.
  change (list_to_map [(k, b)] : gmap string bool) with (<[k := b]> (∅ : gmap string bool)).
  by rewrite insert_empty, insert_union_singleton_l.
Qed.

Lemma dec_enc_bool_map m : dec_bool_map ∅ (enc_bool_map m) = (m, None).
Proof.
  unfold dec_bool_map, enc_bool_map. rewrite dec_bool_map_fold, (right_id_L ∅ _).
  f_equal. rewrite <- (list_to_map_to_list m) at 2.
  apply list_to_map_proper; [|by rewrite reverse_Permutation].
  rewrite reverse_Permutation. apply NoDup_fst_map_to_list.
Qed.
