(* ===== verification/GoTime.v ===== *)
(** Package time as the task service uses it: instants, their UnixNano value in an int64, the text
    of an instant ([Time.String] in UTC), and [time.Parse] for the layout with which that text is
    read back; and [strings.Split].  Nothing here models code of the repository.

    An instant is a number of nanoseconds since the start of 1970 in UTC. *)
From stdpp Require Import base list strings.
From Stdlib Require Import ZArith Ascii.
From S2P Require Import Prelude Go.
Open Scope string_scope.
Open Scope Z_scope.

(** ** Fixed-width integers *)

(** Two's complement on [w] bits. *)
Definition wrap_signed (w : Z) (z : Z) : Z :=
  let half := 2 ^ (w - 1) in (half + z) mod (2 * half) - half.
Definition int64 (z : Z) : Z := wrap_signed 64 z.
Definition int32 (z : Z) : Z := wrap_signed 32 z.

Lemma wrap_signed_range w z : 0 < w -> - 2 ^ (w - 1) <= wrap_signed w z < 2 ^ (w - 1).
Proof.
  intros Hw. unfold wrap_signed. cbn zeta.
  assert (0 < 2 ^ (w - 1)) by (apply Z.pow_pos_nonneg; lia). set (h := 2 ^ (w - 1)) in *.
  pose proof (Z.mod_pos_bound (h + z) (2 * h)). lia.
Qed.
Lemma wrap_signed_id w z : 0 < w -> - 2 ^ (w - 1) <= z < 2 ^ (w - 1) -> wrap_signed w z = z.
Proof.
  intros Hw Hz. unfold wrap_signed. cbn zeta. rewrite Z.mod_small by lia. lia.
Qed.

(** ** Instants *)

Definition nano : Z := 1000000000.
(** [time.Time{}]: the first of January of year 1. *)
Definition zero_time : Z := -62135596800 * nano.
Definition UnixNano (t : Z) : Z := int64 t.

(** A date of the proleptic Gregorian calendar. *)
Record date := mkdate { d_year : Z; d_month : Z; d_day : Z }.

(** Days are counted from the first of March of year 0, in eras of 400 years. *)
Definition days_of_date (d : date) : Z :=
  let y := if d_month d <=? 2 then d_year d - 1 else d_year d in
  let mp := if d_month d <=? 2 then d_month d + 9 else d_month d - 3 in
  let yoe := y mod 400 in
  y / 400 * 146097 + (yoe * 365 + yoe / 4 - yoe / 100 + ((153 * mp + 2) / 5 + d_day d - 1)).
Definition date_of_days (z : Z) : date :=
  let doe := z mod 146097 in
  let yoe := (doe - doe / 1460 + doe / 36524 - doe / 146096) / 365 in
  let doy := doe - (365 * yoe + yoe / 4 - yoe / 100) in
  let mp := (5 * doy + 2) / 153 in
  let m := if mp <? 10 then mp + 3 else mp - 9 in
  mkdate (yoe + z / 146097 * 400 + (if m <=? 2 then 1 else 0)) m (doy - (153 * mp + 2) / 5 + 1).
(** From the first of March of year 0 to the start of 1970. *)
Definition epoch_days : Z := 719468.

(** The length of a year of the era, which starts in March. *)
Definition year_length (yoe : Z) : Z :=
  365 + ((yoe + 1) / 4 - yoe / 4) - ((yoe + 1) / 100 - yoe / 100) + (yoe + 1) / 400.

Lemma year_of_era doe (yoe := (doe - doe / 1460 + doe / 36524 - doe / 146096) / 365) :
  0 <= doe < 146097 ->
  0 <= yoe < 400 /\ 0 <= doe - (365 * yoe + yoe / 4 - yoe / 100) < year_length yoe.
Proof.
  intros Hd. subst yoe. unfold year_length.
  assert (Hc : doe / 146096 = 0 \/ doe = 146096) by (Z.to_euclidean_division_equations; lia).
  destruct Hc as [Hc| ->]; [|vm_compute; repeat split; congruence]. rewrite Hc.
  set (y := (doe - doe / 1460 + doe / 36524 - 0) / 365).
  (* the century of the era, in which no rule but that of the fourth year applies *)
  assert (Hb : exists b, doe / 36524 = b /\ (b = 0 \/ b = 1 \/ b = 2 \/ b = 3) /\ y / 100 = b).
  { exists (doe / 36524). subst y. split; [done|]. Z.to_euclidean_division_equations; lia. }
  destruct Hb as (b & Hb & Hcase & Hy). subst y. rewrite Hb in *.
  destruct Hcase as [-> |[-> |[-> | ->]]]; Z.to_euclidean_division_equations; lia.
Qed.

Definition leap (y : Z) : bool := (y mod 4 =? 0) && (negb (y mod 100 =? 0) || (y mod 400 =? 0)).
(** [daysIn] *)
Definition days_in (m y : Z) : Z :=
  if m =? 2 then (if leap y then 29 else 28)
  else if (m =? 4) || (m =? 6) || (m =? 9) || (m =? 11) then 30 else 31.

Definition valid_date (d : date) : Prop :=
  1 <= d_month d <= 12 /\ 1 <= d_day d <= days_in (d_month d) (d_year d).

Lemma year_length_leap yoe e : 0 <= yoe < 400 ->
  year_length yoe = (if leap (yoe + e * 400 + 1) then 366 else 365).
Proof.
  intros Hy. unfold year_length, leap.
  replace (yoe + e * 400 + 1) with ((yoe + 1) + e * 100 * 4) at 1 by lia. rewrite Z.mod_add by lia.
  replace (yoe + e * 400 + 1) with ((yoe + 1) + e * 4 * 100) at 1 by lia. rewrite Z.mod_add by lia.
  replace (yoe + e * 400 + 1) with ((yoe + 1) + e * 400) by lia. rewrite Z.mod_add by lia.
  destruct ((yoe + 1) mod 4 =? 0) eqn:E4, ((yoe + 1) mod 100 =? 0) eqn:E100,
           ((yoe + 1) mod 400 =? 0) eqn:E400; cbn [andb orb negb];
    rewrite ?Z.eqb_eq, ?Z.eqb_neq in *; Z.to_euclidean_division_equations; lia.
Qed.

(** The month and the day within a year that starts in March. *)
Lemma month_of_year doy (mp := (5 * doy + 2) / 153) : 0 <= doy <= 365 ->
  0 <= mp <= 11 /\ 1 <= doy - (153 * mp + 2) / 5 + 1 <=
    (if mp =? 11 then doy - 336 else days_in (if mp <? 10 then mp + 3 else mp - 9) 1).
Proof.
  intros Hd. assert (Hm : 0 <= mp <= 11) by (subst mp; Z.to_euclidean_division_equations; lia).
  split; [done|].
  assert (Hall : mp = 0 \/ mp = 1 \/ mp = 2 \/ mp = 3 \/ mp = 4 \/ mp = 5 \/ mp = 6 \/ mp = 7 \/
                 mp = 8 \/ mp = 9 \/ mp = 10 \/ mp = 11) by lia.
  assert (Hr : 153 * mp <= 5 * doy + 2 < 153 * mp + 153)
    by (subst mp; Z.to_euclidean_division_equations; lia).
  clearbody mp. clear Hm.
  repeat (destruct Hall as [-> |Hall]); try subst mp; cbn [Z.eqb Z.ltb Z.compare Pos.eqb Pos.compare Pos.compare_cont];
    try match goal with |- context [days_in ?m ?y] =>
      let v := eval vm_compute in (days_in m y) in change (days_in m y) with v end;
    Z.to_euclidean_division_equations; lia.
Qed.

Lemma days_in_year m y y' : m <> 2 -> days_in m y = days_in m y'.
Proof. intros Hm. unfold days_in. by rewrite (proj2 (Z.eqb_neq m 2) Hm). Qed.

Lemma date_of_days_valid z : valid_date (date_of_days z).
Proof.
  unfold date_of_days. set (doe := z mod 146097).
  set (yoe := (doe - doe / 1460 + doe / 36524 - doe / 146096) / 365).
  set (doy := doe - (365 * yoe + yoe / 4 - yoe / 100)). set (mp := (5 * doy + 2) / 153).
  assert (Hdoe : 0 <= doe < 146097) by (apply Z.mod_pos_bound; lia).
  destruct (year_of_era doe Hdoe) as [Hy Hdoy]. fold yoe in Hy, Hdoy. fold doy in Hdoy.
  rewrite (year_length_leap yoe (z / 146097) Hy) in Hdoy.
  assert (Hd : 0 <= doy <= 365) by (destruct (leap _); lia).
  destruct (month_of_year doy Hd) as [Hm Hday]. fold mp in Hm, Hday.
  clearbody mp doy yoe doe. unfold valid_date; cbn [d_month d_day d_year].
  destruct (Z.eqb_spec mp 11) as [-> |Hne].
  - change (11 <? 10) with false. change (11 - 9) with 2. change ((153 * 11 + 2) / 5) with 337 in *.
    unfold days_in. cbn [Z.eqb Pos.eqb Z.leb Z.compare] in *. change (2 <=? 2) with true in *.
    change (11 <? 10) with false in *. change (11 - 9) with 2 in *. destruct (leap _); lia.
  - assert (Hm2 : (if mp <? 10 then mp + 3 else mp - 9) <> 2)
      by (destruct (Z.ltb_spec mp 10); lia).
    rewrite (days_in_year _ _ 1 Hm2). split; [destruct (Z.ltb_spec mp 10); lia|lia].
Qed.

Lemma days_of_date_of_days z : days_of_date (date_of_days z) = z.
Proof.
  unfold date_of_days. set (doe := z mod 146097).
  set (yoe := (doe - doe / 1460 + doe / 36524 - doe / 146096) / 365).
  set (doy := doe - (365 * yoe + yoe / 4 - yoe / 100)). set (mp := (5 * doy + 2) / 153).
  assert (Hdoe : 0 <= doe < 146097) by (apply Z.mod_pos_bound; lia).
  destruct (year_of_era doe Hdoe) as [Hy Hdoy]. fold yoe in Hy, Hdoy. fold doy in Hdoy.
  rewrite (year_length_leap yoe 0 Hy) in Hdoy.
  assert (Hd : 0 <= doy <= 365) by (destruct (leap _); lia).
  destruct (month_of_year doy Hd) as [Hm _]. fold mp in Hm.
  pose proof (Z.div_mod z 146097 ltac:(lia)) as Hz. fold doe in Hz.
  assert (Hdoe' : doe = doy + (365 * yoe + yoe / 4 - yoe / 100)) by (subst doy; lia).
  clearbody mp doy yoe doe. unfold days_of_date; cbn [d_month d_day d_year].
  set (e := z / 146097) in *.
  assert (Hmp : forall Y, (if (if mp <? 10 then mp + 3 else mp - 9) <=? 2
                      then yoe + e * 400 + (if (if mp <? 10 then mp + 3 else mp - 9) <=? 2 then 1 else 0) - 1
                      else yoe + e * 400 + (if (if mp <? 10 then mp + 3 else mp - 9) <=? 2 then 1 else 0)) = Y ->
                Y = yoe + e * 400).
  { intros Y <-. repeat case_match; lia. }
  rewrite (Hmp _ eq_refl). clear Hmp.
  replace (if (if mp <? 10 then mp + 3 else mp - 9) <=? 2
           then (if mp <? 10 then mp + 3 else mp - 9) + 9
           else (if mp <? 10 then mp + 3 else mp - 9) - 3) with mp by (repeat case_match; lia).
  rewrite Z.mod_add, Z.div_add, Z.mod_small, Z.div_small by lia. lia.
Qed.

(** ** Numbers in decimal *)

Definition digit (n : Z) : ascii := ascii_of_nat (Z.to_nat (48 + n)).
Definition digit_val (c : ascii) : Z := Z.of_nat (nat_of_ascii c) - 48.
(** The last [w] decimal digits of a number. *)
Fixpoint pad (w : nat) (n : Z) : string :=
  match w with
  | O => ""
  | S w' => pad w' (n / 10) +:+ String (digit (n mod 10)) ""
  end.
(** [atoi] of a text without a sign. *)
Fixpoint atoi_go (acc : Z) (s : string) : option Z :=
  match s with
  | EmptyString => Some acc
  | String c s' => if is_digit c then atoi_go (acc * 10 + digit_val c) s' else None
  end.
Definition atoi (s : string) : option Z :=
  match s with EmptyString => None | _ => atoi_go 0 s end.

Lemma digit_spec n : 0 <= n < 10 ->
  is_digit (digit n) = true /\ digit_val (digit n) = n /\ digit n <> ":"%char /\
  digit n <> "."%char /\ digit n <> " "%char.
Proof.
  intros Hn. rewrite <- (Z2Nat.id n) by lia. assert (Hk : (Z.to_nat n < 10)%nat) by lia. revert Hk.
  generalize (Z.to_nat n). intros k Hk. do 10 (destruct k as [|k]; [by repeat split|]). lia.
Qed.
Lemma atoi_go_app acc s t : atoi_go acc (s +:+ t) =
  match atoi_go acc s with Some n => atoi_go n t | None => None end.
Proof.
  revert acc. induction s as [|c s IH]; intros acc; [done|].
  change (String c s +:+ t) with (String c (s +:+ t)). cbn. by destruct (is_digit c).
Qed.
Lemma atoi_go_pad w n acc : 0 <= n < 10 ^ Z.of_nat w ->
  atoi_go acc (pad w n) = Some (acc * 10 ^ Z.of_nat w + n).
Proof.
  revert n acc. induction w as [|w IH]; intros n acc Hn.
  - change (10 ^ Z.of_nat 0) with 1 in *. cbn. f_equal. lia.
  - cbn [pad]. replace (Z.of_nat (S w)) with (Z.succ (Z.of_nat w)) in * by lia.
    rewrite Z.pow_succ_r in * by lia. rewrite atoi_go_app, IH by (Z.to_euclidean_division_equations; lia).
    destruct (digit_spec (n mod 10)) as (Hd & Hv & _); [apply Z.mod_pos_bound; lia|].
    cbn. rewrite Hd, Hv. f_equal. pose proof (Z.div_mod n 10). lia.
Qed.
Lemma length_append (s t : string) : String.length (s +:+ t) = (String.length s + String.length t)%nat.
Proof.
  induction s as [|c s IH]; [done|].
  change (S (String.length (s +:+ t)) = S (String.length s + String.length t)). by rewrite IH.
Qed.
Lemma length_pad w n : String.length (pad w n) = w.
Proof.
  revert n. induction w as [|w IH]; intros n; [done|]. cbn [pad].
  rewrite length_append, IH. cbn. lia.
Qed.
Lemma pad_digits w n : string_forall is_digit (pad w n) = true.
Proof.
  revert n. induction w as [|w IH]; intros n; [done|]. cbn [pad].
  rewrite string_forall_app, IH. cbn.
  destruct (digit_spec (n mod 10)) as (-> & _); [apply Z.mod_pos_bound; lia|done].
Qed.

(** ** [Time.String] in UTC: layout 2006-01-02 15:04:05.999999999 -0700 MST *)

(** The digits of a fraction without the zeros at the end. *)
Fixpoint trim_zeros (s : string) : string :=
  match s with
  | EmptyString => EmptyString
  | String c s' =>
      match trim_zeros s' with
      | EmptyString => if Ascii.eqb c "0"%char then EmptyString else String c EmptyString
      | r => String c r
      end
  end.
Definition fraction (n : Z) : string :=
  if n =? 0 then "" else "." +:+ trim_zeros (pad 9 n).

(** Years are printed with four digits. *)
Definition time_string (t : Z) : string :=
  let secs := t / nano in
  let d := date_of_days (secs / 86400 + epoch_days) in
  let s := secs mod 86400 in
  pad 4 (d_year d) +:+ "-" +:+ pad 2 (d_month d) +:+ "-" +:+ pad 2 (d_day d) +:+ " "
  +:+ pad 2 (s / 3600) +:+ ":" +:+ pad 2 (s / 60 mod 60) +:+ ":" +:+ pad 2 (s mod 60)
  +:+ fraction (t mod nano) +:+ " +0000 UTC".

(** [t.Format(http.TimeFormat)] and [t.Format(time.RFC3339)], in UTC. *)
Definition clock_text (s : Z) : string :=
  pad 2 (s / 3600) +:+ ":" +:+ pad 2 (s / 60 mod 60) +:+ ":" +:+ pad 2 (s mod 60).
Definition http_time (t : Z) : string :=
  let secs := t / nano in
  let d := date_of_days (secs / 86400 + epoch_days) in
  nth (Z.to_nat ((secs / 86400 + 4) mod 7)) ["Sun"; "Mon"; "Tue"; "Wed"; "Thu"; "Fri"; "Sat"] ""
  +:+ ", " +:+ pad 2 (d_day d) +:+ " "
  +:+ nth (Z.to_nat (d_month d - 1))
        ["Jan"; "Feb"; "Mar"; "Apr"; "May"; "Jun"; "Jul"; "Aug"; "Sep"; "Oct"; "Nov"; "Dec"] ""
  +:+ " " +:+ pad 4 (d_year d) +:+ " " +:+ clock_text (secs mod 86400) +:+ " GMT".
Definition rfc3339 (t : Z) : string :=
  let secs := t / nano in
  let d := date_of_days (secs / 86400 + epoch_days) in
  pad 4 (d_year d) +:+ "-" +:+ pad 2 (d_month d) +:+ "-" +:+ pad 2 (d_day d) +:+ "T"
  +:+ clock_text (secs mod 86400) +:+ "Z".
(** 2006-01-02 15:04:05 was a Monday. *)
Example http_time_layout : http_time (1136214245 * nano) = "Mon, 02 Jan 2006 15:04:05 GMT".
Proof. vm_compute. reflexivity. Qed.

(** ** [time.Parse] with the layout 2006-01-02 15:04:05 +0000 UTC

    In this layout the zone is plain text; a fraction after the seconds is accepted although the
    layout has none. *)

(** [cutspace] and [skip] *)
Fixpoint cutspace (s : string) : string :=
  match s with String " " s' => cutspace s' | _ => s end.
Fixpoint skip (fuel : nat) (value prefix : string) : option string :=
  match fuel with
  | O => None
  | S fuel' =>
      match prefix with
      | EmptyString => Some value
      | String " " _ =>
          match value with
          | EmptyString => skip fuel' "" (cutspace prefix)
          | String " " _ => skip fuel' (cutspace value) (cutspace prefix)
          | _ => None
          end
      | String p prefix' =>
          match value with
          | String v value' => if Ascii.eqb v p then skip fuel' value' prefix' else None
          | EmptyString => None
          end
      end
  end.
Definition skip_text (prefix value : string) : option string :=
  skip (S (String.length prefix)) value prefix.

(** [getnum] *)
Definition getnum (fixed : bool) (s : string) : option (Z * string) :=
  match s with
  | String a s' =>
      if is_digit a then
        match s' with
        | String b s'' =>
            if is_digit b then Some (digit_val a * 10 + digit_val b, s'')
            else if fixed then None else Some (digit_val a, s')
        | EmptyString => if fixed then None else Some (digit_val a, s')
        end
      else None
  | EmptyString => None
  end.
Definition year4 (s : string) : option (Z * string) :=
  match s with
  | String a (String b (String c (String d s'))) =>
      match atoi (String a (String b (String c (String d "")))) with
      | Some n => Some (n, s')
      | None => None
      end
  | _ => None
  end.

(** The leading digits of a text, and what follows them. *)
Fixpoint span_digits (s : string) : string * string :=
  match s with
  | String c s' => if is_digit c then let (d, r) := span_digits s' in (String c d, r) else ("", s)
  | EmptyString => ("", "")
  end.
(** The fraction, when the text has one here: its value in nanoseconds. *)
Definition get_fraction (s : string) : option (Z * string) :=
  match s with
  | String c (String d s') =>
      if (Ascii.eqb c "."%char || Ascii.eqb c ","%char) && is_digit d then
        let (ds, r) := span_digits (String d s') in
        match atoi ds with
        | Some ns => if ns <? nano
                     then Some (ns * 10 ^ Z.max 0 (9 - Z.of_nat (String.length ds)), r) else None
        | None => None
        end
      else Some (0, s)
  | _ => Some (0, s)
  end.
Definition in_range (lo hi : Z) (x : option (Z * string)) : option (Z * string) :=
  match x with
  | Some (n, s) => if (lo <=? n) && (n <=? hi) then Some (n, s) else None
  | None => None
  end.
Definition and_then {A} (x : option (Z * string)) (text : string) (k : Z -> string -> option A)
  : option A :=
  match x with
  | Some (n, s) => match skip_text text s with Some s' => k n s' | None => None end
  | None => None
  end.
Definition time_parse (s : string) : option Z :=
  and_then (year4 s) "-" (fun y s =>
  and_then (in_range 1 12 (getnum true s)) "-" (fun mo s =>
  and_then (getnum true s) " " (fun d s =>
  and_then (in_range 0 23 (getnum false s)) ":" (fun h s =>
  and_then (in_range 0 59 (getnum true s)) ":" (fun mi s =>
  match in_range 0 59 (getnum true s) with
  | Some (sec, s) =>
      and_then (get_fraction s) " +0000 UTC" (fun ns s =>
        if String.eqb s "" && (1 <=? d) && (d <=? days_in mo y)
        then Some (((days_of_date (mkdate y mo d) - epoch_days) * 86400 + h * 3600 + mi * 60 + sec)
                     * nano + ns)
        else None)
  | None => None
  end))))).

(** ** The text of an instant is read back as that instant *)

Lemma getnum_pad b n r : 0 <= n < 100 -> getnum b (pad 2 n +:+ r) = Some (n, r).
Proof.
  intros Hn. change (getnum b (String (digit (n / 10 mod 10)) (String (digit (n mod 10)) r)) = Some (n, r)).
  destruct (digit_spec (n / 10 mod 10)) as (Ha & Hva & _); [apply Z.mod_pos_bound; lia|].
  destruct (digit_spec (n mod 10)) as (Hb & Hvb & _); [apply Z.mod_pos_bound; lia|].
  cbn [getnum]. rewrite Ha, Hb, Hva, Hvb. do 2 f_equal. Z.to_euclidean_division_equations; lia.
Qed.
Lemma year4_pad n r : 0 <= n < 10000 -> year4 (pad 4 n +:+ r) = Some (n, r).
Proof.
  intros Hn. pose proof (atoi_go_pad 4 n 0 Hn) as Ha.
  change (match atoi (pad 4 n) with Some k => Some (k, r) | None => None end = Some (n, r)).
  change (atoi (pad 4 n)) with (atoi_go 0 (pad 4 n)). by rewrite Ha.
Qed.
Lemma in_range_pad lo hi b n r : 0 <= n < 100 -> lo <= n <= hi ->
  in_range lo hi (getnum b (pad 2 n +:+ r)) = Some (n, r).
Proof.
  intros Hn Hr. rewrite getnum_pad by done. unfold in_range.
  by rewrite (proj2 (Z.leb_le lo n)), (proj2 (Z.leb_le n hi)) by lia.
Qed.
Lemma skip_space_pad w n r : skip_text " " (" " +:+ pad (S w) n +:+ r) = Some (pad (S w) n +:+ r).
Proof.
  enough (exists c s, pad (S w) n = String c s /\ c <> " "%char) as (c & s & E & Hc).
  { rewrite E. change (" " +:+ String c s +:+ r) with (String " " (String c (s +:+ r))).
    change (String c s +:+ r) with (String c (s +:+ r)).
    cbn [skip_text skip String.length cutspace]. destruct c as [[] [] [] [] [] [] [] []]; done. }
  clear. revert n. induction w as [|w IH]; intros n.
  - exists (digit (n mod 10)), "". split; [done|]. apply digit_spec, Z.mod_pos_bound. lia.
  - destruct (IH (n / 10)) as (c & s & E & Hc). cbn [pad] in *. rewrite E.
    by exists c, (s +:+ String (digit (n mod 10)) "").
Qed.

Fixpoint zeros (k : nat) : string := match k with O => "" | S k' => String "0" (zeros k') end.
Lemma trim_zeros_spec s : exists k, s = trim_zeros s +:+ zeros k.
Proof.
  induction s as [|c s [k IH]]; [by exists 0%nat|]. cbn [trim_zeros].
  destruct (trim_zeros s) as [|d r].
  - destruct (Ascii.eqb_spec c "0"%char) as [-> |Hc].
    + exists (S k). change ("" +:+ zeros k) with (zeros k) in IH. cbn. by rewrite IH at 1.
    + exists k. rewrite IH at 1. done.
  - exists k. rewrite IH at 1. done.
Qed.
Lemma atoi_go_zeros k acc : atoi_go acc (zeros k) = Some (acc * 10 ^ Z.of_nat k).
Proof.
  revert acc. induction k as [|k IH]; intros acc; [change (Some acc = Some (acc * 1)); f_equal; lia|].
  cbn [zeros atoi_go]. change (is_digit "0") with true. change (digit_val "0") with 0. rewrite IH.
  replace (Z.of_nat (S k)) with (Z.succ (Z.of_nat k)) by lia. rewrite Z.pow_succ_r by lia. f_equal. lia.
Qed.
Lemma length_zeros k : String.length (zeros k) = k.
Proof. induction k as [|k IH]; [done|]. cbn. by rewrite IH. Qed.
Lemma span_digits_app s c r : string_forall is_digit s = true -> is_digit c = false ->
  span_digits (s +:+ String c r) = (s, String c r).
Proof.
  intros Hs Hc. induction s as [|d s IH].
  { change ("" +:+ String c r) with (String c r). cbn [span_digits]. by rewrite Hc. }
  cbn in Hs. apply andb_true_iff in Hs as [Hd Hs].
  change (String d s +:+ String c r) with (String d (s +:+ String c r)).
  cbn [span_digits]. by rewrite Hd, IH.
Qed.

Lemma get_fraction_spec n r : 0 <= n < nano ->
  get_fraction (fraction n +:+ String " " r) = Some (n, String " " r).
Proof.
  intros Hn. unfold fraction. destruct (Z.eqb_spec n 0) as [-> |Hne]; [by destruct r|].
  destruct (trim_zeros_spec (pad 9 n)) as [k Hk].
  pose proof (atoi_go_pad 9 n 0 Hn) as Ha. rewrite Hk, atoi_go_app in Ha.
  pose proof (pad_digits 9 n) as Hd. rewrite Hk, string_forall_app in Hd.
  apply andb_true_iff in Hd as [Hd _].
  pose proof (length_pad 9 n) as Hl. rewrite Hk, length_append, length_zeros in Hl.
  destruct (trim_zeros (pad 9 n)) as [|d ds] eqn:Et.
  { cbn in Ha. rewrite atoi_go_zeros in Ha. cbn in Ha. injection Ha. lia. }
  change (("." +:+ String d ds) +:+ String " " r) with (String "." (String d (ds +:+ String " " r))).
  pose proof Hd as Hd'. cbn [string_forall] in Hd'. apply andb_true_iff in Hd' as [Hd1 _].
  unfold get_fraction. rewrite Hd1. cbn [Ascii.eqb Bool.eqb orb andb].
  change (String d (ds +:+ String " " r)) with (String d ds +:+ String " " r).
  rewrite span_digits_app by done.
  change (atoi (String d ds)) with (atoi_go 0 (String d ds)).
  destruct (atoi_go 0 (String d ds)) as [m|] eqn:Em; [|done].
  rewrite atoi_go_zeros in Ha. injection Ha as Ha.
  assert (Hp : 0 < 10 ^ Z.of_nat k) by (apply Z.pow_pos_nonneg; lia).
  rewrite (proj2 (Z.ltb_lt m nano)) by nia.
  replace (Z.max 0 (9 - Z.of_nat (String.length (String d ds)))) with (Z.of_nat k) by lia.
  do 2 f_equal. lia.
Qed.

Definition year_of (t : Z) : Z := d_year (date_of_days (t / nano / 86400 + epoch_days)).

Lemma and_then_some {A} n s text s' (k : Z -> string -> option A) :
  skip_text text s = Some s' -> and_then (Some (n, s)) text k = k n s'.
Proof. intros Hs. unfold and_then. by rewrite Hs. Qed.
Lemma skip_dash r : skip_text "-" ("-" +:+ r) = Some r.
Proof. done. Qed.
Lemma skip_colon r : skip_text ":" (":" +:+ r) = Some r.
Proof. done. Qed.

Lemma time_parse_string t : 0 <= year_of t < 10000 -> time_parse (time_string t) = Some t.
Proof.
  unfold year_of. intros Hy. unfold time_parse, time_string.
  set (secs := t / nano) in *. set (dt := date_of_days (secs / 86400 + epoch_days)) in *.
  set (s := secs mod 86400).
  destruct (date_of_days_valid (secs / 86400 + epoch_days)) as [Hm Hd]. fold dt in Hm, Hd.
  assert (Hd31 : days_in (d_month dt) (d_year dt) <= 31)
    by (unfold days_in; repeat case_match; lia).
  assert (Hs : 0 <= s < 86400) by (apply Z.mod_pos_bound; lia).
  assert (Hh : 0 <= s / 3600 <= 23) by (Z.to_euclidean_division_equations; lia).
  assert (Hmi : 0 <= s / 60 mod 60 <= 59) by (Z.to_euclidean_division_equations; lia).
  assert (Hse : 0 <= s mod 60 <= 59) by (Z.to_euclidean_division_equations; lia).
  rewrite year4_pad by done. rewrite (and_then_some _ _ _ _ _ (skip_dash _)).
  rewrite in_range_pad by lia. rewrite (and_then_some _ _ _ _ _ (skip_dash _)).
  rewrite getnum_pad by lia. rewrite (and_then_some _ _ _ _ _ (skip_space_pad 1 _ _)).
  rewrite in_range_pad by lia. rewrite (and_then_some _ _ _ _ _ (skip_colon _)).
  rewrite in_range_pad by lia. rewrite (and_then_some _ _ _ _ _ (skip_colon _)).
  rewrite in_range_pad by lia.
  rewrite (get_fraction_spec (t mod nano) "+0000 UTC") by (apply Z.mod_pos_bound; done).
  rewrite (and_then_some _ " +0000 UTC" " +0000 UTC" "" _ eq_refl).
  rewrite (proj2 (Z.leb_le 1 (d_day dt))), (proj2 (Z.leb_le (d_day dt) _)) by lia.
  change (String.eqb "" "" && true && true) with true. cbn [andb].
  f_equal. destruct dt as [y m d] eqn:Edt. cbn [d_year d_month d_day]. rewrite <- Edt.
  subst dt. rewrite days_of_date_of_days.
  pose proof (Z.div_mod t nano ltac:(done)). pose proof (Z.div_mod secs 86400 ltac:(done)).
  fold s in H0. fold secs in H. clearbody s secs.
  assert (s = s / 3600 * 3600 + s / 60 mod 60 * 60 + s mod 60)
    by (Z.to_euclidean_division_equations; lia).
  lia.
Qed.

(** ** [strings.Split], for a separator that is not empty *)

(** [k] characters of a separator are still to be passed over. *)
Fixpoint split_go (k : nat) (s sep : string) : list string :=
  match s with
  | EmptyString => [""]
  | String c s' =>
      match k with
      | S k' => split_go k' s' sep
      | O =>
          if HasPrefix s sep then "" :: split_go (String.length sep - 1) s' sep
          else match split_go 0 s' sep with
               | h :: t => String c h :: t
               | [] => [String c ""]
               end
      end
  end.
Definition Split (s sep : string) : list string := split_go 0 s sep.

(** [slice[i]] of a slice of strings: out of range panics. *)
Definition index {A} (l : list A) (i : nat) : outcome A :=
  match l !! i with Some x => Ok x | None => Panic end.

Definition no_char (c : ascii) (s : string) : bool := string_forall (fun d => negb (Ascii.eqb d c)) s.

Lemma split_go_cons c s' sep :
  split_go 0 (String c s') sep =
  if HasPrefix (String c s') sep then "" :: split_go (String.length sep - 1) s' sep
  else match split_go 0 s' sep with h :: t => String c h :: t | [] => [String c ""] end.
Proof. done. Qed.
Lemma HasPrefix_cons c s d p : HasPrefix (String c s) (String d p) = Ascii.eqb c d && HasPrefix s p.
Proof.
  unfold HasPrefix. cbn [String.prefix]. destruct (Ascii.ascii_dec d c) as [-> |Hne].
  - by rewrite Ascii.eqb_refl.
  - rewrite (proj2 (Ascii.eqb_neq c d)); [done|congruence].
Qed.
Lemma HasPrefix_nil s : HasPrefix s "" = true.
Proof. by destruct s. Qed.
Lemma prefix_char c d s : HasPrefix (String d s) (String c "") = Ascii.eqb d c.
Proof. by rewrite HasPrefix_cons, HasPrefix_nil, andb_true_r. Qed.
Lemma split_go_nonempty k s sep : split_go k s sep <> [].
Proof.
  revert k. induction s as [|c s IH]; intros k; [done|].
  destruct k; [|apply IH]. rewrite split_go_cons. destruct (HasPrefix _ _); [done|].
  by destruct (split_go 0 s sep).
Qed.

(** A separator of one character. *)
Lemma Split_char a b c : Split (a +:+ String c b) (String c "") =
  (Split a (String c "") ++ Split b (String c ""))%list.
Proof.
  unfold Split. induction a as [|d a IH].
  - change ("" +:+ String c b) with (String c b). rewrite split_go_cons, prefix_char, Ascii.eqb_refl. done.
  - change (String d a +:+ String c b) with (String d (a +:+ String c b)).
    rewrite !split_go_cons, !prefix_char. destruct (Ascii.eqb d c); cbn [String.length Nat.sub app].
    + by rewrite IH.
    + rewrite IH. by destruct (split_go 0 a (String c "")) eqn:E; [apply split_go_nonempty in E|].
Qed.
Lemma Split_none s c : no_char c s = true -> Split s (String c "") = [s].
Proof.
  unfold Split. induction s as [|d s IH]; [done|]. unfold no_char. cbn [string_forall].
  rewrite andb_true_iff, negb_true_iff. intros [Hd Hs].
  rewrite split_go_cons, prefix_char, Hd. by rewrite (IH Hs).
Qed.

(** The separator of the index of completed tasks. *)
Definition colon_ok (s : string) : bool := negb (Contains (s +:+ ":") "::").

Lemma colon_ok_cons c s : c <> ":"%char -> colon_ok (String c s) = colon_ok s.
Proof.
  intros Hc. unfold colon_ok. change (String c s +:+ ":") with (String c (s +:+ ":")).
  cbn [Contains]. enough (HasPrefix (String c (s +:+ ":")) "::" = false) as -> by done.
  rewrite HasPrefix_cons. by rewrite (proj2 (Ascii.eqb_neq c ":"%char)).
Qed.
Lemma colon_ok_colon d s : d <> ":"%char -> colon_ok (String ":" (String d s)) = colon_ok (String d s).
Proof.
  intros Hd. unfold colon_ok.
  change (String ":" (String d s) +:+ ":") with (String ":" (String d (s +:+ ":"))).
  change (String d s +:+ ":") with (String d (s +:+ ":")).
  change (Contains (String ":" (String d (s +:+ ":"))) "::")
    with (HasPrefix (String ":" (String d (s +:+ ":"))) "::" || Contains (String d (s +:+ ":")) "::").
  enough (HasPrefix (String ":" (String d (s +:+ ":"))) "::" = false) as -> by done.
  rewrite !HasPrefix_cons. by rewrite (proj2 (Ascii.eqb_neq d ":"%char)).
Qed.
Lemma colon_ok_app x s : no_char ":" x = true -> colon_ok (x +:+ s) = colon_ok s.
Proof.
  unfold no_char. induction x as [|c x IH]; [done|]. cbn [string_forall].
  rewrite andb_true_iff, negb_true_iff, Ascii.eqb_neq. intros [Hc Hx].
  change (String c x +:+ s) with (String c (x +:+ s)). rewrite colon_ok_cons by done. auto.
Qed.
Lemma no_char_pad w n : no_char ":" (pad w n) = true.
Proof.
  pose proof (pad_digits w n) as Hd. unfold no_char. revert Hd.
  induction (pad w n) as [|c s IH]; [done|]. cbn [string_forall]. rewrite !andb_true_iff.
  intros [Hc Hs]. split; [|auto]. destruct (Ascii.eqb_spec c ":"%char); [by subst|done].
Qed.
Lemma colon_ok_pad w n s : colon_ok (pad w n +:+ s) = colon_ok s.
Proof. apply colon_ok_app, no_char_pad. Qed.
Lemma colon_ok_colon_pad w n s : colon_ok (":" +:+ pad (S w) n +:+ s) = colon_ok s.
Proof.
  rewrite <- (colon_ok_pad (S w) n s). pose proof (no_char_pad (S w) n) as Hn.
  pose proof (length_pad (S w) n) as Hl. destruct (pad (S w) n) as [|d r]; [done|].
  unfold no_char in Hn. cbn [string_forall] in Hn. apply andb_true_iff in Hn as [Hd _].
  rewrite negb_true_iff, Ascii.eqb_neq in Hd.
  change (":" +:+ String d r +:+ s) with (String ":" (String d (r +:+ s))).
  change (String d r +:+ s) with (String d (r +:+ s)). by apply colon_ok_colon.
Qed.

Lemma Split_colons a b : colon_ok a = true -> Split (a +:+ "::" +:+ b) "::" = a :: Split b "::".
Proof.
  unfold Split. induction a as [|c a IH]; intros Ha.
  { change ("" +:+ "::" +:+ b) with (String ":" (String ":" b)).
    by rewrite split_go_cons, !HasPrefix_cons, HasPrefix_nil. }
  change (String c a +:+ "::" +:+ b) with (String c (a +:+ "::" +:+ b)). rewrite split_go_cons.
  assert (Hc : colon_ok a = true /\ HasPrefix (String c (a +:+ "::" +:+ b)) "::" = false).
  { unfold colon_ok in *. rewrite negb_true_iff in *.
    change (String c a +:+ ":") with (String c (a +:+ ":")) in Ha. cbn [Contains] in Ha.
    apply orb_false_iff in Ha as [Hp Ha]. split; [done|].
    destruct a as [|d a].
    { change ("" +:+ ":") with ":" in Hp. change ("" +:+ "::" +:+ b) with (String ":" (String ":" b)).
      change "::" with (String ":" (String ":" "")) in *. rewrite !HasPrefix_cons, ?HasPrefix_nil in *.
      exact Hp. }
    change (String d a +:+ ":") with (String d (a +:+ ":")) in Hp.
    change (String d a +:+ "::" +:+ b) with (String d (a +:+ "::" +:+ b)).
    by rewrite !HasPrefix_cons, !HasPrefix_nil in *. }
  destruct Hc as [Ha' ->]. by rewrite (IH Ha').
Qed.

Lemma no_char_fraction n : no_char ":" (fraction n) = true.
Proof.
  unfold fraction. destruct (n =? 0); [done|].
  destruct (trim_zeros_spec (pad 9 n)) as [k Hk]. pose proof (no_char_pad 9 n) as Hp.
  unfold no_char in *. rewrite Hk, string_forall_app, andb_true_iff in Hp.
  rewrite string_forall_app, (proj1 Hp). done.
Qed.
Lemma colon_ok_time_string t : colon_ok (time_string t) = true.
Proof.
  assert (Hc : forall c s, c <> ":"%char -> colon_ok (String c "" +:+ s) = colon_ok s)
    by (intros; by apply colon_ok_cons).
  unfold time_string. rewrite colon_ok_pad, Hc, colon_ok_pad, Hc, colon_ok_pad, Hc, colon_ok_pad by done.
  rewrite !colon_ok_colon_pad. by rewrite colon_ok_app by apply no_char_fraction.
Qed.
