(* ===== verification/GoCodec.v ===== *)
(** More of encoding/json and encoding/base64: byte slices, maps of strings, 32-bit numbers and
    slices of pointers to structs.  As [Go], nothing here models code of the repository. *)
From stdpp Require Import base gmap list strings pretty.
From Stdlib Require Import Ascii.
From S2P Require Import Prelude Go GoTime.
Open Scope string_scope.

(** ** base64.StdEncoding *)

Definition std_char (n : nat) : ascii :=
  if (n <? 26)%nat then ascii_of_nat (65 + n)
  else if (n <? 52)%nat then ascii_of_nat (71 + n)
  else if (n <? 62)%nat then ascii_of_nat (n - 4)
  else if (n =? 62)%nat then "+"%char else "/"%char.
(** The decode map: 0xff is [None]. *)
Definition std_val (c : ascii) : option nat :=
  let n := nat_of_ascii c in
  if is_upper c then Some (n - 65)%nat
  else if is_lower c then Some (n - 71)%nat
  else if is_digit c then Some (n + 4)%nat
  else if Ascii.eqb c "+" then Some 62%nat
  else if Ascii.eqb c "/" then Some 63%nat
  else None.

Fixpoint EncodeToString (s : string) : string :=
  match s with
  | EmptyString => ""
  | String a EmptyString =>
      let x := nat_of_ascii a in
      String (std_char (x / 4)) (String (std_char (x mod 4 * 16)) "==")
  | String a (String b EmptyString) =>
      let x := nat_of_ascii a in let y := nat_of_ascii b in
      String (std_char (x / 4)) (String (std_char (x mod 4 * 16 + y / 16))
        (String (std_char (y mod 16 * 4)) "="))
  | String a (String b (String c r)) =>
      let x := nat_of_ascii a in let y := nat_of_ascii b in let z := nat_of_ascii c in
      String (std_char (x / 4)) (String (std_char (x mod 4 * 16 + y / 16))
        (String (std_char (y mod 16 * 4 + z / 64)) (String (std_char (z mod 64)) (EncodeToString r))))
  end.

(** The bytes of the sextets of a quantum, of which there are two to four. *)
Definition quantum (q : list nat) : string :=
  match q with
  | [a; b] => String (ascii_of_nat (a * 4 + b / 16)) ""
  | [a; b; c] =>
      String (ascii_of_nat (a * 4 + b / 16)) (String (ascii_of_nat (b mod 16 * 16 + c / 4)) "")
  | [a; b; c; d] =>
      String (ascii_of_nat (a * 4 + b / 16)) (String (ascii_of_nat (b mod 16 * 16 + c / 4))
        (String (ascii_of_nat (c mod 4 * 64 + d)) ""))
  | _ => ""
  end.

Definition newline (c : ascii) : bool := Ascii.eqb c "010" || Ascii.eqb c "013".
Fixpoint skip_newlines (si : nat) (s : string) : nat * string :=
  match s with
  | String c s' => if newline c then skip_newlines (S si) s' else (si, s)
  | EmptyString => (si, s)
  end.

(** [decodeQuantum] on the rest of the source from offset [si], with the sextets [q] of the current
    quantum: the bytes, or the offset of the corrupt input. *)
Definition padded (si : nat) (s : string) (q : list nat) : nat + string :=
  match skip_newlines si s with
  | (_, EmptyString) => inr (quantum q)
  | (si, _) => inl si   (* trailing garbage *)
  end.
Fixpoint decode_go (si : nat) (q : list nat) (s : string) : nat + string :=
  match s with
  | EmptyString => match q with [] => inr "" | _ => inl (si - length q)%nat end
  | String c s' =>
      match std_val c with
      | Some v =>
          match q with
          | [a; b; d] =>
              match decode_go (S si) [] s' with
              | inl e => inl e
              | inr r => inr (quantum [a; b; d; v] +:+ r)
              end
          | _ => decode_go (S si) (q ++ [v])%list s'
          end
      | None =>
          if newline c then decode_go (S si) q s'
          else if negb (Ascii.eqb c "=") then inl si
          else match length q with
               | 0%nat | 1%nat => inl si
               | 2%nat =>
                   match skip_newlines (S si) s' with
                   | (si, EmptyString) => inl si
                   | (si, String c s') =>
                       if Ascii.eqb c "=" then padded (S si) s' q else inl (si - 1)%nat
                   end
               | _ => padded (S si) s' q
               end
      end
  end.
Definition DecodeString (s : string) : nat + string := decode_go 0 [] s.

Lemma std_val_char n : (n < 64)%nat -> std_val (std_char n) = Some n.
Proof. intros Hn. do 64 (destruct n as [|n]; [reflexivity|]). lia. Qed.
Lemma std_val_pad : std_val "=" = None.
Proof. reflexivity. Qed.

Lemma byte_bound c : (nat_of_ascii c < 256)%nat.
Proof. apply nat_ascii_bounded. Qed.

Lemma mod_low a b n : (b < n)%nat -> ((a * n + b) mod n)%nat = b.
Proof. intros Hb. rewrite Nat.add_comm, Nat.Div0.mod_add. by apply Nat.mod_small. Qed.
(** Every byte is put together again from its sextets. *)
Lemma byte1 x y k : (y < 16)%nat -> k = (x mod 4 * 16 + y)%nat -> (x / 4 * 4 + k / 16)%nat = x.
Proof. intros Hy ->. rewrite Nat.div_add_l, (Nat.div_small y) by lia. pose proof (Nat.div_mod_eq x 4). lia. Qed.
Lemma byte2 x y z k l : (z < 4)%nat -> k = (x mod 4 * 16 + y / 16)%nat -> l = (y mod 16 * 4 + z)%nat -> (y < 256)%nat ->
  (k mod 16 * 16 + l / 4)%nat = y.
Proof.
  intros Hz -> -> Hy. assert (Hq : (y / 16 < 16)%nat) by (apply Nat.Div0.div_lt_upper_bound; lia).
  rewrite mod_low by lia.
  rewrite Nat.div_add_l, (Nat.div_small z) by lia. pose proof (Nat.div_mod_eq y 16). lia.
Qed.
Lemma byte3 y z l : l = (y mod 16 * 4 + z / 64)%nat -> (z < 256)%nat -> (l mod 4 * 64 + z mod 64)%nat = z.
Proof.
  intros -> Hz. assert (Hq : (z / 64 < 4)%nat) by (apply Nat.Div0.div_lt_upper_bound; lia).
  rewrite mod_low by lia.
  pose proof (Nat.div_mod_eq z 64). lia.
Qed.

Lemma decode_encode_go s : forall si, decode_go si [] (EncodeToString s) = inr s.
Proof.
  assert (Hind : forall n s, (String.length s <= n)%nat -> forall si, decode_go si [] (EncodeToString s) = inr s).
  { clear s. induction n as [|n IH]; intros s Hn si; [by destruct s; [|cbn in Hn; lia]|].
    destruct s as [|a [|b [|c r]]]; [done|..].
    - pose proof (byte_bound a). cbn [EncodeToString decode_go app length].
      rewrite !std_val_char by
        first [apply Nat.Div0.div_lt_upper_bound; lia | pose proof (Nat.mod_upper_bound (nat_of_ascii a) 4); lia].
      cbn [app length]. rewrite std_val_pad. cbn -[Nat.div Nat.modulo].
      rewrite (byte1 _ 0) by lia. by rewrite ascii_nat_embedding.
    - pose proof (byte_bound a). pose proof (byte_bound b). cbn [EncodeToString decode_go].
      assert (nat_of_ascii b / 16 < 16)%nat by (apply Nat.Div0.div_lt_upper_bound; lia).
      rewrite std_val_char by (apply Nat.Div0.div_lt_upper_bound; lia). cbn [app decode_go].
      rewrite std_val_char by (pose proof (Nat.mod_upper_bound (nat_of_ascii a) 4); lia). cbn [app decode_go].
      rewrite std_val_char by (pose proof (Nat.mod_upper_bound (nat_of_ascii b) 16); lia).
      cbn [app length]. rewrite std_val_pad. cbn -[Nat.div Nat.modulo].
      rewrite (byte1 _ (nat_of_ascii b / 16)), (byte2 (nat_of_ascii a) (nat_of_ascii b) 0) by lia.
      by rewrite !ascii_nat_embedding.
    - pose proof (byte_bound a). pose proof (byte_bound b). pose proof (byte_bound c). cbn [EncodeToString decode_go].
      assert (nat_of_ascii b / 16 < 16)%nat by (apply Nat.Div0.div_lt_upper_bound; lia).
      assert (nat_of_ascii c / 64 < 4)%nat by (apply Nat.Div0.div_lt_upper_bound; lia).
      rewrite std_val_char by (apply Nat.Div0.div_lt_upper_bound; lia). cbn [app decode_go].
      rewrite std_val_char by (pose proof (Nat.mod_upper_bound (nat_of_ascii a) 4); lia). cbn [app decode_go].
      rewrite std_val_char by (pose proof (Nat.mod_upper_bound (nat_of_ascii b) 16); lia). cbn [app decode_go].
      rewrite std_val_char by (apply Nat.mod_upper_bound; lia).
      rewrite IH by (cbn in Hn; lia). unfold quantum.
      rewrite (byte1 _ (nat_of_ascii b / 16)), (byte2 (nat_of_ascii a) (nat_of_ascii b) (nat_of_ascii c / 64)),
        (byte3 (nat_of_ascii b)) by lia.
      by rewrite !ascii_nat_embedding. }
  by apply (Hind (String.length s)).
Qed.
Lemma Decode_Encode s : DecodeString (EncodeToString s) = inr s.
Proof. apply decode_encode_go. Qed.

(** ** encoding/json *)

(** [int32] *)
Definition dec_int32 : field_decoder Z := fun old j =>
  match j with
  | JNum n => if (int32 n =? n)%Z then (n, None) else (old, Some (Mismatch ("number " +:+ pretty n) "int32"))
  | JNull => (old, None)
  | _ => (old, Some (Mismatch (json_kind j) "int32"))
  end.

(** [[]byte]: base64 in a string, or an array of numbers. *)
Definition dec_uint8 (j : json) : ascii * mismatch :=
  match j with
  | JNum n => if (0 <=? n)%Z && (n <? 256)%Z then (ascii_of_nat (Z.to_nat n), None)
              else (zero, Some (Mismatch ("number " +:+ pretty n) "uint8"))
  | JNull => (zero, None)
  | _ => (zero, Some (Mismatch (json_kind j) "uint8"))
  end.
Fixpoint dec_uint8s (l : list json) : string * mismatch :=
  match l with
  | [] => ("", None)
  | j :: l' => let (c, e) := dec_uint8 j in let (s, es) := dec_uint8s l' in (String c s, first_mismatch e es)
  end.
Definition dec_bytes : field_decoder (option string) := fun old j =>
  match j with
  | JStr s =>
      match DecodeString s with
      | inr b => (Some b, None)
      | inl n => (old, Some (Inner ("illegal base64 data at input byte " +:+ pretty n)))
      end
  | JArr l => let (s, e) := dec_uint8s l in (Some s, e)
  | JNull => (None, None)
  | _ => (old, Some (Mismatch (json_kind j) "[]uint8"))
  end.
Definition enc_bytes (b : option string) : json :=
  match b with None => JNull | Some s => JStr (EncodeToString s) end.

(** [map[string]string] *)
Definition dec_string_entry (acc : gmap string string * mismatch) (kv : string * json)
  : gmap string string * mismatch :=
  let (s, e) := dec_string "" kv.2 in (<[kv.1 := s]> acc.1, first_mismatch acc.2 e).
Definition dec_string_map : field_decoder (option (gmap string string)) := fun old j =>
  match j with
  | JObj kvs => let (m, e) := fold_left dec_string_entry kvs (default ∅ old, None) in (Some m, e)
  | JNull => (None, None)
  | _ => (old, Some (Mismatch (json_kind j) "map[string]string"))
  end.
Definition enc_string_map (m : option (gmap string string)) : json :=
  match m with None => JNull | Some m => JObj ((fun kv => (kv.1, JStr kv.2)) <$> map_to_list m) end.

(** [[]*T] for a struct type; a null element is the nil pointer. *)
Fixpoint dec_pointers {A} (dec : field_decoder A) (new : A) (l : list json) : list (option A) * mismatch :=
  match l with
  | [] => ([], None)
  | j :: l' =>
      let (x, e) := match j with JNull => (None, None) | _ => let (a, e) := dec new j in (Some a, e) end in
      let (xs, es) := dec_pointers dec new l' in (x :: xs, first_mismatch e es)
  end.
Definition dec_pointer_slice {A} (ty : string) (dec : field_decoder A) (new : A)
  : field_decoder (slice (option A)) := fun old j =>
  match j with
  | JArr l => let (xs, e) := dec_pointers dec new l in (Some xs, e)
  | JNull => (None, None)
  | _ => (old, Some (Mismatch (json_kind j) ("[]*" +:+ ty)))
  end.
Definition enc_pointer_slice {A} (enc : A -> json) (s : slice (option A)) : json :=
  match s with
  | None => JNull
  | Some l => JArr ((fun x => match x with None => JNull | Some a => enc a end) <$> l)
  end.

(** A field of a struct: its decoder on the struct. *)
Definition on {A F} (get : A -> F) (set : F -> A -> A) (dec : field_decoder F) : field_decoder A :=
  fun a j => let (x, e) := dec (get a) j in (set x a, e).

Lemma dec_enc_int32 old n : int32 n = n -> dec_int32 old (JNum n) = (n, None).
Proof. intros Hn. unfold dec_int32. by rewrite Hn, Z.eqb_refl. Qed.
Lemma dec_enc_bytes old b : dec_bytes old (enc_bytes b) = (b, None).
Proof. destruct b as [s|]; [|done]. unfold dec_bytes, enc_bytes. by rewrite Decode_Encode. Qed.

Lemma dec_string_map_fold (kvs : list (string * string)) (acc : gmap string string) :
  fold_left dec_string_entry ((fun kv => (kv.1, JStr kv.2)) <$> kvs) (acc, None)
  = (list_to_map (reverse kvs) ∪ acc, None).
Proof.
  revert acc. induction kvs as [|[k v] kvs IH]; intros acc.
  { rewrite reverse_nil. cbn. by rewrite (left_id_L ∅ _). }
  rewrite fmap_cons. cbn [fold_left fst snd].
  change (dec_string_entry (acc, None) (k, JStr v)) with (<[k := v]> acc, @None decode_error).
  rewrite IH, reverse_cons, list_to_map_app, <- (assoc_L (∪)). do 2 f_equal.
  change (list_to_map [(k, v)] : gmap string string) with (<[k := v]> (∅ : gmap string string)).
  by rewrite insert_empty, insert_union_singleton_l.
Qed.
Lemma dec_enc_string_map m : dec_string_map None (enc_string_map m) = (m, None).
Proof.
  destruct m as [m|]; [|done]. unfold dec_string_map, enc_string_map.
  change (default (∅ : gmap string string) None) with (∅ : gmap string string).
  rewrite dec_string_map_fold, (right_id_L ∅ _). do 2 f_equal.
  rewrite <- (list_to_map_to_list m) at 2. apply list_to_map_proper; [|by rewrite reverse_Permutation].
  rewrite reverse_Permutation. apply NoDup_fst_map_to_list.
Qed.

Lemma dec_enc_pointer_slice {A} ty (dec : field_decoder A) new (enc : A -> json) old s :
  (forall a, enc a <> JNull /\ dec new (enc a) = (a, None)) ->
  dec_pointer_slice ty dec new old (enc_pointer_slice enc s) = (s, None).
Proof.
  intros Hdec. destruct s as [l|]; [|done]. unfold dec_pointer_slice, enc_pointer_slice.
  enough (dec_pointers dec new ((fun x => match x with None => JNull | Some a => enc a end) <$> l) = (l, None))
    as -> by done.
  induction l as [|[a|] l IH]; [done|..]; rewrite fmap_cons; cbn [dec_pointers].
  - destruct (Hdec a) as [Hne Ha]. rewrite IH, Ha. by destruct (enc a).
  - by rewrite IH.
Qed.
