(* ===== verification/GoText.v ===== *)
(** Texts, as the search of svc-systems and the events service take them apart: more of packages
    strings, strconv, encoding/hex and regexp, and JSON texts with their scanner.  Nothing here
    models code of the repository.

    A text is a sequence of bytes; those above 127 are taken to be part of valid UTF-8 and are
    passed on as they are, but for U+2028 and U+2029, which encoding/json escapes ([json_chars]).

    float64 and its texts, the paths of net/url, and the writing of JSON follow. *)
From stdpp Require Import base list strings pretty.
From Stdlib Require Import ZArith Ascii.
From Stdlib Require Import ZArith QArith_base Qreduction Ascii.
From S2P Require Import Prelude Go GoTime.
Open Scope string_scope.

Definition char (n : nat) : ascii := ascii_of_nat n.
Definition dquote : ascii := char 34.
Definition newline : ascii := char 10.

(** ** Package strings *)

(** The text before the first [sep] and the text after it. *)
Fixpoint cut (s sep : string) : option (string * string) :=
  if HasPrefix s sep then Some ("", drop_string (String.length sep) s)
  else match s with
       | EmptyString => None
       | String c s' =>
           match cut s' sep with Some (a, b) => Some (String c a, b) | None => None end
       end.
(** [strings.SplitN(s, sep, 2)] *)
Definition SplitN2 (s sep : string) : list string :=
  match cut s sep with Some (a, b) => [a; b] | None => [s] end.
Definition Count (s sep : string) : nat := (length (Split s sep) - 1)%nat.
Definition Join (l : list string) (sep : string) : string := String.concat sep l.

(** [strings.Replace(s, old, new, -1)]; an empty [old] is found before every character and at the
    end. *)
Fixpoint intersperse (s new : string) : string :=
  match s with EmptyString => new | String c s' => new +:+ String c (intersperse s' new) end.
Definition Replace (s old new : string) : string :=
  if String.eqb old "" then intersperse s new else Join (Split s old) new.
(** [strings.Replace(s, old, new, 1)] *)
Definition Replace1 (s old new : string) : string :=
  match cut s old with Some (a, b) => a +:+ new +:+ b | None => s end.

(** [strings.Trim(s, c)] for one character. *)
Fixpoint TrimLeft (c : ascii) (s : string) : string :=
  match s with String d s' => if Ascii.eqb d c then TrimLeft c s' else s | EmptyString => "" end.
Fixpoint TrimRight (c : ascii) (s : string) : string :=
  match s with
  | EmptyString => ""
  | String d s' => let t := TrimRight c s' in
                   if String.eqb t "" && Ascii.eqb d c then "" else String d t
  end.
Definition Trim (s : string) (c : ascii) : string := TrimRight c (TrimLeft c s).
Definition TrimSuffix (s suf : string) : string :=
  if HasSuffix s suf then String.substring 0 (String.length s - String.length suf) s else s.

Lemma HasSuffix_app s t : HasSuffix (s +:+ t) t = true.
Proof.
  induction s as [|d s IH]; [change ("" +:+ t) with t; destruct t; [done|]; cbn [HasSuffix]; by rewrite String.eqb_refl|].
  change (String.eqb (String d (s +:+ t)) t || HasSuffix (s +:+ t) t = true). by rewrite IH, orb_true_r.
Qed.

(** [s[lo:hi]] of a string panics out of range. *)
Definition slice_to (s : string) (hi : nat) : outcome string :=
  if (hi <=? String.length s)%nat then Ok (String.substring 0 hi s) else Panic.
Definition slice_from (s : string) (lo : nat) : outcome string :=
  if (lo <=? String.length s)%nat then Ok (drop_string lo s) else Panic.

(** ** Packages encoding/hex and strconv *)

Definition hex_val (c : ascii) : option Z :=
  let n := Z.of_nat (nat_of_ascii c) in
  if is_digit c then Some (n - 48)%Z
  else if ((97 <=? n) && (n <=? 102))%Z then Some (n - 87)%Z
  else if ((65 <=? n) && (n <=? 70))%Z then Some (n - 55)%Z
  else None.
Definition byte_of (n : Z) : ascii := ascii_of_nat (Z.to_nat n).

(** [hex.DecodeString] of two characters, its error ignored. *)
Definition hex_pair (s : string) : string :=
  match s with
  | String a (String b EmptyString) =>
      match hex_val a, hex_val b with
      | Some x, Some y => String (byte_of (x * 16 + y)) ""
      | _, _ => ""
      end
  | _ => ""
  end.

Definition hex_digit (n : Z) : ascii := if (n <? 10)%Z then byte_of (48 + n) else byte_of (87 + n).
Definition code (c : ascii) : Z := Z.of_nat (nat_of_ascii c).

(** [strconv.Quote] *)
Definition quote_char (c : ascii) : string :=
  let n := code c in
  if Ascii.eqb c dquote || Ascii.eqb c "\" then String "\" (String c "")
  else if ((7 <=? n) && (n <=? 13))%Z then
    match String.get (Z.to_nat (n - 7)) "abtnvfr" with Some e => String "\" (String e "") | None => "" end
  else if ((n <? 32) || (n =? 127))%Z
       then String "\" (String "x" (String (hex_digit (n / 16)) (String (hex_digit (n mod 16)) "")))
  else String c "".
Fixpoint flat_chars (f : ascii -> string) (s : string) : string :=
  match s with EmptyString => "" | String c s' => f c +:+ flat_chars f s' end.
Definition Quote (s : string) : string := String dquote (flat_chars quote_char s +:+ String dquote "").

(** [strconv.Atoi]: the text of the error, or an int64.  A number that does not fit in 64 bits is out
    of range before a later character is looked at. *)
Inductive int_text := IntOk (n : Z) | IntSyntax | IntRange.
Fixpoint digits_uint64 (acc : Z) (s : string) : int_text :=
  match s with
  | EmptyString => IntOk acc
  | String c s' =>
      if is_digit c then
        let n := (acc * 10 + digit_val c)%Z in
        if (2 ^ 64 <=? n)%Z then IntRange else digits_uint64 n s'
      else IntSyntax
  end.
Definition signed (neg : bool) (n : Z) : Z := if neg then (- n)%Z else n.
Definition ParseInt (s : string) : int_text :=
  let '(neg, t) := match s with
                   | String c s' => if Ascii.eqb c "-" then (true, s')
                                    else if Ascii.eqb c "+" then (false, s') else (false, s)
                   | EmptyString => (false, s)
                   end in
  if String.eqb t "" then IntSyntax
  else match digits_uint64 0 t with
       | IntOk n => if (if neg then n <=? 2 ^ 63 else n <? 2 ^ 63)%Z then IntOk (signed neg n) else IntRange
       | e => e
       end.
Definition num_error (fn s err : string) : string := "strconv." +:+ fn +:+ ": parsing " +:+ Quote s +:+ ": " +:+ err.
Definition AtoiErr (s : string) : string + Z :=
  match ParseInt s with
  | IntOk n => inr n
  | IntSyntax => inl (num_error "Atoi" s "invalid syntax")
  | IntRange => inl (num_error "Atoi" s "value out of range")
  end.

(** ** Package regexp: the two patterns of the search *)

(** The class of characters that make the code take a value for a regular expression: brackets,
    braces, angle brackets and parentheses, the double quote, and the other signs below. *)
Definition special_char (c : ascii) : bool :=
  Ascii.eqb c dquote || string_exists (Ascii.eqb c) "[]!@#$%^&*(),.?:{}|<>".

(** The shortest group in parentheses: a parenthesis and what follows it up to the first one that closes, on one line. *)
Fixpoint to_close (s : string) : option string :=
  match s with
  | EmptyString => None
  | String c s' =>
      if Ascii.eqb c ")" then Some ")"
      else if Ascii.eqb c newline then None
      else match to_close s' with Some m => Some (String c m) | None => None end
  end.
(** [FindAllString]: [k] characters are still part of the last match. *)
Fixpoint find_parens (k : nat) (s : string) : list string :=
  match s with
  | EmptyString => []
  | String c s' =>
      match k with
      | S k' => find_parens k' s'
      | O => if Ascii.eqb c "(" then
               match to_close s' with
               | Some m => String c m :: find_parens (String.length m) s'
               | None => find_parens 0 s'
               end
             else find_parens 0 s'
      end
  end.
Definition FindAllParens (s : string) : list string := find_parens 0 s.

(** ** JSON texts *)

(** The value a text denotes; a number is kept as it is written. *)
Inductive jval : Type :=
| VNull
| VBool (b : bool)
| VNum (lit : string)
| VStr (s : string)
| VArr (l : list jval)
| VObj (kvs : list (string * jval)).

Definition json_space (c : ascii) : bool := string_exists (Ascii.eqb c) (String (char 9) (String newline (String (char 13) " "))).
Fixpoint skip_ws (s : string) : string :=
  match s with String c s' => if json_space c then skip_ws s' else s | EmptyString => "" end.

(** The UTF-8 bytes of a code point. *)
Definition utf8 (u : Z) : string :=
  let tail n := byte_of (128 + n mod 64) in
  (if u <? 128 then String (byte_of u) ""
   else if u <? 2048 then String (byte_of (192 + u / 64)) (String (tail u) "")
   else if u <? 65536 then String (byte_of (224 + u / 4096)) (String (tail (u / 64)) (String (tail u) ""))
   else String (byte_of (240 + u / 262144))
          (String (tail (u / 4096)) (String (tail (u / 64)) (String (tail u) ""))))%Z.
Definition hex4 (a b c d : ascii) : option Z :=
  match hex_val a, hex_val b, hex_val c, hex_val d with
  | Some x, Some y, Some z, Some t => Some (((x * 16 + y) * 16 + z) * 16 + t)%Z
  | _, _, _, _ => None
  end.
Definition high_surrogate (u : Z) : bool := ((55296 <=? u) && (u <? 56320))%Z.
Definition low_surrogate (u : Z) : bool := ((56320 <=? u) && (u <? 57344))%Z.
Definition replacement : Z := 65533.
Definition escaped (c : ascii) : option ascii :=
  if Ascii.eqb c dquote || Ascii.eqb c "\" || Ascii.eqb c "/" then Some c
  else if Ascii.eqb c "b" then Some (char 8) else if Ascii.eqb c "f" then Some (char 12)
  else if Ascii.eqb c "n" then Some (char 10) else if Ascii.eqb c "r" then Some (char 13)
  else if Ascii.eqb c "t" then Some (char 9) else None.
Definition prepend (p : string) (x : option (string * string)) : option (string * string) :=
  match x with Some (s, r) => Some (p +:+ s, r) | None => None end.
Definition is_char (c d : ascii) : bool := Ascii.eqb c d.

(** What follows the opening quote: the string and the rest of the text. *)
Fixpoint str_body (s : string) : option (string * string) :=
  match s with
  | EmptyString => None
  | String c s1 =>
      if is_char c dquote then Some ("", s1)
      else if is_char c "\" then
        match s1 with
        | EmptyString => None
        | String e s2 =>
            if is_char e "u" then
              match s2 with
              | String a (String b (String d (String f s3))) =>
                  match hex4 a b d f with
                  | None => None
                  | Some u =>
                      if high_surrogate u then
                        match s3 with
                        | String x1 (String x2 (String a' (String b' (String d' (String f' s4))))) =>
                            match hex4 a' b' d' f' with
                            | Some v =>
                                if is_char x1 "\" && is_char x2 "u" && low_surrogate v
                                then prepend (utf8 (65536 + (u - 55296) * 1024 + (v - 56320))%Z) (str_body s4)
                                else prepend (utf8 replacement) (str_body s3)
                            | None => prepend (utf8 replacement) (str_body s3)
                            end
                        | _ => prepend (utf8 replacement) (str_body s3)
                        end
                      else prepend (utf8 (if low_surrogate u then replacement else u)) (str_body s3)
                  end
              | _ => None
              end
            else match escaped e with
                 | Some x => prepend (String x "") (str_body s2)
                 | None => None
                 end
        end
      else if (code c <? 32)%Z then None
      else prepend (String c "") (str_body s1)
  end.

(** A number: an integer part without superfluous zeros, and then perhaps a fraction and an exponent. *)
Definition digits1 (s : string) : option (string * string) :=
  match span_digits s with (EmptyString, _) => None | (d, r) => Some (d, r) end.
Definition int_part (s : string) : option (string * string) :=
  match s with
  | String c s' => if is_char c "0" then Some ("0", s') else digits1 s
  | EmptyString => None
  end.
Definition frac_part (s : string) : option (string * string) :=
  match s with
  | String c s' => if is_char c "." then prepend "." (digits1 s') else Some ("", s)
  | EmptyString => Some ("", s)
  end.
Definition exp_part (s : string) : option (string * string) :=
  match s with
  | String e s' =>
      if is_char e "e" || is_char e "E" then
        match s' with
        | String c s'' => if is_char c "+" || is_char c "-"
                          then prepend (String e (String c "")) (digits1 s'')
                          else prepend (String e "") (digits1 s')
        | EmptyString => None
        end
      else Some ("", s)
  | EmptyString => Some ("", s)
  end.
Definition then_part (f : string -> option (string * string)) (x : option (string * string))
  : option (string * string) :=
  match x with Some (a, r) => prepend a (f r) | None => None end.
Definition number (s : string) : option (string * string) :=
  let '(sign, t) := match s with
                    | String c s' => if is_char c "-" then ("-", s') else ("", s)
                    | EmptyString => ("", s)
                    end in
  prepend sign (then_part exp_part (then_part frac_part (int_part t))).

(** The parser; a value and what follows an opening bracket. *)
Fixpoint p_value (fuel : nat) (s : string) : option (jval * string) :=
  match fuel with
  | O => None
  | S f =>
      match skip_ws s with
      | EmptyString => None
      | String c r =>
          if is_char c dquote then
            match str_body r with Some (t, r') => Some (VStr t, r') | None => None end
          else if is_char c "[" then
            match skip_ws r with
            | String d r' => if is_char d "]" then Some (VArr [], r')
                             else match p_elems f r with Some (l, r') => Some (VArr l, r') | None => None end
            | EmptyString => None
            end
          else if is_char c "{" then
            match skip_ws r with
            | String d r' => if is_char d "}" then Some (VObj [], r')
                             else match p_members f r with Some (l, r') => Some (VObj l, r') | None => None end
            | EmptyString => None
            end
          else if HasPrefix (String c r) "null" then Some (VNull, drop_string 4 (String c r))
          else if HasPrefix (String c r) "true" then Some (VBool true, drop_string 4 (String c r))
          else if HasPrefix (String c r) "false" then Some (VBool false, drop_string 5 (String c r))
          else match number (String c r) with Some (n, r') => Some (VNum n, r') | None => None end
      end
  end
with p_elems (fuel : nat) (s : string) : option (list jval * string) :=
  match fuel with
  | O => None
  | S f =>
      match p_value f s with
      | None => None
      | Some (v, r) =>
          match skip_ws r with
          | String c r' =>
              if is_char c "]" then Some ([v], r')
              else if is_char c "," then
                match p_elems f r' with Some (l, r'') => Some (v :: l, r'') | None => None end
              else None
          | EmptyString => None
          end
      end
  end
with p_members (fuel : nat) (s : string) : option (list (string * jval) * string) :=
  match fuel with
  | O => None
  | S f =>
      match skip_ws s with
      | String q r =>
          if is_char q dquote then
            match str_body r with
            | None => None
            | Some (k, r1) =>
                match skip_ws r1 with
                | String c r2 =>
                    if is_char c ":" then
                      match p_value f r2 with
                      | None => None
                      | Some (v, r3) =>
                          match skip_ws r3 with
                          | String c r4 =>
                              if is_char c "}" then Some ([(k, v)], r4)
                              else if is_char c "," then
                                match p_members f r4 with
                                | Some (l, r5) => Some ((k, v) :: l, r5)
                                | None => None
                                end
                              else None
                          | EmptyString => None
                          end
                      end
                    else None
                | EmptyString => None
                end
            end
          else None
      | EmptyString => None
      end
  end.
(** [None]: the text is not JSON. *)
Definition parse_json (s : string) : option jval :=
  match p_value (2 * String.length s + 2) s with
  | Some (v, r) => if String.eqb (skip_ws r) "" then Some v else None
  | None => None
  end.

(** ** How encoding/json writes a string

    A string is a list of bytes here.  Bytes above 127 are written as they are, but for the two line
    separators of Unicode; this is what encoding/json does with valid UTF-8.  It would write the
    replacement character for a byte that is no part of a valid rune, which is not modelled, neither here
    nor in the parser above. *)

Definition json_char (c : ascii) : string :=
  let n := code c in
  if is_char c dquote || is_char c "\" then String "\" (String c "")
  else if (n =? 10)%Z then "\n" else if (n =? 13)%Z then "\r" else if (n =? 9)%Z then "\t"
  else if ((n <? 32) || (n =? 38) || (n =? 60) || (n =? 62))%Z
       then "\u00" +:+ String (hex_digit (n / 16)) (String (hex_digit (n mod 16)) "")
  else String c "".
(** The separators U+2028 and U+2029 in UTF-8. *)
Definition separator (a b c : ascii) : bool :=
  is_char a (char 226) && is_char b (char 128) && (is_char c (char 168) || is_char c (char 169)).
Definition starts_separator (s : string) : bool :=
  match s with String a (String b (String c _)) => separator a b c | _ => false end.
Fixpoint json_chars (s : string) : string :=
  match s with
  | EmptyString => ""
  | String a s1 =>
      match s1 with
      | String b (String c s3) =>
          if separator a b c
          then "\u202" +:+ String (if is_char c (char 168) then "8" else "9") (json_chars s3)
          else json_char a +:+ json_chars s1
      | _ => json_char a +:+ json_chars s1
      end
  end.
Definition json_string (s : string) : string := String dquote (json_chars s +:+ String dquote "").

(** ** Lemmas *)

Lemma str_body_char c t : str_body (json_char c +:+ t) = prepend (String c "") (str_body t).
Proof. destruct c as [[] [] [] [] [] [] [] []]; reflexivity. Qed.
Lemma json_chars_cons a s : starts_separator (String a s) = false ->
  json_chars (String a s) = json_char a +:+ json_chars s.
Proof. destruct s as [|b [|c s]]; [done|done|]. cbn [starts_separator]. intros E. cbn [json_chars]. by rewrite E. Qed.
Lemma json_chars_separator a b c s : separator a b c = true ->
  json_chars (String a (String b (String c s))) =
  "\u202" +:+ String (if is_char c (char 168) then "8" else "9") (json_chars s).
Proof. intros E. cbn [json_chars]. by rewrite E. Qed.
(** Induction on the text as it is written. *)
Lemma json_chars_ind (P : string -> Prop) :
  P "" -> (forall a s, starts_separator (String a s) = false -> P s -> P (String a s)) ->
  (forall a b c s, separator a b c = true -> P s -> P (String a (String b (String c s)))) -> forall s, P s.
Proof.
  intros H0 H1 H3 s. remember (String.length s) as n eqn:En. assert (Hn : (String.length s <= n)%nat) by lia. clear En.
  revert s Hn. induction n as [|n IH]; intros s Hn; [by destruct s; [|cbn in Hn; lia]|].
  destruct s as [|a s]; [done|]. cbn [String.length] in Hn.
  destruct (starts_separator (String a s)) eqn:E; [|by apply H1, IH; [|lia]].
  destruct s as [|b [|c s]]; [done|done|]. cbn [String.length] in Hn. by apply H3, IH; [|lia].
Qed.
Lemma str_body_separator a b c t : separator a b c = true ->
  str_body (("\u202" +:+ String (if is_char c (char 168) then "8" else "9") "") +:+ t) =
  prepend (String a (String b (String c ""))) (str_body t).
Proof.
  unfold separator, is_char. intros [[->%Ascii.eqb_eq ->%Ascii.eqb_eq]%andb_true_iff [->%Ascii.eqb_eq| ->%Ascii.eqb_eq]%orb_true_iff]%andb_true_iff;
    reflexivity.
Qed.
(** A string is read back as it was written. *)
Lemma str_body_json s r : str_body (json_chars s +:+ String dquote r) = Some (s, r).
Proof.
  induction s as [|a s E IH|a b c s E IH] using json_chars_ind; [done|..].
  - by rewrite json_chars_cons, <- String_append_assoc, str_body_char, IH.
  - rewrite json_chars_separator by done.
    change (str_body (("\u202" +:+ String (if is_char c (char 168) then "8" else "9") "") +:+ (json_chars s +:+ String dquote r))
            = Some (String a (String b (String c s)), r)).
    by rewrite (str_body_separator a b), IH.
Qed.

(** The parts of the parser consume text. *)
Lemma skip_ws_length s : (String.length (skip_ws s) <= String.length s)%nat.
Proof. induction s as [|c s IH]; cbn [skip_ws String.length]; [lia|]. destruct (json_space c); cbn [String.length]; lia. Qed.
Lemma str_body_length n s t r : (String.length s <= n)%nat -> str_body s = Some (t, r) ->
  (String.length r < String.length s)%nat.
Proof.
  revert s t r. induction n as [|n IH]; intros s t r Hn; [destruct s; [done|cbn in Hn; lia]|].
  destruct s as [|c s]; [done|]. cbn [String.length] in Hn.
  assert (Hgo : forall p s' k, (String.length s' <= k)%nat -> (k <= String.length s)%nat ->
            prepend p (str_body s') = Some (t, r) -> (String.length r < String.length (String c s))%nat).
  { intros p s' k Hk Hks Hp. destruct (str_body s') as [[t' r']|] eqn:E; [|done]. injection Hp as _ <-.
    apply IH in E; cbn; lia. }
  cbn [str_body]. destruct (is_char c dquote); [intros [= _ <-]; cbn; lia|].
  destruct (is_char c "\").
  - destruct s as [|e s2]; [done|]. destruct (is_char e "u").
    + destruct s2 as [|a [|b [|d [|f s3]]]]; try done. destruct (hex4 a b d f) as [u|]; [|done].
      assert (H3 : (String.length s3 <= String.length (String e (String a (String b (String d (String f s3))))))%nat)
        by (cbn; lia).
      destruct (high_surrogate u); [|by apply Hgo with (k := String.length s3)].
      destruct s3 as [|x1 [|x2 [|a' [|b' [|d' [|f' s4]]]]]]; try (eapply Hgo; [reflexivity|exact H3]).
      destruct (hex4 a' b' d' f') as [v|]; [|eapply Hgo; [reflexivity|exact H3]].
      destruct (is_char x1 "\" && is_char x2 "u" && low_surrogate v); [|eapply Hgo; [reflexivity|exact H3]].
      eapply Hgo; [reflexivity|cbn; lia].
    + destruct (escaped e); [|done]. eapply Hgo; [reflexivity|cbn; lia].
  - destruct (code c <? 32)%Z; [done|]. eapply Hgo; reflexivity.
Qed.

Lemma span_digits_length s d r : span_digits s = (d, r) -> (String.length r <= String.length s)%nat.
Proof.
  revert d r. induction s as [|c s IH]; intros d r; cbn [span_digits String.length]; [intros [= <- <-]; done|].
  destruct (is_digit c); [|intros [= <- <-]; done].
  destruct (span_digits s) as [d' r'] eqn:E. intros [= <- <-]. specialize (IH _ _ eq_refl). lia.
Qed.
Definition shrinks (f : string -> option (string * string)) : Prop :=
  forall s d r, f s = Some (d, r) -> (String.length r <= String.length s)%nat.
Lemma prepend_shrinks p f : shrinks f -> shrinks (fun s => prepend p (f s)).
Proof. intros H s d r E. destruct (f s) as [[d' r']|] eqn:Ef; [|done]. injection E as _ <-. by eapply H. Qed.
Lemma then_part_shrinks f g : shrinks f -> shrinks g -> shrinks (fun s => then_part f (g s)).
Proof.
  intros Hf Hg s d r E. destruct (g s) as [[a t]|] eqn:Eg; [|done]. cbn in E.
  apply prepend_shrinks in E; [|done]. apply Hg in Eg. lia.
Qed.
Lemma digits1_shrinks : shrinks digits1.
Proof.
  intros s d r. unfold digits1. destruct (span_digits s) as [a t] eqn:E. apply span_digits_length in E.
  destruct a; [done|]. by intros [= <- <-].
Qed.
#[local] Ltac shrink_step :=
  let H := fresh in
  intros H; first [injection H as _ <-; cbn [String.length]; lia | discriminate H
                  | apply (prepend_shrinks _ _ digits1_shrinks) in H; cbn [String.length] in *; lia
                  | apply digits1_shrinks in H; cbn [String.length] in *; lia].
Lemma int_part_shrinks : shrinks int_part.
Proof. intros [|c s] d r; unfold int_part; [done|]. destruct (is_char c "0"); shrink_step. Qed.
Lemma frac_part_shrinks : shrinks frac_part.
Proof. intros [|c s] d r; unfold frac_part; [|destruct (is_char c ".")]; shrink_step. Qed.
Lemma exp_part_shrinks : shrinks exp_part.
Proof.
  intros [|e s] d r; unfold exp_part; [shrink_step|]. destruct (is_char e "e" || is_char e "E"); [|shrink_step].
  destruct s as [|c s]; [done|]. destruct (is_char c "+" || is_char c "-"); shrink_step.
Qed.
Lemma number_shrinks : shrinks number.
Proof.
  pose proof (then_part_shrinks _ _ exp_part_shrinks
                (then_part_shrinks _ _ frac_part_shrinks int_part_shrinks)) as H.
  intros [|c s] d r; unfold number; [apply (prepend_shrinks _ _ H)|].
  destruct (is_char c "-"); [|apply (prepend_shrinks _ _ H)].
  intros E. apply (prepend_shrinks _ _ H) in E. cbn [String.length]. lia.
Qed.
Lemma drop_string_length n s : (String.length (drop_string n s) <= String.length s)%nat.
Proof. revert n. induction s as [|c s IH]; intros [|n]; cbn [drop_string String.length]; try lia. specialize (IH n). lia. Qed.
Lemma word_rest {A} n s (v v' : A) r : Some (v, drop_string n s) = Some (v', r) ->
  (String.length r <= String.length s)%nat.
Proof. intros E. assert (r = drop_string n s) as -> by congruence. apply drop_string_length. Qed.

(** What is left after a value is no longer than what was there, and enough fuel is as good as any. *)
Definition fuel_value (s : string) : nat := 2 * String.length s + 1.
Definition fuel_list (s : string) : nat := 2 * String.length s + 2.

Lemma p_shrinks f :
  (forall s v r, p_value f s = Some (v, r) -> (String.length r <= String.length s)%nat) /\
  (forall s l r, p_elems f s = Some (l, r) -> (String.length r <= String.length s)%nat) /\
  (forall s l r, p_members f s = Some (l, r) -> (String.length r <= String.length s)%nat).
Proof.
  induction f as [|f (IHv & IHe & IHm)]; [done|]. split_and!; intros s x r.
  - cbn [p_value]. pose proof (skip_ws_length s) as Hs. destruct (skip_ws s) as [|c t]; [done|].
    cbn [String.length] in Hs.
    destruct (is_char c dquote).
    { destruct (str_body t) as [[u r']|] eqn:E; [|done]. apply (str_body_length _ _ _ _ (le_n _)) in E.
      intros [= _ <-]. lia. }
    destruct (is_char c "[").
    { pose proof (skip_ws_length t) as Ht. destruct (skip_ws t) as [|d t']; [done|]. cbn [String.length] in Ht.
      destruct (is_char d "]"); [intros [= _ <-]; lia|]. destruct (p_elems f t) as [[l r']|] eqn:E; [|done].
      apply IHe in E. intros [= _ <-]. lia. }
    destruct (is_char c "{").
    { pose proof (skip_ws_length t) as Ht. destruct (skip_ws t) as [|d t']; [done|]. cbn [String.length] in Ht.
      destruct (is_char d "}"); [intros [= _ <-]; lia|]. destruct (p_members f t) as [[l r']|] eqn:E; [|done].
      apply IHm in E. intros [= _ <-]. lia. }
    pose proof (fun n v => word_rest n (String c t) v x r) as Hw. cbn [String.length] in Hw.
    destruct (HasPrefix (String c t) "null"); [intros E; apply Hw in E; lia|].
    destruct (HasPrefix (String c t) "true"); [intros E; apply Hw in E; lia|].
    destruct (HasPrefix (String c t) "false"); [intros E; apply Hw in E; lia|].
    destruct (number (String c t)) as [[d r']|] eqn:E; [|done]. apply number_shrinks in E. cbn [String.length] in E.
    intros [= _ <-]. lia.
  - cbn [p_elems]. destruct (p_value f s) as [[v t]|] eqn:E; [|done]. apply IHv in E.
    pose proof (skip_ws_length t) as Ht. destruct (skip_ws t) as [|d t']; [done|]. cbn [String.length] in Ht.
    destruct (is_char d "]"); [intros [= _ <-]; lia|]. destruct (is_char d ","); [|done].
    destruct (p_elems f t') as [[l r']|] eqn:E'; [|done]. apply IHe in E'. intros [= _ <-]. lia.
  - cbn [p_members]. pose proof (skip_ws_length s) as Hs. destruct (skip_ws s) as [|c t]; [done|].
    cbn [String.length] in Hs. destruct (is_char c dquote); [|done].
    destruct (str_body t) as [[k r1]|] eqn:E; [|done]. apply (str_body_length _ _ _ _ (le_n _)) in E.
    pose proof (skip_ws_length r1) as H1. destruct (skip_ws r1) as [|d r2]; [done|]. cbn [String.length] in H1.
    destruct (is_char d ":"); [|done]. destruct (p_value f r2) as [[v r3]|] eqn:E3; [|done]. apply IHv in E3.
    pose proof (skip_ws_length r3) as H3. destruct (skip_ws r3) as [|e r4]; [done|]. cbn [String.length] in H3.
    destruct (is_char e "}"); [intros [= _ <-]; lia|]. destruct (is_char e ","); [|done].
    destruct (p_members f r4) as [[l r5]|] eqn:E5; [|done]. apply IHm in E5. intros [= _ <-]. lia.
Qed.
Lemma p_value_shrinks f s v r : p_value f s = Some (v, r) -> (String.length r <= String.length s)%nat.
Proof. apply p_shrinks. Qed.

Lemma p_fuel n : forall s, (String.length s <= n)%nat ->
  (forall f g, (fuel_value s <= f)%nat -> (fuel_value s <= g)%nat -> p_value f s = p_value g s) /\
  (forall f g, (fuel_list s <= f)%nat -> (fuel_list s <= g)%nat -> p_elems f s = p_elems g s) /\
  (forall f g, (fuel_list s <= f)%nat -> (fuel_list s <= g)%nat -> p_members f s = p_members g s).
Proof.
  unfold fuel_value, fuel_list. induction n as [n IH] using lt_wf_ind. intros s Hn.
  assert (IHs : forall t, (String.length t < String.length s)%nat ->
    (forall f g, (2 * String.length t + 1 <= f)%nat -> (2 * String.length t + 1 <= g)%nat -> p_value f t = p_value g t) /\
    (forall f g, (2 * String.length t + 2 <= f)%nat -> (2 * String.length t + 2 <= g)%nat -> p_elems f t = p_elems g t) /\
    (forall f g, (2 * String.length t + 2 <= f)%nat -> (2 * String.length t + 2 <= g)%nat -> p_members f t = p_members g t)).
  { intros t Ht. apply (IH (String.length t)); lia. }
  assert (Hv : forall f g, (2 * String.length s + 1 <= f)%nat -> (2 * String.length s + 1 <= g)%nat ->
            p_value f s = p_value g s).
  { intros [|f] [|g] Hf Hg; [lia..|]. cbn [p_value]. pose proof (skip_ws_length s) as Hs.
    destruct (skip_ws s) as [|c t]; [done|]. cbn [String.length] in Hs.
    destruct (is_char c dquote); [done|].
    destruct (IHs t) as (_ & He & Hm); [lia|].
    destruct (is_char c "["); [|destruct (is_char c "{"); [|done]].
    - destruct (skip_ws t) as [|d t']; [done|]. by rewrite (He f g) by lia.
    - destruct (skip_ws t) as [|d t']; [done|]. by rewrite (Hm f g) by lia. }
  split_and!; [done|intros [|f] [|g] Hf Hg; [lia..|]|intros [|f] [|g] Hf Hg; [lia..|]].
  - cbn [p_elems]. rewrite (Hv f g) by lia. destruct (p_value g s) as [[v t]|] eqn:E; [|done].
    apply p_value_shrinks in E. pose proof (skip_ws_length t) as Ht. destruct (skip_ws t) as [|d t']; [done|].
    cbn [String.length] in Ht. destruct (IHs t') as (_ & He & _); [lia|]. by rewrite (He f g) by lia.
  - cbn [p_members]. pose proof (skip_ws_length s) as Hs. destruct (skip_ws s) as [|c t]; [done|].
    cbn [String.length] in Hs. destruct (is_char c dquote); [|done].
    destruct (str_body t) as [[k r1]|] eqn:E; [|done]. apply (str_body_length _ _ _ _ (le_n _)) in E.
    pose proof (skip_ws_length r1) as H1. destruct (skip_ws r1) as [|d r2]; [done|]. cbn [String.length] in H1.
    destruct (is_char d ":"); [|done]. destruct (IHs r2) as (Hv2 & _ & _); [lia|]. rewrite (Hv2 f g) by lia.
    destruct (p_value g r2) as [[v r3]|] eqn:E3; [|done]. apply p_value_shrinks in E3.
    pose proof (skip_ws_length r3) as H3. destruct (skip_ws r3) as [|e r4]; [done|]. cbn [String.length] in H3.
    destruct (IHs r4) as (_ & _ & Hm); [lia|]. by rewrite (Hm f g) by lia.
Qed.

(** The fuel of [parse_json] is enough: more of it finds nothing else. *)
Lemma p_value_fuel s f g : (fuel_value s <= f)%nat -> (fuel_value s <= g)%nat -> p_value f s = p_value g s.
Proof. apply (p_fuel (String.length s) s). lia. Qed.
Lemma p_elems_fuel s f g : (fuel_list s <= f)%nat -> (fuel_list s <= g)%nat -> p_elems f s = p_elems g s.
Proof. apply (p_fuel (String.length s) s). lia. Qed.

(** * float64

    Numbers and their texts: [strconv.ParseFloat] and [strconv.FormatFloat(f, 'f', -1, 64)],
    and the comparisons of the language.  Nothing here models code of the repository.

    A finite number is the rational it denotes; the sign of a zero is not kept. *)
Open Scope Z_scope.

Inductive float64 := Fin (q : Q) | Inf (neg : bool) | NaN.

(** [<], [<=] and the comparison of [big.NewFloat], which panics for a NaN. *)
Definition float_lt (x y : float64) : bool :=
  match x, y with
  | NaN, _ | _, NaN => false
  | Fin a, Fin b => negb (Qle_bool b a)
  | Inf neg, Fin _ => neg
  | Fin _, Inf neg => negb neg
  | Inf n, Inf m => n && negb m
  end.
Definition float_eq (x y : float64) : bool :=
  match x, y with
  | Fin a, Fin b => Qeq_bool a b
  | Inf n, Inf m => Bool.eqb n m
  | _, _ => false
  end.
Definition float_le (x y : float64) : bool := float_lt x y || float_eq x y.
Definition is_nan (x : float64) : bool := match x with NaN => true | _ => false end.
Definition big_equal (x y : float64) : outcome bool :=
  if is_nan x || is_nan y then Panic else Ok (float_eq x y).

(** ** Rounding to 53 bits, ties to even *)

Definition pow2 (e : Z) : Z * Z := if e <? 0 then (1, 2 ^ (- e)) else (2 ^ e, 1).
Definition half_even (n d : Z) : Z :=
  let q := n / d in let r := n mod d in
  if 2 * r <? d then q else if d <? 2 * r then q + 1 else if Z.even q then q else q + 1.
(** A positive rational [n / d]; [None] when it is too large. *)
Definition round_pos (n d : Z) : option Q :=
  let e0 := Z.log2 n - Z.log2 d in
  let '(pn, pd) := pow2 e0 in
  let e := if n * pd <? pn * d then e0 - 1 else e0 in
  let sh := Z.max (e - 52) (-1074) in
  let '(sn, sd) := pow2 sh in
  let m := half_even (n * sd) (d * sn) in
  if 2 ^ 1024 * sd <=? m * sn then None else Some (Qred (Qmake (m * sn) (Z.to_pos sd))).
Definition round64 (neg : bool) (n d : Z) : option float64 :=
  if n =? 0 then Some (Fin 0)
  else match round_pos n d with
       | Some q => Some (Fin (if neg then Qopp q else q))
       | None => None
       end.

(** ** ParseFloat *)

(** The digits of the mantissa: their value, how many come after the point, whether there was one,
    and the rest; an underscore is passed over. *)
Record mantissa := mkmant { m_val : Z; m_digits : nat; m_frac : nat; m_point : bool }.
Fixpoint read_mantissa (base : Z) (m : mantissa) (s : string) : mantissa * string :=
  match s with
  | EmptyString => (m, "")
  | String c s' =>
      if Ascii.eqb c "_" then read_mantissa base m s'
      else if Ascii.eqb c "." then
        if m_point m then (m, s) else read_mantissa base (mkmant (m_val m) (m_digits m) (m_frac m) true) s'
      else match (if is_digit c || (base =? 16) then hex_val c else None) with
           | Some v => read_mantissa base
                         (mkmant (m_val m * base + v) (S (m_digits m))
                            (if m_point m then S (m_frac m) else m_frac m) (m_point m)) s'
           | None => (m, s)
           end
  end.
Fixpoint read_exponent (e : Z) (s : string) : Z * string :=
  match s with
  | EmptyString => (e, "")
  | String c s' => if Ascii.eqb c "_" then read_exponent e s'
                   else if is_digit c then read_exponent (if e <? 10000 then e * 10 + digit_val c else e) s'
                   else (e, s)
  end.
Definition split_sign (s : string) : bool * string :=
  match s with
  | String c s' => if Ascii.eqb c "-" then (true, s') else if Ascii.eqb c "+" then (false, s') else (false, s)
  | EmptyString => (false, s)
  end.
(** The exponent after its letter; it starts with a digit. *)
Definition exponent (s : string) : option (Z * string) :=
  let '(neg, t) := split_sign s in
  match t with
  | String c _ => if is_digit c then let '(e, r) := read_exponent 0 t in Some (signed neg e, r) else None
  | EmptyString => None
  end.

(** Underscores only separate digits; a base prefix counts as one. *)
Fixpoint underscores_ok (hex : bool) (saw : ascii) (s : string) : bool :=
  match s with
  | EmptyString => negb (Ascii.eqb saw "_")
  | String c s' =>
      if is_digit c || (hex && match hex_val c with Some _ => true | None => false end)
      then underscores_ok hex "0" s'
      else if Ascii.eqb c "_" then Ascii.eqb saw "0" && underscores_ok hex "_" s'
      else negb (Ascii.eqb saw "_") && underscores_ok hex "!" s'
  end.
Definition has_hex_prefix (s : string) : bool :=
  match s with String "0" (String x _) => Ascii.eqb (lower x) "x" | _ => false end.

Inductive parsed := Number (neg : bool) (n d : Z) | NoNumber.
Definition scale (base : Z) (e : Z) (n : Z) : Z * Z :=
  if e <? 0 then (n, base ^ (- e)) else (n * base ^ e, 1).
Definition read_float (s : string) : parsed :=
  let '(neg, t) := split_sign s in
  let hex := has_hex_prefix t in
  let body := if hex then drop_string 2 t else t in
  if string_exists (Ascii.eqb "_") body && negb (underscores_ok hex (if hex then "0" else "^")%char body)
  then NoNumber
  else
    let '(m, r) := read_mantissa (if hex then 16 else 10) (mkmant 0 0 0 false) body in
    if (m_digits m =? 0)%nat then NoNumber
    else
      let e := match r with
               | String c r' => if Ascii.eqb (lower c) (if hex then "p" else "e")%char then exponent r'
                                else Some (0, r)
               | EmptyString => if hex then None else Some (0, r)
               end in
      match e with
      | Some (e, EmptyString) =>
          let '(n, d) := if hex then scale 2 (e - 4 * Z.of_nat (m_frac m)) (m_val m)
                         else scale 10 (e - Z.of_nat (m_frac m)) (m_val m) in
          Number neg n d
      | _ => NoNumber
      end.

Definition special_float (s : string) : option float64 :=
  let '(neg, t) := split_sign s in
  if existsb (EqualFold t) ["inf"; "infinity"] then Some (Inf neg)
  else if EqualFold s "nan" then Some NaN else None.
Definition ParseFloat (s : string) : string + float64 :=
  match special_float s with
  | Some f => inr f
  | None =>
      match read_float s with
      | NoNumber => inl (num_error "ParseFloat" s "invalid syntax")
      | Number neg n d =>
          match round64 neg n d with
          | Some f => inr f
          | None => inl (num_error "ParseFloat" s "value out of range")
          end
      end
  end.

(** ** FormatFloat: the shortest decimal that is read back as the number, the nearest of these *)

(** [strconv.Itoa] *)
Definition show_int (n : Z) : string := pretty n.
(** The digits [m] times ten to the [e], without an exponent. *)
Definition show_decimal (m e : Z) : string :=
  let t := show_int m in
  if 0 <=? e then (if m =? 0 then "0" else t +:+ String.concat "" (replicate (Z.to_nat e) "0"))
  else
    let k := Z.to_nat (- e) in
    let t := String.concat "" (replicate (S k - String.length t) "0") +:+ t in
    let i := (String.length t - k)%nat in
    String.substring 0 i t +:+ "." +:+ drop_string i t.
Definition reads_back (m e : Z) (n d : Z) : bool :=
  let '(a, b) := scale 10 e m in
  match round64 false a b with Some (Fin q) => Qeq_bool q (Qmake n (Z.to_pos d)) | _ => false end.
(** How far [m * 10^e] is from [n / d], times [d] and a power of ten. *)
Definition distance (m e n d : Z) : Z :=
  let '(a, b) := scale 10 e m in Z.abs (a * d - n * b).
Fixpoint shortest (k : nat) (e : Z) (n d : Z) : Z * Z :=
  let '(a, b) := scale 10 (- e) n in
  let lo := a / (b * d) in
  let hi := lo + 1 in
  let ok_lo := reads_back lo e n d in
  let ok_hi := reads_back hi e n d in
  if ok_lo && (negb ok_hi || (distance lo e n d <=? distance hi e n d)) then (lo, e)
  else if ok_hi then (hi, e)
  else match k with O => (lo, e) | S k' => shortest k' (e - 1) n d end.
(** A power of ten above [n / d]. *)
Definition top_exponent (n d : Z) : Z := (Z.log2 n - Z.log2 d) * 30103 / 100000 + 1.
Definition FormatFloat (f : float64) : string :=
  match f with
  | NaN => "NaN"
  | Inf neg => if neg then "-Inf" else "+Inf"
  | Fin q =>
      let n := Z.abs (Qnum q) in let d := Zpos (Qden q) in
      if n =? 0 then "0"
      else let '(m, e) := shortest 20 (top_exponent n d) n d in
           (if Qnum q <? 0 then "-" else "") +:+ show_decimal m e
  end.

Section examples.
#[local] Abbreviation q n d := (Fin (Qmake n d)).
Example parse_plain : ParseFloat "+12.50" = inr (q 25 2).
Proof. vm_compute. reflexivity. Qed.
Example parse_rounds : ParseFloat "0.1" = inr (q 3602879701896397 36028797018963968).
Proof. vm_compute. reflexivity. Qed.
Example parse_hex : ParseFloat "0x1.8p1" = inr (q 3 1).
Proof. vm_compute. reflexivity. Qed.
Example parse_underscore : ParseFloat "1_000.5" = inr (q 2001 2) /\
  ParseFloat "1__0" = inl (num_error "ParseFloat" "1__0" "invalid syntax").
Proof. vm_compute. split; reflexivity. Qed.
Example parse_large : ParseFloat "1e400" = inl (num_error "ParseFloat" "1e400" "value out of range") /\
  ParseFloat "-Infinity" = inr (Inf true) /\ ParseFloat "1e" = inl (num_error "ParseFloat" "1e" "invalid syntax").
Proof. vm_compute. split_and!; reflexivity. Qed.
Example format_some :
  FormatFloat <$> [Fin 0; q 25 2; q 3602879701896397 36028797018963968; q (-1000000) 1; q 1 8] =
  ["0"; "12.5"; "0.1"; "-1000000"; "0.125"].
Proof. vm_compute. reflexivity. Qed.
Example format_parsed :
  (fun s => match ParseFloat s with inr f => FormatFloat f | inl e => e end) <$>
    ["600.127266816"; "1e21"; "123456789.125"; "5e-324"; "nan"] =
  ["600.127266816"; "1000000000000000000000"; "123456789.125"; "0." +:+ String.concat "" (replicate 323 "0") +:+ "5"; "NaN"].
Proof. vm_compute. reflexivity. Qed.
End examples.

Open Scope string_scope.

(** * net/url

    Package net/url as the router uses it: the path of a request URI, decoded and encoded.  Nothing
    here models code of the repository. *)

(** URIs that do not start with one slash (with a scheme, an authority, or a star). *)
Class UrlForms : Type := { parse_other : string -> option (string * string) }.

Definition alphanumeric (c : ascii) : bool := is_upper c || is_lower c || is_digit c.
Definition one_of (chars : string) (c : ascii) : bool := string_exists (Ascii.eqb c) chars.
(** [shouldEscape(c, encodePath)] *)
Definition should_escape (c : ascii) : bool := negb (alphanumeric c || one_of "-_.~$&+,/:;=@" c).
Definition upper_hex (n : nat) : ascii := ascii_of_nat (if (n <? 10)%nat then 48 + n else 55 + n).
Fixpoint path_escape (s : string) : string :=
  match s with
  | EmptyString => ""
  | String c s' =>
      if should_escape c then
        String "%" (String (upper_hex (nat_of_ascii c / 16)) (String (upper_hex (nat_of_ascii c mod 16)) (path_escape s')))
      else String c (path_escape s')
  end.
Fixpoint path_unescape (s : string) : option string :=
  match s with
  | EmptyString => Some ""
  | String "%" (String a (String b s')) =>
      match hex_val a, hex_val b with
      | Some x, Some y => String (byte_of (x * 16 + y)%Z) <$> path_unescape s'
      | _, _ => None
      end
  | String "%" _ => None
  | String c s' => String c <$> path_unescape s'
  end.
(** [validEncoded(s, encodePath)] *)
Definition valid_encoded (s : string) : bool :=
  string_forall (fun c => one_of "!$&'()*+,;=:@[]%" c || negb (should_escape c)) s.
Definition control (c : ascii) : bool := ((nat_of_ascii c <? 32) || (nat_of_ascii c =? 127))%nat.

(** [setPath] and [EscapedPath]: the path as it is written, or in its default encoding. *)
Definition escaped_path (raw path : string) : string :=
  if String.eqb raw (path_escape path) || valid_encoded raw then raw else path_escape path.
(** [url.Parse(rawURL)]: EscapedPath() and Path of the URL, if it parses. *)
Definition url_Parse `{UrlForms} (rawURL : string) : option (string * string) :=
  if HasPrefix rawURL "/" && negb (HasPrefix rawURL "//") then
    let (u, frag) := match cut rawURL "#" with Some (u, frag) => (u, frag) | None => (rawURL, "") end in
    if string_exists control u then None
    else
      let raw := match cut u "?" with Some (p, _) => p | None => u end in
      match path_unescape raw, path_unescape frag with
      | Some path, Some _ => Some (escaped_path raw path, path)
      | _, _ => None
      end
  else parse_other rawURL.

Section examples.
#[local] Instance no_forms : UrlForms := {| parse_other := fun _ => None |}.
Example parse_query : url_Parse "/redfish/v1/Systems?$filter=a%20b" =
  Some ("/redfish/v1/Systems", "/redfish/v1/Systems").
Proof. reflexivity. Qed.
Example parse_escaped : url_Parse "/a%2Fb%20c#x" = Some ("/a%2Fb%20c", "/a/b c").
Proof. reflexivity. Qed.
Example parse_bare : url_Parse "/a b%41" = Some ("/a%20bA", "/a bA").
Proof. reflexivity. Qed.
Example parse_bad : url_Parse "/100%" = None.
Proof. reflexivity. Qed.
End examples.

(** ** Texts of documents: json.Unmarshal of a text, and the text json.Marshal makes *)

(** What a text that is no JSON is refused with, and what one with a number that is no integer is. *)
Class JSONTexts : Type := { syntax_error : string -> string; other_json : string -> jtext }.
Definition integer (lit : string) : option Z :=
  let digits := TrimPrefix lit "-" in
  (fun n => if HasPrefix lit "-" then (- n)%Z else n) <$> GoTime.atoi digits.
Fixpoint of_value (v : jval) : option json :=
  match v with
  | VNull => Some JNull
  | VBool b => Some (JBool b)
  | VNum lit => JNum <$> integer lit
  | VStr s => Some (JStr s)
  | VArr l => JArr <$> (fix values (l : list jval) : option (list json) :=
      match l with
      | [] => Some []
      | v :: l' => match of_value v, values l' with Some j, Some js => Some (j :: js) | _, _ => None end
      end) l
  | VObj kvs => JObj <$> (fix entries (kvs : list (string * jval)) : option (list (string * json)) :=
      match kvs with
      | [] => Some []
      | (k, v) :: kvs' => match of_value v, entries kvs' with Some j, Some js => Some ((k, j) :: js) | _, _ => None end
      end) kvs
  end.
Definition text_json `{JSONTexts} (s : string) : jtext :=
  match parse_json s with
  | None => NotJson s (syntax_error s)
  | Some v => match of_value v with Some j => Text j | None => other_json s end
  end.
Fixpoint json_text (j : json) : string :=
  match j with
  | JNull => "null"
  | JBool b => if b then "true" else "false"
  | JNum n => pretty n
  | JStr s => json_string s
  | JTime t => json_string (time_string t)
  | JArr l => "[" +:+ Join (map json_text l) "," +:+ "]"
  | JObj kvs => "{" +:+ Join (map (fun kv => match kv with (k, v) => json_string k +:+ ":" +:+ json_text v end) kvs) "," +:+ "}"
  end.
(** The bytes of a stored document. *)
Definition raw_text (t : jtext) : string := match t with Text j => json_text j | NotJson raw _ => raw end.
