(* ===== verification/Links.v ===== *)
(** lib-dmtf/model/Links.go and the operations of svc-systems/systems/getresource.go on slices of
    links: their JSON texts, the logical operations, and the removal of members.

    [json.Unmarshal] into a slice keeps its backing array as long as that has room, so slices that
    were filled one after the other through the same variable share their elements.  The arrays are
    therefore kept in a store, and a slice is an array and a length.  The growth of the array is
    that of encoding/json up to Go 1.20.  The properties are in the second part. *)
From stdpp Require Import base list strings.
From Stdlib Require Import Ascii.
From S2P Require Import Prelude Go GoTime GoText.
Open Scope string_scope.

Record Link := mkLink { Oid : string }.
#[export] Instance Link_eq_dec : EqDecision Link.
Proof. solve_decision. Defined.

(** ** JSON texts of links *)

Definition link_text (l : Link) : string :=
  "{" +:+ json_string "@odata.id" +:+ ":" +:+ json_string (Oid l) +:+ "}".
(** [json.Marshal] of a slice of links *)
Definition marshal_links (s : slice Link) : string :=
  match s with None => "null" | Some l => "[" +:+ Join (link_text <$> l) "," +:+ "]" end.

(** Decoding a value into a link; the errors are ignored, and what does not fit leaves it as it was. *)
Definition dec_link (old : Link) (v : jval) : Link :=
  match v with
  | VObj kvs => fold_left (fun l kv =>
      if EqualFold kv.1 "@odata.id" then match kv.2 with VStr s => mkLink s | _ => l end else l) kvs old
  | _ => old
  end.
Definition unmarshal_link (old : Link) (text : string) : Link :=
  match parse_json text with Some v => dec_link old v | None => old end.

(** ** Slices with their backing arrays *)

Abbreviation arrays := (list (list Link)).
Record lslice := mkslice { s_array : nat; s_len : nat }.

Definition array_of (h : arrays) (s : option lslice) : list Link :=
  match s with Some r => default [] (h !! s_array r) | None => [] end.
Definition len_of (s : option lslice) : nat := match s with Some r => s_len r | None => 0 end.
(** The elements a slice shows. *)
Definition elements (h : arrays) (s : option lslice) : list Link := take (len_of s) (array_of h s).

Definition make_slice (l : list Link) (n : nat) (h : arrays) : arrays * option lslice :=
  (h ++ [l], Some (mkslice (length h) n))%list.
Definition set_array (a : list Link) (h : arrays) (s : option lslice) : arrays :=
  match s with Some r => <[s_array r := a]> h | None => h end.
Definition new_cap (c : nat) : nat := Nat.max 4 (c + c / 2).
Definition grow (h : arrays) (s : option lslice) : arrays * option lslice :=
  let c := length (array_of h s) in
  make_slice (elements h s ++ replicate (new_cap c - len_of s) (mkLink "")) (len_of s) h.

(** Element [i] of the text. *)
Definition dec_element (i : nat) (v : jval) (hs : arrays * option lslice) : arrays * option lslice :=
  let (h, s) := hs in
  let (h, s) := if (length (array_of h s) <=? i)%nat then grow h s else (h, s) in
  let a := array_of h s in
  let h := set_array (alter (fun old => dec_link old v) i a) h s in
  (h, match s with Some r => Some (mkslice (s_array r) (Nat.max (s_len r) (S i))) | None => None end).
Fixpoint dec_elements (i : nat) (l : list jval) (hs : arrays * option lslice) : arrays * option lslice :=
  match l with [] => hs | v :: l' => dec_elements (S i) l' (dec_element i v hs) end.

(** [_ = json.Unmarshal(text, &s)] *)
Definition unmarshal_links (text : string) (h : arrays) (s : option lslice) : arrays * option lslice :=
  match parse_json text with
  | Some VNull => (h, None)
  | Some (VArr []) => make_slice [] 0 h
  | Some (VArr l) =>
      let (h, s) := dec_elements 0 l (h, s) in
      (h, match s with Some r => Some (mkslice (s_array r) (length l)) | None => None end)
  | _ => (h, s)
  end.

(** [_ = json.Unmarshal(e, &ww); inter = append(inter, ww)] for each of the texts. *)
Fixpoint unmarshal_all (texts : list string) (h : arrays) (ww : option lslice) (inter : list (option lslice))
  : arrays * option lslice * list (option lslice) :=
  match texts with
  | [] => (h, ww, inter)
  | e :: texts' =>
      let (h, ww) := unmarshal_links e h ww in unmarshal_all texts' h ww (inter ++ [ww])%list
  end.

(** ** LogicalOperation *)

Section LogicalOperation.
(** The order in which a run visits the keys of a map. *)
Context (map_order : list Link -> list Link).

Definition matches (l : list Link) (x : Link) : list Link := filter (fun v => x = v) l.
Definition distinct (l : list Link) : list Link := remove_dups l.

(** [interm[0]] and [interm[1]] panic when they are missing; further slices are not looked at. *)
Definition LogicalOperation (interm : list (list Link)) (lo : string) : outcome (list Link) :=
  if String.eqb lo "and" then
    obind (index interm 0) (fun a => obind (index interm 1) (fun b =>
      Ok (if (length a <? length b)%nat then a ≫= matches b else b ≫= matches a)))
  else if String.eqb lo "or" then
    obind (index interm 0) (fun a => obind (index interm 1) (fun b => Ok (map_order (distinct (a ++ b)))))
  else Ok [].
End LogicalOperation.

(** ** Removing members while ranging over them *)

(** [all = append(all[:j], all[j+1:]...)] in an array of which [all] shows [len] elements. *)
Definition remove_at (j : nat) (arr : list Link) (len : nat) : outcome (list Link * nat) :=
  if (S j <=? len)%nat
  then Ok (take j arr ++ take (len - S j) (drop (S j) arr) ++ drop (len - 1) arr, len - 1)%nat%list
  else Panic.

(** [for j, eachB := range all { if eachA == eachB { all = append(...) } }]: the range goes over as
    many elements as [all] had before, in the array as it is at each round. *)
Fixpoint remove_pass (x : Link) (rounds j : nat) (arr : list Link) (len : nat) : outcome (list Link * nat) :=
  match rounds with
  | O => Ok (arr, len)
  | S k =>
      if decide (arr !! j = Some x)
      then obind (remove_at j arr len) (fun '(arr, len) => remove_pass x k (S j) arr len)
      else remove_pass x k (S j) arr len
  end.
Fixpoint remove_each (exp : list Link) (arr : list Link) (len : nat) : outcome (list Link * nat) :=
  match exp with
  | [] => Ok (arr, len)
  | x :: exp' => obind (remove_pass x len 0 arr len) (fun '(arr, len) => remove_each exp' arr len)
  end.
(** The members of [all] that are not in [exp]. *)
Definition remove_members (exp all : list Link) : outcome (list Link) :=
  obind (remove_each exp all (length all)) (fun '(arr, len) => Ok (take len arr)).

(** * Properties

    Slices of links: their texts are read back, the logical operations are those of sets, removing
    while ranging removes what it should, and what sharing an array does to the operands of a
    group. *)

(** ** LogicalOperation *)

Lemma matches_elem l x v : v ∈ matches l x <-> v = x /\ v ∈ l.
Proof. unfold matches. rewrite list_elem_of_filter. intuition congruence. Qed.
Lemma join_elem (a b : list Link) v : v ∈ a ≫= matches b <-> v ∈ a /\ v ∈ b.
Proof.
  rewrite list_elem_of_bind. setoid_rewrite matches_elem. split.
  - intros (x & [-> Hb] & Ha). done.
  - intros [Ha Hb]. by exists v.
Qed.
Lemma matches_NoDup l x : NoDup l -> NoDup (matches l x).
Proof. apply NoDup_filter. Qed.
Lemma join_NoDup (a b : list Link) : NoDup a -> NoDup b -> NoDup (a ≫= matches b).
Proof.
  intros Ha Hb. induction Ha as [|x a Hx Ha IH]; [constructor|]. cbn. apply NoDup_app. split_and!.
  - by apply matches_NoDup.
  - intros v [-> _]%matches_elem [Hv _]%join_elem. done.
  - done.
Qed.

Section logical.
Context (map_order : list Link -> list Link) (order_permutes : forall l, map_order l ≡ₚ l).

Lemma LogicalOperation_and a b rest : exists l,
  LogicalOperation map_order (a :: b :: rest) "and" = Ok l /\
  (forall v, v ∈ l <-> v ∈ a /\ v ∈ b) /\ (NoDup a -> NoDup b -> NoDup l).
Proof.
  exists (if (length a <? length b)%nat then a ≫= matches b else b ≫= matches a). split; [reflexivity|].
  destruct (length a <? length b)%nat; split; intros; rewrite ?join_elem; try tauto; by apply join_NoDup.
Qed.
Lemma LogicalOperation_or a b rest : exists l,
  LogicalOperation map_order (a :: b :: rest) "or" = Ok l /\
  (forall v, v ∈ l <-> v ∈ a \/ v ∈ b) /\ NoDup l.
Proof.
  exists (map_order (distinct (a ++ b))). split; [reflexivity|]. unfold distinct. split.
  - intros v. by rewrite order_permutes, elem_of_remove_dups, elem_of_app.
  - rewrite order_permutes. apply NoDup_remove_dups.
Qed.
End logical.

(** ** Removing *)

(** A range over an array that no longer holds [x] in the places still to be visited changes nothing. *)
Lemma remove_pass_absent x rounds : forall j arr len,
  (forall i, j <= i < j + rounds -> arr !! i <> Some x)%nat -> remove_pass x rounds j arr len = Ok (arr, len).
Proof.
  induction rounds as [|k IH]; intros j arr len Hx; [done|]. cbn [remove_pass].
  rewrite decide_False by (apply Hx; lia). apply IH. intros i Hi. apply Hx. lia.
Qed.
Lemma remove_at_spec pre x post (stale : list Link) :
  remove_at (length pre) (pre ++ x :: post ++ stale) (S (length pre + length post)) =
  Ok (pre ++ post ++ drop (length post) (x :: post ++ stale), length pre + length post)%nat%list.
Proof.
  unfold remove_at. rewrite (proj2 (Nat.leb_le _ _)) by lia.
  rewrite take_app_length. rewrite <- (Nat.add_1_r (length pre)), drop_app_add.
  replace (S (length pre + length post) - (length pre + 1))%nat with (length post) by lia.
  replace (S (length pre + length post) - 1)%nat with (length pre + length post)%nat by lia.
  rewrite drop_app_add. cbn [drop]. by rewrite drop_0, take_app_length.
Qed.

Lemma remove_pass_skip x a b : forall j arr len,
  (forall i, j <= i < j + a -> arr !! i <> Some x)%nat ->
  remove_pass x (a + b) j arr len = remove_pass x b (j + a) arr len.
Proof.
  induction a as [|a IH]; intros j arr len Hx; [by rewrite Nat.add_0_r|]. cbn [Nat.add remove_pass].
  rewrite decide_False by (apply Hx; lia). rewrite IH by (intros i Hi; apply Hx; lia). f_equal. lia.
Qed.
Lemma lookup_not_in (l : list Link) x i : x ∉ l -> l !! i <> Some x.
Proof. intros Hn E. apply Hn. by eapply list_elem_of_lookup_2. Qed.

Lemma remove_pass_spec x arr len : (len <= length arr)%nat -> NoDup (take len arr) -> exists arr' len',
  remove_pass x len 0 arr len = Ok (arr', len') /\ (len' <= length arr')%nat /\
  take len' arr' = filter (fun v => v <> x) (take len arr).
Proof.
  intros Hlen Hnd. destruct (decide (x ∈ take len arr)) as [Hin|Hnin].
  - apply list_elem_of_split in Hin as (pre & post & E).
    assert (Hl : len = S (length pre + length post)).
    { rewrite <- (length_take_le arr len) by done. rewrite E, length_app. simpl. lia. }
    rewrite E in Hnd. apply NoDup_app in Hnd as (_ & Hpre & [Hpost _]%NoDup_cons).
    assert (Hxp : x ∉ pre). { intros Hx. by apply (Hpre x Hx), elem_of_cons; left. }
    set (stale := drop len arr).
    assert (Earr : arr = (pre ++ x :: post ++ stale)%list).
    { rewrite <- (take_drop len arr), E, <- app_assoc. done. }
    rewrite E. clearbody stale. rewrite Earr, Hl.
    set (arr' := (pre ++ post ++ drop (length post) (x :: post ++ stale))%list).
    exists arr', (length pre + length post)%nat. split_and!.
    + rewrite <- Nat.add_succ_r at 1. rewrite remove_pass_skip.
      2:{ intros i Hi. rewrite lookup_app_l by lia. by apply lookup_not_in. }
      cbn [remove_pass Nat.add]. rewrite decide_True by (by rewrite lookup_app_r, Nat.sub_diag).
      rewrite remove_at_spec. cbn [obind].
      apply remove_pass_absent. intros i Hi. unfold arr'. rewrite lookup_app_r by lia.
      destruct (decide (i < length pre + length post)%nat) as [Hlt|Hge].
      * rewrite lookup_app_l by lia. by apply lookup_not_in.
      * rewrite lookup_app_r by lia. replace (i - length pre - length post)%nat with 0%nat by lia.
        destruct post as [|y post]; [simpl in Hi; lia|]. rewrite lookup_drop, Nat.add_0_r. cbn [length].
        change ((x :: (y :: post) ++ stale)%list !! S (length post)) with (((y :: post) ++ stale)%list !! length post).
        rewrite lookup_app_l by (simpl; lia). by apply lookup_not_in.
    + unfold arr'. rewrite !length_app. lia.
    + unfold arr'. rewrite app_assoc, take_app_length' by (by rewrite length_app).
      rewrite filter_app, filter_cons_False by tauto.
      rewrite !filter_keep; [done|..]; intros v Hv ->; done.
  - exists arr, len. split_and!; [|done|].
    + apply remove_pass_absent. intros i Hi E. apply Hnin. apply (list_elem_of_lookup_2 _ i).
      rewrite lookup_take_lt by lia. done.
    + symmetry. apply filter_keep. intros v Hv ->. done.
Qed.

(** Removing the members [exp] from distinct members [all] leaves the others, in their order. *)
Lemma remove_members_spec exp all : NoDup all ->
  remove_members exp all = Ok (filter (fun v => v ∉ exp) all).
Proof.
  intros Hnd. unfold remove_members.
  assert (Hg : forall arr len, (len <= length arr)%nat -> NoDup (take len arr) -> exists arr' len',
            remove_each exp arr len = Ok (arr', len') /\
            take len' arr' = filter (fun v => v ∉ exp) (take len arr)).
  { clear Hnd. induction exp as [|x exp IH]; intros arr len Hlen Hnd; cbn [remove_each].
    - exists arr, len. split; [done|]. symmetry. apply filter_keep. intros v _ Hv. by apply elem_of_nil in Hv.
    - destruct (remove_pass_spec x arr len Hlen Hnd) as (arr1 & len1 & -> & Hlen1 & E1). cbn [obind].
      destruct (IH arr1 len1) as (arr2 & len2 & -> & E2); [done|by rewrite E1; apply NoDup_filter|].
      exists arr2, len2. split; [done|]. rewrite E2, E1, list_filter_filter. apply list_filter_iff.
      intros v. rewrite elem_of_cons. tauto. }
  destruct (Hg all (length all)) as (arr & len & -> & E); [done|by rewrite take_ge|].
  cbn [obind]. by rewrite E, take_ge.
Qed.

(** ** The texts of links *)

Definition link_val (x : Link) : jval := VObj [("@odata.id", VStr (Oid x))].

Lemma dec_link_val old x : dec_link old (link_val x) = x.
Proof. by destruct x. Qed.

Lemma json_string_app s r : json_string s +:+ r = String dquote (json_chars s +:+ String dquote r).
Proof.
  unfold json_string.
  change (String dquote ((json_chars s +:+ String dquote "") +:+ r) =
          String dquote (json_chars s +:+ String dquote r)).
  by rewrite <- String_append_assoc.
Qed.
Lemma p_value_str f s r : p_value (S f) (json_string s +:+ r) = Some (VStr s, r).
Proof.
  rewrite json_string_app. cbn [p_value].
  change (match str_body (json_chars s +:+ String dquote r) with
          Some (t, r') => Some (VStr t, r') | None => None end = Some (VStr s, r)).
  by rewrite str_body_json.
Qed.
Lemma p_member f k v t r : p_value f t = Some (v, String "}" r) ->
  p_members (S f) (json_string k +:+ ":" +:+ t) = Some ([(k, v)], r).
Proof.
  intros Hv. rewrite json_string_app. cbn [p_members].
  change (skip_ws (String dquote (json_chars k +:+ String dquote (":" +:+ t))))
    with (String dquote (json_chars k +:+ String dquote (":" +:+ t))).
  change (is_char dquote dquote) with true. cbv iota beta. rewrite str_body_json.
  change (skip_ws (":" +:+ t)) with (String ":" t). change (is_char ":" ":") with true. cbv iota beta.
  by rewrite Hv.
Qed.
Lemma p_value_link f x r : p_value (S (S (S f))) (link_text x +:+ r) = Some (link_val x, r).
Proof.
  unfold link_text. rewrite <- !String_append_assoc. set (t := json_string (Oid x) +:+ "}" +:+ r).
  assert (E : p_members (S (S f)) (json_string "@odata.id" +:+ ":" +:+ t) = Some ([("@odata.id", VStr (Oid x))], r))
    by (apply p_member, p_value_str).
  clearbody t. rewrite json_string_app in *. set (u := json_chars "@odata.id" +:+ _) in *. clearbody u.
  change (match p_members (S (S f)) (String dquote u) with Some (l, r') => Some (VObj l, r') | None => None end =
          Some (link_val x, r)).
  by rewrite E.
Qed.

Lemma p_elems_last f v s r : p_value f s = Some (v, String "]" r) -> p_elems (S f) s = Some ([v], r).
Proof. intros E. cbn [p_elems]. by rewrite E. Qed.
Lemma p_elems_cons f v s t l r : p_value f s = Some (v, String "," t) -> p_elems f t = Some (l, r) ->
  p_elems (S f) s = Some (v :: l, r).
Proof. intros E Et. cbn [p_elems]. rewrite E. cbn [skip_ws]. change (is_char "," "]") with false.
  change (json_space ",") with false. change (is_char "," ",") with true. cbv iota beta. by rewrite Et. Qed.
Lemma p_elems_links l x f r : (length l + 4 <= f)%nat ->
  p_elems f (Join (link_text <$> x :: l) "," +:+ "]" +:+ r) = Some (link_val <$> x :: l, r).
Proof.
  revert x f. induction l as [|y l IH]; intros x [|f] Hf; [cbn in Hf; lia| |cbn in Hf; lia|];
    do 3 (destruct f as [|f]; [cbn in Hf; lia|]).
  - apply p_elems_last, p_value_link.
  - change (Join (link_text <$> x :: y :: l) ",") with (link_text x +:+ "," +:+ Join (link_text <$> y :: l) ",").
    rewrite <- !String_append_assoc. eapply p_elems_cons; [apply p_value_link|]. apply IH. cbn in Hf. lia.
Qed.

(** A slice of links is read back as it was written. *)
Lemma parse_marshal s : parse_json (marshal_links s) =
  Some (match s with None => VNull | Some l => VArr (link_val <$> l) end).
Proof.
  destruct s as [[|x l]|]; [done| |done]. unfold parse_json, marshal_links.
  set (t := Join (link_text <$> x :: l) "," +:+ "]").
  assert (E : p_elems (length l + fuel_list t + 4) t = Some (link_val <$> x :: l, "")).
  { change t with (Join (link_text <$> x :: l) "," +:+ "]" +:+ ""). apply p_elems_links. lia. }
  rewrite (p_value_fuel _ _ (S (length l + fuel_list t + 4))); [|unfold fuel_value; lia|].
  2:{ change ("[" +:+ t) with (String "[" t). unfold fuel_value, fuel_list. cbn [String.length]. lia. }
  assert (Ht : exists c t', t = String c t' /\ is_char c "]" = false /\ json_space c = false).
  { unfold t. destruct l; cbn [Join String.concat fmap list_fmap]; eexists _, _; split; try reflexivity; done. }
  destruct Ht as (c & t' & Ht & Hc & Hs).
  change (p_value (S (length l + fuel_list t + 4)) ("[" +:+ t)) with
    (match skip_ws t with
     | String d r' => if is_char d "]" then Some (VArr [], r')
                      else match p_elems (length l + fuel_list t + 4) t with Some (l, r') => Some (VArr l, r') | None => None end
     | EmptyString => None
     end).
  rewrite E. rewrite Ht. cbn [skip_ws]. rewrite Hs, Hc. done.
Qed.

(** ** Slices that share an array *)

Lemma grow_step v h s (i : nat) : (length (array_of h s) <= i)%nat ->
  let '(h', s') := grow h s in (i < length (array_of h' s'))%nat ->
  dec_element i v (h, s) = dec_element i v (h', s').
Proof.
  intros Hi. destruct (grow h s) as [h' s'] eqn:E. intros Hi'. unfold dec_element.
  rewrite (proj2 (Nat.leb_le _ _) Hi), E. by rewrite (proj2 (Nat.leb_gt _ _) Hi').
Qed.

Lemma array_of_some h a n arr : h !! a = Some arr -> array_of h (Some (mkslice a n)) = arr.
Proof. unfold array_of. cbn [s_array]. by intros ->. Qed.
Lemma new_cap_lt n : (n < new_cap n)%nat.
Proof.
  unfold new_cap. destruct n as [|[|n]]; [cbn; lia..|].
  assert (1 <= S (S n) / 2)%nat by (apply (Nat.div_le_mono 2 _ 2); lia). lia.
Qed.

(** Decoding the elements from [i] on into an array that already holds the ones before. *)
Lemma dec_elements_spec l : forall i h a n arr,
  h !! a = Some arr -> (i <= n)%nat -> (n <= length arr)%nat -> exists h' a' arr',
  dec_elements i (link_val <$> l) (h, Some (mkslice a n)) = (h', Some (mkslice a' (Nat.max n (i + length l)))) /\
  h' !! a' = Some arr' /\ (i + length l <= length arr')%nat /\ take (i + length l) arr' = (take i arr ++ l)%list /\
  h' !! a = Some (take (length arr) (take i arr ++ l ++ drop (i + length l) arr))%list /\
  (forall b, b <> a -> (b < length h)%nat -> h' !! b = h !! b).
Proof.
  induction l as [|x l IH]; intros i h a n arr Ha Hin Hn.
  - exists h, a, arr. cbn [fmap list_fmap dec_elements length]. rewrite Nat.add_0_r, Nat.max_l by done.
    split_and!; [done|done|lia|by rewrite app_nil_r| |done]. cbn [app]. by rewrite take_drop, take_ge.
  - rewrite fmap_cons. cbn [dec_elements].
    (* in an array with room *)
    assert (Hroom : forall h a arr, h !! a = Some arr -> (i < length arr)%nat -> (n <= length arr)%nat ->
              dec_element i (link_val x) (h, Some (mkslice a n)) =
              (<[a := <[i := x]> arr]> h, Some (mkslice a (Nat.max n (S i))))).
    { clear. intros h a arr Ha Hi Hn. unfold dec_element.
      pose proof (array_of_some h a n arr Ha) as Ea.
      rewrite Ea, (proj2 (Nat.leb_gt _ _) Hi), Ea. cbn [set_array s_array s_len]. do 3 f_equal.
      destruct (lookup_lt_is_Some_2 arr i Hi) as [old Hold]. apply list_eq. intros j.
      destruct (decide (j = i)) as [-> |Hne].
      - rewrite list_lookup_alter_eq, list_lookup_insert_eq by done. rewrite Hold. cbn [fmap option_fmap option_map].
        by rewrite dec_link_val.
      - by rewrite list_lookup_alter_ne, list_lookup_insert_ne. }
    assert (Hput : forall (arr : list Link), (i < length arr)%nat -> take (S i) (<[i := x]> arr) = (take i arr ++ [x])%list).
    { intros arr0 Hi. rewrite (take_S_r _ i x) by (by apply list_lookup_insert_eq).
      by rewrite take_insert_ge. }
    destruct (decide (i < length arr)%nat) as [Hi|Hi].
    + rewrite (Hroom _ _ _ Ha Hi Hn).
      destruct (IH (S i) (<[a := <[i := x]> arr]> h) a (Nat.max n (S i)) (<[i := x]> arr))
        as (h' & a' & arr' & -> & Ha' & Hl & Ht & Hold & Hoth); [|lia|rewrite length_insert; lia|].
      { apply list_lookup_insert_eq. by eapply lookup_lt_Some. }
      exists h', a', arr'. cbn [length]. rewrite <- Nat.add_succ_comm. split_and!.
      * do 3 f_equal. lia.
      * done.
      * lia.
      * rewrite Ht, Hput by done. by rewrite <- app_assoc.
      * rewrite Hold, length_insert, Hput by done. rewrite <- app_assoc. cbn [app Nat.add].
        by rewrite drop_insert_lt by lia.
      * intros b Hb Hbl. rewrite Hoth by (rewrite ?length_insert; lia). by apply list_lookup_insert_ne.
    + assert (i = length arr /\ n = length arr) as [-> ->] by lia.
      pose proof (grow_step (link_val x) h (Some (mkslice a (length arr))) (length arr)) as Hg.
      unfold grow, make_slice, elements in Hg. cbn [len_of s_len] in Hg.
      rewrite (array_of_some _ _ _ _ Ha), take_ge in Hg by done. specialize (Hg ltac:(lia)).
      set (arr1 := (arr ++ replicate (new_cap (length arr) - length arr) (mkLink ""))%list) in *.
      assert (Harr1 : (h ++ [arr1])%list !! length h = Some arr1).
      { rewrite lookup_app_r by lia. by rewrite Nat.sub_diag. }
      assert (Hcap : (length arr < length arr1)%nat).
      { unfold arr1. rewrite length_app, length_replicate. pose proof (new_cap_lt (length arr)). lia. }
      rewrite (array_of_some _ _ _ _ Harr1) in Hg. rewrite Hg by done.
      rewrite (Hroom _ _ _ Harr1 Hcap ltac:(lia)).
      destruct (IH (S (length arr)) (<[length h := <[length arr := x]> arr1]> (h ++ [arr1]))%list (length h)
                  (Nat.max (length arr) (S (length arr))) (<[length arr := x]> arr1))
        as (h' & a' & arr' & -> & Ha' & Hl & Ht & Hold & Hoth); [|lia|rewrite length_insert; lia|].
      { apply list_lookup_insert_eq. rewrite length_app. simpl. lia. }
      exists h', a', arr'. cbn [length]. rewrite <- Nat.add_succ_comm. split_and!.
      * do 3 f_equal. lia.
      * done.
      * lia.
      * rewrite Ht, Hput by done. rewrite <- app_assoc. cbn [app]. f_equal. unfold arr1.
        by rewrite take_app_length, take_ge.
      * (* the array left behind *)
        pose proof (lookup_lt_Some _ _ _ Ha) as Hal.
        rewrite Hoth by (rewrite ?length_insert, ?length_app; simpl; lia).
        rewrite list_lookup_insert_ne by lia. rewrite lookup_app_l, Ha by done.
        by rewrite (take_ge arr) by done; rewrite take_app_length.
      * intros b Hb Hbl. rewrite Hoth by (rewrite ?length_insert, ?length_app; simpl; lia).
        rewrite list_lookup_insert_ne by lia. by rewrite lookup_app_l by lia.
Qed.

(** What decoding a text of links does to the slice it is decoded into. *)
Lemma unmarshal_again l h a n arr : l <> [] -> h !! a = Some arr -> (n <= length arr)%nat ->
  exists h' a', unmarshal_links (marshal_links (Some l)) h (Some (mkslice a n)) = (h', Some (mkslice a' (length l))) /\
    elements h' (Some (mkslice a' (length l))) = l /\
    h' !! a = Some (take (length arr) (l ++ drop (length l) arr))%list.
Proof.
  intros Hl Ha Hn. destruct (dec_elements_spec l 0 h a n arr Ha ltac:(lia) Hn) as (h' & a' & arr' & E & Ha' & Hlen & Ht & Hold & _).
  exists h', a'. unfold unmarshal_links. rewrite parse_marshal.
  destruct l as [|x l]; [done|]. rewrite fmap_cons in *. rewrite E. rewrite <- fmap_cons, length_fmap. split; [done|].
  split; [|done]. unfold elements. cbn [len_of s_len]. by rewrite (array_of_some _ _ _ _ Ha').
Qed.
Lemma unmarshal_fresh l h : l <> [] ->
  exists h' a arr, unmarshal_links (marshal_links (Some l)) h None = (h', Some (mkslice a (length l))) /\
    h' !! a = Some arr /\ (length l <= length arr)%nat /\ take (length l) arr = l.
Proof.
  intros Hl. set (arr0 := replicate 4 (mkLink "")). set (h0 := (h ++ [arr0])%list).
  assert (Ha : h0 !! length h = Some arr0). { unfold h0. rewrite lookup_app_r by lia. by rewrite Nat.sub_diag. }
  destruct (dec_elements_spec l 0 h0 (length h) 0 arr0 Ha ltac:(lia) ltac:(lia)) as (h' & a' & arr' & E & Ha' & Hlen & Ht & _).
  exists h', a', arr'. split; [|done]. unfold unmarshal_links. rewrite parse_marshal.
  destruct l as [|x l]; [done|]. rewrite fmap_cons in *. cbn [dec_elements] in *.
  assert (Hg : dec_element 0 (link_val x) (h, None) = dec_element 0 (link_val x) (h0, Some (mkslice (length h) 0))).
  { apply (grow_step (link_val x) h None 0 (le_n 0)). change (0 < length (array_of h0 (Some (mkslice (length h) 0))))%nat.
    rewrite (array_of_some _ _ _ _ Ha). cbn. lia. }
  rewrite Hg, E, <- fmap_cons. by rewrite length_fmap.
Qed.

(** The operands of a group whose two conditions have members: the elements of the second have
    replaced those of the first, as far as they reach. *)
Lemma operands_overlaid l1 l2 : l1 <> [] -> l2 <> [] ->
  (let '(h, _, inter) := unmarshal_all [marshal_links (Some l1); marshal_links (Some l2)] [] None [] in
   elements h <$> inter) = [take (length l1) (l2 ++ drop (length l2) l1); l2]%list.
Proof.
  intros H1 H2. cbn [unmarshal_all]. destruct (unmarshal_fresh l1 [] H1) as (h & a & arr & -> & Ha & Hlen & Ht).
  destruct (unmarshal_again l2 h a (length l1) arr H2 Ha Hlen) as (h' & a' & -> & He & Hold).
  cbn [app fmap list_fmap]. rewrite He. f_equal. unfold elements. cbn [len_of s_len].
  rewrite (array_of_some _ _ _ _ Hold), take_take, Nat.min_l by done.
  destruct (decide (length l1 <= length l2)%nat).
  - by rewrite !take_app_le by done.
  - rewrite <- Ht at 3. rewrite skipn_firstn_comm, !take_app, take_take.
    do 2 f_equal. lia.
Qed.
