(* ===== verification/Response.v ===== *)
(** lib-utilities/response and lib-utilities/common/generalerror.go: the RPC response record, the
    Redfish message of every status, and the builders of error and success bodies.  An
    [interface{}] argument carries its dynamic type; building an error body panics when the
    arguments of a message have the wrong number or types, as the code does.  lib-utilities/errors,
    the error values of the database layer, is at the end. *)
From stdpp Require Import base list strings pretty.
From S2P Require Import Prelude Go.
Open Scope string_scope.

(** ** Status messages *)

Definition BaseVersion := "Base.1.11.0.".
Definition Created := BaseVersion +:+ "Created".
Definition ExtendedInfo := BaseVersion +:+ "ExtendedInfo".
Definition AccountRemoved := BaseVersion +:+ "AccountRemoved".
Definition Success := BaseVersion +:+ "Success".
Definition AccountModified := BaseVersion +:+ "AccountModified".
Definition GeneralErrorMsg := BaseVersion +:+ "GeneralError".
Definition Failure := BaseVersion +:+ "Failed".
Definition InsufficientPrivilege := BaseVersion +:+ "InsufficientPrivilege".
Definition InternalError := BaseVersion +:+ "InternalError".
Definition PropertyMissing := BaseVersion +:+ "PropertyMissing".
Definition PropertyUnknown := BaseVersion +:+ "PropertyUnknown".
Definition ResourceNotFound := BaseVersion +:+ "ResourceNotFound".
Definition MalformedJSON := BaseVersion +:+ "MalformedJSON".
Definition PropertyValueNotInList := BaseVersion +:+ "PropertyValueNotInList".
Definition NoValidSession := BaseVersion +:+ "NoValidSession".
Definition ResourceInUse := BaseVersion +:+ "ResourceInUse".
Definition PropertyValueFormatError := BaseVersion +:+ "PropertyValueFormatError".
Definition PropertyValueTypeError := BaseVersion +:+ "PropertyValueTypeError".
Definition ResourceAtURIUnauthorized := BaseVersion +:+ "ResourceAtUriUnauthorized".
Definition CouldNotEstablishConnection := BaseVersion +:+ "CouldNotEstablishConnection".
Definition QueryCombinationInvalid := BaseVersion +:+ "QueryCombinationInvalid".
Definition QueryNotSupported := BaseVersion +:+ "QueryNotSupported".
Definition ResourceRemoved := "ResourceEvent.1.0.3.ResourceRemoved".
Definition ResourceCreated := "ResourceEvent.1.0.3.ResourceCreated".
Definition TaskStarted := "TaskEvent.1.0.3.TaskStarted".
Definition ActionNotSupported := BaseVersion +:+ "ActionNotSupported".
Definition ResourceAlreadyExists := BaseVersion +:+ "ResourceAlreadyExists".
Definition ActionParameterNotSupported := BaseVersion +:+ "ActionParameterNotSupported".
Definition ResourceCannotBeDeleted := BaseVersion +:+ "ResourceCannotBeDeleted".
Definition PropertyValueConflict := BaseVersion +:+ "PropertyValueConflict".
Definition NoOperation := BaseVersion +:+ "NoOperation".

(** Status codes of net/http. *)
Definition StatusOK : Z := 200.
Definition StatusCreated : Z := 201.
Definition StatusAccepted : Z := 202.
Definition StatusNoContent : Z := 204.
Definition StatusBadRequest : Z := 400.
Definition StatusUnauthorized : Z := 401.
Definition StatusForbidden : Z := 403.
Definition StatusNotFound : Z := 404.
Definition StatusMethodNotAllowed : Z := 405.
Definition StatusConflict : Z := 409.
Definition StatusInternalServerError : Z := 500.
Definition StatusServiceUnavailable : Z := 503.

(** ** Records *)

(** An [interface{}] value with its dynamic type. *)
Inductive iface : Type :=
| INil
| IString (s : string)
| IInt (n : Z)
| IBool (b : bool)
| IStrings (l : list string).

Record Msg := {
  Msg_OdataType : string;
  Msg_MessageID : string;
  Msg_Message : string;
  Msg_Severity : string;
  Msg_MessageArgs : list iface;
  Msg_Resolution : string;
}.

Record ErrorClass := {
  Code : string;
  ErrorMessageText : string;
  MessageExtendedInfo : list Msg;
}.
Record CommonError := { Error : ErrorClass }.

Record ErrArgs := {
  ea_StatusMessage : string;
  ea_ErrorMessage : string;
  ea_MessageArgs : list iface;
}.
Record Args := {
  args_Code : string;
  args_Message : string;
  ErrorArgs : list ErrArgs;
}.

(** Response: the generic part of a body. *)
Record Response := {
  OdataType : string;
  OdataID : string;
  OdataContext : string;
  Description : string;
  ID : string;
  Name : string;
  Message : string;
  MessageID : string;
  MessageArgs : list string;
  NumberOfArgs : Z;
  Severity : string;
  Resolution : string;
}.
Definition mkResponse (odataType odataID odataContext id name : string) : Response :=
  {| OdataType := odataType; OdataID := odataID; OdataContext := odataContext; Description := "";
     ID := id; Name := name; Message := ""; MessageID := ""; MessageArgs := []; NumberOfArgs := 0;
     Severity := ""; Resolution := "" |}.

(** The [interface{}] body of a response: nil, an error, or a value of the service's own types. *)
Inductive body (B : Type) : Type :=
| NoBody
| ErrorBody (e : CommonError)
| Body (b : B).
Arguments NoBody {B}.
Arguments ErrorBody {B} e.
Arguments Body {B} b.

Record RPC (B : Type) := {
  StatusCode : Z;
  StatusMessage : string;
  Header : list (string * string);
  RBody : body B;
}.
Arguments StatusCode {B} _.
Arguments StatusMessage {B} _.
Arguments Header {B} _.
Arguments RBody {B} _.
Definition mkRPC {B} (code : Z) (msg : string) (hdr : list (string * string)) (b : body B) : RPC B :=
  {| StatusCode := code; StatusMessage := msg; Header := hdr; RBody := b |}.

(** ** errorresponse.go *)

Definition ErrorHelperMessage := "An error has occurred. See ExtendedInfo for more information.".
Definition ErrorMessageOdataType := "#Message.v1_1_2.Message".

Fixpoint validateParamTypes (paramTypes actualParamTypes : list string) : bool :=
  match paramTypes, actualParamTypes with
  | [], [] => true
  | p :: ps, a :: aa => String.eqb a p && validateParamTypes ps aa
  | _, _ => false
  end.

(** [reflect.TypeOf(x).String()]; the method call on the nil type panics. *)
Definition type_of (x : iface) : outcome string :=
  match x with
  | INil => Panic
  | IString _ => Ok "string"
  | IInt _ => Ok "int"
  | IBool _ => Ok "bool"
  | IStrings _ => Ok "[]string"
  end.
Fixpoint types_of (xs : list iface) : outcome (list string) :=
  match xs with
  | [] => Ok []
  | x :: xs' => obind (type_of x) (fun t => obind (types_of xs') (fun ts => Ok (t :: ts)))
  end.

Definition validateMessageArgs (msgArgs : list iface) (paramTypes : list string)
    (expectedCount : nat) : outcome unit :=
  if negb (Nat.eqb (length msgArgs) expectedCount) then Panic
  else obind (types_of msgArgs) (fun actual =>
         if validateParamTypes paramTypes actual then Ok tt else Panic).

(** [%v] of an argument. *)
Definition show_iface (x : iface) : string :=
  match x with
  | INil => "<nil>"
  | IString s => s
  | IInt n => pretty n
  | IBool b => if b then "true" else "false"
  | IStrings l => "[" +:+ String.concat " " l +:+ "]"
  end.
Definition arg (msgArgs : list iface) (i : nat) : string := show_iface (nth i msgArgs INil).

Definition plainMsg (st text sev res : string) : outcome (list Msg) :=
  Ok [{| Msg_OdataType := ErrorMessageOdataType; Msg_MessageID := st; Msg_Message := text;
         Msg_Severity := sev; Msg_MessageArgs := []; Msg_Resolution := res |}].
Definition argsMsg (ps : list string) (n : nat) (ea : ErrArgs) (text sev res : string)
  : outcome (list Msg) :=
  obind (validateMessageArgs (ea_MessageArgs ea) ps n) (fun _ =>
    Ok [{| Msg_OdataType := ErrorMessageOdataType; Msg_MessageID := ea_StatusMessage ea;
           Msg_Message := text; Msg_Severity := sev; Msg_MessageArgs := ea_MessageArgs ea;
           Msg_Resolution := res |}]).

(** The messages one element of [ErrorArgs] appends: the body of the loop's switch. *)
Definition errArgMsg (ea : ErrArgs) : outcome (list Msg) :=
  let st := ea_StatusMessage ea in
  let em := ea_ErrorMessage ea in
  let a i := arg (ea_MessageArgs ea) i in
  if String.eqb st Success then plainMsg st "Successfully Completed Request" "OK" "None"
  else if String.eqb st ResourceRemoved then
    plainMsg st "The resource has been removed successfully." "OK" "None"
  else if String.eqb st InsufficientPrivilege then
    plainMsg st ("There are insufficient privileges for the account or credentials associated with the current session to perform the requested operation." +:+ em)
      "Critical" "Either abandon the operation or change the associated access rights and resubmit the request if the operation failed."
  else if String.eqb st InternalError then
    plainMsg st ("The request failed due to an internal service error.  The service is still operational." +:+ em)
      "Critical" "Resubmit the request.  If the problem persists, consider resetting the service."
  else if String.eqb st PropertyMissing then
    argsMsg ["string"] 1 ea
      ("The property " +:+ a 0 +:+ " is a required property and must be included in the request. " +:+ em)
      "Warning" "Ensure that the property is in the request body and has a valid value and resubmit the request if the operation failed."
  else if String.eqb st PropertyUnknown then
    argsMsg ["string"] 1 ea
      ("The property " +:+ a 0 +:+ " is an unknown property and must not be included in the request. " +:+ em)
      "Warning" "Ensure that the request body has valid properties with proper cases and resubmit the request."
  else if String.eqb st PropertyValueNotInList then
    argsMsg ["string"; "string"] 2 ea
      ("The value " +:+ a 0 +:+ " for the property " +:+ a 1 +:+ " is not in the list of acceptable values. " +:+ em)
      "Warning" "Choose a value from the enumeration list that the implementation can support and resubmit the request if the operation failed."
  else if String.eqb st PropertyValueTypeError then
    argsMsg ["string"; "string"] 2 ea
      ("The value " +:+ a 0 +:+ " for the property " +:+ a 1 +:+ " is of a different type than the property can accept. " +:+ em)
      "Warning" "Correct the value for the property in the request body and resubmit the request if the operation failed."
  else if String.eqb st MalformedJSON then
    plainMsg st ("The request body submitted was malformed JSON and could not be parsed by the receiving service." +:+ em)
      "Critical" "Ensure that the request body is valid JSON and resubmit the request."
  else if String.eqb st ResourceNotFound then
    argsMsg ["string"; "string"] 2 ea
      ("The requested resource of type " +:+ a 0 +:+ " named " +:+ a 1 +:+ " was not found. " +:+ em)
      "Critical" "Provide a valid resource identifier and resubmit the request."
  else if String.eqb st NoValidSession then
    plainMsg st ("There is no valid session established with the implementation." +:+ em)
      "Critical" "Establish a session before attempting any operations."
  else if String.eqb st ResourceInUse then
    plainMsg st ("The change to the requested resource failed because the resource is in use or in transition." +:+ em)
      "Warning" "Remove the condition and resubmit the request if the operation failed."
  else if String.eqb st PropertyValueFormatError then
    argsMsg ["string"; "string"] 2 ea
      ("The value " +:+ a 0 +:+ " for the property " +:+ a 1 +:+ " is of a different format than the property can accept. " +:+ em)
      "Warning" "Correct the value for the property in the request body and resubmit the request if the operation failed."
  else if String.eqb st ResourceAtURIUnauthorized then
    argsMsg ["string"] 1 ea
      ("While accessing the resource at " +:+ a 0 +:+ ", the service received an authorization error. " +:+ em)
      "Critical" "Ensure that the appropriate access is provided for the service in order for it to access the URI."
  else if String.eqb st CouldNotEstablishConnection then
    argsMsg ["string"] 1 ea
      ("The service failed to establish a connection with the URI " +:+ a 0 +:+ ". " +:+ em)
      "Critical" "Ensure that the URI contains a valid and reachable node name, protocol information and other URI components."
  else if String.eqb st ActionNotSupported then
    argsMsg ["string"] 1 ea
      ("The action " +:+ a 0 +:+ " is not supported by the resource. " +:+ em)
      "Critical" "The action supplied cannot be resubmitted to the implementation. Perhaps the action was invalid, the wrong resource was the target or the implementation documentation may be of assistance."
  else if String.eqb st ResourceAlreadyExists then
    argsMsg ["string"; "string"; "string"] 3 ea
      ("The requested resource of type " +:+ a 0 +:+ " with the property " +:+ a 1 +:+ " with the value " +:+ a 2 +:+ " already exists. " +:+ em)
      "Critical" "Do not repeat the create operation as the resource has already been created."
  else if String.eqb st QueryCombinationInvalid then
    plainMsg st ("Two or more query parameters in the request cannot be used together." +:+ em)
      "Warning" "Remove one or more of the query parameters and resubmit the request if the operation failed."
  else if String.eqb st QueryNotSupported then
    plainMsg st ("Querying is not supported by the implementation. " +:+ em)
      "Warning" "Remove the query parameters and resubmit the request if the operation failed."
  else if String.eqb st ActionParameterNotSupported then
    argsMsg ["string"; "string"] 2 ea em
      "Warning" "Modify the parameter supplied and resubmit the request if the operation failed."
  else if String.eqb st ResourceCannotBeDeleted then
    plainMsg st ("The delete request failed because the resource requested cannot be deleted." +:+ em)
      "Critical" "Do not attempt to delete a non-deletable resource."
  else if String.eqb st PropertyValueConflict then
    argsMsg ["string"; "string"] 2 ea
      ("The property '" +:+ a 0 +:+ "' could not be written because its value would conflict with the value of the '" +:+ a 1 +:+ "' property, " +:+ em)
      "Warning" "No resolution is required."
  else if String.eqb st NoOperation then
    plainMsg st "The request body submitted contain no data to act upon and no changes to the resource took place."
      "Warning" "Add properties in the JSON object and resubmit the request."
  else Ok [].

Fixpoint extendedInfos (eas : list ErrArgs) : outcome (list Msg) :=
  match eas with
  | [] => Ok []
  | ea :: eas' => obind (errArgMsg ea) (fun ms => obind (extendedInfos eas') (fun rest => Ok (ms ++ rest)%list))
  end.

Definition CreateGenericErrorResponse (a : Args) : outcome CommonError :=
  let message := if String.eqb (args_Message a) "" then ErrorHelperMessage else args_Message a in
  obind (extendedInfos (ErrorArgs a)) (fun infos =>
    Ok {| Error := {| Code := args_Code a; ErrorMessageText := message;
                      MessageExtendedInfo := infos |} |}).

(** The error body with one extended message that most handlers build. *)
Definition errorArgs1 (st em : string) (margs : list iface) : Args :=
  {| args_Code := GeneralErrorMsg; args_Message := "";
     ErrorArgs := [{| ea_StatusMessage := st; ea_ErrorMessage := em; ea_MessageArgs := margs |}] |}.

Definition errorRPC {B} (code : Z) (st em : string) (margs : list iface) : outcome (RPC B) :=
  obind (CreateGenericErrorResponse (errorArgs1 st em margs)) (fun e =>
    Ok (mkRPC code st [] (ErrorBody e))).

(** [resp.CreateInternalErrorResponse(errorMessage)]: the header stays as it was. *)
Definition CreateInternalErrorResponse {B} (hdr : list (string * string)) (errorMessage : string)
  : outcome (RPC B) :=
  obind (CreateGenericErrorResponse (errorArgs1 InternalError errorMessage [])) (fun e =>
    Ok (mkRPC StatusInternalServerError InternalError hdr (ErrorBody e))).

(** ** successresponse.go *)

Definition with_message (r : Response) (msg : string) : Response :=
  {| OdataType := OdataType r; OdataID := OdataID r; OdataContext := OdataContext r;
     Description := Description r; ID := ID r; Name := Name r; Message := msg;
     MessageID := MessageID r; MessageArgs := MessageArgs r; NumberOfArgs := NumberOfArgs r;
     Severity := Severity r; Resolution := Resolution r |}.

(** [TaskStarted] reads [MessageArgs[0]], which panics when the slice is empty. *)
Definition CreateGenericResponse (r : Response) (statusMessage : string) : outcome Response :=
  let r := {| OdataType := OdataType r; OdataID := OdataID r; OdataContext := OdataContext r;
              Description := Description r; ID := ID r; Name := Name r; Message := Message r;
              MessageID := statusMessage; MessageArgs := MessageArgs r;
              NumberOfArgs := NumberOfArgs r; Severity := "OK"; Resolution := Resolution r |} in
  if String.eqb statusMessage Success then Ok (with_message r "Successfully Completed Request")
  else if String.eqb statusMessage Created then
    Ok (with_message r "The resource has been created successfully")
  else if String.eqb statusMessage AccountRemoved then
    Ok (with_message r "The account was successfully removed.")
  else if String.eqb statusMessage AccountModified then
    Ok (with_message r "The account was successfully modified.")
  else if String.eqb statusMessage ResourceRemoved then
    Ok (with_message r "The resource has been removed successfully.")
  else if String.eqb statusMessage ResourceCreated then
    Ok (with_message r "The resource has been created successfully.")
  else if String.eqb statusMessage TaskStarted then
    match MessageArgs r with
    | [] => Panic
    | a0 :: _ =>
        let r := {| OdataType := OdataType r; OdataID := OdataID r; OdataContext := OdataContext r;
                    Description := Description r; ID := ID r; Name := Name r; Message := Message r;
                    MessageID := MessageID r; MessageArgs := MessageArgs r;
                    NumberOfArgs := Z.of_nat (length (MessageArgs r)); Severity := Severity r;
                    Resolution := Resolution r |} in
        Ok (with_message r ("The task with id " +:+ a0 +:+ " has started."))
    end
  else Ok r.

(** ** common/generalerror.go *)

(** What [GeneralError] hands to the task service when it is given a task to update. *)
Record TaskData (B : Type) := {
  td_TaskID : string;
  td_TargetURI : string;
  td_Response : RPC B;
  td_TaskRequest : string;
  td_TaskState : string;
  td_TaskStatus : string;
  td_PercentComplete : Z;
  td_HTTPMethod : string;
}.
Record TaskUpdateInfo := {
  tui_TaskID : string;
  tui_TargetURI : string;
  tui_TaskRequest : string;
  tui_HasUpdateTask : bool;   (* UpdateTask != nil *)
}.

(** The response, and the argument of the call to [UpdateTask] if one is made. *)
Definition GeneralErrorTask {B} (statusCode : Z) (statusMsg errMsg : string) (msgArgs : list iface)
    (t : option TaskUpdateInfo) : outcome (RPC B * option (TaskData B)) :=
  obind (errorRPC statusCode statusMsg errMsg msgArgs) (fun resp =>
    Ok (resp,
        match t with
        | Some t =>
            if negb (String.eqb (tui_TaskID t) "") && negb (String.eqb (tui_TargetURI t) "")
               && tui_HasUpdateTask t
            then Some {| td_TaskID := tui_TaskID t; td_TargetURI := tui_TargetURI t;
                         td_Response := resp; td_TaskRequest := tui_TaskRequest t;
                         td_TaskState := "Exception"; td_TaskStatus := "Critical";
                         td_PercentComplete := 100; td_HTTPMethod := "POST" |}
            else None
        | None => None
        end)).
Definition GeneralError {B} (statusCode : Z) (statusMsg errMsg : string) (msgArgs : list iface)
  : outcome (RPC B) :=
  obind (GeneralErrorTask statusCode statusMsg errMsg msgArgs None) (fun r => Ok r.1).

(** * The errors package

    lib-utilities/errors: the error value the database layer returns, its mapping to
    authentication status codes, and the error bodies built from a status message. *)

(** ** Error numbers and messages *)

Inductive ErrType : Type :=
| UndefinedErrorType
| DBKeyFetchFailed
| DBKeyNotFound
| DBKeyAlreadyExist
| DBConnFailed
| InvalidAuthToken
| JSONUnmarshalFailed
| DecryptionFailed.

#[export] Instance ErrType_eq_dec : EqDecision ErrType.
Proof. solve_decision. Defined.

(** The number behind each constant ([iota + 1]). *)
Definition ErrType_num (e : ErrType) : Z :=
  match e with
  | UndefinedErrorType => 1
  | DBKeyFetchFailed => 2
  | DBKeyNotFound => 3
  | DBKeyAlreadyExist => 4
  | DBConnFailed => 5
  | InvalidAuthToken => 6
  | JSONUnmarshalFailed => 7
  | DecryptionFailed => 8
  end.

Record Err := { errNum : ErrType; errMsg : string }.

(** [PackError(errno, args...)]; every caller passes strings and errors, whose texts
    [fmt.Sprint] joins without separators when one of two neighbours is a string. *)
Definition PackError (errno : ErrType) (args : list string) : Err :=
  {| errNum := errno; errMsg := String.concat "" args |}.
Definition ErrNo (e : Err) : ErrType := errNum e.

(** A call that returns [(A, *errors.Error)]. *)
Abbreviation result A := (Err + A)%type.

Definition GetAuthStatusCodeAndMessage (e : Err) : Z * string :=
  match ErrNo e with
  | DBConnFailed => (StatusServiceUnavailable, CouldNotEstablishConnection)
  | InvalidAuthToken => (StatusUnauthorized, NoValidSession)
  | _ => (StatusUnauthorized, NoValidSession)
  end.

(** ** Error bodies *)

Definition ResourceCannotBeModified := BaseVersion +:+ "ResourceCannotBeModified".
Definition UnauthorizedLoginAttempt := BaseVersion +:+ "UnauthorizedLoginAttempt".
Definition Unauthorized := BaseVersion +:+ "Unauthorized".

Definition extMsg (st text sev res : string) : list Msg :=
  [{| Msg_OdataType := ErrorMessageOdataType; Msg_MessageID := st; Msg_Message := text;
      Msg_Severity := sev; Msg_MessageArgs := []; Msg_Resolution := res |}].

Definition CreateErrorResponse (statusMessage errorMessage : string) : CommonError :=
  let st := statusMessage in
  let eqs x := String.eqb st x in
  let infos :=
    if eqs InsufficientPrivilege then
      extMsg st ("There are insufficient privileges for the account or credentials associated with the current session to perform the requested operation." +:+ errorMessage)
        "Critical" "Either abandon the operation or change the associated access rights and resubmit the request if the operation failed."
    else if eqs InternalError then
      extMsg st ("The request failed due to an internal service error.  The service is still operational." +:+ errorMessage)
        "Critical" "Resubmit the request.  If the problem persists, consider resetting the service."
    else if eqs PropertyMissing then
      extMsg st ("The property is a required property and must be included in the request." +:+ errorMessage)
        "Warning" "Ensure that the property is in the request body and has a valid value and resubmit the request if the operation failed."
    else if eqs PropertyValueNotInList then
      extMsg st ("The value for the property is not in the list of acceptable values." +:+ errorMessage)
        "Warning" "Choose a value from the enumeration list that the implementation can support and resubmit the request if the operation failed."
    else if eqs MalformedJSON then
      extMsg st ("The request body submitted was malformed JSON and could not be parsed by the receiving service." +:+ errorMessage)
        "Critical" "Ensure that the request body is valid JSON and resubmit the request."
    else if eqs ResourceNotFound then
      extMsg st ("The requested resource was not found." +:+ errorMessage)
        "Critical" "Provide a valid resource identifier and resubmit the request."
    else if eqs ResourceCannotBeModified then
      extMsg st ("The requested resource Cannot be modified." +:+ errorMessage)
        "Critical" "Do not attempt to modify a non-modifiable resource."
    else if eqs NoValidSession then
      extMsg st ("No valid session: " +:+ errorMessage)
        "Critical" "Do not attempt to with an invalid session."
    else if eqs UnauthorizedLoginAttempt || eqs Unauthorized then
      extMsg st "Please retry with valid login credentials or session token."
        "Critical" "If the issue persists contact system admin for further support."
    else if eqs ResourceInUse then extMsg st errorMessage "OK" "None"
    else if eqs PropertyValueFormatError then
      extMsg st errorMessage "Warning"
        "Correct the value for the property in the request body and resubmit the request if the operation failed."
    else if eqs ResourceCannotBeDeleted then
      extMsg st errorMessage "Critical" "Do not attempt to delete a non-deletable resource."
    else extMsg st ("default error message" +:+ errorMessage) "Warning" "default resolution." in
  {| Error := {| Code := st;
                 ErrorMessageText := "An error has occurred. See ExtendedInfo for more information.";
                 MessageExtendedInfo := infos |} |}.

Definition CreateErrResp (code errorMessage : string) : CommonError :=
  {| Error := {| Code := code; ErrorMessageText := errorMessage; MessageExtendedInfo := [] |} |}.
