(* ===== verification/CaseValidator.v ===== *)
(** lib-utilities/common/caseValidator.go: the check that the property names of a request body
    are spelled in the case the struct declares.

    A Go map is a list of entries with distinct keys, in the order the runtime happens to iterate
    it; [reqStructMap] is the request struct after a JSON round trip.  The type assertions and the
    slice index of the code panic where theirs do. *)
From stdpp Require Import base list strings.
From S2P Require Import Prelude Go.
Open Scope string_scope.

Abbreviation jmap := (list (string * json)).

Definition map_get (m : jmap) (k : string) : option json :=
  snd <$> List.find (fun kv => String.eqb kv.1 k) m.
Definition map_has (m : jmap) (k : string) : bool :=
  existsb (fun kv => String.eqb kv.1 k) m.

Definition searchIgnoreCase (reqMap : jmap) (searchKey : string) : bool :=
  existsb (fun kv => EqualFold kv.1 searchKey) reqMap.

Definition getInvalidProperty (reqStructMap : jmap) (key : string) : string :=
  if map_has reqStructMap key then ""
  else if searchIgnoreCase reqStructMap key then key +:+ " " else "".

(** [v.(map[string]interface{})], [v.([]interface{})] and the index expression on its result. *)
Definition assert_map (j : option json) : outcome jmap :=
  match j with Some (JObj kvs) => Ok kvs | _ => Panic end.
Definition assert_slice (j : option json) : outcome (list json) :=
  match j with Some (JArr l) => Ok l | _ => Panic end.
Definition index {A} (l : list A) (i : nat) : outcome A :=
  match l !! i with Some x => Ok x | None => Panic end.
Definition is_nil (j : option json) : bool :=
  match j with None | Some JNull => true | _ => false end.

(** Concatenates what each element contributes, in iteration order. *)
Fixpoint concatM {A} (f : A -> outcome string) (l : list A) : outcome string :=
  match l with
  | [] => Ok ""
  | x :: l' => obind (f x) (fun s => obind (concatM f l') (fun s' => Ok (s +:+ s')))
  end.

(** The value of one property.  [reqValidator] and [reqSliceValidator] call each other on smaller
    parts of the request value; both are here, the slice validator as the inner loop, which is
    where the recursion is structural. *)
Fixpoint reqValidator (v : json) (reqStructMap : jmap) (key : string) : outcome string :=
  match v with
  | JObj kvs =>
      if negb (map_has reqStructMap key) && negb (String.eqb key "")
      then Ok (getInvalidProperty reqStructMap key)
      else
        (fix entries (kvs : jmap) : outcome string :=
           match kvs with
           | [] => Ok ""
           | (nestedkey, nestedVal) :: kvs' =>
               obind (if negb (String.eqb key "")
                      then obind (assert_map (map_get reqStructMap key)) (fun inner =>
                             reqValidator nestedVal inner nestedkey)
                      else Ok (getInvalidProperty reqStructMap nestedkey))
                 (fun s => obind (entries kvs') (fun s' => Ok (s +:+ s')))
           end) kvs
  | JArr l =>
      if negb (map_has reqStructMap key) then Ok (getInvalidProperty reqStructMap key)
      else
        (* reqSliceValidator(v, reqStructMap, key): mapData is carried from one element to the next *)
        (fix elems (i : nat) (mapData : jmap) (l : list json) : outcome string :=
           match l with
           | [] => Ok ""
           | val :: l' =>
               match val with
               | JObj _ =>
                   obind (if is_nil (map_get reqStructMap key) then Ok mapData
                          else obind (assert_slice (map_get reqStructMap key)) (fun sl =>
                               obind (index sl i) (fun x => assert_map (Some x))))
                     (fun mapData' =>
                        obind (reqValidator val mapData' "") (fun s =>
                        obind (elems (S i) mapData' l') (fun s' => Ok (s +:+ s'))))
               | _ => elems (S i) mapData l'
               end
           end) 0%nat reqStructMap l
  | _ => Ok (getInvalidProperty reqStructMap key)
  end.

(** [rawReqBodyMap] is the decoded request body, [reqStructMap] the decoded struct. *)
Definition RequestParamsCaseValidator (rawRequestBody : jtext) (reqStructMap : jmap)
  : outcome string :=
  concatM (fun kv =>
             if map_has reqStructMap kv.1
             then reqValidator kv.2 reqStructMap kv.1
             else Ok (getInvalidProperty reqStructMap kv.1))
          (unmarshal_map rawRequestBody).
