(* ===== verification/Http.v ===== *)
(** The HTTP side of svc-api: requests, the response writer, and what the handlers use of net/http,
    net/url and the web framework, with lib-utilities/common/responses.go.

    A handler runs on the state of everything outside of the process's HTTP connection, of a type
    [S], and the response writer.  The bodies the services answer are of a type [B].  What the
    framework adds to a response on its own is left out. *)
From stdpp Require Import base gmap list strings sorting pretty.
From Stdlib Require Import ZArith QArith_base Ascii.
From S2P Require Import Prelude Go GoTime GoText Response.
Open Scope string_scope.

(** ** Headers (net/http) *)

Definition token_char (c : ascii) : bool :=
  is_upper c || is_lower c || is_digit c || string_exists (Ascii.eqb c) "!#$%&'*+-.^_`|~".
Definition upper (c : ascii) : ascii :=
  if is_lower c then ascii_of_nat (nat_of_ascii c - 32) else c.
Fixpoint canonical (first : bool) (s : string) : string :=
  match s with
  | EmptyString => ""
  | String c s' => String (if first then upper c else lower c) (canonical (Ascii.eqb c "-") s')
  end.
(** [http.CanonicalHeaderKey] *)
Definition CanonicalHeaderKey (k : string) : string :=
  if string_forall token_char k then canonical true k else k.

(** The first value of each header. *)
Abbreviation headers := (gmap string string).
Definition header_Get (h : headers) (k : string) : string := default "" (h !! CanonicalHeaderKey k).
Definition header_Set (k v : string) (h : headers) : headers := <[CanonicalHeaderKey k := v]> h.

(** ** Requests *)

Record Request := mkRequest {
  Method : string;
  Host : string;
  RequestURI : string;
  URLPath : string;          (* URL.Path *)
  ReqHeader : headers;
  ReqBody : jtext;
}.
Definition with_uri (uri path : string) (r : Request) : Request :=
  mkRequest (Method r) (Host r) uri path (ReqHeader r) (ReqBody r).
Definition with_header (k v : string) (r : Request) : Request :=
  mkRequest (Method r) (Host r) (RequestURI r) (URLPath r) (header_Set k v (ReqHeader r)) (ReqBody r).

(** What a handler is given: the request, and the parameters of the route that was found. *)
Record Context := mkContext { ctx_Request : Request; ctx_Params : list (string * string) }.
Definition Header_Get (ctx : Context) (k : string) : string := header_Get (ReqHeader (ctx_Request ctx)) k.
Definition Params_Get (ctx : Context) (k : string) : string :=
  match List.find (fun kv => String.eqb kv.1 k) (ctx_Params ctx) with Some kv => kv.2 | None => "" end.
Definition URI (ctx : Context) : string := RequestURI (ctx_Request ctx).
Definition X_Auth_Token := "X-Auth-Token".
Definition token (ctx : Context) : string := Header_Get ctx X_Auth_Token.

(** ** JSON values of type [interface{}] *)

(** A number becomes the float64 nearest to it, which is written in its shortest form; numbers too
    large for a float64 are not considered. *)
Definition float_int (n : Z) : Z :=
  if (Z.abs n <? 2 ^ 53)%Z then n
  else match round64 (n <? 0)%Z (Z.abs n) 1 with
       | Some (Fin q) => match atoi (FormatFloat (Fin (if (n <? 0)%Z then Qopp q else q))) with
                         | Some m => if (n <? 0)%Z then (- m)%Z else m
                         | None => n
                         end
       | _ => n
       end.
Definition key_le (a b : string * json) : Prop := String.leb a.1 b.1 = true.
#[export] Instance key_le_dec a b : Decision (key_le a b).
Proof. unfold key_le. apply _. Defined.
(** A JSON value after [json.Unmarshal] into an [interface{}] and [json.Marshal]. *)
Fixpoint through_interface (j : json) : json :=
  match j with
  | JNum n => JNum (float_int n)
  | JArr l => JArr (List.map through_interface l)
  | JObj kvs => JObj (merge_sort key_le (dedup_keys (List.map (fun kv => (kv.1, through_interface kv.2)) kvs)))
  | _ => j
  end.
(** [ctx.ReadJSON(&req)]: the text of the error, or the value. *)
Definition ReadJSON (ctx : Context) : string + json :=
  match ReqBody (ctx_Request ctx) with NotJson _ err => inl err | Text j => inr (through_interface j) end.
(** [json.Marshal] of such a value. *)
Definition Marshal (j : json) : jtext := Text j.
(** The same with a [json.RawMessage], which keeps the text. *)
Definition ReadRaw (ctx : Context) : string + jtext :=
  match ReqBody (ctx_Request ctx) with NotJson _ err => inl err | Text j => inr (Text j) end.
(** A field of bytes that is not set. *)
Definition no_bytes : jtext := empty_text.

(** ** The response *)

Section Http.
Context {S B : Type}.

(** A part of the body: the bytes of a service, or a value the gateway marshals. *)
Inductive chunk :=
| Bytes (b : body B)
| JSON (b : body B)
| JSONResponse (r : RPC B)
| JSONValue (j : json)
| JSONParsed (v : jval)
| XML (l : list (string * list (string * string))).

(** The status and the headers go out with the first part of the body. *)
Record Writer := mkWriter {
  w_header : headers;
  w_status : Z;
  w_sent : option (Z * headers);
  w_body : list chunk;
}.
Definition new_writer : Writer := mkWriter ∅ StatusOK None [].
(** What the client receives. *)
Definition reply_status (w : Writer) : Z := match w_sent w with Some s => s.1 | None => w_status w end.
Definition reply_header (w : Writer) : headers := match w_sent w with Some s => s.2 | None => w_header w end.

(** A computation of a handler. *)
Definition on_writer (f : Writer -> Writer) : M (S * Writer) unit := modify (fun s => (s.1, f s.2)).
Definition call {A} (m : M S A) : M (S * Writer) A :=
  fun s => let (o, s') := m s.1 in (o, (s', s.2)).

Definition SetHeader (k v : string) : M (S * Writer) unit :=
  on_writer (fun w => mkWriter (header_Set k v (w_header w)) (w_status w) (w_sent w) (w_body w)).
Definition SetStatus (n : Z) : M (S * Writer) unit :=
  on_writer (fun w => mkWriter (w_header w) n (w_sent w) (w_body w)).
Definition Write (c : chunk) : M (S * Writer) unit :=
  on_writer (fun w => mkWriter (w_header w) (w_status w)
                        (match w_sent w with None => Some (w_status w, w_header w) | s => s end)
                        (w_body w ++ [c])).

(** responses.go *)
Definition commonHeaders : list (string * string) :=
  [("Connection", "keep-alive"); ("OData-Version", "4.0"); ("X-Frame-Options", "sameorigin");
   ("X-Content-Type-Options", "nosniff"); ("Content-type", "application/json; charset=utf-8");
   ("Cache-Control", "no-cache, no-store, must-revalidate"); ("Transfer-Encoding", "chunked")].
Definition set_headers (l : list (string * string)) : M (S * Writer) unit :=
  on_writer (fun w => mkWriter (fold_left (fun h kv => header_Set kv.1 kv.2 h) l (w_header w))
                        (w_status w) (w_sent w) (w_body w)).
Definition SetCommonHeaders : M (S * Writer) unit := set_headers commonHeaders.
Definition SetResponseHeader (params : list (string * string)) : M (S * Writer) unit :=
  SetCommonHeaders ;;; set_headers params.

(** ** What every handler does *)

(** The answer of an RPC: a nil response and an error, or a response. *)
Abbreviation answer A := (option A * option string)%type.
Definition deref {A} (p : option A) : M (S * Writer) A := lift (match p with Some a => Ok a | None => Panic end).

(** The error block of the handlers. *)
Definition fail (statusCode : Z) (statusMessage errorMessage : string) : M (S * Writer) unit :=
  let! response := lift (GeneralError statusCode statusMessage errorMessage []) in
  SetResponseHeader (Header response) ;;;
  SetStatus statusCode ;;;
  Write (JSON (RBody response)).
(** The same where no header is set. *)
Definition fail_bare (statusCode : Z) (statusMessage errorMessage : string) : M (S * Writer) unit :=
  let! response := lift (GeneralError statusCode statusMessage errorMessage []) in
  SetStatus statusCode ;;;
  Write (JSON (RBody response)).
Definition unauthorized : string -> M (S * Writer) unit := fail StatusUnauthorized NoValidSession.
Definition malformed : string -> M (S * Writer) unit := fail StatusBadRequest MalformedJSON.
Definition internal : string -> M (S * Writer) unit := fail StatusInternalServerError InternalError.
(** The response of a service is passed on. *)
Definition respond (resp : RPC B) : M (S * Writer) unit :=
  SetResponseHeader (Header resp) ;;;
  SetStatus (StatusCode resp) ;;;
  Write (Bytes (RBody resp)).
Definition answered (r : answer (RPC B)) : M (S * Writer) unit :=
  let! resp := deref r.1 in respond resp.
Definition with_Header (hdr : list (string * string)) (resp : RPC B) : RPC B :=
  mkRPC (StatusCode resp) (StatusMessage resp) hdr (RBody resp).
(** [if err != nil && resp == nil]: the text of the error in that case. *)
Definition nil_and_err {A} (r : answer A) : option string :=
  match r with (None, Some err) => Some err | _ => None end.

Definition is_empty (s : string) : bool := String.eqb s "".
End Http.
Arguments chunk B : clear implicits.
Arguments Writer B : clear implicits.
Arguments new_writer {B}.
Abbreviation answer A := (option A * option string)%type.

Example canonical_keys : CanonicalHeaderKey <$> ["X-Auth-Token"; "Session-ID"; "Content-type"; "a b"] =
  ["X-Auth-Token"; "Session-Id"; "Content-Type"; "a b"].
Proof. reflexivity. Qed.
Example interface_sorts :
  through_interface (JObj [("b", JNum 9007199254740993); ("a", JNull); ("b", JArr [JNum (-1000000000000000001)])]) =
  JObj [("a", JNull); ("b", JArr [JNum (-1000000000000000000)])].
Proof. vm_compute. reflexivity. Qed.
