(* ===== verification/JobQueue.v ===== *)
(** lib-utilities/common/jobqueue.go: a queue without a bound, made of two channels and a goroutine
    that moves values from the first to the second through a slice.

    The state is the two channels, the variables of the goroutine, and the history of what was sent
    and received.  [step] runs one action of a producer, of a consumer or of the goroutine, when it
    is possible: any interleaving of the three is a sequence of steps.  A send on a channel that is
    full waits, and a send meets a waiting receiver directly ([SendRecv], [PutTake]), which is the
    only way on a channel without a buffer. *)
From stdpp Require Import base list.
From S2P Require Import Prelude.

Section JobQueue.
Context {A : Type}.

(** An [interface{}] value: nil or something. *)
Abbreviation data := (option A).

Definition getOutChannel {C} (buff : list data) (out : C) : option C :=
  match buff with [] => None | _ => Some out end.
Definition getCurrentData (buff : list data) : data :=
  match buff with [] => None | v :: _ => v end.

Record queue := mkqueue {
  qsize : nat;              (* the capacity of both channels *)
  c_in : list data;         (* the buffer of the in channel *)
  in_closed : bool;
  in_nil : bool;            (* the goroutine has set its [in] to nil *)
  buff : list data;
  c_out : list data;        (* the buffer of the out channel *)
  out_closed : bool;        (* and then the goroutine has ended *)
  sent : list data;
  taken : list data;
}.

Definition CreateJobQueue (qsize : nat) : queue :=
  mkqueue qsize [] false false [] [] false [] [].

Inductive label :=
| Send (v : data)        (* a producer puts a value into the buffer of in *)
| SendRecv (v : data)    (* a producer hands a value to the waiting goroutine *)
| CloseIn
| Recv                   (* the goroutine receives from in *)
| Put                    (* the goroutine puts into the buffer of out *)
| PutTake                (* the goroutine hands a value to a waiting consumer *)
| Take                   (* a consumer takes from the buffer of out *)
| CloseOut.

(** [for len(buff) > 0 || in != nil] *)
Definition loops (q : queue) : bool := negb (bool_decide (buff q = [])) || negb (in_nil q).
(** The goroutine waits at its select. *)
Definition selecting (q : queue) : bool := negb (out_closed q) && loops q.

(** The first case of the select, with a value. *)
Definition receive (v : data) (q : queue) : queue :=
  mkqueue (qsize q) (c_in q) (in_closed q) (in_nil q)
    (match v with Some _ => buff q ++ [v] | None => buff q end)
    (c_out q) (out_closed q) (sent q) (taken q).
Definition with_in (l : list data) (q : queue) : queue :=
  mkqueue (qsize q) l (in_closed q) (in_nil q) (buff q) (c_out q) (out_closed q) (sent q) (taken q).
Definition with_sent (v : data) (q : queue) : queue :=
  mkqueue (qsize q) (c_in q) (in_closed q) (in_nil q) (buff q) (c_out q) (out_closed q)
    (sent q ++ [v]) (taken q).
Definition with_taken (v : data) (q : queue) : queue :=
  mkqueue (qsize q) (c_in q) (in_closed q) (in_nil q) (buff q) (c_out q) (out_closed q) (sent q)
    (taken q ++ [v]).
Definition with_buff (b out : list data) (q : queue) : queue :=
  mkqueue (qsize q) (c_in q) (in_closed q) (in_nil q) b out (out_closed q) (sent q) (taken q).

(** What an action makes of the state; [None] when it has to wait.  Sending on a closed channel and
    closing it twice panic in the producer, and are not actions. *)
Definition step (l : label) (q : queue) : option queue :=
  match l with
  | Send v =>
      if negb (in_closed q) && Nat.ltb (length (c_in q)) (qsize q)
      then Some (with_sent v (with_in (c_in q ++ [v]) q)) else None
  | SendRecv v =>
      if negb (in_closed q) && negb (in_nil q) && selecting q && bool_decide (c_in q = [])
      then Some (with_sent v (receive v q)) else None
  | CloseIn =>
      if in_closed q then None
      else Some (mkqueue (qsize q) (c_in q) true (in_nil q) (buff q) (c_out q) (out_closed q)
                   (sent q) (taken q))
  | Recv =>
      if selecting q && negb (in_nil q) then
        match c_in q with
        | v :: r => Some (receive v (with_in r q))
        | [] => if in_closed q
                then Some (mkqueue (qsize q) [] true true (buff q) (c_out q) (out_closed q)
                             (sent q) (taken q))
                else None
        end
      else None
  | Put =>
      match getOutChannel (buff q) (c_out q) with
      | Some out =>
          if selecting q && Nat.ltb (length out) (qsize q)
          then Some (with_buff (tail (buff q)) (out ++ [getCurrentData (buff q)]) q) else None
      | None => None
      end
  | PutTake =>
      match getOutChannel (buff q) (c_out q) with
      | Some out =>
          if selecting q && bool_decide (out = [])
          then Some (with_taken (getCurrentData (buff q)) (with_buff (tail (buff q)) out q)) else None
      | None => None
      end
  | Take =>
      match c_out q with
      | v :: r => Some (with_taken v (with_buff (buff q) r q))
      | [] => None
      end
  | CloseOut =>
      if negb (out_closed q) && negb (loops q)
      then Some (mkqueue (qsize q) (c_in q) (in_closed q) (in_nil q) (buff q) (c_out q) true
                   (sent q) (taken q))
      else None
  end.

Fixpoint run (ls : list label) (q : queue) : option queue :=
  match ls with
  | [] => Some q
  | l :: ls' => match step l q with Some q' => run ls' q' | None => None end
  end.

Inductive reachable (n : nat) : queue -> Prop :=
| reach_new : reachable n (CreateJobQueue n)
| reach_step q l q' : reachable n q -> step l q = Some q' -> reachable n q'.

(** ** Specification *)

Definition is_data (v : data) : bool := match v with Some _ => true | None => false end.
(** The values that are not nil, in order. *)
Definition kept (l : list data) : list data := List.filter is_data l.

#[global] Arguments kept : simpl never.

Record inv (n : nat) (q : queue) : Prop := {
  inv_size : qsize q = n;
  inv_order : taken q ++ c_out q ++ buff q ++ kept (c_in q) = kept (sent q);
  inv_buff : Forall (fun v => is_data v = true) (buff q);
  inv_in_nil : in_nil q = true -> in_closed q = true /\ c_in q = [];
  inv_out : out_closed q = true -> in_nil q = true /\ buff q = [];
}.
End JobQueue.
Arguments queue A : clear implicits.
Arguments label A : clear implicits.

(** A producer sends 1, nil and 2 to a queue with channels of one place, and closes it; one value is
    taken. *)
Definition busy_schedule : list (label nat) :=
  [Send (Some 1); Recv; Send None; Recv; Put; SendRecv (Some 2); CloseIn; Take; Put; Recv; CloseOut].
Definition busy_queue : queue nat :=
  default (CreateJobQueue 1) (run busy_schedule (CreateJobQueue 1)).
