(* ===== verification/WorkerPool.v ===== *)
(** lib-utilities/common/workerpool.go: workers that read jobs from a job queue, and workers that
    write a batch of values into a channel under a lock.

    A goroutine is its program point; a label runs the goroutine [i] from one point to the next
    when it does not have to wait, so that every interleaving is a sequence of labels. *)
From stdpp Require Import base list.
From S2P Require Import Prelude JobQueue.

Section ReadWorkers.
Context {A : Type}.
Abbreviation data := (option A).

(** A worker waits in [range jobChannel], runs [jobProcess], or has left its loop. *)
Inductive reader :=
| Waiting
| Working (j : data)
| Ended.

Record pool := mkpool {
  p_queue : queue A;        (* the job queue whose out channel is read *)
  readers : list reader;
  processed : list data;    (* the jobs that are done, in the order they ended *)
}.

Definition RunReadWorkers (jobChannel : queue A) (workerCount : nat) : pool :=
  mkpool jobChannel (replicate workerCount Waiting) [].

Inductive plabel :=
| QueueStep (l : label A)          (* an action that is not a receive from out *)
| Start (i : nat) (direct : bool)  (* worker [i] receives a job, from the buffer or the goroutine *)
| Finish (i : nat)
| EndRange (i : nat).              (* out is closed and empty *)

Definition pstep (l : plabel) (p : pool) : option pool :=
  match l with
  | QueueStep Take | QueueStep PutTake => None
  | QueueStep l =>
      match step l (p_queue p) with
      | Some q => Some (mkpool q (readers p) (processed p))
      | None => None
      end
  | Start i direct =>
      match readers p !! i, step (if direct then PutTake else Take) (p_queue p) with
      | Some Waiting, Some q =>
          Some (mkpool q (<[i := Working (default None (last (taken q)))]> (readers p)) (processed p))
      | _, _ => None
      end
  | Finish i =>
      match readers p !! i with
      | Some (Working j) => Some (mkpool (p_queue p) (<[i := Waiting]> (readers p)) (processed p ++ [j]))
      | _ => None
      end
  | EndRange i =>
      match readers p !! i with
      | Some Waiting =>
          if out_closed (p_queue p) && bool_decide (c_out (p_queue p) = [])
          then Some (mkpool (p_queue p) (<[i := Ended]> (readers p)) (processed p)) else None
      | _ => None
      end
  end.

Fixpoint pruns (ls : list plabel) (p : pool) : option pool :=
  match ls with
  | [] => Some p
  | l :: ls' => match pstep l p with Some p' => pruns ls' p' | None => None end
  end.

Inductive preachable (n workerCount : nat) : pool -> Prop :=
| preach_new : preachable n workerCount (RunReadWorkers (CreateJobQueue n) workerCount)
| preach_step p l p' : preachable n workerCount p -> pstep l p = Some p' -> preachable n workerCount p'.

(** The jobs the workers are at. *)
Definition jobs_of (r : reader) : list data := match r with Working j => [j] | _ => [] end.
Definition working (p : pool) : list data := concat (jobs_of <$> readers p).
End ReadWorkers.
Arguments reader A : clear implicits.
Arguments pool A : clear implicits.
Arguments plabel A : clear implicits.

Section WriteWorkers.
Context {A : Type}.

(** The points of a writer's loop.  The lock is not released on the way to [Returned]. *)
Inductive writer :=
| AtLock               (* waits for the lock *)
| HasLock              (* about to look at the batch *)
| Sending (v : A)      (* has taken a value and waits to send it *)
| SentIt               (* about to unlock *)
| AtDone               (* found the batch empty and waits to send on done *)
| Returned.

Record dataBatchStore := mkstore {
  dataBatch : list A;
  lock : bool;              (* is the mutex held *)
  writers : list writer;
  jobChannel : list A;      (* what was sent on the job channel *)
  done_sent : nat;          (* how many times done received a value *)
}.

Definition RunWriteWorkers (batch : list A) (workerCount : nat) : dataBatchStore :=
  mkstore batch false (replicate workerCount AtLock) [] 0.

(** One move of writer [i]: both channels are taken to be received from. *)
Definition wstep (i : nat) (s : dataBatchStore) : option dataBatchStore :=
  match writers s !! i with
  | Some AtLock =>
      if lock s then None
      else Some (mkstore (dataBatch s) true (<[i := HasLock]> (writers s)) (jobChannel s) (done_sent s))
  | Some HasLock =>
      match dataBatch s with
      | [] => Some (mkstore [] (lock s) (<[i := AtDone]> (writers s)) (jobChannel s) (done_sent s))
      | v :: r => (* getNextData *)
          Some (mkstore r (lock s) (<[i := Sending v]> (writers s)) (jobChannel s) (done_sent s))
      end
  | Some (Sending v) =>
      Some (mkstore (dataBatch s) (lock s) (<[i := SentIt]> (writers s)) (jobChannel s ++ [v]) (done_sent s))
  | Some SentIt =>
      Some (mkstore (dataBatch s) false (<[i := AtLock]> (writers s)) (jobChannel s) (done_sent s))
  | Some AtDone =>
      Some (mkstore (dataBatch s) (lock s) (<[i := Returned]> (writers s)) (jobChannel s) (S (done_sent s)))
  | Some Returned | None => None
  end.

Fixpoint wruns (sched : list nat) (s : dataBatchStore) : option dataBatchStore :=
  match sched with
  | [] => Some s
  | i :: sched' => match wstep i s with Some s' => wruns sched' s' | None => None end
  end.

(** What a point holds in its hand, and whether it holds the lock. *)
Definition in_hand (w : writer) : list A := match w with Sending v => [v] | _ => [] end.
Definition holds_lock (w : writer) : bool := match w with AtLock => false | _ => true end.
End WriteWorkers.
Arguments writer A : clear implicits.
Arguments dataBatchStore A : clear implicits.

(** Two workers on the queue of one place: a schedule that runs to the end. *)
Definition busy_pool_schedule : list (plabel nat) :=
  [QueueStep (Send (Some 1)); QueueStep Recv; Start 0 true; QueueStep (SendRecv (Some 2));
   QueueStep Put; Start 1 false; Finish 1; QueueStep CloseIn; QueueStep Recv; QueueStep CloseOut;
   EndRange 1; Finish 0; EndRange 0].
Definition busy_pool : pool nat :=
  default (RunReadWorkers (CreateJobQueue 1) 2)
    (pruns busy_pool_schedule (RunReadWorkers (CreateJobQueue 1) 2)).
