(* ===== verification/QueueProps.v ===== *)
(** The job queue delivers every value once and in order, never makes a producer wait for a
    consumer, and ends after its in channel is closed; the pool of readers processes every job
    once; the writers write their batch in order, and only one of them ever returns. *)
From stdpp Require Import base list.
From S2P Require Import Prelude JobQueue WorkerPool.

(** ** The job queue *)

Section queue.
Context {A : Type}.
Implicit Types (q : queue A) (v : option A) (l : label A).

Lemma kept_app (a b : list (option A)) : kept (a ++ b) = kept a ++ kept b.
Proof. apply List.filter_app. Qed.
Lemma kept_all (a : list (option A)) : Forall (fun v => is_data v = true) a -> kept a = a.
Proof. induction 1 as [|v a Hv _ IH]; [done|]. unfold kept in *. cbn. by rewrite Hv, IH. Qed.

Lemma selecting_spec q : selecting q = true <->
  out_closed q = false /\ (buff q <> [] \/ in_nil q = false).
Proof.
  unfold selecting, loops. rewrite andb_true_iff, orb_true_iff, !negb_true_iff, bool_decide_eq_false.
  done.
Qed.

Lemma kept_snoc (a : list (option A)) v :
  kept (a ++ [v]) = kept a ++ match v with Some _ => [v] | None => [] end.
Proof. rewrite kept_app. by destruct v. Qed.
Lemma kept_cons v (a : list (option A)) :
  kept (v :: a) = match v with Some _ => [v] | None => [] end ++ kept a.
Proof. by destruct v. Qed.

(** The actions as a relation: the same steps, with their guards as propositions. *)
Inductive acts q : label A -> queue A -> Prop :=
| A_send v : in_closed q = false -> length (c_in q) < qsize q ->
    acts q (Send v) (with_sent v (with_in (c_in q ++ [v]) q))
| A_send_recv v : in_closed q = false -> in_nil q = false -> out_closed q = false -> c_in q = [] ->
    acts q (SendRecv v) (with_sent v (receive v q))
| A_close_in : in_closed q = false ->
    acts q CloseIn (mkqueue (qsize q) (c_in q) true (in_nil q) (buff q) (c_out q) (out_closed q)
                      (sent q) (taken q))
| A_recv v r : out_closed q = false -> in_nil q = false -> c_in q = v :: r ->
    acts q Recv (receive v (with_in r q))
| A_recv_closed : out_closed q = false -> in_nil q = false -> c_in q = [] -> in_closed q = true ->
    acts q Recv (mkqueue (qsize q) [] true true (buff q) (c_out q) (out_closed q) (sent q) (taken q))
| A_put v r : out_closed q = false -> buff q = v :: r -> length (c_out q) < qsize q ->
    acts q Put (with_buff r (c_out q ++ [v]) q)
| A_put_take v r : out_closed q = false -> buff q = v :: r -> c_out q = [] ->
    acts q PutTake (with_taken v (with_buff r [] q))
| A_take v r : c_out q = v :: r -> acts q Take (with_taken v (with_buff (buff q) r q))
| A_close_out : out_closed q = false -> in_nil q = true -> buff q = [] ->
    acts q CloseOut (mkqueue (qsize q) (c_in q) (in_closed q) (in_nil q) (buff q) (c_out q) true
                       (sent q) (taken q)).

Lemma step_acts q l q' : step l q = Some q' <-> acts q l q'.
Proof.
  split.
  - intros H. destruct l; unfold step in H.
    + destruct (in_closed q) eqn:?; [done|]. cbn [negb andb] in H.
      destruct (Nat.ltb _ _) eqn:E; [|done].
      injection H as <-. constructor; [done|by apply Nat.ltb_lt].
    + destruct (in_closed q) eqn:?, (in_nil q) eqn:?; try done. cbn [negb andb] in H.
      destruct (selecting q) eqn:Hs; [|done]. apply selecting_spec in Hs as [? _].
      destruct (bool_decide _) eqn:E; [|done]. injection H as <-.
      constructor; try done. by apply bool_decide_eq_true in E.
    + destruct (in_closed q) eqn:?; [done|]. injection H as <-. by constructor.
    + destruct (selecting q) eqn:Hs; [|done]. apply selecting_spec in Hs as [? _].
      destruct (in_nil q) eqn:?; [done|]. cbn [negb andb] in H. destruct (c_in q) eqn:?.
      * destruct (in_closed q) eqn:?; [|done]. injection H as <-. by constructor.
      * injection H as <-. by constructor.
    + destruct (buff q) as [|v r] eqn:?; [done|]. cbn [getOutChannel getCurrentData tail] in H.
      destruct (selecting q) eqn:Hs; [|done]. apply selecting_spec in Hs as [? _].
      cbn [andb] in H. destruct (Nat.ltb _ _) eqn:E; [|done]. injection H as <-.
      constructor; [done|done|by apply Nat.ltb_lt].
    + destruct (buff q) as [|v r] eqn:?; [done|]. cbn [getOutChannel getCurrentData tail] in H.
      destruct (selecting q) eqn:Hs; [|done]. apply selecting_spec in Hs as [? _].
      destruct (bool_decide _) eqn:E; [|done]. apply bool_decide_eq_true in E. rewrite E in H.
      injection H as <-. by constructor.
    + destruct (c_out q) as [|v r] eqn:?; [done|]. injection H as <-. by constructor.
    + destruct (out_closed q) eqn:?; [done|]. destruct (loops q) eqn:El; [done|].
      injection H as <-. unfold loops in El.
      apply orb_false_iff in El as [E1%negb_false_iff E2%negb_false_iff].
      apply bool_decide_eq_true in E1. by constructor.
  - assert (Hsel : out_closed q = false -> buff q <> [] \/ in_nil q = false -> selecting q = true).
    { intros ? ?. by apply selecting_spec. }
    destruct 1 as [v H1 H2|v H1 H2 H3 H4|H1|v r H1 H2 H3|H1 H2 H3 H4|v r H1 H2 H3|v r H1 H2 H3|v r H1|H1 H2 H3];
      unfold step.
    + rewrite H1. by rewrite (proj2 (Nat.ltb_lt _ _) H2).
    + rewrite H1, H2, Hsel by auto. by rewrite bool_decide_eq_true_2.
    + by rewrite H1.
    + rewrite Hsel by auto. by rewrite H2, H3.
    + rewrite Hsel by auto. by rewrite H2, H3, H4.
    + rewrite H2. cbn [getOutChannel getCurrentData tail]. rewrite Hsel by (auto; left; by rewrite H2).
      by rewrite (proj2 (Nat.ltb_lt _ _) H3).
    + rewrite H2. cbn [getOutChannel getCurrentData tail]. rewrite Hsel by (auto; left; by rewrite H2).
      by rewrite bool_decide_eq_true_2, H3.
    + by rewrite H1.
    + unfold loops. by rewrite H1, H2, bool_decide_eq_true_2.
Qed.

Lemma acts_inv n q l q' : inv n q -> acts q l q' -> inv n q'.
Proof.
  intros [Hs Ho Hb Hi Hc] Hst.
  destruct Hst as [v H1 H2|v H1 H2 H3 H4|H1|v r H1 H2 H3|H1 H2 H3 H4|v r H1 H2 H3|v r H1 H2 H3|v r H1|H1 H2 H3];
    split; cbn; try done;
    try match goal with |- _ = _ =>
      rewrite ?kept_snoc, <- ?Ho, ?H2, ?H3, ?H4, ?kept_cons, <- ?(assoc_L (++)); cbn;
      rewrite ?app_nil_r, ?H1, ?H2, ?H3; by try destruct v; rewrite <- ?(assoc_L (++)), ?app_nil_r end.
  all: try (destruct v; [apply Forall_app; by repeat constructor|done]).
  all: try (rewrite H2 in Hb; by inversion Hb).
  all: intros E; try (destruct (Hi E)); try (destruct (Hc E)); try (split; congruence); congruence.
Qed.

Lemma reachable_inv n q : reachable n q -> inv n q.
Proof.
  induction 1 as [|q l q' _ IH Hst]; [by split|]. eapply acts_inv; [done|]. by apply step_acts.
Qed.

(** C23: The job queue delivers every value that is not nil exactly once and in the order of the
    sends: what was taken, what waits in the three buffers, in this order, is what was sent without
    the nils.  The out channel is closed only after in was closed and all values have reached it. *)
Theorem job_queue_fifo n q : reachable n q ->
  taken q ++ c_out q ++ buff q ++ kept (c_in q) = kept (sent q) /\
  (out_closed q = true -> in_closed q = true /\ taken q ++ c_out q = kept (sent q)).
Proof.
  intros Hr. destruct (reachable_inv _ _ Hr) as [_ Ho _ Hi Hc]. split; [done|]. intros E.
  destruct (Hc E) as [E' Hb]. destruct (Hi E') as [E'' Hin]. split; [done|].
  rewrite <- Ho, Hb, Hin. change (kept []) with (@nil (option A)). by rewrite app_nil_r.
Qed.

(** What the goroutine can do on its own: empty the in channel. *)
Lemma drain_in n q : inv n q -> in_closed q = false ->
  exists q', run (replicate (length (c_in q)) Recv) q = Some q' /\ c_in q' = [] /\
    in_closed q' = false /\ taken q' = taken q /\ c_out q' = c_out q /\ inv n q'.
Proof.
  remember (c_in q) as l eqn:El. revert q El. induction l as [|v l IH]; intros q El Hq Hc.
  { by exists q. }
  assert (Hst : acts q Recv (receive v (with_in l q))).
  { destruct Hq as [_ _ _ Hi Ho]. apply A_recv; [| |done].
    - apply not_true_iff_false. intros E. destruct (Hi (proj1 (Ho E))). congruence.
    - apply not_true_iff_false. intros E. destruct (Hi E). congruence. }
  destruct (IH (receive v (with_in l q))) as (q' & Hrun & Hrest); [done|by eapply acts_inv|done|].
  exists q'. split; [|done]. cbn [length replicate run]. by rewrite (proj2 (step_acts _ _ _) Hst).
Qed.

(** The queue has no bound: in any state, whatever the consumers do, the goroutine alone can
    make room, after receiving what waits in the in channel, for the value of any producer. *)
Lemma job_queue_never_blocks n q v : reachable n q -> in_closed q = false ->
  exists q' q'', run (replicate (length (c_in q)) Recv) q = Some q' /\
    taken q' = taken q /\ c_out q' = c_out q /\
    step (SendRecv v) q' = Some q'' /\ sent q'' = sent q' ++ [v].
Proof.
  intros Hr Hc. destruct (drain_in n q (reachable_inv _ _ Hr) Hc) as (q' & Hrun & Hin & Hc' & Ht & Ho & Hq).
  exists q', (with_sent v (receive v q')). split_and!; try done. apply step_acts.
  destruct Hq as [_ _ _ Hi Hout]. apply A_send_recv; [done| | |done]; apply not_true_iff_false; intros E.
  - destruct (Hi E). congruence.
  - destruct (Hi (proj1 (Hout E))). congruence.
Qed.

(** Every action but a send brings the end of the queue nearer. *)
Definition queue_left q : nat :=
  5 * length (c_in q) + 4 * length (buff q) + 3 * length (c_out q)
  + (if in_nil q then 0 else 1) + (if out_closed q then 0 else 1).
#[local] Arguments queue_left : simpl never.
Lemma acts_measure q l q' : in_closed q = true -> acts q l q' ->
  in_closed q' = true /\ sent q' = sent q /\
  match l with
  | Take | PutTake => S (S (queue_left q')) <= queue_left q
  | _ => S (queue_left q') <= queue_left q
  end.
Proof.
  unfold queue_left. intros Hc Hst.
  destruct Hst as [v H1 H2|v H1 H2 H3 H4|H1|v r H1 H2 H3|H1 H2 H3 H4|v r H1 H2 H3|v r H1 H2 H3|v r H1|H1 H2 H3];
    try congruence; cbn -[Nat.mul]; rewrite ?H1, ?H2, ?H3, ?length_app; cbn -[Nat.mul];
    repeat split; try done; try lia.
  destruct v; rewrite ?length_app; cbn; lia.
Qed.

(** With a consumer at hand a queue whose in channel is closed moves on until it has ended. *)
Lemma queue_progress n q : inv n q -> in_closed q = true ->
  (exists l q', step l q = Some q' /\ l <> Take /\ l <> PutTake) \/
  (exists v, (exists q', step Take q = Some q' /\ last (taken q') = Some v) \/
             (exists q', step PutTake q = Some q' /\ last (taken q') = Some v)) \/
  (out_closed q = true /\ c_out q = []).
Proof.
  intros [_ _ _ Hi Ho] Hc. destruct (c_out q) as [|v r] eqn:Eo.
  2: { right; left. exists v. left. eexists. split; [by apply step_acts, A_take|]. cbn. by rewrite last_snoc. }
  destruct (out_closed q) eqn:Eoc; [by do 2 right|].
  destruct (buff q) as [|v r] eqn:Eb.
  2: { right; left. exists v. right. eexists. split; [by eapply step_acts, A_put_take|].
       cbn. by rewrite last_snoc. }
  left. destruct (in_nil q) eqn:En.
  - eexists CloseOut, _. split; [by apply step_acts, A_close_out|done].
  - destruct (c_in q) as [|v r] eqn:Ei.
    + eexists Recv, _. split; [by apply step_acts, A_recv_closed|done].
    + eexists Recv, _. split; [by eapply step_acts, A_recv|done].
Qed.
End queue.

Lemma job_queue_never_blocks_witness :
  in_closed (CreateJobQueue (A:=nat) 0) = false /\
  exists q' q'', run (replicate 0 Recv) (CreateJobQueue (A:=nat) 0) = Some q' /\
    taken q' = [] /\ c_out q' = [] /\ step (SendRecv (Some 7)) q' = Some q'' /\
    sent q'' = sent q' ++ [Some 7].
Proof.
  split; [done|]. apply (job_queue_never_blocks 0 (CreateJobQueue 0) (Some 7)); [constructor|done].
Defined.

Lemma run_reachable {A} n ls (q q' : queue A) : reachable n q -> run ls q = Some q' -> reachable n q'.
Proof.
  revert q. induction ls as [|l ls IH]; intros q Hr; [by intros [= <-]|]. cbn.
  destruct (step l q) eqn:E; [|done]. apply IH. by eapply reach_step.
Qed.
Lemma busy_reachable : reachable 1 busy_queue.
Proof. apply (run_reachable 1 busy_schedule (CreateJobQueue 1)); [apply reach_new|by vm_compute]. Qed.
Lemma job_queue_fifo_witness :
  out_closed busy_queue = true /\ taken busy_queue = [Some 1] /\ c_out busy_queue = [Some 2] /\
  taken busy_queue ++ c_out busy_queue = kept (sent busy_queue).
Proof. split_and!; [done..|]. by apply (job_queue_fifo 1 busy_queue busy_reachable). Defined.

(** ** Workers that read *)

#[local] Arguments queue_left : simpl never.

Section readers.
Context {A : Type}.
Implicit Types (p : pool A).

(** Replacing what one worker holds. *)
Lemma concat_insert {B C} (f : B -> list C) (rs : list B) i r r' : rs !! i = Some r ->
  concat (f <$> <[i := r']> rs) ++ f r ≡ₚ concat (f <$> rs) ++ f r'.
Proof.
  intros Hi. rewrite <- (take_drop_middle rs i r Hi) at 2.
  rewrite (insert_take_drop rs i r') by (by eapply lookup_lt_Some).
  rewrite !fmap_app, !fmap_cons, !concat_app. cbn [concat].
  rewrite <- !(assoc_L (++)). f_equiv. rewrite !(assoc_L (++)).
  rewrite (Permutation_app_comm (f r' ++ _) (f r)), (Permutation_app_comm (f r ++ _) (f r')).
  rewrite !(assoc_L (++)). f_equiv. apply Permutation_app_comm.
Qed.

(** The value a worker receives is the last one taken. *)
Lemma take_last (q : queue A) l q' : l = Take \/ l = PutTake -> step l q = Some q' ->
  taken q' = taken q ++ [default None (last (taken q'))] /\ sent q' = sent q /\
  in_closed q' = in_closed q.
Proof.
  intros Hl Hst. apply step_acts in Hst.
  destruct Hst; destruct Hl; try done; cbn; by rewrite last_snoc.
Qed.
Lemma step_taken (q : queue A) l q' : l <> Take -> l <> PutTake -> step l q = Some q' -> taken q' = taken q.
Proof. intros H1 H2 Hst. apply step_acts in Hst. by destruct Hst. Qed.

Lemma pstep_queue p l p' : pstep l p = Some p' ->
  (exists l', l = QueueStep l' /\ l' <> Take /\ l' <> PutTake /\
     step l' (p_queue p) = Some (p_queue p') /\ readers p' = readers p /\ processed p' = processed p) \/
  (exists i b, l = Start i b /\ readers p !! i = Some Waiting /\
     step (if b then PutTake else Take) (p_queue p) = Some (p_queue p') /\
     readers p' = <[i := Working (default None (last (taken (p_queue p'))))]> (readers p) /\
     processed p' = processed p) \/
  (exists i j, l = Finish i /\ readers p !! i = Some (Working j) /\ p_queue p' = p_queue p /\
     readers p' = <[i := Waiting]> (readers p) /\ processed p' = processed p ++ [j]) \/
  (exists i, l = EndRange i /\ readers p !! i = Some Waiting /\ p_queue p' = p_queue p /\
     out_closed (p_queue p) = true /\ c_out (p_queue p) = [] /\
     readers p' = <[i := Ended]> (readers p) /\ processed p' = processed p).
Proof.
  intros H. destruct l as [l|i b|i|i]; unfold pstep in H.
  - left. destruct (step l (p_queue p)) as [q|] eqn:E; destruct l; try done; injection H as <-; by eexists.
  - right; left. destruct (readers p !! i) as [[]|] eqn:Ei; try done.
    destruct (step (if b then PutTake else Take) (p_queue p)) as [q|] eqn:E; [|done]. injection H as <-.
    by eexists i, b.
  - do 2 right; left. destruct (readers p !! i) as [[|j|]|] eqn:Ei; try done. injection H as <-.
    by eexists i, j.
  - do 3 right. destruct (readers p !! i) as [[]|] eqn:Ei; try done.
    destruct (out_closed (p_queue p)) eqn:Eo; [|done].
    destruct (bool_decide _) eqn:Eb; [|done]. apply bool_decide_eq_true in Eb. injection H as <-.
    by eexists i.
Qed.

Lemma closed_stays (q : queue A) l q' : step l q = Some q' -> out_closed q = true -> c_out q = [] ->
  out_closed q' = true /\ c_out q' = [].
Proof. intros Hst Ho Hc. apply step_acts in Hst. destruct Hst; cbn; split; congruence. Qed.
Lemma ended_closed n k p : preachable n k p -> Ended ∈ readers p ->
  out_closed (p_queue p) = true /\ c_out (p_queue p) = [].
Proof.
  induction 1 as [|p l p' _ IH Hst].
  { cbn. intros Hin. apply elem_of_replicate in Hin as [? _]. done. }
  assert (Hins : forall i r, r <> Ended -> Ended ∈ <[i := r]> (readers p) -> Ended ∈ readers p).
  { intros i r Hr Hin. apply list_elem_of_lookup in Hin as [j Hj]. apply list_elem_of_lookup. exists j.
    destruct (decide (i = j)) as [-> |Hne]; [|by rewrite list_lookup_insert_ne in Hj].
    apply list_lookup_insert_Some in Hj. naive_solver. }
  apply pstep_queue in Hst as [(l' & -> & H1 & H2 & Hs & Hr & _)
    |[(i & b & -> & Hi & Hs & Hr & _)|[(i & j & -> & Hi & Hq & Hr & _)|(i & -> & Hi & Hq & Ho & Hc & Hr & _)]]];
    rewrite Hr; intros Hin.
  - destruct (IH Hin). by eapply closed_stays.
  - apply Hins in Hin; [|done]. destruct (IH Hin). by eapply closed_stays.
  - apply Hins in Hin; [|done]. rewrite Hq. auto.
  - by rewrite Hq.
Qed.
Lemma preachable_spec n k p : preachable n k p ->
  reachable n (p_queue p) /\ length (readers p) = k /\
  processed p ++ working p ≡ₚ taken (p_queue p).
Proof.
  induction 1 as [|p l p' _ (Hq & Hl & Hp) Hst].
  { split_and!; [apply reach_new|cbn; by rewrite length_replicate|]. unfold working; cbn.
    induction k as [|k IH]; [done|exact IH]. }
  unfold working in *.
  apply pstep_queue in Hst as [(l' & -> & H1 & H2 & Hs & Hr & Hd)
    |[(i & b & -> & Hi & Hs & Hr & Hd)|[(i & j & -> & Hi & Hq' & Hr & Hd)|(i & -> & Hi & Hq' & _ & _ & Hr & Hd)]]];
    rewrite Hd, Hr, ?length_insert; (split_and!; [try (by eapply reach_step); by rewrite Hq'|done|]).
  - by rewrite (step_taken _ _ _ H1 H2 Hs).
  - pose proof (concat_insert jobs_of (readers p) i Waiting
      (Working (default None (last (taken (p_queue p'))))) Hi) as Hc.
    cbn [jobs_of] in Hc. rewrite app_nil_r in Hc. rewrite Hc, (assoc (++)), Hp.
    destruct (take_last _ (if b then PutTake else Take) _ ltac:(destruct b; auto) Hs) as [Ht _].
    by rewrite <- Ht.
  - pose proof (concat_insert jobs_of (readers p) i (Working j) Waiting Hi) as Hc.
    cbn [jobs_of] in Hc. rewrite app_nil_r in Hc. rewrite Hq', <- Hp, <- Hc.
    rewrite <- (assoc (++)). f_equiv. apply Permutation_app_comm.
  - pose proof (concat_insert jobs_of (readers p) i Waiting Ended Hi) as Hc.
    cbn [jobs_of] in Hc. rewrite !app_nil_r in Hc. by rewrite Hq', Hc.
Qed.

Definition weight (r : reader A) : nat := match r with Waiting => 1 | Working _ => 2 | Ended => 0 end.
Definition pool_left p : nat := queue_left (p_queue p) + sum_list_with weight (readers p).

#[local] Arguments pool_left : simpl never.

Lemma sum_insert {B} (f : B -> nat) (rs : list B) i r r' : rs !! i = Some r ->
  sum_list_with f (<[i := r']> rs) + f r = sum_list_with f rs + f r'.
Proof.
  revert i. induction rs as [|r0 rs IH]; intros [|i] Hi; simplify_eq/=; [lia|].
  specialize (IH i Hi). lia.
Qed.

Lemma pstep_measure p l p' : in_closed (p_queue p) = true -> pstep l p = Some p' ->
  S (pool_left p') <= pool_left p /\ in_closed (p_queue p') = true /\
  sent (p_queue p') = sent (p_queue p).
Proof.
  unfold pool_left. intros Hc Hst.
  apply pstep_queue in Hst as [(l' & -> & H1 & H2 & Hs & Hr & _)
    |[(i & b & -> & Hi & Hs & Hr & _)|[(i & j & -> & Hi & Hq & Hr & _)|(i & -> & Hi & Hq & _ & _ & Hr & _)]]];
    rewrite Hr; rewrite ?Hq.
  - apply step_acts in Hs. destruct (acts_measure _ _ _ Hc Hs) as (? & ? & Hm).
    split_and!; [|done..]. destruct l'; try done; cbn -[queue_left] in Hm; lia.
  - apply step_acts in Hs. destruct (acts_measure _ _ _ Hc Hs) as (? & ? & Hm).
    pose proof (sum_insert weight _ i _ (Working (default None (last (taken (p_queue p'))))) Hi).
    cbn [weight] in *. split_and!; [|done..]. destruct b; cbn -[queue_left] in Hm; lia.
  - pose proof (sum_insert weight _ i _ Waiting Hi). cbn [weight] in *. split_and!; [lia|done..].
  - pose proof (sum_insert weight _ i _ Ended Hi). cbn [weight] in *. split_and!; [lia|done..].
Qed.
Lemma pruns_measure p ls p' : in_closed (p_queue p) = true -> pruns ls p = Some p' ->
  length ls + pool_left p' <= pool_left p.
Proof.
  revert p. induction ls as [|l ls IH]; intros p Hc; [intros [= ->]; cbn; lia|]. cbn.
  destruct (pstep l p) as [p1|] eqn:E; [|done]. intros Hr.
  destruct (pstep_measure _ _ _ Hc E) as (Hm & Hc' & _). specialize (IH _ Hc' Hr). lia.
Qed.

(** When nothing can move any more, every worker has left its loop. *)
Lemma stuck_ended n k p : preachable n (S k) p -> in_closed (p_queue p) = true ->
  (forall l, pstep l p = None) ->
  Forall (fun r => r = Ended) (readers p) /\ out_closed (p_queue p) = true /\ c_out (p_queue p) = [].
Proof.
  intros Hr Hc Hstuck. destruct (preachable_spec _ _ _ Hr) as (Hq & Hl & _).
  apply reachable_inv in Hq.
  assert (Hw : forall i r, readers p !! i = Some r -> r = Waiting \/ r = Ended).
  { intros i [|j|] Hi; [by left| |by right]. specialize (Hstuck (Finish i)). cbn in Hstuck. by rewrite Hi in Hstuck. }
  assert (Hend : out_closed (p_queue p) = true -> c_out (p_queue p) = [] ->
                 Forall (fun r => r = Ended) (readers p)).
  { intros Ho Hco. apply Forall_lookup. intros i r Hi. destruct (Hw i r Hi) as [-> |]; [|done].
    specialize (Hstuck (EndRange i)). cbn in Hstuck. by rewrite Hi, Ho, Hco in Hstuck. }
  destruct (queue_progress _ _ Hq Hc) as [(l & q' & Hs & H1 & H2)|[(v & Hv)|[Ho Hco]]]; [exfalso| |by auto].
  - specialize (Hstuck (QueueStep l)). cbn in Hstuck. destruct l; try done; by rewrite Hs in Hstuck.
  - enough (out_closed (p_queue p) = true /\ c_out (p_queue p) = []) as [? ?] by auto.
    destruct (readers p) as [|[|j|] rs] eqn:Er.
    + done.
    + exfalso. destruct Hv as [(q' & Hs & _)|(q' & Hs & _)].
      * specialize (Hstuck (Start 0 false)). cbn -[step] in Hstuck. by rewrite Er, Hs in Hstuck.
      * specialize (Hstuck (Start 0 true)). cbn -[step] in Hstuck. by rewrite Er, Hs in Hstuck.
    + exfalso. destruct (Hw 0 (Working j)); by rewrite ?Er.
    + apply (ended_closed _ _ _ Hr). rewrite Er. by constructor.
Qed.

(** In every interleaving a job that was taken off the queue is with exactly one worker or was
    processed once; never more jobs are worked on than there are workers; jobs are started in the
    order they were sent. *)
Theorem read_workers_once n k p : preachable n k p ->
  processed p ++ working p ≡ₚ taken (p_queue p) /\ length (working p) <= k /\
  (exists rest, kept (sent (p_queue p)) = taken (p_queue p) ++ rest).
Proof.
  intros Hr. destruct (preachable_spec _ _ _ Hr) as (Hq & Hl & Hp). split_and!; [done| |].
  - rewrite <- Hl. unfold working. clear. induction (readers p) as [|r rs IH]; [done|].
    cbn. rewrite length_app. destruct r; cbn; lia.
  - destruct (reachable_inv _ _ Hq) as [_ Ho _ _ _]. rewrite <- Ho. by eexists.
Qed.

(** C24: Once the in channel of the queue is closed the pool stops, under every scheduler: the number
    of moves that are left is bounded, and when no move is left all workers have left their loops
    and every job that was sent has been processed, exactly once. *)
Theorem read_workers_drain n k p : preachable n (S k) p -> in_closed (p_queue p) = true ->
  (forall ls p', pruns ls p = Some p' -> length ls <= pool_left p) /\
  ((forall l, pstep l p = None) ->
   Forall (fun r => r = Ended) (readers p) /\ processed p ≡ₚ kept (sent (p_queue p))).
Proof.
  intros Hr Hc. split.
  { intros ls p' Hrun. pose proof (pruns_measure _ _ _ Hc Hrun). lia. }
  intros Hstuck. destruct (stuck_ended _ _ _ Hr Hc Hstuck) as (Hend & Ho & Hco). split; [done|].
  destruct (preachable_spec _ _ _ Hr) as (Hq & _ & Hp).
  destruct (reachable_inv _ _ Hq) as [_ Hord _ Hi Hout]. destruct (Hout Ho) as [En Eb].
  destruct (Hi En) as [_ Ein]. rewrite <- Hord, Hco, Eb, Ein.
  change (kept []) with (@nil (option A)). rewrite !app_nil_r, <- Hp.
  enough (working p = []) as -> by by rewrite app_nil_r. unfold working.
  clear -Hend. induction Hend as [|r rs -> _ IH]; [done|exact IH].
Qed.
End readers.

Lemma pruns_reachable {A} n k ls (p p' : pool A) :
  preachable n k p -> pruns ls p = Some p' -> preachable n k p'.
Proof.
  revert p. induction ls as [|l ls IH]; intros p Hr; [by intros [= <-]|]. cbn.
  destruct (pstep l p) eqn:E; [|done]. apply IH. by eapply preach_step.
Qed.
Lemma busy_pool_reachable : preachable 1 2 busy_pool.
Proof.
  apply (pruns_reachable 1 2 busy_pool_schedule (RunReadWorkers (CreateJobQueue 1) 2));
    [apply preach_new|by vm_compute].
Qed.
Lemma read_workers_once_witness :
  taken (p_queue busy_pool) = [Some 1; Some 2] /\ processed busy_pool = [Some 2; Some 1] /\
  processed busy_pool ++ working busy_pool ≡ₚ taken (p_queue busy_pool).
Proof. split_and!; [done..|]. apply (read_workers_once 1 2 busy_pool busy_pool_reachable). Defined.
Lemma read_workers_drain_witness :
  in_closed (p_queue busy_pool) = true /\
  Forall (fun r => r = Ended) (readers busy_pool) /\
  processed busy_pool ≡ₚ kept (sent (p_queue busy_pool)).
Proof.
  split; [done|]. apply (read_workers_drain 1 1 busy_pool busy_pool_reachable eq_refl).
  intros [[]|[|[|i]] []|[|[|i]]|[|[|i]]]; reflexivity.
Defined.

(** ** Workers that write *)

Section writers.
Context {A : Type}.
Implicit Types (s : dataBatchStore A) (batch : list A).

(** The worker that holds the lock, if any, is the only one that is not waiting for it. *)
Inductive one_holder : list (writer A) -> option (writer A) -> Prop :=
| free ws : Forall (fun w => w = AtLock) ws -> one_holder ws None
| held ws i w : holds_lock w = true -> ws !! i = Some w ->
    (forall j w', ws !! j = Some w' -> j <> i -> w' = AtLock) -> one_holder ws (Some w).

Definition hand (o : option (writer A)) : list A := match o with Some w => in_hand w | None => [] end.
(** What is left to do, by the place of the holder. *)
Definition todo (o : option (writer A)) : nat :=
  match o with
  | None => 3 | Some HasLock => 2 | Some (Sending _) => 5 | Some SentIt => 4 | Some AtDone => 1
  | Some Returned => 0 | Some AtLock => 0
  end.

Record winv batch k s (o : option (writer A)) : Prop := {
  wi_holder : one_holder (writers s) o;
  wi_lock : lock s = match o with Some _ => true | None => false end;
  wi_batch : jobChannel s ++ hand o ++ dataBatch s = batch;
  wi_len : length (writers s) = k;
  wi_done : done_sent s = match o with Some Returned => 1 | _ => 0 end;
  wi_empty : o = Some AtDone \/ o = Some Returned -> dataBatch s = [];
}.
Definition moves_left s (o : option (writer A)) : nat := 4 * length (dataBatch s) + todo o.

#[local] Arguments moves_left : simpl never.

Lemma one_holder_get ws o i w : one_holder ws o -> ws !! i = Some w ->
  (w = AtLock /\ o = None) \/ (w = AtLock /\ exists w', o = Some w' /\ holds_lock w' = true) \/
  (holds_lock w = true /\ o = Some w /\ forall j w', ws !! j = Some w' -> j <> i -> w' = AtLock).
Proof.
  intros [ws' Hf|ws' j w' Hh Hj Ho] Hi.
  - left. rewrite Forall_lookup in Hf. by rewrite (Hf i w Hi).
  - destruct (decide (i = j)) as [-> |Hne].
    + do 2 right. simplify_eq. done.
    + right; left. split; [by eapply Ho|by exists w'].
Qed.
Lemma hold_insert ws i w : holds_lock w = true -> (i < length ws)%nat ->
  (forall j w', ws !! j = Some w' -> j <> i -> w' = AtLock) -> one_holder (<[i := w]> ws) (Some w).
Proof.
  intros Hh Hi Ho. apply (held _ i); [done|by apply list_lookup_insert_eq|].
  intros j w' Hj Hne. rewrite list_lookup_insert_ne in Hj by done. by eapply Ho.
Qed.
Lemma release_insert ws i : (forall j w', ws !! j = Some w' -> j <> i -> w' = AtLock) ->
  one_holder (<[i := AtLock]> ws) None.
Proof.
  intros Ho. apply free, Forall_lookup. intros j w' Hj.
  apply list_lookup_insert_Some in Hj as [(_ & <- & _)|[Hne Hj]]; [done|by eapply Ho].
Qed.

Lemma wstep_inv batch k s o i s' : winv batch k s o -> wstep i s = Some s' ->
  exists o', winv batch k s' o' /\ S (moves_left s' o') <= moves_left s o.
Proof.
  intros [Hh Hlk Hb Hl Hd He] Hst. unfold wstep in Hst.
  destruct (writers s !! i) as [w|] eqn:Ei; [|done].
  pose proof (lookup_lt_Some _ _ _ Ei) as Hlt.
  destruct (one_holder_get _ _ _ _ Hh Ei) as [[-> ->]|[(-> & w' & -> & _)|(Hw & -> & Ho)]].
  - (* takes the lock *)
    rewrite Hlk in Hst. injection Hst as <-. exists (Some HasLock).
    split; [|unfold moves_left; cbn; lia]. split; cbn; rewrite ?length_insert; try done; [|naive_solver].
    apply hold_insert; [done|done|]. intros j w' Hj _. inversion Hh as [ws Hf|]; subst.
    rewrite Forall_lookup in Hf. by eapply Hf.
  - by rewrite Hlk in Hst.
  - destruct w; try done.
    + destruct (dataBatch s) as [|v r] eqn:Eb; injection Hst as <-.
      * exists (Some AtDone). split; [|unfold moves_left; cbn; rewrite Eb; cbn; lia].
        split; cbn; rewrite ?length_insert; try done. by apply hold_insert.
      * exists (Some (Sending v)). split; [|unfold moves_left; cbn; rewrite Eb; cbn; lia].
        split; cbn; rewrite ?length_insert; try done; [by apply hold_insert|naive_solver].
    + injection Hst as <-. exists (Some SentIt). split; [|unfold moves_left; cbn; lia].
      split; cbn; rewrite ?length_insert; try done; [by apply hold_insert| |naive_solver].
      rewrite <- Hb. by rewrite <- (assoc_L (++)).
    + injection Hst as <-. exists None. split; [|unfold moves_left; cbn; lia].
      split; cbn; rewrite ?length_insert; try done; [by apply release_insert|naive_solver].
    + injection Hst as <-. exists (Some Returned). split; [|unfold moves_left; cbn; lia].
      split; cbn; rewrite ?length_insert; try done; [by apply hold_insert|by rewrite Hd|auto].
Qed.

Lemma wruns_inv batch k sched s o s' : winv batch k s o -> wruns sched s = Some s' ->
  exists o', winv batch k s' o' /\ length sched + moves_left s' o' <= moves_left s o.
Proof.
  revert s o. induction sched as [|i sched IH]; intros s o Hi; [intros [= <-]; by exists o|]. cbn.
  destruct (wstep i s) as [s1|] eqn:E; [|done]. intros Hr.
  destruct (wstep_inv _ _ _ _ _ _ Hi E) as (o1 & Hi1 & Hm).
  destruct (IH _ _ Hi1 Hr) as (o' & Hi' & Hm'). exists o'. split; [done|lia].
Qed.
Lemma winv_new batch k : winv batch k (RunWriteWorkers batch k) None.
Proof.
  split; cbn; try done; [|by rewrite length_replicate|naive_solver].
  apply free, Forall_lookup. intros i w Hi. by apply lookup_replicate in Hi as [-> _].
Qed.
Lemma stuck_returned batch k s o : winv batch (S k) s o -> (forall i, wstep i s = None) ->
  o = Some Returned.
Proof.
  intros [Hh Hlk _ Hl _ _] Hst. inversion Hh as [ws Hf|ws i w Hw Hi Ho]; subst.
  - exfalso. destruct (writers s) as [|w ws] eqn:Ew; [done|].
    apply Forall_cons in Hf as [-> _]. specialize (Hst 0). unfold wstep in Hst.
    by rewrite Ew, Hlk in Hst.
  - specialize (Hst i). unfold wstep in Hst. rewrite Hi in Hst. destruct w; try done.
    by destruct (dataBatch s).
Qed.

(** The write workers end under every scheduler, after at most four moves for every value and
    three more; what they have sent is always a first part of the batch, in order; [done] is told
    only when all of it was sent, and when no move is left all of it was sent and [done] was told. *)
Theorem write_workers_spec batch k sched s :
  wruns sched (RunWriteWorkers batch (S k)) = Some s ->
  length sched <= 4 * length batch + 3 /\
  (exists rest, batch = jobChannel s ++ rest) /\
  (done_sent s <> 0 -> jobChannel s = batch) /\
  ((forall i, wstep i s = None) -> jobChannel s = batch /\ done_sent s = 1).
Proof.
  intros Hr. destruct (wruns_inv _ _ _ _ _ _ (winv_new batch (S k)) Hr) as (o & Hi & Hm).
  assert (Hret : o = Some Returned -> jobChannel s = batch).
  { intros ->. rewrite <- (wi_batch _ _ _ _ Hi), (wi_empty _ _ _ _ Hi) by auto. by rewrite !app_nil_r. }
  split_and!.
  - unfold moves_left in Hm. cbn in Hm. lia.
  - rewrite <- (wi_batch _ _ _ _ Hi). by eexists.
  - rewrite (wi_done _ _ _ _ Hi). destruct o as [[]|]; naive_solver.
  - intros Hst. pose proof (stuck_returned _ _ _ _ Hi Hst) as ->. split; [by apply Hret|].
    apply (wi_done _ _ _ _ Hi).
Qed.

(** The worker that finds the batch empty returns without releasing the lock: whatever the
    number of workers, [done] is told at most once, and after that no worker can move: all but one
    wait for the lock for ever. *)
Lemma write_workers_leak batch k sched s :
  wruns sched (RunWriteWorkers batch k) = Some s ->
  done_sent s <= 1 /\
  (done_sent s = 1 ->
   (forall j, wstep j s = None) /\ length (writers s) = k /\
   exists i, writers s !! i = Some Returned /\
     forall j w, writers s !! j = Some w -> j <> i -> w = AtLock).
Proof.
  intros Hr. destruct (wruns_inv _ _ _ _ _ _ (winv_new batch k) Hr) as (o & Hi & _).
  rewrite (wi_done _ _ _ _ Hi). split; [destruct o as [[]|]; cbn; lia|].
  intros Hd. assert (o = Some Returned) as -> by (destruct o as [[]|]; done).
  destruct Hi as [Hh Hlk _ Hl _ _]. inversion Hh as [|ws i w _ Hi Ho]; subst.
  split_and!; [|done|by exists i]. intros j. unfold wstep.
  destruct (writers s !! j) as [w|] eqn:Ej; [|done].
  destruct (decide (j = i)) as [-> |Hne]; [by simplify_eq|]. rewrite (Ho j w Ej Hne). by rewrite Hlk.
Qed.
End writers.

(** Two writers and a batch of two values. *)
Lemma write_workers_spec_witness :
  wruns [0; 0; 0; 0; 1; 1; 1; 1; 0; 0; 0] (RunWriteWorkers [5; 6] 2)
    = Some (mkstore [] true [Returned; AtLock] [5; 6] 1) /\
  11 <= 4 * 2 + 3 /\ jobChannel (mkstore [] true [Returned; AtLock] [5; 6] 1) = [5; 6].
Proof.
  assert (Hr : wruns [0; 0; 0; 0; 1; 1; 1; 1; 0; 0; 0] (RunWriteWorkers [5; 6] 2)
               = Some (mkstore [] true [Returned; AtLock] [5; 6] 1)) by reflexivity.
  split; [exact Hr|].
  destruct (write_workers_spec [5; 6] 1 _ _ Hr) as (H1 & _ & H3 & _).
  split; [exact H1|]. apply H3. discriminate.
Defined.
Lemma write_workers_leak_witness :
  (forall j, wstep j (mkstore [] true [AtLock; Returned; AtLock] [5] 1) = None) /\
  done_sent (mkstore [] true [AtLock; Returned; AtLock] [5] 1) = 1.
Proof.
  assert (Hr : wruns [1; 1; 1; 1; 1; 1; 1] (RunWriteWorkers [5] 3)
               = Some (mkstore [] true [AtLock; Returned; AtLock] [5] 1)) by reflexivity.
  split; [|reflexivity]. exact (proj1 (proj2 (write_workers_leak [5] 3 _ _ Hr) eq_refl)).
Defined.
