(* ===== verification/Redis.v ===== *)
(** What runs outside the services: the Redis servers behind redigo, the sentinel, the clock, the
    uuid generator, and the hashing and validation libraries.  They are parameters of the model.

    [Env] is the interface the definitions call.  [EnvLaws] states the documented behaviour the
    theorems rely on: every command may fail with an error, a failed write may or may not have
    been carried out, a successful one is seen by later reads at the same address, and nothing
    else changes.  Module [Sim] is a concrete server with scripted faults that satisfies the laws;
    the witnesses run on it. *)
From stdpp Require Import base gmap list strings.
From Stdlib Require Import Ascii.
From Stdlib Require QArith.
From S2P Require Import Prelude Go.
Open Scope string_scope.

(** Host and port. *)
Abbreviation addr := (string * string)%type.

Inductive cmd : Type :=
| GET (k : string)
| SET (k : string) (v : jtext)
| DEL (k : string)
| KEYS (pattern : string)
| FLUSHALL
| PING.

(** What [conn.Do] returns: an error, or the nil reply, a bulk string, an array, or a status or
    integer. *)
Inductive reply : Type :=
| RErr (msg : string)
| RNil
| RText (v : jtext)
| RKeys (ks : list string)
| RStatus.

Class Env : Type := {
  env : Type;
  redis_do : addr -> cmd -> env -> reply * env;
  sentinel_master : addr -> string -> env -> list string * env;
  time_now : env -> Z * env;
  time_sleep : Z -> env -> env;
  uuid_v4 : env -> string * env;
}.

(** golang.org/x/crypto/sha3 and gopkg.in/go-playground/validator.v9. *)
Class Libs : Type := {
  sha3_512 : string -> string;
  validate_required : string -> bool;
  validate_excludesall : string -> string -> bool;
  regexp_other : string -> string -> bool;   (* [regexp.Match] outside the fragment of [Go.Match] *)
}.

Class LibLaws `{Libs} : Prop := {
  validate_required_spec s : validate_required s = true <-> s <> "";
  validate_excludesall_spec chars s :
    validate_excludesall chars s = true <->
    string_exists (fun c => string_exists (Ascii.eqb c) chars) s = false;
}.

(** Patterns without the characters Redis treats specially. *)
Definition no_glob (p : string) : bool :=
  string_forall (fun c => negb (string_exists (Ascii.eqb c) "*?[]\^")) p.

(** Patterns whose only special character is the star, and what they match. *)
Definition stars_only (p : string) : bool :=
  string_forall (fun c => negb (string_exists (Ascii.eqb c) "?[]\^")) p.
Fixpoint glob_match (p k : string) : bool :=
  match p with
  | EmptyString => String.eqb k ""
  | String c p' =>
      if Ascii.eqb c "*" then
        (fix rest (k : string) : bool := glob_match p' k || match k with EmptyString => false | String _ k' => rest k' end) k
      else match k with EmptyString => false | String d k' => Ascii.eqb c d && glob_match p' k' end
  end.
Lemma glob_star k : glob_match "*" k = true.
Proof. induction k as [|c k IH]; [done|exact IH]. Qed.
Lemma no_glob_only p : no_glob p = true -> stars_only p = true.
Proof.
  apply string_forall_impl. intros c [_ Hc]%negb_true_iff%orb_false_iff. by apply negb_true_iff.
Qed.
Lemma glob_literal p q k : no_glob p = true -> glob_match (p +:+ q) (p +:+ k) = glob_match q k.
Proof.
  unfold no_glob. induction p as [|c p IH]; intros Hp; [done|].
  simpl in Hp. apply andb_true_iff in Hp as [Hc Hp]. apply negb_true_iff, orb_false_iff in Hc as [Hc _].
  change (glob_match (String c (p +:+ q)) (String c (p +:+ k)) = glob_match q k). cbn [glob_match]. by rewrite Hc, Ascii.eqb_refl, IH.
Qed.
(** Before its first special character a pattern is a prefix of what it matches. *)
Lemma glob_head p q k : no_glob p = true -> glob_match (p +:+ q) k = true -> exists k', k = p +:+ k'.
Proof.
  unfold no_glob. revert k. induction p as [|c p IH]; intros k Hp Hk; [by exists k|].
  simpl in Hp. apply andb_true_iff in Hp as [Hc Hp]. apply negb_true_iff, orb_false_iff in Hc as [Hc _].
  change (glob_match (String c (p +:+ q)) k = true) in Hk. cbn [glob_match] in Hk. rewrite Hc in Hk.
  destruct k as [|d k]; [done|]. apply andb_true_iff in Hk as [->%Ascii.eqb_eq Hk].
  destruct (IH k Hp Hk) as [k' ->]. by exists k'.
Qed.
Lemma glob_trim p q k : no_glob p = true -> glob_match (p +:+ q) k = true -> glob_match q (TrimPrefix k p) = true.
Proof.
  intros Hp Hk. destruct (glob_head _ _ _ Hp Hk) as [k' ->]. rewrite glob_literal in Hk by done. by rewrite TrimPrefix_app.
Qed.
Lemma stars_only_app p q : stars_only (p +:+ q) = stars_only p && stars_only q.
Proof. apply string_forall_app. Qed.
Lemma no_glob_stars p : no_glob p = true -> stars_only (p +:+ "*") = true.
Proof. intros Hp. by rewrite stars_only_app, (no_glob_only _ Hp). Qed.
Lemma glob_prefix p k : no_glob p = true -> glob_match (p +:+ "*") k = HasPrefix k p.
Proof.
  intros Hp. destruct (HasPrefix k p) eqn:Hk.
  - apply HasPrefix_split in Hk. rewrite Hk, glob_literal by done. apply glob_star.
  - apply not_true_is_false. intros Hm. destruct (glob_head _ _ _ Hp Hm) as [k' ->]. by rewrite HasPrefix_app in Hk.
Qed.

(** The canonical text of a uuid: hexadecimal digits and dashes. *)
Definition uuid_char (c : ascii) : bool :=
  is_digit c || (let n := nat_of_ascii c in (97 <=? n)%nat && (n <=? 102)%nat) || Ascii.eqb c "-".

(** How an environment may change without its data changing. *)
Record quiet_env {E} (contents : E -> addr -> gmap string jtext) (clock : E -> Z)
    (reliable : E -> Prop) (e e' : E) : Prop := {
  qe_contents : forall a, contents e' a = contents e a;
  qe_clock : (clock e <= clock e')%Z;
  qe_reliable : reliable e -> reliable e';
}.

Class EnvLaws `{Env} : Type := {
  contents : env -> addr -> gmap string jtext;   (* the string keys of the server at an address *)
  clock : env -> Z;                              (* the latest instant that has been read *)
  reliable : env -> Prop;                        (* no command fails from here on *)
  now_law e t e' : time_now e = (t, e') ->
    quiet_env contents clock reliable e e' /\ (clock e <= t)%Z /\ clock e' = t;
  sleep_law d e : quiet_env contents clock reliable e (time_sleep d e);
  uuid_law e s e' : uuid_v4 e = (s, e') ->
    quiet_env contents clock reliable e e' /\ String.length s = 36 /\ string_forall uuid_char s = true;
  sentinel_law a m e l e' : sentinel_master a m e = (l, e') -> quiet_env contents clock reliable e e';
  do_law a c e r e' : redis_do a c e = (r, e') ->
    (clock e <= clock e')%Z /\ (reliable e -> reliable e') /\
    (forall a', a' <> a -> contents e' a' = contents e a') /\
    (reliable e -> forall msg, r <> RErr msg);
  get_law a k e r e' : redis_do a (GET k) e = (r, e') ->
    contents e' a = contents e a /\
    match r with
    | RErr msg => msg <> "redigo: nil returned"
    | RNil => contents e a !! k = None
    | RText v => contents e a !! k = Some v
    | _ => False
    end;
  set_law a k v e r e' : redis_do a (SET k v) e = (r, e') ->
    match r with
    | RErr _ => contents e' a = contents e a \/ contents e' a = <[k := v]> (contents e a)
    | RStatus => contents e' a = <[k := v]> (contents e a)
    | _ => False
    end;
  del_law a k e r e' : redis_do a (DEL k) e = (r, e') ->
    match r with
    | RErr _ => contents e' a = contents e a \/ contents e' a = delete k (contents e a)
    | RStatus => contents e' a = delete k (contents e a)
    | _ => False
    end;
  pattern_law a p e r e' : redis_do a (KEYS p) e = (r, e') ->
    contents e' a = contents e a /\
    match r with
    | RErr _ => True
    | RKeys ks => NoDup ks /\ (forall k, k ∈ ks -> is_Some (contents e a !! k)) /\
        (stars_only p = true -> forall k, k ∈ ks <-> is_Some (contents e a !! k) /\ glob_match p k = true)
    | _ => False
    end;
  flushall_law a e r e' : redis_do a FLUSHALL e = (r, e') ->
    match r with
    | RErr _ => contents e' a = contents e a \/ contents e' a = ∅
    | RStatus => contents e' a = ∅
    | _ => False
    end;
  ping_law a e r e' : redis_do a PING e = (r, e') ->
    contents e' a = contents e a /\ match r with RErr _ | RStatus => True | _ => False end;
}.

Abbreviation quiet := (quiet_env contents clock reliable).

#[export] Instance quiet_env_preorder {E} (ct : E -> addr -> gmap string jtext) ck rl :
  PreOrder (quiet_env ct ck rl).
Proof.
  split.
  - intros e. split; [done | lia | done].
  - intros e1 e2 e3 [H1 H2 H3] [H4 H5 H6]. split; [|lia|auto].
    intros a. by rewrite H4, H1.
Qed.

(** A read leaves the environment quiet. *)
Lemma get_quiet `{EnvLaws} a k e r e' : redis_do a (GET k) e = (r, e') -> quiet e e'.
Proof.
  intros Hd. destruct (do_law _ _ _ _ _ Hd) as (Hc & Hr & Ho & _).
  destruct (get_law _ _ _ _ _ Hd) as [Hs _]. split; [|done|done].
  intros a'. destruct (decide (a' = a)) as [->|]; auto.
Qed.
Lemma pattern_quiet `{EnvLaws} a p e r e' : redis_do a (KEYS p) e = (r, e') -> quiet e e'.
Proof.
  intros Hd. destruct (do_law _ _ _ _ _ Hd) as (Hc & Hr & Ho & _).
  destruct (pattern_law _ _ _ _ _ Hd) as [Hs _]. split; [|done|done].
  intros a'. destruct (decide (a' = a)) as [->|]; auto.
Qed.
Lemma keys_prefix `{EnvLaws} a p e r e' : redis_do a (KEYS (p +:+ "*")) e = (r, e') -> no_glob p = true ->
  match r with
  | RErr _ => True
  | RKeys ks => NoDup ks /\ forall k, k ∈ ks <-> is_Some (contents e a !! k) /\ HasPrefix k p = true
  | _ => False
  end.
Proof.
  intros Hd Hp. destruct (pattern_law _ _ _ _ _ Hd) as [_ Hk]. destruct r as [| | |ks|]; try done.
  destruct Hk as (Hnd & _ & Hk). split; [done|]. intros k. rewrite (Hk (no_glob_stars p Hp) k). by rewrite glob_prefix.
Qed.

(** ** A concrete environment *)

Module Sim.
(** How a command fails. *)
Inductive fault := refused | eof | timeout.
Definition fault_msg (f : fault) : string :=
  match f with
  | refused => "dial tcp 127.0.0.1:6379: connect: connection refused"
  | eof => "EOF"
  | timeout => "read tcp 127.0.0.1:6379: i/o timeout"
  end.

(** The string keys and the sorted sets of each address, the clock, a counter for uuids, and the fate of the next commands:
    [None] succeeds, [Some f] fails without being carried out; when the script is used up every
    command succeeds. *)
Record state := mk {
  data : gmap addr (gmap string jtext);
  now : Z;
  next_uuid : nat;
  script : list (option fault);
  zdata : gmap (addr * string) (gmap string QArith_base.Q);
}.

Definition at_addr (s : state) (a : addr) : gmap string jtext := default ∅ (data s !! a).
Definition set_addr (s : state) (a : addr) (m : gmap string jtext) : state :=
  mk (<[a := m]> (data s)) (now s) (next_uuid s) (script s) (zdata s).

(** Patterns are answered as far as their only special character is the star. *)
Definition run (a : addr) (c : cmd) (s : state) : reply * state :=
  let m := at_addr s a in
  match c with
  | GET k => (match m !! k with Some v => RText v | None => RNil end, s)
  | SET k v => (RStatus, set_addr s a (<[k := v]> m))
  | DEL k => (RStatus, set_addr s a (delete k m))
  | KEYS p => (RKeys (List.filter (glob_match p) ((map_to_list m).*1)), s)
  | FLUSHALL => (RStatus, set_addr s a ∅)
  | PING => (RStatus, s)
  end.

Definition do_cmd (a : addr) (c : cmd) (s : state) : reply * state :=
  match script s with
  | [] => run a c s
  | f :: fs =>
      let s' := mk (data s) (now s) (next_uuid s) fs (zdata s) in
      match f with Some f => (RErr (fault_msg f), s') | None => run a c s' end
  end.

Fixpoint digits (k n : nat) : string :=
  match k with
  | 0%nat => ""
  | S k' => digits k' (n / 10)%nat +:+ String (ascii_of_nat (48 + n mod 10)%nat) ""
  end.
Definition uuid (s : state) : string * state :=
  ("00000000-0000-4000-8000-" +:+ digits 12 (next_uuid s),
   mk (data s) (now s) (S (next_uuid s)) (script s) (zdata s)).

(** Every reading of the clock is a nanosecond after the last. *)
Definition read_clock (s : state) : Z * state :=
  ((now s + 1)%Z, mk (data s) (now s + 1) (next_uuid s) (script s) (zdata s)).
Definition sleep (d : Z) (s : state) : state :=
  mk (data s) (now s + Z.max 0 d) (next_uuid s) (script s) (zdata s).

#[export] Instance sim_env : Env := {|
  env := state;
  redis_do := do_cmd;
  sentinel_master := fun a _ s => ([a.1; a.2], s);
  time_now := read_clock;
  time_sleep := sleep;
  uuid_v4 := uuid;
|}.

#[export] Instance sim_libs : Libs := {|
  sha3_512 := fun s => s;
  validate_required := fun s => negb (String.eqb s "");
  validate_excludesall := fun chars s =>
    negb (string_exists (fun c => string_exists (Ascii.eqb c) chars) s);
  regexp_other := fun _ _ => false;
|}.

#[export] Instance sim_lib_laws : LibLaws.
Proof.
  split.
  - intros s. simpl. rewrite negb_true_iff. apply String.eqb_neq.
  - intros chars s. simpl. apply negb_true_iff.
Qed.

Lemma length_app_string (s t : string) :
  String.length (s +:+ t) = (String.length s + String.length t)%nat.
Proof.
  induction s as [|c s IH]; [done|].
  change (S (String.length (s +:+ t)) = S (String.length s + String.length t)). by rewrite IH.
Qed.
Lemma length_digits k n : String.length (digits k n) = k.
Proof.
  revert n. induction k as [|k IH]; intros n; simpl; [done|].
  rewrite length_app_string, IH. simpl. lia.
Qed.

Lemma length_uuid s : String.length (uuid s).1 = 36.
Proof. unfold uuid. cbn [fst]. by rewrite length_app_string, length_digits. Qed.
Lemma uuid_chars s : string_forall uuid_char (uuid s).1 = true.
Proof.
  assert (Happ : forall a b, string_forall uuid_char (a +:+ b) = string_forall uuid_char a && string_forall uuid_char b).
  { induction a as [|c a IH]; intros b; [done|]. change (uuid_char c && string_forall uuid_char (a +:+ b) =
      uuid_char c && string_forall uuid_char a && string_forall uuid_char b). by rewrite IH, andb_assoc. }
  assert (Hd : forall k n, string_forall uuid_char (digits k n) = true).
  { induction k as [|k IH]; intros n; [done|]. cbn [digits]. rewrite Happ, IH.
    assert (Hn : (n mod 10 < 10)%nat) by (apply Nat.mod_upper_bound; lia). revert Hn.
    generalize (n mod 10)%nat. intros m Hm. do 10 (destruct m as [|m]; [done|]). lia. }
  unfold uuid. cbn [fst]. by rewrite Happ, Hd.
Qed.
Lemma uuid_state s : (uuid s).2 = mk (data s) (now s) (S (next_uuid s)) (script s) (zdata s).
Proof. done. Qed.

Lemma at_set_eq s a m : at_addr (set_addr s a m) a = m.
Proof. unfold at_addr. simpl. by rewrite lookup_insert_eq. Qed.
Lemma at_set_ne s a a' m : a' <> a -> at_addr (set_addr s a m) a' = at_addr s a'.
Proof. intros Hne. unfold at_addr. simpl. by rewrite lookup_insert_ne. Qed.

Lemma run_frame a c s r s' : run a c s = (r, s') ->
  now s' = now s /\ script s' = script s /\ (forall m, r <> RErr m) /\ 
  (forall a', a' <> a -> at_addr s' a' = at_addr s a').
Proof.
  intros E. destruct c; simpl in E; inversion E; subst; clear E; repeat split; try done.
  1: by destruct (at_addr s' a !! k).
  all: intros; by apply at_set_ne.
Qed.

(** A command fails and changes nothing, or runs. *)
Lemma do_cases a c s r s' : do_cmd a c s = (r, s') ->
  (exists f, r = RErr (fault_msg f) /\ script s = Some f :: script s' /\ data s' = data s
               /\ now s' = now s) \/
  (exists s0, run a c s0 = (r, s') /\ data s0 = data s /\ now s0 = now s /\
              (script s = [] -> script s0 = [])).
Proof.
  unfold do_cmd. destruct (script s) as [|[f|] fs] eqn:Es; intros E.
  - right. by exists s.
  - left. exists f. by inversion E; subst.
  - right. eexists. split; [exact E|]. by simpl.
Qed.

Lemma run_zdata a c s r s' : run a c s = (r, s') -> zdata s' = zdata s.
Proof. by destruct c; intros [= _ <-]. Qed.
Lemma do_zdata a c s r s' : do_cmd a c s = (r, s') -> zdata s' = zdata s.
Proof.
  unfold do_cmd. destruct (script s) as [|[f|] fs]; intros E; [by eapply run_zdata|by injection E as _ <-|].
  by apply run_zdata in E.
Qed.

Lemma at_data s s' a : data s' = data s -> at_addr s' a = at_addr s a.
Proof. unfold at_addr. by intros ->. Qed.

Lemma filter_keys (m : gmap string jtext) (f : string -> bool) :
  NoDup (List.filter f ((map_to_list m).*1)) /\
  forall k, k ∈ List.filter f ((map_to_list m).*1) <-> is_Some (m !! k) /\ f k = true.
Proof.
  split.
  - apply NoDup_ListNoDup, List.NoDup_filter, NoDup_ListNoDup, NoDup_fst_map_to_list.
  - intros k. rewrite list_elem_of_In, List.filter_In, <- list_elem_of_In. f_equiv.
    rewrite list_elem_of_fmap. split.
    + intros ([k' v] & -> & Hin). apply elem_of_map_to_list in Hin. by exists v.
    + intros [v Hv]. exists (k, v). by rewrite elem_of_map_to_list.
Qed.

(** A server with nothing left of its script is reliable. *)
Definition no_faults (s : state) : Prop := script s = [].

Ltac sim_cases E :=
  destruct (do_cases _ _ _ _ _ E) as [(f & -> & Hs & Hd & Hn)|(s0 & Hr & Hd & Hn & Hs)].

#[export] Instance sim_laws : EnvLaws.
Proof.
  refine {| contents := at_addr; clock := now; reliable := no_faults |}.
  - intros e t e' [= <- <-]. split; [split; simpl; [done|lia|done] | simpl; lia].
  - intros d e. split; simpl; [done|lia|done].
  - intros e s e' E. change (uuid e = (s, e')) in E.
    pose proof (length_uuid e) as Hl. pose proof (uuid_chars e) as Hc. pose proof (uuid_state e) as He. rewrite E in *.
    cbn [fst snd] in *. subst e'. split; [by split|done].
  - by intros a m e l e' [= <- <-].
  - intros a c e r e' E. simpl in *. sim_cases E.
    + repeat split; [lia|unfold no_faults; congruence|..].
      * intros. by apply at_data.
      * unfold no_faults. congruence.
    + destruct (run_frame _ _ _ _ _ Hr) as (Hn' & Hsc & Hne & Hot). repeat split.
      * lia.
      * unfold no_faults. rewrite Hsc. auto.
      * intros a' Ha'. rewrite Hot by done. by apply at_data.
      * auto.
  - intros a k e r e' E. simpl in *. sim_cases E.
    + split; [by apply at_data|]. by destruct f.
    + simpl in Hr. inversion Hr; subst. split; [by apply at_data|].
      rewrite (at_data _ _ a Hd). by destruct (at_addr e a !! k).
  - intros a k v e r e' E. simpl in *. sim_cases E.
    + left. by apply at_data.
    + simpl in Hr. inversion Hr; subst. rewrite at_set_eq. by rewrite (at_data _ _ a Hd).
  - intros a k e r e' E. simpl in *. sim_cases E.
    + left. by apply at_data.
    + simpl in Hr. inversion Hr; subst. rewrite at_set_eq. by rewrite (at_data _ _ a Hd).
  - intros a p e r e' E. simpl in *. sim_cases E.
    + split; [by apply at_data|done].
    + simpl in Hr. inversion Hr; subst. split; [by apply at_data|].
      rewrite (at_data _ _ a Hd). destruct (filter_keys (at_addr e a) (glob_match p)) as [Hnd Hk].
      split; [done|]. split; [|by intros _]. intros k Hin. by apply Hk in Hin as [? _].
  - intros a e r e' E. simpl in *. sim_cases E.
    + left. by apply at_data.
    + simpl in Hr. inversion Hr; subst. by rewrite at_set_eq.
  - intros a e r e' E. simpl in *. sim_cases E.
    + split; [by apply at_data|done].
    + simpl in Hr. inversion Hr; subst. split; [by apply at_data|done].
Defined.
End Sim.
