(* ===== verification/World.v ===== *)
(** The configuration and the state of a service process: the two global connection pools of the
    persistence manager, the package variable of the session clean-up, the clean-up goroutines
    that were started and have not run yet, and the environment. *)
From stdpp Require Import base gmap list strings.
From Stdlib Require Import QArith.
From S2P Require Import Prelude Go Redis.
Open Scope string_scope.

(** ** config.Data (lib-utilities/config/config.go), read-only after start-up *)

Record DBConf := {
  Protocol : string;
  InMemoryHost : string;
  InMemoryPort : string;
  OnDiskHost : string;
  OnDiskPort : string;
  RedisHAEnabled : bool;
  InMemorySentinelPort : string;
  OnDiskSentinelPort : string;
  InMemoryPrimarySet : string;
  OnDiskPrimarySet : string;
}.
Record PasswordRules := {
  MinPasswordLength : Z;
  MaxPasswordLength : Z;
  AllowedSpecialCharcters : string;
}.
Record AuthConf := {
  SessionTimeOutInMins : Q;
  ExpiredSessionCleanUpTimeInMins : Q;
  AuthPasswordRules : PasswordRules;
}.
Record configModel := {
  EnabledServices : list string;
  ConfDB : DBConf;
  ConfAuth : AuthConf;
}.
Class Config : Type := { Data : configModel }.

(** ** The state of a process *)

Inductive DbType := InMemory | OnDisk.
#[export] Instance DbType_eq_dec : EqDecision DbType.
Proof. solve_decision. Defined.

(** A redis pool dials one address; [None] is the nil pointer. *)
Record ConnPool := {
  ReadPool : option addr;
  WritePool : option addr;
  MasterIP : string;
  PoolUpdatedTime : Z;
}.

Section World.
Context `{Env}.

Record World := mkWorld {
  w_env : env;
  inMemDBConnPool : option ConnPool;
  onDiskDBConnPool : option ConnPool;
  lastExpiredSessionCleanUpTime : Z;
  cleanups : nat;   (* running [go expiredSessionCleanUp()] *)
}.

Definition with_env (e : env) (w : World) : World :=
  mkWorld e (inMemDBConnPool w) (onDiskDBConnPool w) (lastExpiredSessionCleanUpTime w) (cleanups w).
Definition pool_of (db : DbType) (w : World) : option ConnPool :=
  match db with InMemory => inMemDBConnPool w | OnDisk => onDiskDBConnPool w end.
Definition with_pool (db : DbType) (p : option ConnPool) (w : World) : World :=
  match db with
  | InMemory => mkWorld (w_env w) p (onDiskDBConnPool w) (lastExpiredSessionCleanUpTime w) (cleanups w)
  | OnDisk => mkWorld (w_env w) (inMemDBConnPool w) p (lastExpiredSessionCleanUpTime w) (cleanups w)
  end.
Definition with_cleanup_time (t : Z) (w : World) : World :=
  mkWorld (w_env w) (inMemDBConnPool w) (onDiskDBConnPool w) t (cleanups w).
Definition with_cleanups (n : nat) (w : World) : World :=
  mkWorld (w_env w) (inMemDBConnPool w) (onDiskDBConnPool w) (lastExpiredSessionCleanUpTime w) n.

(** Runs one operation of the environment. *)
Definition in_env {A} (f : env -> A * env) : M World A :=
  fun w => let (a, e) := f (w_env w) in (Ok a, with_env e w).

Definition Now : M World Z := in_env time_now.
Definition NewV4 : M World string := in_env uuid_v4.
Definition Sleep (d : Z) : M World unit := in_env (fun e => (tt, time_sleep d e)).
Definition Do (a : addr) (c : cmd) : M World reply := in_env (redis_do a c).

(** [p.F] for the global pool of a database; a nil pool or a nil redis pool panics. *)
Definition the_pool (db : DbType) : M World ConnPool :=
  let! w := get in
  match pool_of db w with Some p => ret p | None => panic end.
Definition read_conn (db : DbType) : M World addr :=
  let! p := the_pool db in
  match ReadPool p with Some a => ret a | None => panic end.
Definition LoadWritePool (db : DbType) : M World (option addr) :=
  let! p := the_pool db in ret (WritePool p).
Definition set_write (wp : option addr) (p : ConnPool) : ConnPool :=
  {| ReadPool := ReadPool p; WritePool := wp; MasterIP := MasterIP p;
     PoolUpdatedTime := PoolUpdatedTime p |}.
(** [atomic.StorePointer(&p.WritePool, nil)] *)
Definition StoreWritePoolNil (db : DbType) : M World unit :=
  modify (fun w => with_pool db (set_write None <$> pool_of db w) w).
End World.

(** A service's operations run in its world. *)
Abbreviation IO A := (M World A).
