(* ===== verification/ConnPool.v ===== *)
(** lib-persistence-manager/persistencemgr/redis.go and lib-utilities/common/dbconn.go. *)
From stdpp Require Import base gmap list strings.
From Stdlib Require Import Ascii.
From S2P Require Import Prelude Go Response Redis World.
Open Scope string_scope.

Definition errorCollectingData := "error while trying to collect data: ".

(** The address parameters of one database (persistencemgr/config.go). *)
Record DBConfig := {
  Port : string;
  DBProtocol : string;
  Host : string;
  SentinelPort : string;
  MasterSet : string;
}.

Section ConnPool.
Context `{Env, Config}.

Definition DBc : DBConf := ConfDB Data.

Definition getInMemoryDBConfig : DBConfig :=
  {| Port := InMemoryPort DBc; DBProtocol := Protocol DBc; Host := InMemoryHost DBc;
     SentinelPort := InMemorySentinelPort DBc; MasterSet := InMemoryPrimarySet DBc |}.
Definition getOnDiskDBConfig : DBConfig :=
  {| Port := OnDiskPort DBc; DBProtocol := Protocol DBc; Host := OnDiskHost DBc;
     SentinelPort := OnDiskSentinelPort DBc; MasterSet := OnDiskPrimarySet DBc |}.
Definition db_config (db : DbType) : DBConfig :=
  match db with InMemory => getInMemoryDBConfig | OnDisk => getOnDiskDBConfig end.

(** Asks the sentinel for the address of the master. *)
Definition GetCurrentMasterHostPort (dbConfig : DBConfig) : IO (string * string) :=
  let! stringSlice := in_env (sentinel_master (Host dbConfig, SentinelPort dbConfig)
                                              (MasterSet dbConfig)) in
  match stringSlice with
  | [masterIP; masterPort] => ret (masterIP, masterPort)
  | _ => ret ("", "")
  end.

Definition one_second : Z := 1000000000.

(** The loop of [retryForMasterIP] with [n] rounds left; the results keep their last value. *)
Fixpoint retry_rounds (n : nat) (poolMasterIP : string) (dbConfig : DBConfig)
    (cur : string * string) : IO (string * string) :=
  match n with
  | 0%nat => ret cur
  | S n' =>
      let! cur := GetCurrentMasterHostPort dbConfig in
      if negb (String.eqb cur.1 "") && negb (String.eqb poolMasterIP cur.1) then ret cur
      else Sleep one_second ;;; retry_rounds n' poolMasterIP dbConfig cur
  end.
Definition retryForMasterIP (poolMasterIP : string) (dbConfig : DBConfig) : IO (string * string) :=
  retry_rounds 120 poolMasterIP dbConfig ("", "").

(** [getPool] only builds the pool value; dialling happens on use, and it returns no error. *)
Definition getPool (host port : string) : option addr * option string := (Some (host, port), None).

Definition setWritePool (db : DbType) (dbConfig : DBConfig) : IO (option string) :=
  let! p := the_pool db in
  let! (currentMasterIP, currentMasterPort) := retryForMasterIP (MasterIP p) dbConfig in
  if String.eqb currentMasterIP ""
  then ret (Some "unable to retrieve master ip from sentinel master election")
  else
    let (writePool, _) := getPool currentMasterIP currentMasterPort in
    match writePool with
    | None => ret (Some "write pool creation failed")
    | Some _ =>
        let! t := Now in
        modify (fun w => with_pool db
          ((fun p => {| ReadPool := ReadPool p; WritePool := writePool;
                        MasterIP := currentMasterIP; PoolUpdatedTime := t |}) <$> pool_of db w) w) ;;;
        ret None
    end.

(** Called with the pool present; the mutex it takes is free whenever an operation starts. *)
Definition resetDBWriteConection (db : DbType) : IO unit :=
  if RedisHAEnabled DBc then
    let! p := the_pool db in
    match WritePool p with
    | Some _ => ret tt
    | None => let! _ := setWritePool db (db_config db) in ret tt
    end
  else ret tt.

(** isDbConnectError *)
Definition isDbConnectError (msg : string) : option Err :=
  if HasSuffix msg "connect: connection refused" || String.eqb msg "EOF"
  then Some (PackError DBConnFailed [msg]) else None.

Definition Connection (c : DBConfig) : IO (result ConnPool) :=
  let! (masterIP, masterPort) :=
    (if RedisHAEnabled DBc then GetCurrentMasterHostPort c else ret (Host c, Port c)) in
  let conn_err err := match isDbConnectError err with
                      | Some errs => errs
                      | None => PackError UndefinedErrorType [err]
                      end in
  let (readPool, err) := getPool (Host c) (Port c) in
  match err with
  | Some err => ret (inl (conn_err err))
  | None =>
      let (writePool, err) := getPool masterIP masterPort in
      match err with
      | Some err => ret (inl (conn_err err))
      | None => ret (inr {| ReadPool := readPool; WritePool := writePool; MasterIP := masterIP;
                            PoolUpdatedTime := 0 |})
      end
  end.

(** [GetDBConnection(db)]: after it the handle is the global pool of [db].  A failed
    [Connection] leaves a nil pool whose field is then assigned, which panics. *)
Definition GetDBConnection (db : DbType) : IO unit :=
  let! w := get in
  (match pool_of db w with
   | Some {| ReadPool := Some _ |} => ret tt
   | _ =>
       let! r := Connection (db_config db) in
       match r with
       | inl _ => modify (with_pool db None) ;;; panic
       | inr p =>
           let! t := Now in
           modify (with_pool db (Some {| ReadPool := ReadPool p; WritePool := WritePool p;
                                         MasterIP := MasterIP p; PoolUpdatedTime := t |}))
       end
   end) ;;;
  let! p := the_pool db in
  match WritePool p with
  | None => resetDBWriteConection db
  | Some _ => ret tt
  end.

(** ** Key-value operations *)

Definition saveID (table key : string) : string := table +:+ ":" +:+ key.
Definition no_data (key : string) : Err :=
  PackError DBKeyNotFound ["no data with the with key "; key; " found"].

Definition Read (db : DbType) (table key : string) : IO (result jtext) :=
  let! a := read_conn db in
  let! r := Do a (GET (saveID table key)) in
  match r with
  | RErr err =>
      if String.eqb err "redigo: nil returned" then ret (inl (no_data key))
      else match isDbConnectError err with
           | Some errs => ret (inl errs)
           | None => ret (inl (PackError DBKeyFetchFailed [errorCollectingData; err]))
           end
  | RNil => ret (inl (no_data key))
  | RText v => ret (inr v)
  | RKeys _ | RStatus =>
      ret (inl (PackError UndefinedErrorType
        ["error while trying to convert the data into string: "; "redigo: unexpected type for String"]))
  end.

(** The string Read returns: empty beside an error. *)
Definition read_value (r : result jtext) : jtext :=
  match r with inl _ => empty_text | inr v => v end.

(** [data] is the document [json.Marshal] makes of the value; it has no error for the types that
    are stored. *)
Definition Create (db : DbType) (table key : string) (data : json) : IO (option Err) :=
  let! writePool := LoadWritePool db in
  match writePool with
  | None => ret (Some (PackError UndefinedErrorType ["Create : WritePool is nil "]))
  | Some a =>
      let! r := Read db table key in
      match r with
      | inl {| errNum := DBConnFailed |} =>
          ret (Some (PackError DBConnFailed ["error: db connection failed"]))
      | _ =>
          if negb (text_is_empty (read_value r))
          then ret (Some (PackError DBKeyAlreadyExist
                 ["error: data with key "; key; " already exists"]))
          else
            let! c := Do a (SET (saveID table key) (Text data)) in
            match c with
            | RErr err =>
                StoreWritePoolNil db ;;;
                ret (Some (PackError UndefinedErrorType ["Write to DB failed : " +:+ err]))
            | _ => ret None
            end
      end
  end.

Definition Update (db : DbType) (table key : string) (data : json) : IO (result string) :=
  let! r := Read db table key in
  match r with
  | inl e =>
      if decide (ErrNo e = DBKeyNotFound)
      then ret (inl (PackError (ErrNo e) ["error: data with key "; key; " does not exist"]))
      else ret (inl e)
  | inr _ =>
      let! writePool := LoadWritePool db in
      match writePool with
      | None => ret (inl (PackError UndefinedErrorType ["Update : Writepool is nil "]))
      | Some a =>
          let! c := Do a (SET (saveID table key) (Text data)) in
          match c with
          | RErr err =>
              StoreWritePoolNil db ;;;
              ret (inl (PackError UndefinedErrorType ["Write to DB failed : " +:+ err]))
          | _ => ret (inr (saveID table key))
          end
      end
  end.

Definition FindOrNull (db : DbType) (table key : string) : IO (result jtext) :=
  let! r := Read db table key in
  match r with
  | inl e => if decide (ErrNo e = DBKeyNotFound) then ret (inr empty_text) else ret (inl e)
  | inr v => ret (inr v)
  end.

(** The error of a failed KEYS. *)
Definition collect_error (err : string) : Err :=
  match isDbConnectError err with
  | Some errs => errs
  | None => PackError UndefinedErrorType [errorCollectingData; err]
  end.

(** KEYS with a pattern; the type assertion on the reply panics when it is not an array. *)
Definition do_keys (db : DbType) (pattern : string) : IO (result (list string)) :=
  let! a := read_conn db in
  let! r := Do a (KEYS pattern) in
  match r with
  | RErr err => ret (inl (collect_error err))
  | RKeys ks => ret (inr ks)
  | _ => panic
  end.

Definition trim_table (table : string) (ks : list string) : list string :=
  (fun k => TrimPrefix k (table +:+ ":")) <$> ks.

Definition GetAllDetails (db : DbType) (table : string) : IO (result (list string)) :=
  let! r := do_keys db ((table +:+ ":") +:+ "*") in
  match r with
  | inl e => ret (inl e)
  | inr ks => ret (inr (trim_table table ks))
  end.

Definition GetAllMatchingDetails (db : DbType) (table pattern : string)
  : IO (result (list string)) :=
  let! r := do_keys db (table +:+ ":*" +:+ pattern +:+ "*") in
  match r with
  | inl e => ret (inl e)
  | inr ks => ret (inr (trim_table table ks))
  end.

Definition Delete (db : DbType) (table key : string) : IO (option Err) :=
  let! writePool := LoadWritePool db in
  match writePool with
  | None => ret (Some (PackError UndefinedErrorType
              ["error while trying to delete data: WritePool is nil "]))
  | Some a =>
      let! r := Read db table key in
      match r with
      | inl readErr => ret (Some readErr)
      | inr _ =>
          let! d := Do a (DEL (saveID table key)) in
          match d with
          | RErr err =>
              match isDbConnectError err with
              | Some errs => StoreWritePoolNil db ;;; ret (Some errs)
              | None => ret (Some (PackError UndefinedErrorType
                          ["error while trying to delete data: "; err]))
              end
          | _ => ret None
          end
      end
  end.

(** Unlike the other writers this one does not check for a nil write pool. *)
Definition CleanUpDB (db : DbType) : IO (option Err) :=
  let! writePool := LoadWritePool db in
  match writePool with
  | None => panic
  | Some a =>
      let! r := Do a FLUSHALL in
      match r with
      | RErr err =>
          match isDbConnectError err with
          | Some errs => StoreWritePoolNil db ;;; ret (Some errs)
          | None => ret (Some (PackError UndefinedErrorType [errorCollectingData; err]))
          end
      | _ => ret None
      end
  end.

Definition DeleteServer (db : DbType) (key : string) : IO (option Err) :=
  let! r := do_keys db key in
  match r with
  | inl e => ret (Some e)
  | inr keys =>
      let! writePool := LoadWritePool db in
      match writePool with
      | None => ret (Some (PackError UndefinedErrorType
                  ["error while trying to delete data: WritePool is nil "]))
      | Some a =>
          let! r := loopM keys tt (fun _ delkey =>
            let! d := Do a (DEL delkey) in
            match d with
            | RErr err =>
                match isDbConnectError err with
                | Some errs => StoreWritePoolNil db ;;; ret (inl errs)
                | None => ret (inr tt)   (* other errors are ignored *)
                end
            | _ => ret (inr tt)
            end) in
          match r with inl e => ret (Some e) | inr _ => ret None end
      end
  end.

(** [strings.SplitN(s, ":", 2)] *)
Fixpoint split_colon (s : string) : string * option string :=
  match s with
  | EmptyString => ("", None)
  | String c s' =>
      if Ascii.eqb c ":"%char then ("", Some s')
      else let (l, r) := split_colon s' in (String c l, r)
  end.

(** The last of the keys that match is used; a key without a colon makes the index panic. *)
Definition GetResourceDetails (db : DbType) (key : string) : IO (result jtext) :=
  let! r := do_keys db ("*" +:+ key) in
  match r with
  | inl e => ret (inl e)
  | inr keys =>
      let dkey := List.last keys "" in
      if String.eqb dkey "" then ret (inl (no_data key))
      else match split_colon dkey with
           | (p0, Some p1) => Read db p0 p1
           | (_, None) => panic
           end
  end.

Definition AddResourceData (db : DbType) (table key : string) (data : json) : IO (option Err) :=
  let! writePool := LoadWritePool db in
  match writePool with
  | None => ret (Some (PackError UndefinedErrorType ["WritePool is nil"]))
  | Some a =>
      let! c := Do a (SET (saveID table key) (Text data)) in
      match c with
      | RErr err =>
          StoreWritePoolNil db ;;;
          ret (Some (PackError UndefinedErrorType ["Write to DB failed : " +:+ err]))
      | _ => ret None
      end
  end.

Definition Ping (db : DbType) : IO (option string) :=
  let! a := read_conn db in
  let! r := Do a PING in
  match r with
  | RErr _ => ret (Some "error while pinging DB with read connection")
  | _ =>
      let! writePool := LoadWritePool db in
      match writePool with
      | None => ret (Some "error while pinging DB with read connection: WritePool is nil ")
      | Some a =>
          let! r := Do a PING in
          match r with
          | RErr err => ret (Some ("error while pinging DB with read connection: WritePool is nil " +:+ err))
          | _ => ret None
          end
      end
  end.

(** ** common/dbconn.go *)

Definition TruncateDB (db : DbType) : IO (option Err) :=
  GetDBConnection db ;;;
  let! r := CleanUpDB db in
  match r with
  | Some e => ret (Some (PackError (ErrNo e) ["unable to flush out DB: "; errMsg e]))
  | None => ret None
  end.

Definition CheckDBConnection : IO (option string) :=
  GetDBConnection InMemory ;;;
  GetDBConnection OnDisk ;;;
  let! r := Ping InMemory in
  match r with
  | Some err => ret (Some ("unable to ping InMemory DB: " +:+ err))
  | None =>
      let! r := Ping OnDisk in
      match r with
      | Some err => ret (Some ("unable to ping OnDisk DB: " +:+ err))
      | None => ret None
      end
  end.
End ConnPool.
