(* ===== verification/RedisIndex.v ===== *)
(** The part of Redis the index operations and the task service use beside the string keys: sorted
    sets, transactions, and the pipelined commands whose replies nobody reads.  As in [Redis] it
    lies outside of the repository: [IndexEnv] is the interface, [IndexLaws] the documented
    behaviour; [Scenario] has a server that satisfies it.

    A sorted set is a finite map from its members to their scores, which are float64 numbers: rationals
    here. *)
From stdpp Require Import base gmap list strings.
From Stdlib Require Import Ascii.
From Stdlib Require Import QArith_base.
From S2P Require Import Prelude Go GoTime Redis World.
Open Scope string_scope.

(** How a client passes the cursor of a scan: redigo writes an int in decimal and a float64 with
    strconv's shortest 'g' format, which is decimal below 10^6 only. *)
Inductive cursor := IntCursor (n : Z) | FloatCursor (n : Z).
Definition cursor_val (c : cursor) : Z := match c with IntCursor n | FloatCursor n => n end.
Definition decimal_cursor (c : cursor) : bool :=
  match c with IntCursor _ => true | FloatCursor n => (n <? 1000000)%Z end.

Inductive zcmd : Type :=
| ZADD (index : string) (score : Q) (member : string)
| ZREM (index member : string)
| ZRANGE (index : string) (min max : Z)
| ZRANGEBYSCORE (index : string) (min max : Z)
| ZSCAN (index : string) (c : cursor) (pattern : string)    (* COUNT 1000 *)
| WATCH (k : string)
| EXEC.   (* with the MULTI that was buffered before it *)

(** [ZPage next data]: the next cursor, and members alternating with their scores as texts. *)
Inductive zreply : Type :=
| ZErr (msg : string)
| ZStrings (l : list string)
| ZPage (next : string) (data : list string)
| ZDone.

Class IndexEnv `{Env} : Type := {
  zset_do : addr -> zcmd -> env -> zreply * env;
  (** [conn.Send] of a write and then [conn.Close], which flushes it and drops the reply: what
      [Send] returns. *)
  zset_send : addr -> zcmd -> env -> option string * env;
}.

Abbreviation zset := (gmap string QArith_base.Q).

(** The effect of a write on the set it names. *)
Definition zapply (c : zcmd) (z : zset) : zset :=
  match c with
  | ZADD _ score m => <[m := score]> z
  | ZREM _ m => delete m z
  | _ => z
  end.
Definition zindex (c : zcmd) : string :=
  match c with
  | ZADD i _ _ | ZREM i _ | ZRANGE i _ _ | ZRANGEBYSCORE i _ _ | ZSCAN i _ _ => i
  | WATCH k => k
  | EXEC => ""
  end.
Definition zwrites (c : zcmd) : bool := match c with ZADD _ _ _ | ZREM _ _ => true | _ => false end.
Definition zaccepted (c : zcmd) : bool :=
  match c with ZSCAN _ cur _ => decimal_cursor cur | _ => true end.

(** The texts of a page: each member followed by its score. *)
Fixpoint page_of (l : list (string * string)) : list string :=
  match l with [] => [] | (m, s) :: l' => m :: s :: page_of l' end.
(** The text of a score: that of zero is 0, and no text of a number has a colon. *)
Definition score_text (score : Q) (s : string) : Prop :=
  no_char ":"%char s = true /\ (score == 0 -> s = "0")%Q.

(** A sorted set that stays as it is, and its scan from the start that takes no longer. *)
Definition same_zset {E} (zs : E -> addr -> string -> zset) (pages : E -> addr -> string -> Z -> nat)
    (a : addr) (i : string) (e e' : E) : Prop :=
  zs e' a i = zs e a i /\ (pages e' a i 0%Z <= pages e a i 0%Z)%nat.

Class IndexLaws `{EnvLaws, !IndexEnv} : Type := {
  zsets : env -> addr -> string -> zset;
  (** Does a member match a pattern; patterns that are a star and plain characters are suffixes. *)
  glob : string -> string -> bool;
  glob_suffix p m : no_glob p = true -> glob ("*" +:+ p) m = HasSuffix m p;
  (** A scan that has reached a cursor will still return a member, and takes at most so many more
      pages. *)
  unscanned : env -> addr -> string -> Z -> string -> Prop;
  pages_left : env -> addr -> string -> Z -> nat;
  scan_start e a i m : is_Some (zsets e a i !! m) -> unscanned e a i 0 m;

  zdo_law a c e r e' : zset_do a c e = (r, e') ->
    quiet e e' /\
    (forall a' i, (a', i) <> (a, zindex c) -> zsets e' a' i = zsets e a' i) /\
    (reliable e -> zaccepted c = true -> forall msg, r <> ZErr msg) /\
    (forall a' i n m, unscanned e a' i n m -> is_Some (zsets e' a' i !! m) -> unscanned e' a' i n m) /\
    (forall a' i n, (pages_left e' a' i n <= pages_left e a' i n)%nat);
  zrem_law a i m e r e' : zset_do a (ZREM i m) e = (r, e') ->
    match r with
    | ZErr _ => zsets e' a i = zsets e a i \/ zsets e' a i = delete m (zsets e a i)
    | ZDone => zsets e' a i = delete m (zsets e a i)
    | _ => False
    end;
  zrange_law a i e r e' : zset_do a (ZRANGE i 0 (-1)) e = (r, e') ->
    zsets e' a i = zsets e a i /\
    match r with
    | ZErr _ => True
    | ZStrings l => NoDup l /\ forall m, m ∈ l <-> is_Some (zsets e a i !! m)
    | _ => False
    end;
  zrangebyscore_law a i min max e r e' : zset_do a (ZRANGEBYSCORE i min max) e = (r, e') ->
    zsets e' a i = zsets e a i /\
    match r with
    | ZErr _ => True
    | ZStrings l => NoDup l /\ forall m, m ∈ l <-> exists score, zsets e a i !! m = Some score /\
                      (inject_Z min <= score <= inject_Z max)%Q
    | _ => False
    end;
  zscan_law a i c p e r e' : zset_do a (ZSCAN i c p) e = (r, e') ->
    zsets e' a i = zsets e a i /\
    match r with
    | ZErr _ => True
    | ZPage next data =>
        exists l n, data = page_of l /\ atoi next = Some n /\ (0 <= n < 2 ^ 63)%Z /\ (next = "0" <-> n = 0%Z) /\
          (forall m s, (m, s) ∈ l ->
             glob p m = true /\ exists score, zsets e a i !! m = Some score /\ score_text score s) /\
          (forall m, unscanned e a i (cursor_val c) m -> is_Some (zsets e a i !! m) -> glob p m = true ->
             m ∈ l.*1 \/ (n <> 0%Z /\ unscanned e' a i n m)) /\
          (n <> 0%Z -> (pages_left e' a i n < pages_left e a i (cursor_val c))%nat)
    | _ => False
    end;
  ztrans_law a c e r e' : zset_do a c e = (r, e') -> (c = EXEC \/ exists k, c = WATCH k) ->
    (forall i, zsets e' a i = zsets e a i) /\
    match r with ZErr _ | ZDone => True | _ => False end;
  zsend_law a c e r e' : zset_send a c e = (r, e') -> zwrites c = true ->
    quiet e e' /\
    (forall a' i, (a', i) <> (a, zindex c) -> zsets e' a' i = zsets e a' i) /\
    (zsets e' a (zindex c) = zsets e a (zindex c) \/
     zsets e' a (zindex c) = zapply c (zsets e a (zindex c))) /\
    (reliable e -> r = None /\ zsets e' a (zindex c) = zapply c (zsets e a (zindex c)));
  (** The commands on string keys leave the sorted sets alone, unless they name one of them; time
      and uuids have nothing to do with them. *)
  do_zsets a c e r e' : redis_do a c e = (r, e') -> c <> FLUSHALL ->
    forall a' i, (forall k v, c = SET k v \/ c = DEL k -> (a', i) <> (a, k)) ->
    same_zset zsets pages_left a' i e e';
  now_zsets e t e' a i : time_now e = (t, e') -> same_zset zsets pages_left a i e e';
  uuid_zsets e s e' a i : uuid_v4 e = (s, e') -> same_zset zsets pages_left a i e e';
  sleep_zsets d e a i : same_zset zsets pages_left a i e (time_sleep d e);
}.

Section ops.
Context `{Env, !IndexEnv}.
Definition ZDo (a : addr) (c : zcmd) : M World zreply := in_env (zset_do a c).
Definition ZSend (a : addr) (c : zcmd) : M World (option string) := in_env (zset_send a c).
End ops.
