(* ===== verification/Index.v ===== *)
(** lib-persistence-manager/persistencemgr/redis.go: the transaction, and the operations on the
    indices, which are sorted sets.

    A scan of an index is a loop that ends when the server answers the cursor 0.  The loops here
    make at most [fuel] rounds and answer [None] when these were not enough; [IndexProps] shows that
    the number of pages the server has left is enough. *)
From stdpp Require Import base gmap list strings.
From Stdlib Require Import Ascii.
From Stdlib Require Import QArith_base.
From S2P Require Import Prelude Go GoTime GoText Response Redis World ConnPool RedisIndex.
Open Scope string_scope.

(** [for { ... }] with a local variable: [inl] leaves the loop. *)
Fixpoint iterM {S L R} (fuel : nat) (body : L -> M S (R + L)) (acc : L) : M S (option R) :=
  match fuel with
  | O => ret None
  | S fuel' =>
      let! r := body acc in
      match r with
      | inl r => ret (Some r)
      | inr acc' => iterM fuel' body acc'
      end
  end.

(** [strconv.Atoi]: an int64. *)
Definition Atoi (s : string) : option Z :=
  match atoi s with Some n => if (n <? 2 ^ 63)%Z then Some n else None | None => None end.
Definition atoi_error (s : string) : string := num_error "Atoi" s "invalid syntax".

(** [strings.Replace(s, c, "\" + c, -1)] *)
Fixpoint escape_char (c : ascii) (s : string) : string :=
  match s with
  | EmptyString => EmptyString
  | String d s' => if Ascii.eqb d c then String "\" (String d (escape_char c s'))
                   else String d (escape_char c s')
  end.
Definition escape_brackets (s : string) : string := escape_char "]" (escape_char "[" s).
(** [strings.Join(l, " ")] in square brackets *)
Definition bracketed (l : list string) : string := "[" +:+ String.concat " " l +:+ "]".

Definition getUniqueSlice (inputSlice : list string) : list string :=
  (fold_left (fun kl val => if existsb (String.eqb val) kl.1 then kl
                            else (val :: kl.1, kl.2 ++ [val]))%list inputSlice ([], [])).2.

Section Index.
Context `{Env, !IndexEnv, Config}.
Context (fuel : nat).

Definition get_data_error (msg : string) : string := "error while trying to get data: " +:+ msg.
Definition not_zero (l : list string) : list string := List.filter (fun d => negb (String.eqb d "0")) l.

(** The error of a failed write, for the writers that test what kind it is. *)
Definition zwrite_failed (db : DbType) (err : string) (other : option string) : IO (option string) :=
  match isDbConnectError err with
  | Some errs => StoreWritePoolNil db ;;; ret (Some (errMsg errs))
  | None => ret other
  end.

(** [Transaction]: MULTI stays in the buffer of the connection until EXEC.  The callback runs in the
    state of the service that calls, of which the world of the databases is a part. *)
Definition Transaction {S} (run_io : forall A, IO A -> M S A) (db : DbType) (key : string)
    (cb : string -> M S (option string)) : M S (option Err) :=
  let! writePool := run_io _ (LoadWritePool db) in
  match writePool with
  | None => ret (Some (PackError UndefinedErrorType
              ["error while trying to Write Transaction data: WritePool is nil"]))
  | Some a =>
      let! r := run_io _ (ZDo a (WATCH key)) in
      match r with
      | ZErr err =>
          match isDbConnectError err with
          | Some errs => run_io _ (StoreWritePoolNil db) ;;; ret (Some errs)
          | None => ret (Some (PackError UndefinedErrorType [err]))
          end
      | _ =>
          let! e := cb key in
          match e with
          | Some err => ret (Some (PackError UndefinedErrorType [err]))
          | None =>
              let! r := run_io _ (ZDo a EXEC) in
              match r with
              | ZErr err => ret (Some (PackError UndefinedErrorType [err]))
              | _ => ret None
              end
          end
      end
  end.

(** ** The index of completed tasks *)

Definition CreateTaskIndex (db : DbType) (index : string) (value : Z) (key : string) : IO (option string) :=
  let! writePool := LoadWritePool db in
  match writePool with
  | None => ret (Some "error while creating task index: WritePool is nil ")
  | Some a =>
      let! e := ZSend a (ZADD index (inject_Z value) key) in
      match e with
      | Some err => StoreWritePoolNil db ;;; ret (Some err)
      | None => ret None
      end
  end.

Definition GetTaskList (db : DbType) (index : string) (min max : Z) : IO (string + list string) :=
  let! a := read_conn db in
  let! r := ZDo a (ZRANGE index min max) in
  match r with
  | ZErr err => ret (inl (get_data_error err))
  | ZStrings data => ret (inr data)
  | _ => ret (inl (get_data_error "redigo: unexpected type for Strings"))
  end.

Definition GetRange (db : DbType) (index : string) (min max : Z) (regexFlag : bool)
  : IO (string + list string) :=
  let! a := read_conn db in
  let! r := ZDo a (ZRANGEBYSCORE index min max) in
  match r with
  | ZErr err => ret (inl (get_data_error err))
  | ZStrings data =>
      if regexFlag then ret (inr data)
      else
        let! l := loopM data [] (fun getList d =>
          let! id := lift (GoTime.index (Split d "::") 1) in ret (inr (getList ++ [id])%list)) in
        ret l
  | _ => ret (inl (get_data_error "redigo: unexpected type for Strings"))
  end.

(** One round of a scan: what the page holds, and where to go on.  The type assertion on the reply
    panics when it is not a page. *)
Definition zscan (db : DbType) (index : string) (c : cursor) (pattern : string)
  : IO (string + (string * list string)) :=
  let! a := read_conn db in
  let! r := ZDo a (ZSCAN index c pattern) in
  match r with
  | ZErr err => ret (inl (get_data_error err))
  | ZPage next data => ret (inr (next, data))
  | _ => panic
  end.

(** [Del]: removes the members of an index that end with [k]. *)
Definition delMembers (db : DbType) (a : addr) (index : string) (data : list string)
  : IO (string + unit) :=
  loopM data tt (fun _ resource =>
    if String.eqb resource "0" then ret (inr tt)
    else
      let! r := ZDo a (ZREM index resource) in
      match r with
      | ZErr err =>
          let! e := zwrite_failed db err (Some ("error while trying to delete data: " +:+ err)) in
          ret (inl (default "" e))
      | _ => ret (inr tt)
      end).
Definition Del (db : DbType) (index k : string) : IO (option (option string)) :=
  let key := "*" +:+ k in
  iterM fuel (fun currentCursor =>
    let! d := zscan db index (IntCursor currentCursor) key in
    match d with
    | inl err => ret (inl (Some err))
    | inr (stringCursor, data) =>
        if Nat.ltb (length data) 1 then ret (inl (Some "no data with ID found"))
        else
          let! writePool := LoadWritePool db in
          match writePool with
          | None => ret (inl (Some "WritePool is nil"))
          | Some a =>
              let! r := delMembers db a index data in
              match r with
              | inl err => ret (inl (Some err))
              | inr _ =>
                  if String.eqb stringCursor "0" then ret (inl None)
                  else match Atoi stringCursor with
                       | Some n => ret (inr n)
                       | None => ret (inl (Some (atoi_error stringCursor)))
                       end
              end
          end
    end) 0%Z.

(** ** Searches: the rounds of a scan with a float cursor that collect what they find *)

(** A round: the cursor, and what was collected so far. *)
Definition scanPage (db : DbType) (index pattern : string) (collect : list string -> outcome (list string))
    (st : Z * list string) : IO ((string + list string) + (Z * list string)) :=
  let (currentCursor, getList) := st in
  let! d := zscan db index (FloatCursor currentCursor) pattern in
  match d with
  | inl err => ret (inl (inl err))
  | inr (stringCursor, data) =>
      let! found := lift (collect (not_zero data)) in
      let getList := (getList ++ found)%list in
      if String.eqb stringCursor "0" then ret (inl (inr getList))
      else match atoi stringCursor with
           | Some n => ret (inr (n, getList))
           | None => ret (inl (inl (num_error "ParseFloat" stringCursor "invalid syntax")))
           end
  end.
Definition scanAll (db : DbType) (index pattern : string) (c : Z)
    (collect : list string -> outcome (list string)) : IO (option (string + list string)) :=
  iterM fuel (scanPage db index pattern collect) (c, []).

Fixpoint second_parts (l : list string) : outcome (list string) :=
  match l with
  | [] => Ok []
  | d :: l' => obind (GoTime.index (Split d "::") 1) (fun id =>
                 obind (second_parts l') (fun ids => Ok (id :: ids)))
  end.
Definition GetString (db : DbType) (index : string) (c : Z) (match_ : string) (regexFlag : bool)
  : IO (option (string + list string)) :=
  scanAll db index (ToLower match_) c (if regexFlag then Ok else second_parts).

Definition GetEvtSubscriptions (db : DbType) (index searchKey : string)
  : IO (option (string + list string)) :=
  scanAll db index searchKey 0 Ok.

(** The entries of a list of numbers: the identifiers that a value of theirs matches, or the error
    of a value that is no number.  No value matches an unknown condition. *)
Definition storage_match (condition : string) (v match_ : float64) : outcome bool :=
  if String.eqb condition "eq" then big_equal match_ v
  else Ok (if String.eqb condition "gt" then float_lt match_ v
           else if String.eqb condition "ge" then float_le match_ v
           else if String.eqb condition "lt" then float_lt v match_
           else if String.eqb condition "le" then float_le v match_
           else false).
Fixpoint storage_values (condition : string) (match_ : float64) (id : string) (values : list string)
  : outcome (string + list string) :=
  match values with
  | [] => Ok (inr [])
  | value :: values' =>
      match ParseFloat value with
      | inl err => Ok (inl err)
      | inr v =>
          obind (storage_match condition v match_) (fun found =>
          obind (storage_values condition match_ id values') (fun r =>
            match r with
            | inl err => Ok (inl err)
            | inr ids => Ok (inr (if found then id :: ids else ids))
            end))
      end
  end.
Fixpoint storage_entries (condition : string) (match_ : float64) (l : list string)
  : outcome (string + list string) :=
  match l with
  | [] => Ok (inr [])
  | k :: l' =>
      obind (GoTime.index (Split k "::") 0) (fun values =>
      obind (GoTime.index (Split k "::") 1) (fun id =>
      obind (storage_values condition match_ id (Split (Replace (Replace values "]" "") "[" "") " ")) (fun r =>
        match r with
        | inl err => Ok (inl err)
        | inr found =>
            obind (storage_entries condition match_ l') (fun r =>
              match r with
              | inl err => Ok (inl err)
              | inr rest => Ok (inr (found ++ rest)%list)
              end)
        end)))
  end.
Definition GetStorageList (db : DbType) (index : string) (c : Z) (match_ : float64) (condition : string)
    (regexFlag : bool) : IO (option (string + list string)) :=
  let! r := scanAll db index "*" c Ok in
  match r with
  | None => ret None
  | Some (inl err) => ret (Some (inl err))
  | Some (inr getList) =>
      if regexFlag then ret (Some (inr getList))
      else
        let! r := lift (storage_entries condition match_ getList) in
        match r with
        | inl err => ret (Some (inl err))
        | inr storeList => ret (Some (inr (getUniqueSlice storeList)))
        end
  end.

(** ** The indices of a resource *)

(** The dynamic type of a value of the form; JSON has no other numbers than finite ones.  [FOther]
    is the text of a value of another type. *)
Inductive form_value :=
| FInt (n : Z)
| FFloat (q : Q)
| FString (s : string)
| FStrings (l : list string)
| FFloats (l : list Q)
| FOther (text : string).
Definition form_entry (value : form_value) (uuid : string) : string + (Q * string) :=
  match value with
  | FInt n => inr (inject_Z n, show_int n +:+ "::" +:+ uuid)
  | FFloat q => inr (q, FormatFloat (Fin q) +:+ "::" +:+ uuid)
  | FString s => inr (inject_Z 0, ToLower s +:+ "::" +:+ uuid)
  | FStrings l => inr (inject_Z 0, ToLower (bracketed l) +:+ "::" +:+ uuid)
  | FFloats l => inr (inject_Z 0, bracketed ((fun q => FormatFloat (Fin q)) <$> l) +:+ "::" +:+ uuid)
  | FOther text => inl ("error while saving index, unsupported value type " +:+ text)
  end.
(** The form is a map: its entries in the order of the run. *)
Definition CreateIndex (db : DbType) (form : list (string * form_value)) (uuid : string) : IO (option string) :=
  let! writePool := LoadWritePool db in
  match writePool with
  | None => ret (Some "error while Creating index: WritePool is nil ")
  | Some a =>
      let! r := loopM form tt (fun _ '(index, value) =>
        match form_entry value uuid with
        | inl err => ret (inl err)
        | inr (val, key) =>
            let! e := ZSend a (ZADD index val key) in
            match e with
            | Some err => StoreWritePoolNil db ;;; ret (inl err)
            | None => ret (inr tt)
            end
        end) in
      match r with inl err => ret (Some err) | inr _ => ret None end
  end.
Definition index_failed (err : string) : string := "Error while updating index: " +:+ err.
Definition UpdateResourceIndex (db : DbType) (form : list (string * form_value)) (uuid : string)
  : IO (option (option string)) :=
  let! r := loopM form tt (fun _ '(index, _) =>
    let! err := Del db index uuid in
    match err with
    | None => ret (inl None)
    | Some (Some err) => if String.eqb err "no data with ID found" then ret (inr tt)
                         else ret (inl (Some (index_failed err)))
    | Some None => ret (inr tt)
    end) in
  match r with
  | inl r => ret (match r with Some e => Some (Some e) | None => None end)
  | inr _ =>
      let! err := CreateIndex db form uuid in
      ret (Some (match err with Some err => Some (index_failed err) | None => None end))
  end.

(** ** Event subscriptions *)

Definition CreateEvtSubscriptionIndex (db : DbType) (index key : string) : IO (option (option string)) :=
  let! writePool := LoadWritePool db in
  match writePool with
  | None => ret (Some (Some "WritePool is nil"))
  | Some a =>
      let! val := GetEvtSubscriptions db index (escape_brackets key) in
      match val with
      | None => ret None
      | Some (inr (_ :: _)) => ret (Some (Some ("Data Already Exist for the index: " +:+ index)))
      | Some _ => (* its error is ignored *)
          let! e := ZSend a (ZADD index 0 key) in
          match e with
          | Some err => StoreWritePoolNil db ;;; ret (Some (Some err))
          | None => ret (Some None)
          end
      end
  end.

(** Buffers a ZREM for each member; errors other than a lost connection are passed over. *)
Definition sendRemoves (db : DbType) (a : addr) (index : string) (value : list string)
  : IO (option string) :=
  let! r := loopM value tt (fun _ data =>
    let! e := ZSend a (ZREM index data) in
    match e with
    | Some err =>
        let! e := zwrite_failed db err None in
        match e with Some e => ret (inl e) | None => ret (inr tt) end
    | None => ret (inr tt)
    end) in
  match r with inl e => ret (Some e) | inr _ => ret None end.

Definition DeleteEvtSubscriptions (db : DbType) (index removeKey : string) : IO (option (option string)) :=
  let! writePool := LoadWritePool db in
  match writePool with
  | None => ret (Some (Some "WritePool is nil"))
  | Some a =>
      let! value := GetEvtSubscriptions db index removeKey in
      match value with
      | None => ret None
      | Some (inl err) => ret (Some (Some err))
      | Some (inr []) => ret (Some (Some ("No data found for the key: " +:+ removeKey)))
      | Some (inr value) => let! e := sendRemoves db a index value in ret (Some e)
      end
  end.

Definition UpdateEvtSubscriptions (db : DbType) (index subscritionID key : string)
  : IO (option (option string)) :=
  let! err := DeleteEvtSubscriptions db index subscritionID in
  match err with
  | Some None =>
      let! err := CreateEvtSubscriptionIndex db index key in
      match err with
      | Some (Some _) => ret (Some (Some "Error while updating subscriptions"))
      | r => ret r
      end
  | r => ret r
  end.

(** ** Device subscriptions *)

(** Returns after the first page, which holds the only entry of a host. *)
Definition GetDeviceSubscription (db : DbType) (index match_ : string) : IO (string + list string) :=
  let! d := zscan db index (FloatCursor 0) match_ in
  match d with
  | inl err => ret (inl err)
  | inr (_, []) => ret (inl ("No data found for the key: " +:+ match_))
  | inr (_, data) => ret (inr data)
  end.

Definition device_key (hostIP location : string) (originResources : list string) : string :=
  hostIP +:+ "::" +:+ location +:+ "::" +:+ bracketed originResources.
Definition CreateDeviceSubscriptionIndex (db : DbType) (index hostIP location : string)
    (originResources : list string) : IO (option string) :=
  let! writePool := LoadWritePool db in
  match writePool with
  | None => ret (Some "WritePool is nil")
  | Some a =>
      let key := device_key hostIP location originResources in
      let! val := GetDeviceSubscription db index (escape_brackets key) in
      match val with
      | inr (_ :: _) => ret (Some ("Data Already Exist for the index: " +:+ index))
      | _ => ZSend a (ZADD index 0 key)
      end
  end.

Definition DeleteDeviceSubscription (db : DbType) (index hostIP : string) : IO (option string) :=
  let! writePool := LoadWritePool db in
  match writePool with
  | None => ret (Some "WritePool is nil")
  | Some a =>
      let! value := GetDeviceSubscription db index (hostIP +:+ "*") in
      match value with
      | inl err => ret (Some err)
      | inr [] => ret (Some ("No data found for the key: " +:+ hostIP))
      | inr value => sendRemoves db a index value
      end
  end.

Definition UpdateDeviceSubscription (db : DbType) (index hostIP location : string)
    (originResources : list string) : IO (option string) :=
  let! r := GetDeviceSubscription db index (hostIP +:+ "[^0-9]*") in
  match r with
  | inl err => ret (Some err)
  | inr _ =>
      let! err := DeleteDeviceSubscription db index (hostIP +:+ "[^0-9]") in
      match err with
      | Some err => ret (Some err)
      | None =>
          let! err := CreateDeviceSubscriptionIndex db index hostIP location originResources in
          match err with
          | Some _ => ret (Some "Error while updating subscriptions")
          | None => ret None
          end
      end
  end.
End Index.
