(* ===== verification/Search.v ===== *)
(** The search and filter of svc-systems: systems/getresource.go, the functions of smodel it reads the
    indices with, and the collection of systems.

    The order in which a run visits the keys of a map is the parameter [map_order], and the regular
    expressions of a user are matched by the parameter [regexp_MatchString].  A scan that needs more
    rounds than the fuel is not a run of the model: [SearchProps] shows when this does not happen. *)
From stdpp Require Import base gmap list strings.
From Stdlib Require Import ZArith QArith_base Ascii.
From S2P Require Import Prelude Go GoTime GoText Links Response Redis World ConnPool RedisIndex Index.
Open Scope string_scope.

(** scommon.SF, the schema of the search, which main.go reads from a file. *)
Record Schema := {
  SearchKeys : list (gmap string (gmap string string));
  ConditionKeys : list string;
  QueryKeys : list string;
}.
Class SearchConfig : Type := { SF : Schema }.

(** [regexp.MatchString(pattern, s)]; [None] when the pattern does not compile. *)
Class Regexp : Type := { regexp_MatchString : string -> string -> option bool }.
Class MapOrder : Type := { map_order : list Link -> list Link }.

(** sresponse.Collection, and the bodies of the service: a collection or a stored document, whose
    numbers are kept as they are written. *)
Record Collection := {
  c_OdataContext : string;
  c_OdataID : string;
  c_OdataType : string;
  c_Description : string;
  c_Name : string;
  c_Members : list Link;
  c_MembersCount : Z;
}.
Inductive sysBody :=
| BCollection (c : Collection)
| BResource (resource : option (gmap string jval)).
Abbreviation sysRPC := (RPC sysBody).
Definition no_response : sysRPC := mkRPC 0 "" [] NoBody.

Section Search.
Context `{Env, !IndexEnv, Config, !SearchConfig, !Regexp, !MapOrder}.
Context (fuel : nat).

(** ** smodel: a failed read of an index finds nothing *)

Definition scanned {A} (r : option (string + list A)) : IO (string + list A) :=
  match r with
  | None => panic
  | Some (inl _) => ret (inr [])
  | Some (inr l) => ret (inr l)
  end.
Definition smodel_GetStorageList (index condition : string) (match_ : float64) (regexFlag : bool)
  : IO (string + list string) :=
  GetDBConnection InMemory ;;;
  let! r := Index.GetStorageList fuel InMemory index 0 match_ condition regexFlag in scanned r.
Definition smodel_GetString (index match_ : string) (regexFlag : bool) : IO (string + list string) :=
  GetDBConnection InMemory ;;;
  let! r := Index.GetString fuel InMemory index 0 ("*" +:+ match_ +:+ "*") regexFlag in scanned r.
Definition smodel_GetRange (index : string) (min max : Z) (regexFlag : bool) : IO (string + list string) :=
  GetDBConnection InMemory ;;;
  let! r := Index.GetRange InMemory index min max regexFlag in scanned (Some r).
Definition smodel_GetAllKeysFromTable (table : string) : IO (string + list string) :=
  GetDBConnection InMemory ;;;
  let! r := GetAllDetails InMemory table in
  match r with
  | inl err => ret (inl ("error while trying to get all keys from table - " +:+ table +:+ ": " +:+ errMsg err))
  | inr keysArray => ret (inr keysArray)
  end.

(** ** Reading an index for one condition *)

(** [for j := 0; j < len(allKeys); j++ { if matched == allKeys[j] { remove; break } }] *)
Fixpoint remove_first (x : string) (l : list string) : list string :=
  match l with
  | [] => []
  | y :: l' => if String.eqb x y then l' else y :: remove_first x l'
  end.
Definition getStringData (key match_ expr : string) (regexFlag : bool) : IO (string + list string) :=
  if String.eqb expr "eq" then smodel_GetString key match_ regexFlag
  else
    let! allKeys := smodel_GetString key "" regexFlag in
    match allKeys with
    | inl err => ret (inl err)
    | inr allKeys =>
        let! matchedKeys := smodel_GetString key match_ regexFlag in
        match matchedKeys with
        | inl err => ret (inl err)
        | inr matchedKeys =>
            if (length allKeys =? length matchedKeys)%nat then ret (inr [])
            else if (length matchedKeys =? 0)%nat then ret (inr allKeys)
            else ret (inr (fold_left (fun l x => remove_first x l) matchedKeys allKeys))
        end
    end.

Definition max_score : Z := 100000000.
Definition getRangeData (key expr : string) (match_ : Z) (regexFlag : bool) : IO (string + list string) :=
  let above := int64 (match_ + 1) in let below := int64 (match_ - 1) in
  if (String.eqb expr "le" || String.eqb expr "lt") && (match_ =? 0)%Z then ret (inr [])
  else if String.eqb expr "eq" then smodel_GetRange key match_ match_ regexFlag
  else if String.eqb expr "gt" then smodel_GetRange key above max_score regexFlag
  else if String.eqb expr "ge" then smodel_GetRange key match_ max_score regexFlag
  else if String.eqb expr "lt" then smodel_GetRange key 0 below regexFlag
  else if String.eqb expr "le" then smodel_GetRange key 0 match_ regexFlag
  else if String.eqb expr "ne" then
    if (match_ =? 0)%Z then smodel_GetRange key above max_score regexFlag
    else
      let! lowerboundKeys := smodel_GetRange key 0 below regexFlag in
      match lowerboundKeys with
      | inl err => ret (inl err)
      | inr lowerboundKeys =>
          let! upperboundKeys := smodel_GetRange key above max_score regexFlag in
          match upperboundKeys with
          | inl err => ret (inl err)
          | inr upperboundKeys => ret (inr (lowerboundKeys ++ upperboundKeys)%list)
          end
      end
  else ret (inr []).

(** [None]: the expression does not compile. *)
Fixpoint parseRegexData (data : list string) (regex : string) : outcome (option (list string)) :=
  match data with
  | [] => Ok (Some [])
  | d :: data' =>
      let values := Split d "::" in
      obind (index values 0) (fun value =>
        match regexp_MatchString ("(?i)" +:+ Replace (Replace regex "(" "\(") ")" "\)") value with
        | None => Ok None
        | Some found =>
            obind (if found then obind (index values 1) (fun id => Ok [id]) else Ok []) (fun ids =>
            obind (parseRegexData data' regex) (fun rest =>
              Ok (match rest with Some rest => Some (ids ++ rest)%list | None => None end)))
        end)
  end.

Definition setRegexFlag (val : string) : bool := string_exists special_char val.

(** ** The errors of an expression *)

Definition invalid_expression : string := " not a valid search/filter expression".
Definition bad_query : outcome sysRPC :=
  GeneralError StatusBadRequest QueryCombinationInvalid invalid_expression [IString "ComputerSystem"; IString ""].
Definition db_failed (err : string) : outcome sysRPC :=
  GeneralError StatusServiceUnavailable CouldNotEstablishConnection err
    [IString (InMemoryHost (ConfDB Data) +:+ ":" +:+ InMemoryPort (ConfDB Data))].
Definition bad_value (key err : string) : outcome sysRPC :=
  GeneralError StatusBadRequest PropertyValueFormatError err [IString key; IString "Invalida value"].

(** A slice that [append] made: nil when nothing was appended. *)
Definition nil_or {A} (l : list A) : slice A := match l with [] => None | _ => Some l end.

(** A step of the search: an error response, or the result. *)
Definition refuse {A} (r : outcome sysRPC) : IO (sysRPC + A) := let! rsp := lift r in ret (inl rsp).

Definition operatorSet : list string := ["eq"; "ne"; "gt"; "ge"; "lt"; "le"].
Definition lastParam (expression : list string) : string :=
  default "" (List.find (fun e => negb (String.eqb e "")) (rev expression)).
Definition validateLastParameter (expression : list string) : option string :=
  let last := lastParam expression in
  if String.eqb last "" then Some "no valid expression found"
  else match List.find (String.eqb last) operatorSet with
       | Some op => Some ("expression ends with an operator " +:+ op)
       | None => None
       end.

(** ** GetMembers *)

Definition typed_keys (pam : string) : list string :=
  omap (fun value => (fun v => default "" (v !! "type")) <$> value !! pam) (SearchKeys SF).
Definition other_type (t : string) : bool := negb (String.eqb t "string") && negb (String.eqb t "[]string").
Definition array_type (t : string) : bool := String.eqb t "[]float64" || String.eqb t "[]int".
Definition searchKey (k : string) : bool := existsb (fun value => bool_decide (is_Some (value !! k))) (SearchKeys SF).
Definition conditionKey (k : string) : bool := existsb (String.eqb k) (ConditionKeys SF).

(** One condition, [key expr val]; the flags are those of the types of the key. *)
Definition regexMembers (key val : string) (typeFlag arrayFlag : bool) : IO (sysRPC + list string) :=
  let! list := if arrayFlag then smodel_GetStorageList key "ne" (Fin (inject_Z 0)) true
               else if negb typeFlag then getStringData key "" "eq" true
               else getRangeData key "ge" 0 true in
  match list with
  | inl err => refuse (db_failed err)
  | inr list =>
      let! parsedList := lift (parseRegexData list val) in
      match parsedList with
      | None => refuse bad_query
      | Some parsedList => ret (inr parsedList)
      end
  end.
Definition listed (r : string + list string) : IO (sysRPC + list string) :=
  match r with inl err => refuse (db_failed err) | inr list => ret (inr list) end.
Definition valueMembers (key expr val : string) (typeFlag arrayFlag : bool) : IO (sysRPC + list string) :=
  if arrayFlag then
    match ParseFloat val with
    | inl err => refuse (bad_value key err)
    | inr searchValue => let! r := smodel_GetStorageList key expr searchValue false in listed r
    end
  else if negb typeFlag then
    if negb (String.eqb expr "eq" || String.eqb expr "ne")
    then refuse (GeneralError StatusBadRequest QueryCombinationInvalid "error:invalid expression"
                   [IString expr; IString ("Invalid Expression for " +:+ key)])
    else let! r := getStringData key val expr false in listed r
  else
    match AtoiErr val with
    | inl err => refuse (bad_value key err)
    | inr searchValue => let! r := getRangeData key expr searchValue false in listed r
    end.

(** The flags stay set for the parameters that follow. *)
Record walk := mkwalk { wk_members : list Link; wk_type : bool; wk_array : bool }.
Definition memberStep (expression : list string) (st : walk) (amp : nat) (pam : string)
  : IO (sysRPC + walk) :=
  let typeFlag := wk_type st || existsb other_type (typed_keys pam) in
  let arrayFlag := wk_array st || existsb array_type (typed_keys pam) in
  let same := mkwalk (wk_members st) typeFlag arrayFlag in
  if searchKey pam then
    let new := S amp in
    match expression !! new with
    | None => ret (inr same)
    | Some expr =>
        if conditionKey expr then
          let! val := lift (index expression (S new)) in
          let key := Replace pam "\/" "/" in
          let! r := if setRegexFlag val then regexMembers key val typeFlag arrayFlag
                    else valueMembers key expr val typeFlag arrayFlag in
          match r with
          | inl rsp => ret (inl rsp)
          | inr list => ret (inr (mkwalk (wk_members st ++ (mkLink <$> list)) typeFlag arrayFlag))
          end
        else ret (inr same)
    end
  else ret (inr same).
Definition GetMembers (expression : list string) : IO (sysRPC + list Link) :=
  match validateLastParameter expression with
  | Some err => refuse (GeneralError StatusBadRequest QueryNotSupported err [])
  | None =>
      let! r := loopM (zip (seq 0 (length expression)) expression) (mkwalk [] false false)
                  (fun st '(amp, pam) => memberStep expression st amp pam) in
      match r with
      | inl rsp => ret (inl rsp)
      | inr st => ret (inr (wk_members st))
      end
  end.

Definition getAllSystemIDs : IO (sysRPC + list Link) :=
  let! systemKeys := smodel_GetAllKeysFromTable "ComputerSystem" in
  match systemKeys with
  | inl errorMessage =>
      if String.eqb errorMessage "error while trying to get resource details: no data with the with table name SystemCollection found"
      then refuse (GeneralError StatusNotFound ResourceNotFound errorMessage [IString "ComputerSystem"; IString ""])
      else refuse (GeneralError StatusInternalServerError InternalError errorMessage [])
  | inr systemKeys => ret (inr (mkLink <$> systemKeys))
  end.

(** ** SearchAndFilter *)

(** The query with its escapes replaced: what follows the first percent sign of a piece is taken for
    two hexadecimal digits.  A query without escapes is not taken apart. *)
Fixpoint percent_parts (l : list string) : outcome string :=
  match l with
  | [] => Ok ""
  | j :: l' =>
      obind (slice_to j 2) (fun h =>
      obind (slice_from j 2) (fun r =>
      obind (percent_parts l') (fun rest => Ok (hex_pair h +:+ r +:+ rest))))
  end.
Definition decodeQuery (query1 param1 : string) : outcome string :=
  match Split query1 "%" with
  | first :: second :: rest => obind (percent_parts (second :: rest)) (fun r => Ok (first +:+ r))
  | _ => Ok param1
  end.

Definition checkParentheses (strPara : string) : bool :=
  existsb (fun val => HasPrefix val "(") (Split strPara " ").
Definition trim_parens (s : string) : string := Trim (Trim s "(") ")".

Definition errorResp (each : string) : IO (sysRPC + unit) :=
  if String.eqb each "" then refuse bad_query else ret (inr tt).
Definition ifMatches (strPara operator : string) : IO (sysRPC + unit) :=
  loopM (Split strPara operator) tt (fun _ e => errorResp e).
Definition validate (strPara : string) : IO (sysRPC + unit) :=
  let! r := if Contains strPara "and" then ifMatches strPara "and" else ret (inr tt) in
  match r with
  | inl rsp => ret (inl rsp)
  | inr _ => if Contains strPara "or" then ifMatches strPara "or" else ret (inr tt)
  end.

(** The conditions of the groups in parentheses are replaced by the texts of their members. *)
Definition evalCondition (strPara each : string) : IO (sysRPC + string) :=
  let! sa := GetMembers (Split each " ") in
  match sa with
  | inl rsp => ret (inl rsp)
  | inr sa => ret (inr (Replace strPara each (marshal_links (nil_or sa))))
  end.
Definition evalGroup (strPara element : string) : IO (sysRPC + string) :=
  let element := trim_parens element in
  if Contains element " and " then loopM (Split element " and ") strPara evalCondition
  else if Contains element " or " then loopM (Split element " or ") strPara evalCondition
  else evalCondition strPara element.

(** The groups, whose conditions are texts of members now, are replaced by the texts of theirs. *)
Definition operands (sep ele : string) : list (list Link) :=
  let '(h, _, inter) := unmarshal_all (Split ele sep) [] None [] in elements h <$> inter.
Definition combineGroup (strPara eles : string) : outcome string :=
  let ele := trim_parens eles in
  if Contains ele " and " then
    obind (LogicalOperation map_order (operands " and " ele) "and") (fun interResp =>
      Ok (Replace1 strPara eles (marshal_links (nil_or interResp))))
  else if Contains ele " or " then
    obind (LogicalOperation map_order (operands " or " ele) "or") (fun interResp =>
      Ok (Replace1 strPara eles (marshal_links (nil_or interResp))))
  else Ok (Replace1 strPara eles ele).
Fixpoint combineGroups (strPara : string) (l : list string) : outcome string :=
  match l with
  | [] => Ok strPara
  | eles :: l' => obind (combineGroup strPara eles) (fun strPara => combineGroups strPara l')
  end.

Definition has_operator (s : string) : bool :=
  Contains s "and " || Contains s " and" || Contains s "or " || Contains s " or".

(** The operators between the groups.  The operands of [or] are put behind those of [and]. *)
Definition checked_operands (strPara sep : string) (st : arrays * option lslice * list (option lslice))
  : IO (sysRPC + (arrays * option lslice * list (option lslice))) :=
  loopM (Split strPara sep) st (fun '(h, ww, inter) e =>
    let! r := errorResp e in
    match r with
    | inl rsp => ret (inl rsp)
    | inr _ => let (h, ww) := unmarshal_links e h ww in ret (inr (h, ww, inter ++ [ww])%list)
    end).
Definition topOperators (strPara : string) : IO (sysRPC + list Link) :=
  let! r := validate strPara in
  match r with
  | inl rsp => ret (inl rsp)
  | inr _ =>
      let! r := if Contains strPara " and " then
                  let! r := checked_operands strPara " and " ([], None, []) in
                  match r with
                  | inl rsp => ret (inl rsp)
                  | inr (h, ww, inter) =>
                      let! l := lift (LogicalOperation map_order (elements h <$> inter) "and") in
                      ret (inr ((h, ww, inter), l))
                  end
                else ret (inr (([], None, []), [])) in
      match r with
      | inl rsp => ret (inl rsp)
      | inr (st, respMembers) =>
          if Contains strPara " or " then
            let! r := checked_operands strPara " or " st in
            match r with
            | inl rsp => ret (inl rsp)
            | inr (h, ww, inter) =>
                let! l := lift (LogicalOperation map_order (elements h <$> inter) "or") in ret (inr l)
            end
          else ret (inr respMembers)
      end
  end.

(** Without operators: the text between the brackets is split at commas, and each piece is decoded
    into the same link. *)
Fixpoint flat_links (mem : Link) (l : list string) : list Link :=
  match l with
  | [] => []
  | e :: l' => let mem := unmarshal_link mem e in mem :: flat_links mem l'
  end.
Definition flatMembers (strPara : string) : list Link :=
  flat_links (mkLink "") (Split (Trim (Trim strPara "[") "]") ",").

Definition groupedSearch (strPara : string) : IO (sysRPC + list Link) :=
  if negb (Count strPara "(" =? Count strPara ")")%nat then refuse bad_query
  else
    let! r := loopM (FindAllParens strPara) strPara evalGroup in
    match r with
    | inl rsp => ret (inl rsp)
    | inr strPara =>
        let! strPara := lift (combineGroups strPara (FindAllParens strPara)) in
        let! r := if has_operator strPara then topOperators strPara else ret (inr []) in
        match r with
        | inl rsp => ret (inl rsp)
        | inr respMembers =>
            ret (inr (if negb (Contains strPara " and ") && negb (Contains strPara " or ")
                         && negb (Contains strPara " not ")
                      then flatMembers strPara else respMembers))
        end
    end.

(** Conditions without parentheses. *)
Definition conditions (strPara sep : string) (inter : list (list Link)) : IO (sysRPC + list (list Link)) :=
  loopM (Split strPara sep) inter (fun inter each =>
    let! r := errorResp each in
    match r with
    | inl rsp => ret (inl rsp)
    | inr _ =>
        let! ww := GetMembers (Split each " ") in
        match ww with
        | inl rsp => ret (inl rsp)
        | inr ww => ret (inr (inter ++ [ww])%list)
        end
    end).
Definition plainSearch (strPara : string) : IO (sysRPC + list Link) :=
  let! r := validate strPara in
  match r with
  | inl rsp => ret (inl rsp)
  | inr _ =>
      let! r := if Contains strPara " and " then
                  let! r := conditions strPara " and " [] in
                  match r with
                  | inl rsp => ret (inl rsp)
                  | inr inter => let! l := lift (LogicalOperation map_order inter "and") in ret (inr (inter, l))
                  end
                else ret (inr ([], [])) in
      match r with
      | inl rsp => ret (inl rsp)
      | inr (inter, respMembers) =>
          if Contains strPara " or " then
            let! r := conditions strPara " or " inter in
            match r with
            | inl rsp => ret (inl rsp)
            | inr inter => let! l := lift (LogicalOperation map_order inter "or") in ret (inr l)
            end
          else ret (inr respMembers)
      end
  end.
Definition notSearch (strPara : string) : IO (sysRPC + list Link) :=
  let! all := getAllSystemIDs in
  match all with
  | inl rsp => ret (inl rsp)
  | inr all =>
      let! expression := lift (index (Split strPara "not ") 1) in
      let! exp := GetMembers (Split expression " ") in
      match exp with
      | inl rsp => ret (inl rsp)
      | inr exp => let! l := lift (remove_members exp all) in ret (inr l)
      end
  end.

Definition searchMembers (strPara : string) : IO (sysRPC + list Link) :=
  if checkParentheses strPara then groupedSearch strPara
  else if has_operator strPara then plainSearch strPara
  else if Contains strPara " not " || Contains strPara "not " then notSearch strPara
  else GetMembers (Split strPara " ").

Definition systemCollection (members : list Link) : Collection := {|
  c_OdataContext := "/redfish/v1/$metadata#ComputerSystemCollection.ComputerSystemCollection";
  c_OdataID := "/redfish/v1/Systems";
  c_OdataType := "#ComputerSystemCollection.ComputerSystemCollection";
  c_Description := "Computer Systems view";
  c_Name := "Computer Systems";
  c_Members := members;
  c_MembersCount := Z.of_nat (length members) |}.
Definition collectionRPC (members : list Link) : sysRPC :=
  mkRPC StatusOK Success [] (Body (BCollection (systemCollection members))).

Definition queryKey (q : string) : bool := existsb (fun value => String.eqb q ("$" +:+ value)) (QueryKeys SF).
Definition SearchAndFilter (paramStr : list string) : IO sysRPC :=
  let! param1 := lift (index paramStr 1) in
  match Split param1 "=" with
  | query0 :: query1 :: _ =>
      if negb (queryKey query0) then lift bad_query
      else
        let! strPara := lift (decodeQuery query1 param1) in
        let! r := searchMembers strPara in
        match r with
        | inl rsp => ret rsp
        | inr respMembers => ret (collectionRPC respMembers)
        end
  | _ => lift bad_query
  end.

Definition GetSystemsCollection (URL : string) : IO sysRPC :=
  let paramStr := SplitN2 URL "?" in
  if (1 <? length paramStr)%nat then SearchAndFilter paramStr
  else
    let! r := getAllSystemIDs in
    match r with
    | inl rsp => ret rsp
    | inr members => ret (collectionRPC members)
    end.
End Search.
