(* ===== verification/DBSpec.v ===== *)
(** What the persistence manager promises its clients, and the proof that [ConnPool] keeps it.

    In a single-node deployment each database has one address, and a world shows, for each
    database, the finite map its server holds ([view]).  [evolves w v w'] says that [w'] is a later
    state of the process whose databases hold [v]; [ro w w'] that nothing was written.  A world is
    [healthy] when no command will fail and no write pool was lost; the specifications below say
    what every operation does in any world and what it does in a healthy one. *)
From stdpp Require Import base gmap list strings.
From S2P Require Import Prelude Go Response Redis World ConnPool.
Open Scope string_scope.

(** A database of the configuration. *)
Definition addr_of `{Config} (db : DbType) : addr := (Host (db_config db), Port (db_config db)).

Class SingleNode `{Config} : Prop := {
  ha_off : RedisHAEnabled DBc = false;
  addr_ne : addr_of InMemory <> addr_of OnDisk;
}.

Section spec.
Context `{EnvLaws, SingleNode}.
Implicit Types (w : World) (db : DbType) (k : string).

Abbreviation store := (gmap string jtext).

Definition view w db : store := contents (w_env w) (addr_of db).

Definition wf_pool db (p : option ConnPool) : Prop :=
  match p with
  | None => True
  | Some p => ReadPool p = Some (addr_of db) /\
              (WritePool p = None \/ WritePool p = Some (addr_of db))
  end.
Definition wf w : Prop := forall db, wf_pool db (pool_of db w).

(** The write pool of [db] was lost after a failed write. *)
Definition dead db w : Prop := exists p, pool_of db w = Some p /\ WritePool p = None.
Definition ready db w : Prop := is_Some (pool_of db w).
Definition healthy w : Prop := reliable (w_env w) /\ forall db, ~ dead db w.

Record evolves w (v : DbType -> store) w' : Prop := {
  ev_view : forall db, view w' db = v db;
  ev_wf : wf w';
  ev_ready : forall db, ready db w -> ready db w';
  ev_healthy : healthy w -> healthy w';
  ev_clock : (clock (w_env w) <= clock (w_env w'))%Z;
  ev_last : lastExpiredSessionCleanUpTime w' = lastExpiredSessionCleanUpTime w;
}.
Definition ro w w' : Prop := evolves w (view w) w'.

Definition upd (v : DbType -> store) db (m : store) : DbType -> store :=
  fun db' => if decide (db' = db) then m else v db'.

Lemma upd_eq v db m : upd v db m db = m.
Proof. unfold upd. by rewrite decide_True. Qed.
Lemma upd_ne v db db' m : db' <> db -> upd v db m db' = v db'.
Proof. intros. unfold upd. by rewrite decide_False. Qed.

Lemma addr_of_inj db db' : addr_of db = addr_of db' -> db = db'.
Proof. pose proof addr_ne. destruct db, db'; congruence. Qed.

(** ** The relation composes *)

Lemma ro_refl w : wf w -> ro w w.
Proof. intros Hwf. split; auto. lia. Qed.

Lemma ro_wf w w' : ro w w' -> wf w'.
Proof. apply ev_wf. Qed.
Lemma ro_view w w' db : ro w w' -> view w' db = view w db.
Proof. intros Hr. apply (ev_view _ _ _ Hr). Qed.

(** Worlds that show the same data: what is read off the databases does not tell them apart. *)
Record same_data w w' : Prop := { sd_view : forall db, view w db = view w' db }.
#[export] Instance same_data_equiv : Equivalence same_data.
Proof.
  split.
  - by split.
  - intros w w' [Hs]. by split.
  - intros w1 w2 w3 [Hs] [Ht]. split. intros db. by rewrite Hs.
Qed.
#[export] Instance view_proper : Proper (same_data ==> eq ==> eq) view.
Proof. intros w w' [Hs] db ? <-. apply Hs. Qed.
Lemma ro_same w w' : ro w w' -> same_data w' w.
Proof. intros Hr. split. intros db. by apply ro_view. Qed.

Lemma evolves_trans w v w' v' w'' : evolves w v w' -> evolves w' v' w'' -> evolves w v' w''.
Proof.
  intros [a1 a2 a3 a4 a5 a6] [b1 b2 b3 b4 b5 b6]. split; auto; [lia | congruence].
Qed.
Lemma evolves_ro w v w' w'' : evolves w v w' -> ro w' w'' -> evolves w v w''.
Proof.
  intros Ha [b1 b2 b3 b4 b5 b6]. destruct Ha as [a1 a2 a3 a4 a5 a6].
  split; auto; [|lia|congruence]. intros db. by rewrite b1, a1.
Qed.
Lemma ro_trans w w' w'' : ro w w' -> ro w' w'' -> ro w w''.
Proof. apply evolves_ro. Qed.
Lemma ro_evolves w w' v w'' : ro w w' -> evolves w' v w'' -> evolves w v w''.
Proof. apply evolves_trans. Qed.
Lemma evolves_ext w v v' w' : (forall db, v db = v' db) -> evolves w v w' -> evolves w v' w'.
Proof. intros Hv [a1 a2 a3 a4 a5 a6]. split; auto. intros db. by rewrite a1. Qed.
(** An update of an unchanged world's view. *)
Lemma evolves_ro_upd w w' db f w'' :
  ro w w' -> evolves w' (upd (view w') db (f (view w' db))) w'' ->
  evolves w (upd (view w) db (f (view w db))) w''.
Proof.
  intros Hr He. eapply evolves_ext; [|eapply ro_evolves; eassumption].
  intros db'. unfold upd. destruct (decide _); by rewrite (ro_view _ _ _ Hr).
Qed.

(** ** Steps of the environment *)

Lemma wf_with_env e w : wf (with_env e w) <-> wf w.
Proof. split; intros Hw db; specialize (Hw db); by destruct db. Qed.
Lemma pool_with_env e w db : pool_of db (with_env e w) = pool_of db w.
Proof. by destruct db. Qed.

Lemma healthy_env e w :
  (reliable (w_env w) -> reliable e) -> healthy w -> healthy (with_env e w).
Proof.
  intros He [Hr Hd]. split; [by apply He|]. intros db (p & Hp & Hw).
  rewrite pool_with_env in Hp. apply (Hd db). by exists p.
Qed.

Lemma ro_quiet w e : wf w -> quiet (w_env w) e -> ro w (with_env e w).
Proof.
  intros Hwf [Hc Hk Hr]. split; try done.
  - intros db. apply Hc.
  - intros Hh. by apply (healthy_env e w Hr).
Qed.

Lemma wp_in_env {A} (f : env -> A * env) Q w :
  (forall a e, f (w_env w) = (a, e) -> Q (Ok a) (with_env e w)) -> wp (in_env f) Q w.
Proof. intros HQ. unfold wp, in_env. destruct (f (w_env w)) as [a e] eqn:E. by apply HQ. Qed.

Lemma wp_Now w : wf w ->
  wp Now (fun o w' => exists t, o = Ok t /\ ro w w' /\ (clock (w_env w) <= t)%Z /\
                                clock (w_env w') = t) w.
Proof.
  intros Hwf. apply wp_in_env. intros t e E. destruct (now_law _ _ _ E) as (Hq & Hle & Hc).
  exists t. split_and!; auto using ro_quiet.
Qed.

Lemma wp_NewV4 w : wf w ->
  wp NewV4 (fun o w' => exists s, o = Ok s /\ ro w w' /\ String.length s = 36 /\ string_forall uuid_char s = true) w.
Proof.
  intros Hwf. apply wp_in_env. intros t e E. destruct (uuid_law _ _ _ E) as (Hq & Hl & Hc).
  exists t. split_and!; auto using ro_quiet.
Qed.

(** ** Connections *)

Lemma wp_the_pool db w p Q : pool_of db w = Some p -> Q (Ok p) w -> wp (the_pool db) Q w.
Proof. intros Hp HQ. unfold the_pool. wp_go. by rewrite Hp. Qed.

Lemma wp_read_conn db w Q : wf w -> ready db w -> Q (Ok (addr_of db)) w -> wp (read_conn db) Q w.
Proof.
  intros Hwf [p Hp] HQ. unfold read_conn. apply wp_bind, (wp_the_pool _ _ _ _ Hp). wp_go.
  specialize (Hwf db). rewrite Hp in Hwf. destruct Hwf as [-> _]. by apply wp_ret.
Qed.

(** The write pool is there, or it was lost. *)
Lemma wp_LoadWritePool db w Q : wf w -> ready db w ->
  (dead db w -> Q (Ok None) w) -> (~ dead db w -> Q (Ok (Some (addr_of db))) w) ->
  wp (LoadWritePool db) Q w.
Proof.
  intros Hwf [p Hp] Hd Ha. unfold LoadWritePool. apply wp_bind, (wp_the_pool _ _ _ _ Hp). wp_go.
  specialize (Hwf db). rewrite Hp in Hwf. destruct Hwf as [_ [Hw|Hw]]; rewrite Hw.
  - apply Hd. by exists p.
  - apply Ha. intros (p' & Hp' & Hw'). simplify_eq.
Qed.

Lemma with_pool_view db p w db' : view (with_pool db p w) db' = view w db'.
Proof. by destruct db. Qed.
Lemma with_pool_env db p w : w_env (with_pool db p w) = w_env w.
Proof. by destruct db. Qed.
Lemma pool_with_pool db p w : pool_of db (with_pool db p w) = p.
Proof. by destruct db. Qed.
Lemma pool_with_pool_ne db db' p w : db' <> db -> pool_of db' (with_pool db p w) = pool_of db' w.
Proof. by destruct db, db'. Qed.
Lemma last_with_pool db p w :
  lastExpiredSessionCleanUpTime (with_pool db p w) = lastExpiredSessionCleanUpTime w.
Proof. by destruct db. Qed.

(** A change of one pool, the databases as they are. *)
Lemma ro_with_pool db p w : wf w -> wf_pool db (Some p) ->
  (healthy w -> WritePool p <> None) -> ro w (with_pool db (Some p) w).
Proof.
  intros Hwf Hp Hh. split.
  - intros db'. apply with_pool_view.
  - intros db'. destruct (decide (db' = db)) as [->|Hne].
    + by rewrite pool_with_pool.
    + rewrite pool_with_pool_ne by done. apply Hwf.
  - intros db' Hr. unfold ready. destruct (decide (db' = db)) as [->|Hne].
    + rewrite pool_with_pool. by eexists.
    + by rewrite pool_with_pool_ne.
  - intros Hhe. pose proof Hhe as [Hrel Hd]. split; [by rewrite with_pool_env|].
    intros db' (p' & Hp' & Hw). destruct (decide (db' = db)) as [->|Hne].
    + rewrite pool_with_pool in Hp'. simplify_eq. by apply (Hh Hhe).
    + rewrite pool_with_pool_ne in Hp' by done. apply (Hd db'). by exists p'.
  - rewrite with_pool_env. lia.
  - apply last_with_pool.
Qed.

(** Losing the write pool after a command failed: the databases stay as they are. *)
Lemma evolves_StoreNil db w v w' : ~ healthy w -> ready db w -> evolves w v w' ->
  evolves w v (with_pool db (set_write None <$> pool_of db w') w').
Proof.
  intros Hn Hrd [a1 a2 a3 a4 a5 a6]. destruct (a3 db Hrd) as [p Hp]. rewrite Hp. simpl.
  split; try done.
  - intros db'. by rewrite with_pool_view.
  - intros db'. destruct (decide (db' = db)) as [->|Hne].
    + rewrite pool_with_pool. specialize (a2 db). rewrite Hp in a2.
      destruct a2 as [Ha _]. split; simpl; auto.
    + rewrite pool_with_pool_ne by done. apply a2.
  - intros db' Hr. unfold ready. destruct (decide (db' = db)) as [->|Hne].
    + rewrite pool_with_pool. by eexists.
    + rewrite pool_with_pool_ne by done. by apply a3.
  - by rewrite with_pool_env.
  - by rewrite last_with_pool.
Qed.

Lemma wp_GetDBConnection db w : wf w ->
  wp (GetDBConnection db) (fun o w' => o = Ok tt /\ ro w w' /\ ready db w') w.
Proof.
  intros Hwf. unfold GetDBConnection. wp_go.
  assert (Hend : forall w', ro w w' -> ready db w' ->
    wp (the_pool db) (wp_cont (fun p =>
        match WritePool p with None => resetDBWriteConection db | Some _ => ret tt end)
       (fun o w' => o = Ok tt /\ ro w w' /\ ready db w')) w').
  { intros w' Hro Hrd. pose proof Hrd as [p Hp]. apply (wp_the_pool _ _ _ _ Hp). wp_go.
    destruct (WritePool p); [by apply wp_ret|].
    unfold resetDBWriteConection. rewrite ha_off. by apply wp_ret. }
  assert (Hnew : pool_of db w = None ->
    wp (let! r := Connection (db_config db) in
        match r with
        | inl _ => modify (with_pool db None) ;;; panic
        | inr p =>
            let! t := Now in
            modify (with_pool db (Some {| ReadPool := ReadPool p; WritePool := WritePool p;
                                          MasterIP := MasterIP p; PoolUpdatedTime := t |}))
        end) (wp_cont (fun _ => let! p := the_pool db in
        match WritePool p with None => resetDBWriteConection db | Some _ => ret tt end)
       (fun o w' => o = Ok tt /\ ro w w' /\ ready db w')) w).
  { intros Hn. unfold Connection. rewrite ha_off. wp_go. simpl. wp_go.
    eapply wp_mono; [by apply wp_Now|]. intros ? w' (t & -> & Hro & _). wp_go.
    assert (Hro' : ro w (with_pool db (Some {| ReadPool := Some (addr_of db);
        WritePool := Some (addr_of db); MasterIP := Host (db_config db); PoolUpdatedTime := t |}) w')).
    { eapply ro_trans; [exact Hro|]. apply ro_with_pool; [by apply Hro| |done]. simpl. auto. }
    apply (Hend _ Hro'). unfold ready. rewrite pool_with_pool. by eexists. }
  destruct (pool_of db w) as [[[a|] wp0 ip t]|] eqn:Ep.
  - wp_go. apply Hend; [by apply ro_refl|]. unfold ready. rewrite Ep. by eexists.
  - exfalso. specialize (Hwf db). rewrite Ep in Hwf. by destruct Hwf as [[=] _].
  - by apply Hnew.
Qed.

(** ** Commands *)

Lemma evolves_cmd w c r e db (m : store) : wf w ->
  redis_do (addr_of db) c (w_env w) = (r, e) ->
  contents e (addr_of db) = m -> evolves w (upd (view w) db m) (with_env e w).
Proof.
  intros Hwf Hd Hm. destruct (do_law _ _ _ _ _ Hd) as (Hc & Hr & Ho & _).
  split; try done; [|by apply healthy_env].
  intros db'. unfold upd. destruct (decide (db' = db)) as [->|Hne]; [done|].
  apply Ho. intros Ha. by apply Hne, addr_of_inj.
Qed.
Lemma ro_cmd w c r e db : wf w ->
  redis_do (addr_of db) c (w_env w) = (r, e) ->
  contents e (addr_of db) = view w db -> ro w (with_env e w).
Proof.
  intros Hwf Hd Hm. eapply evolves_ext; [|by eapply evolves_cmd].
  intros db'. unfold upd. destruct (decide (db' = db)) as [->|]; done.
Qed.
Lemma unhealthy_cmd w a c msg e : redis_do a c (w_env w) = (RErr msg, e) -> ~ healthy w.
Proof.
  intros Hd [Hr _]. destruct (do_law _ _ _ _ _ Hd) as (_ & _ & _ & He). by apply (He Hr msg).
Qed.

(** [w'] is [w] with [db] changed by [f]: a write that was carried out. *)
Definition written w db (f : store -> store) w' : Prop :=
  evolves w (upd (view w) db (f (view w db))) w'.
(** A write that failed may or may not have been carried out. *)
Definition maybe_written w db f w' : Prop := ro w w' \/ written w db f w'.

Lemma ro_written w w' db f w'' : ro w w' -> written w' db f w'' -> written w db f w''.
Proof. apply evolves_ro_upd. Qed.
Lemma ro_maybe_written w w' db f w'' :
  ro w w' -> maybe_written w' db f w'' -> maybe_written w db f w''.
Proof.
  intros Hr [Hw|Hw]; [left; by eapply ro_trans | right; by eapply ro_written].
Qed.
Lemma maybe_written_ro w db f w' w'' :
  maybe_written w db f w' -> ro w' w'' -> maybe_written w db f w''.
Proof. intros [Hw|Hw] Hr; [left|right]; by eapply evolves_ro. Qed.
Lemma maybe_written_wf w db f w' : maybe_written w db f w' -> wf w'.
Proof. intros [Hw|Hw]; apply Hw. Qed.
Lemma maybe_written_ready w db f w' db' : maybe_written w db f w' -> ready db' w -> ready db' w'.
Proof. intros [Hw|Hw]; apply Hw. Qed.
Lemma unhealthy_ro w w' : ro w w' -> ~ healthy w' -> ~ healthy w.
Proof. intros Hr Hn Hh. by apply Hn, Hr. Qed.

(** SET and DEL: acknowledged, or failed with the write carried out or not. *)
Definition write_post w db f (o : outcome reply) w' : Prop :=
  match o with
  | Ok (RErr _) => maybe_written w db f w' /\ ~ healthy w
  | Ok RStatus => written w db f w'
  | _ => False
  end.
Lemma wp_SET db k v w : wf w ->
  wp (Do (addr_of db) (SET k v)) (write_post w db (insert k v)) w.
Proof.
  intros Hwf. apply wp_in_env. intros r e Hd. pose proof (set_law _ _ _ _ _ _ Hd) as Hs.
  destruct r; simpl; try done; [|by eapply evolves_cmd].
  split; [|by eapply unhealthy_cmd].
  destruct Hs; [left; by eapply ro_cmd | right; by eapply evolves_cmd].
Qed.
Lemma wp_DEL db k w : wf w -> wp (Do (addr_of db) (DEL k)) (write_post w db (delete k)) w.
Proof.
  intros Hwf. apply wp_in_env. intros r e Hd. pose proof (del_law _ _ _ _ _ Hd) as Hs.
  destruct r; simpl; try done; [|by eapply evolves_cmd].
  split; [|by eapply unhealthy_cmd].
  destruct Hs; [left; by eapply ro_cmd | right; by eapply evolves_cmd].
Qed.

(** ** Operations *)

Lemma isDbConnectError_num msg e : isDbConnectError msg = Some e -> ErrNo e = DBConnFailed.
Proof. unfold isDbConnectError. destruct (_ || _); [|done]. by intros [= <-]. Qed.

Definition read_post w db k (o : outcome (result jtext)) : Prop :=
  match o with
  | Ok (inr v) => view w db !! k = Some v
  | Ok (inl e) => (ErrNo e = DBKeyNotFound /\ view w db !! k = None) \/
                  (ErrNo e <> DBKeyNotFound /\ ~ healthy w)
  | Panic => False
  end.

Lemma wp_Read db t k w : wf w -> ready db w ->
  wp (Read db t k) (fun o w' => ro w w' /\ read_post w db (saveID t k) o) w.
Proof.
  intros Hwf Hr. unfold Read. wp_go. apply wp_read_conn; [done..|]. wp_go.
  apply wp_in_env. intros r e Hd. pose proof (get_quiet _ _ _ _ _ Hd) as Hq.
  destruct (get_law _ _ _ _ _ Hd) as [_ Hg]. apply (ro_quiet _ _ Hwf) in Hq.
  destruct r as [msg| |v| |]; try done; simpl.
  - destruct (String.eqb msg _) eqn:Em; [by apply String.eqb_eq in Em|].
    destruct (isDbConnectError msg) as [errs|] eqn:Ec; apply wp_ret; (split; [done|right]);
      (split; [|by eapply unhealthy_cmd]); [|done].
    by rewrite (isDbConnectError_num _ _ Ec).
  - apply wp_ret. split; [done|]. left. by split.
Qed.

(** A key that Create takes to be free: no entry, or an empty one. *)
Definition absent w db k : Prop :=
  match view w db !! k with None => True | Some v => text_is_empty v = true end.

#[export] Instance absent_proper : Proper (same_data ==> eq ==> eq ==> iff) absent.
Proof. intros w w' Hs db ? <- k ? <-. unfold absent. by rewrite Hs. Qed.

Lemma dead_unhealthy db w : dead db w -> ~ healthy w.
Proof. intros Hd [_ Hn]. by apply (Hn db). Qed.

(** SET with the reaction of the writers to a failure. *)
Lemma wp_set_or_nil {A} db k v (ok : A) (bad : string -> A) w : wf w -> ready db w ->
  wp (let! c := Do (addr_of db) (SET k v) in
      match c with
      | RErr err => StoreWritePoolNil db ;;; ret (bad err)
      | _ => ret ok
      end)
     (fun o w' => (o = Ok ok /\ written w db (insert k v) w') \/
                  (exists err, o = Ok (bad err) /\ maybe_written w db (insert k v) w' /\
                               ~ healthy w)) w.
Proof.
  intros Hwf Hr. wp_call wp_SET; [done|]. intros [[msg| |v'|ks|]|] w' Hp; simpl in Hp; try done.
  - destruct Hp as [Hp Hu]. unfold StoreWritePoolNil. wp_go. right. exists msg. split; [done|].
    split; [|done]. destruct Hp as [Hp|Hp]; [left|right]; by apply evolves_StoreNil.
  - wp_go. by left.
Qed.

(** Composing with the read that precedes the write. *)
Lemma read_then_written w w1 db f w2 (P : Prop) :
  ro w w1 -> written w1 db f w2 \/ (maybe_written w1 db f w2 /\ P /\ ~ healthy w1) ->
  written w db f w2 \/ (maybe_written w db f w2 /\ P /\ ~ healthy w).
Proof.
  intros Hr [Hw|(Hw & HP & Hh)]; [left; by eapply ro_written|right].
  split_and!; [by eapply ro_maybe_written|done|by eapply unhealthy_ro].
Qed.

Definition create_post w db k v (o : outcome (option Err)) w' : Prop :=
  match o with
  | Ok None => written w db (insert k v) w' /\ (absent w db k \/ ~ healthy w)
  | Ok (Some e) =>
      (ErrNo e = DBKeyAlreadyExist /\ ro w w' /\ ~ absent w db k) \/
      (ErrNo e <> DBKeyAlreadyExist /\ ~ healthy w /\ maybe_written w db (insert k v) w')
  | Panic => False
  end.

Lemma wp_Create db t k d w : wf w -> ready db w ->
  wp (Create db t k d) (create_post w db (saveID t k) (Text d)) w.
Proof.
  intros Hwf Hrd. unfold Create. wp_go. apply wp_LoadWritePool; [done|done|intros Hd|intros Hd]; wp_go.
  { right. split_and!; [done|by eapply dead_unhealthy|left; by apply ro_refl]. }
  eapply wp_mono; [by apply wp_Read|]. intros [r|] w1 [Hro Hp]; [|done]. wp_go.
  assert (Hset : (absent w db (saveID t k) \/ ~ healthy w) ->
    wp (let! c := Do (addr_of db) (SET (saveID t k) (Text d)) in
        match c with
        | RErr err => StoreWritePoolNil db ;;;
            ret (Some (PackError UndefinedErrorType ["Write to DB failed : " +:+ err]))
        | _ => ret None
        end) (create_post w db (saveID t k) (Text d)) w1).
  { intros Hab. eapply wp_mono; [apply wp_set_or_nil; apply Hro; done|].
    intros o w2 [[-> Hw]|(err & -> & Hw & Hh)]; simpl.
    - split; [by eapply ro_written|done].
    - right. split_and!; [done|by eapply unhealthy_ro|by eapply ro_maybe_written]. }
  destruct r as [[n m]|v]; simpl in Hp.
  - assert (Hgo : absent w db (saveID t k) \/ ~ healthy w).
    { destruct Hp as [[_ Hn]|[_ Hn]]; [left; unfold absent; by rewrite Hn|by right]. }
    destruct n; simpl; try by apply Hset.
    apply wp_ret. right. split_and!; [done| |by left].
    by destruct Hp as [[Hn _]|[_ Hn]].
  - simpl. destruct (text_is_empty v) eqn:Ev; simpl.
    + apply Hset. left. unfold absent. by rewrite Hp.
    + apply wp_ret. left. split_and!; [done|done|]. unfold absent. rewrite Hp. congruence.
Qed.

Definition update_post w db k v (o : outcome (result string)) w' : Prop :=
  match o with
  | Ok (inr s) => s = k /\ written w db (insert k v) w' /\ is_Some (view w db !! k)
  | Ok (inl e) =>
      (ErrNo e = DBKeyNotFound /\ ro w w' /\ view w db !! k = None) \/
      (ErrNo e <> DBKeyNotFound /\ ~ healthy w /\ maybe_written w db (insert k v) w')
  | Panic => False
  end.

Lemma wp_Update db t k d w : wf w -> ready db w ->
  wp (Update db t k d) (update_post w db (saveID t k) (Text d)) w.
Proof.
  intros Hwf Hrd. unfold Update. wp_call wp_Read; [done|done|].
  intros [[e|v]|] w1 [Hro Hp]; [| |done]; wp_go; simpl in Hp.
  - destruct (decide (ErrNo e = DBKeyNotFound)) as [He|He]; apply wp_ret.
    + left. destruct Hp as [[_ Hp]|[Hp _]]; [|done]. by rewrite He.
    + right. destruct Hp as [[Hp _]|[_ Hp]]; [done|]. split_and!; [done|done|by left].
  - apply wp_LoadWritePool; [apply Hro|by apply Hro|intros Hd|intros Hd]; cbn [wp_cont].
    + apply wp_ret. right. split_and!; [done| |by left]. eapply unhealthy_ro, dead_unhealthy; eassumption.
    + eapply wp_mono; [apply wp_set_or_nil; by apply Hro|].
      intros o w2 [[-> Hw]|(err & -> & Hw & Hh)]; simpl.
      * split_and!; [done|by eapply ro_written|by eexists].
      * right. split_and!; [done|by eapply unhealthy_ro|by eapply ro_maybe_written].
Qed.

Definition delete_post w db k (o : outcome (option Err)) w' : Prop :=
  match o with
  | Ok None => written w db (delete k) w' /\ is_Some (view w db !! k)
  | Ok (Some e) =>
      (ErrNo e = DBKeyNotFound /\ ro w w' /\ view w db !! k = None) \/
      (ErrNo e <> DBKeyNotFound /\ ~ healthy w /\ maybe_written w db (delete k) w')
  | Panic => False
  end.

Lemma wp_Delete db t k w : wf w -> ready db w ->
  wp (Delete db t k) (delete_post w db (saveID t k)) w.
Proof.
  intros Hwf Hrd. unfold Delete. wp_go. apply wp_LoadWritePool; [done|done|intros Hd|intros Hd]; wp_go.
  { right. split_and!; [done|by eapply dead_unhealthy|left; by apply ro_refl]. }
  eapply wp_mono; [by apply wp_Read|]. intros [[e|v]|] w1 [Hro Hp]; [| |done]; wp_go; simpl in Hp.
  { destruct Hp as [[Hn Hp]|[Hn Hp]]; [by left|right]. split_and!; [done|done|by left]. }
  eapply wp_mono; [apply wp_DEL, Hro|]. intros [[msg| |v'|ks|]|] w2 Hw; simpl in Hw; try done; wp_go.
  - destruct Hw as [Hw Hh].
    assert (Hh' : ~ healthy w) by (by eapply unhealthy_ro).
    assert (Hw' : maybe_written w db (delete (saveID t k)) w2) by (by eapply ro_maybe_written).
    destruct (isDbConnectError msg) as [errs|] eqn:Ec; wp_go.
    + unfold StoreWritePoolNil. wp_go. right. rewrite (isDbConnectError_num _ _ Ec).
      split_and!; [done|done|]. destruct Hw' as [Hw'|Hw']; [left|right]; by apply evolves_StoreNil.
    + by right.
  - split; [by eapply ro_written|by eexists].
Qed.

Definition add_post w db k v (o : outcome (option Err)) w' : Prop :=
  match o with
  | Ok None => written w db (insert k v) w'
  | Ok (Some _) => ~ healthy w /\ maybe_written w db (insert k v) w'
  | Panic => False
  end.
Lemma wp_AddResourceData db t k d w : wf w -> ready db w ->
  wp (AddResourceData db t k d) (add_post w db (saveID t k) (Text d)) w.
Proof.
  intros Hwf Hrd. unfold AddResourceData. wp_go. apply wp_LoadWritePool; [done|done|intros Hd|intros Hd]; cbn [wp_cont].
  { apply wp_ret. split; [by eapply dead_unhealthy|left; by apply ro_refl]. }
  eapply wp_mono; [by apply wp_set_or_nil|]. intros o w' [[-> Hw]|(err & -> & Hw & Hh)]; [done|by split].
Qed.
Lemma add_post_maybe w db k v o w' : add_post w db k v o w' -> maybe_written w db (insert k v) w'.
Proof. destruct o as [[e|]|]; [by intros []|by right|done]. Qed.
Lemma delete_post_maybe w db k o w' : delete_post w db k o w' -> maybe_written w db (delete k) w'.
Proof.
  destruct o as [[e|]|]; [|intros []; by right|done]. intros [(_ & Hr & _)|(_ & _ & Hw)]; [by left|done].
Qed.

(** ** Listing a table *)

Lemma saveID_prefix t k : saveID t k = (t +:+ ":") +:+ k.
Proof. unfold saveID. by rewrite String_append_assoc. Qed.

Lemma saveID_inj t k k' : saveID t k = saveID t k' -> k = k'.
Proof. unfold saveID. intros E. by do 2 apply app_string_inj in E. Qed.

Definition keys_post w db t (o : outcome (result (list string))) : Prop :=
  match o with
  | Ok (inr ids) => NoDup ids /\ forall id, id ∈ ids <-> is_Some (view w db !! saveID t id)
  | Ok (inl e) => ~ healthy w
  | Panic => False
  end.

Lemma wp_GetAllDetails db t w : wf w -> ready db w -> no_glob (t +:+ ":") = true ->
  wp (GetAllDetails db t) (fun o w' => ro w w' /\ keys_post w db t o) w.
Proof.
  intros Hwf Hrd Hg. unfold GetAllDetails, do_keys. wp_go. apply wp_read_conn; [done..|]. wp_go.
  apply wp_in_env. intros r e Hd. pose proof (pattern_quiet _ _ _ _ _ Hd) as Hq.
  pose proof (keys_prefix _ _ _ _ _ Hd Hg) as Hk. apply (ro_quiet _ _ Hwf) in Hq.
  destruct r as [msg| | |ks|]; try done; wp_go.
  { split; [done|]. by eapply unhealthy_cmd. }
  split; [done|]. destruct Hk as [Hnd Hks]. change (contents (w_env w) (addr_of db)) with (view w db) in Hks.
  assert (Hsplit : forall k, k ∈ ks -> k = saveID t (TrimPrefix k (t +:+ ":"))).
  { intros k Hin. apply Hks in Hin as [_ Hp]. rewrite saveID_prefix. by apply HasPrefix_split. }
  unfold trim_table. split.
  - apply NoDup_fmap_2_strong; [|done]. intros x y Hx Hy Hxy.
    by rewrite (Hsplit _ Hx), (Hsplit _ Hy), Hxy.
  - intros id. rewrite list_elem_of_fmap. split.
    + intros (k & -> & Hin). rewrite <- (Hsplit _ Hin). by apply Hks.
    + intros Hs. exists (saveID t id). rewrite saveID_prefix at 1. rewrite TrimPrefix_app.
      split; [done|]. apply Hks. split; [done|]. rewrite saveID_prefix. apply HasPrefix_app.
Qed.

(** The keys of a table that match a pattern; a pattern with other special characters than the star may
    match anything. *)
Definition matching_post w db t p (o : outcome (result (list string))) : Prop :=
  match o with
  | Ok (inr ids) => stars_only p = true -> forall id,
      id ∈ ids <-> is_Some (view w db !! saveID t id) /\ glob_match ("*" +:+ p +:+ "*") id = true
  | Ok (inl e) => ~ healthy w
  | Panic => False
  end.
Lemma wp_GetAllMatchingDetails db t p w : wf w -> ready db w -> no_glob (t +:+ ":") = true ->
  wp (GetAllMatchingDetails db t p) (fun o w' => ro w w' /\ matching_post w db t p o) w.
Proof.
  intros Hwf Hrd Hg. unfold GetAllMatchingDetails, do_keys. wp_go. apply wp_read_conn; [done..|]. wp_go.
  apply wp_in_env. intros r e Hd. pose proof (pattern_quiet _ _ _ _ _ Hd) as Hq.
  destruct (pattern_law _ _ _ _ _ Hd) as [_ Hk]. apply (ro_quiet _ _ Hwf) in Hq.
  destruct r as [msg| | |ks|]; try done; wp_go.
  { split; [done|by eapply unhealthy_cmd]. }
  destruct Hk as (_ & _ & Hks).
  assert (Hpat : t +:+ ":*" +:+ p +:+ "*" = (t +:+ ":") +:+ ("*" +:+ p +:+ "*")) by (by rewrite <- String_append_assoc).
  rewrite Hpat in Hks.
  assert (Hst : stars_only p = true -> stars_only ((t +:+ ":") +:+ ("*" +:+ p +:+ "*")) = true).
  { intros Hp. by rewrite stars_only_app, (no_glob_only _ Hg), !stars_only_app, Hp. }
  split; [done|]. intros Hp. specialize (Hks (Hst Hp)). intros id. unfold trim_table. rewrite list_elem_of_fmap. split.
  - intros (k & -> & Hin). apply Hks in Hin as [Hs Hm]. split; [|by apply glob_trim].
    destruct (glob_head _ _ _ Hg Hm) as [k' ->]. by rewrite TrimPrefix_app, saveID_prefix.
  - intros [Hs Hm]. exists (saveID t id). rewrite saveID_prefix at 1. rewrite TrimPrefix_app.
    split; [done|]. apply Hks. split; [done|]. by rewrite saveID_prefix, glob_literal.
Qed.
End spec.

Create HintDb world.
#[export] Hint Resolve ro_refl ro_wf ev_wf ro_same maybe_written_wf ro_written ro_maybe_written
  maybe_written_ro unhealthy_ro : world.

