(* ===== verification/AsModel.v ===== *)
(** svc-account-session/asmodel: the stored records of the account and session service, their JSON
    documents, and the functions that read and write them; and the bodies of asresponse. *)
From stdpp Require Import base gmap list strings.
From Stdlib Require Import QArith.
From S2P Require Import Prelude Go Response Redis World ConnPool.
Open Scope string_scope.

(** ** Records and their JSON documents *)

(** Account: the request model for creating or updating an account. *)
Record Account := { a_UserName : string; a_Password : string; a_RoleID : string }.
Definition zeroAccount : Account := {| a_UserName := ""; a_Password := ""; a_RoleID := "" |}.
Definition Account_type : struct_type Account := {|
  st_name := "Account";
  st_fields :=
    [("UserName", fun a j => let (x, e) := dec_string (a_UserName a) j in
        ({| a_UserName := x; a_Password := a_Password a; a_RoleID := a_RoleID a |}, e));
     ("Password", fun a j => let (x, e) := dec_string (a_Password a) j in
        ({| a_UserName := a_UserName a; a_Password := x; a_RoleID := a_RoleID a |}, e));
     ("RoleId", fun a j => let (x, e) := dec_string (a_RoleID a) j in
        ({| a_UserName := a_UserName a; a_Password := a_Password a; a_RoleID := x |}, e))] |}.
Definition marshal_Account (a : Account) : list (string * json) :=
  [("UserName", JStr (a_UserName a)); ("Password", JStr (a_Password a));
   ("RoleId", JStr (a_RoleID a))].

(** User: the stored account. *)
Record User := {
  u_UserName : string; u_Password : string; u_RoleID : string; u_AccountTypes : slice string }.
Definition zeroUser : User :=
  {| u_UserName := ""; u_Password := ""; u_RoleID := ""; u_AccountTypes := None |}.
Definition User_type : struct_type User := {|
  st_name := "User";
  st_fields :=
    [("UserName", fun u j => let (x, e) := dec_string (u_UserName u) j in
        ({| u_UserName := x; u_Password := u_Password u; u_RoleID := u_RoleID u;
            u_AccountTypes := u_AccountTypes u |}, e));
     ("Password", fun u j => let (x, e) := dec_string (u_Password u) j in
        ({| u_UserName := u_UserName u; u_Password := x; u_RoleID := u_RoleID u;
            u_AccountTypes := u_AccountTypes u |}, e));
     ("RoleId", fun u j => let (x, e) := dec_string (u_RoleID u) j in
        ({| u_UserName := u_UserName u; u_Password := u_Password u; u_RoleID := x;
            u_AccountTypes := u_AccountTypes u |}, e));
     ("AccountTypes", fun u j => let (x, e) := dec_strings (u_AccountTypes u) j in
        ({| u_UserName := u_UserName u; u_Password := u_Password u; u_RoleID := u_RoleID u;
            u_AccountTypes := x |}, e))] |}.
Definition marshal_User (u : User) : json :=
  JObj [("UserName", JStr (u_UserName u)); ("Password", JStr (u_Password u));
        ("RoleId", JStr (u_RoleID u)); ("AccountTypes", enc_strings (u_AccountTypes u))].

(** CreateSession: the request model for a session. *)
Record CreateSession := { cs_UserName : string; cs_Password : string }.
Definition zeroCreateSession : CreateSession := {| cs_UserName := ""; cs_Password := "" |}.
Definition CreateSession_type : struct_type CreateSession := {|
  st_name := "CreateSession";
  st_fields :=
    [("UserName", fun c j => let (x, e) := dec_string (cs_UserName c) j in
        ({| cs_UserName := x; cs_Password := cs_Password c |}, e));
     ("Password", fun c j => let (x, e) := dec_string (cs_Password c) j in
        ({| cs_UserName := cs_UserName c; cs_Password := x |}, e))] |}.
Definition marshal_CreateSession (c : CreateSession) : list (string * json) :=
  [("UserName", JStr (cs_UserName c)); ("Password", JStr (cs_Password c))].

(** Session.  Instants are nanoseconds. *)
Record Session := mkSession {
  s_ID : string; s_Token : string; s_UserName : string; s_RoleID : string;
  s_Privileges : gmap string bool; s_Origin : string;
  s_CreatedTime : Z; s_LastUsedTime : Z }.
Definition zeroSession : Session := mkSession "" "" "" "" ∅ "" 0 0.
(** [session.LastUsedTime = t] *)
Definition with_LastUsedTime (t : Z) (s : Session) : Session :=
  mkSession (s_ID s) (s_Token s) (s_UserName s) (s_RoleID s) (s_Privileges s) (s_Origin s)
    (s_CreatedTime s) t.
Definition Session_type : struct_type Session := {|
  st_name := "Session";
  st_fields :=
    [("ID", fun s j => let (x, e) := dec_string (s_ID s) j in
        (mkSession x (s_Token s) (s_UserName s) (s_RoleID s) (s_Privileges s) (s_Origin s)
          (s_CreatedTime s) (s_LastUsedTime s), e));
     ("Token", fun s j => let (x, e) := dec_string (s_Token s) j in
        (mkSession (s_ID s) x (s_UserName s) (s_RoleID s) (s_Privileges s) (s_Origin s)
          (s_CreatedTime s) (s_LastUsedTime s), e));
     ("UserName", fun s j => let (x, e) := dec_string (s_UserName s) j in
        (mkSession (s_ID s) (s_Token s) x (s_RoleID s) (s_Privileges s) (s_Origin s)
          (s_CreatedTime s) (s_LastUsedTime s), e));
     ("RoleID", fun s j => let (x, e) := dec_string (s_RoleID s) j in
        (mkSession (s_ID s) (s_Token s) (s_UserName s) x (s_Privileges s) (s_Origin s)
          (s_CreatedTime s) (s_LastUsedTime s), e));
     ("Privileges", fun s j => let (x, e) := dec_bool_map (s_Privileges s) j in
        (mkSession (s_ID s) (s_Token s) (s_UserName s) (s_RoleID s) x (s_Origin s)
          (s_CreatedTime s) (s_LastUsedTime s), e));
     ("Origin", fun s j => let (x, e) := dec_string (s_Origin s) j in
        (mkSession (s_ID s) (s_Token s) (s_UserName s) (s_RoleID s) (s_Privileges s) x
          (s_CreatedTime s) (s_LastUsedTime s), e));
     ("CreatedTime", fun s j => let (x, e) := dec_time (s_CreatedTime s) j in
        (mkSession (s_ID s) (s_Token s) (s_UserName s) (s_RoleID s) (s_Privileges s) (s_Origin s)
          x (s_LastUsedTime s), e));
     ("LastUsedTime", fun s j => let (x, e) := dec_time (s_LastUsedTime s) j in
        (mkSession (s_ID s) (s_Token s) (s_UserName s) (s_RoleID s) (s_Privileges s) (s_Origin s)
          (s_CreatedTime s) x, e))] |}.
Definition marshal_Session (s : Session) : json :=
  JObj [("ID", JStr (s_ID s)); ("Token", JStr (s_Token s)); ("UserName", JStr (s_UserName s));
        ("RoleID", JStr (s_RoleID s)); ("Privileges", enc_bool_map (s_Privileges s));
        ("Origin", JStr (s_Origin s)); ("CreatedTime", JTime (s_CreatedTime s));
        ("LastUsedTime", JTime (s_LastUsedTime s))].

(** Role. *)
Record Role := {
  r_ID : string; r_IsPredefined : bool;
  r_AssignedPrivileges : slice string; r_OEMPrivileges : slice string }.
Definition zeroRole : Role :=
  {| r_ID := ""; r_IsPredefined := false; r_AssignedPrivileges := None; r_OEMPrivileges := None |}.
Definition Role_type : struct_type Role := {|
  st_name := "Role";
  st_fields :=
    [("RoleId", fun r j => let (x, e) := dec_string (r_ID r) j in
        ({| r_ID := x; r_IsPredefined := r_IsPredefined r;
            r_AssignedPrivileges := r_AssignedPrivileges r; r_OEMPrivileges := r_OEMPrivileges r |}, e));
     ("IsPredefined", fun r j => let (x, e) := dec_bool (r_IsPredefined r) j in
        ({| r_ID := r_ID r; r_IsPredefined := x;
            r_AssignedPrivileges := r_AssignedPrivileges r; r_OEMPrivileges := r_OEMPrivileges r |}, e));
     ("AssignedPrivileges", fun r j => let (x, e) := dec_strings (r_AssignedPrivileges r) j in
        ({| r_ID := r_ID r; r_IsPredefined := r_IsPredefined r;
            r_AssignedPrivileges := x; r_OEMPrivileges := r_OEMPrivileges r |}, e));
     ("OemPrivileges", fun r j => let (x, e) := dec_strings (r_OEMPrivileges r) j in
        ({| r_ID := r_ID r; r_IsPredefined := r_IsPredefined r;
            r_AssignedPrivileges := r_AssignedPrivileges r; r_OEMPrivileges := x |}, e))] |}.
(** The fields of a role, which are also the struct map of the case validator. *)
Definition role_fields (r : Role) : list (string * json) :=
  [("RoleId", JStr (r_ID r)); ("IsPredefined", JBool (r_IsPredefined r));
   ("AssignedPrivileges", enc_strings (r_AssignedPrivileges r));
   ("OemPrivileges", enc_strings (r_OEMPrivileges r))].
Definition marshal_Role (r : Role) : json := JObj (role_fields r).

(** Privileges, OEMPrivileges and RedfishRoles: a list under the name List. *)
Definition list_type (name : string) : struct_type (slice string) := {|
  st_name := name;
  st_fields := [("List", fun l j => dec_strings l j)] |}.
Definition marshal_list (l : slice string) : json := JObj [("List", enc_strings l)].

(** Documents decode to the record they encode. *)
Lemma User_roundtrip u : Unmarshal User_type (Text (marshal_User u)) zeroUser = (u, None).
Proof. destruct u as [n p r [l|]]; [|reflexivity]. cbn. by rewrite dec_elems_strings. Qed.
Lemma Session_roundtrip s : Unmarshal Session_type (Text (marshal_Session s)) zeroSession = (s, None).
Proof.
  destruct s as [a b c d p o t1 t2]. cbn -[dec_bool_map enc_bool_map].
  unfold decode_entry; cbn -[dec_bool_map enc_bool_map]. by rewrite dec_enc_bool_map.
Qed.
Lemma Role_roundtrip r : Unmarshal Role_type (Text (marshal_Role r)) zeroRole = (r, None).
Proof. destruct r as [i p [l|] [m|]]; cbn; by rewrite ?dec_elems_strings. Qed.
Lemma list_roundtrip n l : Unmarshal (list_type n) (Text (marshal_list l)) None = (l, None).
Proof. destruct l as [l|]; [|reflexivity]. cbn. by rewrite dec_elems_strings. Qed.

Section AsModel.
Context `{Env, Config}.

(** [json.Unmarshal] of a stored text, with the error packed. *)
Definition decode {A} (st : struct_type A) (zero : A) (pre : list string) (t : jtext) : result A :=
  match Unmarshal st t zero with
  | (a, None) => inr a
  | (_, Some jerr) => inl (PackError UndefinedErrorType (pre ++ [jerr])%list)
  end.
Definition wrap (msg : string) (e : Err) : Err := PackError (ErrNo e) [msg; errMsg e].

(** ** account.go *)

Definition CreateUser (user : User) : IO (option Err) :=
  GetDBConnection OnDisk ;;;
  Create OnDisk "User" (u_UserName user) (marshal_User user).

Definition GetAllUsers : IO (result (list User)) :=
  GetDBConnection OnDisk ;;;
  let! keys := GetAllDetails OnDisk "User" in
  match keys with
  | inl e => ret (inl e)
  | inr keys =>
      loopM keys [] (fun users key =>
        let! userdata := Read OnDisk "User" key in
        match userdata with
        | inl e => ret (inl e)
        | inr t =>
            match decode User_type zeroUser [] t with
            | inl e => ret (inl e)
            | inr user => ret (inr (users ++ [user])%list)
            end
        end)
  end.

Definition GetUserDetails (userName : string) : IO (result User) :=
  GetDBConnection OnDisk ;;;
  let! userdata := Read OnDisk "User" userName in
  match userdata with
  | inl e => ret (inl (wrap "error while trying to get user: " e))
  | inr t => ret (decode User_type zeroUser [] t)
  end.

Definition DeleteUser (key : string) : IO (option Err) :=
  GetDBConnection OnDisk ;;; Delete OnDisk "User" key.

Definition merge_user (user newData : User) : User :=
  {| u_UserName := u_UserName user;
     u_Password := if String.eqb (u_Password newData) "" then u_Password user
                   else u_Password newData;
     u_RoleID := if String.eqb (u_RoleID newData) "" then u_RoleID user else u_RoleID newData;
     u_AccountTypes := u_AccountTypes user |}.
Definition UpdateUserDetails (user newData : User) : IO (option Err) :=
  GetDBConnection OnDisk ;;;
  let user := merge_user user newData in
  let! r := Update OnDisk "User" (u_UserName user) (marshal_User user) in
  match r with inl e => ret (Some e) | inr _ => ret None end.

(** ** privilege.go, redfishroles.go *)

Definition get_list (table key name msg : string) : IO (result (slice string)) :=
  GetDBConnection OnDisk ;;;
  let! r := Read OnDisk table key in
  match r with
  | inl e => ret (inl (wrap msg e))
  | inr t => ret (decode (list_type name) None [] t)
  end.
Definition create_list (table key msg : string) (l : slice string) : IO (option Err) :=
  GetDBConnection OnDisk ;;;
  let! r := Create OnDisk table key (marshal_list l) in
  ret (wrap msg <$> r).

Definition GetPrivilegeRegistry : IO (result (slice string)) :=
  get_list "registry" "assignedprivileges" "Privileges"
    "error while trying to get Redfish predefined privileges: ".
Definition Privileges_Create (p : slice string) : IO (option Err) :=
  create_list "registry" "assignedprivileges" "error while trying to create privileges: " p.
Definition GetOEMPrivileges : IO (result (slice string)) :=
  get_list "registry" "oemprivileges" "OEMPrivileges" "error while trying to get OEM privileges: ".
Definition OEMPrivileges_Create (p : slice string) : IO (option Err) :=
  create_list "registry" "oemprivileges" "error creating OEM privileges: " p.
Definition GetRedfishRoles : IO (result (slice string)) :=
  get_list "roles" "redfishdefined" "RedfishRoles" "error while trying to get redfish roles: ".
Definition RedfishRoles_Create (r : slice string) : IO (option Err) :=
  create_list "roles" "redfishdefined" "error while trying to create redfishroles: " r.

(** ** sessions.go; sessionStore is the in-memory database *)

Definition Session_Persist (s : Session) : IO (option Err) :=
  GetDBConnection InMemory ;;;
  let! r := Create InMemory "session" (s_Token s) (marshal_Session s) in
  ret (wrap "error while trying to create new session: " <$> r).

Definition Session_Update (s : Session) : IO (option Err) :=
  GetDBConnection InMemory ;;;
  let! r := Update InMemory "session" (s_Token s) (marshal_Session s) in
  match r with
  | inl e => ret (Some (wrap "error while trying to update session: " e))
  | inr _ => ret None
  end.

Definition GetSession (token : string) : IO (result Session) :=
  GetDBConnection InMemory ;;;
  let! r := Read InMemory "session" token in
  match r with
  | inl e => ret (inl (wrap "error while trying to get the session from DB: " e))
  | inr t => ret (decode Session_type zeroSession ["error while trying to unmarshal session data: "] t)
  end.

Definition Session_Delete (s : Session) : IO (option Err) :=
  GetDBConnection InMemory ;;;
  let! r := Delete InMemory "session" (s_Token s) in
  ret (wrap "error while trying to delete session: " <$> r).

Definition GetAllSessionKeys : IO (result (list string)) :=
  GetDBConnection InMemory ;;; GetAllDetails InMemory "session".

(** ** userRole.go *)

Definition Role_Create (r : Role) : IO (option Err) :=
  GetDBConnection OnDisk ;;;
  let! e := Create OnDisk "role" (r_ID r) (marshal_Role r) in
  ret (wrap "error while trying to create role: " <$> e).

Definition GetRoleDetailsByID (roleID : string) : IO (result Role) :=
  GetDBConnection OnDisk ;;;
  let! r := Read OnDisk "role" roleID in
  match r with
  | inl e => ret (inl (wrap "error while trying to get role details: " e))
  | inr t => ret (decode Role_type zeroRole [] t)
  end.

Definition UpdateRoleDetails (r : Role) : IO (option Err) :=
  GetDBConnection OnDisk ;;;
  let! e := Update OnDisk "role" (r_ID r) (marshal_Role r) in
  match e with inl e => ret (Some e) | inr _ => ret None end.

Definition GetAllRoles : IO (result (list Role)) :=
  GetDBConnection OnDisk ;;;
  let! keys := GetAllDetails OnDisk "role" in
  match keys with
  | inl e => ret (inl e)
  | inr keys =>
      loopM keys [] (fun roles key =>
        let! roledata := Read OnDisk "role" key in
        match roledata with
        | inl e => ret (inl e)
        | inr t =>
            match decode Role_type zeroRole [] t with
            | inl e => ret (inl e)
            | inr role => ret (inr (roles ++ [role])%list)
            end
        end)
  end.

Definition Role_Delete (r : Role) : IO (option Err) :=
  GetDBConnection OnDisk ;;; Delete OnDisk "role" (r_ID r).
End AsModel.

(** * The bodies of the responses

    svc-account-session/asresponse: the bodies of the account and session service's responses. *)

Record Status := { st_State : string; st_Health : string }.

Inductive asBody : Type :=
(** asresponse.Session *)
| SessionBody (r : Response) (userName : string)
(** asresponse.SessionService: status, ServiceEnabled, SessionTimeout, the sessions link *)
| SessionServiceBody (r : Response) (status : Status) (enabled : bool) (timeout : Q) (sessions : string)
(** asresponse.Account; Password stays nil, and the link is the role's *)
| AccountBody (r : Response) (userName roleID : string) (accountTypes : slice string) (roleLink : string)
(** asresponse.AccountService; the fields that are never set are left out *)
| AccountServiceBody (r : Response) (status : Status) (enabled : bool) (minPasswordLength : Z)
    (accounts roles : string)
(** asresponse.List with the links of its members *)
| ListBody (r : Response) (membersCount : Z) (members : list string)
(** asresponse.UserRole *)
| UserRoleBody (r : Response) (isPredefined : bool) (assigned oem : slice string)
(** a stored role returned as it is *)
| RoleBody (role : Role).

Abbreviation asRPC := (RPC asBody).

Definition PrivilegeLogin := "Login".
Definition PrivilegeConfigureManager := "ConfigureManager".
Definition PrivilegeConfigureUsers := "ConfigureUsers".
Definition PrivilegeConfigureSelf := "ConfigureSelf".
Definition PrivilegeConfigureComponents := "ConfigureComponents".
Definition RoleAdmin := "Administrator".
Definition RoleMonitor := "Operator".
Definition RoleClient := "ReadOnly".
Definition ManagerAccountType := "#ManagerAccount.v1_8_0.ManagerAccount".
Definition AccountServiceType := "#AccountService.v1_10_0.AccountService".
Definition RoleType := "#Role.v1_3_1.Role".
Definition SessionServiceType := "#SessionService.v1_1_8.SessionService".
Definition SessionType := "#Session.v1_3_0.Session".

(** [session.Privileges[p]]: a missing key reads as false. *)
Definition has_privilege (s : Session) (p : string) : bool := default false (s_Privileges s !! p).

(** [commonResponse.Message, .MessageID, .Severity = ""] *)
Definition blank_message (r : Response) : Response :=
  {| OdataType := OdataType r; OdataID := OdataID r; OdataContext := OdataContext r;
     Description := Description r; ID := ID r; Name := Name r; Message := ""; MessageID := "";
     MessageArgs := MessageArgs r; NumberOfArgs := NumberOfArgs r; Severity := "";
     Resolution := Resolution r |}.
Definition with_ID (id : string) (r : Response) : Response :=
  {| OdataType := OdataType r; OdataID := OdataID r; OdataContext := OdataContext r;
     Description := Description r; ID := id; Name := Name r; Message := Message r;
     MessageID := MessageID r; MessageArgs := MessageArgs r; NumberOfArgs := NumberOfArgs r;
     Severity := Severity r; Resolution := Resolution r |}.
Definition with_OdataID (oid : string) (r : Response) : Response :=
  {| OdataType := OdataType r; OdataID := oid; OdataContext := OdataContext r;
     Description := Description r; ID := ID r; Name := Name r; Message := Message r;
     MessageID := MessageID r; MessageArgs := MessageArgs r; NumberOfArgs := NumberOfArgs r;
     Severity := Severity r; Resolution := Resolution r |}.
