(* ===== verification/Auth.v ===== *)
(** svc-account-session/auth: credential check, session validity, authorisation, and the clean-up
    of expired sessions.

    [go expiredSessionCleanUp()] adds a pending clean-up to the world; the clean-up itself,
    [expiredSessionCleanUp], is an operation the process runs later on its own. *)
From stdpp Require Import base gmap list strings.
From S2P Require Import Prelude Go Response Redis World ConnPool AsModel.
Open Scope string_scope.

Section Auth.
Context `{Env, Libs, Config}.

Definition SessionTimeOut := SessionTimeOutInMins (ConfAuth Data).
Definition CleanUpTime := ExpiredSessionCleanUpTimeInMins (ConfAuth Data).

Definition go_expiredSessionCleanUp : IO unit :=
  modify (fun w => with_cleanups (S (cleanups w)) w).

(** SHA3-512, then base64 with the URL alphabet. *)
Definition hashPassword (password : string) : string := URLEncoding (sha3_512 password).

Definition CheckSessionCreationCredentials (userName password : string) : IO (result User) :=
  go_expiredSessionCleanUp ;;;
  if String.eqb userName "" || String.eqb password "" then
    ret (inl (PackError UndefinedErrorType ["error: Invalid username or password "]))
  else
    let! user := GetUserDetails userName in
    match user with
    | inl e => ret (inl (PackError (ErrNo e) ["error: Invalid username or password :"; errMsg e]))
    | inr user =>
        if negb (String.eqb (u_Password user) (hashPassword password)) then
          ret (inl (PackError UndefinedErrorType ["error: Invalid username or password "]))
        else ret (inr user)
    end.

Definition CheckSessionTimeOut (sessionToken : string) : IO (result Session) :=
  go_expiredSessionCleanUp ;;;
  if String.eqb sessionToken "" then
    ret (inl (PackError InvalidAuthToken ["error: no session token found in header"]))
  else
    let! session := GetSession sessionToken in
    match session with
    | inl e => ret (inl (PackError (ErrNo e)
        ["error while trying to get session details with the token "; sessionToken; ": "; errMsg e]))
    | inr session =>
        let! now := Now in
        if minutes_exceed (now - s_LastUsedTime session) SessionTimeOut then
          ret (inl (PackError InvalidAuthToken ["error: invalid token "; sessionToken]))
        else ret (inr session)
    end.

(** The clean-up, holding the lock.  A session is deleted by the token it holds. *)
Definition cleanUpToken (token : string) : IO unit :=
  let! session := GetSession token in
  match session with
  | inl _ => ret tt
  | inr session =>
      let! now := Now in
      if minutes_exceed (now - s_LastUsedTime session) SessionTimeOut then
        let! _ := Session_Delete session in ret tt
      else ret tt
  end.
Definition expiredSessionCleanUp : IO unit :=
  let! now := Now in
  let! w := get in
  if minutes_exceed (now - lastExpiredSessionCleanUpTime w) CleanUpTime then
    let! sessionTokens := GetAllSessionKeys in
    match sessionTokens with
    | inl _ => ret tt
    | inr sessionTokens =>
        forM_ sessionTokens cleanUpToken ;;;
        let! now := Now in
        modify (with_cleanup_time now)
    end
  else ret tt.

(** The log line is not modelled; looking up the session for it is. *)
Definition CustomAuthLog (sessionToken msg : string) (respStatusCode : Z) : IO unit :=
  if String.eqb sessionToken "" then ret tt
  else let! _ := CheckSessionTimeOut sessionToken in ret tt.

(** Every privilege of the request must be granted. *)
Definition Auth (sessionToken : string) (privileges : list string) : IO (Z * string) :=
  go_expiredSessionCleanUp ;;;
  if String.eqb sessionToken "" then
    CustomAuthLog "" "Invalid session token " StatusUnauthorized ;;;
    ret (StatusUnauthorized, NoValidSession)
  else if Nat.eqb (length privileges) 0 then
    CustomAuthLog sessionToken "Received empty privileges, unable to proceed " StatusForbidden ;;;
    ret (StatusUnauthorized, NoValidSession)
  else
    let! session := CheckSessionTimeOut sessionToken in
    match session with
    | inl err =>
        let (status, message) := GetAuthStatusCodeAndMessage err in
        (if Z.eqb status StatusUnauthorized
         then CustomAuthLog "" ("Received invalid session token " +:+ sessionToken) StatusUnauthorized
         else ret tt) ;;;
        ret (status, message)
    | inr session =>
        let! now := Now in
        let session := with_LastUsedTime now session in
        let! err := Session_Update session in
        match err with
        | Some err => ret (GetAuthStatusCodeAndMessage err)
        | None =>
            let! r := loopM privileges tt (fun _ privilege =>
              if negb (has_privilege session privilege) then
                CustomAuthLog sessionToken "User does not have sufficient privileges" StatusForbidden ;;;
                ret (inl (StatusForbidden, InsufficientPrivilege))
              else ret (inr tt)) in
            match r with
            | inl r => ret r
            | inr _ =>
                CustomAuthLog sessionToken "Authorization is successful" StatusOK ;;;
                ret (StatusOK, Success)
            end
        end
    end.
End Auth.
