(* ===== verification/Session.v ===== *)
(** svc-account-session/session: creating, reading, listing and deleting sessions. *)
From stdpp Require Import base gmap list strings.
From S2P Require Import Prelude Go Response CaseValidator Redis World ConnPool AsModel Auth.
Open Scope string_scope.

(** The request of the session RPCs (SessionRequest). *)
Record SessionRequest := { SessionId : string; SessionToken : string }.

Definition bad_properties :=
  "One or more properties given in the request body are not valid, ensure properties are listed in uppercamelcase ".

Section Session.
Context `{Env, Libs, Config}.

(** host:port of a database, as the connection errors name it. *)
Definition db_uri (db : DbType) : string := Host (db_config db) +:+ ":" +:+ Port (db_config db).

(** ** update.go *)

(** [UpdateLastUsedTime]: the text of the error, if any. *)
Definition UpdateLastUsedTime (token : string) : IO (option string) :=
  let! session := GetSession token in
  match session with
  | inl err => ret (Some ("error while trying to get the session details with the token " +:+
                          token +:+ ": " +:+ errMsg err))
  | inr session =>
      let! now := Now in
      let! err := Session_Update (with_LastUsedTime now session) in
      match err with
      | Some err => ret (Some ("error while trying to update session details: " +:+ errMsg err))
      | None => ret None
      end
  end.

(** ** create.go *)

Definition rolePrivileges (role : Role) : gmap string bool :=
  fold_left (fun m p => <[p := true]> m) (items (r_AssignedPrivileges role)) ∅.

Definition CreateNewSession (RequestBody : jtext) : IO (asRPC * string) :=
  let commonResponse := mkResponse SessionServiceType "/redfish/v1/SessionService/Sessions" ""
                          "Sessions" "Session Service" in
  match Unmarshal CreateSession_type RequestBody zeroCreateSession with
  | (_, Some genErr) =>
      let! r := lift (GeneralError StatusInternalServerError InternalError
                  ("Unable to parse the create session request" +:+ genErr) []) in
      ret (r, "")
  | (createSession, None) =>
      let! invalidProperties := lift (RequestParamsCaseValidator RequestBody
                                        (marshal_CreateSession createSession)) in
      if negb (String.eqb invalidProperties "") then
        let! r := lift (GeneralError StatusBadRequest PropertyUnknown bad_properties
                    [IString invalidProperties]) in
        ret (r, "")
      else
        let! user := CheckSessionCreationCredentials (cs_UserName createSession)
                       (cs_Password createSession) in
        match user with
        | inl err =>
            let em := "Unable to authorize session creation credentials: " +:+ errMsg err in
            if decide (ErrNo err = DBConnFailed) then
              let! r := lift (GeneralError StatusServiceUnavailable CouldNotEstablishConnection em
                          [IString (db_uri OnDisk)]) in
              ret (r, "")
            else
              let! r := lift (GeneralError StatusUnauthorized NoValidSession em []) in
              ret (r, "")
        | inr user =>
            let! role := GetRoleDetailsByID (u_RoleID user) in
            match role with
            | inl err =>
                let! r := lift (CreateInternalErrorResponse []
                            ("Unable to get role privileges for session creation: " +:+ errMsg err)) in
                ret (r, "")
            | inr role =>
                let rolePrivilege := rolePrivileges role in
                if negb (bool_decide (is_Some (rolePrivilege !! PrivilegeLogin))) then
                  let! r := lift (GeneralError StatusForbidden InsufficientPrivilege
                              "User doesn't have required privilege to create a session" []) in
                  ret (r, "")
                else
                  let! currentTime := Now in
                  let! id := NewV4 in
                  let! token := NewV4 in
                  let sess := mkSession id token (u_UserName user) (u_RoleID user) rolePrivilege
                                "" currentTime currentTime in
                  let! err := Session_Persist sess in
                  match err with
                  | Some err =>
                      let em := "error while trying to insert session details: " +:+ errMsg err in
                      if decide (ErrNo err = DBConnFailed) then
                        let! r := lift (GeneralError StatusServiceUnavailable
                                    CouldNotEstablishConnection em [IString (db_uri InMemory)]) in
                        ret (r, "")
                      else
                        let! r := lift (GeneralError StatusInternalServerError InternalError em []) in
                        ret (r, "")
                  | None =>
                      let commonResponse := with_OdataID
                        ("/redfish/v1/SessionService/Sessions/" +:+ id) (with_ID id commonResponse) in
                      let! commonResponse := lift (CreateGenericResponse commonResponse Created) in
                      ret (mkRPC StatusCreated Created
                             [("Link", "</redfish/v1/SessionService/Sessions/" +:+ id +:+ "/>; rel=self");
                              ("X-Auth-Token", token)]
                             (Body (SessionBody commonResponse (cs_UserName createSession))), id)
                  end
            end
        end
  end.

(** ** delete.go *)

Definition checkPrivilege (session currentSession : Session) : bool :=
  (String.eqb (s_UserName session) (s_UserName currentSession)
   && has_privilege currentSession PrivilegeConfigureSelf)
  || has_privilege currentSession PrivilegeConfigureUsers.

(** The requesting token is looked up without the time-out check. *)
Definition DeleteSession (req : SessionRequest) : IO asRPC :=
  let! currentSession := GetSession (SessionToken req) in
  match currentSession with
  | inl serr =>
      lift (GeneralError StatusUnauthorized NoValidSession
              ("Unable to delete session: " +:+ errMsg serr) [])
  | inr currentSession =>
      let! sessionTokens := GetAllSessionKeys in
      match sessionTokens with
      | inl err =>
          lift (CreateInternalErrorResponse []
                  ("Unable to get all session keys while deleting session: " +:+ errMsg err))
      | inr sessionTokens =>
          let! r := loopM sessionTokens tt (fun _ token =>
            let! session := CheckSessionTimeOut token in
            match session with
            | inl _ => ret (inr tt)
            | inr session =>
                if String.eqb (s_ID session) (SessionId req) then
                  if checkPrivilege session currentSession then
                    let! upd :=
                      (if negb (String.eqb (SessionToken req) (s_Token session))
                       then UpdateLastUsedTime (SessionToken req) else ret None) in
                    match upd with
                    | Some err =>
                        let! r := lift (CreateInternalErrorResponse []
                          ("Unable to update last used time of session matching token " +:+
                           SessionToken req +:+ ": " +:+ err)) in
                        ret (inl r)
                    | None =>
                        let! derr := Session_Delete session in
                        match derr with
                        | Some err =>
                            let! r := lift (CreateInternalErrorResponse []
                              ("Unable to get all session keys while deleting session: " +:+ errMsg err)) in
                            ret (inl r)
                        | None => ret (inl (mkRPC StatusNoContent ResourceRemoved [] NoBody))
                        end
                    end
                  else
                    let! r := lift (errorRPC StatusForbidden InsufficientPrivilege
                                "Insufficient privileges" []) in
                    CustomAuthLog (SessionToken req) "Insufficient privileges" StatusForbidden ;;;
                    ret (inl r)
                else ret (inr tt)
            end) in
          match r with
          | inl r => ret r
          | inr _ =>
              lift (errorRPC StatusNotFound ResourceNotFound "error: Session ID not found"
                      [IString "Session"; IString (SessionId req)])
          end
      end
  end.

(** ** getsession.go *)

(** What every reader does when the token is not valid: a 503 names the database, the other
    codes are logged. *)
Definition invalidTokenRPC (token : string) (err : Err) (prefix logMsg : string) : IO asRPC :=
  let em := prefix +:+ errMsg err in
  let (code, msg) := GetAuthStatusCodeAndMessage err in
  if Z.eqb code StatusServiceUnavailable then
    lift (errorRPC code msg em [IString (db_uri InMemory)])
  else
    let! r := lift (errorRPC code msg em []) in
    CustomAuthLog token logMsg code ;;; ret r.

(** The user name, or the text of the error. *)
Definition session_field (f : Session -> string) (token : string) : IO (string + string) :=
  let! currentSession := CheckSessionTimeOut token in
  match currentSession with
  | inl err => ret (inl (errMsg err))
  | inr currentSession =>
      let! errs := UpdateLastUsedTime token in
      match errs with
      | Some errs => ret (inl errs)
      | None => ret (inr (f currentSession))
      end
  end.
Definition GetSessionUserName (req : SessionRequest) : IO (string + string) :=
  session_field s_UserName (SessionToken req).
Definition GetSessionUserRoleID (req : SessionRequest) : IO (string + string) :=
  session_field s_RoleID (SessionToken req).

Definition GetSessionRPC (req : SessionRequest) : IO asRPC :=
  let token := SessionToken req in
  let sid := SessionId req in
  let commonResponse := mkResponse SessionType ("/redfish/v1/SessionService/Sessions/" +:+ sid) ""
                          sid "User Session" in
  let! currentSession := CheckSessionTimeOut token in
  match currentSession with
  | inl err => invalidTokenRPC token err "Unable to authorize session token: " "Invalid session token"
  | inr currentSession =>
      let! errs := UpdateLastUsedTime token in
      match errs with
      | Some errs =>
          lift (CreateInternalErrorResponse []
            ("Unable to update last used time of session matching token " +:+ token +:+ ": " +:+ errs))
      | None =>
          let! sessionTokens := GetAllSessionKeys in
          match sessionTokens with
          | inl errs =>
              lift (CreateInternalErrorResponse []
                ("Unable to get all session keys while deleting session: " +:+ errMsg errs))
          | inr sessionTokens =>
              let! r := loopM sessionTokens tt (fun _ tok =>
                let! session := CheckSessionTimeOut tok in
                match session with
                | inl _ => CustomAuthLog token "Invalid session token" 0 ;;; ret (inr tt)
                | inr session =>
                    if String.eqb (s_ID session) sid then
                      if checkPrivilege session currentSession then
                        ret (inl (mkRPC StatusOK Success
                          [("Link", "</redfish/v1/SessionService/Sessions/" +:+ sid +:+ "/>; rel=self");
                           ("X-Auth-Token", tok)]
                          (Body (SessionBody commonResponse (s_UserName session)))))
                      else
                        let em := "The session doesn't have the requisite privileges for the action" in
                        let! r := lift (errorRPC StatusForbidden InsufficientPrivilege em []) in
                        CustomAuthLog token em StatusForbidden ;;;
                        ret (inl r)
                    else ret (inr tt)
                end) in
              match r with
              | inl r => ret r
              | inr _ =>
                  lift (errorRPC StatusNotFound ResourceNotFound
                          ("No session with id " +:+ sid +:+ " found.")
                          [IString "Session"; IString sid])
              end
          end
      end
  end.

(** A session that may neither configure itself nor users gets here with a nil error, whose
    text the message asks for: a nil dereference. *)
Definition GetAllActiveSessions (req : SessionRequest) : IO asRPC :=
  let token := SessionToken req in
  let commonResponse := mkResponse "#SessionCollection.SessionCollection"
    "/redfish/v1/SessionService/Sessions" "/redfish/v1/$metadata#SessionCollection.SessionCollection"
    "" "Session Service" in
  let! currentSession := CheckSessionTimeOut token in
  match currentSession with
  | inl gerr =>
      invalidTokenRPC token gerr "Unable to authorize session token: "
        ("Unable to authorize session token: " +:+ errMsg gerr)
  | inr currentSession =>
      let! err := UpdateLastUsedTime token in
      match err with
      | Some err =>
          lift (CreateInternalErrorResponse []
            ("Unable to update last used time of session with token " +:+ token +:+ ": " +:+ err))
      | None =>
          if negb (has_privilege currentSession PrivilegeConfigureSelf)
             && negb (has_privilege currentSession PrivilegeConfigureUsers)
          then panic   (* "Insufficient privileges: " + err.Error() with err == nil *)
          else
            let! sessionTokens := GetAllSessionKeys in
            match sessionTokens with
            | inl errs =>
                lift (CreateInternalErrorResponse []
                  ("Unable to get all session keys in delete session: " +:+ errMsg errs))
            | inr sessionTokens =>
                let! r := loopM sessionTokens [] (fun listMembers tok =>
                  let! session := CheckSessionTimeOut tok in
                  match session with
                  | inl _ => ret (inr listMembers)
                  | inr session =>
                      if checkPrivilege session currentSession then
                        ret (inr (listMembers ++
                               ["/redfish/v1/SessionService/Sessions/" +:+ s_ID session])%list)
                      else ret (inr listMembers)
                  end) in
                match r with
                | inl r => ret r
                | inr listMembers =>
                    ret (mkRPC StatusOK Success []
                      (Body (ListBody commonResponse (Z.of_nat (length listMembers)) listMembers)))
                end
            end
      end
  end.

(** Is a service enabled in the configuration, and its state. *)
Definition service_enabled (service : string) : bool :=
  existsb (fun s => String.eqb s service) (EnabledServices Data).
Definition service_state (service : string) : string :=
  if service_enabled service then "Enabled" else "Disabled".

Definition GetSessionService (req : SessionRequest) : IO asRPC :=
  let commonResponse := mkResponse SessionServiceType "/redfish/v1/SessionService" "" "Sessions"
                          "Session Service" in
  let! commonResponse := lift (CreateGenericResponse commonResponse Success) in
  ret (mkRPC StatusOK Success
    [("Link", "	</redfish/v1/SchemaStore/en/SessionService.json>; rel=describedby")]
    (Body (SessionServiceBody (blank_message commonResponse)
             {| st_State := service_state "SessionService"; st_Health := "OK" |}
             (service_enabled "SessionService") SessionTimeOut
             "/redfish/v1/SessionService/Sessions"))).
End Session.
