(* ===== verification/Account.v ===== *)
(** svc-account-session/account: creating, reading, updating and deleting accounts. *)
From stdpp Require Import base gmap list strings.
From S2P Require Import Prelude Go Response CaseValidator Redis World ConnPool AsModel Auth Session.
Open Scope string_scope.

Definition defaultAdminAccount := "admin".

(** The request messages of the account RPCs. *)
Record CreateAccountRequest := { car_SessionToken : string; car_RequestBody : jtext }.
Record UpdateAccountRequest := {
  uar_SessionToken : string; uar_AccountID : string; uar_RequestBody : jtext }.
Record AccountIDRequest := { air_SessionToken : string; air_AccountID : string }.

Section Account.
Context `{Env, Libs, Config}.

(** ** create.go *)

(** The names of the mandatory fields that are empty. *)
Definition validateRequest (user : User) : string :=
  (if String.eqb (u_UserName user) "" then "UserName " else "") +:+
  (if String.eqb (u_Password user) "" then "Password " else "") +:+
  (if String.eqb (u_RoleID user) "" then "RoleID" else "").

(** [regexp.Match("[" + class + "]+", password)], its error ignored. *)
Definition Match (class password : string) : bool :=
  if plain_class class then match_class class password
  else regexp_other ("[" +:+ class +:+ "]+") password.

Definition weak_password :=
  "error: invalid password, password should contain minimum One Upper case, One Lower case, One Number and One Special character".

(** The text of the error, if any. *)
Definition validatePassword (userName password : string) : option string :=
  let rules := AuthPasswordRules (ConfAuth Data) in
  let len := Z.of_nat (String.length password) in
  if Contains (ToLower password) (ToLower userName) then
    Some "error: invalid password, username is present inside the password"
  else if (len <? MinPasswordLength rules)%Z then
    Some "error: invalid password, password length is less than the minimum length"
  else if (MaxPasswordLength rules <? len)%Z then
    Some "error: invalid password, password length is greater than the maximum length"
  else if negb (Match "A-Z" password) then Some weak_password
  else if negb (Match "a-z" password) then Some weak_password
  else if negb (Match "0-9" password) then Some weak_password
  else if negb (Match (AllowedSpecialCharcters rules) password) then Some weak_password
  else None.

(** What a request without the privilege gets; the refusal is logged. *)
Definition forbidden (session : Session) (errorMessage : string) : IO asRPC :=
  let! resp := lift (errorRPC StatusForbidden InsufficientPrivilege errorMessage []) in
  CustomAuthLog (s_Token session) errorMessage StatusForbidden ;;;
  ret resp.

Definition account_headers (userName : string) : list (string * string) :=
  [("Link", "</redfish/v1/AccountService/Accounts/" +:+ userName +:+ "/>; rel=describedby");
   ("Location", "/redfish/v1/AccountService/Accounts/" +:+ userName)].
Definition account_response (id : string) : Response :=
  mkResponse ManagerAccountType ("/redfish/v1/AccountService/Accounts/" +:+ id)
    "/redfish/v1/$metadata#ManagerAccount.ManagerAccount" id "Account Service".
Definition account_body (r : Response) (user : User) : body asBody :=
  Body (AccountBody r (u_UserName user) (u_RoleID user) (u_AccountTypes user)
          ("/redfish/v1/AccountService/Roles/" +:+ u_RoleID user)).

(** The response, and whether an error comes with it. *)
Definition Create (req : CreateAccountRequest) (session : Session) : IO (asRPC * bool) :=
  match Unmarshal Account_type (car_RequestBody req) zeroAccount with
  | (_, Some err) =>
      let! resp := lift (GeneralError StatusInternalServerError InternalError
                     ("Unable to parse the create account request" +:+ err) []) in
      ret (resp, true)
  | (createAccount, None) =>
      let commonResponse := account_response (a_UserName createAccount) in
      let! invalidProperties := lift (RequestParamsCaseValidator (car_RequestBody req)
                                        (marshal_Account createAccount)) in
      if negb (String.eqb invalidProperties "") then
        let! resp := lift (GeneralError StatusBadRequest PropertyUnknown bad_properties
                       [IString invalidProperties]) in
        ret (resp, true)
      else
        let user := {| u_UserName := a_UserName createAccount; u_Password := a_Password createAccount;
                       u_RoleID := a_RoleID createAccount; u_AccountTypes := None |} in
        if negb (has_privilege session PrivilegeConfigureUsers) then
          let! resp := forbidden session "User does not have the privilege to create a new user" in
          ret (resp, true)
        else
          let invalidParams := validateRequest user in
          if negb (String.eqb invalidParams "") then
            let! resp := lift (errorRPC StatusBadRequest PropertyMissing
                           ("Mandatory fields " +:+ invalidParams +:+ " are empty")
                           [IString invalidParams]) in
            ret (resp, true)
          else
            let! gerr := GetRoleDetailsByID (u_RoleID user) in
            match gerr with
            | inl gerr =>
                let! resp := lift (GeneralError StatusBadRequest ResourceNotFound
                               ("Invalid RoleID present " +:+ errMsg gerr)
                               [IString "Role"; IString (u_RoleID user)]) in
                ret (resp, true)
            | inr _ =>
                match validatePassword (u_UserName user) (u_Password user) with
                | Some errorMessage =>
                    let! resp := lift (errorRPC StatusBadRequest PropertyValueFormatError errorMessage
                                   [IString (u_Password user); IString "Password"]) in
                    ret (resp, true)
                | None =>
                    let user := {| u_UserName := u_UserName user;
                                   u_Password := hashPassword (u_Password user);
                                   u_RoleID := u_RoleID user;
                                   u_AccountTypes := Some ["Redfish"] |} in
                    let! cerr := CreateUser user in
                    match cerr with
                    | Some cerr =>
                        let errorMessage := "Unable to add new user: " +:+ errMsg cerr in
                        let! resp :=
                          lift (if decide (ErrNo cerr = DBKeyAlreadyExist) then
                                  errorRPC StatusConflict ResourceAlreadyExists errorMessage
                                    [IString "ManagerAccount"; IString "Id"; IString (u_UserName user)]
                                else CreateInternalErrorResponse [] errorMessage) in
                        ret (resp, true)
                    | None =>
                        let! commonResponse := lift (CreateGenericResponse commonResponse Created) in
                        ret (mkRPC StatusCreated Created (account_headers (u_UserName user))
                               (account_body commonResponse user), false)
                    end
                end
            end
  end.

(** ** delete.go *)

Definition Delete (session : Session) (accountID : string) : IO asRPC :=
  if String.eqb accountID defaultAdminAccount then
    lift (errorRPC StatusBadRequest ResourceCannotBeDeleted
            "default user account can not be deleted" [])
  else if negb (has_privilege session PrivilegeConfigureUsers) then
    forbidden session (s_UserName session +:+ " does not have the privilege to delete user")
  else
    let! derr := DeleteUser accountID in
    match derr with
    | Some derr =>
        let errorMessage := "Unable to delete user: " +:+ errMsg derr in
        lift (if decide (ErrNo derr = DBKeyNotFound) then
                errorRPC StatusNotFound ResourceNotFound errorMessage
                  [IString "Account"; IString accountID]
              else CreateInternalErrorResponse [] errorMessage)
    | None => ret (mkRPC StatusNoContent AccountRemoved [] NoBody)
    end.

(** ** update.go *)

Definition isEmptyRequest (requestBody : jtext) : bool :=
  (length (unmarshal_map requestBody) <=? 0)%nat.

(** Is the role of an update one of the predefined three, or in the database? *)
Definition updateRoleCheck (roleID : string) : IO (option asRPC) :=
  if negb (String.eqb roleID "") then
    if negb (String.eqb roleID RoleAdmin) && negb (String.eqb roleID RoleMonitor)
       && negb (String.eqb roleID RoleClient)
    then
      let! err := GetRoleDetailsByID roleID in
      match err with
      | inl _ =>
          let! resp := lift (errorRPC StatusBadRequest PropertyValueNotInList
                         ("Invalid RoleID " +:+ roleID +:+ " present")
                         [IString roleID; IString "RoleID"]) in
          ret (Some resp)
      | inr _ => ret None
      end
    else ret None
  else ret None.

(** The password part of an update: a refusal, or the password to store. *)
Definition updatePassword (session : Session) (userName password : string)
  : IO (asRPC + string) :=
  if negb (String.eqb password "") then
    if negb (has_privilege session PrivilegeConfigureSelf)
       && negb (has_privilege session PrivilegeConfigureUsers) then
      let! resp := forbidden session
        "Roles, user is associated with, doesn't allow changing own or other users password" in
      ret (inl resp)
    else
      match validatePassword userName password with
      | Some errorMessage =>
          let! resp := lift (errorRPC StatusBadRequest PropertyValueFormatError errorMessage
                         [IString password; IString "Password"]) in
          ret (inl resp)
      | None => ret (inr (hashPassword password))
      end
  else ret (inr password).

Definition Update (req : UpdateAccountRequest) (session : Session) : IO asRPC :=
  let id := uar_AccountID req in
  let commonResponse := account_response id in
  match Unmarshal Account_type (uar_RequestBody req) zeroAccount with
  | (_, Some err) =>
      lift (GeneralError StatusInternalServerError InternalError
              ("unable to parse the update account request" +:+ err) [])
  | (updateAccount, None) =>
      let requestUser := {| u_UserName := a_UserName updateAccount;
                            u_Password := a_Password updateAccount;
                            u_RoleID := a_RoleID updateAccount;
                            u_AccountTypes := Some ["Redfish"] |} in
      if isEmptyRequest (uar_RequestBody req) then
        lift (GeneralError StatusBadRequest PropertyMissing "empty request can not be processed"
                [IString "request body"])
      else if negb (String.eqb (u_UserName requestUser) "") then
        lift (obind (CreateGenericErrorResponse
                       {| args_Code := GeneralErrorMsg; args_Message := "Username cannot be modified";
                          ErrorArgs := [] |})
                (fun e => Ok (mkRPC StatusBadRequest GeneralErrorMsg [] (ErrorBody e))))
      else
        let! invalidProperties := lift (RequestParamsCaseValidator (uar_RequestBody req)
                                          (marshal_Account updateAccount)) in
        if negb (String.eqb invalidProperties "") then
          lift (GeneralError StatusBadRequest PropertyUnknown bad_properties
                  [IString invalidProperties])
        else
          let! badRole := updateRoleCheck (u_RoleID requestUser) in
          match badRole with
          | Some resp => ret resp
          | None =>
              let! user := GetUserDetails id in
              match user with
              | inl gerr =>
                  let errorMessage := "Unable to get account: " +:+ errMsg gerr in
                  lift (if decide (ErrNo gerr = DBKeyNotFound) then
                          errorRPC StatusNotFound ResourceNotFound errorMessage
                            [IString "Account"; IString id]
                        else CreateInternalErrorResponse [] errorMessage)
              | inr user =>
                  if negb (String.eqb (u_UserName user) (s_UserName session))
                     && negb (has_privilege session PrivilegeConfigureUsers) then
                    forbidden session "User does not have the privilege to update other accounts"
                  else if negb (String.eqb (u_RoleID requestUser) "")
                          && negb (has_privilege session PrivilegeConfigureUsers) then
                    forbidden session
                      "User does not have the privilege to update any account role, including his own account"
                  else
                    let! pw := updatePassword session (u_UserName user) (u_Password requestUser) in
                    match pw with
                    | inl resp => ret resp
                    | inr password =>
                        let requestUser := {| u_UserName := u_UserName requestUser;
                                              u_Password := password;
                                              u_RoleID := u_RoleID requestUser;
                                              u_AccountTypes := u_AccountTypes requestUser |} in
                        let! uerr := UpdateUserDetails user requestUser in
                        match uerr with
                        | Some uerr =>
                            lift (CreateInternalErrorResponse []
                                    ("Unable to update user: " +:+ errMsg uerr))
                        | None =>
                            let user' := {| u_UserName := u_UserName user; u_Password := u_Password user;
                                            u_RoleID := if negb (String.eqb (u_RoleID requestUser) "")
                                                        then u_RoleID requestUser else u_RoleID user;
                                            u_AccountTypes := u_AccountTypes user |} in
                            let! commonResponse := lift (CreateGenericResponse commonResponse AccountModified) in
                            ret (mkRPC StatusOK AccountModified (account_headers (u_UserName user))
                                   (account_body commonResponse user'))
                        end
                    end
              end
          end
  end.

(** ** getaccounts.go *)

Definition GetAllAccounts (session : Session) : IO asRPC :=
  let commonResponse := mkResponse "#ManagerAccountCollection.ManagerAccountCollection"
    "/redfish/v1/AccountService/Accounts"
    "/redfish/v1/$metadata#ManagerAccountCollection.ManagerAccountCollection" "" "Account Service" in
  if negb (has_privilege session PrivilegeConfigureUsers) then
    forbidden session ("User " +:+ s_UserName session +:+ " does not have the privilege to view all users")
  else
    let! users := GetAllUsers in
    match users with
    | inl err => lift (CreateInternalErrorResponse [] ("Unable to get users: " +:+ errMsg err))
    | inr users =>
        let accountLinks :=
          (fun user => "/redfish/v1/AccountService/Accounts/" +:+ u_UserName user) <$> users in
        let! commonResponse := lift (CreateGenericResponse commonResponse Success) in
        ret (mkRPC StatusOK Success
          [("Link", "</redfish/v1/SchemaStore/en/ManagerAccountCollection.json/>; rel=describedby")]
          (Body (ListBody (with_ID "" (blank_message commonResponse))
                   (Z.of_nat (length users)) accountLinks)))
    end.

Definition GetAccount (session : Session) (accountID : string) : IO asRPC :=
  let commonResponse := account_response accountID in
  if negb (has_privilege session PrivilegeConfigureUsers)
     && (negb (String.eqb accountID (s_UserName session))
         || negb (has_privilege session PrivilegeConfigureSelf)) then
    forbidden session (s_UserName session +:+ " does not have the privilege to view other user's details")
  else
    let! user := GetUserDetails accountID in
    match user with
    | inl err =>
        let errorMessage := "Unable to get account: " +:+ errMsg err in
        lift (if decide (ErrNo err = DBKeyNotFound) then
                errorRPC StatusNotFound ResourceNotFound errorMessage
                  [IString "Account"; IString accountID]
              else CreateInternalErrorResponse [] errorMessage)
    | inr user =>
        let! commonResponse := lift (CreateGenericResponse commonResponse Success) in
        ret (mkRPC StatusOK Success
               [("Link", "</redfish/v1/SchemaStore/en/ManagerAccount.json/>; rel=describedby")]
               (account_body (blank_message commonResponse) user))
    end.

Definition GetAccountService : IO asRPC :=
  let commonResponse := mkResponse AccountServiceType "/redfish/v1/AccountService"
    "/redfish/v1/$metadata#AccountService.AccountService" "AccountService" "Account Service" in
  let! commonResponse := lift (CreateGenericResponse commonResponse Success) in
  ret (mkRPC StatusOK Success
    [("Link", "	</redfish/v1/SchemaStore/en/AccountService.json>; rel=describedby")]
    (Body (AccountServiceBody (blank_message commonResponse)
             {| st_State := service_state "AccountService"; st_Health := "OK" |}
             (service_enabled "AccountService")
             (MinPasswordLength (AuthPasswordRules (ConfAuth Data)))
             "/redfish/v1/AccountService/Accounts" "/redfish/v1/AccountService/Roles"))).
End Account.
