(* ===== verification/Role.v ===== *)
(** svc-account-session/role: creating, reading, updating and deleting roles. *)
From stdpp Require Import base gmap list strings.
From S2P Require Import Prelude Go Response CaseValidator Redis World ConnPool AsModel Auth Session.
Open Scope string_scope.

(** The request messages of the role RPCs. *)
Record RoleRequest := { rr_SessionToken : string; rr_RequestBody : jtext }.
Record RoleIDRequest := { ri_SessionToken : string; ri_Id : string }.
Record UpdateRoleRequest := {
  ur_SessionToken : string; ur_Id : string; ur_UpdateRequest : jtext }.

Section Role.
Context `{Env, Libs, Config}.

(** ** checkprivilege.go *)

(** The first privilege that is not in the registry. *)
Definition first_unknown (registry privileges : list string) : option string :=
  List.find (fun userPrivilege =>
    negb (existsb (fun p => String.eqb userPrivilege p) registry)) privileges.

(** What is wrong with a list of privileges: status, message, its arguments and the error's text. *)
Record PrivilegeError := {
  pe_Code : Z; pe_Message : string; pe_Args : list iface; pe_Error : string }.

Definition validateAssignedPrivileges (assignedPrivileges : list string)
  : IO (option PrivilegeError) :=
  let! privilegeRegistry := GetPrivilegeRegistry in
  match privilegeRegistry with
  | inl err =>
      ret (Some {| pe_Code := StatusInternalServerError; pe_Message := InternalError;
                   pe_Args := []; pe_Error := "error while getting Privileges: " +:+ errMsg err |})
  | inr registry =>
      match first_unknown (items registry) assignedPrivileges with
      | Some userPrivilege =>
          ret (Some {| pe_Code := StatusBadRequest; pe_Message := PropertyValueNotInList;
                       pe_Args := [IString userPrivilege; IString "AssignedPrivileges"];
                       pe_Error := "Requested Redfish predefined privilege is not correct" |})
      | None => ret None
      end
  end.

Definition validateOEMPrivileges (oemPrivileges : list string) : IO (option PrivilegeError) :=
  let! oemPrivilegeRegistry := GetOEMPrivileges in
  match oemPrivilegeRegistry with
  | inl err =>
      ret (Some {| pe_Code := StatusInternalServerError; pe_Message := InternalError;
                   pe_Args := []; pe_Error := "error getting OEM Privileges: " +:+ errMsg err |})
  | inr registry =>
      match first_unknown (items registry) oemPrivileges with
      | Some userPrivilege =>
          ret (Some {| pe_Code := StatusBadRequest; pe_Message := PropertyValueNotInList;
                       pe_Args := [IString userPrivilege; IString "OemPrivileges"];
                       pe_Error := "Requested OEM privilege is not correct" |})
      | None => ret None
      end
  end.

(** The status of a missing privilege. *)
Definition checkForPrivilege (session : Session) (privilege : string) : option (Z * string) :=
  if negb (has_privilege session privilege)
  then Some (StatusForbidden, InsufficientPrivilege) else None.

(** The two checks [Create] and [Update] make of the lists that are not empty, in order: the
    response of the first that fails. *)
Definition check_privileges (validate : list string -> IO (option PrivilegeError))
    (privileges : list string) : IO (option asRPC) :=
  if negb (length privileges =? 0)%nat then
    let! err := validate privileges in
    match err with
    | Some e =>
        let! resp := lift (errorRPC (pe_Code e) (pe_Message e) (pe_Error e) (pe_Args e)) in
        ret (Some resp)
    | None => ret None
    end
  else ret None.

Definition is_redfish_role (redfishRoles : slice string) (id : string) : bool :=
  existsb (fun redfishrole => String.eqb id redfishrole) (items redfishRoles).

(** A refusal by [checkForPrivilege], which is logged. *)
Definition refuse (session : Session) (status : Z * string) (errorMessage : string) : IO asRPC :=
  let! resp := lift (errorRPC status.1 status.2 errorMessage []) in
  CustomAuthLog (s_Token session) errorMessage status.1 ;;;
  ret resp.

(** ** create.go *)

Definition CheckWhitespace (value : string) : bool := negb (blank value).

Definition Create (req : RoleRequest) (session : Session) : IO asRPC :=
  match Unmarshal Role_type (rr_RequestBody req) zeroRole with
  | (_, Some err) =>
      lift (GeneralError StatusInternalServerError InternalError
              ("unable to parse the add request" +:+ err) [])
  | (createRoleReq, None) =>
      let commonResponse := mkResponse RoleType
        ("/redfish/v1/AccountService/Roles/" +:+ r_ID createRoleReq) "" "" "User Role" in
      let! invalidProperties := lift (RequestParamsCaseValidator (rr_RequestBody req)
                                        (role_fields createRoleReq)) in
      if negb (String.eqb invalidProperties "") then
        lift (GeneralError StatusBadRequest PropertyUnknown bad_properties [IString invalidProperties])
      else if negb (validate_required (r_ID createRoleReq)) then
        lift (GeneralError StatusBadRequest PropertyMissing "error: Mandatory field RoleId is empty"
                [IString "RoleId"])
      else if negb (validate_required (r_ID createRoleReq) && CheckWhitespace (r_ID createRoleReq)
                    && validate_excludesall "!@#?%&$*" (r_ID createRoleReq)) then
        lift (errorRPC StatusBadRequest PropertyValueNotInList "Invalid create role request"
                [IString (r_ID createRoleReq); IString "RoleId"])
      else
        match checkForPrivilege session "ConfigureUsers" with
        | Some status => refuse session status "User does not have the privilege to create a new role"
        | None =>
            let assigned := items (r_AssignedPrivileges createRoleReq) in
            let oem := items (r_OEMPrivileges createRoleReq) in
            if ((length assigned =? 0) && (length oem =? 0))%nat then
              lift (errorRPC StatusBadRequest PropertyMissing
                      "Both AssignedPrivileges and OemPrivileges cannot be empty."
                      [IString "AssignedPrivileges/OemPrivileges"])
            else
              let! bad := check_privileges validateAssignedPrivileges assigned in
              match bad with
              | Some resp => ret resp
              | None =>
                  let! bad := check_privileges validateOEMPrivileges oem in
                  match bad with
                  | Some resp => ret resp
                  | None =>
                      let! redfishRoles := GetRedfishRoles in
                      match redfishRoles with
                      | inl gerr => lift (CreateInternalErrorResponse [] (errMsg gerr))
                      | inr redfishRoles =>
                          let isPredefined := is_redfish_role redfishRoles (r_ID createRoleReq) in
                          if isPredefined then
                            lift (errorRPC StatusForbidden InsufficientPrivilege
                                    "Cannot create pre-defined roles" [])
                          else
                            let role := {| r_ID := r_ID createRoleReq; r_IsPredefined := isPredefined;
                                           r_AssignedPrivileges := r_AssignedPrivileges createRoleReq;
                                           r_OEMPrivileges := r_OEMPrivileges createRoleReq |} in
                            let! cerr := Role_Create role in
                            match cerr with
                            | Some cerr =>
                                if decide (ErrNo cerr = DBKeyAlreadyExist) then
                                  lift (obind (CreateGenericErrorResponse
                                         {| args_Code := GeneralErrorMsg;
                                            args_Message := "Role with name " +:+ r_ID role +:+ " already exists";
                                            ErrorArgs := [] |})
                                    (fun e => Ok (mkRPC StatusConflict GeneralErrorMsg [] (ErrorBody e))))
                                else lift (CreateInternalErrorResponse []
                                             ("Unable to create new role: " +:+ errMsg cerr))
                            | None =>
                                let! commonResponse := lift (CreateGenericResponse commonResponse ResourceCreated) in
                                ret (mkRPC StatusCreated ResourceCreated []
                                       (Body (UserRoleBody (with_ID (r_ID createRoleReq) commonResponse)
                                                (r_IsPredefined role) (r_AssignedPrivileges role)
                                                (r_OEMPrivileges role))))
                            end
                      end
                  end
              end
        end
  end.

(** ** delete.go *)

Definition doSessionAuthAndUpdate (sessionToken : string) : IO (asRPC + Session) :=
  let! sess := CheckSessionTimeOut sessionToken in
  match sess with
  | inl err =>
      let! resp := invalidTokenRPC sessionToken err "Unable to authorize session token: "
                     "Invalid session token" in
      ret (inl resp)
  | inr sess =>
      let! errs := UpdateLastUsedTime sessionToken in
      match errs with
      | Some errs =>
          let! resp := lift (CreateInternalErrorResponse []
            ("Unable to update last used time of session with token " +:+ sessionToken +:+ ": " +:+ errs)) in
          ret (inl resp)
      | None => ret (inr sess)
      end
  end.

Definition Delete (req : RoleIDRequest) : IO asRPC :=
  let! sess := doSessionAuthAndUpdate (ri_SessionToken req) in
  match sess with
  | inl resp => ret resp
  | inr sess =>
      if negb (has_privilege sess PrivilegeConfigureUsers) then
        let em := "The session token doesn't have required privilege" in
        let! resp := lift (errorRPC StatusForbidden InsufficientPrivilege em []) in
        CustomAuthLog (ri_SessionToken req) em StatusForbidden ;;;
        ret resp
      else
        let! users := GetAllUsers in
        match users with
        | inl uerr => lift (CreateInternalErrorResponse [] ("Unable to get users list: " +:+ errMsg uerr))
        | inr users =>
            if existsb (fun user => String.eqb (ri_Id req) (u_RoleID user)) users then
              lift (errorRPC StatusForbidden ResourceInUse "Role is assigned to a user" [])
            else
              let! role := GetRoleDetailsByID (ri_Id req) in
              match role with
              | inl gerr =>
                  let errorMessage := "Unable to get role details: " +:+ errMsg gerr in
                  lift (if decide (ErrNo gerr = DBKeyNotFound) then
                          errorRPC StatusNotFound ResourceNotFound errorMessage
                            [IString "Role"; IString (ri_Id req)]
                        else CreateInternalErrorResponse [] errorMessage)
              | inr role =>
                  if r_IsPredefined role then
                    lift (errorRPC StatusForbidden InsufficientPrivilege
                            "A predefined role cannot be deleted." [])
                  else
                    let! derr := Role_Delete role in
                    match derr with
                    | Some derr =>
                        lift (CreateInternalErrorResponse [] ("Unable to delete role: " +:+ errMsg derr))
                    | None => ret (mkRPC StatusNoContent ResourceRemoved [] NoBody)
                    end
              end
        end
  end.

(** ** update.go *)

(** The fields of [Role] other than [exceptFields] that the request sets to another value.  A
    [bool] is never equal to [""], so [IsPredefined] is always compared. *)
Definition changed_fields (req data : Role) : list string :=
  (if negb (String.eqb (r_ID req) "") && negb (String.eqb (r_ID data) (r_ID req))
   then ["ID"] else []) ++
  (if negb (Bool.eqb (r_IsPredefined data) (r_IsPredefined req)) then ["IsPredefined"] else []).
Definition validateUpdateRequest (req data : Role) : string :=
  let field := changed_fields req data in
  if (length field <=? 0)%nat then ""
  else fold_left (fun errorMessage f => errorMessage +:+ f +:+ " ") field
         "error: user doesn't have privilege to edit this properties ".

(** The first privilege that occurs a second time; the map is the set of those seen. *)
Fixpoint duplicate_from (duplicate : gset string) (privileges : list string) : string * bool :=
  match privileges with
  | [] => ("", false)
  | privilege :: rest =>
      if decide (privilege ∈ duplicate) then (privilege, true)
      else duplicate_from ({[privilege]} ∪ duplicate) rest
  end.
Definition checkDuplicatePrivileges (privileges : list string) : string * bool :=
  duplicate_from ∅ privileges.
Definition isDuplicatePrivilegesPresent (updateReq : Role) : string * bool :=
  let (privilege, duplicatePresent) := checkDuplicatePrivileges (items (r_AssignedPrivileges updateReq)) in
  if duplicatePresent then (privilege, true)
  else
    let (privilege, duplicatePresent) := checkDuplicatePrivileges (items (r_OEMPrivileges updateReq)) in
    if duplicatePresent then (privilege, true) else ("", false).

Definition non_empty_or (new old : slice string) : slice string :=
  if negb (length (items new) =? 0)%nat then new else old.

(** The error of decoding the body is ignored. *)
Definition Update (req : UpdateRoleRequest) (session : Session) : IO asRPC :=
  let (updateReq, _) := Unmarshal Role_type (ur_UpdateRequest req) zeroRole in
  let! invalidProperties := lift (RequestParamsCaseValidator (ur_UpdateRequest req)
                                    (role_fields updateReq)) in
  if negb (String.eqb invalidProperties "") then
    lift (GeneralError StatusBadRequest PropertyUnknown bad_properties [IString invalidProperties])
  else
    let! redfishRoles := GetRedfishRoles in
    match redfishRoles with
    | inl gerr => lift (CreateInternalErrorResponse [] (errMsg gerr))
    | inr redfishRoles =>
        if is_redfish_role redfishRoles (ur_Id req) then
          lift (obind (CreateGenericErrorResponse
                 {| args_Code := GeneralErrorMsg;
                    args_Message := "Updating predefined role is restricted"; ErrorArgs := [] |})
            (fun e => Ok (mkRPC StatusMethodNotAllowed GeneralErrorMsg [] (ErrorBody e))))
        else
          match checkForPrivilege session PrivilegeConfigureUsers with
          | Some status => refuse session status "User does not have the privilege to update the role"
          | None =>
              let! role := GetRoleDetailsByID (ur_Id req) in
              match role with
              | inl gerr =>
                  lift (errorRPC StatusBadRequest ResourceNotFound (errMsg gerr)
                          [IString "Role"; IString (ur_Id req)])
              | inr role =>
                  let (privilege, duplicatePresent) := isDuplicatePrivilegesPresent updateReq in
                  if duplicatePresent then
                    let em := "Duplicate privileges can not be updated" in
                    lift (obind (CreateGenericErrorResponse
                           {| args_Code := GeneralErrorMsg; args_Message := em;
                              ErrorArgs := [{| ea_StatusMessage := PropertyValueConflict;
                                               ea_ErrorMessage := em;
                                               ea_MessageArgs := [IString privilege; IString privilege] |}] |})
                      (fun e => Ok (mkRPC StatusBadRequest PropertyValueConflict [] (ErrorBody e))))
                  else
                    let errorMessage := validateUpdateRequest updateReq role in
                    if negb (String.eqb errorMessage "") then
                      lift (errorRPC StatusForbidden InsufficientPrivilege errorMessage [])
                    else
                      let assigned := items (r_AssignedPrivileges updateReq) in
                      let oem := items (r_OEMPrivileges updateReq) in
                      if ((length assigned =? 0) && (length oem =? 0))%nat then
                        lift (errorRPC StatusBadRequest PropertyMissing "Mandatory field is empty"
                                [IString "AssignedPrivileges/OemPrivileges"])
                      else
                        let! bad := check_privileges validateAssignedPrivileges assigned in
                        match bad with
                        | Some resp => ret resp
                        | None =>
                            let! bad := check_privileges validateOEMPrivileges oem in
                            match bad with
                            | Some resp => ret resp
                            | None =>
                                let role := {| r_ID := r_ID role; r_IsPredefined := r_IsPredefined role;
                                  r_AssignedPrivileges :=
                                    non_empty_or (r_AssignedPrivileges updateReq) (r_AssignedPrivileges role);
                                  r_OEMPrivileges :=
                                    non_empty_or (r_OEMPrivileges updateReq) (r_OEMPrivileges role) |} in
                                let! uerr := UpdateRoleDetails role in
                                match uerr with
                                | Some uerr =>
                                    lift (CreateInternalErrorResponse []
                                            ("error while trying to updating role:" +:+ errMsg uerr))
                                | None => ret (mkRPC StatusOK Success [] (Body (RoleBody role)))
                                end
                            end
                        end
              end
          end
    end.

(** ** getroles.go *)

Definition GetRole (req : RoleIDRequest) (session : Session) : IO asRPC :=
  let commonResponse := mkResponse RoleType ("/redfish/v1/AccountService/Roles/" +:+ ri_Id req) ""
                          (ri_Id req) "User Role" in
  match checkForPrivilege session "ConfigureUsers" with
  | Some status => refuse session status "User does not have the privilege to get the role"
  | None =>
      let! role := GetRoleDetailsByID (ri_Id req) in
      match role with
      | inl err =>
          let errorMessage := "Error while getting the role : " +:+ errMsg err in
          lift (if decide (ErrNo err = DBKeyNotFound) then
                  errorRPC StatusNotFound ResourceNotFound errorMessage
                    [IString "Role"; IString (ri_Id req)]
                else CreateInternalErrorResponse [] errorMessage)
      | inr role =>
          let! commonResponse := lift (CreateGenericResponse commonResponse Success) in
          ret (mkRPC StatusOK Success []
                 (Body (UserRoleBody (blank_message commonResponse) (r_IsPredefined role)
                          (r_AssignedPrivileges role) (r_OEMPrivileges role))))
      end
  end.

Definition GetAllRoles (session : Session) : IO asRPC :=
  let commonResponse := mkResponse "#RoleCollection.RoleCollection"
    "/redfish/v1/AccountService/Roles" "" "" "Roles Collection" in
  match checkForPrivilege session "ConfigureUsers" with
  | Some status =>
      let errorMessage := "User does not have the privilege to get the roles" in
      CustomAuthLog (s_Token session) errorMessage status.1 ;;;
      lift (errorRPC status.1 status.2 errorMessage [])
  | None =>
      let! roles := AsModel.GetAllRoles in
      match roles with
      | inl rerr =>
          lift (GeneralError StatusServiceUnavailable CouldNotEstablishConnection (errMsg rerr)
                  [IString (db_uri OnDisk)])
      | inr roles =>
          let roleLinks := (fun role => "/redfish/v1/AccountService/Roles/" +:+ r_ID role) <$> roles in
          let! commonResponse := lift (CreateGenericResponse commonResponse Success) in
          ret (mkRPC StatusOK Success []
                 (Body (ListBody (blank_message commonResponse) (Z.of_nat (length roles)) roleLinks)))
      end
  end.
End Role.
