(* ===== verification/Rpc.v ===== *)
(** svc-account-session/rpc: the gRPC handlers of the service.

    The account and role handlers share the prologue [with_session]: the token must name a session
    that has not timed out, its last-used time is set, and only then the operation runs, with the
    session as it was read.  A response is the RPC record before its body is turned into JSON,
    which cannot fail for these bodies. *)
From stdpp Require Import base gmap list strings.
From S2P Require Import Prelude Go Response Redis World ConnPool AsModel Auth Session Account Role.
Open Scope string_scope.

Section Rpc.
Context `{Env, Libs, Config}.

Definition with_session (token : string) (operation : AsModel.Session -> IO asRPC) : IO asRPC :=
  let! sess := CheckSessionTimeOut token in
  match sess with
  | inl errs =>
      invalidTokenRPC token errs "error while authorizing session token: " "Invalid session token"
  | inr sess =>
      let! err := UpdateLastUsedTime token in
      match err with
      | Some err =>
          lift (errorRPC StatusInternalServerError InternalError
                  ("error while updating last used time of session with token " +:+ token +:+ ": " +:+ err)
                  [])
      | None => operation sess
      end
  end.

(** account.go *)
Definition Account_Create (req : CreateAccountRequest) : IO asRPC :=
  with_session (car_SessionToken req) (fun sess => let! (data, _) := Account.Create req sess in ret data).
Definition Account_GetAllAccounts (token : string) : IO asRPC :=
  with_session token (fun sess => GetAllAccounts sess).
Definition Account_GetAccount (req : AccountIDRequest) : IO asRPC :=
  with_session (air_SessionToken req) (fun sess => GetAccount sess (air_AccountID req)).
Definition Account_GetAccountServices (token : string) : IO asRPC :=
  with_session token (fun _ => GetAccountService).
Definition Account_Update (req : UpdateAccountRequest) : IO asRPC :=
  with_session (uar_SessionToken req) (fun sess => Account.Update req sess).
Definition Account_Delete (req : AccountIDRequest) : IO asRPC :=
  with_session (air_SessionToken req) (fun sess => Account.Delete sess (air_AccountID req)).

(** role.go *)
Definition Role_CreateRole (req : RoleRequest) : IO asRPC :=
  with_session (rr_SessionToken req) (fun sess => Role.Create req sess).
Definition Role_GetRole (req : RoleIDRequest) : IO asRPC :=
  with_session (ri_SessionToken req) (fun sess => GetRole req sess).
Definition Role_GetAllRoles (req : RoleIDRequest) : IO asRPC :=
  with_session (ri_SessionToken req) (fun sess => Role.GetAllRoles sess).
Definition Role_UpdateRole (req : UpdateRoleRequest) : IO asRPC :=
  with_session (ur_SessionToken req) (fun sess => Role.Update req sess).
Definition Role_DeleteRole (req : RoleIDRequest) : IO asRPC := Role.Delete req.

(** sessions.go *)
Definition Session_CreateSession (RequestBody : jtext) : IO (asRPC * string) :=
  CreateNewSession RequestBody.
Definition Session_DeleteSession (req : SessionRequest) : IO asRPC := DeleteSession req.
Definition Session_GetSession (req : SessionRequest) : IO asRPC := GetSessionRPC req.
Definition Session_GetSessionUserName (req : SessionRequest) : IO (string + string) :=
  GetSessionUserName req.
Definition Session_GetSessionUserRoleID (req : SessionRequest) : IO (string + string) :=
  GetSessionUserRoleID req.
Definition Session_GetAllActiveSessions (req : SessionRequest) : IO asRPC :=
  GetAllActiveSessions req.
Definition Session_GetSessionService (req : SessionRequest) : IO asRPC := GetSessionService req.

(** auth.go *)
Definition IsAuthorized (sessionToken : string) (privileges : list string) : IO (Z * string) :=
  Auth sessionToken privileges.
End Rpc.
