(* ===== verification/AsSpec.v ===== *)
(** What the functions of [AsModel] promise the handlers: each reads or writes one record of a
    table.  A record is looked up in the view of a database by [stored]; the postconditions are
    those of the persistence manager, carried through opening the connection and through the
    wrapping of errors, which keeps their numbers. *)
From stdpp Require Import base gmap list strings.
From S2P Require Import Prelude Go Response Redis World ConnPool DBSpec AsModel.
Open Scope string_scope.

(** The record a store holds under a key, if the document there decodes to one. *)
Definition stored {A} (st : struct_type A) (zero : A) (m : gmap string jtext) (k : string)
  : option A :=
  match m !! k with
  | Some t => match Unmarshal st t zero with (a, None) => Some a | _ => None end
  | None => None
  end.

Definition session_key (token : string) := saveID "session" token.
Definition user_key (name : string) := saveID "User" name.
Definition role_key (id : string) := saveID "role" id.

Section asspec.
Context `{EnvLaws, SingleNode}.
Implicit Types (w : World).

Definition session_of w (token : string) : option Session :=
  stored Session_type zeroSession (view w InMemory) (session_key token).
Definition user_of w (name : string) : option User :=
  stored User_type zeroUser (view w OnDisk) (user_key name).
Definition role_of w (id : string) : option Role :=
  stored Role_type zeroRole (view w OnDisk) (role_key id).

(** Reading one record: it is there, or the key is free, or its document does not decode, or a
    command failed. *)
Definition fetch_post {A} (st : struct_type A) (zero : A) w db k (o : outcome (result A)) : Prop :=
  match o with
  | Ok (inr a) => stored st zero (view w db) k = Some a
  | Ok (inl e) =>
      (ErrNo e = DBKeyNotFound /\ view w db !! k = None) \/
      (ErrNo e = UndefinedErrorType /\ view w db !! k <> None /\
       stored st zero (view w db) k = None) \/
      (ErrNo e <> DBKeyNotFound /\ ~ healthy w)
  | Panic => False
  end.

Lemma decode_stored {A} (st : struct_type A) zero pre t m k :
  m !! k = Some t ->
  match decode st zero pre t with
  | inl e => ErrNo e = UndefinedErrorType /\ stored st zero m k = None
  | inr a => stored st zero m k = Some a
  end.
Proof.
  intros Hk. unfold decode, stored. rewrite Hk. by destruct (Unmarshal st t zero) as [a [e|]].
Qed.

Lemma wp_fetch {A} (st : struct_type A) zero pre msg db t k w : wf w ->
  wp (GetDBConnection db ;;;
      let! r := Read db t k in
      match r with
      | inl e => ret (inl (wrap msg e))
      | inr x => ret (decode st zero pre x)
      end)
     (fun o w' => ro w w' /\ fetch_post st zero w db (saveID t k) o) w.
Proof.
  intros Hwf. wp_call wp_GetDBConnection; [done|]. intros o w1 (-> & Hro & Hrd). wp_go.
  eapply wp_mono; [apply wp_Read; [apply Hro|done]|].
  intros [[e|x]|] w2 [Hro' Hp]; [| |done]; wp_go; (split; [by eapply ro_trans|]); simpl in *;
    rewrite !(ro_view _ _ db Hro) in Hp.
  - destruct Hp as [Hp|[Hn Hh]]; [by left|]. do 2 right. split; [done|]. by eapply unhealthy_ro.
  - pose proof (decode_stored st zero pre x _ _ Hp) as Hd. rewrite Hp.
    destruct (decode st zero pre x); [|done]. right; left. by destruct Hd.
Qed.

Lemma wp_GetSession token w : wf w ->
  wp (GetSession token)
     (fun o w' => ro w w' /\ fetch_post Session_type zeroSession w InMemory (session_key token) o) w.
Proof. apply wp_fetch. Qed.
Lemma wp_GetUserDetails name w : wf w ->
  wp (GetUserDetails name)
     (fun o w' => ro w w' /\ fetch_post User_type zeroUser w OnDisk (user_key name) o) w.
Proof. apply wp_fetch. Qed.
Lemma wp_GetRoleDetailsByID id w : wf w ->
  wp (GetRoleDetailsByID id)
     (fun o w' => ro w w' /\ fetch_post Role_type zeroRole w OnDisk (role_key id) o) w.
Proof. apply wp_fetch. Qed.
Lemma wp_get_list t k n msg w : wf w ->
  wp (get_list t k n msg)
     (fun o w' => ro w w' /\ fetch_post (list_type n) None w OnDisk (saveID t k) o) w.
Proof. apply wp_fetch. Qed.

(** ** Writing one record *)

Lemma absent_ro w w1 db k : ro w w1 -> absent w1 db k <-> absent w db k.
Proof. intros Hr. by rewrite (ro_same _ _ Hr). Qed.

Lemma create_post_ro w w1 db k v o w' : ro w w1 ->
  create_post w1 db k v o w' -> create_post w db k v o w'.
Proof.
  intros Hr. destruct o as [[e|]|]; simpl; [| |done].
  - rewrite (absent_ro _ _ _ _ Hr). intros [(? & ? & ?)|(? & ? & ?)]; [left|right];
      eauto using ro_trans with world.
  - rewrite (absent_ro _ _ _ _ Hr). intros [? [?|?]]; split; eauto with world.
Qed.

Lemma delete_post_ro w w1 db k o w' : ro w w1 ->
  delete_post w1 db k o w' -> delete_post w db k o w'.
Proof.
  intros Hr. destruct o as [[e|]|]; simpl; [| |done]; rewrite (ro_view _ _ db Hr).
  - intros [(? & ? & ?)|(? & ? & ?)]; [left|right];
      eauto using ro_trans with world.
  - intros [? ?]; eauto with world.
Qed.

(** An update, its result dropped. *)
Definition put_post w db k v (o : outcome (option Err)) w' : Prop :=
  match o with
  | Ok None => written w db (insert k v) w' /\ is_Some (view w db !! k)
  | Ok (Some e) =>
      (ErrNo e = DBKeyNotFound /\ ro w w' /\ view w db !! k = None) \/
      (ErrNo e <> DBKeyNotFound /\ ~ healthy w /\ maybe_written w db (insert k v) w')
  | Panic => False
  end.

Lemma put_of_update w w1 db k v (f : Err -> Err) r w' : ro w w1 ->
  (forall e, ErrNo (f e) = ErrNo e) ->
  update_post w1 db k v (Ok r) w' ->
  put_post w db k v (Ok (match r with inl e => Some (f e) | inr _ => None end)) w'.
Proof.
  intros Hr Hf. destruct r as [e|s]; simpl; rewrite (ro_view _ _ db Hr).
  - rewrite Hf. intros [(? & ? & ?)|(? & ? & ?)]; [left|right];
      eauto using ro_trans with world.
  - intros (_ & ? & ?); eauto with world.
Qed.

Lemma wp_create_wrapped db t k d msg w : wf w ->
  wp (GetDBConnection db ;;; let! r := Create db t k d in ret (wrap msg <$> r))
     (create_post w db (saveID t k) (Text d)) w.
Proof.
  intros Hwf. wp_call wp_GetDBConnection; [done|]. intros o w1 (-> & Hro & Hrd). wp_go.
  eapply wp_mono; [apply wp_Create; [apply Hro|done]|].
  intros [r|] w2 Hp; [|done]. apply (create_post_ro _ _ _ _ _ _ _ Hro) in Hp. wp_go.
  by destruct r.
Qed.
Lemma wp_update_wrapped db t k d (f : Err -> Err) w : wf w -> (forall e, ErrNo (f e) = ErrNo e) ->
  wp (GetDBConnection db ;;; let! r := Update db t k d in
      match r with inl e => ret (Some (f e)) | inr _ => ret None end)
     (put_post w db (saveID t k) (Text d)) w.
Proof.
  intros Hwf Hf. wp_call wp_GetDBConnection; [done|]. intros o w1 (-> & Hro & Hrd). wp_go.
  eapply wp_mono; [apply wp_Update; [apply Hro|done]|].
  intros [r|] w2 Hp; [|done]. apply (put_of_update _ _ _ _ _ _ _ _ Hro Hf) in Hp. wp_go.
  by destruct r; wp_go.
Qed.
Lemma wp_delete_wrapped db t k (f : option Err -> option Err) w : wf w ->
  (forall r w', delete_post w db (saveID t k) (Ok r) w' -> delete_post w db (saveID t k) (Ok (f r)) w') ->
  wp (GetDBConnection db ;;; let! r := Delete db t k in ret (f r))
     (delete_post w db (saveID t k)) w.
Proof.
  intros Hwf Hf. wp_call wp_GetDBConnection; [done|]. intros o w1 (-> & Hro & Hrd). wp_go.
  eapply wp_mono; [apply wp_Delete; [apply Hro|done]|].
  intros [r|] w2 Hp; [|done]. apply (delete_post_ro _ _ _ _ _ _ Hro) in Hp. wp_go. by apply Hf.
Qed.
Lemma wp_bind_ret {S A} (m : M S A) Q s : wp (let! x := m in ret x) Q s -> wp m Q s.
Proof. unfold wp, bind, ret. by destruct (m s) as [[a|] s']. Qed.

Lemma wp_CreateUser u w : wf w ->
  wp (CreateUser u) (create_post w OnDisk (user_key (u_UserName u)) (Text (marshal_User u))) w.
Proof.
  intros Hwf. unfold CreateUser. wp_call wp_GetDBConnection; [done|].
  intros o w1 (-> & Hro & Hrd). wp_go.
  eapply wp_mono; [apply wp_Create; [apply Hro|done]|].
  intros o w2 Hp. by eapply create_post_ro.
Qed.
Lemma wp_DeleteUser name w : wf w ->
  wp (DeleteUser name) (delete_post w OnDisk (user_key name)) w.
Proof.
  intros Hwf. unfold DeleteUser. wp_call wp_GetDBConnection; [done|].
  intros o w1 (-> & Hro & Hrd). wp_go.
  eapply wp_mono; [apply wp_Delete; [apply Hro|done]|].
  intros o w2 Hp. by eapply delete_post_ro.
Qed.
Lemma wp_UpdateUserDetails u d w : wf w ->
  wp (UpdateUserDetails u d)
     (put_post w OnDisk (user_key (u_UserName u)) (Text (marshal_User (merge_user u d)))) w.
Proof. intros Hwf. by apply (wp_update_wrapped _ _ _ _ id). Qed.

Lemma wp_Session_Persist s w : wf w ->
  wp (Session_Persist s)
     (create_post w InMemory (session_key (s_Token s)) (Text (marshal_Session s))) w.
Proof. apply wp_create_wrapped. Qed.
Lemma wp_Session_Update s w : wf w ->
  wp (Session_Update s)
     (put_post w InMemory (session_key (s_Token s)) (Text (marshal_Session s))) w.
Proof. intros Hwf. by apply wp_update_wrapped. Qed.
Lemma wp_Session_Delete s w : wf w ->
  wp (Session_Delete s) (delete_post w InMemory (session_key (s_Token s))) w.
Proof. intros Hwf. apply wp_delete_wrapped; [done|]. by intros [e|] w'. Qed.

Lemma wp_Role_Create r w : wf w ->
  wp (Role_Create r) (create_post w OnDisk (role_key (r_ID r)) (Text (marshal_Role r))) w.
Proof. apply wp_create_wrapped. Qed.
Lemma wp_UpdateRoleDetails r w : wf w ->
  wp (UpdateRoleDetails r) (put_post w OnDisk (role_key (r_ID r)) (Text (marshal_Role r))) w.
Proof. intros Hwf. by apply (wp_update_wrapped _ _ _ _ id). Qed.
Lemma wp_Role_Delete r w : wf w ->
  wp (Role_Delete r) (delete_post w OnDisk (role_key (r_ID r))) w.
Proof.
  intros Hwf. unfold Role_Delete. wp_call wp_GetDBConnection; [done|].
  intros o w1 (-> & Hro & Hrd). wp_go.
  eapply wp_mono; [apply wp_Delete; [apply Hro|done]|].
  intros o w2 Hp. by eapply delete_post_ro.
Qed.

(** ** Listing a table *)

(** [ids] are the keys of a table. *)
Definition table_ids w db t (ids : list string) : Prop :=
  NoDup ids /\ forall id, id ∈ ids <-> is_Some (view w db !! saveID t id).

Lemma wp_GetAllSessionKeys w : wf w ->
  wp GetAllSessionKeys
     (fun o w' => ro w w' /\ match o with
                             | Ok (inr ids) => table_ids w InMemory "session" ids
                             | Ok (inl e) => ~ healthy w
                             | Panic => False
                             end) w.
Proof.
  intros Hwf. unfold GetAllSessionKeys. wp_call wp_GetDBConnection; [done|].
  intros o w1 (-> & Hro & Hrd). wp_go.
  eapply wp_mono; [apply wp_GetAllDetails; [apply Hro|done|done]|].
  intros [[e|ids]|] w2 [Hro' Hp]; [| |done]; (split; [by eapply ro_trans|]); simpl in Hp.
  - by eapply unhealthy_ro.
  - destruct Hp as [Hnd Hp]. split; [done|]. intros id. by rewrite Hp, (ro_view _ _ _ Hro).
Qed.

(** Every record of a table, in the order of its keys. *)
Definition all_post {A} (st : struct_type A) (zero : A) w db t (o : outcome (result (list A))) : Prop :=
  match o with
  | Ok (inr l) => exists ids, table_ids w db t ids /\
      Forall2 (fun id a => stored st zero (view w db) (saveID t id) = Some a) ids l
  | Ok (inl e) => ~ healthy w \/
      exists id, is_Some (view w db !! saveID t id) /\ stored st zero (view w db) (saveID t id) = None
  | Panic => False
  end.

Lemma wp_fetch_all {A} (st : struct_type A) zero db t w : wf w -> no_glob (t +:+ ":") = true ->
  wp (GetDBConnection db ;;;
      let! keys := GetAllDetails db t in
      match keys with
      | inl e => ret (inl e)
      | inr keys =>
          loopM keys [] (fun l key =>
            let! data := Read db t key in
            match data with
            | inl e => ret (inl e)
            | inr x =>
                match decode st zero [] x with
                | inl e => ret (inl e)
                | inr a => ret (inr (l ++ [a])%list)
                end
            end)
      end)
     (fun o w' => ro w w' /\ all_post st zero w db t o) w.
Proof.
  intros Hwf Hg. wp_call wp_GetDBConnection; [done|]. intros o w1 (-> & Hro & Hrd). wp_go.
  eapply wp_mono; [apply wp_GetAllDetails; [apply Hro|done|done]|].
  intros [[e|ids]|] w2 [Hro' Hp]; [| |done]; simpl in Hp.
  { wp_go. split; [by eapply ro_trans|]. left. by eapply unhealthy_ro. }
  assert (Hro2 : ro w w2) by (by eapply ro_trans). wp_go.
  destruct Hp as [Hnd Hids].
  assert (Hids' : table_ids w db t ids).
  { split; [done|]. intros id. by rewrite Hids, (ro_view _ _ _ Hro). }
  eapply (wp_loopM (fun done l w' => ro w w' /\ ready db w' /\
    Forall2 (fun id a => stored st zero (view w db) (saveID t id) = Some a) done l)).
  - split_and!; [done|by apply Hro'|constructor].
  - intros pre id l w3 [post ->] (Hro3 & Hrd3 & Hl). apply wp_bind.
    eapply wp_mono; [apply wp_Read; [apply Hro3|done]|].
    intros [[e|x]|] w4 [Hro4 Hp]; [| |done]; simpl in Hp; wp_go.
    + split; [by eapply ro_trans|]. destruct Hp as [[_ Hp]|[_ Hp]].
      * exfalso. destruct Hids' as [_ Hids']. rewrite (ro_view _ _ _ Hro3) in Hp.
        destruct (proj1 (Hids' id)) as [y Hy]; [|congruence].
        rewrite elem_of_app, elem_of_cons. auto.
      * left. by eapply unhealthy_ro.
    + rewrite (ro_view _ _ _ Hro3) in Hp.
      pose proof (decode_stored st zero [] x _ _ Hp) as Hd.
      destruct (decode st zero [] x) as [e|a]; wp_go.
      * split; [by eapply ro_trans|]. right. exists id. rewrite Hp. split; [by eexists|apply Hd].
      * split_and!; [by eapply ro_trans|by apply Hro4|apply Forall2_app; [done|by repeat constructor]].
  - intros l w3 (Hro3 & _ & Hl). split; [done|]. exists ids. by split.
Qed.

Lemma wp_GetAllUsers w : wf w ->
  wp GetAllUsers (fun o w' => ro w w' /\ all_post User_type zeroUser w OnDisk "User" o) w.
Proof. intros Hwf. by apply wp_fetch_all. Qed.
Lemma wp_GetAllRoles w : wf w ->
  wp GetAllRoles (fun o w' => ro w w' /\ all_post Role_type zeroRole w OnDisk "role" o) w.
Proof. intros Hwf. by apply wp_fetch_all. Qed.
#[export] Instance session_of_proper : Proper (same_data ==> eq ==> eq) session_of.
Proof. intros w w' Hs tok ? <-. unfold session_of. by rewrite Hs. Qed.
#[export] Instance user_of_proper : Proper (same_data ==> eq ==> eq) user_of.
Proof. intros w w' Hs name ? <-. unfold user_of. by rewrite Hs. Qed.
#[export] Instance role_of_proper : Proper (same_data ==> eq ==> eq) role_of.
Proof. intros w w' Hs id ? <-. unfold role_of. by rewrite Hs. Qed.
Lemma session_of_ro w w' tok : ro w w' -> session_of w' tok = session_of w tok.
Proof. intros Hr. by rewrite (ro_same _ _ Hr). Qed.
Lemma user_of_ro w w' name : ro w w' -> user_of w' name = user_of w name.
Proof. intros Hr. by rewrite (ro_same _ _ Hr). Qed.
Lemma role_of_ro w w' id : ro w w' -> role_of w' id = role_of w id.
Proof. intros Hr. by rewrite (ro_same _ _ Hr). Qed.

(** ** Well-typed databases *)

Lemma stored_Some {A} (st : struct_type A) zero m k a : stored st zero m k = Some a -> is_Some (m !! k).
Proof. unfold stored. destruct (m !! k); [by eexists|done]. Qed.
Lemma stored_insert {A} (st : struct_type A) zero m k j a :
  Unmarshal st (Text j) zero = (a, None) -> stored st zero (<[k := Text j]> m) k = Some a.
Proof. intros Hu. unfold stored. by rewrite lookup_insert_eq, Hu. Qed.
Lemma stored_insert_ne {A} (st : struct_type A) zero m k k' v :
  k <> k' -> stored st zero (<[k' := v]> m) k = stored st zero m k.
Proof. intros Hne. unfold stored. by rewrite lookup_insert_ne. Qed.
Lemma stored_delete_ne {A} (st : struct_type A) zero m k k' :
  k <> k' -> stored st zero (delete k' m) k = stored st zero m k.
Proof. intros Hne. unfold stored. by rewrite lookup_delete_ne. Qed.

(** Every document of a table decodes, and its record is stored under its own name. *)
Definition tab_typed {A} (t : string) (st : struct_type A) (zero : A) (name : A -> string)
    (m : gmap string jtext) : Prop :=
  forall k, is_Some (m !! saveID t k) ->
    exists a, stored st zero m (saveID t k) = Some a /\ name a = k.

Section tab.
Context {A : Type} (t : string) (st : struct_type A) (zero : A) (name : A -> string).
Implicit Types (m : gmap string jtext).

Lemma tab_typed_empty : tab_typed t st zero name ∅.
Proof. intros k [v Hv]. by rewrite lookup_empty in Hv. Qed.
Lemma tab_typed_insert m j a : Unmarshal st (Text j) zero = (a, None) ->
  tab_typed t st zero name m -> tab_typed t st zero name (<[saveID t (name a) := Text j]> m).
Proof.
  intros Hu Hm k Hk. destruct (decide (k = name a)) as [->|Hne].
  - exists a. split; [by apply stored_insert|done].
  - assert (Hs : saveID t k <> saveID t (name a)) by (intros E; by apply Hne, (saveID_inj t)).
    rewrite stored_insert_ne by done. rewrite lookup_insert_ne in Hk by done. by apply Hm.
Qed.
Lemma tab_typed_insert_other m k' v : (forall k, saveID t k <> k') ->
  tab_typed t st zero name m -> tab_typed t st zero name (<[k' := v]> m).
Proof.
  intros Hk' Hm k Hk. rewrite stored_insert_ne by done. rewrite lookup_insert_ne in Hk by done.
  by apply Hm.
Qed.
Lemma tab_typed_delete m k' : tab_typed t st zero name m -> tab_typed t st zero name (delete k' m).
Proof.
  intros Hm k Hk. destruct (decide (saveID t k = k')) as [<-|Hne].
  - rewrite lookup_delete_eq in Hk. by destruct Hk.
  - rewrite stored_delete_ne by done. rewrite lookup_delete_ne in Hk by done. by apply Hm.
Qed.
End tab.

Record typed w : Prop := {
  ty_session : tab_typed "session" Session_type zeroSession s_Token (view w InMemory);
  ty_user : tab_typed "User" User_type zeroUser u_UserName (view w OnDisk);
  ty_role : tab_typed "role" Role_type zeroRole r_ID (view w OnDisk);
}.

Lemma typed_token w tok s : typed w -> session_of w tok = Some s -> s_Token s = tok.
Proof.
  intros Hty Hs. destruct (ty_session _ Hty tok) as (s' & Hs' & Ht); [by eapply stored_Some|].
  unfold session_of, session_key in Hs. congruence.
Qed.
Lemma typed_user w name u : typed w -> user_of w name = Some u -> u_UserName u = name.
Proof.
  intros Hty Hs. destruct (ty_user _ Hty name) as (s' & Hs' & Ht); [by eapply stored_Some|].
  unfold user_of, user_key in Hs. congruence.
Qed.
Lemma typed_role w id r : typed w -> role_of w id = Some r -> r_ID r = id.
Proof.
  intros Hty Hs. destruct (ty_role _ Hty id) as (s' & Hs' & Ht); [by eapply stored_Some|].
  unfold role_of, role_key in Hs. congruence.
Qed.

Lemma user_key_not_role n id : user_key n <> role_key id.
Proof. unfold user_key, role_key, saveID. by intros [=]. Qed.

(** The writes of the service keep the databases well typed, carried out or not. *)
#[export] Instance typed_proper : Proper (same_data ==> iff) typed.
Proof.
  intros w w' Hs. split; intros [a1 a2 a3]; split;
    first [by rewrite <- Hs|by rewrite Hs].
Qed.
Lemma typed_ro w w' : ro w w' -> typed w -> typed w'.
Proof. intros Hr. by rewrite (ro_same _ _ Hr). Qed.
Lemma typed_put_session w s w' : typed w ->
  maybe_written w InMemory (insert (session_key (s_Token s)) (Text (marshal_Session s))) w' -> typed w'.
Proof.
  intros Hty [Hr|Hw]; [by eapply typed_ro|]. destruct Hty as [a1 a2 a3].
  split; rewrite (ev_view _ _ _ Hw), ?upd_eq, ?upd_ne by done; [|done|done].
  apply tab_typed_insert; [apply Session_roundtrip|done].
Qed.
Lemma typed_put_user w u w' : typed w ->
  maybe_written w OnDisk (insert (user_key (u_UserName u)) (Text (marshal_User u))) w' -> typed w'.
Proof.
  intros Hty [Hr|Hw]; [by eapply typed_ro|]. destruct Hty as [a1 a2 a3].
  split; rewrite (ev_view _ _ _ Hw), ?upd_eq, ?upd_ne by done; [done| |].
  - apply tab_typed_insert; [apply User_roundtrip|done].
  - apply tab_typed_insert_other; [|done]. intros k E. by apply (user_key_not_role (u_UserName u) k).
Qed.
Lemma typed_put_role w r w' : typed w ->
  maybe_written w OnDisk (insert (role_key (r_ID r)) (Text (marshal_Role r))) w' -> typed w'.
Proof.
  intros Hty [Hr|Hw]; [by eapply typed_ro|]. destruct Hty as [a1 a2 a3].
  split; rewrite (ev_view _ _ _ Hw), ?upd_eq, ?upd_ne by done; [done| |].
  - apply tab_typed_insert_other; [|done]. intros k E. by apply (user_key_not_role k (r_ID r)).
  - apply tab_typed_insert; [apply Role_roundtrip|done].
Qed.
Lemma typed_delete w db k w' : typed w -> maybe_written w db (delete k) w' -> typed w'.
Proof.
  intros Hty [Hr|Hw]; [by eapply typed_ro|]. destruct Hty as [a1 a2 a3].
  destruct db; split; rewrite (ev_view _ _ _ Hw), ?upd_eq, ?upd_ne by done;
    try done; by apply tab_typed_delete.
Qed.

Lemma create_maybe w db k v o w' : create_post w db k v o w' -> maybe_written w db (insert k v) w'.
Proof.
  destruct o as [[e|]|]; simpl; [|intros [? _]; by right|done].
  intros [(_ & ? & _)|(_ & _ & ?)]; [by left|done].
Qed.
Lemma put_maybe w db k v o w' : put_post w db k v o w' -> maybe_written w db (insert k v) w'.
Proof.
  destruct o as [[e|]|]; simpl; [|intros [? _]; by right|done].
  intros [(_ & ? & _)|(_ & _ & ?)]; [by left|done].
Qed.
Lemma delete_maybe w db k o w' : delete_post w db k o w' -> maybe_written w db (delete k) w'.
Proof.
  destruct o as [[e|]|]; simpl; [|intros [? _]; by right|done].
  intros [(_ & ? & _)|(_ & _ & ?)]; [by left|done].
Qed.
End asspec.
