(* ===== verification/TModel.v ===== *)
(** svc-task/tmodel: the task record with its JSON document, and the functions that read and write
    tasks and the index of the completed ones. *)
From stdpp Require Import base gmap list strings.
From Stdlib Require Import Ascii.
From S2P Require Import Prelude Go GoTime GoCodec Response Redis World ConnPool RedisIndex Index.
Open Scope string_scope.

(** ** Records and their JSON documents *)

Definition CompletedTaskIndex := "CompletedTaskIndex".

Record Payload := mkPayload {
  p_HTTPHeaders : option (gmap string string);
  p_HTTPOperation : string;
  p_JSONBody : string;
  p_TargetURI : string;
}.
Definition zeroPayload : Payload := mkPayload None "" "" "".
Definition Payload_type : struct_type Payload := {|
  st_name := "Payload";
  st_fields :=
    [("HttpHeaders", on p_HTTPHeaders (fun x p => mkPayload x (p_HTTPOperation p) (p_JSONBody p) (p_TargetURI p)) dec_string_map);
     ("HttpOperation", on p_HTTPOperation (fun x p => mkPayload (p_HTTPHeaders p) x (p_JSONBody p) (p_TargetURI p)) dec_string);
     ("JsonBody", on p_JSONBody (fun x p => mkPayload (p_HTTPHeaders p) (p_HTTPOperation p) x (p_TargetURI p)) dec_string);
     ("TargetUri", on p_TargetURI (fun x p => mkPayload (p_HTTPHeaders p) (p_HTTPOperation p) (p_JSONBody p) x) dec_string)] |}.
Definition marshal_Payload (p : Payload) : json :=
  JObj [("HttpHeaders", enc_string_map (p_HTTPHeaders p)); ("HttpOperation", JStr (p_HTTPOperation p));
        ("JsonBody", JStr (p_JSONBody p)); ("TargetUri", JStr (p_TargetURI p))].

(** Message; its Oem is a struct without fields. *)
Record TaskMessage := mkTaskMessage {
  mg_Message : string;
  mg_MessageID : string;
  mg_MessageArgs : slice string;
  mg_RelatedProperties : slice string;
  mg_Resolution : string;
  mg_Severity : string;
}.
Definition zeroMessage : TaskMessage := mkTaskMessage "" "" None None "" "".
Definition dec_oem : field_decoder unit := dec_struct "tmodel." "Messages.Oem." {| st_name := "Oem"; st_fields := [] |}.
Definition Message_type : struct_type TaskMessage := {|
  st_name := "Message";
  st_fields :=
    [("Message", on mg_Message (fun x m => mkTaskMessage x (mg_MessageID m) (mg_MessageArgs m) (mg_RelatedProperties m) (mg_Resolution m) (mg_Severity m)) dec_string);
     ("MessageId", on mg_MessageID (fun x m => mkTaskMessage (mg_Message m) x (mg_MessageArgs m) (mg_RelatedProperties m) (mg_Resolution m) (mg_Severity m)) dec_string);
     ("MessageArgs", on mg_MessageArgs (fun x m => mkTaskMessage (mg_Message m) (mg_MessageID m) x (mg_RelatedProperties m) (mg_Resolution m) (mg_Severity m)) dec_strings);
     ("Oem", on (fun _ => tt) (fun _ m => m) dec_oem);
     ("RelatedProperties", on mg_RelatedProperties (fun x m => mkTaskMessage (mg_Message m) (mg_MessageID m) (mg_MessageArgs m) x (mg_Resolution m) (mg_Severity m)) dec_strings);
     ("Resolution", on mg_Resolution (fun x m => mkTaskMessage (mg_Message m) (mg_MessageID m) (mg_MessageArgs m) (mg_RelatedProperties m) x (mg_Severity m)) dec_string);
     ("Severity", on mg_Severity (fun x m => mkTaskMessage (mg_Message m) (mg_MessageID m) (mg_MessageArgs m) (mg_RelatedProperties m) (mg_Resolution m) x) dec_string)] |}.
Definition marshal_Message (m : TaskMessage) : json :=
  JObj [("Message", JStr (mg_Message m)); ("MessageId", JStr (mg_MessageID m));
        ("MessageArgs", enc_strings (mg_MessageArgs m)); ("Oem", JObj []);
        ("RelatedProperties", enc_strings (mg_RelatedProperties m)); ("Resolution", JStr (mg_Resolution m));
        ("Severity", JStr (mg_Severity m))].
Definition dec_messages : field_decoder (slice (option TaskMessage)) :=
  dec_pointer_slice "tmodel.Message" (dec_struct "tmodel." "Messages." Message_type) zeroMessage.

(** Task.  The numbers are int32, and instants are nanoseconds. *)
Record Task := mkTask {
  t_ParentID : string;
  t_ChildTaskIDs : slice string;
  t_ID : string;
  t_URI : string;
  t_UserName : string;
  t_Name : string;
  t_HidePayload : bool;
  t_Payload : Payload;
  t_PercentComplete : Z;
  t_TaskMonitor : string;
  t_TaskState : string;
  t_TaskStatus : string;
  t_StatusCode : Z;
  t_TaskResponse : option string;
  t_Messages : slice (option TaskMessage);
  t_StartTime : Z;
  t_EndTime : Z;
}.
Definition zeroTask : Task :=
  mkTask "" None "" "" "" "" false zeroPayload 0 "" "" "" 0 None None zero_time zero_time.
Definition set_ParentID x (t : Task) : Task := mkTask x (t_ChildTaskIDs t) (t_ID t) (t_URI t)
  (t_UserName t) (t_Name t) (t_HidePayload t) (t_Payload t) (t_PercentComplete t) (t_TaskMonitor t)
  (t_TaskState t) (t_TaskStatus t) (t_StatusCode t) (t_TaskResponse t) (t_Messages t) (t_StartTime
  t) (t_EndTime t).
Definition set_ChildTaskIDs x (t : Task) : Task := mkTask (t_ParentID t) x (t_ID t) (t_URI t)
  (t_UserName t) (t_Name t) (t_HidePayload t) (t_Payload t) (t_PercentComplete t) (t_TaskMonitor t)
  (t_TaskState t) (t_TaskStatus t) (t_StatusCode t) (t_TaskResponse t) (t_Messages t) (t_StartTime
  t) (t_EndTime t).
Definition set_ID x (t : Task) : Task := mkTask (t_ParentID t) (t_ChildTaskIDs t) x (t_URI t)
  (t_UserName t) (t_Name t) (t_HidePayload t) (t_Payload t) (t_PercentComplete t) (t_TaskMonitor t)
  (t_TaskState t) (t_TaskStatus t) (t_StatusCode t) (t_TaskResponse t) (t_Messages t) (t_StartTime
  t) (t_EndTime t).
Definition set_URI x (t : Task) : Task := mkTask (t_ParentID t) (t_ChildTaskIDs t) (t_ID t) x
  (t_UserName t) (t_Name t) (t_HidePayload t) (t_Payload t) (t_PercentComplete t) (t_TaskMonitor t)
  (t_TaskState t) (t_TaskStatus t) (t_StatusCode t) (t_TaskResponse t) (t_Messages t) (t_StartTime
  t) (t_EndTime t).
Definition set_UserName x (t : Task) : Task := mkTask (t_ParentID t) (t_ChildTaskIDs t) (t_ID t)
  (t_URI t) x (t_Name t) (t_HidePayload t) (t_Payload t) (t_PercentComplete t) (t_TaskMonitor t)
  (t_TaskState t) (t_TaskStatus t) (t_StatusCode t) (t_TaskResponse t) (t_Messages t) (t_StartTime
  t) (t_EndTime t).
Definition set_Name x (t : Task) : Task := mkTask (t_ParentID t) (t_ChildTaskIDs t) (t_ID t) (t_URI
  t) (t_UserName t) x (t_HidePayload t) (t_Payload t) (t_PercentComplete t) (t_TaskMonitor t)
  (t_TaskState t) (t_TaskStatus t) (t_StatusCode t) (t_TaskResponse t) (t_Messages t) (t_StartTime
  t) (t_EndTime t).
Definition set_HidePayload x (t : Task) : Task := mkTask (t_ParentID t) (t_ChildTaskIDs t) (t_ID t)
  (t_URI t) (t_UserName t) (t_Name t) x (t_Payload t) (t_PercentComplete t) (t_TaskMonitor t)
  (t_TaskState t) (t_TaskStatus t) (t_StatusCode t) (t_TaskResponse t) (t_Messages t) (t_StartTime
  t) (t_EndTime t).
Definition set_Payload x (t : Task) : Task := mkTask (t_ParentID t) (t_ChildTaskIDs t) (t_ID t)
  (t_URI t) (t_UserName t) (t_Name t) (t_HidePayload t) x (t_PercentComplete t) (t_TaskMonitor t)
  (t_TaskState t) (t_TaskStatus t) (t_StatusCode t) (t_TaskResponse t) (t_Messages t) (t_StartTime
  t) (t_EndTime t).
Definition set_PercentComplete x (t : Task) : Task := mkTask (t_ParentID t) (t_ChildTaskIDs t) (t_ID
  t) (t_URI t) (t_UserName t) (t_Name t) (t_HidePayload t) (t_Payload t) x (t_TaskMonitor t)
  (t_TaskState t) (t_TaskStatus t) (t_StatusCode t) (t_TaskResponse t) (t_Messages t) (t_StartTime
  t) (t_EndTime t).
Definition set_TaskMonitor x (t : Task) : Task := mkTask (t_ParentID t) (t_ChildTaskIDs t) (t_ID t)
  (t_URI t) (t_UserName t) (t_Name t) (t_HidePayload t) (t_Payload t) (t_PercentComplete t) x
  (t_TaskState t) (t_TaskStatus t) (t_StatusCode t) (t_TaskResponse t) (t_Messages t) (t_StartTime
  t) (t_EndTime t).
Definition set_TaskState x (t : Task) : Task := mkTask (t_ParentID t) (t_ChildTaskIDs t) (t_ID t)
  (t_URI t) (t_UserName t) (t_Name t) (t_HidePayload t) (t_Payload t) (t_PercentComplete t)
  (t_TaskMonitor t) x (t_TaskStatus t) (t_StatusCode t) (t_TaskResponse t) (t_Messages t)
  (t_StartTime t) (t_EndTime t).
Definition set_TaskStatus x (t : Task) : Task := mkTask (t_ParentID t) (t_ChildTaskIDs t) (t_ID t)
  (t_URI t) (t_UserName t) (t_Name t) (t_HidePayload t) (t_Payload t) (t_PercentComplete t)
  (t_TaskMonitor t) (t_TaskState t) x (t_StatusCode t) (t_TaskResponse t) (t_Messages t)
  (t_StartTime t) (t_EndTime t).
Definition set_StatusCode x (t : Task) : Task := mkTask (t_ParentID t) (t_ChildTaskIDs t) (t_ID t)
  (t_URI t) (t_UserName t) (t_Name t) (t_HidePayload t) (t_Payload t) (t_PercentComplete t)
  (t_TaskMonitor t) (t_TaskState t) (t_TaskStatus t) x (t_TaskResponse t) (t_Messages t)
  (t_StartTime t) (t_EndTime t).
Definition set_TaskResponse x (t : Task) : Task := mkTask (t_ParentID t) (t_ChildTaskIDs t) (t_ID t)
  (t_URI t) (t_UserName t) (t_Name t) (t_HidePayload t) (t_Payload t) (t_PercentComplete t)
  (t_TaskMonitor t) (t_TaskState t) (t_TaskStatus t) (t_StatusCode t) x (t_Messages t) (t_StartTime
  t) (t_EndTime t).
Definition set_Messages x (t : Task) : Task := mkTask (t_ParentID t) (t_ChildTaskIDs t) (t_ID t)
  (t_URI t) (t_UserName t) (t_Name t) (t_HidePayload t) (t_Payload t) (t_PercentComplete t)
  (t_TaskMonitor t) (t_TaskState t) (t_TaskStatus t) (t_StatusCode t) (t_TaskResponse t) x
  (t_StartTime t) (t_EndTime t).
Definition set_StartTime x (t : Task) : Task := mkTask (t_ParentID t) (t_ChildTaskIDs t) (t_ID t)
  (t_URI t) (t_UserName t) (t_Name t) (t_HidePayload t) (t_Payload t) (t_PercentComplete t)
  (t_TaskMonitor t) (t_TaskState t) (t_TaskStatus t) (t_StatusCode t) (t_TaskResponse t) (t_Messages
  t) x (t_EndTime t).
Definition set_EndTime x (t : Task) : Task := mkTask (t_ParentID t) (t_ChildTaskIDs t) (t_ID t)
  (t_URI t) (t_UserName t) (t_Name t) (t_HidePayload t) (t_Payload t) (t_PercentComplete t)
  (t_TaskMonitor t) (t_TaskState t) (t_TaskStatus t) (t_StatusCode t) (t_TaskResponse t) (t_Messages
  t) (t_StartTime t) x.

Definition Task_type : struct_type Task := {|
  st_name := "Task";
  st_fields :=
    [("ParentID", on t_ParentID set_ParentID dec_string);
     ("ChildTaskIDs", on t_ChildTaskIDs set_ChildTaskIDs dec_strings);
     ("ID", on t_ID set_ID dec_string);
     ("URI", on t_URI set_URI dec_string);
     ("UserName", on t_UserName set_UserName dec_string);
     ("Name", on t_Name set_Name dec_string);
     ("HidePayload", on t_HidePayload set_HidePayload dec_bool);
     ("Payload", on t_Payload set_Payload (dec_struct "tmodel." "Payload." Payload_type));
     ("PercentComplete", on t_PercentComplete set_PercentComplete dec_int32);
     ("TaskMonitor", on t_TaskMonitor set_TaskMonitor dec_string);
     ("TaskState", on t_TaskState set_TaskState dec_string);
     ("TaskStatus", on t_TaskStatus set_TaskStatus dec_string);
     ("StatusCode", on t_StatusCode set_StatusCode dec_int32);
     ("TaskResponse", on t_TaskResponse set_TaskResponse dec_bytes);
     ("Messages", on t_Messages set_Messages dec_messages);
     ("StartTime", on t_StartTime set_StartTime dec_time);
     ("EndTime", on t_EndTime set_EndTime dec_time)] |}.
Definition marshal_Task (t : Task) : json :=
  JObj [("ParentID", JStr (t_ParentID t)); ("ChildTaskIDs", enc_strings (t_ChildTaskIDs t)); ("ID",
        JStr (t_ID t)); ("URI", JStr (t_URI t)); ("UserName", JStr (t_UserName t)); ("Name", JStr
        (t_Name t)); ("HidePayload", JBool (t_HidePayload t)); ("Payload", marshal_Payload
        (t_Payload t)); ("PercentComplete", JNum (t_PercentComplete t)); ("TaskMonitor", JStr
        (t_TaskMonitor t)); ("TaskState", JStr (t_TaskState t)); ("TaskStatus", JStr (t_TaskStatus
        t)); ("StatusCode", JNum (t_StatusCode t)); ("TaskResponse", enc_bytes (t_TaskResponse t));
        ("Messages", enc_pointer_slice marshal_Message (t_Messages t)); ("StartTime", JTime
        (t_StartTime t)); ("EndTime", JTime (t_EndTime t))].

(** ** Operations *)

Section TModel.
Context `{Env, !IndexEnv, Config}.
Context (fuel : nat).

Definition task_index_key (t : Task) : string :=
  t_UserName t +:+ "::" +:+ time_string (t_EndTime t) +:+ "::" +:+ t_ID t.
(** The text of the error formats the error of the connection, which is nil. *)
Definition BuildCompletedTaskIndex (completedTask : Task) : IO (option string) :=
  GetDBConnection InMemory ;;;
  let! createError := CreateTaskIndex InMemory CompletedTaskIndex
                        (UnixNano (t_EndTime completedTask)) (task_index_key completedTask) in
  match createError with
  | Some _ => ret (Some "error while trying to create task index: <nil>")
  | None => ret None
  end.

(** The search key is not used, and a failed read gives no tasks. *)
Definition GetCompletedTasksIndex (searchKey : string) : IO (string + list string) :=
  GetDBConnection InMemory ;;;
  let! list := GetTaskList InMemory CompletedTaskIndex 0 (-1) in
  match list with
  | inl _ => ret (inr [])
  | inr list => ret (inr list)
  end.

Definition PersistTask (t : Task) (db : DbType) : IO (option string) :=
  GetDBConnection db ;;;
  let! err := ConnPool.Create db "task" (t_ID t) (marshal_Task t) in
  match err with
  | Some err => ret (Some ("error while trying to create new task: " +:+ errMsg err))
  | None => ret None
  end.

Definition UpdateTaskStatus (t : Task) (db : DbType) : IO (option string) :=
  GetDBConnection db ;;;
  let! r := ConnPool.Update db "task" (t_ID t) (marshal_Task t) in
  match r with
  | inl err => ret (Some ("error while trying to update task: " +:+ errMsg err))
  | inr _ =>
      if (String.eqb (t_TaskState t) "Completed" || String.eqb (t_TaskState t) "Exception")
         && String.eqb (t_ParentID t) ""
      then BuildCompletedTaskIndex t
      else ret None
  end.

Definition DeleteTaskFromDB (t : Task) : IO (option string) :=
  GetDBConnection InMemory ;;;
  let! err := ConnPool.Delete InMemory "task" (t_ID t) in
  match err with
  | Some err => ret (Some ("error while trying to delete the task: " +:+ errMsg err))
  | None => ret None
  end.

(** [None] when the fuel does not last for the scan of the index. *)
Definition DeleteTaskIndex (taskID : string) : IO (option (option string)) :=
  GetDBConnection InMemory ;;;
  let! delErr := Del fuel InMemory CompletedTaskIndex taskID in
  match delErr with
  | Some (Some err) =>
      ret (Some (Some ("error while trying to delete the completed task index: " +:+ err)))
  | r => ret r
  end.

(** The database asked for is not used. *)
Definition GetTaskStatus (taskID : string) (db : DbType) : IO (string + Task) :=
  GetDBConnection InMemory ;;;
  let! taskData := ConnPool.Read InMemory "task" taskID in
  match taskData with
  | inl err => ret (inl ("error while trying to read from DB: " +:+ errMsg err))
  | inr taskData =>
      match Unmarshal Task_type taskData zeroTask with
      | (_, Some errs) => ret (inl ("error while trying to unmarshal task data: " +:+ errs))
      | (task, None) => ret (inr task)
      end
  end.

Definition GetAllTaskKeys : IO (string + list string) :=
  GetDBConnection InMemory ;;;
  let! taskKeys := ConnPool.GetAllDetails InMemory "task" in
  match taskKeys with
  | inl err => ret (inl ("error while fetching data: " +:+ errMsg err))
  | inr taskKeys => ret (inr taskKeys)
  end.

Definition ValidateTaskUserName (userName : string) : IO (option string) :=
  GetDBConnection OnDisk ;;;
  let! r := ConnPool.Read OnDisk "User" userName in
  match r with
  | inl err => ret (Some ("error while trying to read from DB: " +:+ errMsg err))
  | inr _ => ret None
  end.
End TModel.

(** The callback runs in the state of the service, of which the databases are a part. *)
Definition TModel_Transaction `{Env, !IndexEnv, Config} {S} (run_io : forall A, IO A -> M S A)
    (key : string) (cb : string -> M S (option string)) : M S (option string) :=
  run_io _ (GetDBConnection InMemory) ;;;
  let! err := Transaction run_io InMemory key cb in
  match err with
  | Some err => ret (Some ("error while performing transaction: " +:+ errMsg err))
  | None => ret None
  end.
