(* ===== verification/THandle.v ===== *)
(** svc-task/thandle: the gRPC handlers of the task service.

    As in the code the handlers call the databases, the account-session service and the message bus
    through the fields of [TasksRPC], here functions on an arbitrary state; [Runtime] is what they
    use of the language: the clock, uuids, sleeping and starting a goroutine.  The texts of errors
    are those of identifiers without a percent sign, which [fmt.Errorf] would take for a verb. *)
From stdpp Require Import base gmap list strings pretty.
From Stdlib Require Import Ascii.
From S2P Require Import Prelude Go GoTime Response World AsModel TModel.
Open Scope string_scope.

(** ** Bodies (svc-task/tresponse) *)

Record tPayload := {
  tp_HTTPHeaders : list string;
  tp_HTTPOperation : string;
  tp_JSONBody : string;
  tp_TargetURI : string;
}.
(** Task and SubTask; the fields that no handler sets are left out. *)
Record tTask := {
  tt_Response : Response;
  tt_TaskState : string;
  tt_StartTime : Z;
  tt_EndTime : Z;
  tt_TaskStatus : string;
  tt_SubTasks : option string;   (* the link of SubTasks *)
  tt_TaskMonitor : string;
  tt_PercentComplete : Z;
  tt_Payload : tPayload;
  tt_Messages : list TaskMessage;
}.
Inductive taskBody :=
| TaskBody (t : tTask)
| SubTaskBody (membersCount : Z) (members : list string) (t : tTask)
(** TaskCollectionResponse with the links of its members *)
| CollectionBody (r : Response) (membersCount : Z) (members : list string)
| TaskServiceBody (r : Response) (overWritePolicy : string) (dateTime : Z) (lifeCycleEvent : bool)
    (enabled : bool) (state health healthRollup : string) (tasks : string).
Abbreviation taskRPC := (RPC taskBody).

(** taskproto.TaskResponse; the body is nil, raw bytes, or the JSON text of a body. *)
Inductive bytes := NoBytes | Raw (b : option string) | Json (b : body taskBody).
Record TaskResponse := mkRsp {
  rsp_StatusCode : Z;
  rsp_StatusMessage : string;
  rsp_Header : option (gmap string string);   (* [None] is the nil map *)
  rsp_Body : bytes;
}.
Definition with_code (code : Z) (r : TaskResponse) : TaskResponse :=
  mkRsp code (rsp_StatusMessage r) (rsp_Header r) (rsp_Body r).
Definition with_status (msg : string) (r : TaskResponse) : TaskResponse :=
  mkRsp (rsp_StatusCode r) msg (rsp_Header r) (rsp_Body r).
Definition with_body (b : bytes) (r : TaskResponse) : TaskResponse :=
  mkRsp (rsp_StatusCode r) (rsp_StatusMessage r) (rsp_Header r) b.
(** [rsp.Header[k] = v] panics for the nil map. *)
Definition set_header (k v : string) (r : TaskResponse) : outcome TaskResponse :=
  match rsp_Header r with
  | None => Panic
  | Some h => Ok (mkRsp (rsp_StatusCode r) (rsp_StatusMessage r) (Some (<[k := v]> h)) (rsp_Body r))
  end.

Definition generateResponse (input : body taskBody) : bytes := Json input.
Definition fillProtoResponse (data : taskRPC) : TaskResponse :=
  mkRsp (StatusCode data) (StatusMessage data)
    (match Header data with [] => None | h => Some (list_to_map h) end)
    (generateResponse (RBody data)).

(** ** Requests *)

Record ProtoPayload := {
  pp_HTTPHeaders : option (gmap string string);
  pp_HTTPOperation : string;
  pp_JSONBody : string;
  pp_StatusCode : Z;
  pp_TargetURI : string;
  pp_ResponseBody : option string;
}.
(** google.protobuf.Timestamp *)
Record Timestamp := { ts_Seconds : Z; ts_Nanos : Z }.
Record GetTaskRequest := { gt_TaskID : string; gt_SubTaskID : string; gt_SessionToken : string }.
Record CreateTaskRequest := { ct_UserName : string; ct_ParentTaskID : string }.
Record UpdateTaskRequest := {
  ut_TaskID : string;
  ut_TaskState : string;
  ut_TaskStatus : string;
  ut_PercentComplete : Z;
  ut_PayLoad : option ProtoPayload;
  ut_EndTime : option Timestamp;
}.

(** [ptypes.Timestamp]: the instant, for the years 1 to 9999. *)
Definition ptypes_Timestamp (ts : option Timestamp) : string + Z :=
  match ts with
  | None => inl "timestamp: nil Timestamp"
  | Some ts =>
      if (ts_Seconds ts <? -62135596800)%Z then inl "timestamp: before 0001-01-01"
      else if (253402300800 <=? ts_Seconds ts)%Z then inl "timestamp: after 10000-01-01"
      else if (ts_Nanos ts <? 0)%Z || (nano <=? ts_Nanos ts)%Z
      then inl "timestamp: nanos not in range [0, 1e9)"
      else inr (ts_Seconds ts * nano + ts_Nanos ts)%Z
  end.

(** ** The interface of the handlers *)

(** The goroutines the handlers start. *)
Inductive thread :=
| OverWriteCompleted (userName : string)
| AsyncTaskDelete (taskID : string).

Class Runtime (S : Type) := {
  TimeNow : M S Z;
  UuidNew : M S string;
  TimeSleep : Z -> M S unit;
  Spawn : thread -> M S unit;
}.

(** A call that returns an error, or nil; and one that returns a value and an error, of which the
    value is used only when the error is nil. *)
Abbreviation err := (option string).
Abbreviation or_err A := (string + A)%type.

Record TasksRPC (S : Type) := {
  AuthenticationRPC : string -> list string -> M S taskRPC;
  GetSessionUserNameRPC : string -> M S (or_err string);
  GetTaskStatusModel : string -> DbType -> M S (or_err Task);
  GetAllTaskKeysModel : M S (or_err (list string));
  TransactionModel : string -> (string -> M S err) -> M S err;
  OverWriteCompletedTaskUtilHelper : string -> M S err;
  CreateTaskUtilHelper : string -> M S (or_err string);
  GetCompletedTasksIndexModel : string -> M S (or_err (list string));
  DeleteTaskFromDBModel : Task -> M S err;
  ts_DeleteTaskIndex : string -> M S err;
  UpdateTaskStatusModel : Task -> DbType -> M S err;
  PersistTaskModel : Task -> DbType -> M S err;
  ValidateTaskUserNameModel : string -> M S err;
  PublishToMessageBus : string -> string -> string -> string -> M S unit;
}.
Arguments AuthenticationRPC {S} _ sessionToken privileges : rename.
Arguments GetSessionUserNameRPC {S} _ sessionToken : rename.
Arguments GetTaskStatusModel {S} _ taskID db : rename.
Arguments GetAllTaskKeysModel {S} _.
Arguments TransactionModel {S} _ key cb : rename.
Arguments OverWriteCompletedTaskUtilHelper {S} _ userName : rename.
Arguments CreateTaskUtilHelper {S} _ userName : rename.
Arguments GetCompletedTasksIndexModel {S} _ userName : rename.
Arguments DeleteTaskFromDBModel {S} _ t : rename.
Arguments ts_DeleteTaskIndex {S} _ taskID : rename.
Arguments UpdateTaskStatusModel {S} _ t db : rename.
Arguments PersistTaskModel {S} _ t db : rename.
Arguments ValidateTaskUserNameModel {S} _ userName : rename.
Arguments PublishToMessageBus {S} _ taskURI taskEvenMessageID eventType taskMessage : rename.

(** Task states (lib-utilities/common/constants.go). *)
Definition Completed := "Completed".
Definition Killed := "Killed".
Definition Cancelled := "Cancelled".
Definition Cancelling := "Cancelling".
Definition Exception := "Exception".
Definition Pending := "Pending".
Definition TaskEventType := "TaskEvent.1.0.3".
Definition tasksURI := "/redfish/v1/TaskService/Tasks".
Definition authErrorMessage := "error while trying to authenticate session".

Section THandle.
Context {S : Type} `{Runtime S, Config}.
Context (ts : TasksRPC S).

Definition constructCommonResponseHeader : M S TaskResponse :=
  let! now := TimeNow in
  ret (mkRsp 0 "" (Some {[ "Date" := http_time now ]}) NoBytes).
Definition fail (code : Z) (msg errMsg : string) (args : list iface) : M S TaskResponse :=
  let! e := lift (GeneralError code msg errMsg args) in ret (fillProtoResponse e).

(** ** Completed tasks *)

(** A failed deletion of a sub-task is passed over. *)
Definition deleteSubTask (subTaskID : string) : M S unit :=
  let! r := GetTaskStatusModel ts subTaskID InMemory in
  match r with
  | inl _ => ret tt
  | inr subTask => let! _ := DeleteTaskFromDBModel ts subTask in ret tt
  end.
Definition deleteCompletedTask (taskID : string) : M S err :=
  let! r := GetTaskStatusModel ts taskID InMemory in
  match r with
  | inl _ => ret None
  | inr task =>
      forM_ (items (t_ChildTaskIDs task)) deleteSubTask ;;;
      let! e := DeleteTaskFromDBModel ts task in
      match e with
      | Some e => ret (Some e)
      | None => ts_DeleteTaskIndex ts taskID
      end
  end.

Definition timeToLeaveNano : Z := 24 * 3600 * nano.
Definition overWriteEntry (value : string) : M S unit :=
  let! endTimeString := lift (index (Split value "::") 1) in
  let endTime := default zero_time (time_parse endTimeString) in
  let! now := TimeNow in
  let elapsedTimeNano := int64 (UnixNano now - UnixNano endTime) in
  let! taskID := lift (index (Split value "::") 2) in
  if (timeToLeaveNano <? elapsedTimeNano)%Z then let! _ := deleteCompletedTask taskID in ret tt
  else ret tt.
Definition OverWriteCompletedTaskUtil (userName : string) : M S err :=
  let! taskList := GetCompletedTasksIndexModel ts userName in
  match taskList with
  | inl e => ret (Some e)
  | inr taskList => forM_ taskList overWriteEntry ;;; ret None
  end.

(** ** Creating tasks *)

Definition CreateTaskUtil (userName : string) : M S (or_err string) :=
  if String.eqb userName "" then ret (inl "error invalid username")
  else
    let! e := ValidateTaskUserNameModel ts userName in
    match e with
    | Some e => ret (inl ("error invalid user: " +:+ e))
    | None =>
        let! currentTime := TimeNow in
        let! uuid := UuidNew in
        let id := "task" +:+ uuid in
        let task := mkTask "" None id (tasksURI +:+ "/" +:+ id) userName ("Task " +:+ id) false zeroPayload 0
                      ("/taskmon/" +:+ id) "New" "OK" 0 None None currentTime zero_time in
        let! e := PersistTaskModel ts task InMemory in
        match e with
        | Some e => ret (inl e)
        | None => ret (inr (tasksURI +:+ "/" +:+ t_ID task))
        end
    end.
(** Starts the removal of old tasks. *)
Definition CreateTask (req : CreateTaskRequest) : M S (or_err string) :=
  Spawn (OverWriteCompleted (ct_UserName req)) ;;;
  CreateTaskUtilHelper ts (ct_UserName req).

(** The last part of the URI, before a final slash. *)
Definition last_part (taskURI : string) : outcome string :=
  let strArray := Split taskURI "/" in
  index strArray (if HasSuffix taskURI "/" then length strArray - 2 else length strArray - 1).
Definition CreateChildTaskUtil (userName parentTaskID : string) : M S (or_err string) :=
  if String.eqb parentTaskID "" then ret (inl "error parent task ID is empty")
  else
    let! r := GetTaskStatusModel ts parentTaskID InMemory in
    match r with
    | inl e => ret (inl ("error while retrieing the task detais from DB: " +:+ e))
    | inr parentTask =>
        let! r := CreateTaskUtilHelper ts (t_UserName parentTask) in
        match r with
        | inl e => ret (inl ("error while creating child/sub task: " +:+ e))
        | inr taskURI =>
            let! childTaskID := lift (last_part taskURI) in
            let! r := GetTaskStatusModel ts childTaskID InMemory in
            match r with
            | inl e => ret (inl ("error while retrieving the child/sub task from DB: " +:+ e))
            | inr childTask =>
                let childTask := set_ParentID parentTaskID childTask in
                let childTask := set_URI (tasksURI +:+ "/" +:+ parentTaskID +:+ "/" +:+ childTaskID) childTask in
                let! e := UpdateTaskStatusModel ts childTask InMemory in
                match e with
                | Some e => ret (inl ("error while updating the child/sub task details: " +:+ e))
                | None =>
                    let parentTask := set_ChildTaskIDs
                      (Some (items (t_ChildTaskIDs parentTask) ++ [childTaskID])%list) parentTask in
                    let! e := UpdateTaskStatusModel ts parentTask InMemory in
                    match e with
                    | Some e => ret (inl ("error while trying to update the task details in InMemory DB: " +:+ e))
                    | None => ret (inr (tasksURI +:+ "/" +:+ childTaskID))
                    end
                end
            end
        end
    end.
Definition CreateChildTask (req : CreateTaskRequest) : M S (or_err string) :=
  CreateChildTaskUtil (ct_UserName req) (ct_ParentTaskID req).

(** ** Updating a task *)

Definition one_of (s : string) (l : list string) : bool := existsb (String.eqb s) l.
(** [task.Payload.HTTPOperation = payLoad.HTTPOperation] and the five assignments after it *)
Definition set_result (payLoad : option ProtoPayload) (task : Task) : Task :=
  match payLoad with
  | None => task
  | Some p =>
      set_TaskResponse (pp_ResponseBody p) (set_StatusCode (pp_StatusCode p)
        (set_Payload (mkPayload (pp_HTTPHeaders p) (pp_HTTPOperation p) (pp_JSONBody p) (pp_TargetURI p)) task))
  end.
Definition set_code (payLoad : option ProtoPayload) (task : Task) : Task :=
  match payLoad with None => task | Some p => set_StatusCode (pp_StatusCode p) task end.

(** The switch on the new state: the changed task with the identifier and the text of the event, or
    an error. *)
Definition changeState (taskID taskState taskStatus : string) (percentComplete : Z)
    (payLoad : option ProtoPayload) (endTime : Z) (task : Task) : or_err (Task * string * string) :=
  let moved := set_TaskState taskState task in
  let event suffix := TaskEventType +:+ "." +:+ suffix in
  let says text := "The task with Id " +:+ taskID +:+ text in
  let halted := "Work on the task with Id " +:+ taskID +:+
                " has been halted prior to completion due to an explicit request." in
  let ended (statuses : list string) (r : Task * string * string) :=
    if negb (one_of taskStatus statuses) then inl "error invalid taskStatus provided as input argument"
    else if (endTime =? zero_time)%Z then inl "error invalid end time for the task"
    else inr r in
  let final := set_EndTime endTime (set_TaskStatus taskStatus moved) in
  if String.eqb taskState "Completed" then
    ended ["Critical"; "Warning"; "OK"]
      (set_PercentComplete percentComplete (set_result payLoad final),
       event ("Task" +:+ taskState +:+ taskStatus), says " has completed.")
  else if String.eqb taskState "Killed" then
    ended ["Critical"; "Warning"]
      (set_PercentComplete percentComplete (set_code payLoad final),
       event "TaskAborted", says " has completed with errors.")
  else if String.eqb taskState "Cancelled" then
    ended ["Critical"; "Warning"]
      (set_PercentComplete percentComplete (set_code payLoad final), event ("Task" +:+ taskState), halted)
  else if String.eqb taskState "Exception" then
    ended ["Critical"; "Warning"]
      (set_PercentComplete percentComplete (set_result payLoad final),
       event ("Task" +:+ taskState +:+ taskStatus), says " has completed with errors.")
  else if String.eqb taskState "Cancelling" then inr (moved, event ("Task" +:+ taskState), halted)
  else if String.eqb taskState "Interrupted" then
    inr (set_PercentComplete percentComplete (set_code payLoad moved), event ("Task" +:+ taskState),
         says " has completed with errors..")
  else if String.eqb taskState "New" then
    inr (set_PercentComplete percentComplete moved, event ("Task" +:+ taskState), says " has started.")
  else if String.eqb taskState "Pending" then
    inr (moved, event ("Task" +:+ taskState), says " has completed with errors.")
  else if String.eqb taskState "Running" then
    inr (set_PercentComplete percentComplete moved, event "TaskProgressChanged",
         says (" has changed to progress " +:+ pretty percentComplete +:+ " percent complete."))
  else if String.eqb taskState "Service" then
    inr (moved, event ("Task" +:+ taskState), says " has started.")
  else if String.eqb taskState "Starting" then
    inr (moved, event ("Task" +:+ taskState), says " has started.")
  else if String.eqb taskState "Stopping" then
    inr (moved, event ("Task" +:+ taskState), says " has been paused.")
  else if String.eqb taskState "Suspended" then
    inr (moved, event ("Task" +:+ taskState), says " has completed with errors.")
  else inl "error invalid input argument for taskState".

Definition updateTaskUtil (taskID taskState taskStatus : string) (percentComplete : Z)
    (payLoad : option ProtoPayload) (endTime : Z) : M S err :=
  let! r := GetTaskStatusModel ts taskID InMemory in
  match r with
  | inl e => ret (Some ("error while retrieving the task details from db: " +:+ e))
  | inr task =>
      if String.eqb (t_TaskState task) Cancelled then ret (Some Cancelled)
      else if String.eqb (t_TaskState task) Cancelling && negb (String.eqb taskState Cancelled)
      then ret (Some Cancelling)
      else
        match changeState taskID taskState taskStatus percentComplete payLoad endTime task with
        | inl e => ret (Some e)
        | inr (task, taskEvenMessageID, taskMessage) =>
            let! e := UpdateTaskStatusModel ts task InMemory in
            match e with
            | Some e => ret (Some ("error while updating the task in to In-memory DB: " +:+ e))
            | None =>
                PublishToMessageBus ts (t_URI task) taskEvenMessageID "StatusChange" taskMessage ;;;
                ret None
            end
        end
  end.
Definition UpdateTask (req : UpdateTaskRequest) : M S err :=
  match ptypes_Timestamp (ut_EndTime req) with
  | inl e => ret (Some e)
  | inr endTime =>
      updateTaskUtil (ut_TaskID req) (ut_TaskState req) (ut_TaskStatus req) (ut_PercentComplete req)
        (ut_PayLoad req) endTime
  end.

(** ** Cancelling a task *)

Definition finished (state : string) : bool := one_of state [Completed; Exception; Pending].
(** One sub-task of a task that is being cancelled: an error leaves the callback. *)
Definition cancelSubTask (subTaskID : string) : M S (string + unit) :=
  let! r := GetTaskStatusModel ts subTaskID InMemory in
  match r with
  | inl _ => ret (inr tt)
  | inr subTask =>
      if finished (t_TaskState subTask) then
        let! _ := DeleteTaskFromDBModel ts subTask in ret (inr tt)
      else if negb (String.eqb (t_TaskState subTask) Cancelling) then
        let! e := UpdateTaskStatusModel ts (set_TaskState Cancelling subTask) InMemory in
        match e with
        | Some e => ret (inl e)
        | None => Spawn (AsyncTaskDelete subTaskID) ;;; ret (inr tt)
        end
      else ret (inr tt)
  end.
Definition taskCancelCallBack (taskID : string) : M S err :=
  let! r := GetTaskStatusModel ts taskID InMemory in
  match r with
  | inl _ => ret None
  | inr task =>
      if finished (t_TaskState task) then
        forM_ (items (t_ChildTaskIDs task)) deleteSubTask ;;;
        let! _ := DeleteTaskFromDBModel ts task in ret None
      else
        let! r := loopM (items (t_ChildTaskIDs task)) tt (fun _ subTaskID => cancelSubTask subTaskID) in
        match r with
        | inl e => ret (Some e)
        | inr _ =>
            if negb (String.eqb (t_TaskState task) Cancelling) then
              let! e := UpdateTaskStatusModel ts (set_TaskState Cancelling task) InMemory in
              match e with
              | Some e => ret (Some e)
              | None => Spawn (AsyncTaskDelete taskID) ;;; ret None
              end
            else ret None
        end
  end.

(** A round of the polling loop: has the goroutine ended? *)
Definition asyncTaskDelete (taskID : string) : M S bool :=
  let! r := GetTaskStatusModel ts taskID InMemory in
  match r with
  | inl _ => ret true
  | inr task =>
      if String.eqb (t_TaskState task) Cancelled then
        let! _ := DeleteTaskFromDBModel ts task in ret true
      else TimeSleep (5000 * 1000000) ;;; ret false
  end.
(** What the scheduler does when it runs a goroutine: one round of the loop, or all there is to do. *)
Definition run_thread (t : thread) : M S bool :=
  match t with
  | OverWriteCompleted userName =>
      let! _ := OverWriteCompletedTaskUtilHelper ts userName in ret true
  | AsyncTaskDelete taskID => asyncTaskDelete taskID
  end.

(** ** Access to a task *)

(** The token must be valid, and the session own the task or have ConfigureUsers. *)
Definition authorizeTask (token taskID : string) : M S (TaskResponse + Task) :=
  let! authResp := AuthenticationRPC ts token [PrivilegeLogin] in
  if negb (StatusCode authResp =? StatusOK)%Z then ret (inl (fillProtoResponse authResp))
  else
    let! r := GetSessionUserNameRPC ts token in
    match r with
    | inl _ => let! rsp := fail StatusUnauthorized NoValidSession authErrorMessage [] in ret (inl rsp)
    | inr sessionUserName =>
        let! r := GetTaskStatusModel ts taskID InMemory in
        match r with
        | inl e =>
            let! rsp := fail StatusNotFound ResourceNotFound e [IString "Task"; IString taskID] in
            ret (inl rsp)
        | inr task =>
            if negb (String.eqb sessionUserName (t_UserName task)) then
              let! authResp := AuthenticationRPC ts token [PrivilegeConfigureUsers] in
              if negb (StatusCode authResp =? StatusOK)%Z then ret (inl (fillProtoResponse authResp))
              else ret (inr task)
            else ret (inr task)
        end
    end.
Definition validateAndAutherize (req : GetTaskRequest) : M S (TaskResponse + Task) :=
  authorizeTask (gt_SessionToken req) (gt_TaskID req).

(** ** Showing a task *)

(** [element.MessageID] of a nil element panics. *)
Fixpoint messageList (l : list (option TaskMessage)) : outcome (list TaskMessage) :=
  match l with
  | [] => Ok []
  | None :: _ => Panic
  | Some m :: l' =>
      obind (messageList l') (fun ms =>
        Ok (mkTaskMessage (mg_Message m) (mg_MessageID m) (mg_MessageArgs m) (mg_RelatedProperties m) ""
              (mg_Severity m) :: ms))
  end.
(** In the order of the map, which Go does not specify. *)
Definition httpHeaders (h : option (gmap string string)) : list string :=
  (fun kv => kv.1 +:+ ": " +:+ kv.2) <$> map_to_list (default ∅ h).
Definition taskResponse (task : Task) (r : Response) (subTasks : option string)
    (messages : list TaskMessage) : tTask := {|
  tt_Response := r; tt_TaskState := t_TaskState task; tt_StartTime := t_StartTime task;
  tt_EndTime := t_EndTime task; tt_TaskStatus := t_TaskStatus task; tt_SubTasks := subTasks;
  tt_TaskMonitor := t_TaskMonitor task; tt_PercentComplete := t_PercentComplete task;
  tt_Payload := {| tp_HTTPHeaders := httpHeaders (p_HTTPHeaders (t_Payload task));
                   tp_HTTPOperation := p_HTTPOperation (t_Payload task);
                   tp_JSONBody := p_JSONBody (t_Payload task);
                   tp_TargetURI := p_TargetURI (t_Payload task) |};
  tt_Messages := messages |}.
Definition taskHeader (task : Task) : Response :=
  mkResponse "#Task.v1_5_1.Task" (tasksURI +:+ "/" +:+ t_ID task) "/redfish/v1/$metadata#Task.Task"
    (t_ID task) (t_Name task).
Definition subTasksLink (task : Task) : string := tasksURI +:+ "/" +:+ t_ID task +:+ "/SubTasks".
Definition with_MessageArgs (l : list string) (r : Response) : Response :=
  {| OdataType := OdataType r; OdataID := OdataID r; OdataContext := OdataContext r;
     Description := Description r; ID := ID r; Name := Name r; Message := Message r;
     MessageID := MessageID r; MessageArgs := l; NumberOfArgs := NumberOfArgs r;
     Severity := Severity r; Resolution := Resolution r |}.
Definition with_Description (d : string) (r : Response) : Response :=
  {| OdataType := OdataType r; OdataID := OdataID r; OdataContext := OdataContext r;
     Description := d; ID := ID r; Name := Name r; Message := Message r;
     MessageID := MessageID r; MessageArgs := MessageArgs r; NumberOfArgs := NumberOfArgs r;
     Severity := Severity r; Resolution := Resolution r |}.
(** The body of an accepted request: the task as it was read, and that it has started. *)
Definition startedBody (task : Task) : outcome bytes :=
  obind (messageList (items (t_Messages task))) (fun messages =>
  obind (CreateGenericResponse (with_MessageArgs [t_ID task] (taskHeader task)) TaskStarted) (fun r =>
    Ok (generateResponse (Body (TaskBody (taskResponse task r
          (if String.eqb (t_ParentID task) "" then Some (subTasksLink task) else None) messages)))))).
Definition ended (state : string) : bool := one_of state ["Completed"; "Cancelled"; "Killed"; "Exception"].

(** ** Handlers on one task *)

(** [for iter := 0; iter < 5; iter++] *)
Fixpoint cancelTransaction (iter : nat) (taskID : string) (last : err) : M S err :=
  match iter with
  | O => ret last
  | Datatypes.S iter' =>
      let! e := TransactionModel ts taskID taskCancelCallBack in
      match e with
      | Some e => cancelTransaction iter' taskID (Some e)
      | None => ret None
      end
  end.

Definition DeleteTask (req : GetTaskRequest) : M S TaskResponse :=
  let! rsp := constructCommonResponseHeader in
  let! r := validateAndAutherize req in
  match r with
  | inl rsp => ret rsp
  | inr task =>
      let! authResp := AuthenticationRPC ts (gt_SessionToken req) [PrivilegeConfigureManager] in
      if negb (StatusCode authResp =? StatusOK)%Z then ret (fillProtoResponse authResp)
      else
        let! rsp := lift (set_header "Allow" "DELETE" rsp) in
        if (t_PercentComplete task =? 100)%Z then
          let! delErr := deleteCompletedTask (gt_TaskID req) in
          match delErr with
          | Some e =>
              fail StatusInternalServerError InternalError ("Error while deleting the completed task: " +:+ e) []
          | None => ret (with_body NoBytes (with_code StatusNoContent rsp))
          end
        else
          let! e := cancelTransaction 5 (gt_TaskID req) None in
          match e with
          | Some e =>
              fail StatusInternalServerError InternalError
                ("error max retries exceeded for TaskCancel Transaction: " +:+ e) []
          | None =>
              let! body := lift (startedBody task) in
              ret (with_body body (with_status TaskStarted (with_code StatusAccepted rsp)))
          end
  end.

Definition GetTasks (req : GetTaskRequest) : M S TaskResponse :=
  let! rsp := constructCommonResponseHeader in
  let! r := validateAndAutherize req in
  match r with
  | inl rsp => ret rsp
  | inr task =>
      let! rsp := lift (set_header "Link" "</redfish/v1/SchemaStore/en/TaskCollection.json/>; rel=describedby" rsp) in
      let! messages := lift (messageList (items (t_Messages task))) in
      let! r := lift (CreateGenericResponse (taskHeader task) Success) in
      let subTasks := if String.eqb (t_ParentID task) "" && negb (Nat.eqb (length (items (t_ChildTaskIDs task))) 0)
                      then Some (subTasksLink task) else None in
      let! rsp := (if ended (t_TaskState task) then ret (with_code StatusOK rsp)
                   else let! rsp := lift (set_header "location" (t_TaskMonitor task) rsp) in
                        ret (with_code StatusAccepted rsp)) in
      ret (with_body (generateResponse (Body (TaskBody (taskResponse task (blank_message r) subTasks messages))))
             (with_status "Success" rsp))
  end.

Definition subTaskURI (taskID subTaskID : string) : string :=
  tasksURI +:+ "/" +:+ taskID +:+ "/SubTasks/" +:+ subTaskID.
Definition GetSubTasks (req : GetTaskRequest) : M S TaskResponse :=
  let! rsp := constructCommonResponseHeader in
  let! r := validateAndAutherize req in
  match r with
  | inl rsp => ret rsp
  | inr task =>
      let listMembers := subTaskURI (t_ID task) <$> items (t_ChildTaskIDs task) in
      let! r := lift (CreateGenericResponse
        (with_MessageArgs [t_ID task] (with_Description "SubTasks"
          (mkResponse "#SubTasks.SubTasks" (tasksURI +:+ "/" +:+ t_ID task +:+ "/SubTasks/")
             "/redfish/v1/$metadata#SubTasks.SubTasks" "" "SubTasks"))) Success) in
      ret (with_body (generateResponse (Body (CollectionBody r (Z.of_nat (length listMembers)) listMembers)))
             (with_status Success (with_code StatusOK rsp)))
  end.

Definition GetSubTask (req : GetTaskRequest) : M S TaskResponse :=
  let! rsp := constructCommonResponseHeader in
  let! r := authorizeTask (gt_SessionToken req) (gt_SubTaskID req) in
  match r with
  | inl rsp => ret rsp
  | inr task =>
      let! messages := lift (messageList (items (t_Messages task))) in
      let listMembers := subTaskURI (t_ID task) <$> items (t_ChildTaskIDs task) in
      let rsp := with_status Success rsp in
      let! r := lift (CreateGenericResponse
        (mkResponse "#SubTask.v1_4_2.SubTask" (subTaskURI (gt_TaskID req) (gt_SubTaskID req))
           "/redfish/v1/$metadata#SubTask.SubTask" (t_ID task) (t_Name task)) Success) in
      let! rsp := (if ended (t_TaskState task) then ret (with_code StatusOK rsp)
                   else let! rsp := lift (set_header "location" (t_TaskMonitor task) rsp) in
                        ret (with_code StatusAccepted rsp)) in
      ret (with_body (generateResponse (Body (SubTaskBody (Z.of_nat (length listMembers)) listMembers
             (taskResponse task r None messages)))) rsp)
  end.

(** The owner of the task is not compared with the user of the session. *)
Definition GetTaskMonitor (req : GetTaskRequest) : M S TaskResponse :=
  let! rsp := constructCommonResponseHeader in
  let! authResp := AuthenticationRPC ts (gt_SessionToken req) [PrivilegeLogin] in
  if negb (StatusCode authResp =? StatusOK)%Z then ret (fillProtoResponse authResp)
  else
    let! r := GetSessionUserNameRPC ts (gt_SessionToken req) in
    match r with
    | inl _ => fail StatusUnauthorized NoValidSession authErrorMessage []
    | inr _ =>
        let! r := GetTaskStatusModel ts (gt_TaskID req) InMemory in
        match r with
        | inl e => fail StatusNotFound ResourceNotFound e [IString "Task"; IString (gt_TaskID req)]
        | inr task =>
            if ended (t_TaskState task) then
              ret (mkRsp (t_StatusCode task) (rsp_StatusMessage rsp) (p_HTTPHeaders (t_Payload task))
                     (Raw (t_TaskResponse task)))
            else
              let! body := lift (startedBody task) in
              lift (set_header "location" (t_TaskMonitor task)
                (with_body body (with_status TaskStarted (with_code StatusAccepted rsp))))
        end
    end.

(** ** The collection and the service *)

Definition TaskCollection (req : GetTaskRequest) : M S TaskResponse :=
  let! rsp := constructCommonResponseHeader in
  let! authResp := AuthenticationRPC ts (gt_SessionToken req) [PrivilegeLogin] in
  if negb (StatusCode authResp =? StatusOK)%Z then ret (fillProtoResponse authResp)
  else
    let! tasks := GetAllTaskKeysModel ts in
    match tasks with
    | inl e => fail StatusInternalServerError InternalError ("error: while trying to get all task keys from db: " +:+ e) []
    | inr tasks =>
        let! statusConfigureUsers := AuthenticationRPC ts (gt_SessionToken req) [PrivilegeConfigureUsers] in
        let! r := GetSessionUserNameRPC ts (gt_SessionToken req) in
        match r with
        | inl _ => fail StatusUnauthorized NoValidSession authErrorMessage []
        | inr sessionUserName =>
            let! r := loopM tasks [] (fun listMembers taskID =>
              if negb (StatusCode statusConfigureUsers =? StatusOK)%Z then
                let! r := GetTaskStatusModel ts taskID InMemory in
                match r with
                | inl _ => let! rsp := fail StatusNotFound ResourceNotFound authErrorMessage [] in ret (inl rsp)
                | inr task =>
                    if String.eqb (t_UserName task) sessionUserName
                    then ret (inr (listMembers ++ [tasksURI +:+ "/" +:+ taskID])%list) else ret (inr listMembers)
                end
              else ret (inr (listMembers ++ [tasksURI +:+ "/" +:+ taskID])%list)) in
            match r with
            | inl rsp => ret rsp
            | inr listMembers =>
                ret (with_body (generateResponse (Body (CollectionBody
                       (mkResponse "#TaskCollection.TaskCollection" tasksURI
                          "/redfish/v1/$metadata#TaskCollection.TaskCollection" "" "Task Collection")
                       (Z.of_nat (length listMembers)) listMembers)))
                     (with_status Success (with_code StatusOK rsp)))
            end
        end
    end.

Definition GetTaskService (req : GetTaskRequest) : M S TaskResponse :=
  let! rsp := constructCommonResponseHeader in
  let! rsp := lift (set_header "Link" "</redfish/v1/SchemaStore/en/TaskService.json>; rel=describedby" rsp) in
  let! authResp := AuthenticationRPC ts (gt_SessionToken req) [PrivilegeConfigureUsers] in
  if negb (StatusCode authResp =? StatusOK)%Z then ret (fillProtoResponse authResp)
  else
    let isServiceEnabled := existsb (String.eqb "TaskService") (EnabledServices Data) in
    let! now := TimeNow in
    ret (with_body (generateResponse (Body (TaskServiceBody
           (with_Description "TaskService" (mkResponse "#TaskService.v1_2_0.TaskService" "/redfish/v1/TaskService"
              "/redfish/v1/$metadata#TaskService.TaskService" "TaskService" "TaskService"))
           "Oldest" now true isServiceEnabled (if isServiceEnabled then "Enabled" else "Disabled") "OK" "OK" tasksURI)))
         (with_status Success (with_code StatusOK rsp))).
End THandle.
