(* ===== verification/Services.v ===== *)
(** lib-utilities/services/auth.go: how the other services ask the account-session service who a
    session belongs to and what it may do.

    A call runs the handler in the process of the account-session service, on the same databases.
    [Network] says whether the service can be reached and whether the answer arrives; a call whose
    answer is lost may have been carried out. *)
From stdpp Require Import base gmap list strings.
From S2P Require Import Prelude Go Response Redis World ConnPool AsModel Auth Session Rpc.
Open Scope string_scope.

Class Network `{Env} : Type := {
  client_error : env -> option string;   (* ODIMService.Client(AccountSession) *)
  call_error : env -> option string;     (* the call itself *)
  handler_error : string -> string;      (* how the error of a handler reads at the client *)
}.

(** The state of two processes on the same databases: the environment is that of the first. *)
Section Services.
Context `{Env, Libs, Config, !Network}.
Context {S : Type} (run_session : forall A, IO A -> M S A) (current : S -> env).

(** The client connection and the call: what the handler answers, or the texts of the two errors. *)
Definition call {A} (handler : IO A) : M S (string + (string + A)) :=
  let! s := get in
  match client_error (current s) with
  | Some err => ret (inl err)
  | None =>
      let! r := run_session _ handler in
      let! s := get in
      match call_error (current s) with
      | Some err => ret (inr (inl err))
      | None => ret (inr (inr r))
      end
  end.
Definition client_failed (err : string) : string := "Failed to create client connection: " +:+ err.

Definition IsAuthorized {B} (sessionToken : string) (privileges oemPrivileges : list string) : M S (RPC B) :=
  let! r := call (Rpc.IsAuthorized sessionToken privileges) in
  match r with
  | inl err => lift (GeneralError StatusInternalServerError InternalError (client_failed err) [])
  | inr (inl err) => lift (GeneralError StatusInternalServerError InternalError ("rpc call failed: " +:+ err) [])
  | inr (inr (statusCode, statusMessage)) =>
      let msgArgs := if (statusCode =? StatusServiceUnavailable)%Z
                     then [IString (InMemoryHost (ConfDB Data) +:+ ":" +:+ InMemoryPort (ConfDB Data))] else [] in
      lift (GeneralError statusCode statusMessage "while checking the authorization" msgArgs)
  end.

(** An error of the handler is the error of the call, as gRPC words it. *)
Definition name_call (handler : IO (string + string)) : M S (string + string) :=
  let! r := call handler in
  match r with
  | inl err => ret (inl (client_failed err))
  | inr (inl err) => ret (inl err)
  | inr (inr (inl err)) => ret (inl (handler_error err))
  | inr (inr (inr r)) => ret (inr r)
  end.
Definition GetSessionUserName (sessionToken : string) : M S (string + string) :=
  name_call (Session_GetSessionUserName {| SessionId := ""; SessionToken := sessionToken |}).
Definition GetSessionUserRoleID (sessionToken : string) : M S (string + string) :=
  name_call (Session_GetSessionUserRoleID {| SessionId := ""; SessionToken := sessionToken |}).
Definition GetUserDetails (sessionToken : string) : M S (string * string) :=
  if String.eqb sessionToken "" then ret ("null", "null")
  else
    let! r := GetSessionUserName sessionToken in
    match r with
    | inl _ => ret ("null", "null")
    | inr sessionUserName =>
        let! r := GetSessionUserRoleID sessionToken in
        match r with
        | inl _ => ret (sessionUserName, "null")
        | inr sessionRoleID => ret (sessionUserName, sessionRoleID)
        end
    end.
End Services.
