(* ===== verification/Proto.v ===== *)
(** The request messages of the services behind the gateway (lib-utilities/proto), but for those of
    the account-session and task services, which are with their handlers.  A field that a caller
    does not set is empty. *)
From stdpp Require Import base list strings.
From S2P Require Import Prelude Go THandle.
Open Scope string_scope.

Record GetSystemsRequest := {
  gs_SessionToken : string;
  gs_RequestParam : string;
  gs_URL : string;
  gs_ResourceID : string;
}.
Record ComputerSystemResetRequest := {
  cr_SessionToken : string;
  cr_SystemID : string;
  cr_RequestBody : jtext;
}.
Record DefaultBootOrderRequest := { db_SessionToken : string; db_SystemID : string }.
Record BiosSettingsRequest := { bs_SessionToken : string; bs_SystemID : string; bs_RequestBody : jtext }.
Record BootOrderSettingsRequest := { bo_SessionToken : string; bo_SystemID : string; bo_RequestBody : jtext }.
Record VolumeRequest := {
  vo_SessionToken : string;
  vo_SystemID : string;
  vo_StorageInstance : string;
  vo_VolumeID : string;
  vo_RequestBody : jtext;
}.
Record GetChassisRequest := {
  gc_SessionToken : string;
  gc_RequestParam : string;
  gc_URL : string;
  gc_ResourceID : string;
}.
Record CreateChassisRequest := { cc_SessionToken : string; cc_RequestBody : jtext }.
Record DeleteChassisRequest := { dc_SessionToken : string; dc_URL : string }.
Record UpdateChassisRequest := { uc_SessionToken : string; uc_RequestBody : jtext; uc_URL : string }.
Record UpdateChassisResourceRequest := {
  ucr_SessionToken : string;
  ucr_RequestBody : jtext;
  ucr_URL : string;
}.
Record ManagerRequest := {
  mg_SessionToken : string;
  mg_ManagerID : string;
  mg_URL : string;
  mg_ResourceID : string;
  mg_RequestBody : jtext;
}.
Record EventSubRequest := { es_SessionToken : string; es_PostBody : jtext }.
Record EventRequest := { ev_SessionToken : string; ev_EventSubscriptionID : string; ev_UUID : string }.
Record FabricRequest := {
  fa_SessionToken : string;
  fa_URL : string;
  fa_Method : string;
  fa_RequestBody : jtext;
}.
Record AggregatorRequest := { ag_SessionToken : string; ag_RequestBody : jtext; ag_URL : string }.
Record UpdateRequest := {
  up_SessionToken : string;
  up_URL : string;
  up_RequestBody : jtext;
  up_ResourceID : string;
}.
Record TelemetryRequest := {
  te_SessionToken : string;
  te_URL : string;
  te_RequestBody : jtext;
  te_ResourceID : string;
}.
Record GetCompositionServiceRequest := {
  cs_SessionToken : string;
  cs_RequestParam : string;
  cs_URL : string;
}.
Record GetCompositionResourceRequest := {
  co_SessionToken : string;
  co_RequestParam : string;
  co_URL : string;
  co_ResourceID : string;
}.
Record CreateCompositionResourceRequest := {
  cco_SessionToken : string;
  cco_URL : string;
  cco_RequestBody : jtext;
}.
Record DeleteCompositionResourceRequest := { dco_SessionToken : string; dco_URL : string }.
Record ComposeRequest := { cm_SessionToken : string; cm_URL : string; cm_RequestBody : jtext }.

(** A request to one of these services. *)
Inductive message :=
| OfGetTaskRequest (req : GetTaskRequest)
| OfGetSystemsRequest (req : GetSystemsRequest)
| OfComputerSystemResetRequest (req : ComputerSystemResetRequest)
| OfDefaultBootOrderRequest (req : DefaultBootOrderRequest)
| OfBiosSettingsRequest (req : BiosSettingsRequest)
| OfBootOrderSettingsRequest (req : BootOrderSettingsRequest)
| OfVolumeRequest (req : VolumeRequest)
| OfGetChassisRequest (req : GetChassisRequest)
| OfCreateChassisRequest (req : CreateChassisRequest)
| OfDeleteChassisRequest (req : DeleteChassisRequest)
| OfUpdateChassisRequest (req : UpdateChassisRequest)
| OfUpdateChassisResourceRequest (req : UpdateChassisResourceRequest)
| OfManagerRequest (req : ManagerRequest)
| OfEventSubRequest (req : EventSubRequest)
| OfEventRequest (req : EventRequest)
| OfFabricRequest (req : FabricRequest)
| OfAggregatorRequest (req : AggregatorRequest)
| OfUpdateRequest (req : UpdateRequest)
| OfTelemetryRequest (req : TelemetryRequest)
| OfGetCompositionServiceRequest (req : GetCompositionServiceRequest)
| OfGetCompositionResourceRequest (req : GetCompositionResourceRequest)
| OfCreateCompositionResourceRequest (req : CreateCompositionResourceRequest)
| OfDeleteCompositionResourceRequest (req : DeleteCompositionResourceRequest)
| OfComposeRequest (req : ComposeRequest).
(** The session it is made for. *)
Definition message_token (m : message) : string :=
  match m with
  | OfGetTaskRequest req => gt_SessionToken req
  | OfGetSystemsRequest req => gs_SessionToken req
  | OfComputerSystemResetRequest req => cr_SessionToken req
  | OfDefaultBootOrderRequest req => db_SessionToken req
  | OfBiosSettingsRequest req => bs_SessionToken req
  | OfBootOrderSettingsRequest req => bo_SessionToken req
  | OfVolumeRequest req => vo_SessionToken req
  | OfGetChassisRequest req => gc_SessionToken req
  | OfCreateChassisRequest req => cc_SessionToken req
  | OfDeleteChassisRequest req => dc_SessionToken req
  | OfUpdateChassisRequest req => uc_SessionToken req
  | OfUpdateChassisResourceRequest req => ucr_SessionToken req
  | OfManagerRequest req => mg_SessionToken req
  | OfEventSubRequest req => es_SessionToken req
  | OfEventRequest req => ev_SessionToken req
  | OfFabricRequest req => fa_SessionToken req
  | OfAggregatorRequest req => ag_SessionToken req
  | OfUpdateRequest req => up_SessionToken req
  | OfTelemetryRequest req => te_SessionToken req
  | OfGetCompositionServiceRequest req => cs_SessionToken req
  | OfGetCompositionResourceRequest req => co_SessionToken req
  | OfCreateCompositionResourceRequest req => cco_SessionToken req
  | OfDeleteCompositionResourceRequest req => dco_SessionToken req
  | OfComposeRequest req => cm_SessionToken req
  end.
