(* ===== verification/HandleAccess.v ===== *)
(** svc-api/handle: the requests for sessions, accounts, roles and tasks.

    Each handler checks the request, calls a function of its record of RPCs, and passes the answer
    on.  [ctx.Next()], which every handler defers, is in [Gateway]. *)
From stdpp Require Import base gmap list strings.
From S2P Require Import Prelude Go Response Http AsModel Session Account Role THandle.
Open Scope string_scope.

Section handle.
Context {S B : Type}.

(** ** sessions.go *)

(** CreateSessionRPC also answers the identifier of the session. *)
Record SessionRPCs := {
  CreateSessionRPC : jtext -> M S (answer (RPC B * string));
  DeleteSessionRPC : string -> string -> M S (answer (RPC B));
  GetSessionRPC : string -> string -> M S (answer (RPC B));
  GetAllActiveSessionsRPC : string -> string -> M S (answer (RPC B));
  GetSessionServiceRPC : M S (answer (RPC B));
}.
Definition session_location (ctx : Context) (id : string) : string :=
  Host (ctx_Request ctx) +:+ "/redfish/v1/SessionService/Sessions/" +:+ id.
(** [resp.Header["Location"] = location]: the header is a nil map when it has no entries. *)
Definition add_location (location : string) (resp : RPC B) : M (S * Writer B) (RPC B) :=
  match Header resp with
  | [] => panic
  | hdr => ret (with_Header (filter (fun kv => kv.1 <> "Location") hdr ++ [("Location", location)]) resp)
  end.

Definition SessionRPCs_CreateSession (s : SessionRPCs) (ctx : Context) : M (S * Writer B) unit :=
  match ReadJSON ctx with
  | inl err => malformed ("error while trying to get JSON body from the session create request body: %v" +:+ err)
  | inr req =>
      let! r := call (CreateSessionRPC s (Marshal req)) in
      match nil_and_err r with
      | Some err => internal ("error: something went wrong with the RPC calls: " +:+ err)
      | None =>
          let! (resp, sessionId) := deref r.1 in
          let! resp := (if (StatusCode resp =? StatusCreated)%Z
                        then add_location (session_location ctx sessionId) resp else ret resp) in
          respond resp
      end
  end.
Definition SessionRPCs_DeleteSession (s : SessionRPCs) (ctx : Context) : M (S * Writer B) unit :=
  let sessionID := Params_Get ctx "sessionID" in
  let sessionToken := token ctx in
  if is_empty sessionToken then
    let! response := lift (GeneralError StatusInternalServerError NoValidSession
                             "error: session token is missing" []) in
    SetResponseHeader (Header response) ;;;
    SetStatus StatusUnauthorized ;;;
    Write (JSONResponse response)
  else
    let! r := call (DeleteSessionRPC s sessionID sessionToken) in
    match nil_and_err r with
    | Some err => internal ("error: something went wrong with the RPC calls: " +:+ err)
    | None => answered r
    end.
Definition SessionRPCs_GetSession (s : SessionRPCs) (ctx : Context) : M (S * Writer B) unit :=
  let sessionID := Params_Get ctx "sessionID" in
  let! r := call (GetSessionRPC s sessionID (token ctx)) in
  match nil_and_err r with
  | Some err => internal ("error: something went wrong with the RPC calls: " +:+ err)
  | None =>
      let! resp := deref r.1 in
      let! resp := (if (StatusCode resp =? StatusOK)%Z
                    then add_location (session_location ctx sessionID) resp else ret resp) in
      SetHeader "Allow" "GET, DELETE" ;;; respond resp
  end.
Definition SessionRPCs_GetAllActiveSessions (s : SessionRPCs) (ctx : Context) : M (S * Writer B) unit :=
  let! r := call (GetAllActiveSessionsRPC s (Params_Get ctx "sessionID") (token ctx)) in
  match nil_and_err r with
  | Some err => internal ("error: something went wrong with the RPC calls: " +:+ err)
  | None => SetHeader "Allow" "GET, POST" ;;; answered r
  end.
Definition SessionRPCs_GetSessionService (s : SessionRPCs) (ctx : Context) : M (S * Writer B) unit :=
  let! r := call (GetSessionServiceRPC s) in
  match nil_and_err r with
  | Some err => internal ("error: something went wrong with the RPC calls: " +:+ err)
  | None => SetHeader "Allow" "GET" ;;; answered r
  end.

(** ** account.go *)

Record AccountRPCs := {
  GetServiceRPC : string -> M S (answer (RPC B));
  CreateRPC : CreateAccountRequest -> M S (answer (RPC B));
  GetAllAccountsRPC : string -> M S (answer (RPC B));
  GetAccountRPC : AccountIDRequest -> M S (answer (RPC B));
  UpdateRPC : UpdateAccountRequest -> M S (answer (RPC B));
  DeleteRPC : AccountIDRequest -> M S (answer (RPC B));
}.

Definition AccountRPCs_GetAccountService (a : AccountRPCs) (ctx : Context) : M (S * Writer B) unit :=
  if is_empty (token ctx) then unauthorized "no X-Auth-Token found in request header" else
  let! r := call (GetServiceRPC a (token ctx)) in
  match nil_and_err r with
  | Some err => internal ("something went wrong with the RPC calls: " +:+ err)
  | None => SetHeader "Allow" "GET" ;;; answered r
  end.
Definition AccountRPCs_CreateAccount (a : AccountRPCs) (ctx : Context) : M (S * Writer B) unit :=
  match ReadJSON ctx with
  | inl err => malformed ("error while trying to get JSON body from the account create request body: " +:+ err)
  | inr req =>
      if is_empty (token ctx) then unauthorized "no X-Auth-Token found in request header" else
      let! r := call (CreateRPC a {| car_SessionToken := token ctx; car_RequestBody := Marshal req |}) in
      match nil_and_err r with
      | Some err => internal ("something went wrong with the RPC calls: " +:+ err)
      | None => answered r
      end
  end.
Definition AccountRPCs_GetAllAccounts (a : AccountRPCs) (ctx : Context) : M (S * Writer B) unit :=
  if is_empty (token ctx) then unauthorized "no X-Auth-Token found in request header" else
  let! r := call (GetAllAccountsRPC a (token ctx)) in
  match nil_and_err r with
  | Some err => internal ("something went wrong with the RPC calls: " +:+ err)
  | None => SetHeader "Allow" "GET, POST" ;;; answered r
  end.
Definition AccountRPCs_GetAccount (a : AccountRPCs) (ctx : Context) : M (S * Writer B) unit :=
  if is_empty (token ctx) then unauthorized "no X-Auth-Token found in request header" else
  let! r := call (GetAccountRPC a {| air_SessionToken := token ctx; air_AccountID := Params_Get ctx "id" |}) in
  match nil_and_err r with
  | Some err => internal ("something went wrong with the RPC calls: " +:+ err)
  | None => SetHeader "Allow" "GET, PATCH, DELETE" ;;; answered r
  end.
Definition AccountRPCs_UpdateAccount (a : AccountRPCs) (ctx : Context) : M (S * Writer B) unit :=
  match ReadJSON ctx with
  | inl err => malformed ("error while trying to get JSON body from the account update request body: " +:+ err)
  | inr req =>
      if is_empty (token ctx) then unauthorized "no X-Auth-Token found in request header" else
      let! r := call (UpdateRPC a
          {| uar_SessionToken := token ctx; uar_AccountID := Params_Get ctx "id";
             uar_RequestBody := Marshal req |}) in
      match nil_and_err r with
      | Some err => internal ("something went wrong with the RPC calls: " +:+ err)
      | None => answered r
      end
  end.
Definition AccountRPCs_DeleteAccount (a : AccountRPCs) (ctx : Context) : M (S * Writer B) unit :=
  if is_empty (token ctx) then unauthorized "no X-Auth-Token found in request header" else
  let! r := call (DeleteRPC a {| air_SessionToken := token ctx; air_AccountID := Params_Get ctx "id" |}) in
  match nil_and_err r with
  | Some err => internal ("something went wrong with the RPC calls: " +:+ err)
  | None => answered r
  end.

(** ** role.go *)

Record RoleRPCs := {
  GetAllRolesRPC : RoleIDRequest -> M S (answer (RPC B));
  CreateRoleRPC : RoleRequest -> M S (answer (RPC B));
  GetRoleRPC : RoleIDRequest -> M S (answer (RPC B));
  UpdateRoleRPC : UpdateRoleRequest -> M S (answer (RPC B));
  DeleteRoleRPC : RoleIDRequest -> M S (answer (RPC B));
}.

Definition RoleRPCs_GetAllRoles (role : RoleRPCs) (ctx : Context) : M (S * Writer B) unit :=
  if is_empty (token ctx) then unauthorized "error: no X-Auth-Token found in request header" else
  let! r := call (GetAllRolesRPC role {| ri_SessionToken := token ctx; ri_Id := "" |}) in
  match r.2 with
  | Some err => internal ("RPC error: " +:+ err)
  | None => SetHeader "Allow" "GET, POST" ;;; answered r
  end.
Definition RoleRPCs_CreateRole (role : RoleRPCs) (ctx : Context) : M (S * Writer B) unit :=
  match ReadJSON ctx with
  | inl err => malformed ("error while trying to get JSON body from the account create request body: " +:+ err)
  | inr req =>
      if is_empty (token ctx) then unauthorized "error: no X-Auth-Token found in request header" else
      let! r := call (CreateRoleRPC role {| rr_SessionToken := token ctx; rr_RequestBody := Marshal req |}) in
      match r.2 with
      | Some err => internal ("RPC error:" +:+ err)
      | None => answered r
      end
  end.
Definition RoleRPCs_GetRole (role : RoleRPCs) (ctx : Context) : M (S * Writer B) unit :=
  if is_empty (token ctx) then unauthorized "error: no X-Auth-Token found in request header" else
  let id := Params_Get ctx "id" in
  let! r := call (GetRoleRPC role {| ri_SessionToken := token ctx; ri_Id := id |}) in
  match r.2 with
  | Some err => internal ("RPC error:" +:+ err)
  | None =>
      SetHeader "Allow" (if String.eqb id RoleAdmin then "GET, PATCH" else "GET, PATCH, DELETE") ;;;
      answered r
  end.
Definition RoleRPCs_UpdateRole (role : RoleRPCs) (ctx : Context) : M (S * Writer B) unit :=
  match ReadJSON ctx with
  | inl err => malformed ("error while trying to get JSON body from the role update request body: " +:+ err)
  | inr roleReq =>
      if is_empty (token ctx) then unauthorized "error: no X-Auth-Token found in request header" else
      let! r := call (UpdateRoleRPC role
          {| ur_SessionToken := token ctx; ur_Id := Params_Get ctx "id"; ur_UpdateRequest := Marshal roleReq |}) in
      match r.2 with
      | Some err => internal ("RPC error:" +:+ err)
      | None => answered r
      end
  end.
Definition RoleRPCs_DeleteRole (role : RoleRPCs) (ctx : Context) : M (S * Writer B) unit :=
  if is_empty (token ctx) then unauthorized "error: no X-Auth-Token found in request header" else
  let! r := call (DeleteRoleRPC role {| ri_SessionToken := token ctx; ri_Id := Params_Get ctx "id" |}) in
  match r.2 with
  | Some err => internal ("error: something went wrong with the RPC calls: " +:+ err)
  | None => answered r
  end.

(** ** task.go: the header of the response is read before the error is looked at. *)

Record TaskRPCs := {
  DeleteTaskRPC : GetTaskRequest -> M S (answer (RPC B));
  GetTaskRPC : GetTaskRequest -> M S (answer (RPC B));
  GetSubTasksRPC : GetTaskRequest -> M S (answer (RPC B));
  GetSubTaskRPC : GetTaskRequest -> M S (answer (RPC B));
  GetTaskMonitorRPC : GetTaskRequest -> M S (answer (RPC B));
  TaskCollectionRPC : GetTaskRequest -> M S (answer (RPC B));
  GetTaskServiceRPC : GetTaskRequest -> M S (answer (RPC B));
}.

Definition TaskRPCs_DeleteTask (task : TaskRPCs) (ctx : Context) : M (S * Writer B) unit :=
  let! r := call (DeleteTaskRPC task
      {| gt_TaskID := Params_Get ctx "TaskID"; gt_SubTaskID := ""; gt_SessionToken := token ctx |}) in
  let! response := deref r.1 in
  SetResponseHeader (Header response) ;;;
  match r.2 with
  | Some err => fail_bare StatusInternalServerError InternalError ("RPC error: " +:+ err)
  | None =>
      respond response
  end.
Definition TaskRPCs_GetTaskStatus (task : TaskRPCs) (ctx : Context) : M (S * Writer B) unit :=
  let! r := call (GetTaskRPC task
      {| gt_TaskID := Params_Get ctx "TaskID"; gt_SubTaskID := ""; gt_SessionToken := token ctx |}) in
  let! response := deref r.1 in
  SetResponseHeader (Header response) ;;;
  match r.2 with
  | Some err => fail_bare StatusInternalServerError InternalError ("RPC error: " +:+ err)
  | None =>
      SetHeader "Allow" "GET, DELETE" ;;;
      respond response
  end.
Definition TaskRPCs_GetSubTasks (task : TaskRPCs) (ctx : Context) : M (S * Writer B) unit :=
  let! r := call (GetSubTasksRPC task
      {| gt_TaskID := Params_Get ctx "TaskID"; gt_SubTaskID := ""; gt_SessionToken := token ctx |}) in
  let! response := deref r.1 in
  SetResponseHeader (Header response) ;;;
  match r.2 with
  | Some err => fail_bare StatusInternalServerError InternalError ("RPC error: " +:+ err)
  | None =>
      SetHeader "Allow" "GET" ;;;
      respond response
  end.
Definition TaskRPCs_GetSubTask (task : TaskRPCs) (ctx : Context) : M (S * Writer B) unit :=
  let! r := call (GetSubTaskRPC task
      {| gt_TaskID := Params_Get ctx "TaskID"; gt_SubTaskID := Params_Get ctx "subTaskID"; gt_SessionToken := token ctx |}) in
  let! response := deref r.1 in
  SetResponseHeader (Header response) ;;;
  match r.2 with
  | Some err => fail_bare StatusInternalServerError InternalError ("RPC error: " +:+ err)
  | None =>
      SetHeader "Allow" "GET" ;;;
      respond response
  end.
Definition TaskRPCs_GetTaskMonitor (task : TaskRPCs) (ctx : Context) : M (S * Writer B) unit :=
  let! r := call (GetTaskMonitorRPC task
      {| gt_TaskID := Params_Get ctx "TaskID"; gt_SubTaskID := ""; gt_SessionToken := token ctx |}) in
  let! response := deref r.1 in
  SetResponseHeader (Header response) ;;;
  match r.2 with
  | Some err => fail_bare StatusInternalServerError InternalError ("RPC error: " +:+ err)
  | None =>
      SetHeader "Allow" "GET" ;;;
      respond response
  end.
Definition TaskRPCs_TaskCollection (task : TaskRPCs) (ctx : Context) : M (S * Writer B) unit :=
  if is_empty (token ctx) then
    fail_bare StatusUnauthorized NoValidSession "error: no X-Auth-Token found in request header" ;;;
    SetResponseHeader []
  else
  let! r := call (TaskCollectionRPC task
      {| gt_TaskID := ""; gt_SubTaskID := ""; gt_SessionToken := token ctx |}) in
  let! response := deref r.1 in
  SetResponseHeader (Header response) ;;;
  match r.2 with
  | Some err => fail_bare StatusInternalServerError InternalError ("RPC error: " +:+ err)
  | None =>
      SetHeader "Allow" "GET" ;;;
      respond response
  end.
Definition TaskRPCs_GetTaskService (task : TaskRPCs) (ctx : Context) : M (S * Writer B) unit :=
  let! r := call (GetTaskServiceRPC task
      {| gt_TaskID := ""; gt_SubTaskID := ""; gt_SessionToken := token ctx |}) in
  let! response := deref r.1 in
  SetResponseHeader (Header response) ;;;
  match r.2 with
  | Some err => fail_bare StatusInternalServerError InternalError ("RPC error: " +:+ err)
  | None =>
      SetHeader "Allow" "GET" ;;;
      respond response
  end.

End handle.
Arguments SessionRPCs S B : clear implicits.
Arguments TaskRPCs S B : clear implicits.
Arguments AccountRPCs S B : clear implicits.
Arguments RoleRPCs S B : clear implicits.
