(* ===== verification/HandleResources.v ===== *)
(** svc-api/handle: the requests for systems, chassis, managers, events and fabrics. *)
From stdpp Require Import base gmap list strings.
From S2P Require Import Prelude Go GoText Response Http Proto.
Open Scope string_scope.

(** A word in quotes. *)
Definition quoted (s : string) : string := String dquote (s +:+ String dquote "").

Section handle.
Context {S B : Type}.

(** ** systems.go *)

Record SystemRPCs := {
  GetSystemsCollectionRPC : GetSystemsRequest -> M S (answer (RPC B));
  GetSystemRPC : GetSystemsRequest -> M S (answer (RPC B));
  GetSystemResourceRPC : GetSystemsRequest -> M S (answer (RPC B));
  SystemResetRPC : ComputerSystemResetRequest -> M S (answer (RPC B));
  SetDefaultBootOrderRPC : DefaultBootOrderRequest -> M S (answer (RPC B));
  ChangeBiosSettingsRPC : BiosSettingsRequest -> M S (answer (RPC B));
  ChangeBootOrderSettingsRPC : BootOrderSettingsRequest -> M S (answer (RPC B));
  CreateVolumeRPC : VolumeRequest -> M S (answer (RPC B));
  DeleteVolumeRPC : VolumeRequest -> M S (answer (RPC B));
}.

Definition SystemRPCs_GetSystemsCollection (sys : SystemRPCs) (ctx : Context) : M (S * Writer B) unit :=
  if is_empty (token ctx) then unauthorized "error: no X-Auth-Token found in request header" else
  let! r := call (GetSystemsCollectionRPC sys
      {| gs_SessionToken := token ctx; gs_RequestParam := ""; gs_URL := URI ctx; gs_ResourceID := "" |}) in
  match r.2 with
  | Some err => internal ("error:  RPC error:" +:+ err)
  | None => SetHeader "Allow" "GET" ;;; answered r
  end.
Definition SystemRPCs_GetSystem (sys : SystemRPCs) (ctx : Context) : M (S * Writer B) unit :=
  if is_empty (token ctx) then unauthorized "error: no X-Auth-Token found in request header" else
  let! r := call (GetSystemRPC sys
      {| gs_SessionToken := token ctx; gs_RequestParam := Params_Get ctx "id"; gs_URL := URI ctx;
         gs_ResourceID := Params_Get ctx "rid" |}) in
  match r.2 with
  | Some err => internal ("RPC error:" +:+ err)
  | None => SetHeader "Allow" "GET, PATCH" ;;; answered r
  end.
Definition SystemRPCs_GetSystemResource (sys : SystemRPCs) (ctx : Context) : M (S * Writer B) unit :=
  let req := {| gs_SessionToken := token ctx; gs_RequestParam := Params_Get ctx "id"; gs_URL := URI ctx;
                gs_ResourceID := Params_Get ctx "rid" |} in
  if is_empty (token ctx) then unauthorized "error: no X-Auth-Token found in request header" else
  let! r := call (GetSystemResourceRPC sys req) in
  match r.2 with
  | Some err => internal ("error:  RPC error:" +:+ err)
  | None =>
      let storageID := Params_Get ctx "id2" in
      let system := "/redfish/v1/Systems/" +:+ gs_RequestParam req in
      SetHeader "Allow"
        (if String.eqb (gs_URL req) (system +:+ "/Bios/Settings") then "GET, PATCH"
         else if String.eqb (gs_URL req) (system +:+ "/Storage/" +:+ storageID +:+ "/Volumes") then "GET, POST"
         else if String.eqb (gs_URL req)
                   (system +:+ "/Storage/" +:+ storageID +:+ "/Volumes/" +:+ gs_ResourceID req)
         then "GET, DELETE" else "GET") ;;;
      answered r
  end.
Definition SystemRPCs_ComputerSystemReset (sys : SystemRPCs) (ctx : Context) : M (S * Writer B) unit :=
  match ReadJSON ctx with
  | inl err => malformed ("error while trying to get JSON body from the system reset request body: " +:+ err)
  | inr req =>
      if is_empty (token ctx) then unauthorized "error: no X-Auth-Token found in request header" else
      let! r := call (SystemResetRPC sys
          {| cr_SessionToken := token ctx; cr_SystemID := Params_Get ctx "id"; cr_RequestBody := Marshal req |}) in
      match r.2 with
      | Some err => internal ("RPC error:" +:+ err)
      | None => answered r
      end
  end.
Definition SystemRPCs_SetDefaultBootOrder (sys : SystemRPCs) (ctx : Context) : M (S * Writer B) unit :=
  if is_empty (token ctx) then unauthorized "error: no X-Auth-Token found in request header" else
  let! r := call (SetDefaultBootOrderRPC sys
      {| db_SessionToken := token ctx; db_SystemID := Params_Get ctx "id" |}) in
  match r.2 with
  | Some err => internal ("RPC error:" +:+ err)
  | None => answered r
  end.
Definition SystemRPCs_ChangeBiosSettings (sys : SystemRPCs) (ctx : Context) : M (S * Writer B) unit :=
  match ReadJSON ctx with
  | inl err => malformed ("error while trying to get JSON body from the system reset request body: " +:+ err)
  | inr req =>
      if is_empty (token ctx) then unauthorized "error: no X-Auth-Token found in request header" else
      let! r := call (ChangeBiosSettingsRPC sys
          {| bs_SessionToken := token ctx; bs_SystemID := Params_Get ctx "id"; bs_RequestBody := Marshal req |}) in
      match r.2 with
      | Some err => internal ("RPC error:" +:+ err)
      | None => answered r
      end
  end.
Definition SystemRPCs_ChangeBootOrderSettings (sys : SystemRPCs) (ctx : Context) : M (S * Writer B) unit :=
  match ReadJSON ctx with
  | inl err => malformed ("error while trying to get JSON body from the system reset request body: " +:+ err)
  | inr req =>
      if is_empty (token ctx) then unauthorized "error: no X-Auth-Token found in request header" else
      let! r := call (ChangeBootOrderSettingsRPC sys
          {| bo_SessionToken := token ctx; bo_SystemID := Params_Get ctx "id"; bo_RequestBody := Marshal req |}) in
      match r.2 with
      | Some err => internal ("RPC error:" +:+ err)
      | None => answered r
      end
  end.
Definition SystemRPCs_CreateVolume (sys : SystemRPCs) (ctx : Context) : M (S * Writer B) unit :=
  match ReadJSON ctx with
  | inl err => malformed ("error while trying to get JSON body from the create volume request body: " +:+ err)
  | inr req =>
      if is_empty (token ctx) then unauthorized "error: no X-Auth-Token found in request header" else
      let! r := call (CreateVolumeRPC sys
          {| vo_SessionToken := token ctx; vo_SystemID := Params_Get ctx "id";
             vo_StorageInstance := Params_Get ctx "id2"; vo_VolumeID := ""; vo_RequestBody := Marshal req |}) in
      match r.2 with
      | Some err => internal ("RPC error:" +:+ err)
      | None => answered r
      end
  end.
(** A body that cannot be read leaves the request nil. *)
Definition SystemRPCs_DeleteVolume (sys : SystemRPCs) (ctx : Context) : M (S * Writer B) unit :=
  let req := match ReadJSON ctx with inl _ => JNull | inr req => req end in
  if is_empty (token ctx) then unauthorized "error: no X-Auth-Token found in request header" else
  let! r := call (DeleteVolumeRPC sys
      {| vo_SessionToken := token ctx; vo_SystemID := Params_Get ctx "id";
         vo_StorageInstance := Params_Get ctx "id2"; vo_VolumeID := Params_Get ctx "rid";
         vo_RequestBody := Marshal req |}) in
  match r.2 with
  | Some err => internal ("RPC error:" +:+ err)
  | None => answered r
  end.

(** ** chassis.go *)

Record ChassisRPCs := {
  GetChassisCollectionRPC : GetChassisRequest -> M S (answer (RPC B));
  GetChassisResourceRPC : GetChassisRequest -> M S (answer (RPC B));
  GetChassisRPC : GetChassisRequest -> M S (answer (RPC B));
  CreateChassisRPC : CreateChassisRequest -> M S (answer (RPC B));
  DeleteChassisRPC : DeleteChassisRequest -> M S (answer (RPC B));
  UpdateChassisRPC : UpdateChassisRequest -> M S (answer (RPC B));
  UpdateChassisResourceRPC : UpdateChassisResourceRequest -> M S (answer (RPC B));
}.

Definition ChassisRPCs_CreateChassis (chassis : ChassisRPCs) (ctx : Context) : M (S * Writer B) unit :=
  match ReadRaw ctx with
  | inl err => malformed ("error while trying to read obligatory json body: " +:+ err)
  | inr requestBody =>
      let! r := call (CreateChassisRPC chassis {| cc_SessionToken := token ctx; cc_RequestBody := requestBody |}) in
      match r.2 with
      | Some err => internal err
      | None => answered r
      end
  end.
Definition ChassisRPCs_GetChassisCollection (chassis : ChassisRPCs) (ctx : Context) : M (S * Writer B) unit :=
  if is_empty (token ctx) then unauthorized "no X-Auth-Token found in request header" else
  let! r := call (GetChassisCollectionRPC chassis
      {| gc_SessionToken := token ctx; gc_RequestParam := ""; gc_URL := URI ctx; gc_ResourceID := "" |}) in
  match r.2 with
  | Some err => internal (" RPC error:" +:+ err)
  | None => SetHeader "Allow" "GET, POST" ;;; answered r
  end.
Definition ChassisRPCs_GetChassisResource (chassis : ChassisRPCs) (ctx : Context) : M (S * Writer B) unit :=
  if is_empty (token ctx) then unauthorized "no X-Auth-Token found in request header" else
  let! r := call (GetChassisResourceRPC chassis
      {| gc_SessionToken := token ctx; gc_RequestParam := Params_Get ctx "id"; gc_URL := URI ctx;
         gc_ResourceID := Params_Get ctx "rid" |}) in
  match r.2 with
  | Some err => internal (" RPC error:" +:+ err)
  | None => SetHeader "Allow" "GET" ;;; answered r
  end.
Definition ChassisRPCs_GetChassis (chassis : ChassisRPCs) (ctx : Context) : M (S * Writer B) unit :=
  if is_empty (token ctx) then unauthorized "no X-Auth-Token found in request header" else
  let! r := call (GetChassisRPC chassis
      {| gc_SessionToken := token ctx; gc_RequestParam := Params_Get ctx "id"; gc_URL := URI ctx;
         gc_ResourceID := "" |}) in
  match r.2 with
  | Some err => internal ("RPC error:" +:+ err)
  | None => SetHeader "Allow" "GET, PATCH, DELETE" ;;; answered r
  end.
Definition ChassisRPCs_UpdateChassis (chassis : ChassisRPCs) (ctx : Context) : M (S * Writer B) unit :=
  match ReadRaw ctx with
  | inl err => malformed ("error while trying to read obligatory json body: " +:+ err)
  | inr requestBody =>
      let! r := call (UpdateChassisRPC chassis
          {| uc_SessionToken := token ctx; uc_RequestBody := requestBody; uc_URL := URI ctx |}) in
      match r.2 with
      | Some err => internal err
      | None => answered r
      end
  end.
Definition ChassisRPCs_DeleteChassis (chassis : ChassisRPCs) (ctx : Context) : M (S * Writer B) unit :=
  let! r := call (DeleteChassisRPC chassis {| dc_SessionToken := token ctx; dc_URL := URI ctx |}) in
  match r.2 with
  | Some err => internal err
  | None => answered r
  end.
Definition ChassisRPCs_UpdateChassisResource (chassis : ChassisRPCs) (ctx : Context) : M (S * Writer B) unit :=
  match ReadRaw ctx with
  | inl err => malformed ("error while trying to read obligatory json body: " +:+ err)
  | inr requestBody =>
      let! r := call (UpdateChassisResourceRPC chassis
          {| ucr_SessionToken := token ctx; ucr_RequestBody := requestBody; ucr_URL := URI ctx |}) in
      match r.2 with
      | Some err => internal err
      | None => answered r
      end
  end.

(** ** managers.go *)

Record ManagersRPCs := {
  GetManagersCollectionRPC : ManagerRequest -> M S (answer (RPC B));
  GetManagersRPC : ManagerRequest -> M S (answer (RPC B));
  GetManagersResourceRPC : ManagerRequest -> M S (answer (RPC B));
  VirtualMediaInsertRPC : ManagerRequest -> M S (answer (RPC B));
  VirtualMediaEjectRPC : ManagerRequest -> M S (answer (RPC B));
}.

Definition ManagersRPCs_GetManagersCollection (mgr : ManagersRPCs) (ctx : Context) : M (S * Writer B) unit :=
  if is_empty (token ctx) then unauthorized "error: no X-Auth-Token found in request header" else
  let! r := call (GetManagersCollectionRPC mgr
      {| mg_SessionToken := token ctx; mg_ManagerID := ""; mg_URL := ""; mg_ResourceID := "";
         mg_RequestBody := no_bytes |}) in
  match r.2 with
  | Some err => internal ("error:  RPC error:" +:+ err)
  | None => SetHeader "Allow" "GET" ;;; answered r
  end.
Definition ManagersRPCs_GetManager (mgr : ManagersRPCs) (ctx : Context) : M (S * Writer B) unit :=
  if is_empty (token ctx) then unauthorized "error: no X-Auth-Token found in request header" else
  let! r := call (GetManagersRPC mgr
      {| mg_SessionToken := token ctx; mg_ManagerID := Params_Get ctx "id"; mg_URL := URI ctx; mg_ResourceID := "";
         mg_RequestBody := no_bytes |}) in
  match r.2 with
  | Some err => internal ("RPC error:" +:+ err)
  | None => SetHeader "Allow" "GET" ;;; answered r
  end.
Definition ManagersRPCs_GetManagersResource (mgr : ManagersRPCs) (ctx : Context) : M (S * Writer B) unit :=
  if is_empty (token ctx) then unauthorized "error: no X-Auth-Token found in request header" else
  let! r := call (GetManagersResourceRPC mgr
      {| mg_SessionToken := token ctx; mg_ManagerID := Params_Get ctx "id"; mg_URL := URI ctx;
         mg_ResourceID := Params_Get ctx "rid"; mg_RequestBody := no_bytes |}) in
  match r.2 with
  | Some err => internal ("error:  RPC error:" +:+ err)
  | None => SetHeader "Allow" "GET" ;;; answered r
  end.
Definition ManagersRPCs_VirtualMediaInsert (mgr : ManagersRPCs) (ctx : Context) : M (S * Writer B) unit :=
  match ReadJSON ctx with
  | inl err => malformed ("while trying to get JSON body from the virtual media actions request body: " +:+ err)
  | inr reqIn =>
      if is_empty (token ctx) then unauthorized "no X-Auth-Token found in request header" else
      let! r := call (VirtualMediaInsertRPC mgr
          {| mg_SessionToken := token ctx; mg_ManagerID := Params_Get ctx "id"; mg_URL := URI ctx;
             mg_ResourceID := Params_Get ctx "rid"; mg_RequestBody := Marshal reqIn |}) in
      match r.2 with
      | Some err => internal ("RPC error:" +:+ err)
      | None => answered r
      end
  end.
Definition ManagersRPCs_VirtualMediaEject (mgr : ManagersRPCs) (ctx : Context) : M (S * Writer B) unit :=
  if is_empty (token ctx) then unauthorized "no X-Auth-Token found in request header" else
  let! r := call (VirtualMediaEjectRPC mgr
      {| mg_SessionToken := token ctx; mg_ManagerID := Params_Get ctx "id"; mg_URL := URI ctx;
         mg_ResourceID := Params_Get ctx "rid"; mg_RequestBody := no_bytes |}) in
  match r.2 with
  | Some err => internal ("RPC error:" +:+ err)
  | None => answered r
  end.

(** ** events.go *)

Record EventsRPCs := {
  GetEventServiceRPC : EventSubRequest -> M S (answer (RPC B));
  CreateEventSubscriptionRPC : EventSubRequest -> M S (answer (RPC B));
  SubmitTestEventRPC : EventSubRequest -> M S (answer (RPC B));
  GetEventSubscriptionRPC : EventRequest -> M S (answer (RPC B));
  DeleteEventSubscriptionRPC : EventRequest -> M S (answer (RPC B));
  GetEventSubscriptionsCollectionRPC : EventRequest -> M S (answer (RPC B));
}.

Definition EventsRPCs_GetEventService (e : EventsRPCs) (ctx : Context) : M (S * Writer B) unit :=
  if is_empty (token ctx) then unauthorized "no X-Auth-Token found in request header" else
  let! r := call (GetEventServiceRPC e {| es_SessionToken := token ctx; es_PostBody := no_bytes |}) in
  match r.2 with
  | Some err => internal err
  | None => SetHeader "Allow" "GET" ;;; answered r
  end.
Definition EventsRPCs_CreateEventSubscription (e : EventsRPCs) (ctx : Context) : M (S * Writer B) unit :=
  match ReadJSON ctx with
  | inl err => malformed ("error while trying to get JSON body from the event subscription request body: " +:+ err)
  | inr SubscriptionReq =>
      if is_empty (token ctx) then unauthorized "no X-Auth-Token found in request header" else
      let! r := call (CreateEventSubscriptionRPC e
          {| es_SessionToken := token ctx; es_PostBody := Marshal SubscriptionReq |}) in
      match r.2 with
      | Some err => internal err
      | None => answered r
      end
  end.
Definition EventsRPCs_SubmitTestEvent (e : EventsRPCs) (ctx : Context) : M (S * Writer B) unit :=
  match ReadJSON ctx with
  | inl err => malformed ("error while trying to get JSON body from the SubmitTestEvent request body: " +:+ err)
  | inr SubmitTestEventReq =>
      if is_empty (token ctx) then unauthorized "no X-Auth-Token found in request header" else
      let! r := call (SubmitTestEventRPC e
          {| es_SessionToken := token ctx; es_PostBody := Marshal SubmitTestEventReq |}) in
      match r.2 with
      | Some err => internal err
      | None => answered r
      end
  end.
Definition EventsRPCs_GetEventSubscription (e : EventsRPCs) (ctx : Context) : M (S * Writer B) unit :=
  if is_empty (token ctx) then unauthorized "no X-Auth-Token found in request header" else
  let! r := call (GetEventSubscriptionRPC e
      {| ev_SessionToken := token ctx; ev_EventSubscriptionID := Params_Get ctx "id"; ev_UUID := "" |}) in
  match r.2 with
  | Some err =>
      let! response := lift (GeneralError StatusInternalServerError InternalError err []) in
      SetResponseHeader (Header response) ;;;
      SetStatus StatusInternalServerError ;;;
      Write (JSONResponse response)
  | None => SetHeader "Allow" "GET, DELETE" ;;; answered r
  end.
Definition EventsRPCs_DeleteEventSubscription (e : EventsRPCs) (ctx : Context) : M (S * Writer B) unit :=
  if is_empty (token ctx) then unauthorized "no X-Auth-Token found in request header" else
  let! r := call (DeleteEventSubscriptionRPC e
      {| ev_SessionToken := token ctx; ev_EventSubscriptionID := Params_Get ctx "id"; ev_UUID := "" |}) in
  match r.2 with
  | Some err => internal err
  | None => answered r
  end.
Definition EventsRPCs_GetEventSubscriptionsCollection (e : EventsRPCs) (ctx : Context) : M (S * Writer B) unit :=
  if is_empty (token ctx) then unauthorized "no X-Auth-Token found in request header" else
  let! r := call (GetEventSubscriptionsCollectionRPC e
      {| ev_SessionToken := token ctx; ev_EventSubscriptionID := ""; ev_UUID := "" |}) in
  match r.2 with
  | Some err => internal err
  | None => SetHeader "Allow" "GET, POST" ;;; answered r
  end.

(** ** fabrics.go *)

Record FabricRPCs := {
  GetFabricResourceRPC : FabricRequest -> M S (answer (RPC B));
  UpdateFabricResourceRPC : FabricRequest -> M S (answer (RPC B));
  DeleteFabricResourceRPC : FabricRequest -> M S (answer (RPC B));
}.

Definition FabricRPCs_GetFabricCollection (f : FabricRPCs) (ctx : Context) : M (S * Writer B) unit :=
  if is_empty (token ctx) then unauthorized "error: no X-Auth-Token found in request header" else
  let! r := call (GetFabricResourceRPC f
      {| fa_SessionToken := token ctx; fa_URL := URI ctx; fa_Method := ""; fa_RequestBody := no_bytes |}) in
  match nil_and_err r with
  | Some err => internal ("RPC error: " +:+ err)
  | None => let! resp := deref r.1 in respond (with_Header [("Allow", quoted "GET")] resp)
  end.
Definition FabricRPCs_GetFabric (f : FabricRPCs) (ctx : Context) : M (S * Writer B) unit :=
  if is_empty (token ctx) then unauthorized "error: no X-Auth-Token found in request header" else
  let! r := call (GetFabricResourceRPC f
      {| fa_SessionToken := token ctx; fa_URL := URI ctx; fa_Method := ""; fa_RequestBody := no_bytes |}) in
  match nil_and_err r with
  | Some err => internal ("RPC error: " +:+ err)
  | None => let! resp := deref r.1 in respond (with_Header [("Allow", quoted "GET")] resp)
  end.
Definition FabricRPCs_GetFabricSwitchCollection (f : FabricRPCs) (ctx : Context) : M (S * Writer B) unit :=
  if is_empty (token ctx) then unauthorized "error: no X-Auth-Token found in request header" else
  let! r := call (GetFabricResourceRPC f
      {| fa_SessionToken := token ctx; fa_URL := URI ctx; fa_Method := ""; fa_RequestBody := no_bytes |}) in
  match nil_and_err r with
  | Some err => internal ("RPC error: " +:+ err)
  | None => let! resp := deref r.1 in respond (with_Header [("Allow", quoted "GET")] resp)
  end.
Definition FabricRPCs_GetFabricSwitch (f : FabricRPCs) (ctx : Context) : M (S * Writer B) unit :=
  if is_empty (token ctx) then unauthorized "error: no X-Auth-Token found in request header" else
  let! r := call (GetFabricResourceRPC f
      {| fa_SessionToken := token ctx; fa_URL := URI ctx; fa_Method := ""; fa_RequestBody := no_bytes |}) in
  match nil_and_err r with
  | Some err => internal ("RPC error: " +:+ err)
  | None => let! resp := deref r.1 in respond (with_Header [("Allow", quoted "GET")] resp)
  end.
Definition FabricRPCs_GetSwitchPortCollection (f : FabricRPCs) (ctx : Context) : M (S * Writer B) unit :=
  if is_empty (token ctx) then unauthorized "error: no X-Auth-Token found in request header" else
  let! r := call (GetFabricResourceRPC f
      {| fa_SessionToken := token ctx; fa_URL := URI ctx; fa_Method := ""; fa_RequestBody := no_bytes |}) in
  match nil_and_err r with
  | Some err => internal ("RPC error: " +:+ err)
  | None => let! resp := deref r.1 in respond (with_Header [("Allow", quoted "GET")] resp)
  end.
Definition FabricRPCs_GetSwitchPort (f : FabricRPCs) (ctx : Context) : M (S * Writer B) unit :=
  if is_empty (token ctx) then unauthorized "error: no X-Auth-Token found in request header" else
  let! r := call (GetFabricResourceRPC f
      {| fa_SessionToken := token ctx; fa_URL := URI ctx; fa_Method := ""; fa_RequestBody := no_bytes |}) in
  match nil_and_err r with
  | Some err => internal ("RPC error: " +:+ err)
  | None => let! resp := deref r.1 in respond (with_Header [("Allow", quoted "GET" +:+ ", " +:+ quoted "PATCH")] resp)
  end.
Definition FabricRPCs_GetFabricZoneCollection (f : FabricRPCs) (ctx : Context) : M (S * Writer B) unit :=
  if is_empty (token ctx) then unauthorized "error: no X-Auth-Token found in request header" else
  let! r := call (GetFabricResourceRPC f
      {| fa_SessionToken := token ctx; fa_URL := URI ctx; fa_Method := ""; fa_RequestBody := no_bytes |}) in
  match nil_and_err r with
  | Some err => internal ("RPC error: " +:+ err)
  | None => let! resp := deref r.1 in respond (with_Header [("Allow", quoted "GET" +:+ ", " +:+ quoted "POST")] resp)
  end.
Definition FabricRPCs_GetFabricZone (f : FabricRPCs) (ctx : Context) : M (S * Writer B) unit :=
  if is_empty (token ctx) then unauthorized "error: no X-Auth-Token found in request header" else
  let! r := call (GetFabricResourceRPC f
      {| fa_SessionToken := token ctx; fa_URL := URI ctx; fa_Method := ""; fa_RequestBody := no_bytes |}) in
  match nil_and_err r with
  | Some err => internal ("RPC error: " +:+ err)
  | None => let! resp := deref r.1 in respond (with_Header [("Allow", quoted "GET" +:+ ", " +:+ quoted "PUT" +:+ ", " +:+ quoted "PATCH" +:+ ", " +:+ quoted "DELETE")] resp)
  end.
Definition FabricRPCs_GetFabricEndPointCollection (f : FabricRPCs) (ctx : Context) : M (S * Writer B) unit :=
  if is_empty (token ctx) then unauthorized "error: no X-Auth-Token found in request header" else
  let! r := call (GetFabricResourceRPC f
      {| fa_SessionToken := token ctx; fa_URL := URI ctx; fa_Method := ""; fa_RequestBody := no_bytes |}) in
  match nil_and_err r with
  | Some err => internal ("RPC error: " +:+ err)
  | None => let! resp := deref r.1 in respond (with_Header [("Allow", quoted "GET" +:+ ", " +:+ quoted "POST")] resp)
  end.
Definition FabricRPCs_GetFabricEndPoints (f : FabricRPCs) (ctx : Context) : M (S * Writer B) unit :=
  if is_empty (token ctx) then unauthorized "error: no X-Auth-Token found in request header" else
  let! r := call (GetFabricResourceRPC f
      {| fa_SessionToken := token ctx; fa_URL := URI ctx; fa_Method := ""; fa_RequestBody := no_bytes |}) in
  match nil_and_err r with
  | Some err => internal ("RPC error: " +:+ err)
  | None => let! resp := deref r.1 in respond (with_Header [("Allow", quoted "GET" +:+ ", " +:+ quoted "PUT" +:+ ", " +:+ quoted "PATCH" +:+ ", " +:+ quoted "DELETE")] resp)
  end.
Definition FabricRPCs_GetFabricAddressPoolCollection (f : FabricRPCs) (ctx : Context) : M (S * Writer B) unit :=
  if is_empty (token ctx) then unauthorized "error: no X-Auth-Token found in request header" else
  let! r := call (GetFabricResourceRPC f
      {| fa_SessionToken := token ctx; fa_URL := URI ctx; fa_Method := ""; fa_RequestBody := no_bytes |}) in
  match nil_and_err r with
  | Some err => internal ("RPC error: " +:+ err)
  | None => let! resp := deref r.1 in respond (with_Header [("Allow", quoted "GET" +:+ ",  " +:+ quoted "POST")] resp)
  end.
Definition FabricRPCs_GetFabricAddressPool (f : FabricRPCs) (ctx : Context) : M (S * Writer B) unit :=
  if is_empty (token ctx) then unauthorized "error: no X-Auth-Token found in request header" else
  let! r := call (GetFabricResourceRPC f
      {| fa_SessionToken := token ctx; fa_URL := URI ctx; fa_Method := ""; fa_RequestBody := no_bytes |}) in
  match nil_and_err r with
  | Some err => internal ("RPC error: " +:+ err)
  | None => let! resp := deref r.1 in respond (with_Header [("Allow", quoted "GET" +:+ ", " +:+ quoted "PUT" +:+ ", " +:+ quoted "PATCH" +:+ ", " +:+ quoted "DELETE")] resp)
  end.
Definition FabricRPCs_UpdateFabricResource (f : FabricRPCs) (ctx : Context) : M (S * Writer B) unit :=
  if is_empty (token ctx) then unauthorized "error: no X-Auth-Token found in request header" else
  match ReadJSON ctx with
  | inl err => malformed ("error while trying to get JSON body from the  request body: " +:+ err)
  | inr createReq =>
      let! r := call (UpdateFabricResourceRPC f
          {| fa_SessionToken := token ctx; fa_URL := URI ctx; fa_Method := Method (ctx_Request ctx);
             fa_RequestBody := Marshal createReq |}) in
      match nil_and_err r with
      | Some err => internal ("RPC error: " +:+ err)
      | None => answered r
      end
  end.
Definition FabricRPCs_DeleteFabricResource (f : FabricRPCs) (ctx : Context) : M (S * Writer B) unit :=
  if is_empty (token ctx) then unauthorized "error: no X-Auth-Token found in request header" else
  let! r := call (DeleteFabricResourceRPC f
      {| fa_SessionToken := token ctx; fa_URL := URI ctx; fa_Method := ""; fa_RequestBody := no_bytes |}) in
  match nil_and_err r with
  | Some err => internal ("RPC error: " +:+ err)
  | None => answered r
  end.


End handle.
Arguments SystemRPCs S B : clear implicits.
Arguments ChassisRPCs S B : clear implicits.
Arguments ManagersRPCs S B : clear implicits.
Arguments EventsRPCs S B : clear implicits.
Arguments FabricRPCs S B : clear implicits.
