(* ===== verification/HandleServices.v ===== *)
(** svc-api/handle: the requests for aggregation, updates, telemetry and composition. *)
From stdpp Require Import base gmap list strings.
From S2P Require Import Prelude Go Response Http Proto.
Open Scope string_scope.

Section handle.
Context {S B : Type}.

(** ** aggregator.go *)

Record AggregatorRPCs := {
  GetAggregationServiceRPC : AggregatorRequest -> M S (answer (RPC B));
  ResetRPC : AggregatorRequest -> M S (answer (RPC B));
  ag_SetDefaultBootOrderRPC : AggregatorRequest -> M S (answer (RPC B));
  AddAggregationSourceRPC : AggregatorRequest -> M S (answer (RPC B));
  GetAllAggregationSourceRPC : AggregatorRequest -> M S (answer (RPC B));
  GetAggregationSourceRPC : AggregatorRequest -> M S (answer (RPC B));
  UpdateAggregationSourceRPC : AggregatorRequest -> M S (answer (RPC B));
  DeleteAggregationSourceRPC : AggregatorRequest -> M S (answer (RPC B));
  CreateAggregateRPC : AggregatorRequest -> M S (answer (RPC B));
  GetAggregateCollectionRPC : AggregatorRequest -> M S (answer (RPC B));
  GetAggregateRPC : AggregatorRequest -> M S (answer (RPC B));
  DeleteAggregateRPC : AggregatorRequest -> M S (answer (RPC B));
  AddElementsToAggregateRPC : AggregatorRequest -> M S (answer (RPC B));
  RemoveElementsFromAggregateRPC : AggregatorRequest -> M S (answer (RPC B));
  ResetAggregateElementsRPC : AggregatorRequest -> M S (answer (RPC B));
  SetDefaultBootOrderAggregateElementsRPC : AggregatorRequest -> M S (answer (RPC B));
  GetAllConnectionMethodsRPC : AggregatorRequest -> M S (answer (RPC B));
  GetConnectionMethodRPC : AggregatorRequest -> M S (answer (RPC B));
}.

Definition AggregatorRPCs_GetAggregationService (a : AggregatorRPCs) (ctx : Context) : M (S * Writer B) unit :=
  if is_empty (token ctx) then unauthorized "no X-Auth-Token found in request header" else
  let! r := call (GetAggregationServiceRPC a
      {| ag_SessionToken := token ctx; ag_RequestBody := no_bytes; ag_URL := "" |}) in
  match r.2 with
  | Some err => internal ("something went wrong with the RPC calls: " +:+ err)
  | None => SetHeader "Allow" "GET" ;;; answered r
  end.
Definition AggregatorRPCs_Reset (a : AggregatorRPCs) (ctx : Context) : M (S * Writer B) unit :=
  match ReadJSON ctx with
  | inl err => malformed ("error while trying to get JSON body from the  request body: " +:+ err)
  | inr req =>
      if is_empty (token ctx) then unauthorized "no X-Auth-Token found in request header" else
      let! r := call (ResetRPC a {| ag_SessionToken := token ctx; ag_RequestBody := Marshal req; ag_URL := "" |}) in
      match r.2 with
      | Some err => internal ("RPC error: " +:+ err)
      | None => answered r
      end
  end.
Definition AggregatorRPCs_SetDefaultBootOrder (a : AggregatorRPCs) (ctx : Context) : M (S * Writer B) unit :=
  match ReadJSON ctx with
  | inl err => malformed ("error while trying to get JSON body from the  request body: " +:+ err)
  | inr req =>
      if is_empty (token ctx) then unauthorized "no X-Auth-Token found in request header" else
      let! r := call (ag_SetDefaultBootOrderRPC a
          {| ag_SessionToken := token ctx; ag_RequestBody := Marshal req; ag_URL := "" |}) in
      match r.2 with
      | Some err => internal ("RPC error: " +:+ err)
      | None => answered r
      end
  end.
Definition AggregatorRPCs_AddAggregationSource (a : AggregatorRPCs) (ctx : Context) : M (S * Writer B) unit :=
  match ReadJSON ctx with
  | inl err => malformed ("error while trying to get JSON body from the aggregator request body: " +:+ err)
  | inr req =>
      if is_empty (token ctx) then unauthorized "no X-Auth-Token found in request header" else
      let! r := call (AddAggregationSourceRPC a
          {| ag_SessionToken := token ctx; ag_RequestBody := Marshal req; ag_URL := "" |}) in
      match r.2 with
      | Some err => internal ("RPC error: " +:+ err)
      | None => answered r
      end
  end.
Definition AggregatorRPCs_GetAllAggregationSource (a : AggregatorRPCs) (ctx : Context) : M (S * Writer B) unit :=
  if is_empty (token ctx) then unauthorized "no X-Auth-Token found in request header" else
  let! r := call (GetAllAggregationSourceRPC a
      {| ag_SessionToken := token ctx; ag_RequestBody := no_bytes; ag_URL := "" |}) in
  match r.2 with
  | Some err => internal (" RPC error:" +:+ err)
  | None => SetHeader "Allow" "GET, POST" ;;; answered r
  end.
Definition AggregatorRPCs_GetAggregationSource (a : AggregatorRPCs) (ctx : Context) : M (S * Writer B) unit :=
  if is_empty (token ctx) then unauthorized "no X-Auth-Token found in request header" else
  let! r := call (GetAggregationSourceRPC a
      {| ag_SessionToken := token ctx; ag_RequestBody := no_bytes; ag_URL := URI ctx |}) in
  match r.2 with
  | Some err => internal (" RPC error:" +:+ err)
  | None => SetHeader "Allow" "GET, PATCH, DELETE" ;;; answered r
  end.
Definition AggregatorRPCs_UpdateAggregationSource (a : AggregatorRPCs) (ctx : Context) : M (S * Writer B) unit :=
  match ReadJSON ctx with
  | inl err => malformed ("error while trying to get JSON body from the aggregator request body: " +:+ err)
  | inr req =>
      if is_empty (token ctx) then unauthorized "no X-Auth-Token found in request header" else
      let! r := call (UpdateAggregationSourceRPC a
          {| ag_SessionToken := token ctx; ag_RequestBody := Marshal req; ag_URL := URI ctx |}) in
      match r.2 with
      | Some err => internal ("RPC error: " +:+ err)
      | None => answered r
      end
  end.
Definition AggregatorRPCs_DeleteAggregationSource (a : AggregatorRPCs) (ctx : Context) : M (S * Writer B) unit :=
  if is_empty (token ctx) then unauthorized "no X-Auth-Token found in request header" else
  let! r := call (DeleteAggregationSourceRPC a
      {| ag_SessionToken := token ctx; ag_RequestBody := no_bytes; ag_URL := URI ctx |}) in
  match r.2 with
  | Some err => internal (" RPC error:" +:+ err)
  | None => answered r
  end.
Definition AggregatorRPCs_CreateAggregate (a : AggregatorRPCs) (ctx : Context) : M (S * Writer B) unit :=
  match ReadJSON ctx with
  | inl err => malformed ("error while trying to get JSON body from the aggregator request body: " +:+ err)
  | inr req =>
      if is_empty (token ctx) then unauthorized "no X-Auth-Token found in request header" else
      let! r := call (CreateAggregateRPC a
          {| ag_SessionToken := token ctx; ag_RequestBody := Marshal req; ag_URL := "" |}) in
      match r.2 with
      | Some err => internal ("RPC error: " +:+ err)
      | None => answered r
      end
  end.
Definition AggregatorRPCs_GetAggregateCollection (a : AggregatorRPCs) (ctx : Context) : M (S * Writer B) unit :=
  if is_empty (token ctx) then unauthorized "no X-Auth-Token found in request header" else
  let! r := call (GetAggregateCollectionRPC a
      {| ag_SessionToken := token ctx; ag_RequestBody := no_bytes; ag_URL := "" |}) in
  match r.2 with
  | Some err => internal ("something went wrong with the RPC calls: " +:+ err)
  | None => SetHeader "Allow" "GET, POST" ;;; answered r
  end.
Definition AggregatorRPCs_GetAggregate (a : AggregatorRPCs) (ctx : Context) : M (S * Writer B) unit :=
  if is_empty (token ctx) then unauthorized "no X-Auth-Token found in request header" else
  let! r := call (GetAggregateRPC a
      {| ag_SessionToken := token ctx; ag_RequestBody := no_bytes; ag_URL := URI ctx |}) in
  match r.2 with
  | Some err => internal ("something went wrong with the RPC calls: " +:+ err)
  | None => SetHeader "Allow" "GET, DELETE" ;;; answered r
  end.
Definition AggregatorRPCs_DeleteAggregate (a : AggregatorRPCs) (ctx : Context) : M (S * Writer B) unit :=
  if is_empty (token ctx) then unauthorized "no X-Auth-Token found in request header" else
  let! r := call (DeleteAggregateRPC a
      {| ag_SessionToken := token ctx; ag_RequestBody := no_bytes; ag_URL := URI ctx |}) in
  match r.2 with
  | Some err => internal ("something went wrong with the RPC calls: " +:+ err)
  | None => answered r
  end.
Definition AggregatorRPCs_AddElementsToAggregate (a : AggregatorRPCs) (ctx : Context) : M (S * Writer B) unit :=
  match ReadJSON ctx with
  | inl err => malformed ("error while trying to get JSON body from the aggregator request body: " +:+ err)
  | inr req =>
      if is_empty (token ctx) then unauthorized "no X-Auth-Token found in request header" else
      let! r := call (AddElementsToAggregateRPC a
          {| ag_SessionToken := token ctx; ag_RequestBody := Marshal req; ag_URL := URI ctx |}) in
      match r.2 with
      | Some err => internal ("something went wrong with the RPC calls: " +:+ err)
      | None => answered r
      end
  end.
Definition AggregatorRPCs_RemoveElementsFromAggregate (a : AggregatorRPCs) (ctx : Context) : M (S * Writer B) unit :=
  match ReadJSON ctx with
  | inl err => malformed ("error while trying to get JSON body from the aggregator request body: " +:+ err)
  | inr req =>
      if is_empty (token ctx) then unauthorized "no X-Auth-Token found in request header" else
      let! r := call (RemoveElementsFromAggregateRPC a
          {| ag_SessionToken := token ctx; ag_RequestBody := Marshal req; ag_URL := URI ctx |}) in
      match r.2 with
      | Some err => internal ("something went wrong with the RPC calls: " +:+ err)
      | None => answered r
      end
  end.
Definition AggregatorRPCs_ResetAggregateElements (a : AggregatorRPCs) (ctx : Context) : M (S * Writer B) unit :=
  match ReadJSON ctx with
  | inl err => malformed ("error while trying to get JSON body from the aggregator request body: " +:+ err)
  | inr req =>
      if is_empty (token ctx) then unauthorized "no X-Auth-Token found in request header" else
      let! r := call (ResetAggregateElementsRPC a
          {| ag_SessionToken := token ctx; ag_RequestBody := Marshal req; ag_URL := URI ctx |}) in
      match r.2 with
      | Some err => internal ("something went wrong with the RPC calls: " +:+ err)
      | None => answered r
      end
  end.
Definition AggregatorRPCs_SetDefaultBootOrderAggregateElements (a : AggregatorRPCs) (ctx : Context) : M (S * Writer B) unit :=
  if is_empty (token ctx) then unauthorized "no X-Auth-Token found in request header" else
  let! r := call (SetDefaultBootOrderAggregateElementsRPC a
      {| ag_SessionToken := token ctx; ag_RequestBody := no_bytes; ag_URL := URI ctx |}) in
  match r.2 with
  | Some err => internal ("something went wrong with the RPC calls: " +:+ err)
  | None => answered r
  end.
Definition AggregatorRPCs_GetAllConnectionMethods (a : AggregatorRPCs) (ctx : Context) : M (S * Writer B) unit :=
  if is_empty (token ctx) then unauthorized "no X-Auth-Token found in request header" else
  let! r := call (GetAllConnectionMethodsRPC a
      {| ag_SessionToken := token ctx; ag_RequestBody := no_bytes; ag_URL := "" |}) in
  match r.2 with
  | Some err => internal ("something went wrong with the RPC calls: " +:+ err)
  | None => SetHeader "Allow" "GET" ;;; answered r
  end.
Definition AggregatorRPCs_GetConnectionMethod (a : AggregatorRPCs) (ctx : Context) : M (S * Writer B) unit :=
  if is_empty (token ctx) then unauthorized "no X-Auth-Token found in request header" else
  let! r := call (GetConnectionMethodRPC a
      {| ag_SessionToken := token ctx; ag_RequestBody := no_bytes; ag_URL := URI ctx |}) in
  match r.2 with
  | Some err => internal ("something went wrong with the RPC calls: " +:+ err)
  | None => SetHeader "Allow" "GET" ;;; answered r
  end.

(** ** update.go *)

Record UpdateRPCs := {
  GetUpdateServiceRPC : UpdateRequest -> M S (answer (RPC B));
  SimpleUpdateRPC : UpdateRequest -> M S (answer (RPC B));
  StartUpdateRPC : UpdateRequest -> M S (answer (RPC B));
  GetFirmwareInventoryRPC : UpdateRequest -> M S (answer (RPC B));
  GetFirmwareInventoryCollectionRPC : UpdateRequest -> M S (answer (RPC B));
  GetSoftwareInventoryRPC : UpdateRequest -> M S (answer (RPC B));
  GetSoftwareInventoryCollectionRPC : UpdateRequest -> M S (answer (RPC B));
}.

Definition UpdateRPCs_GetUpdateService (a : UpdateRPCs) (ctx : Context) : M (S * Writer B) unit :=
  if is_empty (token ctx) then unauthorized "error: no X-Auth-Token found in request header" else
  let! r := call (GetUpdateServiceRPC a
      {| up_SessionToken := token ctx; up_URL := ""; up_RequestBody := no_bytes; up_ResourceID := "" |}) in
  match r.2 with
  | Some err => internal ("error: something went wrong with the RPC calls: " +:+ err)
  | None => SetHeader "Allow" "GET" ;;; answered r
  end.
Definition UpdateRPCs_GetFirmwareInventoryCollection (a : UpdateRPCs) (ctx : Context) : M (S * Writer B) unit :=
  if is_empty (token ctx) then unauthorized "error: no X-Auth-Token found in request header" else
  let! r := call (GetFirmwareInventoryCollectionRPC a
      {| up_SessionToken := token ctx; up_URL := ""; up_RequestBody := no_bytes; up_ResourceID := "" |}) in
  match r.2 with
  | Some err => internal ("error: something went wrong with the RPC calls: " +:+ err)
  | None => SetHeader "Allow" "GET" ;;; answered r
  end.
Definition UpdateRPCs_GetSoftwareInventoryCollection (a : UpdateRPCs) (ctx : Context) : M (S * Writer B) unit :=
  if is_empty (token ctx) then unauthorized "error: no X-Auth-Token found in request header" else
  let! r := call (GetSoftwareInventoryCollectionRPC a
      {| up_SessionToken := token ctx; up_URL := ""; up_RequestBody := no_bytes; up_ResourceID := "" |}) in
  match r.2 with
  | Some err => internal ("error: something went wrong with the RPC calls: " +:+ err)
  | None => SetHeader "Allow" "GET" ;;; answered r
  end.
Definition UpdateRPCs_GetFirmwareInventory (a : UpdateRPCs) (ctx : Context) : M (S * Writer B) unit :=
  if is_empty (token ctx) then unauthorized "error: no X-Auth-Token found in request header" else
  let! r := call (GetFirmwareInventoryRPC a
      {| up_SessionToken := token ctx; up_URL := URI ctx; up_RequestBody := no_bytes;
         up_ResourceID := Params_Get ctx "firmwareInventory_id" |}) in
  match r.2 with
  | Some err => internal ("error: something went wrong with the RPC calls: " +:+ err)
  | None => SetHeader "Allow" "GET" ;;; answered r
  end.
Definition UpdateRPCs_GetSoftwareInventory (a : UpdateRPCs) (ctx : Context) : M (S * Writer B) unit :=
  if is_empty (token ctx) then unauthorized "error: no X-Auth-Token found in request header" else
  let! r := call (GetSoftwareInventoryRPC a
      {| up_SessionToken := token ctx; up_URL := URI ctx; up_RequestBody := no_bytes;
         up_ResourceID := Params_Get ctx "softwareInventory_id" |}) in
  match r.2 with
  | Some err => internal ("error: something went wrong with the RPC calls: " +:+ err)
  | None => SetHeader "Allow" "GET" ;;; answered r
  end.
Definition UpdateRPCs_SimpleUpdate (a : UpdateRPCs) (ctx : Context) : M (S * Writer B) unit :=
  match ReadJSON ctx with
  | inl err => malformed ("error while trying to get JSON body from the simple update request body: " +:+ err)
  | inr req =>
      if is_empty (token ctx) then unauthorized "error: no X-Auth-Token found in request header" else
      let! r := call (SimpleUpdateRPC a
          {| up_SessionToken := token ctx; up_URL := ""; up_RequestBody := Marshal req; up_ResourceID := "" |}) in
      match r.2 with
      | Some err => internal ("RPC error:" +:+ err)
      | None => answered r
      end
  end.
Definition UpdateRPCs_StartUpdate (a : UpdateRPCs) (ctx : Context) : M (S * Writer B) unit :=
  if is_empty (token ctx) then unauthorized "error: no X-Auth-Token found in request header" else
  let! r := call (StartUpdateRPC a
      {| up_SessionToken := token ctx; up_URL := ""; up_RequestBody := no_bytes; up_ResourceID := "" |}) in
  match r.2 with
  | Some err => internal ("RPC error:" +:+ err)
  | None => answered r
  end.

(** ** telemetry.go *)

Record TelemetryRPCs := {
  GetTelemetryServiceRPC : TelemetryRequest -> M S (answer (RPC B));
  GetMetricDefinitionCollectionRPC : TelemetryRequest -> M S (answer (RPC B));
  GetMetricReportDefinitionCollectionRPC : TelemetryRequest -> M S (answer (RPC B));
  GetMetricReportCollectionRPC : TelemetryRequest -> M S (answer (RPC B));
  GetTriggerCollectionRPC : TelemetryRequest -> M S (answer (RPC B));
  GetMetricDefinitionRPC : TelemetryRequest -> M S (answer (RPC B));
  GetMetricReportDefinitionRPC : TelemetryRequest -> M S (answer (RPC B));
  GetMetricReportRPC : TelemetryRequest -> M S (answer (RPC B));
  GetTriggerRPC : TelemetryRequest -> M S (answer (RPC B));
  UpdateTriggerRPC : TelemetryRequest -> M S (answer (RPC B));
}.

Definition TelemetryRPCs_GetTelemetryService (a : TelemetryRPCs) (ctx : Context) : M (S * Writer B) unit :=
  if is_empty (token ctx) then unauthorized "error: no X-Auth-Token found in request header" else
  let! r := call (GetTelemetryServiceRPC a
      {| te_SessionToken := token ctx; te_URL := ""; te_RequestBody := no_bytes; te_ResourceID := "" |}) in
  match r.2 with
  | Some err => internal ("error: something went wrong with the RPC calls: " +:+ err)
  | None => SetHeader "Allow" "GET" ;;; answered r
  end.
Definition TelemetryRPCs_GetMetricDefinitionCollection (a : TelemetryRPCs) (ctx : Context) : M (S * Writer B) unit :=
  if is_empty (token ctx) then unauthorized "error: no X-Auth-Token found in request header" else
  let! r := call (GetMetricDefinitionCollectionRPC a
      {| te_SessionToken := token ctx; te_URL := URI ctx; te_RequestBody := no_bytes; te_ResourceID := "" |}) in
  match r.2 with
  | Some err => internal ("error: something went wrong with the RPC calls: " +:+ err)
  | None => SetHeader "Allow" "GET" ;;; answered r
  end.
Definition TelemetryRPCs_GetMetricReportDefinitionCollection (a : TelemetryRPCs) (ctx : Context) : M (S * Writer B) unit :=
  if is_empty (token ctx) then unauthorized "error: no X-Auth-Token found in request header" else
  let! r := call (GetMetricReportDefinitionCollectionRPC a
      {| te_SessionToken := token ctx; te_URL := URI ctx; te_RequestBody := no_bytes; te_ResourceID := "" |}) in
  match r.2 with
  | Some err => internal ("error: something went wrong with the RPC calls: " +:+ err)
  | None => SetHeader "Allow" "GET" ;;; answered r
  end.
Definition TelemetryRPCs_GetMetricReportCollection (a : TelemetryRPCs) (ctx : Context) : M (S * Writer B) unit :=
  if is_empty (token ctx) then unauthorized "error: no X-Auth-Token found in request header" else
  let! r := call (GetMetricReportCollectionRPC a
      {| te_SessionToken := token ctx; te_URL := URI ctx; te_RequestBody := no_bytes; te_ResourceID := "" |}) in
  match r.2 with
  | Some err => internal ("error: something went wrong with the RPC calls: " +:+ err)
  | None => SetHeader "Allow" "GET" ;;; answered r
  end.
Definition TelemetryRPCs_GetTriggerCollection (a : TelemetryRPCs) (ctx : Context) : M (S * Writer B) unit :=
  if is_empty (token ctx) then unauthorized "error: no X-Auth-Token found in request header" else
  let! r := call (GetTriggerCollectionRPC a
      {| te_SessionToken := token ctx; te_URL := URI ctx; te_RequestBody := no_bytes; te_ResourceID := "" |}) in
  match r.2 with
  | Some err => internal ("error: something went wrong with the RPC calls: " +:+ err)
  | None => SetHeader "Allow" "GET" ;;; answered r
  end.
Definition TelemetryRPCs_GetMetricDefinition (a : TelemetryRPCs) (ctx : Context) : M (S * Writer B) unit :=
  if is_empty (token ctx) then unauthorized "error: no X-Auth-Token found in request header" else
  let! r := call (GetMetricDefinitionRPC a
      {| te_SessionToken := token ctx; te_URL := URI ctx; te_RequestBody := no_bytes; te_ResourceID := "" |}) in
  match r.2 with
  | Some err => internal ("error: something went wrong with the RPC calls: " +:+ err)
  | None => SetHeader "Allow" "GET" ;;; answered r
  end.
Definition TelemetryRPCs_GetMetricReportDefinition (a : TelemetryRPCs) (ctx : Context) : M (S * Writer B) unit :=
  if is_empty (token ctx) then unauthorized "error: no X-Auth-Token found in request header" else
  let! r := call (GetMetricReportDefinitionRPC a
      {| te_SessionToken := token ctx; te_URL := URI ctx; te_RequestBody := no_bytes; te_ResourceID := "" |}) in
  match r.2 with
  | Some err => internal ("error: something went wrong with the RPC calls: " +:+ err)
  | None => SetHeader "Allow" "GET" ;;; answered r
  end.
Definition TelemetryRPCs_GetMetricReport (a : TelemetryRPCs) (ctx : Context) : M (S * Writer B) unit :=
  if is_empty (token ctx) then unauthorized "error: no X-Auth-Token found in request header" else
  let! r := call (GetMetricReportRPC a
      {| te_SessionToken := token ctx; te_URL := URI ctx; te_RequestBody := no_bytes; te_ResourceID := "" |}) in
  match r.2 with
  | Some err => internal ("error: something went wrong with the RPC calls: " +:+ err)
  | None => SetHeader "Allow" "GET" ;;; answered r
  end.
Definition TelemetryRPCs_GetTrigger (a : TelemetryRPCs) (ctx : Context) : M (S * Writer B) unit :=
  if is_empty (token ctx) then unauthorized "error: no X-Auth-Token found in request header" else
  let! r := call (GetTriggerRPC a
      {| te_SessionToken := token ctx; te_URL := URI ctx; te_RequestBody := no_bytes; te_ResourceID := "" |}) in
  match r.2 with
  | Some err => internal ("error: something went wrong with the RPC calls: " +:+ err)
  | None => SetHeader "Allow" "GET, PATCH" ;;; answered r
  end.
Definition TelemetryRPCs_UpdateTrigger (a : TelemetryRPCs) (ctx : Context) : M (S * Writer B) unit :=
  if is_empty (token ctx) then unauthorized "error: no X-Auth-Token found in request header" else
  let! r := call (UpdateTriggerRPC a
      {| te_SessionToken := token ctx; te_URL := ""; te_RequestBody := no_bytes; te_ResourceID := "" |}) in
  match r.2 with
  | Some err => internal ("error: something went wrong with the RPC calls: " +:+ err)
  | None => answered r
  end.

(** ** compositionservice.go *)

Record CompositionServiceRPCs := {
  GetCompositionServiceRPC : GetCompositionServiceRequest -> M S (answer (RPC B));
  GetResourceBlockCollectionRPC : GetCompositionResourceRequest -> M S (answer (RPC B));
  GetResourceBlockRPC : GetCompositionResourceRequest -> M S (answer (RPC B));
  CreateResourceBlockRPC : CreateCompositionResourceRequest -> M S (answer (RPC B));
  DeleteResourceBlockRPC : DeleteCompositionResourceRequest -> M S (answer (RPC B));
  GetResourceZoneCollectionRPC : GetCompositionResourceRequest -> M S (answer (RPC B));
  GetResourceZoneRPC : GetCompositionResourceRequest -> M S (answer (RPC B));
  CreateResourceZoneRPC : CreateCompositionResourceRequest -> M S (answer (RPC B));
  DeleteResourceZoneRPC : DeleteCompositionResourceRequest -> M S (answer (RPC B));
  ComposeRPC : ComposeRequest -> M S (answer (RPC B));
  GetActivePoolRPC : GetCompositionResourceRequest -> M S (answer (RPC B));
  GetFreePoolRPC : GetCompositionResourceRequest -> M S (answer (RPC B));
  GetCompositionReservationsRPC : GetCompositionResourceRequest -> M S (answer (RPC B));
}.

Definition CompositionServiceRPCs_GetCompositionService (cs : CompositionServiceRPCs) (ctx : Context) : M (S * Writer B) unit :=
  if is_empty (token ctx) then fail_bare StatusUnauthorized NoValidSession "error: no X-Auth-Token found in request header" else
  let! r := call (GetCompositionServiceRPC cs
      {| cs_SessionToken := token ctx; cs_RequestParam := ""; cs_URL := URI ctx |}) in
  match r.2 with
  | Some err => fail_bare StatusInternalServerError InternalError ("error:  RPC error:" +:+ err)
  | None => answered r
  end.
Definition CompositionServiceRPCs_GetResourceBlockCollection (cs : CompositionServiceRPCs) (ctx : Context) : M (S * Writer B) unit :=
  if is_empty (token ctx) then fail_bare StatusUnauthorized NoValidSession "error: no X-Auth-Token found in request header" else
  let! r := call (GetResourceBlockCollectionRPC cs
      {| co_SessionToken := token ctx; co_RequestParam := ""; co_URL := URI ctx; co_ResourceID := "" |}) in
  match r.2 with
  | Some err => fail_bare StatusInternalServerError InternalError ("error:  RPC error:" +:+ err)
  | None => answered r
  end.
Definition CompositionServiceRPCs_GetResourceBlock (cs : CompositionServiceRPCs) (ctx : Context) : M (S * Writer B) unit :=
  if is_empty (token ctx) then fail_bare StatusUnauthorized NoValidSession "error: no X-Auth-Token found in request header" else
  let! r := call (GetResourceBlockRPC cs
      {| co_SessionToken := token ctx; co_RequestParam := ""; co_URL := URI ctx;
         co_ResourceID := Params_Get ctx "id" |}) in
  match r.2 with
  | Some err => fail_bare StatusInternalServerError InternalError ("error:  RPC error:" +:+ err)
  | None => answered r
  end.
Definition CompositionServiceRPCs_CreateResourceBlock (cs : CompositionServiceRPCs) (ctx : Context) : M (S * Writer B) unit :=
  match ReadJSON ctx with
  | inl err => fail_bare StatusBadRequest MalformedJSON ("error while trying to get JSON body from the create Resource Block request body: " +:+ err)
  | inr req =>
      if is_empty (token ctx) then fail_bare StatusUnauthorized NoValidSession "error: no X-Auth-Token found in request header" else
      let! r := call (CreateResourceBlockRPC cs
          {| cco_SessionToken := token ctx; cco_URL := URI ctx; cco_RequestBody := Marshal req |}) in
      match r.2 with
      | Some err => fail_bare StatusInternalServerError InternalError ("RPC error:" +:+ err)
      | None => answered r
      end
  end.
Definition CompositionServiceRPCs_DeleteResourceBlock (cs : CompositionServiceRPCs) (ctx : Context) : M (S * Writer B) unit :=
  if is_empty (token ctx) then fail_bare StatusUnauthorized NoValidSession "error: no X-Auth-Token found in request header" else
  let! r := call (DeleteResourceBlockRPC cs {| dco_SessionToken := token ctx; dco_URL := URI ctx |}) in
  match r.2 with
  | Some err => fail_bare StatusInternalServerError InternalError ("RPC error:" +:+ err)
  | None => answered r
  end.
Definition CompositionServiceRPCs_GetResourceZoneCollection (cs : CompositionServiceRPCs) (ctx : Context) : M (S * Writer B) unit :=
  if is_empty (token ctx) then fail_bare StatusUnauthorized NoValidSession "error: no X-Auth-Token found in request header" else
  let! r := call (GetResourceZoneCollectionRPC cs
      {| co_SessionToken := token ctx; co_RequestParam := ""; co_URL := URI ctx; co_ResourceID := "" |}) in
  match r.2 with
  | Some err => fail_bare StatusInternalServerError InternalError ("error:  RPC error:" +:+ err)
  | None => answered r
  end.
Definition CompositionServiceRPCs_GetResourceZone (cs : CompositionServiceRPCs) (ctx : Context) : M (S * Writer B) unit :=
  if is_empty (token ctx) then fail_bare StatusUnauthorized NoValidSession "error: no X-Auth-Token found in request header" else
  let! r := call (GetResourceZoneRPC cs
      {| co_SessionToken := token ctx; co_RequestParam := ""; co_URL := URI ctx;
         co_ResourceID := Params_Get ctx "id" |}) in
  match r.2 with
  | Some err => fail_bare StatusInternalServerError InternalError ("error:  RPC error:" +:+ err)
  | None => answered r
  end.
Definition CompositionServiceRPCs_CreateResourceZone (cs : CompositionServiceRPCs) (ctx : Context) : M (S * Writer B) unit :=
  match ReadJSON ctx with
  | inl err => fail_bare StatusBadRequest MalformedJSON ("error while trying to get JSON body from the create Resource zone request body: " +:+ err)
  | inr req =>
      if is_empty (token ctx) then fail_bare StatusUnauthorized NoValidSession "error: no X-Auth-Token found in request header" else
      let! r := call (CreateResourceZoneRPC cs
          {| cco_SessionToken := token ctx; cco_URL := URI ctx; cco_RequestBody := Marshal req |}) in
      match r.2 with
      | Some err => fail_bare StatusInternalServerError InternalError ("RPC error:" +:+ err)
      | None => answered r
      end
  end.
Definition CompositionServiceRPCs_DeleteResourceZone (cs : CompositionServiceRPCs) (ctx : Context) : M (S * Writer B) unit :=
  if is_empty (token ctx) then fail_bare StatusUnauthorized NoValidSession "error: no X-Auth-Token found in request header" else
  let! r := call (DeleteResourceZoneRPC cs {| dco_SessionToken := token ctx; dco_URL := URI ctx |}) in
  match r.2 with
  | Some err => fail_bare StatusInternalServerError InternalError ("RPC error:" +:+ err)
  | None => answered r
  end.
Definition CompositionServiceRPCs_Compose (cs : CompositionServiceRPCs) (ctx : Context) : M (S * Writer B) unit :=
  match ReadJSON ctx with
  | inl err => fail_bare StatusBadRequest MalformedJSON ("error while trying to get JSON body from the compose request body: " +:+ err)
  | inr req =>
      if is_empty (token ctx) then fail_bare StatusUnauthorized NoValidSession "error: no X-Auth-Token found in request header" else
      let! r := call (ComposeRPC cs
          {| cm_SessionToken := token ctx; cm_URL := URI ctx; cm_RequestBody := Marshal req |}) in
      match r.2 with
      | Some err => fail_bare StatusInternalServerError InternalError ("RPC error:" +:+ err)
      | None => answered r
      end
  end.
Definition CompositionServiceRPCs_GetActivePool (cs : CompositionServiceRPCs) (ctx : Context) : M (S * Writer B) unit :=
  if is_empty (token ctx) then fail_bare StatusUnauthorized NoValidSession "error: no X-Auth-Token found in request header" else
  let! r := call (GetActivePoolRPC cs
      {| co_SessionToken := token ctx; co_RequestParam := ""; co_URL := URI ctx; co_ResourceID := "" |}) in
  match r.2 with
  | Some err => fail_bare StatusInternalServerError InternalError ("RPC error:" +:+ err)
  | None => answered r
  end.
Definition CompositionServiceRPCs_GetFreePool (cs : CompositionServiceRPCs) (ctx : Context) : M (S * Writer B) unit :=
  if is_empty (token ctx) then fail_bare StatusUnauthorized NoValidSession "error: no X-Auth-Token found in request header" else
  let! r := call (GetFreePoolRPC cs
      {| co_SessionToken := token ctx; co_RequestParam := ""; co_URL := URI ctx; co_ResourceID := "" |}) in
  match r.2 with
  | Some err => fail_bare StatusInternalServerError InternalError ("RPC error:" +:+ err)
  | None => answered r
  end.
Definition CompositionServiceRPCs_GetCompositionReservations (cs : CompositionServiceRPCs) (ctx : Context) : M (S * Writer B) unit :=
  if is_empty (token ctx) then fail_bare StatusUnauthorized NoValidSession "error: no X-Auth-Token found in request header" else
  let! r := call (GetCompositionReservationsRPC cs
      {| co_SessionToken := token ctx; co_RequestParam := ""; co_URL := URI ctx; co_ResourceID := "" |}) in
  match r.2 with
  | Some err => fail_bare StatusInternalServerError InternalError ("RPC error:" +:+ err)
  | None => answered r
  end.


End handle.
Arguments AggregatorRPCs S B : clear implicits.
Arguments UpdateRPCs S B : clear implicits.
Arguments TelemetryRPCs S B : clear implicits.
Arguments CompositionServiceRPCs S B : clear implicits.
