(* ===== verification/HandleFixed.v ===== *)
(** svc-api/handle/handlers.go, with svc-api/models and svc-api/response: the documents the gateway
    makes itself, the registries, and the answers to methods that a path does not have.

    The directory of the registries and the service registry (etcd) are outside of the process.  The
    registries read the on-disk database with the pools of the gateway's own process ([own]). *)
From stdpp Require Import base gmap list strings.
From Stdlib Require Import Ascii.
From S2P Require Import Prelude Go GoTime GoText Response Http Redis World ConnPool AsModel.
Open Scope string_scope.

(** ** Names of the services (lib-utilities/services/name.go) *)

Definition AccountSession := "svc.account.session".
Definition Tasks := "svc.task".
Definition Aggregator := "svc.aggregator".
Definition Systems := "svc.systems".
Definition Events := "svc.events".
Definition Fabrics := "svc.fabrics".
Definition Managers := "svc.managers".
Definition Update := "svc.update".
Definition Telemetry := "svc.telemetry".
Definition CompositionService := "svc.composition.service".

(** ** What is outside of the process *)

(** Whether etcd can be reached, and whether it holds a key with a prefix. *)
Class Discovery `{Env} : Type := {
  etcd_connects : env -> bool;
  registered : string -> env -> bool;
}.
(** config.Data.RootServiceUUID and RegistryStorePath, the names in that directory (or an error),
    and the file of a path. *)
Class RegistryStore : Type := {
  RootServiceUUID : string;
  RegistryStorePath : string;
  ReadDir : string -> option (list string);
  ReadFile : string -> option jtext;
}.

(** ** Metadata (models.Metadata: the references, and the namespaces and aliases of each) *)

Definition schema (file : string) (l : list (string * string)) : string * list (string * string) :=
  ("http://redfish.dmtf.org/schemas/v1/" +:+ file, l).
Definition plain (namespace : string) : string * string := (namespace, "").
Definition metadata_1 : list (string * list (string * string)) :=
  [schema "AccountService_v1.xml" [plain "AccountService"; plain "AccountService.v1_10_0"];
   schema "AddressPool_v1.xml" [plain "AddressPool"; plain "AddressPool.v1_2_0"];
   schema "AddressPoolCollection_v1.xml" [plain "AddressPoolCollection"];
   schema "Aggregate_v1.xml" [plain "Aggregate"; plain "Aggregate.v1_0_1"];
   schema "AggregateCollection_v1.xml" [plain "AggregateCollection"];
   schema "AggregationService_v1.xml" [plain "AggregationService"; plain "AggregationService.v1_0_1"];
   schema "AggregationSource_v1.xml" [plain "AggregationSource"; plain "AggregationSource.v1_1_0"];
   schema "AggregationSourceCollection_v1.xml" [plain "AggregationSourceCollection"];
   schema "AttributeRegistry_v1.xml" [plain "AttributeRegistry"; plain "AttributeRegistry.v1_3_6"];
   schema "Bios_v1.xml" [plain "Bios"; plain "Bios.v1_2_0"];
   schema "BootOption_v1.xml" [plain "BootOption"; plain "BootOption.v1_0_4"];
   schema "BootOptionCollection_v1.xml" [plain "BootOptionCollection"];
   schema "Chassis_v1.xml" [plain "Chassis"; plain "Chassis.v1_17_0"];
   schema "ChassisCollection_v1.xml" [plain "ChassisCollection"];
   schema "CompositionService_v1.xml" [plain "CompositionService"; plain "CompositionService.v1_2_0"];
   schema "ComputerSystem_v1.xml" [plain "ComputerSystem"; plain "ComputerSystem.v1_16_0"];
   schema "ComputerSystemCollection_v1.xml" [plain "ComputerSystemCollection"];
   schema "ConnectionMethod_v1.xml" [plain "ConnectionMethod"; plain "ConnectionMethod.v1_0_0"];
   schema "ConnectionMethodCollection_v1.xml" [plain "ConnectionMethodCollection"];
   schema "Drive_v1.xml" [plain "Drive"; plain "Drive.v1_13_0"];
   schema "Endpoint_v1.xml" [plain "Endpoint.v1_0_0"; plain "Endpoint.v1_6_1"]].
Definition metadata_2 : list (string * list (string * string)) :=
  [schema "EndpointCollection_v1.xml" [plain "EndpointCollection"];
   schema "EthernetInterface_v1.xml" [plain "EthernetInterface"; plain "EthernetInterface.v1_7_0"];
   schema "EthernetInterfaceCollection_v1.xml" [plain "EthernetInterfaceCollection"];
   schema "EventDestination_v1.xml" [plain "EventDestination"; plain "EventDestination.v1_11_0"];
   schema "EventDestinationCollection_v1.xml" [plain "EventDestinationCollection"];
   schema "EventService_v1.xml" [plain "EventService"; plain "EventService.v1_7_2"];
   schema "Fabric_v1.xml" [plain "Fabric.v1_0_0"; plain "Fabric.v1_2_2"];
   schema "FabricCollection_v1.xml" [plain "FabricCollection"];
   schema "HostInterface_v1.xml" [plain "HostInterface"; plain "HostInterface.v1_3_0"];
   schema "HostInterfaceCollection_v1.xml" [plain "HostInterfaceCollection"];
   schema "IPAddresses_v1.xml" [plain "IPAddresses"];
   schema "LogEntry_v1.xml" [plain "LogEntry"; plain "LogEntry.v1_9_0"];
   schema "LogEntryCollection_v1.xml" [plain "LogEntryCollection"];
   schema "LogService_v1.xml" [plain "LogService"; plain "LogService.v1_3_0"];
   schema "Manager_v1.xml" [plain "Manager"; plain "Manager.v1_13_0"];
   schema "ManagerAccount_v1.xml" [plain "ManagerAccount"; plain "ManagerAccount.v1_8_0"];
   schema "ManagerAccountCollection_v1.xml" [plain "ManagerAccountCollection"];
   schema "ManagerCollection_v1.xml" [plain "ManagerCollection"];
   schema "ManagerNetworkProtocol_v1.xml" [plain "ManagerNetworkProtocol"; plain "ManagerNetworkProtocol.v1_8_0"];
   schema "Memory_v1.xml" [plain "Memory"; plain "Memory.v1_13_0"];
   schema "MemoryCollection_v1.xml" [plain "MemoryCollection"]].
Definition metadata_3 : list (string * list (string * string)) :=
  [schema "MemoryDomainCollection_v1.xml" [plain "MemoryDomainCollection"];
   schema "Message_v1.xml" [plain "Message"];
   schema "MessageRegistry_v1.xml" [plain "MessageRegistry"; plain "MessageRegistry.v1_4_2"];
   schema "MessageRegistryCollection_v1.xml" [plain "MessageRegistryCollection"];
   schema "MessageRegistryFile_v1.xml" [plain "MessageRegistryFile"; plain "MessageRegistryFile.v1_1_3"];
   schema "MessageRegistryFileCollection_v1.xml" [plain "MessageRegistryFileCollection"];
   schema "NetworkAdapter_v1.xml" [plain "NetworkAdapter"; plain "NetworkAdapter.v1_8_0"];
   schema "NetworkAdapterCollection_v1.xml" [plain "NetworkAdapterCollection"];
   schema "NetworkInterface_v1.xml" [plain "NetworkInterface"; plain "NetworkInterface.v1_2_1"];
   schema "NetworkInterfaceCollection_v1.xml" [plain "NetworkInterfaceCollection"];
   schema "PCIeDevice_v1.xml" [plain "PCIeDevice"; plain "PCIeDevice.v1_7_0"];
   schema "Port_v1.xml" [plain "Port"; plain "Port.v1_5_0"];
   schema "PortCollection_v1.xml" [plain "PortCollection"];
   schema "Power_v1.xml" [plain "Power"; plain "Power.v1_7_1"];
   schema "PrivilegeRegistry_v1.xml" [plain "PrivilegeRegistry"; plain "PrivilegeRegistry.v1_1_4"];
   schema "Processor_v1.xml" [plain "Processor"; plain "Processor.v1_13_0"];
   schema "ProcessorCollection_v1.xml" [plain "ProcessorCollection"];
   schema "RedfishExtensions_v1.xml" [("RedfishExtensions.v1_0_0", "Redfish")];
   schema "Redundancy_v1.xml" [plain "Redundancy"];
   schema "ResourceBlock_v1.xml" [plain "ResourceBlock"; plain "ResourceBlock.v1_4_0"];
   schema "ResourceBlockCollection_v1.xml" [plain "ResourceBlockCollection"]].
Definition metadata_4 : list (string * list (string * string)) :=
  [schema "Resource_v1.xml" [plain "Resource"; plain "Resource.v1_13_0"];
   schema "Role_v1.xml" [plain "Role"; plain "Role.v1_3_1"];
   schema "RoleCollection_v1.xml" [plain "RoleCollection"];
   schema "SecureBoot_v1.xml" [plain "SecureBoot"; plain "SecureBoot.v1_1_0"];
   schema "ServiceRoot_v1.xml" [plain "ServiceRoot"; plain "ServiceRoot.v1_11_0"];
   schema "Session_v1.xml" [plain "Session"; plain "Session.v1_3_0"];
   schema "SessionCollection_v1.xml" [plain "SessionCollection"];
   schema "SessionService_v1.xml" [plain "SessionService"; plain "SessionService.v1_1_8"];
   schema "Settings_v1.xml" [plain "Settings"; plain "Settings.v1_3_3"];
   schema "SoftwareInventoryCollection_v1.xml" [plain "SoftwareInventoryCollection"];
   schema "Storage_v1.xml" [plain "Storage"; plain "Storage.v1_11_0"];
   schema "StorageCollection_v1.xml" [plain "StorageCollection"];
   schema "Switch_v1.xml" [plain "Switch"; plain "Switch.v1_6_0"];
   schema "SwitchCollection_v1.xml" [plain "SwitchCollection"];
   schema "Task_v1.xml" [plain "Task"; plain "Task.v1_5_1"];
   schema "TaskCollection_v1.xml" [plain "TaskCollection"];
   schema "TaskService_v1.xml" [plain "TaskService"; plain "TaskService.v1_2_0"];
   schema "Thermal_v1.xml" [plain "Thermal"; plain "Thermal.v1_7_1"];
   schema "UpdateService_v1.xml" [plain "UpdateService"; plain "UpdateService.v1_10_0"];
   schema "VirtualMedia_v1.xml" [plain "VirtualMedia"; plain "VirtualMedia.v1_5_0"];
   schema "VirtualMediaCollection_v1.xml" [plain "VirtualMediaCollection"]].
Definition metadata_5 : list (string * list (string * string)) :=
  [schema "VLanNetworkInterface_v1.xml" [plain "VLanNetworkInterface"];
   schema "VolumeCollection_v1.xml" [plain "VolumeCollection"];
   schema "Volume_v1.xml" [plain "Volume"; plain "Volume.v1_6_2"];
   schema "Zone_v1.xml" [plain "Zone"; plain "Zone.v1_6_1"];
   schema "ZoneCollection_v1.xml" [plain "ZoneCollection"];
   schema "SerialInterfaceCollection_v1.xml" [plain "SerialInterfaceCollection"];
   schema "SerialInterface_v1.xml" [plain "SerialInterface"; plain "SerialInterface.v1_1_8"];
   schema "PCIeSlots_v1.xml" [plain "PCIeSlots"; plain "PCIeSlots.v1_4_1"];
   schema "NetworkPortCollection_v1.xml" [plain "NetworkPortCollection"];
   schema "NetworkPort_v1.xml" [plain "NetworkPort"; plain "NetworkPort.v1_4_1"];
   schema "NetworkDeviceFunction_v1.xml" [plain "NetworkDeviceFunction"];
   schema "NetworkDeviceFunctionCollection_v1.xml" [plain "NetworkDeviceFunctionCollection"];
   schema "LogServiceCollection_v1.xml" [plain "LogServiceCollection"];
   schema "TelemetryService_v1.xml" [plain "TelemetryService"; plain "TelemetryService.v1_3_1"];
   schema "TriggersCollection_v1.xml" [plain "TriggersCollection"];
   schema "Triggers_v1.xml" [plain "Triggers"; plain "Triggers.v1_2_0"];
   schema "MetricDefinitionCollection_v1.xml" [plain "MetricDefinitionCollection"];
   schema "MetricDefinition_v1.xml" [plain "MetricDefinition"; plain "MetricDefinition.v1_2_0"];
   schema "MetricReportDefinitionCollection_v1.xml" [plain "MetricReportDefinitionCollection"];
   schema "MetricReportDefinition_v1.xml" [plain "MetricReportDefinition"; plain "MetricReportDefinition.v1_4_1"];
   schema "MetricReportCollection_v1.xml" [plain "MetricReportCollection"]].
Definition metadata_6 : list (string * list (string * string)) :=
  [schema "MetricReport_v1.xml" [plain "MetricReport"; plain "MetricReport.v1_4_2"]].
Definition metadata : list (string * list (string * string)) :=
  metadata_1 ++ metadata_2 ++ metadata_3 ++ metadata_4 ++ metadata_5 ++ metadata_6.

Section handle.
Context `{Env, Config, !Discovery, !RegistryStore}.
Context {S B : Type} (own : forall A, IO A -> M S A) (current : S -> env).

(** ** The service root *)

(** lib-utilities/services/rpcService.go: the service behind a name of the configuration. *)
Definition service_of (microService : string) : option string :=
  let named s := String.eqb microService s in
  if named "AccountService" || named "SessionService" then Some AccountSession
  else if named "EventService" then Some Events
  else if named "Systems" || named "Chassis" then Some Systems
  else if named "TaskService" then Some Tasks
  else if named "AggregationService" then Some Aggregator
  else if named "Fabrics" then Some Fabrics
  else if named "Managers" then Some Managers
  else if named "UpdateService" then Some Update
  else if named "TelemetryService" then Some Telemetry
  else if named "CompositionService" then Some CompositionService
  else None.
Definition GetEnabledServiceList (e : env) : list string :=
  if etcd_connects e then
    List.filter (fun microService =>
      match service_of microService with Some service => registered service e | None => false end)
      (EnabledServices Data)
  else [].

Definition link (servicePath : string) : json := JObj [("@odata.id", JStr servicePath)].
(** The document of models.ServiceRoot, whose fields that are nil are left out. *)
Definition getService (enabled : list string) (uuid : string) : json :=
  let service microService field :=
    if existsb (String.eqb microService) enabled
    then [(field, link ("/redfish/v1/" +:+ microService))] else [] in
  JObj ([("@odata.context", JStr "/redfish/v1/$metadata#ServiceRoot.ServiceRoot");
         ("@odata.id", JStr "/redfish/v1/");
         ("@odata.type", JStr "#ServiceRoot.v1_11_0.ServiceRoot");
         ("Id", JStr "RootService");
         ("Registries", link "/redfish/v1/Registries")] ++
        service "SessionService" "SessionService" ++
        service "AccountService" "AccountService" ++
        service "JSONSchemas" "JsonSchemas" ++
        service "EventService" "EventService" ++
        service "TaskService" "Tasks" ++
        service "AggregationService" "AggregationService" ++
        service "Systems" "Systems" ++
        service "Chassis" "Chassis" ++
        service "Fabrics" "Fabrics" ++
        service "Managers" "Managers" ++
        service "UpdateService" "UpdateService" ++
        service "TelemetryService" "TelemetryService" ++
        [("Links", JObj [("Sessions", link "/redfish/v1/SessionService/Sessions")]);
         ("Name", JStr "Root Service"); ("Oem", JObj []); ("RedfishVersion", JStr "1.14.0");
         ("UUID", JStr uuid)] ++
        service "CompositionService" "CompositionService")%list.
Definition GetServiceRoot (ctx : Context) : M (S * Writer B) unit :=
  let! s := call get in
  let serviceRoot := getService (GetEnabledServiceList (current s)) RootServiceUUID in
  SetResponseHeader [("Allow", "GET");
                     ("Link", "</redfish/v1/SchemaStore/en/ServiceRoot.json/>; rel=describedby")] ;;;
  Write (JSONValue serviceRoot).

Definition GetVersion (ctx : Context) : M (S * Writer B) unit :=
  SetHeader "Allow" "GET" ;;;
  SetResponseHeader [] ;;;
  Write (JSONValue (JObj [("v1", JStr "/redfish/v1/")])).

(** ** The service document and the metadata *)

Definition odata_value (service : string) : json :=
  JObj [("name", JStr service); ("kind", JStr "Singleton");
        ("url", JStr (if String.eqb service "Service" then "/redfish/v1/"
                      else if String.eqb service "JsonSchemas" then "/redfish/v1/Schemas"
                      else if String.eqb service "Sessions" then "/redfish/v1/SessionService/Sessions/"
                      else "/redfish/v1/" +:+ service))].
Definition copyright_sign : string := String (char 194) (String (char 169) "").
Definition GetOdata (ctx : Context) : M (S * Writer B) unit :=
  let Odata := JObj [
    ("@Redfish.Copyright", JStr ("Copyright " +:+ copyright_sign +:+
       " 2014-2015 Distributed Management Task Force, Inc. (DMTF). All rights reserved."));
    ("@odata.context", JStr "/redfish/v1/$metadata");
    ("value", JArr (odata_value <$> ["AccountService"; "Service"; "JsonSchemas"; "SessionService"]))] in
  SetResponseHeader [("Allow", "GET")] ;;;
  Write (JSONValue Odata).
Definition GetMetadata (ctx : Context) : M (S * Writer B) unit :=
  SetResponseHeader [("Allow", "GET"); ("Content-type", "application/xml; charset=utf-8")] ;;;
  Write (XML metadata).

(** ** The registries *)

(** models/registries.go *)
Definition GetAllRegistryFileNamesFromDB (table : string) : IO (result (list string)) :=
  GetDBConnection OnDisk ;;; GetAllDetails OnDisk table.
Definition GetRegistryFile (Table key : string) : IO (result string) :=
  GetDBConnection OnDisk ;;;
  let! r := Read OnDisk Table key in
  match r with
  | inl err => ret (inl (PackError (ErrNo err) ["error while trying to get resource details: "; errMsg err]))
  | inr (Text (JStr resource)) => ret (inr resource)
  | inr (Text JNull) => ret (inr "")
  | inr (Text j) =>
      ret (inl (PackError UndefinedErrorType
        ["json: cannot unmarshal " +:+ json_kind j +:+ " into Go value of type string"]))
  | inr (NotJson _ err) => ret (inl (PackError UndefinedErrorType [err]))
  end.

Record Registry := { Auth : string -> list string -> list string -> M S (RPC B) }.

(** The token must be given and have the privilege Login. *)
Definition authorized (r : Registry) (ctx : Context) (k : M (S * Writer B) unit) : M (S * Writer B) unit :=
  let sessionToken := token ctx in
  if is_empty sessionToken then unauthorized "error: no X-Auth-Token found in request header" else
  let! authResp := call (Auth r sessionToken [PrivilegeLogin] []) in
  if negb (StatusCode authResp =? StatusOK)%Z then
    SetStatus (StatusCode authResp) ;;;
    SetResponseHeader (Header authResp) ;;;
    Write (JSON (RBody authResp))
  else k.
Definition registry_path : string := "/redfish/v1/Registries/".
Definition is_hidden (name : string) : bool := HasPrefix name ".".
(** A directory that cannot be read ends the process ([log.Fatal]). *)
Definition GetRegistryFileCollection (r : Registry) (ctx : Context) : M (S * Writer B) unit :=
  authorized r ctx
    (match ReadDir RegistryStorePath with
     | None => panic
     | Some regFiles =>
         let member regFile := link (registry_path +:+ TrimSuffix regFile ".json") in
         let shown := List.filter (fun name => negb (is_hidden name || negb (HasSuffix name ".json"))) regFiles in
         let! regFileKeys := call (own _ (GetAllRegistryFileNamesFromDB "Registries")) in
         let keys := match regFileKeys with inl _ => [] | inr keys => keys end in
         let listMembers := (member <$> shown) ++ (member <$> keys) in
         let members := match listMembers with [] => JNull | _ => JArr listMembers end in
         SetResponseHeader [("Allow", "GET");
           ("Link", "</redfish/v1/SchemaStore/en/MessageRegistryFileCollection.json/>; rel=describedby")] ;;;
         Write (JSONValue (JObj [
           ("@odata.context", JStr "/redfish/v1/$metadata#MessageRegistryFileCollection.MessageRegistryFileCollection");
           ("@odata.id", JStr "/redfish/v1/Registries");
           ("@odata.type", JStr "#MessageRegistryFileCollection.MessageRegistryFileCollection");
           ("Name", JStr "Registry File Repository"); ("Description", JStr "Registry Repository");
           ("Members@odata.count", JNum (Z.of_nat (length listMembers))); ("Members", members)]))
     end)%list.

(** An identifier that starts with # stands for the last element of the URI. *)
Definition registry_id (ctx : Context) : M (S * Writer B) string :=
  let regFileID := Params_Get ctx "id" in
  if HasPrefix regFileID "#" then
    let strArray := Split (URI ctx) "/" in
    lift (if HasSuffix (URI ctx) "/" then index strArray (length strArray - 2)
          else index strArray (length strArray - 1))
  else ret regFileID.
Definition registry_not_found (errorMessage regFileID : string) : M (S * Writer B) unit :=
  let! response := lift (GeneralError StatusNotFound ResourceNotFound errorMessage
                           [IString "RegistryFile"; IString regFileID]) in
  SetResponseHeader (Header response) ;;;
  SetStatus StatusNotFound ;;;
  Write (JSON (RBody response)).
Definition GetMessageRegistryFile (r : Registry) (ctx : Context) : M (S * Writer B) unit :=
  let! regFileID := registry_id ctx in
  authorized r ctx
    (let show j := SetResponseHeader [("Allow", "GET")] ;;; Write j in
     let broken := internal "error: Resource not found" in
     match ReadFile (TrimSuffix RegistryStorePath "/" +:+ "/" +:+ regFileID) with
     | Some (Text j) => show (JSONValue (through_interface j))
     | Some (NotJson _ _) => broken
     | None =>
         let! content := call (own _ (GetRegistryFile "Registries" regFileID)) in
         match content with
         | inl _ => registry_not_found "error: Resource not found" regFileID
         | inr content => match parse_json content with Some v => show (JSONParsed v) | None => broken end
         end
     end).
Definition GetMessageRegistryFileID (r : Registry) (ctx : Context) : M (S * Writer B) unit :=
  if Contains (Params_Get ctx "id") ".json" then GetMessageRegistryFile r ctx else
  let! regFileID := registry_id ctx in
  authorized r ctx
    (let reqRegistryFileName := regFileID +:+ ".json" in
     let files := default [] (ReadDir RegistryStorePath) in
     let! regFileKeys := call (own _ (GetAllRegistryFileNamesFromDB "Registries")) in
     let regFileNames := (files ++ match regFileKeys with inl _ => [] | inr keys => keys end)%list in
     if existsb (String.eqb reqRegistryFileName) regFileNames then
       let! registryType := lift (index (Split regFileID ".") 0) in
       SetResponseHeader [("Allow", "GET");
         ("Link", "</redfish/v1/SchemaStore/en/MessageRegistryFile.json/>; rel=describedby")] ;;;
       Write (JSONValue (JObj [
         ("Id", JStr regFileID);
         ("@odata.context", JStr "/redfish/v1/$metadata#MessageRegistryFile.MessageRegistryFile");
         ("@odata.id", JStr (registry_path +:+ regFileID));
         ("@odata.type", JStr "#MessageRegistryFile.v1_1_3.MessageRegistryFile");
         ("Name", JStr "Registry File Repository");
         ("Description", JStr (registryType +:+ " Message Registry File Locations"));
         ("Languages", JArr [JStr "en"]);
         ("Location", JArr [JObj [("Language", JStr "en"); ("Uri", JStr (registry_path +:+ reqRegistryFileName))]]);
         ("Registry", JStr regFileID)]))
     else registry_not_found "error: resource not found" regFileID).

(** ** Methods a path does not have *)

Definition fillMethodNotAllowedErrorResponse (ctx : Context) : M (S * Writer B) unit :=
  SetStatus StatusMethodNotAllowed ;;;
  let! e := lift (CreateGenericErrorResponse (errorArgs1 ActionNotSupported "" [IString (Method (ctx_Request ctx))])) in
  SetResponseHeader [] ;;;
  Write (JSON (ErrorBody e)).
(** [switch path]: the header Allow of the first case that is the path. *)
Fixpoint switch (path : string) (cases : list (string * string)) (default : option string) : option string :=
  match cases with
  | [] => default
  | (case, allow) :: cases' => if String.eqb path case then Some allow else switch path cases' default
  end.
Definition SetAllow (allow : option string) : M (S * Writer B) unit :=
  match allow with Some allow => SetHeader "Allow" allow | None => ret tt end.
Definition path_of (ctx : Context) : string := URLPath (ctx_Request ctx).

Definition AsMethodNotAllowed (ctx : Context) : M (S * Writer B) unit :=
  let id := Params_Get ctx "id" in
  SetAllow (switch (path_of ctx)
    [("/redfish/v1/AccountService", "GET");
     ("/redfish/v1/AccountService/Accounts", "GET, POST");
     ("/redfish/v1/AccountService/Accounts/" +:+ id, "GET, PATCH, DELETE")] (Some "GET")) ;;;
  fillMethodNotAllowedErrorResponse ctx.
Definition SsMethodNotAllowed (ctx : Context) : M (S * Writer B) unit :=
  let id := Params_Get ctx "sessionID" in
  SetAllow (switch (path_of ctx)
    [("/redfish/v1/SessionService", "GET");
     ("/redfish/v1/SessionService/Sessions", "GET, POST");
     ("/redfish/v1/SessionService/Sessions/" +:+ id, "GET, DELETE")] (Some "GET")) ;;;
  fillMethodNotAllowedErrorResponse ctx.
Definition SystemsMethodNotAllowed (ctx : Context) : M (S * Writer B) unit :=
  let path := path_of ctx in
  let systemID := Params_Get ctx "id" in
  let subID := Params_Get ctx "rid" in
  let storageid := Params_Get ctx "id2" in
  let resourceID := Params_Get ctx "rid" in
  let system := "/redfish/v1/Systems/" +:+ systemID in
  SetAllow (switch path
    [(system, "GET, PATCH");
     (system +:+ "/LogServices/" +:+ subID +:+ "Actions", "");
     (system +:+ "/LogServices/" +:+ subID +:+ "Actions/LogService.ClearLog", "POST");
     (system +:+ "/Storage/" +:+ storageid +:+ "/Volumes", "GET, POST");
     (system +:+ "/Storage/" +:+ storageid +:+ "/Volumes/" +:+ resourceID, "GET, DELETE")] (Some "GET")) ;;;
  (if Contains path "?" then SetHeader "Allow" "GET" else ret tt) ;;;
  fillMethodNotAllowedErrorResponse ctx.
Definition CompositionServiceMethodNotAllowed (ctx : Context) : M (S * Writer B) unit :=
  let path := path_of ctx in
  let resourceID := Params_Get ctx "id" in
  SetAllow (switch path
    [("/redfish/v1/CompositionService/ResourceBlocks", "GET, POST");
     ("/redfish/v1/CompositionServie/ResourceBlocks/" +:+ resourceID, "GET, DELETE");
     ("/redfish/v1/CompositionService/ResourceZones", "GET, POST");
     ("/redfish/v1/CompositionService/ResourceZones/" +:+ resourceID, "GET, DELETE")] (Some "GET")) ;;;
  (if Contains path "?" then SetHeader "Allow" "GET" else ret tt) ;;;
  fillMethodNotAllowedErrorResponse ctx.
Definition ManagersMethodNotAllowed (ctx : Context) : M (S * Writer B) unit :=
  let systemID := Params_Get ctx "id" in
  let subID := Params_Get ctx "rid" in
  let manager := "/redfish/v1/Managers/" +:+ systemID in
  SetAllow (switch (path_of ctx)
    [(manager +:+ "/LogServices/" +:+ subID +:+ "Actions", "");
     (manager +:+ "/LogServices/" +:+ subID +:+ "Actions/LogService.ClearLog", "POST");
     (manager +:+ "/VirtualMedia/" +:+ subID +:+ "/Actions/VirtualMedia.EjectMedia", "POST");
     (manager +:+ "/VirtualMedia/" +:+ subID +:+ "/Actions/VirtualMedia.InsertMedia", "POST")] (Some "GET")) ;;;
  fillMethodNotAllowedErrorResponse ctx.
Definition TsMethodNotAllowed (ctx : Context) : M (S * Writer B) unit :=
  SetHeader "Allow" "GET" ;;; fillMethodNotAllowedErrorResponse ctx.
Definition ChassisMethodNotAllowed (ctx : Context) : M (S * Writer B) unit :=
  SetHeader "Allow" "GET" ;;; fillMethodNotAllowedErrorResponse ctx.
Definition RegMethodNotAllowed (ctx : Context) : M (S * Writer B) unit :=
  SetHeader "Allow" "GET" ;;; fillMethodNotAllowedErrorResponse ctx.
Definition EvtMethodNotAllowed (ctx : Context) : M (S * Writer B) unit :=
  SetAllow (switch (path_of ctx)
    [("/redfish/v1/EventService", "GET");
     ("/redfish/v1/EventService/Actions", "");
     ("/redfish/v1/EventService/Actions/EventService.SubmitTestEvent", "POST")] None) ;;;
  fillMethodNotAllowedErrorResponse ctx.
Definition AggMethodNotAllowed (ctx : Context) : M (S * Writer B) unit :=
  let id := Params_Get ctx "id" in
  SetAllow (switch (path_of ctx)
    [("/redfish/v1/AggregationService", "GET");
     ("/redfish/v1/AggregationService/Actions/AggregationService.SetDefaultBootOrder", "POST");
     ("/redfish/v1/AggregationService/Actions/AggregationService.Reset", "POST");
     ("/redfish/v1/AggregationService/AggregationSources", "GET, POST");
     ("/redfish/v1/AggregationService/AggregationSources/" +:+ id, "GET, PATCH, DELETE");
     ("/redfish/v1/AggregationService/ConnectionMethods", "GET");
     ("/redfish/v1/AggregationService/ConnectionMethods/" +:+ id, "GET")] (Some "GET")) ;;;
  fillMethodNotAllowedErrorResponse ctx.
Definition FabricsMethodNotAllowed (ctx : Context) : M (S * Writer B) unit :=
  SetHeader "Allow" "GET" ;;; fillMethodNotAllowedErrorResponse ctx.
Definition AggregateMethodNotAllowed (ctx : Context) : M (S * Writer B) unit :=
  let aggregateID := Params_Get ctx "id" in
  let aggregate := "/redfish/v1/AggregationService/Aggregates/" +:+ aggregateID in
  SetAllow (switch (path_of ctx)
    [("/redfish/v1/AggregationService/Aggregates/", "GET, POST");
     (aggregate, "GET, DELETE");
     (aggregate +:+ "Actions/Aggregate.AddElements/", "POST");
     (aggregate +:+ "Actions/Aggregate.RemoveElements/", "POST");
     (aggregate +:+ "Actions/Aggregate.Reset/", "POST");
     (aggregate +:+ "Actions/Aggregate.SetDefaultBootOrder/", "POST")] None) ;;;
  fillMethodNotAllowedErrorResponse ctx.
Definition SRMethodNotAllowed (ctx : Context) : M (S * Writer B) unit :=
  SetHeader "Allow" "GET" ;;; fillMethodNotAllowedErrorResponse ctx.
Definition RoleMethodNotAllowed (ctx : Context) : M (S * Writer B) unit :=
  let id := Params_Get ctx "id" in
  SetAllow (switch (path_of ctx)
    [("/redfish/v1/Roles", "GET, POST"); ("/redfish/v1/Roles/" +:+ id, "GET, PATCH, DELETE")] None) ;;;
  fillMethodNotAllowedErrorResponse ctx.
End handle.
Arguments Registry S B : clear implicits.
