(* ===== verification/TaskSystem.v ===== *)
(** svc-task/main.go, tauth and tmessagebus: the task service put together.

    Its state is the world of its own process, the process of the account-session service, which
    works on the same databases, the events handed to the message bus, and the goroutines that were
    started and have not ended. *)
From stdpp Require Import base gmap list strings.
From S2P Require Import Prelude Go GoTime Response Redis World ConnPool RedisIndex Index AsModel Auth Session Rpc TModel THandle Services.
Open Scope string_scope.

(** common.Events as it is published: one event in the message data. *)
Record TaskEvent := {
  ev_topic : string;
  ev_IP : string;
  ev_Name : string;
  ev_Context : string;
  ev_OdataType : string;
  ev_EventID : string;
  ev_MessageID : string;
  ev_EventTimestamp : string;
  ev_EventType : string;
  ev_Message : string;
  ev_OriginOfCondition : string;
  ev_Severity : string;
}.

(** The configured topics, whether a communicator for the bus can be made, and whether it then
    takes an event. *)
Class MessageBus `{Env} : Type := {
  MessageBusQueue : list string;
  bus_connects : env -> bool;
  bus_distributes : env -> bool;
}.

Section TaskSystem.
Context `{Env, !IndexEnv, Libs, Config, !Network, !MessageBus}.
Context (fuel : nat).

Record TaskWorld := mkTaskWorld {
  tw_world : World;
  tw_session : World;          (* the account-session process; its environment is that of tw_world *)
  tw_events : list TaskEvent;
  tw_threads : list thread;
}.

Definition in_task A (m : IO A) : M TaskWorld A := fun s =>
  let (o, w) := m (tw_world s) in (o, mkTaskWorld w (tw_session s) (tw_events s) (tw_threads s)).
Definition session_world (s : TaskWorld) : World := with_env (w_env (tw_world s)) (tw_session s).
Definition in_session A (m : IO A) : M TaskWorld A := fun s =>
  let (o, w) := m (session_world s) in
  (o, mkTaskWorld (with_env (w_env w) (tw_world s)) w (tw_events s) (tw_threads s)).
Definition add_event (e : TaskEvent) (s : TaskWorld) : TaskWorld :=
  mkTaskWorld (tw_world s) (tw_session s) (tw_events s ++ [e]) (tw_threads s).
Definition with_threads (ts : list thread) (s : TaskWorld) : TaskWorld :=
  mkTaskWorld (tw_world s) (tw_session s) (tw_events s) ts.

#[export] Instance task_runtime : Runtime TaskWorld := {|
  TimeNow := in_task _ Now;
  UuidNew := in_task _ NewV4;
  TimeSleep := fun d => in_task _ (Sleep d);
  Spawn := fun t => modify (fun s => with_threads (tw_threads s ++ [t]) s);
|}.

(** tauth *)
Definition task_env (s : TaskWorld) : env := w_env (tw_world s).
Definition Authentication (sessionToken : string) (privileges : list string) : M TaskWorld taskRPC :=
  Services.IsAuthorized in_session task_env sessionToken privileges [].
Definition tauth_GetSessionUserName (sessionToken : string) : M TaskWorld (string + string) :=
  Services.GetSessionUserName in_session task_env sessionToken.

(** tmessagebus: an event that cannot be published is lost. *)
Definition Publish (taskURI messageID eventType taskMessage : string) : M TaskWorld unit :=
  let! topicName := lift (index MessageBusQueue 0) in
  let! s := get in
  if bus_connects (task_env s) then
    let! eventID := in_task _ NewV4 in
    let! now := in_task _ Now in
    let event := {|
      ev_topic := topicName; ev_IP := "TasksCollection"; ev_Name := "Task Event";
      ev_Context := "/redfish/v1/$metadata#Event.Event"; ev_OdataType := "#Event.v1_7_0.Event";
      ev_EventID := eventID; ev_MessageID := messageID; ev_EventTimestamp := rfc3339 now;
      ev_EventType := eventType; ev_Message := taskMessage; ev_OriginOfCondition := taskURI;
      ev_Severity := "OK" |} in
    let! s := get in
    if bus_distributes (task_env s) then modify (add_event event) else ret tt
  else ret tt.

(** A scan that needs more rounds than the fuel is not a run of the model: [TaskStore] shows when
    this does not happen. *)
Definition deleteIndex (taskID : string) : M TaskWorld err :=
  let! r := in_task _ (DeleteTaskIndex fuel taskID) in
  match r with Some e => ret e | None => panic end.

(** main.go.  The two helpers are methods of the record itself, which do not call helpers. *)
Definition wire (overWrite : string -> M TaskWorld err) (create : string -> M TaskWorld (or_err string))
  : TasksRPC TaskWorld := {|
  AuthenticationRPC := Authentication;
  GetSessionUserNameRPC := tauth_GetSessionUserName;
  GetTaskStatusModel := fun taskID db => in_task _ (GetTaskStatus taskID db);
  GetAllTaskKeysModel := in_task _ GetAllTaskKeys;
  TransactionModel := TModel_Transaction in_task;
  OverWriteCompletedTaskUtilHelper := overWrite;
  CreateTaskUtilHelper := create;
  GetCompletedTasksIndexModel := fun userName => in_task _ (GetCompletedTasksIndex userName);
  DeleteTaskFromDBModel := fun t => in_task _ (DeleteTaskFromDB t);
  ts_DeleteTaskIndex := deleteIndex;
  UpdateTaskStatusModel := fun t db => in_task _ (UpdateTaskStatus t db);
  PersistTaskModel := fun t db => in_task _ (PersistTask t db);
  ValidateTaskUserNameModel := fun userName => in_task _ (ValidateTaskUserName userName);
  PublishToMessageBus := Publish;
|}.
Definition methods : TasksRPC TaskWorld := wire (fun _ => panic) (fun _ => panic).
Definition task : TasksRPC TaskWorld :=
  wire (OverWriteCompletedTaskUtil methods) (CreateTaskUtil methods).

(** ** The service *)

Inductive taskRequest :=
| ReqDeleteTask (req : GetTaskRequest)
| ReqGetTasks (req : GetTaskRequest)
| ReqGetSubTasks (req : GetTaskRequest)
| ReqGetSubTask (req : GetTaskRequest)
| ReqTaskCollection (req : GetTaskRequest)
| ReqGetTaskService (req : GetTaskRequest)
| ReqGetTaskMonitor (req : GetTaskRequest)
| ReqCreateTask (req : CreateTaskRequest)
| ReqCreateChildTask (req : CreateTaskRequest)
| ReqUpdateTask (req : UpdateTaskRequest).
Inductive taskReply :=
| Answer (rsp : TaskResponse)
| TaskURI (r : or_err string)
| Updated (e : err).

Definition serveTask (r : taskRequest) : M TaskWorld taskReply :=
  match r with
  | ReqDeleteTask req => let! rsp := DeleteTask task req in ret (Answer rsp)
  | ReqGetTasks req => let! rsp := GetTasks task req in ret (Answer rsp)
  | ReqGetSubTasks req => let! rsp := GetSubTasks task req in ret (Answer rsp)
  | ReqGetSubTask req => let! rsp := GetSubTask task req in ret (Answer rsp)
  | ReqTaskCollection req => let! rsp := TaskCollection task req in ret (Answer rsp)
  | ReqGetTaskService req => let! rsp := GetTaskService task req in ret (Answer rsp)
  | ReqGetTaskMonitor req => let! rsp := GetTaskMonitor task req in ret (Answer rsp)
  | ReqCreateTask req => let! r := CreateTask task req in ret (TaskURI r)
  | ReqCreateChildTask req => let! r := CreateChildTask task req in ret (TaskURI r)
  | ReqUpdateTask req => let! e := UpdateTask task req in ret (Updated e)
  end.

(** The goroutine [i] is run: it ends or waits for its next round. *)
Definition runThread (i : nat) : M TaskWorld unit :=
  let! s := get in
  match tw_threads s !! i with
  | None => ret tt
  | Some t =>
      let! ended := run_thread task t in
      if ended then modify (fun s => with_threads (delete i (tw_threads s)) s) else ret tt
  end.
End TaskSystem.
Arguments in_task {_ A} m s : rename.
Arguments in_session {_ A} m s : rename.
