(* ===== verification/TaskSpec.v ===== *)
(** What the handlers of the task service rely on: the documents of the tasks, the index of the
    completed ones, the events that were published and the goroutines that run, and what each field
    of [TasksRPC] does to them.

    [TaskStore] is the interface the theorems on the handlers are proved against; [TaskStoreImpl]
    proves that the service as it is put together in [TaskSystem] keeps it. *)
From stdpp Require Import base gmap list strings.
From Stdlib Require Import QArith_base.
From Stdlib Require Import Ascii.
From S2P Require Import Prelude Go GoTime Response Redis World RedisIndex AsModel TModel THandle.
Open Scope string_scope.

(** The task a document denotes. *)
Definition decode_task (v : jtext) : option Task :=
  match Unmarshal Task_type v zeroTask with (t, None) => Some t | _ => None end.
(** The numbers of a task are int32. *)
Definition wf_task (t : Task) : Prop :=
  int32 (t_PercentComplete t) = t_PercentComplete t /\ int32 (t_StatusCode t) = t_StatusCode t.

(** Documents by identifier, and one of them changed. *)
Abbreviation documents := (string -> option jtext).
Definition put (id : string) (v : option jtext) (d : documents) : documents :=
  fun id' => if decide (id' = id) then v else d id'.
Definition doc (t : Task) : option jtext := Some (Text (marshal_Task t)).
(** Is the end of the task put into the index when it is stored? *)
Definition indexed (t : Task) : bool :=
  (String.eqb (t_TaskState t) "Completed" || String.eqb (t_TaskState t) "Exception")
  && String.eqb (t_ParentID t) "".
Definition add_entry (t : Task) (z : zset) : zset :=
  <[task_index_key t := inject_Z (UnixNano (t_EndTime t))]> z.
(** A document that Create takes for a free key. *)
Definition free (v : option jtext) : Prop :=
  match v with None => True | Some v => text_is_empty v = true end.

(** What a notification says: the URI, the message, the type and the text. *)
Abbreviation notice := (string * string * string * string)%type.

Record tview := mkview {
  v_docs : documents;
  v_index : zset;
  v_events : list notice;
  v_threads : list thread;
}.
Definition with_docs (d : documents) (v : tview) : tview := mkview d (v_index v) (v_events v) (v_threads v).
Definition with_index (z : zset) (v : tview) : tview := mkview (v_docs v) z (v_events v) (v_threads v).
Definition with_events (e : list notice) (v : tview) : tview := mkview (v_docs v) (v_index v) e (v_threads v).
Definition with_threads (t : list thread) (v : tview) : tview := mkview (v_docs v) (v_index v) (v_events v) t.

(** Views that agree; documents are compared one by one. *)
Record same_view (v v' : tview) : Prop := {
  sv_docs : forall id, v_docs v' id = v_docs v id;
  sv_index : v_index v' = v_index v;
  sv_events : v_events v' = v_events v;
  sv_threads : v_threads v' = v_threads v;
}.
#[export] Instance same_view_equiv : Equivalence same_view.
Proof.
  split.
  - by split.
  - intros v v' []. split; congruence.
  - intros v1 v2 v3 [] []. split; congruence.
Qed.

(** Solves that a change of views respects their equality. *)
Ltac same_views :=
  let id := fresh "id" in
  intros ? ? [? ? ? ?]; split; cbn; try done; try (intros id; unfold put; try case_decide; auto); try congruence.

Class TaskView (S : Type) : Type := {
  sound : S -> Prop;
  calm : S -> Prop;                      (* no command fails from here on *)
  bus_up : S -> Prop;                    (* every event is published from here on *)
  shows : S -> tview;
  user_known : S -> string -> Prop;
  live : S -> string -> Prop;            (* the token has a session that has not timed out *)
  holds : S -> string -> list string -> Prop;   (* its session has the privileges *)
  session_user : S -> string -> string -> Prop;
  scannable : S -> Prop;                 (* the fuel lasts for a scan of the index *)
  instant : S -> Z;                      (* the latest reading of the clock *)
}.

Section steps.
Context {S : Type} `{!TaskView S}.
Implicit Types (s : S).

(** [s'] is a later state that shows [v]. *)
Record becomes (v : tview) s s' : Prop := {
  be_sound : sound s';
  be_shows : same_view v (shows s');
  be_calm : calm s -> calm s';
  be_bus : bus_up s -> bus_up s';
  be_known : forall u, user_known s' u <-> user_known s u;
  be_holds : forall tok ps, holds s' tok ps -> holds s tok ps;
  be_user : forall tok u, session_user s' tok u -> session_user s tok u;
  be_instant : (instant s <= instant s')%Z;
}.
(** [s'] is a later state that shows the same. *)
Record stays s s' : Prop := {
  st_becomes :> becomes (shows s) s s';
  st_scan : scannable s -> scannable s';
}.

Definition docs s : documents := v_docs (shows s).
Definition task_of s (id : string) : option Task :=
  match docs s id with Some v => decode_task v | None => None end.

Lemma stays_refl s : sound s -> stays s s.
Proof. intros Hs. repeat split; auto. lia. Qed.
Lemma becomes_trans v v' s s1 s2 : becomes v s s1 -> becomes v' s1 s2 -> becomes v' s s2.
Proof.
  intros [a1 a2 a3 a4 a5 a6 a7 a8] [b1 b2 b3 b4 b5 b6 b7 b8]. split; auto; [|lia]. intros u. by rewrite b5.
Qed.
Lemma becomes_same v v' s s' : same_view v v' -> becomes v' s s' -> becomes v s s'.
Proof. intros Hv [a1 a2 a3 a4 a5 a6 a7 a8]. split; auto. by transitivity v'. Qed.
Lemma stays_trans s s1 s2 : stays s s1 -> stays s1 s2 -> stays s s2.
Proof.
  intros [Ha ?] [Hb ?]. split; [|auto]. eapply becomes_same; [apply Ha|]. by eapply becomes_trans.
Qed.
Lemma becomes_stays v s s1 s2 : becomes v s s1 -> stays s1 s2 -> becomes v s s2.
Proof. intros Ha [Hb _]. eapply becomes_same; [apply Ha|]. by eapply becomes_trans. Qed.
Lemma stays_view s s' : stays s s' -> same_view (shows s) (shows s').
Proof. intros [[]]. done. Qed.
Lemma stays_sound s s' : stays s s' -> sound s'.
Proof. intros [[]]. done. Qed.
Lemma stays_calm s s' : stays s s' -> calm s -> calm s'.
Proof. intros [[]]. auto. Qed.
Lemma stays_uncalm s s' : stays s s' -> ~ calm s' -> ~ calm s.
Proof. intros Hs Hn Hc. by apply Hn, (stays_calm _ _ Hs). Qed.
Lemma becomes_uncalm v s s' : becomes v s s' -> ~ calm s' -> ~ calm s.
Proof. intros Hs Hn Hc. by apply Hn, (be_calm _ _ _ Hs). Qed.
Lemma stays_docs s s' id : stays s s' -> docs s' id = docs s id.
Proof. intros Hs. apply (sv_docs _ _ (stays_view _ _ Hs)). Qed.
Lemma stays_task s s' id : stays s s' -> task_of s' id = task_of s id.
Proof. intros Hs. unfold task_of. by rewrite (stays_docs _ _ _ Hs). Qed.
(** Two changes one after the other, the second described from the view of the first. *)
Lemma becomes_then v s s1 s2 (f : tview -> tview) :
  (forall v1 v2, same_view v1 v2 -> same_view (f v1) (f v2)) ->
  becomes v s s1 -> becomes (f (shows s1)) s1 s2 -> becomes (f v) s s2.
Proof.
  intros Hf Ha Hb. eapply becomes_same; [apply Hf, (be_shows _ _ _ Ha)|]. by eapply becomes_trans.
Qed.
Lemma stays_then s s1 s2 (f : tview -> tview) :
  (forall v1 v2, same_view v1 v2 -> same_view (f v1) (f v2)) ->
  stays s s1 -> becomes (f (shows s1)) s1 s2 -> becomes (f (shows s)) s s2.
Proof. intros Hf [Ha _]. by apply becomes_then. Qed.
Lemma becomes_docs v s s' id : becomes v s s' -> docs s' id = v_docs v id.
Proof. intros Hb. apply (sv_docs _ _ (be_shows _ _ _ Hb)). Qed.
End steps.

Class TaskStore {S : Type} `{!Runtime S, !TaskView S} (ts : TasksRPC S) : Prop := {
  typed_law s id t : sound s -> task_of s id = Some t -> t_ID t = id /\ wf_task t;
  scannable_law s m : scannable s -> is_Some (v_index (shows s) !! m) -> no_char ":" m = false;

  now_law s : sound s -> wp TimeNow (fun o s' => stays s s' /\ exists t, o = Ok t /\ (instant s <= t <= instant s')%Z) s;
  uuid_law s : sound s ->
    wp UuidNew (fun o s' => stays s s' /\ exists u, o = Ok u /\ string_forall uuid_char u = true) s;
  sleep_law d s : sound s -> wp (TimeSleep d) (fun o s' => stays s s' /\ o = Ok tt) s;
  spawn_law t s : sound s ->
    wp (Spawn t) (fun o s' => becomes (with_threads (v_threads (shows s) ++ [t])%list (shows s)) s s' /\
                              (scannable s -> scannable s') /\ o = Ok tt) s;

  auth_law tok ps s : sound s ->
    wp (AuthenticationRPC ts tok ps)
       (fun o s' => stays s s' /\ exists r e, o = Ok r /\ RBody r = ErrorBody e /\
          (StatusCode r = StatusOK -> live s tok /\ holds s tok ps)) s;
  user_law tok s : sound s ->
    wp (GetSessionUserNameRPC ts tok)
       (fun o s' => stays s s' /\ exists r, o = Ok r /\
          match r with inr u => session_user s tok u | inl _ => True end) s;

  get_law id db s : sound s ->
    wp (GetTaskStatusModel ts id db)
       (fun o s' => stays s s' /\
          match o with
          | Ok (inr t) => task_of s id = Some t
          | Ok (inl _) => calm s -> task_of s id = None
          | Panic => False
          end) s;
  keys_law s : sound s ->
    wp (GetAllTaskKeysModel ts)
       (fun o s' => stays s s' /\
          match o with
          | Ok (inr ids) => NoDup ids /\ forall id, id ∈ ids <-> is_Some (docs s id)
          | Ok (inl _) => ~ calm s
          | Panic => False
          end) s;
  delete_law t s : sound s ->
    wp (DeleteTaskFromDBModel ts t)
       (fun o s' => (scannable s -> scannable s') /\
          let gone := becomes (with_docs (put (t_ID t) None (docs s)) (shows s)) s s' in
          match o with
          | Ok None => gone
          | Ok (Some _) => (stays s s' /\ (calm s -> docs s (t_ID t) = None)) \/ (gone /\ ~ calm s)
          | Panic => False
          end) s;
  update_law t db s : db = InMemory -> sound s -> wf_task t ->
    wp (UpdateTaskStatusModel ts t db)
       (fun o s' => (indexed t = false -> scannable s -> scannable s') /\
          let stored z := becomes (with_index z (with_docs (put (t_ID t) (doc t) (docs s)) (shows s))) s s' in
          match o with
          | Ok None => is_Some (docs s (t_ID t)) /\
              exists z, stored z /\ (z = v_index (shows s) \/ (indexed t = true /\ z = add_entry t (v_index (shows s)))) /\
                        (calm s -> indexed t = true -> z = add_entry t (v_index (shows s)))
          | Ok (Some _) =>
              (stays s s' /\ (calm s -> docs s (t_ID t) = None)) \/
              (~ calm s /\ exists z, stored z /\
                 (z = v_index (shows s) \/ (indexed t = true /\ z = add_entry t (v_index (shows s)))))
          | Panic => False
          end) s;
  persist_law t db s : db = InMemory -> sound s -> wf_task t ->
    wp (PersistTaskModel ts t db)
       (fun o s' => (scannable s -> scannable s') /\
          let stored := becomes (with_docs (put (t_ID t) (doc t) (docs s)) (shows s)) s s' in
          match o with
          | Ok None => stored /\ (calm s -> free (docs s (t_ID t)))
          | Ok (Some _) => (stays s s' /\ (calm s -> ~ free (docs s (t_ID t)))) \/ (~ calm s /\ stored)
          | Panic => False
          end) s;
  known_law u s : sound s ->
    wp (ValidateTaskUserNameModel ts u)
       (fun o s' => stays s s' /\
          match o with
          | Ok None => user_known s u
          | Ok (Some _) => calm s -> ~ user_known s u
          | Panic => False
          end) s;
  completed_law u s : sound s ->
    wp (GetCompletedTasksIndexModel ts u)
       (fun o s' => stays s s' /\
          match o with
          | Ok (inr l) => (forall m, m ∈ l -> is_Some (v_index (shows s) !! m)) /\
                          (calm s -> forall m, is_Some (v_index (shows s) !! m) -> m ∈ l)
          | _ => False
          end) s;
  delindex_law id s : sound s -> scannable s -> no_glob id = true ->
    wp (ts_DeleteTaskIndex ts id)
       (fun o s' => (scannable s -> scannable s') /\ exists z, becomes (with_index z (shows s)) s s' /\
          (forall m, z !! m = v_index (shows s) !! m \/ (z !! m = None /\ HasSuffix m id = true)) /\
          match o with
          | Ok None => forall m, HasSuffix m id = true -> z !! m = None
          | Ok (Some _) => True
          | Panic => False
          end) s;
  publish_law uri id ty text s : sound s ->
    wp (PublishToMessageBus ts uri id ty text)
       (fun o s' => (scannable s -> scannable s') /\ o = Ok tt /\ exists e, becomes (with_events e (shows s)) s s' /\
          (e = v_events (shows s) \/ e = (v_events (shows s) ++ [(uri, id, ty, text)])%list) /\
          (bus_up s -> e = (v_events (shows s) ++ [(uri, id, ty, text)])%list)) s;
  (** A transaction runs its callback at most once, between calls that change nothing. *)
  transaction_law key cb s Q : sound s ->
    (forall e s', stays s s' -> ~ calm s -> Q (Ok (Some e)) s') ->
    (forall s1, stays s s1 -> wp (cb key) (fun o s2 =>
       match o with
       | Ok r => sound s2 /\ forall s3, stays s2 s3 ->
                   match r with
                   | Some _ => forall e, Q (Ok (Some e)) s3
                   | None => Q (Ok None) s3 /\ (~ calm s2 -> forall e, Q (Ok (Some e)) s3)
                   end
       | Panic => Q Panic s2
       end) s1) ->
    wp (TransactionModel ts key cb) Q s;
  create_helper u : CreateTaskUtilHelper ts u = CreateTaskUtil ts u;
  overwrite_helper u : OverWriteCompletedTaskUtilHelper ts u = OverWriteCompletedTaskUtil ts u;
}.

(** Runs a call of the interface by its law. *)
Ltac law L := wp_go; (eapply wp_mono; [eapply L; eauto using stays_sound|]).
