(* ===== verification/TModelProps.v ===== *)
(** The task record: its JSON document and its entry in the index of completed tasks. *)
From stdpp Require Import base gmap list strings.
From Stdlib Require Import QArith_base.
From Stdlib Require Import Ascii.
From S2P Require Import Prelude Go GoTime GoCodec Response Redis World RedisIndex AsModel TModel THandle TaskSpec.
Open Scope string_scope.

(** ** The document *)

Lemma find_field_exact {A} (st : struct_type A) k f :
  List.find (fun f => String.eqb f.1 k) (st_fields st) = Some f -> find_field st k = Some f.
Proof. unfold find_field. by intros ->. Qed.
(** An entry of a document under the exact name of a field whose decoder accepts it. *)
Lemma decode_entry_ok {A} path (st : struct_type A) a k j a' dec :
  List.find (fun f => String.eqb f.1 k) (st_fields st) = Some (k, dec) -> dec a j = (a', None) ->
  decode_entry_at path st (a, None) (k, j) = (a', None).
Proof. intros Hf Hd. unfold decode_entry_at. cbn [fst snd]. rewrite (find_field_exact _ _ _ Hf), Hd. done. Qed.
Lemma on_ok {A F} (get : A -> F) set (dec : field_decoder F) a j x :
  dec (get a) j = (x, None) -> on get set dec a j = (set x a, None).
Proof. intros Hd. unfold on. by rewrite Hd. Qed.

(** Decodes the entries of a document one after the other. *)
Ltac decode_fields tac := cbn [fold_left]; repeat (erewrite decode_entry_ok; [|reflexivity|eapply on_ok; tac]).
Ltac decode_value :=
  cbn; first [ reflexivity | apply dec_enc_string_map | apply dec_enc_strings | apply dec_enc_bytes
             | by apply dec_enc_int32 ].

Lemma Payload_decode path p : dec_struct "tmodel." path Payload_type zeroPayload (marshal_Payload p) = (p, None).
Proof. unfold dec_struct, marshal_Payload. decode_fields decode_value. by destruct p. Qed.
Lemma Message_decode m :
  marshal_Message m <> JNull /\ dec_struct "tmodel." "Messages." Message_type zeroMessage (marshal_Message m) = (m, None).
Proof.
  split; [done|]. unfold dec_struct, marshal_Message. decode_fields decode_value. by destruct m.
Qed.
Lemma Task_decode t : wf_task t -> Unmarshal Task_type (Text (marshal_Task t)) zeroTask = (t, None).
Proof.
  intros [Hp Hc]. unfold Unmarshal, marshal_Task.
  change (decode_entry Task_type) with (decode_entry_at "" Task_type).
  decode_fields ltac:(first [apply Payload_decode | apply dec_enc_pointer_slice; apply Message_decode | decode_value]).
  by destruct t.
Qed.
Lemma decode_marshal t : wf_task t -> decode_task (Text (marshal_Task t)) = Some t.
Proof. intros Hwf. unfold decode_task. by rewrite Task_decode. Qed.

(** Whatever a document holds, decoding it gives numbers in range. *)
Lemma on_wf {F} (get : Task -> F) set (dec : field_decoder F) :
  (forall a j, wf_task a -> wf_task (set (dec (get a) j).1 a)) ->
  forall a j, wf_task a -> wf_task (on get set dec a j).1.
Proof. intros Hs a j Ha. unfold on. specialize (Hs a j Ha). by destruct (dec (get a) j). Qed.
Lemma dec_int32_wf old j : int32 old = old -> int32 (dec_int32 old j).1 = (dec_int32 old j).1.
Proof. intros Ho. destruct j; cbn; try done. by destruct (int32 n =? n)%Z eqn:E; [apply Z.eqb_eq|]. Qed.
Lemma Task_fields_wf : Forall (fun f => forall a j, wf_task a -> wf_task (f.2 a j).1) (st_fields Task_type).
Proof.
  unfold Task_type. cbn [st_fields].
  repeat (apply List.Forall_cons; [cbn [snd]; apply on_wf; intros a j [Hp Hc]; split; cbn; try done;
    by apply dec_int32_wf|]).
  apply List.Forall_nil.
Qed.
Lemma decode_task_wf v t : decode_task v = Some t -> wf_task t.
Proof.
  unfold decode_task. destruct v as [j|]; [|done].
  assert (Hfold : forall kvs acc, wf_task acc.1 -> wf_task (fold_left (decode_entry Task_type) kvs acc).1).
  { induction kvs as [|[k x] kvs IH]; intros acc Ha; [done|]. cbn [fold_left]. apply IH.
    unfold decode_entry, decode_entry_at. cbn [fst snd].
    destruct (find_field Task_type k) as [[n dec]|] eqn:Ef; [|done].
    assert (Hin : In (n, dec) (st_fields Task_type)).
    { unfold find_field in Ef. destruct (List.find _ (st_fields Task_type)) eqn:E.
      - injection Ef as ->. by apply List.find_some in E as [? _].
      - by apply List.find_some in Ef as [? _]. }
    pose proof (proj1 (List.Forall_forall _ _) Task_fields_wf _ Hin acc.1 x Ha) as Hw. cbn [snd] in Hw.
    by destruct (dec acc.1 x). }
  destruct j as [| | | | | |kvs]; cbn [Unmarshal]; try done.
  - by intros [= <-].
  - destruct (fold_left _ kvs _) as [t' [e|]] eqn:E; [done|]. intros [= <-].
    specialize (Hfold kvs (zeroTask, None)). rewrite E in Hfold. by apply Hfold.
Qed.

(** ** Entries of the index *)

(** An identifier the service makes up: the word task and a uuid. *)
Definition task_id (id : string) : Prop := exists u, id = "task" +:+ u /\ string_forall uuid_char u = true.
Lemma uuid_no_char c u : string_forall uuid_char u = true -> uuid_char c = false -> no_char c u = true.
Proof.
  intros Hu Hc. revert Hu. apply string_forall_impl. intros d Hd. apply negb_true_iff, Ascii.eqb_neq.
  intros ->. by rewrite Hd in Hc.
Qed.
Lemma task_id_no_char c id : task_id id -> no_char c "task" = true -> uuid_char c = false -> no_char c id = true.
Proof.
  intros (u & -> & Hu) Ht Hc. unfold no_char. rewrite string_forall_app. unfold no_char in Ht. rewrite Ht.
  by apply uuid_no_char.
Qed.
Lemma no_char_colons s : no_char ":" s = true -> colon_ok s = true.
Proof.
  intros Hs. unfold colon_ok. apply negb_true_iff. induction s as [|c s IH]; [done|].
  unfold no_char in Hs. cbn [string_forall] in Hs. apply andb_true_iff in Hs as [Hc Hs]. 
  change (HasPrefix (String c (s +:+ ":")) "::" || Contains (s +:+ ":") "::" = false).
  rewrite IH by done. change "::" with (String ":" ":"). rewrite HasPrefix_cons.
  apply negb_true_iff, Ascii.eqb_neq in Hc. by rewrite (proj2 (Ascii.eqb_neq c ":")).
Qed.

(** The three parts of an entry, when the user name has no double colon. *)
Lemma task_index_key_parts t : colon_ok (t_UserName t) = true -> no_char ":" (t_ID t) = true ->
  Split (task_index_key t) "::" = [t_UserName t; time_string (t_EndTime t); t_ID t].
Proof.
  intros Hu Hi. unfold task_index_key. rewrite Split_colons by done.
  rewrite Split_colons by apply colon_ok_time_string.
  do 2 f_equal. generalize (t_ID t) Hi. clear. intros s Hs. unfold Split.
  induction s as [|c s IH]; [done|]. unfold no_char in Hs. cbn [string_forall] in Hs.
  apply andb_true_iff in Hs as [Hc Hs]. rewrite split_go_cons. change "::" with (String ":" ":") in *.
  rewrite HasPrefix_cons. apply negb_true_iff, Ascii.eqb_neq in Hc.
  rewrite (proj2 (Ascii.eqb_neq c ":")) by done. cbn [andb]. by rewrite IH.
Qed.

(** A task is decoded from its document as it was stored, and tasks with the same document are
    the same. *)
Theorem Task_roundtrip t : wf_task t ->
  Unmarshal Task_type (Text (marshal_Task t)) zeroTask = (t, None) /\
  forall t', wf_task t' -> marshal_Task t' = marshal_Task t -> t' = t.
Proof.
  intros Hwf. split; [by apply Task_decode|]. intros t' Hwf' E.
  pose proof (Task_decode t' Hwf') as Hd. rewrite E, Task_decode in Hd by done. by injection Hd.
Qed.
Definition sample_task : Task :=
  mkTask "" (Some ["task2"]) "task1" "/redfish/v1/TaskService/Tasks/task1" "alice" "Task task1" false
    (mkPayload (Some {[ "Location" := "/x"; "Date" := "now" ]}) "POST" "{}" "/target") 100 "/taskmon/task1"
    "Completed" "OK" 200 (Some "body of the answer") (Some [Some zeroMessage; None]) 0 (86400 * nano).
Lemma Task_roundtrip_witness :
  Unmarshal Task_type (Text (marshal_Task sample_task)) zeroTask = (sample_task, None) /\
  forall t', wf_task t' -> marshal_Task t' = marshal_Task sample_task -> t' = sample_task.
Proof. apply (Task_roundtrip sample_task). split; reflexivity. Defined.

(** What the clean-up reads off an entry of the index. *)
Definition entry_parts (value : string) : outcome (Z * string) :=
  obind (index (Split value "::") 1) (fun e =>
  obind (index (Split value "::") 2) (fun id => Ok (default zero_time (time_parse e), id))).

(** C22: The clean-up reads the end time and the identifier of a task off its entry in the index as
    they were stored, to the nanosecond, for user names without a double colon and end times in the
    years 0 to 9999; the score of the entry is the end time in nanoseconds for the years 1678 to
    2261. *)
Theorem index_entry_roundtrip t :
  colon_ok (t_UserName t) = true -> no_char ":" (t_ID t) = true -> (0 <= year_of (t_EndTime t) < 10000)%Z ->
  entry_parts (task_index_key t) = Ok (t_EndTime t, t_ID t) /\
  (- 2 ^ 63 <= t_EndTime t < 2 ^ 63 -> add_entry t ∅ !! task_index_key t = Some (inject_Z (t_EndTime t)))%Z.
Proof.
  intros Hu Hi Hy. split.
  - unfold entry_parts. rewrite task_index_key_parts by done. cbn. by rewrite time_parse_string.
  - intros Hr. unfold add_entry. rewrite lookup_insert_eq. unfold UnixNano, int64. by rewrite wrap_signed_id.
Qed.
Lemma index_entry_roundtrip_witness :
  entry_parts (task_index_key sample_task) = Ok (86400 * nano, "task1")%Z /\
  (- 2 ^ 63 <= 86400 * nano < 2 ^ 63 ->
   add_entry sample_task ∅ !! task_index_key sample_task = Some (inject_Z (86400 * nano)))%Z.
Proof. apply (index_entry_roundtrip sample_task); [reflexivity|reflexivity|]. split; reflexivity || discriminate. Defined.

(** With a double colon in the user name the parts are others: the entry is never cleaned up. *)
Example index_entry_colons :
  entry_parts (task_index_key (set_UserName "a::b" sample_task)) = Ok (zero_time, "1970-01-02 00:00:00 +0000 UTC").
Proof. vm_compute. reflexivity. Qed.
