(* ===== verification/Scenario.v ===== *)
(** Concrete configurations and worlds on the simulated environment [Sim], for the examples that
    run the services; and [Sim] with its sorted sets. *)
From stdpp Require Import base gmap list strings.
From Stdlib Require Import QArith.
From Stdlib Require Import Ascii.
From S2P Require Import Prelude Go Redis World ConnPool DBSpec AsModel AsSpec Auth GoTime Response RedisIndex.
Open Scope string_scope.

#[export] Existing Instances Sim.sim_env Sim.sim_libs Sim.sim_lib_laws Sim.sim_laws.

Definition db_conf (ha : bool) : DBConf := {|
  Protocol := "tcp"; InMemoryHost := "inmemory"; InMemoryPort := "6379";
  OnDiskHost := "ondisk"; OnDiskPort := "6380"; RedisHAEnabled := ha;
  InMemorySentinelPort := "26379"; OnDiskSentinelPort := "26380";
  InMemoryPrimarySet := "primaryset"; OnDiskPrimarySet := "primaryset" |}.

(** The defaults of config.go: passwords of 12 to 16 bytes, sessions of 30 minutes. *)
Definition conf (ha : bool) : configModel := {|
  EnabledServices := ["SessionService"; "AccountService"];
  ConfDB := db_conf ha;
  ConfAuth := {| SessionTimeOutInMins := 30; ExpiredSessionCleanUpTimeInMins := 15;
                 AuthPasswordRules := {| MinPasswordLength := 12; MaxPasswordLength := 16;
                   AllowedSpecialCharcters := "~!@#$%^&*-+_|(){}:;<>,.?/" |} |} |}.

(** Not instances: a statement chooses its configuration. *)
Definition single : Config := {| Data := conf false |}.
Definition ha : Config := {| Data := conf true |}.

Lemma single_node : @SingleNode single.
Proof. by split. Defined.

(** A process with both pools, the given contents of the two databases, the clock and the script
    of faults. *)
Definition pool_for (a : addr) : ConnPool :=
  {| ReadPool := Some a; WritePool := Some a; MasterIP := a.1; PoolUpdatedTime := 0 |}.
Definition inmem_addr : addr := ("inmemory", "6379").
Definition ondisk_addr : addr := ("ondisk", "6380").
Definition sim_world (mem disk : gmap string jtext) (t : Z) (faults : list (option Sim.fault))
  : @World Sim.sim_env :=
  @mkWorld Sim.sim_env (Sim.mk {[ inmem_addr := mem; ondisk_addr := disk ]} t 1 faults ∅)
    (Some (pool_for inmem_addr)) (Some (pool_for ondisk_addr)) 0 0.

Section facts.
#[local] Existing Instance single.
#[local] Existing Instance single_node.

Lemma sim_wf mem disk t faults : wf (sim_world mem disk t faults).
Proof. intros []; simpl; auto. Qed.
Lemma sim_healthy mem disk t : healthy (sim_world mem disk t []).
Proof. split; [done|]. by intros [] (p & [= <-] & Hw). Qed.
Lemma sim_ready mem disk t faults db : ready db (sim_world mem disk t faults).
Proof. destruct db; by eexists. Qed.
Lemma sim_view_mem mem disk t faults : view (sim_world mem disk t faults) InMemory = mem.
Proof. done. Qed.
Lemma sim_view_disk mem disk t faults : view (sim_world mem disk t faults) OnDisk = disk.
Proof. done. Qed.
End facts.

(** ** A service with two accounts *)

Definition minute : Z := 60000000000.
Definition all_privileges : list string :=
  ["Login"; "ConfigureManager"; "ConfigureUsers"; "ConfigureSelf"; "ConfigureComponents"].
Definition admin_role : Role := {| r_ID := "Administrator"; r_IsPredefined := true;
  r_AssignedPrivileges := Some all_privileges; r_OEMPrivileges := None |}.
Definition client_role : Role := {| r_ID := "ReadOnly"; r_IsPredefined := true;
  r_AssignedPrivileges := Some ["Login"; "ConfigureSelf"]; r_OEMPrivileges := None |}.
Definition spare_role : Role := {| r_ID := "Spare"; r_IsPredefined := false;
  r_AssignedPrivileges := Some ["Login"]; r_OEMPrivileges := None |}.
Definition admin_user : User := {| u_UserName := "admin"; u_Password := hashPassword "Od!m12$4";
  u_RoleID := "Administrator"; u_AccountTypes := Some ["Redfish"] |}.
Definition alice_user : User := {| u_UserName := "alice"; u_Password := hashPassword "secret";
  u_RoleID := "ReadOnly"; u_AccountTypes := Some ["Redfish"] |}.

Definition privilege_map (ps : list string) : gmap string bool :=
  list_to_map ((fun p => (p, true)) <$> ps).
Definition admin_session : Session :=
  mkSession "id-admin" "tok-admin" "admin" "Administrator" (privilege_map all_privileges) "" 0 0.
Definition alice_session : Session :=
  mkSession "id-alice" "tok-alice" "alice" "ReadOnly" (privilege_map ["Login"; "ConfigureSelf"]) "" 0 0.
(** A session that may only log in. *)
Definition login_session : Session :=
  mkSession "id-login" "tok-login" "bob" "Spare" (privilege_map ["Login"]) "" 0 0.

Definition put_session (s : Session) (m : gmap string jtext) : gmap string jtext :=
  <[session_key (s_Token s) := Text (marshal_Session s)]> m.
Definition put_user (u : User) (m : gmap string jtext) : gmap string jtext :=
  <[user_key (u_UserName u) := Text (marshal_User u)]> m.
Definition put_role (r : Role) (m : gmap string jtext) : gmap string jtext :=
  <[role_key (r_ID r) := Text (marshal_Role r)]> m.

Definition the_sessions : gmap string jtext :=
  put_session admin_session (put_session alice_session (put_session login_session ∅)).
Definition the_registries : gmap string jtext :=
  <["registry:assignedprivileges" := Text (marshal_list (Some all_privileges))]>
  (<["registry:oemprivileges" := Text (marshal_list (Some ["OemLogin"]))]>
  (<["roles:redfishdefined" := Text (marshal_list (Some ["Administrator"; "Operator"; "ReadOnly"]))]> ∅)).
Definition the_accounts : gmap string jtext :=
  put_user admin_user (put_user alice_user
    (put_role admin_role (put_role client_role (put_role spare_role the_registries)))).

Definition service (t : Z) (faults : list (option Sim.fault)) : @World Sim.sim_env :=
  sim_world the_sessions the_accounts t faults.

Section service.
#[local] Existing Instances single single_node.

Lemma sessions_typed : tab_typed "session" Session_type zeroSession s_Token the_sessions.
Proof.
  unfold the_sessions, put_session.
  do 3 (apply (tab_typed_insert "session"); [apply Session_roundtrip|]). apply tab_typed_empty.
Qed.
Lemma registries_typed {A} t (st : struct_type A) zero name :
  t = "User" \/ t = "role" -> tab_typed t st zero name the_registries.
Proof.
  intros Ht. unfold the_registries. do 3 (apply tab_typed_insert_other;
    [intros k E; destruct Ht as [-> | ->]; unfold saveID in E; discriminate E|]).
  apply tab_typed_empty.
Qed.
Lemma service_typed t faults : typed (service t faults).
Proof.
  split.
  - apply sessions_typed.
  - change (tab_typed "User" User_type zeroUser u_UserName the_accounts).
    unfold the_accounts, put_user, put_role.
    do 2 (apply (tab_typed_insert "User"); [apply User_roundtrip|]).
    do 3 (apply tab_typed_insert_other; [intros k E; by apply (user_key_not_role k) in E|]).
    apply registries_typed. by left.
  - change (tab_typed "role" Role_type zeroRole r_ID the_accounts).
    unfold the_accounts, put_user, put_role.
    do 2 (apply tab_typed_insert_other; [intros k E; symmetry in E; by apply user_key_not_role in E|]).
    do 3 (apply (tab_typed_insert "role"); [apply Role_roundtrip|]). apply registries_typed. by right.
Qed.
Lemma service_wf t faults : wf (service t faults).
Proof. apply sim_wf. Qed.
Lemma service_healthy t : healthy (service t []).
Proof. apply sim_healthy. Qed.
End service.

(** * Sorted sets

    The simulated server [Sim] with its sorted sets, for the examples that run index operations:
    every scan takes one page. *)

Lemma glob_match_star p m : glob_match (String "*" p) m =
  glob_match p m || match m with EmptyString => false | String _ m' => glob_match (String "*" p) m' end.
Proof. by destruct m. Qed.
Lemma glob_match_plain p m : no_glob p = true -> glob_match p m = String.eqb m p.
Proof.
  revert m. induction p as [|c p IH]; intros m Hp; [done|].
  change (no_glob (String c p)) with (negb (string_exists (Ascii.eqb c) "*?[]\^") && no_glob p) in Hp.
  apply andb_true_iff in Hp as [Hc Hp]. cbn [glob_match].
  destruct (Ascii.eqb_spec c "*") as [-> |Hne]; [done|]. destruct m as [|d m]; [done|].
  rewrite IH by done. cbn [String.eqb]. destruct (Ascii.eqb_spec c d) as [-> |Hcd]; [by rewrite Ascii.eqb_refl|].
  by rewrite (proj2 (Ascii.eqb_neq d c)) by congruence.
Qed.
Lemma glob_match_suffix p m : no_glob p = true -> glob_match ("*" +:+ p) m = HasSuffix m p.
Proof.
  intros Hp. change ("*" +:+ p) with (String "*" p). induction m as [|c m IH].
  - rewrite glob_match_star, glob_match_plain by done. by destruct p.
  - rewrite glob_match_star, IH, glob_match_plain by done. done.
Qed.

(** A score as a text: in decimal, with the sign and the thousandths. *)
Definition show_score (q : Q) : string :=
  if Qeq_bool q 0 then "0"
  else let n := (Z.abs (Qnum q) * 1000 / Zpos (Qden q))%Z in
       (if (Qnum q <? 0)%Z then "-" else "") +:+ pad 20 (n / 1000) +:+ "." +:+ pad 3 n.
Lemma show_score_text n : score_text n (show_score n).
Proof.
  unfold score_text, show_score. split; [|intros H; by rewrite (proj2 (Qeq_bool_iff n 0) H)].
  destruct (Qeq_bool n 0); [done|]. unfold no_char. rewrite !string_forall_app.
  pose proof (no_char_pad 20 (Z.abs (Qnum n) * 1000 / Zpos (Qden n) / 1000)) as Hp.
  pose proof (no_char_pad 3 (Z.abs (Qnum n) * 1000 / Zpos (Qden n))) as Hq.
  unfold no_char in Hp, Hq. rewrite Hp, Hq. by destruct (Qnum n <? 0)%Z.
Qed.

Definition zset_at (s : Sim.state) (a : addr) (i : string) : zset := default ∅ (Sim.zdata s !! (a, i)).
Definition set_zset (s : Sim.state) (a : addr) (i : string) (z : zset) : Sim.state :=
  Sim.mk (Sim.data s) (Sim.now s) (Sim.next_uuid s) (Sim.script s) (<[(a, i) := z]> (Sim.zdata s)).

Definition in_score_range (lo hi : Z) (mz : string * Q) : bool :=
  Qle_bool (inject_Z lo) mz.2 && Qle_bool mz.2 (inject_Z hi).
Definition zrun (a : addr) (c : zcmd) (s : Sim.state) : zreply * Sim.state :=
  let z := zset_at s a (zindex c) in
  match c with
  | ZADD i _ _ | ZREM i _ => (ZDone, set_zset s a i (zapply c z))
  | ZRANGE _ _ _ => (ZStrings (map_to_list z).*1, s)
  | ZRANGEBYSCORE _ lo hi => (ZStrings (List.filter (in_score_range lo hi) (map_to_list z)).*1, s)
  | ZSCAN _ c p =>
      if decimal_cursor c
      then (ZPage "0" (page_of ((fun mz => (mz.1, show_score mz.2)) <$>
              List.filter (fun mz => glob_match p mz.1) (map_to_list z))), s)
      else (ZErr "ERR invalid cursor", s)
  | WATCH _ | EXEC => (ZDone, s)
  end.
(** The next entry of the script says whether the command is carried out. *)
Definition next_fault (s : Sim.state) : option Sim.fault * Sim.state :=
  match Sim.script s with
  | [] => (None, s)
  | f :: fs => (f, Sim.mk (Sim.data s) (Sim.now s) (Sim.next_uuid s) fs (Sim.zdata s))
  end.
Definition zdo_sim (a : addr) (c : zcmd) (s : Sim.state) : zreply * Sim.state :=
  match next_fault s with
  | (Some f, s') => (ZErr (Sim.fault_msg f), s')
  | (None, s') => zrun a c s'
  end.
Definition zsend_sim (a : addr) (c : zcmd) (s : Sim.state) : option string * Sim.state :=
  match next_fault s with
  | (Some f, s') => (Some (Sim.fault_msg f), s')
  | (None, s') => (None, (zrun a c s').2)
  end.

#[export] Instance sim_index_env : IndexEnv := {| zset_do := zdo_sim; zset_send := zsend_sim |}.

(** What a command may change. *)
Record zframe (s s' : Sim.state) : Prop := {
  zf_data : Sim.data s' = Sim.data s;
  zf_now : Sim.now s' = Sim.now s;
  zf_script : Sim.script s = [] -> Sim.script s' = [];
}.
Lemma zframe_quiet s s' : zframe s s' -> quiet s s'.
Proof.
  intros [Hd Hn Hs]. split; [intros a; by apply Sim.at_data|cbn; lia|done].
Qed.
Lemma next_fault_frame s f s' : next_fault s = (f, s') ->
  zframe s s' /\ Sim.zdata s' = Sim.zdata s /\ (Sim.script s = [] -> f = None).
Proof.
  unfold next_fault. destruct (Sim.script s) eqn:E; intros [= <- <-]; (split; [|done]); split; try done; congruence.
Qed.
Lemma zset_at_eq s a i z : zset_at (set_zset s a i z) a i = z.
Proof. unfold zset_at. simpl. by rewrite lookup_insert_eq. Qed.
Lemma zset_at_ne s a i z a' i' : (a', i') <> (a, i) -> zset_at (set_zset s a i z) a' i' = zset_at s a' i'.
Proof. intros Hne. unfold zset_at. simpl. by rewrite lookup_insert_ne. Qed.
Lemma zset_at_data s s' : Sim.zdata s' = Sim.zdata s -> zset_at s' = zset_at s.
Proof. unfold zset_at. by intros ->. Qed.

Lemma zrun_frame a c s r s' : zrun a c s = (r, s') ->
  zframe s s' /\ (zaccepted c = true -> forall msg, r <> ZErr msg) /\
  (forall a' i, (a', i) <> (a, zindex c) -> zset_at s' a' i = zset_at s a' i) /\
  zset_at s' a (zindex c) = zapply c (zset_at s a (zindex c)).
Proof.
  destruct c; cbn [zrun zindex zaccepted zapply];
    try (intros [= <- <-]; by split_and!);
    try (intros [= <- <-]; split_and!; [done|done|intros; by apply zset_at_ne|apply zset_at_eq]).
  destruct (decimal_cursor c) eqn:E; intros [= <- <-]; by split_and!.
Qed.

(** A command fails and changes nothing, or runs. *)
Lemma zdo_cases a c s r s' : zdo_sim a c s = (r, s') ->
  (exists msg, r = ZErr msg /\ zframe s s' /\ zset_at s' = zset_at s /\ Sim.script s <> []) \/
  (exists s0, zrun a c s0 = (r, s') /\ zframe s s0 /\ zset_at s0 = zset_at s).
Proof.
  unfold zdo_sim. destruct (next_fault s) as [f s0] eqn:E. destruct (next_fault_frame _ _ _ E) as (Hf & Hz & Hs).
  apply zset_at_data in Hz. destruct f as [f|]; intros Hr.
  - injection Hr as <- <-. left. exists (Sim.fault_msg f). split_and!; [done..|]. intros H. by apply Hs in H.
  - right. by exists s0.
Qed.
Lemma zframe_trans s1 s2 s3 : zframe s1 s2 -> zframe s2 s3 -> zframe s1 s3.
Proof. intros [] []. split; [congruence..|auto]. Qed.

Lemma map_pairs_elem (z : zset) p m s :
  (m, s) ∈ ((fun mz => (mz.1, show_score mz.2)) <$> List.filter (fun mz => glob_match p mz.1) (map_to_list z)) <->
  glob_match p m = true /\ exists score, z !! m = Some score /\ s = show_score score.
Proof.
  rewrite list_elem_of_fmap. split.
  - intros ([m' sc] & [= -> ->] & Hin). rewrite list_elem_of_In, List.filter_In, <- list_elem_of_In in Hin.
    destruct Hin as [Hin Hg]. apply elem_of_map_to_list in Hin. split; [done|]. by exists sc.
  - intros (Hg & sc & Hsc & ->). exists (m, sc). split; [done|].
    rewrite list_elem_of_In, List.filter_In, <- list_elem_of_In. by rewrite elem_of_map_to_list.
Qed.

Lemma NoDup_filter_fst {A B} (f : A * B -> bool) l : NoDup l.*1 -> NoDup (List.filter f l).*1.
Proof.
  induction l as [|x l IH]; [done|]. rewrite fmap_cons. intros [Hx Hl]%NoDup_cons. cbn.
  destruct (f x); [|by apply IH]. rewrite fmap_cons. apply NoDup_cons. split; [|by apply IH].
  intros (y & Hy & Hin)%list_elem_of_fmap. apply Hx, list_elem_of_fmap. exists y. split; [done|].
  rewrite list_elem_of_In, List.filter_In, <- list_elem_of_In in Hin. apply Hin.
Qed.

#[local] Ltac zcases E :=
  destruct (zdo_cases _ _ _ _ _ E) as [(msg & -> & Hf & Hz & Hn)|(s0 & Hr & Hf & Hz)].

#[export] Instance sim_index_laws : IndexLaws.
Proof.
  refine {| zsets := zset_at : @env Sim.sim_env -> _; glob := glob_match;
            unscanned := fun _ _ _ _ _ => True; pages_left := fun _ _ _ _ => 0%nat |}.
  - apply glob_match_suffix.
  - done.
  - intros a c e r e' E. zcases E.
    + split_and!; [by apply zframe_quiet|by rewrite Hz|done|done|done].
    + destruct (zrun_frame _ _ _ _ _ Hr) as (Hf' & He & Ho & _).
      split_and!; [by eapply zframe_quiet, zframe_trans| |by intros _|done|done].
      intros a' i Hne. by rewrite Ho, Hz.
  - intros a i m e r e' E. zcases E; [left; by rewrite Hz|].
    destruct (zrun_frame _ _ _ _ _ Hr) as (_ & _ & _ & Hi). rewrite Hz in Hi.
    cbn in Hr. injection Hr as <- _. done.
  - intros a i e r e' E. zcases E; [by rewrite Hz|]. cbn in Hr. injection Hr as <- <-. rewrite Hz.
    split; [done|]. split; [apply NoDup_fst_map_to_list|]. intros m. rewrite list_elem_of_fmap. split.
    + intros ([m' sc] & -> & Hin). apply elem_of_map_to_list in Hin. by eexists.
    + intros [sc Hsc]. exists (m, sc). by rewrite elem_of_map_to_list.
  - intros a i lo hi e r e' E. zcases E; [by rewrite Hz|]. cbn in Hr. injection Hr as <- <-. rewrite Hz.
    split; [done|]. split; [by apply NoDup_filter_fst, NoDup_fst_map_to_list|].
    intros m. rewrite list_elem_of_fmap. split.
    + intros ([m' sc] & -> & Hin). rewrite list_elem_of_In, List.filter_In, <- list_elem_of_In in Hin.
      destruct Hin as [Hin Hg]. apply elem_of_map_to_list in Hin. exists sc. split; [done|].
      apply andb_true_iff in Hg as [H1 H2]. by rewrite !Qle_bool_iff in *.
    + intros (sc & Hsc & H1 & H2). exists (m, sc). split; [done|].
      rewrite list_elem_of_In, List.filter_In, <- list_elem_of_In, elem_of_map_to_list. split; [done|].
      unfold in_score_range. by rewrite !(proj2 (Qle_bool_iff _ _)).
  - intros a i c p e r e' E. zcases E; [by rewrite Hz|]. cbn [zrun zindex] in Hr.
    destruct (decimal_cursor c); injection Hr as <- <-; rewrite Hz; [|done]. split; [done|].
    eexists _, 0%Z. split; [reflexivity|]. split_and!; [done|lia|lia|done| | |done].
    + intros m s Hin. apply map_pairs_elem in Hin as (Hg & sc & Hsc & ->). split; [done|].
      exists sc. split; [done|apply show_score_text].
    + intros m _ [sc Hsc] Hg. left. apply list_elem_of_fmap. exists (m, show_score sc). split; [done|].
      apply map_pairs_elem. split; [done|]. by exists sc.
  - intros a c e r e' E Hc. zcases E; [by rewrite Hz|].
    destruct Hc as [-> |[k ->]]; cbn in Hr; injection Hr as <- <-; by rewrite Hz.
  - intros a c e r e' E Hw. cbn in E. unfold zsend_sim in E.
    destruct (next_fault e) as [f s0] eqn:En. destruct (next_fault_frame _ _ _ En) as (Hf & Hz & Hs).
    apply zset_at_data in Hz. destruct f as [f|]; injection E as <- <-.
    + split_and!; [by apply zframe_quiet|by rewrite Hz|left; by rewrite Hz|]. intros Hrel.
      by specialize (Hs Hrel).
    + destruct (zrun a c s0) as [r s1] eqn:Er. destruct (zrun_frame _ _ _ _ _ Er) as (Hf' & He & Ho & Hi).
      cbn [snd]. rewrite Hz in *. split_and!; [by eapply zframe_quiet, zframe_trans|done|by right|done].
  - intros a c e r e' E _ a' i _. change (Sim.do_cmd a c e = (r, e')) in E. split; [|done].
    apply (f_equal (fun z => default ∅ (z !! (a', i)))), (Sim.do_zdata _ _ _ _ _ E).
  - intros e t e' a i [= <- <-]. by split.
  - intros e s e' a i E. cbn in E. pose proof (Sim.uuid_state e) as He. rewrite E in He. cbn in He. subst.
    by split.
  - by split.
Defined.
