(* ===== verification/IndexProps.v ===== *)
(** The operations on the indices: what a scan finds, that it ends, and what [Del] removes. *)
From stdpp Require Import base gmap list strings.
From Stdlib Require Import QArith_base.
From Stdlib Require Import Ascii.
From S2P Require Import Prelude Go GoTime Response Redis World ConnPool DBSpec RedisIndex Index Scenario.
Open Scope string_scope.

Section indexspec.
Context `{IndexLaws, SingleNode}.
Implicit Types (w : World) (db : DbType) (i m k : string).

Definition zview w db i : zset := zsets (w_env w) (addr_of db) i.

(** [w'] shows the same strings, and the same sorted sets but one. *)
Record zstep w db i (z : zset) w' : Prop := {
  zs_ro : ro w w';
  zs_index : zview w' db i = z;
  zs_other : forall db' i', (db', i') <> (db, i) -> zview w' db' i' = zview w db' i';
  zs_scan : forall db' i' n m, unscanned (w_env w) (addr_of db') i' n m ->
    is_Some (zview w' db' i' !! m) -> unscanned (w_env w') (addr_of db') i' n m;
  zs_pages : forall db' i' n,
    (pages_left (w_env w') (addr_of db') i' n <= pages_left (w_env w) (addr_of db') i' n)%nat;
}.
(** Nothing was written. *)
Definition zro w w' : Prop := forall db i, zstep w db i (zview w db i) w'.

Lemma addr_index_ne db db' i i' : (db', i') <> (db, i) -> (addr_of db', i') <> (addr_of db, i).
Proof.
  intros Hne E. apply Hne. pose proof (f_equal fst E) as Ha. pose proof (f_equal snd E) as Hi.
  cbn [fst snd] in Ha, Hi. by rewrite (addr_of_inj _ _ Ha), Hi.
Qed.

(** One command on a sorted set. *)
Lemma wp_ZDo db c Q w : wf w ->
  (forall r w', zset_do (addr_of db) c (w_env w) = (r, w_env w') ->
     (healthy w -> zaccepted c = true -> forall msg, r <> ZErr msg) ->
     (forall z, zview w' db (zindex c) = z -> zstep w db (zindex c) z w') -> Q (Ok r) w') ->
  wp (ZDo (addr_of db) c) Q w.
Proof.
  intros Hwf HQ. apply wp_in_env. intros r e Hd.
  destruct (zdo_law _ _ _ _ _ Hd) as (Hq & Ho & Hr & Hs & Hp).
  apply HQ; [done|by intros [Hrel _]; apply Hr|].
  intros z Hz. split; [by apply ro_quiet|done| |by intros; apply Hs|by intros; apply Hp].
  intros db' i' Hne. by apply Ho, addr_index_ne.
Qed.

(** A page of a scan. *)
Record page w db i n pat (next : string) (data : list string) w' : Type := {
  pg_items : list (string * string);
  pg_next : Z;
  pg_data : data = page_of pg_items;
  pg_atoi : Atoi next = Some pg_next /\ atoi next = Some pg_next;
  pg_zero : String.eqb next "0" = true <-> pg_next = 0%Z;
  pg_member : forall m s, (m, s) ∈ pg_items -> glob pat m = true /\
    exists score, zview w db i !! m = Some score /\ score_text score s;
  pg_found : forall m, unscanned (w_env w) (addr_of db) i n m -> is_Some (zview w db i !! m) ->
    glob pat m = true ->
    m ∈ pg_items.*1 \/ (pg_next <> 0%Z /\ unscanned (w_env w') (addr_of db) i pg_next m);
  pg_left : pg_next <> 0%Z ->
    (pages_left (w_env w') (addr_of db) i pg_next < pages_left (w_env w) (addr_of db) i n)%nat;
}.

#[local] Arguments pg_items {w db i n pat next data w'} _.
#[local] Arguments pg_next {w db i n pat next data w'} _.
#[local] Arguments pg_data {w db i n pat next data w'} _.
#[local] Arguments pg_atoi {w db i n pat next data w'} _.
#[local] Arguments pg_zero {w db i n pat next data w'} _.
#[local] Arguments pg_member {w db i n pat next data w'} _ m s _.
#[local] Arguments pg_found {w db i n pat next data w'} _ m _ _ _.
#[local] Arguments pg_left {w db i n pat next data w'} _ _.

Lemma wp_zscan db i c pat w : wf w -> ready db w ->
  wp (zscan db i c pat)
     (fun o w' => zro w w' /\
        match o with
        | Ok (inl _) => healthy w -> decimal_cursor c = false
        | Ok (inr (next, data)) => inhabited (page w db i (cursor_val c) pat next data w')
        | Panic => False
        end) w.
Proof.
  intros Hwf Hrd. unfold zscan. wp_go. apply wp_read_conn; [done..|]. wp_go.
  apply wp_ZDo; [done|]. intros r w' Hd Hrel Hz. destruct (zscan_law _ _ _ _ _ _ _ Hd) as [Hsame Hr].
  specialize (Hz _ Hsame). cbn [zindex zaccepted] in *.
  assert (Hro : zro w w').
  { intros db' i'. destruct (decide ((db', i') = (db, i))) as [[= -> ->]|Hne]; [done|].
    destruct Hz as [h1 h2 h3 h4 h5]. split; [done|by apply h3| |done|done].
    intros db2 i2 _. destruct (decide ((db2, i2) = (db, i))) as [[= -> ->]|Hne2]; [done|by apply h3]. }
  destruct r as [msg|l|next data|]; try done; wp_go; (split; [done|]).
  - intros Hh. apply not_true_iff_false. intros Hc. by apply (Hrel Hh Hc msg).
  - destruct Hr as (l & n & -> & Ha & Hn & Hz0 & Hm & Hf & Hl). constructor.
    refine (Build_page _ _ _ _ _ _ _ _ l n eq_refl _ _ Hm Hf Hl).
    + split; [|done]. unfold Atoi. rewrite Ha. by rewrite (proj2 (Z.ltb_lt n _)) by lia.
    + by rewrite String.eqb_eq.
Qed.

Lemma zro_ro w w' : zro w w' -> ro w w'.
Proof. intros Hz. apply (zs_ro _ _ _ _ _ (Hz InMemory "")). Qed.
Lemma zro_view w w' db i : zro w w' -> zview w' db i = zview w db i.
Proof. intros Hz. apply (zs_index _ _ _ _ _ (Hz db i)). Qed.

(** [w'] is a later world in which the set [i] of [db] has lost members that satisfy [P], and
    nothing else was written. *)
Record pruned db i (P : string -> Prop) w w' : Prop := {
  pr_ro : ro w w';
  pr_index : forall m, zview w' db i !! m = zview w db i !! m \/ (zview w' db i !! m = None /\ P m);
  pr_other : forall db' i', (db', i') <> (db, i) -> zview w' db' i' = zview w db' i';
  pr_scan : forall n m, unscanned (w_env w) (addr_of db) i n m -> is_Some (zview w' db i !! m) ->
    unscanned (w_env w') (addr_of db) i n m;
  pr_pages : forall n,
    (pages_left (w_env w') (addr_of db) i n <= pages_left (w_env w) (addr_of db) i n)%nat;
}.
Lemma pruned_member db i P w w' m : pruned db i P w w' ->
  is_Some (zview w' db i !! m) -> is_Some (zview w db i !! m).
Proof. intros Hp Hm. destruct (pr_index _ _ _ _ _ Hp m) as [<-|[E _]]; [done|]. rewrite E in Hm. by destruct Hm. Qed.
Lemma pruned_trans db i (P : string -> Prop) w w1 w2 :
  pruned db i P w w1 -> pruned db i P w1 w2 -> pruned db i P w w2.
Proof.
  intros Ha Hb. pose proof (fun m => pruned_member _ _ _ _ _ m Hb) as Hm.
  destruct Ha as [a1 a2 a3 a4 a5], Hb as [b1 b2 b3 b4 b5]. split.
  - by eapply ro_trans.
  - intros m. destruct (b2 m) as [->|[-> ?]]; [apply a2|by right].
  - intros db' i' Hne. by rewrite b3, a3.
  - intros n m Hu Hs. auto.
  - intros n. specialize (a5 n). specialize (b5 n). lia.
Qed.
Lemma pruned_mono db i (P Q : string -> Prop) w w' : (forall m, P m -> Q m) ->
  pruned db i P w w' -> pruned db i Q w w'.
Proof. intros HPQ [a1 a2 a3 a4 a5]. split; try done. intros m. destruct (a2 m) as [?|[? ?]]; auto. Qed.
Lemma zro_pruned db i P w w' : zro w w' -> pruned db i P w w'.
Proof.
  intros Hz. split.
  - by apply zro_ro.
  - intros m. left. by rewrite (zro_view _ _ _ _ Hz).
  - intros db' i' _. by apply zro_view.
  - apply (zs_scan _ _ _ _ _ (Hz db i) db i).
  - apply (zs_pages _ _ _ _ _ (Hz db i) db i).
Qed.
Lemma pruned_refl db i P w : wf w -> pruned db i P w w.
Proof. intros Hwf. split; auto. by apply ro_refl. Qed.

(** Losing the write pool after a failed command. *)
Lemma pruned_StoreNil db i P w w' : ~ healthy w -> ready db w -> pruned db i P w w' ->
  pruned db i P w (with_pool db (set_write None <$> pool_of db w') w').
Proof.
  intros Hn Hrd [a1 a2 a3 a4 a5]. split.
  - by apply evolves_StoreNil.
  - intros m. unfold zview. rewrite with_pool_env. apply a2.
  - intros db' i'. unfold zview. rewrite with_pool_env. apply a3.
  - intros n m. unfold zview. rewrite with_pool_env. apply a4.
  - intros n. rewrite with_pool_env. apply a5.
Qed.

Lemma wp_ZREM db i x w : wf w ->
  wp (ZDo (addr_of db) (ZREM i x))
     (fun o w' => pruned db i (eq x) w w' /\
        match o with
        | Ok (ZErr _) => ~ healthy w
        | Ok ZDone => zview w' db i !! x = None
        | _ => False
        end) w.
Proof.
  intros Hwf. apply wp_ZDo; [done|]. intros r w' Hd Hrel Hz. cbn [zindex zaccepted] in *.
  pose proof (zrem_law _ _ _ _ _ _ Hd) as Hr. change (zsets (w_env w') (addr_of db) i) with (zview w' db i) in Hr.
  change (zsets (w_env w) (addr_of db) i) with (zview w db i) in Hr. specialize (Hz _ eq_refl).
  assert (Hp : zview w' db i = zview w db i \/ zview w' db i = delete x (zview w db i) ->
               pruned db i (eq x) w w').
  { intros Hv. destruct Hz as [h1 _ h3 h4 h5]. split; [done| |done|by apply h4|by apply h5].
    intros m. destruct Hv as [-> | ->]; [by left|]. destruct (decide (x = m)) as [-> |Hne].
    - right. by rewrite lookup_delete_eq.
    - left. by rewrite lookup_delete_ne. }
  destruct r; try done; (split; [by auto|]).
  - intros Hh. by apply (Hrel Hh eq_refl msg).
  - rewrite Hr. apply lookup_delete_eq.
Qed.

Lemma wp_delMembers db i data w : wf w -> ready db w ->
  wp (delMembers db (addr_of db) i data)
     (fun o w' => pruned db i (fun m => m ∈ data) w w' /\
        match o with
        | Ok (inl _) => ~ healthy w
        | Ok (inr _) => forall m, m ∈ data -> m <> "0" -> zview w' db i !! m = None
        | Panic => False
        end) w.
Proof.
  intros Hwf Hrd. unfold delMembers.
  apply (wp_loopM (fun done _ w' => pruned db i (fun m => m ∈ data) w w' /\
    forall m, m ∈ done -> m <> "0" -> zview w' db i !! m = None)).
  - split; [by apply pruned_refl|]. intros m Hm. by apply elem_of_nil in Hm.
  - intros pre x _ w1 [post ->] [Hp Hpre]. destruct (String.eqb x "0") eqn:E0.
    { apply String.eqb_eq in E0. subst x. wp_go. split; [done|]. intros m Hm Hne.
      apply elem_of_app in Hm as [Hm|Hm]; [by apply Hpre|]. by apply list_elem_of_singleton in Hm. }
    wp_call wp_ZREM; [apply Hp|]. intros o w2 [Hx Ho].
    assert (Hp2 : pruned db i (fun m => m ∈ (pre ++ x :: post)%list) w w2).
    { eapply pruned_trans; [exact Hp|]. eapply pruned_mono; [|exact Hx]. intros m <-.
      rewrite elem_of_app, elem_of_cons. auto. }
    destruct o as [[msg| | |]|]; try done; wp_go.
    + assert (Hn : ~ healthy w) by (eapply unhealthy_ro; [apply Hp|done]).
      unfold zwrite_failed. destruct (isDbConnectError msg); unfold StoreWritePoolNil; wp_go.
      * split; [by apply pruned_StoreNil|done].
      * by split.
    + split; [done|]. intros m Hm Hne. apply elem_of_app in Hm as [Hm|Hm].
      * destruct (pr_index _ _ _ _ _ Hx m) as [-> |[? _]]; [by apply Hpre|done].
      * apply list_elem_of_singleton in Hm as ->. done.
  - intros _ w' [Hp Hd]. by split.
Qed.

Lemma page_of_elem (l : list (string * string)) x :
  x ∈ page_of l -> exists m s, (m, s) ∈ l /\ (x = m \/ x = s).
Proof.
  induction l as [|[m s] l IH]; cbn [page_of]; [by intros ?%elem_of_nil|].
  rewrite !elem_of_cons. intros [-> |[-> |Hx]].
  - exists m, s. rewrite elem_of_cons. auto.
  - exists m, s. rewrite elem_of_cons. auto.
  - destruct (IH Hx) as (m' & s' & Hin & ?). exists m', s'. rewrite elem_of_cons. auto.
Qed.
Lemma page_of_member (l : list (string * string)) m : m ∈ l.*1 -> m ∈ page_of l.
Proof.
  induction l as [|[m' s] l IH]; [by intros ?%elem_of_nil|].
  rewrite fmap_cons. cbn [page_of fst]. rewrite !elem_of_cons. intuition.
Qed.

Lemma pruned_ready db db' i P w w' : pruned db i P w w' -> ready db' w -> ready db' w'.
Proof. intros Hp. apply (pr_ro _ _ _ _ _ Hp). Qed.

(** The members of an index have the form value::id. *)
Definition well_named (z : zset) : Prop := forall m, is_Some (z !! m) -> no_char ":"%char m = false.

(** What [Del] may remove, and what is still to come when its scan has reached a cursor. *)
Definition del_state db i k w (n : Z) w' : Prop :=
  pruned db i (fun m => HasSuffix m k = true) w w' /\
  forall m, HasSuffix m k = true -> is_Some (zview w' db i !! m) ->
    unscanned (w_env w') (addr_of db) i n m.

(** One page removed: only members that end with the key are gone ... *)
Lemma del_page_keeps db i k w n w1 next data w2 w3 (Hpg : page w1 db i n ("*" +:+ k) next data w2) :
  well_named (zview w db i) -> no_glob k = true -> del_state db i k w n w1 -> zro w1 w2 ->
  pruned db i (fun m => m ∈ data) w2 w3 ->
  pruned db i (fun m => HasSuffix m k = true) w w3.
Proof.
  intros Hnamed Hk [Hw1 Hun] Hz Hp.
  eapply pruned_trans; [exact Hw1|]. eapply pruned_trans; [by apply zro_pruned|].
  destruct Hp as [a1 a2 a3 a4 a5]. split; try done. intros m. destruct (a2 m) as [?|[En Hin]]; [by left|].
  destruct (zview w2 db i !! m) as [sc|] eqn:Em; [right|by left]. split; [done|].
  rewrite (zro_view _ _ _ _ Hz) in Em. rewrite (pg_data Hpg) in Hin.
  destruct (page_of_elem _ _ Hin) as (m' & s' & Hin' & Hms).
  destruct (pg_member Hpg _ _ Hin') as (Hg & sc' & Hsc & Htext & _).
  destruct Hms as [-> | ->]; [by rewrite (glob_suffix k m' Hk) in Hg|].
  rewrite Hnamed in Htext; [done|]. eapply pruned_member; [exact Hw1|by eexists].
Qed.
(** ... and those of the page are, while the others are still to come. *)
Lemma del_page_rest db i k w n w1 next data w2 w3 (Hpg : page w1 db i n ("*" +:+ k) next data w2) :
  well_named (zview w db i) -> no_glob k = true -> del_state db i k w n w1 -> zro w1 w2 ->
  pruned db i (fun m => m ∈ data) w2 w3 ->
  (forall m, m ∈ data -> m <> "0" -> zview w3 db i !! m = None) ->
  forall m, HasSuffix m k = true -> is_Some (zview w3 db i !! m) ->
    pg_next Hpg <> 0%Z /\ unscanned (w_env w3) (addr_of db) i (pg_next Hpg) m.
Proof.
  intros Hnamed Hk [Hw1 Hun] Hz Hp Hgone m Hsuf Hin3.
  assert (Hin2 : is_Some (zview w2 db i !! m)) by (by eapply pruned_member).
  assert (Hin1 : is_Some (zview w1 db i !! m)) by (by rewrite <- (zro_view _ _ db i Hz)).
  destruct (pg_found Hpg m (Hun m Hsuf Hin1) Hin1) as [Hl1|[Hn Hu]].
  - by rewrite (glob_suffix k m Hk).
  - exfalso. assert (Hmem : m ∈ data) by (rewrite (pg_data Hpg); by apply page_of_member).
    rewrite (Hgone m Hmem) in Hin3; [by destruct Hin3|]. intros ->.
    by specialize (Hnamed "0" (pruned_member _ _ _ _ _ _ Hw1 Hin1)).
  - split; [done|]. by apply (pr_scan _ _ _ _ _ Hp).
Qed.

Definition del_post db i k w (o : outcome (option (option string))) w' : Prop :=
  exists r, o = Ok (Some r) /\
    pruned db i (fun m => HasSuffix m k = true) w w' /\
    (r = None -> forall m, HasSuffix m k = true -> zview w' db i !! m = None) /\
    (healthy w -> r = None \/ r = Some "no data with ID found").

Lemma wp_Del fuel db i k w :
  wf w -> ready db w -> no_glob k = true -> well_named (zview w db i) ->
  (pages_left (w_env w) (addr_of db) i 0 < fuel)%nat ->
  wp (Del fuel db i k) (del_post db i k w) w.
Proof.
  intros Hwf Hrd Hk Hnamed. unfold Del.
  assert (Hgen : forall w1 n, del_state db i k w n w1 ->
    (pages_left (w_env w1) (addr_of db) i n < fuel)%nat ->
    wp (iterM fuel (fun currentCursor =>
      let! d := zscan db i (IntCursor currentCursor) ("*" +:+ k) in
      match d with
      | inl err => ret (inl (Some err))
      | inr (stringCursor, data) =>
          if Nat.ltb (length data) 1 then ret (inl (Some "no data with ID found"))
          else
            let! writePool := LoadWritePool db in
            match writePool with
            | None => ret (inl (Some "WritePool is nil"))
            | Some a =>
                let! r := delMembers db a i data in
                match r with
                | inl err => ret (inl (Some err))
                | inr _ =>
                    if String.eqb stringCursor "0" then ret (inl None)
                    else match Atoi stringCursor with
                         | Some n => ret (inr n)
                         | None => ret (inl (Some (atoi_error stringCursor)))
                         end
                end
            end
      end) n) (del_post db i k w) w1).
  2: { apply (Hgen w 0%Z). split; [by apply pruned_refl|]. intros m _. apply scan_start. }
  induction fuel as [|fuel IH]; intros w1 n Hst Hfuel; [lia|]. cbn [iterM].
  assert (Hrd1 : ready db w1) by (eapply pruned_ready; [apply Hst|done]).
  assert (Hwf1 : wf w1) by apply (pr_ro _ _ _ _ _ (proj1 Hst)).
  wp_call wp_zscan; [done|done|]. intros o w2 [Hz Ho]. wp_go.
  assert (Hp2 : pruned db i (fun m => HasSuffix m k = true) w w2).
  { eapply pruned_trans; [apply Hst|]. by apply zro_pruned. }
  destruct o as [[err|[next data]]|]; [| |done]; wp_go.
  { exists (Some err). split_and!; [done|done|done|]. intros Hh. exfalso.
    assert (Hh1 : healthy w1) by (by apply (pr_ro _ _ _ _ _ (proj1 Hst))). by specialize (Ho Hh1). }
  destruct Ho as [Hpg]. destruct (Nat.ltb_spec (length data) 1) as [Hlen|Hlen]; wp_go.
  { exists (Some "no data with ID found"). split_and!; [done|done|done|auto]. }
  apply wp_LoadWritePool; [apply Hp2|by eapply pruned_ready|intros Hd|intros Hd]; wp_go.
  { exists (Some "WritePool is nil"). split_and!; [done|done|done|]. intros Hh. exfalso.
    apply (dead_unhealthy _ _ Hd). by apply (pr_ro _ _ _ _ _ Hp2). }
  wp_call wp_delMembers; [apply Hp2|by eapply pruned_ready|]. intros o w3 [Hp3 Ho].
  pose proof (del_page_keeps _ _ _ _ _ _ _ _ _ _ Hpg Hnamed Hk Hst Hz Hp3) as Hp.
  destruct o as [[err|u]|]; [| |done]; wp_go.
  { exists (Some err). split_and!; [done|done|done|]. intros Hh. exfalso. apply Ho, (pr_ro _ _ _ _ _ Hp2), Hh. }
  pose proof (del_page_rest _ _ _ _ _ _ _ _ _ _ Hpg Hnamed Hk Hst Hz Hp3 Ho) as Hrest.
  destruct (String.eqb next "0") eqn:E0; wp_go.
  - exists None. split_and!; [done|done| |auto]. intros _ m Hm.
    destruct (zview w3 db i !! m) eqn:Em; [|done]. exfalso.
    destruct (Hrest m Hm ltac:(by eexists)) as [Hne _]. by apply Hne, (pg_zero Hpg).
  - rewrite (proj1 (pg_atoi Hpg)). wp_go. apply IH.
    + split; [done|]. intros m Hm Hin. apply (Hrest m Hm Hin).
    + assert (Hne : pg_next Hpg <> 0%Z) by (intros E; apply (pg_zero Hpg) in E; congruence).
      pose proof (pg_left Hpg Hne) as Hlt. cbn [cursor_val] in Hlt.
      pose proof (Nat.le_lt_trans _ _ _ (pr_pages _ _ _ _ _ Hp3 (pg_next Hpg)) Hlt) as Hq.
      eapply Nat.lt_le_trans; [exact Hq|]. apply Nat.lt_succ_r. exact Hfuel.
Qed.

(** ** Writing the indices of a resource *)

(** A write that is sent and whose reply is dropped. *)
Lemma wp_ZSend db c w : wf w -> zwrites c = true ->
  wp (ZSend (addr_of db) c)
     (fun o w' => ro w w' /\
        (forall db' i', (db', i') <> (db, zindex c) -> zview w' db' i' = zview w db' i') /\
        (zview w' db (zindex c) = zview w db (zindex c) \/ zview w' db (zindex c) = zapply c (zview w db (zindex c))) /\
        exists r, o = Ok r /\ (healthy w -> r = None /\ zview w' db (zindex c) = zapply c (zview w db (zindex c)))) w.
Proof.
  intros Hwf Hc. apply wp_in_env. intros r e Hd. destruct (zsend_law _ _ _ _ _ Hd Hc) as (Hq & Ho & Hz & Hr).
  split; [by apply ro_quiet|]. split; [intros db' i' Hne; by apply Ho, addr_index_ne|]. split; [done|].
  exists r. split; [done|]. intros [Hrel _]. by apply Hr.
Qed.

(** Every entry of [w'] was in [w] or is that of a value of the form. *)
Definition entries_from (form : list (string * form_value)) uuid db w w' : Prop :=
  forall db' i m s, zview w' db' i !! m = Some s ->
    zview w db' i !! m = Some s \/ (db' = db /\ exists v, (i, v) ∈ form /\ form_entry v uuid = inr (s, m)).
(** The values of the form have their entries in [w']. *)
Definition entries_made (form : list (string * form_value)) uuid db w' : Prop :=
  forall i v, (i, v) ∈ form -> exists s m, form_entry v uuid = inr (s, m) /\ zview w' db i !! m = Some s.
Definition indexable (uuid : string) (iv : string * form_value) : Prop := exists e, form_entry iv.2 uuid = inr e.

Lemma wp_add_entry form pre todo uuid db i v s m w w1 : form = (pre ++ (i, v) :: todo)%list -> NoDup form.*1 -> wf w1 ->
  form_entry v uuid = inr (s, m) -> ro w w1 -> entries_from form uuid db w w1 ->
  (healthy w -> entries_made pre uuid db w1) ->
  wp (ZSend (addr_of db) (ZADD i s m)) (fun o w' => ro w w' /\ entries_from form uuid db w w' /\
    exists r, o = Ok r /\ (healthy w -> r = None /\ entries_made (pre ++ [(i, v)])%list uuid db w')) w1.
Proof.
  intros -> Hnd Hwf He Hro Hfrom Hmade. eapply wp_mono; [by apply wp_ZSend|].
  cbn [zindex zapply]. intros o w2 (Hro2 & Hother & Hz & r & -> & Hr). split; [by eapply ro_trans|]. split.
  - intros db' i' m' s' Hs'. destruct (decide ((db', i') = (db, i))) as [[= -> ->]|Hne].
    2:{ rewrite Hother in Hs' by done. by apply Hfrom. }
    destruct Hz as [Hz|Hz]; rewrite Hz in Hs'; [by apply Hfrom|].
    apply lookup_insert_Some in Hs' as [[<- <-]|[_ Hs']]; [|by apply Hfrom].
    right. split; [done|]. exists v. split; [|done]. apply elem_of_app. right. by left.
  - exists r. split; [done|]. intros Hh. destruct (Hr (ev_healthy _ _ _ Hro Hh)) as [-> Hz2]. split; [done|].
    intros i' v' [Hin|Hin]%elem_of_app.
    + destruct (Hmade Hh i' v' Hin) as (s' & m' & He' & Hs'). exists s', m'. split; [done|]. rewrite Hother; [done|].
      intros [= ->]. rewrite fmap_app, fmap_cons in Hnd. apply NoDup_app in Hnd as (_ & Hnd & _).
      apply (Hnd i); [|apply elem_of_cons; auto]. apply list_elem_of_fmap. by exists (i, v').
    + apply list_elem_of_singleton in Hin as [= -> ->]. exists s, m. split; [done|]. rewrite Hz2. apply lookup_insert_eq.
Qed.

Definition index_post form uuid db w (o : outcome (option string)) w' : Prop :=
  ro w w' /\ entries_from form uuid db w w' /\
  exists r, o = Ok r /\ (healthy w -> Forall (indexable uuid) form -> r = None /\ entries_made form uuid db w').
Lemma wp_CreateIndex db form uuid w : wf w -> ready db w -> NoDup form.*1 ->
  wp (CreateIndex db form uuid) (index_post form uuid db w) w.
Proof.
  intros Hwf Hrd Hnd. unfold CreateIndex. wp_go.
  apply wp_LoadWritePool; [done|done|intros Hd|intros Hd]; wp_go.
  { split; [by apply ro_refl|]. split; [by left|]. eexists. split; [done|]. intros Hh. by destruct (dead_unhealthy _ _ Hd). }
  apply (wp_loopM (fun pre _ w' => ro w w' /\ entries_from form uuid db w w' /\ (healthy w -> entries_made pre uuid db w'))).
  - split_and!; [by apply ro_refl|by left|]. by intros _ i v ?%elem_of_nil.
  - intros pre [i v] [] w1 [todo E] (Hro & Hfrom & Hmade). destruct (form_entry v uuid) as [err|[s m]] eqn:He; wp_go.
    { split_and!; [done|done|]. eexists. split; [done|]. intros _ Hall. rewrite E in Hall.
      apply Forall_app in Hall as [_ [[e Hv] _]%Forall_cons]. cbn in Hv. congruence. }
    eapply wp_mono; [eapply wp_add_entry; [exact E|done|apply Hro|done..]|].
    intros o w2 (Hro2 & Hfrom2 & r & -> & Hr). destruct r as [err|]; wp_go; [|by split_and!; [..|apply Hr]].
    unfold StoreWritePoolNil. wp_go. assert (Hn : ~ healthy w) by (intros Hh; by destruct (Hr Hh)).
    split; [by apply evolves_StoreNil|]. split.
    + intros db' i' m' s'. unfold zview. rewrite with_pool_env. apply Hfrom2.
    + eexists. split; [done|]. intros Hh. by destruct (Hn Hh).
  - intros [] w' (Hro & Hfrom & Hmade). wp_go. split_and!; [done|done|]. eexists. split; [done|]. intros Hh _. split; [done|]. by apply Hmade.
Qed.

(** Writing the indices of a resource adds entries of the values of its form and nothing else,
    whatever fails; in a healthy process in which every value can be indexed it succeeds and each value
    has its entry. *)
Theorem CreateIndex_spec db form uuid w : wf w -> ready db w -> NoDup form.*1 ->
  wp (CreateIndex db form uuid) (index_post form uuid db w) w.
Proof. apply wp_CreateIndex. Qed.

(** Deleting from an index ends after at most as many rounds as the server has pages.  Whatever
    commands fail, only members that end with the key are removed and nothing else is written; when
    it reports success no such member is left; and when no command fails it reports success or that
    a page of the scan was empty. *)
Theorem Del_spec fuel db i k w :
  wf w -> ready db w -> no_glob k = true -> well_named (zview w db i) ->
  (pages_left (w_env w) (addr_of db) i 0 < fuel)%nat ->
  wp (Del fuel db i k) (del_post db i k w) w.
Proof. apply wp_Del. Qed.
End indexspec.

Section scenario.
#[local] Existing Instances single single_node.
(** An index of two tasks of alice and one of bob. *)
Definition task_index : zset := {[ "alice::task1" := inject_Z 5; "alice::task2" := inject_Z 6; "bob::task1" := inject_Z 7 ]}.
Definition index_world : @World Sim.sim_env :=
  with_env (Sim.mk ∅ 0 1 [] {[ (inmem_addr, "CompletedTasksIndex") := task_index ]}) (sim_world ∅ ∅ 0 []).

Lemma index_world_wf : wf index_world.
Proof. intros []; simpl; auto. Qed.
Lemma task_index_named : well_named task_index.
Proof.
  intros m. unfold task_index. rewrite !lookup_insert_is_Some, lookup_singleton_is_Some.
  by intros [<-|[_ [<-|[_ <-]]]].
Qed.

Lemma Del_spec_witness :
  wp (Del 1 InMemory "CompletedTasksIndex" "task1")
     (del_post InMemory "CompletedTasksIndex" "task1" index_world) index_world.
Proof.
  apply Del_spec.
  - apply index_world_wf.
  - by eexists.
  - reflexivity.
  - apply task_index_named.
  - simpl. lia.
Defined.
(** The form of a computer system. *)
Definition system_form : list (string * form_value) :=
  [("ProcessorSummary/Count", FInt 2); ("SystemType", FString "Physical"); ("Storage/Drives/Capacity", FFloats [(1200 # 2)%Q])].
Lemma CreateIndex_spec_witness :
  wp (CreateIndex InMemory system_form "/redfish/v1/Systems/a") 
    (index_post system_form "/redfish/v1/Systems/a" InMemory index_world) index_world.
Proof.
  apply CreateIndex_spec; [apply index_world_wf|by eexists|]. by apply (bool_decide_unpack _); vm_compute.
Defined.
Example CreateIndex_run :
  let w' := (CreateIndex InMemory system_form "/redfish/v1/Systems/a" index_world).2 in
  (fun iv => (map_to_list (zset_at (w_env w') inmem_addr iv.1)).*1) <$> system_form
  = [["2::/redfish/v1/Systems/a"]; ["physical::/redfish/v1/Systems/a"]; ["[600]::/redfish/v1/Systems/a"]].
Proof. vm_compute. reflexivity. Qed.
(** The run removes the tasks of both users that have the identifier. *)
Example Del_run :
  (map_to_list (zset_at (w_env (Del 1 InMemory "CompletedTasksIndex" "task1" index_world).2)
     inmem_addr "CompletedTasksIndex")).*1 = ["alice::task2"].
Proof. vm_compute. reflexivity. Qed.
End scenario.
