(* ===== verification/StoreProps.v ===== *)
(** The persistence manager against an abstract key-value store: refinement in a process whose
    commands succeed, safety under faults, and what a lost write pool means. *)
From stdpp Require Import base gmap sets list strings.
From S2P Require Import Prelude Go Response Redis World ConnPool DBSpec AsSpec Scenario.
Open Scope string_scope.

(** ** The abstract store *)

Inductive store_op :=
| OpCreate (table key : string) (data : json)
| OpUpdate (table key : string) (data : json)
| OpDelete (table key : string)
| OpRead (table key : string)
| OpList (table : string).

Inductive answer :=
| ADone
| AText (v : jtext)
| AKeys (ids : list string)
| AFail (e : ErrType).

Definition free (m : gmap string jtext) (k : string) : bool :=
  match m !! k with None => true | Some v => text_is_empty v end.

(** The answer to an operation and the store after it; only the order of a listing is left open. *)
Definition spec_step (op : store_op) (m : gmap string jtext) (a : answer) (m' : gmap string jtext)
  : Prop :=
  match op with
  | OpCreate t k d =>
      if free m (saveID t k) then a = ADone /\ m' = <[saveID t k := Text d]> m
      else a = AFail DBKeyAlreadyExist /\ m' = m
  | OpUpdate t k d =>
      match m !! saveID t k with
      | Some _ => a = ADone /\ m' = <[saveID t k := Text d]> m
      | None => a = AFail DBKeyNotFound /\ m' = m
      end
  | OpDelete t k =>
      match m !! saveID t k with
      | Some _ => a = ADone /\ m' = delete (saveID t k) m
      | None => a = AFail DBKeyNotFound /\ m' = m
      end
  | OpRead t k =>
      match m !! saveID t k with
      | Some v => a = AText v /\ m' = m
      | None => a = AFail DBKeyNotFound /\ m' = m
      end
  | OpList t => m' = m /\ exists ids, a = AKeys ids /\ NoDup ids /\
                  forall id, id ∈ ids <-> is_Some (m !! saveID t id)
  end.

Inductive spec_run : list store_op -> gmap string jtext -> list answer -> gmap string jtext -> Prop :=
| spec_nil m : spec_run [] m [] m
| spec_cons op ops m a m1 rs m2 :
    spec_step op m a m1 -> spec_run ops m1 rs m2 -> spec_run (op :: ops) m (a :: rs) m2.

(** The table names the services use hold no pattern characters. *)
Definition op_table_ok (op : store_op) : bool :=
  match op with OpList t => no_glob (t +:+ ":") | _ => true end.

(** The key an operation may write. *)
Definition op_key (op : store_op) : option string :=
  match op with
  | OpCreate t k _ | OpUpdate t k _ | OpDelete t k => Some (saveID t k)
  | OpRead _ _ | OpList _ => None
  end.
(** The value it leaves there. *)
Definition op_value (op : store_op) : option jtext :=
  match op with OpCreate _ _ d | OpUpdate _ _ d => Some (Text d) | _ => None end.
Definition answer_ok (a : answer) : bool := match a with AFail _ => false | _ => true end.

Section run.
Context `{Env, Config}.

Definition of_option (r : option Err) : answer :=
  match r with None => ADone | Some e => AFail (ErrNo e) end.

(** One operation the way a client makes it: it opens the connection first. *)
Definition run_op (db : DbType) (op : store_op) : IO answer :=
  GetDBConnection db ;;;
  match op with
  | OpCreate t k d => let! r := Create db t k d in ret (of_option r)
  | OpUpdate t k d =>
      let! r := Update db t k d in ret (match r with inl e => AFail (ErrNo e) | inr _ => ADone end)
  | OpDelete t k => let! r := Delete db t k in ret (of_option r)
  | OpRead t k =>
      let! r := Read db t k in ret (match r with inl e => AFail (ErrNo e) | inr v => AText v end)
  | OpList t =>
      let! r := GetAllDetails db t in
      ret (match r with inl e => AFail (ErrNo e) | inr ids => AKeys ids end)
  end.
Fixpoint run_ops (db : DbType) (ops : list store_op) : IO (list answer) :=
  match ops with
  | [] => ret []
  | op :: ops' => let! a := run_op db op in let! rs := run_ops db ops' in ret (a :: rs)
  end.
End run.

Section refinement.
Context `{EnvLaws, SingleNode}.
Implicit Types (w : World).

Lemma free_absent w db k : free (view w db) k = true <-> absent w db k.
Proof. unfold free, absent. by destruct (view w db !! k). Qed.

(** What one operation does in any process: [ok] is its effect when nothing fails. *)
Definition op_post db op w (o : outcome answer) w' : Prop :=
  exists a, o = Ok a /\
    ((spec_step op (view w db) a (view w' db) /\
      (forall db', db' <> db -> view w' db' = view w db') /\ evolves w (view w') w')
     \/ (~ healthy w /\ answer_ok a = false /\
         exists f, maybe_written w db f w' /\
           (op_key op = None -> ro w w') /\
           forall k m, f m !! k = m !! k \/ (op_key op = Some k /\ f m !! k = op_value op))
     \/ (~ healthy w /\ answer_ok a = true /\ exists k v,
           op_key op = Some k /\ op_value op = Some v /\ written w db (insert k v) w')).

Lemma spec_written w db f w' op a : written w db f w' ->
  spec_step op (view w db) a (f (view w db)) ->
  spec_step op (view w db) a (view w' db) /\
  (forall db', db' <> db -> view w' db' = view w db') /\ evolves w (view w') w'.
Proof.
  intros Hw Hs. split_and!.
  - rewrite (ev_view _ _ _ Hw), upd_eq. exact Hs.
  - intros db' Hne. by rewrite (ev_view _ _ _ Hw), upd_ne.
  - eapply evolves_ext; [|exact Hw]. intros db'. by rewrite (ev_view _ _ _ Hw).
Qed.
Lemma spec_ro w db w' op a : ro w w' ->
  spec_step op (view w db) a (view w db) ->
  spec_step op (view w db) a (view w' db) /\
  (forall db', db' <> db -> view w' db' = view w db') /\ evolves w (view w') w'.
Proof.
  intros Hw Hs. split_and!.
  - by rewrite (ro_view _ _ _ Hw).
  - intros db' _. by rewrite (ro_view _ _ _ Hw).
  - eapply evolves_ext; [|exact Hw]. intros db'. by rewrite (ro_view _ _ _ Hw).
Qed.

Lemma write_frame (op : store_op) k v : op_key op = Some k -> op_value op = Some v ->
  forall k' (m : gmap string jtext),
    <[k := v]> m !! k' = m !! k' \/ (op_key op = Some k' /\ <[k := v]> m !! k' = op_value op).
Proof.
  intros Hk Hv k' m. destruct (decide (k' = k)) as [->|Hne].
  - right. by rewrite lookup_insert_eq.
  - left. by rewrite lookup_insert_ne.
Qed.
Lemma delete_frame t k :
  forall k' (m : gmap string jtext),
    delete (saveID t k) m !! k' = m !! k' \/
    (op_key (OpDelete t k) = Some k' /\ delete (saveID t k) m !! k' = op_value (OpDelete t k)).
Proof.
  intros k' m. destruct (decide (k' = saveID t k)) as [->|Hne].
  - right. by rewrite lookup_delete_eq.
  - left. by rewrite lookup_delete_ne.
Qed.

Lemma op_create db t k d w r w' :
  create_post w db (saveID t k) (Text d) (Ok r) w' ->
  op_post db (OpCreate t k d) w (Ok (of_option r)) w'.
Proof.
  intros Hp. eexists. split; [done|]. destruct r as [e|]; simpl in Hp.
  - destruct Hp as [(He & Hr & Ha)|(He & Hh & Hm)].
    + left. apply spec_ro; [done|]. cbn [spec_step]. rewrite <- free_absent in Ha.
      destruct (free _ _); [done|]. simpl. by rewrite He.
    + right; left. split_and!; [done|done|]. eexists. split_and!; [exact Hm|done|].
      by apply (write_frame (OpCreate t k d) _ _ eq_refl eq_refl).
  - destruct Hp as [Hw [Ha|Hh]].
    + left. eapply spec_written; [exact Hw|]. cbn [spec_step]. rewrite <- free_absent in Ha.
      by rewrite Ha.
    + right; right. split_and!; [done|done|]. by eexists _, _.
Qed.
Lemma op_put db t k d w r w' :
  put_post w db (saveID t k) (Text d) (Ok r) w' ->
  op_post db (OpUpdate t k d) w (Ok (of_option r)) w'.
Proof.
  intros Hp. eexists. split; [done|]. destruct r as [e|]; simpl in Hp.
  - destruct Hp as [(He & Hr & Ha)|(He & Hh & Hm)].
    + left. apply spec_ro; [done|]. cbn [spec_step]. rewrite Ha. simpl. by rewrite He.
    + right; left. split_and!; [done|done|]. eexists. split_and!; [exact Hm|done|].
      by apply (write_frame (OpUpdate t k d) _ _ eq_refl eq_refl).
  - destruct Hp as [Hw [v Ha]]. left. eapply spec_written; [exact Hw|]. cbn [spec_step].
    by rewrite Ha.
Qed.
Lemma op_delete db t k w r w' :
  delete_post w db (saveID t k) (Ok r) w' ->
  op_post db (OpDelete t k) w (Ok (of_option r)) w'.
Proof.
  intros Hp. eexists. split; [done|]. destruct r as [e|]; simpl in Hp.
  - destruct Hp as [(He & Hr & Ha)|(He & Hh & Hm)].
    + left. apply spec_ro; [done|]. cbn [spec_step]. rewrite Ha. simpl. by rewrite He.
    + right; left. split_and!; [done|done|]. eexists. split_and!; [exact Hm|done|].
      apply delete_frame.
  - destruct Hp as [Hw [v Ha]]. left. eapply spec_written; [exact Hw|]. cbn [spec_step].
    by rewrite Ha.
Qed.

Lemma wp_run_op db op w : wf w -> op_table_ok op = true ->
  wp (run_op db op) (op_post db op w) w.
Proof.
  intros Hwf Hok. unfold run_op. wp_call wp_GetDBConnection; [done|].
  intros o w1 (-> & Hro & Hrd). cbn [wp_cont].
  assert (Hwf1 : wf w1) by apply Hro. destruct op as [t k d|t k d|t k|t k|t]; apply wp_bind.
  - eapply wp_mono; [by apply wp_Create|]. intros [r|] w2 Hp; [|done].
    apply op_create. by eapply create_post_ro.
  - eapply wp_mono; [by apply wp_Update|]. intros [r|] w2 Hp; [|done].
    apply (put_of_update _ _ _ _ _ id _ _ Hro) in Hp; [|done]. apply op_put in Hp. by destruct r.
  - eapply wp_mono; [by apply wp_Delete|]. intros [r|] w2 Hp; [|done].
    apply op_delete. by eapply delete_post_ro.
  - eapply wp_mono; [by apply wp_Read|]. intros [r|] w2 [Hro2 Hp]; [|done].
    assert (Hr2 : ro w w2) by (by eapply ro_trans).
    eexists. split; [done|]. destruct r as [e|v]; simpl in Hp; rewrite (ro_view _ _ _ Hro) in Hp.
    + destruct Hp as [[He Hp]|[He Hh]].
      * left. apply spec_ro; [done|]. cbn [spec_step]. rewrite Hp. by rewrite He.
      * right; left. split_and!; [exact (unhealthy_ro _ _ Hro ltac:(done))|done|]. exists id.
        split_and!; [by left|done|by left].
    + left. apply spec_ro; [done|]. cbn [spec_step]. by rewrite Hp.
  - eapply wp_mono; [by apply wp_GetAllDetails|]. intros [r|] w2 [Hro2 Hp]; [|done].
    assert (Hr2 : ro w w2) by (by eapply ro_trans).
    eexists. split; [done|]. destruct r as [e|ids]; simpl in Hp.
    + right; left. split_and!; [exact (unhealthy_ro _ _ Hro ltac:(done))|done|]. exists id.
      split_and!; [by left|done|by left].
    + left. apply spec_ro; [done|]. split; [done|]. exists ids. rewrite (ro_view _ _ _ Hro) in Hp.
      by destruct Hp.
Qed.
End refinement.

(** ** A write pool that was lost *)

Section lost.
Context `{EnvLaws, SingleNode}.
Implicit Types (w : World).

Lemma GetDBConnection_dead db w : wf w -> dead db w -> GetDBConnection db w = (Ok tt, w).
Proof.
  intros Hwf (p & Hp & Hw). pose proof (Hwf db) as Hf. rewrite Hp in Hf. destruct Hf as [Hr _].
  destruct p as [rp wpl ip t]. simpl in Hr, Hw. subst rp wpl.
  unfold GetDBConnection, bind, get, the_pool, ret. cbn. rewrite Hp. cbn. unfold bind, get.
  rewrite Hp. cbn. unfold resetDBWriteConection. by rewrite ha_off.
Qed.

Lemma dead_with_env db e w : dead db w -> dead db (with_env e w).
Proof. intros (p & Hp & Hw). exists p. by rewrite pool_with_env. Qed.

(** Reading changes the environment only. *)
Lemma Read_env db t k w : exists r e, Read db t k w = (r, with_env e w) \/ Read db t k w = (r, w).
Proof.
  unfold Read, bind, read_conn, the_pool, get, Do, in_env, ret. unfold bind.
  destruct (pool_of db w) as [[[a|] wp0 ip tt0]|]; cbn.
  - destruct (redis_do a (GET (saveID t k)) (w_env w)) as [[msg| |v|ks|] e]; cbn;
      repeat case_match; by eexists _, e; left.
  - by exists Panic, (w_env w); right.
  - by exists Panic, (w_env w); right.
Qed.
Lemma keys_env db p w : exists r e, do_keys db p w = (r, with_env e w) \/ do_keys db p w = (r, w).
Proof.
  unfold do_keys, bind, read_conn, the_pool, get, Do, in_env, ret. unfold bind.
  destruct (pool_of db w) as [[[a|] wp0 ip tt0]|]; cbn.
  - destruct (redis_do a (KEYS p) (w_env w)) as [[msg| |v|ks|] e]; cbn;
      repeat case_match; by eexists _, e; left.
  - by exists Panic, (w_env w); right.
  - by exists Panic, (w_env w); right.
Qed.
Lemma dead_after_Read db t k w o w' : dead db w -> Read db t k w = (o, w') -> dead db w'.
Proof.
  intros Hd E. destruct (Read_env db t k w) as (r & e & [E'|E']); rewrite E' in E; simplify_eq;
    [by apply dead_with_env|done].
Qed.
Lemma dead_after_keys db p w o w' : dead db w -> do_keys db p w = (o, w') -> dead db w'.
Proof.
  intros Hd E. destruct (keys_env db p w) as (r & e & [E'|E']); rewrite E' in E; simplify_eq;
    [by apply dead_with_env|done].
Qed.
Lemma LoadWritePool_dead db w Q : dead db w -> Q (Ok None) w -> wp (LoadWritePool db) Q w.
Proof.
  intros (p & Hp & Hw) HQ. unfold LoadWritePool. apply wp_bind, (wp_the_pool _ _ _ _ Hp). wp_go.
  by rewrite Hw.
Qed.

Lemma wp_run_op_dead db op w : wf w -> dead db w -> op_table_ok op = true ->
  wp (run_op db op) (fun o w' => exists a, o = Ok a /\ ro w w' /\ dead db w' /\
                                  (is_Some (op_key op) -> answer_ok a = false)) w.
Proof.
  intros Hwf Hd Hok. assert (Hrd : ready db w) by (destruct Hd as (p & Hp & _); by exists p).
  unfold run_op. apply wp_bind, wp_intro. rewrite GetDBConnection_dead by done.
  intros o w1 [= <- <-]. cbn [wp_cont]. pose proof (ro_refl _ Hwf) as Hrr.
  destruct op as [t k d|t k d|t k|t k|t]; apply wp_bind.
  - unfold Create. wp_go. apply LoadWritePool_dead; [done|]. wp_go. by eexists.
  - unfold Update. wp_go. eapply wp_mono; [apply (wp_both _ _ (fun _ w' => dead db w')
      _ (wp_Read _ t k _ Hwf Hrd)), wp_intro; intros; by eapply dead_after_Read|].
    intros [[e|v]|] w2 [[Hro Hp] Hd2]; [| |done]; cbn [wp_cont].
    + destruct (decide _); wp_go; by eexists.
    + apply wp_bind, LoadWritePool_dead; [done|]. wp_go. by eexists.
  - unfold Delete. wp_go. apply LoadWritePool_dead; [done|]. wp_go. by eexists.
  - eapply wp_mono; [apply (wp_both _ _ (fun _ w' => dead db w')
      _ (wp_Read _ t k _ Hwf Hrd)), wp_intro; intros; by eapply dead_after_Read|].
    intros [r|] w2 [[Hro Hp] Hd2]; [|done]. wp_go. eexists. split_and!; [done|done|done|by intros [? [=]]].
  - unfold GetAllDetails. wp_go.
    pose proof (wp_GetAllDetails db t w Hwf Hrd Hok) as Hl. unfold GetAllDetails in Hl.
    apply wp_intro. intros o w2 E. pose proof (dead_after_keys _ _ _ _ _ Hd E) as Hd2.
    unfold wp, bind in Hl. rewrite E in Hl. destruct o as [[e|ks]|]; cbn [wp_cont]; wp_go.
    + destruct Hl as [Hro _]. eexists. split_and!; [done|done|done|by intros [? [=]]].
    + destruct Hl as [Hro _]. eexists. split_and!; [done|done|done|by intros [? [=]]].
    + by destruct Hl.
Qed.
End lost.

(** ** Properties *)

Section properties.
Context `{EnvLaws, SingleNode}.
Implicit Types (w : World).

(** C12: in a healthy process any sequence of creates, updates, deletes, reads and listings of one
    database answers and changes the data exactly as the abstract store does, never panics,
    leaves the other database alone, and the process stays healthy. *)
Theorem run_ops_refines db ops w :
  wf w -> healthy w -> forallb op_table_ok ops = true ->
  exists rs w', run_ops db ops w = (Ok rs, w') /\
    spec_run ops (view w db) rs (view w' db) /\
    (forall db', db' <> db -> view w' db' = view w db') /\ wf w' /\ healthy w'.
Proof.
  revert w. induction ops as [|op ops IH]; intros w Hwf Hh Hok; simpl in Hok.
  { exists [], w. split_and!; [done|constructor|done..]. }
  apply andb_true_iff in Hok as [Hop Hok].
  destruct (wp_elim _ _ _ (wp_run_op db op w Hwf Hop)) as (o & w1 & E1 & a & -> & Hp).
  simpl run_ops. unfold bind at 1. rewrite E1.
  destruct Hp as [(Hs & Hf & He)|[[Hn _]|[Hn _]]]; [|done|done].
  destruct (IH w1) as (rs & w2 & E & Hrun & Hf2 & Hwf2 & Hh2);
    [apply He|by apply He|done|].
  exists (a :: rs), w2. unfold bind. rewrite E. split_and!; [done|by econstructor| |done|done].
  intros db' Hne. by rewrite Hf2, Hf.
Qed.

(** C13: whatever commands fail, an operation returns an answer; it changes no key but its own and
    no other database; its key afterwards holds the old value or the one it writes, and the one
    it writes when it answers without an error. *)
Theorem op_fault_safe db op w :
  wf w -> op_table_ok op = true ->
  exists a w', run_op db op w = (Ok a, w') /\ wf w' /\
    (forall db' k, db' <> db \/ op_key op <> Some k -> view w' db' !! k = view w db' !! k) /\
    (forall k, op_key op = Some k ->
       view w' db !! k = view w db !! k \/ view w' db !! k = op_value op) /\
    (forall k, op_key op = Some k -> answer_ok a = true -> view w' db !! k = op_value op).
Proof.
  intros Hwf Hok. destruct (wp_elim _ _ _ (wp_run_op db op w Hwf Hok)) as (o & w' & E1 & a & -> & Hp).
  exists a, w'.
  split; [done|]. destruct Hp as [(Hs & Hf & He)|[(_ & Ha & f & Hm & Hro & Hf)|(_ & Ha & k & v & Hk & Hv & Hw)]].
  - assert (Hkeys : (forall k, op_key op <> Some k -> view w' db !! k = view w db !! k) /\
      (forall k, op_key op = Some k -> view w' db !! k = view w db !! k \/ view w' db !! k = op_value op) /\
      (forall k, op_key op = Some k -> answer_ok a = true -> view w' db !! k = op_value op)).
    { destruct op as [t k d|t k d|t k|t k|t]; simpl in Hs;
        repeat match type of Hs with context [match ?x with _ => _ end] => destruct x end;
        destruct Hs as [Hs1 Hs2]; try rewrite Hs1; try rewrite Hs2; simpl;
        (split_and!; [|intros ? [= <-]..]); auto.
      all: try (intros k' Hk'; rewrite lookup_insert_ne || rewrite lookup_delete_ne; congruence).
      all: rewrite ?lookup_insert_eq, ?lookup_delete_eq; auto; congruence. }
    destruct Hkeys as (K1 & K2 & K3). split_and!; [apply He| |done|done].
    intros db' k [Hne|Hne]; [by rewrite Hf|].
    destruct (decide (db' = db)) as [->|]; [auto|by rewrite Hf].
  - split_and!; [by eapply maybe_written_wf| | |congruence].
    + intros db' k Hne. destruct Hm as [Hm|Hm]; [by rewrite (ro_view _ _ _ Hm)|].
      rewrite (ev_view _ _ _ Hm). unfold upd. destruct (decide (db' = db)) as [->|]; [|done].
      destruct (Hf k (view w db)) as [->|[Hk _]]; [done|]. by destruct Hne.
    + intros k Hk. destruct Hm as [Hm|Hm]; [left; by rewrite (ro_view _ _ _ Hm)|].
      rewrite (ev_view _ _ _ Hm), upd_eq. destruct (Hf k (view w db)) as [->|[_ ->]]; auto.
  - split_and!; [apply Hw|..].
    + intros db' k' Hne. rewrite (ev_view _ _ _ Hw). unfold upd.
      destruct (decide (db' = db)) as [->|]; [|done]. apply lookup_insert_ne.
      destruct Hne as [?|Hne]; congruence.
    + intros k' Hk'. right. rewrite (ev_view _ _ _ Hw), upd_eq, Hv.
      rewrite Hk in Hk'. simplify_eq. apply lookup_insert_eq.
    + intros k' Hk' _. rewrite (ev_view _ _ _ Hw), upd_eq, Hv.
      rewrite Hk in Hk'. simplify_eq. apply lookup_insert_eq.
Qed.

(** without high availability a write pool that was lost stays lost: from then on every
    create, update and delete of that database is refused and its data never changes, however
    many operations follow and although each of them opens the connection again. *)
Lemma lost_write_pool_is_final db ops w :
  wf w -> dead db w -> forallb op_table_ok ops = true ->
  exists rs w', run_ops db ops w = (Ok rs, w') /\ dead db w' /\
    (forall db', view w' db' = view w db') /\
    Forall2 (fun op a => is_Some (op_key op) -> answer_ok a = false) ops rs.
Proof.
  revert w. induction ops as [|op ops IH]; intros w Hwf Hd Hok; simpl in Hok.
  { exists [], w. split_and!; [done..|constructor]. }
  apply andb_true_iff in Hok as [Hop Hok].
  destruct (wp_elim _ _ _ (wp_run_op_dead db op w Hwf Hd Hop))
    as (o & w1 & E1 & a & -> & Hro & Hd1 & Ha). simpl run_ops. unfold bind at 1. rewrite E1.
  destruct (IH w1) as (rs & w2 & E & Hd2 & Hv & Hf); [apply Hro|done|done|].
  exists (a :: rs), w2. unfold bind. rewrite E. split_and!; [done|done| |by constructor].
  intros db'. by rewrite Hv, (ro_view _ _ _ Hro).
Qed.

(** [CleanUpDB], unlike the other writers, panics exactly when the write pool was lost; when
    it reports success every key of the database is gone. *)
Lemma CleanUpDB_panics_iff_lost db w :
  wf w -> ready db w ->
  ((CleanUpDB db w).1 = Panic <-> dead db w) /\
  ((CleanUpDB db w).1 = Ok None -> view (CleanUpDB db w).2 db = ∅).
Proof.
  intros Hwf Hrd.
  assert (Hp : wp (CleanUpDB db) (fun o w' => (o = Panic <-> dead db w) /\
                 (o = Ok None -> view w' db = ∅)) w); [|exact Hp].
  unfold CleanUpDB. apply wp_bind. apply wp_LoadWritePool; [done|done|intros Hd|intros Hd]; wp_go.
  { by split. }
  apply wp_in_env. intros r e Hc. pose proof (flushall_law _ _ _ _ Hc) as Hl.
  destruct r as [msg| | | |]; try done; cbn [wp_cont].
  destruct (isDbConnectError msg); [|by apply wp_ret; split].
  unfold StoreWritePoolNil. wp_go. by split.
Qed.
End properties.

(** a create is not exclusive: when the read that looks for the key fails with anything but a
    connection error, here a timeout, [Create] takes the key to be free, overwrites the record
    that is there and reports success. *)
Lemma Create_overwrites_after_failed_read :
  exists w w' : @World Sim.sim_env,
    @wf _ single w /\
    @view _ _ single w OnDisk !! "User:admin" = Some (Text (JStr "old")) /\
    @Create _ OnDisk "User" "admin" (JStr "new") w = (Ok None, w') /\
    @view _ _ single w' OnDisk !! "User:admin" = Some (Text (JStr "new")).
Proof.
  exists (sim_world ∅ {[ "User:admin" := Text (JStr "old") ]} 0 [Some Sim.timeout]).
  eexists. split_and!; [apply sim_wf|reflexivity|reflexivity|reflexivity].
Qed.

Section ha.
Context `{Env, Config}.
Implicit Types (w : World).

Lemma retry_rounds_S n old c cur :
  retry_rounds (S n) old c cur =
    (let! cur := GetCurrentMasterHostPort c in
     if negb (String.eqb cur.1 "") && negb (String.eqb old cur.1) then ret cur
     else Sleep one_second ;;; retry_rounds n old c cur).
Proof. reflexivity. Qed.

Lemma retry_rounds_steady n old c cur ip port w :
  (forall e, sentinel_master (Host c, SentinelPort c) (MasterSet c) e = ([ip; port], e)) ->
  ip <> "" ->
  retry_rounds (S n) old c cur w =
    (Ok (ip, port), if decide (ip = old) then with_env (Nat.iter (S n) (time_sleep one_second) (w_env w)) w
                    else w).
Proof.
  intros Hs Hne. revert cur w. induction n as [|n IH]; intros cur w.
  all: rewrite retry_rounds_S; unfold bind, GetCurrentMasterHostPort, Sleep, in_env; unfold bind.
  all: rewrite Hs; cbn [fst ret negb].
  all: destruct (String.eqb ip "") eqn:E; [by apply String.eqb_eq in E|]; cbn [negb andb].
  all: unfold ret; cbn [fst].
  all: destruct (decide (ip = old)) as [->|Hd];
    [rewrite String.eqb_refl|rewrite (proj2 (String.eqb_neq _ _)) by congruence]; cbn [negb].
  all: try (destruct w; reflexivity).
  rewrite IH. rewrite (Nat.iter_succ_r (S n)). by destruct w.
Qed.

(** C16: with high availability a lost write pool is restored when the connection is opened again
    and the sentinel names a master: the pool then writes to that master.  A master other than
    the old one is taken at once; the old one is taken again after 120 rounds of one second. *)
Theorem GetDBConnection_restores_write_pool db w p a ip port :
  RedisHAEnabled DBc = true ->
  pool_of db w = Some p -> ReadPool p = Some a -> WritePool p = None ->
  ip <> "" ->
  (forall e, sentinel_master (Host (db_config db), SentinelPort (db_config db))
               (MasterSet (db_config db)) e = ([ip; port], e)) ->
  let waited := if decide (ip = MasterIP p)
                then Nat.iter 120 (time_sleep one_second) (w_env w) else w_env w in
  exists w', GetDBConnection db w = (Ok tt, w') /\ w_env w' = (time_now waited).2 /\
    pool_of db w' = Some {| ReadPool := Some a; WritePool := Some (ip, port); MasterIP := ip;
                            PoolUpdatedTime := (time_now waited).1 |}.
Proof.
  intros Hha Hp Hr Hw Hne Hs waited. destruct p as [rp wpl mip t]. simpl in Hr, Hw, waited. subst rp wpl.
  unfold GetDBConnection, bind, get, the_pool, ret. cbn. rewrite Hp. cbn. unfold bind, get.
  rewrite Hp. cbn. unfold resetDBWriteConection. rewrite Hha.
  unfold bind, the_pool, get, bind, ret. rewrite Hp. cbn [WritePool]. unfold setWritePool, bind, the_pool, get, bind, ret.
  rewrite Hp. cbn [MasterIP]. unfold retryForMasterIP.
  rewrite (retry_rounds_steady 119 mip _ _ _ _ w Hs Hne). cbn [fst snd].
  rewrite (proj2 (String.eqb_neq _ _)) by done. cbn [getPool].
  unfold Now, in_env, modify, waited. clear waited.
  destruct (decide (ip = mip)) as [->|Hd].
  all: cbn -[Nat.iter]; destruct (time_now _) as [tn en]; eexists; (split; [reflexivity|]).
  all: destruct db; simpl in Hp |- *; by rewrite Hp.
Qed.
End ha.

(** ** The properties at concrete inputs *)

Section witnesses.
#[local] Existing Instances single single_node.

Definition some_ops : list store_op :=
  [OpCreate "role" "r1" JNull; OpCreate "role" "r1" JNull; OpList "role"; OpDelete "User" "u"].
Definition some_disk : gmap string jtext := {[ "User:u" := Text JNull ]}.

Lemma run_ops_refines_witness :
  exists rs w', run_ops OnDisk some_ops (sim_world ∅ some_disk 0 []) = (Ok rs, w') /\
    spec_run some_ops some_disk rs (view w' OnDisk).
Proof.
  destruct (run_ops_refines OnDisk some_ops (sim_world ∅ some_disk 0 []))
    as (rs & w' & E & Hs & _); [apply sim_wf|apply sim_healthy|reflexivity|].
  exists rs, w'. split; [exact E|exact Hs].
Defined.

Lemma op_fault_safe_witness :
  exists a w', run_op OnDisk (OpDelete "User" "u") (sim_world ∅ some_disk 0 [None; Some Sim.eof])
               = (Ok a, w') /\
    (view w' OnDisk !! "User:u" = Some (Text JNull) \/ view w' OnDisk !! "User:u" = None).
Proof.
  destruct (op_fault_safe OnDisk (OpDelete "User" "u")
    (sim_world ∅ some_disk 0 [None; Some Sim.eof])) as (a & w' & E & _ & _ & Hk & _);
    [apply sim_wf|reflexivity|].
  exists a, w'. split; [exact E|]. exact (Hk "User:u" eq_refl).
Defined.

Definition lost_world : World :=
  with_pool OnDisk (set_write None <$> Some (pool_for ondisk_addr)) (sim_world ∅ some_disk 0 []).
Lemma lost_wf : wf lost_world.
Proof. intros []; simpl; auto. Qed.
Lemma lost_dead : dead OnDisk lost_world.
Proof. by eexists. Qed.

Lemma lost_write_pool_is_final_witness :
  exists rs w', run_ops OnDisk some_ops lost_world = (Ok rs, w') /\ view w' OnDisk = some_disk.
Proof.
  destruct (lost_write_pool_is_final OnDisk some_ops lost_world) as (rs & w' & E & _ & Hv & _);
    [apply lost_wf|apply lost_dead|reflexivity|].
  exists rs, w'. split; [exact E|]. exact (Hv OnDisk).
Defined.

Lemma CleanUpDB_panics_iff_lost_witness : (CleanUpDB OnDisk lost_world).1 = Panic.
Proof.
  apply (CleanUpDB_panics_iff_lost OnDisk lost_world); [apply lost_wf|by eexists|apply lost_dead].
Defined.
End witnesses.

(** The pool of a process with high availability, its write pool lost. *)
Definition ha_world (master : string) : @World Sim.sim_env :=
  @mkWorld Sim.sim_env (Sim.mk ∅ 0 1 [] ∅) None
    (Some {| ReadPool := Some ondisk_addr; WritePool := None; MasterIP := master; PoolUpdatedTime := 0 |})
    0 0.
Lemma GetDBConnection_restores_write_pool_witness :
  exists w' t, @GetDBConnection _ ha OnDisk (ha_world "old") = (Ok tt, w') /\
    pool_of OnDisk w' = Some {| ReadPool := Some ondisk_addr; WritePool := Some ("ondisk", "26380");
                                MasterIP := "ondisk"; PoolUpdatedTime := t |}.
Proof.
  destruct (@GetDBConnection_restores_write_pool _ ha OnDisk (ha_world "old")
    {| ReadPool := Some ondisk_addr; WritePool := None; MasterIP := "old"; PoolUpdatedTime := 0 |}
    ondisk_addr "ondisk" "26380") as (w' & E & _ & Hp);
    [reflexivity|reflexivity|reflexivity|reflexivity|discriminate|reflexivity|].
  exists w'. eexists. split; [exact E|exact Hp].
Defined.
