(* ===== verification/ResponseProps.v ===== *)
(** The error bodies of [Response]: when building one panics, and which messages it carries. *)
From stdpp Require Import base list strings.
From S2P Require Import Prelude Go Response.
Open Scope string_scope.

(** The types of the arguments each message takes; the messages that take none are in
    [plain_messages], and any other status message adds nothing to the body. *)
Definition message_params : list (string * list string) :=
  [(PropertyMissing, ["string"]); (PropertyUnknown, ["string"]);
   (PropertyValueNotInList, ["string"; "string"]); (PropertyValueTypeError, ["string"; "string"]);
   (ResourceNotFound, ["string"; "string"]); (PropertyValueFormatError, ["string"; "string"]);
   (ResourceAtURIUnauthorized, ["string"]); (CouldNotEstablishConnection, ["string"]);
   (ActionNotSupported, ["string"]); (ResourceAlreadyExists, ["string"; "string"; "string"]);
   (ActionParameterNotSupported, ["string"; "string"]); (PropertyValueConflict, ["string"; "string"])].
Definition plain_messages : list string :=
  [Success; ResourceRemoved; InsufficientPrivilege; InternalError; MalformedJSON; NoValidSession;
   ResourceInUse; QueryCombinationInvalid; QueryNotSupported; ResourceCannotBeDeleted; NoOperation].

Definition params_of (st : string) : option (list string) :=
  snd <$> List.find (fun p => String.eqb p.1 st) message_params.
Definition known_message (st : string) : bool :=
  existsb (String.eqb st) plain_messages || match params_of st with Some _ => true | None => false end.

Definition iface_type (x : iface) : option string :=
  match x with INil => None | IString _ => Some "string" | IInt _ => Some "int" | IBool _ => Some "bool" | IStrings _ => Some "[]string" end.

(** The arguments of one message are as many as it takes and of its types. *)
Definition args_ok (ea : ErrArgs) : Prop :=
  match params_of (ea_StatusMessage ea) with
  | Some ts => iface_type <$> ea_MessageArgs ea = Some <$> ts
  | None => True
  end.

Lemma types_of_spec xs :
  match types_of xs with
  | Ok ts => iface_type <$> xs = Some <$> ts
  | Panic => In None (iface_type <$> xs)
  end.
Proof.
  induction xs as [|x xs IH]; [done|]. destruct x; cbn [types_of type_of obind]; [by left|..];
    destruct (types_of xs); cbn [obind]; try (by rewrite !fmap_cons, IH); by right.
Qed.

Lemma validateParamTypes_spec ps aa : validateParamTypes ps aa = true <-> aa = ps.
Proof.
  revert aa. induction ps as [|p ps IH]; intros [|a aa]; simpl; try done.
  rewrite andb_true_iff, IH, String.eqb_eq. by split; [intros [-> ->]|intros [= -> ->]].
Qed.

Lemma validateMessageArgs_spec xs ps n : n = length ps ->
  match validateMessageArgs xs ps n with
  | Ok _ => iface_type <$> xs = Some <$> ps
  | Panic => iface_type <$> xs <> Some <$> ps
  end.
Proof.
  intros ->. unfold validateMessageArgs.
  destruct (Nat.eqb_spec (length xs) (length ps)) as [Hl|Hl]; simpl.
  - pose proof (types_of_spec xs) as Ht. destruct (types_of xs) as [ts|]; simpl.
    + destruct (validateParamTypes ps ts) eqn:Ev.
      * apply validateParamTypes_spec in Ev. by subst.
      * rewrite Ht. intros He. apply (list_fmap_eq_inj Some) in He; [|by intros ?? [=]].
        apply validateParamTypes_spec in He. congruence.
    + intros He. rewrite He in Ht. apply list_elem_of_In, list_elem_of_fmap in Ht as (? & ? & _).
      done.
  - intros He. apply Hl. apply (f_equal length) in He. by rewrite !length_fmap in He.
Qed.

(** One element of [ErrorArgs]: its message when the status message is known. *)
Definition errArg_post (ea : ErrArgs) (o : outcome (list Msg)) : Prop :=
  match o with
  | Ok ms => args_ok ea /\
      Msg_MessageID <$> ms = if known_message (ea_StatusMessage ea) then [ea_StatusMessage ea] else []
  | Panic => ~ args_ok ea
  end.

Lemma plain_post ea text sev res :
  params_of (ea_StatusMessage ea) = None -> known_message (ea_StatusMessage ea) = true ->
  errArg_post ea (plainMsg (ea_StatusMessage ea) text sev res).
Proof. intros Hp Hk. simpl. unfold args_ok. by rewrite Hp, Hk. Qed.
Lemma args_post ea ps n text sev res :
  params_of (ea_StatusMessage ea) = Some ps -> n = length ps ->
  errArg_post ea (argsMsg ps n ea text sev res).
Proof.
  intros Hp Hn. unfold argsMsg. pose proof (validateMessageArgs_spec (ea_MessageArgs ea) ps n Hn) as Hv.
  assert (Hk : known_message (ea_StatusMessage ea) = true).
  { unfold known_message. by rewrite Hp, orb_true_r. }
  destruct (validateMessageArgs _ _ _); simpl; unfold args_ok; rewrite Hp; [|done].
  by rewrite Hk.
Qed.

(** Walks the switch of [errArgMsg]: a status message that was compared is replaced. *)
Ltac switch_case :=
  match goal with
  | |- context [if String.eqb ?st ?m then _ else _] =>
      let E := fresh "E" in
      destruct (String.eqb st m) eqn:E;
      [apply String.eqb_eq in E;
       first [apply plain_post; rewrite E; reflexivity | apply args_post; [rewrite E; reflexivity|reflexivity]]|]
  end.

Lemma errArgMsg_post ea : errArg_post ea (errArgMsg ea).
Proof.
  unfold errArgMsg. cbv zeta. repeat switch_case.
  assert (Hp : params_of (ea_StatusMessage ea) = None).
  { unfold params_of, message_params, List.find. cbn [fst].
    repeat match goal with
    | E : String.eqb ?st ?m = false |- context [String.eqb ?m ?st] => rewrite (String.eqb_sym m st), E; clear E
    end. reflexivity. }
  split; [unfold args_ok; by rewrite Hp|].
  unfold known_message. rewrite Hp. unfold plain_messages, existsb.
  repeat match goal with
  | E : String.eqb ?st ?m = false |- context [String.eqb ?st ?m] => rewrite E; clear E
  end. reflexivity.
Qed.

Lemma extendedInfos_post eas :
  match extendedInfos eas with
  | Ok ms => Forall args_ok eas /\
             Msg_MessageID <$> ms = List.filter known_message (ea_StatusMessage <$> eas)
  | Panic => ~ Forall args_ok eas
  end.
Proof.
  induction eas as [|ea eas IH]; [done|]. simpl. pose proof (errArgMsg_post ea) as He.
  destruct (errArgMsg ea) as [ms|]; simpl in *; [|by intros [? _]%Forall_cons].
  destruct He as [Ha Hm]. destruct (extendedInfos eas) as [rest|]; simpl in *.
  - destruct IH as [Hf Hr]. split; [by constructor|]. rewrite fmap_app, Hm, Hr.
    by destruct (known_message _).
  - by intros [_ ?]%Forall_cons.
Qed.

(** building an error body panics exactly when some message has arguments of the wrong number
    or types (a nil argument has none); otherwise the body has the code of the arguments, the
    default text when none is given, and the known status messages in order, each once for each
    element that names it. *)
Theorem CreateGenericErrorResponse_spec a :
  match CreateGenericErrorResponse a with
  | Ok e => Forall args_ok (ErrorArgs a) /\
      Code (Error e) = args_Code a /\
      ErrorMessageText (Error e) = (if String.eqb (args_Message a) "" then ErrorHelperMessage
                                    else args_Message a) /\
      Msg_MessageID <$> MessageExtendedInfo (Error e) =
        List.filter known_message (ea_StatusMessage <$> ErrorArgs a)
  | Panic => ~ Forall args_ok (ErrorArgs a)
  end.
Proof.
  unfold CreateGenericErrorResponse. pose proof (extendedInfos_post (ErrorArgs a)) as He.
  destruct (extendedInfos (ErrorArgs a)) as [ms|]; simpl; [|done].
  by destruct He as [Hf Hm].
Qed.

(** The body of one message, for the handlers that build it. *)
Lemma errorRPC_ok {B} code st em margs :
  args_ok {| ea_StatusMessage := st; ea_ErrorMessage := em; ea_MessageArgs := margs |} ->
  exists e, @errorRPC B code st em margs = Ok (mkRPC code st [] (ErrorBody e)).
Proof.
  intros Ha. unfold errorRPC, CreateGenericErrorResponse.
  pose proof (extendedInfos_post (ErrorArgs (errorArgs1 st em margs))) as He.
  destruct (extendedInfos _) as [ms|]; simpl in *; [by eexists|].
  destruct He. by repeat constructor.
Qed.
Lemma GeneralError_ok {B} code st em margs :
  args_ok {| ea_StatusMessage := st; ea_ErrorMessage := em; ea_MessageArgs := margs |} ->
  exists e, @GeneralError B code st em margs = Ok (mkRPC code st [] (ErrorBody e)).
Proof.
  intros Ha. unfold GeneralError, GeneralErrorTask.
  destruct (@errorRPC_ok B code st em margs Ha) as [e ->]. by exists e.
Qed.
Lemma InternalError_ok {B} hdr em :
  exists e, @CreateInternalErrorResponse B hdr em
            = Ok (mkRPC StatusInternalServerError InternalError hdr (ErrorBody e)).
Proof.
  unfold CreateInternalErrorResponse, CreateGenericErrorResponse.
  pose proof (extendedInfos_post (ErrorArgs (errorArgs1 InternalError em []))) as He.
  destruct (extendedInfos _) as [ms|]; simpl in *; [by eexists|].
  destruct He. by repeat constructor.
Qed.
Lemma CreateGenericResponse_ok r st : String.eqb st TaskStarted = false ->
  exists r', CreateGenericResponse r st = Ok r'.
Proof. intros Hst. unfold CreateGenericResponse. rewrite Hst. repeat case_match; by eexists. Qed.

(** Runs the builders of bodies whose status message and arguments are given: they do not panic. *)
Ltac err_args := first [exact I | reflexivity].
Ltac run_body :=
  match goal with
  | |- context [lift (@GeneralError ?B ?c ?st ?em ?a)] =>
      let e := fresh "e" in let E := fresh "E" in
      destruct (@GeneralError_ok B c st em a ltac:(err_args)) as [e E]; rewrite E; clear E
  | |- context [lift (@errorRPC ?B ?c ?st ?em ?a)] =>
      let e := fresh "e" in let E := fresh "E" in
      destruct (@errorRPC_ok B c st em a ltac:(err_args)) as [e E]; rewrite E; clear E
  | |- context [lift (@CreateInternalErrorResponse ?B ?h ?em)] =>
      let e := fresh "e" in let E := fresh "E" in
      destruct (@InternalError_ok B h em) as [e E]; rewrite E; clear E
  | |- context [lift (CreateGenericResponse ?r ?st)] =>
      let r' := fresh "r" in let E := fresh "E" in
      destruct (CreateGenericResponse_ok r st eq_refl) as [r' E]; rewrite E; clear E
  end.
