(* ===== verification/CaseProps.v ===== *)
(** The case validator on the bodies that decode: what it reports, and that it does not panic. *)
From stdpp Require Import base list strings.
From S2P Require Import Prelude Go CaseValidator AsModel.
Open Scope string_scope.

(** No object, and no array with an object in it: the values the validator does not look into. *)
Definition is_object (j : json) : bool := match j with JObj _ => true | _ => false end.
Definition simple (j : json) : bool :=
  match j with JObj _ => false | JArr l => forallb (fun x => negb (is_object x)) l | _ => true end.

(** A key that the struct has in another case only. *)
Definition wrong_case (st : jmap) (k : string) : bool := negb (map_has st k) && searchIgnoreCase st k.

Lemma getInvalidProperty_spec st k :
  getInvalidProperty st k = if wrong_case st k then k +:+ " " else "".
Proof. unfold getInvalidProperty, wrong_case. by destruct (map_has st k), (searchIgnoreCase st k). Qed.

Lemma reqValidator_simple v st k : simple v = true -> map_has st k = true ->
  reqValidator v st k = Ok "".
Proof.
  intros Hs Hk. assert (Hg : getInvalidProperty st k = "").
  { unfold getInvalidProperty. by rewrite Hk. }
  destruct v as [| | | | |l|kvs]; cbn [reqValidator]; rewrite ?Hg; try done.
  rewrite Hk. cbn [negb]. simpl in Hs. generalize 0%nat. generalize st at 2. clear Hg Hk.
  induction l as [|x l IH]; intros m i; [done|].
  simpl in Hs. apply andb_true_iff in Hs as [Hx Hl].
  destruct x; try done; by apply IH.
Qed.

Lemma concatM_spec {A} (f : A -> outcome string) (g : A -> string) l :
  (forall x, In x l -> f x = Ok (g x)) -> concatM f l = Ok (fold_right (fun x s => g x +:+ s) "" l).
Proof.
  induction l as [|x l IH]; intros Hf; [done|]. simpl. rewrite Hf by by left. simpl.
  rewrite IH; [done|]. intros y Hy. apply Hf. by right.
Qed.

(** The keys reported, each followed by a space. *)
Definition reported (st : jmap) (keys : list string) : string :=
  fold_right (fun k s => k +:+ " " +:+ s) "" (List.filter (wrong_case st) keys).

Lemma validator_spec raw st :
  (forall kv, In kv (unmarshal_map raw) -> map_has st kv.1 = true -> simple kv.2 = true) ->
  RequestParamsCaseValidator raw st = Ok (reported st (unmarshal_map raw).*1).
Proof.
  intros Hs. unfold RequestParamsCaseValidator.
  rewrite (concatM_spec _ (fun kv => if wrong_case st kv.1 then kv.1 +:+ " " else "")).
  - f_equal. clear Hs. unfold reported. induction (unmarshal_map raw) as [|[k v] l IH]; [done|].
    simpl. rewrite IH. destruct (wrong_case st k); [|done]. simpl.
    by rewrite <- String_append_assoc.
  - intros [k v] Hin. simpl. destruct (map_has st k) eqn:Hk; [|by rewrite getInvalidProperty_spec].
    rewrite (reqValidator_simple v); [|by apply (Hs (k, v))|done].
    unfold wrong_case. by rewrite Hk.
Qed.

Lemma reported_empty st keys : reported st keys = "" <-> forall k, In k keys -> wrong_case st k = false.
Proof.
  unfold reported. induction keys as [|k keys IH]; simpl; [by split|].
  destruct (wrong_case st k) eqn:Hk; simpl.
  - split; [by destruct k|]. intros Hf. specialize (Hf k (or_introl eq_refl)). congruence.
  - rewrite IH. split; [intros Hf ? [<-|?]; auto|auto].
Qed.

(** ** Bodies that decode *)

(** A decoder that rejects every value that is not simple. *)
Definition scalar_decoder {A} (dec : field_decoder A) : Prop :=
  forall old j, (dec old j).2 = None -> simple j = true.

Lemma dec_elems_simple l : (dec_elems l).2 = None -> forallb (fun x => negb (is_object x)) l = true.
Proof.
  induction l as [|x l IH]; [done|]. simpl. destruct (dec_string "" x) as [s e] eqn:Ex.
  destruct (dec_elems l) as [ss es]. simpl. destruct e; [done|]. simpl. intros He.
  rewrite (IH He). by destruct x.
Qed.
Lemma dec_strings_simple old j : (dec_strings old j).2 = None -> simple j = true.
Proof.
  destruct j as [| | | | |l|]; try done. simpl. pose proof (dec_elems_simple l) as Hl.
  by destruct (dec_elems l).
Qed.

(** Decoders of one field of a struct, from the decoder of its type. *)
Lemma scalar_field {A B} (dec : field_decoder B) (pr : A -> B) (mk : A -> B -> A) :
  scalar_decoder dec ->
  scalar_decoder (fun a j => let (x, e) := dec (pr a) j in (mk a x, e)).
Proof. intros Hd a j. specialize (Hd (pr a) j). by destruct (dec (pr a) j). Qed.
Lemma scalar_string : scalar_decoder dec_string.
Proof. by intros old []. Qed.
Lemma scalar_bool : scalar_decoder dec_bool.
Proof. by intros old []. Qed.
Lemma scalar_strings : scalar_decoder dec_strings.
Proof. exact dec_strings_simple. Qed.

Definition scalar_struct {A} (st : struct_type A) : Prop :=
  Forall (fun f => scalar_decoder f.2) (st_fields st).

Lemma find_field_In {A} (st : struct_type A) k f : find_field st k = Some f -> In f (st_fields st).
Proof.
  unfold find_field. destruct (List.find _ (st_fields st)) as [g|] eqn:E.
  - intros [= <-]. by apply List.find_some in E as [? _].
  - intros E2. by apply List.find_some in E2 as [? _].
Qed.

Lemma decode_entries_simple {A} (st : struct_type A) kvs acc a :
  scalar_struct st -> fold_left (decode_entry st) kvs acc = (a, None) ->
  acc.2 = None /\
  forall kv, In kv kvs -> find_field st kv.1 <> None -> simple kv.2 = true.
Proof.
  intros Hst. revert acc. induction kvs as [|[k v] kvs IH]; intros acc E; simpl in E; [by subst|].
  apply IH in E as [E Hkvs]. unfold decode_entry, decode_entry_at in E. simpl in E.
  destruct (find_field st k) as [[n dec]|] eqn:Ef.
  - destruct (dec acc.1 v) as [x e] eqn:Ed. simpl in E. destruct acc as [b [err|]]; [done|].
    simpl in *. destruct e as [[]|]; [done|done|]. split; [done|].
    intros kv [<-|Hin]; [|auto]. intros _. simpl.
    apply (proj1 (List.Forall_forall _ _) Hst (n, dec) (find_field_In _ _ _ Ef) b). simpl. by rewrite Ed.
  - split; [done|]. intros kv [<-|Hin]; [by intros Hf|auto].
Qed.

Lemma dedup_In kv kvs : In kv (dedup_keys kvs) -> In kv kvs.
Proof.
  induction kvs as [|x kvs IH]; [done|]. simpl. destruct (existsb _ _); [auto|].
  intros [->|Hin]; auto.
Qed.

(** The struct map of a decoded request has the struct's fields as its keys. *)
Definition struct_map_of {A} (st : struct_type A) (m : jmap) : Prop := m.*1 = (st_fields st).*1.

Lemma map_has_field {A} (st : struct_type A) m k :
  struct_map_of st m -> map_has m k = true -> find_field st k <> None.
Proof.
  intros Hm Hk. unfold map_has in Hk. apply existsb_In in Hk as (kv & Hin & Hk).
  apply String.eqb_eq in Hk. unfold find_field.
  assert (Hf : exists f, In f (st_fields st) /\ f.1 = k).
  { apply list_elem_of_In in Hin. apply (list_elem_of_fmap_2 fst) in Hin. unfold struct_map_of in Hm.
    rewrite Hm in Hin. apply list_elem_of_fmap in Hin as (f & Hf & Hin). exists f.
    split; [by apply list_elem_of_In|congruence]. }
  destruct Hf as (f & Hin' & Hf).
  destruct (List.find (fun f => String.eqb f.1 k) (st_fields st)) eqn:E; [done|].
  exfalso. pose proof (List.find_none _ _ E f Hin') as Hn. simpl in Hn.
  rewrite Hf, String.eqb_refl in Hn. done.
Qed.

Lemma decoded_validator {A} (st : struct_type A) (zero a : A) raw m :
  scalar_struct st -> struct_map_of st m -> Unmarshal st raw zero = (a, None) ->
  RequestParamsCaseValidator raw m = Ok (reported m (unmarshal_map raw).*1).
Proof.
  intros Hst Hm Hu. apply validator_spec. intros kv Hin Hk.
  destruct raw as [j|]; [|done]. destruct j; try done. simpl in Hu, Hin.
  eapply (decode_entries_simple st) in Hu as [_ Hs]; [|done].
  apply Hs; [by apply dedup_In|]. by eapply map_has_field.
Qed.

Lemma Account_scalar : scalar_struct Account_type.
Proof.
  repeat constructor; simpl.
  - apply (scalar_field dec_string a_UserName
      (fun a x => {| a_UserName := x; a_Password := a_Password a; a_RoleID := a_RoleID a |})), scalar_string.
  - apply (scalar_field dec_string a_Password
      (fun a x => {| a_UserName := a_UserName a; a_Password := x; a_RoleID := a_RoleID a |})), scalar_string.
  - apply (scalar_field dec_string a_RoleID
      (fun a x => {| a_UserName := a_UserName a; a_Password := a_Password a; a_RoleID := x |})), scalar_string.
Qed.
Lemma CreateSession_scalar : scalar_struct CreateSession_type.
Proof.
  repeat constructor; simpl.
  - apply (scalar_field dec_string cs_UserName
      (fun c x => {| cs_UserName := x; cs_Password := cs_Password c |})), scalar_string.
  - apply (scalar_field dec_string cs_Password
      (fun c x => {| cs_UserName := cs_UserName c; cs_Password := x |})), scalar_string.
Qed.
Lemma Role_scalar : scalar_struct Role_type.
Proof.
  repeat constructor; simpl.
  - apply (scalar_field dec_string r_ID (fun r x => {| r_ID := x; r_IsPredefined := r_IsPredefined r;
      r_AssignedPrivileges := r_AssignedPrivileges r; r_OEMPrivileges := r_OEMPrivileges r |})), scalar_string.
  - apply (scalar_field dec_bool r_IsPredefined (fun r x => {| r_ID := r_ID r; r_IsPredefined := x;
      r_AssignedPrivileges := r_AssignedPrivileges r; r_OEMPrivileges := r_OEMPrivileges r |})), scalar_bool.
  - apply (scalar_field dec_strings r_AssignedPrivileges (fun r x => {| r_ID := r_ID r;
      r_IsPredefined := r_IsPredefined r; r_AssignedPrivileges := x;
      r_OEMPrivileges := r_OEMPrivileges r |})), scalar_strings.
  - apply (scalar_field dec_strings r_OEMPrivileges (fun r x => {| r_ID := r_ID r;
      r_IsPredefined := r_IsPredefined r; r_AssignedPrivileges := r_AssignedPrivileges r;
      r_OEMPrivileges := x |})), scalar_strings.
Qed.

(** The struct maps the handlers pass. *)
Lemma Account_validator raw a : Unmarshal Account_type raw zeroAccount = (a, None) ->
  RequestParamsCaseValidator raw (marshal_Account a)
  = Ok (reported (marshal_Account a) (unmarshal_map raw).*1).
Proof. intros Hu. by eapply decoded_validator; [apply Account_scalar| |]. Qed.
Lemma CreateSession_validator raw c : Unmarshal CreateSession_type raw zeroCreateSession = (c, None) ->
  RequestParamsCaseValidator raw (marshal_CreateSession c)
  = Ok (reported (marshal_CreateSession c) (unmarshal_map raw).*1).
Proof. intros Hu. by eapply decoded_validator; [apply CreateSession_scalar| |]. Qed.
Lemma Role_validator raw r : Unmarshal Role_type raw zeroRole = (r, None) ->
  RequestParamsCaseValidator raw (role_fields r)
  = Ok (reported (role_fields r) (unmarshal_map raw).*1).
Proof. intros Hu. by eapply decoded_validator; [apply Role_scalar| |]. Qed.

(** C15: on a body whose values for the struct's fields hold no objects the validator does not
    panic; it reports the keys that the struct has in another case, each followed by a space, and
    so nothing exactly when no key differs from a field in case only, whatever the order in which
    the map is iterated. *)
Theorem RequestParamsCaseValidator_spec raw st :
  (forall kv, In kv (unmarshal_map raw) -> map_has st kv.1 = true -> simple kv.2 = true) ->
  RequestParamsCaseValidator raw st = Ok (reported st (unmarshal_map raw).*1) /\
  (RequestParamsCaseValidator raw st = Ok "" <->
   forall kv, In kv (unmarshal_map raw) -> wrong_case st kv.1 = false).
Proof.
  intros Hs. rewrite (validator_spec _ _ Hs). split; [done|]. split.
  - intros [= He] kv Hin. apply (proj1 (reported_empty _ _) He).
    apply list_elem_of_In in Hin. apply list_elem_of_In. by apply list_elem_of_fmap_2.
  - intros Hk. f_equal. apply reported_empty. intros k Hin.
    apply list_elem_of_In, list_elem_of_fmap in Hin as (kv & -> & Hin).
    apply Hk. by apply list_elem_of_In.
Qed.

Lemma RequestParamsCaseValidator_spec_witness :
  RequestParamsCaseValidator
    (Text (JObj [("username", JStr "u"); ("Other", JObj [("x", JNull)]); ("RoleId", JNull)]))
    (marshal_Account zeroAccount) = Ok "username ".
Proof.
  destruct (RequestParamsCaseValidator_spec
    (Text (JObj [("username", JStr "u"); ("Other", JObj [("x", JNull)]); ("RoleId", JNull)]))
    (marshal_Account zeroAccount)) as [E _]; [|exact E].
  intros kv Hin. simpl in Hin. destruct Hin as [<-|[<-|[<-|[]]]]; vm_compute; congruence.
Defined.

(** the validator panics on an object inside a struct field that holds a string: a body with
    [{"f": {k: v, ...}}] for a string field [f], and with [{"f": [{...}, ...]}] for a list of
    strings that has as many elements. *)
Lemma RequestParamsCaseValidator_panics (st : jmap) f k v kvs rest s l :
  f <> "" ->
  (map_get st f = Some (JStr s) ->
     RequestParamsCaseValidator (Text (JObj [(f, JObj ((k, v) :: kvs))])) st = Panic) /\
  (map_get st f = Some (JArr (JStr s :: l)) ->
     RequestParamsCaseValidator (Text (JObj [(f, JArr (JObj kvs :: rest))])) st = Panic).
Proof.
  intros Hf. apply String.eqb_neq in Hf.
  assert (Hhas : forall x, map_get st f = Some x -> map_has st f = true).
  { unfold map_get, map_has. intros x Hx.
    destruct (List.find (fun kv => String.eqb kv.1 f) st) as [p|] eqn:E; [|done].
    apply List.find_some in E as [Hin Hp]. apply existsb_In. by exists p. }
  split; intros Hg; unfold RequestParamsCaseValidator, unmarshal_map; cbn [dedup_keys fold_right existsb concatM fst snd];
    rewrite (Hhas _ Hg); cbn [reqValidator]; rewrite (Hhas _ Hg), ?Hf; cbn [negb andb];
    rewrite Hg; reflexivity.
Qed.

Lemma RequestParamsCaseValidator_panics_witness :
  RequestParamsCaseValidator (Text (JObj [("RoleId", JObj [("x", JNull)])]))
    (role_fields zeroRole) = Panic.
Proof.
  refine (proj1 (RequestParamsCaseValidator_panics (role_fields zeroRole) "RoleId" "x" JNull [] []
    "" [] _) _); [discriminate|reflexivity].
Defined.
