(* ===== verification/AuthProps.v ===== *)
(** Session validity, authorisation and the clean-up of expired sessions. *)
From stdpp Require Import base gmap list strings.
From Stdlib Require Import QArith.
From S2P Require Import Prelude Go Response Redis World ConnPool DBSpec AsModel AsSpec Auth Scenario.
Open Scope string_scope.

(** The answers of the authorisation. *)
Section codes.
Context `{Env, Libs, Config}.
Definition auth_answer (r : Z * string) : Prop :=
  r = (StatusOK, Success) \/ r = (StatusForbidden, InsufficientPrivilege) \/
  r = (StatusServiceUnavailable, CouldNotEstablishConnection) \/ r = (StatusUnauthorized, NoValidSession).
Definition results {A} (P : A -> Prop) (m : IO A) : Prop :=
  forall w, match (m w).1 with Ok a => P a | Panic => True end.
Lemma results_ret {A} (P : A -> Prop) a : P a -> results P (ret a).
Proof. by intros HP w. Qed.
Lemma results_bind {A B} (P : B -> Prop) (m : IO A) k : (forall a, results P (k a)) -> results P (bind m k).
Proof. intros Hk w. unfold bind. destruct (m w) as [[a|] w']; [apply Hk|done]. Qed.
Lemma results_loopM {A L R} (P : R + L -> Prop) (l : list A) acc f :
  (forall acc, P (inr acc)) -> (forall acc a, results (fun r => match r with inl r => P (inl r) | inr _ => True end) (f acc a)) ->
  results P (loopM l acc f).
Proof.
  intros Hr Hf. revert acc. induction l as [|a l IH]; intros acc; cbn [loopM]; [by apply results_ret|].
  intros w. unfold bind. pose proof (Hf acc a w) as Hw. destruct (f acc a w) as [[[r|acc']|] w']; [done|apply IH|done].
Qed.
Lemma auth_error_answer e : auth_answer (GetAuthStatusCodeAndMessage e).
Proof. unfold auth_answer, GetAuthStatusCodeAndMessage. destruct (ErrNo e); tauto. Qed.
Lemma Auth_answers tok ps : results auth_answer (Auth tok ps).
Proof.
  unfold Auth. apply results_bind. intros _. destruct (String.eqb tok "").
  { apply results_bind. intros _. apply results_ret. unfold auth_answer. tauto. }
  destruct (Nat.eqb (length ps) 0).
  { apply results_bind. intros _. apply results_ret. unfold auth_answer. tauto. }
  apply results_bind. intros [e|s].
  - pose proof (auth_error_answer e). destruct (GetAuthStatusCodeAndMessage e). apply results_bind. intros _. by apply results_ret.
  - apply results_bind. intros now. apply results_bind. intros [e|]; [apply results_ret, auth_error_answer|].
    intros w. unfold bind.
    match goal with |- context [loopM ps tt ?f w] =>
      assert (Hl : results (fun r => match r with inl r => auth_answer r | inr _ => True end) (loopM ps tt f)) end.
    { apply results_loopM; [done|]. intros _ p. destruct (negb _); [|by apply results_ret]. apply results_bind. intros _. apply results_ret.
      unfold auth_answer. tauto. }
    specialize (Hl w). destruct (loopM ps tt _ w) as [[[r|u]|] w']; [done| |done].
    cbn. destruct (CustomAuthLog tok _ _ w') as [[]]; [|done]. cbn. unfold auth_answer. tauto.
Qed.
Lemma GeneralError_auth {B} code msg em host : auth_answer (code, msg) -> exists e,
  GeneralError (B := B) code msg em
    (if (code =? StatusServiceUnavailable)%Z then [IString host] else []) =
  Ok (mkRPC code msg [] (ErrorBody e)).
Proof. intros [[= -> ->]|[[= -> ->]|[[= -> ->]|[= -> ->]]]]; eexists; reflexivity. Qed.
End codes.

(** ** Specifications *)

Section authspec.
Context `{EnvLaws, Libs, SingleNode}.
Implicit Types (w : World) (s : Session).

(** A session that has not timed out at an instant. *)
Definition fresh (t : Z) s : Prop :=
  minutes_exceed (t - s_LastUsedTime s) SessionTimeOut = false.
Definition expired (t : Z) s : Prop :=
  minutes_exceed (t - s_LastUsedTime s) SessionTimeOut = true.

Lemma minutes_exceed_mono d d' m : (d <= d')%Z -> minutes_exceed d m = true -> minutes_exceed d' m = true.
Proof. unfold minutes_exceed. rewrite !Z.ltb_lt. nia. Qed.
Lemma expired_later t t' s : (t <= t')%Z -> expired t s -> expired t' s.
Proof. intros Ht. apply minutes_exceed_mono. lia. Qed.
Lemma fresh_earlier t t' s : (t <= t')%Z -> fresh t' s -> fresh t s.
Proof.
  unfold fresh. intros Ht Hf. destruct (minutes_exceed (t - _) _) eqn:E; [|done].
  by rewrite (minutes_exceed_mono _ _ _ (ltac:(lia) : (t - s_LastUsedTime s <= t' - s_LastUsedTime s)%Z) E) in Hf.
Qed.
Lemma fresh_not_expired t s : fresh t s -> ~ expired t s.
Proof. unfold fresh, expired. congruence. Qed.

Lemma wp_go_expiredSessionCleanUp w : wf w ->
  wp go_expiredSessionCleanUp (fun o w' => o = Ok tt /\ ro w w') w.
Proof.
  intros Hwf. apply wp_modify. split; [done|]. by split.
Qed.

(** Why a token is not accepted. *)
Definition rejected w tok (t : Z) : Prop :=
  tok = "" \/ session_of w tok = None \/ exists s, session_of w tok = Some s /\ expired t s.

Definition check_post w tok (o : outcome (result Session)) w' : Prop :=
  ro w w' /\
  match o with
  | Ok (inr s) => tok <> "" /\ session_of w tok = Some s /\
      exists t, (clock (w_env w) <= t <= clock (w_env w'))%Z /\ fresh t s
  | Ok (inl e) => ~ healthy w \/
      (rejected w tok (clock (w_env w')) /\
       GetAuthStatusCodeAndMessage e = (StatusUnauthorized, NoValidSession))
  | Panic => False
  end.

Lemma wp_CheckSessionTimeOut tok w : wf w ->
  wp (CheckSessionTimeOut tok) (check_post w tok) w.
Proof.
  intros Hwf. unfold CheckSessionTimeOut. wp_call wp_go_expiredSessionCleanUp; [done|].
  intros o w1 [-> Hro]. wp_go. destruct (String.eqb tok "") eqn:Et.
  { apply String.eqb_eq in Et. apply wp_ret. split; [done|]. right. split; [by left|done]. }
  apply String.eqb_neq in Et. wp_go. eapply wp_mono; [apply wp_GetSession, Hro|].
  intros [[e|s]|] w2 [Hro2 Hp]; [| |done]; wp_go; simpl in Hp.
  - assert (Hr : ro w w2) by (by eapply ro_trans). split; [done|].
    change (stored Session_type zeroSession (view w1 InMemory) (session_key tok))
      with (session_of w1 tok) in Hp. rewrite (session_of_ro _ _ _ Hro) in Hp.
    destruct Hp as [[He Hp]|[(He & _ & Hp)|[He Hh]]].
    + right. split; [|unfold GetAuthStatusCodeAndMessage; simpl; by rewrite He].
      right; left. unfold session_of, stored. by rewrite <- (ro_view _ _ _ Hro), Hp.
    + right. split; [|unfold GetAuthStatusCodeAndMessage; simpl; by rewrite He]. by right; left.
    + left. exact (unhealthy_ro _ _ Hro Hh).
  - change (stored Session_type zeroSession (view w1 InMemory) (session_key tok))
      with (session_of w1 tok) in Hp. rewrite (session_of_ro _ _ _ Hro) in Hp.
    assert (Hr : ro w w2) by (by eapply ro_trans).
    eapply wp_mono; [apply wp_Now, Hr|]. intros ? w3 (t & -> & Hro3 & Ht & Hc). wp_go.
    assert (Hr3 : ro w w3) by (by eapply ro_trans).
    destruct (minutes_exceed _ _) eqn:Em; apply wp_ret; (split; [done|]).
    + right. split; [|done]. right; right. exists s. rewrite Hc. by split.
    + split_and!; [done|done|]. exists t. split; [|done].
      pose proof (ev_clock _ _ _ Hr). lia.
Qed.

Lemma rejected_later w tok t t' : (t <= t')%Z -> rejected w tok t -> rejected w tok t'.
Proof.
  intros Ht [?|[?|(s & Hs & He)]]; [by left|by right; left|right; right].
  exists s. split; [done|]. by eapply expired_later.
Qed.
Lemma check_post_ro w w1 tok o w' : ro w w1 -> check_post w1 tok o w' -> check_post w tok o w'.
Proof.
  intros Hr [Hro Hp]. pose proof (ev_clock _ _ _ Hr). split; [by eapply ro_trans|].
  destruct o as [[e|s]|]; [| |done].
  - destruct Hp as [Hh|[Hrej He]]; [left; by eapply unhealthy_ro|right]. split; [|done].
    unfold rejected in *. by rewrite (session_of_ro _ _ _ Hr) in Hrej.
  - rewrite (session_of_ro _ _ _ Hr) in Hp. destruct Hp as (? & ? & t & ? & ?).
    split_and!; [done..|]. exists t. split; [lia|done].
Qed.

Lemma wp_CustomAuthLog tok msg code w : wf w ->
  wp (CustomAuthLog tok msg code) (fun o w' => o = Ok tt /\ ro w w') w.
Proof.
  intros Hwf. unfold CustomAuthLog. destruct (String.eqb tok "").
  { apply wp_ret. split; [done|by apply ro_refl]. }
  wp_call wp_CheckSessionTimeOut; [done|]. intros [r|] w' [Hro Hp]; [|done]. by wp_go.
Qed.

(** A session is stored back with another last-used time. *)
Definition touched w (s : Session) (t : Z) w' : Prop :=
  written w InMemory (insert (session_key (s_Token s))
    (Text (marshal_Session (with_LastUsedTime t s)))) w'.

(** At most the session of a token was stored with another last-used time. *)
Definition at_most_touched w tok w' : Prop :=
  ro w w' \/ exists s t, session_of w tok = Some s /\ touched w s t w'.

Definition auth_post w tok (ps : list string) (o : outcome (Z * string)) w' : Prop :=
  match o with
  | Ok (code, msg) =>
      (exists s t t', tok <> "" /\ ps <> [] /\ session_of w tok = Some s /\ fresh t s /\
         (clock (w_env w) <= t <= t')%Z /\ (t' <= clock (w_env w'))%Z /\ touched w s t' w' /\
         (if forallb (has_privilege s) ps then (code, msg) = (StatusOK, Success)
          else (code, msg) = (StatusForbidden, InsufficientPrivilege)))
      \/ ((code, msg) = (StatusUnauthorized, NoValidSession) /\ ro w w' /\
          (ps = [] \/ rejected w tok (clock (w_env w'))))
      \/ (exists s, session_of w tok = Some s /\ view w InMemory !! session_key (s_Token s) = None /\
            ro w w' /\ (code, msg) = (StatusUnauthorized, NoValidSession))
      \/ (~ healthy w /\ code <> StatusOK /\ at_most_touched w tok w')
  | Panic => False
  end.

Lemma privilege_loop w s tok ps :
  wf w ->
  wp (loopM ps tt (fun _ privilege =>
        if negb (has_privilege s privilege) then
          CustomAuthLog tok "User does not have sufficient privileges" StatusForbidden ;;;
          ret (inl (StatusForbidden, InsufficientPrivilege))
        else ret (inr tt)))
     (fun o w' => ro w w' /\
        o = Ok (if forallb (has_privilege s) ps then inr tt
                else inl (StatusForbidden, InsufficientPrivilege))) w.
Proof.
  intros Hwf. induction ps as [|p ps IH]; cbn [loopM forallb].
  { apply wp_ret. split; [by apply ro_refl|done]. }
  apply wp_bind. destruct (has_privilege s p); cbn [negb andb].
  - apply wp_ret. cbn [wp_cont]. exact IH.
  - wp_call wp_CustomAuthLog; [done|]. intros o w' [-> Hro]. cbn [wp_cont]. by wp_go.
Qed.

Lemma auth_error_code e : (GetAuthStatusCodeAndMessage e).1 <> StatusOK.
Proof. unfold GetAuthStatusCodeAndMessage. by destruct (ErrNo e). Qed.

Lemma touched_ro w w1 s t w' : ro w w1 -> touched w1 s t w' -> touched w s t w'.
Proof. apply ro_written. Qed.
Lemma touched_ro_after w s t w1 w' : touched w s t w1 -> ro w1 w' -> touched w s t w'.
Proof. apply evolves_ro. Qed.
Lemma ro_clock w w' : ro w w' -> (clock (w_env w) <= clock (w_env w'))%Z.
Proof. apply ev_clock. Qed.

Lemma wp_Auth tok ps w : wf w -> wp (Auth tok ps) (auth_post w tok ps) w.
Proof.
  intros Hwf. unfold Auth. wp_call wp_go_expiredSessionCleanUp; [done|].
  intros o w1 [-> Hro1]. cbn [wp_cont]. destruct (String.eqb tok "") eqn:Et.
  { apply String.eqb_eq in Et. wp_call wp_CustomAuthLog; [apply Hro1|]. intros o w2 [-> Hro2].
    wp_go. right; left. split_and!; [done|by eapply ro_trans|]. right. by left. }
  destruct ps as [|p ps]; cbn [Nat.eqb length].
  { wp_call wp_CustomAuthLog; [apply Hro1|]. intros o w2 [-> Hro2].
    wp_go. right; left. split_and!; [done|by eapply ro_trans|by left]. }
  apply String.eqb_neq in Et. remember (p :: ps) as ps' eqn:Eps.
  wp_call wp_CheckSessionTimeOut; [apply Hro1|]. intros o w2 Hp.
  apply (check_post_ro _ _ _ _ _ Hro1) in Hp as [Hro2 Hp].
  destruct o as [[e|s]|]; [| |done]; cbn [wp_cont].
  - pose proof (auth_error_code e) as Hc.
    destruct (GetAuthStatusCodeAndMessage e) as [st msg] eqn:Eg. simpl in Hc.
    assert (Hend : forall w3, ro w2 w3 -> auth_post w tok ps' (Ok (st, msg)) w3).
    { intros w3 Hr3. assert (Hr : ro w w3) by (by eapply ro_trans).
      destruct Hp as [Hh|[Hp [= -> ->]]].
      - do 3 right. split_and!; [done|done|by left].
      - right; left. split_and!; [done|done|]. right. eapply rejected_later; [|exact Hp].
        by apply ro_clock. }
    apply wp_bind. destruct (Z.eqb st StatusUnauthorized).
    + eapply wp_mono; [apply wp_CustomAuthLog, Hro2|]. intros o w3 [-> Hro3]. wp_go. auto.
    + wp_go. apply Hend, ro_refl, Hro2.
  - destruct Hp as (_ & Hs & t & Ht & Hf).
    wp_call wp_Now; [apply Hro2|]. intros o w3 (t' & -> & Hro3 & Ht' & Hc3). cbn [wp_cont].
    assert (Hr3 : ro w w3) by (by eapply ro_trans).
    wp_call wp_Session_Update; [apply Hr3|]. intros [[e|]|] w4 Hu; [| |done]; cbn [wp_cont];
      simpl in Hu; rewrite ?(ro_view _ _ _ Hr3) in Hu.
    + pose proof (auth_error_code e) as Hc. apply wp_ret.
      destruct (GetAuthStatusCodeAndMessage e) as [st msg] eqn:Eg. simpl in Hc.
      destruct Hu as [(He & Hro4 & Hn)|(_ & Hh & Hm)].
      * right; right; left. exists s. split_and!; [done|done|by eapply ro_trans|].
        rewrite <- Eg. unfold GetAuthStatusCodeAndMessage. by rewrite He.
      * do 3 right. split_and!; [by eapply unhealthy_ro|done|].
        destruct Hm as [Hm|Hm]; [left; by eapply ro_trans|right]. exists s, t'. split; [done|].
        by eapply touched_ro.
    + destruct Hu as [Hw _]. change (written w3 InMemory _ w4) with (touched w3 s t' w4) in Hw.
      apply wp_bind. eapply wp_mono; [apply privilege_loop, Hw|]. intros o w5 [Hro5 ->]. cbn [wp_cont].
      assert (Hfin : forall cm w6, ro w4 w6 ->
        (if forallb (has_privilege s) ps' then cm = (StatusOK, Success)
         else cm = (StatusForbidden, InsufficientPrivilege)) -> auth_post w tok ps' (Ok cm) w6).
      { intros [c m] w6 Hr6 Hcm. left. exists s, t, t'.
        pose proof (ro_clock _ _ Hro3). pose proof (ro_clock _ _ Hr6). pose proof (ev_clock _ _ _ Hw).
        split_and!; [done|by subst ps'|done|done|lia|lia|lia| |done].
        eapply touched_ro; [exact Hr3|]. by eapply touched_ro_after. }
      change (has_privilege (with_LastUsedTime t' s)) with (has_privilege s).
      destruct (forallb (has_privilege s) ps') eqn:Ep.
      * wp_call wp_CustomAuthLog; [apply Hro5|]. intros o w6 [-> Hro6]. wp_go.
        apply Hfin; [by eapply ro_trans|done].
      * wp_go. by apply Hfin.
Qed.
(** ** The clean-up *)

Lemma session_key_inj tok tok' : session_key tok = session_key tok' -> tok = tok'.
Proof. apply saveID_inj. Qed.

(** [w1] is [w] with some sessions removed that had expired. *)
Record swept w w1 : Prop := {
  sw_wf : wf w1;
  sw_clock : (clock (w_env w) <= clock (w_env w1))%Z;
  sw_disk : view w1 OnDisk = view w OnDisk;
  sw_mem : forall k, view w1 InMemory !! k = view w InMemory !! k \/
    (view w1 InMemory !! k = None /\ exists tok s, k = session_key tok /\
       session_of w tok = Some s /\ expired (clock (w_env w1)) s);
  sw_healthy : healthy w -> healthy w1;
  sw_last : lastExpiredSessionCleanUpTime w1 = lastExpiredSessionCleanUpTime w;
}.
Lemma swept_refl w : wf w -> swept w w.
Proof. intros Hwf. split; auto. lia. Qed.
Lemma swept_ro w w1 w2 : swept w w1 -> ro w1 w2 -> swept w w2.
Proof.
  intros [a1 a2 a3 a4 a5 a6] Hr. pose proof (ro_clock _ _ Hr). split.
  - apply Hr.
  - lia.
  - by rewrite (ro_view _ _ _ Hr).
  - intros k. rewrite (ro_view _ _ _ Hr). destruct (a4 k) as [?|(Hn & tok & s & ? & ? & ?)]; [by left|].
    right. split; [done|]. exists tok, s. split_and!; [done|done|]. by eapply expired_later.
  - intros Hh. by apply Hr, a5.
  - rewrite <- a6. apply Hr.
Qed.
Lemma swept_session w w1 tok s : swept w w1 -> session_of w1 tok = Some s -> session_of w tok = Some s.
Proof.
  intros Hs. unfold session_of, stored.
  destruct (sw_mem _ _ Hs (session_key tok)) as [->|[-> _]]; done.
Qed.
Lemma swept_delete w w1 tok s w2 : swept w w1 -> session_of w tok = Some s ->
  expired (clock (w_env w1)) s -> maybe_written w1 InMemory (delete (session_key tok)) w2 -> swept w w2.
Proof.
  intros Hs Hse Hex [Hr|Hw]; [by eapply swept_ro|]. pose proof (ev_clock _ _ _ Hw).
  destruct Hs as [a1 a2 a3 a4 a5 a6]. split.
  - apply Hw.
  - lia.
  - by rewrite (ev_view _ _ _ Hw), upd_ne.
  - intros k. rewrite (ev_view _ _ _ Hw), upd_eq.
    destruct (decide (k = session_key tok)) as [->|Hne].
    + right. rewrite lookup_delete_eq. split; [done|]. exists tok, s. split_and!; [done|done|].
      by eapply expired_later.
    + rewrite lookup_delete_ne by done. destruct (a4 k) as [?|(Hn & tok' & s' & ? & ? & ?)]; [by left|].
      right. split; [done|]. exists tok', s'. split_and!; [done|done|]. by eapply expired_later.
  - intros Hh. by apply Hw, a5.
  - rewrite <- a6. apply Hw.
Qed.

(** The fate of one session's entry. *)
Definition gone w w1 tok : Prop :=
  forall s, session_of w tok = Some s -> expired (clock (w_env w)) s ->
    view w1 InMemory !! session_key tok = None.

Lemma wp_cleanUpToken w w1 tok : typed w -> swept w w1 ->
  wp (cleanUpToken tok)
     (fun o w2 => o = Ok tt /\ swept w w2 /\ (healthy w -> gone w w2 tok) /\
        forall k, view w1 InMemory !! k = None -> view w2 InMemory !! k = None) w1.
Proof.
  intros Hty Hs. unfold cleanUpToken. wp_call wp_GetSession; [apply Hs|].
  intros [[e|s]|] w2 [Hro Hp]; [| |done]; cbn [wp_cont].
  - apply wp_ret. split_and!; [done|by eapply swept_ro| |by rewrite (ro_view _ _ _ Hro)].
    intros Hh s Hse _. rewrite (ro_view _ _ _ Hro).
    destruct Hp as [[_ Hp]|[(_ & Hp & Hn)|[_ Hn]]]; [done| |by destruct Hn; apply Hs].
    destruct (sw_mem _ _ Hs (session_key tok)) as [Heq|[Hq _]]; [|done]. exfalso.
    unfold session_of, stored in Hse. rewrite <- Heq in Hse. unfold stored in Hn. congruence.
  - change (session_of w1 tok = Some s) in Hp. apply (swept_session _ _ _ _ Hs) in Hp.
    wp_call wp_Now; [apply Hro|]. intros ? w3 (t & -> & Hro3 & Ht & Hc). cbn [wp_cont].
    assert (Hr : ro w1 w3) by (by eapply ro_trans).
    destruct (minutes_exceed _ _) eqn:Em.
    + wp_call wp_Session_Delete; [apply Hr|]. intros [r|] w4 Hd; [|done]. cbn [wp_cont]. apply wp_ret.
      rewrite (typed_token _ _ _ Hty Hp) in Hd.
      assert (Hm : maybe_written w3 InMemory (delete (session_key tok)) w4).
      { destruct r as [e|]; simpl in Hd; [|right; apply Hd].
        destruct Hd as [(_ & Hd & _)|(_ & _ & Hd)]; [by left|done]. }
      split_and!; [done| | |].
      * eapply swept_delete; [eapply swept_ro; [exact Hs|exact Hr]|exact Hp| |exact Hm].
        rewrite Hc. exact Em.
      * intros Hh s' _ _. destruct r as [e|]; simpl in Hd.
        -- destruct Hd as [(_ & Hd & Hn)|(_ & Hn & _)].
           ++ by rewrite (ro_view _ _ _ Hd).
           ++ destruct Hn. by apply Hr, Hs.
        -- destruct Hd as [Hd _]. by rewrite (ev_view _ _ _ Hd), upd_eq, lookup_delete_eq.
      * intros k Hk. rewrite <- (ro_view _ _ InMemory Hr) in Hk.
        destruct Hm as [Hm|Hm]; [by rewrite (ro_view _ _ _ Hm)|].
        rewrite (ev_view _ _ _ Hm), upd_eq. destruct (decide (k = session_key tok)) as [->|Hne];
          [by rewrite lookup_delete_eq|by rewrite lookup_delete_ne].
    + apply wp_ret. split_and!; [done|by eapply swept_ro| |by rewrite (ro_view _ _ _ Hr)].
      intros Hh s' Hse Hex. rewrite Hp in Hse. simplify_eq. exfalso.
      apply (fresh_not_expired (clock (w_env w3)) s'); [exact Em|]. eapply expired_later; [|exact Hex].
      pose proof (sw_clock _ _ Hs). pose proof (ro_clock _ _ Hro). lia.
Qed.

Lemma wp_sweep w toks : forall w1, typed w -> swept w w1 ->
  wp (forM_ toks cleanUpToken)
     (fun o w2 => o = Ok tt /\ swept w w2 /\ (healthy w -> Forall (gone w w2) toks) /\
        forall k, view w1 InMemory !! k = None -> view w2 InMemory !! k = None) w1.
Proof.
  induction toks as [|tok toks IH]; intros w1 Hty Hs; cbn [forM_].
  { apply wp_ret. by split_and!. }
  apply wp_bind. eapply wp_mono; [by apply wp_cleanUpToken|].
  intros o w2 (-> & Hs2 & Hg & Hk). cbn [wp_cont].
  eapply wp_mono; [by apply IH|]. intros o w3 (-> & Hs3 & Hg3 & Hk3). split_and!; [done|done| |auto].
  intros Hh. constructor; [|auto]. intros s Hse Hex. apply Hk3. by eapply Hg.
Qed.
Definition clean_up_post w (o : outcome unit) w' : Prop :=
  o = Ok tt /\ exists w1, swept w w1 /\
    (w' = w1 \/ (lastExpiredSessionCleanUpTime w' = clock (w_env w1) /\
                 w' = with_cleanup_time (clock (w_env w1)) w1)) /\
    (healthy w -> minutes_exceed (clock (w_env w) - lastExpiredSessionCleanUpTime w) CleanUpTime = true ->
       lastExpiredSessionCleanUpTime w' = clock (w_env w1) /\
       forall tok s, session_of w tok = Some s -> expired (clock (w_env w)) s ->
         view w1 InMemory !! session_key tok = None).

Lemma wp_expiredSessionCleanUp w : wf w -> typed w ->
  wp expiredSessionCleanUp (clean_up_post w) w.
Proof.
  intros Hwf Hty. unfold expiredSessionCleanUp. wp_call wp_Now; [done|]. intros ? w1 (t & -> & Hro & Ht & Hc).
  cbn [wp_cont]. apply wp_bind, wp_get. cbn [wp_cont].
  pose proof (swept_ro _ _ _ (swept_refl _ Hwf) Hro) as Hs.
  rewrite (sw_last _ _ Hs). destruct (minutes_exceed (t - _) _) eqn:Edue.
  2:{ apply wp_ret. split; [done|]. exists w1. split_and!; [done|by left|]. intros _ Hdue. exfalso.
      eapply minutes_exceed_mono in Hdue; [rewrite Hdue in Edue; done|lia]. }
  wp_call wp_GetAllSessionKeys; [apply Hro|]. intros [[e|ids]|] w2 [Hro2 Hk]; [| |done]; cbn [wp_cont];
    pose proof (swept_ro _ _ _ Hs Hro2) as Hs2.
  { apply wp_ret. split; [done|]. exists w2. split_and!; [done|by left|].
    intros Hh. exfalso. apply Hk. by apply Hro. }
  apply wp_bind. eapply wp_mono; [by apply (wp_sweep w)|]. intros o w3 (-> & Hs3 & Hg & _). cbn [wp_cont].
  wp_call wp_Now; [apply Hs3|]. intros ? w4 (t' & -> & Hro4 & Ht' & Hc4). cbn [wp_cont].
  pose proof (swept_ro _ _ _ Hs3 Hro4) as Hs4. apply wp_modify. subst t'.
  split; [done|]. exists w4. split_and!; [done|by right|]. intros Hh _. split; [done|].
  intros tok s Hse Hex. rewrite (ro_view _ _ _ Hro4). specialize (Hg Hh). rewrite Forall_forall in Hg.
  apply (Hg tok) with (s := s); [|done|done]. apply Hk. rewrite (ro_view _ _ _ Hro).
  by eapply stored_Some.
Qed.
End authspec.

(** ** Properties *)

Section properties.
Context `{EnvLaws, Libs, SingleNode}.
Implicit Types (w : World) (s : Session).

(** C4: whatever commands fail, authorisation never panics, and it answers 200 only when the token
    names a stored session that has not timed out and the session holds every privilege asked
    for, of which there is at least one; the session is then stored again with the time of the
    request, and nothing else changes. *)
Theorem Auth_granted_only_if_valid w tok ps code msg w' :
  wf w -> Auth tok ps w = (Ok (code, msg), w') -> code = StatusOK ->
  exists s t t', tok <> "" /\ ps <> [] /\ session_of w tok = Some s /\ fresh t s /\
    (clock (w_env w) <= t <= t')%Z /\ (t' <= clock (w_env w'))%Z /\
    (forall p, In p ps -> has_privilege s p = true) /\
    view w' OnDisk = view w OnDisk /\
    view w' InMemory = <[session_key (s_Token s) := Text (marshal_Session (with_LastUsedTime t' s))]>
                         (view w InMemory).
Proof.
  intros Hwf E ->. pose proof (wp_run _ _ _ _ _ (wp_Auth tok ps w Hwf) E) as Hp.
  destruct Hp as [(s & t & t' & H1' & H2' & H3' & H4' & H5' & H6' & Hw & Hc)|[([= ?] & _)|[(s & _ & _ & _ & [= ?])|(_ & Hn & _)]]];
    [|done].
  exists s, t, t'. rewrite !(ev_view _ _ _ Hw), upd_eq, upd_ne by done.
  destruct (forallb _ ps) eqn:Ef; [|done]. rewrite forallb_forall in Ef.
  split_and!; try done; lia.
Qed.

(** in a healthy process the answer of the authorisation is determined: 200 or 403 for a
    session that has not timed out, as it does or does not hold every privilege, its last-used
    time set in both cases; else 401, nothing stored. *)
Theorem Auth_healthy w tok ps :
  wf w -> healthy w -> typed w ->
  exists code msg w', Auth tok ps w = (Ok (code, msg), w') /\ healthy w' /\
    ((exists s t t', session_of w tok = Some s /\ fresh t s /\ tok <> "" /\ ps <> [] /\
        (clock (w_env w) <= t <= t')%Z /\ touched w s t' w' /\
        if forallb (has_privilege s) ps then (code, msg) = (StatusOK, Success)
        else (code, msg) = (StatusForbidden, InsufficientPrivilege)) \/
     ((code, msg) = (StatusUnauthorized, NoValidSession) /\ ro w w' /\
      (ps = [] \/ rejected w tok (clock (w_env w'))))).
Proof.
  intros Hwf Hh Hty. destruct (wp_elim _ _ _ (wp_Auth tok ps w Hwf)) as ([[code msg]|] & w' & E & Hp);
    [|done]. exists code, msg, w'. split; [done|].
  destruct Hp as [(s & t & t' & H1' & H2' & H3' & H4' & H5' & H6' & Hw & Hc)|[(Hc & Hr & Hj)|[(s & Hs & Hn & _)|(Hn & _)]]].
  - split; [by apply Hw|]. left. by exists s, t, t'.
  - split; [by apply Hr|]. by right.
  - exfalso. rewrite (typed_token _ _ _ Hty Hs) in Hn. apply stored_Some in Hs. rewrite Hn in Hs.
    by destruct Hs.
  - done.
Qed.

(** C8: the clean-up never panics and, whatever commands fail, removes only sessions that have
    expired and changes nothing else; in a healthy process, when it is due, every session that
    had expired when it started is gone. *)
Theorem expiredSessionCleanUp_removes_expired w :
  wf w -> typed w ->
  exists w', expiredSessionCleanUp w = (Ok tt, w') /\
    view w' OnDisk = view w OnDisk /\
    (forall k, view w' InMemory !! k = view w InMemory !! k \/
       (view w' InMemory !! k = None /\ exists tok s, k = session_key tok /\
          session_of w tok = Some s /\ expired (clock (w_env w')) s)) /\
    (healthy w -> minutes_exceed (clock (w_env w) - lastExpiredSessionCleanUpTime w) CleanUpTime = true ->
       lastExpiredSessionCleanUpTime w' = clock (w_env w') /\
       forall tok s, session_of w tok = Some s -> expired (clock (w_env w)) s -> session_of w' tok = None).
Proof.
  intros Hwf Hty.
  destruct (wp_elim _ _ _ (wp_expiredSessionCleanUp w Hwf Hty)) as (o & w' & E & -> & w1 & Hs & Hw' & Hg).
  exists w'. split; [done|].
  assert (Hv : forall db, view w' db = view w1 db) by (intros db; by destruct Hw' as [-> | [_ ->]]).
  assert (Hck : clock (w_env w') = clock (w_env w1)) by (by destruct Hw' as [-> | [_ ->]]).
  split_and!; [by rewrite Hv; apply Hs|intros k; rewrite Hv, Hck; apply Hs|].
  intros Hh Hdue. destruct (Hg Hh Hdue) as [Hl Hgone]. split; [by rewrite Hck|]. intros tok s Hse Hex.
  unfold session_of, stored. rewrite Hv. by rewrite (Hgone tok s Hse Hex).
Qed.
End properties.

(** ** The properties at concrete inputs *)

Section witnesses.
#[local] Existing Instances single single_node.

Lemma Auth_granted_only_if_valid_witness :
  exists s, session_of (service minute []) "tok-admin" = Some s /\
    has_privilege s PrivilegeConfigureUsers = true.
Proof.
  assert (E1 : (Auth "tok-admin" [PrivilegeConfigureUsers] (service minute [])).1
               = Ok (StatusOK, Success)) by (vm_compute; reflexivity).
  destruct (Auth "tok-admin" [PrivilegeConfigureUsers] (service minute [])) as [o w'] eqn:E.
  cbn [fst] in E1. subst o.
  destruct (Auth_granted_only_if_valid (service minute []) "tok-admin" [PrivilegeConfigureUsers]
    StatusOK Success w' (service_wf _ _) E eq_refl) as (s & t & t' & _ & _ & Hs & _ & _ & _ & Hp & _).
  exists s. split; [exact Hs|]. apply Hp. by left.
Defined.

Lemma Auth_healthy_witness :
  exists code msg w', Auth "tok-alice" [PrivilegeConfigureUsers] (service minute [])
                      = (Ok (code, msg), w') /\ healthy w'.
Proof.
  destruct (Auth_healthy (service minute []) "tok-alice" [PrivilegeConfigureUsers])
    as (code & msg & w' & E & Hh & _); [apply service_wf|apply service_healthy|apply service_typed|].
  exists code, msg, w'. split; [exact E|exact Hh].
Defined.

Lemma expiredSessionCleanUp_removes_expired_witness :
  exists w', expiredSessionCleanUp (service (40 * minute) []) = (Ok tt, w') /\
    session_of w' "tok-alice" = None.
Proof.
  destruct (expiredSessionCleanUp_removes_expired (service (40 * minute) []))
    as (w' & E & _ & _ & Hh); [apply service_wf|apply service_typed|].
  destruct (Hh (service_healthy _)) as [_ Hg]; [reflexivity|].
  exists w'. split; [exact E|]. apply (Hg "tok-alice" alice_session);
    vm_compute; reflexivity.
Defined.
End witnesses.
