(* ===== verification/SessionSpec.v ===== *)
(** What the session functions do, in any process: the postconditions the properties of the
    session service are read off. *)
From stdpp Require Import base gmap list strings.
From S2P Require Import Prelude Go Response CaseValidator Redis World ConnPool DBSpec AsModel AsSpec Auth Session AuthProps ResponseProps CaseProps.
Open Scope string_scope.

Section sessionspec.
Context `{EnvLaws, Libs, SingleNode}.
Implicit Types (w : World) (s : AsModel.Session).

(** A pure computation that returns: the rest runs in the same world. *)
Lemma wp_lift_ok {A} (o : outcome A) a Q w : o = Ok a -> Q (Ok a) w -> wp (lift o) Q w.
Proof. intros ->. apply wp_lift. Qed.

(** ** UpdateLastUsedTime *)

Definition update_post w tok (o : outcome (option string)) w' : Prop :=
  match o with
  | Ok None => exists s t, session_of w tok = Some s /\
      (clock (w_env w) <= t <= clock (w_env w'))%Z /\ touched w s t w'
  | Ok (Some _) =>
      (ro w w' /\ (session_of w tok = None \/
         exists s, session_of w tok = Some s /\ view w InMemory !! session_key (s_Token s) = None))
      \/ (~ healthy w /\ (ro w w' \/ exists s t, session_of w tok = Some s /\ touched w s t w'))
  | Panic => False
  end.

Lemma wp_UpdateLastUsedTime tok w : wf w ->
  wp (UpdateLastUsedTime tok) (update_post w tok) w.
Proof.
  intros Hwf. unfold UpdateLastUsedTime. wp_call wp_GetSession; [done|].
  intros [[e|s]|] w1 [Hro Hp]; [| |done]; cbn [wp_cont].
  - apply wp_ret. destruct Hp as [[_ Hp]|[(_ & _ & Hp)|[_ Hn]]]; [| |by right; split; [|left]].
    + left. split; [done|]. left. unfold session_of, stored. by rewrite Hp.
    + left. split; [done|]. by left.
  - change (session_of w tok = Some s) in Hp.
    wp_call wp_Now; [apply Hro|]. intros ? w2 (t & -> & Hro2 & Ht & Hc). cbn [wp_cont].
    assert (Hr : ro w w2) by (by eapply ro_trans). pose proof (ro_clock _ _ Hro).
    wp_call wp_Session_Update; [apply Hr|]. intros [[e|]|] w3 Hu; [| |done]; cbn [wp_cont];
      apply wp_ret; simpl in Hu; rewrite ?(ro_view _ _ _ Hr) in Hu.
    + destruct Hu as [(_ & Hu & Hn)|(_ & Hn & Hm)].
      * left. split; [by eapply ro_trans|]. right. by exists s.
      * right. split; [by eapply unhealthy_ro|].
        destruct Hm as [Hm|Hm]; [left; by eapply ro_trans|right]. exists s, t. split; [done|].
        by eapply touched_ro.
    + destruct Hu as [Hw _]. exists s, t. pose proof (ev_clock _ _ _ Hw).
      split_and!; [done|lia|lia|]. by eapply touched_ro.
Qed.

(** ** Creating a session *)

Lemma wp_CheckSessionCreationCredentials name pw w : wf w ->
  wp (CheckSessionCreationCredentials name pw)
     (fun o w' => ro w w' /\
        match o with
        | Ok (inr u) => name <> "" /\ pw <> "" /\ user_of w name = Some u /\
                        u_Password u = hashPassword pw
        | Ok (inl e) => ~ healthy w \/ (ErrNo e <> DBConnFailed /\
            forall u, name <> "" -> pw <> "" -> user_of w name = Some u -> u_Password u <> hashPassword pw)
        | Panic => False
        end) w.
Proof.
  intros Hwf. unfold CheckSessionCreationCredentials. wp_call wp_go_expiredSessionCleanUp; [done|].
  intros o w1 [-> Hro]. cbn [wp_cont].
  destruct (String.eqb name "" || String.eqb pw "") eqn:Ee.
  { apply wp_ret. split; [done|]. right. split; [done|]. intros u Hn Hpw.
    apply orb_true_iff in Ee as [Ee|Ee]; apply String.eqb_eq in Ee; by subst. }
  apply orb_false_iff in Ee as [En Ep]. apply String.eqb_neq in En. apply String.eqb_neq in Ep.
  wp_call wp_GetUserDetails; [apply Hro|]. intros [[e|u]|] w2 [Hro2 Hp]; [| |done]; cbn [wp_cont].
  - apply wp_ret. split; [by eapply ro_trans|].
    unfold fetch_post in Hp. rewrite (ro_view _ _ _ Hro) in Hp.
    destruct Hp as [[He Hp]|[(He & _ & Hp)|[_ Hn]]].
    + right. split; [simpl; by rewrite He|]. intros u _ _ Hu. apply stored_Some in Hu.
      unfold user_key in *. rewrite Hp in Hu. by destruct Hu.
    + right. split; [simpl; by rewrite He|]. intros u _ _ Hu. unfold user_of in Hu. congruence.
    + left. exact (unhealthy_ro _ _ Hro Hn).
  - change (user_of w1 name = Some u) in Hp. rewrite (user_of_ro _ _ _ Hro) in Hp.
    assert (Hr : ro w w2) by (by eapply ro_trans).
    destruct (String.eqb (u_Password u) (hashPassword pw)) eqn:Eh; cbn [negb]; apply wp_ret.
    + apply String.eqb_eq in Eh. by split_and!.
    + apply String.eqb_neq in Eh. split; [done|]. right. split; [done|]. intros u' _ _ Hu.
      by simplify_eq.
Qed.

Lemma rolePrivileges_lookup role p :
  is_Some (rolePrivileges role !! p) <-> In p (items (r_AssignedPrivileges role)).
Proof.
  unfold rolePrivileges. generalize (items (r_AssignedPrivileges role)). intros l.
  enough (forall m : gmap string bool, is_Some (fold_left (fun m p => <[p:=true]> m) l m !! p)
    <-> is_Some (m !! p) \/ In p l) as Hg.
  { rewrite Hg, lookup_empty. split; [intros [[? [=]]|]; done|by right]. }
  induction l as [|q l IH]; intros m; simpl.
  { split; [by left|by intros [|[]]]. }
  rewrite IH. destruct (decide (p = q)) as [->|Hne].
  - rewrite lookup_insert_eq. split; [by right; left|]. intros _. left. by eexists.
  - rewrite lookup_insert_ne by done. naive_solver.
Qed.
Lemma rolePrivileges_true role p b : rolePrivileges role !! p = Some b -> b = true.
Proof.
  unfold rolePrivileges. generalize (items (r_AssignedPrivileges role)). intros l.
  enough (forall m : gmap string bool, (forall b, m !! p = Some b -> b = true) ->
    fold_left (fun m p => <[p:=true]> m) l m !! p = Some b -> b = true) as Hg.
  { apply Hg. intros ?. by rewrite lookup_empty. }
  induction l as [|q l IH]; intros m Hm; simpl; [by apply Hm|]. apply IH. intros b'.
  destruct (decide (p = q)) as [->|Hne]; [rewrite lookup_insert_eq; congruence|].
  rewrite lookup_insert_ne by done. apply Hm.
Qed.

Definition new_session (id tok : string) (u : User) (role : Role) (t : Z) : AsModel.Session :=
  mkSession id tok (u_UserName u) (u_RoleID u) (rolePrivileges role) "" t t.

Lemma new_session_privilege id tok u role t p :
  has_privilege (new_session id tok u role t) p = true <-> In p (items (r_AssignedPrivileges role)).
Proof.
  unfold has_privilege. cbn [s_Privileges new_session]. rewrite <- rolePrivileges_lookup.
  destruct (rolePrivileges role !! p) as [b|] eqn:E; simpl.
  - rewrite (rolePrivileges_true _ _ _ E). split; [by eexists|done].
  - split; [done|by intros [? [=]]].
Qed.

(** A session for a stored account whose role grants Login, with the privileges of the role. *)
Definition grants_session w (s : AsModel.Session) : Prop :=
  exists name u r, user_of w name = Some u /\ s_UserName s = u_UserName u /\
    s_RoleID s = u_RoleID u /\ role_of w (u_RoleID u) = Some r /\
    In PrivilegeLogin (items (r_AssignedPrivileges r)) /\
    forall p, has_privilege s p = true <-> In p (items (r_AssignedPrivileges r)).

(** The headers of a login, which the gateway reads. *)
Definition session_headers (id tok : string) : list (string * string) :=
  [("Link", "</redfish/v1/SessionService/Sessions/" +:+ id +:+ "/>; rel=self"); ("X-Auth-Token", tok)].
Definition login_headers (id tok : string) (hdr : list (string * string)) : Prop :=
  hdr = session_headers id tok /\ string_forall uuid_char id = true.
Lemma login_headers_token id tok hdr : login_headers id tok hdr -> In ("X-Auth-Token", tok) hdr.
Proof. intros [-> _]. right. by left. Qed.

(** What a login that succeeds has done. *)
Definition logged_in w body (resp : asRPC) id w' : Prop :=
  exists c u role tok t, Unmarshal CreateSession_type body zeroCreateSession = (c, None) /\
    cs_Password c <> "" /\ user_of w (cs_UserName c) = Some u /\
    u_Password u = hashPassword (cs_Password c) /\
    role_of w (u_RoleID u) = Some role /\
    In PrivilegeLogin (items (r_AssignedPrivileges role)) /\
    login_headers id tok (Header resp) /\ tok <> "" /\
    (absent w InMemory (session_key tok) \/ ~ healthy w) /\
    (clock (w_env w) <= t <= clock (w_env w'))%Z /\
    written w InMemory (insert (session_key tok)
      (Text (marshal_Session (new_session id tok u role t)))) w'.

(** Why a login is refused when no command fails; the last case is a token that is in use. *)
Definition login_reason w body : Prop :=
  (exists c err, Unmarshal CreateSession_type body zeroCreateSession = (c, Some err)) \/
  exists c, Unmarshal CreateSession_type body zeroCreateSession = (c, None) /\
    (reported (marshal_CreateSession c) (unmarshal_map body).*1 <> "" \/
     cs_UserName c = "" \/ cs_Password c = "" \/
     (forall u, user_of w (cs_UserName c) = Some u -> u_Password u = hashPassword (cs_Password c) ->
        forall role, role_of w (u_RoleID u) = Some role ->
          ~ In PrivilegeLogin (items (r_AssignedPrivileges role))) \/
     exists tok, String.length tok = 36 /\ ~ absent w InMemory (session_key tok)).

Definition create_session_post w body (o : outcome (asRPC * string)) w' : Prop :=
  match o with
  | Ok (resp, id) =>
      (StatusCode resp = StatusCreated /\ logged_in w body resp id w') \/
      (StatusCode resp <> StatusCreated /\ id = "" /\
       ((ro w w' /\ login_reason w body) \/ (~ healthy w /\ (ro w w' \/ exists s, grants_session w s /\ maybe_written w InMemory
          (insert (session_key (s_Token s)) (Text (marshal_Session s))) w'))))
  | Panic => False
  end.

Lemma refused w body (resp : asRPC) w' : StatusCode resp <> StatusCreated -> ro w w' ->
  login_reason w body \/ ~ healthy w ->
  create_session_post w body (Ok (resp, "")) w'.
Proof. intros Hc Hr [Hl|Hn]; right; (split_and!; [done|done|]); [by left|right]. by split; [|left]. Qed.

Lemma wp_CreateNewSession body w : wf w ->
  wp (CreateNewSession body) (create_session_post w body) w.
Proof.
  intros Hwf. unfold CreateNewSession.
  destruct (Unmarshal CreateSession_type body zeroCreateSession) as [c [err|]] eqn:Eu.
  { run_body. wp_go. apply refused; [done|by apply ro_refl|]. left; left. by eexists _, _. }
  rewrite (CreateSession_validator _ _ Eu). apply wp_bind, wp_lift. cbn [wp_cont].
  destruct (String.eqb (reported _ _) "") eqn:Er; cbn [negb].
  2:{ apply String.eqb_neq in Er. run_body. wp_go. apply refused; [done|by apply ro_refl|].
      left; right. exists c. by split; [|left]. }
  wp_call wp_CheckSessionCreationCredentials; [done|].
  intros [[e|u]|] w1 [Hro Hp]; [| |done]; cbn [wp_cont].
  { assert (Hre : login_reason w body \/ ~ healthy w).
    { destruct Hp as [Hp|[_ Hp]]; [by right|left; right]. exists c. split; [done|].
      destruct (decide (cs_UserName c = "")); [by right; left|].
      destruct (decide (cs_Password c = "")); [by do 2 right; left|].
      do 3 right; left. intros u Hu Hpw. by destruct (Hp u). }
    destruct (decide _); run_body; wp_go; by apply refused. }
  destruct Hp as (Hn & Hpw & Hu & Hh).
  assert (Hno : (forall role, role_of w (u_RoleID u) = Some role ->
    ~ In PrivilegeLogin (items (r_AssignedPrivileges role))) -> login_reason w body).
  { intros Hr. right. exists c. split; [done|]. do 3 right; left. intros u' Hu' _.
    rewrite Hu in Hu'. by injection Hu' as <-. }
  wp_call wp_GetRoleDetailsByID; [apply Hro|]. intros [[e|role]|] w2 [Hro2 Hp]; [| |done]; cbn [wp_cont];
    assert (Hr2 : ro w w2) by (by eapply ro_trans).
  { run_body. wp_go. apply refused; [done|done|]. unfold fetch_post in Hp.
    rewrite !(ro_view _ _ _ Hro) in Hp. destruct Hp as [[_ Hp]|[(_ & _ & Hp)|[_ Hp]]].
    - left. apply Hno. unfold role_of, stored. by rewrite Hp.
    - left. apply Hno. unfold role_of. by rewrite Hp.
    - right. exact (unhealthy_ro _ _ Hro Hp). }
  change (role_of w1 (u_RoleID u) = Some role) in Hp. rewrite (role_of_ro _ _ _ Hro) in Hp.
  destruct (bool_decide _) eqn:El; cbn [negb].
  2:{ apply bool_decide_eq_false in El. rewrite rolePrivileges_lookup in El.
      run_body. wp_go. apply refused; [done|done|left]. apply Hno. intros r Hr. congruence. }
  apply bool_decide_eq_true, rolePrivileges_lookup in El.
  wp_call wp_Now; [apply Hr2|]. intros ? w3 (t & -> & Hro3 & Ht & Hc3). cbn [wp_cont].
  wp_call wp_NewV4; [apply Hro3|]. intros ? w4 (id & -> & Hro4 & _ & Hid). cbn [wp_cont].
  wp_call wp_NewV4; [apply Hro4|]. intros ? w5 (tok & -> & Hro5 & Hl & _). cbn [wp_cont].
  assert (Hr5 : ro w w5) by eauto using ro_trans.
  wp_call wp_Session_Persist; [apply Hr5|]. intros o w6 Hcr. pose proof Hcr as Hcr0.
  apply (create_post_ro _ _ _ _ _ _ _ Hr5) in Hcr. destruct o as [[e|]|]; [| |done]; cbn [wp_cont].
  { assert (Hend : (ro w w6 /\ login_reason w body) \/ (~ healthy w /\ (ro w w6 \/
       exists s, grants_session w s /\ maybe_written w InMemory (insert (session_key (s_Token s)) (Text (marshal_Session s))) w6))).
    { destruct Hcr as [(_ & ? & ?)|(_ & ? & Hm)]; [left|right].
      - split; [done|]. right. exists c. split; [done|]. do 4 right. by exists tok.
      - split; [done|]. right. exists (new_session id tok u role t). split; [|done].
        exists (cs_UserName c), u, role. split_and!; try done. intros p. apply new_session_privilege. }
    destruct (decide _); run_body; wp_go; right; split_and!; done. }
  run_body. wp_go. left. split; [done|]. destruct Hcr as [Hw Hab].
  pose proof (ro_clock _ _ Hr2). pose proof (ro_clock _ _ Hro4). pose proof (ro_clock _ _ Hro5).
  destruct Hcr0 as [Hw0 _]. pose proof (ev_clock _ _ _ Hw0).
  exists c, u, role, tok, t. split_and!; try done.
  - by intros ->.
  - lia.
  - lia.
Qed.

(** The answers of a login whose body has no property in the wrong case. *)
Definition login_code (r : asRPC * string) : Prop :=
  StatusCode r.1 = StatusCreated \/ In (StatusCode r.1, StatusMessage r.1)
    [(StatusUnauthorized, NoValidSession); (StatusForbidden, InsufficientPrivilege);
     (StatusInternalServerError, InternalError); (StatusServiceUnavailable, CouldNotEstablishConnection)].
Lemma results_lift {A B} (P : B -> Prop) (o : outcome A) (k : A -> IO B) :
  (forall a, o = Ok a -> results P (k a)) -> results P (bind (lift o) k).
Proof. intros Hk w. unfold bind, lift. destruct o as [a|]; [by apply Hk|done]. Qed.
Lemma login_refusal code st em margs :
  args_ok {| ea_StatusMessage := st; ea_ErrorMessage := em; ea_MessageArgs := margs |} ->
  login_code (mkRPC code st [] NoBody, "") ->
  results login_code (let! r := lift (GeneralError code st em margs) in ret (r, "")).
Proof.
  intros Ha Hc. destruct (@GeneralError_ok asBody code st em margs Ha) as [e ->].
  apply results_lift. intros r [= <-]. apply results_ret. exact Hc.
Qed.
Ltac refuses := apply login_refusal; [first [exact I|exact eq_refl]|right; cbn; tauto].
Lemma CreateNewSession_codes body :
  (forall c, Unmarshal CreateSession_type body zeroCreateSession = (c, None) ->
     RequestParamsCaseValidator body (marshal_CreateSession c) = Ok "") ->
  results login_code (CreateNewSession body).
Proof.
  intros Hbody. unfold CreateNewSession. destruct (Unmarshal _ _ _) as [c [err|]]; [refuses|].
  rewrite (Hbody c eq_refl). apply results_lift. intros inv [= <-].
  apply results_bind. intros [e|u]; [cbv zeta; destruct (decide _); refuses|].
  apply results_bind. intros [e|role].
  { destruct (@InternalError_ok asBody [] ("Unable to get role privileges for session creation: " +:+ errMsg e)) as [x ->].
    apply results_lift. intros r [= <-]. apply results_ret. right. cbn. tauto. }
  cbv zeta. destruct (negb _); [refuses|].
  do 3 (apply results_bind; intros ?). apply results_bind. intros [e|].
  - destruct (decide _); refuses.
  - apply results_lift. intros r _. apply results_ret. by left.
Qed.

(** ** Deleting a session *)

(** The requester's session may have been stored with a new time before the deletion. *)
Definition session_deleted w (req : SessionRequest) w' : Prop :=
  exists cur tok s w1,
    session_of w (SessionToken req) = Some cur /\ tok <> "" /\ session_of w tok = Some s /\
    (exists t, (clock (w_env w) <= t <= clock (w_env w'))%Z /\ fresh t s) /\
    s_ID s = SessionId req /\ checkPrivilege s cur = true /\
    (if String.eqb (SessionToken req) (s_Token s) then ro w w1
     else exists t, (clock (w_env w) <= t <= clock (w_env w'))%Z /\ touched w cur t w1) /\
    written w1 InMemory (delete (session_key (s_Token s))) w'.

(** A request that is refused removes nothing; one that fails may have removed the session. *)
Definition delete_refused w (req : SessionRequest) w' : Prop :=
  at_most_touched w (SessionToken req) w' \/
  (~ healthy w /\ exists tok s w1, session_of w tok = Some s /\
     at_most_touched w (SessionToken req) w1 /\ written w1 InMemory (delete (session_key (s_Token s))) w').

Lemma at_most_touched_ro w tok w1 w2 : at_most_touched w tok w1 -> ro w1 w2 -> at_most_touched w tok w2.
Proof.
  intros [Hr|(s & t & Hs & Ht)] Hr2; [left; by eapply ro_trans|right]. exists s, t. split; [done|].
  by eapply touched_ro_after.
Qed.

Definition delete_session_post w req (o : outcome asRPC) w' : Prop :=
  match o with
  | Ok resp =>
      (StatusCode resp = StatusNoContent /\ session_deleted w req w') \/
      (StatusCode resp <> StatusNoContent /\ delete_refused w req w')
  | Panic => False
  end.

Lemma delete_not w req (resp : asRPC) w' :
  StatusCode resp <> StatusNoContent -> delete_refused w req w' -> delete_session_post w req (Ok resp) w'.
Proof. by right. Qed.

Lemma unhealthy_touched w s t w' : touched w s t w' -> ~ healthy w' -> ~ healthy w.
Proof. intros Ht Hn Hh. by apply Hn, Ht. Qed.

(** The body of the loop. *)
Lemma wp_delete_step w req cur w1 token :
  ro w w1 -> session_of w (SessionToken req) = Some cur ->
  wp (let! session := CheckSessionTimeOut token in
      match session with
      | inl _ => ret (inr tt)
      | inr session =>
          if String.eqb (s_ID session) (SessionId req) then
            if checkPrivilege session cur then
              let! upd :=
                (if negb (String.eqb (SessionToken req) (s_Token session))
                 then UpdateLastUsedTime (SessionToken req) else ret None) in
              match upd with
              | Some err =>
                  let! r := lift (CreateInternalErrorResponse []
                    ("Unable to update last used time of session matching token " +:+
                     SessionToken req +:+ ": " +:+ err)) in
                  ret (inl r)
              | None =>
                  let! derr := Session_Delete session in
                  match derr with
                  | Some err =>
                      let! r := lift (CreateInternalErrorResponse []
                        ("Unable to get all session keys while deleting session: " +:+ errMsg err)) in
                      ret (inl r)
                  | None => ret (inl (mkRPC StatusNoContent ResourceRemoved [] NoBody))
                  end
              end
            else
              let! r := lift (errorRPC StatusForbidden InsufficientPrivilege
                          "Insufficient privileges" []) in
              CustomAuthLog (SessionToken req) "Insufficient privileges" StatusForbidden ;;;
              ret (inl r)
          else ret (inr tt)
      end)
     (fun o w' => match o with
                  | Ok (inl r) => delete_session_post w req (Ok r) w'
                  | Ok (inr tt) => ro w w'
                  | Panic => False
                  end) w1.
Proof.
  intros Hro Hcur. wp_call wp_CheckSessionTimeOut; [apply Hro|]. intros o w2 Hp.
  apply (check_post_ro _ _ _ _ _ Hro) in Hp as [Hro2 Hp].
  destruct o as [[e|s]|]; [| |done]; cbn [wp_cont]; [by apply wp_ret|].
  destruct Hp as (Hne & Hs & t & Ht & Hf). destruct (String.eqb (s_ID s) (SessionId req)) eqn:Eid.
  2:{ by apply wp_ret. }
  apply String.eqb_eq in Eid. destruct (checkPrivilege s cur) eqn:Ecp.
  2:{ run_body. wp_go. eapply wp_mono; [apply wp_CustomAuthLog, Hro2|]. intros o w3 [-> Hro3]. wp_go.
      apply delete_not; [done|]. left; left. by eapply ro_trans. }
  assert (Hdel : forall w3, (if String.eqb (SessionToken req) (s_Token s) then ro w w3
      else exists t, (clock (w_env w) <= t <= clock (w_env w3))%Z /\ touched w cur t w3) ->
    (clock (w_env w2) <= clock (w_env w3))%Z -> wf w3 -> (~ healthy w3 -> ~ healthy w) ->
    wp (let! derr := Session_Delete s in
        match derr with
        | Some err =>
            let! r := lift (CreateInternalErrorResponse []
              ("Unable to get all session keys while deleting session: " +:+ errMsg err)) in
            ret (inl r)
        | None => ret (inl (mkRPC StatusNoContent ResourceRemoved [] NoBody))
        end) (fun o w' => match o with
                  | Ok (inl r) => delete_session_post w req (Ok r) w'
                  | Ok (inr tt) => ro w w'
                  | Panic => False
                  end) w3).
  { intros w3 Hw3 Hc3 Hwf3 Hh3. wp_call wp_Session_Delete; [done|].
    intros [[e|]|] w4 Hd; [| |done]; cbn [wp_cont].
    - run_body. wp_go. apply delete_not; [done|]. simpl in Hd.
      assert (Htc : at_most_touched w (SessionToken req) w3).
      { destruct (String.eqb _ _); [by left|]. destruct Hw3 as (t' & _ & Htc). right. by exists cur, t'. }
      destruct Hd as [(_ & Hr4 & _)|(_ & Hn & [Hm|Hm])].
      + left. by eapply at_most_touched_ro.
      + left. by eapply at_most_touched_ro.
      + right. split; [auto|]. by exists token, s, w3.
    - apply wp_ret. left. split; [done|]. destruct Hd as [Hw _]. pose proof (ev_clock _ _ _ Hw).
      exists cur, token, s, w3. split_and!; try done.
      + exists t. split; [lia|done].
      + destruct (String.eqb _ _); [done|]. destruct Hw3 as (t' & ? & Htc). exists t'. split; [lia|done]. }
  destruct (String.eqb (SessionToken req) (s_Token s)) eqn:Etk; cbn [negb].
  { apply wp_bind, wp_ret. cbn [wp_cont]. apply Hdel; [done|lia|apply Hro2|by apply unhealthy_ro]. }
  wp_call wp_UpdateLastUsedTime; [apply Hro2|]. intros [[err|]|] w3 Hu; [| |done]; cbn [wp_cont]; simpl in Hu;
    rewrite ?(session_of_ro _ _ _ Hro2) in Hu.
  - run_body. wp_go. apply delete_not; [done|]. destruct Hu as [[Hr3 _]|[Hn Hm]].
    + left; left. by eapply ro_trans.
    + left. destruct Hm as [Hm|(s' & t' & Hs' & Hm)]; [left; by eapply ro_trans|right].
      exists s', t'. split; [done|]. by eapply touched_ro.
  - destruct Hu as (s' & t' & Hs' & Ht' & Hw). rewrite Hcur in Hs'. injection Hs' as <-.
    pose proof (ev_clock _ _ _ Hw). apply Hdel; [|lia|apply Hw|].
    + exists t'. split; [pose proof (ro_clock _ _ Hro2); lia|]. by eapply touched_ro.
    + intros Hn. eapply unhealthy_ro; [exact Hro2|]. by eapply unhealthy_touched.
Qed.

Lemma wp_DeleteSession req w : wf w ->
  wp (DeleteSession req) (delete_session_post w req) w.
Proof.
  intros Hwf. unfold DeleteSession. wp_call wp_GetSession; [done|].
  intros [[e|cur]|] w1 [Hro Hp]; [| |done]; cbn [wp_cont].
  { run_body. wp_go. apply delete_not; [done|by left; left]. }
  change (session_of w (SessionToken req) = Some cur) in Hp.
  wp_call wp_GetAllSessionKeys; [apply Hro|]. intros [[e|ids]|] w2 [Hro2 Hk]; [| |done]; cbn [wp_cont];
    assert (Hr : ro w w2) by (by eapply ro_trans).
  { run_body. wp_go. apply delete_not; [done|by left; left]. }
  apply wp_bind. eapply (wp_loopM (fun _ _ w' => ro w w')).
  - exact Hr.
  - intros done x [] w3 _ Hro3. eapply wp_mono; [by apply wp_delete_step|].
    intros [[r|[]]|] w4 Hpost; cbn [wp_cont]; [by apply wp_ret|done|done].
  - intros [] w3 Hro3. cbn [wp_cont]. run_body. wp_go. apply delete_not; [done|by left; left].
Qed.

(** ** Reading sessions *)

Lemma wp_invalidTokenRPC tok e pre logMsg w : wf w ->
  wp (invalidTokenRPC tok e pre logMsg)
     (fun o w' => ro w w' /\ exists resp, o = Ok resp /\
        StatusCode resp = (GetAuthStatusCodeAndMessage e).1 /\
        (StatusCode resp = StatusUnauthorized \/ StatusCode resp = StatusServiceUnavailable)) w.
Proof.
  intros Hwf. unfold invalidTokenRPC, GetAuthStatusCodeAndMessage.
  pose proof (ro_refl _ Hwf) as Hrr.
  destruct (ErrNo e); cbn [Z.eqb StatusUnauthorized StatusServiceUnavailable Pos.eqb]; run_body;
    first [wp_call wp_CustomAuthLog; [done|]; intros o w' [-> Hro]; wp_go | wp_go];
    (split; [done|]); eexists; (split; [reflexivity|]); simpl; auto.
Qed.

(** The session table after one session was stored with a new time. *)
Lemma touched_session w s t w1 tok : touched w s t w1 ->
  session_of w1 tok = if decide (tok = s_Token s) then Some (with_LastUsedTime t s) else session_of w tok.
Proof.
  intros Ht. unfold session_of. rewrite (ev_view _ _ _ Ht), upd_eq.
  destruct (decide (tok = s_Token s)) as [->|Hne].
  - apply stored_insert, Session_roundtrip.
  - apply stored_insert_ne. intros E. by apply Hne, session_key_inj.
Qed.
Lemma touched_disk w s t w1 : touched w s t w1 -> view w1 OnDisk = view w OnDisk.
Proof. intros Ht. by rewrite (ev_view _ _ _ Ht), upd_ne. Qed.

Definition session_link (s : AsModel.Session) : string :=
  "/redfish/v1/SessionService/Sessions/" +:+ s_ID s.

Definition lists_sessions w1 cur (ids members : list string) w' : Prop :=
  (forall m, In m members -> exists x s, session_of w1 x = Some s /\ m = session_link s /\
      checkPrivilege s cur = true) /\
  (healthy w1 -> forall x s, In x ids -> x <> "" -> session_of w1 x = Some s ->
      fresh (clock (w_env w')) s -> checkPrivilege s cur = true -> In (session_link s) members).

Definition all_sessions_post w tok (o : outcome asRPC) w' : Prop :=
  at_most_touched w tok w' /\
  match o with
  | Panic => exists s, tok <> "" /\ session_of w tok = Some s /\
      has_privilege s PrivilegeConfigureSelf = false /\ has_privilege s PrivilegeConfigureUsers = false
  | Ok resp =>
      (StatusCode resp = StatusOK /\ exists cur t w1 ids r members,
         session_of w tok = Some cur /\ touched w cur t w1 /\ ro w1 w' /\
         has_privilege cur PrivilegeConfigureSelf || has_privilege cur PrivilegeConfigureUsers = true /\
         table_ids w1 InMemory "session" ids /\ lists_sessions w1 cur ids members w' /\
         RBody resp = Body (ListBody r (Z.of_nat (length members)) members))
      \/ (StatusCode resp <> StatusOK /\
          (healthy w -> typed w -> ro w w' /\ rejected w tok (clock (w_env w'))))
  end.

Lemma wp_list_step cur w1 x members w2 : ro w1 w2 ->
  wp (let! session := CheckSessionTimeOut x in
      match session with
      | inl _ => ret (inr members)
      | inr session =>
          if checkPrivilege session cur then
            ret (inr (members ++ ["/redfish/v1/SessionService/Sessions/" +:+ s_ID session])%list)
          else ret (inr members)
      end)
     (fun (o : outcome (asRPC + list string)) w3 => exists members', o = Ok (inr members') /\ ro w1 w3 /\
        (clock (w_env w2) <= clock (w_env w3))%Z /\
        (members' = members \/ exists s, session_of w1 x = Some s /\ checkPrivilege s cur = true /\
           members' = (members ++ [session_link s])%list) /\
        (healthy w1 -> forall s, x <> "" -> session_of w1 x = Some s -> fresh (clock (w_env w3)) s ->
           checkPrivilege s cur = true -> In (session_link s) members')) w2.
Proof.
  intros Hro. wp_call wp_CheckSessionTimeOut; [apply Hro|]. intros o w3 Hp.
  pose proof (ro_clock _ _ (proj1 Hp)) as Hck.
  apply (check_post_ro _ _ _ _ _ Hro) in Hp as [Hro3 Hp].
  destruct o as [[e|s]|]; [| |done]; cbn [wp_cont].
  - apply wp_ret. exists members. split_and!; [done|done|done|by left|].
    intros Hh s Hne Hs Hf Hc. exfalso. destruct Hp as [Hn|[[?|[?|(s' & Hs' & He)]] _]]; [done..| |].
    + congruence.
    + rewrite Hs in Hs'. injection Hs' as <-. by apply fresh_not_expired in Hf.
  - destruct Hp as (Hne & Hs & _). destruct (checkPrivilege s cur) eqn:Ec; apply wp_ret.
    + exists (members ++ [session_link s])%list. split_and!; [done|done|done| |].
      * right. by exists s.
      * intros _ s' _ Hs' _ _. rewrite Hs in Hs'. injection Hs' as <-. apply in_or_app. right. by left.
    + exists members. split_and!; [done|done|done|by left|].
      intros _ s' _ Hs' _ Hc. rewrite Hs in Hs'. injection Hs' as <-. congruence.
Qed.

Lemma wp_GetAllActiveSessions req w : wf w ->
  wp (GetAllActiveSessions req) (all_sessions_post w (SessionToken req)) w.
Proof.
  intros Hwf. unfold GetAllActiveSessions. wp_call wp_CheckSessionTimeOut; [done|].
  intros [[e|cur]|] w1 [Hro Hp]; [| |done]; cbn [wp_cont].
  { eapply wp_mono; [apply wp_invalidTokenRPC, Hro|]. intros o w2 (Hro2 & resp & -> & _ & Hc).
    split; [left; by eapply ro_trans|]. right. split; [by destruct Hc as [-> | ->]|]. intros Hh _. split; [by eapply ro_trans|].
    destruct Hp as [Hn|[Hj _]]; [done|]. eapply rejected_later; [|exact Hj]. by apply ro_clock. }
  destruct Hp as (Hne & Hs & t & Ht & Hf).
  wp_call wp_UpdateLastUsedTime; [apply Hro|]. intros [[err|]|] w2 Hu; [| |done]; cbn [wp_cont]; simpl in Hu;
    rewrite ?(session_of_ro _ _ _ Hro) in Hu.
  { run_body. wp_go. split.
    { destruct Hu as [[Hr2 _]|[_ [Hr2|(s & t' & Hs2 & Hw)]]]; [left; by eapply ro_trans..|right].
      exists s, t'. split; [done|]. by eapply touched_ro. }
    right. split; [done|]. intros Hh Hty. exfalso.
    destruct Hu as [[_ [Hu|(s & Hu & Hn)]]|[Hn _]].
    - congruence.
    - rewrite Hs in Hu. injection Hu as <-. rewrite (typed_token _ _ _ Hty Hs) in Hn.
      apply stored_Some in Hs. rewrite (ro_view _ _ _ Hro) in Hn. rewrite Hn in Hs. by destruct Hs.
    - apply Hn. by apply Hro. }
  destruct Hu as (s' & t' & Hs' & Ht' & Hw). rewrite Hs in Hs'. injection Hs' as <-.
  apply (touched_ro _ _ _ _ _ Hro) in Hw.
  assert (Hamt : forall w3, ro w2 w3 -> at_most_touched w (SessionToken req) w3).
  { intros w3 Hr3. right. exists cur, t'. split; [done|]. by eapply touched_ro_after. }
  destruct (has_privilege cur PrivilegeConfigureSelf) eqn:E1, (has_privilege cur PrivilegeConfigureUsers) eqn:E2;
    cbn [negb andb].
  4:{ apply wp_panic. split; [apply Hamt, ro_refl, Hw|by exists cur]. }
  all: wp_call wp_GetAllSessionKeys; [apply Hw|]; intros [[e|ids]|] w3 [Hro3 Hk]; [| |done]; cbn [wp_cont];
    [run_body; wp_go; (split; [by apply Hamt|]); right; split; [done|]; intros Hh _; exfalso; by apply Hk, Hw|].
  all: apply wp_bind; eapply (wp_loopM (fun done members w' => ro w2 w' /\
    lists_sessions w2 cur done members w')).
  all: try (split; [exact Hro3|]; split; [by intros ? []|by intros _ ? ? []]).
  all: try (intros members w4 (Hro4 & Hl); cbn [wp_cont]; wp_go; (split; [by apply Hamt|]); left; split; [done|];
    exists cur, t', w2, ids; eexists _, members; split_and!; try done;
    first [by rewrite E1, E2|apply Hl]).
  all: intros pre x members w4 _ (Hro4 & Hl); eapply wp_mono; [by apply (wp_list_step cur w2)|];
    intros o w5 (members' & -> & Hro5 & Hck & Hm & Hc); split; [done|]; split;
    [intros m Hin; destruct Hm as [-> | (s & Hs1 & Hc1 & ->)]; [by apply Hl|];
     apply in_app_or in Hin as [Hin|[<-|[]]]; [by apply Hl|by exists x, s]
    |intros Hh y s Hin Hy Hs1 Hf1 Hc1; apply in_app_or in Hin as [Hin|[<-|[]]]; [|by apply Hc];
     assert (In (session_link s) members) by
       (apply (proj2 Hl Hh y s Hin Hy Hs1); [by eapply fresh_earlier|done]);
     destruct Hm as [-> | (s1 & _ & _ & ->)]; [done|apply in_or_app; by left]].
Qed.
(** Reading one session: what is shown is a session the requester may see, with its token. *)
Definition get_session_post w (req : SessionRequest) (o : outcome asRPC) w' : Prop :=
  at_most_touched w (SessionToken req) w' /\
  match o with
  | Panic => False
  | Ok resp => StatusCode resp = StatusOK ->
      exists cur tok s w1 r, session_of w (SessionToken req) = Some cur /\
        (exists t, touched w cur t w1) /\ session_of w1 tok = Some s /\
        s_ID s = SessionId req /\ checkPrivilege s cur = true /\
        In ("X-Auth-Token", tok) (Header resp) /\ RBody resp = Body (SessionBody r (s_UserName s))
  end.

Lemma not_ok_post w req (resp : asRPC) w' : StatusCode resp <> StatusOK ->
  at_most_touched w (SessionToken req) w' -> get_session_post w req (Ok resp) w'.
Proof. by split. Qed.

Lemma wp_GetSessionRPC req w : wf w -> wp (GetSessionRPC req) (get_session_post w req) w.
Proof.
  intros Hwf. unfold GetSessionRPC. wp_call wp_CheckSessionTimeOut; [done|].
  intros [[e|cur]|] w1 [Hro Hp]; [| |done]; cbn [wp_cont].
  { eapply wp_mono; [apply wp_invalidTokenRPC, Hro|]. intros o w2 (Hro2 & resp & -> & _ & Hc).
    apply not_ok_post; [by destruct Hc as [-> | ->]|left; by eapply ro_trans]. }
  destruct Hp as (Hne & Hs & t & Ht & Hf).
  wp_call wp_UpdateLastUsedTime; [apply Hro|]. intros [[err|]|] w2 Hu; [| |done]; cbn [wp_cont]; simpl in Hu;
    rewrite ?(session_of_ro _ _ _ Hro) in Hu.
  { run_body. wp_go. apply not_ok_post; [done|].
    destruct Hu as [[Hr2 _]|[_ [Hr2|(s & t' & Hs2 & Hw)]]]; [left; by eapply ro_trans..|right].
    exists s, t'. split; [done|]. by eapply touched_ro. }
  destruct Hu as (s' & t' & Hs' & Ht' & Hw). rewrite Hs in Hs'. injection Hs' as <-.
  apply (touched_ro _ _ _ _ _ Hro) in Hw.
  assert (Hamt : forall w3, ro w2 w3 -> at_most_touched w (SessionToken req) w3).
  { intros w3 Hr3. right. exists cur, t'. split; [done|]. by eapply touched_ro_after. }
  wp_call wp_GetAllSessionKeys; [apply Hw|]. intros [[e|ids]|] w3 [Hro3 Hk]; [| |done]; cbn [wp_cont].
  { run_body. wp_go. apply not_ok_post; [done|by apply Hamt]. }
  apply wp_bind. eapply (wp_loopM (fun _ _ w' => ro w2 w')).
  - exact Hro3.
  - intros done x [] w4 _ Hro4. wp_call wp_CheckSessionTimeOut; [apply Hro4|]. intros o w5 Hp5.
    apply (check_post_ro _ _ _ _ _ Hro4) in Hp5 as [Hro5 Hp5].
    destruct o as [[e|s]|]; [| |done]; cbn [wp_cont].
    { wp_call wp_CustomAuthLog; [apply Hro5|]. intros o w6 [-> Hro6]. wp_go. by eapply ro_trans. }
    destruct Hp5 as (_ & Hs5 & _). destruct (String.eqb_spec (s_ID s) (SessionId req)) as [Eid|];
      [|by apply wp_ret]. destruct (checkPrivilege s cur) eqn:Ec.
    + apply wp_ret. cbn [wp_cont]. apply wp_ret. split; [by apply Hamt|]. intros _.
      exists cur, x, s, w2. eexists. split_and!; [exact Hs|by exists t'|exact Hs5|exact Eid|exact Ec| |reflexivity].
      right; by left.
    + run_body. wp_call wp_CustomAuthLog; [apply Hro5|]. intros o w6 [-> Hro6]. wp_go.
      apply not_ok_post; [done|]. apply Hamt. by eapply ro_trans.
  - intros [] w4 Hro4. cbn [wp_cont]. run_body. wp_go. apply not_ok_post; [done|by apply Hamt].
Qed.

Lemma wp_session_field f tok w : wf w ->
  wp (session_field f tok)
     (fun o w' => at_most_touched w tok w' /\
        match o with
        | Ok (inr x) => exists s, session_of w tok = Some s /\ x = f s
        | Ok (inl _) => True
        | Panic => False
        end) w.
Proof.
  intros Hwf. unfold session_field. wp_call wp_CheckSessionTimeOut; [done|].
  intros [[e|cur]|] w1 [Hro Hp]; [| |done]; cbn [wp_cont]; [apply wp_ret; by split; [left|]|].
  destruct Hp as (Hne & Hs & t & Ht & Hf).
  wp_call wp_UpdateLastUsedTime; [apply Hro|]. intros [[err|]|] w2 Hu; [| |done]; cbn [wp_cont]; simpl in Hu;
    rewrite ?(session_of_ro _ _ _ Hro) in Hu; apply wp_ret; split.
  - destruct Hu as [[Hr2 _]|[_ [Hr2|(s & t' & Hs2 & Hw)]]]; [left; by eapply ro_trans..|right].
    exists s, t'. split; [done|]. by eapply touched_ro.
  - done.
  - destruct Hu as (s' & t' & Hs' & Ht' & Hw). right. exists s', t'. split; [done|]. by eapply touched_ro.
  - by exists cur.
Qed.

Lemma wp_GetSessionService req w : wf w ->
  wp (GetSessionService req) (fun o w' => ro w w' /\ exists resp, o = Ok resp) w.
Proof.
  intros Hwf. unfold GetSessionService. run_body. wp_go. split; [by apply ro_refl|by eexists].
Qed.
End sessionspec.
