(* ===== verification/SessionProps.v ===== *)
(** The properties of logging in, logging out and listing sessions. *)
From stdpp Require Import base gmap list strings.
From S2P Require Import Prelude Go Response CaseValidator Redis World ConnPool DBSpec AsModel AsSpec Auth Session AuthProps ResponseProps CaseProps SessionSpec Scenario.
Open Scope string_scope.

Section properties.
Context `{EnvLaws, Libs, SingleNode}.
Implicit Types (w : World) (s : AsModel.Session).

(** C5: a login never panics, and whatever commands fail it answers 201 only when the body
    decodes, the account it names exists with the hash of the password given, and the account's
    role exists and grants Login; the token of the answer is then the key of a new session that
    has the account's name, its role and exactly the role's privileges, and the on-disk database
    is as before. *)
Theorem CreateNewSession_sound w body resp id w' :
  wf w -> CreateNewSession body w = (Ok (resp, id), w') -> StatusCode resp = StatusCreated ->
  exists c u role tok s,
    Unmarshal CreateSession_type body zeroCreateSession = (c, None) /\
    user_of w (cs_UserName c) = Some u /\ u_Password u = hashPassword (cs_Password c) /\
    role_of w (u_RoleID u) = Some role /\
    In PrivilegeLogin (items (r_AssignedPrivileges role)) /\
    In ("X-Auth-Token", tok) (Header resp) /\ s_Token s = tok /\ s_ID s = id /\
    s_UserName s = u_UserName u /\ s_RoleID s = u_RoleID u /\
    (forall p, has_privilege s p = true <-> In p (items (r_AssignedPrivileges role))) /\
    view w' InMemory = <[session_key tok := Text (marshal_Session s)]> (view w InMemory) /\
    view w' OnDisk = view w OnDisk.
Proof.
  intros Hwf E Hc. pose proof (wp_run _ _ _ _ _ (wp_CreateNewSession body w Hwf) E) as Hp.
  destruct Hp as [[_ Hp]|[Hn _]]; [|done].
  destruct Hp as (c & u & role & tok & t & Hu & _ & Huo & Hpw & Hr & Hl & Hh%login_headers_token & _ & _ & _ & Hw).
  exists c, u, role, tok, (new_session id tok u role t).
  rewrite !(ev_view _ _ _ Hw), upd_eq, upd_ne by done.
  split_and!; try done. intros p. apply new_session_privilege.
Qed.

(** In a healthy process a login is refused, and then stores nothing, only for one of these
    reasons: the body does not decode or has a property in the wrong case, a name or password is
    empty, no account has them together with a role that grants Login, or the generated token is
    in use. *)
Lemma CreateNewSession_complete w body :
  wf w -> healthy w ->
  exists resp id w', CreateNewSession body w = (Ok (resp, id), w') /\ healthy w' /\
    (StatusCode resp = StatusCreated \/ (ro w w' /\ login_reason w body)).
Proof.
  intros Hwf Hh. destruct (wp_elim _ _ _ (wp_CreateNewSession body w Hwf)) as ([[resp id]|] & w' & E & Hp);
    [|done]. exists resp, id, w'. split; [done|].
  destruct Hp as [[Hc Hp]|(_ & _ & [[Hr Hl]|[Hn _]])]; [| |done].
  - destruct Hp as (c & u & role & tok & t & Hp). split; [|by left].
    by apply Hp.
  - split; [by apply Hr|]. by right.
Qed.

(** C6: in a healthy process the token of a login that succeeded is authorised for every
    non-empty list of privileges of the account's role, until the session times out. *)
Theorem login_then_authorized w body resp id w1 :
  wf w -> healthy w -> typed w ->
  CreateNewSession body w = (Ok (resp, id), w1) -> StatusCode resp = StatusCreated ->
  exists c u tok role s, Unmarshal CreateSession_type body zeroCreateSession = (c, None) /\
    user_of w (cs_UserName c) = Some u /\ role_of w (u_RoleID u) = Some role /\
    In ("X-Auth-Token", tok) (Header resp) /\ session_of w1 tok = Some s /\
    forall ps, ps <> [] -> (forall p, In p ps -> In p (items (r_AssignedPrivileges role))) ->
      exists code msg w2, Auth tok ps w1 = (Ok (code, msg), w2) /\
        (code = StatusOK \/ (code = StatusUnauthorized /\ expired (clock (w_env w2)) s)).
Proof.
  intros Hwf Hh Hty E Hc. pose proof (wp_run _ _ _ _ _ (wp_CreateNewSession body w Hwf) E) as Hp.
  destruct Hp as [[_ Hp]|[Hn _]]; [|done].
  destruct Hp as (c & u & role & tok & t & Hu & _ & Huo & Hpw & Hr & Hl & Hhd%login_headers_token & Hne & _ & _ & Hw).
  set (s := new_session id tok u role t). exists c, u, tok, role, s.
  assert (Hs : session_of w1 tok = Some s).
  { unfold session_of. rewrite (ev_view _ _ _ Hw), upd_eq. apply stored_insert, Session_roundtrip. }
  split_and!; [done..|]. intros ps Hps Hin.
  assert (Hwf1 : wf w1) by apply Hw.
  destruct (wp_elim _ _ _ (wp_Auth tok ps w1 Hwf1)) as ([[code msg]|] & w2 & E2 & Hp); [|done].
  exists code, msg, w2. split; [done|].
  destruct Hp as [(s' & t1 & t' & _ & _ & Hs' & _ & _ & _ & _ & Hcm)|[(Hcm & Hro & Hj)|[(s' & Hs' & Hn & _)|(Hn & _)]]].
  - left. rewrite Hs in Hs'. injection Hs' as <-. rewrite (proj2 (forallb_forall _ _)) in Hcm; [congruence|].
    intros p Hp. apply new_session_privilege. auto.
  - right. split; [congruence|]. destruct Hj as [?|[?|[?|(s' & Hs' & He)]]]; [done|done|congruence|].
    rewrite Hs in Hs'. by injection Hs' as <-.
  - exfalso. rewrite Hs in Hs'. injection Hs' as <-. apply stored_Some in Hs. cbn [s s_Token new_session] in Hn.
    rewrite Hn in Hs. by destruct Hs.
  - destruct Hn. by apply Hw.
Qed.

(** C7: a logout never panics, and whatever commands fail it answers 204 only when the requester's
    token names a stored session, the session deleted has the requested id and had not timed
    out, and the requester owns it and holds ConfigureSelf, or holds ConfigureUsers; that session is
    then gone, nothing is stored but the requester's own session, and no other session is lost. *)
Theorem DeleteSession_sound w req resp w' :
  wf w -> DeleteSession req w = (Ok resp, w') -> StatusCode resp = StatusNoContent ->
  exists cur tok s, session_of w (SessionToken req) = Some cur /\ session_of w tok = Some s /\
    s_ID s = SessionId req /\ (exists t, fresh t s /\ (clock (w_env w) <= t)%Z) /\
    ((s_UserName s = s_UserName cur /\ has_privilege cur PrivilegeConfigureSelf = true) \/
     has_privilege cur PrivilegeConfigureUsers = true) /\
    view w' OnDisk = view w OnDisk /\
    view w' InMemory !! session_key (s_Token s) = None /\
    forall k, k <> session_key (s_Token s) -> k <> session_key (s_Token cur) ->
      view w' InMemory !! k = view w InMemory !! k.
Proof.
  intros Hwf E Hc. pose proof (wp_run _ _ _ _ _ (wp_DeleteSession req w Hwf) E) as Hp.
  destruct Hp as [[_ Hp]|[Hn _]]; [|done].
  destruct Hp as (cur & tok & s & w1 & Hcur & _ & Hs & (t & Ht & Hf) & Hid & Hcp & Hw1 & Hw).
  exists cur, tok, s. split_and!; [done..| | | | |].
  - exists t. split; [done|lia].
  - unfold checkPrivilege in Hcp. apply orb_true_iff in Hcp as [Hcp|Hcp]; [left|by right].
    apply andb_true_iff in Hcp as [Hn Hcp]. by apply String.eqb_eq in Hn.
  - rewrite (ev_view _ _ _ Hw), upd_ne by done.
    destruct (String.eqb _ _); [by rewrite (ro_view _ _ _ Hw1)|]. destruct Hw1 as (t' & _ & Hw1).
    by eapply touched_disk.
  - by rewrite (ev_view _ _ _ Hw), upd_eq, lookup_delete_eq.
  - intros k Hk1 Hk2. rewrite (ev_view _ _ _ Hw), upd_eq, lookup_delete_ne by done.
    destruct (String.eqb _ _); [by rewrite (ro_view _ _ _ Hw1)|]. destruct Hw1 as (t' & _ & Hw1).
    by rewrite (ev_view _ _ _ Hw1), upd_eq, lookup_insert_ne.
Qed.

(** after a logout that answered 204 in a healthy process the token of the session deleted is
    refused with 401, whatever privileges are asked for. *)
Theorem logout_revokes_token w req resp w' tok s ps :
  wf w -> healthy w -> typed w ->
  DeleteSession req w = (Ok resp, w') -> StatusCode resp = StatusNoContent ->
  session_of w tok = Some s -> s_ID s = SessionId req ->
  (forall x y, session_of w x = Some y -> s_ID y = s_ID s -> x = tok) ->
  exists w2, Auth tok ps w' = (Ok (StatusUnauthorized, NoValidSession), w2).
Proof.
  intros Hwf Hh Hty E Hc Hs Hid Huniq.
  pose proof (wp_run _ _ _ _ _ (wp_DeleteSession req w Hwf) E) as Hp.
  destruct Hp as [[_ Hp]|[Hn _]]; [|done].
  destruct Hp as (cur & x & y & w1 & Hcur & _ & Hy & _ & Hidy & _ & Hw1 & Hw).
  assert (x = tok) as -> by (apply (Huniq x y); congruence). rewrite Hs in Hy. injection Hy as <-.
  rewrite (typed_token _ _ _ Hty Hs) in Hw.
  assert (Hgone : session_of w' tok = None).
  { unfold session_of, stored. by rewrite (ev_view _ _ _ Hw), upd_eq, lookup_delete_eq. }
  assert (Hh1 : healthy w1).
  { destruct (String.eqb _ _); [by apply Hw1|]. destruct Hw1 as (t' & _ & Hw1). by apply Hw1. }
  assert (Hwf' : wf w') by apply Hw.
  destruct (wp_elim _ _ _ (wp_Auth tok ps w' Hwf')) as ([[code msg]|] & w2 & E2 & Hp); [|done].
  exists w2. rewrite E2. repeat f_equal.
  all: destruct Hp as [(s' & t1 & t' & _ & _ & Hs' & _)|[([= -> ->] & _)|[(s' & Hs' & _)|(Hn & _)]]];
    [congruence|done|congruence|destruct Hn; by apply Hw].
Qed.

(** listing the sessions panics only for a session that holds neither ConfigureSelf nor
    ConfigureUsers, and in a healthy process it does for every such session that has not timed
    out: the refusal dereferences a nil error. *)
Lemma GetAllActiveSessions_panics w req :
  wf w ->
  ((GetAllActiveSessions req w).1 = Panic ->
     exists s, session_of w (SessionToken req) = Some s /\
       has_privilege s PrivilegeConfigureSelf = false /\ has_privilege s PrivilegeConfigureUsers = false) /\
  (healthy w -> typed w -> SessionToken req <> "" ->
   forall s, session_of w (SessionToken req) = Some s ->
     has_privilege s PrivilegeConfigureSelf = false -> has_privilege s PrivilegeConfigureUsers = false ->
     (GetAllActiveSessions req w).1 = Panic \/
     expired (clock (w_env (GetAllActiveSessions req w).2)) s).
Proof.
  intros Hwf. destruct (wp_elim _ _ _ (wp_GetAllActiveSessions req w Hwf)) as (o & w' & E & Hp).
  rewrite E. cbn [fst snd]. split.
  - intros ->. destruct Hp as (_ & s & _ & Hp). by exists s.
  - intros Hh Hty Hne s Hs H1' H2'. destruct o as [resp|]; [|by left]. right.
    destruct Hp as (_ & [(_ & Hp)|(_ & Hp)]).
    + exfalso. destruct Hp as (cur & t & w1 & ids & r & ms & Hcur & _ & _ & Hpr & _).
      rewrite Hs in Hcur. injection Hcur as <-. by rewrite H1', H2' in Hpr.
    + destruct (Hp Hh Hty) as [_ [?|[?|(s' & Hs' & He)]]]; [done|congruence|].
      rewrite Hs in Hs'. by injection Hs' as <-.
Qed.

(** a listing that succeeds shows only sessions the requester owns, holding ConfigureSelf, or
    all of them when it holds ConfigureUsers, whatever commands fail; in a healthy process it
    shows every such session, other than its own, that has not timed out when it ends. *)
Theorem GetAllActiveSessions_lists_visible w req resp w' :
  wf w -> typed w -> GetAllActiveSessions req w = (Ok resp, w') -> StatusCode resp = StatusOK ->
  exists cur r members, session_of w (SessionToken req) = Some cur /\
    RBody resp = Body (ListBody r (Z.of_nat (length members)) members) /\
    (forall m, In m members -> exists tok s, session_of w tok = Some s /\ m = session_link s /\
       checkPrivilege s cur = true) /\
    (healthy w -> forall tok s, tok <> "" -> tok <> SessionToken req -> session_of w tok = Some s ->
       fresh (clock (w_env w')) s -> checkPrivilege s cur = true -> In (session_link s) members).
Proof.
  intros Hwf Hty E Hc. pose proof (wp_run _ _ _ _ _ (wp_GetAllActiveSessions req w Hwf) E) as Hp.
  destruct Hp as (_ & [(_ & Hp)|(Hn & _)]); [|done].
  destruct Hp as (cur & t & w1 & ids & r & ms & Hcur & Hw1 & Hro & _ & [_ Hids] & [Hl1 Hl2] & Hb).
  pose proof (typed_token _ _ _ Hty Hcur) as Htok.
  exists cur, r, ms. split_and!; [done|done| |].
  - intros m Hm. destruct (Hl1 m Hm) as (x & s & Hs & Hlink & Hcp).
    rewrite (touched_session _ _ _ _ _ Hw1) in Hs. destruct (decide _) as [->|Hne].
    + injection Hs as <-. exists (SessionToken req), cur. split_and!; [done|done|done].
    + by exists x, s.
  - intros Hh tok s Hne Hne2 Hs Hf Hcp. apply (Hl2 (ev_healthy _ _ _ Hw1 Hh) tok s); try done.
    + apply list_elem_of_In, Hids. rewrite (ev_view _ _ _ Hw1), upd_eq, lookup_insert_ne.
      * by eapply stored_Some.
      * rewrite Htok. intros Heq. by apply session_key_inj in Heq.
    + rewrite (touched_session _ _ _ _ _ Hw1), decide_False; [done|]. congruence.
Qed.
End properties.

(** ** The properties at concrete inputs *)

Section witnesses.
#[local] Existing Instances single single_node.

Definition login_body (name pw : string) : jtext :=
  Text (JObj [("UserName", JStr name); ("Password", JStr pw)]).

Definition status_of {A} (o : outcome (RPC A)) : Z :=
  match o with Ok r => StatusCode r | Panic => 0 end.
Definition status_of_login {A B} (o : outcome (RPC A * B)) : Z :=
  match o with Ok (r, _) => StatusCode r | Panic => 0 end.

Lemma alice_logs_in :
  status_of_login (CreateNewSession (login_body "alice" "secret") (service minute [])).1 = StatusCreated.
Proof. vm_compute. reflexivity. Qed.

Lemma CreateNewSession_sound_witness :
  exists s, s_UserName s = "alice" /\ has_privilege s PrivilegeLogin = true.
Proof.
  pose proof alice_logs_in as E1.
  destruct (CreateNewSession (login_body "alice" "secret") (service minute [])) as [[[resp id]|] w'] eqn:E;
    cbn [fst status_of_login] in E1; [|discriminate E1].
  destruct (CreateNewSession_sound _ _ resp id w' (service_wf _ _) E E1)
    as (c & u & role & tok & s & Hc & Hu & _ & _ & Hl & _ & _ & _ & Hn & _ & Hp & _).
  exists s. split; [|by apply Hp]. rewrite Hn.
  assert (cs_UserName c = "alice") as Hcn by (injection Hc as <-; reflexivity).
  rewrite Hcn in Hu. exact (typed_user _ _ _ (service_typed _ _) Hu).
Defined.

Lemma CreateNewSession_complete_witness :
  exists resp id w', CreateNewSession (login_body "alice" "wrong") (service minute [])
                     = (Ok (resp, id), w') /\ healthy w'.
Proof.
  destruct (CreateNewSession_complete (service minute []) (login_body "alice" "wrong"))
    as (resp & id & w' & E & Hh & _); [apply service_wf|apply service_healthy|].
  exists resp, id, w'. split; [exact E|exact Hh].
Defined.

Lemma the_login c : Unmarshal CreateSession_type (login_body "alice" "secret") zeroCreateSession = (c, None) ->
  forall u role, user_of (service minute []) (cs_UserName c) = Some u ->
    role_of (service minute []) (u_RoleID u) = Some role -> role = client_role.
Proof.
  intros Hc u role Hu Hr. injection Hc as <-.
  assert (Hu' : user_of (service minute []) "alice" = Some alice_user) by (vm_compute; reflexivity).
  cbn [cs_UserName] in Hu. rewrite Hu in Hu'. injection Hu' as ->.
  assert (Hr' : role_of (service minute []) "ReadOnly" = Some client_role) by (vm_compute; reflexivity).
  cbn [u_RoleID alice_user] in Hr. congruence.
Qed.

Lemma login_then_authorized_witness :
  exists tok code msg w1 w2, Auth tok [PrivilegeLogin] w1 = (Ok (code, msg), w2) /\
    (code = StatusOK \/ code = StatusUnauthorized).
Proof.
  pose proof alice_logs_in as E1.
  destruct (CreateNewSession (login_body "alice" "secret") (service minute [])) as [[[resp id]|] w1] eqn:E;
    cbn [fst status_of_login] in E1; [|discriminate E1].
  destruct (login_then_authorized _ _ resp id w1 (service_wf _ _) (service_healthy _) (service_typed _ _) E E1)
    as (c & u & tok & role & s & Hc & Hu & Hr & _ & _ & Ha).
  rewrite (the_login c Hc u role Hu Hr) in Ha.
  destruct (Ha [PrivilegeLogin]) as (code & msg & w2 & E2 & Hcm);
    [discriminate|intros p [<-|[]]; by left|].
  exists tok, code, msg, w1, w2. split; [exact E2|]. destruct Hcm as [?|[? _]]; [left|right]; assumption.
Defined.

Definition req (sid tok : string) : SessionRequest := {| SessionId := sid; SessionToken := tok |}.

Lemma admin_logs_alice_out :
  status_of (DeleteSession (req "id-alice" "tok-admin") (service minute [])).1 = StatusNoContent.
Proof. vm_compute. reflexivity. Qed.
Lemma alice_session_stored : session_of (service minute []) "tok-alice" = Some alice_session.
Proof. vm_compute. reflexivity. Qed.

Lemma DeleteSession_sound_witness :
  exists s, s_ID s = "id-alice" /\
    view (DeleteSession (req "id-alice" "tok-admin") (service minute [])).2 InMemory
      !! session_key (s_Token s) = None.
Proof.
  pose proof admin_logs_alice_out as E1.
  destruct (DeleteSession (req "id-alice" "tok-admin") (service minute [])) as [[resp|] w'] eqn:E;
    cbn [fst status_of] in E1; [|discriminate E1].
  destruct (DeleteSession_sound _ _ resp w' (service_wf _ _) E E1)
    as (cur & tok & s & _ & _ & Hid & _ & _ & _ & Hk & _).
  exists s. split; [exact Hid|exact Hk].
Defined.

Lemma logout_revokes_token_witness :
  exists w2, Auth "tok-alice" [PrivilegeLogin]
               (DeleteSession (req "id-alice" "tok-admin") (service minute [])).2
             = (Ok (StatusUnauthorized, NoValidSession), w2).
Proof.
  pose proof admin_logs_alice_out as E1.
  destruct (DeleteSession (req "id-alice" "tok-admin") (service minute [])) as [[resp|] w'] eqn:E;
    cbn [fst status_of] in E1; [|discriminate E1].
  apply (logout_revokes_token _ _ resp w' "tok-alice" alice_session [PrivilegeLogin]
    (service_wf _ _) (service_healthy _) (service_typed _ _) E E1 alice_session_stored eq_refl).
  intros x y Hxy Hid. pose proof (stored_Some _ _ _ _ _ Hxy) as Hk.
  change (view (service minute []) InMemory) with the_sessions in Hk.
  unfold the_sessions, put_session in Hk.
  assert (Hcase : forall s (m : gmap string jtext), is_Some (<[session_key (s_Token s) := Text (marshal_Session s)]> m !! session_key x) ->
    x = s_Token s \/ is_Some (m !! session_key x)).
  { intros s m Hs. destruct (decide (x = s_Token s)) as [->|Hne]; [by left|right].
    rewrite lookup_insert_ne in Hs; [exact Hs|]. intros Heq. apply Hne. by apply session_key_inj in Heq. }
  assert (Hadm : session_of (service minute []) "tok-admin" = Some admin_session) by (vm_compute; reflexivity).
  assert (Hlog : session_of (service minute []) "tok-login" = Some login_session) by (vm_compute; reflexivity).
  apply Hcase in Hk as [->|Hk]; [pose proof (eq_trans (eq_sym Hxy) Hadm) as Hy; injection Hy as ->; discriminate Hid|].
  apply Hcase in Hk as [->|Hk]; [reflexivity|].
  apply Hcase in Hk as [->|[v Hv]]; [pose proof (eq_trans (eq_sym Hxy) Hlog) as Hy; injection Hy as ->; discriminate Hid|].
  rewrite lookup_empty in Hv. discriminate Hv.
Defined.

Lemma GetAllActiveSessions_panics_witness :
  exists s, session_of (service minute []) "tok-login" = Some s /\
    has_privilege s PrivilegeConfigureUsers = false.
Proof.
  destruct (GetAllActiveSessions_panics (service minute []) (req "" "tok-login") (service_wf _ _)) as [Hp _].
  destruct Hp as (s & Hs & _ & Hu); [vm_compute; reflexivity|].
  exists s. split; [exact Hs|exact Hu].
Defined.

Lemma GetAllActiveSessions_lists_visible_witness :
  exists cur r members resp, (GetAllActiveSessions (req "" "tok-admin") (service minute [])).1 = Ok resp /\
    session_of (service minute []) "tok-admin" = Some cur /\
    RBody resp = Body (ListBody r (Z.of_nat (length members)) members).
Proof.
  assert (E1 : status_of (GetAllActiveSessions (req "" "tok-admin") (service minute [])).1 = StatusOK)
    by (vm_compute; reflexivity).
  destruct (GetAllActiveSessions (req "" "tok-admin") (service minute [])) as [[resp|] w'] eqn:E;
    cbn [fst status_of] in E1; [|discriminate E1].
  destruct (GetAllActiveSessions_lists_visible _ _ resp w' (service_wf _ _) (service_typed _ _) E E1)
    as (cur & r & members & Hcur & Hb & _).
  exists cur, r, members, resp. split; [reflexivity|]. split; [exact Hcur|exact Hb].
Defined.

(** The administrator's session timed out ten minutes ago, alice's is in use. *)
Definition late_service : World :=
  sim_world (put_session (with_LastUsedTime (39 * minute) alice_session) the_sessions) the_accounts
    (40 * minute) [].

(** a logout revives an expired session: the requester's token is looked up without the
    time-out check, so a token that is refused with 401 still deletes another session, and it
    is accepted again afterwards, its last-used time having been set. *)
Lemma DeleteSession_revives_expired :
  (Auth "tok-admin" [PrivilegeConfigureUsers] late_service).1 = Ok (StatusUnauthorized, NoValidSession) /\
  status_of (DeleteSession (req "id-alice" "tok-admin") late_service).1 = StatusNoContent /\
  (Auth "tok-admin" [PrivilegeConfigureUsers]
     (DeleteSession (req "id-alice" "tok-admin") late_service).2).1 = Ok (StatusOK, Success).
Proof. vm_compute. auto. Qed.
End witnesses.
