(* ===== verification/AccountProps.v ===== *)
(** The account operations: what each does in any process, and the properties of passwords,
    privileges and stored accounts. *)
From stdpp Require Import base gmap list strings.
From Stdlib Require Import Ascii.
From S2P Require Import Prelude Go Response CaseValidator Redis World ConnPool DBSpec AsModel AsSpec Auth Session Account AuthProps ResponseProps CaseProps SessionSpec SessionProps Scenario.
Open Scope string_scope.

(** ** Passwords *)

Lemma string_exists_ext f g s : (forall c, f c = g c) -> string_exists f s = string_exists g s.
Proof. intros Hfg. induction s as [|c s IH]; [done|]. simpl. by rewrite Hfg, IH. Qed.

Lemma in_range lo hi c : in_class [(lo, hi)] c
  = (nat_of_ascii lo <=? nat_of_ascii c)%nat && (nat_of_ascii c <=? nat_of_ascii hi)%nat.
Proof. unfold in_class. simpl. by rewrite orb_false_r. Qed.

Section password.
Context `{Libs, Config}.

Lemma Match_upper p : Match "A-Z" p = string_exists is_upper p.
Proof. apply string_exists_ext. intros c. apply in_range. Qed.
Lemma Match_lower p : Match "a-z" p = string_exists is_lower p.
Proof. apply string_exists_ext. intros c. apply in_range. Qed.
Lemma Match_digit p : Match "0-9" p = string_exists is_digit p.
Proof. apply string_exists_ext. intros c. apply in_range. Qed.

(** a password is accepted exactly when it does not contain the user name, in whatever case,
    its length is within the configured bounds, and it has an upper-case letter, a lower-case
    letter, a digit and a character that the configured class of special characters matches. *)
Lemma validatePassword_spec userName password :
  let rules := AuthPasswordRules (ConfAuth Data) in
  validatePassword userName password = None <->
    Contains (ToLower password) (ToLower userName) = false /\
    (MinPasswordLength rules <= Z.of_nat (String.length password) <= MaxPasswordLength rules)%Z /\
    string_exists is_upper password = true /\ string_exists is_lower password = true /\
    string_exists is_digit password = true /\
    Match (AllowedSpecialCharcters rules) password = true.
Proof.
  intros rules. unfold validatePassword. fold rules. rewrite Match_upper, Match_lower, Match_digit.
  destruct (Contains _ _); [by split; [|intros [? _]]|].
  destruct (Z.ltb_spec (Z.of_nat (String.length password)) (MinPasswordLength rules));
    [split; [done|intros (_ & ? & _); lia]|].
  destruct (Z.ltb_spec (MaxPasswordLength rules) (Z.of_nat (String.length password)));
    [split; [done|intros (_ & ? & _); lia]|].
  destruct (string_exists is_upper _), (string_exists is_lower _), (string_exists is_digit _),
    (Match _ _); simpl; split; (done || (by intros (? & ? & ? & ? & ? & ?)) || (intros _; by split_and!)).
Qed.
End password.

(** The special characters of the default configuration, without the dash. *)
Definition default_specials : string := "~!@#$%^&*-+_|(){}:;<>,.?/".
Definition matched_specials : string := "~!@#$%^&*+_|(){}:;<>,.?/".

(** with the default configuration the special characters are those listed except the dash: in
    the class ["...*-+..."] it is read as a range, so a password whose only special character is a
    dash is refused. *)
Lemma default_specials_exclude_dash `{Libs} (c : Config) password :
  AllowedSpecialCharcters (AuthPasswordRules (ConfAuth (@Data c))) = default_specials ->
  (Match (AllowedSpecialCharcters (AuthPasswordRules (ConfAuth Data))) password
   = string_exists (fun c => string_exists (Ascii.eqb c) matched_specials) password) /\
  (string_forall (fun c => is_upper c || is_lower c || is_digit c || Ascii.eqb c "-") password = true ->
   forall userName, validatePassword userName password <> None).
Proof.
  intros Hd. rewrite Hd.
  assert (Hm : Match default_specials password
    = string_exists (fun c => string_exists (Ascii.eqb c) matched_specials) password).
  { unfold Match. change (plain_class default_specials) with true. cbv iota.
    apply string_exists_ext. intros [[] [] [] [] [] [] [] []]; reflexivity. }
  split; [exact Hm|]. intros Hall userName Hv. unfold validatePassword in Hv. rewrite Hd, Hm in Hv.
  assert (Hno : string_exists (fun c => string_exists (Ascii.eqb c) matched_specials) password = false).
  { clear -Hall. induction password as [|a s IH]; [done|]. simpl in Hall.
    apply andb_true_iff in Hall as [Ha Hs]. cbn [string_exists]. rewrite (IH Hs), orb_false_r.
    revert Ha. destruct a as [[] [] [] [] [] [] [] []]; vm_compute; congruence. }
  rewrite Hno in Hv. by repeat case_match.
Qed.

(** ** What the operations do *)

Section accountspec.
Context `{EnvLaws, Libs, SingleNode}.
Implicit Types (w : World) (session : AsModel.Session).

Lemma wp_forbidden session em w : wf w ->
  wp (forbidden session em)
     (fun o w' => ro w w' /\ exists resp, o = Ok resp /\ StatusCode resp = StatusForbidden) w.
Proof.
  intros Hwf. unfold forbidden. run_body. wp_call wp_CustomAuthLog; [done|].
  intros o w' [-> Hro]. wp_go. split; [done|]. by eexists.
Qed.

(** *** Create *)

Definition new_user (a : Account) : User :=
  {| u_UserName := a_UserName a; u_Password := hashPassword (a_Password a);
     u_RoleID := a_RoleID a; u_AccountTypes := Some ["Redfish"] |}.

(** A request that may create the account [a]. *)
Definition may_create w session (a : Account) : Prop :=
  has_privilege session PrivilegeConfigureUsers = true /\
  a_UserName a <> "" /\ a_Password a <> "" /\ a_RoleID a <> "" /\
  is_Some (role_of w (a_RoleID a)) /\ validatePassword (a_UserName a) (a_Password a) = None.

Definition put_new w (a : Account) := insert (M := gmap string jtext)
  (user_key (a_UserName a)) (Text (marshal_User (new_user a))).

Definition create_account_post w (req : CreateAccountRequest) session
    (o : outcome (asRPC * bool)) w' : Prop :=
  match o with
  | Panic => False
  | Ok (resp, err) =>
      let body := car_RequestBody req in
      (StatusCode resp = StatusCreated /\ err = false /\
       exists a, Unmarshal Account_type body zeroAccount = (a, None) /\ may_create w session a /\
         (absent w OnDisk (user_key (a_UserName a)) \/ ~ healthy w) /\
         written w OnDisk (put_new w a) w')
      \/ (StatusCode resp <> StatusCreated /\ err = true /\
         ((ro w w' /\ (healthy w ->
             forall a, Unmarshal Account_type body zeroAccount = (a, None) ->
               reported (marshal_Account a) (unmarshal_map body).*1 = "" ->
               may_create w session a -> ~ absent w OnDisk (user_key (a_UserName a))))
          \/ (~ healthy w /\ exists a, Unmarshal Account_type body zeroAccount = (a, None) /\
                may_create w session a /\ maybe_written w OnDisk (put_new w a) w')))
  end.

Lemma validateRequest_empty u :
  validateRequest u = "" <-> u_UserName u <> "" /\ u_Password u <> "" /\ u_RoleID u <> "".
Proof.
  unfold validateRequest.
  destruct (String.eqb_spec (u_UserName u) ""), (String.eqb_spec (u_Password u) ""),
    (String.eqb_spec (u_RoleID u) ""); simpl; split; (done || naive_solver).
Qed.

Lemma create_refused w req session (resp : asRPC) w' :
  StatusCode resp <> StatusCreated -> ro w w' ->
  (forall a, Unmarshal Account_type (car_RequestBody req) zeroAccount = (a, None) ->
     reported (marshal_Account a) (unmarshal_map (car_RequestBody req)).*1 = "" ->
     healthy w -> may_create w session a -> ~ absent w OnDisk (user_key (a_UserName a))) ->
  create_account_post w req session (Ok (resp, true)) w'.
Proof. intros Hc Hr Hn. right. split_and!; [done|done|]. left. split; [done|]. intros; auto. Qed.

Lemma wp_Create_account req session w : wf w ->
  wp (Account.Create req session) (create_account_post w req session) w.
Proof.
  intros Hwf. unfold Account.Create. pose proof (ro_refl _ Hwf) as Hrr.
  destruct (Unmarshal Account_type (car_RequestBody req) zeroAccount) as [a [err|]] eqn:Eu.
  { run_body. wp_go. apply create_refused; [done|done|]. intros a'. congruence. }
  rewrite (Account_validator _ _ Eu). apply wp_bind, wp_lift. cbn [wp_cont].
  assert (Hre : forall (resp : asRPC) w', StatusCode resp <> StatusCreated -> ro w w' ->
    (reported (marshal_Account a) (unmarshal_map (car_RequestBody req)).*1 = "" ->
     healthy w -> may_create w session a -> ~ absent w OnDisk (user_key (a_UserName a))) ->
    create_account_post w req session (Ok (resp, true)) w').
  { intros resp w' Hc Hr Hn. apply create_refused; [done|done|]. intros a' Ea. rewrite Eu in Ea.
    by injection Ea as <-. }
  destruct (String.eqb (reported _ _) "") eqn:Er; cbn [negb].
  2:{ apply String.eqb_neq in Er. run_body. wp_go. by apply Hre. }
  destruct (has_privilege session PrivilegeConfigureUsers) eqn:Ep; cbn [negb].
  2:{ wp_call wp_forbidden; [done|]. intros o w1 (Hro & resp & -> & Hc). wp_go.
      apply Hre; [by rewrite Hc|done|]. intros _ _ (? & _). congruence. }
  destruct (String.eqb (validateRequest _) "") eqn:Ev; cbn [negb].
  2:{ apply String.eqb_neq in Ev. run_body. wp_go. apply Hre; [done|done|].
      intros _ _ (_ & ? & ? & ? & _). destruct Ev. by apply validateRequest_empty. }
  apply String.eqb_eq, validateRequest_empty in Ev as (En & Epw & Erl). cbn in En, Epw, Erl.
  cbn [u_RoleID u_UserName u_Password].
  wp_call wp_GetRoleDetailsByID; [done|]. intros [[e|r]|] w1 [Hro Hp]; [| |done]; cbn [wp_cont].
  { run_body. wp_go. apply Hre; [done|done|]. intros _ Hh (_ & _ & _ & _ & [r Hr] & _).
    destruct Hp as [[_ Hp]|[(_ & _ & Hp)|[_ Hp]]]; [|unfold role_of in Hr; congruence|done].
    apply stored_Some in Hr. rewrite Hp in Hr. by destruct Hr. }
  change (role_of w (a_RoleID a) = Some r) in Hp.
  destruct (validatePassword _ _) as [em|] eqn:Evp.
  { run_body. wp_go. apply Hre; [done|done|]. intros _ _ (_ & _ & _ & _ & _ & ?). congruence. }
  assert (Hmay : may_create w session a) by (split_and!; try done; by eexists).
  wp_call wp_CreateUser; [apply Hro|]. intros o w2 Hcr. apply (create_post_ro _ _ _ _ _ _ _ Hro) in Hcr.
  destruct o as [[e|]|]; [| |done]; cbn [wp_cont].
  - assert (Hend : forall resp : asRPC, StatusCode resp <> StatusCreated ->
      create_account_post w req session (Ok (resp, true)) w2).
    { intros resp Hc. destruct Hcr as [(_ & Hr & Ha)|(_ & Hn & Hm)]; [by apply Hre|].
      right. split_and!; [done|done|right]. split; [done|]. exists a. by split_and!. }
    destruct (decide _); run_body; wp_go; by apply Hend.
  - run_body. wp_go. left. split_and!; [done|done|]. destruct Hcr as [Hw Ha].
    exists a. by split_and!.
Qed.

(** *** Update *)

Definition predefined_role (id : string) : Prop := id = RoleAdmin \/ id = RoleMonitor \/ id = RoleClient.

(** A request that may update the account [u]; the record stored is [updated u a]. *)
Definition may_update w (id : string) session (u : User) (a : Account) : Prop :=
  a_UserName a = "" /\ user_of w id = Some u /\
  (a_RoleID a = "" \/ predefined_role (a_RoleID a) \/ is_Some (role_of w (a_RoleID a))) /\
  (u_UserName u = s_UserName session \/ has_privilege session PrivilegeConfigureUsers = true) /\
  (a_RoleID a <> "" -> has_privilege session PrivilegeConfigureUsers = true) /\
  (a_Password a <> "" ->
     (has_privilege session PrivilegeConfigureSelf = true \/
      has_privilege session PrivilegeConfigureUsers = true) /\
     validatePassword (u_UserName u) (a_Password a) = None).
Definition updated (u : User) (a : Account) : User :=
  {| u_UserName := u_UserName u;
     u_Password := if String.eqb (a_Password a) "" then u_Password u
                   else if String.eqb (hashPassword (a_Password a)) "" then u_Password u
                   else hashPassword (a_Password a);
     u_RoleID := if String.eqb (a_RoleID a) "" then u_RoleID u else a_RoleID a;
     u_AccountTypes := u_AccountTypes u |}.
Definition put_updated (u : User) (a : Account) := insert (M := gmap string jtext)
  (user_key (u_UserName u)) (Text (marshal_User (updated u a))).

Definition update_account_post w (req : UpdateAccountRequest) session (o : outcome asRPC) w' : Prop :=
  match o with
  | Panic => False
  | Ok resp =>
      (StatusCode resp = StatusOK /\
       exists u a, Unmarshal Account_type (uar_RequestBody req) zeroAccount = (a, None) /\
         may_update w (uar_AccountID req) session u a /\ written w OnDisk (put_updated u a) w')
      \/ (StatusCode resp <> StatusOK /\
         (ro w w' \/ (~ healthy w /\
          exists u a, Unmarshal Account_type (uar_RequestBody req) zeroAccount = (a, None) /\
            may_update w (uar_AccountID req) session u a /\ maybe_written w OnDisk (put_updated u a) w')))
  end.

Lemma wp_updateRoleCheck id w : wf w ->
  wp (updateRoleCheck id)
     (fun o w' => ro w w' /\
        match o with
        | Ok None => id = "" \/ predefined_role id \/ is_Some (role_of w id)
        | Ok (Some resp) => StatusCode resp = StatusBadRequest
        | Panic => False
        end) w.
Proof.
  intros Hwf. unfold updateRoleCheck. pose proof (ro_refl _ Hwf) as Hrr.
  destruct (String.eqb_spec id ""); cbn [negb]; [apply wp_ret; split; [done|by left]|].
  destruct (String.eqb_spec id RoleAdmin), (String.eqb_spec id RoleMonitor), (String.eqb_spec id RoleClient);
    cbn [negb andb]; try (apply wp_ret; split; [done|]; right; left; unfold predefined_role; tauto).
  wp_call wp_GetRoleDetailsByID; [done|]. intros [[e|r]|] w1 [Hro Hp]; [| |done]; cbn [wp_cont].
  - run_body. wp_go. by split.
  - apply wp_ret. split; [done|]. right; right. by exists r.
Qed.

Lemma wp_updatePassword session name pw w : wf w ->
  wp (updatePassword session name pw)
     (fun o w' => ro w w' /\
        match o with
        | Ok (inr stored_pw) => stored_pw = (if String.eqb pw "" then "" else hashPassword pw) /\
            (pw <> "" -> (has_privilege session PrivilegeConfigureSelf = true \/
                          has_privilege session PrivilegeConfigureUsers = true) /\
                         validatePassword name pw = None)
        | Ok (inl resp) => StatusCode resp <> StatusOK
        | Panic => False
        end) w.
Proof.
  intros Hwf. unfold updatePassword. pose proof (ro_refl _ Hwf) as Hrr.
  destruct (String.eqb_spec pw ""); cbn [negb]; [by apply wp_ret|].
  destruct (negb _ && negb _) eqn:Ep.
  { wp_call wp_forbidden; [done|]. intros o w1 (Hro & resp & -> & Hc). wp_go. split; [done|].
    by rewrite Hc. }
  destruct (validatePassword name pw) eqn:Ev.
  { run_body. wp_go. by split. }
  apply wp_ret. split_and!; [done|done|]. intros _. split; [|done].
  destruct (has_privilege session PrivilegeConfigureSelf), (has_privilege session PrivilegeConfigureUsers);
    auto.
Qed.

Lemma wp_Update_account req session w : wf w ->
  wp (Account.Update req session) (update_account_post w req session) w.
Proof.
  intros Hwf. unfold Account.Update. pose proof (ro_refl _ Hwf) as Hrr.
  assert (Hre : forall (resp : asRPC) w', StatusCode resp <> StatusOK -> ro w w' ->
    update_account_post w req session (Ok resp) w').
  { intros resp w' Hc Hr. right. split; [done|by left]. }
  destruct (Unmarshal Account_type (uar_RequestBody req) zeroAccount) as [a [err|]] eqn:Eu.
  { run_body. apply wp_lift. by apply Hre. }
  destruct (isEmptyRequest _). { run_body. apply wp_lift. by apply Hre. }
  cbn [u_UserName u_RoleID u_Password u_AccountTypes].
  destruct (String.eqb_spec (a_UserName a) "") as [Ena|]; cbn [negb].
  2:{ apply wp_lift. by apply Hre. }
  rewrite (Account_validator _ _ Eu). apply wp_bind, wp_lift. cbn [wp_cont].
  destruct (negb _). { run_body. apply wp_lift. by apply Hre. }
  wp_call wp_updateRoleCheck; [done|]. intros [[resp|]|] w1 [Hro Hp]; [| |done]; cbn [wp_cont].
  { apply wp_ret. apply Hre; [by rewrite Hp|done]. }
  wp_call wp_GetUserDetails; [apply Hro|]. intros [[e|u]|] w2 [Hro2 Hu]; [| |done]; cbn [wp_cont];
    assert (Hr2 : ro w w2) by (by eapply ro_trans).
  { destruct (decide _); run_body; apply wp_lift; by apply Hre. }
  change (user_of w1 (uar_AccountID req) = Some u) in Hu. rewrite (user_of_ro _ _ _ Hro) in Hu.
  destruct (negb (String.eqb (u_UserName u) _) && _) eqn:Eown.
  { eapply wp_mono; [apply wp_forbidden, Hr2|]. intros o w3 (Hro3 & resp & -> & Hc).
    apply Hre; [by rewrite Hc|by eapply ro_trans]. }
  destruct (negb (String.eqb (a_RoleID a) "") && _) eqn:Erole.
  { eapply wp_mono; [apply wp_forbidden, Hr2|]. intros o w3 (Hro3 & resp & -> & Hc).
    apply Hre; [by rewrite Hc|by eapply ro_trans]. }
  wp_call wp_updatePassword; [apply Hr2|]. intros [[resp|pw]|] w3 [Hro3 Hpw]; [| |done]; cbn [wp_cont];
    assert (Hr3 : ro w w3) by (by eapply ro_trans).
  { apply wp_ret. by apply Hre. }
  destruct Hpw as [-> Hpw].
  assert (Hmay : may_update w (uar_AccountID req) session u a).
  { split_and!; [done|done|done| | |done].
    - destruct (String.eqb_spec (u_UserName u) (s_UserName session)); [by left|right].
      by destruct (has_privilege session PrivilegeConfigureUsers).
    - intros Hne. apply String.eqb_neq in Hne. rewrite Hne in Erole.
      by destruct (has_privilege session PrivilegeConfigureUsers). }
  wp_call wp_UpdateUserDetails; [apply Hr3|]. intros o w4 Hput.
  assert (Hdoc : merge_user u {| u_UserName := a_UserName a;
                    u_Password := if String.eqb (a_Password a) "" then "" else hashPassword (a_Password a);
                    u_RoleID := a_RoleID a; u_AccountTypes := Some ["Redfish"] |} = updated u a).
  { unfold merge_user, updated. cbn. by destruct (String.eqb (a_Password a) ""). }
  rewrite Hdoc in Hput. destruct o as [[e|]|]; [| |done]; cbn [wp_cont]; simpl in Hput.
  - run_body. apply wp_lift. right. split; [done|].
    destruct Hput as [(_ & Hr4 & _)|(_ & Hn & Hm)]; [left; by eapply ro_trans|right].
    split; [by eapply unhealthy_ro|]. exists u, a. split_and!; [done|done|by eapply ro_maybe_written].
  - run_body. wp_go. left. split; [done|]. exists u, a. split_and!; [done|done|].
    eapply ro_written; [exact Hr3|apply Hput].
Qed.

(** *** Delete *)

Definition may_delete (id : string) session : Prop :=
  id <> defaultAdminAccount /\ has_privilege session PrivilegeConfigureUsers = true.

Definition delete_account_post w id session (o : outcome asRPC) w' : Prop :=
  match o with
  | Panic => False
  | Ok resp =>
      (StatusCode resp = StatusNoContent /\ may_delete id session /\
       is_Some (view w OnDisk !! user_key id) /\ written w OnDisk (delete (user_key id)) w')
      \/ (StatusCode resp <> StatusNoContent /\
         ((ro w w' /\ (healthy w -> may_delete id session -> view w OnDisk !! user_key id = None))
          \/ (~ healthy w /\ may_delete id session /\ maybe_written w OnDisk (delete (user_key id)) w')))
  end.

Lemma wp_Delete_account id session w : wf w ->
  wp (Account.Delete session id) (delete_account_post w id session) w.
Proof.
  intros Hwf. unfold Account.Delete. pose proof (ro_refl _ Hwf) as Hrr.
  destruct (String.eqb_spec id defaultAdminAccount) as [Ed|Ed].
  { run_body. apply wp_lift. right. split; [done|]. left. split; [done|]. by intros _ [? _]. }
  destruct (has_privilege session PrivilegeConfigureUsers) eqn:Ep; cbn [negb].
  2:{ eapply wp_mono; [by apply wp_forbidden|]. intros o w1 (Hro & resp & -> & Hc).
      right. rewrite Hc. split; [done|]. left. split; [done|]. intros _ [_ ?]. congruence. }
  wp_call wp_DeleteUser; [done|]. intros [[e|]|] w1 Hd; [| |done]; cbn [wp_cont]; simpl in Hd.
  - assert (Hend : forall resp : asRPC, StatusCode resp <> StatusNoContent ->
      delete_account_post w id session (Ok resp) w1).
    { intros resp Hc. right. split; [done|].
      destruct Hd as [(_ & Hr & Hn)|(_ & Hn & Hm)]; [by left|by right]. }
    destruct (decide _); run_body; apply wp_lift; by apply Hend.
  - apply wp_ret. left. destruct Hd as [Hw Hs]. by split_and!.
Qed.

(** *** Reading *)

Definition may_read (id : string) session : Prop :=
  has_privilege session PrivilegeConfigureUsers = true \/
  (id = s_UserName session /\ has_privilege session PrivilegeConfigureSelf = true).

Lemma wp_GetAccount id session w : wf w ->
  wp (GetAccount session id)
     (fun o w' => ro w w' /\ exists resp, o = Ok resp /\
        (StatusCode resp = StatusOK -> may_read id session /\
           exists r u, user_of w id = Some u /\ RBody resp = account_body r u) /\
        (healthy w -> may_read id session -> is_Some (user_of w id) -> StatusCode resp = StatusOK)) w.
Proof.
  intros Hwf. unfold GetAccount. pose proof (ro_refl _ Hwf) as Hrr.
  destruct (negb _ && _) eqn:Ep.
  { eapply wp_mono; [by apply wp_forbidden|]. intros o w1 (Hro & resp & -> & Hc). split; [done|].
    exists resp. split_and!; [done|by rewrite Hc|]. intros _ Hm _. exfalso. unfold may_read in Hm.
    destruct (has_privilege session PrivilegeConfigureUsers), (has_privilege session PrivilegeConfigureSelf),
      (String.eqb_spec id (s_UserName session)); simpl in Ep; naive_solver. }
  assert (Hm : may_read id session).
  { unfold may_read. destruct (has_privilege session PrivilegeConfigureUsers),
      (has_privilege session PrivilegeConfigureSelf), (String.eqb_spec id (s_UserName session));
      simpl in Ep; naive_solver. }
  wp_call wp_GetUserDetails; [done|]. intros [[e|u]|] w1 [Hro Hu]; [| |done]; cbn [wp_cont].
  - assert (Hno : healthy w -> is_Some (user_of w id) -> False).
    { intros Hh [u Hs]. destruct Hu as [[_ Hu]|[(_ & _ & Hu)|[_ Hu]]]; [|unfold user_of in Hs; congruence|done].
      apply stored_Some in Hs. rewrite Hu in Hs. by destruct Hs. }
    destruct (decide _); run_body; apply wp_lift; (split; [done|]); eexists; (split_and!; [done|done|]);
      intros Hh _ Hs; by destruct (Hno Hh Hs).
  - run_body. wp_go. split; [done|]. eexists. split_and!; [done| |done]. intros _. split; [done|].
    by eexists _, u.
Qed.

Lemma wp_GetAllAccounts session w : wf w ->
  wp (GetAllAccounts session)
     (fun o w' => ro w w' /\ exists resp, o = Ok resp /\
        (StatusCode resp = StatusOK -> has_privilege session PrivilegeConfigureUsers = true)) w.
Proof.
  intros Hwf. unfold GetAllAccounts.
  destruct (has_privilege session PrivilegeConfigureUsers); cbn [negb].
  - wp_call wp_GetAllUsers; [done|]. intros [[e|us]|] w1 [Hro Hal]; [| |done]; cbn [wp_cont].
    + run_body. apply wp_lift. split; [done|]. by eexists.
    + run_body. wp_go. split; [done|]. by eexists.
  - eapply wp_mono; [by apply wp_forbidden|]. intros o w1 (Hro & resp & -> & Hc). split; [done|].
    exists resp. split; [done|]. by rewrite Hc.
Qed.

Lemma wp_GetAccountService w : wf w ->
  wp GetAccountService (fun o w' => ro w w' /\ exists resp, o = Ok resp) w.
Proof.
  intros Hwf. unfold GetAccountService. run_body. wp_go. split; [by apply ro_refl|by eexists].
Qed.
End accountspec.

(** ** Properties *)

Section properties.
Context `{EnvLaws, Libs, SingleNode}.
Implicit Types (w : World) (session : AsModel.Session).

(** C9: creating an account never panics, and whatever commands fail it answers 201 only for a
    session with ConfigureUsers and a body with a name, a password that the rules accept and a role
    that exists; the account is then stored with the hash of the password, under a name that was
    free when no command failed, and nothing else changes.  In a healthy process such a request,
    with its properties in the right case and a free name, is answered 201. *)
Theorem Create_account_spec w req session :
  wf w ->
  exists resp err w', Account.Create req session w = (Ok (resp, err), w') /\
    (StatusCode resp = StatusCreated ->
       exists a, Unmarshal Account_type (car_RequestBody req) zeroAccount = (a, None) /\
         may_create w session a /\
         (healthy w -> absent w OnDisk (user_key (a_UserName a))) /\
         view w' OnDisk = <[user_key (a_UserName a) := Text (marshal_User (new_user a))]> (view w OnDisk) /\
         view w' InMemory = view w InMemory) /\
    (healthy w -> forall a, Unmarshal Account_type (car_RequestBody req) zeroAccount = (a, None) ->
       reported (marshal_Account a) (unmarshal_map (car_RequestBody req)).*1 = "" ->
       may_create w session a -> absent w OnDisk (user_key (a_UserName a)) ->
       StatusCode resp = StatusCreated) /\
    (healthy w -> StatusCode resp <> StatusCreated -> forall db, view w' db = view w db).
Proof.
  intros Hwf. destruct (wp_elim _ _ _ (wp_Create_account req session w Hwf)) as ([[resp err]|] & w' & E & Hp);
    [|done]. exists resp, err, w'. split; [done|].
  destruct Hp as [(Hc & _ & a & Ha & Hm & Hab & Hw)|(Hc & _ & [[Hr Hn]|(Hn & _)])].
  - split_and!; [|done|done]. intros _. exists a. rewrite !(ev_view _ _ _ Hw), upd_eq, upd_ne by done.
    split_and!; try done. intros Hh. by destruct Hab.
  - split_and!; [done| |].
    + intros Hh a Ha Hre Hm Hab. by destruct (Hn Hh a Ha Hre Hm).
    + intros _ _ db. by apply ro_view.
  - by split_and!.
Qed.

(** C10: updating an account never panics; whatever commands fail, the only change is that the
    account named in the request is stored with the password's hash and the role of the body where
    they are given, and that happens only when the session is allowed to ([may_update]); an answer
    of 200 means it was stored. *)
Theorem Update_account_spec w req session :
  wf w ->
  exists resp w', Account.Update req session w = (Ok resp, w') /\
    view w' InMemory = view w InMemory /\
    (forall k, view w' OnDisk !! k <> view w OnDisk !! k ->
       exists u a, Unmarshal Account_type (uar_RequestBody req) zeroAccount = (a, None) /\
         may_update w (uar_AccountID req) session u a /\ k = user_key (u_UserName u) /\
         view w' OnDisk !! k = Some (Text (marshal_User (updated u a)))) /\
    (StatusCode resp = StatusOK ->
       exists u a, Unmarshal Account_type (uar_RequestBody req) zeroAccount = (a, None) /\
         may_update w (uar_AccountID req) session u a /\
         user_of w' (u_UserName u) = Some (updated u a)).
Proof.
  intros Hwf. destruct (wp_elim _ _ _ (wp_Update_account req session w Hwf)) as ([resp|] & w' & E & Hp); [|done].
  exists resp, w'. split; [done|].
  assert (Hw : forall u a, Unmarshal Account_type (uar_RequestBody req) zeroAccount = (a, None) ->
    may_update w (uar_AccountID req) session u a -> written w OnDisk (put_updated u a) w' ->
    view w' InMemory = view w InMemory /\
    (forall k, view w' OnDisk !! k <> view w OnDisk !! k ->
       exists u a, Unmarshal Account_type (uar_RequestBody req) zeroAccount = (a, None) /\
         may_update w (uar_AccountID req) session u a /\ k = user_key (u_UserName u) /\
         view w' OnDisk !! k = Some (Text (marshal_User (updated u a)))) /\
    user_of w' (u_UserName u) = Some (updated u a)).
  { intros u a Ha Hm Hw. unfold user_of. rewrite !(ev_view _ _ _ Hw), upd_eq, upd_ne by done. split_and!.
    - done.
    - intros k Hk. exists u, a. destruct (decide (k = user_key (u_UserName u))) as [->|Hne].
      + split_and!; [done..|]. apply lookup_insert_eq.
      + destruct Hk. by apply lookup_insert_ne.
    - apply stored_insert, User_roundtrip. }
  destruct Hp as [(Hc & u & a & Ha & Hm & Hwr)|(Hc & Hp)].
  { destruct (Hw u a Ha Hm Hwr) as (Hv & Hk & Hu). split_and!; [done|done|]. intros _. by exists u, a. }
  destruct Hp as [Hr|(_ & u & a & Ha & Hm & [Hr|Hwr])].
  1,2: rewrite !(ro_view _ _ _ Hr); split_and!; done.
  destruct (Hw u a Ha Hm Hwr) as (Hv & Hk & Hu). by split_and!.
Qed.

(** A session without ConfigureUsers can change nothing but the password of its own account,
    and that only with ConfigureSelf: name, role and account types stay, whatever the body says
    and whatever commands fail. *)
Lemma Update_own_password_only w req session u w' o :
  wf w -> has_privilege session PrivilegeConfigureUsers = false ->
  user_of w (s_UserName session) = Some u -> u_UserName u = s_UserName session ->
  typed w ->
  Account.Update req session w = (o, w') ->
  forall k, view w' OnDisk !! k <> view w OnDisk !! k ->
    k = user_key (s_UserName session) /\
    exists u', user_of w' (s_UserName session) = Some u' /\
      u_UserName u' = u_UserName u /\ u_RoleID u' = u_RoleID u /\ u_AccountTypes u' = u_AccountTypes u /\
      (u_Password u' <> u_Password u -> has_privilege session PrivilegeConfigureSelf = true).
Proof.
  intros Hwf Hp Hu Hname Hty E k Hk.
  pose proof (wp_run _ _ _ _ _ (wp_Update_account req session w Hwf) E) as Hpost.
  destruct o as [resp|]; [|done].
  assert (Hgo : forall u2 a, may_update w (uar_AccountID req) session u2 a ->
    written w OnDisk (put_updated u2 a) w' -> k = user_key (s_UserName session) /\
    exists u', user_of w' (s_UserName session) = Some u' /\
      u_UserName u' = u_UserName u /\ u_RoleID u' = u_RoleID u /\ u_AccountTypes u' = u_AccountTypes u /\
      (u_Password u' <> u_Password u -> has_privilege session PrivilegeConfigureSelf = true)).
  { intros u2 a (_ & Hu2 & _ & Hown & Hrole & Hpw) Hw. destruct Hown as [Hown|Hown]; [|congruence].
    pose proof (typed_user _ _ _ Hty Hu2) as Hid. rewrite <- Hid, Hown in Hu2.
    rewrite Hu in Hu2. injection Hu2 as <-.
    assert (Hrl : a_RoleID a = "") by
      (destruct (decide (a_RoleID a = "")) as [|Hne]; [done|rewrite (Hrole Hne) in Hp; done]).
    assert (Hkk : k = user_key (s_UserName session)).
    { destruct (decide (k = user_key (s_UserName session))) as [|Hne]; [done|]. destruct Hk.
      rewrite (ev_view _ _ _ Hw), upd_eq. apply lookup_insert_ne. by rewrite Hname. }
    split; [done|]. exists (updated u a). split_and!; [|done| |done|].
    - unfold user_of. rewrite (ev_view _ _ _ Hw), upd_eq, <- Hname. apply stored_insert, User_roundtrip.
    - unfold updated. cbn. by rewrite Hrl.
    - intros Hch. unfold updated in Hch. cbn in Hch.
      destruct (String.eqb_spec (a_Password a) "") as [|Hne]; [done|].
      destruct (Hpw Hne) as [[?|?] _]; [done|congruence]. }
  destruct Hpost as [(_ & u2 & a & _ & Hm & Hw)|(_ & [Hr|(_ & u2 & a & _ & Hm & [Hr|Hw])])].
  - by eapply Hgo.
  - destruct Hk. by rewrite (ro_view _ _ _ Hr).
  - destruct Hk. by rewrite (ro_view _ _ _ Hr).
  - by eapply Hgo.
Qed.

(** C11: after an update that answered 200 with a new password in a healthy process, the login check
    of that account accepts exactly the passwords with the hash of the new one. *)
Theorem password_change_takes_effect w req session resp w' a :
  wf w -> healthy w -> typed w ->
  Account.Update req session w = (Ok resp, w') -> StatusCode resp = StatusOK ->
  Unmarshal Account_type (uar_RequestBody req) zeroAccount = (a, None) ->
  a_Password a <> "" -> hashPassword (a_Password a) <> "" ->
  forall q, q <> "" -> uar_AccountID req <> "" ->
    exists r w2, CheckSessionCreationCredentials (uar_AccountID req) q w' = (Ok r, w2) /\
      ((exists u, r = inr u) <-> hashPassword q = hashPassword (a_Password a)).
Proof.
  intros Hwf Hh Hty E Hc Ha Hpw Hhash q Hq Hid.
  pose proof (wp_run _ _ _ _ _ (wp_Update_account req session w Hwf) E) as Hp.
  destruct Hp as [(_ & u & a' & Ha' & (_ & Hu & _) & Hw)|[Hn _]]; [|done].
  rewrite Ha in Ha'. injection Ha' as <-. pose proof (typed_user _ _ _ Hty Hu) as Hname.
  assert (Hu' : user_of w' (uar_AccountID req) = Some (updated u a)).
  { unfold user_of. rewrite (ev_view _ _ _ Hw), upd_eq, <- Hname. apply stored_insert, User_roundtrip. }
  assert (Hpw' : u_Password (updated u a) = hashPassword (a_Password a)).
  { unfold updated. cbn. apply String.eqb_neq in Hpw, Hhash. by rewrite Hpw, Hhash. }
  assert (Hwf' : wf w') by apply Hw.
  destruct (wp_elim _ _ _ (wp_CheckSessionCreationCredentials (uar_AccountID req) q w' Hwf'))
    as ([r|] & w2 & E2 & Hro & Hr); [|done].
  exists r, w2. split; [done|]. destruct r as [e|u2].
  - split; [by intros [? [=]]|]. intros Heq. exfalso. destruct Hr as [Hn|[_ Hn]]; [by destruct Hn; apply Hw|].
    apply (Hn _ Hid Hq Hu'). congruence.
  - split; [|by eexists]. intros _. destruct Hr as (_ & _ & Hu2 & Hp2). congruence.
Qed.

(** Deleting an account never panics; whatever commands fail, the only change is that the account
    named is removed, and that happens only for a session with ConfigureUsers and never for the
    default administrator; in a healthy process such a request removes the account if it is there. *)
Theorem Delete_account_spec w id session :
  wf w ->
  exists resp w', Account.Delete session id w = (Ok resp, w') /\
    view w' InMemory = view w InMemory /\
    (forall k, view w' OnDisk !! k <> view w OnDisk !! k ->
       may_delete id session /\ k = user_key id /\ view w' OnDisk !! k = None) /\
    (StatusCode resp = StatusNoContent -> may_delete id session /\
       is_Some (view w OnDisk !! user_key id) /\ view w' OnDisk !! user_key id = None) /\
    (healthy w -> may_delete id session -> is_Some (view w OnDisk !! user_key id) ->
       StatusCode resp = StatusNoContent).
Proof.
  intros Hwf. destruct (wp_elim _ _ _ (wp_Delete_account id session w Hwf)) as ([resp|] & w' & E & Hp); [|done].
  exists resp, w'. split; [done|].
  assert (Hw : may_delete id session -> written w OnDisk (delete (user_key id)) w' ->
    view w' InMemory = view w InMemory /\
    (forall k, view w' OnDisk !! k <> view w OnDisk !! k ->
       may_delete id session /\ k = user_key id /\ view w' OnDisk !! k = None) /\
    view w' OnDisk !! user_key id = None).
  { intros Hm Hw. rewrite !(ev_view _ _ _ Hw), upd_eq, upd_ne by done. split_and!; [done| |apply lookup_delete_eq].
    intros k Hk. destruct (decide (k = user_key id)) as [->|Hne].
    - split_and!; [done|done|]. apply lookup_delete_eq.
    - destruct Hk. by apply lookup_delete_ne. }
  destruct Hp as [(Hc & Hm & Hs & Hwr)|(Hc & [[Hr Hn]|(Hn & Hm & [Hr|Hwr])])].
  - destruct (Hw Hm Hwr) as (Hv & Hk & Hg). by split_and!.
  - rewrite !(ro_view _ _ _ Hr). split_and!; try done. intros Hh Hm [v Hv]. rewrite (Hn Hh Hm) in Hv. done.
  - rewrite !(ro_view _ _ _ Hr). by split_and!.
  - destruct (Hw Hm Hwr) as (Hv & Hk & Hg). by split_and!.
Qed.

(** An account is shown only to a session with ConfigureUsers, or to its own session with
    ConfigureSelf, and what is shown is the stored record; reading changes nothing; in a healthy
    process an account that is there is shown to every such session. *)
Lemma GetAccount_spec w id session :
  wf w ->
  exists resp w', GetAccount session id w = (Ok resp, w') /\
    (forall db, view w' db = view w db) /\
    (StatusCode resp = StatusOK -> may_read id session /\
       exists r u, user_of w id = Some u /\ RBody resp = account_body r u) /\
    (healthy w -> may_read id session -> is_Some (user_of w id) -> StatusCode resp = StatusOK).
Proof.
  intros Hwf. destruct (wp_elim _ _ _ (wp_GetAccount id session w Hwf)) as (o & w' & E & Hr & resp & -> & H1' & H2').
  exists resp, w'. split_and!; [done| |done|done]. intros db. by apply ro_view.
Qed.
End properties.

(** ** The properties at concrete inputs *)

Section witnesses.
#[local] Existing Instances single single_node.

Lemma validatePassword_spec_example : validatePassword "alice" "Str0ng+Passw" = None.
Proof. vm_compute. reflexivity. Qed.

Lemma default_specials_exclude_dash_witness : validatePassword "alice" "Strong-Passw0rd" <> None.
Proof.
  apply (default_specials_exclude_dash single "Strong-Passw0rd"); [reflexivity|vm_compute; reflexivity].
Defined.

Definition create_body : jtext :=
  Text (JObj [("UserName", JStr "carol"); ("Password", JStr "Str0ng+Passw"); ("RoleId", JStr "ReadOnly")]).
Definition create_req := {| car_SessionToken := "tok-admin"; car_RequestBody := create_body |}.

Lemma Create_account_spec_witness :
  exists resp err w', Account.Create create_req admin_session (service minute []) = (Ok (resp, err), w').
Proof.
  destruct (Create_account_spec (service minute []) create_req admin_session (service_wf _ _))
    as (resp & err & w' & E & _).
  exists resp, err, w'. exact E.
Defined.

Definition password_body : jtext := Text (JObj [("Password", JStr "Str0ng+Passw")]).
Definition update_req id := {| uar_SessionToken := ""; uar_AccountID := id; uar_RequestBody := password_body |}.

Lemma Update_account_spec_witness :
  exists resp w', Account.Update (update_req "alice") alice_session (service minute []) = (Ok resp, w') /\
    view w' InMemory = the_sessions.
Proof.
  destruct (Update_account_spec (service minute []) (update_req "alice") alice_session (service_wf _ _))
    as (resp & w' & E & Hv & _).
  exists resp, w'. split; [exact E|exact Hv].
Defined.

Lemma Update_own_password_only_witness :
  exists o w', Account.Update (update_req "alice") alice_session (service minute []) = (o, w') /\
    forall k, view w' OnDisk !! k <> the_accounts !! k -> k = user_key "alice".
Proof.
  destruct (Account.Update (update_req "alice") alice_session (service minute [])) as [o w'] eqn:E.
  exists o, w'. split; [reflexivity|]. intros k Hk.
  refine (proj1 (Update_own_password_only (service minute []) _ alice_session alice_user w' o
    (service_wf _ _) _ _ _ (service_typed _ _) E k Hk)); vm_compute; reflexivity.
Defined.

Lemma password_change_takes_effect_witness :
  exists r w2, CheckSessionCreationCredentials "alice" "Str0ng+Passw"
    (Account.Update (update_req "alice") alice_session (service minute [])).2 = (Ok r, w2) /\
    exists u, r = inr u.
Proof.
  assert (E1 : status_of (Account.Update (update_req "alice") alice_session (service minute [])).1 = StatusOK)
    by (vm_compute; reflexivity).
  destruct (Account.Update (update_req "alice") alice_session (service minute [])) as [[resp|] w'] eqn:E;
    cbn [fst status_of] in E1; [|discriminate E1].
  destruct (password_change_takes_effect (service minute []) (update_req "alice") alice_session resp w'
    {| a_UserName := ""; a_Password := "Str0ng+Passw"; a_RoleID := "" |}
    (service_wf _ _) (service_healthy _) (service_typed _ _) E E1) with (q := "Str0ng+Passw")
    as (r & w2 & E2 & Hr); [reflexivity|discriminate|discriminate|discriminate|discriminate|].
  exists r, w2. split; [exact E2|]. apply Hr. reflexivity.
Defined.

Lemma Delete_account_spec_witness :
  exists resp w', Account.Delete admin_session "admin" (service minute []) = (Ok resp, w') /\
    StatusCode resp <> StatusNoContent.
Proof.
  destruct (Delete_account_spec (service minute []) "admin" admin_session (service_wf _ _))
    as (resp & w' & E & _ & _ & Hc & _).
  exists resp, w'. split; [exact E|]. intros Hs. destruct (Hc Hs) as [[Hn _] _]. by apply Hn.
Defined.

Lemma GetAccount_spec_witness :
  exists resp w', GetAccount alice_session "alice" (service minute []) = (Ok resp, w') /\
    StatusCode resp = StatusOK.
Proof.
  destruct (GetAccount_spec (service minute []) "alice" alice_session (service_wf _ _))
    as (resp & w' & E & _ & _ & Hc).
  exists resp, w'. split; [exact E|]. apply Hc; [apply service_healthy|right; by split|].
  exists alice_user. vm_compute. reflexivity.
Defined.
End witnesses.
