(* ===== verification/RoleProps.v ===== *)
(** The role operations: what each does in any process, and the properties of the roles stored. *)
From stdpp Require Import base gmap sets list strings.
From S2P Require Import Prelude Go Response CaseValidator Redis World ConnPool DBSpec AsModel AsSpec Auth Session Role AuthProps ResponseProps CaseProps SessionSpec SessionProps Scenario.
Open Scope string_scope.

(** ** Duplicates *)

Lemma duplicate_from_spec seen ps :
  (duplicate_from seen ps).2 = false <-> NoDup ps /\ forall p, p ∈ ps -> p ∉ seen.
Proof.
  revert seen. induction ps as [|p ps IH]; intros seen; simpl.
  - split; [intros _; split; [constructor|set_solver]|done].
  - destruct (decide (p ∈ seen)) as [Hin|Hin]; simpl.
    + split; [done|]. intros [_ Hn]. destruct (Hn p); [set_solver|done].
    + rewrite IH, NoDup_cons. set_solver.
Qed.
Lemma duplicate_from_found seen ps p : duplicate_from seen ps = (p, true) -> p ∈ ps.
Proof.
  revert seen. induction ps as [|q ps IH]; intros seen; simpl; [done|].
  destruct (decide _); [intros [= <-]; by left|]. intros E. right. by eapply IH.
Qed.
Lemma checkDuplicatePrivileges_spec ps : (checkDuplicatePrivileges ps).2 = false <-> NoDup ps.
Proof. unfold checkDuplicatePrivileges. rewrite duplicate_from_spec. set_solver. Qed.
Lemma isDuplicatePrivilegesPresent_spec r :
  (isDuplicatePrivilegesPresent r).2 = false <->
  NoDup (items (r_AssignedPrivileges r)) /\ NoDup (items (r_OEMPrivileges r)).
Proof.
  unfold isDuplicatePrivilegesPresent.
  rewrite <- !checkDuplicatePrivileges_spec.
  destruct (checkDuplicatePrivileges (items (r_AssignedPrivileges r))) as [p []]; simpl; [naive_solver|].
  destruct (checkDuplicatePrivileges (items (r_OEMPrivileges r))) as [q []]; simpl; naive_solver.
Qed.

Lemma first_unknown_None registry ps :
  first_unknown registry ps = None <-> forall p, In p ps -> In p registry.
Proof.
  unfold first_unknown. split.
  - intros Hf p Hp. pose proof (List.find_none _ _ Hf p Hp) as Hn. simpl in Hn.
    apply negb_false_iff, existsb_In in Hn as (q & Hq & He). apply String.eqb_eq in He. by subst.
  - intros Hall. destruct (List.find _ ps) as [p|] eqn:E; [|done]. exfalso.
    apply List.find_some in E as [Hp Hn]. apply negb_true_iff in Hn.
    assert (Ht : existsb (fun q => String.eqb p q) registry = true).
    { apply existsb_In. exists p. split; [auto|by apply String.eqb_eq]. }
    congruence.
Qed.

Lemma is_redfish_role_spec l id : is_redfish_role l id = true <-> In id (items l).
Proof.
  unfold is_redfish_role. rewrite existsb_In. split.
  - intros (x & Hx & He). apply String.eqb_eq in He. by subst.
  - intros Hx. exists id. split; [done|by apply String.eqb_eq].
Qed.

Section rolespec.
Context `{EnvLaws, Libs, SingleNode}.
Implicit Types (w : World) (session : AsModel.Session).

(** The lists in the on-disk database. *)
Definition assigned_registry w : option (slice string) :=
  stored (list_type "Privileges") None (view w OnDisk) "registry:assignedprivileges".
Definition oem_registry w : option (slice string) :=
  stored (list_type "OEMPrivileges") None (view w OnDisk) "registry:oemprivileges".
Definition redfish_roles w : option (slice string) :=
  stored (list_type "RedfishRoles") None (view w OnDisk) "roles:redfishdefined".
#[export] Instance assigned_registry_proper : Proper (same_data ==> eq) assigned_registry.
Proof. intros w w' Hs. unfold assigned_registry. by rewrite Hs. Qed.
#[export] Instance oem_registry_proper : Proper (same_data ==> eq) oem_registry.
Proof. intros w w' Hs. unfold oem_registry. by rewrite Hs. Qed.
#[export] Instance redfish_roles_proper : Proper (same_data ==> eq) redfish_roles.
Proof. intros w w' Hs. unfold redfish_roles. by rewrite Hs. Qed.

(** The privileges of a list are all in a registry that is there, or the list is empty. *)
Definition all_in (registry : option (slice string)) (ps : list string) : Prop :=
  ps = [] \/ exists l, registry = Some l /\ forall p, In p ps -> In p (items l).

Definition validated w (registry : option (slice string)) (ps : list string) (o : outcome (option PrivilegeError)) : Prop :=
  match o with
  | Ok None => exists l, registry = Some l /\ forall p, In p ps -> In p (items l)
  | Ok (Some e) => (forall em, args_ok {| ea_StatusMessage := pe_Message e; ea_ErrorMessage := em;
                                ea_MessageArgs := pe_Args e |}) /\
      (pe_Code e = StatusBadRequest \/ pe_Code e = StatusInternalServerError) /\
      (healthy w -> ~ exists l, registry = Some l /\ forall p, In p ps -> In p (items l))
  | Panic => False
  end.

(** What the registry read tells about a list of privileges. *)
Lemma registry_missing w w1 n k e (ps : list string) : ro w w1 ->
  fetch_post (list_type n) None w OnDisk k (Ok (inl e)) ->
  healthy w -> ~ exists l, stored (list_type n) None (view w OnDisk) k = Some l /\
                   forall p, In p ps -> In p (items l).
Proof.
  intros Hro Hp Hh (l & Hl & _). destruct Hp as [[_ Hp]|[(_ & _ & Hp)|[_ Hp]]]; [|congruence|done].
  apply stored_Some in Hl. rewrite Hp in Hl. by destruct Hl.
Qed.
Lemma registry_unknown (registry : option (slice string)) l ps p : registry = Some l ->
  first_unknown (items l) ps = Some p ->
  ~ exists l', registry = Some l' /\ forall p, In p ps -> In p (items l').
Proof.
  intros Hp Hf (l' & Hl & Hall). rewrite Hp in Hl. injection Hl as <-.
  apply first_unknown_None in Hall. congruence.
Qed.
Ltac run_validate :=
  wp_call wp_get_list; [assumption|]; intros [[e|l]|] w1 [Hro Hp]; [| |done]; cbn [wp_cont];
  [apply wp_ret; split; [done|]; split_and!; [done|by right|]; by eapply registry_missing|];
  match goal with |- context [first_unknown ?l ?ps] => destruct (first_unknown l ps) as [p|] eqn:Ef end;
  apply wp_ret; (split; [done|]);
  [split_and!; [done|by left|]; intros _; by eapply registry_unknown
  |exists l; split; [done|]; by apply first_unknown_None].

Lemma wp_validateAssignedPrivileges ps w : wf w ->
  wp (validateAssignedPrivileges ps)
     (fun o w' => ro w w' /\ validated w (assigned_registry w) ps o) w.
Proof. intros Hwf. unfold validateAssignedPrivileges, GetPrivilegeRegistry. run_validate. Qed.
Lemma wp_validateOEMPrivileges ps w : wf w ->
  wp (validateOEMPrivileges ps)
     (fun o w' => ro w w' /\ validated w (oem_registry w) ps o) w.
Proof. intros Hwf. unfold validateOEMPrivileges, GetOEMPrivileges. run_validate. Qed.

Lemma wp_check_privileges validate registry ps w : wf w ->
  wp (validate ps) (fun o w' => ro w w' /\ validated w registry ps o) w ->
  wp (check_privileges validate ps)
     (fun o w' => ro w w' /\
        match o with
        | Ok None => all_in registry ps
        | Ok (Some resp) => (StatusCode resp = StatusBadRequest \/ StatusCode resp = StatusInternalServerError)
            /\ (healthy w -> ~ all_in registry ps)
        | Panic => False
        end) w.
Proof.
  intros Hwf Hv. unfold check_privileges. destruct ps as [|p ps]; cbn [length Nat.eqb negb].
  { apply wp_ret. split; [by apply ro_refl|by left]. }
  apply wp_bind. eapply wp_mono; [exact Hv|]. intros [[e|]|] w1 [Hro Hp]; [| |done]; cbn [wp_cont].
  - destruct Hp as (Ha & Hc & Hn).
    destruct (@errorRPC_ok asBody (pe_Code e) (pe_Message e) (pe_Error e) (pe_Args e) (Ha _)) as [b ->].
    wp_go. split_and!; [done|done|]. intros Hh [?|?]; [done|]. by apply Hn.
  - apply wp_ret. split; [done|]. right. exact Hp.
Qed.

(** The two checks in a row, as [Create] and [Update] make them. *)
Lemma wp_check_both a o (k : IO asRPC) Q w : wf w ->
  (forall resp w', ro w w' ->
     StatusCode resp = StatusBadRequest \/ StatusCode resp = StatusInternalServerError ->
     (healthy w -> all_in (assigned_registry w) a -> all_in (oem_registry w) o -> False) ->
     Q (Ok resp) w') ->
  (forall w', ro w w' -> all_in (assigned_registry w) a -> all_in (oem_registry w) o -> wp k Q w') ->
  wp (let! bad := check_privileges validateAssignedPrivileges a in
      match bad with
      | Some resp => ret resp
      | None =>
          let! bad := check_privileges validateOEMPrivileges o in
          match bad with Some resp => ret resp | None => k end
      end) Q w.
Proof.
  intros Hwf Hbad Hok. apply wp_bind.
  eapply wp_mono; [apply (wp_check_privileges _ (assigned_registry w)); [done|by apply wp_validateAssignedPrivileges]|].
  intros [[resp|]|] w1 [Hro1 Hp1]; [| |done]; cbn [wp_cont].
  { apply wp_ret. destruct Hp1 as [Hc Hn]. apply Hbad; [done|done|]. intros Hh Ha _. by apply (Hn Hh). }
  apply wp_bind. eapply wp_mono; [apply (wp_check_privileges _ (oem_registry w1));
    [apply Hro1|by apply wp_validateOEMPrivileges, Hro1]|].
  rewrite (oem_registry_proper _ _ (ro_same _ _ Hro1)). intros [[resp|]|] w2 [Hro2 Hp2]; [| |done]; cbn [wp_cont];
    assert (Hr2 : ro w w2) by (by eapply ro_trans).
  - apply wp_ret. destruct Hp2 as [Hc Hn]. apply Hbad; [done|done|]. intros Hh _ Hb.
    by apply (Hn (ev_healthy _ _ _ Hro1 Hh)).
  - by apply Hok.
Qed.

Lemma wp_refuse session em w : wf w ->
  wp (refuse session (StatusForbidden, InsufficientPrivilege) em)
     (fun o w' => ro w w' /\ exists resp, o = Ok resp /\ StatusCode resp = StatusForbidden) w.
Proof.
  intros Hwf. unfold refuse. cbn [fst snd]. run_body. wp_call wp_CustomAuthLog; [done|].
  intros o w' [-> Hro]. wp_go. split; [done|]. by eexists.
Qed.

Lemma wp_GetRedfishRoles w : wf w ->
  wp GetRedfishRoles
     (fun o w' => ro w w' /\ match o with
        | Ok (inr l) => redfish_roles w = Some l
        | Ok (inl _) => healthy w -> redfish_roles w = None
        | Panic => False end) w.
Proof.
  intros Hwf. eapply wp_mono; [by apply wp_get_list|]. intros [[e|l]|] w1 [Hro Hp]; [| |done]; (split; [done|]).
  - intros Hh. destruct Hp as [[_ Hp]|[(_ & _ & Hp)|[_ Hp]]]; [|exact Hp|done].
    unfold redfish_roles, stored. change "roles:redfishdefined" with (saveID "roles" "redfishdefined").
    by rewrite Hp.
  - exact Hp.
Qed.

(** *** Create *)

Definition role_id_ok (id : string) : Prop :=
  validate_required id = true /\ blank id = false /\ validate_excludesall "!@#?%&$*" id = true.

Definition may_create_role w session (r : AsModel.Role) : Prop :=
  role_id_ok (r_ID r) /\ has_privilege session PrivilegeConfigureUsers = true /\
  (items (r_AssignedPrivileges r) <> [] \/ items (r_OEMPrivileges r) <> []) /\
  all_in (assigned_registry w) (items (r_AssignedPrivileges r)) /\
  all_in (oem_registry w) (items (r_OEMPrivileges r)) /\
  exists l, redfish_roles w = Some l /\ ~ In (r_ID r) (items l).
Definition new_role (r : AsModel.Role) : AsModel.Role :=
  {| r_ID := r_ID r; r_IsPredefined := false; r_AssignedPrivileges := r_AssignedPrivileges r;
     r_OEMPrivileges := r_OEMPrivileges r |}.
Definition put_new_role (r : AsModel.Role) := insert (M := gmap string jtext)
  (role_key (r_ID r)) (Text (marshal_Role (new_role r))).

Definition create_role_post w (req : RoleRequest) session (o : outcome asRPC) w' : Prop :=
  match o with
  | Panic => False
  | Ok resp =>
      (StatusCode resp = StatusCreated /\
       exists r, Unmarshal Role_type (rr_RequestBody req) zeroRole = (r, None) /\
         may_create_role w session r /\ (absent w OnDisk (role_key (r_ID r)) \/ ~ healthy w) /\
         written w OnDisk (put_new_role r) w')
      \/ (StatusCode resp <> StatusCreated /\
         ((ro w w' /\ (healthy w ->
             forall r, Unmarshal Role_type (rr_RequestBody req) zeroRole = (r, None) ->
               reported (role_fields r) (unmarshal_map (rr_RequestBody req)).*1 = "" ->
               may_create_role w session r -> ~ absent w OnDisk (role_key (r_ID r))))
          \/ (~ healthy w /\ exists r, Unmarshal Role_type (rr_RequestBody req) zeroRole = (r, None) /\
                may_create_role w session r /\ maybe_written w OnDisk (put_new_role r) w')))
  end.

Lemma wp_Create_role req session w : wf w ->
  wp (Role.Create req session) (create_role_post w req session) w.
Proof.
  intros Hwf. unfold Role.Create. pose proof (ro_refl _ Hwf) as Hrr.
  destruct (Unmarshal Role_type (rr_RequestBody req) zeroRole) as [r [err|]] eqn:Eu.
  { run_body. apply wp_lift. right. split; [done|]. left. split; [done|]. intros _ r'. congruence. }
  rewrite (Role_validator _ _ Eu). apply wp_bind, wp_lift. cbn [wp_cont].
  assert (Hre : forall (resp : asRPC) w', StatusCode resp <> StatusCreated -> ro w w' ->
    (reported (role_fields r) (unmarshal_map (rr_RequestBody req)).*1 = "" ->
     healthy w -> may_create_role w session r -> ~ absent w OnDisk (role_key (r_ID r))) ->
    create_role_post w req session (Ok resp) w').
  { intros resp w' Hc Hr Hn. right. split; [done|]. left. split; [done|]. intros Hh r' Er'.
    rewrite Eu in Er'. injection Er' as <-. auto. }
  destruct (String.eqb (reported _ _) "") eqn:Er; cbn [negb].
  2:{ apply String.eqb_neq in Er. run_body. apply wp_lift. by apply Hre. }
  destruct (validate_required (r_ID r)) eqn:Ereq; cbn [negb andb].
  2:{ run_body. apply wp_lift. apply Hre; [done|done|]. intros _ _ ((? & _) & _). congruence. }
  unfold CheckWhitespace. destruct (negb (blank (r_ID r)) && _) eqn:Eid; cbn [negb andb].
  2:{ run_body. apply wp_lift. apply Hre; [done|done|]. intros _ _ ((_ & Hb & He) & _).
      by rewrite Hb, He in Eid. }
  unfold checkForPrivilege. change "ConfigureUsers" with PrivilegeConfigureUsers.
  destruct (has_privilege session PrivilegeConfigureUsers) eqn:Ep; cbn [negb].
  2:{ eapply wp_mono; [by apply wp_refuse|]. intros o w1 (Hro & resp & -> & Hc).
      apply Hre; [by rewrite Hc|done|]. intros _ _ (_ & ? & _). congruence. }
  destruct ((length _ =? 0) && (length _ =? 0))%nat eqn:Eemp.
  { run_body. apply wp_lift. apply Hre; [done|done|]. intros _ _ (_ & _ & Hne & _).
    apply andb_true_iff in Eemp as [E1 E2]. apply Nat.eqb_eq in E1, E2.
    apply List.length_zero_iff_nil in E1, E2. naive_solver. }
  apply wp_check_both; [done|..].
  { intros resp w2 Hr2 Hc Hn. apply Hre; [by destruct Hc as [-> | ->]|done|].
    intros _ Hh (_ & _ & _ & Ha & Hb & _). by destruct (Hn Hh Ha Hb). }
  intros w2 Hr2 Hp1 Hp2.
  wp_call wp_GetRedfishRoles; [apply Hr2|]. intros [[e|l]|] w3 [Hro3 Hp3]; [| |done]; cbn [wp_cont];
    assert (Hr3 : ro w w3) by (by eapply ro_trans);
    assert (Hrf : redfish_roles w2 = redfish_roles w) by (by rewrite (ro_same _ _ Hr2));
    rewrite Hrf in Hp3.
  { run_body. apply wp_lift. apply Hre; [done|done|]. intros _ Hh (_ & _ & _ & _ & _ & l & Hl & _).
    rewrite Hp3 in Hl; [done|]. by apply Hr2. }
  destruct (is_redfish_role l (r_ID r)) eqn:Ered.
  { run_body. apply wp_lift. apply Hre; [done|done|]. intros _ _ (_ & _ & _ & _ & _ & l' & Hl & Hnin).
    apply is_redfish_role_spec in Ered. congruence. }
  assert (Hmay : may_create_role w session r).
  { apply andb_true_iff in Eid as [Eb Ee]. apply negb_true_iff in Eb. split_and!; try done.
    - destruct (items (r_AssignedPrivileges r)); [right|by left]. by destruct (items (r_OEMPrivileges r)).
    - exists l. split; [done|]. rewrite <- is_redfish_role_spec. by rewrite Ered. }
  change {| r_ID := r_ID r; r_IsPredefined := false; r_AssignedPrivileges := r_AssignedPrivileges r;
            r_OEMPrivileges := r_OEMPrivileges r |} with (new_role r).
  wp_call wp_Role_Create; [apply Hr3|]. intros o w4 Hcr. apply (create_post_ro _ _ _ _ _ _ _ Hr3) in Hcr.
  destruct o as [[e|]|]; [| |done]; cbn [wp_cont].
  - assert (Hend : forall resp : asRPC, StatusCode resp <> StatusCreated ->
      create_role_post w req session (Ok resp) w4).
    { intros resp Hc. destruct Hcr as [(_ & Hr & Ha)|(_ & Hn & Hm)]; [by apply Hre|].
      right. split; [done|right]. split; [done|]. exists r. by split_and!. }
    destruct (decide _); [apply wp_lift|run_body; apply wp_lift]; by apply Hend.
  - run_body. wp_go. left. split; [done|]. destruct Hcr as [Hw Ha]. exists r. by split_and!.
Qed.

(** *** Update *)

Definition decoded_update (req : UpdateRoleRequest) : AsModel.Role :=
  (Unmarshal Role_type (ur_UpdateRequest req) zeroRole).1.

(** An update of the stored role [r] by the decoded body [u]. *)
Definition may_update_role w session (id : string) (u r : AsModel.Role) : Prop :=
  has_privilege session PrivilegeConfigureUsers = true /\
  (exists l, redfish_roles w = Some l /\ ~ In id (items l)) /\
  role_of w id = Some r /\
  NoDup (items (r_AssignedPrivileges u)) /\ NoDup (items (r_OEMPrivileges u)) /\
  (r_ID u = "" \/ r_ID u = r_ID r) /\ r_IsPredefined u = r_IsPredefined r /\
  (items (r_AssignedPrivileges u) <> [] \/ items (r_OEMPrivileges u) <> []) /\
  all_in (assigned_registry w) (items (r_AssignedPrivileges u)) /\
  all_in (oem_registry w) (items (r_OEMPrivileges u)).
Definition updated_role (u r : AsModel.Role) : AsModel.Role :=
  {| r_ID := r_ID r; r_IsPredefined := r_IsPredefined r;
     r_AssignedPrivileges := non_empty_or (r_AssignedPrivileges u) (r_AssignedPrivileges r);
     r_OEMPrivileges := non_empty_or (r_OEMPrivileges u) (r_OEMPrivileges r) |}.
Definition put_updated_role (u r : AsModel.Role) := insert (M := gmap string jtext)
  (role_key (r_ID r)) (Text (marshal_Role (updated_role u r))).

Definition update_role_post w (req : UpdateRoleRequest) session (o : outcome asRPC) w' : Prop :=
  match o with
  | Panic => RequestParamsCaseValidator (ur_UpdateRequest req) (role_fields (decoded_update req)) = Panic
               /\ w' = w
  | Ok resp =>
      (StatusCode resp = StatusOK /\
       exists r, may_update_role w session (ur_Id req) (decoded_update req) r /\
         RBody resp = Body (RoleBody (updated_role (decoded_update req) r)) /\
         written w OnDisk (put_updated_role (decoded_update req) r) w')
      \/ (StatusCode resp <> StatusOK /\
         (ro w w' \/ (~ healthy w /\ exists r, may_update_role w session (ur_Id req) (decoded_update req) r /\
            maybe_written w OnDisk (put_updated_role (decoded_update req) r) w')))
  end.

Lemma validateUpdateRequest_spec u r :
  validateUpdateRequest u r = "" <->
  (r_ID u = "" \/ r_ID u = r_ID r) /\ r_IsPredefined u = r_IsPredefined r.
Proof.
  unfold validateUpdateRequest, changed_fields.
  destruct (String.eqb_spec (r_ID u) ""), (String.eqb_spec (r_ID r) (r_ID u)),
    (Bool.eqb_spec (r_IsPredefined r) (r_IsPredefined u)); cbn; naive_solver.
Qed.

Lemma wp_Update_role req session w : wf w ->
  wp (Role.Update req session) (update_role_post w req session) w.
Proof.
  intros Hwf. unfold Role.Update. pose proof (ro_refl _ Hwf) as Hrr.
  assert (Hre : forall (resp : asRPC) w', StatusCode resp <> StatusOK -> ro w w' ->
    update_role_post w req session (Ok resp) w').
  { intros resp w' Hc Hr. right. split; [done|by left]. }
  assert (Hdec : decoded_update req = (Unmarshal Role_type (ur_UpdateRequest req) zeroRole).1) by done.
  destruct (Unmarshal Role_type (ur_UpdateRequest req) zeroRole) as [u err]. cbn [fst] in Hdec. subst u.
  destruct (RequestParamsCaseValidator _ _) as [bad|] eqn:Ev; apply wp_bind, wp_lift; cbn [wp_cont];
    [|by split].
  destruct (negb _); [run_body; apply wp_lift; by apply Hre|].
  wp_call wp_GetRedfishRoles; [done|]. intros [[e|l]|] w1 [Hro Hl]; [| |done]; cbn [wp_cont].
  { run_body. apply wp_lift. by apply Hre. }
  destruct (is_redfish_role l (ur_Id req)) eqn:Ered; [apply wp_lift; by apply Hre|].
  unfold checkForPrivilege. destruct (has_privilege session PrivilegeConfigureUsers) eqn:Ep; cbn [negb].
  2:{ eapply wp_mono; [apply wp_refuse, Hro|]. intros o w2 (Hro2 & resp & -> & Hc).
      apply Hre; [by rewrite Hc|by eapply ro_trans]. }
  wp_call wp_GetRoleDetailsByID; [apply Hro|]. intros [[e|r]|] w2 [Hro2 Hr]; [| |done]; cbn [wp_cont];
    assert (Hr2 : ro w w2) by (by eapply ro_trans).
  { run_body. apply wp_lift. by apply Hre. }
  change (role_of w1 (ur_Id req) = Some r) in Hr. rewrite (role_of_ro _ _ _ Hro) in Hr.
  pose proof (isDuplicatePrivilegesPresent_spec (decoded_update req)) as Hdup.
  destruct (isDuplicatePrivilegesPresent (decoded_update req)) as [p [|]]; cbn [snd] in Hdup.
  { apply wp_lift. by apply Hre. }
  destruct (proj1 Hdup eq_refl) as [Hnd1 Hnd2]. clear Hdup.
  destruct (String.eqb_spec (validateUpdateRequest (decoded_update req) r) "") as [Hval|Hval]; cbn [negb].
  2:{ run_body. apply wp_lift. by apply Hre. }
  apply validateUpdateRequest_spec in Hval as [Hid Hpre].
  destruct ((length _ =? 0) && (length _ =? 0))%nat eqn:Eemp; [run_body; apply wp_lift; by apply Hre|].
  apply wp_check_both; [apply Hr2|..].
  { intros resp w4 Hr4 Hc _. apply Hre; [by destruct Hc as [-> | ->]|by eapply ro_trans]. }
  intros w4 Hro4. rewrite (assigned_registry_proper _ _ (ro_same _ _ Hr2)), (oem_registry_proper _ _ (ro_same _ _ Hr2)).
  intros Hp3 Hp4.
  assert (Hr4 : ro w w4) by (by eapply ro_trans).
  assert (Hmay : may_update_role w session (ur_Id req) (decoded_update req) r).
  { split_and!; try done.
    - exists l. split; [done|]. rewrite <- is_redfish_role_spec. by rewrite Ered.
    - destruct (items (r_AssignedPrivileges (decoded_update req))); [right|by left].
      by destruct (items (r_OEMPrivileges (decoded_update req))). }
  change {| r_ID := r_ID r; r_IsPredefined := r_IsPredefined r;
            r_AssignedPrivileges := non_empty_or (r_AssignedPrivileges (decoded_update req)) (r_AssignedPrivileges r);
            r_OEMPrivileges := non_empty_or (r_OEMPrivileges (decoded_update req)) (r_OEMPrivileges r) |}
    with (updated_role (decoded_update req) r).
  wp_call wp_UpdateRoleDetails; [apply Hr4|]. intros [[e|]|] w5 Hput; [| |done]; cbn [wp_cont]; simpl in Hput.
  - run_body. apply wp_lift. right. split; [done|].
    destruct Hput as [(_ & Hr5 & _)|(_ & Hn & Hm)]; [left; by eapply ro_trans|right].
    split; [by eapply unhealthy_ro|]. exists r. split; [done|]. by eapply ro_maybe_written.
  - apply wp_ret. left. split; [done|]. exists r. split_and!; [done|done|].
    eapply ro_written; [exact Hr4|apply Hput].
Qed.

(** *** Delete *)

(** The session a request comes with has been looked up and its last-used time set. *)
Definition admitted w tok (sess : AsModel.Session) w1 : Prop :=
  tok <> "" /\ session_of w tok = Some sess /\
  exists t t', fresh t sess /\ (clock (w_env w) <= t <= t')%Z /\ (t' <= clock (w_env w1))%Z /\
    touched w sess t' w1.
(** Or not: nothing was stored, or a command failed. *)
Definition not_admitted w tok w' : Prop :=
  (ro w w' /\ (healthy w -> typed w -> rejected w tok (clock (w_env w')))) \/
  (~ healthy w /\ exists sess t, session_of w tok = Some sess /\ touched w sess t w').

Lemma admitted_disk w tok sess w1 : admitted w tok sess w1 -> view w1 OnDisk = view w OnDisk.
Proof. intros (_ & _ & t & t' & _ & _ & _ & Ht). by eapply touched_disk. Qed.
Lemma admitted_wf w tok sess w1 : admitted w tok sess w1 -> wf w1.
Proof. intros (_ & _ & t & t' & _ & _ & _ & Ht). apply Ht. Qed.
Lemma admitted_healthy w tok sess w1 : admitted w tok sess w1 -> healthy w -> healthy w1.
Proof. intros (_ & _ & t & t' & _ & _ & _ & Ht). apply Ht. Qed.

(** The common prologue of the handlers, whatever the texts of its errors. *)
Lemma admission_cases w tok w1 (o : outcome (result AsModel.Session)) : check_post w tok o w1 ->
  match o with
  | Ok (inr s) => tok <> "" /\ session_of w tok = Some s /\ ro w w1 /\
      forall r w2, update_post w1 tok (Ok r) w2 ->
        match r with None => admitted w tok s w2 | Some _ => not_admitted w tok w2 end
  | Ok (inl e) => forall w2, ro w1 w2 -> not_admitted w tok w2
  | Panic => False
  end.
Proof.
  intros [Hro Hp]. destruct o as [[e|s]|]; [| |done].
  - intros w2 Hro2. left. split; [by eapply ro_trans|]. intros Hh _. destruct Hp as [Hn|[Hj _]]; [done|].
    eapply rejected_later; [|exact Hj]. by apply ro_clock.
  - destruct Hp as (Hne & Hs & t & Ht & Hf). split_and!; [done|done|done|]. intros [err|] w2 Hu; simpl in Hu.
    + rewrite (session_of_ro _ _ _ Hro) in Hu. destruct Hu as [[Hr [Hu|(s' & Hs' & Hn)]]|[Hn Hm]].
      * congruence.
      * left. split; [by eapply ro_trans|]. intros _ Hty. exfalso.
        rewrite Hs in Hs'. injection Hs' as <-. rewrite (typed_token _ _ _ Hty Hs) in Hn.
        apply stored_Some in Hs. rewrite (ro_view _ _ _ Hro) in Hn. rewrite Hn in Hs. by destruct Hs.
      * destruct Hm as [Hm|(s' & t' & Hs' & Hm)].
        -- left. split; [by eapply ro_trans|]. intros Hh. destruct Hn. by apply Hro.
        -- right. split; [by eapply unhealthy_ro|]. exists s', t'. split; [done|]. by eapply touched_ro.
    + rewrite (session_of_ro _ _ _ Hro) in Hu. destruct Hu as (s' & t' & Hs' & Ht' & Hw).
      rewrite Hs in Hs'. injection Hs' as <-. split_and!; [done|done|]. exists t, t'.
      split_and!; [done|lia|lia|lia|]. by eapply touched_ro.
Qed.

Lemma wp_doSessionAuthAndUpdate tok w : wf w ->
  wp (doSessionAuthAndUpdate tok)
     (fun o w' => match o with
        | Ok (inr sess) => admitted w tok sess w'
        | Ok (inl resp) => StatusCode resp <> StatusNoContent /\ not_admitted w tok w'
        | Panic => False
        end) w.
Proof.
  intros Hwf. unfold doSessionAuthAndUpdate. wp_call wp_CheckSessionTimeOut; [done|].
  intros o w1 Hp. pose proof Hp as [Hro _]. apply admission_cases in Hp.
  destruct o as [[e|s]|]; [| |done]; cbn [wp_cont].
  - wp_call wp_invalidTokenRPC; [apply Hro|]. intros o w2 (Hro2 & resp & -> & _ & Hc). wp_go.
    split; [by destruct Hc as [-> | ->]|auto].
  - destruct Hp as (_ & _ & _ & Hp). wp_call wp_UpdateLastUsedTime; [apply Hro|].
    intros [r|] w2 Hu; [|done]. apply Hp in Hu. destruct r; cbn [wp_cont]; [run_body|]; wp_go; done.
Qed.

(** No account has the role, and it is a stored role that is not predefined. *)
Definition may_delete_role w session (id : string) (r : AsModel.Role) : Prop :=
  has_privilege session PrivilegeConfigureUsers = true /\
  (forall name u, user_of w name = Some u -> u_RoleID u <> id) /\
  role_of w id = Some r /\ r_IsPredefined r = false.

Definition delete_role_post w (req : RoleIDRequest) (o : outcome asRPC) w' : Prop :=
  match o with
  | Panic => False
  | Ok resp =>
      (StatusCode resp <> StatusNoContent /\ not_admitted w (ri_SessionToken req) w') \/
      exists sess w1, admitted w (ri_SessionToken req) sess w1 /\
        ((StatusCode resp = StatusNoContent /\
          exists r, may_delete_role w sess (ri_Id req) r /\
            written w1 OnDisk (delete (role_key (r_ID r))) w')
         \/ (StatusCode resp <> StatusNoContent /\
           (ro w1 w' \/ (~ healthy w1 /\ exists r, may_delete_role w sess (ri_Id req) r /\
              maybe_written w1 OnDisk (delete (role_key (r_ID r))) w'))))
  end.

Lemma no_user_with_role w us id : all_post User_type zeroUser w OnDisk "User" (Ok (inr us)) ->
  existsb (fun user => String.eqb id (u_RoleID user)) us = false ->
  forall name u, user_of w name = Some u -> u_RoleID u <> id.
Proof.
  intros (ids & [_ Hids] & Hall) Hex name u Hu Hrole.
  assert (Hin : name ∈ ids) by (apply Hids; by eapply stored_Some).
  apply list_elem_of_lookup in Hin as [i Hi].
  destruct (Forall2_lookup_l _ _ _ _ _ Hall Hi) as (u' & Hi' & Hu').
  assert (u' = u) as -> by (unfold user_of, user_key in Hu; congruence).
  assert (Ht : existsb (fun user => String.eqb id (u_RoleID user)) us = true).
  { apply existsb_In. exists u. split; [|by apply String.eqb_eq].
    by apply list_elem_of_In, list_elem_of_lookup_2 with i. }
  congruence.
Qed.

Lemma wp_Delete_role req w : wf w ->
  wp (Role.Delete req) (delete_role_post w req) w.
Proof.
  intros Hwf. unfold Role.Delete. wp_call wp_doSessionAuthAndUpdate; [done|].
  intros [[resp|sess]|] w1 Hp; [| |done]; cbn [wp_cont]; [apply wp_ret; by left|].
  pose proof (admitted_wf _ _ _ _ Hp) as Hwf1. pose proof (admitted_disk _ _ _ _ Hp) as Hdisk.
  assert (Hre : forall (resp : asRPC) w', StatusCode resp <> StatusNoContent -> ro w1 w' ->
    delete_role_post w req (Ok resp) w').
  { intros resp w' Hc Hr. right. exists sess, w1. split; [done|]. right. split; [done|by left]. }
  destruct (has_privilege sess PrivilegeConfigureUsers) eqn:Epr; cbn [negb].
  2:{ run_body. wp_call wp_CustomAuthLog; [done|]. intros o w2 [-> Hro]. wp_go. by apply Hre. }
  wp_call wp_GetAllUsers; [done|]. intros [[e|us]|] w2 [Hro Hus]; [| |done]; cbn [wp_cont].
  { run_body. apply wp_lift. by apply Hre. }
  destruct (existsb _ us) eqn:Eus. { run_body. apply wp_lift. by apply Hre. }
  wp_call wp_GetRoleDetailsByID; [apply Hro|]. intros [[e|r]|] w3 [Hro3 Hr]; [| |done]; cbn [wp_cont];
    assert (Hr3 : ro w1 w3) by (by eapply ro_trans).
  { destruct (decide _); run_body; apply wp_lift; by apply Hre. }
  change (role_of w2 (ri_Id req) = Some r) in Hr. rewrite (role_of_ro _ _ _ Hro) in Hr.
  destruct (r_IsPredefined r) eqn:Epd. { run_body. apply wp_lift. by apply Hre. }
  assert (Hmay : may_delete_role w sess (ri_Id req) r).
  { split_and!; [done| | |done].
    - intros name u Hu. apply (no_user_with_role w1 us (ri_Id req) Hus Eus name).
      unfold user_of in *. by rewrite Hdisk.
    - unfold role_of in *. by rewrite <- Hdisk. }
  wp_call wp_Role_Delete; [apply Hr3|]. intros o w4 Hd. apply (delete_post_ro _ _ _ _ _ _ Hr3) in Hd.
  destruct o as [[e|]|]; [| |done]; cbn [wp_cont]; simpl in Hd.
  - run_body. apply wp_lift. destruct Hd as [(_ & Hr4 & _)|(_ & Hn & Hm)]; [by apply Hre|].
    right. exists sess, w1. split; [done|]. right. split; [done|right]. split; [done|]. by exists r.
  - apply wp_ret. right. exists sess, w1. split; [done|]. left. split; [done|]. exists r.
    split; [done|apply Hd].
Qed.
(** *** Reading *)

Lemma wp_GetRole req session w : wf w ->
  wp (GetRole req session)
     (fun o w' => ro w w' /\ exists resp, o = Ok resp /\
        (StatusCode resp = StatusOK -> has_privilege session PrivilegeConfigureUsers = true /\
           exists rs r, role_of w (ri_Id req) = Some r /\
             RBody resp = Body (UserRoleBody rs (r_IsPredefined r) (r_AssignedPrivileges r) (r_OEMPrivileges r)))) w.
Proof.
  intros Hwf. unfold GetRole, checkForPrivilege. change "ConfigureUsers" with PrivilegeConfigureUsers.
  destruct (has_privilege session PrivilegeConfigureUsers) eqn:Ep; cbn [negb].
  2:{ eapply wp_mono; [by apply wp_refuse|]. intros o w1 (Hro & resp & -> & Hc). split; [done|].
      exists resp. split; [done|]. by rewrite Hc. }
  wp_call wp_GetRoleDetailsByID; [done|]. intros [[e|r]|] w1 [Hro Hr]; [| |done]; cbn [wp_cont].
  - destruct (decide _); run_body; apply wp_lift; (split; [done|]); by eexists.
  - run_body. wp_go. split; [done|]. eexists. split; [done|]. intros _. split; [done|]. by eexists _, r.
Qed.

Lemma wp_GetAllRoles_role session w : wf w ->
  wp (Role.GetAllRoles session) (fun o w' => ro w w' /\ exists resp, o = Ok resp) w.
Proof.
  intros Hwf. unfold Role.GetAllRoles, checkForPrivilege.
  destruct (has_privilege session _) eqn:Ep; cbn [negb].
  - wp_call wp_GetAllRoles; [done|]. intros [[e|rs]|] w1 [Hro Hall]; [| |done]; cbn [wp_cont].
    + run_body. apply wp_lift. split; [done|by eexists].
    + run_body. wp_go. split; [done|by eexists].
  - wp_call wp_CustomAuthLog; [done|]. intros o w' [-> Hro]. cbn [wp_cont fst snd]. run_body.
    apply wp_lift. split; [done|by eexists].
Qed.
End rolespec.

(** ** Properties *)

Section properties.
Context `{EnvLaws, Libs, SingleNode}.
Implicit Types (w : World) (session : AsModel.Session).

(** Creating a role never panics, and whatever commands fail it answers 201 only for a session
    with ConfigureUsers and a body with an acceptable identifier that is not a Redfish-defined role,
    at least one privilege, and only privileges of the two registries; the role is then stored as
    not predefined, under an identifier that was free when no command failed, and nothing else
    changes.  In a healthy process such a request, with its properties in the right case, is
    answered 201, and one that is refused changes nothing. *)
Theorem Create_role_spec w req session :
  wf w ->
  exists resp w', Role.Create req session w = (Ok resp, w') /\
    (StatusCode resp = StatusCreated ->
       exists r, Unmarshal Role_type (rr_RequestBody req) zeroRole = (r, None) /\
         may_create_role w session r /\ (healthy w -> absent w OnDisk (role_key (r_ID r))) /\
         view w' OnDisk = <[role_key (r_ID r) := Text (marshal_Role (new_role r))]> (view w OnDisk) /\
         view w' InMemory = view w InMemory) /\
    (healthy w -> forall r, Unmarshal Role_type (rr_RequestBody req) zeroRole = (r, None) ->
       reported (role_fields r) (unmarshal_map (rr_RequestBody req)).*1 = "" ->
       may_create_role w session r -> absent w OnDisk (role_key (r_ID r)) ->
       StatusCode resp = StatusCreated) /\
    (healthy w -> StatusCode resp <> StatusCreated -> forall db, view w' db = view w db).
Proof.
  intros Hwf. destruct (wp_elim _ _ _ (wp_Create_role req session w Hwf)) as ([resp|] & w' & E & Hp);
    [|done]. exists resp, w'. split; [done|].
  destruct Hp as [(Hc & r & Hr & Hm & Hab & Hw)|(Hc & [[Hr Hn]|(Hn & _)])].
  - split_and!; [|done|done]. intros _. exists r. rewrite !(ev_view _ _ _ Hw), upd_eq, upd_ne by done.
    split_and!; try done. intros Hh. by destruct Hab.
  - split_and!; [done| |].
    + intros Hh r Ha Hre Hm Hab. by destruct (Hn Hh r Ha Hre Hm).
    + intros _ _ db. by apply ro_view.
  - by split_and!.
Qed.

(** Whatever commands fail, updating a role changes at most the role named in the request, and
    only for a session with ConfigureUsers, a role that is stored and not Redfish-defined, and a body
    without duplicates that changes neither the identifier nor the predefined flag and names only
    registered privileges; a list the body leaves out, or gives empty, stays; an answer of 200
    means the role was stored and is the one shown.  It panics only where the check of the
    property names does, and then nothing changed. *)
Theorem Update_role_spec w req session :
  wf w ->
  exists o w', Role.Update req session w = (o, w') /\
    view w' InMemory = view w InMemory /\
    (forall k, view w' OnDisk !! k <> view w OnDisk !! k ->
       exists r, may_update_role w session (ur_Id req) (decoded_update req) r /\
         k = role_key (r_ID r) /\
         view w' OnDisk !! k = Some (Text (marshal_Role (updated_role (decoded_update req) r)))) /\
    (forall resp, o = Ok resp -> StatusCode resp = StatusOK ->
       exists r, may_update_role w session (ur_Id req) (decoded_update req) r /\
         RBody resp = Body (RoleBody (updated_role (decoded_update req) r)) /\
         role_of w' (r_ID r) = Some (updated_role (decoded_update req) r)) /\
    (o = Panic <-> RequestParamsCaseValidator (ur_UpdateRequest req)
                     (role_fields (decoded_update req)) = Panic).
Proof.
  intros Hwf. destruct (wp_elim _ _ _ (wp_Update_role req session w Hwf)) as (o & w' & E & Hp).
  exists o, w'. split; [done|].
  assert (Hpan : RequestParamsCaseValidator (ur_UpdateRequest req)
                     (role_fields (decoded_update req)) = Panic -> o = Panic).
  { intros Hv. revert E. unfold Role.Update. unfold decoded_update in Hv.
    destruct (Unmarshal Role_type (ur_UpdateRequest req) zeroRole) as [u err]. cbn [fst] in Hv.
    rewrite Hv. unfold lift, bind. congruence. }
  destruct o as [resp|].
  2:{ destruct Hp as [Hv ->]. by split_and!. }
  assert (Hnp : Ok resp = Panic <-> RequestParamsCaseValidator (ur_UpdateRequest req)
                     (role_fields (decoded_update req)) = Panic) by (by split).
  assert (Hw : forall r, may_update_role w session (ur_Id req) (decoded_update req) r ->
    written w OnDisk (put_updated_role (decoded_update req) r) w' ->
    view w' InMemory = view w InMemory /\
    (forall k, view w' OnDisk !! k <> view w OnDisk !! k ->
       exists r, may_update_role w session (ur_Id req) (decoded_update req) r /\
         k = role_key (r_ID r) /\
         view w' OnDisk !! k = Some (Text (marshal_Role (updated_role (decoded_update req) r)))) /\
    role_of w' (r_ID r) = Some (updated_role (decoded_update req) r)).
  { intros r Hm Hw. unfold role_of. rewrite !(ev_view _ _ _ Hw), upd_eq, upd_ne by done. split_and!.
    - done.
    - intros k Hk. exists r. destruct (decide (k = role_key (r_ID r))) as [->|Hne].
      + split_and!; [done..|]. apply lookup_insert_eq.
      + destruct Hk. by apply lookup_insert_ne.
    - apply stored_insert, Role_roundtrip. }
  destruct Hp as [(Hc & r & Hm & Hb & Hwr)|(Hc & [Hr|(_ & r & Hm & [Hr|Hwr])])].
  - destruct (Hw r Hm Hwr) as (Hv & Hk & Hs). split_and!; [done|done| |done].
    intros ? [= <-] _. by exists r.
  - rewrite !(ro_view _ _ _ Hr). split_and!; [done|done| |done]. by intros ? [= <-] ?.
  - rewrite !(ro_view _ _ _ Hr). split_and!; [done|done| |done]. by intros ? [= <-] ?.
  - destruct (Hw r Hm Hwr) as (Hv & Hk & Hs). split_and!; [done|done| |done].
    by intros ? [= <-] ?.
Qed.

(** Deleting a role never panics, and whatever commands fail it removes at most the role named
    in the request, only for a live session with ConfigureUsers, and never a predefined role or one
    that an account has; an answer of 204 means the role is gone. *)
Theorem Delete_role_spec w req :
  wf w -> typed w ->
  exists resp w', Role.Delete req w = (Ok resp, w') /\
    (forall k, view w' OnDisk !! k <> view w OnDisk !! k ->
       k = role_key (ri_Id req) /\ view w' OnDisk !! k = None /\
       exists sess r t, session_of w (ri_SessionToken req) = Some sess /\ fresh t sess /\
         (clock (w_env w) <= t <= clock (w_env w'))%Z /\ may_delete_role w sess (ri_Id req) r) /\
    (StatusCode resp = StatusNoContent ->
       is_Some (role_of w (ri_Id req)) /\ view w' OnDisk !! role_key (ri_Id req) = None).
Proof.
  intros Hwf Hty. destruct (wp_elim _ _ _ (wp_Delete_role req w Hwf)) as ([resp|] & w' & E & Hp); [|done].
  exists resp, w'. split; [done|].
  destruct Hp as [(Hc & [[Hr _]|(_ & sess & t & _ & Ht)])|(sess & w1 & Had & Hp)].
  { rewrite (ro_view _ _ _ Hr). by split. }
  { rewrite (touched_disk _ _ _ _ Ht). by split. }
  pose proof (admitted_disk _ _ _ _ Had) as Hd.
  assert (Hw : forall r, may_delete_role w sess (ri_Id req) r ->
    written w1 OnDisk (delete (role_key (r_ID r))) w' ->
    (forall k, view w' OnDisk !! k <> view w OnDisk !! k ->
       k = role_key (ri_Id req) /\ view w' OnDisk !! k = None /\
       exists sess r t, session_of w (ri_SessionToken req) = Some sess /\ fresh t sess /\
         (clock (w_env w) <= t <= clock (w_env w'))%Z /\ may_delete_role w sess (ri_Id req) r) /\
    is_Some (role_of w (ri_Id req)) /\ view w' OnDisk !! role_key (ri_Id req) = None).
  { intros r Hm Hw. pose proof Hm as (_ & _ & Hr & _). pose proof (ev_clock _ _ _ Hw) as Hck.
    rewrite (typed_role _ _ _ Hty Hr) in Hw. rewrite (ev_view _ _ _ Hw), upd_eq, Hd.
    split_and!; [|by eexists|apply lookup_delete_eq].
    intros k Hk. destruct (decide (k = role_key (ri_Id req))) as [->|Hne];
      [|by rewrite lookup_delete_ne in Hk].
    split_and!; [done|apply lookup_delete_eq|].
    destruct Had as (_ & Hs & t & t' & Hf & Ht & Ht' & _). exists sess, r, t. split_and!; [done|done|lia|lia|done]. }
  destruct Hp as [(Hc & r & Hm & Hwr)|(Hc & [Hr|(_ & r & Hm & [Hr|Hwr])])].
  - destruct (Hw r Hm Hwr) as (Hk & Hs). by split.
  - rewrite (ro_view _ _ _ Hr), Hd. by split.
  - rewrite (ro_view _ _ _ Hr), Hd. by split.
  - destruct (Hw r Hm Hwr) as (Hk & Hs). by split.
Qed.
End properties.

(** ** The properties at concrete inputs *)

Section witnesses.
#[local] Existing Instances single single_node.

Definition role_body (id : string) (ps : list string) : jtext :=
  Text (JObj [("RoleId", JStr id); ("AssignedPrivileges", JArr (JStr <$> ps))]).

Lemma Create_role_spec_witness :
  exists resp w', Role.Create {| rr_SessionToken := ""; rr_RequestBody := role_body "Auditor" ["Login"] |}
    admin_session (service minute []) = (Ok resp, w') /\ StatusCode resp = StatusCreated.
Proof.
  destruct (Create_role_spec (service minute [])
    {| rr_SessionToken := ""; rr_RequestBody := role_body "Auditor" ["Login"] |} admin_session (service_wf _ _))
    as (resp & w' & E & _). exists resp, w'. split; [exact E|].
  apply (f_equal (fun x => status_of x.1)) in E. cbn [fst status_of] in E. rewrite <- E.
  vm_compute. reflexivity.
Defined.

Definition spare_update : jtext := Text (JObj [("AssignedPrivileges", JArr [JStr "Login"; JStr "ConfigureSelf"])]).

Lemma Update_role_spec_witness :
  exists o w', Role.Update {| ur_SessionToken := ""; ur_Id := "Spare"; ur_UpdateRequest := spare_update |}
    admin_session (service minute []) = (o, w') /\ status_of o = StatusOK.
Proof.
  destruct (Update_role_spec (service minute [])
    {| ur_SessionToken := ""; ur_Id := "Spare"; ur_UpdateRequest := spare_update |} admin_session (service_wf _ _))
    as (o & w' & E & _). exists o, w'. split; [exact E|].
  apply (f_equal (fun x => status_of x.1)) in E. cbn [fst] in E. rewrite <- E.
  vm_compute. reflexivity.
Defined.

Lemma Delete_role_spec_witness :
  exists resp w', Role.Delete {| ri_SessionToken := "tok-admin"; ri_Id := "Spare" |} (service minute []) = (Ok resp, w') /\
    StatusCode resp = StatusNoContent /\ view w' OnDisk !! role_key "Spare" = None.
Proof.
  destruct (Delete_role_spec (service minute []) {| ri_SessionToken := "tok-admin"; ri_Id := "Spare" |}
    (service_wf _ _) (service_typed _ _)) as (resp & w' & E & _ & Hc).
  exists resp, w'. split; [exact E|].
  apply (f_equal (fun x => status_of x.1)) in E. cbn [fst status_of] in E.
  assert (Hs : StatusCode resp = StatusNoContent) by (rewrite <- E; vm_compute; reflexivity).
  split; [exact Hs|]. by apply Hc.
Defined.
End witnesses.
