(* ===== verification/System.v ===== *)
(** The account-session service as a whole: the requests it serves, a history of requests and
    restarts, and what it promises of its databases, as a transition system.

    The abstract state is the contents of the two databases.  Each [change] is one write of one
    record, with the condition under which the service makes it; it is labelled with the session the
    request came with, if it came with one that was valid.  [SystemProps] proves that every request
    is a sequence of changes, and the invariants of the changes. *)
From stdpp Require Import base gmap list strings.
From S2P Require Import Prelude Go Response Redis World ConnPool DBSpec AsModel AsSpec Auth Session Account Role Rpc AccountProps RoleProps.
Open Scope string_scope.

(** ** The requests *)

Section System.
Context `{Env, Libs, Config}.

(** What the gRPC server and the goroutines run. *)
Inductive request :=
| CreateAccount (req : CreateAccountRequest)
| ReadAccounts (token : string)
| ReadAccount (req : AccountIDRequest)
| ReadAccountServices (token : string)
| UpdateAccount (req : UpdateAccountRequest)
| DeleteAccount (req : AccountIDRequest)
| CreateRole (req : RoleRequest)
| ReadRole (req : RoleIDRequest)
| ReadRoles (req : RoleIDRequest)
| UpdateRole (req : UpdateRoleRequest)
| DeleteRole (req : RoleIDRequest)
| LogIn (RequestBody : jtext)
| LogOut (req : SessionRequest)
| ReadSession (req : SessionRequest)
| ReadSessionUserName (req : SessionRequest)
| ReadSessionUserRoleID (req : SessionRequest)
| ReadSessions (req : SessionRequest)
| ReadSessionService (req : SessionRequest)
| Authorize (token : string) (privileges : list string)
| CleanUp.

(** The response goes back to the caller. *)
Definition drop {A} (m : IO A) : IO unit := m ;;; ret tt.

Definition serve (r : request) : IO unit :=
  match r with
  | CreateAccount req => drop (Account_Create req)
  | ReadAccounts token => drop (Account_GetAllAccounts token)
  | ReadAccount req => drop (Account_GetAccount req)
  | ReadAccountServices token => drop (Account_GetAccountServices token)
  | UpdateAccount req => drop (Account_Update req)
  | DeleteAccount req => drop (Account_Delete req)
  | CreateRole req => drop (Role_CreateRole req)
  | ReadRole req => drop (Role_GetRole req)
  | ReadRoles req => drop (Role_GetAllRoles req)
  | UpdateRole req => drop (Role_UpdateRole req)
  | DeleteRole req => drop (Role_DeleteRole req)
  | LogIn body => drop (Session_CreateSession body)
  | LogOut req => drop (Session_DeleteSession req)
  | ReadSession req => drop (Session_GetSession req)
  | ReadSessionUserName req => drop (Session_GetSessionUserName req)
  | ReadSessionUserRoleID req => drop (Session_GetSessionUserRoleID req)
  | ReadSessions req => drop (Session_GetAllActiveSessions req)
  | ReadSessionService req => drop (Session_GetSessionService req)
  | Authorize token privileges => drop (IsAuthorized token privileges)
  | CleanUp => expiredSessionCleanUp
  end.

(** The token a request comes with. *)
Definition token_of (r : request) : string :=
  match r with
  | CreateAccount req => car_SessionToken req
  | ReadAccounts token | ReadAccountServices token => token
  | ReadAccount req | DeleteAccount req => air_SessionToken req
  | UpdateAccount req => uar_SessionToken req
  | CreateRole req => rr_SessionToken req
  | ReadRole req | ReadRoles req | DeleteRole req => ri_SessionToken req
  | UpdateRole req => ur_SessionToken req
  | LogOut req | ReadSession req | ReadSessionUserName req | ReadSessionUserRoleID req
  | ReadSessions req | ReadSessionService req => SessionToken req
  | Authorize token _ => token
  | LogIn _ | CleanUp => ""
  end.

(** A panic of a handler ends the process, which is started again with no pool; a history goes on
    with what was written. *)
Definition restart (w : World) : World := mkWorld (w_env w) None None 0 0.
Inductive event := Serve (r : request) | Restart.
Definition happen (w : World) (e : event) : World :=
  match e with
  | Serve r =>
      match serve r w with
      | (Ok _, w') => w'
      | (Panic, w') => restart w'
      end
  | Restart => restart w
  end.
Definition history (es : list event) (w : World) : World := fold_left happen es w.
End System.

(** ** The databases as a transition system *)

Abbreviation table := (gmap string jtext).
Record state := { mem : table; disk : table }.

Definition session_in (st : state) tok := stored Session_type zeroSession (mem st) (session_key tok).
Definition user_in (st : state) name := stored User_type zeroUser (disk st) (user_key name).
Definition role_in (st : state) id := stored Role_type zeroRole (disk st) (role_key id).

Definition set_session (s : AsModel.Session) (st : state) : state :=
  {| mem := <[session_key (s_Token s) := Text (marshal_Session s)]> (mem st); disk := disk st |}.
Definition drop_session (s : AsModel.Session) (st : state) : state :=
  {| mem := delete (session_key (s_Token s)) (mem st); disk := disk st |}.
Definition set_user (u : User) (st : state) : state :=
  {| mem := mem st; disk := <[user_key (u_UserName u) := Text (marshal_User u)]> (disk st) |}.
Definition drop_user (id : string) (st : state) : state :=
  {| mem := mem st; disk := delete (user_key id) (disk st) |}.
Definition set_role (r : AsModel.Role) (st : state) : state :=
  {| mem := mem st; disk := <[role_key (r_ID r) := Text (marshal_Role r)]> (disk st) |}.
Definition drop_role (r : AsModel.Role) (st : state) : state :=
  {| mem := mem st; disk := delete (role_key (r_ID r)) (disk st) |}.

Section change.
Context `{Config}.

Definition admin_actor (who : option AsModel.Session) : Prop :=
  exists sess, who = Some sess /\ has_privilege sess PrivilegeConfigureUsers = true.

Inductive change (who : option AsModel.Session) (st : state) : state -> Prop :=
| TouchSession tok s t :
    session_in st tok = Some s -> change who st (set_session (with_LastUsedTime t s) st)
| NewSession name u r s :
    user_in st name = Some u -> s_UserName s = u_UserName u -> s_RoleID s = u_RoleID u ->
    role_in st (u_RoleID u) = Some r -> In PrivilegeLogin (items (r_AssignedPrivileges r)) ->
    (forall p, has_privilege s p = true <-> In p (items (r_AssignedPrivileges r))) ->
    change who st (set_session s st)
| EndSession tok s :
    session_in st tok = Some s -> change who st (drop_session s st)
| Sweep t st' :
    disk st' = disk st ->
    (forall k, mem st' !! k = mem st !! k \/
       (mem st' !! k = None /\ exists tok s, k = session_key tok /\ session_in st tok = Some s /\
          minutes_exceed (t - s_LastUsedTime s) SessionTimeOut = true)) ->
    change who st st'
| NewUser u :
    admin_actor who -> u_UserName u <> "" -> is_Some (role_in st (u_RoleID u)) ->
    change who st (set_user u st)
| EditUser name u u' sess :
    who = Some sess -> user_in st name = Some u -> u_UserName u' = u_UserName u ->
    (u_UserName u = s_UserName sess \/ admin_actor who) ->
    (u_RoleID u' <> u_RoleID u -> admin_actor who /\
       (predefined_role (u_RoleID u') \/ is_Some (role_in st (u_RoleID u')))) ->
    change who st (set_user u' st)
| DropUser id :
    admin_actor who -> id <> defaultAdminAccount -> change who st (drop_user id st)
| NewRole r :
    admin_actor who -> r_IsPredefined r = false -> change who st (set_role r st)
| EditRole id r r' :
    admin_actor who -> role_in st id = Some r -> r_ID r' = r_ID r ->
    r_IsPredefined r' = r_IsPredefined r -> change who st (set_role r' st)
| DropRole id r :
    admin_actor who -> role_in st id = Some r -> r_IsPredefined r = false ->
    (forall name u, user_in st name = Some u -> u_RoleID u <> id) -> change who st (drop_role r st).

End change.

(** ** Invariants of the databases *)

Record typed_state (st : state) : Prop := {
  ts_session : tab_typed "session" Session_type zeroSession s_Token (mem st);
  ts_user : tab_typed "User" User_type zeroUser u_UserName (disk st);
  ts_role : tab_typed "role" Role_type zeroRole r_ID (disk st);
}.
(** The role of every account is one of the three predefined names or a stored role. *)
Definition roles_exist (st : state) : Prop :=
  forall name u, user_in st name = Some u ->
    predefined_role (u_RoleID u) \/ is_Some (role_in st (u_RoleID u)).
Definition has_admin (st : state) : Prop := is_Some (user_in st defaultAdminAccount).
