(* ===== verification/GatewayRpc.v ===== *)
(** svc-api/rpc: the gateway's calls of the other services.

    The account-session service is the one modelled here: a call runs its handler in its own process
    on the databases.  The rest of the system is opaque, with a state of its own ([rest]); within a
    call it may send requests to the account-session service.  A service that dies during a call is
    started again and the call fails. *)
From stdpp Require Import base gmap list strings.
From S2P Require Import Prelude Go Response Http Redis World ConnPool DBSpec AsModel Auth Session Account Role Rpc Services THandle Proto HandleFixed System.
Open Scope string_scope.

(** The body of an answer: of the account-session service before it is made JSON, or bytes. *)
Inductive payload :=
| OfSession (b : asBody)
| OfService (bytes : string).
Definition session_body (b : body asBody) : body payload :=
  match b with NoBody => NoBody | ErrorBody e => ErrorBody e | Body b => Body (OfSession b) end.
Definition session_answer (r : asRPC) : RPC payload :=
  mkRPC (StatusCode r) (StatusMessage r) (Header r) (session_body (RBody r)).

(** Whether a client of a service can be made ([ODIMService.Client]), and whether the answer of a
    call arrives; how an error of a handler reads at the client; the text of the error when the process of
    the service died; and the rest of the
    system: the requests it sends, its answer, and its state afterwards. *)
Class Peers `{Env} : Type := {
  dial : string -> env -> option string;
  broken : string -> env -> option string;
  worded : string -> string;
  lost : string;
  rest : Type;
  remote : string -> string -> message -> World -> rest -> list request * RPC payload * rest;
}.
#[export] Instance session_network `{Peers} : Network :=
  {| client_error := dial AccountSession; call_error := broken AccountSession; handler_error := worded |}.

(** A line of the logs that customLogs writes. *)
Inductive log_line :=
| AuditLine (host user role : string) (method uri : string) (requestBody : option json) (code : Z) (ok : bool)
| AuthLine (priority user role tokenMsg errMsg msg : string).

Section Gateway.
Context `{Env, Libs, Config, !Peers}.

(** The pools of the gateway's own process, whose environment is that of the whole system; the
    process of the account-session service; the rest; the variable [reqBody] of the router; and the
    logs. *)
Record Gateway := mkGateway {
  gw_own : World;
  gw_session : World;
  gw_rest : rest;
  gw_reqBody : option (list (string * json));
  gw_log : list log_line;
}.
Definition gw_env (s : Gateway) : env := w_env (gw_own s).
Definition session_world (s : Gateway) : World := with_env (gw_env s) (gw_session s).
Definition with_session_world (w : World) (s : Gateway) : Gateway :=
  mkGateway (with_env (w_env w) (gw_own s)) w (gw_rest s) (gw_reqBody s) (gw_log s).
Definition with_rest (x : rest) (s : Gateway) : Gateway :=
  mkGateway (gw_own s) (gw_session s) x (gw_reqBody s) (gw_log s).
Definition with_reqBody (b : option (list (string * json))) (s : Gateway) : Gateway :=
  mkGateway (gw_own s) (gw_session s) (gw_rest s) b (gw_log s).
Definition add_log (l : log_line) (s : Gateway) : Gateway :=
  mkGateway (gw_own s) (gw_session s) (gw_rest s) (gw_reqBody s) (gw_log s ++ [l]).

Definition in_own A (m : IO A) : M Gateway A := fun s =>
  let (o, w) := m (gw_own s) in
  (o, mkGateway w (gw_session s) (gw_rest s) (gw_reqBody s) (gw_log s)).
(** The handler's process is started again when it panics. *)
Definition in_session A (m : IO A) : M Gateway A := fun s =>
  let (o, w) := m (session_world s) in
  (o, with_session_world (match o with Ok _ => w | Panic => restart w end) s).

(** ** The calls *)

(** What the generated client answers. *)
Definition arrived {A} (service : string) (r : option A) : M Gateway (answer A) :=
  let! s := get in
  ret (match r, broken service (gw_env s) with
       | Some a, None => (Some a, None)
       | Some _, Some err => (None, Some err)
       | None, _ => (None, Some lost)
       end).
Definition caught {A} (m : M Gateway A) : M Gateway (option A) := fun s =>
  match m s with (Ok a, s') => (Ok (Some a), s') | (Panic, s') => (Ok None, s') end.
Definition ask {A} (handler : IO A) : M Gateway (answer A) :=
  let! r := caught (in_session _ handler) in arrived AccountSession r.
Definition invoke (service method : string) (req : message) : M Gateway (answer (RPC payload)) :=
  let! r := (fun s =>
    let '(rs, resp, x) := remote service method req (session_world s) (gw_rest s) in
    (Ok (Some resp), with_rest x (with_session_world (history (Serve <$> rs) (session_world s)) s))) in
  arrived service r.

(** [ODIMService.Client(service)] and its error. *)
Definition connected {A} (service : string) (k : M Gateway (answer A)) : M Gateway (answer A) :=
  let! s := get in
  match dial service (gw_env s) with
  | Some err => ret (None, Some ("Failed to create client connection: " +:+ err))
  | None => k
  end.
(** [if err != nil { return nil, fmt.Errorf(text+"%v", err) }] *)
Definition wrap {A} (text : string) (r : answer A) : answer A :=
  match r.2 with Some err => (None, Some (text +:+ err)) | None => r end.
(** The same under [if err != nil && resp == nil]. *)
Definition wrap_nil {A} (text : string) (r : answer A) : answer A :=
  match r with (None, Some err) => (None, Some (text +:+ err)) | _ => r end.
Definition ask_session (text : string) (handler : IO asRPC) : M Gateway (answer (RPC payload)) :=
  connected AccountSession
    (let! r := ask handler in
     ret (wrap_nil text (session_answer <$> r.1, r.2))).

(** sessions.go *)
Definition rpc_DoSessionCreationRequest (RequestBody : jtext) : M Gateway (answer (RPC payload * string)) :=
  connected AccountSession
    (let! r := ask (Session_CreateSession RequestBody) in
     ret (wrap_nil "error while trying to make create session rpc call: "
            ((fun a => (session_answer a.1, a.2)) <$> r.1, r.2))).
Definition rpc_DeleteSessionRequest (sessionID sessionToken : string) : M Gateway (answer (RPC payload)) :=
  ask_session "error while trying to make delete session rpc call: "
    (Session_DeleteSession {| SessionId := sessionID; SessionToken := sessionToken |}).
Definition rpc_GetSessionRequest (sessionID sessionToken : string) : M Gateway (answer (RPC payload)) :=
  ask_session "error while trying to make get session rpc call: "
    (Session_GetSession {| SessionId := sessionID; SessionToken := sessionToken |}).
Definition rpc_GetAllActiveSessionRequest (sessionID sessionToken : string) : M Gateway (answer (RPC payload)) :=
  ask_session "error while trying to make get session service rpc call: "
    (Session_GetAllActiveSessions {| SessionId := sessionID; SessionToken := sessionToken |}).
Definition rpc_GetSessionServiceRequest : M Gateway (answer (RPC payload)) :=
  ask_session "error while trying to make get session service rpc call: "
    (Session_GetSessionService {| SessionId := ""; SessionToken := "" |}).

(** account.go *)
Definition account_failed := "error: something went wrong with rpc call: ".
Definition rpc_DoGetAccountServiceRequest (token : string) : M Gateway (answer (RPC payload)) :=
  ask_session account_failed (Account_GetAccountServices token).
Definition rpc_DoAccountCreationRequest (req : CreateAccountRequest) : M Gateway (answer (RPC payload)) :=
  ask_session account_failed (Account_Create req).
Definition rpc_DoGetAllAccountRequest (token : string) : M Gateway (answer (RPC payload)) :=
  ask_session account_failed (Account_GetAllAccounts token).
Definition rpc_DoGetAccountRequest (req : AccountIDRequest) : M Gateway (answer (RPC payload)) :=
  ask_session account_failed (Account_GetAccount req).
Definition rpc_DoUpdateAccountRequest (req : UpdateAccountRequest) : M Gateway (answer (RPC payload)) :=
  ask_session account_failed (Account_Update req).
Definition rpc_DoAccountDeleteRequest (req : AccountIDRequest) : M Gateway (answer (RPC payload)) :=
  ask_session account_failed (Account_Delete req).

(** role.go: here every error is wrapped. *)
Definition ask_role (handler : IO asRPC) : M Gateway (answer (RPC payload)) :=
  connected AccountSession
    (let! r := ask handler in ret (wrap "error: RPC error: " (session_answer <$> r.1, r.2))).
Definition rpc_CreateRole (req : RoleRequest) : M Gateway (answer (RPC payload)) :=
  ask_role (Role_CreateRole req).
Definition rpc_GetRole (req : RoleIDRequest) : M Gateway (answer (RPC payload)) := ask_role (Role_GetRole req).
Definition rpc_GetAllRoles (req : RoleIDRequest) : M Gateway (answer (RPC payload)) :=
  ask_role (Role_GetAllRoles req).
Definition rpc_UpdateRole (req : UpdateRoleRequest) : M Gateway (answer (RPC payload)) :=
  ask_role (Role_UpdateRole req).
Definition rpc_DeleteRole (req : RoleIDRequest) : M Gateway (answer (RPC payload)) :=
  ask_role (Role_DeleteRole req).

(** task.go: when the call fails there is a response as well as an error; when there is no client
    there is none. *)
Definition ask_task (method : string) (req : GetTaskRequest) : M Gateway (answer (RPC payload)) :=
  connected Tasks
    (let! r := invoke Tasks method (OfGetTaskRequest req) in
     match r.2 with
     | Some err =>
         let! resp := lift (GeneralError StatusInternalServerError InternalError err []) in
         ret (Some (mkRPC StatusInternalServerError InternalError [] (RBody resp)),
              Some ("error while trying to make " +:+ method +:+ " rpc call: " +:+ err))
     | None => ret (r.1, None)
     end).
Definition rpc_DeleteTaskRequest (req : GetTaskRequest) := ask_task "DeleteTask" req.
Definition rpc_GetTaskRequest (req : GetTaskRequest) := ask_task "GetTasks" req.
Definition rpc_GetSubTasks (req : GetTaskRequest) := ask_task "GetSubTasks" req.
Definition rpc_GetSubTask (req : GetTaskRequest) := ask_task "GetSubTask" req.
Definition rpc_GetTaskMonitor (req : GetTaskRequest) := ask_task "GetTaskMonitor" req.
Definition rpc_TaskCollection (req : GetTaskRequest) := ask_task "TaskCollection" req.
Definition rpc_GetTaskService (req : GetTaskRequest) := ask_task "GetTaskService" req.

(** system.go *)
Definition rpc_GetSystemsCollection (req : GetSystemsRequest) : M Gateway (answer (RPC payload)) :=
  connected Systems (let! r := invoke Systems "GetSystemsCollection" (OfGetSystemsRequest req) in
    ret (wrap "error: RPC error: " r)).
Definition rpc_GetSystemRequestRPC (req : GetSystemsRequest) : M Gateway (answer (RPC payload)) :=
  connected Systems (let! r := invoke Systems "GetSystems" (OfGetSystemsRequest req) in
    ret (wrap "error: RPC error: " r)).
Definition rpc_GetSystemResource (req : GetSystemsRequest) : M Gateway (answer (RPC payload)) :=
  connected Systems (let! r := invoke Systems "GetSystemResource" (OfGetSystemsRequest req) in
    ret (wrap "error: RPC error: " r)).
Definition rpc_ComputerSystemReset (req : ComputerSystemResetRequest) : M Gateway (answer (RPC payload)) :=
  connected Systems (let! r := invoke Systems "ComputerSystemReset" (OfComputerSystemResetRequest req) in
    ret (wrap "error: RPC error: " r)).
Definition rpc_SetDefaultBootOrder (req : DefaultBootOrderRequest) : M Gateway (answer (RPC payload)) :=
  connected Systems (let! r := invoke Systems "SetDefaultBootOrder" (OfDefaultBootOrderRequest req) in
    ret (wrap "error: RPC error: " r)).
Definition rpc_ChangeBiosSettings (req : BiosSettingsRequest) : M Gateway (answer (RPC payload)) :=
  connected Systems (let! r := invoke Systems "ChangeBiosSettings" (OfBiosSettingsRequest req) in
    ret (wrap "error: RPC error: " r)).
Definition rpc_ChangeBootOrderSettings (req : BootOrderSettingsRequest) : M Gateway (answer (RPC payload)) :=
  connected Systems (let! r := invoke Systems "ChangeBootOrderSettings" (OfBootOrderSettingsRequest req) in
    ret (wrap "error: RPC error: " r)).
Definition rpc_CreateVolume (req : VolumeRequest) : M Gateway (answer (RPC payload)) :=
  connected Systems (let! r := invoke Systems "CreateVolume" (OfVolumeRequest req) in
    ret (wrap "error: RPC error: " r)).
Definition rpc_DeleteVolume (req : VolumeRequest) : M Gateway (answer (RPC payload)) :=
  connected Systems (let! r := invoke Systems "DeleteVolume" (OfVolumeRequest req) in
    ret (wrap "error: RPC error: " r)).
(** chassis.go *)
Definition rpc_GetChassisCollection (req : GetChassisRequest) : M Gateway (answer (RPC payload)) :=
  connected Systems (let! r := invoke Systems "GetChassisCollection" (OfGetChassisRequest req) in
    ret (wrap "error: RPC error: " r)).
Definition rpc_GetChassisResource (req : GetChassisRequest) : M Gateway (answer (RPC payload)) :=
  connected Systems (let! r := invoke Systems "GetChassisResource" (OfGetChassisRequest req) in
    ret (wrap "error: RPC error: " r)).
Definition rpc_GetChassis (req : GetChassisRequest) : M Gateway (answer (RPC payload)) :=
  connected Systems (let! r := invoke Systems "GetChassisInfo" (OfGetChassisRequest req) in
    ret (wrap "RPC error: " r)).
Definition rpc_CreateChassis (req : CreateChassisRequest) : M Gateway (answer (RPC payload)) :=
  connected Systems (let! r := invoke Systems "CreateChassis" (OfCreateChassisRequest req) in
    ret (wrap "RPC error: " r)).
Definition rpc_DeleteChassis (req : DeleteChassisRequest) : M Gateway (answer (RPC payload)) :=
  connected Systems (let! r := invoke Systems "DeleteChassis" (OfDeleteChassisRequest req) in
    ret (wrap "RPC error: " r)).
Definition rpc_UpdateChassis (req : UpdateChassisRequest) : M Gateway (answer (RPC payload)) :=
  connected Systems (let! r := invoke Systems "UpdateChassis" (OfUpdateChassisRequest req) in
    ret (wrap "RPC error: " r)).
Definition rpc_UpdateChassisResource (req : UpdateChassisResourceRequest) : M Gateway (answer (RPC payload)) :=
  connected Systems (let! r := invoke Systems "UpdateChassisResource" (OfUpdateChassisResourceRequest req) in
    ret (wrap_nil "Something went wrong with rpc call: " r)).
(** managers.go *)
Definition rpc_GetManagersCollection (req : ManagerRequest) : M Gateway (answer (RPC payload)) :=
  connected Managers (let! r := invoke Managers "GetManagersCollection" (OfManagerRequest req) in
    ret (wrap "RPC error: " r)).
Definition rpc_GetManagers (req : ManagerRequest) : M Gateway (answer (RPC payload)) :=
  connected Managers (let! r := invoke Managers "GetManager" (OfManagerRequest req) in ret (wrap "RPC error: " r)).
Definition rpc_GetManagersResource (req : ManagerRequest) : M Gateway (answer (RPC payload)) :=
  connected Managers (let! r := invoke Managers "GetManagersResource" (OfManagerRequest req) in
    ret (wrap "RPC error: " r)).
Definition rpc_VirtualMediaInsert (req : ManagerRequest) : M Gateway (answer (RPC payload)) :=
  connected Managers (let! r := invoke Managers "VirtualMediaInsert" (OfManagerRequest req) in
    ret (wrap "error: RPC error: " r)).
Definition rpc_VirtualMediaEject (req : ManagerRequest) : M Gateway (answer (RPC payload)) :=
  connected Managers (let! r := invoke Managers "VirtualMediaEject" (OfManagerRequest req) in
    ret (wrap "error: RPC error: " r)).
(** events.go *)
Definition rpc_DoGetEventService (req : EventSubRequest) : M Gateway (answer (RPC payload)) :=
  connected Events (let! r := invoke Events "GetEventService" (OfEventSubRequest req) in
    ret (wrap "error: RPC error: " r)).
Definition rpc_DoCreateEventSubscription (req : EventSubRequest) : M Gateway (answer (RPC payload)) :=
  connected Events (let! r := invoke Events "CreateEventSubscription" (OfEventSubRequest req) in
    ret (wrap "error: RPC error: " r)).
Definition rpc_DoSubmitTestEvent (req : EventSubRequest) : M Gateway (answer (RPC payload)) :=
  connected Events (let! r := invoke Events "SubmitTestEvent" (OfEventSubRequest req) in
    ret (wrap "error: RPC error: " r)).
Definition rpc_DoGetEventSubscription (req : EventRequest) : M Gateway (answer (RPC payload)) :=
  connected Events (let! r := invoke Events "GetEventSubscription" (OfEventRequest req) in
    ret (wrap "error: RPC error: " r)).
Definition rpc_DoDeleteEventSubscription (req : EventRequest) : M Gateway (answer (RPC payload)) :=
  connected Events (let! r := invoke Events "DeleteEventSubscription" (OfEventRequest req) in
    ret (wrap "error: RPC error: " r)).
Definition rpc_DoGetEventSubscriptionsCollection (req : EventRequest) : M Gateway (answer (RPC payload)) :=
  connected Events (let! r := invoke Events "GetEventSubscriptionsCollection" (OfEventRequest req) in
    ret (wrap "error: RPC error: " r)).
(** fabrics.go *)
Definition rpc_GetFabricResource (req : FabricRequest) : M Gateway (answer (RPC payload)) :=
  connected Fabrics (let! r := invoke Fabrics "GetFabricResource" (OfFabricRequest req) in
    ret (wrap_nil "error: something went wrong with rpc call: " r)).
Definition rpc_UpdateFabricResource (req : FabricRequest) : M Gateway (answer (RPC payload)) :=
  connected Fabrics (let! r := invoke Fabrics "UpdateFabricResource" (OfFabricRequest req) in
    ret (wrap_nil "error: something went wrong with rpc call: " r)).
Definition rpc_DeleteFabricResource (req : FabricRequest) : M Gateway (answer (RPC payload)) :=
  connected Fabrics (let! r := invoke Fabrics "DeleteFabricResource" (OfFabricRequest req) in
    ret (wrap_nil "error: something went wrong with rpc call: " r)).
(** aggregator.go *)
Definition rpc_DoGetAggregationService (req : AggregatorRequest) : M Gateway (answer (RPC payload)) :=
  connected Aggregator (let! r := invoke Aggregator "GetAggregationService" (OfAggregatorRequest req) in
    ret (wrap "error: RPC error: " r)).
Definition rpc_DoResetRequest (req : AggregatorRequest) : M Gateway (answer (RPC payload)) :=
  connected Aggregator (let! r := invoke Aggregator "Reset" (OfAggregatorRequest req) in
    ret (wrap "error: RPC error: " r)).
Definition rpc_DoSetDefaultBootOrderRequest (req : AggregatorRequest) : M Gateway (answer (RPC payload)) :=
  connected Aggregator (let! r := invoke Aggregator "SetDefaultBootOrder" (OfAggregatorRequest req) in
    ret (wrap "error: RPC error: " r)).
Definition rpc_DoAddAggregationSource (req : AggregatorRequest) : M Gateway (answer (RPC payload)) :=
  connected Aggregator (let! r := invoke Aggregator "AddAggregationSource" (OfAggregatorRequest req) in
    ret (wrap "RPC error: " r)).
Definition rpc_DoGetAllAggregationSource (req : AggregatorRequest) : M Gateway (answer (RPC payload)) :=
  connected Aggregator (let! r := invoke Aggregator "GetAllAggregationSource" (OfAggregatorRequest req) in
    ret (wrap "RPC error: " r)).
Definition rpc_DoGetAggregationSource (req : AggregatorRequest) : M Gateway (answer (RPC payload)) :=
  connected Aggregator (let! r := invoke Aggregator "GetAggregationSource" (OfAggregatorRequest req) in
    ret (wrap "RPC error: " r)).
Definition rpc_DoUpdateAggregationSource (req : AggregatorRequest) : M Gateway (answer (RPC payload)) :=
  connected Aggregator (let! r := invoke Aggregator "UpdateAggregationSource" (OfAggregatorRequest req) in
    ret (wrap "RPC error: " r)).
Definition rpc_DoDeleteAggregationSource (req : AggregatorRequest) : M Gateway (answer (RPC payload)) :=
  connected Aggregator (let! r := invoke Aggregator "DeleteAggregationSource" (OfAggregatorRequest req) in
    ret (wrap "RPC error: " r)).
Definition rpc_DoCreateAggregate (req : AggregatorRequest) : M Gateway (answer (RPC payload)) :=
  connected Aggregator (let! r := invoke Aggregator "CreateAggregate" (OfAggregatorRequest req) in
    ret (wrap "RPC error: " r)).
Definition rpc_DoGetAggregateCollection (req : AggregatorRequest) : M Gateway (answer (RPC payload)) :=
  connected Aggregator (let! r := invoke Aggregator "GetAllAggregates" (OfAggregatorRequest req) in
    ret (wrap "RPC error: " r)).
Definition rpc_DoGeteAggregate (req : AggregatorRequest) : M Gateway (answer (RPC payload)) :=
  connected Aggregator (let! r := invoke Aggregator "GetAggregate" (OfAggregatorRequest req) in
    ret (wrap "RPC error: " r)).
Definition rpc_DoDeleteAggregate (req : AggregatorRequest) : M Gateway (answer (RPC payload)) :=
  connected Aggregator (let! r := invoke Aggregator "DeleteAggregate" (OfAggregatorRequest req) in
    ret (wrap "RPC error: " r)).
Definition rpc_DoAddElementsToAggregate (req : AggregatorRequest) : M Gateway (answer (RPC payload)) :=
  connected Aggregator (let! r := invoke Aggregator "AddElementsToAggregate" (OfAggregatorRequest req) in
    ret (wrap "RPC error: " r)).
Definition rpc_DoRemoveElementsFromAggregate (req : AggregatorRequest) : M Gateway (answer (RPC payload)) :=
  connected Aggregator (let! r := invoke Aggregator "RemoveElementsFromAggregate" (OfAggregatorRequest req) in
    ret (wrap "RPC error: " r)).
Definition rpc_DoResetAggregateElements (req : AggregatorRequest) : M Gateway (answer (RPC payload)) :=
  connected Aggregator (let! r := invoke Aggregator "ResetElementsOfAggregate" (OfAggregatorRequest req) in
    ret (wrap "RPC error: " r)).
Definition rpc_DoSetDefaultBootOrderAggregateElements (req : AggregatorRequest) : M Gateway (answer (RPC payload)) :=
  connected Aggregator (let! r := invoke Aggregator "SetDefaultBootOrderElementsOfAggregate" (OfAggregatorRequest req) in
    ret (wrap "RPC error: " r)).
Definition rpc_DoGetAllConnectionMethods (req : AggregatorRequest) : M Gateway (answer (RPC payload)) :=
  connected Aggregator (let! r := invoke Aggregator "GetAllConnectionMethods" (OfAggregatorRequest req) in
    ret (wrap "RPC error: " r)).
Definition rpc_DoGetConnectionMethod (req : AggregatorRequest) : M Gateway (answer (RPC payload)) :=
  connected Aggregator (let! r := invoke Aggregator "GetConnectionMethod" (OfAggregatorRequest req) in
    ret (wrap "RPC error: " r)).
(** update.go *)
Definition rpc_DoGetUpdateService (req : UpdateRequest) : M Gateway (answer (RPC payload)) :=
  connected Update (let! r := invoke Update "GetUpdateService" (OfUpdateRequest req) in
    ret (wrap "error: RPC error: " r)).
Definition rpc_DoGetFirmwareInventory (req : UpdateRequest) : M Gateway (answer (RPC payload)) :=
  connected Update (let! r := invoke Update "GetFirmwareInventory" (OfUpdateRequest req) in
    ret (wrap "error: RPC error: " r)).
Definition rpc_DoGetSoftwareInventory (req : UpdateRequest) : M Gateway (answer (RPC payload)) :=
  connected Update (let! r := invoke Update "GetSoftwareInventory" (OfUpdateRequest req) in
    ret (wrap "error: RPC error: " r)).
Definition rpc_DoGetFirmwareInventoryCollection (req : UpdateRequest) : M Gateway (answer (RPC payload)) :=
  connected Update (let! r := invoke Update "GetFirmwareInventoryCollection" (OfUpdateRequest req) in
    ret (wrap "error: RPC error: " r)).
Definition rpc_DoGetSoftwareInventoryCollection (req : UpdateRequest) : M Gateway (answer (RPC payload)) :=
  connected Update (let! r := invoke Update "GetSoftwareInventoryCollection" (OfUpdateRequest req) in
    ret (wrap "error: RPC error: " r)).
Definition rpc_DoSimpleUpdate (req : UpdateRequest) : M Gateway (answer (RPC payload)) :=
  connected Update (let! r := invoke Update "SimepleUpdate" (OfUpdateRequest req) in
    ret (wrap "error: RPC error: " r)).
Definition rpc_DoStartUpdate (req : UpdateRequest) : M Gateway (answer (RPC payload)) :=
  connected Update (let! r := invoke Update "StartUpdate" (OfUpdateRequest req) in
    ret (wrap "error: RPC error: " r)).
(** telemetry.go *)
Definition rpc_DoGetTelemetryService (req : TelemetryRequest) : M Gateway (answer (RPC payload)) :=
  connected Telemetry (let! r := invoke Telemetry "GetTelemetryService" (OfTelemetryRequest req) in
    ret (wrap "error: RPC error: " r)).
Definition rpc_DoGetMetricDefinitionCollection (req : TelemetryRequest) : M Gateway (answer (RPC payload)) :=
  connected Telemetry (let! r := invoke Telemetry "GetMetricDefinitionCollection" (OfTelemetryRequest req) in
    ret (wrap "error: RPC error: " r)).
Definition rpc_DoGetMetricReportDefinitionCollection (req : TelemetryRequest) : M Gateway (answer (RPC payload)) :=
  connected Telemetry (let! r := invoke Telemetry "GetMetricReportDefinitionCollection" (OfTelemetryRequest req) in
    ret (wrap "error: RPC error: " r)).
Definition rpc_DoGetMetricReportCollection (req : TelemetryRequest) : M Gateway (answer (RPC payload)) :=
  connected Telemetry (let! r := invoke Telemetry "GetMetricReportCollection" (OfTelemetryRequest req) in
    ret (wrap "error: RPC error: " r)).
Definition rpc_DoGetTriggerCollection (req : TelemetryRequest) : M Gateway (answer (RPC payload)) :=
  connected Telemetry (let! r := invoke Telemetry "GetTriggerCollection" (OfTelemetryRequest req) in
    ret (wrap "error: RPC error: " r)).
Definition rpc_DoGetMetricDefinition (req : TelemetryRequest) : M Gateway (answer (RPC payload)) :=
  connected Telemetry (let! r := invoke Telemetry "GetMetricDefinition" (OfTelemetryRequest req) in
    ret (wrap "error: RPC error: " r)).
Definition rpc_DoGetMetricReportDefinition (req : TelemetryRequest) : M Gateway (answer (RPC payload)) :=
  connected Telemetry (let! r := invoke Telemetry "GetMetricReportDefinition" (OfTelemetryRequest req) in
    ret (wrap "error: RPC error: " r)).
Definition rpc_DoGetMetricReport (req : TelemetryRequest) : M Gateway (answer (RPC payload)) :=
  connected Telemetry (let! r := invoke Telemetry "GetMetricReport" (OfTelemetryRequest req) in
    ret (wrap "error: RPC error: " r)).
Definition rpc_DoGetTrigger (req : TelemetryRequest) : M Gateway (answer (RPC payload)) :=
  connected Telemetry (let! r := invoke Telemetry "GetTrigger" (OfTelemetryRequest req) in
    ret (wrap "error: RPC error: " r)).
Definition rpc_DoUpdateTrigger (req : TelemetryRequest) : M Gateway (answer (RPC payload)) :=
  connected Telemetry (let! r := invoke Telemetry "UpdateTrigger" (OfTelemetryRequest req) in
    ret (wrap "error: RPC error: " r)).
(** composition_service.go *)
Definition rpc_GetCompositionService (req : GetCompositionServiceRequest) : M Gateway (answer (RPC payload)) :=
  connected CompositionService (let! r := invoke CompositionService "GetCompositionService" (OfGetCompositionServiceRequest req) in
    ret (wrap "error: RPC error: " r)).
Definition rpc_GetResourceBlockCollection (req : GetCompositionResourceRequest) : M Gateway (answer (RPC payload)) :=
  connected CompositionService (let! r := invoke CompositionService "GetCompositionResource" (OfGetCompositionResourceRequest req) in
    ret (wrap "error: RPC error: " r)).
Definition rpc_GetResourceBlock (req : GetCompositionResourceRequest) : M Gateway (answer (RPC payload)) :=
  connected CompositionService (let! r := invoke CompositionService "GetCompositionResource" (OfGetCompositionResourceRequest req) in
    ret (wrap "error: RPC error: " r)).
Definition rpc_CreateResourceBlock (req : CreateCompositionResourceRequest) : M Gateway (answer (RPC payload)) :=
  connected CompositionService (let! r := invoke CompositionService "CreateCompositionResource" (OfCreateCompositionResourceRequest req) in
    ret (wrap "error: RPC error: " r)).
Definition rpc_DeleteResourceBlock (req : DeleteCompositionResourceRequest) : M Gateway (answer (RPC payload)) :=
  connected CompositionService (let! r := invoke CompositionService "DeleteCompositionResource" (OfDeleteCompositionResourceRequest req) in
    ret (wrap "error: RPC error: " r)).
Definition rpc_GetResourceZoneCollection (req : GetCompositionResourceRequest) : M Gateway (answer (RPC payload)) :=
  connected CompositionService (let! r := invoke CompositionService "GetCompositionResource" (OfGetCompositionResourceRequest req) in
    ret (wrap "error: RPC error: " r)).
Definition rpc_GetResourceZone (req : GetCompositionResourceRequest) : M Gateway (answer (RPC payload)) :=
  connected CompositionService (let! r := invoke CompositionService "GetCompositionResource" (OfGetCompositionResourceRequest req) in
    ret (wrap "error: RPC error: " r)).
Definition rpc_CreateResourceZone (req : CreateCompositionResourceRequest) : M Gateway (answer (RPC payload)) :=
  connected CompositionService (let! r := invoke CompositionService "CreateCompositionResource" (OfCreateCompositionResourceRequest req) in
    ret (wrap "error: RPC error: " r)).
Definition rpc_DeleteResourceZone (req : DeleteCompositionResourceRequest) : M Gateway (answer (RPC payload)) :=
  connected CompositionService (let! r := invoke CompositionService "DeleteCompositionResource" (OfDeleteCompositionResourceRequest req) in
    ret (wrap "error: RPC error: " r)).
Definition rpc_Compose (req : ComposeRequest) : M Gateway (answer (RPC payload)) :=
  connected CompositionService (let! r := invoke CompositionService "Compose" (OfComposeRequest req) in
    ret (wrap "error: RPC error: " r)).
Definition rpc_GetActivePool (req : GetCompositionResourceRequest) : M Gateway (answer (RPC payload)) :=
  connected CompositionService (let! r := invoke CompositionService "GetCompositionResource" (OfGetCompositionResourceRequest req) in
    ret (wrap "error: RPC error: " r)).
Definition rpc_GetFreePool (req : GetCompositionResourceRequest) : M Gateway (answer (RPC payload)) :=
  connected CompositionService (let! r := invoke CompositionService "GetCompositionResource" (OfGetCompositionResourceRequest req) in
    ret (wrap "error: RPC error: " r)).
Definition rpc_GetCompositionReservations (req : GetCompositionResourceRequest) : M Gateway (answer (RPC payload)) :=
  connected CompositionService (let! r := invoke CompositionService "GetCompositionResource" (OfGetCompositionResourceRequest req) in
    ret (wrap "error: RPC error: " r)).
End Gateway.
