(* ===== verification/Router.v ===== *)
(** svc-api/router/router.go: the RPC functions of the handlers, and the table of the routes.

    A route has its methods, the path as it is given to the framework (with the paths of its
    parties), how many times [SessionDelMiddleware] runs before its handler, and the handler with the
    name it has in the code.  Finding the route of a request is the framework's ([Routing]): it
    answers the index of a route that has the method, and the values of the parameters of its
    path. *)
From stdpp Require Import base gmap list strings.
From S2P Require Import Prelude Go Response Http Redis World Session THandle Proto HandleAccess HandleResources HandleServices HandleFixed System GatewayRpc Services.
Open Scope string_scope.

Class Routing : Type := {
  find_route : list (list string * string) -> string -> string -> option (nat * list (string * string));
}.
Section Router.
Context `{Env, Libs, Config, !Peers, !Discovery, !RegistryStore}.

(** ** The RPC functions *)

Definition roleRPCs : RoleRPCs Gateway payload := {|
  GetAllRolesRPC := rpc_GetAllRoles;
  CreateRoleRPC := rpc_CreateRole;
  GetRoleRPC := rpc_GetRole;
  UpdateRoleRPC := rpc_UpdateRole;
  DeleteRoleRPC := rpc_DeleteRole;
|}.
Definition accountRPCs : AccountRPCs Gateway payload := {|
  GetServiceRPC := rpc_DoGetAccountServiceRequest;
  CreateRPC := rpc_DoAccountCreationRequest;
  GetAllAccountsRPC := rpc_DoGetAllAccountRequest;
  GetAccountRPC := rpc_DoGetAccountRequest;
  UpdateRPC := rpc_DoUpdateAccountRequest;
  DeleteRPC := rpc_DoAccountDeleteRequest;
|}.
Definition aggregatorRPCs : AggregatorRPCs Gateway payload := {|
  GetAggregationServiceRPC := rpc_DoGetAggregationService;
  ResetRPC := rpc_DoResetRequest;
  ag_SetDefaultBootOrderRPC := rpc_DoSetDefaultBootOrderRequest;
  AddAggregationSourceRPC := rpc_DoAddAggregationSource;
  GetAllAggregationSourceRPC := rpc_DoGetAllAggregationSource;
  GetAggregationSourceRPC := rpc_DoGetAggregationSource;
  UpdateAggregationSourceRPC := rpc_DoUpdateAggregationSource;
  DeleteAggregationSourceRPC := rpc_DoDeleteAggregationSource;
  CreateAggregateRPC := rpc_DoCreateAggregate;
  GetAggregateCollectionRPC := rpc_DoGetAggregateCollection;
  GetAggregateRPC := rpc_DoGeteAggregate;
  DeleteAggregateRPC := rpc_DoDeleteAggregate;
  AddElementsToAggregateRPC := rpc_DoAddElementsToAggregate;
  RemoveElementsFromAggregateRPC := rpc_DoRemoveElementsFromAggregate;
  ResetAggregateElementsRPC := rpc_DoResetAggregateElements;
  SetDefaultBootOrderAggregateElementsRPC := rpc_DoSetDefaultBootOrderAggregateElements;
  GetAllConnectionMethodsRPC := rpc_DoGetAllConnectionMethods;
  GetConnectionMethodRPC := rpc_DoGetConnectionMethod;
|}.
Definition sessionRPCs : SessionRPCs Gateway payload := {|
  CreateSessionRPC := rpc_DoSessionCreationRequest;
  DeleteSessionRPC := rpc_DeleteSessionRequest;
  GetSessionRPC := rpc_GetSessionRequest;
  GetAllActiveSessionsRPC := rpc_GetAllActiveSessionRequest;
  GetSessionServiceRPC := rpc_GetSessionServiceRequest;
|}.
Definition taskRPCs : TaskRPCs Gateway payload := {|
  DeleteTaskRPC := rpc_DeleteTaskRequest;
  GetTaskRPC := rpc_GetTaskRequest;
  GetSubTasksRPC := rpc_GetSubTasks;
  GetSubTaskRPC := rpc_GetSubTask;
  GetTaskMonitorRPC := rpc_GetTaskMonitor;
  TaskCollectionRPC := rpc_TaskCollection;
  GetTaskServiceRPC := rpc_GetTaskService;
|}.
Definition systemRPCs : SystemRPCs Gateway payload := {|
  GetSystemsCollectionRPC := rpc_GetSystemsCollection;
  GetSystemRPC := rpc_GetSystemRequestRPC;
  GetSystemResourceRPC := rpc_GetSystemResource;
  SystemResetRPC := rpc_ComputerSystemReset;
  HandleResources.SetDefaultBootOrderRPC := rpc_SetDefaultBootOrder;
  ChangeBiosSettingsRPC := rpc_ChangeBiosSettings;
  ChangeBootOrderSettingsRPC := rpc_ChangeBootOrderSettings;
  CreateVolumeRPC := rpc_CreateVolume;
  DeleteVolumeRPC := rpc_DeleteVolume;
|}.
Definition chassisRPCs : ChassisRPCs Gateway payload := {|
  GetChassisCollectionRPC := rpc_GetChassisCollection;
  GetChassisResourceRPC := rpc_GetChassisResource;
  GetChassisRPC := rpc_GetChassis;
  CreateChassisRPC := rpc_CreateChassis;
  DeleteChassisRPC := rpc_DeleteChassis;
  UpdateChassisRPC := rpc_UpdateChassis;
  UpdateChassisResourceRPC := rpc_UpdateChassisResource;
|}.
Definition eventsRPCs : EventsRPCs Gateway payload := {|
  GetEventServiceRPC := rpc_DoGetEventService;
  CreateEventSubscriptionRPC := rpc_DoCreateEventSubscription;
  SubmitTestEventRPC := rpc_DoSubmitTestEvent;
  GetEventSubscriptionRPC := rpc_DoGetEventSubscription;
  DeleteEventSubscriptionRPC := rpc_DoDeleteEventSubscription;
  GetEventSubscriptionsCollectionRPC := rpc_DoGetEventSubscriptionsCollection;
|}.
Definition fabricRPCs : FabricRPCs Gateway payload := {|
  GetFabricResourceRPC := rpc_GetFabricResource;
  UpdateFabricResourceRPC := rpc_UpdateFabricResource;
  DeleteFabricResourceRPC := rpc_DeleteFabricResource;
|}.
Definition managersRPCs : ManagersRPCs Gateway payload := {|
  GetManagersCollectionRPC := rpc_GetManagersCollection;
  GetManagersRPC := rpc_GetManagers;
  GetManagersResourceRPC := rpc_GetManagersResource;
  VirtualMediaInsertRPC := rpc_VirtualMediaInsert;
  VirtualMediaEjectRPC := rpc_VirtualMediaEject;
|}.
Definition updateRPCs : UpdateRPCs Gateway payload := {|
  GetUpdateServiceRPC := rpc_DoGetUpdateService;
  SimpleUpdateRPC := rpc_DoSimpleUpdate;
  StartUpdateRPC := rpc_DoStartUpdate;
  GetFirmwareInventoryRPC := rpc_DoGetFirmwareInventory;
  GetFirmwareInventoryCollectionRPC := rpc_DoGetFirmwareInventoryCollection;
  GetSoftwareInventoryRPC := rpc_DoGetSoftwareInventory;
  GetSoftwareInventoryCollectionRPC := rpc_DoGetSoftwareInventoryCollection;
|}.
Definition telemetryRPCs : TelemetryRPCs Gateway payload := {|
  GetTelemetryServiceRPC := rpc_DoGetTelemetryService;
  GetMetricDefinitionCollectionRPC := rpc_DoGetMetricDefinitionCollection;
  GetMetricReportDefinitionCollectionRPC := rpc_DoGetMetricReportDefinitionCollection;
  GetMetricReportCollectionRPC := rpc_DoGetMetricReportCollection;
  GetTriggerCollectionRPC := rpc_DoGetTriggerCollection;
  GetMetricDefinitionRPC := rpc_DoGetMetricDefinition;
  GetMetricReportDefinitionRPC := rpc_DoGetMetricReportDefinition;
  GetMetricReportRPC := rpc_DoGetMetricReport;
  GetTriggerRPC := rpc_DoGetTrigger;
  UpdateTriggerRPC := rpc_DoUpdateTrigger;
|}.
Definition compositionRPCs : CompositionServiceRPCs Gateway payload := {|
  GetCompositionServiceRPC := rpc_GetCompositionService;
  GetResourceBlockCollectionRPC := rpc_GetResourceBlockCollection;
  GetResourceBlockRPC := rpc_GetResourceBlock;
  CreateResourceBlockRPC := rpc_CreateResourceBlock;
  DeleteResourceBlockRPC := rpc_DeleteResourceBlock;
  GetResourceZoneCollectionRPC := rpc_GetResourceZoneCollection;
  GetResourceZoneRPC := rpc_GetResourceZone;
  CreateResourceZoneRPC := rpc_CreateResourceZone;
  DeleteResourceZoneRPC := rpc_DeleteResourceZone;
  ComposeRPC := rpc_Compose;
  GetActivePoolRPC := rpc_GetActivePool;
  GetFreePoolRPC := rpc_GetFreePool;
  GetCompositionReservationsRPC := rpc_GetCompositionReservations;
|}.
(** lib-utilities/services/auth.go *)
Definition registryFile : Registry Gateway payload := {|
  Auth := fun sessionToken privileges oemPrivileges =>
    Services.IsAuthorized in_session gw_env sessionToken privileges oemPrivileges;
|}.

(** ** Routes *)

Abbreviation handler := (Context -> M (Gateway * Writer payload) unit).
Record route := mkRoute {
  r_methods : list string;
  r_path : string;
  r_name : string;
  r_middlewares : nat;
  r_handler : handler;
}.
Record party := mkParty { p_path : string; p_middlewares : nat }.
Definition root : party := mkParty "" 0.
Definition Party (p : party) (path : string) (middlewares : nat) : party :=
  mkParty (p_path p +:+ path) (p_middlewares p + middlewares).
(** A route with middlewares of its own. *)
Definition through (n : nat) (p : party) : party := mkParty (p_path p) (p_middlewares p + n).
Definition register (methods : list string) (p : party) (path name : string) (h : handler) : route :=
  mkRoute methods (p_path p +:+ path) name (p_middlewares p) h.
Definition Get := register ["GET"].
Definition Post := register ["POST"].
Definition Put := register ["PUT"].
Definition Patch := register ["PATCH"].
Definition Delete := register ["DELETE"].
Definition Any :=
  register ["GET"; "POST"; "PUT"; "DELETE"; "CONNECT"; "HEAD"; "PATCH"; "OPTIONS"; "TRACE"].

Definition taskmonParty : party := Party root "/taskmon" 0.
Definition taskmonRoutes : list route :=
  [Get taskmonParty "/{TaskID}" "ts.GetTaskMonitor" (TaskRPCs_GetTaskMonitor taskRPCs);
   Any taskmonParty "/{TaskID}" "handle.TsMethodNotAllowed" TsMethodNotAllowed].
Definition redfishParty : party := Party root "/redfish" 0.
Definition redfishRoutes : list route :=
  [Get redfishParty "/" "handle.GetVersion" GetVersion].
Definition v1Party : party := Party redfishParty "/v1" 0.
Definition v1Routes : list route :=
  [Get v1Party "/" "serviceRoot.GetServiceRoot" (GetServiceRoot gw_env);
   Get v1Party "/odata" "handle.GetOdata" GetOdata;
   Get v1Party "/$metadata" "handle.GetMetadata" GetMetadata;
   Any v1Party "/" "handle.SRMethodNotAllowed" SRMethodNotAllowed;
   Any v1Party "/odata" "handle.SRMethodNotAllowed" SRMethodNotAllowed;
   Any v1Party "/$metadata" "handle.SRMethodNotAllowed" SRMethodNotAllowed].
Definition registryParty : party := Party v1Party "/Registries" 0.
Definition registryRoutes : list route :=
  [Get registryParty "/" "registryFile.GetRegistryFileCollection" (GetRegistryFileCollection in_own registryFile);
   Get registryParty "/{id}" "registryFile.GetMessageRegistryFileID" (GetMessageRegistryFileID in_own registryFile);
   Any registryParty "/" "handle.RegMethodNotAllowed" RegMethodNotAllowed;
   Any registryParty "/{id}" "handle.RegMethodNotAllowed" RegMethodNotAllowed].
Definition sessionParty : party := Party v1Party "/SessionService" 0.
Definition sessionRoutes : list route :=
  [Get sessionParty "/" "s.GetSessionService" (SessionRPCs_GetSessionService sessionRPCs);
   Get (through 1 sessionParty) "/Sessions" "s.GetAllActiveSessions" (SessionRPCs_GetAllActiveSessions sessionRPCs);
   Get (through 1 sessionParty) "/Sessions/{sessionID}" "s.GetSession" (SessionRPCs_GetSession sessionRPCs);
   Post sessionParty "/Sessions" "s.CreateSession" (SessionRPCs_CreateSession sessionRPCs);
   Delete (through 1 sessionParty) "/Sessions/{sessionID}" "s.DeleteSession" (SessionRPCs_DeleteSession sessionRPCs);
   Any sessionParty "/" "handle.SsMethodNotAllowed" SsMethodNotAllowed;
   Any sessionParty "/Sessions" "handle.SsMethodNotAllowed" SsMethodNotAllowed;
   Any sessionParty "/Sessions/{sessionID}" "handle.SsMethodNotAllowed" SsMethodNotAllowed].
Definition accountParty : party := Party v1Party "/AccountService" 1.
Definition accountRoutes : list route :=
  [Get accountParty "/" "a.GetAccountService" (AccountRPCs_GetAccountService accountRPCs);
   Get accountParty "/Accounts" "a.GetAllAccounts" (AccountRPCs_GetAllAccounts accountRPCs);
   Get accountParty "/Accounts/{id}" "a.GetAccount" (AccountRPCs_GetAccount accountRPCs);
   Post accountParty "/Accounts" "a.CreateAccount" (AccountRPCs_CreateAccount accountRPCs);
   Patch accountParty "/Accounts/{id}" "a.UpdateAccount" (AccountRPCs_UpdateAccount accountRPCs);
   Delete accountParty "/Accounts/{id}" "a.DeleteAccount" (AccountRPCs_DeleteAccount accountRPCs);
   Any accountParty "/" "handle.AsMethodNotAllowed" AsMethodNotAllowed;
   Any accountParty "/Accounts" "handle.AsMethodNotAllowed" AsMethodNotAllowed;
   Any accountParty "/Accounts/{id}" "handle.AsMethodNotAllowed" AsMethodNotAllowed].
Definition roleParty : party := Party accountParty "/Roles" 1.
Definition roleRoutes : list route :=
  [Get roleParty "/" "r.GetAllRoles" (RoleRPCs_GetAllRoles roleRPCs);
   Get roleParty "/{id}" "r.GetRole" (RoleRPCs_GetRole roleRPCs);
   Post roleParty "/" "r.CreateRole" (RoleRPCs_CreateRole roleRPCs);
   Patch roleParty "/{id}" "r.UpdateRole" (RoleRPCs_UpdateRole roleRPCs);
   Delete roleParty "/{id}" "r.DeleteRole" (RoleRPCs_DeleteRole roleRPCs);
   Any roleParty "/" "handle.RoleMethodNotAllowed" RoleMethodNotAllowed;
   Any roleParty "/{id}" "handle.RoleMethodNotAllowed" RoleMethodNotAllowed].
Definition taskParty : party := Party v1Party "/TaskService" 1.
Definition taskRoutes : list route :=
  [Get taskParty "/" "ts.GetTaskService" (TaskRPCs_GetTaskService taskRPCs);
   Get taskParty "/Tasks" "ts.TaskCollection" (TaskRPCs_TaskCollection taskRPCs);
   Get taskParty "/Tasks/{TaskID}" "ts.GetTaskStatus" (TaskRPCs_GetTaskStatus taskRPCs);
   Get taskParty "/Tasks/{TaskID}/SubTasks" "ts.GetSubTasks" (TaskRPCs_GetSubTasks taskRPCs);
   Get taskParty "/Tasks/{TaskID}/SubTasks/{subTaskID}" "ts.GetSubTask" (TaskRPCs_GetSubTask taskRPCs);
   Delete taskParty "/Tasks/{TaskID}" "ts.DeleteTask" (TaskRPCs_DeleteTask taskRPCs);
   Any taskParty "/" "handle.TsMethodNotAllowed" TsMethodNotAllowed;
   Any taskParty "/Tasks" "handle.TsMethodNotAllowed" TsMethodNotAllowed;
   Any taskParty "/Tasks/{TaskID}" "handle.TsMethodNotAllowed" TsMethodNotAllowed].
Definition systemsParty : party := Party v1Party "/Systems" 1.
Definition systemsRoutes : list route :=
  [Get systemsParty "/" "system.GetSystemsCollection" (SystemRPCs_GetSystemsCollection systemRPCs);
   Get systemsParty "/{id}" "system.GetSystem" (SystemRPCs_GetSystem systemRPCs);
   Get systemsParty "/{id}/Processors" "system.GetSystemResource" (SystemRPCs_GetSystemResource systemRPCs);
   Get systemsParty "/{id}/Processors/{rid}" "system.GetSystemResource" (SystemRPCs_GetSystemResource systemRPCs);
   Get systemsParty "/{id}/Processors/{rid}/AccelerationFunctions" "system.GetSystemResource" (SystemRPCs_GetSystemResource systemRPCs);
   Get systemsParty "/{id}/Processors/{rid}/Assembly" "system.GetSystemResource" (SystemRPCs_GetSystemResource systemRPCs);
   Get systemsParty "/{id}/Processors/{rid}/Metrics" "system.GetSystemResource" (SystemRPCs_GetSystemResource systemRPCs);
   Get systemsParty "/{id}/Processors/{rid}/Processors" "system.GetSystemResource" (SystemRPCs_GetSystemResource systemRPCs);
   Get systemsParty "/{id}/Memory" "system.GetSystemResource" (SystemRPCs_GetSystemResource systemRPCs);
   Get systemsParty "/{id}/Memory/{rid}" "system.GetSystemResource" (SystemRPCs_GetSystemResource systemRPCs);
   Get systemsParty "/{id}/Memory/{id2}/Metrics" "system.GetSystemResource" (SystemRPCs_GetSystemResource systemRPCs);
   Get systemsParty "/{id}/NetworkInterfaces" "system.GetSystemResource" (SystemRPCs_GetSystemResource systemRPCs);
   Get systemsParty "/{id}/NetworkInterfaces/{rid}" "system.GetSystemResource" (SystemRPCs_GetSystemResource systemRPCs);
   Get systemsParty "/{id}/NetworkInterfaces/{rid}/NetworkDeviceFunctions" "system.GetSystemResource" (SystemRPCs_GetSystemResource systemRPCs);
   Get systemsParty "/{id}/NetworkInterfaces/{rid}/NetworkPorts" "system.GetSystemResource" (SystemRPCs_GetSystemResource systemRPCs);
   Get systemsParty "/{id}/NetworkInterfaces/{rid}/Ports" "system.GetSystemResource" (SystemRPCs_GetSystemResource systemRPCs);
   Get systemsParty "/{id}/MemoryDomains" "system.GetSystemResource" (SystemRPCs_GetSystemResource systemRPCs);
   Get systemsParty "/{id}/EthernetInterfaces" "system.GetSystemResource" (SystemRPCs_GetSystemResource systemRPCs);
   Get systemsParty "/{id}/EthernetInterfaces/{rid}" "system.GetSystemResource" (SystemRPCs_GetSystemResource systemRPCs);
   Get systemsParty "/{id}/EthernetInterfaces/{id2}/VLANS" "system.GetSystemResource" (SystemRPCs_GetSystemResource systemRPCs);
   Get systemsParty "/{id}/EthernetInterfaces/{id2}/VLANS/{rid}" "system.GetSystemResource" (SystemRPCs_GetSystemResource systemRPCs);
   Get systemsParty "/{id}/SecureBoot" "system.GetSystemResource" (SystemRPCs_GetSystemResource systemRPCs);
   Get systemsParty "/{id}/BootOptions" "system.GetSystemResource" (SystemRPCs_GetSystemResource systemRPCs);
   Get systemsParty "/{id}/BootOptions/{rid}" "system.GetSystemResource" (SystemRPCs_GetSystemResource systemRPCs);
   Get systemsParty "/{id}/LogServices" "system.GetSystemResource" (SystemRPCs_GetSystemResource systemRPCs);
   Get systemsParty "/{id}/LogServices/{rid}" "system.GetSystemResource" (SystemRPCs_GetSystemResource systemRPCs);
   Get systemsParty "/{id}/LogServices/{rid}/Entries" "system.GetSystemResource" (SystemRPCs_GetSystemResource systemRPCs);
   Get systemsParty "/{id}/LogServices/{rid}/Entries/{rid2}" "system.GetSystemResource" (SystemRPCs_GetSystemResource systemRPCs);
   Post systemsParty "/{id}/LogServices/{rid}/Actions/LogService.ClearLog" "system.GetSystemResource" (SystemRPCs_GetSystemResource systemRPCs);
   Patch systemsParty "/{id}" "system.ChangeBootOrderSettings" (SystemRPCs_ChangeBootOrderSettings systemRPCs);
   Get systemsParty "/{id}/PCIeDevices" "system.GetSystemResource" (SystemRPCs_GetSystemResource systemRPCs);
   Get systemsParty "/{id}/PCIeDevices/{rid}" "system.GetSystemResource" (SystemRPCs_GetSystemResource systemRPCs);
   Get systemsParty "/{id}/PCIeDevices/{rid}/Assembly" "system.GetSystemResource" (SystemRPCs_GetSystemResource systemRPCs);
   Any systemsParty "/{id}/PCIeDevices/{rid}" "handle.SystemsMethodNotAllowed" SystemsMethodNotAllowed;
   Any systemsParty "/" "handle.SystemsMethodNotAllowed" SystemsMethodNotAllowed;
   Any systemsParty "/{id}" "handle.SystemsMethodNotAllowed" SystemsMethodNotAllowed;
   Any systemsParty "/{id}/EthernetInterfaces" "handle.SystemsMethodNotAllowed" SystemsMethodNotAllowed;
   Any systemsParty "/{id}/EthernetInterfaces/{rid}" "handle.SystemsMethodNotAllowed" SystemsMethodNotAllowed;
   Any systemsParty "/{id}/SecureBoot" "handle.SystemsMethodNotAllowed" SystemsMethodNotAllowed;
   Any systemsParty "/{id}/MemoryDomains" "handle.SystemsMethodNotAllowed" SystemsMethodNotAllowed;
   Any systemsParty "/{id}/NetworkInterfaces" "handle.SystemsMethodNotAllowed" SystemsMethodNotAllowed;
   Any systemsParty "/{id}/Memory" "handle.SystemsMethodNotAllowed" SystemsMethodNotAllowed;
   Any systemsParty "/{id}/Processors" "handle.SystemsMethodNotAllowed" SystemsMethodNotAllowed;
   Any systemsParty "/{id}/BootOptions" "handle.SystemsMethodNotAllowed" SystemsMethodNotAllowed;
   Any systemsParty "/{id}/BootOptions/{rid}" "handle.SystemsMethodNotAllowed" SystemsMethodNotAllowed;
   Any systemsParty "/{id}/LogServices" "handle.SystemsMethodNotAllowed" SystemsMethodNotAllowed;
   Any systemsParty "/{id}/LogServices/{rid}" "handle.SystemsMethodNotAllowed" SystemsMethodNotAllowed;
   Any systemsParty "/{id}/LogServices/{rid}/Entries" "handle.SystemsMethodNotAllowed" SystemsMethodNotAllowed;
   Any systemsParty "/{id}/LogServices/{rid}/Entries/{rid2}" "handle.SystemsMethodNotAllowed" SystemsMethodNotAllowed;
   Any systemsParty "/{id}/LogServices/{rid}/Actions" "handle.SystemsMethodNotAllowed" SystemsMethodNotAllowed;
   Any systemsParty "/{id}/LogServices/{rid}/Actions/LogService.ClearLog" "handle.SystemsMethodNotAllowed" SystemsMethodNotAllowed;
   Get systemsParty "/{id}/Certificates" "system.GetSystemResource" (SystemRPCs_GetSystemResource systemRPCs);
   Get systemsParty "/{id}/Bios" "system.GetSystemResource" (SystemRPCs_GetSystemResource systemRPCs);
   Get systemsParty "/{id}/Bios/Settings" "system.GetSystemResource" (SystemRPCs_GetSystemResource systemRPCs);
   Patch systemsParty "/{id}/Bios/Settings" "system.ChangeBiosSettings" (SystemRPCs_ChangeBiosSettings systemRPCs);
   Any systemsParty "/{id}/Bios" "handle.SystemsMethodNotAllowed" SystemsMethodNotAllowed;
   Any systemsParty "/{id}/Processors/{rid}" "handle.SystemsMethodNotAllowed" SystemsMethodNotAllowed;
   Get systemsParty "/{id}/SimpleStorage" "system.GetSystemResource" (SystemRPCs_GetSystemResource systemRPCs);
   Get systemsParty "/{id}/StorageServices" "system.GetSystemResource" (SystemRPCs_GetSystemResource systemRPCs);
   Get systemsParty "/{id}/Metrics" "system.GetSystemResource" (SystemRPCs_GetSystemResource systemRPCs);
   Get systemsParty "/{id}/VirtualMedia" "system.GetSystemResource" (SystemRPCs_GetSystemResource systemRPCs)].
Definition storageParty : party := Party v1Party "/Systems/{id}/Storage" 1.
Definition storageRoutes : list route :=
  [Get storageParty "/" "system.GetSystemResource" (SystemRPCs_GetSystemResource systemRPCs);
   Get storageParty "/{rid}" "system.GetSystemResource" (SystemRPCs_GetSystemResource systemRPCs);
   Get storageParty "/{id2}/Drives/{rid}" "system.GetSystemResource" (SystemRPCs_GetSystemResource systemRPCs);
   Get storageParty "/{id2}/Volumes" "system.GetSystemResource" (SystemRPCs_GetSystemResource systemRPCs);
   Post storageParty "/{id2}/Volumes" "system.CreateVolume" (SystemRPCs_CreateVolume systemRPCs);
   Delete storageParty "/{id2}/Volumes/{rid}" "system.DeleteVolume" (SystemRPCs_DeleteVolume systemRPCs);
   Get storageParty "/{id2}/Volumes/{rid}" "system.GetSystemResource" (SystemRPCs_GetSystemResource systemRPCs);
   Any storageParty "/" "handle.SystemsMethodNotAllowed" SystemsMethodNotAllowed;
   Any storageParty "/{id2}/Drives/{rid}" "handle.SystemsMethodNotAllowed" SystemsMethodNotAllowed;
   Any storageParty "/{rid}" "handle.SystemsMethodNotAllowed" SystemsMethodNotAllowed;
   Any storageParty "/{id2}/Volumes" "handle.SystemsMethodNotAllowed" SystemsMethodNotAllowed;
   Any storageParty "/{id2}/Volumes/{rid}" "handle.SystemsMethodNotAllowed" SystemsMethodNotAllowed;
   Get storageParty "/{rid}/StoragePools" "system.GetSystemResource" (SystemRPCs_GetSystemResource systemRPCs);
   Get storageParty "/{id2}/StoragePools/{rid}" "system.GetSystemResource" (SystemRPCs_GetSystemResource systemRPCs);
   Any storageParty "/{rid}/StoragePools" "handle.SystemsMethodNotAllowed" SystemsMethodNotAllowed;
   Any storageParty "/{id2}/StoragePools/{rid}" "handle.SystemsMethodNotAllowed" SystemsMethodNotAllowed;
   Get storageParty "/{id2}/StoragePools/{rid}/AllocatedVolumes" "system.GetSystemResource" (SystemRPCs_GetSystemResource systemRPCs);
   Any storageParty "/{id2}/StoragePools/{rid}/AllocatedVolumes" "handle.SystemsMethodNotAllowed" SystemsMethodNotAllowed;
   Get storageParty "/{id2}/StoragePools/{id3}/AllocatedVolumes/{rid}" "system.GetSystemResource" (SystemRPCs_GetSystemResource systemRPCs);
   Any storageParty "/{id2}/StoragePools/{id3}/AllocatedVolumes/{rid}" "handle.SystemsMethodNotAllowed" SystemsMethodNotAllowed;
   Get storageParty "/{id2}/StoragePools/{id3}/CapacitySources/{rid}/ProvidingVolumes" "system.GetSystemResource" (SystemRPCs_GetSystemResource systemRPCs);
   Any storageParty "/{id2}/StoragePools/{id3}/CapacitySources/{rid}/ProvidingVolumes" "handle.SystemsMethodNotAllowed" SystemsMethodNotAllowed;
   Get storageParty "/{id2}/StoragePools/{id3}/CapacitySources/{id4}/ProvidingVolumes/{rid}" "system.GetSystemResource" (SystemRPCs_GetSystemResource systemRPCs);
   Any storageParty "/{id2}/StoragePools/{id3}/CapacitySources/{id4}/ProvidingVolumes/{rid}" "handle.SystemsMethodNotAllowed" SystemsMethodNotAllowed;
   Get storageParty "/{id2}/StoragePools/{id3}/CapacitySources/{rid}/ProvidingDrives" "system.GetSystemResource" (SystemRPCs_GetSystemResource systemRPCs);
   Any storageParty "/{id2}/StoragePools/{id3}/CapacitySources/{rid}/ProvidingDrives" "handle.SystemsMethodNotAllowed" SystemsMethodNotAllowed].
Definition systemsActionParty : party := Party systemsParty "/{id}/Actions" 1.
Definition systemsActionRoutes : list route :=
  [Post systemsActionParty "/ComputerSystem.Reset" "system.ComputerSystemReset" (SystemRPCs_ComputerSystemReset systemRPCs);
   Post systemsActionParty "/ComputerSystem.SetDefaultBootOrder" "system.SetDefaultBootOrder" (SystemRPCs_SetDefaultBootOrder systemRPCs)].
Definition aggregationParty : party := Party v1Party "/AggregationService" 1.
Definition aggregationRoutes : list route :=
  [Get aggregationParty "/" "pc.GetAggregationService" (AggregatorRPCs_GetAggregationService aggregatorRPCs);
   Post aggregationParty "/Actions/AggregationService.Reset/" "pc.Reset" (AggregatorRPCs_Reset aggregatorRPCs);
   Any aggregationParty "/Actions/AggregationService.Reset/" "handle.AggMethodNotAllowed" AggMethodNotAllowed;
   Post aggregationParty "/Actions/AggregationService.SetDefaultBootOrder/" "pc.SetDefaultBootOrder" (AggregatorRPCs_SetDefaultBootOrder aggregatorRPCs);
   Any aggregationParty "/Actions/AggregationService.SetDefaultBootOrder/" "handle.AggMethodNotAllowed" AggMethodNotAllowed;
   Any aggregationParty "/" "handle.AggMethodNotAllowed" AggMethodNotAllowed].
Definition aggregationSourceParty : party := Party aggregationParty "/AggregationSources" 1.
Definition aggregationSourceRoutes : list route :=
  [Post aggregationSourceParty "/" "pc.AddAggregationSource" (AggregatorRPCs_AddAggregationSource aggregatorRPCs);
   Get aggregationSourceParty "/" "pc.GetAllAggregationSource" (AggregatorRPCs_GetAllAggregationSource aggregatorRPCs);
   Any aggregationSourceParty "/" "handle.AggMethodNotAllowed" AggMethodNotAllowed;
   Get aggregationSourceParty "/{id}" "pc.GetAggregationSource" (AggregatorRPCs_GetAggregationSource aggregatorRPCs);
   Patch aggregationSourceParty "/{id}" "pc.UpdateAggregationSource" (AggregatorRPCs_UpdateAggregationSource aggregatorRPCs);
   Delete aggregationSourceParty "/{id}" "pc.DeleteAggregationSource" (AggregatorRPCs_DeleteAggregationSource aggregatorRPCs);
   Any aggregationSourceParty "/{id}" "handle.AggMethodNotAllowed" AggMethodNotAllowed].
Definition connectionMethodsParty : party := Party aggregationParty "/ConnectionMethods" 1.
Definition connectionMethodsRoutes : list route :=
  [Get connectionMethodsParty "/" "pc.GetAllConnectionMethods" (AggregatorRPCs_GetAllConnectionMethods aggregatorRPCs);
   Get connectionMethodsParty "/{id}" "pc.GetConnectionMethod" (AggregatorRPCs_GetConnectionMethod aggregatorRPCs);
   Any connectionMethodsParty "/" "handle.AggMethodNotAllowed" AggMethodNotAllowed;
   Any connectionMethodsParty "/{id}" "handle.AggMethodNotAllowed" AggMethodNotAllowed].
Definition aggregatesParty : party := Party aggregationParty "/Aggregates" 1.
Definition aggregatesRoutes : list route :=
  [Post aggregatesParty "/" "pc.CreateAggregate" (AggregatorRPCs_CreateAggregate aggregatorRPCs);
   Get aggregatesParty "/" "pc.GetAggregateCollection" (AggregatorRPCs_GetAggregateCollection aggregatorRPCs);
   Any aggregatesParty "/" "handle.AggregateMethodNotAllowed" AggregateMethodNotAllowed;
   Get aggregatesParty "/{id}" "pc.GetAggregate" (AggregatorRPCs_GetAggregate aggregatorRPCs);
   Delete aggregatesParty "/{id}" "pc.DeleteAggregate" (AggregatorRPCs_DeleteAggregate aggregatorRPCs);
   Any aggregatesParty "/{id}" "handle.AggregateMethodNotAllowed" AggregateMethodNotAllowed;
   Post aggregatesParty "/{id}/Actions/Aggregate.AddElements/" "pc.AddElementsToAggregate" (AggregatorRPCs_AddElementsToAggregate aggregatorRPCs);
   Any aggregatesParty "/{id}/Actions/Aggregate.AddElements/" "handle.AggregateMethodNotAllowed" AggregateMethodNotAllowed;
   Post aggregatesParty "/{id}/Actions/Aggregate.RemoveElements/" "pc.RemoveElementsFromAggregate" (AggregatorRPCs_RemoveElementsFromAggregate aggregatorRPCs);
   Any aggregatesParty "/{id}/Actions/Aggregate.RemoveElements/" "handle.AggregateMethodNotAllowed" AggregateMethodNotAllowed;
   Post aggregatesParty "/{id}/Actions/Aggregate.Reset/" "pc.ResetAggregateElements" (AggregatorRPCs_ResetAggregateElements aggregatorRPCs);
   Any aggregatesParty "/{id}/Actions/Aggregate.Reset/" "handle.AggregateMethodNotAllowed" AggregateMethodNotAllowed;
   Post aggregatesParty "/{id}/Actions/Aggregate.SetDefaultBootOrder/" "pc.SetDefaultBootOrderAggregateElements" (AggregatorRPCs_SetDefaultBootOrderAggregateElements aggregatorRPCs);
   Any aggregatesParty "/{id}/Actions/Aggregate.SetDefaultBootOrder/" "handle.AggregateMethodNotAllowed" AggregateMethodNotAllowed].
Definition chassisParty : party := Party v1Party "/Chassis" 1.
Definition chassisRoutes : list route :=
  [Get chassisParty "/" "cha.GetChassisCollection" (ChassisRPCs_GetChassisCollection chassisRPCs);
   Post chassisParty "/" "cha.CreateChassis" (ChassisRPCs_CreateChassis chassisRPCs);
   Get chassisParty "/{id}" "cha.GetChassis" (ChassisRPCs_GetChassis chassisRPCs);
   Patch chassisParty "/{id}" "cha.UpdateChassis" (ChassisRPCs_UpdateChassis chassisRPCs);
   Delete chassisParty "/{id}" "cha.DeleteChassis" (ChassisRPCs_DeleteChassis chassisRPCs);
   Get chassisParty "/{id}/NetworkAdapters" "cha.GetChassisResource" (ChassisRPCs_GetChassisResource chassisRPCs);
   Get chassisParty "/{id}/NetworkAdapters/{rid}" "cha.GetChassisResource" (ChassisRPCs_GetChassisResource chassisRPCs);
   Get chassisParty "/{id}/NetworkAdapters/{id2}/NetworkDeviceFunctions" "cha.GetChassisResource" (ChassisRPCs_GetChassisResource chassisRPCs);
   Get chassisParty "/{id}/NetworkAdapters/{id2}/NetworkPorts" "cha.GetChassisResource" (ChassisRPCs_GetChassisResource chassisRPCs);
   Get chassisParty "/{id}/NetworkAdapters/{id2}/NetworkPorts/{rid}" "cha.GetChassisResource" (ChassisRPCs_GetChassisResource chassisRPCs);
   Get chassisParty "/{id}/NetworkAdapters/{id2}/NetworkDeviceFunctions/{rid}" "cha.GetChassisResource" (ChassisRPCs_GetChassisResource chassisRPCs);
   Get chassisParty "/{id}/NetworkAdapters/{id2}/NetworkDeviceFunctions/{rid}/VLANS" "cha.GetChassisResource" (ChassisRPCs_GetChassisResource chassisRPCs);
   Get chassisParty "/{id}/NetworkAdapters/{id2}/Ports/{rid}" "cha.GetChassisResource" (ChassisRPCs_GetChassisResource chassisRPCs);
   Get chassisParty "/{id}/NetworkAdapters/{id2}/Ports" "cha.GetChassisResource" (ChassisRPCs_GetChassisResource chassisRPCs);
   Get chassisParty "/{id}/NetworkAdapters/{id2}/Assembly" "cha.GetChassisResource" (ChassisRPCs_GetChassisResource chassisRPCs);
   Any chassisParty "/" "handle.ChassisMethodNotAllowed" ChassisMethodNotAllowed;
   Any chassisParty "/{id}" "handle.ChassisMethodNotAllowed" ChassisMethodNotAllowed;
   Any chassisParty "/{id}/NetworkAdapters" "handle.ChassisMethodNotAllowed" ChassisMethodNotAllowed;
   Any chassisParty "/{id}/NetworkAdapters/{rid}" "handle.ChassisMethodNotAllowed" ChassisMethodNotAllowed;
   Any chassisParty "/{id}/NetworkAdapters/{id2}/NetworkDeviceFunctions" "handle.ChassisMethodNotAllowed" ChassisMethodNotAllowed;
   Any chassisParty "/{id}/NetworkAdapters/{id2}/NetworkPorts" "handle.ChassisMethodNotAllowed" ChassisMethodNotAllowed;
   Any chassisParty "/{id}/NetworkAdapters/{id2}/NetworkDeviceFunctions/{rid}" "handle.ChassisMethodNotAllowed" ChassisMethodNotAllowed;
   Any chassisParty "/{id}/NetworkAdapters/{id2}/NetworkPorts/{rid}" "handle.ChassisMethodNotAllowed" ChassisMethodNotAllowed;
   Get chassisParty "/{id}/Assembly" "cha.GetChassisResource" (ChassisRPCs_GetChassisResource chassisRPCs);
   Any chassisParty "/{id}/Assembly" "handle.ChassisMethodNotAllowed" ChassisMethodNotAllowed;
   Get chassisParty "/{id}/PCIeSlots" "cha.GetChassisResource" (ChassisRPCs_GetChassisResource chassisRPCs);
   Get chassisParty "/{id}/PCIeSlots/{rid}" "cha.GetChassisResource" (ChassisRPCs_GetChassisResource chassisRPCs);
   Any chassisParty "/{id}/PCIeSlots" "handle.ChassisMethodNotAllowed" ChassisMethodNotAllowed;
   Any chassisParty "/{id}/PCIeSlots/{rid}" "handle.ChassisMethodNotAllowed" ChassisMethodNotAllowed;
   Get chassisParty "/{id}/PCIeDevices" "cha.GetChassisResource" (ChassisRPCs_GetChassisResource chassisRPCs);
   Get chassisParty "/{id}/PCIeDevices/{rid}" "cha.GetChassisResource" (ChassisRPCs_GetChassisResource chassisRPCs);
   Any chassisParty "/{id}/PCIeDevices" "handle.ChassisMethodNotAllowed" ChassisMethodNotAllowed;
   Any chassisParty "/{id}/PCIeDevices/{rid}" "handle.ChassisMethodNotAllowed" ChassisMethodNotAllowed;
   Get chassisParty "/{id}/Sensors" "cha.GetChassisResource" (ChassisRPCs_GetChassisResource chassisRPCs);
   Get chassisParty "/{id}/Sensors/{rid}" "cha.GetChassisResource" (ChassisRPCs_GetChassisResource chassisRPCs);
   Any chassisParty "/{id}/Sensors" "handle.ChassisMethodNotAllowed" ChassisMethodNotAllowed;
   Any chassisParty "/{id}/Sensors/{rid}" "handle.ChassisMethodNotAllowed" ChassisMethodNotAllowed;
   Get chassisParty "/{id}/LogServices" "cha.GetChassisResource" (ChassisRPCs_GetChassisResource chassisRPCs);
   Get chassisParty "/{id}/LogServices/{rid}" "cha.GetChassisResource" (ChassisRPCs_GetChassisResource chassisRPCs);
   Get chassisParty "/{id}/LogServices/{rid}/Entries" "cha.GetChassisResource" (ChassisRPCs_GetChassisResource chassisRPCs);
   Get chassisParty "/{id}/LogServices/{rid}/Entries/{rid2}" "cha.GetChassisResource" (ChassisRPCs_GetChassisResource chassisRPCs);
   Get chassisParty "/{id}/Drives" "cha.GetChassisResource" (ChassisRPCs_GetChassisResource chassisRPCs);
   Get chassisParty "/{id}/Memory" "cha.GetChassisResource" (ChassisRPCs_GetChassisResource chassisRPCs);
   Get chassisParty "/{id}/MemoryDomains" "cha.GetChassisResource" (ChassisRPCs_GetChassisResource chassisRPCs);
   Get chassisParty "/{id}/LogServices" "cha.GetChassisResource" (ChassisRPCs_GetChassisResource chassisRPCs);
   Any chassisParty "/{id}/LogServices/{rid}" "handle.ChassisMethodNotAllowed" ChassisMethodNotAllowed;
   Any chassisParty "/{id}/LogServices/{rid}/Entries" "handle.ChassisMethodNotAllowed" ChassisMethodNotAllowed;
   Any chassisParty "/{id}/LogServices/{rid}/Entries/{rid2}" "handle.ChassisMethodNotAllowed" ChassisMethodNotAllowed;
   Any chassisParty "/{id}/LogServices/{rid}/Actions" "handle.ChassisMethodNotAllowed" ChassisMethodNotAllowed].
Definition chassisPowerParty : party := Party chassisParty "/{id}/Power" 0.
Definition chassisPowerRoutes : list route :=
  [Patch chassisPowerParty "" "cha.UpdateChassisResource" (ChassisRPCs_UpdateChassisResource chassisRPCs);
   Get chassisPowerParty "/" "cha.GetChassisResource" (ChassisRPCs_GetChassisResource chassisRPCs);
   Get chassisPowerParty "#PowerControl/{id1}" "cha.GetChassisResource" (ChassisRPCs_GetChassisResource chassisRPCs);
   Get chassisPowerParty "#PowerSupplies/{id1}" "cha.GetChassisResource" (ChassisRPCs_GetChassisResource chassisRPCs);
   Get chassisPowerParty "#Redundancy/{id1}" "cha.GetChassisResource" (ChassisRPCs_GetChassisResource chassisRPCs);
   Any chassisPowerParty "/" "handle.ChassisMethodNotAllowed" ChassisMethodNotAllowed;
   Any chassisPowerParty "#PowerControl/{id1}" "handle.ChassisMethodNotAllowed" ChassisMethodNotAllowed;
   Any chassisPowerParty "#PowerSupplies/{id1}" "handle.ChassisMethodNotAllowed" ChassisMethodNotAllowed;
   Any chassisPowerParty "#Redundancy/{id1}" "handle.ChassisMethodNotAllowed" ChassisMethodNotAllowed].
Definition chassisThermalParty : party := Party chassisParty "/{id}/Thermal" 0.
Definition chassisThermalRoutes : list route :=
  [Get chassisThermalParty "/" "cha.GetChassisResource" (ChassisRPCs_GetChassisResource chassisRPCs);
   Get chassisThermalParty "#Fans/{id1}" "cha.GetChassisResource" (ChassisRPCs_GetChassisResource chassisRPCs);
   Get chassisThermalParty "#Temperatures/{id1}" "cha.GetChassisResource" (ChassisRPCs_GetChassisResource chassisRPCs);
   Any chassisThermalParty "/" "handle.ChassisMethodNotAllowed" ChassisMethodNotAllowed;
   Any chassisThermalParty "#Fans/{id1}" "handle.ChassisMethodNotAllowed" ChassisMethodNotAllowed;
   Any chassisThermalParty "#Temperatures/{id1}" "handle.ChassisMethodNotAllowed" ChassisMethodNotAllowed].
Definition eventsParty : party := Party v1Party "/EventService" 1.
Definition eventsRoutes : list route :=
  [Get eventsParty "/" "evt.GetEventService" (EventsRPCs_GetEventService eventsRPCs);
   Get eventsParty "/Subscriptions" "evt.GetEventSubscriptionsCollection" (EventsRPCs_GetEventSubscriptionsCollection eventsRPCs);
   Get eventsParty "/Subscriptions/{id}" "evt.GetEventSubscription" (EventsRPCs_GetEventSubscription eventsRPCs);
   Post eventsParty "/Subscriptions" "evt.CreateEventSubscription" (EventsRPCs_CreateEventSubscription eventsRPCs);
   Post eventsParty "/Actions/EventService.SubmitTestEvent" "evt.SubmitTestEvent" (EventsRPCs_SubmitTestEvent eventsRPCs);
   Delete eventsParty "/Subscriptions/{id}" "evt.DeleteEventSubscription" (EventsRPCs_DeleteEventSubscription eventsRPCs);
   Any eventsParty "/" "handle.EvtMethodNotAllowed" EvtMethodNotAllowed;
   Any eventsParty "/Actions" "handle.EvtMethodNotAllowed" EvtMethodNotAllowed;
   Any eventsParty "/Actions/EventService.SubmitTestEvent" "handle.EvtMethodNotAllowed" EvtMethodNotAllowed;
   Any eventsParty "/Subscriptions" "handle.EvtMethodNotAllowed" EvtMethodNotAllowed].
Definition fabricsParty : party := Party v1Party "/Fabrics" 1.
Definition fabricsRoutes : list route :=
  [Get fabricsParty "/" "fab.GetFabricCollection" (FabricRPCs_GetFabricCollection fabricRPCs);
   Get fabricsParty "/{id}" "fab.GetFabric" (FabricRPCs_GetFabric fabricRPCs);
   Get fabricsParty "/{id}/Switches" "fab.GetFabricSwitchCollection" (FabricRPCs_GetFabricSwitchCollection fabricRPCs);
   Get fabricsParty "/{id}/Switches/{switchID}" "fab.GetFabricSwitch" (FabricRPCs_GetFabricSwitch fabricRPCs);
   Get fabricsParty "/{id}/Switches/{switchID}/Ports" "fab.GetSwitchPortCollection" (FabricRPCs_GetSwitchPortCollection fabricRPCs);
   Get fabricsParty "/{id}/Switches/{switchID}/Ports/{port_uuid}" "fab.GetSwitchPort" (FabricRPCs_GetSwitchPort fabricRPCs);
   Get fabricsParty "/{id}/Zones/" "fab.GetFabricZoneCollection" (FabricRPCs_GetFabricZoneCollection fabricRPCs);
   Get fabricsParty "/{id}/Endpoints/" "fab.GetFabricEndPointCollection" (FabricRPCs_GetFabricEndPointCollection fabricRPCs);
   Get fabricsParty "/{id}/AddressPools/" "fab.GetFabricAddressPoolCollection" (FabricRPCs_GetFabricAddressPoolCollection fabricRPCs);
   Get fabricsParty "/{id}/Zones/{zone_uuid}" "fab.GetFabricZone" (FabricRPCs_GetFabricZone fabricRPCs);
   Get fabricsParty "/{id}/Endpoints/{endpoint_uuid}" "fab.GetFabricEndPoints" (FabricRPCs_GetFabricEndPoints fabricRPCs);
   Get fabricsParty "/{id}/AddressPools/{addresspool_uuid}" "fab.GetFabricAddressPool" (FabricRPCs_GetFabricAddressPool fabricRPCs);
   Put fabricsParty "/{id}/Zones/{zone_uuid}" "fab.UpdateFabricResource" (FabricRPCs_UpdateFabricResource fabricRPCs);
   Put fabricsParty "/{id}/Endpoints/{endpoint_uuid}" "fab.UpdateFabricResource" (FabricRPCs_UpdateFabricResource fabricRPCs);
   Put fabricsParty "/{id}/AddressPools/{addresspool_uuid}" "fab.UpdateFabricResource" (FabricRPCs_UpdateFabricResource fabricRPCs);
   Post fabricsParty "/{id}/Zones" "fab.UpdateFabricResource" (FabricRPCs_UpdateFabricResource fabricRPCs);
   Post fabricsParty "/{id}/Endpoints" "fab.UpdateFabricResource" (FabricRPCs_UpdateFabricResource fabricRPCs);
   Post fabricsParty "/{id}/AddressPools" "fab.UpdateFabricResource" (FabricRPCs_UpdateFabricResource fabricRPCs);
   Patch fabricsParty "/{id}/Zones/{zone_uuid}" "fab.UpdateFabricResource" (FabricRPCs_UpdateFabricResource fabricRPCs);
   Patch fabricsParty "/{id}/Endpoints/{endpoint_uuid}" "fab.UpdateFabricResource" (FabricRPCs_UpdateFabricResource fabricRPCs);
   Patch fabricsParty "/{id}/AddressPools/{addresspool_uuid}" "fab.UpdateFabricResource" (FabricRPCs_UpdateFabricResource fabricRPCs);
   Patch fabricsParty "/{id}/Switches/{switchID}/Ports/{port_uuid}" "fab.UpdateFabricResource" (FabricRPCs_UpdateFabricResource fabricRPCs);
   Delete fabricsParty "/{id}/Zones/{zone_uuid}" "fab.DeleteFabricResource" (FabricRPCs_DeleteFabricResource fabricRPCs);
   Delete fabricsParty "/{id}/Endpoints/{endpoint_uuid}" "fab.DeleteFabricResource" (FabricRPCs_DeleteFabricResource fabricRPCs);
   Delete fabricsParty "/{id}/AddressPools/{addresspool_uuid}" "fab.DeleteFabricResource" (FabricRPCs_DeleteFabricResource fabricRPCs);
   Any fabricsParty "/" "handle.FabricsMethodNotAllowed" FabricsMethodNotAllowed;
   Any fabricsParty "/{id}" "handle.FabricsMethodNotAllowed" FabricsMethodNotAllowed;
   Any fabricsParty "/{id}/Switches" "handle.FabricsMethodNotAllowed" FabricsMethodNotAllowed;
   Any fabricsParty "/{id}/Switches/{switchID}" "handle.FabricsMethodNotAllowed" FabricsMethodNotAllowed;
   Any fabricsParty "/{id}/Switches/{switchID}/Ports" "handle.FabricsMethodNotAllowed" FabricsMethodNotAllowed;
   Any fabricsParty "/{id}/Switches/{switchID}/Ports/{port_uuid}" "handle.FabricsMethodNotAllowed" FabricsMethodNotAllowed;
   Any fabricsParty "/{id}/Zones/" "handle.FabricsMethodNotAllowed" FabricsMethodNotAllowed;
   Any fabricsParty "/{id}/Endpoints/" "handle.FabricsMethodNotAllowed" FabricsMethodNotAllowed;
   Any fabricsParty "/{id}/AddressPools/" "handle.FabricsMethodNotAllowed" FabricsMethodNotAllowed;
   Any fabricsParty "/{id}/Zones/{zone_uuid}" "handle.FabricsMethodNotAllowed" FabricsMethodNotAllowed;
   Any fabricsParty "/{id}/Endpoints/{endpoint_uuid}" "handle.FabricsMethodNotAllowed" FabricsMethodNotAllowed;
   Any fabricsParty "/{id}/AddressPools/{addresspool_uuid}" "handle.FabricsMethodNotAllowed" FabricsMethodNotAllowed].
Definition managersParty : party := Party v1Party "/Managers" 1.
Definition managersRoutes : list route :=
  [Get managersParty "/" "manager.GetManagersCollection" (ManagersRPCs_GetManagersCollection managersRPCs);
   Get managersParty "/{id}" "manager.GetManager" (ManagersRPCs_GetManager managersRPCs);
   Get managersParty "/{id}/EthernetInterfaces" "manager.GetManagersResource" (ManagersRPCs_GetManagersResource managersRPCs);
   Get managersParty "/{id}/EthernetInterfaces/{rid}" "manager.GetManagersResource" (ManagersRPCs_GetManagersResource managersRPCs);
   Get managersParty "/{id}/NetworkProtocol" "manager.GetManagersResource" (ManagersRPCs_GetManagersResource managersRPCs);
   Get managersParty "/{id}/NetworkProtocol/{rid}" "manager.GetManagersResource" (ManagersRPCs_GetManagersResource managersRPCs);
   Get managersParty "/{id}/HostInterfaces" "manager.GetManagersResource" (ManagersRPCs_GetManagersResource managersRPCs);
   Get managersParty "/{id}/HostInterfaces/{rid}" "manager.GetManagersResource" (ManagersRPCs_GetManagersResource managersRPCs);
   Get managersParty "/{id}/SerialInterfaces" "manager.GetManagersResource" (ManagersRPCs_GetManagersResource managersRPCs);
   Get managersParty "/{id}/SerialInterfaces/{rid}" "manager.GetManagersResource" (ManagersRPCs_GetManagersResource managersRPCs);
   Get managersParty "/{id}/VirtualMedia" "manager.GetManagersResource" (ManagersRPCs_GetManagersResource managersRPCs);
   Get managersParty "/{id}/VirtualMedia/{rid}" "manager.GetManagersResource" (ManagersRPCs_GetManagersResource managersRPCs);
   Post managersParty "/{id}/VirtualMedia/{rid}/Actions/VirtualMedia.EjectMedia" "manager.VirtualMediaEject" (ManagersRPCs_VirtualMediaEject managersRPCs);
   Post managersParty "/{id}/VirtualMedia/{rid}/Actions/VirtualMedia.InsertMedia" "manager.VirtualMediaInsert" (ManagersRPCs_VirtualMediaInsert managersRPCs);
   Get managersParty "/{id}/LogServices" "manager.GetManagersResource" (ManagersRPCs_GetManagersResource managersRPCs);
   Get managersParty "/{id}/LogServices/{rid}" "manager.GetManagersResource" (ManagersRPCs_GetManagersResource managersRPCs);
   Get managersParty "/{id}/LogServices/{rid}/Entries" "manager.GetManagersResource" (ManagersRPCs_GetManagersResource managersRPCs);
   Get managersParty "/{id}/LogServices/{rid}/Entries/{rid2}" "manager.GetManagersResource" (ManagersRPCs_GetManagersResource managersRPCs);
   Post managersParty "/{id}/LogServices/{rid}/Actions/LogService.ClearLog" "manager.GetManagersResource" (ManagersRPCs_GetManagersResource managersRPCs);
   Any managersParty "/{id}/LogServices" "handle.ManagersMethodNotAllowed" ManagersMethodNotAllowed;
   Any managersParty "/{id}/LogServices/{rid}" "handle.ManagersMethodNotAllowed" ManagersMethodNotAllowed;
   Any managersParty "/{id}/LogServices/{rid}/Entries" "handle.ManagersMethodNotAllowed" ManagersMethodNotAllowed;
   Any managersParty "/{id}/LogServices/{rid}/Entries/{rid2}" "handle.ManagersMethodNotAllowed" ManagersMethodNotAllowed;
   Any managersParty "/{id}/LogServices/{rid}/Actions" "handle.ManagersMethodNotAllowed" ManagersMethodNotAllowed;
   Any managersParty "/{id}/LogServices/{rid}/Actions/LogService.ClearLog" "handle.ManagersMethodNotAllowed" ManagersMethodNotAllowed;
   Any managersParty "/{id}/VirtualMedia" "handle.ManagersMethodNotAllowed" ManagersMethodNotAllowed;
   Any managersParty "/{id}/VirtualMedia/{rid}" "handle.ManagersMethodNotAllowed" ManagersMethodNotAllowed;
   Any managersParty "/{id}/VirtualMedia/{rid}/Actions/VirtualMedia.EjectMedia" "handle.ManagersMethodNotAllowed" ManagersMethodNotAllowed;
   Any managersParty "/{id}/VirtualMedia/{rid}/Actions/VirtualMedia.InsertMedia" "handle.ManagersMethodNotAllowed" ManagersMethodNotAllowed;
   Any managersParty "/" "handle.ManagersMethodNotAllowed" ManagersMethodNotAllowed;
   Any managersParty "/{id}" "handle.ManagersMethodNotAllowed" ManagersMethodNotAllowed].
Definition updateServiceParty : party := Party v1Party "/UpdateService" 1.
Definition updateServiceRoutes : list route :=
  [Get updateServiceParty "/" "update.GetUpdateService" (UpdateRPCs_GetUpdateService updateRPCs);
   Post updateServiceParty "/Actions/UpdateService.SimpleUpdate" "update.SimpleUpdate" (UpdateRPCs_SimpleUpdate updateRPCs);
   Post updateServiceParty "/Actions/UpdateService.StartUpdate" "update.StartUpdate" (UpdateRPCs_StartUpdate updateRPCs);
   Get updateServiceParty "/FirmwareInventory" "update.GetFirmwareInventoryCollection" (UpdateRPCs_GetFirmwareInventoryCollection updateRPCs);
   Get updateServiceParty "/FirmwareInventory/{firmwareInventory_id}" "update.GetFirmwareInventory" (UpdateRPCs_GetFirmwareInventory updateRPCs);
   Get updateServiceParty "/SoftwareInventory" "update.GetSoftwareInventoryCollection" (UpdateRPCs_GetSoftwareInventoryCollection updateRPCs);
   Get updateServiceParty "/SoftwareInventory/{softwareInventory_id}" "update.GetSoftwareInventory" (UpdateRPCs_GetSoftwareInventory updateRPCs)].
Definition telemetryServiceParty : party := Party v1Party "/TelemetryService" 1.
Definition telemetryServiceRoutes : list route :=
  [Get telemetryServiceParty "/" "telemetry.GetTelemetryService" (TelemetryRPCs_GetTelemetryService telemetryRPCs);
   Get telemetryServiceParty "/MetricDefinitions" "telemetry.GetMetricDefinitionCollection" (TelemetryRPCs_GetMetricDefinitionCollection telemetryRPCs);
   Get telemetryServiceParty "/MetricReportDefinitions" "telemetry.GetMetricReportDefinitionCollection" (TelemetryRPCs_GetMetricReportDefinitionCollection telemetryRPCs);
   Get telemetryServiceParty "/MetricReports" "telemetry.GetMetricReportCollection" (TelemetryRPCs_GetMetricReportCollection telemetryRPCs);
   Get telemetryServiceParty "/Triggers" "telemetry.GetTriggerCollection" (TelemetryRPCs_GetTriggerCollection telemetryRPCs);
   Get telemetryServiceParty "/MetricDefinitions/{id}" "telemetry.GetMetricDefinition" (TelemetryRPCs_GetMetricDefinition telemetryRPCs);
   Get telemetryServiceParty "/MetricReportDefinitions/{id}" "telemetry.GetMetricReportDefinition" (TelemetryRPCs_GetMetricReportDefinition telemetryRPCs);
   Get telemetryServiceParty "/MetricReports/{id}" "telemetry.GetMetricReport" (TelemetryRPCs_GetMetricReport telemetryRPCs);
   Get telemetryServiceParty "/Triggers/{id}" "telemetry.GetTrigger" (TelemetryRPCs_GetTrigger telemetryRPCs);
   Patch telemetryServiceParty "/Triggers/{id}" "telemetry.UpdateTrigger" (TelemetryRPCs_UpdateTrigger telemetryRPCs)].
Definition compositionServiceParty : party := Party v1Party "/CompositionService" 1.
Definition compositionServiceRoutes : list route :=
  [Get compositionServiceParty "/" "cs.GetCompositionService" (CompositionServiceRPCs_GetCompositionService compositionRPCs);
   Get compositionServiceParty "/ResourceBlocks" "cs.GetResourceBlockCollection" (CompositionServiceRPCs_GetResourceBlockCollection compositionRPCs);
   Get compositionServiceParty "/ResourceBlocks/{id}" "cs.GetResourceBlock" (CompositionServiceRPCs_GetResourceBlock compositionRPCs);
   Post compositionServiceParty "/ResourceBlocks" "cs.CreateResourceBlock" (CompositionServiceRPCs_CreateResourceBlock compositionRPCs);
   Delete compositionServiceParty "/ResourceBlocks/{id}" "cs.DeleteResourceBlock" (CompositionServiceRPCs_DeleteResourceBlock compositionRPCs);
   Get compositionServiceParty "/ResourceZones" "cs.GetResourceZoneCollection" (CompositionServiceRPCs_GetResourceZoneCollection compositionRPCs);
   Get compositionServiceParty "/ResourceZones/{id}" "cs.GetResourceZone" (CompositionServiceRPCs_GetResourceZone compositionRPCs);
   Post compositionServiceParty "/ResourceZones" "cs.CreateResourceZone" (CompositionServiceRPCs_CreateResourceZone compositionRPCs);
   Delete compositionServiceParty "/ResourceZones/{id}" "cs.DeleteResourceZone" (CompositionServiceRPCs_DeleteResourceZone compositionRPCs);
   Post compositionServiceParty "/Actions/CompositionService.Compose" "cs.Compose" (CompositionServiceRPCs_Compose compositionRPCs);
   Get compositionServiceParty "/ActivePool" "cs.GetActivePool" (CompositionServiceRPCs_GetActivePool compositionRPCs);
   Get compositionServiceParty "/FreePool" "cs.GetFreePool" (CompositionServiceRPCs_GetFreePool compositionRPCs);
   Get compositionServiceParty "/CompositionReservations" "cs.GetCompositionReservations" (CompositionServiceRPCs_GetCompositionReservations compositionRPCs);
   Any compositionServiceParty "/" "handle.CompositionServiceMethodNotAllowed" CompositionServiceMethodNotAllowed;
   Any compositionServiceParty "/ResourceBlocks" "handle.CompositionServiceMethodNotAllowed" CompositionServiceMethodNotAllowed;
   Any compositionServiceParty "/ResourceBlocks/{id}" "handle.CompositionServiceMethodNotAllowed" CompositionServiceMethodNotAllowed;
   Any compositionServiceParty "/ResourceZones" "handle.CompositionServiceMethodNotAllowed" CompositionServiceMethodNotAllowed;
   Any compositionServiceParty "/ResourceZones/{id}" "handle.CompositionServiceMethodNotAllowed" CompositionServiceMethodNotAllowed;
   Any compositionServiceParty "/FreePool" "handle.CompositionServiceMethodNotAllowed" CompositionServiceMethodNotAllowed;
   Any compositionServiceParty "/ActivePool" "handle.CompositionServiceMethodNotAllowed" CompositionServiceMethodNotAllowed].

Definition routes : list route :=
  (taskmonRoutes ++
   redfishRoutes ++
   v1Routes ++
   registryRoutes ++
   sessionRoutes ++
   accountRoutes ++
   roleRoutes ++
   taskRoutes ++
   systemsRoutes ++
   storageRoutes ++
   systemsActionRoutes ++
   aggregationRoutes ++
   aggregationSourceRoutes ++
   connectionMethodsRoutes ++
   aggregatesRoutes ++
   chassisRoutes ++
   chassisPowerRoutes ++
   chassisThermalRoutes ++
   eventsRoutes ++
   fabricsRoutes ++
   managersRoutes ++
   updateServiceRoutes ++
   telemetryServiceRoutes ++
   compositionServiceRoutes)%list.
Definition route_table : list (list string * string) := (fun r => (r_methods r, r_path r)) <$> routes.
End Router.
