(* ===== verification/Gateway.v ===== *)
(** svc-api/main.go, svc-api/middleware, and lib-utilities/logs: a request to the gateway, from the
    wrappers of the router to the logs.

    The wrapper of main.go was added last and runs first.  A handler and everything it defers run to
    their end; a panic of a handler ends its request only.  Lines of the logs are kept without the
    time. *)
From stdpp Require Import base gmap list strings sorting pretty.
From S2P Require Import Prelude Go GoTime GoCodec GoText Response Redis World Session Services Http Proto HandleFixed System GatewayRpc Router.
Open Scope string_scope.

Section Gateway.
Context `{Env, Libs, Config, !Peers, !Discovery, !RegistryStore, !Routing, !UrlForms}.

(** ** lib-utilities/logs *)

Definition getUserDetails (sessionToken : string) : M Gateway (string * string) :=
  if is_empty sessionToken then ret ("null", "null")
  else
    let! r := Services.GetSessionUserName in_session gw_env sessionToken in
    match r with
    | inl _ => ret ("null", "null")
    | inr sessionUserName =>
        let! r := Services.GetSessionUserRoleID in_session gw_env sessionToken in
        match r with
        | inl _ => ret (sessionUserName, "null")
        | inr sessionRoleID => ret (sessionUserName, sessionRoleID)
        end
    end.
Definition set_key (k : string) (v : json) (m : list (string * json)) : list (string * json) :=
  filter (fun kv => kv.1 <> k) m ++ [(k, v)].
(** What is shown of a body; a body without entries is not shown. *)
Definition maskRequestBody (reqBody : option (list (string * json))) : option json :=
  match reqBody with
  | None | Some [] => None
  | Some m => Some (JObj (merge_sort key_le (set_key "Password" (JStr "null") m)))
  end.
Definition getResponseStatus (code : Z) : bool :=
  existsb (Z.eqb code) [StatusOK; StatusCreated; StatusAccepted; StatusNoContent].

Definition AuditLog (ctx : Context) : M (Gateway * Writer payload) unit :=
  let! st := get in
  let! (sessionUserName, sessionRoleID) := call (getUserDetails (token ctx)) in
  let line := AuditLine (Host (ctx_Request ctx)) sessionUserName sessionRoleID (Method (ctx_Request ctx)) (URI ctx)
                (maskRequestBody (gw_reqBody st.1)) (w_status st.2) (getResponseStatus (w_status st.2)) in
  call (modify (add_log line)).

(** The properties that are given, and what stands for the others. *)
Definition AuthLog (sessionToken sessionUserID sessionRoleID msg : option string) (code : option Z)
  : M Gateway unit :=
  let respStatusCode := default StatusUnauthorized code in
  let tokenMsg := match sessionToken with
                  | Some t => if String.eqb t "null" then "" else "for session token " +:+ t
                  | None => "" end in
  let ok := getResponseStatus respStatusCode in
  let errMsg := if ok then "Authentication/Authorization successful"
                else if (respStatusCode =? StatusForbidden)%Z then "Authorization failed"
                else if (respStatusCode =? StatusUnauthorized)%Z then "Authentication failed"
                else "Authentication/Authorization failed" in
  modify (add_log (AuthLine (if ok then "<86>" else "<84>") (default "null" sessionUserID)
                     (default "null" sessionRoleID) tokenMsg errMsg
                     (if ok then "" else default "null" msg))).

(** ** middleware.go *)

Definition SessionDelMiddleware (next : M (Gateway * Writer payload) unit) (ctx : Context)
  : M (Gateway * Writer payload) unit :=
  next ;;;
  let sessionID := Header_Get ctx "Session-ID" in
  let sessionToken := token ctx in
  if is_empty sessionID then ret tt
  else let! _ := call (rpc_DeleteSessionRequest sessionID sessionToken) in ret tt.

(** ** The routes (router.go) *)

(** What [router.Done] adds to every route. *)
Definition Done (ctx : Context) : M (Gateway * Writer payload) unit :=
  AuditLog ctx ;;; call (modify (with_reqBody (Some []))).
(** [defer next()] *)
Definition deferring {S} (m next : M S unit) : M S unit := fun s =>
  let (o, s1) := m s in
  match next s1 with
  | (Ok _, s2) => (o, s2)
  | (Panic, s2) => (Panic, s2)
  end.
Definition run_route (rt : route) (ctx : Context) : M (Gateway * Writer payload) unit :=
  Nat.iter (r_middlewares rt) (fun next => SessionDelMiddleware next ctx)
    (deferring (r_handler rt ctx) (Done ctx)).
Definition dispatch (r : Request) : M (Gateway * Writer payload) unit :=
  match find_route route_table (Method r) (URLPath r) with
  | Some (i, params) =>
      match routes !! i with
      | Some rt => run_route rt (mkContext r params)
      | None => SetStatus StatusNotFound
      end
  | None => SetStatus StatusNotFound
  end.

Definition URIWithNoAuth : list string :=
  ["/redfish/v1"; "/redfish/v1/$metadata"; "/redfish/v1/odata"; "/redfish/v1/SessionService";
   "/redfish/v1/SesssionService/Sessions"].
(** [json.Unmarshal(body, &reqBody)]: the entries are added to those of the map. *)
Definition merge_body (body : jtext) (reqBody : option (list (string * json)))
  : option (list (string * json)) :=
  match body with
  | Text (JObj kvs) =>
      Some (fold_left (fun m kv => set_key kv.1 (through_interface kv.2) m) kvs (default [] reqBody))
  | Text JNull => None
  | _ => reqBody
  end.
Definition WrapRouter_router (r : Request) (next : Request -> M (Gateway * Writer payload) unit)
  : M (Gateway * Writer payload) unit :=
  match url_Parse (RequestURI r) with
  | None => ret tt
  | Some (escaped, path) =>
      let r := with_uri (Replace (RequestURI r) escaped path) path r in
      let sessionToken := header_Get (ReqHeader r) X_Auth_Token in
      (if is_empty sessionToken && negb (existsb (String.eqb (URLPath r)) URIWithNoAuth) then
         call (AuthLog (Some sessionToken) None None
                 (Some "X-Auth-Token is missing in the request header") (Some StatusUnauthorized))
       else ret tt) ;;;
      call (modify (fun s => with_reqBody (merge_body (ReqBody r) (gw_reqBody s)) s)) ;;;
      next r
  end.

(** ** main.go *)

Definition urlNoBasicAuth : list string := ["/redfish/v1"; "/redfish/v1/SessionService"].
Definition invalid_basic : string := "Invalid basic auth provided".
(** The user name and the password of the header, or why there are none. *)
Definition basic_credentials (basicAuth : string) : string + (string * string) :=
  if Contains basicAuth "Basic" then
    match Split basicAuth " " with
    | [_; encoded] =>
        match DecodeString encoded with
        | inl n => inl ("Decoding the authorization failed: illegal base64 data at input byte "
                        +:+ pretty n)
        | inr data => match SplitN2 data ":" with
                      | [username; password] => inr (username, password)
                      | _ => inl invalid_basic
                      end
        end
    | _ => inl invalid_basic
    end
  else inl invalid_basic.
Definition error_document (status : Z) (statusMessage errorMessage : string)
  : M (Gateway * Writer payload) unit :=
  SetCommonHeaders ;;;
  SetStatus status ;;;
  let! response := lift (GeneralError status statusMessage errorMessage []) in
  Write (JSON (RBody response)).
Definition invalidAuthResp (errMsg : string) : M (Gateway * Writer payload) unit :=
  error_document StatusUnauthorized NoValidSession errMsg.

(** The session's identifier in the header Link. *)
Definition session_of_link (sessionLocation : string) : outcome string :=
  let sessionLocationSlice := Split sessionLocation "/" in
  if (1 <? length sessionLocationSlice)%nat
  then index sessionLocationSlice (length sessionLocationSlice - 2) else Ok "".
Definition header_of (resp : RPC payload) (k : string) : string :=
  match List.find (fun kv => String.eqb kv.1 k) (Header resp) with Some kv => kv.2 | None => "" end.
Definition login_body (username password : string) : jtext :=
  Text (JObj [("Password", JStr password); ("UserName", JStr username)]).
Definition without_trailing_slash (path : string) : option string :=
  let n := String.length path in
  if (1 <? n)%nat && HasSuffix path "/" && negb (HasSuffix path "//")
  then Some (String.substring 0 (n - 1) path) else None.

Definition WrapRouter_main (r : Request) (next : Request -> M (Gateway * Writer payload) unit)
  : M (Gateway * Writer payload) unit :=
  let r := match without_trailing_slash (URLPath r) with
           | Some path => with_uri path path r | None => r end in
  let basicAuth := header_Get (ReqHeader r) "Authorization" in
  if is_empty basicAuth || existsb (String.eqb (URLPath r)) urlNoBasicAuth then next r
  else
    match basic_credentials basicAuth with
    | inl errorMessage => invalidAuthResp errorMessage
    | inr (username, password) =>
        let! a := call (rpc_DoSessionCreationRequest (login_body username password)) in
        match nil_and_err a with
        | Some err =>
            error_document StatusInternalServerError InternalError
              ("error: something went wrong with the RPC calls: " +:+ err)
        | None =>
            let! (resp, _) := deref a.1 in
            if ((StatusCode resp <? 200) || (300 <=? StatusCode resp))%Z then
              if (StatusCode resp =? StatusServiceUnavailable)%Z then
                SetCommonHeaders ;;; SetStatus (StatusCode resp) ;;; Write (Bytes (RBody resp))
              else error_document (StatusCode resp) (StatusMessage resp) "error: failed to create a sesssion"
            else
              let! sessionID := lift (session_of_link (header_of resp "Link")) in
              next (with_header "Session-ID" sessionID
                      (with_header X_Auth_Token (header_of resp X_Auth_Token) r))
        end
    end.

(** A request and what the client receives. *)
Definition ServeHTTP (r : Request) : M Gateway (Writer payload) := fun s =>
  let '(o, (s', w)) := WrapRouter_main r (fun r => WrapRouter_router r dispatch) (s, new_writer) in
  (match o with Ok _ => Ok w | Panic => Panic end, s').
End Gateway.
