(* ===== verification/SystemProps.v ===== *)
(** Every request refines the transition system of the databases, and what follows: the invariants
    of any history of requests, faults and restarts, authorisation of every write, and the absence
    of panics. *)
From stdpp Require Import base gmap list strings relations.
From S2P Require Import Prelude Go Response CaseValidator Redis World ConnPool DBSpec AsModel AsSpec Auth Session Account Role Rpc AuthProps ResponseProps CaseProps SessionSpec SessionProps AccountProps RoleProps System Scenario.
Open Scope string_scope.

(** ** The invariants of the transition system *)

Section invariants.
Context `{Config}.
Implicit Types (st : state).

Lemma typed_set_session s st : typed_state st -> typed_state (set_session s st).
Proof. intros [a b c]. split; [|done|done]. apply tab_typed_insert; [apply Session_roundtrip|done]. Qed.
Lemma typed_set_user u st : typed_state st -> typed_state (set_user u st).
Proof.
  intros [a b c]. split; [done| |].
  - apply tab_typed_insert; [apply User_roundtrip|done].
  - apply tab_typed_insert_other; [|done]. intros k E. by apply (user_key_not_role (u_UserName u) k).
Qed.
Lemma typed_set_role r st : typed_state st -> typed_state (set_role r st).
Proof.
  intros [a b c]. split; [done| |].
  - apply tab_typed_insert_other; [|done]. intros k E. by apply (user_key_not_role k (r_ID r)).
  - apply tab_typed_insert; [apply Role_roundtrip|done].
Qed.

Lemma change_typed who st st' : change who st st' -> typed_state st -> typed_state st'.
Proof.
  intros Hc Ht. destruct Hc; try (by apply typed_set_session); try (by apply typed_set_user);
    try (by apply typed_set_role); destruct Ht as [a b c].
  - split; [by apply tab_typed_delete|done|done].
  - split; [|by rewrite H0|by rewrite H0]. intros k Hk.
    destruct (H1 (saveID "session" k)) as [Heq|[Hn _]]; [|rewrite Hn in Hk; by destruct Hk].
    unfold stored. rewrite Heq in *. by apply a.
  - split; [done|by apply tab_typed_delete..].
  - split; [done|by apply tab_typed_delete..].
Qed.

Lemma user_in_set_user u st name : user_in (set_user u st) name
  = if decide (name = u_UserName u) then Some u else user_in st name.
Proof.
  unfold user_in. cbn [set_user disk]. destruct (decide _) as [->|Hne].
  - apply stored_insert, User_roundtrip.
  - apply stored_insert_ne. intros E. apply Hne. by apply saveID_inj in E.
Qed.
Lemma user_in_set_role r st name : user_in (set_role r st) name = user_in st name.
Proof. apply stored_insert_ne. apply user_key_not_role. Qed.
Lemma role_in_set_user u st id : role_in (set_user u st) id = role_in st id.
Proof. apply stored_insert_ne. intros E. symmetry in E. by apply user_key_not_role in E. Qed.
Lemma role_in_set_role r st id : is_Some (role_in st id) -> is_Some (role_in (set_role r st) id).
Proof.
  unfold role_in. cbn [set_role disk]. destruct (decide (id = r_ID r)) as [->|Hne].
  - intros _. exists r. apply stored_insert, Role_roundtrip.
  - rewrite stored_insert_ne; [done|]. intros E. apply Hne. by apply saveID_inj in E.
Qed.
Lemma user_in_drop_user id st name : user_in (drop_user id st) name
  = if decide (name = id) then None else user_in st name.
Proof.
  unfold user_in. cbn [drop_user disk]. destruct (decide _) as [->|Hne].
  - unfold stored. by rewrite lookup_delete_eq.
  - apply stored_delete_ne. intros E. apply Hne. by apply saveID_inj in E.
Qed.
Lemma role_in_drop_user name st id : role_in (drop_user name st) id = role_in st id.
Proof. apply stored_delete_ne. intros E. symmetry in E. by apply user_key_not_role in E. Qed.
Lemma user_in_drop_role r st name : user_in (drop_role r st) name = user_in st name.
Proof. apply stored_delete_ne. apply user_key_not_role. Qed.
Lemma role_in_drop_role r st id : id <> r_ID r -> role_in (drop_role r st) id = role_in st id.
Proof. intros Hne. apply stored_delete_ne. intros E. apply Hne. by apply saveID_inj in E. Qed.

Lemma change_roles_exist who st st' :
  change who st st' -> typed_state st -> roles_exist st -> roles_exist st'.
Proof.
  intros Hc Ht Hr. unfold roles_exist in *. destruct Hc; try exact Hr.
  - unfold user_in, role_in in *. by rewrite H0.
  - intros name v. rewrite user_in_set_user, role_in_set_user. destruct (decide _); [|apply Hr].
    intros [= <-]. by right.
  - intros name' v. rewrite user_in_set_user, role_in_set_user. destruct (decide _); [|apply Hr].
    intros [= <-]. destruct (decide (u_RoleID u' = u_RoleID u)) as [E|E].
    + rewrite E. by apply (Hr name).
    + by apply H4.
  - intros name v. rewrite user_in_drop_user, role_in_drop_user. destruct (decide _); [done|apply Hr].
  - intros name v. rewrite user_in_set_role. intros Hv.
    destruct (Hr name v Hv); [by left|right]. by apply role_in_set_role.
  - intros name v. rewrite user_in_set_role. intros Hv.
    destruct (Hr name v Hv); [by left|right]. by apply role_in_set_role.
  - intros name v. rewrite user_in_drop_role. intros Hv.
    destruct (Hr name v Hv) as [|Hs]; [by left|right].
    assert (Hid : r_ID r = id).
    { destruct (ts_role _ Ht id) as (r' & Hr' & E); [by eapply stored_Some|].
      unfold role_in, role_key in *. congruence. }
    rewrite role_in_drop_role; [done|]. rewrite Hid. by apply (H3 name).
Qed.

Lemma change_has_admin who st st' : change who st st' -> has_admin st -> has_admin st'.
Proof.
  intros Hc Ha. unfold has_admin in *. destruct Hc; try exact Ha.
  - unfold user_in in *. by rewrite H0.
  - rewrite user_in_set_user. destruct (decide _); [by eexists|done].
  - rewrite user_in_set_user. destruct (decide _); [by eexists|done].
  - rewrite user_in_drop_user, decide_False; [done|congruence].
  - by rewrite user_in_set_role.
  - by rewrite user_in_set_role.
  - by rewrite user_in_drop_role.
Qed.

(** Without ConfigureUsers, at most the actor's own account changes, and its role does not. *)
Definition own_account_only (who : option AsModel.Session) st st' : Prop :=
  match who with
  | None => disk st' = disk st
  | Some sess => (forall k, k <> user_key (s_UserName sess) -> disk st' !! k = disk st !! k) /\
      forall u', user_in st' (s_UserName sess) = Some u' ->
        exists u, user_in st (s_UserName sess) = Some u /\ u_RoleID u' = u_RoleID u
  end.

Lemma own_account_refl who st st' : disk st' = disk st -> own_account_only who st st'.
Proof. intros E. destruct who; [|done]. unfold own_account_only, user_in. rewrite E. split; eauto. Qed.
Lemma own_account_trans who st1 st2 st3 :
  own_account_only who st1 st2 -> own_account_only who st2 st3 -> own_account_only who st1 st3.
Proof.
  destruct who as [sess|]; simpl; [|congruence]. intros [a1 a2] [b1 b2]. split.
  - intros k Hk. by rewrite b1, a1.
  - intros u Hu. destruct (b2 u Hu) as (u2 & Hu2 & E2). destruct (a2 u2 Hu2) as (u1 & Hu1 & E1).
    exists u1. split; [done|congruence].
Qed.
Lemma change_unprivileged who st st' :
  change who st st' -> typed_state st -> ~ admin_actor who -> own_account_only who st st'.
Proof.
  intros Hc Ht Hn. destruct Hc; try done; try (by apply own_account_refl).
  subst who. destruct H3 as [Hown|?]; [|done].
  assert (Hrl : u_RoleID u' = u_RoleID u) by
    (destruct (decide (u_RoleID u' = u_RoleID u)) as [|Hne]; [done|by destruct (H4 Hne)]).
  destruct (ts_user _ Ht name) as (u0 & Hu0 & E0); [by eapply stored_Some|].
  unfold user_in, user_key in H1. rewrite Hu0 in H1. injection H1 as ->.
  split; cbn [set_user disk].
  - intros k Hk. apply lookup_insert_ne. congruence.
  - intros u2. rewrite user_in_set_user, decide_True by congruence. intros [= <-].
    exists u. split; [|done]. unfold user_in, user_key. congruence.
Qed.

Lemma changes_typed who st st' : rtc (change who) st st' -> typed_state st -> typed_state st'.
Proof. induction 1; eauto using change_typed. Qed.
Lemma changes_roles_exist who st st' :
  rtc (change who) st st' -> typed_state st -> roles_exist st -> roles_exist st'.
Proof. induction 1; eauto using change_typed, change_roles_exist. Qed.
Lemma changes_has_admin who st st' : rtc (change who) st st' -> has_admin st -> has_admin st'.
Proof. induction 1; eauto using change_has_admin. Qed.
Lemma changes_unprivileged who st st' :
  rtc (change who) st st' -> typed_state st -> ~ admin_actor who -> own_account_only who st st'.
Proof.
  induction 1 as [|st1 st2 st3 Hc Hr IH]; intros Ht Hn; [by apply own_account_refl|].
  eapply own_account_trans; [by eapply change_unprivileged|].
  apply IH; [by eapply change_typed|done].
Qed.
End invariants.

(** ** Every request is a sequence of changes *)

Section refinement.
Context `{EnvLaws, Libs, SingleNode}.
Implicit Types (w : World) (who : option AsModel.Session).

Definition state_of w : state := {| mem := view w InMemory; disk := view w OnDisk |}.

(** A later world of the process, its databases changed on behalf of [who]. *)
Record steps who w w' : Prop := {
  st_wf : wf w';
  st_clock : (clock (w_env w) <= clock (w_env w'))%Z;
  st_healthy : healthy w -> healthy w';
  st_changes : rtc (change who) (state_of w) (state_of w');
}.

Lemma steps_trans who w1 w2 w3 : steps who w1 w2 -> steps who w2 w3 -> steps who w1 w3.
Proof. intros [a1 a2 a3 a4] [b1 b2 b3 b4]. split; [done|lia|auto|by etrans]. Qed.
Lemma ro_state w w' : ro w w' -> state_of w' = state_of w.
Proof. intros Hr. unfold state_of. by rewrite !(ro_view _ _ _ Hr). Qed.
Lemma steps_ro who w w' : ro w w' -> steps who w w'.
Proof. intros Hr. split; [apply Hr..|]. by rewrite (ro_state _ _ Hr). Qed.

Definition on (db : DbType) (f : table -> table) (st : state) : state :=
  match db with
  | InMemory => {| mem := f (mem st); disk := disk st |}
  | OnDisk => {| mem := mem st; disk := f (disk st) |}
  end.
Lemma steps_written who w db f w' :
  change who (state_of w) (on db f (state_of w)) -> written w db f w' -> steps who w w'.
Proof.
  intros Hc Hw. split; [apply Hw..|]. apply rtc_once.
  enough (state_of w' = on db f (state_of w)) as -> by done. unfold state_of.
  destruct db; rewrite !(ev_view _ _ _ Hw), upd_eq, upd_ne by done; done.
Qed.
Lemma steps_maybe who w db f w' :
  change who (state_of w) (on db f (state_of w)) -> maybe_written w db f w' -> steps who w w'.
Proof. intros Hc [Hr|Hw]; [by apply steps_ro|by eapply steps_written]. Qed.
Lemma steps_touched who w tok s t w' :
  session_of w tok = Some s -> touched w s t w' -> steps who w w'.
Proof. intros Hs Ht. eapply steps_written; [|exact Ht]. exact (TouchSession _ (state_of w) tok s t Hs). Qed.
Lemma steps_at_most_touched who w tok w' : at_most_touched w tok w' -> steps who w w'.
Proof. intros [Hr|(s & t & Hs & Ht)]; [by apply steps_ro|by eapply steps_touched]. Qed.
Lemma steps_not_admitted who w tok w' : not_admitted w tok w' -> steps who w w'.
Proof. intros [[Hr _]|(_ & s & t & Hs & Ht)]; [by apply steps_ro|by eapply steps_touched]. Qed.
Lemma steps_admitted who w tok sess w' : admitted w tok sess w' -> steps who w w'.
Proof. intros (_ & Hs & t & t' & _ & _ & _ & Ht). by eapply steps_touched. Qed.
Lemma steps_typed who w w' : steps who w w' -> typed w -> typed w'.
Proof.
  intros Hs [a b c]. assert (Ht : typed_state (state_of w')).
  { eapply changes_typed; [apply Hs|by split]. }
  destruct Ht. by split.
Qed.

(** The operations, each from the world in which its session was admitted. *)

Lemma steps_Create_account w req sess o w' :
  create_account_post w req sess o w' -> steps (Some sess) w w'.
Proof.
  destruct o as [[resp err]|]; [|done].
  assert (Hc : forall a, may_create w sess a ->
    change (Some sess) (state_of w) (on OnDisk (put_new w a) (state_of w))).
  { intros a (Hp & Hn & _ & _ & Hr & _).
    apply (NewUser (Some sess) (state_of w) (new_user a)); [by exists sess|done|exact Hr]. }
  intros [(_ & _ & a & _ & Hm & _ & Hw)|(_ & _ & [[Hr _]|(_ & a & _ & Hm & Hw)])].
  - eapply steps_written; eauto.
  - by apply steps_ro.
  - eapply steps_maybe; eauto.
Qed.
Lemma steps_Update_account w req sess o w' :
  update_account_post w req sess o w' -> steps (Some sess) w w'.
Proof.
  destruct o as [resp|]; [|done].
  assert (Hc : forall u a, may_update w (uar_AccountID req) sess u a ->
    change (Some sess) (state_of w) (on OnDisk (put_updated u a) (state_of w))).
  { intros u a (_ & Hu & Hrl & Hown & Hadm & _).
    apply (EditUser (Some sess) (state_of w) (uar_AccountID req) u (updated u a) sess); [done|exact Hu|done| |].
    - destruct Hown as [?|?]; [by left|right; by exists sess].
    - unfold updated. cbn [u_RoleID]. destruct (String.eqb_spec (a_RoleID a) "") as [E|E]; [done|].
      intros _. split; [exists sess; auto|]. destruct Hrl as [?|[?|?]]; [done|by left|by right]. }
  intros [(_ & u & a & _ & Hm & Hw)|(_ & [Hr|(_ & u & a & _ & Hm & Hw)])].
  - eapply steps_written; eauto.
  - by apply steps_ro.
  - eapply steps_maybe; eauto.
Qed.
Lemma steps_Delete_account w id sess o w' :
  delete_account_post w id sess o w' -> steps (Some sess) w w'.
Proof.
  destruct o as [resp|]; [|done].
  assert (Hc : may_delete id sess ->
    change (Some sess) (state_of w) (on OnDisk (delete (user_key id)) (state_of w))).
  { intros [Hn Hp]. apply (DropUser (Some sess) (state_of w) id); [by exists sess|done]. }
  intros [(_ & Hm & _ & Hw)|(_ & [[Hr _]|(_ & Hm & Hw)])].
  - eapply steps_written; eauto.
  - by apply steps_ro.
  - eapply steps_maybe; eauto.
Qed.
Lemma steps_Create_role w req sess o w' :
  create_role_post w req sess o w' -> steps (Some sess) w w'.
Proof.
  destruct o as [resp|]; [|done].
  assert (Hc : forall r, may_create_role w sess r ->
    change (Some sess) (state_of w) (on OnDisk (put_new_role r) (state_of w))).
  { intros r (_ & Hp & _). apply (NewRole (Some sess) (state_of w) (new_role r)); [by exists sess|done]. }
  intros [(_ & r & _ & Hm & _ & Hw)|(_ & [[Hr _]|(_ & r & _ & Hm & Hw)])].
  - eapply steps_written; eauto.
  - by apply steps_ro.
  - eapply steps_maybe; eauto.
Qed.
Lemma steps_Update_role w req sess o w' : wf w ->
  update_role_post w req sess o w' -> steps (Some sess) w w'.
Proof.
  intros Hwf. destruct o as [resp|]; [|intros [_ ->]; by apply steps_ro, ro_refl].
  assert (Hc : forall u r, may_update_role w sess (ur_Id req) u r ->
    change (Some sess) (state_of w) (on OnDisk (put_updated_role u r) (state_of w))).
  { intros u r (Hp & _ & Hr & _).
    apply (EditRole (Some sess) (state_of w) (ur_Id req) r (updated_role u r)); [by exists sess|exact Hr|done|done]. }
  intros [(_ & r & Hm & _ & Hw)|(_ & [Hr|(_ & r & Hm & Hw)])].
  - eapply steps_written; eauto.
  - by apply steps_ro.
  - eapply steps_maybe; eauto.
Qed.

Lemma steps_CreateNewSession w body o w' : create_session_post w body o w' -> steps None w w'.
Proof.
  destruct o as [[resp id]|]; [|done].
  assert (Hc : forall s, grants_session w s -> change None (state_of w)
    (on InMemory (insert (session_key (s_Token s)) (Text (marshal_Session s))) (state_of w))).
  { intros s (name & u & r & Hu & Hn & Hrid & Hr & Hin & Hp).
    by apply (NewSession None (state_of w) name u r s). }
  intros [[_ Hl]|(_ & _ & [[Hr _]|(_ & [Hr|(s & Hg & Hw)])])].
  - destruct Hl as (c & u & role & tok & t & _ & _ & Hu & _ & Hr & Hin & _ & _ & _ & _ & Hw).
    eapply steps_written; [|exact Hw]. apply (Hc (new_session id tok u role t)).
    exists (cs_UserName c), u, role. split_and!; try done. intros p. apply new_session_privilege.
  - by apply steps_ro.
  - by apply steps_ro.
  - eapply steps_maybe; eauto.
Qed.

Lemma steps_delete_session w w1 tok' tok s w' : typed w -> at_most_touched w tok' w1 ->
  session_of w tok = Some s -> written w1 InMemory (delete (session_key (s_Token s))) w' ->
  steps None w w'.
Proof.
  intros Hty Ht Hs Hw. eapply steps_trans; [by eapply steps_at_most_touched|].
  assert (Hs1 : exists s1, session_of w1 tok = Some s1 /\ s_Token s1 = s_Token s).
  { destruct Ht as [Hr|(c & t & Hc & Ht)]; [exists s; by rewrite (session_of_ro _ _ _ Hr)|].
    rewrite (touched_session _ _ _ _ tok Ht). destruct (decide _) as [->|]; [|by exists s].
    eexists. split; [done|]. by rewrite (typed_token _ _ _ Hty Hs). }
  destruct Hs1 as (s1 & Hs1 & E). rewrite <- E in Hw.
  eapply steps_written; [|exact Hw]. exact (EndSession None (state_of w1) tok s1 Hs1).
Qed.
Lemma steps_DeleteSession w req o w' : typed w -> delete_session_post w req o w' -> steps None w w'.
Proof.
  intros Hty. destruct o as [resp|]; [|done]. intros [[_ Hd]|[_ Hd]].
  - destruct Hd as (cur & tok & s & w1 & Hcur & _ & Hs & _ & _ & _ & Hw1 & Hw).
    eapply (steps_delete_session w w1 (SessionToken req)); [done| |exact Hs|exact Hw].
    destruct (String.eqb _ _); [by left|]. destruct Hw1 as (t & _ & Ht). right. by exists cur, t.
  - destruct Hd as [Hd|(_ & tok & s & w1 & Hs & Hw1 & Hw)]; [by eapply steps_at_most_touched|].
    by eapply steps_delete_session.
Qed.
Lemma steps_Auth w tok ps o w' : auth_post w tok ps o w' -> steps None w w'.
Proof.
  destruct o as [[code msg]|]; [|done].
  intros [(s & t & t' & _ & _ & Hs & _ & _ & _ & Ht & _)|[(_ & Hr & _)|[(s & _ & _ & Hr & _)|(_ & _ & Ht)]]].
  - by eapply steps_touched.
  - by apply steps_ro.
  - by apply steps_ro.
  - by eapply steps_at_most_touched.
Qed.
Lemma steps_clean_up w o w' : clean_up_post w o w' -> steps None w w'.
Proof.
  intros (_ & w1 & Hs & Hw' & _). assert (Hst : steps None w w1).
  { split; [apply Hs..|]. apply rtc_once, (Sweep None (state_of w) (clock (w_env w1))); [apply Hs|].
    intros k. apply Hs. }
  destruct Hw' as [-> | [_ ->]]; [done|]. destruct Hst as [a b c d]. by split.
Qed.

(** ** The handlers *)

(** The session a request comes with, if it was found valid. *)
Definition acts_as w tok w' who : Prop :=
  who = None \/ exists sess t, who = Some sess /\ tok <> "" /\ session_of w tok = Some sess /\
    fresh t sess /\ (clock (w_env w) <= t <= clock (w_env w'))%Z.

Definition served {A} (may_panic : Prop) w tok (o : outcome A) w' : Prop :=
  (o = Panic -> may_panic) /\ exists who, acts_as w tok w' who /\ steps who w w'.

Lemma served_None {A} P w tok (a : A) w' : steps None w w' -> served P w tok (Ok a) w'.
Proof. intros Hs. split; [done|]. exists None. by split; [left|]. Qed.

Lemma wp_drop {A} P (m : IO A) w tok : wp m (served P w tok) w -> wp (drop m) (served P w tok) w.
Proof.
  intros Hm. apply wp_bind. eapply wp_mono; [exact Hm|]. intros [a|] w' [Hp Hs]; cbn [wp_cont]; [|split; [intros _; by apply Hp|done]].
  apply wp_ret. by split.
Qed.

(** The operation runs only for a session that was admitted. *)
Lemma wp_with_session P tok (operation : AsModel.Session -> IO asRPC) w : wf w ->
  (forall sess w1, admitted w tok sess w1 ->
     wp (operation sess) (fun o w' => (o = Panic -> P) /\ steps (Some sess) w1 w') w1) ->
  wp (with_session tok operation) (served P w tok) w.
Proof.
  intros Hwf Hop. unfold with_session. wp_call wp_CheckSessionTimeOut; [done|].
  intros o w1 Hp. pose proof Hp as [Hro _]. apply admission_cases in Hp.
  destruct o as [[e|s]|]; [| |done]; cbn [wp_cont].
  - eapply wp_mono; [apply wp_invalidTokenRPC, Hro|]. intros o w2 (Hro2 & resp & -> & _).
    apply served_None. by eapply steps_not_admitted, Hp.
  - destruct Hp as (_ & _ & _ & Hp). wp_call wp_UpdateLastUsedTime; [apply Hro|].
    intros [r|] w2 Hu; [|done]. apply Hp in Hu. destruct r; cbn [wp_cont].
    { run_body. apply wp_lift. apply served_None. by eapply steps_not_admitted. }
    eapply wp_mono; [by apply Hop|]. intros o w3 [Hpan Hst]. split; [done|]. exists (Some s).
    pose proof Hu as (Hne & Hs & t & t' & Hf & Ht & Ht' & _). split.
    + right. exists s, t. pose proof (st_clock _ _ _ Hst). split_and!; [done..|lia|lia].
    + eapply steps_trans; [by eapply steps_admitted|done].
Qed.

(** The requests whose handlers can panic. *)
Definition may_panic w (r : request) : Prop :=
  match r with
  | UpdateRole req => RequestParamsCaseValidator (ur_UpdateRequest req)
                        (role_fields (decoded_update req)) = Panic
  | ReadSessions req => exists s, session_of w (SessionToken req) = Some s /\
      has_privilege s PrivilegeConfigureSelf = false /\ has_privilege s PrivilegeConfigureUsers = false
  | _ => False
  end.

Lemma wp_reads {A} (P : Prop) who (m : IO A) w :
  wp m (fun o w' => ro w w' /\ exists a, o = Ok a) w ->
  wp m (fun o w' => (o = Panic -> P) /\ steps who w w') w.
Proof.
  intros Hm. eapply wp_mono; [exact Hm|]. intros o w' (Hr & a & ->). split; [done|by apply steps_ro].
Qed.
Lemma wp_weaken {A} (Q Q' : outcome A -> World -> Prop) (m : IO A) w :
  (forall o w', Q o w' -> Q' o w') -> wp m Q w -> wp m Q' w.
Proof. intros HQ Hm. eapply wp_mono; [exact Hm|auto]. Qed.

Lemma wp_serve_account r w : wf w ->
  match r with
  | CreateAccount _ | ReadAccounts _ | ReadAccount _ | ReadAccountServices _ | UpdateAccount _
  | DeleteAccount _ => wp (serve r) (served (may_panic w r) w (token_of r)) w
  | _ => True
  end.
Proof.
  intros Hwf. destruct r; try done; cbn [serve]; apply wp_drop, wp_with_session; try done;
    intros sess w1 Had; pose proof (admitted_wf _ _ _ _ Had) as Hwf1.
  - wp_call wp_Create_account; [done|]. intros [[resp err]|] w2 Hp; [|done]. cbn [wp_cont]. apply wp_ret.
    split; [done|by eapply steps_Create_account].
  - eapply wp_reads, wp_weaken; [|by apply wp_GetAllAccounts].
    intros o w2 (Hr & resp & -> & _). split; [done|by eexists].
  - eapply wp_reads, wp_weaken; [|by apply wp_GetAccount].
    intros o w2 (Hr & resp & -> & _). split; [done|by eexists].
  - by apply wp_reads, wp_GetAccountService.
  - eapply wp_weaken; [|by apply wp_Update_account]. intros o w2 Hp. split; [by intros ->|].
    by eapply steps_Update_account.
  - eapply wp_weaken; [|by apply wp_Delete_account]. intros o w2 Hp. split; [by intros ->|].
    by eapply steps_Delete_account.
Qed.

Lemma wp_serve_role r w : wf w ->
  match r with
  | CreateRole _ | ReadRole _ | ReadRoles _ | UpdateRole _ =>
      wp (serve r) (served (may_panic w r) w (token_of r)) w
  | _ => True
  end.
Proof.
  intros Hwf. destruct r; try done; cbn [serve]; apply wp_drop, wp_with_session; try done;
    intros sess w1 Had; pose proof (admitted_wf _ _ _ _ Had) as Hwf1.
  - eapply wp_weaken; [|by apply wp_Create_role]. intros o w2 Hp. split; [by intros ->|].
    by eapply steps_Create_role.
  - eapply wp_reads, wp_weaken; [|by apply wp_GetRole].
    intros o w2 (Hr & resp & -> & _). split; [done|by eexists].
  - eapply wp_reads, wp_weaken; [|by apply wp_GetAllRoles_role].
    intros o w2 (Hr & resp & ->). split; [done|by eexists].
  - eapply wp_weaken; [|by apply wp_Update_role]. intros o w2 Hp. split; [by intros ->; apply Hp|].
    by eapply steps_Update_role.
Qed.

Lemma wp_serve_DeleteRole req w : wf w ->
  wp (serve (DeleteRole req)) (served False w (ri_SessionToken req)) w.
Proof.
  intros Hwf. apply wp_drop. eapply wp_weaken; [|by apply wp_Delete_role].
  intros [resp|] w2; [|done]. intros [[_ Hn]|(sess & w1 & Had & Hp)].
  { apply served_None. by eapply steps_not_admitted. }
  assert (Hdisk := admitted_disk _ _ _ _ Had).
  assert (Hc : forall r, may_delete_role w sess (ri_Id req) r ->
    change (Some sess) (state_of w1) (on OnDisk (delete (role_key (r_ID r))) (state_of w1))).
  { intros r (Hp' & Hn & Hr & Hpd). eapply (DropRole (Some sess) (state_of w1) (ri_Id req) r).
    - by exists sess.
    - unfold role_in, state_of. cbn [disk]. by rewrite Hdisk.
    - done.
    - intros name u. unfold user_in, state_of. cbn [disk]. rewrite Hdisk. apply Hn. }
  split; [done|]. exists (Some sess).
  assert (Hst : steps (Some sess) w1 w2).
  { destruct Hp as [(_ & r & Hm & Hw)|(_ & [Hr|(_ & r & Hm & Hw)])].
    - eapply steps_written; eauto.
    - by apply steps_ro.
    - eapply steps_maybe; eauto. }
  pose proof Had as (Hne & Hs & t & t' & Hf & Ht & Ht' & _). split.
  - right. exists sess, t. pose proof (st_clock _ _ _ Hst). split_and!; [done..|lia|lia].
  - eapply steps_trans; [by eapply steps_admitted|done].
Qed.

Lemma wp_serve_session r w : wf w -> typed w ->
  match r with
  | LogIn _ | LogOut _ | ReadSession _ | ReadSessionUserName _ | ReadSessionUserRoleID _
  | ReadSessions _ | ReadSessionService _ | Authorize _ _ | CleanUp =>
      wp (serve r) (served (may_panic w r) w (token_of r)) w
  | _ => True
  end.
Proof.
  intros Hwf Hty. destruct r; try done; cbn [serve]; try apply wp_drop.
  - eapply wp_weaken; [|by apply wp_CreateNewSession]. intros [a|] w2 Hp; [|done].
    apply served_None. by eapply steps_CreateNewSession.
  - eapply wp_weaken; [|by apply wp_DeleteSession]. intros [a|] w2 Hp; [|done].
    apply served_None. by eapply steps_DeleteSession.
  - eapply wp_weaken; [|by apply wp_GetSessionRPC]. intros [a|] w2 [Hp Hq]; [|done].
    apply served_None. by eapply steps_at_most_touched.
  - eapply wp_weaken; [|by apply wp_session_field]. intros [a|] w2 [Hp Hq]; [|done].
    apply served_None. by eapply steps_at_most_touched.
  - eapply wp_weaken; [|by apply wp_session_field]. intros [a|] w2 [Hp Hq]; [|done].
    apply served_None. by eapply steps_at_most_touched.
  - eapply wp_weaken; [|by apply wp_GetAllActiveSessions]. intros o w2 [Hp Hq].
    split; [intros ->; destruct Hq as (s & _ & Hq); by exists s|]. exists None.
    split; [by left|by eapply steps_at_most_touched].
  - eapply wp_weaken; [|by apply wp_GetSessionService]. intros o w2 (Hr & a & ->).
    by apply served_None, steps_ro.
  - eapply wp_weaken; [|by apply wp_Auth]. intros [a|] w2 Hp; [|done].
    apply served_None. by eapply steps_Auth.
  - eapply wp_weaken; [|by apply wp_expiredSessionCleanUp]. intros o w2 Hp.
    pose proof Hp as [-> _]. apply served_None. by eapply steps_clean_up.
Qed.

Lemma wp_serve r w : wf w -> typed w -> wp (serve r) (served (may_panic w r) w (token_of r)) w.
Proof.
  intros Hwf Hty. pose proof (wp_serve_account r w Hwf). pose proof (wp_serve_role r w Hwf).
  pose proof (wp_serve_session r w Hwf Hty). destruct r; try done. by apply wp_serve_DeleteRole.
Qed.
End refinement.

(** ** Properties *)

Section properties.
Context `{EnvLaws, Libs, SingleNode}.
Implicit Types (w : World).

Lemma restart_state w : state_of (restart w) = state_of w.
Proof. done. Qed.

(** The invariant of a process and its databases. *)
Record good w : Prop := {
  good_wf : wf w;
  good_typed : typed_state (state_of w);
  good_roles : roles_exist (state_of w);
  good_admin : has_admin (state_of w);
}.
Lemma good_restart w : good w -> good (restart w).
Proof. intros [a b c d]. split; [|done..]. by intros []. Qed.
Lemma good_serve w r : good w -> good (serve r w).2.
Proof.
  intros [Hwf Hty Hro Had]. assert (Ht : typed w) by (destruct Hty; by split).
  destruct (wp_serve r w Hwf Ht) as (_ & who & _ & Hst). split; [apply Hst| | |].
  - eapply changes_typed; [apply Hst|done].
  - eapply changes_roles_exist; [apply Hst|done|done].
  - eapply changes_has_admin; [apply Hst|done].
Qed.
Lemma good_happen w e : good w -> good (happen w e).
Proof.
  intros Hg. destruct e as [r|]; cbn [happen]; [|by apply good_restart].
  pose proof (good_serve w r Hg) as Hg'. destruct (serve r w) as [[[]|] w']; [done|by apply good_restart].
Qed.

(** C1: refinement: whatever commands fail, every request takes the databases along changes of the
    transition system, made on behalf of nobody or of the session whose token the request has,
    which was found stored and not timed out; the process stays well formed, and healthy if it was. *)
Theorem serve_refines w r :
  wf w -> typed w ->
  exists o w' who, serve r w = (o, w') /\ acts_as w (token_of r) w' who /\
    rtc (change who) (state_of w) (state_of w') /\ wf w' /\ typed w' /\ (healthy w -> healthy w').
Proof.
  intros Hwf Hty. destruct (wp_elim _ _ _ (wp_serve r w Hwf Hty)) as (o & w' & E & _ & who & Ha & Hst).
  exists o, w', who. split_and!; [done|done|apply Hst|apply Hst|by eapply steps_typed|apply Hst].
Qed.

(** C2: whatever the requests, the faults and the restarts, the databases stay well typed, every
    account keeps a role that exists or has a predefined name, and the default administrator is
    never removed. *)
Theorem history_good w es : good w -> good (history es w).
Proof.
  unfold history. revert w. induction es as [|e es IH]; intros w Hg; [done|]. by apply IH, good_happen.
Qed.

(** C3: whatever commands fail, the on-disk database changes only for a request whose token names a
    stored session that has not timed out; without ConfigureUsers such a request changes at most
    the account of its own user, and not its role. *)
Theorem serve_authorised w r o w' :
  wf w -> typed w -> serve r w = (o, w') ->
  view w' OnDisk = view w OnDisk \/
  exists sess t, session_of w (token_of r) = Some sess /\ fresh t sess /\
    (clock (w_env w) <= t <= clock (w_env w'))%Z /\
    (has_privilege sess PrivilegeConfigureUsers = true \/
     own_account_only (Some sess) (state_of w) (state_of w')).
Proof.
  intros Hwf Hty E. destruct (wp_run _ _ _ _ _ (wp_serve r w Hwf Hty) E) as (_ & who & Ha & Hst).
  assert (Ht : typed_state (state_of w)) by (destruct Hty; by split).
  pose proof (changes_unprivileged _ _ _ (st_changes _ _ _ Hst) Ht) as Hun.
  destruct Ha as [-> |(sess & t & -> & _ & Hs & Hf & Hc)].
  - left. apply Hun. by intros (? & [=] & _).
  - right. exists sess, t. split_and!; [done|done|lia|lia|].
    destruct (has_privilege sess PrivilegeConfigureUsers) eqn:Ep; [by left|right]. apply Hun.
    intros (s & [= <-] & ?). congruence.
Qed.

(** C14: whatever commands fail, only two requests can panic: an update of a role with a body that
    breaks the check of the property names, and the listing of the sessions by one without
    ConfigureSelf and ConfigureUsers. *)
Theorem serve_panics w r :
  wf w -> typed w -> (serve r w).1 = Panic -> may_panic w r.
Proof.
  intros Hwf Hty E. destruct (wp_serve r w Hwf Hty) as [Hp _]. by apply Hp.
Qed.

(** Any session that is valid, whatever its privileges, can make the service panic with the body
    [{"AssignedPrivileges":[{}]}] in an update of a role. *)
Lemma UpdateRole_panics w req sess :
  wf w -> healthy w -> typed w ->
  ur_UpdateRequest req = Text (JObj [("AssignedPrivileges", JArr [JObj []])]) ->
  ur_SessionToken req <> "" -> session_of w (ur_SessionToken req) = Some sess ->
  (serve (UpdateRole req) w).1 = Panic \/
  expired (clock (w_env (serve (UpdateRole req) w).2)) sess.
Proof.
  intros Hwf Hh Hty Hb Hne Hs.
  enough (wp (Role_UpdateRole req) (fun o w' => o = Panic \/ expired (clock (w_env w')) sess) w) as Hp.
  { cbn [serve]. unfold drop, bind. unfold wp in Hp.
    destruct (Role_UpdateRole req w) as [[resp|] w']; cbn [fst snd] in *; [|by left].
    right. by destruct Hp. }
  assert (Hrej : forall w', not_admitted w (ur_SessionToken req) w' -> expired (clock (w_env w')) sess).
  { intros w' [[Hr Hj]|[Hn _]]; [|done]. destruct (Hj Hh Hty) as [?|[?|(s & Hs' & He)]]; [done|congruence|].
    rewrite Hs in Hs'. by injection Hs' as <-. }
  unfold Role_UpdateRole, with_session. wp_call wp_CheckSessionTimeOut; [done|].
  intros o w1 Hp. pose proof Hp as [Hro _]. apply admission_cases in Hp.
  destruct o as [[e|s]|]; [| |by left]; cbn [wp_cont].
  - eapply wp_mono; [apply wp_invalidTokenRPC, Hro|]. intros o w2 (Hro2 & _). right. auto.
  - destruct Hp as (_ & _ & _ & Hp). wp_call wp_UpdateLastUsedTime; [apply Hro|].
    intros [r|] w2 Hu; [|by left]. apply Hp in Hu. destruct r; cbn [wp_cont].
    + run_body. apply wp_lift. right. auto.
    + unfold Role.Update. rewrite Hb. apply wp_bind, wp_lift. by left.
Qed.
End properties.

(** ** The properties at concrete inputs *)

Section witnesses.
#[local] Existing Instances single single_node.

Lemma service_good t faults : good (service t faults).
Proof.
  pose proof (service_typed t faults) as [a b c]. split; [apply service_wf|by split| |].
  - intros name u Hu. destruct (b name) as (u' & Hu' & Hn); [by eapply stored_Some|].
    assert (Hk : user_key name = user_key "admin" \/ user_key name = user_key "alice").
    { apply stored_Some in Hu as [v Hv]. revert Hv. cbn [disk state_of].
      unfold the_accounts. change (view (service t faults) OnDisk) with the_accounts.
      unfold the_accounts, put_user, put_role, the_registries.
      rewrite !lookup_insert_Some, lookup_empty. clear.
      intros Hv. repeat (destruct Hv as [[E _]|[_ Hv]]; [first [by left|by right|discriminate E]|]). done. }
    right. revert Hu. unfold user_in.
    destruct Hk as [-> | ->]; vm_compute; intros [= <-]; vm_compute; by eexists.
  - vm_compute. by eexists.
Qed.

Lemma serve_refines_witness :
  exists o w', serve (DeleteAccount {| air_SessionToken := "tok-admin"; air_AccountID := "alice" |})
                 (service minute []) = (o, w') /\ typed w'.
Proof.
  destruct (serve_refines (service minute [])
    (DeleteAccount {| air_SessionToken := "tok-admin"; air_AccountID := "alice" |})
    (service_wf _ _) (service_typed _ _)) as (o & w' & who & E & _ & _ & _ & Ht & _).
  exists o, w'. by split.
Defined.

Definition a_history : list event :=
  [Serve (DeleteAccount {| air_SessionToken := "tok-admin"; air_AccountID := "admin" |}); Restart;
   Serve (DeleteRole {| ri_SessionToken := "tok-admin"; ri_Id := "Spare" |})].
Lemma history_good_witness :
  has_admin (state_of (history a_history (service minute [Some Sim.eof]))).
Proof.
  apply (good_admin _ (history_good (service minute [Some Sim.eof]) a_history (service_good _ _))).
Defined.

Lemma serve_authorised_witness :
  view (serve (DeleteAccount {| air_SessionToken := "tok-alice"; air_AccountID := "admin" |})
          (service minute [])).2 OnDisk = the_accounts \/
  exists sess, session_of (service minute []) "tok-alice" = Some sess.
Proof.
  destruct (serve (DeleteAccount {| air_SessionToken := "tok-alice"; air_AccountID := "admin" |})
          (service minute [])) as [o w'] eqn:E.
  destruct (serve_authorised (service minute [])
    (DeleteAccount {| air_SessionToken := "tok-alice"; air_AccountID := "admin" |}) o w'
    (service_wf _ _) (service_typed _ _) E) as [Hv|(sess & t & Hs & _)].
  - left. exact Hv.
  - right. exists sess. exact Hs.
Defined.

Lemma serve_panics_witness :
  exists s, session_of (service minute []) "tok-login" = Some s /\
    has_privilege s PrivilegeConfigureSelf = false.
Proof.
  destruct (serve_panics (service minute []) (ReadSessions {| SessionToken := "tok-login"; SessionId := "" |})
    (service_wf _ _) (service_typed _ _)) as (s & Hs & Hp & _); [vm_compute; reflexivity|].
  exists s. by split.
Defined.

Definition breaking_update : UpdateRoleRequest := {| ur_SessionToken := "tok-login"; ur_Id := "Spare";
  ur_UpdateRequest := Text (JObj [("AssignedPrivileges", JArr [JObj []])]) |}.
Lemma UpdateRole_panics_witness :
  (serve (UpdateRole breaking_update) (service minute [])).1 = Panic \/
  expired (clock (w_env (serve (UpdateRole breaking_update) (service minute [])).2)) login_session.
Proof.
  apply (UpdateRole_panics (service minute []) breaking_update login_session
    (service_wf _ _) (service_healthy _) (service_typed _ _)); [reflexivity|discriminate|].
  vm_compute. reflexivity.
Defined.
End witnesses.
