(* ===== verification/GatewaySpec.v ===== *)
(** What the gateway's calls and handlers do to the rest of the system.

    [does] is a triple for computations of the gateway: from a good state they end in a good state,
    having taken the databases along changes on behalf of the session of one token only, and return
    a value with a property or panic where they may.  Every RPC function has one, and the hints of
    [gateway] find the one of a handler from those of its parts. *)
From stdpp Require Import base gmap list strings relations.
From S2P Require Import Prelude Go GoTime GoText Response ResponseProps Redis World ConnPool DBSpec AsModel AsSpec Auth AuthProps Session SessionSpec SessionProps Account Role Rpc Services System SystemProps THandle Http Proto HandleAccess HandleResources HandleServices HandleFixed GatewayRpc Router Gateway.
Open Scope string_scope.

(** The requests another service sends carry the token of the request it was sent, or none. *)
Class PeersLaws `{Peers} : Prop := {
  remote_tokens service method req w x rs resp x' :
    remote service method req w x = (rs, resp, x') ->
    Forall (fun r => token_of r = message_token req \/ token_of r = "") rs;
}.

Section spec.
Context `{EnvLaws, Libs, SingleNode, !Peers, !PeersLaws, !Discovery, !RegistryStore}.
Implicit Types (w : World) (s : Gateway).

(** ** Worlds *)

(** A step of the account-session service for nobody or for the valid session of the token. *)
Definition on_behalf (tok : string) w w' : Prop :=
  exists who, acts_as w tok w' who /\ rtc (change who) (state_of w) (state_of w') /\
    (clock (w_env w) <= clock (w_env w'))%Z.
Definition gw_good s : Prop := good (session_world s) /\ wf (gw_own s).

Lemma good_typed_world w : good w -> typed w.
Proof. intros [_ [a b c] _ _]. by split. Qed.
Lemma acts_as_token w tok tok' w' who : tok = tok' \/ tok = "" -> acts_as w tok w' who -> acts_as w tok' w' who.
Proof. intros [-> | ->]; [done|]. intros [?|(? & ? & _ & [] & _)]; [by left|done]. Qed.
Lemma on_behalf_serve tok w r : good w -> token_of r = tok \/ token_of r = "" ->
  on_behalf tok w (happen w (Serve r)).
Proof.
  intros Hg Ht. pose proof (good_typed_world _ Hg) as Hty.
  destruct (wp_serve r w (good_wf _ Hg) Hty) as (_ & who & Ha & Hst).
  exists who. cbn [happen]. destruct (serve r w) as [[a|] w']; cbn [snd] in *;
    (split_and!; [by eapply acts_as_token|apply Hst|apply Hst]).
Qed.
Lemma on_behalf_history tok rs w : good w ->
  Forall (fun r => token_of r = tok \/ token_of r = "") rs ->
  rtc (on_behalf tok) w (history (Serve <$> rs) w) /\ good (history (Serve <$> rs) w).
Proof.
  intros Hg Hrs. revert w Hg. unfold history. induction Hrs as [|r rs Hr Hrs IH]; intros w Hg; [done|].
  cbn [fmap list_fmap fold_left]. pose proof (good_happen w (Serve r) Hg) as Hg'.
  destruct (IH _ Hg') as [Hs Hg'']. split; [|done]. eapply rtc_l; [by apply on_behalf_serve|done].
Qed.

Lemma session_world_with w s : session_world (with_session_world w s) = w.
Proof. by destruct w. Qed.
Lemma with_session_world_own w s : wf (gw_own s) -> wf (gw_own (with_session_world w s)).
Proof. intros Hw []; apply (Hw InMemory) || apply (Hw OnDisk). Qed.

(** What the gateway's own pools read changes nothing of the account-session service's. *)
Lemma own_reads tok s w : gw_good s -> ro (gw_own s) w ->
  on_behalf tok (session_world s) (with_env (w_env w) (gw_session s)) /\
  good (with_env (w_env w) (gw_session s)).
Proof.
  intros [Hg _] Hr.
  assert (Hst : state_of (with_env (w_env w) (gw_session s)) = state_of (session_world s)).
  { pose proof (ro_view _ _ InMemory Hr). pose proof (ro_view _ _ OnDisk Hr). unfold state_of, view in *.
    by f_equal. }
  split.
  - exists None. rewrite Hst. split_and!; [by left|done|exact (ev_clock _ _ _ Hr)].
  - destruct Hg as [a b c d]. split; rewrite ?Hst; [|done..]. intros []; apply (a InMemory) || apply (a OnDisk).
Qed.

(** ** Triples *)

Section does.
Context {S : Type} (g : S -> Gateway) (tok : string) (P : Prop).

Definition does {A} (Q : A -> Prop) (m : M S A) : Prop := forall st, gw_good (g st) ->
  wp m (fun o st' => gw_good (g st') /\
    rtc (on_behalf tok) (session_world (g st)) (session_world (g st')) /\
    match o with Ok a => Q a | Panic => P end) st.

Lemma does_ret {A} (Q : A -> Prop) a : Q a -> does Q (ret a).
Proof. intros HQ st Hg. by apply wp_ret. Qed.
Lemma does_panic {A} (Q : A -> Prop) : P -> does Q panic.
Proof. intros HP st Hg. by apply wp_panic. Qed.
Lemma does_lift {A} (Q : A -> Prop) o : (match o with Ok a => Q a | Panic => P end) -> does Q (lift o).
Proof. intros HQ st Hg. by apply wp_lift. Qed.
Lemma does_get (Q : S -> Prop) : (forall st, gw_good (g st) -> Q st) -> does Q get.
Proof. intros HQ st Hg. apply wp_get. by split_and!; [| |apply HQ]. Qed.
Lemma does_bind {A B} (R : A -> Prop) (Q : B -> Prop) m (k : A -> M S B) :
  does R m -> (forall a, R a -> does Q (k a)) -> does Q (bind m k).
Proof.
  intros Hm Hk st Hg. apply wp_bind. eapply wp_mono; [by apply Hm|].
  intros [a|] st1 (Hg1 & Hr1 & HR); cbn [wp_cont]; [|done].
  eapply wp_mono; [by apply Hk|]. intros o st2 (Hg2 & Hr2 & HQ). split_and!; [done|by etrans|done].
Qed.
Lemma does_seq {A B} (Q : B -> Prop) (m : M S A) (k : M S B) :
  does (fun _ => True) m -> does Q k -> does Q (m ;;; k).
Proof. intros Hm Hk. eapply does_bind; [exact Hm|auto]. Qed.
Lemma does_mono {A} (Q Q' : A -> Prop) m : (forall a, Q a -> Q' a) -> does Q m -> does Q' m.
Proof. intros HQ Hm st Hg. eapply wp_mono; [by apply Hm|]. intros [a|] st' (? & ? & ?); auto. Qed.
(** A change of what the databases do not see. *)
Lemma does_modify f : (forall st, gw_good (g st) -> gw_good (g (f st)) /\ session_world (g (f st)) = session_world (g st)) ->
  does (fun _ => True) (modify f).
Proof. intros Hf st Hg. apply wp_modify. destruct (Hf st Hg) as [Hg' ->]. done. Qed.
End does.

Lemma does_weaken {S A} (g : S -> Gateway) tok (P P' : Prop) (Q : A -> Prop) m : (P -> P') ->
  does g tok P Q m -> does g tok P' Q m.
Proof. intros HP Hm st Hg. eapply wp_mono; [by apply Hm|]. intros [a|] st' (? & ? & ?); auto. Qed.
Lemma does_token {S A} (g : S -> Gateway) tok (P : Prop) (Q : A -> Prop) m :
  does g "" P Q m -> does g tok P Q m.
Proof.
  intros Hm st Hg. eapply wp_mono; [by apply Hm|]. intros o st' (? & Hr & ?). split_and!; [done| |done].
  revert Hr. apply rtc_subrel. intros w w' (who & Ha & Hc). exists who. split; [|done].
  eapply acts_as_token; [by right|exact Ha].
Qed.
Lemma does_call {A} tok P (Q : A -> Prop) (m : M Gateway A) :
  does id tok P Q m -> does (S := Gateway * Writer payload) fst tok P Q (call m).
Proof.
  intros Hm [s wr] Hg. unfold wp, call. pose proof (Hm s Hg) as Hw. unfold wp in Hw. cbn [fst snd id] in *.
  destruct (m s) as [o s']. exact Hw.
Qed.

(** ** Calls *)

(** An answer with a property, or none and an error. *)
Definition arrives {A} (Q : A -> Prop) (r : answer A) : Prop :=
  match r with (Some a, _) => Q a | (None, err) => is_Some err end.
Lemma arrives_wrap {A} (Q : A -> Prop) text r : arrives Q r -> arrives Q (wrap text r).
Proof. destruct r as [[a|] [err|]]; intros HQ; try done; by eexists. Qed.
Lemma arrives_wrap_nil {A} (Q : A -> Prop) text r : arrives Q r -> arrives Q (wrap_nil text r).
Proof. destruct r as [[a|] [err|]]; intros HQ; try done; by eexists. Qed.
Lemma arrives_fmap {A B} (Q : B -> Prop) (f : A -> B) (r : answer A) :
  arrives (fun a => Q (f a)) r -> arrives Q (f <$> r.1, r.2).
Proof. by destruct r as [[a|] err]. Qed.
Lemma arrives_resp {A} (Q : A -> Prop) r : arrives Q r -> nil_and_err r = None -> exists a, r.1 = Some a /\ Q a.
Proof. destruct r as [[a|] [err|]]; intros HQ Hn; try done; [by exists a..|]. by destruct HQ. Qed.
Lemma no_err_nil {A} (r : answer A) : r.2 = None -> nil_and_err r = None.
Proof. by destruct r as [[a|] [err|]]. Qed.

Section calls.
Context (tok : string) (P : Prop).
Local Abbreviation doesg := (does (S := Gateway) id tok P).

(** What a handler of the account-session service does, in a good world. *)
Definition serves {A} (Q : A -> Prop) (m : IO A) : Prop :=
  (exists r, (forall w, drop m w = serve r w) /\ (token_of r = tok \/ token_of r = "")) /\
  forall w, good w -> wp m (fun o _ => match o with Ok a => Q a | Panic => True end) w.

Lemma wp_process {A} (Q : A -> Prop) (m : IO A) s : serves Q m -> gw_good s ->
  wp (in_session A m) (fun o s' => gw_good s' /\ rtc (on_behalf tok) (session_world s) (session_world s') /\
    match o with Ok a => Q a | Panic => exists w, good w /\ (m w).1 = Panic end) s.
Proof.
  intros [(r & Hr & Ht) HQ] [Hg Hown]. apply wp_intro. intros o s' E.
  assert (session_world s' = happen (session_world s) (Serve r) /\ wf (gw_own s') /\
    o = (m (session_world s)).1) as (Hw & Hown' & ->).
  { unfold in_session in E. cbn [happen]. rewrite <- Hr. unfold drop, bind. destruct (m (session_world s)) as [[a|] w];
      injection E as <- <-; rewrite session_world_with; split_and!; try done; by apply with_session_world_own. }
  unfold gw_good. rewrite Hw. split_and!; [by apply good_happen|done|by apply rtc_once, on_behalf_serve|].
  specialize (HQ _ Hg). unfold wp in HQ. destruct (m (session_world s)) as [[a|] w] eqn:Em; [done|].
  exists (session_world s). by rewrite Em.
Qed.
Lemma does_in_session {A} (Q : A -> Prop) (m : IO A) : serves Q m ->
  (forall w, good w -> wp m (fun o _ => o <> Panic) w) -> doesg Q (in_session A m).
Proof.
  intros Hm Hn s Hg. eapply wp_mono; [by apply wp_process|]. intros [a|] s' (Hg' & Hr & HQ); [done|].
  destruct HQ as (w & Hgw & E). by specialize (Hn w Hgw E).
Qed.
Lemma does_arrived {A} (Q : A -> Prop) service (r : option A) : (forall a, r = Some a -> Q a) ->
  doesg (arrives Q) (arrived service r).
Proof.
  intros HQ. eapply does_bind; [by apply (does_get _ _ _ (fun _ => True))|]. intros s _. apply does_ret.
  destruct r as [a|]; [destruct (broken _ _); [by eexists|by apply HQ]|by eexists].
Qed.
Lemma does_ask {A} (Q : A -> Prop) (m : IO A) : serves Q m -> doesg (arrives Q) (ask m).
Proof.
  intros Hm. unfold ask. apply does_bind with (R := fun r => forall a, r = Some a -> Q a); [|by intros; apply does_arrived].
  intros s Hg. pose proof (wp_process Q m s Hm Hg) as Hw. unfold wp, caught in *.
  destruct (in_session A m s) as [[a|] s'] eqn:E; cbn [fst snd] in *; (split_and!; [apply Hw..|]); [|done].
  intros a' [= <-]. apply Hw.
Qed.
Lemma does_invoke service method req : message_token req = tok ->
  doesg (arrives (fun _ => True)) (invoke service method req).
Proof.
  intros Ht. unfold invoke. apply does_bind with (R := fun _ => True); [|intros r _; by apply does_arrived].
  intros s [Hg Hown]. unfold wp. cbn beta. destruct (remote _ _ _ _ _) as [[rs resp] x] eqn:E.
  pose proof (remote_tokens _ _ _ _ _ _ _ _ E) as Hrs. rewrite Ht in Hrs. cbn [fst snd id].
  destruct (on_behalf_history tok rs _ Hg Hrs) as [Hr Hg'].
  assert (Hs : forall w, session_world (with_rest x (with_session_world w s)) = w) by (intros []; reflexivity).
  unfold gw_good. rewrite Hs. split_and!; [done|by apply with_session_world_own|done|done].
Qed.
Lemma does_connected {A} (Q : A -> Prop) service (k : M Gateway (answer A)) :
  doesg (arrives Q) k -> doesg (arrives Q) (connected service k).
Proof.
  intros Hk. unfold connected. eapply does_bind; [by apply (does_get _ _ _ (fun _ => True))|]. intros s _.
  destruct (dial _ _); [|done]. apply does_ret. by eexists.
Qed.
Lemma does_remote (f : answer (RPC payload) -> answer (RPC payload)) service method req :
  (forall r, arrives (fun _ => True) r -> arrives (fun _ => True) (f r)) -> message_token req = tok ->
  doesg (arrives (fun _ => True)) (connected service (let! r := invoke service method req in ret (f r))).
Proof.
  intros Hf Ht. apply does_connected. eapply does_bind; [by apply does_invoke|]. intros r Hr. by apply does_ret, Hf.
Qed.
Lemma does_ask_session (Q : RPC payload -> Prop) text (m : IO asRPC) :
  serves (fun a => Q (session_answer a)) m -> doesg (arrives Q) (ask_session text m).
Proof.
  intros Hm. apply does_connected. eapply does_bind; [by apply does_ask|]. intros r Hr.
  by apply does_ret, arrives_wrap_nil, arrives_fmap.
Qed.
Lemma does_ask_role (m : IO asRPC) :
  serves (fun _ => True) m -> doesg (arrives (fun _ => True)) (ask_role m).
Proof.
  intros Hm. apply does_connected. eapply does_bind; [by apply does_ask|]. intros r Hr.
  by apply does_ret, arrives_wrap, arrives_fmap.
Qed.
(** The task service: without a client there is neither a response. *)
Definition no_task_client : Prop := exists e err, dial Tasks e = Some err.
Lemma does_ask_task method req : gt_SessionToken req = tok ->
  doesg (fun r => is_Some r.1 \/ no_task_client) (ask_task method req).
Proof.
  intros Ht. unfold ask_task, connected. eapply does_bind; [by apply (does_get _ _ _ (fun _ => True))|]. intros s _.
  destruct (dial Tasks (gw_env s)) as [err|] eqn:Ed; [apply does_ret; right; by exists (gw_env s), err|].
  eapply does_bind; [by apply does_invoke|]. intros r Hr. destruct r as [[a|] [err|]]; cbn [fst snd];
    try (by apply does_ret; left; eexists); try (by destruct Hr).
  all: run_body; eapply does_bind; [by apply (does_lift _ _ _ (fun _ => True))|]; intros ? _; apply does_ret; left; by eexists.
Qed.
End calls.

(** ** The handlers of the account-session service *)

Lemma serves_any {A} tok (m : IO A) r : (forall w, drop m w = serve r w) ->
  token_of r = tok \/ token_of r = "" -> serves tok (fun _ => True) m.
Proof. intros Hr Ht. split; [by exists r|]. intros w _. unfold wp. by destruct (m w).1. Qed.
Lemma serves_such {A} tok (Q : A -> Prop) (m : IO A) r : (forall w, drop m w = serve r w) ->
  token_of r = tok \/ token_of r = "" ->
  (forall w, wf w -> wp m (fun o _ => match o with Ok a => Q a | Panic => True end) w) -> serves tok Q m.
Proof. intros Hr Ht HQ. split; [by exists r|]. intros w Hg. apply HQ, Hg. Qed.

(** A response with a code that has no headers would break the handler. *)
Definition has_headers (code : Z) (resp : RPC payload) : Prop := StatusCode resp = code -> Header resp <> [].
Lemma serves_CreateSession tok body :
  serves tok (fun a => has_headers StatusCreated (session_answer a.1)) (Session_CreateSession body).
Proof.
  apply (serves_such _ _ _ (LogIn body)); [done|by right|]. intros w Hwf.
  eapply wp_mono; [by apply wp_CreateNewSession|]. intros [[resp id]|] w' Hp; [|done]. intros Hc E.
  change (StatusCode resp = StatusCreated) in Hc. change (Header resp = []) in E. destruct Hp as [[_ Hl]|[Hn _]]; [|done].
  destruct Hl as (? & ? & ? & ? & ? & _ & _ & _ & _ & _ & _ & Hin%login_headers_token & _). by rewrite E in Hin.
Qed.
Lemma serves_GetSession tok id :
  serves tok (fun a => has_headers StatusOK (session_answer a))
    (Session_GetSession {| SessionId := id; SessionToken := tok |}).
Proof.
  apply (serves_such _ _ _ (ReadSession {| SessionId := id; SessionToken := tok |})); [done|by left|]. intros w Hwf.
  eapply wp_mono; [by apply wp_GetSessionRPC|]. intros [resp|] w' Hp; [|done]. intros Hc E.
  change (StatusCode resp = StatusOK) in Hc. change (Header resp = []) in E. destruct Hp as [_ Hp].
  destruct (Hp Hc) as (? & ? & ? & ? & ? & _ & _ & _ & _ & _ & Hin & _). by rewrite E in Hin.
Qed.

Lemma does_DoSessionCreationRequest tok P body :
  does id tok P (arrives (fun a => has_headers StatusCreated a.1)) (rpc_DoSessionCreationRequest body).
Proof.
  apply does_connected. eapply does_bind; [apply does_ask, serves_CreateSession|]. intros r Hr.
  apply does_ret, arrives_wrap_nil. by apply arrives_fmap.
Qed.
Lemma does_GetSessionRequest tok P id :
  does (S := Gateway) (fun s => s) tok P (arrives (has_headers StatusOK)) (rpc_GetSessionRequest id tok).
Proof. apply (does_ask_session tok P (has_headers StatusOK)), serves_GetSession. Qed.

(** lib-utilities/services/auth.go *)
Lemma does_service_call {A} tok P (Q : A -> Prop) (m : IO A) : serves tok Q m ->
  (forall w, good w -> wp m (fun o _ => o <> Panic) w) ->
  does id tok P (fun r => match r with inr (inr a) => Q a | _ => True end) (Services.call in_session gw_env m).
Proof.
  intros Hm Hn. unfold Services.call. eapply does_bind; [by apply (does_get _ _ _ (fun _ => True))|]. intros s _.
  destruct (client_error _); [by apply does_ret|]. eapply does_bind; [by apply does_in_session|]. intros a Ha.
  eapply does_bind; [by apply (does_get _ _ _ (fun _ => True))|]. intros s' _.
  destruct (call_error _); by apply does_ret.
Qed.
Lemma does_IsAuthorized tok P ps oem :
  does id tok P (fun _ => True) (Services.IsAuthorized (B := payload) in_session gw_env tok ps oem).
Proof.
  unfold Services.IsAuthorized. eapply does_bind.
  - apply (does_service_call tok P auth_answer).
    + apply (serves_such _ _ _ (Authorize tok ps)); [done|by left|]. intros w _. apply Auth_answers.
    + intros w Hg. eapply wp_mono; [by apply wp_Auth, Hg|]. intros [r|] w' Hp; done.
  - intros [err|[err|[code msg]]] Ha; [by apply does_lift..|]. apply does_lift.
    by destruct (@GeneralError_auth payload code msg "while checking the authorization"
      (InMemoryHost (ConfDB Data) +:+ ":" +:+ InMemoryPort (ConfDB Data)) Ha) as [e ->].
Qed.
Lemma does_name_call tok P f req r : (forall w, drop (session_field f req) w = serve r w) ->
  token_of r = tok -> (forall w, wf w -> wp (session_field f req) (fun o _ => o <> Panic) w) ->
  does id tok P (fun _ => True) (name_call in_session gw_env (session_field f req)).
Proof.
  intros Hr Ht Hn. unfold name_call. eapply does_bind.
  - apply does_service_call; [apply (serves_any _ _ r); auto|]. intros w Hg. apply Hn, Hg.
  - intros [err|[err|[err|x]]] _; by apply does_ret.
Qed.
Lemma does_getUserDetails tok P : does id tok P (fun _ => True) (getUserDetails tok).
Proof.
  assert (Hf : forall f w, wf w -> wp (session_field f tok) (fun o _ => o <> Panic) w).
  { intros f w Hwf. eapply wp_mono; [by apply wp_session_field|]. intros [a|] w' [_ Hp]; done. }
  unfold getUserDetails. destruct (is_empty tok); [by apply does_ret|]. eapply does_bind.
  - apply (does_name_call tok P s_UserName tok (ReadSessionUserName {| SessionId := ""; SessionToken := tok |})); auto.
  - intros [e|u] _; [by apply does_ret|]. eapply does_bind.
    + apply (does_name_call tok P s_RoleID tok (ReadSessionUserRoleID {| SessionId := ""; SessionToken := tok |})); auto.
    + intros [e|x] _; by apply does_ret.
Qed.

(** ** The parts of the handlers *)

Section writer.
Context (tok : string) (P : Prop).
Local Abbreviation doesw := (does (S := Gateway * Writer payload) fst tok P (fun _ => True)).

Lemma does_on_writer f : doesw (on_writer f).
Proof. by apply does_modify. Qed.
Lemma does_call_modify f :
  (forall s, session_world (f s) = session_world s /\ gw_own (f s) = gw_own s) -> doesw (call (modify f)).
Proof.
  intros Hf. apply does_call, does_modify. intros s [Hg Hown]. destruct (Hf s) as [Hs Ho].
  unfold gw_good, id. by rewrite Hs, Ho.
Qed.
Lemma does_own_read {A} (m : IO A) :
  (forall w, wf w -> wp m (fun o w' => ro w w' /\ o <> Panic) w) -> doesw (call (in_own A m)).
Proof.
  intros Hm. apply does_call. intros s Hg. change (gw_good s) in Hg. pose proof (Hm _ (proj2 Hg)) as Hw. unfold wp, in_own in *.
  destruct (m (gw_own s)) as [o w]. cbn [fst snd id] in *. destruct Hw as [Hr Ho].
  destruct (own_reads tok s w Hg Hr) as [Hb Hg']. split_and!; [split; [exact Hg'|apply Hr]|by apply rtc_once|by destruct o].
Qed.
Lemma does_set_headers l : doesw (set_headers l).
Proof. apply does_on_writer. Qed.
Lemma does_SetResponseHeader l : doesw (SetResponseHeader l).
Proof. apply does_seq; apply does_set_headers. Qed.
Lemma does_SetHeader k v : doesw (SetHeader k v).
Proof. apply does_on_writer. Qed.
Lemma does_SetStatus n : doesw (SetStatus n).
Proof. apply does_on_writer. Qed.
Lemma does_Write c : doesw (Write c).
Proof. apply does_on_writer. Qed.
Lemma does_GeneralError code st em margs :
  args_ok {| ea_StatusMessage := st; ea_ErrorMessage := em; ea_MessageArgs := margs |} ->
  does (S := Gateway * Writer payload) fst tok P (fun _ => True) (lift (GeneralError (B := payload) code st em margs)).
Proof. intros Ha. destruct (@GeneralError_ok payload code st em margs Ha) as [e ->]. by apply does_lift. Qed.
Lemma does_respond resp : doesw (respond resp).
Proof. apply does_seq; [apply does_SetResponseHeader|]. apply does_seq; [apply does_SetStatus|apply does_Write]. Qed.
Lemma does_deref {A} (Q : A -> Prop) (p : option A) : (match p with Some a => Q a | None => P end) ->
  does (S := Gateway * Writer payload) fst tok P Q (deref p).
Proof. intros Hp. apply does_lift. by destruct p. Qed.
Lemma does_arrived_resp {A} (Q : A -> Prop) (r : answer A) : arrives Q r -> nil_and_err r = None ->
  does (S := Gateway * Writer payload) fst tok P Q (deref r.1).
Proof. intros Hr Hn. destruct (arrives_resp Q r Hr Hn) as (a & -> & Ha). by apply does_deref. Qed.
Lemma does_answered Q r : arrives Q r -> nil_and_err r = None -> doesw (answered r).
Proof. intros Hr Hn. eapply does_bind; [by eapply does_arrived_resp|]. intros resp _. apply does_respond. Qed.
Lemma does_deref_task (r : answer (RPC payload)) : is_Some r.1 \/ no_task_client -> (no_task_client -> P) ->
  does (S := Gateway * Writer payload) fst tok P (fun _ => True) (deref r.1).
Proof. intros Hr HP. apply does_deref. destruct Hr as [[a ->]|Hn]; [done|]. by destruct r.1; [|apply HP]. Qed.
Lemma does_add_location location resp : Header resp <> [] ->
  does (S := Gateway * Writer payload) fst tok P (fun _ => True) (add_location location resp).
Proof. intros Hh. unfold add_location. destruct (Header resp); [done|by apply does_ret]. Qed.
Lemma does_located code location resp : has_headers code resp ->
  does (S := Gateway * Writer payload) fst tok P (fun _ => True)
    (if (StatusCode resp =? code)%Z then add_location location resp else ret resp).
Proof.
  intros Hh. destruct (StatusCode resp =? code)%Z eqn:E; [|by apply does_ret].
  apply does_add_location, Hh. by apply Z.eqb_eq.
Qed.
Lemma does_SetAllow allow : doesw (SetAllow allow).
Proof. destruct allow; [apply does_SetHeader|by apply does_ret]. Qed.
Lemma does_fillMethodNotAllowed ctx : doesw (fillMethodNotAllowedErrorResponse ctx).
Proof.
  apply does_seq; [apply does_SetStatus|]. eapply does_bind.
  - unfold CreateGenericErrorResponse. apply (does_lift _ _ _ (fun _ => True)).
    pose proof (extendedInfos_post (ErrorArgs (errorArgs1 ActionNotSupported "" [IString (Method (ctx_Request ctx))]))) as He.
    destruct (extendedInfos _) as [ms|]; [done|]. destruct He. by repeat constructor.
  - intros e _. apply does_seq; [apply does_SetResponseHeader|apply does_Write].
Qed.
End writer.
#[local] Hint Resolve does_SetAllow does_fillMethodNotAllowed does_set_headers : gateway.
#[local] Hint Resolve does_SetResponseHeader does_SetHeader does_SetStatus does_Write does_respond : gateway.

(** The requests for which the task service has a handler that uses a nil response. *)
Definition handles (P : Prop) (h : Context -> M (Gateway * Writer payload) unit) : Prop :=
  forall ctx, does (S := Gateway * Writer payload) fst (token ctx) P (fun _ => True) (h ctx).


Ltac head t := lazymatch t with ?f _ => head f | _ => t end.
(** The request a handler of the account-session service serves. *)
Ltac serves_as r := apply (serves_any _ _ r); [intros ?; reflexivity | first [left; reflexivity | right; reflexivity]].
Ltac serves_rpc := lazymatch goal with
  | |- serves _ _ (Account_Create ?req) => serves_as (CreateAccount req)
  | |- serves _ _ (Account_GetAllAccounts ?req) => serves_as (ReadAccounts req)
  | |- serves _ _ (Account_GetAccount ?req) => serves_as (ReadAccount req)
  | |- serves _ _ (Account_GetAccountServices ?req) => serves_as (ReadAccountServices req)
  | |- serves _ _ (Account_Update ?req) => serves_as (UpdateAccount req)
  | |- serves _ _ (Account_Delete ?req) => serves_as (DeleteAccount req)
  | |- serves _ _ (Role_CreateRole ?req) => serves_as (CreateRole req)
  | |- serves _ _ (Role_GetRole ?req) => serves_as (ReadRole req)
  | |- serves _ _ (Role_GetAllRoles ?req) => serves_as (ReadRoles req)
  | |- serves _ _ (Role_UpdateRole ?req) => serves_as (UpdateRole req)
  | |- serves _ _ (Role_DeleteRole ?req) => serves_as (DeleteRole req)
  | |- serves _ _ (Session_DeleteSession ?req) => serves_as (LogOut req)
  | |- serves _ _ (Session_GetAllActiveSessions ?req) => serves_as (ReadSessions req)
  | |- serves _ _ (Session_GetSessionService ?req) => serves_as (ReadSessionService req)
  end.
(** The function of a record of RPCs. *)
Ltac gateway_rpc := simple apply does_call;
  lazymatch goal with |- does _ _ _ _ ?m => let f := head m in unfold f end;
  unfold roleRPCs, accountRPCs, sessionRPCs, taskRPCs, systemRPCs, chassisRPCs, eventsRPCs, fabricRPCs,
    managersRPCs, updateRPCs, telemetryRPCs, compositionRPCs, aggregatorRPCs, registryFile; cbv beta iota;
  lazymatch goal with
  | |- does _ _ _ _ (rpc_DoSessionCreationRequest _) => apply does_DoSessionCreationRequest
  | |- does _ _ _ _ (rpc_GetSessionRequest _ _) => apply does_GetSessionRequest
  | |- does _ _ _ _ (Services.IsAuthorized _ _ _ _ _) => apply does_IsAuthorized
  | |- does _ _ _ _ ?m => let f := head m in unfold f; lazymatch goal with
    | |- does _ _ _ _ (ask_task _ _) => apply does_ask_task; reflexivity
    | |- does _ _ _ _ (ask_session _ _) => apply (does_ask_session _ _ (fun _ => True)); serves_rpc
    | |- does _ _ _ _ (ask_role _) => apply does_ask_role; serves_rpc
    | |- does _ _ _ _ (connected _ _) =>
        apply does_remote; [intros ? ?; first [by apply arrives_wrap | by apply arrives_wrap_nil] | reflexivity]
    end
  end.
Ltac gateway_step := lazymatch goal with
  | |- does _ _ _ _ (bind (call _) _) => eapply does_bind; [gateway_rpc | let r := fresh "r" in let Hr := fresh "Hr" in intros r Hr; cbv beta in Hr]
  | Hr : arrives _ ?r, Hn : nil_and_err ?r = None |- does _ _ _ _ (bind (deref ?r.1) _) =>
      eapply does_bind; [exact (does_arrived_resp _ _ _ r Hr Hn) | let resp := fresh "resp" in intros resp ?]
  | Hr : arrives _ ?r, Hn : nil_and_err ?r = None |- does _ _ _ _ (answered ?r) =>
      exact (does_answered _ _ _ r Hr Hn)
  | Hr : is_Some ?r.1 \/ _, HP : no_task_client -> _ |- does _ _ _ _ (bind (deref ?r.1) _) =>
      eapply does_bind; [exact (does_deref_task _ _ r Hr HP) | intros ? _]
  | Hh : has_headers ?code ?resp |- does _ _ _ _ (bind (if (StatusCode ?resp =? ?code)%Z then _ else _) _) =>
      eapply does_bind; [exact (does_located _ _ code _ resp Hh) | intros ? _]
  | |- does _ _ _ _ (let (_, _) := ?x in _) => destruct x; cbn [fst snd] in *
  | |- does _ _ _ _ (bind (lift (GeneralError _ _ _ _)) _) =>
      eapply does_bind; [simple apply does_GeneralError; first [exact I | reflexivity] | intros ? _]
  | |- does _ _ _ _ (bind ?m (fun _ => _)) => simple apply does_seq
  | |- does _ _ _ _ (match ?x.2 with _ => _ end) =>
      let E := fresh "E" in destruct x.2 eqn:E; [|apply no_err_nil in E]
  | |- does _ _ _ _ (match ?x with _ => _ end) => let E := fresh "E" in destruct x eqn:E
  | |- does _ _ _ _ (ret _) => by apply does_ret
  | |- does _ _ _ _ ?m => first [solve [eauto with gateway] | unfold fail, fail_bare]
  end.
Ltac gateway_go := repeat (cbv zeta; gateway_step).


Lemma does_fail tok P code st em :
  args_ok {| ea_StatusMessage := st; ea_ErrorMessage := em; ea_MessageArgs := [] |} ->
  does (S := Gateway * Writer payload) fst tok P (fun _ => True) (fail code st em).
Proof. intros Ha. unfold fail. eapply does_bind; [by apply does_GeneralError|]. intros ? _. gateway_go. Qed.
Lemma does_fail_bare tok P code st em :
  args_ok {| ea_StatusMessage := st; ea_ErrorMessage := em; ea_MessageArgs := [] |} ->
  does (S := Gateway * Writer payload) fst tok P (fun _ => True) (fail_bare code st em).
Proof. intros Ha. unfold fail_bare. eapply does_bind; [by apply does_GeneralError|]. intros ? _. gateway_go. Qed.
Lemma does_unauthorized tok P em :
  does (S := Gateway * Writer payload) fst tok P (fun _ => True) (unauthorized em).
Proof. by apply does_fail. Qed.
Lemma does_malformed tok P em :
  does (S := Gateway * Writer payload) fst tok P (fun _ => True) (malformed em).
Proof. by apply does_fail. Qed.
Lemma does_internal tok P em :
  does (S := Gateway * Writer payload) fst tok P (fun _ => True) (internal em).
Proof. by apply does_fail. Qed.
#[local] Hint Resolve does_unauthorized does_malformed does_internal : gateway.
#[local] Hint Extern 1 (does _ _ _ _ (fail_bare _ _ _)) => simple apply does_fail_bare; exact I : gateway.


(** ** The registries *)

Lemma split_index (s sep : string) n : exists a, index (Split s sep) (length (Split s sep) - S n) = Ok a.
Proof.
  pose proof (split_go_nonempty 0 s sep) as Hn. fold (Split s sep) in Hn. unfold index.
  destruct (lookup_lt_is_Some_2 (Split s sep) (length (Split s sep) - S n)) as [a ->]; [|by eexists].
  destruct (Split s sep); [done|]. cbn [length]. lia.
Qed.
Lemma does_split_index tok P (s sep : string) n :
  does (S := Gateway * Writer payload) fst tok P (fun _ => True) (lift (index (Split s sep) (length (Split s sep) - S n))).
Proof. destruct (split_index s sep n) as [a ->]. by apply does_lift. Qed.
Lemma does_registry_id tok P ctx :
  does (S := Gateway * Writer payload) fst tok P (fun _ => True) (registry_id ctx).
Proof.
  unfold registry_id. destruct (HasPrefix _ _); [|by apply does_ret].
  destruct (HasSuffix _ _); apply does_split_index.
Qed.
Lemma does_registry_names tok P :
  does (S := Gateway * Writer payload) fst tok P (fun _ => True) (call (in_own _ (GetAllRegistryFileNamesFromDB "Registries"))).
Proof.
  apply does_own_read. intros w Hwf. unfold GetAllRegistryFileNamesFromDB.
  wp_call wp_GetDBConnection; [done|]. intros o w1 (-> & Hro & Hrd). cbn [wp_cont].
  eapply wp_mono; [apply wp_GetAllDetails; [apply Hro|done|reflexivity]|].
  intros o w2 [Hro2 Hp]. split; [by eapply ro_trans|]. by destruct o.
Qed.
Lemma does_registry_file tok P key :
  does (S := Gateway * Writer payload) fst tok P (fun _ => True) (call (in_own _ (GetRegistryFile "Registries" key))).
Proof.
  apply does_own_read. intros w Hwf. unfold GetRegistryFile.
  wp_call wp_GetDBConnection; [done|]. intros o w1 (-> & Hro & Hrd). cbn [wp_cont].
  wp_call wp_Read; [apply Hro|done|]. intros o w2 [Hro2 Hp]. assert (ro w w2) by (by eapply ro_trans).
  destruct o as [[e|[[]|]]|]; [..|done]; cbn [wp_cont]; by apply wp_ret.
Qed.
Lemma does_authorized P ctx k :
  does (S := Gateway * Writer payload) fst (token ctx) P (fun _ => True) k ->
  does fst (token ctx) P (fun _ => True) (authorized registryFile ctx k).
Proof.
  intros Hk. unfold authorized. cbv zeta. destruct (is_empty _); [auto with gateway|].
  eapply does_bind; [gateway_rpc|]. intros r _. destruct (negb _); [gateway_go|done].
Qed.
Lemma does_registry_not_found tok P em id :
  does (S := Gateway * Writer payload) fst tok P (fun _ => True) (registry_not_found em id).
Proof. unfold registry_not_found. gateway_go. Qed.
#[local] Hint Resolve does_registry_id does_registry_names does_registry_file does_registry_not_found : gateway.

Lemma handles_GetRegistryFileCollection P : (ReadDir RegistryStorePath = None -> P) ->
  handles P (GetRegistryFileCollection in_own registryFile).
Proof.
  intros HP ctx. apply does_authorized. destruct (ReadDir RegistryStorePath); [|by apply does_panic, HP]. cbv zeta.
  eapply does_bind; [apply does_registry_names|]. intros keys _. gateway_go.
Qed.
Lemma handles_GetMessageRegistryFile P : handles P (GetMessageRegistryFile in_own registryFile).
Proof.
  intros ctx. unfold GetMessageRegistryFile. eapply does_bind; [apply does_registry_id|]. intros id _.
  apply does_authorized. cbv zeta. destruct (ReadFile _) as [[]|]; [gateway_go..|].
  eapply does_bind; [apply does_registry_file|]. intros [e|c] _; gateway_go.
Qed.
Lemma handles_GetMessageRegistryFileID P : handles P (GetMessageRegistryFileID in_own registryFile).
Proof.
  intros ctx. unfold GetMessageRegistryFileID. destruct (Contains _ _); [apply handles_GetMessageRegistryFile|].
  eapply does_bind; [apply does_registry_id|]. intros id _. apply does_authorized. cbv zeta.
  eapply does_bind; [apply does_registry_names|]. intros keys _. destruct (existsb _ _); [|gateway_go].
  eapply does_bind; [|intros ? _; gateway_go]. apply (does_lift _ _ _ (fun _ => True)).
  pose proof (split_go_nonempty 0 id ".") as Hn. unfold index. fold (Split id ".") in Hn. by destruct (Split id ".").
Qed.
Lemma handles_GetServiceRoot P : handles P (GetServiceRoot (B := payload) gw_env).
Proof.
  intros ctx. unfold GetServiceRoot. eapply does_bind; [apply does_call; by apply (does_get _ _ _ (fun _ => True))|].
  intros s _. gateway_go.
Qed.

(** The request handlers panic only where the task service cannot be called. *)
Definition may_panic_route (rt : route) : Prop :=
  (HasPrefix (r_name rt) "ts." = true /\ no_task_client) \/
  (r_name rt = "registryFile.GetRegistryFileCollection" /\ ReadDir RegistryStorePath = None).
Definition panics_only (rts : list route) : Prop := Forall (fun rt => handles (may_panic_route rt) (r_handler rt)) rts.
Ltac route_go :=
  lazymatch goal with
  | |- handles _ (r_handler (_ _ _ _ (GetServiceRoot _))) => apply handles_GetServiceRoot
  | |- handles _ (r_handler (_ _ _ _ (GetRegistryFileCollection _ _))) => apply handles_GetRegistryFileCollection; by right
  | |- handles _ (r_handler (_ _ _ _ (GetMessageRegistryFileID _ _))) => apply handles_GetMessageRegistryFileID
  | |- handles (may_panic_route ?rt) _ =>
    let n := eval cbv [r_name Get Post Put Patch Delete Any register] in (r_name rt) in
    let h := eval cbv [r_handler Get Post Put Patch Delete Any register] in (r_handler rt) in
    change (handles (may_panic_route rt) h);
    try (assert (no_task_client -> may_panic_route rt) by (by left));
    let f := head h in intros ctx; unfold f; gateway_go
  end.
Ltac routes_go := unfold panics_only; lazymatch goal with |- Forall _ ?l => let f := head l in unfold f end;
  repeat (apply Forall_cons; split; [route_go|]); apply Forall_nil_2.
Lemma handles_taskmonRoutes : panics_only taskmonRoutes.
Proof. routes_go. Qed.
Lemma handles_redfishRoutes : panics_only redfishRoutes.
Proof. routes_go. Qed.
Lemma handles_v1Routes : panics_only v1Routes.
Proof. routes_go. Qed.
Lemma handles_registryRoutes : panics_only registryRoutes.
Proof. routes_go. Qed.
Lemma handles_sessionRoutes : panics_only sessionRoutes.
Proof. routes_go. Qed.
Lemma handles_accountRoutes : panics_only accountRoutes.
Proof. routes_go. Qed.
Lemma handles_roleRoutes : panics_only roleRoutes.
Proof. routes_go. Qed.
Lemma handles_taskRoutes : panics_only taskRoutes.
Proof. routes_go. Qed.
Lemma handles_systemsRoutes : panics_only systemsRoutes.
Proof. routes_go. Qed.
Lemma handles_storageRoutes : panics_only storageRoutes.
Proof. routes_go. Qed.
Lemma handles_systemsActionRoutes : panics_only systemsActionRoutes.
Proof. routes_go. Qed.
Lemma handles_aggregationRoutes : panics_only aggregationRoutes.
Proof. routes_go. Qed.
Lemma handles_aggregationSourceRoutes : panics_only aggregationSourceRoutes.
Proof. routes_go. Qed.
Lemma handles_connectionMethodsRoutes : panics_only connectionMethodsRoutes.
Proof. routes_go. Qed.
Lemma handles_aggregatesRoutes : panics_only aggregatesRoutes.
Proof. routes_go. Qed.
Lemma handles_chassisRoutes : panics_only chassisRoutes.
Proof. routes_go. Qed.
Lemma handles_chassisPowerRoutes : panics_only chassisPowerRoutes.
Proof. routes_go. Qed.
Lemma handles_chassisThermalRoutes : panics_only chassisThermalRoutes.
Proof. routes_go. Qed.
Lemma handles_eventsRoutes : panics_only eventsRoutes.
Proof. routes_go. Qed.
Lemma handles_fabricsRoutes : panics_only fabricsRoutes.
Proof. routes_go. Qed.
Lemma handles_managersRoutes : panics_only managersRoutes.
Proof. routes_go. Qed.
Lemma handles_updateServiceRoutes : panics_only updateServiceRoutes.
Proof. routes_go. Qed.
Lemma handles_telemetryServiceRoutes : panics_only telemetryServiceRoutes.
Proof. routes_go. Qed.
Lemma handles_compositionServiceRoutes : panics_only compositionServiceRoutes.
Proof. routes_go. Qed.
Lemma routes_panic : panics_only routes.
Proof.
  unfold panics_only, routes. rewrite !Forall_app. split_and!;
    first [ exact handles_taskmonRoutes | exact handles_redfishRoutes | exact handles_v1Routes | exact handles_registryRoutes | exact handles_sessionRoutes | exact handles_accountRoutes | exact handles_roleRoutes | exact handles_taskRoutes | exact handles_systemsRoutes | exact handles_storageRoutes | exact handles_systemsActionRoutes | exact handles_aggregationRoutes | exact handles_aggregationSourceRoutes | exact handles_connectionMethodsRoutes | exact handles_aggregatesRoutes | exact handles_chassisRoutes | exact handles_chassisPowerRoutes | exact handles_chassisThermalRoutes | exact handles_eventsRoutes | exact handles_fabricsRoutes | exact handles_managersRoutes | exact handles_updateServiceRoutes | exact handles_telemetryServiceRoutes | exact handles_compositionServiceRoutes ].
Qed.
End spec.
