(* ===== verification/GatewayProps.v ===== *)
(** What the gateway promises its clients: on whose behalf a request acts, what Basic credentials
    do, which requests are refused before anything is called, and what the logs say. *)
From stdpp Require Import base gmap list strings relations sorting.
From Stdlib Require Import Ascii.
From S2P Require Import Prelude Go GoTime GoCodec GoText Response ResponseProps CaseValidator Redis World ConnPool DBSpec AsModel AsSpec Auth AuthProps Session SessionSpec SessionProps Rpc Services System SystemProps TModelProps THandle Http Proto HandleAccess HandleResources HandleServices HandleFixed GatewayRpc Router Gateway GatewaySpec Scenario.
Open Scope string_scope.

Section props.
Context `{EnvLaws, Libs, SingleNode, !Peers, !PeersLaws, !Discovery, !RegistryStore, !Routing, !UrlForms}.
Implicit Types (w : World).
Local Abbreviation doesw tok P := (does (S := Gateway * Writer payload) fst tok P (fun _ => True)).

(** ** From the routes to the wrappers *)

Lemma does_log tok P l : doesw tok P (call (modify (add_log l))).
Proof. apply does_call_modify. done. Qed.
Lemma does_AuthLog a b c d e tok P : doesw tok P (call (AuthLog a b c d e)).
Proof. apply does_log. Qed.
Lemma does_AuditLog P ctx : doesw (token ctx) P (AuditLog ctx).
Proof.
  unfold AuditLog. eapply does_bind; [by apply (does_get _ _ _ (fun _ => True))|]. intros st _.
  eapply does_bind; [apply does_call, does_getUserDetails|]. intros [u role] _. apply does_log.
Qed.
Lemma does_Done P ctx : doesw (token ctx) P (Done ctx).
Proof. apply does_seq; [apply does_AuditLog|]. by apply does_call_modify. Qed.
Lemma does_deferring tok P (m next : M (Gateway * Writer payload) unit) :
  doesw tok P m -> doesw tok P next -> doesw tok P (deferring m next).
Proof.
  intros Hm Hn st Hg. specialize (Hm st Hg). unfold wp, deferring in *. destruct (m st) as [o st1]. cbn [fst snd] in *.
  destruct Hm as (Hg1 & Hr1 & Ho). specialize (Hn st1 Hg1). unfold wp in Hn. destruct (next st1) as [[[]|] st2];
    cbn [fst snd] in *; destruct Hn as (Hg2 & Hr2 & Ho2); (split_and!; [done|by etrans|done]).
Qed.
Lemma does_middleware P next ctx : doesw (token ctx) P next -> doesw (token ctx) P (SessionDelMiddleware next ctx).
Proof.
  intros Hn. apply does_seq; [exact Hn|]. cbv zeta. destruct (is_empty _); [by apply does_ret|].
  eapply does_bind; [|intros r _; by apply does_ret]. apply does_call. unfold rpc_DeleteSessionRequest.
  apply (does_ask_session _ _ (fun _ => True)).
  apply (serves_any _ _ (LogOut {| SessionId := Header_Get ctx "Session-ID"; SessionToken := token ctx |})); [done|by left].
Qed.

(** The route a request takes after the first wrapper; it may break. *)
Definition route_of (r : Request) : option route :=
  match url_Parse (RequestURI r) with
  | Some (_, path) => match find_route route_table (Method r) path with Some (i, _) => routes !! i | None => None end
  | None => None
  end.
Definition breaks (r : Request) : Prop := exists rt, route_of r = Some rt /\ may_panic_route rt.
Definition request_token (r : Request) : string := header_Get (ReqHeader r) X_Auth_Token.
Lemma does_dispatch r (P : Prop) : (forall i params rt, find_route route_table (Method r) (URLPath r) = Some (i, params) ->
    routes !! i = Some rt -> may_panic_route rt -> P) ->
  doesw (request_token r) P (dispatch r).
Proof.
  intros HP. unfold dispatch. destruct (find_route _ _ _) as [[i params]|] eqn:Ef; [|apply does_SetStatus].
  destruct (routes !! i) as [rt|] eqn:Er; [|apply does_SetStatus]. unfold run_route.
  change (request_token r) with (token (mkContext r params)). set (ctx := mkContext r params).
  pose proof routes_panic as Hrs. unfold panics_only in Hrs. rewrite Forall_lookup in Hrs. specialize (Hrs i rt Er ctx).
  induction (r_middlewares rt) as [|n IH]; cbn [Nat.iter]; [|by apply does_middleware].
  apply does_deferring; [|apply does_Done]. eapply does_weaken; [|exact Hrs]. by apply HP with i params.
Qed.
Lemma does_routed r : doesw (request_token r) (breaks r) (WrapRouter_router r dispatch).
Proof.
  unfold WrapRouter_router. destruct (url_Parse _) as [[escaped path]|] eqn:Eu; [|by apply does_ret]. cbv zeta.
  apply does_seq; [destruct (_ && _); [apply does_AuthLog|by apply does_ret]|].
  apply does_seq; [by apply does_call_modify|].
  match goal with |- context [dispatch ?r'] => change (request_token r) with (request_token r') end.
  apply does_dispatch. intros i params rt Hf Hi Hm. exists rt. split; [|done].
  unfold route_of. rewrite Eu. cbn [Method URLPath with_uri] in Hf. by rewrite Hf.
Qed.

(** ** Basic credentials *)

Lemma bind_ok {S A B} (m : M S A) (k : A -> M S B) st st' a : m st = (Ok a, st') -> bind m k st = k a st'.
Proof. unfold bind. by intros ->. Qed.
Lemma call_ok {A} (m : M Gateway A) s s' o (wr : Writer payload) :
  m s = (o, s') -> call m (s, wr) = (o, (s', wr)).
Proof. unfold call. cbn [fst snd]. by intros ->. Qed.
Lemma wp_ask {A} (m : IO A) (Q : outcome A -> World -> Prop) (s : Gateway) : wp m Q (session_world s) ->
  wp (ask m) (fun o s' => forall r a, o = Ok r -> r.1 = Some a -> Q (Ok a) (session_world s')) s.
Proof.
  intros Hm. unfold ask. apply wp_bind. unfold wp, caught, in_session in *.
  destruct (m (session_world s)) as [[a|] w]; cbn [fst snd] in *; unfold wp_cont, wp, arrived, bind, get, ret; cbn.
  - destruct (broken _ _); intros r a' [= <-]; [done|]. intros [= <-]. by destruct w.
  - by intros r a' [= <-].
Qed.

(** What is known of the answer of a login, and of the databases after it. *)
Definition login_answer w body (a : answer (RPC payload * string)) w' : Prop :=
  match a.1 with
  | Some x => exists resp, x = (session_answer resp, x.2) /\
      create_session_post w body (Ok (resp, x.2)) w' /\ login_code (resp, x.2)
  | None => is_Some a.2
  end.
Lemma login_body_cased username password c :
  Unmarshal CreateSession_type (Gateway.login_body username password) zeroCreateSession = (c, None) ->
  cs_UserName c = username /\ cs_Password c = password /\
  RequestParamsCaseValidator (Gateway.login_body username password) (marshal_CreateSession c) = Ok "".
Proof. intros [= <-]. split_and!; reflexivity. Qed.
Lemma wp_login username password (s : Gateway) (body := Gateway.login_body username password) : gw_good s ->
  wp (rpc_DoSessionCreationRequest body) (fun o s' => gw_good s' /\
    rtc (on_behalf "") (session_world s) (session_world s') /\
    exists a, o = Ok a /\ login_answer (session_world s) body a (session_world s')) s.
Proof.
  intros Hg. eapply wp_mono; [apply wp_both; [exact (does_DoSessionCreationRequest "" False body s Hg)|]|].
  - apply (wp_mono _ (fun o s' => forall a x, o = Ok a -> a.1 = Some x ->
      exists resp, x = (session_answer resp, x.2) /\
      create_session_post (session_world s) body (Ok (resp, x.2)) (session_world s') /\ login_code (resp, x.2))); [|intros o s' Ho; exact Ho].
    unfold rpc_DoSessionCreationRequest, connected. wp_go. cbn [wp_cont]. destruct (dial _ _); [apply wp_ret; by intros a x [= <-]|].
    apply wp_bind. eapply wp_mono.
    + apply (wp_ask _ (fun o w' => create_session_post (session_world s) body o w' /\
        match o with Ok r => login_code r | Panic => True end)).
      apply wp_both; [apply wp_CreateNewSession, Hg|]. apply CreateNewSession_codes. intros c Hc. by apply login_body_cased.
    + intros [r|] s' Hr; [|done]. cbn [wp_cont]. apply wp_ret. intros a x [= <-] Hx.
      destruct r as [[[resp id]|] [err|]]; try done; injection Hx as <-;
        (destruct (Hr _ _ eq_refl eq_refl); by exists resp).
  - intros [a|] s' [(Hg' & Hr & Ha) Hl]; [|done]. split_and!; [done|done|]. exists a. split; [done|].
    unfold login_answer. destruct a as [[x|] e]; [by apply (Hl _ _ eq_refl)|exact Ha].
Qed.

Lemma Split_uri_id id : string_forall uuid_char id = true ->
  session_of_link ("</redfish/v1/SessionService/Sessions/" +:+ id +:+ "/>; rel=self") = Ok id.
Proof.
  intros Hid. assert (Hn : no_char "/" id = true) by (by apply uuid_no_char).
  assert (E : Split ("</redfish/v1/SessionService/Sessions/" +:+ id +:+ "/>; rel=self") "/" =
    ["<"; "redfish"; "v1"; "SessionService"; "Sessions"; id; ">; rel=self"]).
  { change ("</redfish/v1/SessionService/Sessions/" +:+ id +:+ "/>; rel=self") with
      ("</redfish/v1/SessionService/Sessions" +:+ String "/" (id +:+ String "/" ">; rel=self")).
    rewrite !Split_char, (Split_none id) by done. reflexivity. }
  unfold session_of_link. by rewrite E.
Qed.

(** The request after the first wrapper has taken a trailing slash off, and whether it looks at the
    header Authorization. *)
Definition untrailed (r : Request) : Request :=
  match without_trailing_slash (URLPath r) with Some path => with_uri path path r | None => r end.
Definition authorization (r : Request) : string := header_Get (ReqHeader r) "Authorization".
Definition uses_basic (r : Request) : bool :=
  negb (is_empty (authorization r) || existsb (String.eqb (URLPath (untrailed r))) urlNoBasicAuth).
Lemma untrailed_header r : ReqHeader (untrailed r) = ReqHeader r.
Proof. unfold untrailed. by destruct (without_trailing_slash _). Qed.

(** [username] has the password and a role that grants Login, and [tok] names a session for it in
    [w1], which is [w] otherwise. *)
Definition logged_in_as w (username password tok id : string) w1 : Prop :=
  exists u role t, user_of w username = Some u /\ u_Password u = hashPassword password /\
    role_of w (u_RoleID u) = Some role /\ In PrivilegeLogin (items (r_AssignedPrivileges role)) /\
    view w1 InMemory = <[session_key tok := Text (marshal_Session (new_session id tok u role t))]> (view w InMemory) /\
    view w1 OnDisk = view w OnDisk.
Definition handed (r : Request) (tok id : string) : Request :=
  with_header "Session-ID" id (with_header X_Auth_Token tok (untrailed r)).

Lemma error_document_runs status st em (s : Gateway) wr :
  args_ok {| ea_StatusMessage := st; ea_ErrorMessage := em; ea_MessageArgs := [] |} -> w_sent wr = None ->
  exists wr', error_document status st em (s, wr) = (Ok tt, (s, wr')) /\ reply_status wr' = status.
Proof.
  intros Ha Hs. unfold error_document. destruct (@GeneralError_ok payload status st em [] Ha) as [e ->].
  eexists. split; [reflexivity|]. cbn. by rewrite Hs.
Qed.
Lemma login_grants w username password resp id w1 : StatusCode resp = StatusCreated ->
  create_session_post w (Gateway.login_body username password) (Ok (resp, id)) w1 ->
  exists tok, logged_in_as w username password tok id w1 /\ header_of (session_answer resp) X_Auth_Token = tok /\
    session_of_link (header_of (session_answer resp) "Link") = Ok id.
Proof.
  intros Hc [[_ Hl]|[Hn _]]; [|done].
  destruct Hl as (c & u & role & tok & t & Hu & _ & Huo & Hpw & Hr & Hin & [Hh Hid] & _ & _ & _ & Hw).
  apply login_body_cased in Hu as (Hn & Hp & _). rewrite Hn in Huo. rewrite Hp in Hpw. exists tok. split_and!.
  - exists u, role, t. by rewrite !(ev_view _ _ _ Hw), upd_eq, upd_ne by done.
  - unfold header_of. change (Header (session_answer resp)) with (Header resp). by rewrite Hh.
  - unfold header_of. change (Header (session_answer resp)) with (Header resp). rewrite Hh. by apply Split_uri_id.
Qed.

(** C29: whatever fails, a request with the header Authorization is handed on only if the header has
    the name and the password of an account whose role grants Login, and then with the token and the
    identifier of a session made for that account in the place of its own; else it is answered with
    an error, and nothing is called but a login. *)
Theorem WrapRouter_main_basic (r : Request) next (s : Gateway) :
  gw_good s -> uses_basic r = true ->
  match basic_credentials (authorization r) with
  | inl errorMessage => exists wr, WrapRouter_main r next (s, new_writer) = (Ok tt, (s, wr)) /\
      reply_status wr = StatusUnauthorized
  | inr (username, password) => exists s1, gw_good s1 /\
      rtc (on_behalf "") (session_world s) (session_world s1) /\
      ((exists tok id, logged_in_as (session_world s) username password tok id (session_world s1) /\
          WrapRouter_main r next (s, new_writer) = next (handed r tok id) (s1, new_writer)) \/
       (exists wr, WrapRouter_main r next (s, new_writer) = (Ok tt, (s1, wr)) /\
          In (reply_status wr) [StatusUnauthorized; StatusForbidden; StatusInternalServerError; StatusServiceUnavailable]))
  end.
Proof.
  intros Hg Hb. unfold WrapRouter_main. cbv zeta. fold (untrailed r). rewrite untrailed_header. fold (authorization r).
  unfold uses_basic in Hb. apply negb_true_iff in Hb. rewrite Hb.
  destruct (basic_credentials (authorization r)) as [em|[username password]].
  { by apply error_document_runs. }
  destruct (wp_elim _ _ _ (wp_login username password s Hg)) as (o & s1 & E & Hg1 & Hr & a & -> & Ha).
  exists s1. split_and!; [done|done|]. rewrite (bind_ok _ _ _ _ _ (call_ok _ _ _ _ _ E)).
  unfold login_answer in Ha. destruct a as [[x|] err]; cbn [fst snd nil_and_err] in Ha |- *.
  2:{ destruct Ha as [e ->]. right.
      edestruct (error_document_runs StatusInternalServerError InternalError) as (wr & -> & Hw'); [exact I|done|].
      exists wr. split; [done|]. rewrite Hw'. cbn. tauto. }
  destruct Ha as (resp & Hx & Hp & Hc). destruct x as [resp' id]. cbn [snd] in Hx, Hp, Hc. injection Hx as ->.
  erewrite bind_ok by reflexivity. cbv beta iota. change (StatusCode (session_answer resp)) with (StatusCode resp).
  change (StatusMessage (session_answer resp)) with (StatusMessage resp). destruct Hc as [Hc|Hc]; cbn [fst] in Hc.
  - left. destruct (login_grants _ _ _ _ _ _ Hc Hp) as (tok & Hl & Ht & Hlk). exists tok, id. split; [done|].
    rewrite Hc, Hlk, Ht. reflexivity.
  - right. destruct Hc as [[= <- <-]|[[= <- <-]|[[= <- <-]|[[= <- <-]|[]]]]]; cbn -[error_document].
    4:{ eexists. split; [reflexivity|]. cbn. tauto. }
    all: match goal with |- context [error_document ?c ?m ?e (?st, new_writer)] =>
      destruct (error_document_runs c m e st new_writer I eq_refl) as (wr & -> & Hw') end;
      exists wr; (split; [done|]); rewrite Hw'; cbn; tauto.
Qed.

(** ** A request from end to end *)

Lemma ServeHTTP_run r s o s' wr : WrapRouter_main r (fun r => WrapRouter_router r dispatch) (s, new_writer) = (o, (s', wr)) ->
  ServeHTTP r s = (match o with Ok _ => Ok wr | Panic => Panic end, s').
Proof. unfold ServeHTTP. by intros ->. Qed.
Lemma without_basic r next s : uses_basic r = false -> WrapRouter_main r next s = next (untrailed r) s.
Proof.
  unfold uses_basic. intros Hb%negb_false_iff. unfold WrapRouter_main. cbv zeta. fold (untrailed r).
  rewrite untrailed_header. fold (authorization r). by rewrite Hb.
Qed.
Lemma handed_token r tok id : request_token (handed r tok id) = tok.
Proof.
  unfold request_token, handed, header_Get, with_header, header_Set. cbn [ReqHeader].
  rewrite lookup_insert_ne by done. by rewrite lookup_insert_eq.
Qed.

(** C28: whatever commands and calls fail, an HTTP request leaves the databases well typed, with their
    roles and their administrator; it takes them along changes on behalf of nobody or of the valid
    session its token names; with Basic credentials the token is the one of a session made for the
    account they name, and without such an account there are only changes on behalf of nobody. *)
Theorem ServeHTTP_refines (r : Request) (s : Gateway) :
  gw_good s ->
  exists o s', ServeHTTP r s = (o, s') /\ gw_good s' /\
    if uses_basic r then
      rtc (on_behalf "") (session_world s) (session_world s') \/
      exists username password tok id w1, basic_credentials (authorization r) = inr (username, password) /\
        logged_in_as (session_world s) username password tok id w1 /\
        rtc (on_behalf "") (session_world s) w1 /\ rtc (on_behalf tok) w1 (session_world s')
    else rtc (on_behalf (request_token r)) (session_world s) (session_world s').
Proof.
  intros Hg. destruct (uses_basic r) eqn:Hb.
  - pose proof (WrapRouter_main_basic r (fun r => WrapRouter_router r dispatch) s Hg Hb) as Hm.
    destruct (basic_credentials (authorization r)) as [em|[username password]].
    { destruct Hm as (wr & E & _). rewrite (ServeHTTP_run _ _ _ _ _ E). eexists _, s. split_and!; [done|done|by left]. }
    destruct Hm as (s1 & Hg1 & Hr1 & [(tok & id & Hl & E)|(wr & E & _)]).
    2:{ rewrite (ServeHTTP_run _ _ _ _ _ E). eexists _, s1. split_and!; [done|done|by left]. }
    destruct (wp_elim _ _ _ (does_routed (handed r tok id) (s1, new_writer) Hg1)) as (o & [s2 wr] & E2 & Hg2 & Hr2 & _).
    rewrite handed_token in Hr2. rewrite E2 in E. rewrite (ServeHTTP_run _ _ _ _ _ E). eexists _, s2.
    split_and!; [done|done|]. right. by exists username, password, tok, id, (session_world s1).
  - destruct (wp_elim _ _ _ (does_routed (untrailed r) (s, new_writer) Hg)) as (o & [s2 wr] & E2 & Hg2 & Hr2 & _).
    rewrite <- (without_basic r (fun r => WrapRouter_router r dispatch)) in E2 by done.
    rewrite (ServeHTTP_run _ _ _ _ _ E2). eexists _, s2. split_and!; [done|done|].
    unfold request_token in *. by rewrite untrailed_header in Hr2.
Qed.

(** C31: whatever commands and calls fail, the handler of a request panics only on a route of the task
    service when no client of it can be made, or on the collection of registries when their directory
    cannot be read. *)
Theorem ServeHTTP_panics (r : Request) (s : Gateway) :
  gw_good s -> (ServeHTTP r s).1 = Panic ->
  exists rt, route_of (untrailed r) = Some rt /\
    ((HasPrefix (r_name rt) "ts." = true /\ exists e err, dial Tasks e = Some err) \/
     (r_name rt = "registryFile.GetRegistryFileCollection" /\ ReadDir RegistryStorePath = None)).
Proof.
  intros Hg. assert (Hbr : forall r' s1, gw_good s1 -> (WrapRouter_router r' dispatch (s1, new_writer)).1 = Panic -> breaks r').
  { intros r' s1 Hg1 E. destruct (wp_elim _ _ _ (does_routed r' (s1, new_writer) Hg1)) as (o & [s2 wr] & E2 & _ & _ & Ho).
    rewrite E2 in E. cbn [fst] in E. by subst o. }
  destruct (uses_basic r) eqn:Hb.
  - pose proof (WrapRouter_main_basic r (fun r => WrapRouter_router r dispatch) s Hg Hb) as Hm.
    destruct (basic_credentials (authorization r)) as [em|[username password]].
    { destruct Hm as (wr & E & _). by rewrite (ServeHTTP_run _ _ _ _ _ E). }
    destruct Hm as (s1 & Hg1 & Hr1 & [(tok & id & Hl & E)|(wr & E & _)]); [|by rewrite (ServeHTTP_run _ _ _ _ _ E)].
    specialize (Hbr (handed r tok id) s1 Hg1). rewrite <- E in Hbr.
    destruct (WrapRouter_main _ _ _) as [o [s2 wr]] eqn:E2. rewrite (ServeHTTP_run _ _ _ _ _ E2).
    destruct o; [done|]. intros _. by apply Hbr.
  - specialize (Hbr (untrailed r) s Hg). rewrite <- (without_basic r (fun r => WrapRouter_router r dispatch)) in Hbr by done.
    destruct (WrapRouter_main _ _ _) as [o [s2 wr]] eqn:E2. rewrite (ServeHTTP_run _ _ _ _ _ E2).
    destruct o; [done|]. intros _. by apply Hbr.
Qed.

(** ** The credentials *)

Lemma std_char_no_space n : Ascii.eqb (std_char n) " " = false.
Proof.
  assert (Hn : std_char n = std_char (Nat.min n 63)).
  { destruct (Nat.le_gt_cases n 63) as [Hl|Hl]; [by rewrite Nat.min_l|]. rewrite Nat.min_r by lia. unfold std_char.
    by repeat (match goal with |- context [(?a <? ?b)%nat] => destruct (Nat.ltb_spec a b); [lia|]
                          | |- context [(n =? ?b)%nat] => destruct (Nat.eqb_spec n b); [lia|] end). }
  rewrite Hn. assert (Ha : forallb (fun n => negb (Ascii.eqb (std_char n) " ")) (seq 0 64) = true) by (vm_compute; reflexivity).
  rewrite forallb_forall in Ha. apply negb_true_iff, Ha, in_seq. lia.
Qed.
Lemma Encode_no_space s : no_char " " (EncodeToString s) = true.
Proof.
  enough (forall n s, (String.length s <= n)%nat -> no_char " " (EncodeToString s) = true) as Hg by (by apply (Hg (String.length s))).
  clear s. induction n as [|n IH]; intros s Hs; [by destruct s; [|cbn in Hs; lia]|].
  destruct s as [|a [|b [|c s]]]; [done|..]; unfold no_char in *; cbn [EncodeToString string_forall];
    rewrite !std_char_no_space; cbn [negb andb]; [done..|]. apply IH. cbn in Hs. lia.
Qed.
Lemma cut_char a b c : no_char c a = true -> cut (a +:+ String c b) (String c "") = Some (a, b).
Proof.
  induction a as [|d a IH]; intros Hc.
  - change ("" +:+ String c b) with (String c b). cbn [cut]. rewrite prefix_char, Ascii.eqb_refl. by destruct b.
  - change (String d a +:+ String c b) with (String d (a +:+ String c b)). cbn [cut]. unfold no_char in Hc. cbn [string_forall] in Hc.
    apply andb_true_iff in Hc as [Hd Hc]. apply negb_true_iff in Hd. rewrite prefix_char, Hd. by rewrite IH.
Qed.

(** What a client sends as Basic credentials is read back: the user name up to the first colon, and
    the password, which may have colons itself. *)
Theorem basic_credentials_roundtrip username password :
  no_char ":" username = true ->
  basic_credentials ("Basic " +:+ EncodeToString (username +:+ ":" +:+ password)) = inr (username, password).
Proof.
  intros Hu. unfold basic_credentials. change (Contains ("Basic " +:+ ?x) "Basic") with true.
  change ("Basic " +:+ ?x) with ("Basic" +:+ String " " x). rewrite Split_char.
  rewrite (Split_none (EncodeToString _)) by apply Encode_no_space. cbn [app]. 
  change (Split "Basic" " ") with ["Basic"]. cbn [app]. rewrite Decode_Encode. unfold SplitN2.
  change (username +:+ ":" +:+ password) with (username +:+ String ":" password). by rewrite cut_char.
Qed.

(** ** The logs *)

Lemma set_key_only k v m x : In (k, x) (set_key k v m) -> x = v.
Proof.
  unfold set_key. rewrite in_app_iff. intros [Hin|[[= ->]|[]]]; [|done].
  apply list_elem_of_In, list_elem_of_filter in Hin as [Hk _]. by destruct Hk.
Qed.
Lemma maskRequestBody_masks b kvs v : maskRequestBody b = Some (JObj kvs) -> In ("Password", v) kvs -> v = JStr "null".
Proof.
  unfold maskRequestBody. destruct b as [[|kv m]|]; try done. intros [= <-] Hin.
  apply list_elem_of_In in Hin. rewrite merge_sort_Permutation in Hin. apply list_elem_of_In in Hin.
  by apply set_key_only in Hin.
Qed.
Lemma maskRequestBody_object b j : maskRequestBody b = Some j -> exists kvs, j = JObj kvs.
Proof. unfold maskRequestBody. destruct b as [[|kv m]|]; try done. intros [= <-]. by eexists. Qed.

(** The logs and the body that is kept for them are as they were. *)
Definition keeps_logs {A} (m : M Gateway A) : Prop := forall s, gw_log (m s).2 = gw_log s /\ gw_reqBody (m s).2 = gw_reqBody s.
Lemma keeps_logs_bind {A B} (m : M Gateway A) (k : A -> M Gateway B) :
  keeps_logs m -> (forall a, keeps_logs (k a)) -> keeps_logs (bind m k).
Proof.
  intros Hm Hk s. unfold bind. specialize (Hm s). destruct (m s) as [[a|] s']; [|done]. cbn [snd] in Hm.
  destruct Hm as [<- <-]. apply Hk.
Qed.
Lemma keeps_logs_ask_session text (m : IO asRPC) : keeps_logs (ask_session text m).
Proof.
  unfold ask_session, connected. apply keeps_logs_bind; [done|]. intros s. destruct (dial _ _); [done|].
  apply keeps_logs_bind; [|done]. apply keeps_logs_bind; [|intros r; unfold arrived; apply keeps_logs_bind; done].
  intros s'. unfold caught, in_session. by destruct (m (session_world s')) as [[a|] w].
Qed.

(** The last line of the log is the one of a request that ended in a state. *)
Definition audited (ctx : Context) (st : Gateway * Writer payload) : Prop :=
  exists l user role body, gw_log st.1 = (l ++ [AuditLine (Host (ctx_Request ctx)) user role (Method (ctx_Request ctx))
      (URI ctx) body (w_status st.2) (getResponseStatus (w_status st.2))])%list /\ gw_reqBody st.1 = Some [] /\
    forall j, body = Some j -> exists kvs, j = JObj kvs /\ forall v, In ("Password", v) kvs -> v = JStr "null".
Lemma Done_audits ctx st : gw_good st.1 -> wp (Done ctx) (fun o st' => o = Ok tt /\ audited ctx st') st.
Proof.
  destruct st as [s wr]. intros Hg. unfold Done, AuditLog. apply wp_bind, wp_bind, wp_get. cbn [wp_cont fst snd].
  destruct (wp_elim _ _ _ (does_getUserDetails (token ctx) False s Hg)) as (o & s1 & E & _ & _ & Ho).
  destruct o as [[user role]|]; [|done]. apply wp_bind, wp_intro. intros o st1 E1. rewrite (call_ok _ _ _ _ _ E) in E1.
  injection E1 as <- <-. cbn [wp_cont]. split; [done|]. cbn [fst snd]. eexists (gw_log s1), user, role, _.
  split_and!; [reflexivity|done|]. intros j Hj. destruct (maskRequestBody_object _ _ Hj) as [kvs ->]. exists kvs.
  split; [done|]. intros v. by apply (maskRequestBody_masks _ _ _ Hj).
Qed.
Lemma middleware_audited next ctx st : wp next (fun _ st' => audited ctx st') st ->
  wp (SessionDelMiddleware next ctx) (fun _ st' => audited ctx st') st.
Proof.
  intros Hn. unfold SessionDelMiddleware. apply wp_bind. eapply wp_mono; [exact Hn|]. intros [[]|] [s wr] Ha; [|done].
  cbn [wp_cont]. destruct (is_empty _); [by apply wp_ret|]. apply wp_bind, wp_intro. intros o st' E.
  destruct (rpc_DeleteSessionRequest (Header_Get ctx "Session-ID") (token ctx) s) as [o1 s1] eqn:E1.
  rewrite (call_ok _ _ _ _ _ E1) in E. injection E as <- <-.
  assert (Hk : keeps_logs (rpc_DeleteSessionRequest (Header_Get ctx "Session-ID") (token ctx))) by apply keeps_logs_ask_session.
  specialize (Hk s). rewrite E1 in Hk. cbn [snd] in Hk. destruct Hk as [Hl Hb].
  assert (audited ctx (s1, wr)) by (unfold audited in *; cbn [fst snd] in *; by rewrite Hl, Hb).
  by destruct o1; cbn [wp_cont]; [apply wp_ret|].
Qed.

(** However the handler of a request ends, a panic included, its request ends with one line in the
    audit log that has its method, its URI, the status of the answer and whether that is a success, and
    the body without what was given as Password; and the body that was kept is dropped. *)
Theorem run_route_audited rt ctx s wr :
  gw_good s -> In rt routes ->
  exists o st, run_route rt ctx (s, wr) = (o, st) /\ audited ctx st.
Proof.
  intros Hg Hin. enough (wp (run_route rt ctx) (fun _ st => audited ctx st) (s, wr)) as Hw.
  { destruct (wp_elim _ _ _ Hw) as (o & st & E & Ha). by exists o, st. }
  unfold run_route. induction (r_middlewares rt) as [|n IH].
  - cbv [Nat.iter nat_rect]. pose proof routes_panic as Hrs. unfold panics_only in Hrs. rewrite List.Forall_forall in Hrs.
    pose proof (Hrs rt Hin ctx (s, wr) Hg) as Hh. unfold wp, deferring in *. destruct (r_handler rt ctx (s, wr)) as [o st1].
    cbn [fst snd] in Hh. destruct Hh as (Hg1 & _ & _). destruct (wp_elim _ _ _ (Done_audits ctx st1 Hg1)) as (o2 & st2 & E & -> & Ha).
    by rewrite E.
  - rewrite Nat.iter_succ. by apply middleware_audited.
Qed.
End props.
