(* ===== verification/GatewayGuard.v ===== *)
(** Requests without a token: which handlers refuse them before anything is called.

    [refused] is what a handler does that refuses; the tactic [guard_go] runs the handlers of the
    routes up to their check of the token. *)
From stdpp Require Import base gmap list strings.
From S2P Require Import Prelude Go GoTime GoText Response ResponseProps Redis World DBSpec AsModel AsSpec Auth Session Rpc Services System THandle Http Proto HandleAccess HandleResources HandleServices HandleFixed GatewayRpc Router Gateway GatewaySpec GatewayProps.
Open Scope string_scope.

Section guard.
Context `{EnvLaws, Libs, SingleNode, !Peers, !PeersLaws, !Discovery, !RegistryStore, !Routing, !UrlForms}.
Local Abbreviation HM := (M (Gateway * Writer payload) unit).

(** Nothing is called, and the answer is an error. *)
Definition refusals : list Z := [StatusBadRequest; StatusUnauthorized; StatusMethodNotAllowed].
Definition refused (m : HM) : Prop := forall s wr, w_sent wr = None ->
  exists wr' code hd, m (s, wr) = (Ok tt, (s, wr')) /\ w_sent wr' = Some (code, hd) /\ In code refusals.
(** Nothing is called, and nothing has gone out. *)
Definition quiet {A} (m : M (Gateway * Writer payload) A) : Prop := forall s wr, w_sent wr = None ->
  exists a wr', m (s, wr) = (Ok a, (s, wr')) /\ w_sent wr' = None.

Lemma refused_seq {A} (m : M (Gateway * Writer payload) A) k : quiet m -> (forall a, refused (k a)) -> refused (bind m k).
Proof. intros Hm Hk s wr Hs. destruct (Hm s wr Hs) as (a & wr1 & E & Hs1). rewrite (bind_ok _ _ _ _ _ E). by apply Hk. Qed.
Lemma quiet_on_writer f : (forall wr, w_sent (f wr) = w_sent wr) -> quiet (on_writer f).
Proof. intros Hf s wr Hs. eexists _, _. split; [reflexivity|]. cbn [snd]. by rewrite Hf. Qed.
Lemma quiet_SetHeader k v : quiet (SetHeader k v).
Proof. by apply quiet_on_writer. Qed.
Lemma quiet_ret {A} (a : A) : quiet (ret a).
Proof. intros s wr Hs. by eexists _, _. Qed.
Lemma quiet_SetAllow allow : quiet (SetAllow allow).
Proof. destruct allow; [apply quiet_SetHeader|apply quiet_ret]. Qed.
Lemma refused_answer code hdr c : In code refusals -> refused (SetResponseHeader hdr ;;; SetStatus code ;;; Write c).
Proof. intros Hc s wr Hs. eexists _, code, _. split; [reflexivity|]. split; [|done]. cbn. by rewrite Hs. Qed.
Lemma refused_bare code c : In code refusals -> refused (SetStatus code ;;; Write c).
Proof. intros Hc s wr Hs. eexists _, code, _. split; [reflexivity|]. split; [|done]. cbn. by rewrite Hs. Qed.
(** Headers that are set after the answer are lost. *)
Lemma refused_after m l : refused m -> refused (m ;;; SetResponseHeader l).
Proof.
  intros Hm s wr Hs. destruct (Hm s wr Hs) as (wr' & code & hd & E & Hw & Hc). rewrite (bind_ok _ _ _ _ _ E).
  eexists _, code, hd. split; [reflexivity|]. by split.
Qed.
Lemma refused_error code st em (k : RPC payload -> HM) :
  args_ok {| ea_StatusMessage := st; ea_ErrorMessage := em; ea_MessageArgs := [] |} ->
  (forall r, refused (k r)) -> refused (let! r := lift (GeneralError code st em []) in k r).
Proof. intros Ha Hk. destruct (@GeneralError_ok payload code st em [] Ha) as [e ->]. apply refused_seq; [|done]. intros s wr Hs. by eexists _, _. Qed.
Lemma refused_fail code st em :
  args_ok {| ea_StatusMessage := st; ea_ErrorMessage := em; ea_MessageArgs := [] |} -> In code refusals ->
  refused (fail code st em).
Proof. intros Ha Hc. apply refused_error; [done|]. intros r. by apply refused_answer. Qed.
Lemma refused_fail_bare code st em :
  args_ok {| ea_StatusMessage := st; ea_ErrorMessage := em; ea_MessageArgs := [] |} -> In code refusals ->
  refused (fail_bare code st em).
Proof. intros Ha Hc. apply refused_error; [done|]. intros r. by apply refused_bare. Qed.
Lemma refused_unauthorized em : refused (unauthorized em).
Proof. apply refused_fail; [done|]. cbn. tauto. Qed.
Lemma refused_malformed em : refused (malformed em).
Proof. apply refused_fail; [done|]. cbn. tauto. Qed.
Lemma refused_method ctx : refused (fillMethodNotAllowedErrorResponse ctx).
Proof.
  unfold fillMethodNotAllowedErrorResponse, CreateGenericErrorResponse.
  pose proof (extendedInfos_post (ErrorArgs (errorArgs1 ActionNotSupported "" [IString (Method (ctx_Request ctx))]))) as He.
  destruct (extendedInfos _) as [ms|]; [|destruct He; by repeat constructor].
  intros s wr Hs. eexists _, StatusMethodNotAllowed, _. split; [reflexivity|]. cbn. rewrite Hs. split; [done|tauto].
Qed.

(** ** The handlers *)

(** The handlers that do not look at the token, or not before they call. *)
Definition open_handlers : list string :=
  ["ts.GetTaskMonitor"; "ts.GetTaskService"; "ts.GetTaskStatus"; "ts.GetSubTasks"; "ts.GetSubTask"; "ts.DeleteTask";
   "handle.GetVersion"; "serviceRoot.GetServiceRoot"; "handle.GetOdata"; "handle.GetMetadata";
   "s.GetSessionService"; "s.GetAllActiveSessions"; "s.GetSession"; "s.CreateSession";
   "cha.CreateChassis"; "cha.UpdateChassis"; "cha.DeleteChassis"; "cha.UpdateChassisResource"].
Definition guarded (rt : route) : Prop :=
  In (r_name rt) open_handlers \/ forall ctx, token ctx = "" -> refused (r_handler rt ctx).
Lemma refused_authorized ctx k : token ctx = "" -> refused (authorized registryFile ctx k).
Proof. intros Ht. unfold authorized. rewrite Ht. apply refused_unauthorized. Qed.
Lemma quiet_registry_id ctx : quiet (registry_id ctx).
Proof.
  intros s wr Hs. unfold registry_id. destruct (HasPrefix _ _); [|by eexists _, _].
  destruct (split_index (URI ctx) "/" 0) as [a Ha], (split_index (URI ctx) "/" 1) as [b Hb].
  destruct (HasSuffix _ _); [exists b|exists a]; exists wr; unfold lift; by rewrite ?Ha, ?Hb.
Qed.
Lemma refused_registry_file ctx : token ctx = "" -> refused (GetMessageRegistryFile in_own registryFile ctx).
Proof.
  intros Ht. unfold GetMessageRegistryFile. apply refused_seq; [apply quiet_registry_id|]. intros id.
  by apply refused_authorized.
Qed.
Ltac head t := lazymatch t with ?f _ => head f | _ => t end.
Ltac guard_step Ht := rewrite ?Ht; cbv zeta; cbn [is_empty String.eqb]; lazymatch goal with
  | |- refused (unauthorized _) => apply refused_unauthorized
  | |- refused (malformed _) => apply refused_malformed
  | |- refused (fillMethodNotAllowedErrorResponse _) => apply refused_method
  | |- refused (fail_bare _ _ _) => apply refused_fail_bare; [exact I|cbn; tauto]
  | |- refused (fail_bare _ _ _ ;;; SetResponseHeader _) => apply refused_after
  | |- refused (SetResponseHeader _ ;;; SetStatus _ ;;; Write _) => apply refused_answer; cbn; tauto
  | |- refused (bind (lift (GeneralError _ _ _ _)) _) => apply refused_error; [exact I|intros ?]
  | |- refused (authorized _ _ _) => by apply refused_authorized
  | |- refused (GetMessageRegistryFile _ _ _) => by apply refused_registry_file
  | |- refused (bind (registry_id _) _) => apply refused_seq; [apply quiet_registry_id|intros ?]
  | |- refused (bind (SetAllow _) _) => apply refused_seq; [apply quiet_SetAllow|intros ?]
  | |- refused (bind (SetHeader _ _) _) => apply refused_seq; [apply quiet_SetHeader|intros ?]
  | |- refused (bind (if ?b then _ else _) _) =>
      apply refused_seq; [destruct b; first [apply quiet_SetHeader|apply quiet_ret]|intros ?]
  | |- refused (match ?x with _ => _ end) => destruct x
  end.
Ltac guard_route :=
  lazymatch goal with |- guarded ?rt => first
    [ left; cbn; tauto
    | let h := eval cbv [r_handler Get Post Put Patch Delete Any register] in (r_handler rt) in
      right; change (forall ctx, token ctx = "" -> refused (h ctx));
      let f := head h in unfold f; let ctx := fresh "ctx" in let Ht := fresh "Ht" in
      intros ctx Ht; repeat (guard_step Ht) ]
  end.
Ltac guard_routes := lazymatch goal with |- Forall _ ?l => let f := head l in unfold f end;
  repeat (apply Forall_cons; split; [solve [guard_route]|]); apply Forall_nil_2.
Lemma guarded_taskmonRoutes : Forall guarded taskmonRoutes.
Proof. guard_routes. Qed.
Lemma guarded_redfishRoutes : Forall guarded redfishRoutes.
Proof. guard_routes. Qed.
Lemma guarded_v1Routes : Forall guarded v1Routes.
Proof. guard_routes. Qed.
Lemma guarded_registryRoutes : Forall guarded registryRoutes.
Proof. guard_routes. Qed.
Lemma guarded_sessionRoutes : Forall guarded sessionRoutes.
Proof. guard_routes. Qed.
Lemma guarded_accountRoutes : Forall guarded accountRoutes.
Proof. guard_routes. Qed.
Lemma guarded_roleRoutes : Forall guarded roleRoutes.
Proof. guard_routes. Qed.
Lemma guarded_taskRoutes : Forall guarded taskRoutes.
Proof. guard_routes. Qed.
Lemma guarded_systemsRoutes : Forall guarded systemsRoutes.
Proof. guard_routes. Qed.
Lemma guarded_storageRoutes : Forall guarded storageRoutes.
Proof. guard_routes. Qed.
Lemma guarded_systemsActionRoutes : Forall guarded systemsActionRoutes.
Proof. guard_routes. Qed.
Lemma guarded_aggregationRoutes : Forall guarded aggregationRoutes.
Proof. guard_routes. Qed.
Lemma guarded_aggregationSourceRoutes : Forall guarded aggregationSourceRoutes.
Proof. guard_routes. Qed.
Lemma guarded_connectionMethodsRoutes : Forall guarded connectionMethodsRoutes.
Proof. guard_routes. Qed.
Lemma guarded_aggregatesRoutes : Forall guarded aggregatesRoutes.
Proof. guard_routes. Qed.
Lemma guarded_chassisRoutes : Forall guarded chassisRoutes.
Proof. guard_routes. Qed.
Lemma guarded_chassisPowerRoutes : Forall guarded chassisPowerRoutes.
Proof. guard_routes. Qed.
Lemma guarded_chassisThermalRoutes : Forall guarded chassisThermalRoutes.
Proof. guard_routes. Qed.
Lemma guarded_eventsRoutes : Forall guarded eventsRoutes.
Proof. guard_routes. Qed.
Lemma guarded_fabricsRoutes : Forall guarded fabricsRoutes.
Proof. guard_routes. Qed.
Lemma guarded_managersRoutes : Forall guarded managersRoutes.
Proof. guard_routes. Qed.
Lemma guarded_updateServiceRoutes : Forall guarded updateServiceRoutes.
Proof. guard_routes. Qed.
Lemma guarded_telemetryServiceRoutes : Forall guarded telemetryServiceRoutes.
Proof. guard_routes. Qed.
Lemma guarded_compositionServiceRoutes : Forall guarded compositionServiceRoutes.
Proof. guard_routes. Qed.
Lemma routes_guarded : Forall guarded routes.
Proof.
  unfold routes. rewrite !Forall_app. split_and!;
    first [exact guarded_taskmonRoutes | exact guarded_redfishRoutes | exact guarded_v1Routes | exact guarded_registryRoutes | exact guarded_sessionRoutes | exact guarded_accountRoutes | exact guarded_roleRoutes | exact guarded_taskRoutes | exact guarded_systemsRoutes | exact guarded_storageRoutes | exact guarded_systemsActionRoutes | exact guarded_aggregationRoutes | exact guarded_aggregationSourceRoutes | exact guarded_connectionMethodsRoutes | exact guarded_aggregatesRoutes | exact guarded_chassisRoutes | exact guarded_chassisPowerRoutes | exact guarded_chassisThermalRoutes | exact guarded_eventsRoutes | exact guarded_fabricsRoutes | exact guarded_managersRoutes | exact guarded_updateServiceRoutes | exact guarded_telemetryServiceRoutes | exact guarded_compositionServiceRoutes].
Qed.

(** ** A request without a token *)

(** The state of every service is as it was. *)
Definition untouched (s s' : Gateway) : Prop :=
  gw_own s' = gw_own s /\ gw_session s' = gw_session s /\ gw_rest s' = gw_rest s.
Definition answers_with (codes : list Z) (m : HM) : Prop := forall s, exists s' wr,
  m (s, new_writer) = (Ok tt, (s', wr)) /\ untouched s s' /\ In (reply_status wr) codes.

Lemma untouched_log l s : untouched s (add_log l s).
Proof. done. Qed.
Lemma AuditLog_untouched ctx s wr : token ctx = "" ->
  exists s', Done ctx (s, wr) = (Ok tt, (s', wr)) /\ untouched s s'.
Proof. intros Ht. unfold Done, AuditLog, getUserDetails. rewrite Ht. eexists. split; [reflexivity|done]. Qed.
Lemma run_route_refuses rt ctx : token ctx = "" -> Header_Get ctx "Session-ID" = "" -> refused (r_handler rt ctx) ->
  answers_with refusals (run_route rt ctx).
Proof.
  intros Ht Hsid Hr s. destruct (Hr s new_writer eq_refl) as (wr & code & hd & E & Hw & Hc).
  destruct (AuditLog_untouched ctx s wr Ht) as (s' & Ed & Hu). exists s', wr. split; [|split; [done|]].
  - unfold run_route. induction (r_middlewares rt) as [|n IH].
    + cbv [Nat.iter nat_rect]. unfold deferring. by rewrite E, Ed.
    + rewrite Nat.iter_succ. unfold SessionDelMiddleware at 1. rewrite (bind_ok _ _ _ _ _ IH). cbv zeta. by rewrite Hsid.
  - unfold reply_status. by rewrite Hw.
Qed.

(** C30: a request without a token, without Basic credentials and without the header Session-ID, for a
    route whose handler is not one of the open ones, is answered 400, 401, 404 or 405, and no service
    and no database is asked for anything; with a URI that does not parse the answer is empty. *)
Theorem no_token_no_call (r : Request) (s : Gateway) :
  request_token r = "" -> uses_basic r = false -> header_Get (ReqHeader r) "Session-ID" = "" ->
  (forall rt, route_of (untrailed r) = Some rt -> ~ In (r_name rt) open_handlers) ->
  exists wr s', ServeHTTP r s = (Ok wr, s') /\ untouched s s' /\
    match url_Parse (RequestURI (untrailed r)) with
    | Some _ => In (reply_status wr) [StatusBadRequest; StatusUnauthorized; StatusNotFound; StatusMethodNotAllowed]
    | None => wr = new_writer
    end.
Proof.
  intros Ht Hb Hsid Hopen.
  enough (exists s' wr, WrapRouter_router (untrailed r) dispatch (s, new_writer) = (Ok tt, (s', wr)) /\ untouched s s' /\
    match url_Parse (RequestURI (untrailed r)) with
    | Some _ => In (reply_status wr) [StatusBadRequest; StatusUnauthorized; StatusNotFound; StatusMethodNotAllowed]
    | None => wr = new_writer
    end) as (s' & wr & E & Hu & Hw).
  { rewrite <- (without_basic r (fun r => WrapRouter_router r dispatch)) in E by done.
    exists wr, s'. split; [exact (ServeHTTP_run _ _ _ _ _ E)|by split]. }
  unfold request_token in Ht. rewrite <- (untrailed_header r) in Ht, Hsid. revert Ht Hsid Hopen. generalize (untrailed r).
  clear r Hb. intros r Ht Hsid Hopen. unfold WrapRouter_router, route_of in *.
  destruct (url_Parse (RequestURI r)) as [[escaped path]|]; [|by exists s, new_writer]. cbv zeta.
  cbn [ReqHeader URLPath ReqBody with_uri]. set (r' := with_uri _ path r).
  enough (forall s, exists s' wr, dispatch r' (s, new_writer) = (Ok tt, (s', wr)) /\ untouched s s' /\
    In (reply_status wr) [StatusBadRequest; StatusUnauthorized; StatusNotFound; StatusMethodNotAllowed]) as Hd.
  { assert (Hl : forall m : HM, (exists l, m (s, new_writer) = (Ok tt, (l s, new_writer)) /\ forall x, untouched x (l x)) ->
      exists s' wr, (m ;;; call (modify (fun s => with_reqBody (merge_body (ReqBody r) (gw_reqBody s)) s)) ;;; dispatch r') (s, new_writer)
        = (Ok tt, (s', wr)) /\ untouched s s' /\ In (reply_status wr) [StatusBadRequest; StatusUnauthorized; StatusNotFound; StatusMethodNotAllowed]).
    { intros m (l & E & Hlu). rewrite (bind_ok _ _ _ _ _ E). erewrite bind_ok by reflexivity.
      match goal with |- context [dispatch r' (?s1, _)] => destruct (Hd s1) as (s' & wr & E' & Hu & Hw) end.
      exists s', wr. split; [exact E'|split; [|done]]. destruct (Hlu s) as (? & ? & ?), Hu as (? & ? & ?).
      unfold untouched. cbn in *. split_and!; congruence. }
    apply Hl. destruct (_ && _); [|by exists (fun x => x)]. eexists (fun x => add_log _ x). split; [reflexivity|done]. }
  clear s. intros s. unfold dispatch. change (Method r') with (Method r). change (URLPath r') with path.
  destruct (find_route _ _ _) as [[i params]|]; [|eexists s, _; split; [reflexivity|split; [done|cbn; tauto]]].
  destruct (routes !! i) as [rt|] eqn:Er; [|eexists s, _; split; [reflexivity|split; [done|cbn; tauto]]].
  pose proof routes_guarded as Hg. rewrite Forall_lookup in Hg. destruct (Hg i rt Er) as [Ho|Hr]; [by apply Hopen in Ho|].
  set (ctx := mkContext r' params). assert (Hct : token ctx = "") by exact Ht.
  destruct (run_route_refuses rt ctx Hct Hsid (Hr ctx Hct) s) as (s' & wr & E & Hu & Hw).
  exists s', wr. split; [done|split; [done|]]. unfold refusals in Hw. cbn in Hw |- *. tauto.
Qed.
End guard.
