(* ===== verification/GatewayScenario.v ===== *)
(** Requests to a concrete gateway: the account-session service of [Scenario], other services that check
    the token they are sent and answer, and a router that compares paths with patterns.  The properties
    of the gateway at concrete inputs, and the behaviours that are findings. *)
From stdpp Require Import base gmap list strings relations.
From Stdlib Require Import Ascii.
From S2P Require Import Prelude Go GoTime GoCodec GoText Response Redis World ConnPool DBSpec AsModel AsSpec Auth AuthProps Session SessionSpec Rpc Services System SystemProps Scenario THandle Http Proto HandleFixed GatewayRpc Router Gateway GatewaySpec GatewayProps GatewayGuard.
Open Scope string_scope.

(** ** The instances *)

#[local] Existing Instances single single_node.

(** Whether a service can be reached is a parameter. *)
Definition peers (reach : string -> bool) : Peers := {|
  dial := fun service _ => if reach service then None else Some "no address";
  broken := fun _ _ => None;
  worded := fun err => "rpc error: code = Unknown desc = " +:+ err;
  lost := "EOF";
  rest := nat;
  remote := fun service method m w n =>
    let status := match (Rpc.IsAuthorized (message_token m) [PrivilegeLogin] w).1 with Ok (code, _) => code | Panic => 500%Z end in
    ([Authorize (message_token m) [PrivilegeLogin]],
     mkRPC status Success [("Link", service)] (Body (OfService method)), S n);
|}.
Lemma peers_laws reach : @PeersLaws _ (peers reach).
Proof. split. intros service method req w x rs resp x' [= <- _ _]. repeat constructor. Qed.
#[local] Instance discovery : Discovery := {| etcd_connects := fun _ => true; registered := fun _ _ => true |}.
Definition registries_at (dir : option (list string)) : RegistryStore := {|
  RootServiceUUID := "uuid"; RegistryStorePath := "/etc/registries"; ReadDir := fun _ => dir; ReadFile := fun _ => None |}.
#[local] Instance no_forms : UrlForms := {| parse_other := fun _ => None |}.

(** The parts of a path, and a pattern with its parameters. *)
Fixpoint match_parts (pattern parts : list string) : option (list (string * string)) :=
  match pattern, parts with
  | [], [] => Some []
  | p :: pattern, x :: parts =>
      match match_parts pattern parts with
      | Some params =>
          if HasPrefix p "{" then Some ((TrimSuffix (TrimPrefix p "{") "}", x) :: params)
          else if String.eqb p x then Some params else None
      | None => None
      end
  | _, _ => None
  end.
Definition parts (path : string) : list string := Split (TrimSuffix path "/") "/".
Fixpoint find_from (n : nat) (table : list (list string * string)) (method : string) (path : list string)
  : option (nat * list (string * string)) :=
  match table with
  | [] => None
  | (methods, pattern) :: table =>
      match (if existsb (String.eqb method) methods then match_parts (parts pattern) path else None) with
      | Some params => Some (n, params)
      | None => find_from (S n) table method path
      end
  end.
#[local] Instance routing : Routing := {| find_route := fun table m path => find_from 0 table m (parts path) |}.

Section runs.
Context (reach : string -> bool) (dir : option (list string)).
#[local] Instance the_peers : Peers := peers reach.
#[local] Instance the_peers_laws : PeersLaws := peers_laws reach.
#[local] Instance the_registries_at : RegistryStore := registries_at dir.

Definition the_gateway : Gateway := mkGateway (service minute []) (service minute []) O None [].
Lemma the_gateway_good : gw_good the_gateway.
Proof. split; [|apply service_wf]. exact (service_good minute []). Qed.

Definition a_request (method path : string) (hdr : list (string * string)) (b : jtext) : Request :=
  mkRequest method "odim" path path (fold_right (fun kv h => header_Set kv.1 kv.2 h) ∅ hdr) b.
Definition basic (username password : string) : string * string :=
  ("Authorization", "Basic " +:+ EncodeToString (username +:+ ":" +:+ password)).

(** The status of the answer, how many calls other services got, and how many sessions there are. *)
Definition seen (r : Request) : option Z * nat * nat :=
  let (o, s) := ServeHTTP r the_gateway in
  (match o with Ok wr => Some (reply_status wr) | Panic => None end, gw_rest s, size (view (session_world s) InMemory)).
End runs.
Definition up : string -> bool := fun _ => true.
Definition no_dir : option (list string) := None.
Definition some_dir : option (list string) := Some ["Base.1.11.0.json"].

(** ** Examples *)

Definition admin_basic : string * string := basic "admin" "Od!m12$4".
Definition with_token (tok : string) : list (string * string) := [("X-Auth-Token", tok)].
(** Without a token nothing is called; with one the service is called and decides. *)
Example guarded_request :
  seen up some_dir (a_request "GET" "/redfish/v1/Systems" [] empty_text) = (Some 401%Z, 0%nat, 3%nat) /\
  seen up some_dir (a_request "GET" "/redfish/v1/Systems/" (with_token "tok-alice") empty_text) = (Some 200%Z, 1%nat, 3%nat) /\
  seen up some_dir (a_request "GET" "/redfish/v1/Systems" (with_token "tok-none") empty_text) = (Some 401%Z, 1%nat, 3%nat) /\
  seen up some_dir (a_request "PUT" "/redfish/v1/Systems" (with_token "tok-alice") empty_text) = (Some 405%Z, 0%nat, 3%nat) /\
  seen up some_dir (a_request "GET" "/redfish/v1/Nothing" (with_token "tok-alice") empty_text) = (Some 404%Z, 0%nat, 3%nat).
Proof. vm_compute. auto. Qed.
(** The session made for Basic credentials is deleted by the middleware of the route. *)
Example basic_request :
  seen up some_dir (a_request "GET" "/redfish/v1/Systems" [admin_basic] empty_text) = (Some 200%Z, 1%nat, 3%nat) /\
  seen up some_dir (a_request "GET" "/redfish/v1/Systems" [basic "admin" "wrong"] empty_text) = (Some 401%Z, 0%nat, 3%nat).
Proof. vm_compute. auto. Qed.
(** A route without the middleware leaves it. *)
Example basic_leaves_session :
  seen up some_dir (a_request "GET" "/redfish/v1/Registries" [admin_basic] empty_text) = (Some 200%Z, 0%nat, 4%nat) /\
  seen up some_dir (a_request "GET" "/redfish/v1/odata" [admin_basic] empty_text) = (Some 200%Z, 0%nat, 4%nat).
Proof. vm_compute. auto. Qed.
(** The header Session-ID of a client is taken for the one of the gateway: the session is deleted. *)
Example session_id_logs_out :
  seen up some_dir (a_request "GET" "/redfish/v1/Systems" (("Session-ID", "id-admin") :: with_token "tok-admin") empty_text)
    = (Some 200%Z, 1%nat, 2%nat).
Proof. vm_compute. auto. Qed.
(** The handlers that panic, and no others ([ServeHTTP_panics]). *)
Example handlers_that_panic :
  seen (fun _ => false) some_dir (a_request "GET" "/redfish/v1/TaskService/Tasks" (with_token "tok-admin") empty_text)
    = (None, 0%nat, 3%nat) /\
  seen up None (a_request "GET" "/redfish/v1/Registries" (with_token "tok-admin") empty_text) = (None, 0%nat, 3%nat).
Proof. vm_compute. auto. Qed.

(** ** The properties at concrete inputs *)

Section witnesses.
#[local] Instance up_peers : Peers := peers up.
#[local] Instance up_laws : PeersLaws := peers_laws up.
#[local] Instance some_registries : RegistryStore := registries_at some_dir.

Lemma ServeHTTP_refines_witness : exists o s',
  ServeHTTP (a_request "GET" "/redfish/v1/Systems" (with_token "tok-alice") empty_text) (the_gateway up) = (o, s') /\
  rtc (on_behalf "tok-alice") (session_world (the_gateway up)) (session_world s').
Proof.
  destruct (ServeHTTP_refines (a_request "GET" "/redfish/v1/Systems" (with_token "tok-alice") empty_text) (the_gateway up)
    (the_gateway_good up)) as (o & s' & E & _ & Hr).
  exists o, s'. split; [exact E|exact Hr].
Defined.

Lemma WrapRouter_main_basic_witness : exists wr,
  WrapRouter_main (a_request "GET" "/redfish/v1/Systems" [("Authorization", "Bearer x")] empty_text)
    (fun r => WrapRouter_router r dispatch) (the_gateway up, new_writer) = (Ok tt, (the_gateway up, wr)) /\
  reply_status wr = StatusUnauthorized.
Proof.
  exact (WrapRouter_main_basic (a_request "GET" "/redfish/v1/Systems" [("Authorization", "Bearer x")] empty_text)
    (fun r => WrapRouter_router r dispatch) (the_gateway up) (the_gateway_good up) eq_refl).
Defined.

Lemma no_token_no_call_witness : exists wr s',
  ServeHTTP (a_request "GET" "/redfish/v1/Systems" [] empty_text) (the_gateway up) = (Ok wr, s') /\
  untouched (the_gateway up) s' /\
  In (reply_status wr) [StatusBadRequest; StatusUnauthorized; StatusNotFound; StatusMethodNotAllowed].
Proof.
  apply (no_token_no_call (a_request "GET" "/redfish/v1/Systems" [] empty_text) (the_gateway up));
    [reflexivity|reflexivity|reflexivity|].
  intros rt Hrt. assert (E : option_map r_name (Some rt) = Some "system.GetSystemsCollection")
    by (rewrite <- Hrt; vm_compute; reflexivity).
  injection E as ->. cbn. intuition discriminate.
Defined.

Lemma basic_credentials_roundtrip_witness :
  basic_credentials ("Basic " +:+ EncodeToString ("admin" +:+ ":" +:+ "a:b")) = inr ("admin", "a:b").
Proof. exact (basic_credentials_roundtrip "admin" "a:b" eq_refl). Defined.

Lemma run_route_audited_witness : exists rt ctx o st,
  r_name rt = "ts.GetTaskMonitor" /\ run_route rt ctx (the_gateway up, new_writer) = (o, st) /\ audited ctx st.
Proof.
  destruct routes as [|rt rts] eqn:E; [discriminate E|]. set (ctx := mkContext (a_request "GET" "/taskmon/task1" [] empty_text) []).
  destruct (run_route_audited rt ctx (the_gateway up) new_writer (the_gateway_good up)) as (o & st & E2 & Ha);
    [rewrite E; left; reflexivity|].
  exists rt, ctx, o, st. split; [injection E as <- _; reflexivity|split; [exact E2|exact Ha]].
Defined.
End witnesses.

Section panics.
#[local] Instance down_peers : Peers := peers (fun _ => false).
#[local] Instance down_laws : PeersLaws := peers_laws (fun _ => false).
#[local] Instance some_registries_too : RegistryStore := registries_at some_dir.
Lemma ServeHTTP_panics_witness : exists rt,
  route_of (untrailed (a_request "GET" "/taskmon/task1" [] empty_text)) = Some rt /\
  (HasPrefix (r_name rt) "ts." = true \/ r_name rt = "registryFile.GetRegistryFileCollection").
Proof.
  destruct (ServeHTTP_panics (a_request "GET" "/taskmon/task1" [] empty_text) (the_gateway _) (the_gateway_good _))
    as (rt & Hrt & Hp); [vm_compute; reflexivity|].
  exists rt. split; [exact Hrt|]. destruct Hp as [[Hp _]|[Hp _]]; [left; exact Hp|right; exact Hp].
Defined.
End panics.
