(* ===== verification/Frame.v ===== *)
(** Frames: programs that leave given sorted sets as they are.  [keeps P m] says so of the program
    [m] and the sets whose places, an address and a name, satisfy [P]; the tactic [keeps_go] walks
    through a program with the lemmas of the hint database [keeps]. *)
From stdpp Require Import base gmap list strings.
From Stdlib Require Import Ascii.
From S2P Require Import Prelude Go GoTime Response Redis World ConnPool DBSpec RedisIndex.
Open Scope string_scope.

Section frame.
Context `{IndexLaws, SingleNode}.
Context (P : addr * string -> Prop).

(** The sets stay as they are, and their scans take no longer. *)
Definition kept (e e' : env) : Prop := forall x, P x -> same_zset zsets pages_left x.1 x.2 e e'.
Definition keeps {A} (m : IO A) : Prop := forall w, kept (w_env w) (w_env (m w).2).

Lemma kept_refl e : kept e e.
Proof. intros x _. by split. Qed.
Lemma kept_trans e1 e2 e3 : kept e1 e2 -> kept e2 e3 -> kept e1 e3.
Proof. intros Ha Hb x Hx. destruct (Ha x Hx), (Hb x Hx). split; [congruence|lia]. Qed.
Lemma wp_keeps {A} (m : IO A) Q w : keeps m -> wp m Q w ->
  wp m (fun o w' => Q o w' /\ kept (w_env w) (w_env w')) w.
Proof. intros Hm HQ. by split. Qed.

Lemma keeps_ret {A} (a : A) : keeps (ret a).
Proof. intros w. apply kept_refl. Qed.
Lemma keeps_panic {A} : keeps (A := A) panic.
Proof. intros w. apply kept_refl. Qed.
Lemma keeps_lift {A} (o : outcome A) : keeps (lift o).
Proof. intros w. apply kept_refl. Qed.
Lemma keeps_get : keeps get.
Proof. intros w. apply kept_refl. Qed.
Lemma keeps_modify f : (forall w, w_env (f w) = w_env w) -> keeps (modify f).
Proof. intros Hf w. cbn. rewrite Hf. apply kept_refl. Qed.
Lemma keeps_bind {A B} (m : IO A) (k : A -> IO B) : keeps m -> (forall a, keeps (k a)) -> keeps (bind m k).
Proof.
  intros Hm Hk w. unfold bind. pose proof (Hm w) as Hw. destruct (m w) as [[a|] w1]; [|done].
  eapply kept_trans; [exact Hw|apply Hk].
Qed.
Lemma keeps_loopM {A L R} (l : list A) (acc : L) (f : L -> A -> IO (R + L)) :
  (forall acc a, keeps (f acc a)) -> keeps (loopM l acc f).
Proof.
  intros Hf. revert acc. induction l as [|a l IH]; intros acc; cbn [loopM]; [apply keeps_ret|].
  apply keeps_bind; [done|]. intros [r|acc']; [apply keeps_ret|apply IH].
Qed.

Lemma keeps_in_env {A} (f : env -> A * env) : (forall e a e', f e = (a, e') -> kept e e') -> keeps (in_env f).
Proof. intros Hf w. unfold in_env. destruct (f (w_env w)) as [a e'] eqn:E. by eapply Hf. Qed.
Lemma keeps_Now : keeps Now.
Proof. apply keeps_in_env. intros e t e' E x _. by eapply now_zsets. Qed.
Lemma keeps_NewV4 : keeps NewV4.
Proof. apply keeps_in_env. intros e t e' E x _. by eapply uuid_zsets. Qed.
Lemma keeps_Sleep d : keeps (Sleep d).
Proof. apply keeps_in_env. intros e t e' [= _ <-] x _. apply sleep_zsets. Qed.

Lemma keeps_Do a c : c <> FLUSHALL -> (forall k v, c = SET k v \/ c = DEL k -> ~ P (a, k)) -> keeps (Do a c).
Proof.
  intros Hf Hk. apply keeps_in_env. intros e r e' E x Hx. eapply do_zsets; [done..|].
  intros k v Hc Hi. apply (Hk k v Hc). by rewrite <- Hi, <- surjective_pairing.
Qed.
Lemma keeps_GET a k : keeps (Do a (GET k)).
Proof. apply keeps_Do; [done|]. by intros ? ? [[=]|[=]]. Qed.
Lemma keeps_KEYS a p : keeps (Do a (KEYS p)).
Proof. apply keeps_Do; [done|]. by intros ? ? [[=]|[=]]. Qed.
Lemma keeps_ZDo a c : (forall i, P (a, i) -> forall e r e', zset_do a c e = (r, e') -> zsets e' a i = zsets e a i) ->
  keeps (ZDo a c).
Proof.
  intros Hs. apply keeps_in_env. intros e r e' E x Hx. destruct (zdo_law _ _ _ _ _ E) as (_ & Ho & _ & _ & Hp).
  split; [|apply Hp]. destruct x as [a' i]. destruct (decide (a' = a)) as [-> |Hne]; [by eapply Hs|].
  apply Ho. by intros [= ? _].
Qed.
Lemma keeps_trans a c : (c = EXEC \/ exists k, c = WATCH k) -> keeps (ZDo a c).
Proof. intros Hc. apply keeps_ZDo. intros i _ e r e' E. by apply (ztrans_law _ _ _ _ _ E). Qed.
Lemma keeps_zread a c : zwrites c = false ->
  (forall e r e', zset_do a c e = (r, e') -> zsets e' a (zindex c) = zsets e a (zindex c)) -> keeps (ZDo a c).
Proof.
  intros _ Hs. apply keeps_ZDo. intros i _ e r e' E. destruct (zdo_law _ _ _ _ _ E) as (_ & Ho & _).
  destruct (decide (i = zindex c)) as [-> |Hne]; [by eapply Hs|]. apply Ho. by intros [= ?].
Qed.

Lemma keeps_with_pool db (f : World -> option ConnPool) : keeps (modify (fun w => with_pool db (f w) w)).
Proof. apply keeps_modify. intros w. by destruct db. Qed.

(** The keys of tables have a colon; names without one are not among them. *)
Class PlainNames : Prop := plain_names x : P x -> no_char ":" x.2 = true.
Context `{!PlainNames}.
Lemma saveID_no_place a t k : ~ P (a, saveID t k).
Proof.
  intros HP. apply plain_names in HP. cbn in HP. rewrite saveID_prefix in HP. unfold no_char in HP.
  rewrite !string_forall_app in HP. apply andb_true_iff in HP as [HP _]. apply andb_true_iff in HP as [_ HP].
  by cbn in HP.
Qed.
Lemma keeps_SET a t k v : keeps (Do a (SET (saveID t k) v)).
Proof. apply keeps_Do; [done|]. intros ? ? [[= <- _]|[=]]. apply saveID_no_place. Qed.
Lemma keeps_DEL a t k : keeps (Do a (DEL (saveID t k))).
Proof. apply keeps_Do; [done|]. intros ? ? [[=]|[= <-]]. apply saveID_no_place. Qed.
End frame.

Create HintDb keeps.
#[export] Hint Resolve keeps_ret keeps_panic keeps_lift keeps_get keeps_Now keeps_NewV4 keeps_Sleep keeps_GET
  keeps_KEYS keeps_SET keeps_DEL keeps_with_pool : keeps.
#[export] Hint Extern 0 (PlainNames _) => exact _ : keeps.
(** Walks through a program. *)
Ltac keeps_go :=
  repeat first
    [ solve [eauto with keeps]
    | apply keeps_bind; [|intros ?]
    | apply keeps_loopM; intros ? ?
    | match goal with |- keeps _ (match ?x with _ => _ end) => destruct x end
    | progress cbv zeta ].

Section programs.
Context `{IndexLaws, SingleNode}.
Context (P : addr * string -> Prop).
#[local] Abbreviation keeps := (keeps P).

Lemma keeps_the_pool db : keeps (the_pool db).
Proof. unfold the_pool. keeps_go. Qed.
#[local] Hint Resolve keeps_the_pool : keeps.
Lemma keeps_read_conn db : keeps (read_conn db).
Proof. unfold read_conn. keeps_go. Qed.
Lemma keeps_LoadWritePool db : keeps (LoadWritePool db).
Proof. unfold LoadWritePool. keeps_go. Qed.
Lemma keeps_StoreWritePoolNil db : keeps (StoreWritePoolNil db).
Proof. apply keeps_with_pool. Qed.
#[local] Hint Resolve keeps_read_conn keeps_LoadWritePool keeps_StoreWritePoolNil : keeps.
Lemma keeps_Connection c : keeps (Connection c).
Proof. unfold Connection. rewrite ha_off. keeps_go. Qed.
Lemma keeps_reset db : keeps (resetDBWriteConection db).
Proof. unfold resetDBWriteConection. rewrite ha_off. keeps_go. Qed.
#[local] Hint Resolve keeps_Connection keeps_reset : keeps.
Lemma keeps_GetDBConnection db : keeps (GetDBConnection db).
Proof.
  unfold GetDBConnection. apply keeps_bind; [keeps_go|]. intros w. apply keeps_bind; [|intros _; keeps_go].
  destruct (pool_of db w) as [[[a|] wp0 ip t]|]; keeps_go; try apply keeps_modify; intros; by destruct db.
Qed.
Lemma keeps_Read db t k : keeps (Read db t k).
Proof. unfold Read. keeps_go. Qed.
#[local] Hint Resolve keeps_GetDBConnection keeps_Read : keeps.
Lemma keeps_GetAllDetails db t : keeps (GetAllDetails db t).
Proof. unfold GetAllDetails, do_keys. keeps_go. Qed.
Context `{!PlainNames P}.
Lemma keeps_Create db t k d : keeps (ConnPool.Create db t k d).
Proof. unfold ConnPool.Create. keeps_go. Qed.
Lemma keeps_Update db t k d : keeps (ConnPool.Update db t k d).
Proof. unfold ConnPool.Update. keeps_go. Qed.
Lemma keeps_Delete db t k : keeps (ConnPool.Delete db t k).
Proof. unfold ConnPool.Delete. keeps_go. Qed.
End programs.
#[export] Hint Resolve keeps_the_pool keeps_read_conn keeps_LoadWritePool keeps_StoreWritePoolNil
  keeps_GetDBConnection keeps_Read keeps_Create keeps_Update keeps_Delete keeps_GetAllDetails : keeps.
