(* ===== verification/SearchProps.v ===== *)
(** The search of the systems: what reading an index finds, that a search in well-formed indices
    does not panic whatever commands fail, and what its answers are. *)
From stdpp Require Import base gmap list strings.
From Stdlib Require Import ZArith QArith_base Ascii.
From S2P Require Import Prelude Go GoTime GoText Links Response Redis World ConnPool DBSpec.
From S2P Require Import RedisIndex Index Search IndexProps Frame Links ResponseProps.
Open Scope string_scope.

(** ** Texts *)

Lemma Split_length s sep : Contains s sep = true -> sep <> "" -> (2 <= length (Split s sep))%nat.
Proof.
  intros Hc Hsep. unfold Split. induction s as [|c s IH].
  - destruct sep; [done|]. by cbn in Hc.
  - rewrite split_go_cons. destruct (HasPrefix (String c s) sep) eqn:Ep.
    + cbn [length]. pose proof (split_go_nonempty (String.length sep - 1) s sep) as Hn.
      destruct (split_go (String.length sep - 1) s sep); [done|]. cbn. lia.
    + cbn [Contains] in Hc. rewrite Ep in Hc. specialize (IH Hc).
      destruct (split_go 0 s sep) as [|h t]; cbn in *; lia.
Qed.

(** Every percent sign is followed by two characters. *)
Definition complete_escapes (q : string) : bool := forallb (fun j => 2 <=? String.length j)%nat (tail (Split q "%")).
Lemma percent_parts_panics l : percent_parts l = Panic <-> forallb (fun j => 2 <=? String.length j)%nat l = false.
Proof.
  induction l as [|j l IH]; [done|]. cbn [percent_parts forallb]. unfold slice_to, slice_from.
  destruct (2 <=? String.length j)%nat; [|done]. cbn [obind andb]. rewrite <- IH. by destruct (percent_parts l).
Qed.

(** The part of an entry behind the first separator, the identifier of a system. *)
Definition id_of (m : string) : string := default "" (Split m "::" !! 1%nat).
Definition entry (m : string) : Prop := is_Some (Split m "::" !! 1%nat).
Lemma second_parts_ok l : Forall entry l -> second_parts l = Ok (id_of <$> l).
Proof.
  induction 1 as [|m l [id Hm] _ IH]; [done|]. cbn [second_parts]. unfold GoTime.index. rewrite Hm. cbn [obind].
  rewrite IH. cbn [obind]. rewrite fmap_cons. do 2 f_equal. unfold id_of. by rewrite Hm.
Qed.
Lemma Contains_app a b sub : Contains (a +:+ sub +:+ b) sub = true.
Proof.
  induction a as [|c a IH].
  - change ("" +:+ sub +:+ b) with (sub +:+ b). pose proof (HasPrefix_app sub b) as Hp. destruct (sub +:+ b); cbn [Contains]; by rewrite Hp.
  - change (String c a +:+ sub +:+ b) with (String c (a +:+ sub +:+ b)). cbn [Contains]. by rewrite IH, orb_true_r.
Qed.
Lemma separated v u : entry (v +:+ "::" +:+ u).
Proof. apply lookup_lt_is_Some_2, Split_length; [apply Contains_app|done]. Qed.
(** The entries of a form have a value and an identifier. *)
Lemma form_entry_entry v uuid s m : form_entry v uuid = inr (s, m) -> entry m.
Proof.
  intros E. apply (f_equal (fun r => match r with inr e => entry e.2 | inl _ => True end)) in E.
  destruct v; cbn beta iota delta [form_entry snd] in E; rewrite <- E; first [apply separated|exact I].
Qed.
Lemma entry_not_zero m : entry m -> m <> "0".
Proof. intros [id Hm] ->. by cbn in Hm. Qed.

#[export] Instance mkLink_inj : Inj (=) (=) mkLink.
Proof. by intros x y [= ->]. Qed.

(** ** LogicalOperation *)

Lemma two_operands (map_order : list Link -> list Link) (inter : list (list Link)) lo :
  (2 <= length inter)%nat -> exists l, LogicalOperation map_order inter lo = Ok l.
Proof.
  destruct inter as [|a [|b rest]]; cbn [length]; try lia. intros _. unfold LogicalOperation.
  repeat case_match; by eexists.
Qed.
Lemma unmarshal_all_length texts : forall h ww inter,
  length (unmarshal_all texts h ww inter).2 = (length inter + length texts)%nat.
Proof.
  induction texts as [|e texts IH]; intros h ww inter; cbn [unmarshal_all]; [by rewrite Nat.add_0_r|].
  destruct (unmarshal_links e h ww) as [h' ww']. rewrite IH, length_app. cbn. lia.
Qed.
Lemma operands_length sep ele : length (operands sep ele) = length (Split ele sep).
Proof.
  unfold operands. pose proof (unmarshal_all_length (Split ele sep) [] None []) as Hl.
  destruct (unmarshal_all _ _ _ _) as [[h ww] inter]. cbn in Hl. by rewrite length_fmap.
Qed.

Section search.
Context `{IndexLaws, SingleNode, !SearchConfig, !Regexp, !MapOrder}.
Context (fuel : nat).

(** ** Programs that only read *)

(** The world has moved on, the databases show what they did. *)
Definition our_place (x : addr * string) : Prop := exists db, x.1 = addr_of db.
Definition later w w' : Prop := ro w w' /\ kept our_place (w_env w) (w_env w').
Lemma later_trans w w1 w2 : later w w1 -> later w1 w2 -> later w w2.
Proof. intros [Ha Hb] [Hc Hd]. split; [by eapply ro_trans|by eapply kept_trans]. Qed.
Lemma later_refl w : wf w -> later w w.
Proof. intros Hw. split; [by apply ro_refl|apply kept_refl]. Qed.
Lemma zro_later w w' : zro w w' -> later w w'.
Proof.
  intros Hz. split; [by apply zro_ro|]. intros [a i] [db ->]. split; [by apply (zro_view _ _ db i)|].
  apply (zs_pages _ _ _ _ _ (Hz db i)).
Qed.
Lemma later_zview w w' db i : later w w' -> zview w' db i = zview w db i.
Proof. intros [_ Hk]. apply (Hk (addr_of db, i)). by exists db. Qed.
Lemma later_pages w w' db i : later w w' ->
  (pages_left (w_env w') (addr_of db) i 0 <= pages_left (w_env w) (addr_of db) i 0)%nat.
Proof. intros [_ Hk]. apply (Hk (addr_of db, i)). by exists db. Qed.

(** [stays w0 m P]: run in any world later than [w0], [m] reads only, and its outcome satisfies [P]. *)
Section stays.
Context (w0 : World).
Definition stays {A} (m : IO A) (P : outcome A -> Prop) : Prop :=
  forall w, later w0 w -> wp m (fun o w' => later w0 w' /\ P o) w.

Lemma stays_ret {A} (a : A) (P : outcome A -> Prop) : P (Ok a) -> stays (ret a) P.
Proof. intros HP w Hw. by apply wp_ret. Qed.
Lemma stays_lift {A} (o : outcome A) (P : outcome A -> Prop) : P o -> stays (lift o) P.
Proof. intros HP w Hw. by apply wp_lift. Qed.
Lemma stays_mono {A} (m : IO A) (P Q : outcome A -> Prop) : stays m P -> (forall o, P o -> Q o) -> stays m Q.
Proof. intros Hm HPQ w Hw. eapply wp_mono; [by apply Hm|]. intros o w' [? ?]. auto. Qed.
Lemma stays_bind {A B} (m : IO A) (k : A -> IO B) (P : outcome A -> Prop) Q :
  stays m P -> (forall a, P (Ok a) -> stays (k a) Q) -> ~ P Panic -> stays (bind m k) Q.
Proof.
  intros Hm Hk Hn w Hw. apply wp_bind. eapply wp_mono; [by apply Hm|]. intros [a|] w' [Hw' HP]; [|done].
  by apply Hk.
Qed.
(** A loop whose rounds keep an invariant of what was visited and the local variable. *)
Lemma stays_loopM {A L R} (Inv : list A -> L -> Prop) (l : list A) (acc : L) (f : L -> A -> IO (R + L))
    (Q : outcome (R + L) -> Prop) :
  Inv [] acc ->
  (forall done x acc, (exists todo, l = done ++ x :: todo)%list -> Inv done acc ->
     stays (f acc x) (fun o => match o with
                               | Ok (inl r) => Q (Ok (inl r))
                               | Ok (inr acc') => Inv (done ++ [x])%list acc'
                               | Panic => False
                               end)) ->
  (forall acc, Inv l acc -> Q (Ok (inr acc))) ->
  stays (loopM l acc f) Q.
Proof.
  intros Hacc Hf HQ w Hw. apply (wp_loopM (fun done acc w' => later w0 w' /\ Inv done acc)).
  - done.
  - intros pre x acc' w' Hl [Hw' HI]. eapply wp_mono; [by apply (Hf pre)|].
    intros [[r|acc'']|] w'' [Hl' HP]; try done.
  - intros acc' w' [Hw' HI]. split; [done|]. by apply HQ.
Qed.

(** ** Reading an index *)

(** [ms] are members of the index that satisfy the test, all of them if [exact] holds. *)
Definition hits (i : string) (test : string -> Q -> Prop) (exact : Prop) (ms : list string) : Prop :=
  (forall m, m ∈ ms -> exists s, zview w0 InMemory i !! m = Some s /\ test m s) /\
  (exact -> forall m s, zview w0 InMemory i !! m = Some s -> test m s -> m ∈ ms).
Lemma hits_nothing i test (exact : Prop) : ~ exact -> hits i test exact [].
Proof. intros Hn. split; [by intros m ?%elem_of_nil|done]. Qed.

(** The entries of an index name a value and a system. *)
Definition entries_ok (i : string) : Prop := forall m, is_Some (zview w0 InMemory i !! m) -> entry m.
Lemma hits_entries i test exact ms : entries_ok i -> hits i test exact ms -> Forall entry ms.
Proof. intros He [Hm _]. apply Forall_forall. intros m Hin. destruct (Hm m Hin) as (s & Hs & _). apply He. by eexists. Qed.

(** What is returned for the members that were found. *)
Definition shown (regexFlag : bool) (ms : list string) : list string := if regexFlag then ms else id_of <$> ms.

(** A command that reads a set. *)
Lemma wp_zread c w : later w0 w ->
  (forall e r e', zset_do (addr_of InMemory) c e = (r, e') -> zsets e' (addr_of InMemory) (zindex c) = zsets e (addr_of InMemory) (zindex c)) ->
  wp (ZDo (addr_of InMemory) c) (fun o w' => later w0 w' /\ exists r, o = Ok r /\
        zset_do (addr_of InMemory) c (w_env w) = (r, w_env w') /\
        (healthy w0 -> zaccepted c = true -> forall msg, r <> ZErr msg)) w.
Proof.
  intros Hw Hs. apply wp_ZDo; [apply Hw|]. intros r w' Hd Hrel Hz. split.
  - eapply later_trans; [exact Hw|]. split; [eapply zs_ro, (Hz _ eq_refl)|].
    intros [a i] _. destruct (zdo_law _ _ _ _ _ Hd) as (_ & Ho & _ & _ & Hp). split; [|apply Hp]. cbn [fst snd].
    destruct (decide ((a, i) = (addr_of InMemory, zindex c))) as [[= -> ->]|Hne]; [by eapply Hs|by apply Ho].
  - exists r. split_and!; [done|done|]. intros Hh. apply Hrel, Hw, Hh.
Qed.
Lemma wp_connected {A} (m : IO A) (Q : outcome A -> World -> Prop) w : later w0 w ->
  (forall w', later w0 w' -> ready InMemory w' -> wp m Q w') -> wp (GetDBConnection InMemory ;;; m) Q w.
Proof.
  intros Hw Hm. wp_go. eapply wp_mono.
  - apply wp_keeps; [apply (keeps_GetDBConnection our_place)|by apply wp_GetDBConnection, Hw].
  - intros o w1 [(-> & Hro & Hrd) Hk]. cbn [wp_cont]. apply Hm; [|done]. by eapply later_trans; [|split].
Qed.

Lemma wp_ids ms w : later w0 w -> Forall entry ms ->
  wp (loopM ms [] (fun getList d => let! id := lift (GoTime.index (Split d "::") 1) in ret (inr (getList ++ [id])%list)))
     (fun o w' => later w0 w' /\ o = Ok (inr (A := string) (id_of <$> ms))) w.
Proof.
  intros Hw Hms. apply (stays_loopM (fun pre acc => acc = id_of <$> pre)); [done| | |done].
  - intros pre m acc [todo ->] ->. apply Forall_app in Hms as [_ [[id Hm] _]%Forall_cons].
    intros w' Hw'. wp_go. unfold GoTime.index. rewrite Hm. wp_go. split; [done|].
    rewrite fmap_app. do 2 f_equal. cbn. unfold id_of. by rewrite Hm.
  - by intros acc ->.
Qed.
Lemma stays_GetRange i min max flag : entries_ok i ->
  stays (smodel_GetRange i min max flag) (fun o => exists ms, o = Ok (inr (shown flag ms)) /\
    hits i (fun _ s => inject_Z min <= s <= inject_Z max)%Q (healthy w0) ms).
Proof.
  intros He w Hw. apply wp_connected; [done|]. clear w Hw. intros w Hw Hrd.
  unfold GetRange. wp_go. apply wp_read_conn; [apply Hw|done|]. wp_go.
  eapply wp_mono; [apply wp_zread; [done|]|].
  { intros e r e' E. by apply (zrangebyscore_law _ _ _ _ _ _ _ E). }
  intros o w1 [Hw1 (r & -> & Hd & Hrel)]. destruct (zrangebyscore_law _ _ _ _ _ _ _ Hd) as [_ Hr].
  change (zsets (w_env w) (addr_of InMemory) i) with (zview w InMemory i) in Hr. rewrite (later_zview _ _ _ _ Hw) in Hr.
  wp_go. destruct r as [msg|ms|? ?|]; try done.
  - wp_go. split; [done|]. exists []. split; [by destruct flag|]. apply hits_nothing. intros Hh. by apply (Hrel Hh eq_refl msg).
  - destruct Hr as [_ Hms].
    assert (Hh : hits i (fun _ s => inject_Z min <= s <= inject_Z max)%Q (healthy w0) ms).
    { split; [intros m; apply Hms|]. intros _ m s Hs Ht. apply Hms. by exists s. }
    destruct flag; wp_go; [by split; [|exists ms]|].
    eapply wp_mono; [apply wp_ids; [done|by eapply hits_entries]|].
    intros o w2 [Hw2 ->]. wp_go. split; [done|]. by exists ms.
Qed.

(** The scores of an index of texts. *)
Definition text_scores (i : string) : Prop := forall m s, zview w0 InMemory i !! m = Some s -> (s == 0)%Q.
Definition one_page (i : string) : Prop := pages_left (w_env w0) (addr_of InMemory) i 0 = 0%nat.

(** A page of an index of texts: its entries without their scores. *)
Lemma not_zero_page l : (forall m s, (m, s) ∈ l -> m <> "0" /\ s = "0") -> not_zero (page_of l) = l.*1.
Proof.
  induction l as [|[m s] l IH]; intros Hl; [done|]. destruct (Hl m s) as [Hm ->]; [apply elem_of_cons; auto|].
  unfold not_zero in *. cbn [page_of List.filter]. rewrite (proj2 (String.eqb_neq m "0")) by done.
  rewrite String.eqb_refl. cbn. f_equal. apply IH. intros m' s' Hin. apply Hl, elem_of_cons. auto.
Qed.

Definition scan_post {A} (i pat : string) (g : list string -> list A) (o : outcome (option (string + list A))) : Prop :=
  let exact := healthy w0 /\ one_page i in
  (exists err, o = Ok (Some (inl err)) /\ ~ exact) \/
  (exists ms, o = Ok (Some (inr (g ms))) /\ hits i (fun m _ => glob pat m = true) exact ms).
Lemma wp_scanAll i pat collect (f : string -> string) : entries_ok i -> text_scores i ->
  (forall l, Forall entry l -> collect l = Ok (f <$> l)) ->
  forall k w, later w0 w -> ready InMemory w -> (pages_left (w_env w) (addr_of InMemory) i 0 < k)%nat ->
  wp (scanAll k InMemory i pat 0 collect) (fun o w' => later w0 w' /\ scan_post i pat (fmap f) o) w.
Proof.
  intros He Ht Hcol.
  enough (Hgen : forall k w c ms, later w0 w -> ready InMemory w ->
    (pages_left (w_env w) (addr_of InMemory) i c < k)%nat ->
    (healthy w0 /\ one_page i -> c = 0%Z) ->
    (forall m, m ∈ ms -> exists s, zview w0 InMemory i !! m = Some s /\ glob pat m = true) ->
    wp (iterM k (scanPage InMemory i pat collect) (c, f <$> ms))
       (fun o w' => later w0 w' /\ scan_post i pat (fmap f) o) w).
  { intros k w Hw Hrd Hk. apply (Hgen k w 0%Z []); try done. by intros m ?%elem_of_nil. }
  intros k. induction k as [|k IH]; intros w c ms Hw Hrd Hk Hc Hms; [lia|]. cbn [iterM]. unfold scanPage at 1.
  wp_call wp_zscan; [apply Hw|done|]. intros o w1 [Hz Ho]. wp_go.
  assert (Hw1 : later w0 w1) by (eapply later_trans; [done|by apply zro_later]).
  destruct o as [[err|[next data]]|]; [| |done]; wp_go.
  { split; [done|]. left. exists err. split; [done|]. intros Hex. rewrite (Hc Hex) in Ho.
    by specialize (Ho (ev_healthy _ _ _ (proj1 Hw) (proj1 Hex))). }
  destruct Ho as [[l n -> Ha Hn Hm Hf Hl]]. cbn [cursor_val] in *. rewrite (later_zview _ _ _ _ Hw) in Hm, Hf.
  assert (Hent : forall m s, (m, s) ∈ l -> glob pat m = true /\ entry m /\ s = "0").
  { intros m s Hin. destruct (Hm m s Hin) as (Hg & sc & Hsc & _ & Hs). split_and!; [done|apply He; by eexists|].
    by apply Hs, (Ht m sc). }
  rewrite not_zero_page by (intros m s Hin; destruct (Hent m s Hin) as (_ & Hem & ->); by split; [apply entry_not_zero|]).
  rewrite Hcol.
  2:{ apply Forall_forall. intros m ([m' s] & -> & Hin)%list_elem_of_fmap. by apply (Hent m' s). }
  wp_go. rewrite <- fmap_app.
  assert (Hms' : forall m, m ∈ (ms ++ l.*1)%list -> exists s, zview w0 InMemory i !! m = Some s /\ glob pat m = true).
  { intros m [Hin|([m' s] & -> & Hin)%list_elem_of_fmap]%elem_of_app; [by apply Hms|].
    destruct (Hm m' s Hin) as (Hg & sc & Hsc & _). by exists sc. }
  assert (Hlast : healthy w0 /\ one_page i -> n = 0%Z).
  { intros Hex. destruct (decide (n = 0%Z)) as [|Hne]; [done|]. specialize (Hl Hne). rewrite (Hc Hex) in Hl.
    pose proof (later_pages _ _ InMemory i Hw) as Hp. destruct Hex as [_ Hone]. unfold one_page in Hone. lia. }
  destruct (String.eqb next "0") eqn:E0; wp_go.
  - split; [done|]. right. exists (ms ++ l.*1)%list. split; [done|]. split; [done|].
    intros Hex m s Hs Hg. apply elem_of_app. right. rewrite (Hc Hex) in Hf.
    destruct (Hf m) as [?|[Hne _]]; [|by eexists|done|done|].
    + apply scan_start. change (is_Some (zview w InMemory i !! m)). rewrite (later_zview _ _ _ _ Hw). by eexists.
    + exfalso. by apply Hne, Hlast.
  - rewrite (proj2 Ha). wp_go. apply IH; [done|by apply (ev_ready _ _ _ (zro_ro _ _ Hz))| |done|done].
    destruct (decide (n = 0%Z)) as [Hn0|Hne]; [|specialize (Hl Hne); lia].
    apply Hn in Hn0. congruence.
Qed.
Lemma stays_GetString i match_ flag : entries_ok i -> text_scores i ->
  (pages_left (w_env w0) (addr_of InMemory) i 0 < fuel)%nat ->
  stays (smodel_GetString fuel i match_ flag) (fun o => exists ms, o = Ok (inr (shown flag ms)) /\
    hits i (fun m _ => glob (ToLower ("*" +:+ match_ +:+ "*")) m = true) (healthy w0 /\ one_page i) ms).
Proof.
  intros He Ht Hk w Hw. apply wp_connected; [done|]. clear w Hw. intros w Hw Hrd. wp_go.
  pose proof (later_pages _ _ InMemory i Hw) as Hp. unfold GetString.
  eapply wp_mono; [apply (wp_scanAll i _ _ (if flag then id else id_of)); try done; [|lia]|].
  { intros l Hl. destruct flag; [by rewrite list_fmap_id|by apply second_parts_ok]. }
  intros o w1 [Hw1 [(err & -> & Hn)|(ms & -> & Hms)]]; cbn [wp_cont scanned]; wp_go; (split; [done|]).
  - exists []. split; [by destruct flag|by apply hits_nothing].
  - exists ms. split; [|done]. destruct flag; [by rewrite list_fmap_id|done].
Qed.

(** ** Searches do not panic *)

(** The schema has only the six operators, and the indices of its keys are those [CreateIndex]
    makes: the numbers of a list are numbers. *)
Definition index_of (pam : string) : string := Replace pam "\/" "/".
Definition number_key (pam : string) : bool := existsb other_type (typed_keys pam).
Definition list_key (pam : string) : bool := existsb array_type (typed_keys pam).
Definition reads_nan (v : string + float64) : bool := match v with inr x => is_nan x | _ => false end.
Definition list_values (m : string) : list string :=
  Split (Replace (Replace (default "" (Split m "::" !! 0%nat)) "]" "") "[" "") " ".
Definition numeric (m : string) : Prop := forallb (fun v => negb (reads_nan (ParseFloat v))) (list_values m) = true.
Record indexed : Prop := {
  ix_operators k : conditionKey k = true -> k ∈ operatorSet;
  ix_entries pam : searchKey pam = true -> entries_ok (index_of pam);
  ix_texts pam : searchKey pam = true -> number_key pam = false \/ list_key pam = true -> text_scores (index_of pam);
  ix_lists pam : searchKey pam = true -> list_key pam = true ->
    forall m, is_Some (zview w0 InMemory (index_of pam) !! m) -> numeric m;
  ix_pages i : (pages_left (w_env w0) (addr_of InMemory) i 0 < fuel)%nat;
}.
(** An expression with one key at most, and without a value that reads as NaN. *)
Definition tame (expression : list string) : bool :=
  (length (List.filter searchKey expression) <=? 1)%nat
  && forallb (fun v => negb (reads_nan (ParseFloat v))) expression.

(** The errors a search answers. *)
Definition refusal (rsp : sysRPC) : Prop :=
  StatusCode rsp ∈ [StatusBadRequest; StatusNotFound; StatusInternalServerError; StatusServiceUnavailable] /\
  exists e, RBody rsp = ErrorBody e.
(** An outcome that is an error or satisfies [P]. *)
Definition answers {A} (P : A -> Prop) (o : outcome (sysRPC + A)) : Prop :=
  match o with Ok (inl rsp) => refusal rsp | Ok (inr a) => P a | Panic => False end.

Lemma stays_refuse {A} code st em margs (P : A -> Prop) :
  args_ok {| ea_StatusMessage := st; ea_ErrorMessage := em; ea_MessageArgs := margs |} ->
  code ∈ [StatusBadRequest; StatusNotFound; StatusInternalServerError; StatusServiceUnavailable] ->
  stays (refuse (GeneralError code st em margs)) (answers P).
Proof.
  intros Ha Hc. unfold refuse. destruct (@GeneralError_ok sysBody code st em margs Ha) as [e ->].
  eapply stays_bind; [apply stays_lift|intros rsp Hr|]; [exact (eq_refl _)| |done].
  apply stays_ret. injection Hr as <-. split; [done|]. by eexists.
Qed.
(** The step that hands an error on. *)
Lemma stays_step {A B} (m : IO (sysRPC + A)) (k : sysRPC + A -> IO (sysRPC + B)) (P : A -> Prop) Q :
  stays m (answers P) -> (forall rsp, k (inl rsp) = ret (inl rsp)) ->
  (forall a, P a -> stays (k (inr a)) (answers Q)) -> stays (bind m k) (answers Q).
Proof.
  intros Hm He Hk. eapply stays_bind; [exact Hm| |by intros ?]. intros [rsp|a] HP.
  - rewrite He. by apply stays_ret.
  - by apply Hk.
Qed.

Ltac in_list := repeat first [apply list_elem_of_here | apply list_elem_of_further].
Ltac refused := apply stays_refuse; [err_args|in_list].

(** What a read of an index returns: whole entries when they will be matched with an expression. *)
Definition listing (regexFlag : bool) (o : outcome (string + list string)) : Prop :=
  exists l, o = Ok (inr l) /\ (regexFlag = true -> Forall entry l).
Lemma shown_listing i test exact flag ms o : entries_ok i -> hits i test exact ms ->
  o = Ok (inr (A := string) (shown flag ms)) -> listing flag o.
Proof. intros He Hh ->. eexists. split; [done|]. intros ->. by eapply hits_entries. Qed.

Lemma remove_first_incl x l y : y ∈ remove_first x l -> y ∈ l.
Proof.
  induction l as [|z l IH]; [done|]. cbn [remove_first]. rewrite elem_of_cons. destruct (String.eqb x z); [auto|].
  rewrite elem_of_cons. intros [?|?]; auto.
Qed.
Lemma remove_all_incl xs : forall l y, y ∈ fold_left (fun l x => remove_first x l) xs l -> y ∈ l.
Proof. induction xs as [|x xs IH]; intros l y Hy; [done|]. apply IH in Hy. by eapply remove_first_incl. Qed.

Lemma stays_listed i match_ flag : entries_ok i -> text_scores i ->
  (pages_left (w_env w0) (addr_of InMemory) i 0 < fuel)%nat -> stays (smodel_GetString fuel i match_ flag) (listing flag).
Proof.
  intros He Ht Hk. eapply stays_mono; [by apply stays_GetString|]. intros o (ms & Ho & Hms). by eapply shown_listing.
Qed.
Lemma stays_ranged i min max flag : entries_ok i -> stays (smodel_GetRange i min max flag) (listing flag).
Proof.
  intros He. eapply stays_mono; [by apply stays_GetRange|]. intros o (ms & Ho & Hms). by eapply shown_listing.
Qed.
Lemma stays_getStringData i match_ expr flag : entries_ok i -> text_scores i ->
  (pages_left (w_env w0) (addr_of InMemory) i 0 < fuel)%nat ->
  stays (getStringData fuel i match_ expr flag) (listing flag).
Proof.
  intros He Ht Hk. unfold getStringData. destruct (String.eqb expr "eq"); [by apply stays_listed|].
  eapply stays_bind; [by apply stays_listed| |by intros (? & [=] & _)]. intros ? (all & [= ->] & Hall).
  eapply stays_bind; [by apply stays_listed| |by intros (? & [=] & _)]. intros ? (matched & [= ->] & _).
  destruct (length all =? length matched)%nat; [apply stays_ret; by exists []|].
  destruct (length matched =? 0)%nat; apply stays_ret; eexists; (split; [done|]); [done|].
  intros Hf. specialize (Hall Hf). rewrite Forall_forall in *. intros x Hx. by eapply Hall, remove_all_incl.
Qed.
Lemma stays_getRangeData i expr n flag : entries_ok i -> stays (getRangeData i expr n flag) (listing flag).
Proof.
  intros He. unfold getRangeData. repeat (case_match; try by apply stays_ranged); try (apply stays_ret; by exists []).
  all: eapply stays_bind; [by apply stays_ranged| |by intros (? & [=] & _)]; intros ? (l1 & [= ->] & H1').
  all: eapply stays_bind; [by apply stays_ranged| |by intros (? & [=] & _)]; intros ? (l2 & [= ->] & H2').
  all: apply stays_ret; eexists; split; [done|]; intros Hf; apply Forall_app; auto.
Qed.
Lemma parseRegexData_ok l regex : Forall entry l -> exists r, parseRegexData l regex = Ok r.
Proof.
  induction 1 as [|m l [id Hm] _ [r IH]]; cbn [parseRegexData]; [by eexists|].
  unfold GoTime.index. rewrite Hm. destruct (Split m "::") as [|v rest]; [done|]. cbn [lookup list_lookup obind].
  destruct (regexp_MatchString _ v) as [[]|]; [..|by eexists]; cbn [obind]; rewrite IH; by eexists.
Qed.

Section safe.
Context (ix : indexed).

Lemma storage_values_ok condition match_ id values : match_ <> NaN ->
  forallb (fun v => negb (reads_nan (ParseFloat v))) values = true ->
  exists r, storage_values condition match_ id values = Ok r.
Proof.
  intros Hm. induction values as [|v values IH]; intros Hv; [by eexists|]. cbn [forallb storage_values] in *.
  apply andb_true_iff in Hv as [Hv Hvs]. destruct (ParseFloat v) as [err|x] eqn:E; [by eexists|].
  assert (exists b, storage_match condition x match_ = Ok b) as [b ->].
  { unfold storage_match. destruct (String.eqb condition "eq"); [|by eexists].
    cbn in Hv. destruct match_, x; try done; by eexists. }
  cbn [obind]. destruct (IH Hvs) as [[err|ids] ->]; by eexists.
Qed.
Lemma storage_entries_ok condition match_ l : match_ <> NaN -> Forall entry l -> Forall numeric l ->
  exists r, storage_entries condition match_ l = Ok r.
Proof.
  intros Hm Hl. induction Hl as [|m l [id Hid] _ IH]; intros Hn; [by eexists|]. apply Forall_cons in Hn as [Hn Hns].
  cbn [storage_entries]. unfold GoTime.index. rewrite Hid. unfold numeric, list_values in Hn.
  destruct (Split m "::") as [|v rest]; [done|].
  change (default "" ((v :: rest) !! 0%nat)) with v in Hn. cbn [lookup list_lookup obind].
  destruct (storage_values_ok condition match_ id _ Hm Hn) as [[err|ids] ->]; cbn [obind]; [by eexists|].
  destruct (IH Hns) as [[err|more] ->]; by eexists.
Qed.
Lemma stays_GetStorageList pam condition match_ flag : searchKey pam = true -> list_key pam = true -> match_ <> NaN ->
  stays (smodel_GetStorageList fuel (index_of pam) condition match_ flag) (listing flag).
Proof.
  intros Hk Hlk Hm w Hw. apply wp_connected; [done|]. clear w Hw. intros w Hw Hrd. wp_go.
  set (i := index_of pam). pose proof (later_pages _ _ InMemory i Hw) as Hp. pose proof (ix_pages ix i) as Hpi.
  pose proof (ix_entries ix pam Hk) as He. unfold GetStorageList. wp_go.
  eapply wp_mono; [apply (wp_scanAll i "*" Ok id); try done; [by apply (ix_texts ix); [|right]| |lia]|].
  { intros l _. by rewrite list_fmap_id. }
  intros o w1 [Hw1 [(err & -> & Hn)|(ms & -> & Hms)]]; wp_go.
  { split; [done|]. by exists []. }
  rewrite list_fmap_id. pose proof (hits_entries _ _ _ _ He Hms) as Hent. destruct flag; wp_go.
  { split; [done|]. by exists ms. }
  destruct (storage_entries_ok condition match_ ms Hm Hent) as [[err|ids] ->]; wp_go.
  - apply Forall_forall. intros m Hin. destruct Hms as [Hms _]. destruct (Hms m Hin) as (sc & Hsc & _).
    apply (ix_lists ix pam Hk Hlk). by eexists.
  - split; [done|]. by exists [].
  - split; [done|]. by eexists.
Qed.
(** The index is read in the way its scores allow. *)
Definition flags_fit (pam : string) (typeFlag arrayFlag : bool) : Prop :=
  typeFlag = number_key pam /\ arrayFlag = list_key pam.

Lemma stays_regexMembers pam val typeFlag arrayFlag : searchKey pam = true -> flags_fit pam typeFlag arrayFlag ->
  stays (regexMembers fuel (index_of pam) val typeFlag arrayFlag) (answers (fun _ => True)).
Proof.
  intros Hk [Ht Ha]. unfold regexMembers. pose proof (ix_entries ix pam Hk) as He.
  apply (stays_bind _ _ (listing true)); [|intros ? (l & [= ->] & Hl)|by intros (? & [=] & _)].
  - destruct arrayFlag; [by apply stays_GetStorageList|].
    destruct typeFlag; cbn [negb]; [by apply stays_getRangeData|].
    apply stays_getStringData; [done|by apply (ix_texts ix); [|left]|by apply (ix_pages ix)].
  - destruct (parseRegexData_ok l val (Hl eq_refl)) as [r ->].
    eapply stays_bind; [apply stays_lift, eq_refl|intros ? [= <-]|done].
    destruct r; [by apply stays_ret|refused].
Qed.
Lemma stays_listing {A} (m : IO (string + list string)) (k : list string -> IO (sysRPC + A)) (P : A -> Prop) :
  stays m (listing false) -> (forall l, stays (k l) (answers P)) ->
  stays (let! r := m in match r with inl err => refuse (db_failed err) | inr l => k l end) (answers P).
Proof.
  intros Hm Hk. eapply stays_bind; [exact Hm| |by intros (? & [=] & _)]. by intros ? (l & [= ->] & _).
Qed.
Lemma stays_valueMembers pam expr val typeFlag arrayFlag : searchKey pam = true -> flags_fit pam typeFlag arrayFlag ->
  reads_nan (ParseFloat val) = false ->
  stays (valueMembers fuel (index_of pam) expr val typeFlag arrayFlag) (answers (fun _ => True)).
Proof.
  intros Hk [Ht Ha] Hn. unfold valueMembers, listed. pose proof (ix_entries ix pam Hk) as He.
  destruct arrayFlag; [|destruct typeFlag]; cbn [negb].
  - destruct (ParseFloat val) as [err|x] eqn:E; [refused|].
    apply stays_listing; [|intros l; by apply stays_ret]. apply stays_GetStorageList; [done..|]. by intros ->.
  - destruct (AtoiErr val) as [err|n]; [refused|].
    apply stays_listing; [by apply stays_getRangeData|]. intros l. by apply stays_ret.
  - destruct (negb _); [refused|]. apply stays_listing; [|intros l; by apply stays_ret].
    apply stays_getStringData; [done|by apply (ix_texts ix); [|left]|by apply (ix_pages ix)].
Qed.

(** An expression that does not end with an operator has a value behind each. *)
Lemma operator_has_value expression i op : validateLastParameter expression = None ->
  expression !! i = Some op -> op ∈ operatorSet -> is_Some (expression !! S i).
Proof.
  intros Hv Hi Hop. destruct (expression !! S i) as [v|] eqn:E; [by eexists|]. exfalso.
  apply list_elem_of_split_length in Hi as (pre & post & -> & ->).
  rewrite lookup_app_r in E by lia. rewrite Nat.sub_succ_l, Nat.sub_diag in E by done.
  destruct post as [|x post]; [|done]. unfold validateLastParameter in Hv.
  assert (Hl : lastParam (pre ++ [op]) = op).
  { unfold lastParam. rewrite rev_app_distr. cbn. destruct (String.eqb_spec op "") as [-> |]; [|done].
    apply list_elem_of_In in Hop. cbn in Hop. naive_solver. }
  rewrite Hl in Hv.
  destruct (String.eqb op ""); [done|]. destruct (List.find (String.eqb op) operatorSet) eqn:Ho; [done|].
  apply list_elem_of_In in Hop. apply (List.find_none _ _ Ho) in Hop. by rewrite String.eqb_refl in Hop.
Qed.

(** Before a key is read the flags are not set. *)
Definition unread (pre : list (nat * string)) (st : walk) : Prop :=
  Forall (fun p => searchKey p.2 = false) pre -> wk_type st = false /\ wk_array st = false.
Lemma typed_keys_other pam : searchKey pam = false -> typed_keys pam = [].
Proof.
  unfold searchKey, typed_keys. induction (SearchKeys SF) as [|value l IH]; [done|]. cbn [existsb omap list_omap].
  intros [Hv Hl]%orb_false_iff. apply bool_decide_eq_false in Hv. apply eq_None_not_Some in Hv. rewrite Hv. by apply IH.
Qed.
Lemma stays_memberStep expression pre st amp pam : validateLastParameter expression = None ->
  forallb (fun v => negb (reads_nan (ParseFloat v))) expression = true ->
  (searchKey pam = true -> Forall (fun p => searchKey p.2 = false) pre) -> unread pre st ->
  stays (memberStep fuel expression st amp pam) (answers (unread (pre ++ [(amp, pam)]))).
Proof.
  intros Hv Hnan Hpre Hst. unfold memberStep. destruct (searchKey pam) eqn:Hk.
  2:{ rewrite (typed_keys_other _ Hk). cbn [existsb]. rewrite !orb_false_r. apply stays_ret.
      intros [Hall _]%Forall_app. by apply Hst. }
  destruct (Hst (Hpre eq_refl)) as [-> ->]. cbn [orb].
  assert (Hkey : forall st', unread (pre ++ [(amp, pam)]) st').
  { intros st' [_ [Hf _]%Forall_cons]%Forall_app. cbn in Hf. congruence. }
  destruct (expression !! S amp) as [expr|] eqn:He; [|apply stays_ret, Hkey].
  destruct (conditionKey expr) eqn:Hc; [|apply stays_ret, Hkey].
  destruct (operator_has_value _ _ _ Hv He (ix_operators ix _ Hc)) as [val Hval].
  unfold GoTime.index. rewrite Hval. eapply stays_bind; [apply stays_lift, eq_refl|intros ? [= <-]|done].
  apply (stays_step _ _ (fun _ => True)); [|done|intros l _; apply stays_ret, Hkey].
  destruct (setRegexFlag val); [by apply stays_regexMembers|apply stays_valueMembers]; [done..|].
  rewrite forallb_forall in Hnan. apply negb_true_iff, Hnan, list_elem_of_In. by eapply list_elem_of_lookup_2.
Qed.
(** The first key of an expression with one key at most. *)
Lemma first_key {A} (pre todo : list (A * string)) x expression : tame expression = true ->
  expression = (pre ++ x :: todo)%list.*2 -> searchKey x.2 = true -> Forall (fun p => searchKey p.2 = false) pre.
Proof.
  intros [Hone _]%andb_true_iff -> Hx. rewrite fmap_app, fmap_cons, List.filter_app in Hone. cbn [List.filter] in Hone.
  rewrite Hx, length_app in Hone. cbn [length] in Hone. apply Nat.leb_le in Hone. apply Forall_forall. intros p Hp.
  destruct (searchKey p.2) eqn:E; [|done]. exfalso.
  assert (Hin : In p.2 (List.filter searchKey pre.*2)).
  { apply List.filter_In. split; [|done]. apply list_elem_of_In, list_elem_of_fmap. by exists p. }
  destruct (List.filter searchKey pre.*2); [done|cbn in Hone; lia].
Qed.
Lemma stays_GetMembers expression : tame expression = true -> stays (GetMembers fuel expression) (answers (fun _ => True)).
Proof.
  intros Ht. unfold GetMembers. destruct (validateLastParameter expression) eqn:Hv; [refused|].
  apply (stays_step _ _ (fun _ => True)); [|done|intros st _; by apply stays_ret].
  apply (stays_loopM unread); [by intros _| |done].
  intros pre [amp pam] st [todo E] Hst. eapply stays_mono.
  - apply (stays_memberStep _ pre); [done|by apply andb_true_iff in Ht as [_ Ht]| |done]. intros Hk.
    apply (first_key pre todo (amp, pam) expression Ht); [|done]. rewrite <- E. rewrite snd_zip; [done|].
    by rewrite length_seq.
  - by intros [[rsp|st']|].
Qed.
Definition system (x : Link) : Prop := is_Some (view w0 InMemory !! saveID "ComputerSystem" (Oid x)).
Definition all_systems (l : list Link) : Prop := NoDup l /\ forall x, x ∈ l <-> system x.
Lemma stays_getAllSystemIDs : stays getAllSystemIDs (fun o => answers all_systems o /\ (healthy w0 -> exists l, o = Ok (inr l))).
Proof.
  unfold getAllSystemIDs, smodel_GetAllKeysFromTable.
  apply (stays_bind _ _ (fun o => exists r, o = Ok r /\ match r with inr l => all_systems (mkLink <$> l) | inl _ => ~ healthy w0 end));
    [|intros ? (r & [= <-] & Hr)|by intros (? & [=] & _)].
  - intros w Hw. apply wp_connected; [done|]. clear w Hw. intros w Hw Hrd. wp_go.
    eapply wp_mono; [apply wp_keeps; [apply (keeps_GetAllDetails our_place)|apply wp_GetAllDetails; [apply Hw|done|done]]|].
    intros o w1 [[Hro Ho] Hk]. assert (later w0 w1) by (eapply later_trans; [done|by split]).
    destruct o as [[e|l]|]; [..|done]; wp_go; (split; [done|]); eexists; (split; [done|]); cbn in Ho.
    + eapply unhealthy_ro; [apply Hw|done].
    + destruct Ho as [Hnd Hl]. split; [by apply NoDup_fmap_2; [apply _|]|]. intros [id].
      rewrite list_elem_of_fmap. unfold system. rewrite <- (ro_view _ _ _ (proj1 Hw)), <- Hl. cbn [Oid]. split.
      * by intros (? & [= <-] & ?).
      * intros Hin. by exists id.
  - destruct a as [err|l].
    + eapply stays_mono; [|intros o Ho; split; [exact Ho|by intros Hh]]. case_match; refused.
    + apply stays_ret. split; [done|]. by eexists.
Qed.

Lemma stays_systems : stays getAllSystemIDs (answers all_systems).
Proof. eapply stays_mono; [apply stays_getAllSystemIDs|]. by intros o [Ho _]. Qed.

Lemma stays_errorResp e : stays (errorResp e) (answers (fun _ => True)).
Proof. unfold errorResp, bad_query. destruct (String.eqb e ""); [refused|by apply stays_ret]. Qed.
Lemma stays_ifMatches s op : stays (ifMatches s op) (answers (fun _ => True)).
Proof.
  apply (stays_loopM (fun _ _ => True)); [done| |done]. intros _ e [] _ _.
  eapply stays_mono; [apply stays_errorResp|]. by intros [[rsp|[]]|].
Qed.
Lemma stays_validate s : stays (validate s) (answers (fun _ => True)).
Proof.
  unfold validate. apply (stays_step _ _ (fun _ => True)); [|done|].
  - destruct (Contains s "and"); [apply stays_ifMatches|by apply stays_ret].
  - intros _ _. destruct (Contains s "or"); [apply stays_ifMatches|by apply stays_ret].
Qed.

(** *** Groups *)

(** The conditions a search evaluates. *)
Definition group_conditions (g : string) : list string :=
  let e := trim_parens g in
  if Contains e " and " then Split e " and " else if Contains e " or " then Split e " or " else [e].
Definition conditions_of (s : string) : list string :=
  if checkParentheses s then FindAllParens s ≫= group_conditions
  else if has_operator s
  then ((if Contains s " and " then Split s " and " else []) ++ (if Contains s " or " then Split s " or " else []))%list
  else if Contains s "not " then [default "" (Split s "not " !! 1%nat)]
  else [s].
Definition tame_condition (c : string) : bool := tame (Split c " ").

Lemma stays_evalCondition s each : tame_condition each = true -> stays (evalCondition fuel s each) (answers (fun _ => True)).
Proof.
  intros Ht. unfold evalCondition. apply (stays_step _ _ (fun _ => True)); [by apply stays_GetMembers|done|].
  intros l _. by apply stays_ret.
Qed.
Lemma stays_conditions l s : forallb tame_condition l = true -> stays (loopM l s (evalCondition fuel)) (answers (fun _ => True)).
Proof.
  rewrite forallb_forall. intros Hl.
  apply (stays_loopM (fun _ _ => True)); [done| |done]. intros pre e s' [todo ->] _.
  eapply stays_mono; [apply stays_evalCondition, Hl, in_elt|]. by intros [[rsp|?]|].
Qed.
Lemma stays_evalGroup s g : forallb tame_condition (group_conditions g) = true -> stays (evalGroup fuel s g) (answers (fun _ => True)).
Proof.
  unfold evalGroup, group_conditions. destruct (Contains _ " and "); [apply stays_conditions|].
  destruct (Contains _ " or "); [apply stays_conditions|]. intros [Ht _]%andb_true_iff. by apply stays_evalCondition.
Qed.
Lemma group_operands map_order sep ele lo : Contains ele sep = true -> sep <> "" ->
  exists l, LogicalOperation map_order (operands sep ele) lo = Ok l.
Proof. intros Hc Hs. apply two_operands. rewrite operands_length. by apply Split_length. Qed.
Lemma combineGroups_ok gs : forall s, exists s', combineGroups s gs = Ok s'.
Proof.
  induction gs as [|g gs IH]; intros s; [by eexists|]. cbn [combineGroups].
  enough (exists s', combineGroup s g = Ok s') as [s' ->] by apply IH.
  unfold combineGroup. destruct (Contains _ " and ") eqn:Ha.
  { destruct (group_operands map_order _ _ "and" Ha) as [l ->]; [done|]. by eexists. }
  destruct (Contains _ " or ") eqn:Ho; [|by eexists].
  destruct (group_operands map_order _ _ "or" Ho) as [l ->]; [done|]. by eexists.
Qed.
Lemma stays_checked_operands s sep st :
  stays (checked_operands s sep st) (answers (fun st' => length st'.2 = (length st.2 + length (Split s sep))%nat)).
Proof.
  unfold checked_operands.
  apply (stays_loopM (fun pre st' => length st'.2 = (length st.2 + length pre)%nat)); [by rewrite Nat.add_0_r| |done].
  intros pre e [[h ww] inter] _ Hl. cbn [snd] in Hl.
  eapply stays_bind; [apply stays_errorResp| |by intros ?]. intros [rsp|[]] Hr; [by apply stays_ret|].
  destruct (unmarshal_links e h ww) as [h' ww']. apply stays_ret. cbn [snd]. rewrite !length_app, Hl. cbn. lia.
Qed.
Lemma stays_combine {A} inter lo (k : list Link -> IO (sysRPC + A)) (P : A -> Prop) : (2 <= length inter)%nat ->
  (forall l, stays (k l) (answers P)) ->
  stays (let! l := lift (LogicalOperation map_order inter lo) in k l) (answers P).
Proof.
  intros Hl Hk. destruct (two_operands map_order inter lo Hl) as [l ->].
  eapply stays_bind; [apply stays_lift, eq_refl| |done]. by intros ? [= <-].
Qed.
Lemma stays_topOperators s : stays (topOperators s) (answers (fun _ => True)).
Proof.
  unfold topOperators. apply (stays_step _ _ (fun _ => True)); [apply stays_validate|done|]. intros _ _.
  apply (stays_step _ _ (fun _ => True)); [|done|].
  - destruct (Contains s " and ") eqn:Ha; [|by apply stays_ret].
    eapply stays_step; [apply stays_checked_operands|done|]. intros [[h ww] inter] Hl. cbn [snd length Nat.add] in Hl.
    apply stays_combine; [|intros l; by apply stays_ret]. rewrite length_fmap, Hl. by apply Split_length.
  - intros [st members] _. destruct (Contains s " or ") eqn:Ho; [|by apply stays_ret].
    eapply stays_step; [apply stays_checked_operands|done|]. intros [[h ww] inter] Hl. cbn [snd] in Hl.
    apply stays_combine; [|intros l; by apply stays_ret]. rewrite length_fmap, Hl.
    pose proof (Split_length s " or " Ho ltac:(done)). lia.
Qed.
Lemma stays_groupedSearch s : forallb tame_condition (FindAllParens s ≫= group_conditions) = true ->
  stays (groupedSearch fuel s) (answers (fun _ => True)).
Proof.
  rewrite forallb_forall. intros Ht. unfold groupedSearch, bad_query. destruct (negb _); [refused|].
  apply (stays_step _ _ (fun _ => True)); [|done|].
  - apply (stays_loopM (fun _ _ => True)); [done| |done]. intros pre g s' [todo E] _.
    eapply stays_mono; [apply stays_evalGroup|by intros [[rsp|?]|]]. apply forallb_forall. intros c Hc. apply Ht.
    apply list_elem_of_In, list_elem_of_bind. exists g. split; [by apply list_elem_of_In|].
    rewrite E, elem_of_app, elem_of_cons. auto.
  - intros s' _. destruct (combineGroups_ok (FindAllParens s') s') as [s'' ->].
    eapply stays_bind; [apply stays_lift, eq_refl| |done]. intros ? [= <-].
    apply (stays_step _ _ (fun _ => True)); [|done|intros l _; by apply stays_ret].
    destruct (has_operator s''); [apply stays_topOperators|by apply stays_ret].
Qed.

(** *** Conditions without groups *)

Lemma stays_plain_conditions s sep inter : forallb tame_condition (Split s sep) = true ->
  stays (conditions fuel s sep inter) (answers (fun r => length r = (length inter + length (Split s sep))%nat)).
Proof.
  rewrite forallb_forall. intros Ht.
  apply (stays_loopM (fun pre r => length r = (length inter + length pre)%nat)); [by rewrite Nat.add_0_r| |done].
  intros pre e r [todo E] Hr. apply (stays_bind _ _ (answers (fun _ => True))); [apply stays_errorResp| |by intros ?].
  intros [rsp|[]] He; [by apply stays_ret|].
  apply (stays_bind _ _ (answers (fun _ => True))); [apply stays_GetMembers, Ht; rewrite E; apply in_elt| |by intros ?].
  intros [rsp|ww] Hw; apply stays_ret; [done|]. rewrite !length_app, Hr. cbn. lia.
Qed.
Lemma stays_plainSearch s :
  forallb tame_condition ((if Contains s " and " then Split s " and " else []) ++ (if Contains s " or " then Split s " or " else [])) = true ->
  stays (plainSearch fuel s) (answers (fun _ => True)).
Proof.
  rewrite forallb_app. intros [Hta Hto]%andb_true_iff. unfold plainSearch. apply (stays_step _ _ (fun _ => True)); [apply stays_validate|done|]. intros _ _.
  apply (stays_step _ _ (fun _ => True)); [|done|].
  - destruct (Contains s " and ") eqn:Ha; [|by apply stays_ret].
    eapply stays_step; [by apply stays_plain_conditions|done|]. intros inter Hl. cbn [length Nat.add] in Hl.
    apply stays_combine; [|intros l; by apply stays_ret]. rewrite Hl. by apply Split_length.
  - intros [inter members] _. destruct (Contains s " or ") eqn:Ho; [|by apply stays_ret].
    eapply stays_step; [by apply stays_plain_conditions|done|]. intros inter' Hl.
    apply stays_combine; [|intros l; by apply stays_ret]. rewrite Hl. pose proof (Split_length s " or " Ho ltac:(done)). lia.
Qed.
Lemma stays_notSearch s : Contains s "not " = true -> tame_condition (default "" (Split s "not " !! 1%nat)) = true -> stays (notSearch fuel s) (answers (fun _ => True)).
Proof.
  intros Hn Ht. unfold notSearch. eapply stays_step; [apply stays_systems|done|]. intros all [Hall _].
  pose proof (Split_length s "not " Hn ltac:(done)) as Hl.
  destruct (lookup_lt_is_Some_2 (Split s "not ") 1%nat Hl) as [e He]. unfold GoTime.index. rewrite He in *.
  eapply stays_bind; [apply stays_lift, eq_refl|intros ? [= <-]|done].
  eapply stays_step; [by apply stays_GetMembers|done|]. intros exp _. rewrite remove_members_spec by done.
  eapply stays_bind; [apply stays_lift, eq_refl|intros ? _; by apply stays_ret|done].
Qed.
Lemma Contains_tail c s sub : Contains s (String c sub) = true -> Contains s sub = true.
Proof.
  induction s as [|d s IH]; [done|]. cbn [Contains]. rewrite HasPrefix_cons, !orb_true_iff, andb_true_iff.
  intros [[_ Hp]|Hc]; right; [|by apply IH]. destruct s; cbn [Contains]; by rewrite Hp.
Qed.
Lemma stays_searchMembers s : forallb tame_condition (conditions_of s) = true ->
  stays (searchMembers fuel s) (answers (fun _ => True)).
Proof.
  unfold searchMembers, conditions_of. destruct (checkParentheses s); [apply stays_groupedSearch|].
  destruct (has_operator s); [apply stays_plainSearch|].
  assert (Hn : Contains s " not " || Contains s "not " = Contains s "not ").
  { destruct (Contains s " not ") eqn:E; [|done]. symmetry. by eapply Contains_tail. }
  rewrite Hn. destruct (Contains s "not ") eqn:E; intros [Ht _]%andb_true_iff.
  - by apply stays_notSearch.
  - by apply stays_GetMembers.
Qed.

(** *** The responses *)

(** A collection that counts its members, or an error. *)
Definition collection_or_refusal (o : outcome sysRPC) : Prop :=
  exists rsp, o = Ok rsp /\ (refusal rsp \/ exists members, rsp = collectionRPC members).
Lemma stays_respond (m : IO (sysRPC + list Link)) (P : list Link -> Prop) : stays m (answers P) ->
  stays (let! r := m in match r with inl rsp => ret rsp | inr l => ret (collectionRPC l) end) collection_or_refusal.
Proof.
  intros Hm. eapply stays_bind; [exact Hm| |by intros ?]. intros [rsp|l] Hr; apply stays_ret; eexists; (split; [done|]).
  - by left.
  - right. by exists l.
Qed.
Lemma stays_bad_query : stays (lift bad_query) collection_or_refusal.
Proof.
  apply stays_lift. unfold bad_query.
  edestruct (@GeneralError_ok sysBody) as [e ->]; [err_args|]. eexists. split; [done|]. left. split; [in_list|by eexists].
Qed.
(** A URL whose query, if there is one, can be decoded and has tame conditions. *)
Definition safe_query (URL : string) : bool :=
  match param ← SplitN2 URL "?" !! 1%nat; query ← Split param "=" !! 1%nat; Some (param, query) with
  | Some (param, query) =>
      match decodeQuery query param with Ok s => forallb tame_condition (conditions_of s) | Panic => false end
  | None => true
  end.

Lemma stays_GetSystemsCollection URL : safe_query URL = true ->
  stays (GetSystemsCollection fuel URL) collection_or_refusal.
Proof.
  intros Hq. unfold GetSystemsCollection, safe_query in *. destruct (SplitN2 URL "?") as [|a [|param rest]];
    [eapply stays_respond, stays_systems..|]. cbn [length Nat.ltb Nat.leb lookup list_lookup mbind option_bind] in *.
  unfold SearchAndFilter. cbn [GoTime.index lookup list_lookup].
  eapply stays_bind; [apply stays_lift, eq_refl|intros ? [= <-]|done].
  destruct (Split param "=") as [|q0 [|q1 rest']]; [apply stays_bad_query..|]. cbn [lookup list_lookup mbind option_bind] in Hq.
  destruct (negb _); [apply stays_bad_query|].
  destruct (decodeQuery q1 param) as [s|] eqn:Hs; [|done].
  eapply stays_bind; [apply stays_lift, eq_refl|intros ? [= <-]|done]. by eapply stays_respond, stays_searchMembers.
Qed.
End safe.

(** ** What a condition finds *)

Definition compare (op : string) (n : Z) (s : Q) : Prop :=
  let v := inject_Z n in
  (op = "eq" /\ s == v \/ op = "ne" /\ ~ s == v \/ op = "gt" /\ v < s \/ op = "ge" /\ v <= s \/
   op = "lt" /\ s < v \/ op = "le" /\ s <= v)%Q.
(** An index of integers that are not beyond the bound of the searches. *)
Definition counting (i : string) : Prop := forall m s, zview w0 InMemory i !! m = Some s ->
  exists k, (s == inject_Z k)%Q /\ (0 <= k <= max_score)%Z.
(** Numbers whose neighbours are 64 bit integers; nothing is found at most 0. *)
Definition comparable (op : string) (n : Z) : Prop :=
  op ∈ operatorSet /\ (- 2 ^ 63 < n < 2 ^ 63 - 1)%Z /\ (op, n) <> ("le", 0%Z).

Lemma hits_ext i (t1 t2 : string -> Q -> Prop) exact ms :
  (forall m s, zview w0 InMemory i !! m = Some s -> t1 m s <-> t2 m s) -> hits i t1 exact ms -> hits i t2 exact ms.
Proof.
  intros Ht [Ha Hb]. split.
  - intros m Hm. destruct (Ha m Hm) as (s & Hs & Hx). exists s. split; [done|]. by apply Ht.
  - intros He m s Hs Hx. apply (Hb He m s Hs). by apply Ht.
Qed.
Lemma hits_app i t1 t2 exact l1 l2 : hits i t1 exact l1 -> hits i t2 exact l2 ->
  hits i (fun m s => t1 m s \/ t2 m s) exact (l1 ++ l2).
Proof.
  intros [Ha Hb] [Hc Hd]. split.
  - intros m [Hm|Hm]%elem_of_app; [destruct (Ha m Hm) as (s & Hs & Hx)|destruct (Hc m Hm) as (s & Hs & Hx)]; exists s; auto.
  - intros He m s Hs [Hx|Hx]; apply elem_of_app; [left|right]; eauto.
Qed.
Lemma shown_app flag l1 l2 : (shown flag l1 ++ shown flag l2)%list = shown flag (l1 ++ l2).
Proof. destruct flag; [done|]. symmetry. apply fmap_app. Qed.
Lemma compare_num op n s k : (s == inject_Z k)%Q -> compare op n s <->
  (op = "eq" /\ k = n \/ op = "ne" /\ k <> n \/ op = "gt" /\ n < k \/ op = "ge" /\ n <= k \/
   op = "lt" /\ k < n \/ op = "le" /\ k <= n)%Z.
Proof. intros Hs. unfold compare. by rewrite Hs, !inject_Z_injective, <- !Zlt_Qlt, <- !Zle_Qle. Qed.

Definition range_post (i : string) (test : Q -> Prop) (flag : bool) (o : outcome (string + list string)) : Prop :=
  exists ms, o = Ok (inr (shown flag ms)) /\ hits i (fun _ => test) (healthy w0) ms.
(** A range of an index of integers. *)
Lemma stays_range_of i lo hi flag (test : Q -> Prop) : entries_ok i -> counting i ->
  (forall k s, (s == inject_Z k)%Q -> (0 <= k <= max_score)%Z -> test s <-> (lo <= k <= hi)%Z) ->
  stays (smodel_GetRange i lo hi flag) (range_post i test flag).
Proof.
  intros He Hc Ht. eapply stays_mono; [by apply stays_GetRange|]. intros o (ms & -> & Hms). exists ms. split; [done|].
  eapply hits_ext; [|exact Hms]. intros m s Hs. destruct (Hc m s Hs) as (k & Hk & Hb). rewrite (Ht k s Hk Hb), Hk.
  by rewrite <- !Zle_Qle.
Qed.
Lemma stays_none i flag (test : Q -> Prop) : counting i ->
  (forall k s, (s == inject_Z k)%Q -> (0 <= k <= max_score)%Z -> ~ test s) ->
  stays (ret (inr [])) (range_post i test flag).
Proof.
  intros Hc Ht. apply stays_ret. exists []. split; [by destruct flag|]. split; [by intros m ?%elem_of_nil|].
  intros _ m s Hs Hx. destruct (Hc m s Hs) as (k & Hk & Hb). by destruct (Ht k s Hk Hb).
Qed.
Lemma int64_small n : (- 2 ^ 63 <= n < 2 ^ 63)%Z -> int64 n = n.
Proof. intros Hn. unfold int64. by apply wrap_signed_id. Qed.

Ltac eqb_go := repeat match goal with |- context [String.eqb ?a ?b] =>
  let v := eval vm_compute in (String.eqb a b) in change (String.eqb a b) with v end; cbn [orb andb].
Ltac compared :=
  let k := fresh in let s := fresh in let Hk := fresh in let Hb := fresh in
  intros k s Hk Hb; rewrite ?(compare_num _ _ _ _ Hk), ?Hk, <- ?Zlt_Qlt; unfold max_score in *;
  intuition (try discriminate; lia).
Lemma stays_compare i op n flag : entries_ok i -> counting i -> comparable op n ->
  stays (getRangeData i op n flag) (range_post i (compare op n) flag).
Proof.
  intros He Hc (Hop & Hn & Hle). unfold getRangeData. rewrite !int64_small by lia.
  apply list_elem_of_In in Hop. cbn in Hop.
  assert (Hrange : forall lo hi test, (forall k s, (s == inject_Z k)%Q -> (0 <= k <= max_score)%Z -> test s <-> (lo <= k <= hi)%Z) ->
    stays (smodel_GetRange i lo hi flag) (range_post i test flag)) by (intros; by apply stays_range_of).
  destruct Hop as [<-|[<-|[<-|[<-|[<-|[<-|[]]]]]]]; eqb_go; try (destruct (Z.eqb_spec n 0) as [-> |Hn0]);
    try (apply Hrange; compared).
  - eapply (stays_bind _ _ (range_post i (fun s => s < inject_Z n)%Q flag)); [apply Hrange; compared| |by intros (? & [=] & _)].
    intros ? (l1 & [= ->] & Hl1).
    eapply (stays_bind _ _ (range_post i (fun s => inject_Z n < s)%Q flag)); [apply Hrange; compared| |by intros (? & [=] & _)].
    intros ? (l2 & [= ->] & Hl2). apply stays_ret. exists (l1 ++ l2)%list. rewrite shown_app. split; [done|].
    eapply hits_ext; [|by apply hits_app]. intros m s Hs. destruct (Hc m s Hs) as (k & Hk & Hb).
    rewrite (compare_num _ _ _ _ Hk), Hk, <- !Zlt_Qlt. intuition (try discriminate; lia).
  - apply stays_none; [done|]. intros k s Hk Hb. rewrite (compare_num _ _ _ _ Hk). intuition (try discriminate; lia).
  - by destruct Hle.
Qed.

(** A condition that is asked for with the words [words], and the systems it is about. *)
Definition found_in (i : string) (test : string -> Q -> Prop) (x : Link) : Prop :=
  exists m s, zview w0 InMemory i !! m = Some s /\ test m s /\ x = mkLink (id_of m).
(** The value has no special characters and is not a key or an operator. *)
Record plain (key op val : string) : Prop := {
  pl_key : searchKey key = true;
  pl_op : conditionKey op = true;
  pl_op_key : searchKey op = false;
  pl_val_key : searchKey val = false;
  pl_last : validateLastParameter [key; op; val] = None;
  pl_regex : setRegexFlag val = false;
}.
Inductive asks : list string -> (Link -> Prop) -> Prop :=
| asks_number key op val n :
    number_key key = true -> list_key key = false -> counting (index_of key) ->
    AtoiErr val = inr n -> comparable op n ->
    plain key op val -> asks [key; op; val] (found_in (index_of key) (fun _ => compare op n))
| asks_text key val :
    number_key key = false -> list_key key = false -> one_page (index_of key) ->
    plain key "eq" val ->
    asks [key; "eq"; val] (found_in (index_of key) (fun m _ => glob (ToLower ("*" +:+ val +:+ "*")) m = true)).

Lemma found_shown i test (exact : Prop) ms x : exact -> hits i test exact ms ->
  x ∈ mkLink <$> shown false ms <-> found_in i test x.
Proof.
  intros He [Ha Hb]. unfold found_in. cbn [shown]. rewrite <- list_fmap_compose, list_elem_of_fmap. split.
  - intros (m & -> & Hm). destruct (Ha m Hm) as (s & Hs & Ht). by exists m, s.
  - intros (m & s & Hs & Ht & ->). exists m. split; [done|]. by eapply Hb.
Qed.

Context (ix : indexed).
(** What the values of a condition's key give. *)
Definition gives {A} (f : A -> list Link) (D : Link -> Prop) (o : outcome (sysRPC + A)) : Prop :=
  exists a, o = Ok (inr a) /\ forall x, x ∈ f a <-> D x.
Lemma stays_values key op val D : healthy w0 -> asks [key; op; val] D ->
  stays (valueMembers fuel (index_of key) op val (number_key key) (list_key key)) (gives (fmap mkLink) D).
Proof.
  intros Hh Ha. unfold valueMembers, listed.
  inversion Ha as [? ? ? n Ht Hnl Hc Hv Hop Hp|? ? Ht Hnl Hone Hp]; subst; rewrite Ht, Hnl; cbn [negb];
    (assert (Hk : searchKey key = true) by (by destruct Hp)); pose proof (ix_entries ix key Hk) as He.
  - rewrite Hv. apply (stays_bind _ _ (range_post (index_of key) (compare op n) false)); [by apply stays_compare| |by intros (? & [=] & _)].
    intros ? (ms & [= ->] & Hms). apply stays_ret. eexists. split; [done|]. intros x. by apply (found_shown _ _ (healthy w0)).
  - eqb_go. cbn [negb]. eapply stays_bind.
    + apply stays_GetString; [done|by apply (ix_texts ix); [|left]|by apply (ix_pages ix)].
    + intros ? (ms & [= ->] & Hms). apply stays_ret. eexists. split; [done|]. intros x. by apply (found_shown _ _ (healthy w0 /\ one_page (index_of key))).
    + by intros (? & [=] & _).
Qed.
Lemma stays_condition words D : healthy w0 -> asks words D -> stays (GetMembers fuel words) (gives id D).
Proof.
  intros Hh Ha. assert (exists key op val, words = [key; op; val] /\ plain key op val) as (key & op & val & -> & Hp)
    by (destruct Ha; do 3 eexists; by split).
  pose proof (stays_values _ _ _ _ Hh Ha) as Hv. destruct Hp as [Hk Hcond Hsop Hsval Hlast Hreg].
  unfold GetMembers. rewrite Hlast. cbn [length seq zip zip_with loopM].
  assert (Hother : forall amp pam st, searchKey pam = false -> exists st', memberStep fuel [key; op; val] st amp pam = ret (inr st') /\
    wk_members st' = wk_members st).
  { intros amp pam st Hs. unfold memberStep. rewrite Hs. eexists. by split. }
  apply (stays_bind _ _ (gives wk_members D)); [|intros ? (st & [= ->] & Hst); apply stays_ret; by exists (wk_members st)|by intros (? & [=] & _)].
  apply (stays_bind _ _ (gives wk_members D)); [| |by intros (? & [=] & _)].
  - unfold memberStep. rewrite Hk. cbn [lookup list_lookup wk_type wk_array wk_members orb].
    rewrite Hcond. cbn [orb]. unfold GoTime.index. cbn [lookup list_lookup].
    eapply stays_bind; [apply stays_lift, eq_refl|intros ? [= <-]|done]. rewrite Hreg. change (Replace key "\/" "/") with (index_of key).
    eapply stays_bind; [exact Hv| |by intros (? & [=] & _)]. intros ? (l & [= ->] & Hl). apply stays_ret.
    eexists. split; [done|]. exact Hl.
  - intros ? (st & [= ->] & Hst). destruct (Hother 1%nat op st Hsop) as (st1 & -> & E1).
    apply (stays_bind _ _ (gives wk_members D)); [apply stays_ret; exists st1; by rewrite E1| |by intros (? & [=] & _)].
    clear Hst. intros ? (st2 & [= ->] & Hst). destruct (Hother 2%nat val st2 Hsval) as (st3 & -> & E3).
    apply (stays_bind _ _ (gives wk_members D)); [apply stays_ret; exists st3; by rewrite E3| |by intros (? & [=] & _)].
    clear Hst. intros ? (st4 & [= ->] & Hst). apply stays_ret. by exists st4.
Qed.

(** *** Conditions that are combined *)

Definition nonempty_pieces (s op : string) : bool :=
  negb (Contains s op) || forallb (fun e => negb (String.eqb e "")) (Split s op).
Definition well_split (s : string) : bool := nonempty_pieces s "and" && nonempty_pieces s "or".
Definition passes (o : outcome (sysRPC + unit)) : Prop := o = Ok (inr tt).
Lemma stays_errorResp_ok e : negb (String.eqb e "") = true -> stays (errorResp e) passes.
Proof. intros He. unfold errorResp. destruct (String.eqb e ""); [done|]. by apply stays_ret. Qed.
Lemma stays_matches_ok s op : nonempty_pieces s op = true ->
  stays (if Contains s op then ifMatches s op else ret (inr tt)) passes.
Proof.
  unfold nonempty_pieces. destruct (Contains s op); [|intros _; by apply stays_ret]. cbn [negb orb]. intros Hall.
  apply (stays_loopM (fun _ _ => True)); [done| |by intros []]. intros pre e [] [todo E] _.
  rewrite E, forallb_app in Hall. cbn [forallb] in Hall. apply andb_true_iff in Hall as [_ [He _]%andb_true_iff].
  eapply stays_mono; [by apply stays_errorResp_ok|]. by intros ? ->.
Qed.
Lemma stays_validate_ok s : well_split s = true -> stays (validate s) passes.
Proof.
  intros [Ha Ho]%andb_true_iff. unfold validate. eapply stays_bind; [by apply stays_matches_ok|intros ? [= ->]|done].
  by apply stays_matches_ok.
Qed.

Definition asks_all : list string -> list (Link -> Prop) -> Prop := Forall2 (fun c D => asks (Split c " ") D).
Definition members_of : list (list Link) -> list (Link -> Prop) -> Prop := Forall2 (fun l D => forall x, x ∈ l <-> D x).
Lemma asks_nonempty c D : asks (Split c " ") D -> negb (String.eqb c "") = true.
Proof. intros Ha. destruct (String.eqb_spec c "") as [-> |]; [|done]. by inversion Ha. Qed.
Lemma stays_conditions_ok s sep Ds inter : healthy w0 -> asks_all (Split s sep) Ds ->
  stays (conditions fuel s sep inter) (fun o => exists ls, o = Ok (inr (inter ++ ls)%list) /\ members_of ls Ds).
Proof.
  intros Hh Hall.
  apply (stays_loopM (fun pre r => exists ls, r = (inter ++ ls)%list /\ members_of ls (take (length pre) Ds))).
  - exists []. split; [by rewrite app_nil_r|constructor].
  - intros pre c r [todo E] (ls & -> & Hls). unfold asks_all in Hall. rewrite E in Hall.
    apply Forall2_app_inv_l in Hall as (D1 & D2 & Hpre & Hrest & ->).
    apply Forall2_cons_inv_l in Hrest as (D & D2' & Hc & _ & ->). pose proof (Forall2_length _ _ _ Hpre) as Hlen.
    eapply stays_bind; [by eapply stays_errorResp_ok, asks_nonempty|intros ? [= ->]|done].
    eapply stays_bind; [by apply stays_condition| |by intros (? & [=] & _)]. intros ? (l & [= ->] & Hl).
    apply stays_ret. exists (ls ++ [l])%list. split; [by rewrite app_assoc|].
    rewrite length_app, Hlen in *. rewrite take_app_length in Hls. cbn [length]. rewrite take_app_add. cbn [take].
    apply Forall2_app; [done|]. constructor; [done|]. rewrite take_0. constructor.
  - intros r (ls & -> & Hls). exists ls. split; [done|].
    by rewrite (Forall2_length _ _ _ Hall), take_ge in Hls by done.
Qed.

(** The expression in the query of a URL. *)
Definition decoded (URL : string) : option string :=
  param ← SplitN2 URL "?" !! 1%nat;
  match Split param "=" with
  | query0 :: query1 :: _ =>
      if queryKey query0 then match decodeQuery query1 param with Ok s => Some s | Panic => None end else None
  | _ => None
  end.
Definition found_members (D : Link -> Prop) (o : outcome sysRPC) : Prop :=
  exists l, o = Ok (collectionRPC l) /\ forall x, x ∈ l <-> D x.
Lemma stays_decoded URL s D : decoded URL = Some s -> stays (searchMembers fuel s) (gives id D) ->
  stays (GetSystemsCollection fuel URL) (found_members D).
Proof.
  intros Hd Hs. unfold decoded, GetSystemsCollection in *. destruct (SplitN2 URL "?") as [|a [|param rest]]; try done.
  cbn in Hd. cbn [length Nat.ltb Nat.leb]. unfold SearchAndFilter. cbn [GoTime.index lookup list_lookup].
  eapply stays_bind; [apply stays_lift, eq_refl|intros ? [= <-]|done].
  destruct (Split param "=") as [|q0 [|q1 rest']]; try done. destruct (queryKey q0); [|done]. cbn [negb].
  destruct (decodeQuery q1 param) as [s'|]; [|done]. injection Hd as ->.
  eapply stays_bind; [apply stays_lift, eq_refl|intros ? [= <-]|done].
  eapply stays_bind; [exact Hs| |by intros (? & [=] & _)]. intros ? (l & [= ->] & Hl). apply stays_ret. by exists l.
Qed.

Definition plain_query (lo s : string) : bool :=
  negb (checkParentheses s) && well_split s && has_operator s
  && Bool.eqb (Contains s " and ") (String.eqb lo "and") && Bool.eqb (Contains s " or ") (String.eqb lo "or").
Definition combine (lo : string) (D1 D2 : Link -> Prop) (x : Link) : Prop :=
  if String.eqb lo "and" then D1 x /\ D2 x else D1 x \/ D2 x.
Lemma combined_and ls D1 D2 Ds : members_of ls (D1 :: D2 :: Ds) ->
  exists l, LogicalOperation map_order ls "and" = Ok l /\ forall x, x ∈ l <-> combine "and" D1 D2 x.
Proof.
  intros (l1 & ls1 & H1' & (l2 & ls2 & H2' & _ & ->)%Forall2_cons_inv_r & ->)%Forall2_cons_inv_r.
  destruct (LogicalOperation_and map_order l1 l2 ls2) as (l & -> & Hl & _). exists l. split; [done|].
  intros x. by rewrite Hl, H1', H2'.
Qed.
Lemma combined_or ls D1 D2 Ds : (forall l, map_order l ≡ₚ l) -> members_of ls (D1 :: D2 :: Ds) ->
  exists l, LogicalOperation map_order ls "or" = Ok l /\ forall x, x ∈ l <-> combine "or" D1 D2 x.
Proof.
  intros Ho (l1 & ls1 & H1' & (l2 & ls2 & H2' & _ & ->)%Forall2_cons_inv_r & ->)%Forall2_cons_inv_r.
  destruct (LogicalOperation_or map_order Ho l1 l2 ls2) as (l & -> & Hl & _). exists l. split; [done|].
  intros x. by rewrite Hl, H1', H2'.
Qed.
Lemma stays_combined s lo D1 D2 Ds : (forall l, map_order l ≡ₚ l) -> healthy w0 ->
  lo = "and" \/ lo = "or" -> plain_query lo s = true ->
  asks_all (Split s (" " +:+ lo +:+ " ")) (D1 :: D2 :: Ds) ->
  stays (searchMembers fuel s) (gives id (combine lo D1 D2)).
Proof.
  intros Horder Hh Hlo Hq Hall. unfold plain_query in Hq.
  apply andb_true_iff in Hq as [[[[Hp Hw]%andb_true_iff Hop]%andb_true_iff Ha]%andb_true_iff Ho].
  apply Bool.eqb_prop in Ha, Ho. apply negb_true_iff in Hp.
  unfold searchMembers, plainSearch. rewrite Hp, Hop, Ha, Ho.
  eapply stays_bind; [by apply stays_validate_ok|intros ? [= ->]|done].
  destruct Hlo as [-> | ->]; eqb_go.
  - eapply (stays_bind _ _ (fun o => exists inter l, o = Ok (inr (inter, l)) /\ forall x, x ∈ l <-> combine "and" D1 D2 x)).
    + eapply stays_bind; [by apply stays_conditions_ok| |by intros (? & [=] & _)]. intros ? (ls & [= ->] & Hls).
      destruct (combined_and _ _ _ _ Hls) as (l & -> & Hl).
      eapply stays_bind; [apply stays_lift, eq_refl|intros ? [= <-]|done]. apply stays_ret. by do 2 eexists.
    + intros ? (inter & l & [= ->] & Hl). apply stays_ret. by exists l.
    + by intros (? & ? & [=] & _).
  - eapply stays_bind; [apply stays_ret, eq_refl|intros ? [= <-]|done]. cbn iota.
    eapply stays_bind; [by apply stays_conditions_ok| |by intros (? & [=] & _)]. intros ? (ls & [= ->] & Hls).
    destruct (combined_or _ _ _ _ Horder Hls) as (l & -> & Hl).
    eapply stays_bind; [apply stays_lift, eq_refl|intros ? [= <-]|done]. apply stays_ret. by exists l.
Qed.
Lemma stays_not s a e rest D : healthy w0 -> checkParentheses s = false -> has_operator s = false -> Contains s "not " = true ->
  Split s "not " = a :: e :: rest -> asks (Split e " ") D ->
  stays (searchMembers fuel s) (gives id (fun x => system x /\ ~ D x)).
Proof.
  intros Hh Hp Ho Hn Hs Ha. unfold searchMembers, notSearch. rewrite Hp, Ho, Hn, orb_true_r.
  eapply stays_bind; [apply stays_getAllSystemIDs| |by intros [[] _]]. intros r [Hr Hok].
  destruct (Hok Hh) as [all [= ->]]. destruct Hr as [Hnd Hall].
  rewrite Hs. unfold GoTime.index. cbn [lookup list_lookup].
  eapply stays_bind; [apply stays_lift, eq_refl|intros ? [= <-]|done].
  eapply stays_bind; [by apply stays_condition| |by intros (? & [=] & _)]. intros ? (l & [= ->] & Hl).
  rewrite remove_members_spec by done. eapply stays_bind; [apply stays_lift, eq_refl|intros ? [= <-]|done].
  apply stays_ret. eexists. split; [done|]. intros x. unfold id. rewrite list_elem_of_filter, Hall. unfold id in Hl.
  rewrite Hl. tauto.
Qed.
End stays.
End search.
