(* ===== verification/SearchSpec.v ===== *)
(** The claims on the search of the systems, and their runs against the simulated server: a schema of
    the repository, three systems and their indices. *)
From stdpp Require Import base gmap list strings.
From Stdlib Require Import ZArith QArith Qround Ascii.
From S2P Require Import Prelude Go GoTime GoText Links Response Redis World ConnPool DBSpec.
From S2P Require Import RedisIndex Index Search Scenario IndexProps Frame Links SearchProps.
Open Scope string_scope.

Section claims.
Context `{IndexLaws, SingleNode, !SearchConfig, !Regexp, !MapOrder}.
Context (fuel : nat).

(** C25: A request for the systems, with or without a search, is answered with a collection that counts
    its members or with one of four errors, whatever commands fail, and writes nothing: it does not
    panic when the escapes of the query are complete, no condition has two keys or a value that reads
    as NaN, and the indices of the schema are those [CreateIndex] makes. *)
Theorem GetSystemsCollection_safe URL w : wf w -> indexed fuel w -> safe_query URL = true ->
  wp (GetSystemsCollection fuel URL) (fun o w' => ro w w' /\ collection_or_refusal o) w.
Proof.
  intros Hwf Hix Hq. eapply wp_mono; [by apply (stays_GetSystemsCollection fuel w Hix), later_refl|].
  by intros o w' [[Hro _] Ho].
Qed.

(** C26: Reading an index of integers between 0 and 100000000 for a comparison finds the entries whose
    score compares with the number as the operator says, for every operator and every number whose
    neighbours are 64 bit integers, with the one exception of "le" 0, which finds nothing even where the
    index has zeros; nothing else is found whatever commands fail. *)
Theorem getRangeData_compares i op n flag w : wf w -> entries_ok w i -> counting w i -> comparable op n ->
  wp (getRangeData i op n flag) (fun o w' => ro w w' /\
    exists ms, o = Ok (inr (shown flag ms)) /\ hits w i (fun _ => compare op n) (healthy w) ms) w.
Proof.
  intros Hwf He Hc Hop. eapply wp_mono; [by apply stays_compare, later_refl|]. by intros o w' [[Hro _] Ho].
Qed.


(** In a healthy process a search with "not" answers the systems of the database that the
    condition does not find. *)
Theorem search_excludes URL s a e rest D w : wf w -> healthy w -> indexed fuel w -> decoded URL = Some s ->
  checkParentheses s = false -> has_operator s = false -> Contains s "not " = true ->
  Split s "not " = a :: e :: rest -> asks w (Split e " ") D ->
  wp (GetSystemsCollection fuel URL) (fun o w' => ro w w' /\ found_members (fun x => system w x /\ ~ D x) o) w.
Proof.
  intros Hwf Hh Hix Hd Hp Ho Hn Hs Ha. eapply wp_mono.
  - apply (stays_decoded fuel w URL s (fun x => system w x /\ ~ D x)); [done| |by apply later_refl]. by eapply stays_not.
  - by intros o w' [[Hro _] Ho'].
Qed.

(** The entries of an index keep the form value::identifier when the index of a resource is
    written, whatever fails: the form the searches rely on. *)
Theorem CreateIndex_keeps_entries form uuid i w : wf w -> ready InMemory w -> NoDup form.*1 -> entries_ok w i ->
  wp (CreateIndex InMemory form uuid) (fun _ w' => entries_ok w' i) w.
Proof.
  intros Hwf Hrd Hnd He. eapply wp_mono; [by apply wp_CreateIndex|]. intros o w' (_ & Hfrom & _) m [s Hs].
  destruct (Hfrom _ _ _ _ Hs) as [Ho|(_ & v & _ & Hv)]; [by apply He; eexists|]. by eapply form_entry_entry.
Qed.
End claims.

(** Decoding a query panics exactly when a percent sign is not followed by two characters. *)
Theorem decodeQuery_panics query param :
  decodeQuery query param = Panic <-> complete_escapes query = false.
Proof.
  unfold decodeQuery, complete_escapes. destruct (Split query "%") as [|a [|b l]]; [done..|]. cbn [tail].
  rewrite <- percent_parts_panics. by destruct (percent_parts (b :: l)).
Qed.

(** A slice of links that is not empty is read back from its text, into a slice of its own. *)
Theorem links_roundtrip l h : l <> [] ->
  exists h' s, unmarshal_links (marshal_links (Some l)) h None = (h', Some s) /\ elements h' (Some s) = l.
Proof.
  intros Hl. destruct (unmarshal_fresh l h Hl) as (h' & a & arr & E & Ha & Hlen & Ht). exists h', (mkslice a (length l)).
  split; [done|]. unfold elements. cbn [len_of s_len]. by rewrite (array_of_some _ _ _ _ Ha).
Qed.

(** The conditions of a group in parentheses share one array: when the second finds no fewer
    systems than the first, the group joined with "and" answers the first of those the second finds,
    as many as the first found, whatever these are. *)
Theorem group_and_overlaid (order : list Link -> list Link) l1 l2 ele : l1 <> [] -> (length l1 <= length l2)%nat ->
  Split ele " and " = [marshal_links (Some l1); marshal_links (Some l2)] ->
  exists l, LogicalOperation order (operands " and " ele) "and" = Ok l /\
    forall x, x ∈ l <-> x ∈ take (length l1) l2.
Proof.
  intros H1 Hlen Hs. unfold operands. rewrite Hs. pose proof (operands_overlaid l1 l2 H1) as Ho.
  destruct (unmarshal_all _ _ _ _) as [[h ww] inter]. rewrite Ho by (by destruct l1, l2; try done; cbn in Hlen; lia).
  rewrite take_app_le by done. destruct (LogicalOperation_and order (take (length l1) l2) l2 []) as (l & -> & Hl & _).
  exists l. split; [done|]. intros x. rewrite Hl. split; [by intros [? _]|]. intros Hx. split; [done|].
  by eapply elem_of_take in Hx as (i & Hx & _); eapply list_elem_of_lookup_2.
Qed.

Section scenario.
#[local] Existing Instances single single_node.

(** The schema of lib-utilities/config/schema.json. *)
Definition schema_types : list (string * string) :=
  [("ProcessorSummary/Count", "float64"); ("ProcessorSummary/Model", "string"); ("SystemType", "string");
   ("MemorySummary/TotalSystemMemoryGiB", "float64"); ("ProcessorSummary/sockets", "float64");
   ("Processor/AccelerationFunctions/Compression", "string"); ("Processor/AccelerationFunctions/AudioProcessing", "string");
   ("Processor/AccelerationFunctions/Encryption", "string"); ("Processor/AccelerationFunctions/PacketInspection", "string");
   ("Processor/AccelerationFunctions/PacketSwitch", "string"); ("Processor/AccelerationFunctions/Scheduler", "string");
   ("Processor/AccelerationFunctions/VideoProcessing", "string"); ("NetworkInterfaces/NetworkPorts", "string");
   ("NetworkInterfaces/Model", "string"); ("NetworkInterfaces/Bandwidth", "string"); ("FirmwareVersion", "string");
   ("Storage/Drives/Quantity", "float64"); ("Storage/Drives/Capacity", "[]float64"); ("Storage/Drives/Type", "[]string")].
Definition search_schema : Schema := {|
  SearchKeys := (fun kt => {[ kt.1 := {[ "type" := kt.2 ]} ]}) <$> schema_types;
  ConditionKeys := operatorSet;
  QueryKeys := ["filter"] |}.
#[local] Instance search_config : SearchConfig := {| SF := search_schema |}.
(** Expressions without special characters, and maps that are visited in the order of insertion. *)
#[local] Instance plain_regexp : Regexp := {| regexp_MatchString p s := Some (Contains s p) |}.
#[local] Instance as_listed : MapOrder := {| map_order l := l |}.

Definition sys (n : string) : string := "/redfish/v1/Systems/" +:+ n.
Definition of_sys (v n : string) : string := v +:+ "::" +:+ sys n.
Definition system_tables : gmap string jtext :=
  {[ saveID "ComputerSystem" (sys "a") := Text (JStr "{}"); saveID "ComputerSystem" (sys "b") := Text (JStr "{}");
     saveID "ComputerSystem" (sys "c") := Text (JStr "{}") ]}.
Definition system_indices : gmap (addr * string) zset :=
  {[ (inmem_addr, "ProcessorSummary/Count") := {[ of_sys "1" "a" := 1%Q; of_sys "2" "b" := 2%Q; of_sys "4" "c" := 4%Q ]};
     (inmem_addr, "MemorySummary/TotalSystemMemoryGiB") :=
       {[ of_sys "64" "a" := 64%Q; of_sys "191.5" "b" := (383 # 2)%Q; of_sys "384" "c" := 384%Q ]};
     (inmem_addr, "SystemType") := {[ of_sys "physical" "a" := 0%Q; of_sys "virtual" "b" := 0%Q; of_sys "physical" "c" := 0%Q ]};
     (inmem_addr, "Storage/Drives/Capacity") := {[ of_sys "[600.5 1200]" "a" := 0%Q; of_sys "[300]" "c" := 0%Q ]} ]}.
Definition search_world (faults : list (option Sim.fault)) : @World Sim.sim_env :=
  with_env (Sim.mk {[ inmem_addr := system_tables ]} 0 10 faults system_indices) (sim_world ∅ ∅ 0 []).

Definition ask_in (w : @World Sim.sim_env) (s : string) : outcome (Z * list string) :=
  match (GetSystemsCollection 1 ("/redfish/v1/Systems?$filter=" +:+ Replace s " " "%20") w).1 with
  | Ok r => Ok (StatusCode r, match RBody r with Body (BCollection c) => Oid <$> c_Members c | _ => [] end)
  | Panic => Panic
  end.
Definition ask : string -> outcome (Z * list string) := ask_in (search_world []).

(** *** The hypotheses hold *)

Lemma search_world_wf faults : wf (search_world faults).
Proof. intros []; simpl; auto. Qed.
Lemma search_world_healthy : healthy (search_world []).
Proof.
  destruct (sim_healthy ∅ ∅ 0) as [_ Hd]. split; [reflexivity|]. intros db (p & Hp & Hw). apply (Hd db).
  exists p. split; [|done]. by destruct db.
Qed.
Definition schema_keys : list string := schema_types.*1.
Lemma searchKey_in pam : searchKey pam = true -> pam ∈ schema_keys.
Proof.
  unfold searchKey. rewrite existsb_exists. intros (v & Hv & Hs). apply bool_decide_eq_true in Hs as [t Ht].
  apply list_elem_of_In in Hv. change (SearchKeys SF) with (SearchKeys search_schema) in Hv.
  apply list_elem_of_fmap in Hv as ([k ty] & -> & Hin). apply lookup_singleton_Some in Ht as [<- _].
  apply list_elem_of_fmap. by exists (k, ty).
Qed.
(** The conditions on the index of a key, computed. *)
Definition entry_check (m : string) : bool := match Split m "::" !! 1%nat with Some _ => true | None => false end.
Definition index_check (pam : string) : bool :=
  forallb (fun ms : string * Q => entry_check ms.1
      && (negb (negb (number_key pam) || list_key pam) || Qeq_bool ms.2 0)
      && (negb (list_key pam) || forallb (fun v => negb (reads_nan (ParseFloat v))) (list_values ms.1)))
    (map_to_list (default ∅ (system_indices !! (inmem_addr, index_of pam)))).
Lemma index_checked pam faults m s : searchKey pam = true ->
  zview (search_world faults) InMemory (index_of pam) !! m = Some s ->
  entry m /\ (number_key pam = false \/ list_key pam = true -> s == 0)%Q /\ (list_key pam = true -> numeric m).
Proof.
  intros Hk Hs. assert (Hc : forallb index_check schema_keys = true) by (vm_compute; reflexivity).
  rewrite forallb_forall in Hc. specialize (Hc pam (proj1 (list_elem_of_In _ _) (searchKey_in _ Hk))).
  unfold index_check in Hc. rewrite forallb_forall in Hc. specialize (Hc (m, s)).
  assert (Hin : In (m, s) (map_to_list (default ∅ (system_indices !! (inmem_addr, index_of pam)))))
    by (by apply list_elem_of_In, elem_of_map_to_list).
  specialize (Hc Hin). apply andb_true_iff in Hc as [[He Hz]%andb_true_iff Hn]. cbn [fst snd] in *. split_and!.
  - unfold entry_check in He. unfold entry. by destruct (Split m "::" !! 1%nat).
  - intros Ht. apply Qeq_bool_iff. apply orb_true_iff in Hz as [Hz|Hz]; [|done]. apply negb_true_iff, orb_false_iff in Hz as [Ha Hb].
    apply negb_false_iff in Ha. destruct Ht; congruence.
  - intros Ht. apply orb_true_iff in Hn as [Hn|Hn]; [|done]. apply negb_true_iff in Hn. congruence.
Qed.
Lemma search_world_indexed faults : indexed 1 (search_world faults).
Proof.
  split.
  - intros k. unfold conditionKey. rewrite existsb_exists. intros (k' & Hk & <-%String.eqb_eq). by apply list_elem_of_In.
  - intros pam Hk m [s Hs]. by eapply index_checked.
  - intros pam Hk Ht m s Hs. by eapply index_checked.
  - intros pam Hk Hl m [s Hs]. by eapply index_checked.
  - intros i. simpl. lia.
Qed.

(** The conditions of the runs below. *)
Definition count_above (n : Z) : Link -> Prop :=
  found_in (search_world []) "ProcessorSummary/Count" (fun _ => compare "gt" n).
Definition type_like (v : string) : Link -> Prop :=
  found_in (search_world []) "SystemType" (fun m _ => glob (ToLower ("*" +:+ v +:+ "*")) m = true).
Definition score_check (q : Q) : bool :=
  let k := Qfloor q in Qeq_bool q (inject_Z k) && (0 <=? k)%Z && (k <=? max_score)%Z.
Lemma count_counting : counting (search_world []) "ProcessorSummary/Count".
Proof.
  intros m s. set (z := zview (search_world []) InMemory "ProcessorSummary/Count"). intros Hs.
  assert (Hc : forallb (fun ms : string * Q => score_check ms.2) (map_to_list z) = true) by (vm_compute; reflexivity).
  clearbody z. rewrite forallb_forall in Hc. specialize (Hc (m, s)). exists (Qfloor s).
  assert (Hin : In (m, s) (map_to_list z)) by (by apply list_elem_of_In, elem_of_map_to_list).
  apply Hc in Hin. apply andb_true_iff in Hin as [[Hq Hlo]%andb_true_iff Hhi].
  apply Qeq_bool_iff in Hq. by rewrite Z.leb_le in Hlo, Hhi.
Qed.
Lemma asks_count val n : AtoiErr val = inr n -> comparable "gt" n ->
  plain "ProcessorSummary/Count" "gt" val -> asks (search_world []) ["ProcessorSummary/Count"; "gt"; val] (count_above n).
Proof. intros Hv Hn Hp. by apply (asks_number _ "ProcessorSummary/Count" "gt" val n); [..|apply count_counting| | |]. Qed.
Lemma above_1 : asks (search_world []) (Split "ProcessorSummary/Count gt 1" " ") (count_above 1).
Proof.
  replace (Split _ _) with ["ProcessorSummary/Count"; "gt"; "1"] by (vm_compute; reflexivity).
  apply asks_count; [reflexivity| |by constructor].
  split_and!; [by apply list_elem_of_In; vm_compute; auto|done|done|done].
Qed.
Lemma physical : asks (search_world []) (Split "SystemType eq Physical" " ") (type_like "Physical").
Proof.
  replace (Split _ _) with ["SystemType"; "eq"; "Physical"] by (vm_compute; reflexivity).
  apply (asks_text _ "SystemType" "Physical"); [reflexivity|reflexivity|reflexivity|by constructor].
Qed.
Lemma both_conditions : asks_all (search_world [])
  (Split "SystemType eq Physical and ProcessorSummary/Count gt 1" (" " +:+ "and" +:+ " ")) [type_like "Physical"; count_above 1].
Proof.
  replace (Split _ _) with ["SystemType eq Physical"; "ProcessorSummary/Count gt 1"] by (vm_compute; reflexivity).
  constructor; [apply physical|]. constructor; [apply above_1|constructor].
Qed.

Lemma GetSystemsCollection_safe_witness :
  wp (GetSystemsCollection 1 "/redfish/v1/Systems?$filter=(Storage/Drives/Capacity%20gt%20500)%20or%20(SystemType%20eq%20Physical)")
     (fun o w' => ro (search_world [Some Sim.timeout]) w' /\ collection_or_refusal o) (search_world [Some Sim.timeout]).
Proof.
  apply GetSystemsCollection_safe; [apply search_world_wf|apply search_world_indexed|vm_compute; reflexivity].
Defined.
Lemma getRangeData_compares_witness :
  wp (getRangeData "ProcessorSummary/Count" "ne" 2 false) (fun o w' => ro (search_world []) w' /\
    exists ms, o = Ok (inr (shown false ms)) /\
      hits (search_world []) "ProcessorSummary/Count" (fun _ => compare "ne" 2) (healthy (search_world [])) ms) (search_world []).
Proof.
  apply getRangeData_compares; [apply search_world_wf| |apply count_counting|].
  - apply (ix_entries _ _ (search_world_indexed []) "ProcessorSummary/Count"). reflexivity.
  - split_and!; [by apply list_elem_of_In; vm_compute; auto|done|done|done].
Defined.
Lemma search_excludes_witness :
  wp (GetSystemsCollection 1 "/redfish/v1/Systems?$filter=not%20SystemType%20eq%20Physical")
     (fun o w' => ro (search_world []) w' /\
        found_members (fun x => system (search_world []) x /\ ~ type_like "Physical" x) o) (search_world []).
Proof.
  apply (search_excludes 1 _ "not SystemType eq Physical" "" "SystemType eq Physical" []);
    [apply search_world_wf|apply search_world_healthy|apply search_world_indexed|vm_compute; reflexivity..|apply physical].
Defined.
Lemma CreateIndex_keeps_entries_witness :
  wp (CreateIndex InMemory system_form (sys "d")) (fun _ w' => entries_ok w' "SystemType") (search_world []).
Proof.
  apply CreateIndex_keeps_entries; [apply search_world_wf|by eexists| |].
  - by apply (bool_decide_unpack _); vm_compute.
  - apply (ix_entries _ _ (search_world_indexed []) "SystemType"). reflexivity.
Defined.
Lemma links_roundtrip_witness :
  exists h' s, unmarshal_links (marshal_links (Some [mkLink (sys "a")])) [] None = (h', Some s) /\
    elements h' (Some s) = [mkLink (sys "a")].
Proof. by apply links_roundtrip. Defined.
(** Two groups without a common member. *)
Lemma group_and_overlaid_witness :
  exists l, LogicalOperation (fun l => l) (operands " and "
      (marshal_links (Some [mkLink (sys "b")]) +:+ " and " +:+ marshal_links (Some [mkLink (sys "a")]))) "and" = Ok l /\
    forall x, x ∈ l <-> x ∈ [mkLink (sys "a")].
Proof. apply (group_and_overlaid _ [mkLink (sys "b")] [mkLink (sys "a")]); [done|cbn; lia|vm_compute; reflexivity]. Defined.

(** *** Runs *)

Example run_number : ask "ProcessorSummary/Count gt 1" = Ok (200%Z, [sys "b"; sys "c"]).
Proof. vm_compute. reflexivity. Qed.
Example run_text : ask "SystemType eq Physical" = Ok (200%Z, [sys "c"; sys "a"]).
Proof. vm_compute. reflexivity. Qed.
Example run_list : ask "Storage/Drives/Capacity gt 500" = Ok (200%Z, [sys "a"]).
Proof. vm_compute. reflexivity. Qed.
(** 191.5 is greater than 191: the bound of the range is the next integer. *)
Example run_fraction : ask "MemorySummary/TotalSystemMemoryGiB gt 191" = Ok (200%Z, [sys "c"]).
Proof. vm_compute. reflexivity. Qed.
(** The next integer of the greatest one is the least one. *)
Example run_overflow : ask "ProcessorSummary/Count gt 9223372036854775807" = Ok (200%Z, [sys "a"; sys "b"; sys "c"]).
Proof. vm_compute. reflexivity. Qed.
(** The third condition has no influence. *)
Example run_third : ask "SystemType eq Physical and ProcessorSummary/Count gt 1 and ProcessorSummary/Count gt 7"
  = Ok (200%Z, [sys "c"]).
Proof. vm_compute. reflexivity. Qed.
(** No system is both. *)
Example run_group_and : ask "(SystemType eq Virtual and ProcessorSummary/Count eq 1)" = Ok (200%Z, [sys "a"]).
Proof. vm_compute. reflexivity. Qed.
(** The three systems are of one of the two types. *)
Example run_groups_or : ask "(SystemType eq Physical) or (SystemType eq Virtual)" = Ok (200%Z, [sys "a"; sys "b"]).
Proof. vm_compute. reflexivity. Qed.
(** A member without a link. *)
Example run_no_members : ask "(SystemType eq Unknown)" = Ok (200%Z, [""]).
Proof. vm_compute. reflexivity. Qed.
Example run_nan : ask "Storage/Drives/Capacity eq nan" = Panic.
Proof. vm_compute. reflexivity. Qed.
Example run_list_ne : ask "Storage/Drives/Capacity ne 300" = Ok (200%Z, []).
Proof. vm_compute. reflexivity. Qed.
Example run_escape : ask "ProcessorSummary/Count gt%2" = Panic.
Proof. vm_compute. reflexivity. Qed.
(** The connection fails. *)
Example run_unavailable : ask_in (search_world [Some Sim.timeout]) "ProcessorSummary/Count gt 1" = Ok (200%Z, []).
Proof. vm_compute. reflexivity. Qed.
(** The flag of the list key stays set for the next one, whose scores are taken for entries. *)
Example run_two_keys : ask "Storage/Drives/Capacity gt 1 ProcessorSummary/Count gt 1" = Panic.
Proof. vm_compute. reflexivity. Qed.
End scenario.
