(* ===== verification/TaskProps.v ===== *)
(** The handlers of the task service, against the interface [TaskStore]. *)
From stdpp Require Import base gmap list strings.
From Stdlib Require Import Ascii.
From S2P Require Import Prelude Go GoTime Response Redis World RedisIndex AsModel TModel THandle TaskSpec TModelProps.
Open Scope string_scope.

(** ** The change of a task's state *)

(** The states a task may be set to; the first four end it. *)
Definition final_state (st : string) : bool := one_of st ["Completed"; "Killed"; "Cancelled"; "Exception"].
Definition known_state (st : string) : bool :=
  final_state st || one_of st ["Cancelling"; "Interrupted"; "New"; "Pending"; "Running"; "Service";
                               "Starting"; "Stopping"; "Suspended"].
(** Only a completed task may have the status OK. *)
Definition final_status (st status : string) : bool :=
  one_of status ["Critical"; "Warning"] || (String.eqb st "Completed" && String.eqb status "OK").

(** May a task in the state [from] be set to [to]? *)
Definition allowed (from to status : string) (endTime : Z) : bool :=
  negb (String.eqb from Cancelled) && (negb (String.eqb from Cancelling) || String.eqb to Cancelled) &&
  known_state to && (negb (final_state to) || (final_status to status && negb (endTime =? zero_time)%Z)).

(** [t'] is [t] in a new state: what identifies the task and its place among the others is kept, and
    only the end of the task sets its status and its end time. *)
Record changed (to status : string) (endTime : Z) (t t' : Task) : Prop := {
  ch_state : t_TaskState t' = to;
  ch_identity : (t_ID t', t_URI t', t_UserName t', t_Name t', t_TaskMonitor t', t_StartTime t', t_HidePayload t') =
                (t_ID t, t_URI t, t_UserName t, t_Name t, t_TaskMonitor t, t_StartTime t, t_HidePayload t);
  ch_family : (t_ParentID t', t_ChildTaskIDs t', t_Messages t') = (t_ParentID t, t_ChildTaskIDs t, t_Messages t);
  ch_final : final_state to = true -> t_TaskStatus t' = status /\ t_EndTime t' = endTime;
  ch_running : final_state to = false -> t_TaskStatus t' = t_TaskStatus t /\ t_EndTime t' = t_EndTime t;
}.

(** Numbers of a request are int32. *)
Definition wf_payload (p : option ProtoPayload) : Prop :=
  match p with None => True | Some p => int32 (pp_StatusCode p) = pp_StatusCode p end.

Lemma final_status_completed status :
  final_status "Completed" status = one_of status ["Critical"; "Warning"; "OK"].
Proof.
  unfold final_status, one_of. cbn [existsb]. rewrite String.eqb_refl.
  by destruct (String.eqb status "Critical"), (String.eqb status "Warning"), (String.eqb status "OK").
Qed.
Lemma final_status_other st status : String.eqb st "Completed" = false ->
  final_status st status = one_of status ["Critical"; "Warning"].
Proof. intros Hst. unfold final_status. by rewrite Hst, orb_false_r. Qed.

(** The switch accepts exactly what [allowed] says of the new state, and makes the change. *)
Lemma changeState_spec id to status percent p endTime t :
  match changeState id to status percent p endTime t with
  | inr (t', _, _) =>
      known_state to = true /\ (final_state to = true -> final_status to status = true /\ endTime <> zero_time) /\
      changed to status endTime t t' /\
      (wf_task t -> wf_payload p -> int32 percent = percent -> wf_task t')
  | inl _ => known_state to && (negb (final_state to) || (final_status to status && negb (endTime =? zero_time)%Z)) = false
  end.
Proof.
  unfold changeState.
  assert (Hwf : forall u, wf_payload p -> int32 percent = percent ->
    wf_task u -> wf_task (set_PercentComplete percent (set_result p u)) /\
    wf_task (set_PercentComplete percent (set_code p u)) /\ wf_task (set_PercentComplete percent u)).
  { intros u Hp Hpc [Hu1 Hu2]. unfold wf_task. destruct p; cbn in *; auto. }
  cbv zeta beta.
  repeat match goal with
  | |- context [if String.eqb to ?x then _ else _] =>
      destruct (String.eqb_spec to x) as [-> |?]
  end.
  1-4: match goal with |- context [negb (one_of ?st ?l)] => destruct (one_of st l) eqn:Es end;
    cbn [negb]; [destruct (endTime =? zero_time)%Z eqn:Ee|].
  22: { unfold known_state, final_state, one_of. cbn [existsb].
        by rewrite !(proj2 (String.eqb_neq _ _)) by done. }
  all: rewrite ?final_status_completed, ?final_status_other by done; rewrite ?Es; try done.
  all: split; [done|split; [first [by intros [=] | intros _; split; [done|by apply Z.eqb_neq]]|split]].
  all: try (by destruct p; split).
  all: intros [? ?] ? ?; try by split.
  all: match goal with
       | |- wf_task (set_PercentComplete _ (set_result _ ?u)) => apply (Hwf u)
       | |- wf_task (set_PercentComplete _ (set_code _ ?u)) => apply (Hwf u)
       end; [done|done|by split].
Qed.

Section handlers.
Context {S : Type} `{TaskStore S ts} `{Config}.
Implicit Types (s : S) (id : string).

(** ** Updating a task *)

Definition update_post s id to status endTime (o : outcome err) s' : Prop :=
  match o with
  | Ok None => exists t t' mid text z e,
      task_of s id = Some t /\ allowed (t_TaskState t) to status endTime = true /\
      changed to status endTime t t' /\
      becomes (mkview (put id (doc t') (docs s)) z e (v_threads (shows s))) s s' /\
      (z = v_index (shows s) \/ (indexed t' = true /\ z = add_entry t' (v_index (shows s)))) /\
      (calm s -> indexed t' = true -> z = add_entry t' (v_index (shows s))) /\
      (e = v_events (shows s) \/ e = (v_events (shows s) ++ [(t_URI t, mid, "StatusChange", text)])%list) /\
      (bus_up s -> e = (v_events (shows s) ++ [(t_URI t, mid, "StatusChange", text)])%list)
  | Ok (Some _) =>
      (stays s s' /\ (calm s -> match task_of s id with
                                | Some t => allowed (t_TaskState t) to status endTime = false
                                | None => True
                                end)) \/
      (~ calm s /\ exists t t' z, task_of s id = Some t /\ allowed (t_TaskState t) to status endTime = true /\
         changed to status endTime t t' /\
         becomes (mkview (put id (doc t') (docs s)) z (v_events (shows s)) (v_threads (shows s))) s s')
  | Panic => False
  end.

(** What the guards and the switch say of a task. *)
Lemma allowed_guards from to status endTime :
  (if String.eqb from Cancelled then false
   else if String.eqb from Cancelling && negb (String.eqb to Cancelled) then false
   else known_state to && (negb (final_state to) || (final_status to status && negb (endTime =? zero_time)%Z)))
  = allowed from to status endTime.
Proof.
  unfold allowed. destruct (String.eqb from Cancelled); [done|].
  destruct (String.eqb from Cancelling), (String.eqb to Cancelled); done.
Qed.

Lemma wp_updateTaskUtil id to status percent p endTime s :
  sound s -> wf_payload p -> int32 percent = percent ->
  wp (updateTaskUtil ts id to status percent p endTime) (update_post s id to status endTime) s.
Proof.
  intros Hs Hp Hpc. unfold updateTaskUtil. law get_law. intros o s1 [Hst Ho]. wp_go.
  destruct o as [[e|t]|]; [| |done]; wp_go.
  { left. split; [done|]. intros Hc. by rewrite Ho. }
  pose proof (allowed_guards (t_TaskState t) to status endTime) as Hg.
  destruct (String.eqb (t_TaskState t) Cancelled).
  { wp_go. left. split; [done|]. intros _. by rewrite Ho, <- Hg. }
  destruct (String.eqb (t_TaskState t) Cancelling && negb (String.eqb to Cancelled)).
  { wp_go. left. split; [done|]. intros _. by rewrite Ho, <- Hg. }
  pose proof (changeState_spec id to status percent p endTime t) as Hcs.
  destruct (changeState id to status percent p endTime t) as [e|[[t' mid] text]].
  { wp_go. left. split; [done|]. intros _. by rewrite Ho, <- Hg. }
  destruct Hcs as (Hk & Hfin & Hch & Hwf).
  destruct (typed_law _ _ _ Hs Ho) as [Hid Hwt]. specialize (Hwf Hwt Hp Hpc).
  assert (Hid' : t_ID t' = id) by (by pose proof (ch_identity _ _ _ _ _ Hch) as [= ? _ _ _ _ _ _]; congruence).
  assert (Hall : allowed (t_TaskState t) to status endTime = true).
  { rewrite <- Hg, Hk. destruct (final_state to); [|done]. destruct Hfin as [-> Hne]; [done|]. cbn.
    by apply negb_true_iff, Z.eqb_neq. }
  law update_law. intros o s2 [_ Hu]. rewrite Hid' in Hu.
  pose proof (sv_index _ _ (stays_view _ _ Hst)) as Hi. rewrite Hi, !(stays_docs _ _ _ Hst) in Hu.
  assert (Hdoc : is_Some (docs s id)) by (unfold task_of in Ho; by destruct (docs s id)).
  set (f z v := with_index z (with_docs (put id (doc t') (v_docs v)) v)).
  destruct o as [[e|]|]; [| |done]; wp_go.
  - destruct Hu as [[Hst2 Hn]|(Hn & z & Hb & _)].
    + left. split; [by eapply stays_trans|]. intros Hc. exfalso.
      destruct Hdoc as [v Hv]. by rewrite Hn in Hv; [|by eapply stays_calm].
    + right. split; [by eapply stays_uncalm|]. exists t, t', z. split_and!; [done..|].
      by apply (stays_then s s1 s2 (f z)); [same_views|..].
  - destruct Hu as (_ & z & Hb & Hz & Hzc).
    apply (stays_then s s1 s2 (f z)) in Hb; [|same_views|done].
    law publish_law; [by apply Hb|]. intros o s3 (_ & -> & e & Hb3 & He & Hbus). wp_go.
    rewrite (sv_events _ _ (be_shows _ _ _ Hb)) in He, Hbus. cbn in He, Hbus.
    assert (Huri : t_URI t' = t_URI t) by (by pose proof (ch_identity _ _ _ _ _ Hch) as [= _ ? _ _ _ _ _]).
    rewrite Huri in He, Hbus.
    exists t, t', mid, text, z, e. split_and!; [done|done|done| |done| |done|].
    + by apply (becomes_then (f z (shows s)) s s2 s3 (with_events e)) in Hb3; [|same_views|exact Hb].
    + intros Hc. apply Hzc. by eapply stays_calm.
    + intros Hbs. by apply Hbus, Hb.
Qed.
(** ** Creating tasks *)

Definition new_task (userName id : string) (now : Z) : Task :=
  mkTask "" None id (tasksURI +:+ "/" +:+ id) userName ("Task " +:+ id) false zeroPayload 0
    ("/taskmon/" +:+ id) "New" "OK" 0 None None now zero_time.
Lemma new_task_wf u id now : wf_task (new_task u id now).
Proof. by split. Qed.

(** No task can be created for a user, or the new identifier is taken. *)
Definition not_creatable s (userName : string) : Prop :=
  userName = "" \/ ~ user_known s userName \/ exists id, task_id id /\ ~ free (docs s id).

Definition create_post s userName (o : outcome (or_err string)) s' : Prop :=
  (scannable s -> scannable s') /\
  let stored id now := becomes (with_docs (put id (doc (new_task userName id now)) (docs s)) (shows s)) s s' in
  match o with
  | Ok (inr uri) => exists id now, task_id id /\ uri = tasksURI +:+ "/" +:+ id /\ userName <> "" /\
      user_known s userName /\ (instant s <= now <= instant s')%Z /\ stored id now /\
      (calm s -> free (docs s id))
  | Ok (inl _) => (stays s s' /\ (calm s -> not_creatable s userName)) \/
                  (~ calm s /\ exists id now, task_id id /\ stored id now)
  | Panic => False
  end.

Lemma wp_CreateTaskUtil userName s : sound s ->
  wp (CreateTaskUtil ts userName) (create_post s userName) s.
Proof.
  intros Hs. unfold CreateTaskUtil. destruct (String.eqb_spec userName "") as [-> |Hne].
  { wp_go. split; [done|]. left. split; [by apply stays_refl|]. by left. }
  law known_law. intros o s1 [Hst Ho]. wp_go. destruct o as [[e|]|]; [| |done]; wp_go.
  { split; [apply Hst|]. left. split; [done|]. intros Hc. right. left. auto. }
  law now_law. intros o s2 (Hst2 & now & -> & Hnow). wp_go.
  law uuid_law. intros o s3 (Hst3 & u & -> & Hu). wp_go.
  assert (Hall : stays s s3) by (eauto using stays_trans).
  law persist_law; [apply new_task_wf|]. intros o s4 [Hscan Hp]. cbn [t_ID] in Hp. wp_go.
  set (id := "task" +:+ u) in *. assert (Hid : task_id id) by (by exists u).
  change (mkTask _ _ id _ _ _ _ _ _ _ _ _ _ _ _ now _) with (new_task userName id now) in *.
  rewrite (stays_docs _ _ _ Hall) in Hp.
  set (f v := with_docs (put id (doc (new_task userName id now)) (v_docs v)) v).
  assert (Hsto : becomes (f (shows s3)) s3 s4 -> becomes (f (shows s)) s s4).
  { intros Hb. apply (stays_then s s3 s4 f); [same_views|done..]. }
  assert (Hsc : scannable s -> scannable s4) by (intros ?; by apply Hscan, Hall).
  destruct o as [[e|]|]; [| |done]; wp_go; (split; [done|]).
  - destruct Hp as [[Hst4 Hn]|[Hn Hb]].
    + left. split; [by eapply stays_trans|]. intros Hc. right. right. exists id. split; [done|].
      apply Hn. by eapply stays_calm.
    + right. split; [by eapply stays_uncalm|]. exists id, now. auto.
  - destruct Hp as [Hb Hf].
    pose proof (be_instant _ _ _ (st_becomes _ _ Hst)). pose proof (be_instant _ _ _ (st_becomes _ _ Hst3)).
    pose proof (be_instant _ _ _ Hb). exists id, now. split_and!; try done; [lia|lia|by apply Hsto|].
    + intros Hc. apply Hf. by eapply stays_calm.
Qed.
(** A task is created for a known user only: the new document, under an identifier made of a
    uuid, is that of a new task of the user with the current time, and no other document is touched.
    When no command fails it is refused only for an empty or unknown user name or an identifier
    that is taken, and then nothing is stored. *)
Theorem CreateTaskUtil_spec userName s : sound s ->
  wp (CreateTaskUtil ts userName) (create_post s userName) s.
Proof. apply wp_CreateTaskUtil. Qed.

Lemma HasSuffix_slash a b : b <> "" -> no_char "/" b = true -> HasSuffix (a +:+ b) "/" = false.
Proof.
  intros Hne Hb. induction a as [|c a IH].
  - change ("" +:+ b) with b. clear Hne. induction b as [|c b IH]; [done|].
    unfold no_char in Hb. cbn [string_forall] in Hb. apply andb_true_iff in Hb as [Hc Hb].
    cbn [HasSuffix]. rewrite IH by done. apply negb_true_iff, Ascii.eqb_neq in Hc. cbn [String.eqb].
    by rewrite (proj2 (Ascii.eqb_neq c "/")).
  - change (String c a +:+ b) with (String c (a +:+ b)). cbn [HasSuffix]. rewrite IH. cbn [String.eqb].
    destruct (Ascii.eqb c "/"); [|done]. destruct (a +:+ b) as [|d r] eqn:E; [|done].
    destruct a, b; done.
Qed.
Lemma last_part_task id : task_id id -> last_part (tasksURI +:+ "/" +:+ id) = Ok id.
Proof.
  intros Hid. pose proof (task_id_no_char "/" id Hid eq_refl eq_refl) as Hn.
  unfold last_part. rewrite String_append_assoc, HasSuffix_slash; [|by destruct Hid as (u & -> & _)|done].
  change ((tasksURI +:+ "/") +:+ id) with (tasksURI +:+ String "/" id).
  rewrite Split_char, (Split_none id) by done. unfold index.
  rewrite length_app. cbn [length]. rewrite Nat.add_sub.
  by rewrite lookup_app_r, Nat.sub_diag by lia.
Qed.

Definition child_task (parent : string) (p : Task) id now : Task :=
  set_URI (tasksURI +:+ "/" +:+ parent +:+ "/" +:+ id) (set_ParentID parent (new_task (t_UserName p) id now)).
Definition with_child id (p : Task) : Task :=
  set_ChildTaskIDs (Some (items (t_ChildTaskIDs p) ++ [id])%list) p.
(** Why no child can be created. *)
Definition no_child s (parent : string) : Prop :=
  parent = "" \/ task_of s parent = None \/ exists p, task_of s parent = Some p /\ not_creatable s (t_UserName p).

(** The documents when the creation of a child stopped half-way. *)
Definition part_of_child s (parent : string) (p : Task) id now (d : documents) : Prop :=
  d = put id (doc (new_task (t_UserName p) id now)) (docs s) \/
  d = put id (doc (child_task parent p id now)) (docs s) \/
  d = put parent (doc (with_child id p)) (put id (doc (child_task parent p id now)) (docs s)).

Definition child_post s (parent : string) (o : outcome (or_err string)) s' : Prop :=
  match o with
  | Ok (inr uri) => exists p id now z, task_of s parent = Some p /\ task_id id /\ uri = tasksURI +:+ "/" +:+ id /\
      user_known s (t_UserName p) /\ (calm s -> free (docs s id)) /\
      becomes (with_index z (with_docs
        (put parent (doc (with_child id p)) (put id (doc (child_task parent p id now)) (docs s))) (shows s))) s s' /\
      (z = v_index (shows s) \/ (indexed p = true /\ z = add_entry p (v_index (shows s))))
  | Ok (inl _) =>
      (stays s s' /\ (calm s -> no_child s parent)) \/
      (~ calm s /\ exists id p now d z, task_id id /\ task_of s parent = Some p /\
         becomes (with_index z (with_docs d (shows s))) s s' /\ part_of_child s parent p id now d)
  | Panic => False
  end.

(** A document that was just stored is read back. *)
Lemma task_of_put v s s' id t : becomes v s s' -> v_docs v id = doc t -> wf_task t -> task_of s' id = Some t.
Proof.
  intros Hb Hd Hwf. unfold task_of. rewrite (becomes_docs _ _ _ _ Hb), Hd. by apply decode_marshal.
Qed.
Lemma put_eq id v d : put id v d id = v.
Proof. unfold put. by rewrite decide_True. Qed.
Lemma put_ne id v d id' : id' <> id -> put id v d id' = d id'.
Proof. intros. unfold put. by rewrite decide_False. Qed.

Lemma becomes_put v s s1 s2 id x z : becomes v s s1 ->
  becomes (with_index z (with_docs (put id x (docs s1)) (shows s1))) s1 s2 ->
  becomes (with_index z (with_docs (put id x (v_docs v)) v)) s s2.
Proof.
  intros Ha Hb. apply (becomes_then v s s1 s2 (fun v => with_index z (with_docs (put id x (v_docs v)) v)));
    [same_views|done..].
Qed.
Lemma put_put id x y d id' : put id y (put id x d) id' = put id y d id'.
Proof. unfold put. by destruct (decide _). Qed.
Lemma becomes_index v s s' : becomes v s s' -> v_index (shows s') = v_index v.
Proof. intros Hb. apply (sv_index _ _ (be_shows _ _ _ Hb)). Qed.

(** The two updates after the child was created. *)
Lemma wp_link_child s s2 parent p id now :
  sound s -> task_of s parent = Some p -> task_id id -> (calm s -> calm s2) ->
  becomes (with_docs (put id (doc (new_task (t_UserName p) id now)) (docs s)) (shows s)) s s2 ->
  (calm s -> free (docs s id)) -> user_known s (t_UserName p) ->
  wp (let! r := GetTaskStatusModel ts id InMemory in
      match r with
      | inl e => ret (inl ("error while retrieving the child/sub task from DB: " +:+ e))
      | inr childTask =>
          let childTask := set_ParentID parent childTask in
          let childTask := set_URI (tasksURI +:+ "/" +:+ parent +:+ "/" +:+ id) childTask in
          let! e := UpdateTaskStatusModel ts childTask InMemory in
          match e with
          | Some e => ret (inl ("error while updating the child/sub task details: " +:+ e))
          | None =>
              let! e := UpdateTaskStatusModel ts (with_child id p) InMemory in
              match e with
              | Some e => ret (inl ("error while trying to update the task details in InMemory DB: " +:+ e))
              | None => ret (inr (tasksURI +:+ "/" +:+ id))
              end
          end
      end) (child_post s parent) s2.
Proof.
  intros Hs Hp Hid Hc2 Hb Hf Hk. destruct (typed_law _ _ _ Hs Hp) as [Hpid Hpwf].
  pose proof (task_of_put _ _ _ id _ Hb (put_eq _ _ _) (new_task_wf _ _ _)) as Ht.
  set (child := child_task parent p id now). set (v := with_docs (put id (doc (new_task (t_UserName p) id now)) (docs s)) (shows s)) in *.
  assert (Hfail : forall s' d z, ~ calm s2 -> becomes (with_index z (with_docs d (shows s))) s s' ->
    part_of_child s parent p id now d -> child_post s parent (Ok (inl "")) s').
  { intros s' d z Hn Hb' Hd. right. split; [auto|]. by exists id, p, now, d, z. }
  law get_law; [by apply Hb|]. intros o s3 [Hst3 Ho]. wp_go.
  pose proof (becomes_stays _ _ _ _ Hb Hst3) as Hb3.
  destruct o as [[e|c]|]; [| |done]; wp_go.
  { eapply (Hfail _ _ (v_index (shows s))); [intros Hc; by rewrite Ho in Ht|exact Hb3|by left]. }
  rewrite Ht in Ho. injection Ho as <-.
  change (set_URI _ (set_ParentID _ _)) with child.
  law update_law; [exact (new_task_wf (t_UserName p) id now)|]. intros o s4 [_ Hu]. change (t_ID child) with id in Hu. wp_go.
  assert (Hdoc3 : docs s3 id = doc (new_task (t_UserName p) id now)) by (rewrite (becomes_docs _ _ _ _ Hb3); apply put_eq).
  rewrite (becomes_index _ _ _ Hb3) in Hu.
  destruct o as [[e|]|]; [| |done]; wp_go.
  { destruct Hu as [[Hst4 Hn]|(Hn & z & Hb4 & Hz)].
    - eapply (Hfail _ _ (v_index (shows s))); [|exact (becomes_stays _ _ _ _ Hb3 Hst4)|].
      + intros Hc. rewrite Hn in Hdoc3; [done|]. by eapply stays_calm.
      + by left.
    - apply (becomes_put _ _ _ _ _ _ _ Hb3) in Hb4.
      eapply (Hfail _ (put id (doc child) (docs s)) z); [by eapply stays_uncalm| |by right; left].
      eapply becomes_same; [|exact Hb4]. split; try done. intros id'. cbn. by rewrite put_put. }
  destruct Hu as (_ & z & Hb4 & Hz & _). pose proof (be_calm _ _ _ Hb4) as Hc4.
  pose proof (stays_calm _ _ Hst3) as Hc3. apply (becomes_put _ _ _ _ _ _ _ Hb3) in Hb4.
  assert (z = v_index (shows s)) as -> by (by destruct Hz as [->|[? _]]).
  apply (becomes_same (with_docs (put id (doc child) (docs s)) (shows s))) in Hb4;
    [|split; try done; intros id'; cbn; by rewrite put_put].
  law update_law; [by apply Hb4|]. intros o s5 [_ Hu]. change (t_ID (with_child id p)) with (t_ID p) in Hu.
  rewrite Hpid in Hu. rewrite (becomes_index _ _ _ Hb4) in Hu.
  assert (Hpd : is_Some (docs s4 parent)).
  { rewrite (becomes_docs _ _ _ _ Hb4). cbn. unfold put. case_decide; [by eexists|].
    unfold task_of in Hp. by destruct (docs s parent). }
  destruct o as [[e|]|]; [| |done]; wp_go.
  - destruct Hu as [[Hst5 Hn]|(Hn & z & Hb5 & _)].
    + eapply (Hfail _ (put id (doc child) (docs s)) (v_index (shows s))); [|exact (becomes_stays _ _ _ _ Hb4 Hst5)|by right; left].
      intros Hc. destruct Hpd as [x Hx]. rewrite Hn in Hx; [done|]. auto.
    + apply (becomes_put _ _ _ _ _ _ _ Hb4) in Hb5.
      eapply (Hfail _ (put parent (doc (with_child id p)) (put id (doc child) (docs s))) z); [|exact Hb5|].
      * intros Hc. apply Hn. auto.
      * by right; right.
  - destruct Hu as (_ & z & Hb5 & Hz5 & _). apply (becomes_put _ _ _ _ _ _ _ Hb4) in Hb5.
    exists p, id, now, z. by split_and!.
Qed.

Lemma no_child_stays s s1 parent p : stays s s1 -> task_of s parent = Some p ->
  not_creatable s1 (t_UserName p) -> no_child s parent.
Proof.
  intros Hst Hp Hn. right; right. exists p. split; [done|]. destruct Hn as [?|[Hk|(id & Hid & Hf)]]; [by left|right..].
  - left. by rewrite <- (be_known _ _ _ (st_becomes _ _ Hst)).
  - right. exists id. by rewrite <- (stays_docs _ _ _ Hst).
Qed.

Lemma wp_CreateChildTaskUtil userName parent s : sound s ->
  wp (CreateChildTaskUtil ts userName parent) (child_post s parent) s.
Proof.
  intros Hs. unfold CreateChildTaskUtil. destruct (String.eqb_spec parent "") as [-> |Hne].
  { wp_go. left. split; [by apply stays_refl|]. by left. }
  law get_law. intros o s1 [Hst Ho]. wp_go. destruct o as [[e|p]|]; [| |done]; wp_go.
  { left. split; [done|]. right; left. auto. }
  rewrite create_helper. law wp_CreateTaskUtil. intros o s2 [_ Hc]. wp_go.
  destruct o as [[e|uri]|]; [| |done]; wp_go.
  { destruct Hc as [[Hst2 Hn]|(Hn & id & now & Hid & Hb)].
    - left. split; [by eapply stays_trans|]. intros Hc. eapply no_child_stays; [done..|].
      apply Hn. by eapply stays_calm.
    - right. split; [by eapply stays_uncalm|].
      apply (stays_then s s1 s2 (fun v => with_docs (put id (doc (new_task (t_UserName p) id now)) (v_docs v)) v)) in Hb;
        [|same_views|done].
      exists id, p, now, (put id (doc (new_task (t_UserName p) id now)) (docs s)), (v_index (shows s)).
      split_and!; [done|done|exact Hb|by left]. }
  destruct Hc as (id & now & Hid & -> & _ & Hk & _ & Hb & Hf).
  rewrite last_part_task by done. cbn [wp_cont]. change (set_ChildTaskIDs _ p) with (with_child id p).
  apply (wp_link_child s s2 parent p id now); try done.
  - intros Hc. apply Hb. by eapply stays_calm.
  - by apply (stays_then s s1 s2 (fun v => with_docs (put id (doc (new_task (t_UserName p) id now)) (v_docs v)) v)) in Hb;
      [|same_views|done].
  - intros Hc. rewrite <- (stays_docs _ _ _ Hst). apply Hf. by eapply stays_calm.
  - by rewrite <- (be_known _ _ _ (st_becomes _ _ Hst)).
Qed.

(** ** Access to tasks *)

(** The token had a session that had not timed out at a check, with the privileges. *)
Definition authorised s tok (ps : list string) : Prop :=
  holds s tok ps /\ exists s1, stays s s1 /\ live s1 tok.
(** The session may see a task: it owns the task or may configure users. *)
Definition access s tok (t : Task) : Prop :=
  authorised s tok [PrivilegeLogin] /\
  (session_user s tok (t_UserName t) \/ authorised s tok [PrivilegeConfigureUsers]).

Lemma authorised_stays s s1 tok ps : stays s s1 -> authorised s1 tok ps -> authorised s tok ps.
Proof.
  intros Hst [Hh (s2 & Hst2 & Hl)]. split; [by apply Hst|]. exists s2. split; [by eapply stays_trans|done].
Qed.
Lemma access_stays s s1 tok t : stays s s1 -> access s1 tok t -> access s tok t.
Proof.
  intros Hst [Ha [Hu|Hc]]; (split; [by eapply authorised_stays|]); [left; by apply Hst|right; by eapply authorised_stays].
Qed.

(** An answer that tells of an error only. *)
Definition error_answer (rsp : TaskResponse) : Prop :=
  rsp_StatusCode rsp <> StatusOK /\ exists e, rsp_Body rsp = Json (ErrorBody e).

Lemma wp_fail code msg em args Q s :
  code <> StatusOK ->
  (msg = NoValidSession /\ args = [] \/ msg = InternalError /\ args = [] \/
   msg = ResourceNotFound /\ exists a b, args = [IString a; IString b]) ->
  (forall rsp, error_answer rsp -> rsp_StatusCode rsp = code -> Q (Ok rsp) s) -> wp (fail code msg em args) Q s.
Proof.
  intros Hc Hm HQ. unfold fail.
  assert (exists e, GeneralError (B := taskBody) code msg em args = Ok (mkRPC code msg [] (ErrorBody e))) as [e ->].
  { destruct Hm as [[-> ->]|[[-> ->]|[-> (a & b & ->)]]]; eexists; reflexivity. }
  wp_go. apply HQ; [|done]. split; [done|]. by exists e.
Qed.

(** A check of the token: refused with an error, or the privileges are there. *)
Lemma wp_auth {B} tok ps (k : taskRPC -> M S B) Q s : sound s ->
  (forall r s1, stays s s1 -> (StatusCode r =? StatusOK)%Z = false ->
     error_answer (fillProtoResponse r) -> wp (k r) Q s1) ->
  (forall r s1, stays s s1 -> (StatusCode r =? StatusOK)%Z = true -> authorised s tok ps -> wp (k r) Q s1) ->
  wp (AuthenticationRPC ts tok ps) (wp_cont k Q) s.
Proof.
  intros Hs Hno Hok. law auth_law. intros o s1 (Hst & r & e & -> & He & Hr). wp_go.
  destruct (decide (StatusCode r = StatusOK)) as [E|Hne].
  - destruct (Hr E) as [Hl Hh]. apply Hok; [done|by apply Z.eqb_eq|]. split; [done|]. exists s. split; [by apply stays_refl|done].
  - apply Hno; [done|by apply Z.eqb_neq|]. split; [done|]. exists e. unfold fillProtoResponse, generateResponse. cbn. by rewrite He.
Qed.

Definition authorize_post s tok id (o : outcome (TaskResponse + Task)) s' : Prop :=
  stays s s' /\
  match o with
  | Ok (inr t) => task_of s id = Some t /\ access s tok t
  | Ok (inl rsp) => error_answer rsp
  | Panic => False
  end.
Lemma wp_authorizeTask tok id s : sound s -> wp (authorizeTask ts tok id) (authorize_post s tok id) s.
Proof.
  intros Hs. unfold authorizeTask. apply wp_bind, wp_auth; [done|..]; intros r s1 Hst Hr.
  { intros He. rewrite Hr. wp_go. by split. }
  intros Ha. rewrite Hr. cbn [negb]. law user_law. intros o s2 (Hst2 & u & -> & Hu). wp_go.
  assert (H2 : stays s s2) by (by eapply stays_trans).
  destruct u as [e|u].
  { wp_go. apply wp_fail; [done|by left|]. intros rsp Hrsp _. wp_go. by split. }
  law get_law. intros o s3 [Hst3 Ho]. wp_go. assert (H3 : stays s s3) by (by eapply stays_trans).
  rewrite (stays_task _ _ _ H2) in Ho.
  destruct o as [[e|t]|]; [| |done]; wp_go.
  { apply wp_fail; [done|right; right; split; [done|by eexists _, _]|]. intros rsp Hrsp _. wp_go. by split. }
  destruct (String.eqb_spec u (t_UserName t)) as [-> |Hne]; cbn [negb].
  { wp_go. split; [done|]. split; [done|]. split; [done|]. left. by apply Hst. }
  apply wp_bind, wp_auth; [by eapply stays_sound|..]; intros r4 s4 Hst4 Hr4.
  { intros He. rewrite Hr4. wp_go. split; [by eapply stays_trans|done]. }
  intros Ha4. rewrite Hr4. cbn [negb]. wp_go.
  split; [by eapply stays_trans|]. split; [done|]. split; [done|]. right.
  by eapply authorised_stays.
Qed.

Lemma wp_header s Q : sound s ->
  (forall now s1, stays s s1 -> Q (Ok (mkRsp 0 "" (Some {[ "Date" := http_time now ]}) NoBytes)) s1) ->
  wp constructCommonResponseHeader Q s.
Proof.
  intros Hs HQ. unfold constructCommonResponseHeader. law now_law. intros o s1 (Hst & now & -> & _). wp_go. by apply HQ.
Qed.

Lemma messageList_panics l : messageList l = Panic -> None ∈ l.
Proof.
  induction l as [|[m|] l IH]; [done| |by left]. cbn. destruct (messageList l); [done|]. intros _. right. auto.
Qed.

Definition get_post s (req : GetTaskRequest) (o : outcome TaskResponse) s' : Prop :=
  stays s s' /\
  let may t := task_of s (gt_TaskID req) = Some t /\ access s (gt_SessionToken req) t in
  match o with
  | Ok rsp => error_answer rsp \/ exists t ms r link,
      may t /\ messageList (items (t_Messages t)) = Ok ms /\
      rsp_Body rsp = Json (Body (TaskBody (taskResponse t r link ms))) /\
      rsp_StatusCode rsp = (if ended (t_TaskState t) then StatusOK else StatusAccepted) /\
      (link <> None <-> t_ParentID t = "" /\ items (t_ChildTaskIDs t) <> []) /\
      (ended (t_TaskState t) = false ->
         exists h, rsp_Header rsp = Some h /\ h !! "location" = Some (t_TaskMonitor t))
  | Panic => exists t, may t /\ None ∈ items (t_Messages t)
  end.

Lemma wp_GetTasks req s : sound s -> wp (GetTasks ts req) (get_post s req) s.
Proof.
  intros Hs. unfold GetTasks. apply wp_bind, wp_header; [done|]. intros now s1 Hst1. wp_go.
  eapply wp_mono; [eapply wp_authorizeTask, stays_sound, Hst1|]. intros o s2 [Hst2 Ho].
  assert (H2 : stays s s2) by (by eapply stays_trans).
  destruct o as [[rsp|t]|]; [| |done]; wp_go.
  { split; [done|by left]. }
  destruct Ho as [Ht Ha]. rewrite (stays_task _ _ _ Hst1) in Ht. apply (access_stays _ _ _ _ Hst1) in Ha.
  cbn [set_header rsp_Header]. wp_go.
  destruct (messageList (items (t_Messages t))) as [ms|] eqn:Em; cbn [wp_cont].
  2: { split; [done|]. exists t. split; [done|]. by apply messageList_panics. }
  change (CreateGenericResponse (taskHeader t) Success)
    with (Ok (with_message {| OdataType := OdataType (taskHeader t); OdataID := OdataID (taskHeader t);
      OdataContext := OdataContext (taskHeader t); Description := ""; ID := t_ID t; Name := t_Name t; Message := "";
      MessageID := Success; MessageArgs := []; NumberOfArgs := 0; Severity := "OK"; Resolution := "" |}
      "Successfully Completed Request")). wp_go.
  assert (Hlink : forall l : string, (if String.eqb (t_ParentID t) "" && negb (Nat.eqb (length (items (t_ChildTaskIDs t))) 0)
            then Some l else None) <> None <-> t_ParentID t = "" /\ items (t_ChildTaskIDs t) <> []).
  { intros l. destruct (String.eqb_spec (t_ParentID t) "") as [E|E]; cbn [andb]; [|by split; [|intros []]].
    rewrite E. destruct (items (t_ChildTaskIDs t)); cbn; naive_solver. }
  destruct (ended (t_TaskState t)) eqn:Een; wp_go; (split; [done|right]); eexists t, ms, _, _;
    (split; [done|]); (split; [done|]); (split; [reflexivity|]); (split; [by rewrite Een|]); (split; [apply Hlink|]).
  - by rewrite Een.
  - intros _. eexists. split; [reflexivity|]. cbn. by simplify_map_eq.
Qed.

(** ** The collection *)

Definition collection_post s (req : GetTaskRequest) (o : outcome TaskResponse) s' : Prop :=
  stays s s' /\
  let tok := gt_SessionToken req in
  match o with
  | Ok rsp => error_answer rsp \/ exists r ids links user,
      rsp_StatusCode rsp = StatusOK /\
      rsp_Body rsp = Json (Body (CollectionBody r (Z.of_nat (length links)) links)) /\
      links = (fun id => tasksURI +:+ "/" +:+ id) <$> ids /\ NoDup ids /\
      authorised s tok [PrivilegeLogin] /\ session_user s tok user /\
      ((authorised s tok [PrivilegeConfigureUsers] /\ forall id, id ∈ ids <-> is_Some (docs s id)) \/
       (forall id, id ∈ ids <-> exists t, task_of s id = Some t /\ t_UserName t = user))
  | Panic => exists id, is_Some (docs s id) /\ (calm s -> task_of s id = None)
  end.

(** The loop over the keys for a session that may not configure users. *)
Lemma wp_own_tasks user ids s : sound s ->
  wp (loopM ids [] (fun listMembers taskID =>
        let! r := GetTaskStatusModel ts taskID InMemory in
        match r with
        | inl _ => let! rsp := fail StatusNotFound ResourceNotFound authErrorMessage [] in ret (inl rsp)
        | inr task =>
            if String.eqb (t_UserName task) user
            then ret (inr (listMembers ++ [tasksURI +:+ "/" +:+ taskID])%list) else ret (inr listMembers)
        end))
     (fun o s' => stays s s' /\
        match o with
        | Ok (inr links) => exists own, links = (fun id => tasksURI +:+ "/" +:+ id) <$> own /\ sublist own ids /\
            (forall id, id ∈ own <-> id ∈ ids /\ exists t, task_of s id = Some t /\ t_UserName t = user) /\
            (forall id, id ∈ ids -> is_Some (task_of s id))
        | Ok (inl rsp) => False
        | Panic => exists id, id ∈ ids /\ (calm s -> task_of s id = None)
        end) s.
Proof.
  intros Hs. apply (wp_loopM (L := list string) (fun done links s' => stays s s' /\
    exists own, links = (fun id => tasksURI +:+ "/" +:+ id) <$> own /\ sublist own done /\
      (forall id, id ∈ own <-> id ∈ done /\ exists t, task_of s id = Some t /\ t_UserName t = user) /\
      (forall id, id ∈ done -> is_Some (task_of s id)))).
  - split; [by apply stays_refl|]. exists []. split_and!; [done|done|set_solver|set_solver].
  - intros pre id links s1 [todo ->] (Hst & own & -> & Hsub & Hown & Hall).
    law get_law. intros o s2 [Hst2 Ho]. wp_go. assert (H2 : stays s s2) by (by eapply stays_trans).
    rewrite (stays_task _ _ _ Hst) in Ho. destruct o as [[e|t]|]; [| |done]; wp_go.
    { unfold fail. change (GeneralError (B := taskBody) StatusNotFound ResourceNotFound authErrorMessage [])
        with (@Panic taskRPC). wp_go. split; [done|]. exists id. split; [set_solver|].
      intros Hc. apply Ho. by eapply stays_calm. }
    assert (Hall' : forall id', id' ∈ (pre ++ [id])%list -> is_Some (task_of s id')).
    { intros id' [?| ->%list_elem_of_singleton]%elem_of_app; [auto|]. rewrite Ho. by eexists. }
    destruct (String.eqb_spec (t_UserName t) user) as [Hu|Hu]; wp_go; (split; [done|]).
    + exists (own ++ [id])%list. rewrite fmap_app. split_and!; [done|by apply sublist_app| |done].
      intros id'. rewrite !elem_of_app, Hown, !list_elem_of_singleton. split.
      * intros [[? ?]| ->]; [tauto|]. split; [by right|]. by exists t.
      * intros [[?| ->] ?]; tauto.
    + exists own. split_and!; [done|by apply sublist_inserts_r| |done].
      intros id'. rewrite elem_of_app, Hown, list_elem_of_singleton. split; [tauto|].
      intros [[?| ->] (t' & Ht' & Hu')]; [by eauto|]. congruence.
  - intros links s' [Hst Hl]. by split.
Qed.

Lemma loopM_collect ids acc s :
  loopM (R := TaskResponse) ids acc (fun links id => ret (inr (links ++ [tasksURI +:+ "/" +:+ id])%list)) s =
  (Ok (inr (acc ++ ((fun id => tasksURI +:+ "/" +:+ id) <$> ids))%list), s).
Proof.
  revert acc. induction ids as [|id ids IH]; intros acc; cbn [loopM]; [by rewrite app_nil_r|].
  unfold bind, ret in *. rewrite IH, <- app_assoc. done.
Qed.

Lemma wp_TaskCollection req s : sound s -> wp (TaskCollection ts req) (collection_post s req) s.
Proof.
  intros Hs. unfold TaskCollection. apply wp_bind, wp_header; [done|]. intros now s1 Hst1. wp_go.
  apply wp_auth; [by eapply stays_sound|..]; intros r2 s2 Hst2 Hr2.
  { intros He. rewrite Hr2. wp_go. split; [by eapply stays_trans|by left]. }
  intros Hlogin. rewrite Hr2. cbn [negb]. apply (authorised_stays _ _ _ _ Hst1) in Hlogin.
  assert (H2 : stays s s2) by (by eapply stays_trans).
  law keys_law. intros o s3 [Hst3 Hk]. assert (H3 : stays s s3) by (by eapply stays_trans).
  destruct o as [[e|ids]|]; [| |done]; wp_go.
  { apply wp_fail; [done|right; by left|]. intros rsp Hrsp _. wp_go. split; [done|by left]. }
  law auth_law. intros o s4 (Hst4 & r4 & e4 & -> & He4 & Hr4). cbn [wp_cont].
  assert (H4 : stays s s4) by (by eapply stays_trans).
  law user_law. intros o s5 (Hst5 & u & -> & Hu). cbn [wp_cont]. assert (H5 : stays s s5) by (by eapply stays_trans).
  destruct u as [e|u].
  { apply wp_fail; [done|by left|]. intros rsp Hrsp _. wp_go. split; [done|by left]. }
  destruct Hk as [Hnd Hids]. assert (Hids' : forall id, id ∈ ids <-> is_Some (docs s id)).
  { intros id. by rewrite Hids, (stays_docs _ _ _ H2). }
  assert (Huser : session_user s (gt_SessionToken req) u) by (by apply H4).
  destruct (StatusCode r4 =? StatusOK)%Z eqn:E4; cbn [negb].
  - apply wp_bind. unfold wp at 1. rewrite loopM_collect. cbn [wp_cont fst snd]. wp_go.
    split; [done|]. right. eexists _, ids, _, u. split_and!; try done. left. split; [|done].
    apply Z.eqb_eq in E4. destruct (Hr4 E4) as [Hl Hh].
    split; [by apply H3|]. by exists s3.
  - wp_go. eapply wp_mono; [apply wp_own_tasks; by eapply stays_sound|]. intros o s6 [Hst6 Ho].
    assert (H6 : stays s s6) by (by eapply stays_trans).
    destruct o as [[rsp|links]|]; cbn [wp_cont]; [done| |].
    + destruct Ho as (own & -> & Hsub & Hown & Hall). wp_go. split; [done|]. right.
      eexists _, own, _, u. split_and!; try done; [by eapply sublist_NoDup|]. right. intros id.
      rewrite Hown. setoid_rewrite (stays_task _ _ id H5). split; [tauto|]. intros (t & Ht & Htu).
      split; [|by exists t]. apply Hids'. unfold task_of in Ht. by destruct (docs s id).
    + destruct Ho as (id & Hin & Hno). split; [done|]. exists id. split; [by apply Hids'|].
      intros Hc. rewrite <- (stays_task _ _ _ H5). apply Hno. by eapply stays_calm.
Qed.

(** ** The other handlers that read *)

(** A handler on one task that shows [body] of it: what it answers is of the task as it is stored. *)
Definition read_post s tok id (shown : Task -> TaskResponse -> Prop) (o : outcome TaskResponse) s' : Prop :=
  stays s s' /\
  let may t := task_of s id = Some t /\ access s tok t in
  match o with
  | Ok rsp => error_answer rsp \/ exists t, may t /\ shown t rsp
  | Panic => exists t, may t /\ None ∈ items (t_Messages t)
  end.

(** The prologue of these handlers. *)
Lemma wp_read tok id s (k : TaskResponse -> Task -> M S TaskResponse) shown : sound s ->
  (forall now t s1, stays s s1 -> task_of s id = Some t /\ access s tok t ->
     wp (k (mkRsp 0 "" (Some {[ "Date" := http_time now ]}) NoBytes) t)
        (fun o s' => stays s1 s' /\ match o with
                                    | Ok rsp => shown t rsp
                                    | Panic => None ∈ items (t_Messages t)
                                    end) s1) ->
  wp (let! rsp := constructCommonResponseHeader in
      let! r := authorizeTask ts tok id in
      match r with inl rsp => ret rsp | inr task => k rsp task end) (read_post s tok id shown) s.
Proof.
  intros Hs Hk. apply wp_bind, wp_header; [done|]. intros now s1 Hst1. wp_go.
  eapply wp_mono; [eapply wp_authorizeTask, stays_sound, Hst1|]. intros o s2 [Hst2 Ho].
  assert (Hst : stays s s2) by (by eapply stays_trans).
  destruct o as [[rsp|t]|]; [| |done]; cbn [wp_cont].
  { wp_go. split; [done|by left]. }
  destruct Ho as [Ht Ha]. rewrite (stays_task _ _ _ Hst1) in Ht. apply (access_stays _ _ _ _ Hst1) in Ha.
  eapply wp_mono; [by apply Hk|]. intros o s3 [Hst3 Ho]. split; [by eapply stays_trans|].
  destruct o as [rsp|]; [right|]; exists t; by split.
Qed.

Lemma subtasks_response t : exists r,
  CreateGenericResponse (with_MessageArgs [t_ID t] (with_Description "SubTasks"
    (mkResponse "#SubTasks.SubTasks" (tasksURI +:+ "/" +:+ t_ID t +:+ "/SubTasks/")
       "/redfish/v1/$metadata#SubTasks.SubTasks" "" "SubTasks"))) Success = Ok r.
Proof. eexists. reflexivity. Qed.

(** The sub-tasks of a task: the links of its children, in order. *)
Lemma wp_GetSubTasks req s : sound s ->
  wp (GetSubTasks ts req)
     (read_post s (gt_SessionToken req) (gt_TaskID req) (fun t rsp => rsp_StatusCode rsp = StatusOK /\
        exists r, rsp_Body rsp = Json (Body (CollectionBody r (Z.of_nat (length (items (t_ChildTaskIDs t))))
                                              (subTaskURI (t_ID t) <$> items (t_ChildTaskIDs t)))))) s.
Proof.
  intros Hs. unfold GetSubTasks, validateAndAutherize. apply wp_read; [done|]. intros now t s1 Hst _. cbv zeta.
  destruct (subtasks_response t) as [r ->]. wp_go. split; [by apply stays_refl; eapply stays_sound|].
  split; [done|]. exists r. by rewrite length_fmap.
Qed.

(** A sub-task, looked up by its own identifier. *)
Lemma wp_GetSubTask req s : sound s ->
  wp (GetSubTask ts req)
     (read_post s (gt_SessionToken req) (gt_SubTaskID req) (fun t rsp =>
        rsp_StatusCode rsp = (if ended (t_TaskState t) then StatusOK else StatusAccepted) /\
        exists r ms, messageList (items (t_Messages t)) = Ok ms /\
          rsp_Body rsp = Json (Body (SubTaskBody (Z.of_nat (length (items (t_ChildTaskIDs t))))
            (subTaskURI (t_ID t) <$> items (t_ChildTaskIDs t)) (taskResponse t r None ms))))) s.
Proof.
  intros Hs. unfold GetSubTask. apply wp_read; [done|]. intros now t s1 Hst _.
  assert (Hst1 : stays s1 s1) by (by apply stays_refl; eapply stays_sound). wp_go.
  destruct (messageList (items (t_Messages t))) as [ms|] eqn:Em; cbn [wp_cont].
  2: { split; [done|]. by apply messageList_panics. }
  cbv zeta. match goal with |- context [lift (CreateGenericResponse ?a ?b)] =>
    assert (exists gr, CreateGenericResponse a b = Ok gr) as [gr ->] by (eexists; reflexivity) end.
  wp_go. destruct (ended (t_TaskState t)); wp_go; (split; [done|]); (split; [done|]);
    exists gr, ms; by rewrite length_fmap.
Qed.

(** The monitor of a task: a session with Login is enough, whoever owns the task. *)
Lemma wp_GetTaskMonitor req s : sound s ->
  wp (GetTaskMonitor ts req)
     (fun o s' => stays s s' /\
        let may t := task_of s (gt_TaskID req) = Some t /\ authorised s (gt_SessionToken req) [PrivilegeLogin] in
        match o with
        | Ok rsp => error_answer rsp \/ exists t, may t /\
            if ended (t_TaskState t) then
              rsp_StatusCode rsp = t_StatusCode t /\ rsp_Body rsp = Raw (t_TaskResponse t) /\
              rsp_Header rsp = p_HTTPHeaders (t_Payload t)
            else rsp_StatusCode rsp = StatusAccepted /\
              exists h, rsp_Header rsp = Some h /\ h !! "location" = Some (t_TaskMonitor t)
        | Panic => exists t, may t /\ ended (t_TaskState t) = false /\ startedBody t = Panic
        end) s.
Proof.
  intros Hs. unfold GetTaskMonitor. apply wp_bind, wp_header; [done|]. intros now s1 Hst1. wp_go.
  apply wp_auth; [by eapply stays_sound|..]; intros r2 s2 Hst2 Hr2.
  { intros He. rewrite Hr2. wp_go. split; [by eapply stays_trans|by left]. }
  intros Hlogin. rewrite Hr2. cbn [negb]. apply (authorised_stays _ _ _ _ Hst1) in Hlogin.
  assert (Hst02 : stays s s2) by (by eapply stays_trans).
  law user_law. intros o s3 (Hst3 & u & -> & _). wp_go. assert (Hst03 : stays s s3) by (by eapply stays_trans).
  destruct u as [e|u].
  { apply wp_fail; [done|by left|]. intros rsp Hrsp _. split; [done|by left]. }
  law get_law. intros o s4 [Hst4 Ho]. wp_go. assert (Hst04 : stays s s4) by (by eapply stays_trans).
  rewrite (stays_task _ _ _ Hst03) in Ho. destruct o as [[e|t]|]; [| |done]; wp_go.
  { apply wp_fail; [done|right; right; split; [done|by eexists _, _]|]. intros rsp Hrsp _. split; [done|by left]. }
  destruct (ended (t_TaskState t)) eqn:Een.
  - wp_go. split; [done|]. right. exists t. rewrite Een. by split_and!.
  - wp_go. destruct (startedBody t) as [b|] eqn:Eb; cbn [wp_cont].
    + wp_go. split; [done|]. right. exists t. rewrite Een. split_and!; [done|done|done|].
      eexists. split; [reflexivity|]. cbn. by simplify_map_eq.
    + split; [done|]. by exists t.
Qed.

Lemma wp_GetTaskService req s : sound s ->
  wp (GetTaskService ts req)
     (fun o s' => stays s s' /\
        match o with
        | Ok rsp => error_answer rsp \/
            (rsp_StatusCode rsp = StatusOK /\ authorised s (gt_SessionToken req) [PrivilegeConfigureUsers])
        | Panic => False
        end) s.
Proof.
  intros Hs. unfold GetTaskService. apply wp_bind, wp_header; [done|]. intros now s1 Hst1.
  cbn [wp_cont set_header rsp_Header]. wp_go.
  apply wp_auth; [by eapply stays_sound|..]; intros r2 s2 Hst2 Hr2.
  { intros He. rewrite Hr2. wp_go. split; [by eapply stays_trans|by left]. }
  intros Ha. rewrite Hr2. cbn [negb]. apply (authorised_stays _ _ _ _ Hst1) in Ha.
  assert (Hst02 : stays s s2) by (by eapply stays_trans).
  law now_law. intros o s3 (Hst3 & t & -> & _). wp_go. split; [by eapply stays_trans|]. by right.
Qed.
(** ** The properties *)

(** C20: Updating a task is accepted exactly when the task is stored, is not cancelled, is set to a
    known state, which is Cancelled when it is being cancelled, and the end of the task comes with
    an acceptable status and an end time.  Then the document of this task alone is replaced, by the
    task in the new state with its identity kept, its entry is added to the index when it has
    completed and has no parent, and one event is published; a refused update stores and publishes
    nothing. *)
Theorem updateTaskUtil_spec id to status percent p endTime s :
  sound s -> wf_payload p -> int32 percent = percent ->
  wp (updateTaskUtil ts id to status percent p endTime) (update_post s id to status endTime) s.
Proof. apply wp_updateTaskUtil. Qed.

(** A sub-task belongs to the user of its parent: on success the new document is that of a new
    task that names its parent, the identifier is put at the end of the parent's list, and nothing
    else changes but the parent's entry in the index when the parent had already completed.  When no
    command fails it is refused only if the parent is not stored or no task can be created for its
    user, and then nothing is stored; after a failed command at most the new document and the
    parent have changed. *)
Theorem CreateChildTaskUtil_spec userName parent s : sound s ->
  wp (CreateChildTaskUtil ts userName parent) (child_post s parent) s.
Proof. apply wp_CreateChildTaskUtil. Qed.

(** A task is shown only to a valid session with Login that owns it or has ConfigureUsers, as it
    is stored; the answer is 200 for a task that has ended and else 202 with the monitor as its
    location.  Reading changes nothing, and it panics only for a stored null message. *)
Theorem GetTasks_spec req s : sound s -> wp (GetTasks ts req) (get_post s req) s.
Proof. apply wp_GetTasks. Qed.

(** The collection lists every task exactly once for a session with ConfigureUsers, and exactly
    the tasks of its own user for another session with Login; it needs a valid session, changes
    nothing, and panics only when a listed task cannot be read back. *)
Theorem TaskCollection_spec req s : sound s -> wp (TaskCollection ts req) (collection_post s req) s.
Proof. apply wp_TaskCollection. Qed.
End handlers.
