(* ===== verification/TaskCancel.v ===== *)
(** Deleting and cancelling tasks, and the removal of those that completed long ago, against the
    interface [TaskStore]. *)
From stdpp Require Import base gmap list strings.
From Stdlib Require Import Ascii.
From S2P Require Import Prelude Go GoTime Response Redis World RedisIndex AsModel TModel THandle TaskSpec TModelProps TaskProps.
Open Scope string_scope.

Section cancelling.
Context {S : Type} `{TaskStore S ts} `{Config}.
Implicit Types (s : S) (id : string).

(** ** Deleting and cancelling *)

Lemma task_of_doc s id t : docs s id = doc t -> wf_task t -> task_of s id = Some t.
Proof. intros Hd Hwf. unfold task_of. rewrite Hd. by apply decode_marshal. Qed.
Lemma task_of_docs s s' id : docs s' id = docs s id -> task_of s' id = task_of s id.
Proof. unfold task_of. by intros ->. Qed.
Lemma task_of_none s id : docs s id = None -> task_of s id = None.
Proof. unfold task_of. by intros ->. Qed.
(** A task and its children. *)
Definition family s id : list string :=
  id :: match task_of s id with Some t => items (t_ChildTaskIDs t) | None => [] end.

(** [s'] is a later state in which documents of the family were removed and entries of the task may have
    left the index; with the flag documents of the family may also have been set to Cancelling, and goroutines
    that wait for members of the family been started. *)
Record cancels (c : bool) s id s' : Prop := {
  ca_becomes : becomes (shows s') s s';
  ca_other : forall id', id' ∉ family s id -> docs s' id' = docs s id';
  ca_docs : forall id', docs s' id' = docs s id' \/ docs s' id' = None \/
    (c = true /\ exists t, task_of s id' = Some t /\ docs s' id' = doc (set_TaskState Cancelling t));
  ca_index : forall m, v_index (shows s') !! m = v_index (shows s) !! m \/
    (v_index (shows s') !! m = None /\ HasSuffix m id = true);
  ca_events : v_events (shows s') = v_events (shows s);
  ca_threads : exists l, v_threads (shows s') = (v_threads (shows s) ++ l)%list /\
    forall th, th ∈ l -> c = true /\ exists id', th = AsyncTaskDelete id' /\ id' ∈ family s id;
  ca_scan : scannable s -> scannable s';
}.

Lemma becomes_self v s s' : becomes v s s' -> becomes (shows s') s s'.
Proof. intros [a1 a2 a3 a4 a5 a6 a7 a8]. by split. Qed.
Lemma cancels_stays {c} s id s' : stays s s' -> cancels c s id s'.
Proof.
  intros Hst. pose proof (stays_view _ _ Hst) as [Hd Hi He Ht]. split.
  - eapply becomes_self, (st_becomes _ _ Hst).
  - intros. by apply Hd.
  - intros id'. left. by apply Hd.
  - intros m. left. by rewrite Hi.
  - done.
  - exists []. rewrite app_nil_r. split; [done|]. set_solver.
  - apply Hst.
Qed.
Lemma cancels_sound {c} s id s' : cancels c s id s' -> sound s'.
Proof. intros Hc. apply (be_sound _ _ _ (ca_becomes _ _ _ _ Hc)). Qed.
Lemma cancels_calm {c} s id s' : cancels c s id s' -> calm s -> calm s'.
Proof. intros Hc. apply (be_calm _ _ _ (ca_becomes _ _ _ _ Hc)). Qed.

(** One more document of the family removed or set to Cancelling. *)
Lemma cancels_put {c} s id s1 s2 id' x : sound s -> cancels c s id s1 ->
  becomes (with_docs (put id' x (docs s1)) (shows s1)) s1 s2 -> (scannable s1 -> scannable s2) ->
  id' ∈ family s id -> (x = None \/ (c = true /\ exists t, task_of s id' = Some t /\ x = doc (set_TaskState Cancelling t))) ->
  cancels c s id s2.
Proof.
  intros Hs [c1 c2 c3 c4 c5 c6 c7] Hb Hsc Hin Hx. pose proof (be_shows _ _ _ Hb) as [Hd Hi He Ht]. cbn in *.
  split; [| | | | | |auto].
  - eapply becomes_self, becomes_trans; [exact c1|exact Hb].
  - intros id2 Hid2. change (docs s2 id2) with (v_docs (shows s2) id2). rewrite Hd, put_ne by (intros ->; done). by apply c2.
  - intros id2. change (docs s2 id2) with (v_docs (shows s2) id2). rewrite Hd.
    destruct (decide (id2 = id')) as [->|Hne]; [|rewrite put_ne by done; apply c3].
    rewrite put_eq. by right.
  - intros m. rewrite Hi. apply c4.
  - by rewrite He.
  - by rewrite Ht.
Qed.
(** A task that is read while the family is being cancelled is as it was or already Cancelling. *)
Lemma cancels_task {c} s id s1 id' t : sound s -> cancels c s id s1 -> task_of s1 id' = Some t ->
  t_ID t = id' /\ wf_task t /\
  exists t0, task_of s id' = Some t0 /\ set_TaskState Cancelling t = set_TaskState Cancelling t0.
Proof.
  intros Hs Hc Ht. split_and!; [by apply (typed_law _ _ _ (be_sound _ _ _ (ca_becomes _ _ _ _ Hc)) Ht)..|].
  destruct (ca_docs _ _ _ _ Hc id') as [Hd|[Hd|(_ & t0 & Ht0 & Hd)]].
  - rewrite (task_of_docs _ _ _ Hd) in Ht. by exists t.
  - by rewrite (task_of_none _ _ Hd) in Ht.
  - destruct (typed_law _ _ _ Hs Ht0) as [_ Hwf0]. rewrite (task_of_doc _ _ _ Hd) in Ht by exact Hwf0.
    injection Ht as <-. by exists t0.
Qed.
Lemma cancels_stays_after {c} s id s1 s2 : cancels c s id s1 -> stays s1 s2 -> cancels c s id s2.
Proof.
  intros [c1 c2 c3 c4 c5 c6 c7] Hst. pose proof (stays_view _ _ Hst) as [Hd Hi He Ht]. split.
  - eapply becomes_self, becomes_stays; [exact c1|done].
  - intros. rewrite (stays_docs _ _ _ Hst). auto.
  - intros id'. rewrite (stays_docs _ _ _ Hst). auto.
  - intros m. by rewrite Hi.
  - by rewrite He.
  - by rewrite Ht.
  - intros ?. apply Hst. auto.
Qed.
Lemma cancels_spawn s id s1 s2 id' : cancels true s id s1 ->
  becomes (with_threads (v_threads (shows s1) ++ [AsyncTaskDelete id'])%list (shows s1)) s1 s2 ->
  (scannable s1 -> scannable s2) -> id' ∈ family s id -> cancels true s id s2.
Proof.
  intros [c1 c2 c3 c4 c5 (l & Hl & Hin) c7] Hb Hsc Hid. pose proof (be_shows _ _ _ Hb) as [Hd Hi He Ht]. cbn in *.
  split.
  - eapply becomes_self, becomes_trans; [exact c1|exact Hb].
  - intros. change (docs s2 id'0) with (v_docs (shows s2) id'0). rewrite Hd. by apply c2.
  - intros. change (docs s2 id'0) with (v_docs (shows s2) id'0). rewrite Hd. by apply c3.
  - intros m. rewrite Hi. apply c4.
  - by rewrite He.
  - exists (l ++ [AsyncTaskDelete id'])%list. rewrite Ht, Hl, app_assoc. split; [done|].
    intros th [?|E%list_elem_of_singleton]%elem_of_app; [auto|]. split; [done|]. by exists id'.
  - auto.
Qed.
(** A second attempt in the state the first one left. *)
Lemma cancels_trans {c} s id s1 s2 : sound s -> cancels c s id s1 -> cancels c s1 id s2 -> cancels c s id s2.
Proof.
  intros Hs Ha Hb.
  assert (Hfam : forall id', id' ∈ family s1 id -> id' ∈ family s id).
  { intros id'. unfold family. destruct (ca_docs _ _ _ _ Ha id) as [Hd|[Hd|(_ & t & Ht & Hd)]].
    - by rewrite (task_of_docs _ _ _ Hd).
    - rewrite (task_of_none _ _ Hd). set_solver.
    - destruct (typed_law _ _ _ Hs Ht) as [_ Hwf]. rewrite (task_of_doc _ _ _ Hd) by exact Hwf. by rewrite Ht. }
  destruct Ha as [c1 c2 c3 c4 c5 (l & Hl & Hin) c7], Hb as [e1 e2 e3 e4 e5 (l' & Hl' & Hin') e7]. split.
  - by eapply becomes_trans.
  - intros id' Hid'. rewrite e2 by auto. by apply c2.
  - intros id'. destruct (e3 id') as [->|[->|(-> & t1 & Ht1 & ->)]]; [apply c3|by right; left|].
    right; right. split; [done|]. destruct (c3 id') as [Hc|[Hc|(_ & t & Ht & Hc)]].
    + rewrite (task_of_docs _ _ _ Hc) in Ht1. by exists t1.
    + by rewrite (task_of_none _ _ Hc) in Ht1.
    + destruct (typed_law _ _ _ Hs Ht) as [_ Hwf]. rewrite (task_of_doc _ _ _ Hc) in Ht1 by exact Hwf.
      injection Ht1 as <-. by exists t.
  - intros m. destruct (e4 m) as [->|[-> ?]]; [apply c4|by right].
  - by rewrite e5.
  - exists (l ++ l')%list. rewrite Hl', Hl, app_assoc. split; [done|].
    intros th [?|Hth]%elem_of_app; [auto|]. destruct (Hin' _ Hth) as (-> & id' & -> & ?). split; [done|]. by eauto.
  - auto.
Qed.

(** Deleting a task that was read. *)
Lemma wp_delete_member {c} s id s1 s2 id' t Q : sound s -> cancels c s id s1 -> stays s1 s2 ->
  t_ID t = id' -> id' ∈ family s id ->
  (forall e s3, cancels c s id s3 -> v_threads (shows s3) = v_threads (shows s1) ->
     (calm s -> task_of s1 id' <> None -> e = None) ->
     (e = None \/ calm s -> forall id2, docs s3 id2 = put id' None (docs s1) id2) -> Q (Ok e) s3) ->
  wp (DeleteTaskFromDBModel ts t) Q s2.
Proof.
  intros Hs Hc Hst Hid Hin HQ.
  eapply wp_mono; [eapply delete_law, stays_sound, Hst|]. intros o s3 [Hsc Ho]. rewrite Hid in Ho.
  pose proof (cancels_stays_after _ _ _ _ Hc Hst) as Hc2.
  assert (Hput : becomes (with_docs (put id' None (docs s2)) (shows s2)) s2 s3 ->
     cancels c s id s3 /\ v_threads (shows s3) = v_threads (shows s1) /\
     forall id2, docs s3 id2 = put id' None (docs s1) id2).
  { intros Hb. split_and!.
    - eapply cancels_put; eauto.
    - rewrite (sv_threads _ _ (be_shows _ _ _ Hb)). apply (stays_view _ _ Hst).
    - intros id2. rewrite (becomes_docs _ _ _ _ Hb). cbn. unfold put. case_decide; [done|]. by apply stays_docs. }
  destruct o as [[e|]|]; [| |done].
  - destruct Ho as [[Hst3 Hn]|[Hb Hn]].
    + assert (Hnone : calm s -> docs s1 id' = None).
      { intros Hcalm. rewrite <- (stays_docs _ _ _ Hst). apply Hn. by apply (cancels_calm _ _ _ Hc2). }
      apply HQ; [by eapply cancels_stays_after|by rewrite (sv_threads _ _ (stays_view _ _ (stays_trans _ _ _ Hst Hst3)))|..].
      * intros Hcalm Ht. exfalso. by apply Ht, task_of_none, Hnone.
      * intros [?|Hcalm] id2; [done|]. rewrite (stays_docs _ _ _ (stays_trans _ _ _ Hst Hst3)).
        unfold put. case_decide as E; [|done]. subst id2. auto.
    + assert (~ calm s) by (intros Hcalm; by apply Hn, (cancels_calm _ _ _ Hc2)).
      apply HQ; [by apply Hput|by apply Hput|done|by intros [?|?]].
  - apply HQ; [by apply Hput|by apply Hput|done|]. intros _. by apply Hput.
Qed.

Lemma wp_deleteSubTask {c} s id s1 id' : sound s -> cancels c s id s1 -> id' ∈ family s id ->
  wp (deleteSubTask ts id')
     (fun o s2 => o = Ok tt /\ cancels c s id s2 /\
        v_threads (shows s2) = v_threads (shows s1) /\
        (calm s -> forall id2, docs s2 id2 = if task_of s1 id' then put id' None (docs s1) id2 else docs s1 id2)) s1.
Proof.
  intros Hs Hc Hin. unfold deleteSubTask. law get_law; [by eapply cancels_sound|]. intros o s2 [Hst Ho].
  pose proof (cancels_stays_after _ _ _ _ Hc Hst) as Hc2.
  destruct o as [[e|t]|]; [| |done]; wp_go.
  { split_and!; [done|done|apply (stays_view _ _ Hst)|]. intros Hcalm id2. rewrite Ho by (by eapply cancels_calm).
    by apply stays_docs. }
  destruct (cancels_task _ _ _ _ _ Hs Hc Ho) as (Hid & _).
  eapply wp_delete_member; [done|exact Hc|done|exact Hid|done|]. intros e s3 Hc3 Hth He Hd. wp_go.
  split_and!; [done|done|done|]. intros Hcalm id2. rewrite Ho. apply Hd. by right.
Qed.

(** What cancelling makes of one document. *)
Definition cancel_doc (v : option jtext) : option jtext :=
  match v with
  | Some d =>
      match decode_task d with
      | Some t => if finished (t_TaskState t) then None
                  else if String.eqb (t_TaskState t) Cancelling then v
                  else doc (set_TaskState Cancelling t)
      | None => v
      end
  | None => None
  end.
(** The goroutines it starts. *)
Definition cancel_threads (v : option jtext) id : list thread :=
  match v with
  | Some d =>
      match decode_task d with
      | Some t => if finished (t_TaskState t) || String.eqb (t_TaskState t) Cancelling then []
                  else [AsyncTaskDelete id]
      | None => []
      end
  | None => []
  end.

(** Sets a task that was read to Cancelling and starts the goroutine that waits for it. *)
Lemma wp_cancel_member {B} s id s1 s2 id' t (k : M S B) (bad : string -> M S B) Q :
  sound s -> cancels true s id s1 -> stays s1 s2 ->
  t_ID t = id' /\ wf_task t /\
    (exists t0, task_of s id' = Some t0 /\ set_TaskState Cancelling t = set_TaskState Cancelling t0) ->
  id' ∈ family s id ->
  (forall e s3, cancels true s id s3 -> (calm s -> docs s1 id' = None) -> wp (bad e) Q s3) ->
  (forall s3, cancels true s id s3 -> (forall id2, docs s3 id2 = put id' (doc (set_TaskState Cancelling t)) (docs s2) id2) ->
     v_threads (shows s3) = (v_threads (shows s2) ++ [AsyncTaskDelete id'])%list -> wp k Q s3) ->
  wp (let! e := UpdateTaskStatusModel ts (set_TaskState Cancelling t) InMemory in
      match e with
      | Some e => bad e
      | None => Spawn (AsyncTaskDelete id') ;;; k
      end) Q s2.
Proof.
  intros Hs Hc Hst (Hid & Hwf & t0 & Ht0 & Heq) Hin Hbad Hk.
  assert (Hwf' : wf_task (set_TaskState Cancelling t)) by exact Hwf.
  law update_law. intros o s3 [Hsc Hu]. change (t_ID (set_TaskState Cancelling t)) with (t_ID t) in Hu. rewrite Hid in Hu.
  pose proof (cancels_stays_after _ _ _ _ Hc Hst) as Hc2.
  assert (Hput : forall z, z = v_index (shows s2) ->
     becomes (with_index z (with_docs (put id' (doc (set_TaskState Cancelling t)) (docs s2)) (shows s2))) s2 s3 ->
     cancels true s id s3 /\ (forall id2, docs s3 id2 = put id' (doc (set_TaskState Cancelling t)) (docs s2) id2) /\
     v_threads (shows s3) = v_threads (shows s2)).
  { intros z -> Hb. split_and!.
    - eapply (cancels_put _ _ s2); [done|done|exact Hb|by apply Hsc|done|]. right. split; [done|]. exists t0. by rewrite Heq.
    - intros id2. by rewrite (becomes_docs _ _ _ _ Hb).
    - by rewrite (sv_threads _ _ (be_shows _ _ _ Hb)). }
  destruct o as [[e|]|]; [| |done]; cbn [wp_cont].
  - destruct Hu as [[Hst3 Hn]|(Hn & z & Hb & Hz)].
    + apply Hbad; [by eapply cancels_stays_after|]. intros Hcalm.
      rewrite <- (stays_docs _ _ _ Hst). apply Hn. by apply (cancels_calm _ _ _ Hc2).
    + apply Hbad; [|intros Hcalm; exfalso; by apply Hn, (cancels_calm _ _ _ Hc2)].
      eapply (Hput z); [by destruct Hz as [->|[? _]]|exact Hb].
  - destruct Hu as (_ & z & Hb & Hz & _). assert (z = v_index (shows s2)) by (by destruct Hz as [->|[? _]]).
    destruct (Hput z) as (Hc3 & Hd3 & Ht3); [done|exact Hb|].
    law spawn_law; [by eapply cancels_sound|]. intros o s4 (Hb4 & Hsc4 & ->). cbn [wp_cont]. apply Hk.
    + by eapply cancels_spawn.
    + intros id2. rewrite (becomes_docs _ _ _ _ Hb4). apply Hd3.
    + rewrite (sv_threads _ _ (be_shows _ _ _ Hb4)). cbn. by rewrite Ht3.
Qed.

Lemma wp_cancelSubTask s id s1 id' : sound s -> cancels true s id s1 -> id' ∈ family s id ->
  wp (cancelSubTask ts id')
     (fun o s2 => cancels true s id s2 /\
        match o with
        | Ok (inr _) => calm s ->
            (forall id2, docs s2 id2 = put id' (cancel_doc (docs s1 id')) (docs s1) id2) /\
            v_threads (shows s2) = (v_threads (shows s1) ++ cancel_threads (docs s1 id') id')%list
        | Ok (inl _) => ~ calm s
        | Panic => False
        end) s1.
Proof.
  intros Hs Hc Hin. unfold cancelSubTask. law get_law; [by eapply cancels_sound|]. intros o s2 [Hst Ho].
  pose proof (cancels_stays_after _ _ _ _ Hc Hst) as Hc2.
  assert (Hsame : calm s -> cancel_doc (docs s1 id') = docs s1 id' -> cancel_threads (docs s1 id') id' = [] ->
    (forall id2, docs s2 id2 = put id' (cancel_doc (docs s1 id')) (docs s1) id2) /\
    v_threads (shows s2) = (v_threads (shows s1) ++ cancel_threads (docs s1 id') id')%list).
  { intros _ -> ->. rewrite app_nil_r. split; [|apply (stays_view _ _ Hst)].
    intros id2. rewrite (stays_docs _ _ _ Hst). unfold put. by case_decide; subst. }
  destruct o as [[e|t]|]; [| |done]; wp_go.
  { split; [done|]. intros Hcalm. specialize (Ho (cancels_calm _ _ _ Hc Hcalm)). unfold task_of in Ho.
    apply Hsame; [done|..]; unfold cancel_doc, cancel_threads; destruct (docs s1 id') as [v|]; rewrite ?Ho; done. }
  assert (Hdoc : exists v, docs s1 id' = Some v /\ decode_task v = Some t).
  { unfold task_of in Ho. destruct (docs s1 id') as [v|]; [|done]. by exists v. }
  destruct Hdoc as (v & Hv & Hdec).
  assert (Hcd : cancel_doc (docs s1 id') = if finished (t_TaskState t) then None
      else if String.eqb (t_TaskState t) Cancelling then docs s1 id' else doc (set_TaskState Cancelling t)).
  { rewrite Hv. cbn [cancel_doc]. by rewrite Hdec. }
  assert (Hct : cancel_threads (docs s1 id') id' =
      if finished (t_TaskState t) || String.eqb (t_TaskState t) Cancelling then [] else [AsyncTaskDelete id']).
  { rewrite Hv. cbn [cancel_threads]. by rewrite Hdec. }
  destruct (finished (t_TaskState t)); cbn [orb] in *.
  - eapply wp_bind, wp_delete_member;
      [done|exact Hc|done|exact (proj1 (cancels_task _ _ _ _ _ Hs Hc Ho))|done|]. intros e s3 Hc3 Hth He Hd. wp_go.
    split; [done|]. intros Hcalm. rewrite Hcd, Hct, app_nil_r. split; [|done]. apply Hd. by right.
  - destruct (String.eqb (t_TaskState t) Cancelling); cbn [negb].
    + wp_go. split; [done|]. auto.
    + eapply wp_cancel_member; [done|exact Hc|done|exact (cancels_task _ _ _ _ _ Hs Hc Ho)|done|..].
      * intros e s3 Hc3 Hn. wp_go. split; [done|]. intros Hcalm. by rewrite Hn in Hv.
      * intros s3 Hc3 Hd Hth. wp_go. split; [done|]. intros _. rewrite Hcd, Hct. split.
        -- intros id2. rewrite Hd. unfold put. case_decide; [done|]. by apply stays_docs.
        -- rewrite Hth. f_equal. apply (stays_view _ _ Hst).
Qed.

(** What deleting makes of one document. *)
Definition delete_doc (v : option jtext) : option jtext :=
  match v with
  | Some d => match decode_task d with Some _ => None | None => v end
  | None => None
  end.
(** The documents of some identifiers changed. *)
Definition each (f : option jtext -> option jtext) (ids : list string) (d : documents) : documents :=
  fun id => if decide (id ∈ ids) then f (d id) else d id.
Lemma each_nil f d id : each f [] d id = d id.
Proof. done. Qed.
Lemma each_snoc f ids id d d' : id ∉ ids -> (forall id', d' id' = each f ids d id') ->
  forall id', put id (f (d' id)) d' id' = each f (ids ++ [id])%list d id'.
Proof.
  intros Hn Hd id'. unfold put. case_decide as E; [subst id'|]; rewrite Hd; unfold each.
  - rewrite (decide_False (P := id ∈ ids)) by done. by rewrite decide_True by set_solver.
  - destruct (decide (id' ∈ ids)); [rewrite decide_True by set_solver|rewrite decide_False by set_solver]; done.
Qed.

(** What the callback does when no command fails and no identifier occurs twice in the family. *)
Definition cancelled s id s' : Prop :=
  match task_of s id with
  | None => stays s s'
  | Some t =>
      let children := items (t_ChildTaskIDs t) in
      if finished (t_TaskState t) then
        (forall id', docs s' id' = each delete_doc (family s id) (docs s) id') /\
        v_threads (shows s') = v_threads (shows s)
      else
        (forall id', docs s' id' = each cancel_doc (family s id) (docs s) id') /\
        v_threads (shows s') = (v_threads (shows s) ++
          concat ((fun c => cancel_threads (docs s c) c) <$> children) ++ cancel_threads (docs s id) id)%list
  end.
Definition callback_post s id (o : outcome err) s' : Prop :=
  cancels true s id s' /\
  match o with
  | Ok None => calm s -> NoDup (family s id) -> cancelled s id s'
  | Ok (Some _) => NoDup (family s id) -> ~ calm s
  | Panic => False
  end.

Lemma delete_doc_task s id : (if task_of s id then None else docs s id) = delete_doc (docs s id).
Proof. unfold task_of, delete_doc. destruct (docs s id) as [v|]; [|done]. by destruct (decode_task v). Qed.

Lemma wp_deleteSubTasks {c} s id s1 ids Q : sound s -> cancels c s id s1 -> ids ⊆ family s id ->
  (forall s2, cancels c s id s2 -> v_threads (shows s2) = v_threads (shows s1) ->
     (calm s -> NoDup ids -> forall id', docs s2 id' = each delete_doc ids (docs s1) id') -> Q (Ok tt) s2) ->
  wp (forM_ ids (deleteSubTask ts)) Q s1.
Proof.
  intros Hs Hc Hids HQ.
  apply (wp_forM (fun pre s2 => cancels c s id s2 /\ v_threads (shows s2) = v_threads (shows s1) /\
    (calm s -> NoDup ids -> forall id', docs s2 id' = each delete_doc pre (docs s1) id'))).
  - split_and!; [done..|]. intros. by rewrite each_nil.
  - intros pre x s2 [todo ->] (Hc2 & Hth & Hd).
    eapply wp_mono; [apply (wp_deleteSubTask _ _ _ _ Hs Hc2); apply Hids; set_solver|].
    intros o s3 (-> & Hc3 & Hth3 & Hd3). split_and!; [done|congruence|]. intros Hcalm Hnd id'.
    rewrite Hd3 by done. apply NoDup_app in Hnd as Hnd'. destruct Hnd' as (_ & Hx & _).
    rewrite <- (each_snoc delete_doc pre x (docs s1) (docs s2)); [|intros ?; eapply Hx; [done|set_solver]|by apply Hd].
    rewrite <- delete_doc_task. unfold put. destruct (task_of s2 x); [done|]. by case_decide; subst.
  - intros s2 (Hc2 & Hth & Hd). by apply HQ.
Qed.

Lemma wp_cancelSubTasks s id s1 ids : sound s -> cancels true s id s1 -> ids ⊆ family s id ->
  wp (loopM ids tt (fun _ subTaskID => cancelSubTask ts subTaskID))
     (fun o s2 => cancels true s id s2 /\
        match o with
        | Ok (inr _) => calm s -> NoDup ids ->
            (forall id', docs s2 id' = each cancel_doc ids (docs s1) id') /\
            v_threads (shows s2) = (v_threads (shows s1) ++
              concat ((fun c => cancel_threads (docs s1 c) c) <$> ids))%list
        | Ok (inl _) => ~ calm s
        | Panic => False
        end) s1.
Proof.
  intros Hs Hc Hids.
  apply (wp_loopM (fun pre (_ : unit) s2 => cancels true s id s2 /\ (calm s -> NoDup ids ->
    (forall id', docs s2 id' = each cancel_doc pre (docs s1) id') /\
    v_threads (shows s2) = (v_threads (shows s1) ++ concat ((fun c => cancel_threads (docs s1 c) c) <$> pre))%list))).
  - split; [done|]. intros. rewrite app_nil_r. by split.
  - intros pre x _ s2 [todo ->] (Hc2 & Hd).
    eapply wp_mono; [apply (wp_cancelSubTask _ _ _ _ Hs Hc2); apply Hids; set_solver|].
    intros o s3 (Hc3 & Ho). destruct o as [[e|_]|]; [done| |done]. split; [done|]. intros Hcalm Hnd.
    destruct (Ho Hcalm) as [Hd3 Ht3], (Hd Hcalm Hnd) as [Hd2 Ht2].
    apply NoDup_app in Hnd as (_ & Hx & _). assert (Hnx : x ∉ pre) by (intros ?; eapply Hx; [done|set_solver]).
    split.
    + intros id'. rewrite Hd3. by apply each_snoc.
    + rewrite Ht3, Ht2, fmap_app, concat_app. cbn. rewrite app_nil_r, <- app_assoc. f_equal. f_equal.
      rewrite Hd2. unfold each. by rewrite decide_False.
  - intros _ s2 (Hc2 & Hd). by split.
Qed.

Lemma each_cons_snoc f id ids d id' : each f (ids ++ [id])%list d id' = each f (id :: ids) d id'.
Proof. unfold each. by destruct (decide (id' ∈ (ids ++ [id])%list)), (decide (id' ∈ id :: ids)); set_solver. Qed.
Lemma each_stays f ids s s1 : stays s s1 -> forall id', each f ids (docs s1) id' = each f ids (docs s) id'.
Proof. intros Hst id'. unfold each. by rewrite (stays_docs _ _ _ Hst). Qed.
Lemma cancel_parts s id t : task_of s id = Some t ->
  cancel_doc (docs s id) = (if finished (t_TaskState t) then None
    else if String.eqb (t_TaskState t) Cancelling then docs s id else doc (set_TaskState Cancelling t)) /\
  cancel_threads (docs s id) id =
    (if finished (t_TaskState t) || String.eqb (t_TaskState t) Cancelling then [] else [AsyncTaskDelete id]) /\
  delete_doc (docs s id) = None.
Proof.
  unfold task_of. destruct (docs s id) as [v|]; [|done]. intros Ht.
  unfold cancel_doc, cancel_threads, delete_doc. by rewrite Ht.
Qed.

(** The second half for a task that goes on: the children are done, the task itself is last. *)
Lemma wp_cancel_self s id s1 t : sound s -> cancels true s id s1 -> task_of s id = Some t ->
  finished (t_TaskState t) = false ->
  let children := items (t_ChildTaskIDs t) in
  (calm s -> NoDup (family s id) ->
     (forall id', docs s1 id' = each cancel_doc children (docs s) id') /\
     v_threads (shows s1) = (v_threads (shows s) ++ concat ((fun c => cancel_threads (docs s c) c) <$> children))%list) ->
  wp (if negb (String.eqb (t_TaskState t) Cancelling) then
        let! e := UpdateTaskStatusModel ts (set_TaskState Cancelling t) InMemory in
        match e with
        | Some e => ret (Some e)
        | None => Spawn (AsyncTaskDelete id) ;;; ret None
        end
      else ret None) (callback_post s id) s1.
Proof.
  intros Hs Hc Ht Hfin children Hd. pose proof (cancel_parts _ _ _ Ht) as (Hcd & Hct & _). rewrite Hfin in Hcd, Hct.
  assert (Hpost : forall s2, cancels true s id s2 ->
    (calm s -> NoDup (family s id) ->
      (forall id', docs s2 id' = put id (cancel_doc (docs s id)) (docs s1) id') /\
      v_threads (shows s2) = (v_threads (shows s1) ++ cancel_threads (docs s id) id)%list) ->
    callback_post s id (Ok None) s2).
  { intros s2 Hc2 Hd2. split; [done|]. intros Hcalm Hnd. unfold cancelled. rewrite Ht, Hfin.
    destruct (Hd Hcalm Hnd) as [Hdoc Hth], (Hd2 Hcalm Hnd) as [Hdoc2 Hth2].
    unfold family in *. rewrite Ht in *. fold children in Hnd |- *. apply NoDup_cons in Hnd as [Hnin Hnd]. split.
    - intros id'. rewrite <- each_cons_snoc, Hdoc2, <- (each_snoc cancel_doc children id (docs s) (docs s1)) by done.
      unfold put. case_decide; [|done]. rewrite Hdoc. unfold each. by rewrite decide_False.
    - by rewrite Hth2, Hth, app_assoc. }
  destruct (String.eqb (t_TaskState t) Cancelling); cbn [negb orb] in *.
  - wp_go. apply Hpost; [done|]. intros Hcalm Hnd. rewrite Hct, app_nil_r. split; [|done].
    intros id'. rewrite Hcd. destruct (Hd Hcalm Hnd) as [Hdoc _]. unfold put. case_decide as E; [|done]. subst id'.
    rewrite Hdoc. unfold each. rewrite decide_False; [done|]. unfold family in Hnd. rewrite Ht in Hnd.
    by apply NoDup_cons in Hnd as [? _].
  - destruct (typed_law _ _ _ Hs Ht) as [Hid Hwf].
    eapply (wp_cancel_member s id s1 s1); [done|done|apply stays_refl; by eapply cancels_sound|by eauto|by left|..].
    + intros e s2 Hc2 Hn. wp_go. split; [done|]. intros Hnd Hcalm. destruct (Hd Hcalm Hnd) as [Hdoc _].
      specialize (Hn Hcalm). rewrite Hdoc in Hn. unfold family in Hnd. rewrite Ht in Hnd.
      apply NoDup_cons in Hnd as [Hnin _]. unfold each in Hn. rewrite decide_False in Hn by done.
      by rewrite (task_of_none _ _ Hn) in Ht.
    + intros s2 Hc2 Hd2 Hth2. wp_go. apply Hpost; [done|]. intros _ _. by rewrite Hcd, Hct.
Qed.

(** A finished task: its sub-tasks are deleted, then the task itself. *)
Lemma wp_delete_family {c} s id s1 t (k : err -> M S err) Q : sound s -> cancels c s id s1 -> stays s s1 ->
  task_of s id = Some t ->
  (forall e s2, cancels c s id s2 -> v_threads (shows s2) = v_threads (shows s) ->
     (calm s -> NoDup (family s id) -> e = None /\
        forall id', docs s2 id' = each delete_doc (family s id) (docs s) id') ->
     (e = None \/ calm s -> docs s2 id = None) -> wp (k e) Q s2) ->
  wp (forM_ (items (t_ChildTaskIDs t)) (deleteSubTask ts) ;;;
      let! e := DeleteTaskFromDBModel ts t in k e) Q s1.
Proof.
  intros Hs Hc Hst Ht HQ. pose proof (cancel_parts _ _ _ Ht) as (_ & _ & Hdd).
  assert (Hfam : family s id = id :: items (t_ChildTaskIDs t)) by (unfold family; by rewrite Ht).
  apply wp_bind, (wp_deleteSubTasks (c := c) s id); [done|done|rewrite Hfam; set_solver|]. intros s2 Hc2 Hth2 Hd2. wp_go.
  destruct (typed_law _ _ _ Hs Ht) as [Hid _].
  eapply wp_delete_member; [done|exact Hc2|apply stays_refl; by eapply cancels_sound|exact Hid|rewrite Hfam; by left|].
  intros e s3 Hc3 Hth3 He Hd3. cbn [wp_cont]. apply HQ; [done| | |].
  - rewrite Hth3, Hth2. apply (stays_view _ _ Hst).
  - intros Hcalm Hnd. rewrite Hfam in Hnd |- *. apply NoDup_cons in Hnd as [Hnin Hnd].
    assert (Hd2' : forall id', docs s2 id' = each delete_doc (items (t_ChildTaskIDs t)) (docs s) id').
    { intros id'. rewrite Hd2 by done. by apply each_stays. }
    assert (e = None) as ->.
    { apply He; [done|]. unfold task_of. rewrite Hd2'. unfold each. rewrite decide_False by done. fold (task_of s id). by rewrite Ht. }
    split; [done|]. intros id'. rewrite Hd3 by (by left).
    rewrite <- each_cons_snoc, <- (each_snoc delete_doc _ id (docs s) (docs s2)) by done.
    unfold put. case_decide; [|done]. rewrite Hd2'. unfold each. by rewrite decide_False, Hdd.
  - intros He'. rewrite Hd3 by done. apply put_eq.
Qed.

(** Cancelling a task changes its family only: documents are removed or set to Cancelling, and
    every goroutine it starts waits for a member.  When no command fails it deletes a finished task
    with its sub-tasks; else it deletes the finished sub-tasks, sets the others and the task to
    Cancelling and starts one goroutine for each task whose state it has set; it never panics. *)
Lemma wp_taskCancelCallBack id s : sound s -> wp (taskCancelCallBack ts id) (callback_post s id) s.
Proof.
  intros Hs. unfold taskCancelCallBack. law get_law. intros o s1 [Hst Ho]. wp_go.
  pose proof (cancels_stays (c := true) _ id _ Hst) as Hc. destruct o as [[e|t]|]; [| |done]; wp_go.
  { split; [done|]. intros Hcalm _. unfold cancelled. by rewrite Ho. }
  destruct (finished (t_TaskState t)) eqn:Hfin.
  { eapply wp_delete_family; [done|done|done|exact Ho|]. intros e s2 Hc2 Hth Hd _. wp_go.
    split; [done|]. intros Hcalm Hnd. unfold cancelled. rewrite Ho, Hfin. split; [by apply Hd|done]. }
  assert (Hfam : family s id = id :: items (t_ChildTaskIDs t)) by (unfold family; by rewrite Ho).
  wp_go. eapply wp_mono; [apply (wp_cancelSubTasks s id s1); [done|done|rewrite Hfam; set_solver]|].
  intros o s2 [Hc2 Hd]. destruct o as [[e|[]]|]; [| |done]; cbn [wp_cont].
  { wp_go. by split. }
  apply wp_cancel_self; [done..|]. intros Hcalm Hnd. rewrite Hfam in Hnd. apply NoDup_cons in Hnd as [_ Hnd].
  destruct (Hd Hcalm Hnd) as [Hd2 Hth]. split.
  - intros id'. rewrite Hd2. by apply each_stays.
  - rewrite Hth, (sv_threads _ _ (stays_view _ _ Hst)). f_equal. f_equal.
    apply list_fmap_ext. intros ? c ?. by rewrite (stays_docs _ _ _ Hst).
Qed.

(** ** The transaction *)

Lemma family_stays s s1 id : stays s s1 -> family s1 id = family s id.
Proof. intros Hst. unfold family. by rewrite (stays_task _ _ _ Hst). Qed.
Lemma cancelled_stays s s1 s2 s3 id : stays s s1 -> cancelled s1 id s2 -> stays s2 s3 -> cancelled s id s3.
Proof.
  intros Ha Hc Hb. unfold cancelled in *. rewrite (stays_task _ _ _ Ha), (family_stays _ _ _ Ha) in Hc.
  destruct (task_of s id) as [t|]; [|by eauto using stays_trans].
  rewrite (sv_threads _ _ (stays_view _ _ Hb)).
  destruct (finished (t_TaskState t)); destruct Hc as [Hd Ht]; rewrite Ht, (sv_threads _ _ (stays_view _ _ Ha)).
  - split; [|done]. intros id'. rewrite (stays_docs _ _ _ Hb), Hd. by apply each_stays.
  - split; [intros id'; rewrite (stays_docs _ _ _ Hb), Hd; by apply each_stays|].
    rewrite (stays_docs _ _ _ Ha). do 3 f_equal. apply list_fmap_ext. intros ? c ?. by rewrite (stays_docs _ _ _ Ha).
Qed.
Lemma callback_stays s s1 s2 s3 id o : sound s -> stays s s1 -> callback_post s1 id o s2 -> stays s2 s3 ->
  callback_post s id o s3.
Proof.
  intros Hs Ha [Hc Ho] Hb. split.
  - eapply cancels_trans; [done|by apply cancels_stays|]. by eapply cancels_stays_after.
  - rewrite (family_stays _ _ _ Ha) in Ho. destruct o as [[e|]|]; [| |done].
    + intros Hnd Hcalm. apply (Ho Hnd). by eapply stays_calm.
    + intros Hcalm Hnd. eapply cancelled_stays; [done| |done]. apply Ho; [by eapply stays_calm|done].
Qed.

(** One attempt: the callback's result, or an error from around it. *)
Lemma wp_attempt id s Q : sound s ->
  (forall s', callback_post s id (Ok None) s' -> Q (Ok None) s') ->
  (forall e s', cancels true s id s' -> (NoDup (family s id) -> ~ calm s) -> Q (Ok (Some e)) s') ->
  wp (TransactionModel ts id (taskCancelCallBack ts)) Q s.
Proof.
  intros Hs Hok Hno. apply transaction_law; [done|..].
  - intros e s' Hst Hn. apply Hno; [by apply cancels_stays|done].
  - intros s1 Hst. eapply wp_mono; [by eapply wp_taskCancelCallBack, stays_sound|]. intros o s2 Hpost.
    destruct o as [r|]; [|by destruct Hpost]. split; [by eapply cancels_sound, Hpost|]. intros s3 Hst3.
    pose proof (callback_stays _ _ _ _ _ _ Hs Hst Hpost Hst3) as Hp. destruct r as [e|].
    + intros e'. destruct Hp. by apply Hno.
    + split; [by apply Hok|]. intros Hn e. apply Hno; [apply Hp|]. intros _ Hcalm. apply Hn.
      apply (cancels_calm _ _ _ (proj1 Hpost)). by eapply stays_calm.
Qed.

(** More attempts after one that failed. *)
Lemma wp_retries n id s0 s last : sound s0 -> cancels true s0 id s -> (NoDup (family s0 id) -> ~ calm s0) ->
  wp (cancelTransaction ts n id last) (callback_post s0 id) s.
Proof.
  intros Hs0. revert s last. induction n as [|n IH]; intros s last Hc Hn; cbn [cancelTransaction].
  { wp_go. split; [done|]. destruct last; [done|]. intros ? Hnd. by destruct (Hn Hnd). }
  apply wp_bind, wp_attempt; [by eapply cancels_sound|..].
  - intros s' [Hc' _]. wp_go. split; [by eapply cancels_trans|]. intros ? Hnd. by destruct (Hn Hnd).
  - intros e s' Hc' _. wp_go. apply IH; [by eapply cancels_trans|done].
Qed.
Lemma wp_cancelTransaction n id s last : sound s ->
  wp (cancelTransaction ts (Datatypes.S n) id last) (callback_post s id) s.
Proof.
  intros Hs. cbn [cancelTransaction]. apply wp_bind, wp_attempt; [done|..].
  - intros s' Hp. by wp_go.
  - intros e s' Hc Hn. wp_go. by apply wp_retries.
Qed.

(** ** Completed tasks *)

Definition completed_post s id (o : outcome err) s' : Prop :=
  cancels false s id s' /\
  (calm s -> task_of s' id = None /\
     (NoDup (family s id) -> forall id', docs s' id' = each delete_doc (family s id) (docs s) id')) /\
  match o with
  | Ok None => (stays s s' /\ (calm s -> task_of s id = None)) \/
               (docs s' id = None /\ forall m, HasSuffix m id = true -> v_index (shows s') !! m = None)
  | Ok (Some _) => True
  | Panic => False
  end.

Lemma cancels_index {c} s id s1 s2 z : cancels c s id s1 -> becomes (with_index z (shows s1)) s1 s2 ->
  (forall m, z !! m = v_index (shows s1) !! m \/ (z !! m = None /\ HasSuffix m id = true)) ->
  (scannable s1 -> scannable s2) -> cancels c s id s2.
Proof.
  intros [c1 c2 c3 c4 c5 c6 c7] Hb Hz Hsc. pose proof (be_shows _ _ _ Hb) as [Hd Hi He Ht]. cbn in *. split.
  - eapply becomes_self, becomes_trans; [exact c1|exact Hb].
  - intros. change (docs s2 id') with (v_docs (shows s2) id'). rewrite Hd. by apply c2.
  - intros. change (docs s2 id') with (v_docs (shows s2) id'). rewrite Hd. by apply c3.
  - intros m. rewrite Hi. destruct (Hz m) as [->|[-> ?]]; [apply c4|by right].
  - by rewrite He.
  - by rewrite Ht.
  - auto.
Qed.

Lemma wp_deleteCompletedTask id s : sound s -> scannable s -> (is_Some (docs s id) -> no_glob id = true) ->
  wp (deleteCompletedTask ts id) (completed_post s id) s.
Proof.
  intros Hs Hscan Hglob. unfold deleteCompletedTask. law get_law. intros o s1 [Hst Ho]. wp_go.
  assert (Hkeep : task_of s id = None -> forall id', docs s1 id' = each delete_doc (family s id) (docs s) id').
  { intros Hn id'. rewrite (stays_docs _ _ _ Hst). unfold each, family. rewrite Hn. case_decide as E; [|done].
    apply list_elem_of_singleton in E as ->. by rewrite <- delete_doc_task, Hn. }
  destruct o as [[e|t]|]; [| |done]; cbn [wp_cont].
  { wp_go. split; [by apply cancels_stays|]. split; [|by left]. intros Hcalm. specialize (Ho Hcalm).
    rewrite (stays_task _ _ _ Hst). auto. }
  eapply (wp_delete_family (c := false)); [done|by apply cancels_stays|done|exact Ho|].
  intros e s2 Hc2 Hth Hd Hgone.
  assert (Hnone : calm s -> task_of s2 id = None) by (intros; apply task_of_none, Hgone; by right).
  destruct e as [e|].
  { wp_go. split; [done|]. split; [|done]. intros Hcalm. split; [auto|]. intros Hnd. by apply Hd. }
  assert (is_Some (docs s id)) by (unfold task_of in Ho; destruct (docs s id); [by eexists|done]).
  eapply wp_mono; [apply delindex_law; [by eapply cancels_sound|by apply (ca_scan _ _ _ _ Hc2)|auto]|].
  intros o s3 (Hsc & z & Hb & Hz & Ho3).
  assert (Hd3 : forall id', docs s3 id' = docs s2 id') by (intros; by rewrite (becomes_docs _ _ _ _ Hb)).
  split; [by eapply cancels_index|]. split.
  - intros Hcalm. rewrite (task_of_docs _ _ _ (Hd3 id)). split; [auto|]. intros Hnd id'. rewrite Hd3. by apply Hd.
  - destruct o as [[e|]|]; [done| |done]. right. rewrite Hd3. split; [apply Hgone; by left|].
    intros m Hm. rewrite (becomes_index _ _ _ Hb). by apply Ho3.
Qed.

(** ** The polling goroutine *)

(** The goroutine that waits for a task ends when the task is gone or cancelled, and removes a
    cancelled task, that document alone; until then it changes nothing and goes on. *)
Lemma wp_asyncTaskDelete id s : sound s ->
  wp (asyncTaskDelete ts id)
     (fun o s' =>
        match o with
        | Ok true => (stays s s' /\ (calm s -> task_of s id = None)) \/
            (exists t, task_of s id = Some t /\ t_TaskState t = Cancelled /\
               (becomes (with_docs (put id None (docs s)) (shows s)) s s' \/ (stays s s' /\ ~ calm s)))
        | Ok false => stays s s' /\ exists t, task_of s id = Some t /\ t_TaskState t <> Cancelled
        | Panic => False
        end) s.
Proof.
  intros Hs. unfold asyncTaskDelete. law get_law. intros o s1 [Hst Ho]. wp_go.
  destruct o as [[e|t]|]; [| |done]; wp_go; [by left|].
  destruct (String.eqb_spec (t_TaskState t) Cancelled) as [E|E].
  - law delete_law. intros o s2 [_ Hd]. destruct (typed_law _ _ _ Hs Ho) as [Hid _]. rewrite Hid in Hd.
    set (f v := with_docs (put id None (v_docs v)) v).
    assert (Hgone : becomes (f (shows s1)) s1 s2 -> becomes (f (shows s)) s s2).
    { intros Hb. apply (stays_then s s1 s2 f); [same_views|done..]. }
    destruct o as [[e|]|]; [| |done]; wp_go; right; exists t; (split; [done|split; [done|]]).
    + destruct Hd as [[Hst2 Hn]|[Hb _]]; [right|left; by apply Hgone]. split; [by eapply stays_trans|].
      intros Hcalm. unfold task_of in Ho. rewrite <- (stays_docs _ _ _ Hst), Hn in Ho; [done|]. by eapply stays_calm.
    + left. by apply Hgone.
  - law sleep_law. intros o s2 [Hst2 ->]. wp_go. split; [by eapply stays_trans|]. by exists t.
Qed.

(** ** The handler *)

Lemma startedBody_spec t :
  match startedBody t with
  | Ok b => exists r link ms, messageList (items (t_Messages t)) = Ok ms /\
              b = Json (Body (TaskBody (taskResponse t r link ms)))
  | Panic => None ∈ items (t_Messages t)
  end.
Proof.
  unfold startedBody. destruct (messageList (items (t_Messages t))) as [ms|] eqn:Em; cbn [obind];
    [|by apply messageList_panics].
  destruct (CreateGenericResponse (with_MessageArgs [t_ID t] (taskHeader t)) TaskStarted) as [r|] eqn:Er; [|done].
  cbn [obind]. by eexists r, _, ms.
Qed.

(** The session may delete the task. *)
Definition may_delete s tok t : Prop := access s tok t /\ authorised s tok [PrivilegeConfigureManager].

Definition delete_post s (req : GetTaskRequest) (o : outcome TaskResponse) s' : Prop :=
  let id := gt_TaskID req in
  let may t := task_of s id = Some t /\ may_delete s (gt_SessionToken req) t in
  match o with
  | Ok rsp =>
      (stays s s' /\ error_answer rsp) \/
      (exists t e, may t /\ t_PercentComplete t = 100%Z /\ completed_post s id (Ok e) s' /\
         match e with None => rsp_StatusCode rsp = StatusNoContent | Some _ => error_answer rsp end) \/
      (exists t e, may t /\ t_PercentComplete t <> 100%Z /\ callback_post s id (Ok e) s' /\
         match e with
         | None => rsp_StatusCode rsp = StatusAccepted /\
             exists r link ms, rsp_Body rsp = Json (Body (TaskBody (taskResponse t r link ms)))
         | Some _ => error_answer rsp
         end)
  | Panic => exists t, may t /\ t_PercentComplete t <> 100%Z /\ callback_post s id (Ok None) s' /\
               None ∈ items (t_Messages t)
  end.

Lemma completed_stays s s1 s2 id o : sound s -> stays s s1 -> completed_post s1 id o s2 -> completed_post s id o s2.
Proof.
  intros Hs Ha (Hc & Hd & Ho). split; [|split].
  - eapply cancels_trans; [done|by apply cancels_stays|done].
  - intros Hcalm. destruct Hd as [Hn Hd]; [by eapply stays_calm|]. split; [done|].
    rewrite (family_stays _ _ _ Ha) in Hd. intros Hnd id'. rewrite Hd by done. by apply each_stays.
  - destruct o as [[e|]|]; [done| |done]. destruct Ho as [[Hst Hn]|?]; [left|by right].
    split; [by eapply stays_trans|]. intros Hcalm. rewrite <- (stays_task _ _ _ Ha). apply Hn. by eapply stays_calm.
Qed.

Lemma wp_DeleteTask req s : sound s -> scannable s ->
  (is_Some (docs s (gt_TaskID req)) -> no_glob (gt_TaskID req) = true) ->
  wp (DeleteTask ts req) (delete_post s req) s.
Proof.
  intros Hs Hscan Hglob. unfold DeleteTask. apply wp_bind, wp_header; [done|]. intros now s1 Hst1. wp_go.
  eapply wp_mono; [eapply wp_authorizeTask, stays_sound, Hst1|]. intros o s2 [Hst2 Ho].
  assert (H2 : stays s s2) by (by eapply stays_trans).
  destruct o as [[rsp|t]|]; [| |done]; cbn [wp_cont].
  { wp_go. left. by split. }
  destruct Ho as [Ht Ha]. rewrite (stays_task _ _ _ Hst1) in Ht. apply (access_stays _ _ _ _ Hst1) in Ha.
  apply wp_bind, wp_auth; [by eapply stays_sound|..]; intros r3 s3 Hst3 Hr3.
  { intros He. rewrite Hr3. wp_go. left. split; [by eapply stays_trans|done]. }
  intros Hm. rewrite Hr3. cbn [negb set_header rsp_Header]. apply (authorised_stays _ _ _ _ H2) in Hm.
  assert (H3 : stays s s3) by (by eapply stays_trans). wp_go.
  destruct (Z.eqb_spec (t_PercentComplete t) 100) as [Hp|Hp].
  - wp_go. eapply wp_mono; [apply wp_deleteCompletedTask; [by eapply stays_sound|by apply H3|]|].
    { by rewrite (stays_docs _ _ _ H3). }
    intros o s4 Hc. apply (completed_stays _ _ _ _ _ Hs H3) in Hc. destruct o as [[e|]|]; [| |by destruct Hc as (_ & _ & ?)]; wp_go.
    + apply wp_fail; [done|right; by left|]. intros rsp Hrsp _. right; left. by exists t, (Some e).
    + right; left. by exists t, None.
  - wp_go. eapply wp_mono; [apply wp_cancelTransaction; by eapply stays_sound|].
    intros o s4 Hc. apply (fun Hc => callback_stays _ _ _ s4 _ _ Hs H3 Hc) in Hc;
      [|apply stays_refl; eapply cancels_sound, Hc].
    destruct o as [[e|]|]; [| |by destruct Hc]; wp_go.
    + apply wp_fail; [done|right; by left|]. intros rsp Hrsp _. right; right. by exists t, (Some e).
    + pose proof (startedBody_spec t) as Hb. destruct (startedBody t) as [b|]; cbn [wp_cont].
      * destruct Hb as (r & link & ms & _ & ->). wp_go. right; right. exists t, None.
        split_and!; try done. by exists r, link, ms.
      * by exists t.
Qed.

(** ** The removal of old tasks *)

Definition expired (now endTime : Z) : bool := (timeToLeaveNano <? int64 (UnixNano now - UnixNano endTime))%Z.
(** An entry of the index for a task that had ended more than 24 hours before a reading of the clock. *)
Definition due s s' id : Prop := exists m e now,
  is_Some (v_index (shows s) !! m) /\ entry_parts m = Ok (e, id) /\ (instant s <= now <= instant s')%Z /\
  expired now e = true.
Definition entries_ok (z : zset) : Prop :=
  forall m, is_Some (z !! m) -> exists e id, entry_parts m = Ok (e, id) /\ no_glob id = true.

(** [s'] is a later state without some tasks that are due, and without their sub-tasks and entries. *)
Record purged s s' : Prop := {
  pu_becomes : becomes (shows s') s s';
  pu_docs : forall id', docs s' id' = docs s id' \/
    (docs s' id' = None /\ exists id, due s s' id /\ id' ∈ family s id);
  pu_index : forall m, v_index (shows s') !! m = v_index (shows s) !! m \/
    (v_index (shows s') !! m = None /\ exists id, due s s' id /\ HasSuffix m id = true);
  pu_events : v_events (shows s') = v_events (shows s);
  pu_threads : v_threads (shows s') = v_threads (shows s);
  pu_scan : scannable s -> scannable s';
}.

Lemma purged_stays s s' : stays s s' -> purged s s'.
Proof.
  intros Hst. pose proof (stays_view _ _ Hst) as [Hd Hi He Ht]. split.
  - eapply becomes_self, (st_becomes _ _ Hst).
  - intros id'. left. by apply Hd.
  - intros m. left. by rewrite Hi.
  - done.
  - done.
  - apply Hst.
Qed.
Lemma due_later s s1 s2 id : (instant s1 <= instant s2)%Z -> due s s1 id -> due s s2 id.
Proof. intros Hi (m & e & now & ? & ? & ? & ?). exists m, e, now. split_and!; [done|done|lia|lia|done]. Qed.
Lemma purged_task s s1 id : purged s s1 -> task_of s1 id = task_of s id \/ task_of s1 id = None.
Proof.
  intros Hp. destruct (pu_docs _ _ Hp id) as [Hd|[Hd _]]; [left; by apply task_of_docs|right; by apply task_of_none].
Qed.
Lemma purged_family s s1 id id' : purged s s1 -> id' ∈ family s1 id -> id' ∈ family s id.
Proof. intros Hp. unfold family. destruct (purged_task _ _ id Hp) as [-> | ->]; [done|set_solver]. Qed.
(** One more task that is due. *)
Lemma purged_cancels s s1 s2 id : purged s s1 -> cancels false s1 id s2 -> due s s2 id -> purged s s2.
Proof.
  intros Hp [c1 c2 c3 c4 c5 (l & Hl & Hin) c7] Hdue. pose proof (be_instant _ _ _ c1) as Hi.
  pose proof Hp as [p1 p2 p3 p4 p5 p6]. split; [by eapply becomes_trans|..].
  - intros id'.
    assert (Hkeep : docs s2 id' = docs s1 id' ->
      docs s2 id' = docs s id' \/ (docs s2 id' = None /\ exists id, due s s2 id /\ id' ∈ family s id)).
    { intros ->. destruct (p2 id') as [?|(? & id0 & ? & ?)]; [by left|right]. split; [done|]. exists id0.
      split; [by eapply due_later|done]. }
    destruct (decide (id' ∈ family s1 id)) as [Hf|Hn]; [|auto].
    destruct (c3 id') as [?|[Hnone|[? _]]]; [auto| |done]. right. split; [done|]. exists id. split; [done|].
    by eapply purged_family.
  - intros m. destruct (c4 m) as [->|[Hn Hsuf]].
    + destruct (p3 m) as [?|(? & id0 & ? & ?)]; [by left|right]. split; [done|]. exists id0.
      split; [by eapply due_later|done].
    + right. split; [done|]. by exists id.
  - by rewrite c5.
  - destruct l as [|th l]; [|by destruct (Hin th ltac:(left))]. by rewrite Hl, app_nil_r.
  - auto.
Qed.

(** What has been dealt with when part of the index is done. *)
Definition purge_inv s (pre : list string) s1 : Prop :=
  purged s s1 /\
  (calm s -> forall m e id, m ∈ pre -> entry_parts m = Ok (e, id) ->
     (forall now, (instant s <= now <= instant s1)%Z -> expired now e = true) -> task_of s1 id = None).

Lemma purge_skip s pre s1 s2 m e now id : purge_inv s pre s1 -> stays s1 s2 -> entry_parts m = Ok (e, id) ->
  (instant s1 <= now <= instant s2)%Z -> expired now e = false -> purge_inv s (pre ++ [m])%list s2.
Proof.
  intros [Hp Hd] Hst Hm Hnow Hex. pose proof (be_instant _ _ _ (pu_becomes _ _ Hp)).
  pose proof (be_instant _ _ _ (st_becomes _ _ Hst)).
  pose proof (stays_view _ _ Hst) as [Hd2 Hi2 He2 Ht2]. split.
  - destruct Hp as [p1 p2 p3 p4 p5 p6]. split.
    + eapply becomes_self, becomes_stays; [exact p1|done].
    + intros id'. rewrite (stays_docs _ _ _ Hst). destruct (p2 id') as [?|(? & id0 & ? & ?)]; [by left|right].
      split; [done|]. exists id0. split; [|done]. by eapply due_later.
    + intros m'. rewrite Hi2. destruct (p3 m') as [?|(? & id0 & ? & ?)]; [by left|right].
      split; [done|]. exists id0. split; [|done]. by eapply due_later.
    + by rewrite He2.
    + by rewrite Ht2.
    + intros ?. apply Hst. auto.
  - intros Hcalm m' e' id' Hin Hm' Hall. rewrite (stays_task _ _ _ Hst).
    apply elem_of_app in Hin as [Hin| ->%list_elem_of_singleton].
    + eapply Hd; [done|exact Hin|done|]. intros n Hn. apply Hall. lia.
    + rewrite Hm in Hm'. injection Hm' as <- <-. rewrite Hall in Hex; [done|lia].
Qed.
Lemma purge_delete s pre s1 s2 s3 m e now id o : sound s -> purge_inv s pre s1 -> stays s1 s2 ->
  is_Some (v_index (shows s) !! m) -> entry_parts m = Ok (e, id) ->
  (instant s1 <= now <= instant s2)%Z -> expired now e = true ->
  completed_post s2 id o s3 -> purge_inv s (pre ++ [m])%list s3.
Proof.
  intros Hs [Hp Hd] Hst Hin Hm Hnow Hex Hpost.
  assert (Hs1 : sound s1) by apply (be_sound _ _ _ (pu_becomes _ _ Hp)).
  pose proof (be_instant _ _ _ (ca_becomes _ _ _ _ (proj1 Hpost))).
  apply (completed_stays _ _ _ _ _ Hs1 Hst) in Hpost as (Hc & Hgone & _).
  pose proof (be_instant _ _ _ (pu_becomes _ _ Hp)). pose proof (be_instant _ _ _ (ca_becomes _ _ _ _ Hc)).
  assert (Hp3 : purged s s3).
  { eapply purged_cancels; [done|done|]. exists m, e, now. split_and!; [done|done|lia|lia|done]. }
  split; [done|]. intros Hcalm m' e' id' Hin' Hm' Hall.
  assert (Hcalm1 : calm s1) by (by apply (be_calm _ _ _ (pu_becomes _ _ Hp))).
  apply elem_of_app in Hin' as [Hin'| ->%list_elem_of_singleton].
  - assert (Hn : task_of s1 id' = None) by (eapply Hd; [done|exact Hin'|done|]; intros n Hn; apply Hall; lia).
    destruct (ca_docs _ _ _ _ Hc id') as [E|[E|[? _]]]; [|by apply task_of_none|done].
    by rewrite (task_of_docs _ _ _ E).
  - rewrite Hm in Hm'. injection Hm' as <- <-. by apply Hgone.
Qed.

(** One entry, read off as it was stored. *)
Lemma wp_overWriteEntry s pre s1 m : sound s -> scannable s -> entries_ok (v_index (shows s)) ->
  is_Some (v_index (shows s) !! m) -> purge_inv s pre s1 ->
  wp (overWriteEntry ts m)
     (fun o s2 => match o with Ok _ => purge_inv s (pre ++ [m])%list s2 | Panic => False end) s1.
Proof.
  intros Hs Hscan Hok Hin Hinv. destruct (Hok m Hin) as (e & id & Hm & Hglob). unfold overWriteEntry.
  pose proof Hm as Hparts. unfold entry_parts in Hparts.
  destruct (index (Split m "::") 1) as [e'|]; [|done]. cbn [obind] in Hparts.
  destruct (index (Split m "::") 2) as [id'|]; [|done]. cbn [obind] in Hparts. injection Hparts as He ->.
  assert (Hs1 : sound s1) by apply (be_sound _ _ _ (pu_becomes _ _ (proj1 Hinv))).
  wp_go. law now_law. intros o s2 (Hst & now & -> & Hnow). wp_go.
  rewrite He. fold (expired now e). destruct (expired now e) eqn:Hex.
  - wp_go. eapply wp_mono; [apply wp_deleteCompletedTask; [by eapply stays_sound| |done]|].
    { apply Hst, (pu_scan _ _ (proj1 Hinv)), Hscan. }
    intros o s3 Hpost. destruct o as [r|]; [|by destruct Hpost as (_ & _ & [])]. wp_go.
    by eapply purge_delete.
  - wp_go. by eapply purge_skip.
Qed.

Lemma wp_OverWriteCompletedTaskUtil userName s :
  sound s -> scannable s -> entries_ok (v_index (shows s)) ->
  wp (OverWriteCompletedTaskUtil ts userName)
     (fun o s' => o = Ok None /\ purged s s' /\
        (calm s -> forall m e id, is_Some (v_index (shows s) !! m) -> entry_parts m = Ok (e, id) ->
           (forall now, (instant s <= now <= instant s')%Z -> expired now e = true) -> task_of s' id = None)) s.
Proof.
  intros Hs Hscan Hok. unfold OverWriteCompletedTaskUtil. law completed_law. intros o s1 [Hst Hl].
  destruct o as [[e|l]|]; [done| |done]. destruct Hl as [Hl Hall]. cbn [wp_cont].
  apply wp_bind, (wp_forM (purge_inv s)).
  - split; [by apply purged_stays|]. intros _ m e id Hm. by apply elem_of_nil in Hm.
  - intros pre m s2 [todo ->] Hinv. eapply wp_mono; [apply (wp_overWriteEntry s pre); [done..| |done]|].
    + apply Hl. set_solver.
    + by intros [[]|] s3.
  - intros s2 [Hp Hd]. wp_go. split; [done|]. split; [done|]. intros Hcalm m e id Hm. apply (Hd Hcalm). by apply Hall.
Qed.

(** Cancelling a task that is already cancelled, before its goroutine has removed it, sets it back to
    Cancelling: nobody reports its cancellation again, and the goroutines keep polling. *)
Lemma cancelled_task_revived id s t :
  sound s -> calm s -> NoDup (family s id) -> task_of s id = Some t -> t_TaskState t = Cancelled ->
  wp (taskCancelCallBack ts id)
     (fun o s' => o = Ok None /\ task_of s' id = Some (set_TaskState Cancelling t)) s.
Proof.
  intros Hs Hcalm Hnd Ht Hst. eapply wp_mono; [by apply wp_taskCancelCallBack|]. intros o s' [Hc Ho].
  destruct o as [[e|]|]; [by destruct (Ho Hnd)| |done]. split; [done|].
  specialize (Ho Hcalm Hnd). unfold cancelled in Ho. rewrite Ht, Hst in Ho. cbn in Ho. destruct Ho as [Hd _].
  pose proof (cancel_parts _ _ _ Ht) as (Hcd & _). rewrite Hst in Hcd. cbn in Hcd.
  apply task_of_doc; [|by apply (typed_law _ _ _ Hs Ht)]. rewrite Hd. unfold each. rewrite decide_True; [done|].
  unfold family. by left.
Qed.
(** ** The properties *)

(** C19: A task is deleted or cancelled only for a valid session with Login and ConfigureManager that
    owns it or has ConfigureUsers; a refused request changes nothing.  At 100 percent the task goes
    with its sub-tasks and its entries in the index, answered 204, and else its family is cancelled
    through the transaction, answered 202 with the task as it was; an error of the database gives an
    error answer, and a stored null message panics after the cancellation. *)
Theorem DeleteTask_spec req s : sound s -> scannable s ->
  (is_Some (docs s (gt_TaskID req)) -> no_glob (gt_TaskID req) = true) ->
  wp (DeleteTask ts req) (delete_post s req) s.
Proof. apply wp_DeleteTask. Qed.

(** C21: The clean-up removes tasks that had ended more than 24 hours before it looked, with their
    sub-tasks and entries, and nothing else; when no command fails every task whose entry was due
    from the start is gone. *)
Theorem OverWriteCompletedTaskUtil_spec userName s :
  sound s -> scannable s -> entries_ok (v_index (shows s)) ->
  wp (OverWriteCompletedTaskUtil ts userName)
     (fun o s' => o = Ok None /\ purged s s' /\
        (calm s -> forall m e id, is_Some (v_index (shows s) !! m) -> entry_parts m = Ok (e, id) ->
           (forall now, (instant s <= now <= instant s')%Z -> expired now e = true) -> task_of s' id = None)) s.
Proof. apply wp_OverWriteCompletedTaskUtil. Qed.
End cancelling.
