(* ===== verification/TaskFrame.v ===== *)
(** The database functions of the task service: what they do to the documents, and that what runs
    beside them leaves the index of completed tasks alone. *)
From stdpp Require Import base gmap list strings.
From Stdlib Require Import Ascii.
From S2P Require Import Prelude Go GoTime GoCodec Response Redis World ConnPool DBSpec RedisIndex Index AsModel AsSpec Auth AuthProps Session SessionSpec Rpc Frame IndexProps TModel THandle TaskSpec TModelProps.
Open Scope string_scope.

(** ** The frame: the index of completed tasks *)

Section frame.
Context `{IndexLaws, Libs, SingleNode}.

Definition task_place : addr * string -> Prop := eq (addr_of InMemory, CompletedTaskIndex).
#[export] Instance task_place_plain : PlainNames task_place.
Proof. by intros x <-. Qed.
#[local] Abbreviation keeps := (Frame.keeps task_place).

(** The session service's part. *)
Lemma keeps_cleanup : keeps go_expiredSessionCleanUp.
Proof. apply keeps_modify. done. Qed.
Lemma keeps_GetSession token : keeps (GetSession token).
Proof. unfold GetSession. keeps_go. Qed.
Lemma keeps_Session_Update s : keeps (Session_Update s).
Proof. unfold Session_Update. keeps_go. Qed.
#[local] Hint Resolve keeps_cleanup keeps_GetSession keeps_Session_Update : keeps.
Lemma keeps_CheckSessionTimeOut token : keeps (CheckSessionTimeOut token).
Proof. unfold CheckSessionTimeOut. keeps_go. Qed.
#[local] Hint Resolve keeps_CheckSessionTimeOut : keeps.
Lemma keeps_CustomAuthLog token msg code : keeps (CustomAuthLog token msg code).
Proof. unfold CustomAuthLog. keeps_go. Qed.
#[local] Hint Resolve keeps_CustomAuthLog : keeps.
Lemma keeps_Auth token ps : keeps (Auth token ps).
Proof. unfold Auth. keeps_go. Qed.
Lemma keeps_session_field f token : keeps (session_field f token).
Proof. unfold session_field, UpdateLastUsedTime. keeps_go. Qed.
End frame.
Abbreviation keeps := (Frame.keeps task_place).
Abbreviation kept := (Frame.kept task_place).
Abbreviation wp_keeps := (Frame.wp_keeps task_place).
#[export] Hint Resolve keeps_CheckSessionTimeOut keeps_Auth keeps_session_field : keeps.

(** ** The documents of the tasks *)

Section tmodel.
Context `{IndexLaws, Libs, SingleNode}.
Implicit Types (w : World).

Definition task_key (id : string) : string := saveID "task" id.
Definition task_doc w id : option jtext := view w InMemory !! task_key id.
Definition decoded (v : option jtext) : option Task := match v with Some v => decode_task v | None => None end.
Definition index_of w : zset := zview w InMemory CompletedTaskIndex.

(** The environment moved on beside the index. *)
Definition beside w w' : Prop := kept (w_env w) (w_env w').
Lemma beside_index w w' : beside w w' -> index_of w' = index_of w.
Proof. intros Hb. apply (Hb _ eq_refl). Qed.

Lemma wp_GetTaskStatus id db w : wf w ->
  wp (GetTaskStatus id db)
     (fun o w' => (ro w w' /\
        match o with
        | Ok (inr t) => decoded (task_doc w id) = Some t
        | Ok (inl _) => healthy w -> decoded (task_doc w id) = None
        | Panic => False
        end) /\ beside w w') w.
Proof.
  intros Hwf. apply wp_keeps; [unfold GetTaskStatus; keeps_go|]. unfold GetTaskStatus.
  wp_call wp_GetDBConnection; [done|]. intros o w1 (-> & Hro & Hrd). wp_go.
  eapply wp_mono; [apply wp_Read; [apply Hro|done]|].
  intros [[e|x]|] w2 [Hro2 Hp]; [| |done]; wp_go; cbn [read_post] in Hp; rewrite ?(ro_view _ _ _ Hro) in Hp;
    fold (task_key id) in Hp.
  - split; [by eapply ro_trans|]. intros Hh. unfold task_doc. destruct Hp as [[_ ->]|[_ Hn]]; [done|].
    exfalso. by apply Hn, Hro.
  - destruct (Unmarshal Task_type x zeroTask) as [t [e|]] eqn:Eu; wp_go; (split; [by eapply ro_trans|]);
      unfold task_doc; rewrite Hp; cbn [decoded]; unfold decode_task; by rewrite Eu.
Qed.

Lemma wp_PersistTask t w : wf w ->
  wp (PersistTask t InMemory)
     (fun o w' =>
        match o with
        | Ok None => written w InMemory (insert (task_key (t_ID t)) (Text (marshal_Task t))) w' /\
                     (healthy w -> free (task_doc w (t_ID t)))
        | Ok (Some _) => (ro w w' /\ (healthy w -> ~ free (task_doc w (t_ID t)))) \/
            (~ healthy w /\ written w InMemory (insert (task_key (t_ID t)) (Text (marshal_Task t))) w')
        | Panic => False
        end /\ beside w w') w.
Proof.
  intros Hwf. apply wp_keeps; [unfold PersistTask; keeps_go|]. unfold PersistTask.
  wp_call wp_GetDBConnection; [done|]. intros o w1 (-> & Hro & Hrd). wp_go.
  eapply wp_mono; [apply wp_Create; [apply Hro|done]|].
  intros o w2 Hp. apply (create_post_ro _ _ _ _ _ _ _ Hro) in Hp. fold (task_key (t_ID t)) in Hp.
  assert (Hfree : absent w InMemory (task_key (t_ID t)) <-> free (task_doc w (t_ID t))).
  { unfold absent, task_doc, free. by destruct (view w InMemory !! task_key (t_ID t)). }
  destruct o as [[e|]|]; [| |done]; wp_go; cbn [create_post] in Hp; rewrite Hfree in Hp.
  - destruct Hp as [(_ & Hr & Hn)|(_ & Hn & [Hr|Hw])]; [by left|by left; split; [|intros Hh]|by right].
  - destruct Hp as [Hw Ha]. split; [done|]. intros Hh. by destruct Ha.
Qed.

Lemma wp_DeleteTaskFromDB t w : wf w ->
  wp (DeleteTaskFromDB t)
     (fun o w' =>
        match o with
        | Ok None => written w InMemory (delete (task_key (t_ID t))) w'
        | Ok (Some _) => (ro w w' /\ (healthy w -> task_doc w (t_ID t) = None)) \/
            (~ healthy w /\ written w InMemory (delete (task_key (t_ID t))) w')
        | Panic => False
        end /\ beside w w') w.
Proof.
  intros Hwf. apply wp_keeps; [unfold DeleteTaskFromDB; keeps_go|]. unfold DeleteTaskFromDB.
  wp_call wp_GetDBConnection; [done|]. intros o w1 (-> & Hro & Hrd). wp_go.
  eapply wp_mono; [apply wp_Delete; [apply Hro|done]|].
  intros o w2 Hp. apply (delete_post_ro _ _ _ _ _ _ Hro) in Hp. fold (task_key (t_ID t)) in Hp.
  destruct o as [[e|]|]; [| |done]; wp_go; cbn [delete_post] in Hp; [|by apply Hp].
  destruct Hp as [(_ & Hr & Hn)|(_ & Hn & [Hr|Hw])]; [by left|by left; split; [|intros Hh]|by right].
Qed.

Lemma wp_GetAllTaskKeys w : wf w ->
  wp GetAllTaskKeys
     (fun o w' => (ro w w' /\
        match o with
        | Ok (inr ids) => NoDup ids /\ forall id, id ∈ ids <-> is_Some (task_doc w id)
        | Ok (inl _) => ~ healthy w
        | Panic => False
        end) /\ beside w w') w.
Proof.
  intros Hwf. apply wp_keeps; [unfold GetAllTaskKeys; keeps_go|]. unfold GetAllTaskKeys.
  wp_call wp_GetDBConnection; [done|]. intros o w1 (-> & Hro & Hrd). wp_go.
  eapply wp_mono; [apply wp_GetAllDetails; [apply Hro|done|done]|].
  intros [[e|ids]|] w2 [Hro2 Hp]; [| |done]; wp_go; cbn [keys_post] in Hp; (split; [by eapply ro_trans|]).
  - by eapply unhealthy_ro.
  - destruct Hp as [Hnd Hids]. split; [done|]. intros id. rewrite Hids. by rewrite (ro_view _ _ _ Hro).
Qed.

Lemma wp_ValidateTaskUserName u w : wf w ->
  wp (ValidateTaskUserName u)
     (fun o w' => (ro w w' /\
        match o with
        | Ok None => is_Some (view w OnDisk !! user_key u)
        | Ok (Some _) => healthy w -> ~ is_Some (view w OnDisk !! user_key u)
        | Panic => False
        end) /\ beside w w') w.
Proof.
  intros Hwf. apply wp_keeps; [unfold ValidateTaskUserName; keeps_go|]. unfold ValidateTaskUserName.
  wp_call wp_GetDBConnection; [done|]. intros o w1 (-> & Hro & Hrd). wp_go.
  eapply wp_mono; [apply wp_Read; [apply Hro|done]|].
  intros [[e|x]|] w2 [Hro2 Hp]; [| |done]; wp_go; cbn [read_post] in Hp; rewrite ?(ro_view _ _ _ Hro) in Hp;
    fold (user_key u) in Hp; (split; [by eapply ro_trans|]).
  - intros Hh. destruct Hp as [[_ ->]|[_ Hn]]; [by intros []|]. exfalso. by apply Hn, Hro.
  - rewrite Hp. by eexists.
Qed.

(** ** The index *)

Lemma wp_GetCompletedTasksIndex u w : wf w ->
  wp (GetCompletedTasksIndex u)
     (fun o w' => (ro w w' /\
        match o with
        | Ok (inr l) => (forall m, m ∈ l -> is_Some (index_of w !! m)) /\
                        (healthy w -> forall m, is_Some (index_of w !! m) -> m ∈ l)
        | _ => False
        end) /\ beside w w') w.
Proof.
  intros Hwf.
  assert (Hz : keeps (GetTaskList InMemory CompletedTaskIndex 0 (-1))).
  { unfold GetTaskList. apply keeps_bind; [apply keeps_read_conn|]. intros a. apply keeps_bind.
    - apply keeps_zread; [done|]. intros e r e' E. by apply (zrange_law _ _ _ _ _ E).
    - intros r. keeps_go. }
  apply wp_keeps; [unfold GetCompletedTasksIndex; apply keeps_bind; [apply keeps_GetDBConnection|]; intros _;
    apply keeps_bind; [done|intros r; keeps_go]|].
  unfold GetCompletedTasksIndex, GetTaskList.
  eapply wp_bind, wp_mono; [apply wp_keeps; [apply keeps_GetDBConnection|by apply wp_GetDBConnection]|].
  intros o w1 [(-> & Hro & Hrd) Hb]. wp_go. apply wp_read_conn; [apply Hro|done|]. wp_go.
  apply wp_ZDo; [apply Hro|]. intros r w2 Hd Hrel Hstep. destruct (zrange_law _ _ _ _ _ Hd) as [Hs Hr].
  specialize (Hstep _ Hs). pose proof (zs_ro _ _ _ _ _ Hstep) as Hro2.
  change (zsets (w_env w1) (addr_of InMemory) CompletedTaskIndex) with (index_of w1) in Hr.
  rewrite (beside_index _ _ Hb) in Hr.
  destruct r as [msg|l| |]; try done; wp_go; (split; [by eapply ro_trans|]).
  - split; [by intros m Hm%elem_of_nil|]. intros Hh. exfalso. by apply (Hrel (ev_healthy _ _ _ Hro Hh) eq_refl msg).
  - destruct Hr as [_ Hl]. split; [intros m Hm; by apply Hl|]. intros _ m Hm. by apply Hl.
Qed.

Definition index_post t w (o : outcome (option string)) w' : Prop :=
  ro w w' /\ (index_of w' = index_of w \/ index_of w' = add_entry t (index_of w)) /\
  match o with
  | Ok None => healthy w -> index_of w' = add_entry t (index_of w)
  | Ok (Some _) => ~ healthy w
  | Panic => False
  end.
Lemma wp_BuildCompletedTaskIndex t w : wf w -> wp (BuildCompletedTaskIndex t) (index_post t w) w.
Proof.
  intros Hwf. unfold BuildCompletedTaskIndex, CreateTaskIndex.
  eapply wp_bind, wp_mono; [apply wp_keeps; [apply keeps_GetDBConnection|by apply wp_GetDBConnection]|].
  intros o w1 [(-> & Hro & Hrd) Hb]. wp_go. pose proof (beside_index _ _ Hb) as Hi.
  apply wp_LoadWritePool; [apply Hro|done|intros Hd|intros Hd]; wp_go.
  { split; [done|]. split; [by left|]. exact (unhealthy_ro _ _ Hro (dead_unhealthy _ _ Hd)). }
  apply wp_in_env. intros r e E.
  destruct (zsend_law _ _ _ _ _ E) as (Hq & _ & Hz & Hr); [done|]. cbn [zindex zapply] in *.
  assert (Hro2 : ro w (with_env e w1)) by (eapply ro_trans; [exact Hro|apply ro_quiet; [apply Hro|done]]).
  change (zsets (w_env w1) (addr_of InMemory) CompletedTaskIndex) with (index_of w1) in *.
  change (zsets e (addr_of InMemory) CompletedTaskIndex) with (index_of (with_env e w1)) in *.
  rewrite Hi in *. fold (add_entry t (index_of w)) in *.
  destruct r as [msg|]; wp_go.
  - unfold StoreWritePoolNil. wp_go.
    assert (Hn : ~ healthy w1) by (intros [Hh _]; by destruct (Hr Hh) as [[=] _]).
    split; [|split; [|exact (unhealthy_ro _ _ Hro Hn)]].
    + eapply ro_trans; [exact Hro|]. apply (evolves_StoreNil InMemory w1 (view w1) (with_env e w1)); [done|done|].
      apply ro_quiet; [apply Hro|done].
    + unfold index_of, zview. rewrite with_pool_env. exact Hz.
  - split; [done|]. split; [done|]. intros Hh. by apply Hr, (ev_healthy _ _ _ Hro Hh).
Qed.

Lemma written_ro_after w f w1 w' : written w InMemory f w1 -> ro w1 w' -> written w InMemory f w'.
Proof. apply evolves_ro. Qed.

Lemma wp_UpdateTaskStatus t w : wf w ->
  wp (UpdateTaskStatus t InMemory)
     (fun o w' =>
        (indexed t = false -> beside w w') /\
        let stored := written w InMemory (insert (task_key (t_ID t)) (Text (marshal_Task t))) w' /\
          (index_of w' = index_of w \/ (indexed t = true /\ index_of w' = add_entry t (index_of w))) in
        match o with
        | Ok None => stored /\ is_Some (task_doc w (t_ID t)) /\
            (healthy w -> indexed t = true -> index_of w' = add_entry t (index_of w))
        | Ok (Some _) => (ro w w' /\ beside w w' /\ (healthy w -> task_doc w (t_ID t) = None)) \/
            (~ healthy w /\ stored)
        | Panic => False
        end) w.
Proof.
  intros Hwf. unfold UpdateTaskStatus.
  eapply wp_bind, wp_mono; [apply wp_keeps; [apply keeps_GetDBConnection|by apply wp_GetDBConnection]|].
  intros o w1 [(-> & Hro & Hrd) Hb]. wp_go.
  eapply wp_mono; [apply wp_keeps; [apply keeps_Update; apply _|apply wp_Update; [apply Hro|done]]|].
  intros o w2 [Hp Hb2]. fold (task_key (t_ID t)) in Hp.
  pose proof (kept_trans _ _ _ _ Hb Hb2 : beside w w2) as Hbs.
  destruct o as [[e|s]|]; [| |done]; cbn [wp_cont]; cbn [DBSpec.update_post] in Hp; rewrite ?(ro_view _ _ _ Hro) in Hp.
  { wp_go. split; [done|]. destruct Hp as [(_ & Hr & Hn)|(_ & Hn & Hm)].
    - left. split_and!; [by eapply ro_trans|done|done].
    - assert (~ healthy w) by (by eapply unhealthy_ro). destruct Hm as [Hm|Hm].
      + left. split_and!; [by eapply ro_trans|done|done].
      + right. split_and!; [done|by eapply ro_written|by left; apply beside_index]. }
  destruct Hp as (_ & Hw & Hdoc). apply (ro_written _ _ _ _ _ Hro) in Hw. fold (indexed t).
  destruct (indexed t) eqn:Hin; [|wp_go; split_and!; [done|done|by left; apply beside_index|done|done]].
  eapply wp_mono; [apply wp_BuildCompletedTaskIndex, Hw|]. intros o w3 (Hr3 & Hz & Ho).
  rewrite (beside_index _ _ Hbs) in Hz, Ho. pose proof (written_ro_after _ _ _ _ Hw Hr3) as Hw3.
  split; [done|]. destruct o as [[e|]|]; [| |done].
  - right. split_and!; [|done|tauto]. intros Hh. by apply Ho, (ev_healthy _ _ _ Hw).
  - split_and!; [done|tauto|done|]. intros Hh _. by apply Ho, (ev_healthy _ _ _ Hw).
Qed.

Lemma wp_DeleteTaskIndex fuel id w : wf w -> no_glob id = true -> well_named (index_of w) ->
  (pages_left (w_env w) (addr_of InMemory) CompletedTaskIndex 0 < fuel)%nat ->
  wp (DeleteTaskIndex fuel id)
     (fun o w' => ro w w' /\
        (forall m, index_of w' !! m = index_of w !! m \/ (index_of w' !! m = None /\ HasSuffix m id = true)) /\
        (pages_left (w_env w') (addr_of InMemory) CompletedTaskIndex 0 <=
           pages_left (w_env w) (addr_of InMemory) CompletedTaskIndex 0)%nat /\
        match o with
        | Ok (Some None) => forall m, HasSuffix m id = true -> index_of w' !! m = None
        | Ok (Some (Some _)) => True
        | _ => False
        end) w.
Proof.
  intros Hwf Hg Hnamed Hpages. unfold DeleteTaskIndex.
  eapply wp_bind, wp_mono; [apply wp_keeps; [apply keeps_GetDBConnection|by apply wp_GetDBConnection]|].
  intros o w1 [(-> & Hro & Hrd) Hb]. wp_go. destruct (Hb _ eq_refl) as [Hi Hpg]. cbn [fst snd] in Hi, Hpg.
  change (index_of w1 = index_of w) in Hi.
  eapply wp_mono; [apply (wp_Del fuel InMemory CompletedTaskIndex id w1); [apply Hro|done|done| |lia]|].
  { change (well_named (index_of w1)). by rewrite Hi. }
  intros o w2 (r & -> & Hp & Hnone & _). destruct Hp as [h1 h2 h3 h4 h5].
  change (zview w2 InMemory CompletedTaskIndex) with (index_of w2) in *.
  change (zview w1 InMemory CompletedTaskIndex) with (index_of w1) in *. rewrite Hi in h2.
  assert (Hr : ro w w2) by (by eapply ro_trans).
  specialize (h5 0%Z). destruct r as [e|]; wp_go; (split; [done|split; [exact h2|split; [lia|]]]); [done|].
  by apply Hnone.
Qed.
End tmodel.

(** ** What the account-session service answers *)

Section sessions.
Context `{IndexLaws, Libs, SingleNode}.
Implicit Types (w : World).

Lemma wp_session_field_beside f tok w : wf w ->
  wp (session_field f tok)
     (fun o w' => (at_most_touched w tok w' /\
        match o with
        | Ok (inr x) => exists s, session_of w tok = Some s /\ x = f s
        | Ok (inl _) => True
        | Panic => False
        end) /\ beside w w') w.
Proof.
  intros Hwf. apply wp_keeps; [apply keeps_session_field|]. unfold session_field.
  wp_call wp_CheckSessionTimeOut; [done|]. intros [[e|s]|] w1 [Hro Hp]; [| |done]; wp_go.
  { split; [by left|done]. }
  destruct Hp as (_ & Hs & _). wp_call wp_UpdateLastUsedTime; [apply Hro|].
  intros [[err|]|] w2 Hu; [| |done]; wp_go; cbn [SessionSpec.update_post] in Hu; rewrite ?(session_of_ro _ _ _ Hro) in Hu.
  - split; [|done]. destruct Hu as [[Hr2 _]|[_ [Hr2|(s' & t' & Hs' & Hm)]]]; [left; by eapply ro_trans..|right].
    exists s', t'. split; [done|]. by eapply touched_ro.
  - destruct Hu as (s' & t' & Hs' & _ & Hm). split; [right; exists s', t'; split; [done|by eapply touched_ro]|].
    by exists s.
Qed.
Lemma wp_Auth_beside tok ps w : wf w ->
  wp (Auth tok ps) (fun o w' => auth_post w tok ps o w' /\ beside w w') w.
Proof. intros Hwf. apply wp_keeps; [apply keeps_Auth|by apply wp_Auth]. Qed.
End sessions.
