(* ===== verification/TaskStoreImpl.v ===== *)
(** The task service as it is put together keeps the promises of [TaskStore]: the fields of its
    record of functions work on the databases through [ConnPool] and [Index], ask the account-session
    service through [Services], and publish to the message bus. *)
From stdpp Require Import base gmap list strings.
From Stdlib Require Import Ascii.
From S2P Require Import Prelude Go GoTime GoCodec Response Redis World ConnPool DBSpec RedisIndex Index AsModel AsSpec Auth AuthProps Session SessionSpec Rpc IndexProps TModel THandle Services TaskSystem TaskSpec TModelProps Frame TaskFrame.
Open Scope string_scope.

(** ** Steps of the databases beside the sessions *)

Section steps.
Context `{IndexLaws, Libs, SingleNode}.
Implicit Types (w : World).

(** Every stored task is stored under its own identifier. *)
Definition tasks_named w : Prop := forall id t, decoded (task_doc w id) = Some t -> t_ID t = id.

(** [w'] is a later world: only documents of tasks may have been written. *)
Record on_tasks w w' : Prop := {
  ot_wf : wf w';
  ot_clock : (clock (w_env w) <= clock (w_env w'))%Z;
  ot_healthy : healthy w -> healthy w';
  ot_disk : view w' OnDisk = view w OnDisk;
  ot_other : forall k, (forall id, k <> task_key id) -> view w' InMemory !! k = view w InMemory !! k;
}.
(** [w'] is a later world: only sessions may have been stored with another last-used time. *)
Record on_sessions w w' : Prop := {
  os_wf : wf w';
  os_clock : (clock (w_env w) <= clock (w_env w'))%Z;
  os_healthy : healthy w -> healthy w';
  os_disk : view w' OnDisk = view w OnDisk;
  os_tasks : forall id, task_doc w' id = task_doc w id;
  os_typed : typed w';
  os_session : forall tok s', session_of w' tok = Some s' ->
    exists s, session_of w tok = Some s /\ s_UserName s' = s_UserName s /\ s_Privileges s' = s_Privileges s;
}.

Lemma ro_on_tasks w w' : ro w w' -> on_tasks w w'.
Proof.
  intros Hr. split; [by apply Hr|by apply Hr|by apply Hr|by rewrite (ro_view _ _ _ Hr)|].
  intros k _. by rewrite (ro_view _ _ _ Hr).
Qed.
Lemma written_on_tasks w f w' id : written w InMemory f w' ->
  (forall k m, k <> task_key id -> f m !! k = m !! k) -> on_tasks w w'.
Proof.
  intros Hw Hf. split; [by apply Hw|by apply Hw|by apply Hw| |].
  - by rewrite (ev_view _ _ _ Hw), upd_ne.
  - intros k Hk. by rewrite (ev_view _ _ _ Hw), upd_eq, Hf.
Qed.
Lemma insert_on_tasks w w' id v : written w InMemory (insert (task_key id) v) w' ->
  on_tasks w w' /\ forall id', task_doc w' id' = put id (Some v) (task_doc w) id'.
Proof.
  intros Hw. split.
  - eapply (written_on_tasks _ _ _ id); [exact Hw|]. intros k m Hk. by rewrite lookup_insert_ne.
  - intros id'. unfold task_doc, put. rewrite (ev_view _ _ _ Hw), upd_eq. case_decide as E.
    + subst id'. by rewrite lookup_insert_eq.
    + rewrite lookup_insert_ne; [done|]. intros E'. by apply E, eq_sym, (saveID_inj "task").
Qed.
Lemma delete_on_tasks w w' id : written w InMemory (delete (task_key id)) w' ->
  on_tasks w w' /\ forall id', task_doc w' id' = put id None (task_doc w) id'.
Proof.
  intros Hw. split.
  - eapply (written_on_tasks _ _ _ id); [exact Hw|]. intros k m Hk. by rewrite lookup_delete_ne.
  - intros id'. unfold task_doc, put. rewrite (ev_view _ _ _ Hw), upd_eq. case_decide as E.
    + subst id'. by rewrite lookup_delete_eq.
    + rewrite lookup_delete_ne; [done|]. intros E'. by apply E, eq_sym, (saveID_inj "task").
Qed.

Lemma session_not_task tok id : session_key tok <> task_key id.
Proof. unfold session_key, task_key, saveID. by intros [=]. Qed.
Lemma on_tasks_session w w' tok : on_tasks w w' -> session_of w' tok = session_of w tok.
Proof.
  intros Ho. unfold session_of, stored. rewrite (ot_other _ _ Ho); [done|]. intros id. apply session_not_task.
Qed.
Lemma on_tasks_typed w w' : on_tasks w w' -> typed w -> typed w'.
Proof.
  intros Ho [a1 a2 a3]. split; [|by rewrite (ot_disk _ _ Ho)..].
  intros k. specialize (a1 k). unfold stored in *.
  rewrite (ot_other _ _ Ho); [done|]. intros id. apply session_not_task.
Qed.

Lemma touched_on_sessions w tok w' : typed w -> wf w -> at_most_touched w tok w' -> on_sessions w w'.
Proof.
  intros Hty Hwf [Hr|(s & t & Hs & Hw)].
  - split; [by apply Hr|by apply Hr|by apply Hr|by rewrite (ro_view _ _ _ Hr)| |by eapply typed_ro|].
    + intros id. unfold task_doc. by rewrite (ro_view _ _ _ Hr).
    + intros tok' s'. rewrite (session_of_ro _ _ _ Hr). by exists s'.
  - pose proof (typed_token _ _ _ Hty Hs) as Htok. unfold touched in Hw.
    split; [by apply Hw|by apply Hw|by apply Hw| | | |].
    + by rewrite (ev_view _ _ _ Hw), upd_ne.
    + intros id. unfold task_doc. rewrite (ev_view _ _ _ Hw), upd_eq, lookup_insert_ne; [done|].
      apply session_not_task.
    + apply (typed_put_session w (with_LastUsedTime t s)); [done|]. by right.
    + intros tok' s' Hs'. unfold session_of in Hs'. rewrite (ev_view _ _ _ Hw), upd_eq in Hs'.
      destruct (decide (tok' = s_Token s)) as [->|Hne].
      * erewrite stored_insert in Hs' by apply Session_roundtrip. injection Hs' as <-.
        exists s. by rewrite Htok.
      * rewrite stored_insert_ne in Hs'; [by exists s'|]. intros E. by apply Hne, (saveID_inj "session").
Qed.
End steps.

(** ** The view of the service *)

Section impl.
Context `{IndexLaws, Libs, SingleNode, !Network, !MessageBus}.
Context (fuel : nat) (topic : MessageBusQueue <> []).
Implicit Types (s : TaskWorld) (w : World).

Definition note (e : TaskEvent) : notice := (ev_OriginOfCondition e, ev_MessageID e, ev_EventType e, ev_Message e).

#[export] Instance task_view : TaskView TaskWorld := {|
  sound s := wf (tw_world s) /\ wf (tw_session s) /\ tasks_named (tw_world s) /\ typed (tw_world s);
  calm s := healthy (tw_world s) /\ healthy (session_world s);
  bus_up s := forall e : env, bus_connects e = true /\ bus_distributes e = true;
  shows s := mkview (task_doc (tw_world s)) (index_of (tw_world s)) (note <$> tw_events s) (tw_threads s);
  user_known s u := is_Some (view (tw_world s) OnDisk !! user_key u);
  live s tok := tok <> "" /\ exists sess, session_of (tw_world s) tok = Some sess /\
                  AuthProps.fresh (clock (task_env s)) sess;
  holds s tok ps := ps <> [] /\ exists sess, session_of (tw_world s) tok = Some sess /\
                      forallb (has_privilege sess) ps = true;
  session_user s tok u := exists sess, session_of (tw_world s) tok = Some sess /\ s_UserName sess = u;
  scannable s := well_named (index_of (tw_world s)) /\
    (pages_left (task_env s) (addr_of InMemory) CompletedTaskIndex 0 < fuel)%nat;
  instant s := clock (task_env s);
|}.

Definition put_world w s : TaskWorld := mkTaskWorld w (tw_session s) (tw_events s) (tw_threads s).
Definition put_session_world w s : TaskWorld :=
  mkTaskWorld (with_env (w_env w) (tw_world s)) w (tw_events s) (tw_threads s).

Lemma wp_in_task {A} (m : IO A) Q s :
  wp m (fun o w' => Q o (put_world w' s)) (tw_world s) -> wp (in_task m) Q s.
Proof. unfold wp, in_task. by destruct (m (tw_world s)). Qed.
Lemma wp_in_session {A} (m : IO A) Q s :
  wp m (fun o w' => Q o (put_session_world w' s)) (session_world s) -> wp (in_session m) Q s.
Proof. unfold wp, in_session. by destruct (m (session_world s)). Qed.

Lemma scannable_kept s s' : kept (task_env s) (task_env s') -> scannable s -> scannable s'.
Proof.
  intros Hk [Hn Hf]. destruct (Hk _ eq_refl) as [Hi Hp]. cbn [fst snd] in Hi, Hp. split; [|lia].
  change (well_named (zsets (task_env s') (addr_of InMemory) CompletedTaskIndex)). by rewrite Hi.
Qed.

Lemma put_world_becomes s w' : sound s -> on_tasks (tw_world s) w' -> tasks_named w' ->
  becomes (shows (put_world w' s)) s (put_world w' s).
Proof.
  intros (Hwf & Hwf2 & Hn & Hty) Ho Hn'. split.
  - split_and!; [by apply Ho|done|done|by eapply on_tasks_typed].
  - done.
  - intros [Hh [_ Hd]]. pose proof (ot_healthy _ _ Ho Hh) as Hh'. split; [done|]. split; [by apply Hh'|].
    intros db (p & Hp & Hw). apply (Hd db). exists p.
    unfold session_world in *. rewrite pool_with_env in Hp |- *. by split.
  - done.
  - intros u. cbn. by rewrite (ot_disk _ _ Ho).
  - intros tok ps. cbn. by rewrite (on_tasks_session _ _ _ Ho).
  - intros tok u. cbn. by rewrite (on_tasks_session _ _ _ Ho).
  - apply Ho.
Qed.
Lemma put_world_stays s w' : sound s -> ro (tw_world s) w' -> beside (tw_world s) w' -> stays s (put_world w' s).
Proof.
  intros Hs Hr Hb. assert (Hdoc : forall id, task_doc w' id = task_doc (tw_world s) id).
  { intros id. unfold task_doc. by rewrite (ro_view _ _ _ Hr). }
  split; [|by apply scannable_kept].
  eapply becomes_same; [|apply put_world_becomes; [done|by apply ro_on_tasks|]].
  - split; cbn; [done|by apply beside_index|done|done].
  - intros id t. rewrite Hdoc. apply Hs.
Qed.

Lemma put_named w w' id t : tasks_named w -> t_ID t = id -> wf_task t ->
  (forall id', task_doc w' id' = put id (doc t) (task_doc w) id') -> tasks_named w'.
Proof.
  intros Hn Hid Hwf Hd id' t'. rewrite Hd. unfold put. case_decide as E; [|apply Hn]. subst id'.
  cbn [decoded doc]. rewrite decode_marshal by done. intros [= <-]. exact Hid.
Qed.
Lemma delete_named w w' id : tasks_named w ->
  (forall id', task_doc w' id' = put id None (task_doc w) id') -> tasks_named w'.
Proof. intros Hn Hd id' t'. rewrite Hd. unfold put. case_decide as E; [done|apply Hn]. Qed.

(** A document of a task stored, and the index as it is then. *)
Lemma put_world_insert s w' t z : sound s -> wf_task t ->
  written (tw_world s) InMemory (insert (task_key (t_ID t)) (Text (marshal_Task t))) w' -> index_of w' = z ->
  becomes (with_index z (with_docs (put (t_ID t) (doc t) (docs s)) (shows s))) s (put_world w' s).
Proof.
  intros Hs Hwf Hw Hz. destruct (insert_on_tasks _ _ _ _ Hw) as [Ho Hd].
  eapply becomes_same; [|apply put_world_becomes; [done|exact Ho|]].
  - split; cbn; [intros id; by rewrite Hd|done|done|done].
  - eapply put_named; [apply Hs|reflexivity|done|exact Hd].
Qed.
Lemma put_world_delete s w' id : sound s -> written (tw_world s) InMemory (delete (task_key id)) w' ->
  beside (tw_world s) w' -> becomes (with_docs (put id None (docs s)) (shows s)) s (put_world w' s).
Proof.
  intros Hs Hw Hb. destruct (delete_on_tasks _ _ _ Hw) as [Ho Hd].
  eapply becomes_same; [|apply put_world_becomes; [done|exact Ho|]].
  - split; cbn; [intros id'; by rewrite Hd|by apply beside_index|done|done].
  - eapply delete_named; [apply Hs|exact Hd].
Qed.

(** Only what the account-session service does to its sessions. *)
Lemma session_world_wf s : sound s -> wf (session_world s).
Proof. intros (_ & Hwf & _). unfold session_world. by rewrite wf_with_env. Qed.
Lemma session_world_typed s : sound s -> typed (session_world s).
Proof. intros (_ & _ & _ & Hty). eapply typed_proper; [|exact Hty]. by split. Qed.

Lemma put_session_stays s w' : sound s -> on_sessions (session_world s) w' -> beside (session_world s) w' ->
  stays s (put_session_world w' s).
Proof.
  intros (Hwf & Hwf2 & Hn & Hty) Ho Hb. split.
  - split.
    + split_and!; [by apply wf_with_env|by apply Ho| |].
      * intros id t. change (task_doc (tw_world (put_session_world w' s)) id) with (task_doc w' id).
        rewrite (os_tasks _ _ Ho). apply Hn.
      * eapply typed_proper; [|exact (os_typed _ _ Ho)]. by split.
    + split; [|by apply (beside_index _ _ Hb)|done|done]. intros id. apply (os_tasks _ _ Ho).
    + intros [Hh Hh2]. pose proof (os_healthy _ _ Ho Hh2) as Hh'. split; [|].
      * apply healthy_env; [intros _; apply Hh'|done].
      * destruct Hh' as [Hr Hd]. split; [done|]. intros db (p & Hp & Hw). apply (Hd db). exists p.
        unfold session_world in Hp. by rewrite pool_with_env in Hp.
    + done.
    + intros u. cbn. change (view (with_env (w_env w') (tw_world s)) OnDisk) with (view w' OnDisk).
      by rewrite (os_disk _ _ Ho).
    + intros tok ps [Hps (sess & Hsess & Hp)]. destruct (os_session _ _ Ho tok sess Hsess) as (s0 & Hs0 & Hu & Hpr).
      split; [done|]. exists s0. split; [exact Hs0|]. by unfold has_privilege in *; rewrite Hpr in Hp.
    + intros tok u (sess & Hsess & Hu). destruct (os_session _ _ Ho tok sess Hsess) as (s0 & Hs0 & Hu0 & _).
      exists s0. split; [exact Hs0|]. congruence.
    + apply Ho.
  - by apply scannable_kept.
Qed.

(** ** The laws, one by one *)

Lemma impl_now s : sound s ->
  wp TimeNow (fun o s' => stays s s' /\ exists t, o = Ok t /\ (instant s <= t <= instant s')%Z) s.
Proof.
  intros Hs. apply wp_in_task. eapply wp_mono; [apply wp_keeps; [apply keeps_Now|apply wp_Now, Hs]|].
  intros o w' [(t & -> & Hr & Ht & Hc) Hb]. split; [by apply put_world_stays|]. exists t. split; [done|].
  cbn. unfold task_env. cbn. lia.
Qed.
Lemma impl_uuid s : sound s ->
  wp UuidNew (fun o s' => stays s s' /\ exists u, o = Ok u /\ string_forall uuid_char u = true) s.
Proof.
  intros Hs. apply wp_in_task. eapply wp_mono; [apply wp_keeps; [apply keeps_NewV4|]|].
  { apply (wp_in_env uuid_v4 (fun o w' => exists u, o = Ok u /\ string_forall uuid_char u = true /\ ro (tw_world s) w')).
    intros u e E. destruct (Redis.uuid_law _ _ _ E) as (Hq & _ & Hu). exists u. split_and!; [done|done|].
    apply ro_quiet; [apply Hs|done]. }
  intros o w' [(u & -> & Hu & Hr) Hb]. split; [by apply put_world_stays|]. by exists u.
Qed.
Lemma impl_sleep d s : sound s -> wp (TimeSleep d) (fun o s' => stays s s' /\ o = Ok tt) s.
Proof.
  intros Hs. apply wp_in_task. eapply wp_mono; [apply wp_keeps; [apply keeps_Sleep|]|].
  { apply (wp_in_env _ (fun o w' => o = Ok tt /\ ro (tw_world s) w')).
    intros u e [= <- <-]. split; [done|]. apply ro_quiet; [apply Hs|apply Redis.sleep_law]. }
  intros o w' [(-> & Hr) Hb]. split; [by apply put_world_stays|done].
Qed.
(** A change of what is beside the databases. *)
Lemma becomes_beside s ev th : sound s ->
  let s' := mkTaskWorld (tw_world s) (tw_session s) ev th in
  becomes (shows s') s s' /\ (scannable s -> scannable s').
Proof. intros Hs s'. split; [|by intros ?]. by split. Qed.
Lemma impl_spawn t s : sound s ->
  wp (Spawn t) (fun o s' => becomes (with_threads (v_threads (shows s) ++ [t])%list (shows s)) s s' /\
                            (scannable s -> scannable s') /\ o = Ok tt) s.
Proof.
  intros Hs. apply wp_modify. destruct (becomes_beside s (tw_events s) (tw_threads s ++ [t]) Hs) as [Hb Hsc].
  by split.
Qed.

Lemma impl_get id db s : sound s ->
  wp (GetTaskStatusModel (task fuel) id db)
     (fun o s' => stays s s' /\
        match o with
        | Ok (inr t) => task_of s id = Some t
        | Ok (inl _) => calm s -> task_of s id = None
        | Panic => False
        end) s.
Proof.
  intros Hs. apply wp_in_task. eapply wp_mono; [apply wp_GetTaskStatus, Hs|].
  intros o w' [[Hr Ho] Hb]. split; [by apply put_world_stays|]. destruct o as [[e|t]|]; [|done|done].
  intros [Hh _]. by apply Ho.
Qed.
Lemma impl_keys s : sound s ->
  wp (GetAllTaskKeysModel (task fuel))
     (fun o s' => stays s s' /\
        match o with
        | Ok (inr ids) => NoDup ids /\ forall id, id ∈ ids <-> is_Some (docs s id)
        | Ok (inl _) => ~ calm s
        | Panic => False
        end) s.
Proof.
  intros Hs. apply wp_in_task. eapply wp_mono; [apply wp_GetAllTaskKeys, Hs|].
  intros o w' [[Hr Ho] Hb]. split; [by apply put_world_stays|]. destruct o as [[e|t]|]; [|done|done].
  by intros [Hh _].
Qed.
Lemma impl_delete t s : sound s ->
  wp (DeleteTaskFromDBModel (task fuel) t)
     (fun o s' => (scannable s -> scannable s') /\
        let gone := becomes (with_docs (put (t_ID t) None (docs s)) (shows s)) s s' in
        match o with
        | Ok None => gone
        | Ok (Some _) => (stays s s' /\ (calm s -> docs s (t_ID t) = None)) \/ (gone /\ ~ calm s)
        | Panic => False
        end) s.
Proof.
  intros Hs. apply wp_in_task. eapply wp_mono; [apply wp_DeleteTaskFromDB, Hs|].
  intros o w' [Ho Hb]. split; [by apply scannable_kept|]. destruct o as [[e|]|]; [| |done].
  - destruct Ho as [[Hr Hn]|[Hn Hw]]; [left|right].
    + split; [by apply put_world_stays|]. intros [Hh _]. by apply Hn.
    + split; [by apply put_world_delete|]. by intros [Hh _].
  - by apply put_world_delete.
Qed.
Lemma impl_update t db s : db = InMemory -> sound s -> wf_task t ->
  wp (UpdateTaskStatusModel (task fuel) t db)
     (fun o s' => (indexed t = false -> scannable s -> scannable s') /\
        let stored z := becomes (with_index z (with_docs (put (t_ID t) (doc t) (docs s)) (shows s))) s s' in
        match o with
        | Ok None => is_Some (docs s (t_ID t)) /\
            exists z, stored z /\ (z = v_index (shows s) \/ (indexed t = true /\ z = add_entry t (v_index (shows s)))) /\
                      (calm s -> indexed t = true -> z = add_entry t (v_index (shows s)))
        | Ok (Some _) =>
            (stays s s' /\ (calm s -> docs s (t_ID t) = None)) \/
            (~ calm s /\ exists z, stored z /\
               (z = v_index (shows s) \/ (indexed t = true /\ z = add_entry t (v_index (shows s)))))
        | Panic => False
        end) s.
Proof.
  intros -> Hs Hwt. apply wp_in_task. eapply wp_mono; [apply wp_UpdateTaskStatus, Hs|].
  intros o w' [Hb Ho]. split; [intros Hi; by apply scannable_kept, Hb|]. destruct o as [[e|]|]; [| |done].
  - destruct Ho as [(Hr & Hbs & Hn)|[Hn [Hw Hz]]]; [left|right].
    + split; [by apply put_world_stays|]. intros [Hh _]. by apply Hn.
    + split; [by intros [Hh _]|]. exists (index_of w'). split; [by apply put_world_insert|done].
  - destruct Ho as ([Hw Hz] & Hd & Hc). split; [done|]. exists (index_of w').
    split; [by apply put_world_insert|]. split; [done|]. intros [Hh _]. auto.
Qed.
Lemma impl_persist t db s : db = InMemory -> sound s -> wf_task t ->
  wp (PersistTaskModel (task fuel) t db)
     (fun o s' => (scannable s -> scannable s') /\
        let stored := becomes (with_docs (put (t_ID t) (doc t) (docs s)) (shows s)) s s' in
        match o with
        | Ok None => stored /\ (calm s -> free (docs s (t_ID t)))
        | Ok (Some _) => (stays s s' /\ (calm s -> ~ free (docs s (t_ID t)))) \/ (~ calm s /\ stored)
        | Panic => False
        end) s.
Proof.
  intros -> Hs Hwt. apply wp_in_task. eapply wp_mono; [apply wp_PersistTask, Hs|].
  intros o w' [Ho Hb]. split; [by apply scannable_kept|].
  assert (Hst : written (tw_world s) InMemory (insert (task_key (t_ID t)) (Text (marshal_Task t))) w' ->
    becomes (with_docs (put (t_ID t) (doc t) (docs s)) (shows s)) s (put_world w' s)).
  { intros Hw. apply (put_world_insert s w' t (index_of (tw_world s))); [done..|by apply beside_index]. }
  destruct o as [[e|]|]; [| |done].
  - destruct Ho as [[Hr Hn]|[Hn Hw]]; [left|right].
    + split; [by apply put_world_stays|]. intros [Hh _]. by apply Hn.
    + split; [by intros [Hh _]|auto].
  - destruct Ho as [Hw Hf]. split; [auto|]. intros [Hh _]. auto.
Qed.
Lemma impl_known u s : sound s ->
  wp (ValidateTaskUserNameModel (task fuel) u)
     (fun o s' => stays s s' /\
        match o with
        | Ok None => user_known s u
        | Ok (Some _) => calm s -> ~ user_known s u
        | Panic => False
        end) s.
Proof.
  intros Hs. apply wp_in_task. eapply wp_mono; [apply wp_ValidateTaskUserName, Hs|].
  intros o w' [[Hr Ho] Hb]. split; [by apply put_world_stays|]. destruct o as [[e|]|]; [|done|done].
  intros [Hh _]. by apply Ho.
Qed.
Lemma impl_completed u s : sound s ->
  wp (GetCompletedTasksIndexModel (task fuel) u)
     (fun o s' => stays s s' /\
        match o with
        | Ok (inr l) => (forall m, m ∈ l -> is_Some (v_index (shows s) !! m)) /\
                        (calm s -> forall m, is_Some (v_index (shows s) !! m) -> m ∈ l)
        | _ => False
        end) s.
Proof.
  intros Hs. apply wp_in_task. eapply wp_mono; [apply wp_GetCompletedTasksIndex, Hs|].
  intros o w' [[Hr Ho] Hb]. split; [by apply put_world_stays|]. destruct o as [[e|l]|]; [done| |done].
  destruct Ho as [Ha Hc]. split; [done|]. intros [Hh _]. auto.
Qed.
Lemma impl_delindex id s : sound s -> scannable s -> no_glob id = true ->
  wp (ts_DeleteTaskIndex (task fuel) id)
     (fun o s' => (scannable s -> scannable s') /\ exists z, becomes (with_index z (shows s)) s s' /\
        (forall m, z !! m = v_index (shows s) !! m \/ (z !! m = None /\ HasSuffix m id = true)) /\
        match o with
        | Ok None => forall m, HasSuffix m id = true -> z !! m = None
        | Ok (Some _) => True
        | Panic => False
        end) s.
Proof.
  intros Hs [Hnm Hpg] Hg. cbn [ts_DeleteTaskIndex task wire]. unfold deleteIndex.
  apply wp_bind, wp_in_task. eapply wp_mono; [by apply wp_DeleteTaskIndex; [apply Hs|..]|].
  intros o w' (Hr & Hz & Hp & Ho).
  assert (Hb : becomes (with_index (index_of w') (shows s)) s (put_world w' s)).
  { eapply becomes_same; [|apply put_world_becomes; [done|by apply ro_on_tasks|]].
    - split; cbn; [|done..]. intros id'. unfold task_doc. by rewrite (ro_view _ _ _ Hr).
    - intros id' t. unfold task_doc. rewrite (ro_view _ _ _ Hr). apply Hs. }
  assert (Hsc : scannable (put_world w' s)).
  { split; [|unfold task_env in *; cbn in *; lia]. intros m Hm. apply Hnm.
    destruct (Hz m) as [<-|[Hn _]]; [done|]. cbn in Hm. rewrite Hn in Hm. by destruct Hm. }
  destruct o as [[e|]|]; [| |done]; [|done]. wp_go. split; [done|]. exists (index_of w').
  split; [done|]. split; [done|]. by destruct e.
Qed.

(** ** The account-session service *)

Lemma wp_call {A} (handler : IO A) Q s :
  (forall err, Q (Ok (inl err)) s) ->
  wp handler (fun o w' =>
    match o with
    | Ok a => (forall err, Q (Ok (inr (inl err))) (put_session_world w' s)) /\
              Q (Ok (inr (inr a))) (put_session_world w' s)
    | Panic => Q Panic (put_session_world w' s)
    end) (session_world s) ->
  wp (call (@in_session _) task_env handler) Q s.
Proof.
  intros Hc Hw. unfold call. wp_go. destruct (client_error (task_env s)) as [err|]; [by wp_go|]. wp_go.
  apply wp_in_session. eapply wp_mono; [exact Hw|]. intros [a|] w' Ho; [|done]. destruct Ho as [Herr Hok].
  cbn [wp_cont]. wp_go. destruct (call_error _); by wp_go.
Qed.

(** The error responses of the client. *)
Lemma GeneralError_500 em : exists e,
  GeneralError (B := taskBody) StatusInternalServerError InternalError em [] =
  Ok (mkRPC StatusInternalServerError InternalError [] (ErrorBody e)).
Proof. eexists. reflexivity. Qed.
Lemma wp_Auth_session tok ps s : sound s ->
  wp (Rpc.IsAuthorized tok ps) (fun o w' =>
    match o with
    | Ok r => stays s (put_session_world w' s) /\ auth_answer r /\
        (r.1 = StatusOK -> live s tok /\ holds s tok ps)
    | Panic => False
    end) (session_world s).
Proof.
  intros Hs. pose proof (session_world_wf s Hs) as Hwf. pose proof (session_world_typed s Hs) as Hty.
  assert (Hboth : wp (Auth tok ps) (fun o w' => (auth_post (session_world s) tok ps o w' /\ beside (session_world s) w') /\
    match o with Ok r => auth_answer r | Panic => True end) (session_world s)).
  { split; [by apply wp_Auth_beside|apply Auth_answers]. }
  eapply wp_mono; [exact Hboth|]. intros [[code msg]|] w' [[Hp Hb] Ha]; [|done].
  assert (Hst : at_most_touched (session_world s) tok w' -> stays s (put_session_world w' s)).
  { intros Ht. apply put_session_stays; [done| |done]. by eapply touched_on_sessions. }
  destruct Hp as [(sess & t & t' & Htok & Hps & Hse & Hf & Ht & Ht' & Hw & Hc)|[(Hc & Hr & _)|[(sess & Hse & Hn & Hr & Hc)|(Hn & Hc & Hm)]]].
  - split; [apply Hst; right; by exists sess, t'|]. split; [done|]. cbn [fst]. intros ->.
    destruct (forallb (has_privilege sess) ps) eqn:Ef; [|done]. split.
    + split; [done|]. exists sess. split; [exact Hse|]. eapply fresh_earlier; [|exact Hf]. apply Ht.
    + split; [done|]. by exists sess.
  - split; [apply Hst; by left|]. split; [done|]. by injection Hc as -> _.
  - split; [apply Hst; by left|]. split; [done|]. by injection Hc as -> _.
  - split; [by apply Hst|]. by split.
Qed.

Lemma impl_auth tok ps s : sound s ->
  wp (AuthenticationRPC (task fuel) tok ps)
     (fun o s' => stays s s' /\ exists r e, o = Ok r /\ RBody r = ErrorBody e /\
        (StatusCode r = StatusOK -> live s tok /\ holds s tok ps)) s.
Proof.
  intros Hs. cbn [AuthenticationRPC task wire]. unfold Authentication, Services.IsAuthorized.
  assert (H500 : forall s' em, stays s s' -> wp (lift (GeneralError (B := taskBody) StatusInternalServerError InternalError em []))
    (fun o s' => stays s s' /\ exists r e, o = Ok r /\ RBody r = ErrorBody e /\
        (StatusCode r = StatusOK -> live s tok /\ holds s tok ps)) s').
  { intros s' em Hst. destruct (GeneralError_500 em) as [e ->]. wp_go. split; [done|]. by exists (mkRPC StatusInternalServerError InternalError [] (ErrorBody e)), e. }
  apply wp_bind, wp_call; [intros err; cbn [wp_cont]; by apply H500, stays_refl|].
  eapply wp_mono; [by apply wp_Auth_session|]. intros [[code msg]|] w' Ho; [|done].
  destruct Ho as (Hst & Ha & Hok). split; [intros err; cbn [wp_cont]; by apply H500|]. cbn [wp_cont].
  destruct (GeneralError_auth (B := taskBody) code msg "while checking the authorization"
    (InMemoryHost (ConfDB Data) +:+ ":" +:+ InMemoryPort (ConfDB Data)) Ha) as [e ->].
  wp_go. split; [done|]. by exists (mkRPC code msg [] (ErrorBody e)), e.
Qed.

Lemma impl_user tok s : sound s ->
  wp (GetSessionUserNameRPC (task fuel) tok)
     (fun o s' => stays s s' /\ exists r, o = Ok r /\
        match r with inr u => session_user s tok u | inl _ => True end) s.
Proof.
  intros Hs. pose proof (session_world_wf s Hs) as Hwf. pose proof (session_world_typed s Hs) as Hty.
  cbn [GetSessionUserNameRPC task wire]. unfold tauth_GetSessionUserName, Services.GetSessionUserName, name_call.
  apply wp_bind, wp_call; [intros err; wp_go; split; [by apply stays_refl|by eexists]|].
  eapply wp_mono; [by apply wp_session_field_beside|]. intros o w' [[Ht Ho] Hb].
  assert (Hst : stays s (put_session_world w' s)).
  { apply put_session_stays; [done| |done]. by eapply touched_on_sessions. }
  destruct o as [[e|u]|]; [| |done]; cbn [wp_cont].
  - split; [intros err|]; wp_go; (split; [done|by eexists]).
  - destruct Ho as (sess & Hse & ->). split; [intros err|]; wp_go; (split; [done|]); eexists; (split; [done|]); [done|].
    by exists sess.
Qed.

(** ** The message bus and transactions *)

Lemma impl_publish uri id ty text s : sound s ->
  wp (PublishToMessageBus (task fuel) uri id ty text)
     (fun o s' => (scannable s -> scannable s') /\ o = Ok tt /\ exists e, becomes (with_events e (shows s)) s s' /\
        (e = v_events (shows s) \/ e = (v_events (shows s) ++ [(uri, id, ty, text)])%list) /\
        (bus_up s -> e = (v_events (shows s) ++ [(uri, id, ty, text)])%list)) s.
Proof.
  intros Hs. cbn [PublishToMessageBus task wire]. unfold Publish.
  destruct MessageBusQueue as [|t0 ts] eqn:Eq; [by destruct topic|]. change (index (t0 :: ts) 0) with (Ok t0). wp_go.
  assert (Hlost : forall s', stays s s' -> (bus_up s -> False) ->
    (scannable s -> scannable s') /\ Ok tt = Ok tt /\ exists e, becomes (with_events e (shows s)) s s' /\
        (e = v_events (shows s) \/ e = (v_events (shows s) ++ [(uri, id, ty, text)])%list) /\
        (bus_up s -> e = (v_events (shows s) ++ [(uri, id, ty, text)])%list)).
  { intros s' Hst Hno. split; [apply Hst|]. split; [done|]. exists (v_events (shows s)). split; [|split; [by left|]].
    - eapply becomes_same; [|apply (st_becomes _ _ Hst)]. by split.
    - intros Hup. by destruct (Hno Hup). }
  destruct (bus_connects (task_env s)) eqn:Ebus.
  2:{ wp_go. apply Hlost; [by apply stays_refl|]. intros Hup. by rewrite (proj1 (Hup _)) in Ebus. }
  law impl_uuid. intros o s1 (Hst & u & -> & _). wp_go.
  law impl_now. intros o s2 (Hst2 & now & -> & _). wp_go.
  assert (Hst02 : stays s s2) by (by eapply stays_trans). pose proof (stays_view _ _ Hst02) as [Hd Hi He Ht].
  destruct (bus_distributes (task_env s2)) eqn:Edis.
  2:{ wp_go. apply Hlost; [done|]. intros Hup. by rewrite (proj2 (Hup _)) in Edis. }
  wp_go. set (ev := Build_TaskEvent _ _ _ _ _ _ _ _ _ _ _ _).
  destruct (becomes_beside s2 (tw_events s2 ++ [ev]) (tw_threads s2) (stays_sound _ _ Hst02)) as [Hb Hsc].
  split; [intros ?; apply Hsc; by apply Hst02|]. split; [done|].
  exists (v_events (shows s) ++ [(uri, id, ty, text)])%list.
  split; [|by split; [right|]]. eapply becomes_same; [|eapply becomes_trans; [exact (st_becomes _ _ Hst02)|exact Hb]].
  split; try done. cbn in *. rewrite fmap_app, He. done.
Qed.

Lemma wp_in_task_trans c s Q : c = EXEC \/ (exists k, c = WATCH k) -> sound s ->
  (forall r w', ro (tw_world s) w' -> beside (tw_world s) w' ->
     match r with ZErr _ => ~ reliable (task_env s) | ZDone => True | _ => False end -> Q (Ok r) (put_world w' s)) ->
  wp (in_task (ZDo (addr_of InMemory) c)) Q s.
Proof.
  intros Hc Hs HQ. apply wp_in_task. apply wp_in_env. intros r e Hd. pose proof (zdo_law _ _ _ _ _ Hd) as (Hq & _ & Hr & _ & _).
  assert (Hk : kept (w_env (tw_world s)) e).
  { pose proof (keeps_trans task_place (addr_of InMemory) c Hc (tw_world s)) as Hk. unfold ZDo, in_env in Hk. by rewrite Hd in Hk. }
  destruct (ztrans_law _ _ _ _ _ Hd Hc) as [_ Hkind].
  apply HQ; [apply ro_quiet; [apply Hs|done]|done|].
  destruct r; try done. intros Hrel. eapply (Hr Hrel); [by destruct Hc as [->|[k ->]]|done].
Qed.

Lemma impl_transaction key cb s Q : sound s ->
  (forall e s', stays s s' -> ~ calm s -> Q (Ok (Some e)) s') ->
  (forall s1, stays s s1 -> wp (cb key) (fun o s2 =>
     match o with
     | Ok r => sound s2 /\ forall s3, stays s2 s3 ->
                 match r with
                 | Some _ => forall e, Q (Ok (Some e)) s3
                 | None => Q (Ok None) s3 /\ (~ calm s2 -> forall e, Q (Ok (Some e)) s3)
                 end
     | Panic => Q Panic s2
     end) s1) ->
  wp (TransactionModel (task fuel) key cb) Q s.
Proof.
  intros Hs Hfail Hcb. cbn [TransactionModel task wire]. unfold TModel_Transaction, Transaction.
  apply wp_bind, wp_in_task. eapply wp_mono; [apply wp_keeps; [apply keeps_GetDBConnection|apply wp_GetDBConnection, Hs]|].
  intros o w1 [(-> & Hr1 & Hrd) Hb1]. wp_go. set (s1 := put_world w1 s) in *.
  assert (Hst1 : stays s s1) by (by apply put_world_stays).
  assert (Hs1 : sound s1) by (by eapply stays_sound).
  apply wp_in_task, wp_LoadWritePool; [apply Hs1|done|intros Hd|intros Hd]; cbn [wp_cont].
  { wp_go. apply Hfail; [done|]. eapply stays_uncalm; [exact Hst1|]. intros [Hh _].
    by apply (dead_unhealthy InMemory (tw_world s1)). }
  wp_go. change (put_world (tw_world s1) s1) with s1.
  apply wp_in_task_trans; [right; by eexists|done|]. intros r w2 Hr2 Hb2 Hkind. cbn [wp_cont].
  assert (Hst2 : stays s (put_world w2 s1)) by (eapply stays_trans; [exact Hst1|by apply put_world_stays]).
  destruct r as [msg| | |]; try done.
  { assert (Hn : ~ calm s) by (eapply stays_uncalm; [exact Hst1|]; by intros [[Hrel _] _]).
    destruct (isDbConnectError msg); [|wp_go; by apply Hfail].
    wp_go. apply wp_in_task. unfold StoreWritePoolNil. wp_go. apply Hfail; [|done].
    eapply stays_trans; [exact Hst1|]. apply (put_world_stays s1 _ Hs1); [|done].
    apply (evolves_StoreNil InMemory (tw_world s1) (view (tw_world s1)) w2); [by intros [Hrel _]|done|done]. }
  wp_go. eapply wp_mono; [by apply Hcb|]. intros [r|] s3; [|done]. intros [Hs3 HQ]. cbn [wp_cont].
  destruct r as [e|].
  { wp_go. apply HQ. by apply stays_refl. }
  wp_go. apply wp_in_task_trans; [by left|done|]. intros r w4 Hr4 Hb4 Hkind4. cbn [wp_cont].
  destruct (HQ (put_world w4 s3)) as [Hok Herr]; [by apply put_world_stays|].
  destruct r; try done. wp_go. apply Herr. by intros [[Hrel _] _].
Qed.

#[export] Instance task_store : TaskStore (task fuel).
Proof.
  split.
  - intros s id t (_ & _ & Hn & _) Ht. split; [by apply Hn|]. unfold task_of in Ht.
    destruct (docs s id) as [v|]; [|done]. by eapply decode_task_wf.
  - intros s m [Hn _]. apply Hn.
  - apply impl_now.
  - apply impl_uuid.
  - apply impl_sleep.
  - apply impl_spawn.
  - apply impl_auth.
  - apply impl_user.
  - apply impl_get.
  - apply impl_keys.
  - apply impl_delete.
  - apply impl_update.
  - apply impl_persist.
  - apply impl_known.
  - apply impl_completed.
  - apply impl_delindex.
  - apply impl_publish.
  - apply impl_transaction.
  - reflexivity.
  - reflexivity.
Qed.
End impl.
