(* ===== verification/TaskService.v ===== *)
(** The task service as a whole: every request is served by the handlers on the service as it is put
    together, so what was proved against [TaskStore] holds of it. *)
From stdpp Require Import base gmap list strings.
From Stdlib Require Import Ascii.
From S2P Require Import Prelude Go GoTime Response Redis World DBSpec RedisIndex Index AsModel AsSpec Auth AuthProps IndexProps TModel THandle Services TaskSystem TaskSpec TModelProps TaskProps TaskCancel TaskFrame TaskStoreImpl GoCodec Scenario.
Open Scope string_scope.

Section service.
Context `{IndexLaws, Libs, SingleNode, !Network, !MessageBus}.
Implicit Types (s : TaskWorld) (id : string).

(** The numbers of a request are int32. *)
Definition wf_request (r : taskRequest) : Prop :=
  match r with
  | ReqUpdateTask req => int32 (ut_PercentComplete req) = ut_PercentComplete req /\ wf_payload (ut_PayLoad req)
  | _ => True
  end.

(** ** What a request makes of the documents *)
Section effects.
Context `{!TaskView TaskWorld}.

(** A new task is stored under an identifier that was free, unless the failure of a command hid that it
    was taken; every other document is as it was. *)
Definition task_made s (userName id : string) (d : documents) : Prop :=
  task_id id /\ (calm s -> free (docs s id)) /\
  exists now, forall id', d id' = put id (doc (new_task userName id now)) (docs s) id'.
(** A child of a stored task likewise, and the parent has the child's identifier at the end of its list. *)
Definition child_made s (parent id : string) (d : documents) : Prop :=
  task_id id /\ (calm s -> free (docs s id)) /\
  exists p now, task_of s parent = Some p /\
    forall id', d id' = put parent (doc (with_child id p)) (put id (doc (child_task parent p id now)) (docs s)) id'.
(** After a failed command the creation of a child may have stopped half-way. *)
Definition child_begun s (parent : string) (d : documents) : Prop :=
  ~ calm s /\ exists p id now d', task_of s parent = Some p /\ task_id id /\
    (forall id', d id' = d' id') /\ part_of_child s parent p id now d'.
(** The task named is stored in the new state, which is allowed after its old one. *)
Definition task_updated s (req : UpdateTaskRequest) (d : documents) : Prop :=
  exists t t' endTime, ptypes_Timestamp (ut_EndTime req) = inr endTime /\ task_of s (ut_TaskID req) = Some t /\
    allowed (t_TaskState t) (ut_TaskState req) (ut_TaskStatus req) endTime = true /\
    changed (ut_TaskState req) (ut_TaskStatus req) endTime t t' /\
    forall id', d id' = put (ut_TaskID req) (doc t') (docs s) id'.
(** Tasks of the family of a task the session may delete are removed or being cancelled. *)
Definition family_deleted s (req : GetTaskRequest) (d : documents) : Prop :=
  exists t, task_of s (gt_TaskID req) = Some t /\ may_delete s (gt_SessionToken req) t /\
    forall id, d id = docs s id \/
      (id ∈ family s (gt_TaskID req) /\
       (d id = None \/ exists t, task_of s id = Some t /\ d id = doc (set_TaskState Cancelling t))).

(** What a request may make of the documents *)
Definition task_effect s (r : taskRequest) (d : documents) : Prop :=
  match r with
  | ReqDeleteTask req => family_deleted s req d
  | ReqCreateTask req => exists id, task_made s (ct_UserName req) id d
  | ReqCreateChildTask req => (exists id, child_made s (ct_ParentTaskID req) id d) \/ child_begun s (ct_ParentTaskID req) d
  | ReqUpdateTask req => task_updated s req d
  | _ => False
  end.
(** and what its answer says of that: a success is the effect asked for, and names the new task; the
    refusal to create or update has changed nothing unless a command failed. *)
Definition answer_true s (r : taskRequest) (o : outcome taskReply) (d : documents) : Prop :=
  match r with
  | ReqDeleteTask req =>
      match o with Ok (Answer rsp) => error_answer rsp \/ family_deleted s req d | _ => True end
  | ReqCreateTask _ | ReqCreateChildTask _ | ReqUpdateTask _ =>
      match o with
      | Ok (TaskURI (inr uri)) => exists id, uri = tasksURI +:+ "/" +:+ id /\
          match r with
          | ReqCreateTask req => task_made s (ct_UserName req) id d
          | ReqCreateChildTask req => child_made s (ct_ParentTaskID req) id d
          | _ => False
          end
      | Ok (Updated None) => task_effect s r d
      | Ok (TaskURI (inl _)) | Ok (Updated (Some _)) => calm s -> forall id, d id = docs s id
      | _ => False
      end
  | _ => True
  end.
Definition serve_post s r (o : outcome taskReply) s' : Prop :=
  sound s' /\ (calm s -> calm s') /\ ((forall id, docs s' id = docs s id) \/ task_effect s r (docs s')) /\
  answer_true s r o (docs s').

Lemma serve_stays s s' r o : stays s s' -> ((forall id, docs s' id = docs s id) -> answer_true s r o (docs s')) ->
  serve_post s r o s'.
Proof.
  intros Hst Ha. assert (Hd : forall id, docs s' id = docs s id) by (intros id; by apply stays_docs).
  split; [by eapply stays_sound|]. split; [by eapply stays_calm|]. split; [by left|by apply Ha].
Qed.
Lemma serve_becomes v s s' r o : becomes v s s' ->
  (forall d, (forall id, d id = v_docs v id) -> task_effect s r d /\ answer_true s r o d) -> serve_post s r o s'.
Proof.
  intros Hb Hv. destruct (Hv (docs s')) as [He Ha]; [intros id; by apply (becomes_docs _ _ _ _ Hb)|].
  split; [apply Hb|]. split; [apply Hb|]. split; [by right|done].
Qed.
Lemma serve_cancels {c} s req t s' o : task_of s (gt_TaskID req) = Some t -> may_delete s (gt_SessionToken req) t ->
  cancels c s (gt_TaskID req) s' -> serve_post s (ReqDeleteTask req) o s'.
Proof.
  intros Ht Hm Hc. assert (Hf : family_deleted s req (docs s')).
  { exists t. split; [done|]. split; [done|]. intros id.
    destruct (decide (id ∈ family s (gt_TaskID req))) as [Hf|Hn]; [|left; by apply (ca_other _ _ _ _ Hc)].
    destruct (ca_docs _ _ _ _ Hc id) as [E|[E|(_ & t' & Ht' & E)]]; [by left|right; split; [done|]..]; [by left|].
    right. by exists t'. }
  split; [by eapply cancels_sound|]. split; [by eapply cancels_calm|]. split; [by right|].
  destruct o as [[]|]; cbn; by auto.
Qed.
End effects.

Context (fuel : nat) (topic : MessageBusQueue <> []).
#[local] Hint Extern 0 (TaskView TaskWorld) => exact (task_view fuel) : typeclass_instances.
#[local] Instance store : TaskStore (task fuel) := task_store fuel topic.

(** The reply that [serveTask] makes of what a handler returns. *)
Definition replies {A} (k : A -> taskReply) (o : outcome A) : outcome taskReply := obind o (fun a => Ok (k a)).

Lemma serve_create_request req s : sound s ->
  wp (CreateTask (task fuel) req) (fun o s' => serve_post s (ReqCreateTask req) (replies TaskURI o) s') s.
Proof.
  intros Hs. unfold CreateTask. law spawn_law. intros o s1 (Hb & _ & ->). wp_go. rewrite create_helper.
  eapply wp_mono; [apply wp_CreateTaskUtil, Hb|]. intros o s2 [_ Hp].
  assert (Hd : forall id, docs s1 id = docs s id) by (intros id; by apply (becomes_docs _ _ _ id Hb)).
  assert (Hcalm : calm s -> calm s1) by apply Hb.
  assert (Hmade : forall id now, task_id id -> (calm s1 -> free (docs s1 id)) ->
    becomes (with_docs (put id (doc (new_task (ct_UserName req) id now)) (docs s1)) (shows s1)) s1 s2 ->
    sound s2 /\ (calm s -> calm s2) /\ task_made s (ct_UserName req) id (docs s2)).
  { intros id now Hid Hf Hb2. split; [apply Hb2|]. split; [intros Hc; by apply (be_calm _ _ _ Hb2), Hb|].
    split; [done|]. split; [intros Hc; rewrite <- Hd; by apply Hf, Hb|].
    exists now. intros id'. rewrite (becomes_docs _ _ _ _ Hb2). cbn [v_docs with_docs]. unfold put. by case_decide. }
  destruct o as [[e|uri]|]; [| |done].
  - destruct Hp as [[Hst _]|(Hn & id & now & Hid & Hb2)].
    + assert (Hd2 : forall id, docs s2 id = docs s id) by (intros id; by rewrite (stays_docs _ _ _ Hst)).
      split; [by eapply stays_sound|]. split; [intros Hc; by apply (stays_calm _ _ Hst), Hb|]. split; [by left|by intros _].
    + destruct (Hmade id now) as (Hso & Hca & Hm); [done..|]. do 2 (split; [done|]). split; [right; by exists id|].
      intros Hc. by destruct Hn; apply Hcalm.
  - destruct Hp as (id & now & Hid & -> & _ & _ & _ & Hb2 & Hf).
    destruct (Hmade id now) as (Hso & Hca & Hm); [done..|]. do 2 (split; [done|]). split; [right|]; by exists id.
Qed.
Lemma serve_child_request req s : sound s ->
  wp (CreateChildTask (task fuel) req) (fun o s' => serve_post s (ReqCreateChildTask req) (replies TaskURI o) s') s.
Proof.
  intros Hs. eapply wp_mono; [by apply wp_CreateChildTaskUtil|]. intros [[e|uri]|] s' Hp; [| |done].
  - destruct Hp as [[Hst _]|(Hn & id & p & now & d & z & Hid & Hp & Hb & Hd)]; [apply serve_stays; [done|by intros ? _]|].
    eapply serve_becomes; [exact Hb|]. intros d' Hd'. split; [|by intros Hc; destruct Hn].
    right. split; [done|]. by exists p, id, now, d.
  - destruct Hp as (p & id & now & z & Hp & Hid & -> & _ & Hf & Hb & _). eapply serve_becomes; [exact Hb|].
    intros d' Hd'. assert (Hm : child_made s (ct_ParentTaskID req) id d').
    { do 2 (split; [done|]). by exists p, now. }
    split; [left|]; by exists id.
Qed.
Lemma serve_update_request req s : sound s -> wf_request (ReqUpdateTask req) ->
  wp (UpdateTask (task fuel) req) (fun o s' => serve_post s (ReqUpdateTask req) (replies Updated o) s') s.
Proof.
  intros Hs [Hpc Hpl]. unfold UpdateTask. destruct (ptypes_Timestamp (ut_EndTime req)) as [e|endTime] eqn:Et.
  { apply wp_ret, serve_stays; [by apply stays_refl|done]. }
  eapply wp_mono; [by apply wp_updateTaskUtil|]. intros [[e|]|] s' Hp; [| |done]; cbn [update_post] in Hp.
  - destruct Hp as [[Hst _]|(Hn & t & t' & z & Ht & Ha & Hch & Hb)]; [apply serve_stays; [done|by intros ? _]|].
    eapply serve_becomes; [exact Hb|]. intros d Hd. split; [by exists t, t', endTime|by intros Hc; destruct Hn].
  - destruct Hp as (t & t' & mid & text & z & e & Ht & Ha & Hch & Hb & _).
    eapply serve_becomes; [exact Hb|]. intros d Hd. split; by exists t, t', endTime.
Qed.
Lemma serve_delete_request req s : sound s -> scannable s ->
  (is_Some (docs s (gt_TaskID req)) -> no_glob (gt_TaskID req) = true) ->
  wp (DeleteTask (task fuel) req) (fun o s' => serve_post s (ReqDeleteTask req) (replies Answer o) s') s.
Proof.
  intros Hs Hscan Hg. eapply wp_mono; [by apply wp_DeleteTask|]. intros [rsp|] s' Hp.
  - destruct Hp as [[Hst He]|[(t & e & [Ht Hm] & _ & Hp & _)|(t & e & [Ht Hm] & _ & Hp & _)]];
      [apply serve_stays; [done|by left]|..]; (eapply serve_cancels; [exact Ht|exact Hm|apply Hp]).
  - destruct Hp as (t & [Ht Hm] & _ & Hp & _). eapply serve_cancels; [exact Ht|exact Hm|apply Hp].
Qed.


(** C18: The service as it is put together implements the interface the handlers are proved against:
    what each of its functions does to the documents, the index, the events and the goroutines, in
    any state of the databases and whatever commands fail. *)
Theorem task_implements_store : TaskStore (task fuel).
Proof. exact (task_store fuel topic). Qed.
End service.

(** * At concrete inputs

    The task service on the simulated servers: its properties at concrete inputs. *)

#[local] Existing Instances single single_node.
#[local] Instance sim_network : Network := {| client_error _ := None; call_error _ := None; handler_error err := "rpc error: code = Unknown desc = " +:+ err |}.
#[local] Instance sim_bus : MessageBus := {| MessageBusQueue := ["ODIM-TASK-EVENTS"]; bus_connects _ := true; bus_distributes _ := true |}.

(** A running task of alice with a sub-task, and a task of the administrator that ended two days ago. *)
Definition parent_task : Task :=
  set_ChildTaskIDs (Some ["taskb"]) (set_TaskState "Running" (new_task "alice" "taska" 0)).
Definition sub_task : Task := child_task "taska" parent_task "taskb" 0.
Definition old_task : Task :=
  set_EndTime (-172800 * nano) (set_PercentComplete 100 (set_TaskState "Completed" (new_task "admin" "taskc" 0))).
Definition put_task (t : Task) (m : gmap string jtext) : gmap string jtext :=
  <[task_key (t_ID t) := Text (marshal_Task t)]> m.
Definition the_tasks : gmap string jtext :=
  put_task parent_task (put_task sub_task (put_task old_task the_sessions)).
Definition the_index : zset := add_entry old_task ∅.

Definition tasks_world : @World Sim.sim_env :=
  with_env (Sim.mk {[ inmem_addr := the_tasks; ondisk_addr := the_accounts ]} minute 10 []
              {[ (inmem_addr, CompletedTaskIndex) := the_index ]}) (sim_world ∅ ∅ 0 []).
Definition task_service : TaskWorld := mkTaskWorld tasks_world tasks_world [] [].

#[local] Hint Extern 0 (TaskView TaskWorld) => exact (task_view 2) : typeclass_instances.
Lemma has_topic : MessageBusQueue <> [].
Proof. done. Qed.
#[local] Instance service_store : TaskStore (task 2) := task_store 2 has_topic.

Definition named (m : gmap string jtext) : Prop :=
  forall id t, decoded (m !! task_key id) = Some t -> t_ID t = id.
Lemma put_task_named t m : wf_task t -> named m -> named (put_task t m).
Proof.
  intros Hwf Hm id t'. unfold put_task. destruct (decide (t_ID t = id)) as [<-|Hne].
  - rewrite lookup_insert_eq. cbn [decoded]. rewrite decode_marshal by done. by intros [= <-].
  - rewrite lookup_insert_ne; [apply Hm|]. intros E. by apply Hne, (saveID_inj "task").
Qed.
Lemma sessions_named : named the_sessions.
Proof.
  intros id t. unfold the_sessions, put_session.
  do 3 (rewrite lookup_insert_ne by apply session_not_task). by rewrite lookup_empty.
Qed.
Lemma put_task_typed {A} (st : struct_type A) zero name t m :
  tab_typed "session" st zero name m -> tab_typed "session" st zero name (put_task t m).
Proof. apply tab_typed_insert_other. intros k. apply session_not_task. Qed.

Lemma service_sound : sound task_service.
Proof.
  assert (Hwf : wf tasks_world) by (intros []; simpl; auto).
  split; [exact Hwf|]. split; [exact Hwf|]. split.
  - change (named the_tasks). unfold the_tasks.
    do 3 (apply put_task_named; [by split|]). apply sessions_named.
  - destruct (service_typed minute []) as [_ h2 h3]. split; [|exact h2|exact h3].
    change (tab_typed "session" Session_type zeroSession s_Token the_tasks).
    do 3 apply put_task_typed. apply sessions_typed.
Qed.
Lemma service_calm : calm task_service.
Proof. split; (split; [done|]); by intros [] (p & [= <-] & Hw). Qed.
Lemma service_scannable : scannable task_service.
Proof.
  split; [|cbn; lia]. intros m Hm. change (is_Some (the_index !! m)) in Hm. unfold the_index, add_entry in Hm.
  apply lookup_insert_is_Some in Hm as [<-|[_ [x Hx]]]; [vm_compute; reflexivity|by rewrite lookup_empty in Hx].
Qed.

(** ** The runs *)

(** The identifiers, states and ends of the stored tasks. *)
Definition stored_tasks (s : TaskWorld) : list (string * option string) :=
  (fun id => (id, t_TaskState <$> task_of s id)) <$> ["taska"; "taskb"; "taskc"].
Definition delete_req (id tok : string) : GetTaskRequest := {| gt_TaskID := id; gt_SubTaskID := ""; gt_SessionToken := tok |}.
Definition code (o : outcome TaskResponse) : option Z := match o with Ok r => Some (rsp_StatusCode r) | Panic => None end.

(** The owner may not delete the task without ConfigureManager. *)
Example delete_refused :
  let (o, s) := DeleteTask (task 2) (delete_req "taska" "tok-alice") task_service in
  (code o, stored_tasks s, tw_threads s) =
  (Some StatusForbidden, [("taska", Some "Running"); ("taskb", Some "New"); ("taskc", Some "Completed")], []).
Proof. vm_compute. reflexivity. Qed.
(** The administrator cancels it with its sub-task. *)
Example cancel_run :
  let (o, s) := DeleteTask (task 2) (delete_req "taska" "tok-admin") task_service in
  (code o, stored_tasks s, tw_threads s) =
  (Some StatusAccepted, [("taska", Some "Cancelling"); ("taskb", Some "Cancelling"); ("taskc", Some "Completed")],
   [AsyncTaskDelete "taskb"; AsyncTaskDelete "taska"]).
Proof. vm_compute. reflexivity. Qed.
(** A completed task is deleted with its entry. *)
Example delete_run :
  let (o, s) := DeleteTask (task 2) (delete_req "taskc" "tok-admin") task_service in
  (code o, stored_tasks s, (map_to_list (v_index (shows s))).*1) =
  (Some StatusNoContent, [("taska", Some "Running"); ("taskb", Some "New"); ("taskc", None)], []).
Proof. vm_compute. reflexivity. Qed.
(** Creating a task starts the clean-up, which removes the old one when it runs. *)
Example purge_run :
  let (_, s) := serveTask 2 (ReqCreateTask {| ct_UserName := "alice"; ct_ParentTaskID := "" |}) task_service in
  let (_, s') := runThread 2 0 s in
  (tw_threads s, stored_tasks s', tw_threads s') =
  ([OverWriteCompleted "alice"], [("taska", Some "Running"); ("taskb", Some "New"); ("taskc", None)], []).
Proof. vm_compute. reflexivity. Qed.

(** ** The properties *)

Lemma updateTaskUtil_spec_witness :
  wp (updateTaskUtil (task 2) "taskb" "Completed" "OK" 100 None 5)
     (update_post task_service "taskb" "Completed" "OK" 5) task_service.
Proof. apply updateTaskUtil_spec; [exact service_sound|exact I|reflexivity]. Defined.
Lemma CreateTaskUtil_spec_witness :
  wp (CreateTaskUtil (task 2) "alice") (create_post task_service "alice") task_service.
Proof. apply CreateTaskUtil_spec. exact service_sound. Defined.
Lemma CreateChildTaskUtil_spec_witness :
  wp (CreateChildTaskUtil (task 2) "alice" "taska") (child_post task_service "taska") task_service.
Proof. apply CreateChildTaskUtil_spec. exact service_sound. Defined.
Lemma GetTasks_spec_witness :
  wp (GetTasks (task 2) (delete_req "taska" "tok-alice")) (get_post task_service (delete_req "taska" "tok-alice"))
     task_service.
Proof. apply GetTasks_spec. exact service_sound. Defined.
Lemma TaskCollection_spec_witness :
  wp (TaskCollection (task 2) (delete_req "" "tok-alice")) (collection_post task_service (delete_req "" "tok-alice"))
     task_service.
Proof. apply TaskCollection_spec. exact service_sound. Defined.
(** The goroutine waits while the task runs. *)
Lemma async_run :
  wp (asyncTaskDelete (task 2) "taska")
     (fun o s' => o = Ok false /\ stays task_service s') task_service.
Proof.
  eapply wp_mono; [apply (wp_asyncTaskDelete (ts := task 2) "taska"); exact service_sound|].
  assert (Ht : task_of task_service "taska" = Some parent_task) by (vm_compute; reflexivity).
  intros [[]|] s' Ho; [|by destruct Ho|done].
  destruct Ho as [[_ Hn]|(t & Ht' & Hc & _)].
  - rewrite Hn in Ht; [discriminate|exact service_calm].
  - rewrite Ht in Ht'. injection Ht' as <-. discriminate Hc.
Qed.
Lemma DeleteTask_spec_witness :
  wp (DeleteTask (task 2) (delete_req "taska" "tok-admin")) (delete_post task_service (delete_req "taska" "tok-admin"))
     task_service.
Proof. apply DeleteTask_spec; [exact service_sound|exact service_scannable|reflexivity]. Defined.
Lemma OverWriteCompletedTaskUtil_spec_witness :
  wp (OverWriteCompletedTaskUtil (task 2) "alice")
     (fun o s' => o = Ok None /\ purged task_service s' /\ (calm task_service ->
        (forall now, (instant task_service <= now <= instant s')%Z -> expired now (t_EndTime old_task) = true) ->
        task_of s' "taskc" = None)) task_service.
Proof.
  eapply wp_mono; [apply (OverWriteCompletedTaskUtil_spec (ts := task 2)); [exact service_sound|exact service_scannable|]|].
  - intros m Hm. change (is_Some (the_index !! m)) in Hm. unfold the_index, add_entry in Hm.
    apply lookup_insert_is_Some in Hm as [<-|[_ [x Hx]]]; [|by rewrite lookup_empty in Hx].
    exists (t_EndTime old_task), "taskc". split; vm_compute; reflexivity.
  - intros o s' (-> & Hp & Hd). split; [done|]. split; [done|]. intros Hc Hex.
    apply (Hd Hc (task_index_key old_task) (t_EndTime old_task)); [|vm_compute; reflexivity|exact Hex].
    change (is_Some (the_index !! task_index_key old_task)). unfold the_index, add_entry.
    apply lookup_insert_is_Some. by left.
Defined.
Lemma task_implements_store_witness : MessageBusQueue <> [] /\ TaskStore (task 2).
Proof. split; [exact has_topic|]. apply task_implements_store. exact has_topic. Defined.
