(* ===== verification/AgData.v ===== *)
(** svc-aggregation/agmodel: the records the aggregation service stores, and their JSON documents. *)
From stdpp Require Import base gmap list strings pretty.
From S2P Require Import Prelude Go GoTime GoCodec Http.
Open Scope string_scope.

(** ** More of encoding/json *)

(** [int] *)
Definition dec_int : field_decoder Z := fun old j =>
  match j with
  | JNum n => if (int64 n =? n)%Z then (n, None) else (old, Some (Mismatch ("number " +:+ pretty n) "int"))
  | JNull => (old, None)
  | _ => (old, Some (Mismatch (json_kind j) "int"))
  end.
(** A slice of structs. *)
Fixpoint dec_list {A} (dec : field_decoder A) (new : A) (l : list json) : list A * mismatch :=
  match l with
  | [] => ([], None)
  | j :: l' =>
      let (x, e) := dec new j in
      let (xs, es) := dec_list dec new l' in (x :: xs, first_mismatch e es)
  end.
Definition dec_slice {A} (ty : string) (dec : field_decoder A) (new : A) : field_decoder (slice A) := fun old j =>
  match j with
  | JArr l => let (xs, e) := dec_list dec new l in (Some xs, e)
  | JNull => (None, None)
  | _ => (old, Some (Mismatch (json_kind j) ("[]" +:+ ty)))
  end.
Definition enc_slice {A} (enc : A -> json) (s : slice A) : json :=
  match s with None => JNull | Some l => JArr (enc <$> l) end.
(** A pointer to a struct: a new one is made where there is none. *)
Definition dec_pointer {A} (dec : field_decoder A) (new : A) : field_decoder (option A) := fun old j =>
  match j with
  | JNull => (None, None)
  | _ => let (a, e) := dec (default new old) j in (Some a, e)
  end.
Definition enc_pointer {A} (enc : A -> json) (p : option A) : json :=
  match p with None => JNull | Some a => enc a end.
(** [interface{}]; nil is null. *)
Definition dec_any : field_decoder json := fun _ j => (through_interface j, None).
(** A field with [omitempty] is left out when it is empty. *)
Definition omit {A} (empty : A -> bool) (a : A) (field : string * json) : list (string * json) :=
  if empty a then [] else [field].
Definition no_text (s : string) : bool := String.eqb s "".
Definition no_byte (b : option string) : bool := no_text (default "" b).
Definition is_nil {A} (p : option A) : bool := match p with None => true | Some _ => false end.
Definition nil_any (j : json) : bool := match j with JNull => true | _ => false end.

(** A document that is a string: [json.Unmarshal(text, &s)]. *)
Definition Unmarshal_string (t : jtext) : string + string :=
  match t with
  | NotJson _ err => inl err
  | Text j =>
      match dec_string "" j with
      | (s, None) => inr s
      | (_, Some (Mismatch kind ty)) => inl ("json: cannot unmarshal " +:+ kind +:+ " into Go value of type " +:+ ty)
      | (_, Some (Inner msg)) => inl msg
      end
  end.

(** ** system.go *)

(** Aggregate: the systems that form it. *)
Record Aggregate := mkAggregate {
  ag_Elements : slice string;
}.
Definition zeroAggregate : Aggregate := mkAggregate None.
Definition Aggregate_type : struct_type Aggregate := {|
  st_name := "Aggregate";
  st_fields :=
    [("Elements", on ag_Elements (fun x _ => mkAggregate x) dec_strings)] |}.
Definition marshal_Aggregate (r : Aggregate) : json :=
  JObj [("Elements", enc_strings (ag_Elements r))].

(** SaveSystem: a managed server, with its password encrypted. *)
Record SaveSystem := mkSaveSystem {
  ss_ManagerAddress : string;
  ss_Password : option string;
  ss_UserName : string;
  ss_DeviceUUID : string;
  ss_PluginID : string;
}.
Definition zeroSaveSystem : SaveSystem := mkSaveSystem "" None "" "" "".
Definition marshal_SaveSystem (r : SaveSystem) : json :=
  JObj [("ManagerAddress", JStr (ss_ManagerAddress r));
        ("Password", enc_bytes (ss_Password r));
        ("UserName", JStr (ss_UserName r));
        ("DeviceUUID", JStr (ss_DeviceUUID r));
        ("PluginID", JStr (ss_PluginID r))].

(** Target: the same as it is sent to a plugin. *)
Record Target := mkTarget {
  tg_ManagerAddress : string;
  tg_Password : option string;
  tg_UserName : string;
  tg_PostBody : option string;
  tg_DeviceUUID : string;
  tg_PluginID : string;
}.
Definition zeroTarget : Target := mkTarget "" None "" None "" "".
Definition Target_type : struct_type Target := {|
  st_name := "Target";
  st_fields :=
    [("ManagerAddress", on tg_ManagerAddress (fun x r => mkTarget x (tg_Password r) (tg_UserName r) (tg_PostBody r) (tg_DeviceUUID r) (tg_PluginID r)) dec_string);
     ("Password", on tg_Password (fun x r => mkTarget (tg_ManagerAddress r) x (tg_UserName r) (tg_PostBody r) (tg_DeviceUUID r) (tg_PluginID r)) dec_bytes);
     ("UserName", on tg_UserName (fun x r => mkTarget (tg_ManagerAddress r) (tg_Password r) x (tg_PostBody r) (tg_DeviceUUID r) (tg_PluginID r)) dec_string);
     ("PostBody", on tg_PostBody (fun x r => mkTarget (tg_ManagerAddress r) (tg_Password r) (tg_UserName r) x (tg_DeviceUUID r) (tg_PluginID r)) dec_bytes);
     ("DeviceUUID", on tg_DeviceUUID (fun x r => mkTarget (tg_ManagerAddress r) (tg_Password r) (tg_UserName r) (tg_PostBody r) x (tg_PluginID r)) dec_string);
     ("PluginID", on tg_PluginID (fun x r => mkTarget (tg_ManagerAddress r) (tg_Password r) (tg_UserName r) (tg_PostBody r) (tg_DeviceUUID r) x) dec_string)] |}.
Definition marshal_Target (r : Target) : json :=
  JObj [("ManagerAddress", JStr (tg_ManagerAddress r));
        ("Password", enc_bytes (tg_Password r));
        ("UserName", JStr (tg_UserName r));
        ("PostBody", enc_bytes (tg_PostBody r));
        ("DeviceUUID", JStr (tg_DeviceUUID r));
        ("PluginID", JStr (tg_PluginID r))].

(** Plugin. *)
Record Plugin := mkPlugin {
  pl_IP : string;
  pl_Port : string;
  pl_Username : string;
  pl_Password : option string;
  pl_ID : string;
  pl_PluginType : string;
  pl_PreferredAuthType : string;
  pl_ManagerUUID : string;
}.
Definition zeroPlugin : Plugin := mkPlugin "" "" "" None "" "" "" "".
Definition Plugin_type : struct_type Plugin := {|
  st_name := "Plugin";
  st_fields :=
    [("IP", on pl_IP (fun x r => mkPlugin x (pl_Port r) (pl_Username r) (pl_Password r) (pl_ID r) (pl_PluginType r) (pl_PreferredAuthType r) (pl_ManagerUUID r)) dec_string);
     ("Port", on pl_Port (fun x r => mkPlugin (pl_IP r) x (pl_Username r) (pl_Password r) (pl_ID r) (pl_PluginType r) (pl_PreferredAuthType r) (pl_ManagerUUID r)) dec_string);
     ("Username", on pl_Username (fun x r => mkPlugin (pl_IP r) (pl_Port r) x (pl_Password r) (pl_ID r) (pl_PluginType r) (pl_PreferredAuthType r) (pl_ManagerUUID r)) dec_string);
     ("Password", on pl_Password (fun x r => mkPlugin (pl_IP r) (pl_Port r) (pl_Username r) x (pl_ID r) (pl_PluginType r) (pl_PreferredAuthType r) (pl_ManagerUUID r)) dec_bytes);
     ("ID", on pl_ID (fun x r => mkPlugin (pl_IP r) (pl_Port r) (pl_Username r) (pl_Password r) x (pl_PluginType r) (pl_PreferredAuthType r) (pl_ManagerUUID r)) dec_string);
     ("PluginType", on pl_PluginType (fun x r => mkPlugin (pl_IP r) (pl_Port r) (pl_Username r) (pl_Password r) (pl_ID r) x (pl_PreferredAuthType r) (pl_ManagerUUID r)) dec_string);
     ("PreferredAuthType", on pl_PreferredAuthType (fun x r => mkPlugin (pl_IP r) (pl_Port r) (pl_Username r) (pl_Password r) (pl_ID r) (pl_PluginType r) x (pl_ManagerUUID r)) dec_string);
     ("ManagerUUID", on pl_ManagerUUID (fun x r => mkPlugin (pl_IP r) (pl_Port r) (pl_Username r) (pl_Password r) (pl_ID r) (pl_PluginType r) (pl_PreferredAuthType r) x) dec_string)] |}.
Definition marshal_Plugin (r : Plugin) : json :=
  JObj [("IP", JStr (pl_IP r));
        ("Port", JStr (pl_Port r));
        ("Username", JStr (pl_Username r));
        ("Password", enc_bytes (pl_Password r));
        ("ID", JStr (pl_ID r));
        ("PluginType", JStr (pl_PluginType r));
        ("PreferredAuthType", JStr (pl_PreferredAuthType r));
        ("ManagerUUID", JStr (pl_ManagerUUID r))].

(** SystemOperation: what is being done to a system. *)
Record SystemOperation := mkSystemOperation {
  so_Operation : string;
}.
Definition zeroSystemOperation : SystemOperation := mkSystemOperation "".
Definition SystemOperation_type : struct_type SystemOperation := {|
  st_name := "SystemOperation";
  st_fields :=
    [("Operation", on so_Operation (fun x _ => mkSystemOperation x) dec_string)] |}.
Definition marshal_SystemOperation (r : SystemOperation) : json :=
  JObj [("Operation", JStr (so_Operation r))].

(** SNMP. *)
Record SNMP := mkSNMP {
  sn_AuthenticationKey : string;
  sn_AuthenticationKeySet : string;
  sn_AuthenticationProtocol : string;
  sn_EncryptionKey : string;
  sn_EncryptionKeySet : bool;
  sn_EncryptionProtocol : string;
}.
Definition zeroSNMP : SNMP := mkSNMP "" "" "" "" false "".
Definition SNMP_type : struct_type SNMP := {|
  st_name := "SNMP";
  st_fields :=
    [("AuthenticationKey", on sn_AuthenticationKey (fun x r => mkSNMP x (sn_AuthenticationKeySet r) (sn_AuthenticationProtocol r) (sn_EncryptionKey r) (sn_EncryptionKeySet r) (sn_EncryptionProtocol r)) dec_string);
     ("AuthenticationKeySet", on sn_AuthenticationKeySet (fun x r => mkSNMP (sn_AuthenticationKey r) x (sn_AuthenticationProtocol r) (sn_EncryptionKey r) (sn_EncryptionKeySet r) (sn_EncryptionProtocol r)) dec_string);
     ("AuthenticationProtocol", on sn_AuthenticationProtocol (fun x r => mkSNMP (sn_AuthenticationKey r) (sn_AuthenticationKeySet r) x (sn_EncryptionKey r) (sn_EncryptionKeySet r) (sn_EncryptionProtocol r)) dec_string);
     ("EncryptionKey", on sn_EncryptionKey (fun x r => mkSNMP (sn_AuthenticationKey r) (sn_AuthenticationKeySet r) (sn_AuthenticationProtocol r) x (sn_EncryptionKeySet r) (sn_EncryptionProtocol r)) dec_string);
     ("EncryptionKeySet", on sn_EncryptionKeySet (fun x r => mkSNMP (sn_AuthenticationKey r) (sn_AuthenticationKeySet r) (sn_AuthenticationProtocol r) (sn_EncryptionKey r) x (sn_EncryptionProtocol r)) dec_bool);
     ("EncryptionProtocol", on sn_EncryptionProtocol (fun x r => mkSNMP (sn_AuthenticationKey r) (sn_AuthenticationKeySet r) (sn_AuthenticationProtocol r) (sn_EncryptionKey r) (sn_EncryptionKeySet r) x) dec_string)] |}.
Definition marshal_SNMP (r : SNMP) : json :=
  JObj (omit no_text (sn_AuthenticationKey r) ("AuthenticationKey", JStr (sn_AuthenticationKey r)) ++
        omit no_text (sn_AuthenticationKeySet r) ("AuthenticationKeySet", JStr (sn_AuthenticationKeySet r)) ++
        omit no_text (sn_AuthenticationProtocol r) ("AuthenticationProtocol", JStr (sn_AuthenticationProtocol r)) ++
        omit no_text (sn_EncryptionKey r) ("EncryptionKey", JStr (sn_EncryptionKey r)) ++
        omit negb (sn_EncryptionKeySet r) ("EncryptionKeySet", JBool (sn_EncryptionKeySet r)) ++
        omit no_text (sn_EncryptionProtocol r) ("EncryptionProtocol", JStr (sn_EncryptionProtocol r)))%list.

(** dmtfmodel.OemActions: a pointer to an [Oem], which is an [interface{}]. *)
Definition dec_oem_value : field_decoder (option json) := dec_pointer dec_any JNull.
(** OemActions. *)
Record OemActions := mkOemActions {
  oa_Oem : option json;
}.
Definition zeroOemActions : OemActions := mkOemActions None.
Definition OemActions_type : struct_type OemActions := {|
  st_name := "OemActions";
  st_fields :=
    [("Oem", on oa_Oem (fun x _ => mkOemActions x) dec_oem_value)] |}.
Definition marshal_OemActions (r : OemActions) : json :=
  JObj (omit is_nil (oa_Oem r) ("Oem", enc_pointer id (oa_Oem r)))%list.

(** AggregationSource: a server or a plugin that was added, as it is shown. *)
Record AggregationSource := mkAggregationSource {
  as_HostName : string;
  as_UserName : string;
  as_Password : option string;
  as_Links : json;
  as_ODataContext : string;
  as_ODataEtag : string;
  as_ODataID : string;
  as_ODataType : string;
  as_Name : string;
  as_Actions : option OemActions;
  as_Description : string;
  as_ID : string;
  as_Oem : option json;
  as_SNMP : option SNMP;
}.
Definition zeroAggregationSource : AggregationSource := mkAggregationSource "" "" None JNull "" "" "" "" "" None "" "" None None.
Definition AggregationSource_type : struct_type AggregationSource := {|
  st_name := "AggregationSource";
  st_fields :=
    [("HostName", on as_HostName (fun x r => mkAggregationSource x (as_UserName r) (as_Password r) (as_Links r) (as_ODataContext r) (as_ODataEtag r) (as_ODataID r) (as_ODataType r) (as_Name r) (as_Actions r) (as_Description r) (as_ID r) (as_Oem r) (as_SNMP r)) dec_string);
     ("UserName", on as_UserName (fun x r => mkAggregationSource (as_HostName r) x (as_Password r) (as_Links r) (as_ODataContext r) (as_ODataEtag r) (as_ODataID r) (as_ODataType r) (as_Name r) (as_Actions r) (as_Description r) (as_ID r) (as_Oem r) (as_SNMP r)) dec_string);
     ("Password", on as_Password (fun x r => mkAggregationSource (as_HostName r) (as_UserName r) x (as_Links r) (as_ODataContext r) (as_ODataEtag r) (as_ODataID r) (as_ODataType r) (as_Name r) (as_Actions r) (as_Description r) (as_ID r) (as_Oem r) (as_SNMP r)) dec_bytes);
     ("Links", on as_Links (fun x r => mkAggregationSource (as_HostName r) (as_UserName r) (as_Password r) x (as_ODataContext r) (as_ODataEtag r) (as_ODataID r) (as_ODataType r) (as_Name r) (as_Actions r) (as_Description r) (as_ID r) (as_Oem r) (as_SNMP r)) dec_any);
     ("@odata.context", on as_ODataContext (fun x r => mkAggregationSource (as_HostName r) (as_UserName r) (as_Password r) (as_Links r) x (as_ODataEtag r) (as_ODataID r) (as_ODataType r) (as_Name r) (as_Actions r) (as_Description r) (as_ID r) (as_Oem r) (as_SNMP r)) dec_string);
     ("@odata.etag", on as_ODataEtag (fun x r => mkAggregationSource (as_HostName r) (as_UserName r) (as_Password r) (as_Links r) (as_ODataContext r) x (as_ODataID r) (as_ODataType r) (as_Name r) (as_Actions r) (as_Description r) (as_ID r) (as_Oem r) (as_SNMP r)) dec_string);
     ("@odata.id", on as_ODataID (fun x r => mkAggregationSource (as_HostName r) (as_UserName r) (as_Password r) (as_Links r) (as_ODataContext r) (as_ODataEtag r) x (as_ODataType r) (as_Name r) (as_Actions r) (as_Description r) (as_ID r) (as_Oem r) (as_SNMP r)) dec_string);
     ("@odata.type", on as_ODataType (fun x r => mkAggregationSource (as_HostName r) (as_UserName r) (as_Password r) (as_Links r) (as_ODataContext r) (as_ODataEtag r) (as_ODataID r) x (as_Name r) (as_Actions r) (as_Description r) (as_ID r) (as_Oem r) (as_SNMP r)) dec_string);
     ("Name", on as_Name (fun x r => mkAggregationSource (as_HostName r) (as_UserName r) (as_Password r) (as_Links r) (as_ODataContext r) (as_ODataEtag r) (as_ODataID r) (as_ODataType r) x (as_Actions r) (as_Description r) (as_ID r) (as_Oem r) (as_SNMP r)) dec_string);
     ("Actions", on as_Actions (fun x r => mkAggregationSource (as_HostName r) (as_UserName r) (as_Password r) (as_Links r) (as_ODataContext r) (as_ODataEtag r) (as_ODataID r) (as_ODataType r) (as_Name r) x (as_Description r) (as_ID r) (as_Oem r) (as_SNMP r)) (dec_pointer (dec_struct "model." "Actions." OemActions_type) zeroOemActions));
     ("Description", on as_Description (fun x r => mkAggregationSource (as_HostName r) (as_UserName r) (as_Password r) (as_Links r) (as_ODataContext r) (as_ODataEtag r) (as_ODataID r) (as_ODataType r) (as_Name r) (as_Actions r) x (as_ID r) (as_Oem r) (as_SNMP r)) dec_string);
     ("Id", on as_ID (fun x r => mkAggregationSource (as_HostName r) (as_UserName r) (as_Password r) (as_Links r) (as_ODataContext r) (as_ODataEtag r) (as_ODataID r) (as_ODataType r) (as_Name r) (as_Actions r) (as_Description r) x (as_Oem r) (as_SNMP r)) dec_string);
     ("Oem", on as_Oem (fun x r => mkAggregationSource (as_HostName r) (as_UserName r) (as_Password r) (as_Links r) (as_ODataContext r) (as_ODataEtag r) (as_ODataID r) (as_ODataType r) (as_Name r) (as_Actions r) (as_Description r) (as_ID r) x (as_SNMP r)) dec_oem_value);
     ("SNMP", on as_SNMP (fun x r => mkAggregationSource (as_HostName r) (as_UserName r) (as_Password r) (as_Links r) (as_ODataContext r) (as_ODataEtag r) (as_ODataID r) (as_ODataType r) (as_Name r) (as_Actions r) (as_Description r) (as_ID r) (as_Oem r) x) (dec_pointer (dec_struct "agmodel." "SNMP." SNMP_type) zeroSNMP))] |}.
Definition marshal_AggregationSource (r : AggregationSource) : json :=
  JObj ([("HostName", JStr (as_HostName r))] ++
        omit no_text (as_UserName r) ("UserName", JStr (as_UserName r)) ++
        omit no_byte (as_Password r) ("Password", enc_bytes (as_Password r)) ++
        omit nil_any (as_Links r) ("Links", as_Links r) ++
        omit no_text (as_ODataContext r) ("@odata.context", JStr (as_ODataContext r)) ++
        omit no_text (as_ODataEtag r) ("@odata.etag", JStr (as_ODataEtag r)) ++
        [("@odata.id", JStr (as_ODataID r))] ++
        [("@odata.type", JStr (as_ODataType r))] ++
        [("Name", JStr (as_Name r))] ++
        omit is_nil (as_Actions r) ("Actions", enc_pointer marshal_OemActions (as_Actions r)) ++
        omit no_text (as_Description r) ("Description", JStr (as_Description r)) ++
        [("Id", JStr (as_ID r))] ++
        omit is_nil (as_Oem r) ("Oem", enc_pointer id (as_Oem r)) ++
        omit is_nil (as_SNMP r) ("SNMP", enc_pointer marshal_SNMP (as_SNMP r)))%list.

(** OdataID. *)
Record OdataRef := mkOdataRef {
  od_OdataID : string;
}.
Definition zeroOdataRef : OdataRef := mkOdataRef "".
Definition OdataRef_type : struct_type OdataRef := {|
  st_name := "OdataID";
  st_fields :=
    [("@odata.id", on od_OdataID (fun x _ => mkOdataRef x) dec_string)] |}.
Definition marshal_OdataRef (r : OdataRef) : json :=
  JObj [("@odata.id", JStr (od_OdataID r))].

(** Links of a connection method. *)
Record CMLinks := mkCMLinks {
  ln_AggregationSources : slice OdataRef;
}.
Definition zeroCMLinks : CMLinks := mkCMLinks None.
Definition CMLinks_type : struct_type CMLinks := {|
  st_name := "Links";
  st_fields :=
    [("AggregationSources", on ln_AggregationSources (fun x _ => mkCMLinks x) (dec_slice "agmodel.OdataID" (dec_struct "agmodel." "Links.AggregationSources." OdataRef_type) zeroOdataRef))] |}.
Definition marshal_CMLinks (r : CMLinks) : json :=
  JObj [("AggregationSources", enc_slice marshal_OdataRef (ln_AggregationSources r))].

(** ConnectionMethod. *)
Record ConnectionMethod := mkConnectionMethod {
  cm_ConnectionMethodType : string;
  cm_ConnectionMethodVariant : string;
  cm_Links : CMLinks;
}.
Definition zeroConnectionMethod : ConnectionMethod := mkConnectionMethod "" "" zeroCMLinks.
Definition ConnectionMethod_type : struct_type ConnectionMethod := {|
  st_name := "ConnectionMethod";
  st_fields :=
    [("ConnectionMethodType", on cm_ConnectionMethodType (fun x r => mkConnectionMethod x (cm_ConnectionMethodVariant r) (cm_Links r)) dec_string);
     ("ConnectionMethodVariant", on cm_ConnectionMethodVariant (fun x r => mkConnectionMethod (cm_ConnectionMethodType r) x (cm_Links r)) dec_string);
     ("Links", on cm_Links (fun x r => mkConnectionMethod (cm_ConnectionMethodType r) (cm_ConnectionMethodVariant r) x) (dec_struct "agmodel." "Links." CMLinks_type))] |}.
Definition marshal_ConnectionMethod (r : ConnectionMethod) : json :=
  JObj [("ConnectionMethodType", JStr (cm_ConnectionMethodType r));
        ("ConnectionMethodVariant", JStr (cm_ConnectionMethodVariant r));
        ("Links", marshal_CMLinks (cm_Links r))].

(** ** Documents decode to the record they encode *)

Lemma Aggregate_roundtrip a : Unmarshal Aggregate_type (Text (marshal_Aggregate a)) zeroAggregate = (a, None).
Proof.
  destruct a as [l]. cbn -[dec_strings enc_strings].
  unfold decode_entry, decode_entry_at, on; cbn -[dec_strings enc_strings]. by rewrite dec_enc_strings.
Qed.
Lemma Plugin_roundtrip p : Unmarshal Plugin_type (Text (marshal_Plugin p)) zeroPlugin = (p, None).
Proof.
  destruct p as [ip port user pw id ty auth mg]. cbn -[dec_bytes enc_bytes].
  unfold decode_entry, decode_entry_at, on; cbn -[dec_bytes enc_bytes]. by rewrite dec_enc_bytes.
Qed.
