(* ===== verification/AgModel.v ===== *)
(** svc-aggregation/agmodel/system.go: the functions of the aggregation service on the databases, and
    lib-utilities/common/crypto.go, which decrypts the passwords of the plugins.

    [map_iter] is the order in which a run visits the entries of a map.  A scan of an index that needs
    more rounds than the fuel is not a run of the model, and shows as a panic. *)
From stdpp Require Import base gmap list strings.
From S2P Require Import Prelude Go GoTime GoText GoCodec Response Redis World ConnPool RedisIndex Index Search Http AsModel AgData.
Open Scope string_scope.

Class MapIter : Type := { map_iter : forall A, list (string * A) -> list (string * A) }.
Arguments map_iter {_ A} l.

(** ** crypto.go, on encoding/pem, crypto/x509 and crypto/rsa *)

Class RSA : Type := {
  pem_block : Type;
  private_key : Type;
  RSAPrivateKey : string;                                  (* config.Data.KeyCertConf *)
  pem_Decode : string -> option pem_block;                 (* [None] is the nil block *)
  IsEncryptedPEMBlock : pem_block -> bool;
  block_Bytes : pem_block -> string;
  DecryptPEMBlock : pem_block -> string + string;
  ParsePKCS1PrivateKey : string -> string + private_key;
  DecryptOAEP : private_key -> string -> string + string;
}.
Definition DecryptWithPrivateKey `{RSA} (ciphertext : string) : outcome (string + string) :=
  match pem_Decode RSAPrivateKey with
  | None => Panic
  | Some block =>
      match (if IsEncryptedPEMBlock block then DecryptPEMBlock block else inr (block_Bytes block)) with
      | inl err => Ok (inl ("error while trying to decrypt pem block: " +:+ err))
      | inr b =>
          match ParsePKCS1PrivateKey b with
          | inl err => Ok (inl ("error while parsing private key: " +:+ err))
          | inr key =>
              match DecryptOAEP key ciphertext with
              | inl err => Ok (inl ("error while trying to decrypt password: " +:+ err))
              | inr plainText => Ok (inr plainText)
              end
          end
      end
  end.

(** The other direction draws random numbers, so what it gives depends on the environment.  A public key
    that is not one of RSA gives neither an error nor a text. *)
Class RSAPublic `{Env} : Type := {
  public_block : Type;
  public_key : Type;
  RSAPublicKey : string;
  pem_DecodePublic : string -> option public_block;
  IsEncryptedPublicBlock : public_block -> bool;
  public_Bytes : public_block -> string;
  DecryptPublicBlock : public_block -> string + string;
  ParsePKIXPublicKey : string -> string + option public_key;
  EncryptOAEP : public_key -> string -> env -> string + string;
}.
Definition EncryptWithPublicKey `{RSAPublic} (password : string) : IO (string + option string) :=
  match pem_DecodePublic RSAPublicKey with
  | None => panic
  | Some block =>
      match (if IsEncryptedPublicBlock block then DecryptPublicBlock block else inr (public_Bytes block)) with
      | inl err => ret (inl ("error while trying to decrypt pem block: " +:+ err))
      | inr b =>
          match ParsePKIXPublicKey b with
          | inl err => ret (inl ("error while parsing private key: " +:+ err))
          | inr None => ret (inr None)
          | inr (Some key) =>
              let! w := get in
              ret (match EncryptOAEP key password (w_env w) with
                   | inl err => inl ("error while trying to encrypt password: " +:+ err)
                   | inr ciphertext => inr (Some ciphertext)
                   end)
          end
      end
  end.

(** The schema of the search, which is read from its file at every use. *)
Class SchemaFile : Type := { read_schema : string + jtext }.
Definition dec_nested_entry (acc : gmap string (gmap string string) * mismatch) (kv : string * json)
  : gmap string (gmap string string) * mismatch :=
  let (m, e) := dec_string_map None kv.2 in (<[kv.1 := default ∅ m]> acc.1, first_mismatch acc.2 e).
Definition dec_nested_map : field_decoder (gmap string (gmap string string)) := fun old j =>
  match j with
  | JObj kvs => fold_left dec_nested_entry kvs (old, None)
  | JNull => (∅, None)
  | _ => (old, Some (Mismatch (json_kind j) "map[string]map[string]string"))
  end.
Definition dec_nested_maps := dec_slice "map[string]map[string]string" dec_nested_map ∅.
Definition Schema_type : struct_type Schema := {|
  st_name := "Schema";
  st_fields :=
    [("searchKeys", fun s j => let (x, e) := dec_nested_maps (Some (SearchKeys s)) j in
        ({| SearchKeys := default [] x; ConditionKeys := ConditionKeys s; QueryKeys := QueryKeys s |}, e));
     ("conditionKeys", fun s j => let (x, e) := dec_strings (Some (ConditionKeys s)) j in
        ({| SearchKeys := SearchKeys s; ConditionKeys := default [] x; QueryKeys := QueryKeys s |}, e));
     ("queryKeys", fun s j => let (x, e) := dec_strings (Some (QueryKeys s)) j in
        ({| SearchKeys := SearchKeys s; ConditionKeys := ConditionKeys s; QueryKeys := default [] x |}, e))] |}.
Definition zeroSchema : Schema := {| SearchKeys := []; ConditionKeys := []; QueryKeys := [] |}.

(** A map of strings: [json.Unmarshal(text, &m)]. *)
Definition Unmarshal_map (t : jtext) : string + gmap string string :=
  match t with
  | NotJson _ err => inl err
  | Text j =>
      match dec_string_map None j with
      | (m, None) => inr (default ∅ m)
      | (_, Some (Mismatch kind ty)) => inl ("json: cannot unmarshal " +:+ kind +:+ " into Go value of type " +:+ ty)
      | (_, Some (Inner msg)) => inl msg
      end
  end.

(** [strings.Fields] *)
Fixpoint fields_go (word : string) (s : string) : list string :=
  let close := if String.eqb word "" then [] else [word] in
  match s with
  | EmptyString => close
  | String c s' => if is_space c then (close ++ fields_go "" s')%list else fields_go (word +:+ String c "") s'
  end.
Definition Fields (s : string) : list string := fields_go "" s.
(** [xs[len(xs)-1]] of a slice that is not empty *)
Definition last_part (l : list string) : string := List.last l "".

Section AgModel.
Context `{Env, !IndexEnv, Config, !RSA, !SchemaFile, !MapIter}.
Context (fuel : nat).

(** ** Reading and writing one document *)

Definition decode_as {A} (num : ErrType) (st : struct_type A) (zero : A) (t : jtext) : result A :=
  match Unmarshal st t zero with
  | (a, None) => inr a
  | (_, Some jerr) => inl (PackError num [jerr])
  end.
(** A document of a table; [fail] is what is done to the error of the read. *)
Definition read_record {A} (db : DbType) (table key : string) (fail : Err -> Err) (num : ErrType)
    (st : struct_type A) (zero : A) : IO (result A) :=
  GetDBConnection db ;;;
  let! data := Read db table key in
  match data with
  | inl err => ret (inl (fail err))
  | inr t => ret (decode_as num st zero t)
  end.
(** A document that is a string. *)
Definition read_text (db : DbType) (read : IO (result jtext)) (msg : string) : IO (result string) :=
  GetDBConnection db ;;;
  let! data := read in
  match data with
  | inl err => ret (inl (wrap msg err))
  | inr t => ret (match Unmarshal_string t with
                  | inl errs => inl (PackError UndefinedErrorType [errs])
                  | inr resource => inr resource
                  end)
  end.
Definition create_record (db : DbType) (table key : string) (data : json) : IO (option Err) :=
  GetDBConnection db ;;; ConnPool.Create db table key data.
Definition update_record (db : DbType) (table key : string) (data : json) : IO (option Err) :=
  GetDBConnection db ;;;
  let! r := ConnPool.Update db table key data in
  match r with inl err => ret (Some err) | inr _ => ret None end.
(** Whether there is a document; [None] tells that there is none. *)
Definition read_active (table key : string) : IO (result bool) :=
  GetDBConnection InMemory ;;;
  let! r := Read InMemory table key in
  match r with
  | inl err => if decide (DBKeyNotFound = ErrNo err) then ret (inr false)
               else ret (inl (wrap "error: while trying to fetch active connection details: " err))
  | inr _ => ret (inr true)
  end.
Definition delete_active (table key : string) : IO (option Err) :=
  GetDBConnection InMemory ;;;
  let! err := ConnPool.Delete InMemory table key in
  ret (wrap "error: while trying to delete active connection details: " <$> err).

(** ** The functions, in the order of the file *)

Definition GetResource (Table key : string) : IO (result string) :=
  read_text InMemory (Read InMemory Table key) "error while trying to get resource details: ".
Definition SaveSystem_Create (system : SaveSystem) (systemID : string) : IO (option Err) :=
  create_record OnDisk "System" systemID (marshal_SaveSystem system).

Definition with_Password (pw : option string) (p : Plugin) : Plugin :=
  mkPlugin (pl_IP p) (pl_Port p) (pl_Username p) pw (pl_ID p) (pl_PluginType p) (pl_PreferredAuthType p) (pl_ManagerUUID p).
Definition GetPluginData (pluginID : string) : IO (result Plugin) :=
  let! r := read_record OnDisk "Plugin" pluginID (wrap "error while trying to fetch plugin data: ")
              JSONUnmarshalFailed Plugin_type zeroPlugin in
  match r with
  | inl err => ret (inl err)
  | inr plugin =>
      let! bytepw := lift (DecryptWithPrivateKey (default "" (pl_Password plugin))) in
      match bytepw with
      | inl errs => ret (inl (PackError DecryptionFailed
                       ["error: " +:+ pluginID +:+ " plugin password decryption failed: " +:+ errs]))
      | inr bytepw => ret (inr (with_Password (Some bytepw) plugin))
      end
  end.

Definition GenericSave (body table key : string) : IO (option string) :=
  GetDBConnection InMemory ;;;
  let! err := AddResourceData InMemory table key (JStr body) in
  ret ((fun e => "error while trying to create new " +:+ table +:+ " resource: " +:+ errMsg e) <$> err).
Definition SaveRegistryFile (body table key : string) : IO (option string) :=
  GetDBConnection OnDisk ;;;
  let! err := ConnPool.Create OnDisk table key (JStr body) in
  match err with
  | Some e => if decide (DBKeyAlreadyExist <> ErrNo e)
              then ret (Some ("error while trying to create new " +:+ table +:+ " resource: " +:+ errMsg e))
              else ret None
  | None => ret None
  end.
Definition GetRegistryFile (Table key : string) : IO (result string) :=
  read_text OnDisk (Read OnDisk Table key) "error while trying to get resource details: ".

(** The resource is taken out of one index; that it has no entry there is no error. *)
Definition delete_key (index key : string) : IO (option string) :=
  let! r := Del fuel InMemory index key in
  match r with
  | None => panic
  | Some None => ret None
  | Some (Some delErr) =>
      if String.eqb delErr "no data with ID found" then ret None
      else ret (Some ("error while deleting data: " +:+ delErr))
  end.
Definition delete_keys (indices : list string) (key : string) : IO (option string) :=
  let! r := loopM indices tt (fun _ k =>
    let! err := delete_key k key in
    match err with Some e => ret (inl e) | None => ret (inr tt) end) in
  match r with inl e => ret (Some e) | inr _ => ret None end.
Definition deletefilteredkeys (key : string) : IO (option string) :=
  match read_schema with
  | inl ioErr => ret (Some ("fatal: error while trying to read search/filter schema json: " +:+ ioErr))
  | inr schemaFile =>
      match Unmarshal Schema_type schemaFile zeroSchema with
      | (_, Some jsonErr) => ret (Some ("fatal: error while trying to fetch search/filter schema json: " +:+ jsonErr))
      | (sf, None) =>
          GetDBConnection InMemory ;;;
          let! r := loopM (SearchKeys sf) tt (fun _ value =>
            let! err := delete_keys (map_iter (map_to_list value)).*1 key in
            match err with Some e => ret (inl e) | None => ret (inr tt) end) in
          match r with
          | inl e => ret (Some e)
          | inr _ => delete_keys ["UUID"; "PowerState"; "BMCAddress"] key
          end
      end
  end.

(** The documents of a table whose keys contain the identifier. *)
Definition delete_inventory (table systemID : string) : IO (option Err) :=
  let! r := ConnPool.GetAllMatchingDetails InMemory table systemID in
  match r with
  | inl err => ret (Some (wrap "error while trying to get compute details: " err))
  | inr inventoryData =>
      let! r := loopM inventoryData tt (fun _ value =>
        let! err := ConnPool.Delete InMemory table value in
        match err with
        | Some err => ret (inl (wrap "error while trying to delete compute details: " err))
        | None => ret (inr tt)
        end) in
      match r with inl err => ret (Some err) | inr _ => ret None end
  end.
Definition system_of_key (key : string) : string :=
  hd "" (SplitN2 (last_part (Split key "/")) ".").
Definition DeleteComputeSystem (index : Z) (key : string) : IO (option Err) :=
  GetDBConnection InMemory ;;;
  let! r := Read InMemory "ComputerSystem" key in
  match r with
  | inl err => ret (Some (wrap "error while trying to get compute details: " err))
  | inr _ =>
      let systemID := system_of_key key in
      let! computeData := ConnPool.GetAllMatchingDetails InMemory "ComputerSystem" systemID in
      match computeData with
      | inl err => ret (Some (wrap "error while trying to get ComputerSystem details: " err))
      | inr computeData =>
          let! err := if (length computeData =? 1)%nat then
                        let! err := delete_inventory "FirmwareInventory" systemID in
                        match err with
                        | Some err => ret (Some err)
                        | None => delete_inventory "SoftwareInventory" systemID
                        end
                      else ret None in
          match err with
          | Some err => ret (Some err)
          | None =>
              let! err := DeleteServer InMemory ("*" +:+ systemID +:+ "*") in
              match err with
              | Some err => ret (Some (wrap "error while trying to delete compute system: " err))
              | None =>
                  let! errs := deletefilteredkeys key in
                  ret ((fun e => PackError UndefinedErrorType [e]) <$> errs)
              end
          end
      end
  end.
Definition DeleteSystem (key : string) : IO (option Err) :=
  GetDBConnection OnDisk ;;;
  let! r := Read OnDisk "System" key in
  match r with
  | inl err => ret (Some (wrap "error while trying to get compute details: " err))
  | inr _ =>
      let! err := DeleteServer OnDisk ("System:" +:+ key) in
      ret (wrap "error while trying to delete compute system: " <$> err)
  end.
Definition GetTarget (deviceUUID : string) : IO (string + Target) :=
  let! r := read_record OnDisk "System" deviceUUID (wrap "error while trying to get compute details: ")
              UndefinedErrorType Target_type zeroTarget in
  ret (match r with inl err => inl (errMsg err) | inr target => inr target end).

(** [form[k] = v] *)
Fixpoint form_set (k : string) (v : form_value) (form : list (string * form_value)) : list (string * form_value) :=
  match form with
  | [] => [(k, v)]
  | kv :: form' => if String.eqb kv.1 k then (k, v) :: form' else kv :: form_set k v form'
  end.
Definition SaveIndex (searchForm : list (string * form_value)) (table uuid bmcAddress : string) : IO (option string) :=
  GetDBConnection InMemory ;;;
  let searchForm := form_set "BMCAddress" (FString bmcAddress) (form_set "UUID" (FString uuid) searchForm) in
  let! err := CreateIndex InMemory (map_iter searchForm) table in
  ret ((fun e => "error while trying to index the document: " +:+ e) <$> err).

Definition SavePluginData (plugin : Plugin) : IO (option Err) :=
  let! err := create_record OnDisk "Plugin" (pl_ID plugin) (marshal_Plugin plugin) in
  ret (wrap "error while trying to save plugin data: " <$> err).
Definition GetAllSystems : IO (result (list Target)) :=
  GetDBConnection OnDisk ;;;
  let! keys := GetAllDetails OnDisk "System" in
  match keys with
  | inl err => ret (inl err)
  | inr keys =>
      loopM keys [] (fun targets key =>
        let! targetData := Read OnDisk "System" key in
        match targetData with
        | inl err => ret (inl err)
        | inr t =>
            match decode_as UndefinedErrorType Target_type zeroTarget t with
            | inl err => ret (inl err)
            | inr target => ret (inr (targets ++ [target])%list)
            end
        end)
  end.
Definition Delete (table key : string) (dbtype : DbType) : IO (option Err) :=
  GetDBConnection dbtype ;;; ConnPool.Delete dbtype table key.
Definition DeletePluginData (key : string) : IO (option Err) := Delete "Plugin" key OnDisk.
Definition DeleteManagersData (key : string) : IO (option Err) := Delete "Managers" key InMemory.

Definition UpdateIndex (searchForm : list (string * form_value)) (table uuid bmcAddress : string) : IO (option string) :=
  GetDBConnection InMemory ;;;
  let searchForm := if negb (String.eqb uuid "") then form_set "UUID" (FString uuid) searchForm else searchForm in
  let searchForm := form_set "BMCAddress" (FString bmcAddress) searchForm in
  let! r := UpdateResourceIndex fuel InMemory (map_iter searchForm) table in
  match r with
  | None => panic
  | Some err => ret ((fun e => "error while trying to update index: " +:+ e) <$> err)
  end.
Definition GetResourceDetails (key : string) : IO (result string) :=
  read_text InMemory (ConnPool.GetResourceDetails InMemory key) "error while trying to get resource details: ".
(** An error is printed, and nothing was found. *)
Definition GetString (index match_ : string) : IO (list string) :=
  GetDBConnection InMemory ;;;
  let! r := Index.GetString fuel InMemory index 0 ("*" +:+ match_ +:+ "*") false in
  match r with
  | None => panic
  | Some (inl _) => ret []
  | Some (inr list) => ret list
  end.

Definition AddSystemOperationInfo (system : SystemOperation) (systemID : string) : IO (option Err) :=
  GetDBConnection InMemory ;;;
  AddResourceData InMemory "SystemOperation" systemID (marshal_SystemOperation system).
Definition GetSystemOperationInfo (systemURI : string) : IO (result SystemOperation) :=
  read_record InMemory "SystemOperation" systemURI (wrap "error while trying to fetch system operation data: ")
    JSONUnmarshalFailed SystemOperation_type zeroSystemOperation.
Definition DeleteSystemOperationInfo (systemURI : string) : IO (option Err) :=
  Delete "SystemOperation" systemURI InMemory.
Definition AddSystemResetInfo (systemID resetType : string) : IO (option Err) :=
  GetDBConnection InMemory ;;;
  AddResourceData InMemory "SystemReset" systemID (JObj [("ResetType", JStr resetType)]).
Definition GetSystemResetInfo (systemURI : string) : IO (result (gmap string string)) :=
  GetDBConnection InMemory ;;;
  let! plugindata := Read InMemory "SystemReset" systemURI in
  match plugindata with
  | inl err => ret (inl (wrap "error while trying to fetch system reset data: " err))
  | inr t => ret (match Unmarshal_map t with
                  | inl err => inl (PackError JSONUnmarshalFailed [err])
                  | inr resetInfo => inr resetInfo
                  end)
  end.
Definition DeleteSystemResetInfo (systemURI : string) : IO (option Err) := Delete "SystemReset" systemURI InMemory.

Definition AddAggregationSource (req : AggregationSource) (aggregationSourceURI : string) : IO (option Err) :=
  create_record OnDisk "AggregationSource" aggregationSourceURI (marshal_AggregationSource req).
Definition GetAggregationSourceInfo (aggregationSourceURI : string) : IO (result AggregationSource) :=
  read_record OnDisk "AggregationSource" aggregationSourceURI
    (wrap "error: while trying to fetch Aggregation Source data: ") JSONUnmarshalFailed
    AggregationSource_type zeroAggregationSource.
Definition UpdateSystemData (system : SaveSystem) (key : string) : IO (option Err) :=
  update_record OnDisk "System" key (marshal_SaveSystem system).
Definition UpdatePluginData (plugin : Plugin) (key : string) : IO (option Err) :=
  update_record OnDisk "Plugin" key (marshal_Plugin plugin).
Definition UpdateAggregtionSource (aggregationSource : AggregationSource) (key : string) : IO (option Err) :=
  update_record OnDisk "AggregationSource" key (marshal_AggregationSource aggregationSource).
Definition GetAllMatchingDetails (table pattern : string) (dbtype : DbType) : IO (result (list string)) :=
  GetDBConnection dbtype ;;; ConnPool.GetAllMatchingDetails dbtype table pattern.
Definition DeleteAggregationSource (aggregtionSourceURI : string) : IO (option Err) :=
  Delete "AggregationSource" aggregtionSourceURI OnDisk.
Definition GetComputerSystem (systemid : string) : IO (result string) :=
  read_text InMemory (Read InMemory "ComputerSystem" systemid) "error while trying to get system details: ".

Definition CreateAggregate (aggregate : Aggregate) (aggregateURI : string) : IO (option Err) :=
  let! err := create_record OnDisk "Aggregate" aggregateURI (marshal_Aggregate aggregate) in
  ret (wrap "error while trying to create aggregate: " <$> err).
(** With an error comes what was decoded until then. *)
Definition GetAggregate (aggregateURI : string) : IO (Aggregate * option Err) :=
  GetDBConnection OnDisk ;;;
  let! data := Read OnDisk "Aggregate" aggregateURI in
  match data with
  | inl err => ret (zeroAggregate, Some (wrap "error: while trying to fetch connection method data: " err))
  | inr t =>
      match Unmarshal Aggregate_type t zeroAggregate with
      | (aggregate, Some jerr) => ret (aggregate, Some (PackError JSONUnmarshalFailed [jerr]))
      | (aggregate, None) => ret (aggregate, None)
      end
  end.
Definition DeleteAggregate (key : string) : IO (option Err) := Delete "Aggregate" key OnDisk.
Definition GetAllKeysFromTable (table : string) : IO (string + list string) :=
  GetDBConnection OnDisk ;;;
  let! keysArray := GetAllDetails OnDisk table in
  match keysArray with
  | inl err => ret (inl ("error while trying to get all keys from table - " +:+ table +:+ ": " +:+ errMsg err))
  | inr keysArray => ret (inr keysArray)
  end.

(** [append] of nothing to a nil slice is nil. *)
Definition append_elements (a b : slice string) : slice string :=
  match a, items b with None, [] => None | _, l => Some (items a ++ l)%list end.
Definition AddElementsToAggregate (aggregate : Aggregate) (aggregateURL : string) : IO (option Err) :=
  GetDBConnection OnDisk ;;;
  let! (agg, err) := GetAggregate aggregateURL in
  match err with
  | Some err => ret (Some err)
  | None =>
      let aggregate := mkAggregate (append_elements (ag_Elements aggregate) (ag_Elements agg)) in
      let! r := ConnPool.Update OnDisk "Aggregate" aggregateURL (marshal_Aggregate aggregate) in
      match r with inl err => ret (Some err) | inr _ => ret None end
  end.

(** Whether an element is met between [front] and [rear], which move towards each other. *)
Fixpoint two_ended (fuel : nat) (element : string) (l : list string) (front rear : Z) : bool :=
  match fuel with
  | O => false
  | S fuel =>
      if (front <=? rear)%Z then
        (String.eqb (nth (Z.to_nat front) l "") element || String.eqb (nth (Z.to_nat rear) l "") element)
        || two_ended fuel element l (front + 1) (rear - 1)
      else false
  end.
Definition found_in (element : string) (l : list string) : bool :=
  two_ended (length l) element l 0 (Z.of_nat (length l) - 1).
(** [present] is declared before the loop, and is not set back. *)
Fixpoint remove_go (present : bool) (requestElements presentElements : list string) : list string :=
  match presentElements with
  | [] => []
  | presentElement :: rest =>
      let present := present || found_in presentElement requestElements in
      if negb present then presentElement :: remove_go present requestElements rest
      else remove_go present requestElements rest
  end.
Definition removeElements (requestElements presentElements : list string) : list string :=
  remove_go false requestElements presentElements.
Definition RemoveElementsFromAggregate (aggregate : Aggregate) (aggregateURL : string) : IO (option Err) :=
  GetDBConnection OnDisk ;;;
  let! (agg, err) := GetAggregate aggregateURL in
  match err with
  | Some err => ret (Some err)
  | None =>
      let aggregate := mkAggregate (Some (removeElements (items (ag_Elements aggregate)) (items (ag_Elements agg)))) in
      let! r := ConnPool.Update OnDisk "Aggregate" aggregateURL (marshal_Aggregate aggregate) in
      match r with inl err => ret (Some err) | inr _ => ret None end
  end.

Definition AddConnectionMethod (connectionMethod : ConnectionMethod) (connectionMethodURI : string) : IO (option Err) :=
  let! err := create_record OnDisk "ConnectionMethod" connectionMethodURI (marshal_ConnectionMethod connectionMethod) in
  ret (wrap "error while trying to create aggregate: " <$> err).
Definition GetConnectionMethod (connectionMethodURI : string) : IO (result ConnectionMethod) :=
  read_record OnDisk "ConnectionMethod" connectionMethodURI
    (wrap "error: while trying to fetch connection method data: ") JSONUnmarshalFailed
    ConnectionMethod_type zeroConnectionMethod.
Definition UpdateConnectionMethod (connectionMethod : ConnectionMethod) (key : string) : IO (option Err) :=
  update_record OnDisk "ConnectionMethod" key (marshal_ConnectionMethod connectionMethod).

Definition CheckActiveRequest (key : string) : IO (result bool) := read_active "ActiveAddBMCRequest" key.
Definition DeleteActiveRequest (key : string) : IO (option Err) := delete_active "ActiveAddBMCRequest" key.
Definition SavePluginManagerInfo (body table key : string) : IO (option string) :=
  GetDBConnection InMemory ;;;
  let! err := ConnPool.Create InMemory table key (JStr body) in
  ret ((fun e => errMsg (wrap "Unable to save the plugin data with SavePluginManagerInfo:  duplicate UUID: " e)) <$> err).

(** common.DeviceSubscription *)
Record DeviceSubscription := mkDeviceSubscription {
  ds_EventHostIP : string;
  ds_Location : string;
  ds_OriginResources : list string;
}.
Definition getSliceFromString (sliceString : string) : list string :=
  let sliceString := TrimSuffix (TrimPrefix sliceString "[") "]" in
  if (String.length sliceString <? 1)%nat then [] else Fields sliceString.
(** The entry of an index read back. *)
Definition device_entry (entry : string) : outcome DeviceSubscription :=
  let devSub := Split entry "::" in
  obind (index devSub 0) (fun host => obind (index devSub 1) (fun location => obind (index devSub 2) (fun origins =>
    Ok (mkDeviceSubscription host location (getSliceFromString origins))))).
Definition GetDeviceSubscriptions (hostIP : string) : IO (string + DeviceSubscription) :=
  GetDBConnection OnDisk ;;;
  let! devSubscription := GetDeviceSubscription OnDisk "DeviceSubscription" (hostIP +:+ "*") in
  match devSubscription with
  | inl gerr => ret (inl ("error while trying to get device subscription details: " +:+ gerr))
  | inr devSubscription =>
      let! entry := lift (index devSubscription 0) in
      let! d := lift (device_entry entry) in ret (inr d)
  end.
Definition GetEventSubscriptions (key : string) : IO (string + list string) :=
  GetDBConnection OnDisk ;;;
  let! r := GetEvtSubscriptions fuel OnDisk "Subscription" ("*" +:+ key +:+ "*") in
  match r with
  | None => panic
  | Some (inl gerr) => ret (inl ("error while trying to get event subsciption details: " +:+ gerr))
  | Some (inr subscriptions) => ret (inr subscriptions)
  end.
Definition UpdateDeviceSubscription (devSubscription : DeviceSubscription) : IO (option string) :=
  GetDBConnection OnDisk ;;;
  let! err := Index.UpdateDeviceSubscription OnDisk "DeviceSubscription" (ds_EventHostIP devSubscription)
                (ds_Location devSubscription) (ds_OriginResources devSubscription) in
  ret ((fun e => "error while trying to update subscription of device " +:+ e) <$> err).

Definition CheckMetricRequest (key : string) : IO (result bool) := read_active "ActiveMetricRequest" key.
Definition DeleteMetricRequest (key : string) : IO (option Err) := delete_active "ActiveMetricRequest" key.
End AgModel.
