(* ===== verification/Aggregates.v ===== *)
(** svc-aggregation/system: the handlers of the aggregates (aggregate.go), of the connection methods
    (connectionmethods.go) and of the collection of aggregation sources (get_resource.go).

    The bytes of a request body are given twice: as the JSON document they are, and as the text that is
    copied into error messages. *)
From stdpp Require Import base gmap list strings.
From S2P Require Import Prelude Go GoTime GoText GoCodec Response Redis World ConnPool RedisIndex Index Search Http AsModel Session AgData AgModel.
Open Scope string_scope.

(** aggregatorproto.AggregatorRequest *)
Record AggregatorRequest := {
  ar_SessionToken : string;
  ar_RequestBody : jtext;
  ar_RequestText : string;
  ar_URL : string;
}.

(** The bodies of agresponse. *)
Inductive agBody : Type :=
(** AggregateResponse *)
| AggregateBody (r : Response) (elements : slice string)
(** List *)
| AgListBody (r : Response) (membersCount : Z) (members : list string)
(** ConnectionMethodResponse *)
| ConnectionMethodBody (r : Response) (ty variant : string) (links : CMLinks)
(** AggregationSourceResponse; the fields that are never set are left out *)
| AggregationSourceBody (r : Response) (hostName userName : string) (links : json)
(** AggregationServiceResponse: what is not fixed *)
| AggregationServiceBody (enabled : bool) (state : string)
(** the generic part alone, of a task that was started *)
| AgTaskBody (r : Response)
(** a class of errors that is not wrapped *)
| AgErrorClass (e : ErrorClass).
Abbreviation agRPC := (RPC agBody).

Definition aggregatesURI := "/redfish/v1/AggregationService/Aggregates".
Definition AggregateType := "#Aggregate.v1_0_1.Aggregate".
Definition AggregateContext := "/redfish/v1/$metadata#Aggregate.Aggregate".
(** [fmt.Sprintf("%v", aggregate)] *)
Definition show_aggregate (a : Aggregate) : string := "{" +:+ bracketed (items (ag_Elements a)) +:+ "}".

Section Aggregates.
Context `{Env, Config}.

(** ** The checks of the elements *)

Fixpoint duplicate_in (duplicate : gset string) (elements : list string) : bool :=
  match elements with
  | [] => false
  | element :: rest =>
      if decide (element ∈ duplicate) then true else duplicate_in ({[element]} ∪ duplicate) rest
  end.
Definition checkDuplicateElements (elements : list string) : bool := duplicate_in ∅ elements.

(** The status and the text of the error. *)
Definition validateElements (elements : list string) : IO (Z * option string) :=
  if checkDuplicateElements elements then ret (StatusBadRequest, Some "Duplicate elements present")
  else
    let! r := loopM elements tt (fun _ element =>
      let! system := GetComputerSystem element in
      match system with
      | inl err => ret (inl (errMsg err))
      | inr _ => ret (inr tt)
      end) in
    match r with
    | inl err => ret (StatusNotFound, Some err)
    | inr _ => ret (StatusOK, None)
    end.

Definition checkElementsPresent (requestElements presentElements : list string) : bool :=
  existsb (fun element => found_in element presentElements) requestElements.
Definition checkRemovingElementsPresent (requestElements presentElements : list string) : bool :=
  forallb (fun element => found_in element presentElements) requestElements.

(** ** Answers *)

Definition aggregateResponse (uri id : string) : Response :=
  mkResponse AggregateType uri AggregateContext id "Aggregate".
(** An aggregate as it is shown. *)
Definition aggregateRPC (code : Z) (message st : string) (hdr : list (string * string)) (uri id : string)
    (elements : slice string) : outcome agRPC :=
  obind (CreateGenericResponse (aggregateResponse uri id) st) (fun commonResponse =>
    Ok (mkRPC code message hdr (Body (AggregateBody commonResponse elements)))).
(** A resource that could not be read. *)
Definition notRead (kind uri : string) (err : Err) : outcome agRPC :=
  if decide (DBKeyNotFound = ErrNo err)
  then GeneralError StatusNotFound ResourceNotFound (errMsg err) [IString kind; IString uri]
  else GeneralError StatusInternalServerError InternalError (errMsg err) [].
Definition emptyRequest : outcome agRPC :=
  GeneralError StatusBadRequest PropertyMissing "empty request can not be processed" [IString "Elements"].
Definition noURI : outcome agRPC :=
  GeneralError StatusBadRequest PropertyMissing "request uri is not provided" [IString "request uri"].
Definition badRequest (jerr : string) : outcome agRPC :=
  GeneralError StatusBadRequest MalformedJSON ("unable to parse the create request" +:+ jerr) [].
Definition notWritten (dbErr : Err) : outcome agRPC :=
  GeneralError StatusInternalServerError InternalError (errMsg dbErr) [].
Definition elementsEmpty (a : Aggregate) : bool :=
  match ag_Elements a with None | Some [] => true | Some _ => false end.
(** The identifier in the URI of an action on an aggregate: [strings.Split(url[1], "/")[0]]. *)
Definition aggregate_id (URL : string) : outcome string :=
  obind (index (Split URL (aggregatesURI +:+ "/")) 1) (fun rest => index (Split rest "/") 0).

(** ** aggregate.go *)

Definition CreateAggregate (req : AggregatorRequest) : IO agRPC :=
  match Unmarshal Aggregate_type (ar_RequestBody req) zeroAggregate with
  | (_, Some err) => lift (badRequest err)
  | (createRequest, None) =>
      if is_nil (ag_Elements createRequest) then lift emptyRequest
      else
        let elements := items (ag_Elements createRequest) in
        let! (statuscode, err) := validateElements elements in
        match err with
        | Some err =>
            lift (GeneralError statuscode ResourceNotFound ("invalid elements for create an aggregate" +:+ err)
                    [IString "Elements"; IString (ar_RequestText req)])
        | None =>
            let! aggregateUUID := NewV4 in
            let aggregateURI := aggregatesURI +:+ "/" +:+ aggregateUUID in
            let! dbErr := AgModel.CreateAggregate createRequest aggregateURI in
            match dbErr with
            | Some dbErr => lift (notWritten dbErr)
            | None =>
                lift (aggregateRPC StatusCreated "" Created
                        [("Link", "<" +:+ aggregateURI +:+ "/>; rel=describedby"); ("Location", aggregateURI)]
                        aggregateURI aggregateUUID (ag_Elements createRequest))
            end
        end
  end.

(** A collection of all keys of a table. *)
Definition collection (table : string) (commonResponse : outcome Response) : IO agRPC :=
  let! keys := GetAllKeysFromTable table in
  match keys with
  | inl err => lift (GeneralError StatusServiceUnavailable CouldNotEstablishConnection err [IString (db_uri OnDisk)])
  | inr keys =>
      let! commonResponse := lift commonResponse in
      ret (mkRPC StatusOK Success [] (Body (AgListBody commonResponse (Z.of_nat (length keys)) keys)))
  end.
Definition with_Description (d : string) (r : Response) : Response :=
  {| OdataType := OdataType r; OdataID := OdataID r; OdataContext := OdataContext r;
     Description := d; ID := ID r; Name := Name r; Message := Message r; MessageID := MessageID r;
     MessageArgs := MessageArgs r; NumberOfArgs := NumberOfArgs r; Severity := Severity r;
     Resolution := Resolution r |}.
Definition GetAllAggregates (req : AggregatorRequest) : IO agRPC :=
  collection "Aggregate" (Ok (with_Description "Aggregate collection view"
    (mkResponse "#AggregateCollection.AggregateCollection" aggregatesURI
       "/redfish/v1/$metadata#AggregateCollection.AggregateCollection" "" "Aggregate"))).

Definition GetAggregate (req : AggregatorRequest) : IO agRPC :=
  let! (aggregate, err) := AgModel.GetAggregate (ar_URL req) in
  match err with
  | Some err => lift (notRead "Aggregate" (ar_URL req) err)
  | None =>
      let! id := lift (index (Split (ar_URL req) (aggregatesURI +:+ "/")) 1) in
      lift (aggregateRPC StatusOK Success Success [] (ar_URL req) id (ag_Elements aggregate))
  end.

Definition DeleteAggregate (req : AggregatorRequest) : IO agRPC :=
  let! (_, err) := AgModel.GetAggregate (ar_URL req) in
  match err with
  | Some err => lift (notRead "Aggregate" (ar_URL req) err)
  | None =>
      let! err := AgModel.DeleteAggregate (ar_URL req) in
      match err with
      | Some err => lift (notRead "Aggregate" (ar_URL req) err)
      | None => ret (mkRPC StatusNoContent "" [] NoBody)
      end
  end.

(** The aggregate after a change; an error of reading it is not looked at. *)
Definition changedAggregate (aggregateURL aggregateID : string) : IO agRPC :=
  let! (aggregate, _) := AgModel.GetAggregate aggregateURL in
  lift (aggregateRPC StatusOK "" Success [("Link", "<" +:+ aggregateURL +:+ "/>; rel=describedby")]
          aggregateURL aggregateID (ag_Elements aggregate)).

Definition AddElementsToAggregate (req : AggregatorRequest) : IO agRPC :=
  match Unmarshal Aggregate_type (ar_RequestBody req) zeroAggregate with
  | (_, Some err) => lift (badRequest err)
  | (addRequest, None) =>
      if elementsEmpty addRequest then lift emptyRequest
      else
        let! (statuscode, err) := validateElements (items (ag_Elements addRequest)) in
        match err with
        | Some err =>
            lift (GeneralError statuscode ResourceNotFound ("invalid elements for create an aggregate" +:+ err)
                    [IString "Elements"; IString (show_aggregate addRequest)])
        | None =>
            if String.eqb (ar_URL req) "" then lift noURI
            else
              let! aggregateID := lift (aggregate_id (ar_URL req)) in
              let aggregateURL := aggregatesURI +:+ "/" +:+ aggregateID in
              let! (aggregate, err1) := AgModel.GetAggregate aggregateURL in
              match err1 with
              | Some err1 => lift (notRead "Aggregate" aggregateURL err1)
              | None =>
                  if checkElementsPresent (items (ag_Elements addRequest)) (items (ag_Elements aggregate)) then
                    lift (GeneralError StatusConflict ResourceAlreadyExists "Elements present in aggregate"
                            [IString "AddElements"; IString "Elements";
                             IString (bracketed (items (ag_Elements addRequest)))])
                  else
                    let! dbErr := AgModel.AddElementsToAggregate addRequest aggregateURL in
                    match dbErr with
                    | Some dbErr => lift (notWritten dbErr)
                    | None => changedAggregate aggregateURL aggregateID
                    end
              end
        end
  end.

(** The error of reading the aggregate is not looked at: the variable that is compared with nil is the
    one of the decoder. *)
Definition RemoveElementsFromAggregate (req : AggregatorRequest) : IO agRPC :=
  match Unmarshal Aggregate_type (ar_RequestBody req) zeroAggregate with
  | (_, Some err) => lift (badRequest err)
  | (removeRequest, None) =>
      let elements := items (ag_Elements removeRequest) in
      if elementsEmpty removeRequest then lift emptyRequest
      else if String.eqb (ar_URL req) "" then lift noURI
      else if checkDuplicateElements elements then
        lift (GeneralError StatusBadRequest ResourceCannotBeDeleted "duplicate elements present" [])
      else
        let! aggregateID := lift (aggregate_id (ar_URL req)) in
        let aggregateURL := aggregatesURI +:+ "/" +:+ aggregateID in
        let! (aggregate, _) := AgModel.GetAggregate aggregateURL in
        if negb (checkRemovingElementsPresent elements (items (ag_Elements aggregate))) then
          lift (GeneralError StatusNotFound ResourceNotFound "Elements not present in aggregate"
                  [IString "Elements"; IString (bracketed elements)])
        else
          let! dbErr := AgModel.RemoveElementsFromAggregate removeRequest aggregateURL in
          match dbErr with
          | Some dbErr => lift (notWritten dbErr)
          | None => changedAggregate aggregateURL aggregateID
          end
  end.

(** ** connectionmethods.go *)

Definition connectionMethodsURI := "/redfish/v1/AggregationService/ConnectionMethods".
Definition GetAllConnectionMethods (req : AggregatorRequest) : IO agRPC :=
  collection "ConnectionMethod" (Ok
    (mkResponse "#ConnectionMethodCollection.ConnectionMethodCollection" connectionMethodsURI
       "/redfish/v1/$metadata#ConnectionMethodCollection.ConnectionMethodCollection" "" "Connection Methods")).
Definition GetConnectionMethodInfo (req : AggregatorRequest) : IO agRPC :=
  let! connectionmethod := GetConnectionMethod (ar_URL req) in
  match connectionmethod with
  | inl err => lift (notRead "ConnectionMethod" (ar_URL req) err)
  | inr connectionmethod =>
      let! id := lift (index (Split (ar_URL req) (connectionMethodsURI +:+ "/")) 1) in
      let commonResponse := mkResponse "#ConnectionMethod.v1_0_0.ConnectionMethod" (ar_URL req)
        "/redfish/v1/$metadata#ConnectionMethod.v1_0_0.ConnectionMethod" id "Connection Method" in
      let links := cm_Links connectionmethod in
      let links := if (length (items (ln_AggregationSources links)) =? 0)%nat then mkCMLinks (Some []) else links in
      ret (mkRPC StatusOK Success []
             (Body (ConnectionMethodBody commonResponse (cm_ConnectionMethodType connectionmethod)
                      (cm_ConnectionMethodVariant connectionmethod) links)))
  end.

(** ** get_resource.go *)

Definition aggregationSourcesURI := "/redfish/v1/AggregationService/AggregationSources".
Definition GetAggregationSourceCollection : IO agRPC :=
  collection "AggregationSource"
    (obind (CreateGenericResponse
       (mkResponse "#AggregationSourceCollection.AggregationSourceCollection" aggregationSourcesURI
          "/redfish/v1/$metadata#AggregationSourceCollection.AggregationSourceCollection" "" "Aggregation Source")
       Success) (fun r => Ok (blank_message r))).

(** [m[k]] of an [interface{}] that must be a map, a missing key is nil; and a type assertion to
    string.  A value of another type panics. *)
Definition member (j : json) (k : string) : outcome json :=
  match j with
  | JObj kvs => Ok (match List.find (fun kv => String.eqb kv.1 k) kvs with Some kv => kv.2 | None => JNull end)
  | _ => Panic
  end.
Definition as_string (j : json) : outcome string := match j with JStr s => Ok s | _ => Panic end.
Definition GetAggregationSource (reqURI : string) : IO agRPC :=
  let! aggregationSource := GetAggregationSourceInfo reqURI in
  match aggregationSource with
  | inl err => lift (notRead "AggregationSource" reqURI err)
  | inr aggregationSource =>
      let! connectionMethodLink := lift (member (as_Links aggregationSource) "ConnectionMethod") in
      let! oid := lift (member connectionMethodLink "@odata.id") in
      let! connectionMethodOdataID := lift (as_string oid) in
      let! connectionMethod := GetConnectionMethod connectionMethodOdataID in
      match connectionMethod with
      | inl err => lift (notRead "ConnectionMethod" connectionMethodOdataID err)
      | inr connectionMethod =>
          let name := cm_ConnectionMethodType connectionMethod +:+ "-" +:+ as_HostName aggregationSource in
          let! id := lift (index (Split reqURI (aggregationSourcesURI +:+ "/")) 1) in
          let! commonResponse := lift (CreateGenericResponse
            (mkResponse "#AggregationSource.v1_1_0.AggregationSource" reqURI
               "/redfish/v1/$metadata#AggregationSource.AggregationSource" id name) Success) in
          ret (mkRPC StatusOK Success []
                 (Body (AggregationSourceBody (blank_message commonResponse) (as_HostName aggregationSource)
                          (as_UserName aggregationSource) (as_Links aggregationSource))))
      end
  end.
End Aggregates.
