(* ===== verification/AgSpec.v ===== *)
(** What the functions of [AgModel] that the handlers of the aggregates use promise, the lists of
    elements, the aggregates of the on-disk database as a map, and what each request does to it. *)
From stdpp Require Import base gmap sets list strings.
From S2P Require Import Prelude Go GoTime GoText Response Redis World ConnPool DBSpec AsModel AsSpec ResponseProps RedisIndex Index Search SearchProps AgData AgModel Aggregates.
Open Scope string_scope.

(** ** Lists of elements *)

(** The two ends meet every element. *)
Lemma two_ended_spec n e l f r : (0 <= f)%Z -> (r < Z.of_nat (length l))%Z -> (r - f < Z.of_nat n)%Z ->
  two_ended n e l f r = true <-> exists i, (f <= i <= r)%Z /\ l !! Z.to_nat i = Some e.
Proof.
  assert (Hnth : forall i, (0 <= i < Z.of_nat (length l))%Z -> nth (Z.to_nat i) l "" = e <-> l !! Z.to_nat i = Some e).
  { intros i Hi. destruct (lookup_lt_is_Some_2 l (Z.to_nat i)) as [x Hx]; [lia|].
    rewrite (nth_lookup_Some _ _ "" _ Hx), Hx. naive_solver. }
  revert f r. induction n as [|n IH]; intros f r Hf Hr Hn; cbn [two_ended].
  { split; [done|]. intros (i & Hi & _). lia. }
  destruct (Z.leb_spec f r) as [Hle|Hgt]; [|split; [done|intros (i & Hi & _); lia]].
  rewrite !orb_true_iff, !String.eqb_eq, !Hnth, IH by lia. split.
  - intros [[H|H]|(i & Hi & H)]; [exists f|exists r|exists i]; (split; [lia|done]).
  - intros (i & Hi & H). destruct (decide (i = f)) as [->|]; [by left; left|].
    destruct (decide (i = r)) as [->|]; [by left; right|]. right. exists i. split; [lia|done].
Qed.
Lemma found_in_spec e l : found_in e l = true <-> e ∈ l.
Proof.
  unfold found_in. rewrite two_ended_spec, list_elem_of_lookup by lia. split.
  - intros (i & _ & H). by eexists.
  - intros [i H]. exists (Z.of_nat i). rewrite Nat2Z.id. split; [|done]. apply lookup_lt_Some in H. lia.
Qed.

Lemma duplicate_in_spec seen l :
  duplicate_in seen l = false <-> NoDup l /\ forall e, e ∈ l -> e ∉ seen.
Proof.
  revert seen. induction l as [|e l IH]; intros seen; cbn [duplicate_in].
  - split; [intros _; split; [constructor|set_solver]|done].
  - destruct (decide (e ∈ seen)) as [Hin|Hin]; [set_solver|]. rewrite IH, NoDup_cons. set_solver.
Qed.
Lemma checkDuplicateElements_spec l : checkDuplicateElements l = false <-> NoDup l.
Proof. unfold checkDuplicateElements. rewrite duplicate_in_spec. set_solver. Qed.
Lemma checkElementsPresent_spec req pres :
  checkElementsPresent req pres = false <-> forall e, e ∈ req -> e ∉ pres.
Proof.
  unfold checkElementsPresent. rewrite <- not_true_iff_false, existsb_In. setoid_rewrite found_in_spec.
  setoid_rewrite <- list_elem_of_In. naive_solver.
Qed.
Lemma checkRemovingElementsPresent_spec req pres :
  checkRemovingElementsPresent req pres = true <-> forall e, e ∈ req -> e ∈ pres.
Proof.
  unfold checkRemovingElementsPresent. rewrite forallb_forall. setoid_rewrite found_in_spec.
  by setoid_rewrite <- list_elem_of_In.
Qed.

(** What is left of a list before the first element with a property. *)
Fixpoint until {A} (P : A -> Prop) `{!forall a, Decision (P a)} (l : list A) : list A :=
  match l with
  | [] => []
  | a :: l' => if decide (P a) then [] else a :: until P l'
  end.
Lemma until_prefix {A} (P : A -> Prop) `{!forall a, Decision (P a)} l : until P l `prefix_of` l.
Proof.
  induction l as [|a l IH]; cbn; [done|]. destruct (decide (P a)); [apply prefix_nil|by apply prefix_cons].
Qed.
(** What stands before the first element with a property is the rest of the list without them exactly
    when they are at its end. *)
Lemma until_filter (P : string -> Prop) `{!forall a, Decision (P a)} l :
  until P l = filter (fun e => ~ P e) l <-> Forall P (skipn (length (until P l)) l).
Proof.
  induction l as [|e l IH]; [by split|]. cbn [until]. rewrite filter_cons.
  destruct (decide (P e)) as [Hp|Hp]; cbn [length skipn].
  - rewrite decide_False by auto. split.
    + intros Hf. constructor; [done|]. apply Forall_forall. intros x Hx.
      destruct (decide (P x)) as [|Hn]; [done|]. exfalso. symmetry in Hf.
      by apply (filter_nil_not_elem_of _ _ x Hf Hn).
    + intros [_ Hf]%Forall_cons. symmetry. clear IH. induction Hf as [|x k Hx _ IHk]; [done|].
      rewrite filter_cons, decide_False by auto. done.
  - rewrite decide_True by done. rewrite <- IH. split; [by intros [= ->]|by intros ->].
Qed.

Lemma remove_go_present req l : remove_go true req l = [].
Proof. by induction l. Qed.
Lemma removeElements_until req l : removeElements req l = until (fun e => e ∈ req) l.
Proof.
  unfold removeElements. induction l as [|e l IH]; cbn; [done|].
  destruct (found_in e req) eqn:E; cbn.
  - rewrite remove_go_present, decide_True; [done|by apply found_in_spec].
  - rewrite IH, decide_False; [done|]. rewrite <- found_in_spec. congruence.
Qed.

Lemma prefix_NoDup {A} (l l' : list A) : l `prefix_of` l' -> NoDup l' -> NoDup l.
Proof. intros [k ->]. rewrite NoDup_app. by intros [? _]. Qed.

(** ** The records of the two databases *)

Definition aggregate_key (uri : string) := saveID "Aggregate" uri.
Definition system_key (uri : string) := saveID "ComputerSystem" uri.
Definition aggregate_doc (l : slice string) : jtext := Text (marshal_Aggregate (mkAggregate l)).
Definition aggregate_in (m : gmap string jtext) (uri : string) : option Aggregate :=
  stored Aggregate_type zeroAggregate m (aggregate_key uri).
(** A system of the inventory. *)
Definition system_in (m : gmap string jtext) (uri : string) : Prop :=
  exists t s, m !! system_key uri = Some t /\ Unmarshal_string t = inr s.

Section agspec.
Context `{EnvLaws, SingleNode}.
Implicit Types (w : World).

Lemma wp_GetAggregate uri w : wf w ->
  wp (AgModel.GetAggregate uri) (fun o w' => ro w w' /\
    match o with
    | Ok (a, None) => aggregate_in (view w OnDisk) uri = Some a
    | Ok (a, Some e) => aggregate_in (view w OnDisk) uri = None \/
                        (a = zeroAggregate /\ ErrNo e <> DBKeyNotFound /\ ~ healthy w)
    | Panic => False
    end /\
    match o with
    | Ok (a, Some e) => if decide (ErrNo e = DBKeyNotFound) then view w OnDisk !! aggregate_key uri = None
                        else view w OnDisk !! aggregate_key uri <> None \/ ~ healthy w
    | _ => True
    end) w.
Proof.
  intros Hwf. unfold AgModel.GetAggregate. wp_call wp_GetDBConnection; [done|]. intros o w1 (-> & Hro & Hrd). wp_go.
  eapply wp_mono; [apply wp_Read; [apply Hro|done]|].
  intros [[e|t]|] w2 [Hro' Hp]; [| |done]; wp_go; simpl in Hp; rewrite ?(ro_view _ _ _ Hro) in Hp.
  - split; [by eapply ro_trans|]. unfold aggregate_in, stored, aggregate_key. unfold wrap. change (ErrNo (PackError (ErrNo e) _)) with (ErrNo e).
    destruct Hp as [[Hn Hp]|[Hn Hh]]; split.
    + left. by rewrite Hp.
    + by rewrite decide_True.
    + right. split_and!; [done|done|by eapply unhealthy_ro].
    + rewrite decide_False by done. right. by eapply unhealthy_ro.
  - assert (Ht : aggregate_in (view w OnDisk) uri =
        match Unmarshal Aggregate_type t zeroAggregate with (a, None) => Some a | _ => None end).
    { unfold aggregate_in, stored, aggregate_key. by rewrite Hp. }
    destruct (Unmarshal Aggregate_type t zeroAggregate) as [a [jerr|]] eqn:Eu; wp_go; rewrite Ht;
      (split; [by eapply ro_trans|]); split; try done; [by left|].
    rewrite decide_False by done. left. unfold aggregate_key. by rewrite Hp.
Qed.

Lemma wp_GetComputerSystem uri w : wf w ->
  wp (GetComputerSystem uri) (fun o w' => ro w w' /\
    match o with
    | Ok (inr _) => system_in (view w InMemory) uri
    | Ok (inl e) => ~ system_in (view w InMemory) uri \/ ~ healthy w
    | Panic => False
    end) w.
Proof.
  intros Hwf. unfold GetComputerSystem, read_text. wp_call wp_GetDBConnection; [done|].
  intros o w1 (-> & Hro & Hrd). wp_go. eapply wp_mono; [apply wp_Read; [apply Hro|done]|].
  intros [[e|t]|] w2 [Hro' Hp]; [| |done]; wp_go; simpl in Hp; rewrite ?(ro_view _ _ _ Hro) in Hp;
    (split; [by eapply ro_trans|]).
  - destruct Hp as [[_ Hp]|[_ Hh]]; [left|right; by eapply unhealthy_ro]. intros (t & s & Ht & _).
    unfold system_key in Ht. congruence.
  - destruct (Unmarshal_string t) as [err|s] eqn:Eu.
    + left. intros (t' & s & Ht & Hs). unfold system_key in Ht. congruence.
    + by exists t, s.
Qed.

(** The elements a request may name: no one twice, each a system. *)
Definition valid_elements (mem : gmap string jtext) (l : list string) : Prop :=
  NoDup l /\ Forall (system_in mem) l.

Lemma wp_validateElements l w : wf w ->
  wp (validateElements l) (fun o w' => ro w w' /\
    match o with
    | Ok (_, None) => valid_elements (view w InMemory) l
    | Ok (code, Some _) => (code = StatusBadRequest /\ ~ NoDup l) \/
        (code = StatusNotFound /\ NoDup l /\ (~ Forall (system_in (view w InMemory)) l \/ ~ healthy w))
    | Panic => False
    end) w.
Proof.
  intros Hwf. unfold validateElements. destruct (checkDuplicateElements l) eqn:Ed.
  { apply wp_ret. split; [by apply ro_refl|]. left. split; [done|]. rewrite <- checkDuplicateElements_spec. congruence. }
  apply checkDuplicateElements_spec in Ed. wp_go.
  eapply (wp_loopM (fun done _ w' => ro w w' /\ Forall (system_in (view w InMemory)) done)).
  - split; [by apply ro_refl|constructor].
  - intros pre e [] w1 [post ->] [Hro Hf]. apply wp_bind. eapply wp_mono; [apply wp_GetComputerSystem; apply Hro|].
    intros [[err|s]|] w2 [Hro' Hp]; [| |done]; wp_go; rewrite ?(ro_view _ _ _ Hro) in Hp.
    + split; [by eapply ro_trans|]. right. split_and!; [done|done|]. destruct Hp as [Hp|Hp].
      * left. rewrite Forall_app, Forall_cons. naive_solver.
      * right. by eapply unhealthy_ro.
    + split; [by eapply ro_trans|]. apply Forall_app. split; [done|by repeat constructor].
  - intros [] w1 [Hro Hf]. wp_go. split; [done|by split].
Qed.

Lemma wp_CreateAggregate a uri w : wf w ->
  wp (AgModel.CreateAggregate a uri) (create_post w OnDisk (aggregate_key uri) (Text (marshal_Aggregate a))) w.
Proof.
  intros Hwf. unfold AgModel.CreateAggregate, create_record.
  eapply wp_bind, wp_mono.
  - wp_call wp_GetDBConnection; [done|]. intros o w1 (-> & Hro & Hrd). wp_go.
    eapply wp_mono; [apply wp_Create; [apply Hro|done]|]. intros o w2 Hp. eapply create_post_ro; [done|exact Hp].
  - intros [r|] w2 Hp; [|done]. wp_go. by destruct r.
Qed.
Lemma wp_Delete_record t k db w : wf w -> wp (AgModel.Delete t k db) (delete_post w db (saveID t k)) w.
Proof.
  intros Hwf. unfold AgModel.Delete. wp_call wp_GetDBConnection; [done|]. intros o w1 (-> & Hro & Hrd). wp_go.
  eapply wp_mono; [apply wp_Delete; [apply Hro|done]|]. intros o w2 Hp. by eapply delete_post_ro.
Qed.

(** A change of the elements of an aggregate, which is read again first. *)
Definition put_elements w uri (f : slice string -> slice string) (o : outcome (option Err)) w' : Prop :=
  match o with
  | Ok None => exists a, aggregate_in (view w OnDisk) uri = Some a /\
      written w OnDisk (insert (aggregate_key uri) (aggregate_doc (f (ag_Elements a)))) w'
  | Ok (Some e) => (ro w w' /\ (aggregate_in (view w OnDisk) uri = None \/ ~ healthy w)) \/
      (~ healthy w /\ exists a, aggregate_in (view w OnDisk) uri = Some a /\
         maybe_written w OnDisk (insert (aggregate_key uri) (aggregate_doc (f (ag_Elements a)))) w')
  | Panic => False
  end.
Lemma wp_put_elements uri (f : slice string -> slice string) w : wf w ->
  wp (GetDBConnection OnDisk ;;;
      let! (agg, err) := AgModel.GetAggregate uri in
      match err with
      | Some err => ret (Some err)
      | None =>
          let aggregate := mkAggregate (f (ag_Elements agg)) in
          let! r := ConnPool.Update OnDisk "Aggregate" uri (marshal_Aggregate aggregate) in
          match r with inl err => ret (Some err) | inr _ => ret None end
      end) (put_elements w uri f) w.
Proof.
  intros Hwf. wp_call wp_GetDBConnection; [done|]. intros o w1 (-> & Hro & Hrd). wp_go.
  eapply wp_mono; [apply wp_GetAggregate; apply Hro|].
  intros [[a [e|]]|] w2 (Hro' & Hp & _); [| |done]; rewrite (ro_view _ _ _ Hro) in Hp; wp_go.
  - left. split; [by eapply ro_trans|]. destruct Hp as [Hp|(_ & _ & Hp)]; [by left|right]. by eapply unhealthy_ro.
  - assert (Hro2 : ro w w2) by (by eapply ro_trans).
    eapply wp_mono; [apply wp_Update; [apply Hro2|by apply Hro']|].
    intros [[e|s]|] w3 Hu; [| |done]; simpl in Hu; wp_go; rewrite (ro_view _ _ _ Hro2) in Hu.
    + destruct Hu as [(_ & Hr & Hn)|(_ & Hh & Hw)].
      * exfalso. unfold aggregate_in, stored, aggregate_key in Hp. by rewrite Hn in Hp.
      * right. split; [by eapply unhealthy_ro|]. exists a. split; [done|]. by eapply ro_maybe_written.
    + exists a. split; [done|]. destruct Hu as (_ & Hw & _). by eapply ro_written.
Qed.
Lemma wp_AddElements a uri w : wf w ->
  wp (AgModel.AddElementsToAggregate a uri) (put_elements w uri (append_elements (ag_Elements a))) w.
Proof. apply (wp_put_elements uri (append_elements (ag_Elements a))). Qed.
Lemma wp_RemoveElements a uri w : wf w ->
  wp (AgModel.RemoveElementsFromAggregate a uri)
     (put_elements w uri (fun l => Some (removeElements (items (ag_Elements a)) (items l)))) w.
Proof. apply (wp_put_elements uri (fun l => Some (removeElements (items (ag_Elements a)) (items l)))). Qed.

Lemma wp_GetAllKeysFromTable t w : wf w -> no_glob (t +:+ ":") = true ->
  wp (GetAllKeysFromTable t) (fun o w' => ro w w' /\
    match o with
    | Ok (inr ids) => table_ids w OnDisk t ids
    | Ok (inl _) => ~ healthy w
    | Panic => False
    end) w.
Proof.
  intros Hwf Hg. unfold GetAllKeysFromTable. wp_call wp_GetDBConnection; [done|]. intros o w1 (-> & Hro & Hrd). wp_go.
  eapply wp_mono; [apply wp_GetAllDetails; [apply Hro|done|done]|].
  intros [[e|ids]|] w2 [Hro' Hp]; [| |done]; wp_go; (split; [by eapply ro_trans|]); simpl in Hp.
  - by eapply unhealthy_ro.
  - destruct Hp as [Hnd Hp]. split; [done|]. intros id. by rewrite Hp, (ro_view _ _ _ Hro).
Qed.
End agspec.

(** ** The aggregates as a map *)

Section spec.
Implicit Types (disk : gmap string jtext) (uri : string) (l : list string).

(** A request of the service changes the entry of one aggregate: to a list of elements, or to nothing. *)
Definition put_effect uri (e : option (list string)) disk : gmap string jtext :=
  match e with
  | Some l => <[aggregate_key uri := aggregate_doc (Some l)]> disk
  | None => delete (aggregate_key uri) disk
  end.

(** The elements to be removed stand at the end of the list. *)
Definition at_end l (pres : list string) : Prop :=
  Forall (fun e => e ∈ l) (skipn (length (until (fun e => e ∈ l) pres)) pres).
(** What a removal leaves: all elements but those to be removed.  The service keeps to that when the
    latter stand at the end; otherwise it leaves what stands before the first of them, and so loses the
    others behind it too. *)
Inductive removal l (pres : list string) : list string -> Prop :=
| Removed : at_end l pres -> removal l pres (filter (fun e => e ∉ l) pres)
| Lost : ~ at_end l pres -> removal l pres (until (fun e => e ∈ l) pres).

Lemma removal_until l pres : removal l pres (until (fun e => e ∈ l) pres).
Proof.
  destruct (decide (at_end l pres)) as [Hend|Hn]; [|by apply Lost].
  rewrite (proj2 (until_filter (fun e => e ∈ l) pres)) by done. by apply Removed.
Qed.
Lemma removal_NoDup l pres left : removal l pres left -> NoDup pres -> NoDup left.
Proof. intros [_|_] Hn; [by apply NoDup_filter|]. eapply prefix_NoDup; [apply until_prefix|done]. Qed.

(** Every aggregate decodes, and names no system twice. *)
Definition aggregates_ok disk : Prop :=
  forall uri, is_Some (disk !! aggregate_key uri) ->
    exists a, aggregate_in disk uri = Some a /\ NoDup (items (ag_Elements a)).

Lemma aggregates_ok_insert disk uri l : aggregates_ok disk -> NoDup l ->
  aggregates_ok (<[aggregate_key uri := aggregate_doc (Some l)]> disk).
Proof.
  intros Hok Hl uri' Hs. unfold aggregate_in. destruct (decide (aggregate_key uri' = aggregate_key uri)) as [->|Hne].
  - exists (mkAggregate (Some l)). split; [|done]. apply stored_insert, Aggregate_roundtrip.
  - rewrite stored_insert_ne by done. rewrite lookup_insert_ne in Hs by done. by apply Hok.
Qed.
Lemma aggregates_ok_delete disk uri : aggregates_ok disk -> aggregates_ok (delete (aggregate_key uri) disk).
Proof.
  intros Hok uri' Hs. unfold aggregate_in. destruct (decide (aggregate_key uri' = aggregate_key uri)) as [E|Hne].
  - rewrite E, lookup_delete_eq in Hs. by destruct Hs.
  - rewrite stored_delete_ne by done. rewrite lookup_delete_ne in Hs by done. by apply Hok.
Qed.
Lemma aggregates_ok_NoDup disk uri a : aggregates_ok disk -> aggregate_in disk uri = Some a -> NoDup (items (ag_Elements a)).
Proof. intros Hok Ha. destruct (Hok uri) as (a' & Ha' & Hn); [by eapply stored_Some|]. naive_solver. Qed.
End spec.

(** * The handlers

    The handlers of the aggregates: what each answers and writes, whatever commands fail; that they
    do to the map of the aggregates what their requests ask for. *)

(** ** The requests *)

Inductive aggRequest :=
| CreateAgg (req : AggregatorRequest)
| ReadAggs (req : AggregatorRequest)
| ReadAgg (req : AggregatorRequest)
| DeleteAgg (req : AggregatorRequest)
| AddToAgg (req : AggregatorRequest)
| RemoveFromAgg (req : AggregatorRequest).
Definition agg_req (r : aggRequest) : AggregatorRequest :=
  match r with
  | CreateAgg req | ReadAggs req | ReadAgg req | DeleteAgg req | AddToAgg req | RemoveFromAgg req => req
  end.
Definition serveAggregate `{Env, Config} (r : aggRequest) : IO agRPC :=
  match r with
  | CreateAgg req => CreateAggregate req
  | ReadAggs req => GetAllAggregates req
  | ReadAgg req => GetAggregate req
  | DeleteAgg req => DeleteAggregate req
  | AddToAgg req => AddElementsToAggregate req
  | RemoveFromAgg req => RemoveElementsFromAggregate req
  end.

(** The elements a body asks for; [None] when it does not decode. *)
Definition asked (req : AggregatorRequest) : option (slice string) :=
  match Unmarshal Aggregate_type (ar_RequestBody req) zeroAggregate with
  | (a, None) => Some (ag_Elements a)
  | _ => None
  end.
Definition in_collection (URL : string) : bool := Contains URL (aggregatesURI +:+ "/").

Lemma index_ok {A} (l : list A) i : (i < length l)%nat -> exists a, index l i = Ok a.
Proof. intros Hi. unfold index. destruct (lookup_lt_is_Some_2 l i Hi) as [a ->]. by exists a. Qed.
Lemma Split_index_1 s sep : Contains s sep = true -> sep <> "" -> exists a, index (Split s sep) 1 = Ok a.
Proof. intros Hc Hs. apply index_ok. pose proof (Split_length s sep Hc Hs). lia. Qed.
Lemma Split_index_0 s sep : exists a, index (Split s sep) 0 = Ok a.
Proof.
  apply index_ok. unfold Split. destruct s as [|c s]; [cbn; lia|]. rewrite split_go_cons.
  destruct (HasPrefix (String c s) sep); cbn; [lia|]. destruct (split_go 0 s sep); cbn; lia.
Qed.
Lemma aggregate_id_ok URL : in_collection URL = true -> exists id, aggregate_id URL = Ok id.
Proof.
  intros Hc. unfold aggregate_id. destruct (Split_index_1 URL (aggregatesURI +:+ "/") Hc) as [a ->]; [done|].
  apply Split_index_0.
Qed.

(** An error is answered. *)
Definition error_answer (codes : list Z) (o : outcome agRPC) : Prop :=
  exists rsp e, o = Ok rsp /\ StatusCode rsp ∈ codes /\ RBody rsp = ErrorBody e.
Lemma error_intro codes code st em margs : code ∈ codes ->
  args_ok {| ea_StatusMessage := st; ea_ErrorMessage := em; ea_MessageArgs := margs |} ->
  error_answer codes (GeneralError code st em margs).
Proof. intros Hc Ha. destruct (@GeneralError_ok agBody code st em margs Ha) as [e ->]. by eexists _, e. Qed.
Lemma error_notRead kind uri err : error_answer [StatusNotFound; StatusInternalServerError] (notRead kind uri err).
Proof. unfold notRead. destruct (decide _); apply error_intro; solve [set_solver|done]. Qed.
Lemma error_weaken codes codes' o : codes ⊆ codes' -> error_answer codes o -> error_answer codes' o.
Proof. intros Hs (rsp & e & -> & Hc & He). exists rsp, e. set_solver. Qed.

Lemma aggregateRPC_ok code msg st hdr uri id els : String.eqb st TaskStarted = false ->
  exists r, aggregateRPC code msg st hdr uri id els = Ok (mkRPC code msg hdr (Body (AggregateBody r els))) /\
    OdataID r = uri /\ ID r = id.
Proof.
  intros Hst. unfold aggregateRPC, CreateGenericResponse. rewrite Hst.
  repeat case_match; eexists; (split; [reflexivity|by split]).
Qed.

Definition error_codes := [StatusBadRequest; StatusNotFound; StatusConflict; StatusInternalServerError; StatusServiceUnavailable].
Ltac in_codes := unfold error_codes, StatusCreated, StatusOK, StatusNoContent, StatusNotFound, StatusBadRequest, StatusConflict,
  StatusInternalServerError, StatusServiceUnavailable; set_solver.
Ltac refuse_with := first [by apply error_intro; [in_codes|] | eapply error_weaken; [|apply error_notRead]; in_codes].

Section handlers.
Context `{EnvLaws, SingleNode}.
Implicit Types (w : World) (req : AggregatorRequest).

(** An error is answered and nothing is written; without a failed command, only when [possible] does
    not hold. *)
Definition refused w (possible : Prop) (o : outcome agRPC) w' : Prop :=
  error_answer error_codes o /\ ro w w' /\ (possible -> ~ healthy w).
(** A write failed, which may or may not have been carried out. *)
Definition failed w (f : gmap string jtext -> gmap string jtext) (o : outcome agRPC) w' : Prop :=
  error_answer error_codes o /\ maybe_written w OnDisk f w' /\ ~ healthy w.

Definition put_doc (uri : string) (l : list string) : gmap string jtext -> gmap string jtext :=
  insert (aggregate_key uri) (aggregate_doc (Some l)).

(** ** Creating *)

Definition creatable w req l : Prop := asked req = Some (Some l) /\ valid_elements (view w InMemory) l.
Definition free w uri : Prop := absent w OnDisk (aggregate_key uri).
Definition created w req (o : outcome agRPC) w' : Prop :=
  exists l id r hdr, let uri := aggregatesURI +:+ "/" +:+ id in
    creatable w req l /\ (free w uri \/ ~ healthy w) /\ written w OnDisk (put_doc uri l) w' /\
    o = Ok (mkRPC StatusCreated "" hdr (Body (AggregateBody r (Some l)))) /\
    ("Location", uri) ∈ hdr /\ OdataID r = uri /\ ID r = id.
Definition create_agg_post w req (o : outcome agRPC) w' : Prop :=
  created w req o w' \/ refused w (exists l, creatable w req l /\ forall id, free w (aggregatesURI +:+ "/" +:+ id)) o w' \/
  exists l id, creatable w req l /\ failed w (put_doc (aggregatesURI +:+ "/" +:+ id) l) o w'.

Lemma wp_Create_aggregate req w : wf w -> wp (CreateAggregate req) (create_agg_post w req) w.
Proof.
  intros Hwf. unfold CreateAggregate, create_agg_post. pose proof (ro_refl w Hwf) as Hr.
  assert (Hno : forall o w', error_answer error_codes o -> ro w w' ->
    (forall l, creatable w req l -> ~ healthy w \/ exists id, ~ free w (aggregatesURI +:+ "/" +:+ id)) ->
    created w req o w' \/ refused w (exists l, creatable w req l /\ forall id, free w (aggregatesURI +:+ "/" +:+ id)) o w' \/
    exists l id, creatable w req l /\ failed w (put_doc (aggregatesURI +:+ "/" +:+ id) l) o w').
  { intros o w' He Hro Hx. right; left. split_and!; [done|done|]. intros (l & Hl & Hf).
    destruct (Hx l Hl) as [|[id Hid]]; [done|]. by destruct Hid. }
  destruct (Unmarshal Aggregate_type (ar_RequestBody req) zeroAggregate) as [[els] [jerr|]] eqn:Eu.
  { apply wp_lift, Hno; [refuse_with|done|]. intros l [E _]. unfold asked in E. by rewrite Eu in E. }
  assert (Hask : asked req = Some els) by (unfold asked; by rewrite Eu).
  simpl. destruct els as [l|]; simpl.
  2:{ apply wp_lift, Hno; [refuse_with|done|]. intros l [E _]. congruence. }
  wp_call wp_validateElements; [done|]. intros [[code [err|]]|] w1 [Hro1 Hv]; [| |done]; wp_go.
  { apply Hno; [|done|].
    - destruct Hv as [[-> _]|[-> _]]; refuse_with.
    - intros l' [E [Hd Hf]]. assert (l' = l) as -> by congruence. left.
      destruct Hv as [[_ Hv]|(_ & _ & [Hv|Hv])]; done. }
  assert (Hcr : creatable w req l) by done.
  eapply wp_mono; [apply wp_NewV4; apply Hro1|]. intros ? w2 (id & -> & Hro2 & _). wp_go.
  assert (Hro12 : ro w w2) by (by eapply ro_trans).
  eapply wp_mono; [apply wp_CreateAggregate; apply Hro12|]. intros o w3 Hc.
  apply (create_post_ro _ _ _ _ _ _ _ Hro12) in Hc. destruct o as [[e|]|]; simpl in Hc; [| |done]; wp_go.
  - destruct Hc as [(_ & Hro3 & Hn)|(_ & Hh & Hw)].
    + apply Hno; [refuse_with|done|]. intros l' _. right. by exists id.
    + right; right. exists l, id. split; [done|]. split_and!; [refuse_with|done|done].
  - destruct Hc as [Hw Hf]. left. destruct (aggregateRPC_ok StatusCreated "" Created
      [("Link", "<" +:+ (aggregatesURI +:+ "/" +:+ id) +:+ "/>; rel=describedby"); ("Location", aggregatesURI +:+ "/" +:+ id)]
      (aggregatesURI +:+ "/" +:+ id) id (Some l) eq_refl) as (r & E & Ho & Hi).
    exists l, id, r. eexists. split_and!; try done. by right; left.
Qed.

(** ** Adding and removing *)

Definition target req : outcome string := obind (aggregate_id (ar_URL req)) (fun id => Ok (aggregatesURI +:+ "/" +:+ id)).

Definition addable w req uri l a : Prop :=
  asked req = Some (Some l) /\ l <> [] /\ valid_elements (view w InMemory) l /\ target req = Ok uri /\
  aggregate_in (view w OnDisk) uri = Some a /\ forall e, e ∈ l -> e ∉ items (ag_Elements a).
Definition removable w req uri l a : Prop :=
  asked req = Some (Some l) /\ l <> [] /\ NoDup l /\ target req = Ok uri /\
  aggregate_in (view w OnDisk) uri = Some a /\ forall e, e ∈ l -> e ∈ items (ag_Elements a).

(** The aggregate is written with new elements and shown. *)
Definition changed w uri (l : list string) (o : outcome agRPC) w' : Prop :=
  written w OnDisk (put_doc uri l) w' /\
  exists r hdr els, o = Ok (mkRPC StatusOK "" hdr (Body (AggregateBody r els))) /\ OdataID r = uri /\
    (els = Some l \/ ~ healthy w).
Definition change_post w req (possible : string -> list string -> Aggregate -> Prop)
    (result : list string -> list string -> list string) (o : outcome agRPC) w' : Prop :=
  (exists uri l a, possible uri l a /\ changed w uri (result l (items (ag_Elements a))) o w') \/
  refused w (exists uri l a, possible uri l a) o w' \/
  (exists uri l a, possible uri l a /\ failed w (put_doc uri (result l (items (ag_Elements a)))) o w') \/
  (o = Panic /\ ro w w' /\ in_collection (ar_URL req) = false).

Lemma elements_cases (a : Aggregate) :
  elementsEmpty a = true \/ exists l, ag_Elements a = Some l /\ l <> [] /\ elementsEmpty a = false.
Proof. destruct a as [[[|e l]|]]; [by left| |by left]. right. by exists (e :: l). Qed.

Lemma wp_changedAggregate w uri id l w1 : written w OnDisk (put_doc uri l) w1 ->
  wp (changedAggregate uri id) (changed w uri l) w1.
Proof.
  intros Hw. unfold changedAggregate. wp_call wp_GetAggregate; [apply Hw|].
  intros [[a e]|] w2 (Hro & Hp & _); [|done]. wp_go.
  destruct (aggregateRPC_ok StatusOK "" Success [("Link", "<" +:+ uri +:+ "/>; rel=describedby")] uri id (ag_Elements a) eq_refl)
    as (r & -> & Ho & _).
  split; [by eapply evolves_ro|]. exists r. eexists _, _. split_and!; [done|done|].
  assert (Hin : aggregate_in (view w1 OnDisk) uri = Some (mkAggregate (Some l))).
  { rewrite (ev_view _ _ _ Hw), upd_eq. apply stored_insert, Aggregate_roundtrip. }
  rewrite Hin in Hp. destruct e as [e|]; [|left; by injection Hp as <-].
  right. destruct Hp as [|(_ & _ & Hp)]; [done|]. intros Hh. apply Hp. by apply (ev_healthy _ _ _ Hw).
Qed.

(** The end of both handlers: the database function, then the aggregate as it is now. *)
Lemma wp_put_and_show w w1 req possible result (f : slice string -> slice string) (m : IO (option Err)) uri id l :
  ro w w1 -> wp m (put_elements w1 uri f) w1 ->
  (forall a, aggregate_in (view w OnDisk) uri = Some a -> possible uri l a /\ f (ag_Elements a) = Some (result l (items (ag_Elements a)))) ->
  is_Some (aggregate_in (view w OnDisk) uri) ->
  wp (let! dbErr := m in
      match dbErr with
      | Some dbErr => lift (notWritten dbErr)
      | None => changedAggregate uri id
      end) (change_post w req possible result) w1.
Proof.
  intros Hro Hm Hf [a0 Ha0]. apply wp_bind. eapply wp_mono; [exact Hm|].
  intros [[e|]|] w2 Hp; simpl in Hp; [| |done]; wp_go; rewrite (ro_view _ _ _ Hro) in Hp.
  - destruct Hp as [[Hro2 [Hp|Hp]]|[Hh (a & Ha & Hw)]]; [congruence|..].
    + right; left. split_and!; [refuse_with|by eapply ro_trans|]. intros _. by eapply unhealthy_ro.
    + right; right; left. destruct (Hf a Ha) as [Hpo E]. exists uri, l, a. split; [done|].
      split_and!; [refuse_with| |by eapply unhealthy_ro]. unfold put_doc. rewrite <- E. by eapply ro_maybe_written.
  - destruct Hp as (a & Ha & Hw). destruct (Hf a Ha) as [Hpo E]. rewrite E in Hw.
    eapply wp_mono; [apply wp_changedAggregate; eapply ro_written; [exact Hro|exact Hw]|].
    intros o w3 Hc. left. by exists uri, l, a.
Qed.

Definition add_agg_post w req := change_post w req (addable w req) app.
Lemma wp_Add_elements req w : wf w -> wp (AddElementsToAggregate req) (add_agg_post w req) w.
Proof.
  intros Hwf. unfold AddElementsToAggregate, add_agg_post. pose proof (ro_refl w Hwf) as Hr.
  assert (Hno : forall o w', error_answer error_codes o -> ro w w' ->
    (forall uri l a, addable w req uri l a -> ~ healthy w) -> change_post w req (addable w req) app o w').
  { intros o w' He Hro Hx. right; left. split_and!; [done|done|]. intros (uri & l & a & Hl). by eapply Hx. }
  assert (Hask : forall uri l a, addable w req uri l a -> asked req = Some (Some l) /\ l <> []) by (by intros ??? (? & ? & _)).
  unfold asked in Hask.
  destruct (Unmarshal Aggregate_type (ar_RequestBody req) zeroAggregate) as [add [jerr|]] eqn:Eu.
  { apply wp_lift, Hno; [refuse_with|done|]. intros uri l a Ha. by destruct (Hask _ _ _ Ha). }
  destruct (elements_cases add) as [He|(l & El & Hl & ->)]; [rewrite He|].
  { apply wp_lift, Hno; [refuse_with|done|]. intros uri l a Ha. destruct (Hask _ _ _ Ha) as [[= E] Hne].
    unfold elementsEmpty in He. rewrite E in He. by destruct l. }
  assert (Easked : asked req = Some (Some l)) by (unfold asked; by rewrite Eu, El).
  rewrite El. simpl items. wp_call wp_validateElements; [done|].
  intros [[code [err|]]|] w1 [Hro1 Hv]; [| |done]; wp_go.
  { apply Hno; [|done|].
    - destruct Hv as [[-> _]|[-> _]]; refuse_with.
    - intros uri l' a (E & _ & [Hd Hf] & _). assert (l' = l) as -> by congruence.
      destruct Hv as [[_ Hv]|(_ & _ & [Hv|Hv])]; done. }
  destruct (String.eqb (ar_URL req) "") eqn:EU.
  { apply String.eqb_eq in EU. apply wp_lift, Hno; [refuse_with|done|]. intros uri l' a (_ & _ & _ & Ht & _).
    unfold target in Ht. by rewrite EU in Ht. }
  wp_go. destruct (aggregate_id (ar_URL req)) as [id|] eqn:Eid.
  2:{ wp_go. right; right; right. split_and!; [done|done|]. apply not_true_iff_false. intros Hc.
      destruct (aggregate_id_ok _ Hc) as [id ?]. congruence. }
  wp_go. set (uri := aggregatesURI +:+ "/" +:+ id).
  assert (Et : target req = Ok uri) by (unfold target; by rewrite Eid).
  eapply wp_mono; [apply wp_GetAggregate; apply Hro1|].
  intros [[a e]|] w2 (Hro2 & Hp & _); [|done]. wp_go. rewrite (ro_view _ _ _ Hro1) in Hp.
  assert (Hro : ro w w2) by (by eapply ro_trans).
  destruct e as [e|].
  { wp_go. apply Hno; [refuse_with|done|]. intros uri' l' a' (_ & _ & _ & Ht & Ha & _).
    assert (uri' = uri) as -> by congruence. destruct Hp as [Hp|(_ & _ & Hp)]; [congruence|exact (unhealthy_ro _ _ Hro1 Hp)]. }
  destruct (checkElementsPresent l (items (ag_Elements a))) eqn:Ec.
  { wp_go. apply Hno; [refuse_with|done|]. intros uri' l' a' (E & _ & _ & Ht & Ha & Hd).
    assert (uri' = uri) as -> by congruence. assert (l' = l) as -> by congruence. assert (a' = a) as -> by congruence.
    apply checkElementsPresent_spec in Hd. congruence. }
  rewrite checkElementsPresent_spec in Ec.
  eapply (wp_put_and_show w w2 req _ _ (append_elements (Some l))); [done|..|by eexists].
  - rewrite <- El. apply wp_AddElements, Hro.
  - intros a' Ha'. assert (a' = a) as -> by congruence. by split_and!.
Qed.

Definition keep_until (l pres : list string) : list string := until (fun e => e ∈ l) pres.
Definition remove_agg_post w req := change_post w req (removable w req) keep_until.
Lemma wp_Remove_elements req w : wf w -> wp (RemoveElementsFromAggregate req) (remove_agg_post w req) w.
Proof.
  intros Hwf. unfold RemoveElementsFromAggregate, remove_agg_post. pose proof (ro_refl w Hwf) as Hr.
  assert (Hno : forall o w', error_answer error_codes o -> ro w w' ->
    (forall uri l a, removable w req uri l a -> ~ healthy w) -> change_post w req (removable w req) keep_until o w').
  { intros o w' He Hro Hx. right; left. split_and!; [done|done|]. intros (uri & l & a & Hl). by eapply Hx. }
  assert (Hask : forall uri l a, removable w req uri l a -> asked req = Some (Some l) /\ l <> []) by (by intros ??? (? & ? & _)).
  unfold asked in Hask.
  destruct (Unmarshal Aggregate_type (ar_RequestBody req) zeroAggregate) as [rem [jerr|]] eqn:Eu.
  { apply wp_lift, Hno; [refuse_with|done|]. intros uri l a Ha. by destruct (Hask _ _ _ Ha). }
  destruct (elements_cases rem) as [He|(l & El & Hl & ->)]; [rewrite He|].
  { apply wp_lift, Hno; [refuse_with|done|]. intros uri l a Ha. destruct (Hask _ _ _ Ha) as [[= E] Hne].
    unfold elementsEmpty in He. rewrite E in He. by destruct l. }
  assert (Easked : asked req = Some (Some l)) by (unfold asked; by rewrite Eu, El).
  rewrite El. simpl items. destruct (String.eqb (ar_URL req) "") eqn:EU.
  { apply String.eqb_eq in EU. apply wp_lift, Hno; [refuse_with|done|]. intros uri l' a (_ & _ & _ & Ht & _).
    unfold target in Ht. by rewrite EU in Ht. }
  destruct (checkDuplicateElements l) eqn:Ed.
  { apply wp_lift, Hno; [refuse_with|done|]. intros uri l' a (E & _ & Hd & _). assert (l' = l) as -> by congruence.
    apply checkDuplicateElements_spec in Hd. congruence. }
  apply checkDuplicateElements_spec in Ed.
  wp_go. destruct (aggregate_id (ar_URL req)) as [id|] eqn:Eid.
  2:{ wp_go. right; right; right. split_and!; [done|done|]. apply not_true_iff_false. intros Hc.
      destruct (aggregate_id_ok _ Hc) as [id ?]. congruence. }
  wp_go. set (uri := aggregatesURI +:+ "/" +:+ id).
  assert (Et : target req = Ok uri) by (unfold target; by rewrite Eid).
  eapply wp_mono; [by apply wp_GetAggregate|].
  intros [[a e]|] w2 (Hro & Hp & _); [|done]. wp_go.
  destruct (checkRemovingElementsPresent l (items (ag_Elements a))) eqn:Ec; cbn [negb].
  2:{ wp_go. apply Hno; [refuse_with|done|]. intros uri' l' a' (E & _ & _ & Ht & Ha & Hd).
      assert (uri' = uri) as -> by congruence. assert (l' = l) as -> by congruence.
      destruct e as [e|]; [destruct Hp as [Hp|(_ & _ & Hp)]; [congruence|done]|]. assert (a' = a) as -> by congruence.
      apply checkRemovingElementsPresent_spec in Hd. congruence. }
  destruct e as [e|]; cycle 1.
  { eapply (wp_put_and_show w w2 req _ _ (fun x => Some (removeElements l (items x)))); [done|..|by eexists].
    - rewrite <- (f_equal items El : items (ag_Elements rem) = l). apply wp_RemoveElements, Hro.
    - intros a' Ha'. assert (a' = a) as -> by congruence. rewrite removeElements_until. split; [|done].
      rewrite checkRemovingElementsPresent_spec in Ec. by split_and!. }
  (* the aggregate could not be read: the error was passed over, and is met again *)
  destruct Hp as [Hp|(-> & _)]; [|by destruct l].
  wp_call wp_RemoveElements; [apply Hro|]. rewrite El. simpl items.
  intros [[e'|]|] w3 Hput; simpl in Hput; [| |done]; wp_go; rewrite (ro_view _ _ _ Hro), Hp in Hput;
    [|by destruct Hput as (? & ? & _)].
  destruct Hput as [[Hro3 _]|[_ (? & ? & _)]]; [|done].
  apply Hno; [refuse_with|by eapply ro_trans|]. intros uri' l' a' (_ & _ & _ & Ht & Ha & _).
  assert (uri' = uri) as -> by congruence. congruence.
Qed.

(** ** Reading and deleting *)

Definition read_agg_post w req (o : outcome agRPC) w' : Prop :=
  ro w w' /\
  ((exists a r, aggregate_in (view w OnDisk) (ar_URL req) = Some a /\ OdataID r = ar_URL req /\
      o = Ok (mkRPC StatusOK Success [] (Body (AggregateBody r (ag_Elements a))))) \/
   (error_answer [StatusNotFound; StatusInternalServerError] o /\
      (aggregate_in (view w OnDisk) (ar_URL req) = None \/ ~ healthy w)) \/
   (o = Panic /\ is_Some (aggregate_in (view w OnDisk) (ar_URL req)) /\ in_collection (ar_URL req) = false)).
Lemma wp_Get_aggregate req w : wf w -> wp (GetAggregate req) (read_agg_post w req) w.
Proof.
  intros Hwf. unfold GetAggregate, read_agg_post. wp_call wp_GetAggregate; [done|].
  intros [[a [e|]]|] w1 (Hro & Hp & _); [| |done]; wp_go.
  - split; [done|]. right; left. split; [apply error_notRead|]. destruct Hp as [|(_ & _ & ?)]; [by left|by right].
  - destruct (index (Split (ar_URL req) (aggregatesURI +:+ "/")) 1) as [id|] eqn:Ei; wp_go; (split; [done|]).
    + destruct (aggregateRPC_ok StatusOK Success Success [] (ar_URL req) id (ag_Elements a) eq_refl) as (r & -> & Ho & _).
      left. by exists a, r.
    + right; right. split_and!; [done|by eexists|]. apply not_true_iff_false. intros Hc.
      destruct (Split_index_1 _ _ Hc) as [x Hx]; [done|congruence].
Qed.

Definition delete_agg_post w req (o : outcome agRPC) w' : Prop :=
  (is_Some (aggregate_in (view w OnDisk) (ar_URL req)) /\ o = Ok (mkRPC StatusNoContent "" [] NoBody) /\
     written w OnDisk (delete (aggregate_key (ar_URL req))) w') \/
  refused w (is_Some (aggregate_in (view w OnDisk) (ar_URL req))) o w' \/
  (is_Some (aggregate_in (view w OnDisk) (ar_URL req)) /\ failed w (delete (aggregate_key (ar_URL req))) o w').
Lemma wp_Delete_aggregate req w : wf w -> wp (DeleteAggregate req) (delete_agg_post w req) w.
Proof.
  intros Hwf. unfold DeleteAggregate. wp_call wp_GetAggregate; [done|].
  intros [[a [e|]]|] w1 (Hro & Hp & _); [| |done]; wp_go.
  - right; left. split_and!; [refuse_with|done|]. intros [a' Ha']. destruct Hp as [|(_ & _ & ?)]; [congruence|done].
  - eapply wp_mono; [apply (wp_Delete_record "Aggregate"); apply Hro|]. intros [[e|]|] w2 Hd; simpl in Hd; [| |done]; wp_go.
    + destruct Hd as [(_ & Hro2 & Hn)|(_ & Hh & Hw)].
      * exfalso. rewrite (ro_view _ _ _ Hro) in Hn. apply stored_Some in Hp as [t Ht]. unfold aggregate_key in Ht. congruence.
      * right; right. split; [by eexists|]. split_and!; [refuse_with|by eapply ro_maybe_written|by eapply unhealthy_ro].
    + left. split_and!; [by eexists|done|]. destruct Hd as [Hw _]. by eapply ro_written.
Qed.

Definition list_agg_post w (o : outcome agRPC) w' : Prop :=
  ro w w' /\
  ((exists r ids, table_ids w OnDisk "Aggregate" ids /\
      o = Ok (mkRPC StatusOK Success [] (Body (AgListBody r (Z.of_nat (length ids)) ids)))) \/
   (error_answer error_codes o /\ ~ healthy w)).
Lemma wp_GetAll_aggregates req w : wf w -> wp (GetAllAggregates req) (list_agg_post w) w.
Proof.
  intros Hwf. unfold GetAllAggregates, collection. wp_call wp_GetAllKeysFromTable; [done|done|].
  intros [[e|ids]|] w1 [Hro Hp]; [| |done]; wp_go; (split; [done|]).
  - right. split; [refuse_with|done].
  - left. by eexists _, ids.
Qed.

(** ** What each request does *)

(** The change a request asks for. *)
Definition agg_effect w (r : aggRequest) (uri : string) (e : option (list string)) : Prop :=
  match r with
  | CreateAgg req => exists id l, uri = aggregatesURI +:+ "/" +:+ id /\ creatable w req l /\
      (free w uri \/ ~ healthy w) /\ e = Some l
  | DeleteAgg req => uri = ar_URL req /\ is_Some (aggregate_in (view w OnDisk) uri) /\ e = None
  | AddToAgg req => exists l a, addable w req uri l a /\ e = Some (l ++ items (ag_Elements a))%list
  | RemoveFromAgg req => exists l a left, removable w req uri l a /\ removal l (items (ag_Elements a)) left /\ e = Some left
  | ReadAggs _ | ReadAgg _ => False
  end.
(** The answer of a request that made its change; a change is read back, which may fail. *)
Definition agg_success w (r : aggRequest) (uri : string) (e : option (list string)) (rsp : agRPC) : Prop :=
  match r with
  | CreateAgg _ => exists res hdr, rsp = mkRPC StatusCreated "" hdr (Body (AggregateBody res e)) /\
      ("Location", uri) ∈ hdr /\ OdataID res = uri
  | DeleteAgg _ => rsp = mkRPC StatusNoContent "" [] NoBody
  | AddToAgg _ | RemoveFromAgg _ => exists res hdr els, rsp = mkRPC StatusOK "" hdr (Body (AggregateBody res els)) /\
      OdataID res = uri /\ (els = e \/ ~ healthy w)
  | ReadAggs _ | ReadAgg _ => False
  end.
(** The answer of a request that reads. *)
Definition agg_shown w (r : aggRequest) (rsp : agRPC) : Prop :=
  match r with
  | ReadAggs _ => exists res ids, table_ids w OnDisk "Aggregate" ids /\
      rsp = mkRPC StatusOK Success [] (Body (AgListBody res (Z.of_nat (length ids)) ids))
  | ReadAgg req => exists a res, aggregate_in (view w OnDisk) (ar_URL req) = Some a /\ OdataID res = ar_URL req /\
      rsp = mkRPC StatusOK Success [] (Body (AggregateBody res (ag_Elements a)))
  | _ => False
  end.
(** What is asked for can be done. *)
Definition agg_possible w (r : aggRequest) : Prop :=
  match r with
  | CreateAgg req => exists l, creatable w req l /\ forall id, free w (aggregatesURI +:+ "/" +:+ id)
  | ReadAggs _ => True
  | ReadAgg req | DeleteAgg req => is_Some (aggregate_in (view w OnDisk) (ar_URL req))
  | AddToAgg req => exists uri l a, addable w req uri l a
  | RemoveFromAgg req => exists uri l a, removable w req uri l a
  end.

Inductive agg_outcome w (r : aggRequest) : outcome agRPC -> World -> Prop :=
| AggPerformed uri e rsp w' :
    agg_effect w r uri e -> written w OnDisk (put_effect uri e) w' -> agg_success w r uri e rsp ->
    agg_outcome w r (Ok rsp) w'
| AggShown rsp w' : ro w w' -> agg_shown w r rsp -> agg_outcome w r (Ok rsp) w'
| AggRefused o w' : refused w (agg_possible w r) o w' -> agg_outcome w r o w'
| AggFailed uri e o w' : agg_effect w r uri e -> failed w (put_effect uri e) o w' -> agg_outcome w r o w'
| AggPanicked w' : ro w w' -> in_collection (ar_URL (agg_req r)) = false -> agg_outcome w r Panic w'.

Lemma change_post_outcome w r possible result o w' :
  (forall uri l a, possible uri l a -> agg_effect w r uri (Some (result l (items (ag_Elements a))))) ->
  (forall uri e rsp, (exists res hdr els, rsp = mkRPC StatusOK "" hdr (Body (AggregateBody res els)) /\
      OdataID res = uri /\ (els = e \/ ~ healthy w)) -> agg_success w r uri e rsp) ->
  (agg_possible w r -> exists uri l a, possible uri l a) ->
  change_post w (agg_req r) possible result o w' -> agg_outcome w r o w'.
Proof.
  intros He Hs Hp [(uri & l & a & Ha & Hw & res & hdr & els & -> & Hr & Hels)|[(Hx & Hr & Hn)|[(uri & l & a & Ha & Hf)|(-> & Hr & Hu)]]].
  - eapply AggPerformed; [by apply He|exact Hw|]. apply Hs. by exists res, hdr, els.
  - apply AggRefused. split_and!; auto.
  - eapply AggFailed; [by apply He|exact Hf].
  - by apply AggPanicked.
Qed.

Lemma wp_serveAggregate r w : wf w -> wp (serveAggregate r) (agg_outcome w r) w.
Proof.
  intros Hwf. destruct r as [req|req|req|req|req|req]; simpl.
  - eapply wp_mono; [by apply wp_Create_aggregate|].
    intros o w' [(l & id & r & hdr & Hc & Hf & Hw & -> & Hl & Ho & _)|[Hr|(l & id & Hc & Hf)]].
    + apply (AggPerformed _ _ (aggregatesURI +:+ "/" +:+ id) (Some l)); [by exists id, l|exact Hw|by exists r, hdr].
    + by apply AggRefused.
    + apply (AggFailed _ _ (aggregatesURI +:+ "/" +:+ id) (Some l)); [|exact Hf].
      exists id, l. split_and!; [done|done| |done]. right. apply Hf.
  - eapply wp_mono; [by apply wp_GetAll_aggregates|].
    intros o w' [Hr [(r & ids & Hi & ->)|[He Hh]]]; [apply AggShown; [done|by exists r, ids]|by apply AggRefused].
  - eapply wp_mono; [by apply wp_Get_aggregate|].
    intros o w' [Hr [(a & r & Ha & Ho & ->)|[[He Hn]|(-> & _ & Hu)]]].
    + apply AggShown; [done|by exists a, r].
    + apply AggRefused. split_and!; [eapply error_weaken; [|done]; in_codes|done|].
      intros [a Ha]. destruct Hn as [Hn|]; [|done]. congruence.
    + by apply AggPanicked.
  - eapply wp_mono; [by apply wp_Delete_aggregate|].
    intros o w' [(Ha & -> & Hw)|[Hr|(Ha & Hf)]].
    + by apply (AggPerformed _ _ (ar_URL req) None).
    + by apply AggRefused.
    + by apply (AggFailed _ _ (ar_URL req) None).
  - eapply wp_mono; [by apply wp_Add_elements|]. intros o w'.
    apply (change_post_outcome w (AddToAgg req)); [|done..]. intros uri l a Ha. by exists l, a.
  - eapply wp_mono; [by apply wp_Remove_elements|]. intros o w'.
    apply (change_post_outcome w (RemoveFromAgg req)); [|done..]. intros uri l a Ha.
    exists l, a, (keep_until l (items (ag_Elements a))). split_and!; [done| |done]. apply removal_until.
Qed.

(** Each change keeps the aggregates readable and free of duplicates. *)
Lemma agg_effect_ok w r uri e : agg_effect w r uri e -> aggregates_ok (view w OnDisk) ->
  aggregates_ok (put_effect uri e (view w OnDisk)).
Proof.
  intros He Hok. destruct r as [req|req|req|req|req|req]; simpl in He; [|done|done|..].
  - destruct He as (id & l & -> & [_ [Hl _]] & _ & ->). by apply aggregates_ok_insert.
  - destruct He as (-> & _ & ->). by apply aggregates_ok_delete.
  - destruct He as (l & a & (_ & _ & [Hl _] & _ & Ha & Hd) & ->). apply aggregates_ok_insert; [done|].
    apply NoDup_app. split_and!; [done|done|by eapply aggregates_ok_NoDup].
  - destruct He as (l & a & left & (_ & _ & _ & _ & Ha & _) & Hr & ->). apply aggregates_ok_insert; [done|].
    eapply removal_NoDup; [exact Hr|by eapply aggregates_ok_NoDup].
Qed.
End handlers.
