(* ===== verification/AggHistory.v ===== *)
(** The aggregates as the aggregation service keeps them: the history of any requests, failed commands
    and restarts, what is read back of a new aggregate, and what the removal of elements leaves. *)
From stdpp Require Import base gmap sets list strings.
From S2P Require Import Prelude Go GoTime GoText Response Redis World ConnPool DBSpec AsModel AsSpec System Scenario ResponseProps RedisIndex Index Search SearchProps AgData AgModel Aggregates AgSpec.
Open Scope string_scope.

Inductive aggEvent := ServeAgg (r : aggRequest) | RestartAgg.

Section history.
Context `{Env, Config}.
(** A handler that panics ends the process, which is started again. *)
Definition aggHappen (w : World) (e : aggEvent) : World :=
  match e with
  | ServeAgg r => match serveAggregate r w with (Ok _, w') => w' | (Panic, w') => restart w' end
  | RestartAgg => restart w
  end.
Definition aggHistory (es : list aggEvent) (w : World) : World := fold_left aggHappen es w.
End history.

Lemma split_absent n s sep : sep <> "" -> Contains s sep = false -> (n = 0)%nat -> length (split_go n s sep) = 1%nat.
Proof.
  intros Hsep Hc ->. induction s as [|c s IH]; [done|]. cbn [Contains] in Hc. apply orb_false_iff in Hc as [Hp Hc].
  rewrite split_go_cons, Hp. specialize (IH Hc). by destruct (split_go 0 s sep) as [|? [|]].
Qed.
Lemma not_in_collection URL : in_collection URL = false -> index (Split URL (aggregatesURI +:+ "/")) 1 = Panic.
Proof.
  intros Hc. unfold index. rewrite lookup_ge_None_2; [done|]. unfold Split. by rewrite split_absent.
Qed.

Section properties.
Context `{EnvLaws, SingleNode}.
Implicit Types (w : World).

(** The inventory is as it was, and the aggregates are kept well formed. *)
Record kept w w' : Prop := {
  kept_wf : wf w';
  kept_inventory : view w' InMemory = view w InMemory;
  kept_ok : aggregates_ok (view w OnDisk) -> aggregates_ok (view w' OnDisk);
}.
Lemma agg_kept_refl w : wf w -> kept w w.
Proof. by split. Qed.
Lemma agg_kept_trans w w1 w2 : kept w w1 -> kept w1 w2 -> kept w w2.
Proof. intros [a b c] [d e f]. split; [done|congruence|auto]. Qed.
Lemma kept_restart w w' : kept w w' -> kept w (restart w').
Proof. intros [a b c]. split; [by intros []|done|done]. Qed.
Lemma kept_ro w w' : ro w w' -> kept w w'.
Proof. intros Hr. split; [apply Hr|by apply ro_view|]. by rewrite (ro_view _ _ _ Hr). Qed.
Lemma kept_written w uri e w' : (aggregates_ok (view w OnDisk) -> aggregates_ok (put_effect uri e (view w OnDisk))) ->
  written w OnDisk (put_effect uri e) w' -> kept w w'.
Proof.
  intros He Hw. split; [apply Hw|by rewrite (ev_view _ _ _ Hw), upd_ne|]. by rewrite (ev_view _ _ _ Hw), upd_eq.
Qed.
Lemma kept_outcome w r o w' : agg_outcome w r o w' -> kept w w'.
Proof.
  intros [uri e rsp w1 He Hw _|rsp w1 Hr _|o1 w1 (_ & Hr & _)|uri e o1 w1 He (_ & [Hr|Hw] & _)|w1 Hr _];
    [|by apply kept_ro|by apply kept_ro| by apply kept_ro| |by apply kept_ro];
    (eapply kept_written; [by eapply agg_effect_ok|exact Hw]).
Qed.
Lemma kept_happen w e : wf w -> kept w (aggHappen w e).
Proof.
  intros Hwf. destruct e as [r|]; simpl; [|by apply kept_restart, agg_kept_refl].
  pose proof (wp_serveAggregate r w Hwf) as Hp. unfold wp in Hp.
  destruct (serveAggregate r w) as [[a|] w']; apply kept_outcome in Hp; [done|by apply kept_restart].
Qed.

(** C32: refinement of a map from identifiers to lists of elements, request by request and whatever
    commands fail.  No request touches the inventory, and each has one of five outcomes.  It makes the
    change it asks for: a new aggregate of the elements named, under an identifier that was free unless a
    failed command hid that it was taken; the elements named before those of the aggregate at its URL;
    the aggregate at its URL without the elements named; no aggregate at its URL; and the answer is the
    success of that request with the aggregate as it is now.  Or it reads, changes nothing and shows the
    aggregate or the identifiers stored.  Or it is refused with an error and nothing is written, which
    without a failed command happens only when what it asks for is not possible.  Or a command failed:
    then it answers an error and its own change was made or not.  Or it panics, when its URL is not one
    of the collection, and has written nothing.  A removal is the one intended only when the elements to
    be removed stand at the end of the aggregate's list; [removal] says what is lost otherwise. *)
Theorem aggregates_refine w r o w' :
  wf w -> serveAggregate r w = (o, w') ->
  wf w' /\ view w' InMemory = view w InMemory /\ agg_outcome w r o w'.
Proof.
  intros Hwf E. pose proof (wp_run _ _ _ _ _ (wp_serveAggregate r w Hwf) E) as Ho.
  destruct (kept_outcome _ _ _ _ Ho). by split_and!.
Qed.

(** C33: for any history of requests on the aggregates, failed commands and restarts, every stored
    aggregate can be read, and names no system twice, if it was so before; no request touches the
    inventory. *)
Theorem aggregates_invariant w es : wf w -> kept w (aggHistory es w).
Proof.
  unfold aggHistory. intros Hwf. pose proof (agg_kept_refl w Hwf) as Hk. revert Hk. generalize w at 2 4 as w1.
  induction es as [|e es IH]; intros w1 Hk; [done|]. apply IH.
  eapply agg_kept_trans; [done|]. apply kept_happen, Hk.
Qed.

Lemma in_collection_uri id : in_collection (aggregatesURI +:+ "/" +:+ id) = true.
Proof. exact (Contains_app "" id (aggregatesURI +:+ "/")). Qed.

Lemma error_status codes (rsp : agRPC) : error_answer codes (Ok rsp) -> StatusCode rsp ∈ codes.
Proof. by intros (? & e & [= <-] & Hc & _). Qed.
Lemma not_error_status (rsp : agRPC) : error_answer error_codes (Ok rsp) -> StatusCode rsp <> StatusCreated.
Proof. intros Hc%error_status E. rewrite E in Hc. revert Hc. in_codes. Qed.

(** Round trip: when an aggregate was created and no command fails, reading the location that was
    answered shows exactly the elements of the request, each one a system of the inventory and none
    twice. *)
Theorem create_then_read w req rsp w1 tok :
  wf w -> healthy w -> CreateAggregate req w = (Ok rsp, w1) -> StatusCode rsp = StatusCreated ->
  exists uri l, ("Location", uri) ∈ Header rsp /\ asked req = Some (Some l) /\
    valid_elements (view w InMemory) l /\
    exists r, OdataID r = uri /\
    (GetAggregate {| ar_SessionToken := tok; ar_RequestBody := Text JNull; ar_RequestText := ""; ar_URL := uri |} w1).1
      = Ok (mkRPC StatusOK Success [] (Body (AggregateBody r (Some l)))).
Proof.
  intros Hwf Hh E Hst.
  destruct (wp_run _ _ _ _ _ (wp_Create_aggregate req w Hwf) E)
    as [(l & id & r & hdr & [Ha Hv] & _ & Hw & [= ->] & Hl & _)|[(He & _)|(? & ? & _ & He & _)]];
    [|by apply not_error_status in He..].
  exists (aggregatesURI +:+ "/" +:+ id), l. split_and!; [done..|].
  set (get := {| ar_SessionToken := tok |}).
  assert (Hin : aggregate_in (view w1 OnDisk) (ar_URL get) = Some (mkAggregate (Some l))).
  { rewrite (ev_view _ _ _ Hw), upd_eq. apply stored_insert, Aggregate_roundtrip. }
  pose proof (wp_Get_aggregate get w1 (ev_wf _ _ _ Hw)) as [_ [(a & r' & Ha' & Hr & Ho)|[[_ [Hn|Hn]]|(_ & _ & Hc)]]].
  - exists r'. split; [done|]. rewrite Hin in Ha'. injection Ha' as <-. exact Ho.
  - congruence.
  - destruct Hn. by apply (ev_healthy _ _ _ Hw).
  - unfold get in Hc. cbn [ar_URL] in Hc. by rewrite in_collection_uri in Hc.
Qed.

(** When no command fails, a request to remove elements that an aggregate has is answered with, and
    leaves the aggregate with, the elements that stand before the first one that was to be removed.
    So it does what was asked for exactly when all elements from that one on were to be removed;
    otherwise the others behind it are lost too. *)
Theorem removal_cuts w req uri l a :
  wf w -> healthy w -> removable w req uri l a ->
  exists rsp w' r, RemoveElementsFromAggregate req w = (Ok rsp, w') /\ StatusCode rsp = StatusOK /\
    let left := until (fun e => e ∈ l) (items (ag_Elements a)) in
    RBody rsp = Body (AggregateBody r (Some left)) /\
    aggregate_in (view w' OnDisk) uri = Some (mkAggregate (Some left)) /\
    (left = filter (fun e => e ∉ l) (items (ag_Elements a)) <->
     Forall (fun e => e ∈ l) (skipn (length left) (items (ag_Elements a)))).
Proof.
  intros Hwf Hh Hr. destruct (wp_elim _ _ _ (wp_Remove_elements req w Hwf)) as (o & w' & E & Hp).
  destruct Hr as (Ha & Hl & Hd & Ht & Hin & Hall).
  destruct Hp as [(uri' & l' & a' & (Ha' & _ & _ & Ht' & Hin' & _) & Hw & r & hdr & els & -> & Hu & He)|[(_ & _ & Hx)|[(? & ? & ? & _ & _ & _ & Hx)|(-> & Hro & Hc)]]].
  - assert (l' = l) as -> by congruence. assert (uri' = uri) as -> by congruence. assert (a' = a) as -> by congruence.
    destruct He as [-> |]; [|done]. eexists _, w', r. split_and!; [done|done|].
    split_and!; [done| |apply until_filter]. rewrite (ev_view _ _ _ Hw), upd_eq. apply stored_insert, Aggregate_roundtrip.
  - destruct Hx; [|done]. by exists uri, l, a.
  - done.
  - exfalso. unfold target, aggregate_id in Ht.
    enough (index (Split (ar_URL req) (aggregatesURI +:+ "/")) 1 = Panic) as Hp by (by rewrite Hp in Ht).
    by apply not_in_collection.
Qed.
End properties.

(** ** The properties at concrete inputs *)

Section witnesses.
#[local] Existing Instances single single_node.

Definition node (n : string) : string := "/redfish/v1/Systems/" +:+ n.
Definition inventory : gmap string jtext :=
  list_to_map ((fun n => (system_key (node n), Text (JStr n))) <$> ["a.1"; "b.1"; "c.1"]).
Definition an_aggregate : string := aggregatesURI +:+ "/agg1".
Definition stored_aggregates : gmap string jtext :=
  {[ aggregate_key an_aggregate := aggregate_doc (Some [node "a.1"; node "b.1"]) ]}.
Definition agg_world (faults : list (option Sim.fault)) : World := sim_world inventory stored_aggregates minute faults.
Definition elements_request (URL : string) (l : list string) : AggregatorRequest :=
  {| ar_SessionToken := "tok"; ar_RequestBody := aggregate_doc (Some l); ar_RequestText := ""; ar_URL := URL |}.

Lemma stored_aggregates_ok : aggregates_ok stored_aggregates.
Proof.
  unfold stored_aggregates. rewrite <- insert_empty. apply aggregates_ok_insert.
  - intros uri [t Ht]. by rewrite lookup_empty in Ht.
  - by apply (bool_decide_unpack _).
Qed.

Definition adding : aggRequest := AddToAgg (elements_request (an_aggregate +:+ "/Actions/Aggregate.AddElements") [node "c.1"]).
Definition removing : AggregatorRequest := elements_request (an_aggregate +:+ "/Actions/Aggregate.RemoveElements") [node "a.1"].

Lemma aggregates_refine_witness : exists o w', serveAggregate adding (agg_world []) = (o, w') /\
  agg_outcome (agg_world []) adding o w'.
Proof.
  destruct (serveAggregate adding (agg_world [])) as [o w'] eqn:E.
  exists o, w'. split; [done|]. apply (aggregates_refine (agg_world []) adding o w' (sim_wf _ _ _ _) E).
Defined.
Lemma aggregates_invariant_witness :
  aggregates_ok (view (aggHistory [ServeAgg adding; RestartAgg; ServeAgg (RemoveFromAgg removing)] (agg_world [Some Sim.eof])) OnDisk).
Proof.
  apply (kept_ok _ _ (aggregates_invariant (agg_world [Some Sim.eof]) _ (sim_wf _ _ _ _))), stored_aggregates_ok.
Defined.
Lemma create_then_read_witness :
  exists rsp w1, CreateAggregate (elements_request aggregatesURI [node "b.1"; node "c.1"]) (agg_world []) = (Ok rsp, w1) /\
    exists uri r, (GetAggregate {| ar_SessionToken := ""; ar_RequestBody := Text JNull; ar_RequestText := ""; ar_URL := uri |} w1).1
      = Ok (mkRPC StatusOK Success [] (Body (AggregateBody r (Some [node "b.1"; node "c.1"])))).
Proof.
  destruct (CreateAggregate (elements_request aggregatesURI [node "b.1"; node "c.1"]) (agg_world [])) as [o w1] eqn:E.
  assert (Ho : exists rsp, o = Ok rsp /\ StatusCode rsp = StatusCreated).
  { pose proof (f_equal fst E) as Ho. vm_compute in Ho. rewrite <- Ho. by eexists. }
  destruct Ho as (rsp & -> & Hst). exists rsp, w1. split; [done|].
  destruct (create_then_read (agg_world []) _ rsp w1 "" (sim_wf _ _ _ _) (sim_healthy _ _ _) E Hst)
    as (uri & l & _ & Ha & _ & r & _ & Hr).
  exists uri, r. rewrite Hr. vm_compute in Ha. injection Ha as <-. done.
Defined.
(** Taking the first of two elements out leaves none. *)
Lemma removal_cuts_witness :
  exists w', aggregate_in (view w' OnDisk) an_aggregate = Some (mkAggregate (Some [])) /\
    (RemoveElementsFromAggregate removing (agg_world [])).2 = w'.
Proof.
  assert (Hr : removable (agg_world []) removing an_aggregate [node "a.1"] (mkAggregate (Some [node "a.1"; node "b.1"]))).
  { split_and!; [by vm_compute|done|by apply (bool_decide_unpack _)|by vm_compute|by vm_compute|].
    intros e He. apply list_elem_of_singleton in He as ->. by left. }
  destruct (removal_cuts (agg_world []) removing _ _ _ (sim_wf _ _ _ _) (sim_healthy _ _ _) Hr)
    as (rsp & w' & r & E & _ & _ & Ha & _).
  exists w'. split; [exact Ha|by rewrite E].
Defined.
End witnesses.
