(* ===== verification/AgPlugin.v ===== *)
(** How the aggregation service talks to its plugins: lib-rest-client/pmbhandle/rest.go,
    lib-utilities/common/pluginstatus.go, GetPluginStatus of svc-aggregation/agcommon/common.go, and the
    calls of svc-aggregation/system/common.go.

    What net/http does with a request is a parameter: whether the URL is one a request can be made of,
    and what a plugin answers, which depends on the state of the environment and does not change it.
    A body is given as text and as the document it is. *)
From stdpp Require Import base gmap list strings pretty.
From S2P Require Import Prelude Go GoTime GoText GoCodec Response Redis World ConnPool RedisIndex Index Search Http AsModel AgData AgModel.
Open Scope string_scope.

(** ** HTTP *)

Record plugin_request := {
  pr_Method : string;
  pr_URL : string;
  pr_Body : option json;
  pr_Header : list (string * string);
  pr_BasicAuth : option (string * string);
  pr_ServerName : string;
}.
(** The body is the text and its document, or the error of reading it. *)
Record plugin_reply := {
  rp_StatusCode : Z;
  rp_Token : string;             (* the header X-Auth-Token *)
  rp_Body : string + string * jtext;
}.
Class PluginHTTP `{Env} : Type := {
  http_NewRequest : string -> string -> option string;
  http_Do : plugin_request -> env -> string + plugin_reply;
  TLS_error : option string;                       (* httpConf.GetHTTPClientObj *)
  wait_exceeded : plugin_request -> env -> bool;   (* the response timer runs out first *)
}.
(** config.Data.URLTranslation and config.Data.PluginStatusPolling *)
Class PluginConf : Type := {
  SouthBoundURL : list (string * string);
  NorthBoundURL : list (string * string);
  MaxRetryAttempt : Z;
  RetryIntervalInMins : Z;
}.

(** ** The answer to a status request *)

(** PluginResponseStatus. *)
Record PluginResponseStatus := mkPluginResponseStatus {
  ps_Available : string;
  ps_Uptime : string;
  ps_TimeStamp : string;
}.
Definition zeroPluginResponseStatus : PluginResponseStatus := mkPluginResponseStatus "" "" "".
Definition PluginResponseStatus_type : struct_type PluginResponseStatus := {|
  st_name := "PluginResponseStatus";
  st_fields :=
    [("Available", on ps_Available (fun x r => mkPluginResponseStatus x (ps_Uptime r) (ps_TimeStamp r)) dec_string);
     ("Uptime", on ps_Uptime (fun x r => mkPluginResponseStatus (ps_Available r) x (ps_TimeStamp r)) dec_string);
     ("TimeStamp", on ps_TimeStamp (fun x r => mkPluginResponseStatus (ps_Available r) (ps_Uptime r) x) dec_string)] |}.

(** EmbQueue. *)
Record EmbQueue := mkEmbQueue {
  eq_QueueName : string;
  eq_QueueDesc : string;
}.
Definition zeroEmbQueue : EmbQueue := mkEmbQueue "" "".
Definition EmbQueue_type : struct_type EmbQueue := {|
  st_name := "EmbQueue";
  st_fields :=
    [("EmbQueueName", on eq_QueueName (fun x r => mkEmbQueue x (eq_QueueDesc r)) dec_string);
     ("EmbQueueDesc", on eq_QueueDesc (fun x r => mkEmbQueue (eq_QueueName r) x) dec_string)] |}.

(** EventMessageBus. *)
Record EventMessageBus := mkEventMessageBus {
  mb_EmbType : string;
  mb_EmbQueue : slice EmbQueue;
}.
Definition zeroEventMessageBus : EventMessageBus := mkEventMessageBus "" None.
Definition EventMessageBus_type : struct_type EventMessageBus := {|
  st_name := "EventMessageBus";
  st_fields :=
    [("EmbType", on mb_EmbType (fun x r => mkEventMessageBus x (mb_EmbQueue r)) dec_string);
     ("EmbQueue", on mb_EmbQueue (fun x r => mkEventMessageBus (mb_EmbType r) x) (dec_slice "common.EmbQueue" (dec_struct "common." "EventMessageBus.EmbQueue." EmbQueue_type) zeroEmbQueue))] |}.

(** StatusResponse. *)
Record StatusResponse := mkStatusResponse {
  sr_Comment : string;
  sr_Name : string;
  sr_Version : string;
  sr_Status : option PluginResponseStatus;
  sr_EventMessageBus : option EventMessageBus;
}.
Definition zeroStatusResponse : StatusResponse := mkStatusResponse "" "" "" None None.
Definition StatusResponse_type : struct_type StatusResponse := {|
  st_name := "StatusResponse";
  st_fields :=
    [("_comment", on sr_Comment (fun x r => mkStatusResponse x (sr_Name r) (sr_Version r) (sr_Status r) (sr_EventMessageBus r)) dec_string);
     ("Name", on sr_Name (fun x r => mkStatusResponse (sr_Comment r) x (sr_Version r) (sr_Status r) (sr_EventMessageBus r)) dec_string);
     ("Version", on sr_Version (fun x r => mkStatusResponse (sr_Comment r) (sr_Name r) x (sr_Status r) (sr_EventMessageBus r)) dec_string);
     ("Status", on sr_Status (fun x r => mkStatusResponse (sr_Comment r) (sr_Name r) (sr_Version r) x (sr_EventMessageBus r)) (dec_pointer (dec_struct "common." "Status." PluginResponseStatus_type) zeroPluginResponseStatus));
     ("EventMessageBus", on sr_EventMessageBus (fun x r => mkStatusResponse (sr_Comment r) (sr_Name r) (sr_Version r) (sr_Status r) x) (dec_pointer (dec_struct "common." "EventMessageBus." EventMessageBus_type) zeroEventMessageBus))] |}.

Section AgPlugin.
Context `{Env, !IndexEnv, Config, !RSA, !MapIter, !PluginHTTP, !PluginConf}.

(** ** pluginstatus.go *)

Definition plugin_base (plugin : Plugin) : string := "https://" +:+ pl_IP plugin +:+ ":" +:+ pl_Port plugin.
Definition password (plugin : Plugin) : string := default "" (pl_Password plugin).
(** One exchange: the error of the client is passed over, and shows when the request is made. *)
Definition exchange (request : plugin_request) : IO (string + plugin_reply) :=
  let! w := get in ret (http_Do request (w_env w)).

(** The token of a new session, or the error. *)
Definition login (plugin : Plugin) : IO (string + string) :=
  let url := plugin_base plugin +:+ "/ODIM/v1/Sessions" in
  match http_NewRequest "POST" url with
  | Some err => ret (inl err)
  | None =>
      let! resp := exchange {| pr_Method := "POST"; pr_URL := url;
        pr_Body := Some (JObj [("Password", JStr (password plugin)); ("Username", JStr (pl_Username plugin))]);
        pr_Header := [("Content-Type", "application/json")]; pr_BasicAuth := None; pr_ServerName := "" |} in
      match resp with
      | inl err => ret (inl ("error while trying to make the request to the plugin: " +:+ err))
      | inr resp =>
          if negb (rp_StatusCode resp =? StatusCreated)%Z
          then ret (inl ("error :Unable to create session with plugin " +:+ pretty (rp_StatusCode resp)))
          else ret (inr (rp_Token resp))
      end
  end.

(** What one try sends on its three channels: an error, whether the plugin is alive, its queues. *)
Definition verdict : Type := option string * bool * list string.
Definition dead (err : string) : verdict := (Some err, false, []).
(** The last error is built from a status that may be nil. *)
Definition read_status (bodyData : StatusResponse) : outcome verdict :=
  let queueList := match sr_EventMessageBus bodyData with None => [] | Some m => eq_QueueName <$> items (mb_EmbQueue m) end in
  match sr_Status bodyData with
  | None => Panic
  | Some st =>
      if EqualFold (ps_Available st) "yes" then Ok (None, true, queueList)
      else Ok (Some ("error: expected plugin status: yes, but got " +:+ ps_Available st), false, queueList)
  end.
(** The request for the status; what a buffer that was read before still holds is not followed. *)
Definition status_request (plugin : Plugin) (token : option string) : plugin_request := {|
  pr_Method := "GET"; pr_URL := plugin_base plugin +:+ "/ODIM/v1/Status"; pr_Body := None;
  pr_Header := ("Content-Type", "application/json") :: match token with Some t => [("X-Auth-Token", t)] | None => [] end;
  pr_BasicAuth := match token with Some _ => None | None => Some (pl_Username plugin, password plugin) end;
  pr_ServerName := "" |}.
Definition getStatus (plugin : Plugin) : IO verdict :=
  match http_NewRequest "GET" (plugin_base plugin +:+ "/ODIM/v1/Status") with
  | Some err => ret (dead ("error while trying to create the request: " +:+ err))
  | None =>
      let! token := if EqualFold (pl_PreferredAuthType plugin) "XAuthToken"
                    then let! r := login plugin in ret (match r with inl err => inl err | inr t => inr (Some t) end)
                    else ret (inr None) in
      match token with
      | inl err => ret (dead err)
      | inr token =>
          let! resp := exchange (status_request plugin token) in
          match resp with
          | inl err => ret (dead ("error while trying to make the request to the plugin: " +:+ err))
          | inr resp =>
              if negb (rp_StatusCode resp =? StatusOK)%Z
              then ret (dead ("error: expected response from plugin 200, but got " +:+ pretty (rp_StatusCode resp)))
              else
                match rp_Body resp with
                | inl err => ret (dead ("error while trying to read the response body: " +:+ err))
                | inr (_, doc) =>
                    match Unmarshal StatusResponse_type doc zeroStatusResponse with
                    | (_, Some err) => ret (dead ("error while trying to unmarshal the response: " +:+ err))
                    | (bodyData, None) => lift (read_status bodyData)
                    end
                end
          end
      end
  end.
(** One try: the first of the request and of the timer that sends its error sends the rest too; the
    other one is left waiting.  The request may panic all the same. *)
Definition try_status (plugin : Plugin) : IO verdict :=
  let! v := getStatus plugin in
  let! w := get in
  ret (if wait_exceeded (status_request plugin None) (w_env w)
       then dead "error: wait time exceeded and got no response from plugin" else v).

Definition minute_ns : Z := 60000000000.
(** The loop from try [i] on. *)
Fixpoint check_from (n : nat) (plugin : Plugin) (i : Z) (statusLog : string) (queueList : list string)
  : IO (bool * Z * list string * option string) :=
  match n with
  | O => ret (false, MaxRetryAttempt, queueList,
           Some ("error: maximum retries are over. unable to contact the plugin: error logs: " +:+ statusLog))
  | S n' =>
      let! (roundError, alive, queueList) := try_status plugin in
      let statusLog := match roundError with
                       | Some err => statusLog +:+ " LOGS FROM TRY " +:+ pretty (i + 1)%Z +:+ ":" +:+ err
                       | None => statusLog end in
      if (alive : bool) then
        ret (true, (i + 1)%Z, queueList,
             if String.eqb statusLog "" then None else Some ("error logs: " +:+ statusLog))
      else Sleep (RetryIntervalInMins * minute_ns) ;;; check_from n' plugin (i + 1) statusLog queueList
  end.
Definition CheckStatus (plugin : Plugin) : IO (bool * Z * list string * option string) :=
  check_from (Z.to_nat MaxRetryAttempt) plugin 0 "" [].

(** agcommon/common.go: both functions of the name; the status is false when there was an error. *)
Definition GetPluginStatus (plugin : Plugin) : IO bool :=
  let! (status, _, topics, err) := CheckStatus plugin in
  match err with Some _ => ret false | None => ret status end.

(** ** pmbhandle: one request to a plugin *)

Definition ContactPlugin (url method token odataID : string) (body : json) (collaboratedInfo : option (gmap string string))
  : IO (string + plugin_reply) :=
  match http_NewRequest method url with
  | Some err => ret (inl err)
  | None =>
      match TLS_error with
      | Some err => ret (inl err)
      | None =>
          let info k := default "" (default ∅ collaboratedInfo !! k) in
          exchange {| pr_Method := method; pr_URL := url; pr_Body := Some body;
            pr_Header := ([("Content-Type", "application/json")]
              ++ (if String.eqb token "" then [] else [("X-Auth-Token", token)])
              ++ (if String.eqb odataID "" then [] else [("OdataID", odataID)]))%list;
            pr_BasicAuth := match collaboratedInfo with None => None | Some _ => Some (info "UserName", info "Password") end;
            pr_ServerName := info "ServerName" |}
      end
  end.

(** ** system/common.go *)

(** getResourceRequest: the fields that are read *)
Record getResourceRequest := {
  gr_DeviceInfo : json;
  gr_LoginCredentials : option (gmap string string);
  gr_OID : string;
  gr_Plugin : Plugin;
  gr_HTTPMethodType : string;
  gr_Token : string;
  gr_StatusPoll : bool;
}.
Record responseStatus := mkStatus {
  rs_StatusCode : Z;
  rs_StatusMessage : string;
  rs_MsgArgs : list iface;
}.

(** Every entry of the map starts from the OID again. *)
Definition southbound (OID : string) : string :=
  fold_left (fun _ kv => Replace OID kv.1 kv.2) (map_iter SouthBoundURL) "".
Definition northbound (data : string) : string :=
  fold_left (fun data kv => Replace data kv.1 kv.2) (map_iter NorthBoundURL) data.

Definition callPlugin (req : getResourceRequest) : IO (string + plugin_reply) :=
  let oid := southbound (gr_OID req) in
  let reqURL := plugin_base (gr_Plugin req) +:+ oid in
  if EqualFold (pl_PreferredAuthType (gr_Plugin req)) "BasicAuth"
  then ContactPlugin reqURL (gr_HTTPMethodType req) "" oid (gr_DeviceInfo req) (gr_LoginCredentials req)
  else ContactPlugin reqURL (gr_HTTPMethodType req) (gr_Token req) oid (gr_DeviceInfo req) None.

(** The call, and once more when polling the status finds the plugin alive. *)
Definition call_polling (req : getResourceRequest) : IO (string + plugin_reply) :=
  let! pluginResp := callPlugin req in
  match pluginResp with
  | inr _ => ret pluginResp
  | inl _ =>
      if gr_StatusPoll req then
        let! up := GetPluginStatus (gr_Plugin req) in
        if (up : bool) then callPlugin req else ret pluginResp
      else ret pluginResp
  end.
(** The body and the token with the status, or the status and the error. *)
Definition contactPlugin (req : getResourceRequest) (errorMessage : string)
  : IO (responseStatus * string + string * string * responseStatus) :=
  let address := IString (plugin_base (gr_Plugin req) +:+ gr_OID req) in
  let! pluginResp := call_polling req in
  match pluginResp with
  | inl err => ret (inl (mkStatus StatusServiceUnavailable CouldNotEstablishConnection [address], errorMessage +:+ err))
  | inr pluginResp =>
      match rp_Body pluginResp with
      | inl err => ret (inl (mkStatus StatusInternalServerError InternalError [],
                             "error while trying to read plugin response body: " +:+ err))
      | inr (body, _) =>
          let code := int32 (rp_StatusCode pluginResp) in
          if negb (rp_StatusCode pluginResp =? StatusCreated)%Z && negb (rp_StatusCode pluginResp =? StatusOK)%Z then
            if (rp_StatusCode pluginResp =? StatusUnauthorized)%Z
            then ret (inl (mkStatus code ResourceAtURIUnauthorized [address],
                           errorMessage +:+ "error: invalid resource username/password"))
            else ret (inl (mkStatus code InternalError [], errorMessage +:+ body))
          else ret (inr (northbound body, rp_Token pluginResp, mkStatus code "" []))
      end
  end.

(** The part of an identifier before its first dot, and the rest; a URI that is empty panics. *)
Definition getIDsFromURI (uri : string) : outcome (string + string * string) :=
  match uri with
  | EmptyString => Panic
  | _ =>
      let uri' := if HasSuffix uri "/" then String.substring 0 (String.length uri - 1) uri else uri in
      match SplitN2 (last_part (Split uri' "/")) "." with
      | [uuid; id] => Ok (inr (uuid, id))
      | _ => Ok (inl ("error: no system id is found in " +:+ uri'))
      end
  end.
End AgPlugin.
