(* ===== verification/AgTask.v ===== *)
(** lib-utilities/services/task.go, and the part of svc-aggregation/system/common.go that tells the
    task service about the progress of a task.

    The state is that of the process of the aggregation service, of the two services it asks, which
    are the ones modelled here, and the goroutines the handlers have started.  All processes work on
    the same environment, the one of the task service's world.  How gRPC words the errors, and the
    bytes of a response that is kept with a task, are parameters. *)
From stdpp Require Import base gmap list strings.
From S2P Require Import Prelude Go GoTime GoText Response Redis World ConnPool RedisIndex Index AsModel Auth Session Rpc System TModel THandle Services TaskSystem Search Http AgData AgModel Aggregates.
Open Scope string_scope.

Class TaskPeer `{Env} : Type := {
  tasks_client : env -> option string;    (* ODIMService.Client(Tasks) *)
  tasks_call : env -> option string;      (* the call itself *)
  status_text : string -> string;         (* how an error of the handler reads at the client *)
  tasks_lost : string;                    (* the error of a call whose server has died *)
  body_text : body agBody -> option string;   (* json.Marshal of a body *)
  request_text : AggregatorRequest -> string; (* json.Marshal of a request, a struct protoc makes *)
}.

(** The goroutines that work on a request after it was answered. *)
Inductive agThread :=
| ResetThread (taskID sessionUserName : string) (req : AggregatorRequest)
| ResetElementsThread (taskID sessionUserName : string) (req : AggregatorRequest)
| SetDefaultBootOrderThread (taskID sessionUserName : string) (req : AggregatorRequest)
| SetDefaultBootOrderElementsThread (taskID sessionUserName : string) (req : AggregatorRequest)
| AddAggregationSourceThread (taskID sessionUserName : string) (req : AggregatorRequest)
| DeleteAggregationSourceThread (taskID targetURI : string) (req : AggregatorRequest)
| RediscoverThread (systemID systemURL : string).

Section AgTask.
Context `{Env, !IndexEnv, Libs, Config, !Network, !MessageBus, !TaskPeer}.
Context (fuel : nat).

Record AgWorld := mkAgWorld {
  aw_own : World;
  aw_task : TaskWorld;
  aw_threads : list agThread;
}.
Definition ag_env (s : AgWorld) : env := task_env (aw_task s).
Definition own_world (s : AgWorld) : World := with_env (ag_env s) (aw_own s).
Definition with_task_env (e : env) (t : TaskWorld) : TaskWorld :=
  mkTaskWorld (with_env e (tw_world t)) (tw_session t) (tw_events t) (tw_threads t).
Definition with_tasks (t : TaskWorld) (s : AgWorld) : AgWorld := mkAgWorld (aw_own s) t (aw_threads s).
Definition start (t : agThread) (s : AgWorld) : AgWorld :=
  mkAgWorld (aw_own s) (aw_task s) (aw_threads s ++ [t])%list.
(** The task service after its process has died. *)
Definition restart_tasks (t : TaskWorld) : TaskWorld :=
  mkTaskWorld (restart (tw_world t)) (tw_session t) (tw_events t) [].

Definition in_own {A} (m : IO A) : M AgWorld A := fun s =>
  let (o, w) := m (own_world s) in
  (o, mkAgWorld w (with_task_env (w_env w) (aw_task s)) (aw_threads s)).
Definition in_session_service A (m : IO A) : M AgWorld A := fun s =>
  let (o, t) := TaskSystem.in_session m (aw_task s) in (o, with_tasks t s).
Definition in_tasks {A} (m : M TaskWorld A) : M AgWorld (option A) := fun s =>
  match m (aw_task s) with
  | (Ok a, t) => (Ok (Some a), with_tasks t s)
  | (Panic, t) => (Ok None, with_tasks (restart_tasks t) s)
  end.

(** ** services/task.go *)

(** Without a client the nil connection is closed, which panics. *)
Definition ask_tasks {A} (handler : M TaskWorld (string + A)) : M AgWorld (string + A) :=
  let! s := get in
  match tasks_client (ag_env s) with
  | Some _ => panic
  | None =>
      let! r := in_tasks handler in
      let! s := get in
      match r, tasks_call (ag_env s) with
      | None, _ => ret (inl tasks_lost)
      | Some _, Some err => ret (inl err)
      | Some (inl e), None => ret (inl (status_text e))
      | Some (inr a), None => ret (inr a)
      end
  end.
Definition CreateTask (sessionUserName : string) : M AgWorld (or_err string) :=
  ask_tasks (THandle.CreateTask (task fuel) {| ct_UserName := sessionUserName; ct_ParentTaskID := "" |}).
Definition CreateChildTask (sessionUserName parentTaskID : string) : M AgWorld (or_err string) :=
  ask_tasks (THandle.CreateChildTask (task fuel) {| ct_UserName := sessionUserName; ct_ParentTaskID := parentTaskID |}).
(** [ptypes.TimestampProto] *)
Definition TimestampProto (t : Z) : string + Timestamp :=
  let ts := {| ts_Seconds := t / nano; ts_Nanos := t mod nano |} in
  match ptypes_Timestamp (Some ts) with inl e => inl e | inr _ => inr ts end.
Definition UpdateTask (taskID taskState taskStatus : string) (percentComplete : Z) (payLoad : ProtoPayload)
    (endTime : Z) : M AgWorld err :=
  match TimestampProto endTime with
  | inl e => ret (Some e)
  | inr tspb =>
      let! r := ask_tasks (let! e := THandle.UpdateTask (task fuel) {|
        ut_TaskID := taskID; ut_TaskState := taskState; ut_TaskStatus := taskStatus;
        ut_PercentComplete := percentComplete; ut_PayLoad := Some payLoad; ut_EndTime := Some tspb |} in
        ret (match e with Some e => inl e | None => inr tt end)) in
      ret (match r with inl e => Some e | inr _ => None end)
  end.

(** ** common.go *)

Definition Running := "Running".
Definition StatusTextOK := "OK".
Definition Warning := "Warning".
Definition Critical := "Critical".

Definition fillTaskData (taskID targetURI request : string) (resp : agRPC) (taskState taskStatus : string)
    (percentComplete : Z) (httpMethod : string) : TaskData agBody :=
  {| td_TaskID := taskID; td_TargetURI := targetURI; td_Response := resp; td_TaskRequest := request;
     td_TaskState := taskState; td_TaskStatus := taskStatus; td_PercentComplete := percentComplete;
     td_HTTPMethod := httpMethod |}.
(** The status code of a response is an int32. *)
Definition payload_of (td : TaskData agBody) : ProtoPayload := {|
  pp_HTTPHeaders := match Header (td_Response _ td) with [] => None | h => Some (list_to_map h) end;
  pp_HTTPOperation := td_HTTPMethod _ td;
  pp_JSONBody := td_TaskRequest _ td;
  pp_StatusCode := int32 (StatusCode (td_Response _ td));
  pp_TargetURI := td_TargetURI _ td;
  pp_ResponseBody := body_text (RBody (td_Response _ td)) |}.

(** [None] tells that the goroutine has been ended ([runtime.Goexit]). *)
Definition UpdateTaskData (td : TaskData agBody) : M AgWorld (option err) :=
  let update state :=
    let! now := in_own Now in
    UpdateTask (td_TaskID _ td) state (td_TaskStatus _ td) (td_PercentComplete _ td) (payload_of td) now in
  let! e := update (td_TaskState _ td) in
  if bool_decide (e = Some Cancelling) then
    let! _ := update Cancelled in
    ret (if (td_PercentComplete _ td =? 0)%Z
         then Some (Some ("error while starting the task: " +:+ Cancelling)) else None)
  else ret (Some None).

(** [common.GeneralError] with a task to update. *)
Definition TaskError (code : Z) (st em : string) (margs : list iface) (t : TaskUpdateInfo) : M AgWorld (option agRPC) :=
  let! (resp, td) := lift (GeneralErrorTask code st em margs (Some t)) in
  match td with
  | None => ret (Some resp)
  | Some td =>
      let! r := UpdateTaskData td in
      ret (match r with None => None | Some _ => Some resp end)
  end.
Definition task_info (taskID targetURI request : string) : TaskUpdateInfo :=
  {| tui_TaskID := taskID; tui_TargetURI := targetURI; tui_TaskRequest := request; tui_HasUpdateTask := true |}.
Definition no_body_yet (code : Z) : agRPC := mkRPC code "" [] NoBody.
End AgTask.
