(* ===== verification/AgBatch.v ===== *)
(** The scheduling of the resets of many systems, as ResetElementsOfAggregate of
    svc-aggregation/system/aggregate.go and Reset of reset.go do it: a goroutine per system, which
    sends one status; a goroutine that collects them and reports the progress; and the handler, which
    starts the goroutines in batches and waits for two wait groups.

    A configuration is the shared state with what each goroutine has still to do, the buffered channel
    and the counters.  A goroutine runs without interruption between two of its operations on the
    channel and the wait groups; every interleaving of these is a run.  A step is labelled with the
    status it sends.

    The second part is the simpler scheduling of the default boot orders. *)
From stdpp Require Import base list strings relations.
From Stdlib Require Import ZArith.
From S2P Require Import Prelude.
Open Scope Z_scope.

Section AgBatch.
(** [start_one element] runs the goroutine of an element up to its send: the status, and what is left to
    do.  [report code i] tells of the progress after status [i]: whether the task is cancelled, or
    [None] when the goroutine is ended.  [pause] is the time between two batches. *)
Context {W : Type} (start_one : string -> M W (Z * M W unit)) (report : Z -> nat -> M W (option bool)) (pause : M W unit).
Context (elements : list string) (BatchSize : Z).

Inductive work := ToStart (element : string) | ToEnd (remaining : M W unit).
Inductive main_at := InLoop (k : nat) (tempIndex : Z) | Paused (k : nat) | Waiting | WaitingWrite | Finished.
Inductive collector_at := Receive (i : nat) | Count (i : nat) | Ended.

Record conf := mkConf {
  c_world : W;
  c_main : main_at;
  c_collector : collector_at;
  c_workers : list work;
  c_chan : list Z;          (* subTaskChan *)
  c_wg : Z;
  c_writeWG : Z;
  c_code : Z;               (* resp.StatusCode *)
  c_partial : bool;         (* partialResultFlag *)
  c_cancelled : bool;
  c_panic : bool;
}.
Definition begin (w : W) : conf := mkConf w (InLoop 0 0) (Receive 0) [] [] 0 0 200 false false false.
Definition crash (c : conf) : conf :=
  mkConf (c_world c) (c_main c) (c_collector c) (c_workers c) (c_chan c) (c_wg c) (c_writeWG c) (c_code c)
    (c_partial c) (c_cancelled c) true.

Definition spawns (tempIndex : Z) : bool := (BatchSize =? 0) || (tempIndex <=? BatchSize).
Definition batch_full (tempIndex : Z) : bool := (tempIndex =? BatchSize) && negb (BatchSize =? 0).
(** [Done] of a wait group panics below zero. *)
Definition done_panics (counter : Z) : bool := counter - 1 <? 0.
Definition collect_code (code status : Z) : Z :=
  if negb (status =? 200) then if code <? status then status else code else code.

Inductive step : conf -> option Z -> conf -> Prop :=
| LoopStep c k t e :
    c_main c = InLoop k t -> elements !! k = Some e -> c_panic c = false ->
    step c None (mkConf (c_world c) (if batch_full (t + 1) then Paused (S k) else InLoop (S k) (t + 1)) (c_collector c)
      (if spawns (t + 1) then c_workers c ++ [ToStart e] else c_workers c) (c_chan c) (c_wg c + 1) (c_writeWG c + 1)
      (c_code c) (c_partial c) (c_cancelled c) false)
| PauseStep c k o w :
    c_main c = Paused k -> pause (c_world c) = (o, w) -> c_panic c = false ->
    step c None (mkConf w (InLoop k 0) (c_collector c) (c_workers c) (c_chan c) (c_wg c) (c_writeWG c)
      (c_code c) (c_partial c) (c_cancelled c) (match o with Ok _ => false | Panic => true end))
| LoopEnds c k t :
    c_main c = InLoop k t -> elements !! k = None -> c_panic c = false ->
    step c None (mkConf (c_world c) Waiting (c_collector c) (c_workers c) (c_chan c) (c_wg c) (c_writeWG c)
      (c_code c) (c_partial c) (c_cancelled c) false)
| Waited c :
    c_main c = Waiting -> c_wg c = 0 -> c_panic c = false ->
    step c None (mkConf (c_world c) WaitingWrite (c_collector c) (c_workers c) (c_chan c) (c_wg c) (c_writeWG c)
      (c_code c) (c_partial c) (c_cancelled c) false)
| WaitedWrite c :
    c_main c = WaitingWrite -> c_writeWG c = 0 -> c_panic c = false ->
    step c None (mkConf (c_world c) Finished (c_collector c) (c_workers c) (c_chan c) (c_wg c) (c_writeWG c)
      (c_code c) (c_partial c) (c_cancelled c) false)
| WorkerSends c i e st rest w :
    c_workers c !! i = Some (ToStart e) -> start_one e (c_world c) = (Ok (st, rest), w) ->
    (length (c_chan c) < length elements)%nat -> c_panic c = false ->
    step c (Some st) (mkConf w (c_main c) (c_collector c) (<[i := ToEnd rest]> (c_workers c)) (c_chan c ++ [st])
      (c_wg c) (c_writeWG c) (c_code c) (c_partial c) (c_cancelled c) false)
| WorkerPanics c i e w :
    c_workers c !! i = Some (ToStart e) -> start_one e (c_world c) = (Panic, w) -> c_panic c = false ->
    step c None (crash c)
| WorkerEnds c i m o w :
    c_workers c !! i = Some (ToEnd m) -> m (c_world c) = (o, w) -> c_panic c = false ->
    step c None (mkConf w (c_main c) (c_collector c) (delete i (c_workers c)) (c_chan c) (c_wg c - 1) (c_writeWG c)
      (c_code c) (c_partial c) (c_cancelled c)
      (match o with Ok _ => done_panics (c_wg c) | Panic => true end))
| CollectLast c i st chan :
    c_collector c = Receive i -> S i = length elements -> c_cancelled c = false -> c_chan c = st :: chan ->
    c_panic c = false ->
    step c None (mkConf (c_world c) (c_main c) (Count i) (c_workers c) chan (c_wg c) (c_writeWG c)
      (collect_code (c_code c) st) (negb (st =? 200) || c_partial c) false false)
| Collect c i st chan o w :
    c_collector c = Receive i -> (S i < length elements)%nat -> c_cancelled c = false -> c_chan c = st :: chan ->
    report (collect_code (c_code c) st) i (c_world c) = (o, w) -> c_panic c = false ->
    step c None (mkConf w (c_main c) (match o with Ok None => Ended | _ => Count i end) (c_workers c) chan
      (c_wg c) (c_writeWG c) (collect_code (c_code c) st) (negb (st =? 200) || c_partial c)
      (match o with Ok (Some b) => b | _ => false end) (match o with Panic => true | _ => false end))
| CollectNothing c i :
    c_collector c = Receive i -> (i < length elements)%nat -> c_cancelled c = true -> c_panic c = false ->
    step c None (mkConf (c_world c) (c_main c) (Count i) (c_workers c) (c_chan c) (c_wg c) (c_writeWG c)
      (c_code c) (c_partial c) true false)
| Counted c i :
    c_collector c = Count i -> c_panic c = false ->
    step c None (mkConf (c_world c) (c_main c) (Receive (S i)) (c_workers c) (c_chan c) (c_wg c) (c_writeWG c - 1)
      (c_code c) (c_partial c) (c_cancelled c) (done_panics (c_writeWG c))).

(** A run, with the statuses it sends. *)
Inductive run : conf -> list Z -> conf -> Prop :=
| RunNil c : run c [] c
| RunStep c o c1 l c2 : step c o c1 -> run c1 l c2 -> run c (match o with Some st => st :: l | None => l end) c2.
Definition stuck (c : conf) : Prop := forall o c', ~ step c o c'.

(** ** Every run ends *)

Definition main_left (m : main_at) : nat :=
  match m with
  | InLoop k _ => 6 * (length elements - k) + 3
  | Paused k => 6 * (length elements - k) + 4
  | Waiting => 2 | WaitingWrite => 1 | Finished => 0
  end.
Definition work_left (x : work) : nat := match x with ToStart _ => 2 | ToEnd _ => 1 end.
Definition collector_left (x : collector_at) : nat :=
  match x with Receive i => 2 * (length elements - i) | Count i => 2 * (length elements - i) - 1 | Ended => 0 end.
Definition left_to_do (c : conf) : nat :=
  main_left (c_main c) + sum_list_with work_left (c_workers c) + collector_left (c_collector c) + (if c_panic c then 0 else 1).
(** The counts of the collector stay below the number of elements. *)
Definition collector_ok (c : conf) : Prop := match c_collector c with Count i => (i < length elements)%nat | _ => True end.

Lemma work_sum_insert i x y l : l !! i = Some x ->
  (sum_list_with work_left (<[i := y]> l) + work_left x = sum_list_with work_left l + work_left y)%nat.
Proof.
  revert i. induction l as [|z l IH]; intros [|i] Hi; [done..| |]; simpl in *.
  - injection Hi as ->. lia.
  - specialize (IH i Hi). lia.
Qed.
Lemma work_sum_delete i x l : l !! i = Some x ->
  (sum_list_with work_left (delete i l) + work_left x = sum_list_with work_left l)%nat.
Proof.
  revert i. induction l as [|z l IH]; intros [|i] Hi; [done..| |]; simpl in *.
  - injection Hi as ->. lia.
  - specialize (IH i Hi). lia.
Qed.
Lemma sum_app l l' : (sum_list_with work_left (l ++ l') = sum_list_with work_left l + sum_list_with work_left l')%nat.
Proof. apply sum_list_with_app. Qed.

Lemma step_less c o c' : collector_ok c -> step c o c' -> collector_ok c' /\ (left_to_do c' < left_to_do c)%nat.
Proof.
  intros Hc Hs. destruct Hs; unfold left_to_do, collector_ok in *; simpl in *;
    repeat match goal with
    | H : c_main _ = _ |- _ => rewrite H in *
    | H : c_collector _ = _ |- _ => rewrite H in *
    | H : c_panic _ = _ |- _ => rewrite H in *
    | H : elements !! _ = Some _ |- _ => apply lookup_lt_Some in H
    | H : c_workers _ !! _ = Some (ToStart _) |- context [<[_ := ToEnd ?r]> _] =>
        pose proof (work_sum_insert _ _ (ToEnd r) _ H); clear H
    | H : c_workers _ !! _ = Some (ToEnd _) |- _ => pose proof (work_sum_delete _ _ _ H); clear H
    end; simpl in *; rewrite ?sum_app; simpl; try (split; [done|lia]).
  - split; [done|]. destruct (batch_full _), (spawns _); rewrite ?sum_app; simpl; lia.
  - split; [done|]. destruct o; simpl; lia.
  - split; [done|]. destruct o; [destruct (done_panics _)|]; simpl; lia.
  - split; lia.
  - destruct o as [[b|]|]; simpl; split; lia.
  - split; [done|]. destruct (done_panics _); lia.
Qed.

Definition next (c c' : conf) : Prop := exists o, step c o c'.
Lemma runs_end c : collector_ok c -> Acc (flip next) c.
Proof.
  remember (left_to_do c) as n eqn:En. revert c En. induction (lt_wf n) as [n _ IH]. intros c -> Hc.
  constructor. intros c' [o Hs]. destruct (step_less _ _ _ Hc Hs) as [Hc' Hl]. by eapply IH.
Qed.

(** ** A negative size of the batches *)

Record hanging (w : W) (c : conf) : Prop := {
  ha_world : c_world c = w;
  ha_collector : c_collector c = Receive 0;
  ha_workers : c_workers c = [];
  ha_chan : c_chan c = [];
  ha_cancelled : c_cancelled c = false;
  ha_panic : c_panic c = false;
  ha_main : match c_main c with
            | InLoop k t => t = Z.of_nat k /\ (k <= length elements)%nat /\ c_wg c = Z.of_nat k
            | Waiting => c_wg c = Z.of_nat (length elements)
            | _ => False
            end;
}.
Lemma hanging_step w c o c' : BatchSize < 0 -> elements <> [] -> hanging w c -> step c o c' -> o = None /\ hanging w c'.
Proof.
  intros Hb He [Hw Hc Hwo Hch Hca Hp Hm] Hs. destruct Hs; split; try done;
    repeat match goal with
    | H : c_main _ = _ |- _ => rewrite H in *
    | H : c_collector _ = _ |- _ => rewrite H in *
    | H : c_workers _ = _ |- _ => rewrite H in *
    | H : c_chan _ = _ |- _ => rewrite H in *
    end; try done; try congruence.
  - apply lookup_lt_Some in H0. destruct Hm as (-> & Hk & Hwg). unfold batch_full, spawns.
    assert (Z.of_nat k + 1 =? BatchSize = false) as -> by (apply Z.eqb_neq; lia).
    assert (BatchSize =? 0 = false) as -> by (apply Z.eqb_neq; lia).
    assert (Z.of_nat k + 1 <=? BatchSize = false) as -> by (apply Z.leb_gt; lia).
    split; simpl; try done. lia.
  - apply lookup_ge_None in H0. destruct Hm as (-> & Hk & Hwg). split; simpl; try done. lia.
  - destruct elements; [done|]. simpl in *. lia.
Qed.
(** No goroutine is started but each is waited for: the handler never gets beyond waiting. *)
Lemma batch_negative w l c : BatchSize < 0 -> elements <> [] -> run (begin w) l c ->
  l = [] /\ hanging w c /\ Acc (flip next) c /\
  (stuck c -> c_main c = Waiting /\ c_wg c = Z.of_nat (length elements)).
Proof.
  intros Hb He Hr.
  assert (Hh : l = [] /\ hanging w c).
  { remember (begin w) as c0 eqn:E0. assert (Hh : hanging w c0) by (subst; split; simpl; try done; lia). clear E0.
    induction Hr as [c|c o c1 l c2 Hs _ IH]; [done|]. destruct (hanging_step _ _ _ _ Hb He Hh Hs) as [-> Hh']. by apply IH. }
  destruct Hh as [-> Hh]. split_and!; [done|done|apply runs_end; unfold collector_ok; by rewrite (ha_collector _ _ Hh)|].
  intros Hst. destruct Hh as [Hw Hc Hwo Hch Hca Hp Hm]. destruct (c_main c) as [k t|k| | |] eqn:Em; try done.
  exfalso. destruct (elements !! k) as [e|] eqn:Ee; eapply Hst; [by eapply LoopStep|by eapply LoopEnds].
Qed.

(** ** What every interleaving comes to *)

(** The pieces of code neither panic nor find the task cancelled, as long as they are given states of
    an invariant, which they keep. *)
Context (I : W -> Prop).
Definition safe (m : M W unit) : Prop := forall w, I w -> wp m (fun o w' => o = Ok tt /\ I w') w.
Record SafeBatch : Prop := {
  start_safe e w : e ∈ elements -> I w ->
    wp (start_one e) (fun o w' => I w' /\ exists st rest, o = Ok (st, rest) /\ safe rest) w;
  report_safe code i w : (S i < length elements)%nat -> I w -> wp (report code i) (fun o w' => o = Ok (Some false) /\ I w') w;
  pause_safe : safe pause;
}.

Definition started (m : main_at) : nat := match m with InLoop k _ | Paused k => k | _ => length elements end.
Definition received (x : collector_at) : nat := match x with Receive i => i | Count i => S i | Ended => 0 end.
Definition counted (x : collector_at) : nat := match x with Receive i | Count i => i | Ended => 0 end.
Definition to_start (x : work) : bool := match x with ToStart _ => true | ToEnd _ => false end.
Definition work_ok (x : work) : Prop := match x with ToStart e => e ∈ elements | ToEnd m => safe m end.
Definition main_ok (c : conf) : Prop :=
  match c_main c with
  | InLoop k t => 0 <= t /\ (BatchSize <> 0 -> t < BatchSize)
  | Paused _ | Waiting => True
  | WaitingWrite => c_workers c = []
  | Finished => c_workers c = [] /\ c_writeWG c = 0
  end.
Definition not_ok (st : Z) : bool := negb (st =? 200).

(** [l] are the statuses that were sent, of which the collector has taken the first ones. *)
Record inv (l : list Z) (c : conf) : Prop := {
  inv_world : I (c_world c);
  inv_panic : c_panic c = false;
  inv_cancelled : c_cancelled c = false;
  inv_collector : c_collector c <> Ended;
  inv_started : (started (c_main c) <= length elements)%nat;
  inv_wg : c_wg c = Z.of_nat (length (c_workers c));
  inv_writeWG : c_writeWG c = Z.of_nat (started (c_main c)) - Z.of_nat (counted (c_collector c));
  inv_sent : (length l + length (List.filter to_start (c_workers c)) = started (c_main c))%nat;
  inv_chan : exists got, l = got ++ c_chan c /\ length got = received (c_collector c) /\
    c_code c = foldl Z.max 200 got /\ c_partial c = existsb not_ok got;
  inv_work : Forall work_ok (c_workers c);
  inv_main : main_ok c;
}.

Lemma max_ge l a : a <= foldl Z.max a l.
Proof. revert a. induction l as [|x l IH]; intros a; simpl; [lia|]. specialize (IH (Z.max a x)). lia. Qed.
Lemma collect_max got st : collect_code (foldl Z.max 200 got) st = foldl Z.max 200 (got ++ [st]).
Proof.
  rewrite foldl_app. simpl. unfold collect_code. pose proof (max_ge got 200).
  destruct (Z.eqb_spec st 200) as [->|]; simpl; [lia|]. destruct (Z.ltb_spec (foldl Z.max 200 got) st); lia.
Qed.
Lemma partial_app got st : not_ok st || existsb not_ok got = existsb not_ok (got ++ [st]).
Proof. rewrite existsb_app. simpl. rewrite orb_false_r. apply orb_comm. Qed.

Lemma filter_insert i e m l : l !! i = Some (ToStart e) ->
  length (List.filter to_start l) = S (length (List.filter to_start (<[i := ToEnd m]> l))).
Proof.
  revert i. induction l as [|x l IH]; intros [|i] Hi; [done..| |]; simpl in *.
  - by injection Hi as ->.
  - specialize (IH i Hi). destruct x; simpl; [f_equal|]; done.
Qed.
Lemma filter_delete i m l : l !! i = Some (ToEnd m) ->
  length (List.filter to_start (delete i l)) = length (List.filter to_start l).
Proof.
  revert i. induction l as [|x l IH]; intros [|i] Hi; [done..| |]; simpl in *.
  - by injection Hi as ->.
  - specialize (IH i Hi). destruct x; simpl; [f_equal|]; done.
Qed.
Lemma filter_le l : (length (List.filter to_start l) <= length l)%nat.
Proof. induction l as [|[] l IH]; simpl; lia. Qed.

Definition sent (o : option Z) (l : list Z) : list Z := match o with Some st => l ++ [st] | None => l end.
Lemma inv_received l c : inv l c ->
  (length l = received (c_collector c) + length (c_chan c))%nat /\ (length l <= started (c_main c))%nat.
Proof.
  intros [_ _ _ _ _ _ _ Hs (got & -> & Hg & _) _ _]. rewrite length_app in *. lia.
Qed.
Context (Hsafe : SafeBatch) (Hbatch : 0 <= BatchSize).

Lemma spawns_all t : 0 <= t -> (BatchSize <> 0 -> t < BatchSize) -> spawns (t + 1) = true.
Proof. intros Ht Hb. unfold spawns. destruct (Z.eqb_spec BatchSize 0); [done|]. apply Z.leb_le. specialize (Hb n). lia. Qed.
Lemma batch_next t : 0 <= t -> (BatchSize <> 0 -> t < BatchSize) ->
  if batch_full (t + 1) then True else 0 <= t + 1 /\ (BatchSize <> 0 -> t + 1 < BatchSize).
Proof.
  intros Ht Hb. unfold batch_full. destruct (Z.eqb_spec (t + 1) BatchSize), (Z.eqb_spec BatchSize 0); simpl;
    try done; (split; [lia|]); intros Hn; specialize (Hb Hn); lia.
Qed.

Lemma inv_loop l c k t e : inv l c -> c_main c = InLoop k t -> elements !! k = Some e ->
  inv l (mkConf (c_world c) (if batch_full (t + 1) then Paused (S k) else InLoop (S k) (t + 1)) (c_collector c)
      (if spawns (t + 1) then c_workers c ++ [ToStart e] else c_workers c) (c_chan c) (c_wg c + 1) (c_writeWG c + 1)
      (c_code c) (c_partial c) (c_cancelled c) false).
Proof.
  intros [Iw Ip Ic Ico Ist Iwg Iww Isent Ich Iwo Im] Hm He. unfold main_ok in Im. rewrite Hm in *. destruct Im as [Ht Hb].
  pose proof (lookup_lt_Some _ _ _ He). rewrite spawns_all by done. pose proof (batch_next t Ht Hb) as Hn.
  assert (Hs : started (if batch_full (t + 1) then Paused (S k) else InLoop (S k) (t + 1)) = S k) by (by destruct (batch_full _)).
  split; simpl in *; rewrite ?Hs; try done; try lia.
  - rewrite Iwg, length_app. simpl. lia.
  - rewrite List.filter_app, length_app. simpl. lia.
  - apply Forall_app. split; [done|]. constructor; [|done]. by eapply list_elem_of_lookup_2.
  - unfold main_ok. simpl. by destruct (batch_full _).
Qed.
Lemma inv_send l c i e st rest w : inv l c -> c_workers c !! i = Some (ToStart e) ->
  start_one e (c_world c) = (Ok (st, rest), w) ->
  inv (l ++ [st]) (mkConf w (c_main c) (c_collector c) (<[i := ToEnd rest]> (c_workers c)) (c_chan c ++ [st])
      (c_wg c) (c_writeWG c) (c_code c) (c_partial c) (c_cancelled c) false).
Proof.
  intros [Iw Ip Ic Ico Ist Iwg Iww Isent (got & Hl & Hg & Hc & Hp) Iwo Im] Hi E.
  pose proof (Forall_lookup_1 _ _ _ _ Iwo Hi) as He.
  destruct (wp_run _ _ _ _ _ (start_safe Hsafe e (c_world c) He Iw) E) as (Iw' & ? & ? & [= <- <-] & Hr).
  pose proof (filter_insert i e rest _ Hi) as Hf.
  split; simpl; try done.
  - by rewrite length_insert.
  - rewrite length_app. simpl. lia.
  - exists got. rewrite Hl, app_assoc. by split_and!.
  - by apply Forall_insert.
  - unfold main_ok in *. simpl in *. destruct (c_main c); try done; [by rewrite Im in Hi|destruct Im as [Im _]; by rewrite Im in Hi].
Qed.
Lemma inv_end l c i m o w : inv l c -> c_workers c !! i = Some (ToEnd m) -> m (c_world c) = (o, w) ->
  inv l (mkConf w (c_main c) (c_collector c) (delete i (c_workers c)) (c_chan c) (c_wg c - 1) (c_writeWG c)
      (c_code c) (c_partial c) (c_cancelled c) (match o with Ok _ => done_panics (c_wg c) | Panic => true end)).
Proof.
  intros [Iw Ip Ic Ico Ist Iwg Iww Isent Ich Iwo Im] Hi E.
  pose proof (Forall_lookup_1 _ _ _ _ Iwo Hi) as Hm. destruct (wp_run _ _ _ _ _ (Hm (c_world c) Iw) E) as [-> Iw'].
  pose proof (filter_delete i m _ Hi) as Hf. pose proof (length_delete (c_workers c) i ltac:(by eexists)) as Hd.
  pose proof (lookup_lt_Some _ _ _ Hi) as Hlt.
  split; simpl; try done; try lia.
  - unfold done_panics. apply Z.ltb_ge. lia.
  - by apply Forall_delete.
  - unfold main_ok in *. simpl in *. destruct (c_main c); try done; [by rewrite Im in Hi|destruct Im as [Im _]; by rewrite Im in Hi].
Qed.
Lemma inv_collect l c i st chan w : inv l c -> c_collector c = Receive i -> c_chan c = st :: chan -> I w ->
  inv l (mkConf w (c_main c) (Count i) (c_workers c) chan (c_wg c) (c_writeWG c)
      (collect_code (c_code c) st) (not_ok st || c_partial c) false false).
Proof.
  intros [Iw Ip Ic Ico Ist Iwg Iww Isent (got & Hl & Hg & Hc & Hp) Iwo Im] Hr Hch Iw'. rewrite Hr in *. simpl in *.
  split; simpl; try done. exists (got ++ [st]). rewrite Hl, Hch, <- app_assoc. split_and!; [done|..].
  - rewrite length_app. simpl. lia.
  - by rewrite Hc, collect_max.
  - by rewrite Hp, partial_app.
Qed.

Lemma inv_step l c o c' : inv l c -> step c o c' -> inv (sent o l) c'.
Proof.
  intros Hi Hs. pose proof (inv_received _ _ Hi) as [Hr Hle]. destruct Hs as [c k t e Hm He _|c k o w Hm E _|c k t Hm He _|
    c Hm Hz _|c Hm Hz _|c i e st rest w Hw E _ _|c i e w Hw E _|c i m o w Hw E _|c i st chan Hc Hn _ Hch _|
    c i st chan o w Hc Hn _ Hch E _|c i Hc Hn Hca _|c i Hc _]; simpl sent.
  - by apply inv_loop.
  - destruct Hi as [Iw Ip Ic Ico Ist Iwg Iww Isent Ich Iwo Im]. rewrite Hm in *.
    destruct (wp_run _ _ _ _ _ (pause_safe Hsafe _ Iw) E) as [-> Iw']. split; simpl; try done. split; [lia|]. lia.
  - destruct Hi as [Iw Ip Ic Ico Ist Iwg Iww Isent Ich Iwo Im]. rewrite Hm in *. apply lookup_ge_None in He. simpl in *.
    assert (k = length elements) as -> by lia. by split.
  - destruct Hi as [Iw Ip Ic Ico Ist Iwg Iww Isent Ich Iwo Im]. rewrite Hm in *. simpl in *.
    assert (c_workers c = []) as Hw by (apply length_zero_iff_nil; lia). by split.
  - destruct Hi as [Iw Ip Ic Ico Ist Iwg Iww Isent Ich Iwo Im]. unfold main_ok in Im. rewrite Hm in *. simpl in *. by split.
  - by eapply inv_send.
  - exfalso. pose proof (Forall_lookup_1 _ _ _ _ (inv_work _ _ Hi) Hw) as He.
    destruct (wp_run _ _ _ _ _ (start_safe Hsafe e (c_world c) He (inv_world _ _ Hi)) E) as (_ & ? & ? & ? & _). done.
  - by eapply inv_end.
  - eapply inv_collect; [done..|apply Hi].
  - destruct (wp_run _ _ _ _ _ (report_safe Hsafe _ _ _ Hn (inv_world _ _ Hi)) E) as [-> Iw']. by eapply inv_collect.
  - by rewrite (inv_cancelled _ _ Hi) in Hca.
  - destruct Hi as [Iw Ip Ic Ico Ist Iwg Iww Isent Ich Iwo Im]. rewrite Hc in *. simpl in *.
    split; simpl; try done; try lia.
    + unfold done_panics. apply Z.ltb_ge. lia.
    + unfold main_ok in *. simpl. destruct (c_main c); try done. destruct Im as [_ Im]. simpl in *. lia.
Qed.

Lemma inv_begin w : I w -> inv [] (begin w).
Proof. intros Hw. split; simpl; try done; [lia|by exists []|]. split; lia. Qed.
Lemma inv_run l c l' c' : inv l c -> run c l' c' -> inv (l ++ l') c'.
Proof.
  intros Hi Hr. revert l Hi. induction Hr as [c|c o c1 l2 c2 Hs _ IH]; intros l Hi; [by rewrite app_nil_r|].
  pose proof (inv_step _ _ _ _ Hi Hs) as Hi'. specialize (IH _ Hi'). destruct o; simpl in *; [by rewrite <- app_assoc in IH|done].
Qed.

(** Something can always be done until the handler has finished. *)
Lemma inv_progress l c : inv l c -> c_main c <> Finished -> exists o c', step c o c'.
Proof.
  intros Hi Hm. pose proof (inv_received _ _ Hi) as [Hr Hle]. pose proof Hi as [Iw Ip Ic Ico Ist Iwg Iww Isent Ich Iwo Im].
  pose proof (filter_le (c_workers c)) as Hfl.
  destruct (c_main c) as [k t|k| | |] eqn:Em; simpl in *.
  - destruct (elements !! k) as [e|] eqn:Ee; eexists _, _; [by eapply LoopStep|by eapply LoopEnds].
  - destruct (pause (c_world c)) as [o w] eqn:E. eexists _, _. by eapply PauseStep.
  - destruct (c_workers c) as [|x l'] eqn:Ew; [eexists _, _; eapply Waited; [done|simpl in *; lia|done]|].
    apply Forall_cons in Iwo as [Hx _]. destruct x as [e|m]; simpl in *.
    + destruct (wp_elim _ _ _ (start_safe Hsafe e (c_world c) Hx Iw)) as (o & w & E & _ & st & rest & -> & _).
      eexists _, _. eapply (WorkerSends _ 0%nat); [by rewrite Ew|done| |done]. simpl in Isent. lia.
    + destruct (m (c_world c)) as [o w] eqn:E. eexists _, _. eapply (WorkerEnds _ 0%nat); [by rewrite Ew|done|done].
  - unfold main_ok in Im. rewrite Em in Im. rewrite Im in *. simpl in *.
    destruct (c_collector c) as [i|i|] eqn:Ec; [|eexists _, _; by eapply Counted|done]. simpl in *.
    destruct (decide (i = length elements)) as [->|Hn]; [eexists _, _; eapply WaitedWrite; [done|lia|done]|].
    destruct (c_chan c) as [|st chan] eqn:Ech; [simpl in *; lia|].
    destruct (decide (S i = length elements)); [eexists _, _; by eapply CollectLast|].
    destruct (report (collect_code (c_code c) st) i (c_world c)) as [o w] eqn:E.
    eexists _, _. eapply Collect; [done|lia|done..].
  - done.
Qed.

(** Every run ends, and wherever it ends the handler has finished: all goroutines have ended, each sent
    its status, and the status of the response is the greatest of them, at least 200. *)
Lemma batch_completes w l c : I w -> run (begin w) l c ->
  Acc (flip next) c /\ c_panic c = false /\ c_cancelled c = false /\ I (c_world c) /\
  (stuck c -> c_main c = Finished /\ c_workers c = [] /\ length l = length elements /\
     c_code c = foldl Z.max 200 l /\ c_partial c = existsb not_ok l).
Proof.
  intros Hw Hr. pose proof (inv_run _ _ _ _ (inv_begin w Hw) Hr) as Hi. simpl in Hi.
  split; [|split; [apply Hi|split; [apply Hi|split; [apply Hi|]]]].
  - apply runs_end. unfold collector_ok. pose proof (inv_received _ _ Hi) as [Hrc Hle]. pose proof (inv_started _ _ Hi) as Hst.
    destruct (c_collector c) as [i|i|]; simpl in *; try done. lia.
  - intros Hst. assert (Hm : c_main c = Finished).
    { pose proof (inv_progress _ _ Hi) as Hn. destruct (c_main c); try done; destruct Hn as (o & c' & Hs); try done; by destruct (Hst o c'). }
    pose proof (inv_received _ _ Hi) as [Hrc Hle]. destruct Hi as [Iw Ip Ic Ico Ist Iwg Iww Isent (got & -> & Hg & Hc & Hp) Iwo Im].
    unfold main_ok in Im. rewrite Hm in *. destruct Im as [Hwk Hz]. rewrite Hwk in *. simpl in *.
    assert (Hch : c_chan c = []).
    { apply length_zero_iff_nil. rewrite Nat.add_0_r in Isent. destruct (c_collector c); simpl in *; try done; lia. }
    rewrite Hch, app_nil_r in *. split_and!; [done|done|lia|done|done].
Qed.

(** Where the handler has finished nothing can happen any more, and this is reached. *)
Lemma finished_stuck l c : inv l c -> c_main c = Finished -> stuck c.
Proof.
  intros Hi Hm o c' Hs. pose proof (inv_received _ _ Hi) as [Hr Hle].
  destruct Hi as [Iw Ip Ic Ico Ist Iwg Iww Isent Ich Iwo Im]. unfold main_ok in Im. rewrite Hm in *. destruct Im as [Hw Hz].
  rewrite Hw in *. simpl in *.
  assert (Hn : counted (c_collector c) = length elements) by lia. rewrite Hz in Iww.
  destruct Hs; try congruence; try match goal with H : c_workers _ !! _ = _ |- _ => by rewrite Hw in H end;
    repeat match goal with H : c_collector _ = _ |- _ => rewrite H in * end; simpl in *; lia.
Qed.
Lemma batch_reaches w : I w -> exists l c, run (begin w) l c /\ c_main c = Finished /\ stuck c.
Proof.
  intros Hw. pose proof (inv_begin w Hw) as Hi.
  assert (Ha : Acc (flip next) (begin w)) by (by apply runs_end).
  revert Hi. generalize (@nil Z). induction Ha as [c _ IH]. intros l Hi.
  assert (Hd : c_main c = Finished \/ c_main c <> Finished) by (destruct (c_main c); [by right..|by left]).
  destruct Hd as [Hf|Hf].
  - exists [], c. split; [constructor|]. split; [done|]. by eapply finished_stuck.
  - destruct (inv_progress _ _ Hi Hf) as (o & c' & Hs). pose proof (inv_step _ _ _ _ Hi Hs) as Hi'.
    destruct (IH c' (ex_intro _ o Hs) _ Hi') as (l' & c2 & Hr & Hfin). eexists _, c2. split; [by econstructor|done].
Qed.
End AgBatch.

(** * Gathering

    The scheduling of the default boot orders, as SetDefaultBootOrder of
    svc-aggregation/system/bootorder.go and SetDefaultBootOrderElementsOfAggregate of aggregate.go do it:
    a goroutine per system, which sends one status, and the handler, which takes the statuses and
    reports the progress.  It does not wait for the goroutines to end.

    Starting a goroutine touches nothing the goroutines share, so all are there from the beginning. *)
Open Scope Z_scope.

Section AgGather.
(** As in [AgBatch]. *)
Context {W : Type} (start_one : string -> M W (Z * M W unit)) (report : Z -> nat -> M W (option bool)).
Context (elements : list string).

Inductive gather_at := Gathering (i : nat) | Gathered | Exited.
Record gathering := mkGathering {
  g_world : W;
  g_main : gather_at;
  g_workers : list (work (W := W));
  g_chan : list Z;         (* subTaskChannel *)
  g_code : Z;              (* resp.StatusCode *)
  g_partial : bool;        (* partialResultFlag *)
  g_panic : bool;
}.
Definition gather_begin (w : W) : gathering := mkGathering w (Gathering 0) (ToStart <$> elements) [] 200 false false.

Inductive gather_step : gathering -> option Z -> gathering -> Prop :=
| GSends c i e st rest w :
    g_workers c !! i = Some (ToStart e) -> start_one e (g_world c) = (Ok (st, rest), w) ->
    (length (g_chan c) < length elements)%nat -> g_panic c = false ->
    gather_step c (Some st) (mkGathering w (g_main c) (<[i := ToEnd rest]> (g_workers c)) (g_chan c ++ [st])
      (g_code c) (g_partial c) false)
| GPanics c i e w :
    g_workers c !! i = Some (ToStart e) -> start_one e (g_world c) = (Panic, w) -> g_panic c = false ->
    gather_step c None (mkGathering w (g_main c) (g_workers c) (g_chan c) (g_code c) (g_partial c) true)
| GEnds c i m o w :
    g_workers c !! i = Some (ToEnd m) -> m (g_world c) = (o, w) -> g_panic c = false ->
    gather_step c None (mkGathering w (g_main c) (delete i (g_workers c)) (g_chan c) (g_code c) (g_partial c)
      (match o with Ok _ => false | Panic => true end))
| GLast c i st chan :
    g_main c = Gathering i -> S i = length elements -> g_chan c = st :: chan -> g_panic c = false ->
    gather_step c None (mkGathering (g_world c) (Gathering (S i)) (g_workers c) chan
      (collect_code (g_code c) st) (not_ok st || g_partial c) false)
| GTakes c i st chan o w :
    g_main c = Gathering i -> (S i < length elements)%nat -> g_chan c = st :: chan ->
    report (collect_code (g_code c) st) i (g_world c) = (o, w) -> g_panic c = false ->
    gather_step c None (mkGathering w (match o with Ok (Some false) => Gathering (S i) | _ => Exited end) (g_workers c) chan
      (collect_code (g_code c) st) (not_ok st || g_partial c) (match o with Ok _ => false | Panic => true end))
| GDone c i :
    g_main c = Gathering i -> (length elements <= i)%nat -> g_panic c = false ->
    gather_step c None (mkGathering (g_world c) Gathered (g_workers c) (g_chan c) (g_code c) (g_partial c) false).

(** A run, with the statuses it sends. *)
Inductive gather_run : gathering -> list Z -> gathering -> Prop :=
| GRunNil c : gather_run c [] c
| GRunStep c o c1 l c2 : gather_step c o c1 -> gather_run c1 l c2 ->
    gather_run c (match o with Some st => st :: l | None => l end) c2.
Definition gather_stuck (c : gathering) : Prop := forall o c', ~ gather_step c o c'.
Definition gather_next (c c' : gathering) : Prop := exists o, gather_step c o c'.

(** ** Every run ends *)

Definition gather_left (c : gathering) : nat :=
  match g_main c with Gathering i => S (length elements - i) | _ => 0 end + sum_list_with work_left (g_workers c) +
  (if g_panic c then 0 else 1).
Lemma gather_less c o c' : gather_step c o c' -> (gather_left c' < gather_left c)%nat.
Proof.
  intros Hs. destruct Hs; unfold gather_left; simpl;
    repeat match goal with
    | H : g_main _ = _ |- _ => rewrite H in *
    | H : g_panic _ = _ |- _ => rewrite H in *
    | H : g_workers _ !! _ = Some (ToStart _) |- context [<[_ := ToEnd ?r]> _] =>
        pose proof (work_sum_insert _ _ (ToEnd r) _ H); clear H
    | H : g_workers _ !! _ = Some (ToEnd _) |- _ => pose proof (work_sum_delete _ _ _ H); clear H
    end; simpl in *; try lia.
  - destruct o; simpl; lia.
  - destruct o as [[[]|]|]; simpl; lia.
Qed.
Lemma gathers_end c : Acc (flip gather_next) c.
Proof.
  remember (gather_left c) as n eqn:En. revert c En. induction (lt_wf n) as [n _ IH]. intros c ->.
  constructor. intros c' [o Hs]. eapply IH; [by apply (gather_less _ _ _ Hs)|done].
Qed.

(** ** What every interleaving comes to *)

Context (I : W -> Prop).
Record SafeGather : Prop := {
  gather_start_safe e w : e ∈ elements -> I w ->
    wp (start_one e) (fun o w' => I w' /\ exists st rest, o = Ok (st, rest) /\ safe I rest) w;
  gather_report_safe code i w : (S i < length elements)%nat -> I w ->
    wp (report code i) (fun o w' => o = Ok (Some false) /\ I w') w;
}.
Definition taken (m : gather_at) : nat := match m with Gathering i => i | _ => length elements end.
(** [l] are the statuses that were sent, of which the handler has taken the first ones. *)
Record gather_inv (l : list Z) (c : gathering) : Prop := {
  gi_world : I (g_world c);
  gi_panic : g_panic c = false;
  gi_main : g_main c <> Exited /\ (taken (g_main c) <= length elements)%nat;
  gi_sent : (length l + length (List.filter to_start (g_workers c)) = length elements)%nat;
  gi_chan : exists got, l = got ++ g_chan c /\ length got = taken (g_main c) /\
    g_code c = foldl Z.max 200 got /\ g_partial c = existsb not_ok got;
  gi_work : Forall (work_ok elements I) (g_workers c);
}.
Context (Hsafe : SafeGather).

Lemma gather_inv_begin w : I w -> gather_inv [] (gather_begin w).
Proof.
  intros Hw. split; simpl; try done.
  - split; [done|lia].
  - induction elements; simpl; [done|by f_equal].
  - by exists [].
  - apply Forall_fmap, Forall_forall. intros e He. exact He.
Qed.
Lemma gather_take l c i st chan w c' : gather_inv l c -> g_main c = Gathering i -> (i < length elements)%nat ->
  g_chan c = st :: chan -> I w ->
  c' = mkGathering w (Gathering (S i)) (g_workers c) chan (collect_code (g_code c) st) (not_ok st || g_partial c) false ->
  gather_inv l c'.
Proof.
  intros [Iw Ip [Im Il] Is (got & Hl & Hg & Hc & Hp) Iwo] Hm Hi Hch Iw' ->. rewrite Hm in *. simpl in *. split; simpl; try done.
  exists (got ++ [st]). rewrite Hl, Hch, <- app_assoc. split_and!; [done|..].
  - rewrite length_app. simpl. lia.
  - by rewrite Hc, collect_max.
  - by rewrite Hp, partial_app.
Qed.
Lemma gather_inv_step l c o c' : gather_inv l c -> gather_step c o c' -> gather_inv (sent o l) c'.
Proof.
  intros Hi Hs. pose proof Hi as [Iw Ip [Im Il] Is (got & Hl & Hg & Hc & Hp) Iwo].
  destruct Hs as [c i e st rest w Hw E _ _|c i e w Hw E _|c i m o w Hw E _|c i st chan Hm Hn Hch _|
    c i st chan o w Hm Hn Hch E _|c i Hm Hn _]; simpl sent.
  - pose proof (Forall_lookup_1 _ _ _ _ Iwo Hw) as He.
    destruct (wp_run _ _ _ _ _ (gather_start_safe Hsafe e _ He Iw) E) as (Iw' & ? & ? & [= <- <-] & Hr).
    pose proof (filter_insert i e rest _ Hw). split; simpl; try done.
    + rewrite length_app. simpl. lia.
    + exists got. rewrite Hl, app_assoc. by split_and!.
    + by apply Forall_insert.
  - exfalso. pose proof (Forall_lookup_1 _ _ _ _ Iwo Hw) as He.
    destruct (wp_run _ _ _ _ _ (gather_start_safe Hsafe e _ He Iw) E) as (_ & ? & ? & ? & _). done.
  - pose proof (Forall_lookup_1 _ _ _ _ Iwo Hw) as Hm. destruct (wp_run _ _ _ _ _ (Hm _ Iw) E) as [-> Iw'].
    pose proof (filter_delete i m _ Hw). split; simpl; try done; [lia|by exists got|by apply Forall_delete].
  - eapply gather_take; [done..|lia|done|exact Iw|done].
  - destruct (wp_run _ _ _ _ _ (gather_report_safe Hsafe _ _ _ Hn Iw) E) as [-> Iw'].
    eapply gather_take; [done..|lia|done|exact Iw'|done].
  - rewrite Hm in *. simpl in *. assert (i = length elements) as -> by lia. split; simpl; try done. by exists got.
Qed.
Lemma gather_inv_run l c l' c' : gather_inv l c -> gather_run c l' c' -> gather_inv (l ++ l') c'.
Proof.
  intros Hi Hr. revert l Hi. induction Hr as [c|c o c1 l2 c2 Hs _ IH]; intros l Hi; [by rewrite app_nil_r|].
  pose proof (gather_inv_step _ _ _ _ Hi Hs) as Hi'. specialize (IH _ Hi'). destruct o; simpl in *; [by rewrite <- app_assoc in IH|done].
Qed.
(** Something can be done until the handler has taken all statuses and all goroutines have ended. *)
Lemma gather_progress l c : gather_inv l c -> g_main c <> Gathered \/ g_workers c <> [] -> exists o c', gather_step c o c'.
Proof.
  intros [Iw Ip [Im Il] Is (got & Hl & Hg & Hc & Hp) Iwo] Hn. pose proof (f_equal length Hl) as Hlen. rewrite length_app in Hlen.
  destruct (g_workers c) as [|x l'] eqn:Ew.
  - simpl in *. destruct Hn as [Hn|Hn]; [|done]. destruct (g_main c) as [i| |] eqn:Em; try done. simpl in *.
    destruct (decide (i = length elements)) as [->|]; [eexists _, _; by eapply GDone|].
    destruct (g_chan c) as [|st chan] eqn:Ech; [simpl in *; lia|].
    destruct (decide (S i = length elements)); [eexists _, _; by eapply GLast|].
    destruct (report (collect_code (g_code c) st) i (g_world c)) as [o w] eqn:E. eexists _, _. eapply GTakes; [done|lia|done..].
  - apply Forall_cons in Iwo as [Hx _]. destruct x as [e|m]; simpl in *.
    + destruct (wp_elim _ _ _ (gather_start_safe Hsafe e _ Hx Iw)) as (o & w & E & _ & st & rest & -> & _).
      eexists _, _. eapply (GSends _ 0%nat); [by rewrite Ew|done| |done]. lia.
    + destruct (m (g_world c)) as [o w] eqn:E. eexists _, _. eapply (GEnds _ 0%nat); [by rewrite Ew|done|done].
Qed.

(** Every run ends, with the handler done and every goroutine ended; and when the handler is done it has
    the status of every goroutine, whether these have ended or not. *)
Lemma gather_completes w l c : I w -> gather_run (gather_begin w) l c ->
  Acc (flip gather_next) c /\ g_panic c = false /\ I (g_world c) /\ g_main c <> Exited /\
  (gather_stuck c -> g_main c = Gathered /\ g_workers c = []) /\
  (g_main c = Gathered -> length l = length elements /\ g_code c = foldl Z.max 200 l /\ g_partial c = existsb not_ok l).
Proof.
  intros Hw Hr. pose proof (gather_inv_run _ _ _ _ (gather_inv_begin w Hw) Hr) as Hi. simpl in Hi.
  pose proof Hi as [Iw Ip [Im Il] Is (got & Hl & Hg & Hc & Hp) Iwo].
  split_and!; [apply gathers_end|done|done|done|..].
  - intros Hst. split.
    + destruct (g_main c) eqn:Em; try done. destruct (gather_progress _ _ Hi) as (o & c' & Hs); [by left; rewrite Em|]. by destruct (Hst o c').
    + destruct (g_workers c) eqn:Ew; [done|]. destruct (gather_progress _ _ Hi) as (o & c' & Hs); [by right; rewrite Ew|]. by destruct (Hst o c').
  - intros Hm. rewrite Hm in Hg. simpl in Hg. pose proof (f_equal length Hl) as Hlen. rewrite length_app in Hlen.
    assert (g_chan c = []) as Hch by (apply length_zero_iff_nil; lia).
    rewrite Hch, app_nil_r in Hl. subst got. split_and!; [lia|done|done].
Qed.
(** Such an end is reached. *)
Lemma gather_reaches w : I w -> exists l c, gather_run (gather_begin w) l c /\ gather_stuck c.
Proof.
  intros Hw. pose proof (gather_inv_begin w Hw) as Hi. revert Hi. generalize (@nil Z).
  induction (gathers_end (gather_begin w)) as [c _ IH]. intros l Hi.
  assert (Hd : (g_main c = Gathered /\ g_workers c = []) \/ (g_main c <> Gathered \/ g_workers c <> [])).
  { destruct (g_main c), (g_workers c); auto. }
  destruct Hd as [[Hm Hk]|Hn].
  - exists [], c. split; [constructor|]. intros o c' Hs. destruct Hs; try congruence; by match goal with H : g_workers _ !! _ = _ |- _ => rewrite Hk in H end.
  - destruct (gather_progress _ _ Hi Hn) as (o & c' & Hs).
    destruct (IH c' (ex_intro _ o Hs) _ (gather_inv_step _ _ _ _ Hi Hs)) as (l' & c2 & Hr & Hst).
    eexists _, c2. split; [by econstructor|done].
Qed.
End AgGather.
