(* ===== verification/AgReset.v ===== *)
(** svc-aggregation/system: resetting systems (reset.go and the second half of aggregate.go) and setting
    their default boot order (bootorder.go).

    A goroutine for one system is a computation that yields the status it sends and what it does after
    that.  A handler is in two parts, before its goroutines are started and after all of them were
    waited for; [AgBatch] is what happens in between.  The default boot orders follow, in the same
    form. *)
From stdpp Require Import base gmap list strings.
From S2P Require Import Prelude Go GoTime GoText GoCodec Response Redis World ConnPool RedisIndex Index CaseValidator AsModel Auth Session Account Rpc System TModel THandle Services TaskSystem Search Http AgData AgModel Aggregates AgPlugin AgTask AgBatch.
Open Scope string_scope.

(** ** The requests *)

(** ResetRequest. *)
Record ResetRequest := mkResetRequest {
  rr_BatchSize : Z;
  rr_DelayBetweenBatchesInSeconds : Z;
  rr_ResetType : string;
}.
Definition zeroResetRequest : ResetRequest := mkResetRequest 0 0 "".
Definition ResetRequest_type : struct_type ResetRequest := {|
  st_name := "ResetRequest";
  st_fields :=
    [("BatchSize", on rr_BatchSize (fun x r => mkResetRequest x (rr_DelayBetweenBatchesInSeconds r) (rr_ResetType r)) dec_int);
     ("DelayBetweenBatchesInSeconds", on rr_DelayBetweenBatchesInSeconds (fun x r => mkResetRequest (rr_BatchSize r) x (rr_ResetType r)) dec_int);
     ("ResetType", on rr_ResetType (fun x r => mkResetRequest (rr_BatchSize r) (rr_DelayBetweenBatchesInSeconds r) x) dec_string)] |}.
Definition marshal_ResetRequest (r : ResetRequest) : jmap :=
  [("BatchSize", JNum (rr_BatchSize r));
        ("DelayBetweenBatchesInSeconds", JNum (rr_DelayBetweenBatchesInSeconds r));
        ("ResetType", JStr (rr_ResetType r))].

(** AggregationResetRequest. *)
Record AggregationResetRequest := mkAggregationResetRequest {
  arr_BatchSize : Z;
  arr_DelayBetweenBatchesInSeconds : Z;
  arr_ResetType : string;
  arr_TargetURIs : slice string;
}.
Definition zeroAggregationResetRequest : AggregationResetRequest := mkAggregationResetRequest 0 0 "" None.
Definition AggregationResetRequest_type : struct_type AggregationResetRequest := {|
  st_name := "AggregationResetRequest";
  st_fields :=
    [("BatchSize", on arr_BatchSize (fun x r => mkAggregationResetRequest x (arr_DelayBetweenBatchesInSeconds r) (arr_ResetType r) (arr_TargetURIs r)) dec_int);
     ("DelayBetweenBatchesInSeconds", on arr_DelayBetweenBatchesInSeconds (fun x r => mkAggregationResetRequest (arr_BatchSize r) x (arr_ResetType r) (arr_TargetURIs r)) dec_int);
     ("ResetType", on arr_ResetType (fun x r => mkAggregationResetRequest (arr_BatchSize r) (arr_DelayBetweenBatchesInSeconds r) x (arr_TargetURIs r)) dec_string);
     ("TargetURIs", on arr_TargetURIs (fun x r => mkAggregationResetRequest (arr_BatchSize r) (arr_DelayBetweenBatchesInSeconds r) (arr_ResetType r) x) dec_strings)] |}.
Definition marshal_AggregationResetRequest (r : AggregationResetRequest) : jmap :=
  [("BatchSize", JNum (arr_BatchSize r));
        ("DelayBetweenBatchesInSeconds", JNum (arr_DelayBetweenBatchesInSeconds r));
        ("ResetType", JStr (arr_ResetType r));
        ("TargetURIs", enc_strings (arr_TargetURIs r))].

(** AggregationSetDefaultBootOrderRequest. *)
Record AggregationSetDefaultBootOrderRequest := mkAggregationSetDefaultBootOrderRequest {
  bo_Systems : slice OdataRef;
}.
Definition zeroAggregationSetDefaultBootOrderRequest : AggregationSetDefaultBootOrderRequest := mkAggregationSetDefaultBootOrderRequest None.
Definition AggregationSetDefaultBootOrderRequest_type : struct_type AggregationSetDefaultBootOrderRequest := {|
  st_name := "AggregationSetDefaultBootOrderRequest";
  st_fields :=
    [("Systems", on bo_Systems (fun x _ => mkAggregationSetDefaultBootOrderRequest x) (dec_slice "system.OdataID" (dec_struct "system." "Systems." OdataRef_type) zeroOdataRef))] |}.
Definition marshal_AggregationSetDefaultBootOrderRequest (r : AggregationSetDefaultBootOrderRequest) : jmap :=
  [("Systems", enc_slice marshal_OdataRef (bo_Systems r))].

(** The name of what is missing, and the text of the error. *)
Definition validateRequestFields (validateReq : ResetRequest) : option (string * string) :=
  if ((rr_BatchSize validateReq =? 0) && (rr_DelayBetweenBatchesInSeconds validateReq =? 0))%Z && no_text (rr_ResetType validateReq)
  then Some ("ResetRequest", "ResetRequest is empty")
  else if no_text (rr_ResetType validateReq) then Some ("ResetType", "property ResetType missing in the reset request")
  else None.
Definition validateResetRequestFields (validateReq : AggregationResetRequest) (reqBody : jtext) : option (string * string) :=
  if isEmptyRequest reqBody then Some ("ResetRequest", "ResetRequest is empty")
  else if no_text (arr_ResetType validateReq) then Some ("ResetType", "property ResetType missing in the reset request")
  else match items (arr_TargetURIs validateReq) with
       | [] => Some ("TargetURIs", "property TargetURIs missing/no resources found in the reset request")
       | _ => None
       end.
(** [fmt.Sprintf("%v", setOrderReq.Systems)] *)
Definition show_systems (l : list OdataRef) : string := bracketed ((fun o => "{" +:+ od_OdataID o +:+ "}") <$> l).

Section AgReset.
Context `{Env, !IndexEnv, Libs, Config, !Network, !MessageBus, !TaskPeer, !RSA, !MapIter, !PluginHTTP, !PluginConf}.
Context (fuel : nat).

(** ** The goroutine of one system *)

Definition worker : Type := M AgWorld (Z * M AgWorld unit).
(** A status is sent, and then the sub-task is told of the error. *)
Definition sends_error (send code : Z) (st em : string) (margs : list iface) (info : TaskUpdateInfo) : worker :=
  ret (send, let! _ := TaskError fuel code st em margs info in ret tt).

Definition with_subtask (sessionUserName taskID : string) (k : string -> worker) : worker :=
  let! subTaskURI := CreateChildTask fuel sessionUserName taskID in
  match subTaskURI with
  | inl _ => ret (StatusInternalServerError, ret tt)
  | inr subTaskURI => let! subTaskID := lift (THandle.last_part subTaskURI) in k subTaskID
  end.

(** The token of a session, or the credentials that are sent with the request. *)
Definition plugin_session (plugin : Plugin) : IO (responseStatus * string + string * option (gmap string string)) :=
  if EqualFold (pl_PreferredAuthType plugin) "XAuthToken" then
    let! r := contactPlugin {|
      gr_DeviceInfo := JObj [("Password", JStr (password plugin)); ("UserName", JStr (pl_Username plugin))];
      gr_LoginCredentials := None; gr_OID := "/ODIM/v1/Sessions"; gr_Plugin := plugin;
      gr_HTTPMethodType := "POST"; gr_Token := ""; gr_StatusPoll := true |} "error while logging in to plugin: " in
    ret (match r with inl e => inl e | inr (_, token, _) => inr (token, None) end)
  else ret (inr ("", Some (<["UserName" := pl_Username plugin]> {[ "Password" := password plugin ]}))).

Definition with_target_password (pw : string) (postBody : string) (t : Target) : Target :=
  mkTarget (tg_ManagerAddress t) (Some pw) (tg_UserName t) (Some postBody) (tg_DeviceUUID t) (tg_PluginID t).
(** The request to the plugin of a system: the status of its answer, or the status and the error. *)
Definition ask_plugin (plugin : Plugin) (target : Target) (OID errorMessage : string)
  : IO (responseStatus * string + responseStatus) :=
  let! r := plugin_session plugin in
  match r with
  | inl e => ret (inl e)
  | inr (token, credentials) =>
      let! r := contactPlugin {|
        gr_DeviceInfo := marshal_Target target; gr_LoginCredentials := credentials; gr_OID := OID;
        gr_Plugin := plugin; gr_HTTPMethodType := "POST"; gr_Token := token; gr_StatusPoll := true |} errorMessage in
      ret (match r with inl e => inl e | inr (_, _, st) => inr st end)
  end.
(** What both goroutines do with a system: its credentials, its plugin, and the request. *)
Definition on_system (uuid pluginKind pluginError postBody OID errorMessage : string) (info : TaskUpdateInfo)
    (k : Z -> worker) : worker :=
  let! target := in_own (GetTarget uuid) in
  match target with
  | inl err => sends_error StatusNotFound StatusNotFound ResourceNotFound err [IString "target"; IString uuid] info
  | inr target =>
      let! decryptedPasswordByte := lift (DecryptWithPrivateKey (default "" (tg_Password target))) in
      match decryptedPasswordByte with
      | inl err => sends_error StatusInternalServerError StatusInternalServerError InternalError
                     ("error while trying to decrypt device password: " +:+ err) [] info
      | inr decryptedPasswordByte =>
          let! plugin := in_own (GetPluginData (tg_PluginID target)) in
          match plugin with
          | inl errs => sends_error StatusNotFound StatusNotFound ResourceNotFound (pluginError +:+ errMsg errs)
                          [IString pluginKind; IString (tg_PluginID target)] info
          | inr plugin =>
              let! r := in_own (ask_plugin plugin (with_target_password decryptedPasswordByte postBody target) OID errorMessage) in
              match r with
              | inl (st, err) => sends_error (rs_StatusCode st) (rs_StatusCode st) (rs_StatusMessage st) err (rs_MsgArgs st) info
              | inr st => k (rs_StatusCode st)
              end
          end
      end
  end.
(** The status is sent, and the sub-task has completed. *)
Definition completes (subTaskID targetURI reqBody : string) (code : Z) (after : M AgWorld unit) : worker :=
  let resp : agRPC := mkRPC code Success [("Location", targetURI)]
    (Body (AgErrorClass {| Code := Success; ErrorMessageText := "Request completed successfully."; MessageExtendedInfo := [] |})) in
  let task state status := fillTaskData subTaskID targetURI reqBody resp state status 100 "POST" in
  ret (code,
    let! r := UpdateTaskData fuel (task Completed StatusTextOK) in
    match r with
    | None => ret tt
    | Some e =>
        if bool_decide (e = Some Cancelling) then
          let! r := UpdateTaskData fuel (task Cancelled Critical) in
          match r with None => ret tt | Some _ => after end
        else after
    end).

Definition resetSystem (taskID reqBody sessionUserName resetType element : string) : worker :=
  with_subtask sessionUserName taskID (fun subTaskID =>
    let systemID := AgModel.last_part (Split element "/") in
    let info := task_info subTaskID element reqBody in
    match SplitN2 systemID "." with
    | [uuid; sysID] =>
        on_system uuid "plugin" "" ("{" +:+ json_string "ResetType" +:+ ":" +:+ json_string resetType +:+ "}")
          ("/ODIM/v1/Systems/" +:+ sysID +:+ "/Actions/ComputerSystem.Reset")
          "error while reseting the computer system: " info (fun code =>
            completes subTaskID element reqBody code
              (if (code =? StatusOK)%Z then let! _ := in_own (AddSystemResetInfo element resetType) in ret tt else ret tt))
    | _ => sends_error StatusNotFound StatusNotFound ResourceNotFound "error: SystemUUID not found"
             [IString "SystemUUID"; IString ""] info
    end).
Definition collectAndSetDefaultOrder (taskID reqJSON sessionUserName serverURI : string) : worker :=
  with_subtask sessionUserName taskID (fun subTaskID =>
    let info := task_info subTaskID serverURI reqJSON in
    let! ids := lift (getIDsFromURI serverURI) in
    match ids with
    | inl err => sends_error StatusNotFound StatusNotFound ResourceNotFound
                   ("error while trying to get system ID from " +:+ serverURI +:+ ": " +:+ err)
                   [IString "SystemID"; IString serverURI] info
    | inr (uuid, systemID) =>
        on_system uuid "PluginData" "error while getting plugin data: " "{}"
          ("/ODIM/v1/Systems/" +:+ systemID +:+ "/Actions/ComputerSystem.SetDefaultBootOrder")
          "error while setting the default boot order: " info (fun code =>
            completes subTaskID serverURI reqJSON code (ret tt))
    end).

(** ** The first part of the handlers *)

(** What is to be done, or the end of the goroutine, with the response if it was not cut short. *)
Record plan := mkPlan {
  p_elements : list string;
  p_BatchSize : Z;
  p_Delay : Z;
  p_ResetType : string;
}.
Definition part A : Type := M AgWorld (option agRPC + A).
Definition refuse {A} (code : Z) (st em : string) (margs : list iface) (info : TaskUpdateInfo) : part A :=
  let! r := TaskError fuel code st em margs info in ret (inl r).
Definition badProperties {A} (invalidProperties errorMessage : string) (info : TaskUpdateInfo) : part A :=
  refuse StatusBadRequest PropertyUnknown errorMessage [IString invalidProperties] info.
(** The aggregate of an action. *)
Definition with_aggregate {A} (req : AggregatorRequest) (info : TaskUpdateInfo) (k : Aggregate -> part A) : part A :=
  let! aggregateID := lift (aggregate_id (ar_URL req)) in
  let! (aggregate, err1) := in_own (AgModel.GetAggregate (aggregatesURI +:+ "/" +:+ aggregateID)) in
  match err1 with
  | Some err1 =>
      if decide (DBKeyNotFound = ErrNo err1)
      then refuse StatusNotFound ResourceNotFound (errMsg err1) [IString "Aggregate"; IString (ar_URL req)] info
      else refuse StatusInternalServerError InternalError (errMsg err1) [] info
  | None => k aggregate
  end.

Definition ResetElementsOfAggregate_begin (taskID : string) (req : AggregatorRequest) : part plan :=
  let info := task_info taskID (ar_URL req) (ar_RequestText req) in
  match Unmarshal ResetRequest_type (ar_RequestBody req) zeroResetRequest with
  | (_, Some err) => refuse StatusBadRequest MalformedJSON ("error while trying to validate request fields: " +:+ err) [] info
  | (resetRequest, None) =>
      let! invalidProperties := lift (RequestParamsCaseValidator (ar_RequestBody req) (marshal_ResetRequest resetRequest)) in
      if negb (String.eqb invalidProperties "") then
        badProperties invalidProperties
          "error: one or more properties given in the request body are not valid, ensure properties are listed in uppercamelcase " info
      else
        match validateRequestFields resetRequest with
        | Some (missedProperty, err) =>
            refuse StatusBadRequest PropertyMissing ("error while trying to validate request fields: " +:+ err)
              [IString missedProperty] info
        | None =>
            with_aggregate req info (fun aggregate =>
              ret (inr (mkPlan (items (ag_Elements aggregate)) (rr_BatchSize resetRequest)
                          (rr_DelayBetweenBatchesInSeconds resetRequest) (rr_ResetType resetRequest))))
        end
  end.

Definition resetURI := "/redfish/v1/AggregationService/Actions/AggregationService.Reset/".
Definition Reset_begin (taskID : string) (req : AggregatorRequest) : part plan :=
  let info := task_info taskID resetURI (ar_RequestText req) in
  match Unmarshal AggregationResetRequest_type (ar_RequestBody req) zeroAggregationResetRequest with
  | (_, Some err) => refuse StatusBadRequest MalformedJSON ("Unable to validate request fields: " +:+ err) [] info
  | (resetRequest, None) =>
      match validateResetRequestFields resetRequest (ar_RequestBody req) with
      | Some (missedProperty, err) =>
          refuse StatusBadRequest PropertyMissing ("Unable to validate request fields: " +:+ err) [IString missedProperty] info
      | None =>
          let! invalidProperties := lift (RequestParamsCaseValidator (ar_RequestBody req)
                                            (marshal_AggregationResetRequest resetRequest)) in
          if negb (String.eqb invalidProperties "") then
            badProperties invalidProperties
              "One or more properties given in the request body are not valid, ensure properties are listed in uppercamelcase " info
          else ret (inr (mkPlan (items (arr_TargetURIs resetRequest)) (arr_BatchSize resetRequest)
                           (arr_DelayBetweenBatchesInSeconds resetRequest) (arr_ResetType resetRequest)))
      end
  end.

(** ** Progress and end *)

(** The percentage is a quotient of integers, times a hundred. *)
Definition percent (i n : nat) : Z := int32 (Z.of_nat (i + 1) / Z.of_nat n * 100).
Definition report (taskID targetURI request : string) (n : nat) (code : Z) (i : nat) : M AgWorld (option bool) :=
  let task state := fillTaskData taskID targetURI request (no_body_yet code) state StatusTextOK (percent i n) "POST" in
  let! r := UpdateTaskData fuel (task Running) in
  match r with
  | None => ret None
  | Some e =>
      if bool_decide (e = Some Cancelling) then
        let! r := UpdateTaskData fuel (task Cancelled) in
        ret (match r with None => None | Some _ => Some true end)
      else ret (Some false)
  end.
Definition successRPC : outcome agRPC :=
  obind (CreateGenericErrorResponse {| args_Code := Success; args_Message := "Request completed successfully"; ErrorArgs := [] |})
    (fun e => Ok (mkRPC StatusOK Success [] (ErrorBody e))).
(** All statuses were 200. *)
Definition all_done (taskID targetURI request : string) (partialResultFlag : bool) : M AgWorld (option agRPC) :=
  let! resp := lift successRPC in
  let task state status := fillTaskData taskID targetURI request resp state status 100 "POST" in
  let! r := UpdateTaskData fuel (task Completed (if partialResultFlag then Warning else StatusTextOK)) in
  match r with
  | None => ret None
  | Some e => if bool_decide (e = Some Cancelling)
              then let! _ := UpdateTaskData fuel (task Cancelled Critical) in ret None
              else ret (Some resp)
  end.
(** The status message of a failure is still empty. *)
Definition reset_end (taskID targetURI request : string) (code : Z) (partialResultFlag : bool) : M AgWorld (option agRPC) :=
  if negb (code =? StatusOK)%Z
  then TaskError fuel code ""
         ("one or more of the reset actions failed. for more information please check SubTasks in URI: /redfish/v1/TaskService/Tasks/"
          +:+ taskID) [] (task_info taskID targetURI request)
  else all_done taskID targetURI request partialResultFlag.

(** The goroutines, the reports and the pauses of a plan, as [AgBatch] schedules them. *)
Definition reset_one (taskID request sessionUserName : string) (p : plan) : string -> worker :=
  resetSystem taskID request sessionUserName (p_ResetType p).
Definition reset_pause (p : plan) : M AgWorld unit := in_own (Sleep (p_Delay p * nano)).
Section scheduled.
Context (taskID targetURI request sessionUserName : string) (p : plan).
#[local] Abbreviation scheduled f :=
  (f (reset_one taskID request sessionUserName p) (report taskID targetURI request (length (p_elements p)))
     (reset_pause p) (p_elements p) (p_BatchSize p)).
Definition reset_run := scheduled (@run AgWorld).
Definition reset_next := scheduled (@next AgWorld).
Definition reset_stuck := scheduled (@stuck AgWorld).
End scheduled.
End AgReset.

(** * The default boot orders

    The default boot orders of svc-aggregation: SetDefaultBootOrder of system/bootorder.go and
    SetDefaultBootOrderElementsOfAggregate of system/aggregate.go, on the goroutine of a system in
    the first part and the scheduling of the second part of [AgBatch]. *)

Definition setOrderURI := "/redfish/v1/AggregationService/Actions/AggregationService.SetDefaultBootOrder".

Section AgBoot.
Context `{Env, !IndexEnv, Libs, Config, !Network, !MessageBus, !TaskPeer, !RSA, !MapIter, !PluginHTTP, !PluginConf}.
Context (fuel : nat).

(** The names in the request are checked against those of an empty one. *)
Definition SetDefaultBootOrder_begin (taskID : string) (req : AggregatorRequest) : part (list OdataRef) :=
  let info := task_info taskID setOrderURI (ar_RequestText req) in
  match Unmarshal AggregationSetDefaultBootOrderRequest_type (ar_RequestBody req) zeroAggregationSetDefaultBootOrderRequest with
  | (_, Some err) =>
      refuse fuel StatusInternalServerError InternalError ("error while trying to set default boot order: " +:+ err) [] info
  | (setOrderReq, None) =>
      match items (bo_Systems setOrderReq) with
      | [] => refuse fuel StatusBadRequest PropertyMissing "error while trying to validate request fields" [IString "Systems"] info
      | systems =>
          let! invalidProperties := lift (RequestParamsCaseValidator (ar_RequestBody req)
            (marshal_AggregationSetDefaultBootOrderRequest zeroAggregationSetDefaultBootOrderRequest)) in
          if negb (String.eqb invalidProperties "") then
            badProperties fuel invalidProperties
              "error: one or more properties given in the request body are not valid, ensure properties are listed in uppercamelcase " info
          else ret (inr systems)
      end
  end.
(** The task is told the whole request, and not its body. *)
Definition SetDefaultBootOrderElements_begin (taskID : string) (req : AggregatorRequest) : part (list string) :=
  with_aggregate fuel req (task_info taskID (ar_URL req) (request_text req)) (fun aggregate =>
    ret (inr (items (ag_Elements aggregate)))).

(** The end, when all statuses have been taken; [unauthorized] is the argument of the message for 401. *)
Definition boot_end (unauthorized : iface) (taskID targetURI request : string) (code : Z) (partialResultFlag : bool)
  : M AgWorld (option agRPC) :=
  let errMsg := "one or more of the SetDefaultBootOrder requests failed. for more information please check SubTasks in URI: /redfish/v1/TaskService/Tasks/" +:+ taskID in
  let info := task_info taskID targetURI request in
  if negb (code =? StatusOK)%Z then
    if (code =? StatusUnauthorized)%Z then TaskError fuel StatusUnauthorized ResourceAtURIUnauthorized errMsg [unauthorized] info
    else if (code =? StatusNotFound)%Z
         then TaskError fuel StatusNotFound ResourceNotFound errMsg [IString "option"; IString "SetDefaultBootOrder"] info
         else TaskError fuel StatusInternalServerError InternalError errMsg [] info
  else all_done fuel taskID targetURI request partialResultFlag.
Definition SetDefaultBootOrder_end (systems : list OdataRef) (taskID : string) (req : AggregatorRequest) :=
  boot_end (IString (show_systems systems)) taskID setOrderURI (ar_RequestText req).
Definition SetDefaultBootOrderElements_end (elements : list string) (taskID : string) (req : AggregatorRequest) :=
  boot_end (IStrings elements) taskID (ar_URL req) (request_text req).

(** The goroutines and the reports, as [AgBatch] schedules them in its second part. *)
Definition boot_one (taskID request sessionUserName : string) : string -> worker :=
  collectAndSetDefaultOrder fuel taskID request sessionUserName.
Section scheduled.
Context (taskID targetURI request sessionUserName : string) (elements : list string).
#[local] Abbreviation scheduled f :=
  (f (boot_one taskID request sessionUserName) (report fuel taskID targetURI request (length elements)) elements).
Definition boot_run := scheduled (@gather_run AgWorld).
Definition boot_next := scheduled (@gather_next AgWorld).
Definition boot_stuck := scheduled (@gather_stuck AgWorld).
End scheduled.
End AgBoot.
