(* ===== verification/AgTaskProps.v ===== *)
(** What a goroutine of the aggregation service may rely on: its own database functions, the calls of
    the task service, and the plugins; nothing of it panics, and the databases of the other services
    stay well formed. *)
From stdpp Require Import base gmap list strings.
From S2P Require Import Prelude Go GoTime GoText GoCodec Response Redis World ConnPool DBSpec AsModel AsSpec ResponseProps RedisIndex Index CaseValidator Auth Session Account Rpc System TModel THandle Services TaskSystem TaskSpec TModelProps TaskProps TaskCancel TaskFrame TaskStoreImpl TaskService Search Http AgData AgModel Aggregates AgSpec AgPlugin AgTask.
Open Scope string_scope.

Section own.
Context `{EnvLaws, SingleNode}.
Implicit Types (w : World).

(** ** The process's own database functions *)

(** Only the notes on resets may have been written. *)
Definition reset_key (id : string) : string := saveID "SystemReset" id.
Record own_step w w' : Prop := {
  ow_wf : wf w';
  ow_disk : view w' OnDisk = view w OnDisk;
  ow_mem : forall k, (forall id, k <> reset_key id) -> view w' InMemory !! k = view w InMemory !! k;
}.
Lemma ro_own w w' : ro w w' -> own_step w w'.
Proof. intros Hr. split; [apply Hr|by apply ro_view|]. intros k _. by rewrite (ro_view _ _ _ Hr). Qed.
Lemma own_refl w : wf w -> own_step w w.
Proof. intros Hwf. by apply ro_own, ro_refl. Qed.
Lemma own_trans w w1 w2 : own_step w w1 -> own_step w1 w2 -> own_step w w2.
Proof. intros [a b c] [d e f]. split; [done|congruence|]. intros k Hk. rewrite f, c by done. done. Qed.

(** A program that changes no more, and ends in a result with a property. *)
Definition works {A} (m : IO A) (P : A -> Prop) : Prop :=
  forall w, wf w -> wp m (fun o w' => own_step w w' /\ exists a, o = Ok a /\ P a) w.
Lemma works_ret {A} (a : A) (P : A -> Prop) : P a -> works (ret a) P.
Proof. intros Ha w Hwf. apply wp_ret. split; [by apply own_refl|by exists a]. Qed.
Lemma works_bind {A B} (m : IO A) (k : A -> IO B) P Q :
  works m P -> (forall a, P a -> works (k a) Q) -> works (bind m k) Q.
Proof.
  intros Hm Hk w Hwf. apply wp_bind. eapply wp_mono; [by apply Hm|]. intros o w1 (Hs & a & -> & Ha). cbn [wp_cont].
  eapply wp_mono; [apply Hk; [done|apply Hs]|]. intros o w2 (Hs2 & Hb). split; [by eapply own_trans|done].
Qed.
Lemma works_lift {A} (o : outcome A) (P : A -> Prop) : (exists a, o = Ok a /\ P a) -> works (lift o) P.
Proof. intros (a & -> & Ha) w Hwf. apply wp_lift. split; [by apply own_refl|by exists a]. Qed.
Lemma works_weaken {A} (m : IO A) (P Q : A -> Prop) : works m P -> (forall a, P a -> Q a) -> works m Q.
Proof.
  intros Hm HQ w Hwf. eapply wp_mono; [by apply Hm|]. intros o w' (Hs & a & -> & Ha). split; [done|]. exists a. auto.
Qed.
Lemma works_get : works get (fun _ => True).
Proof. intros w Hwf. apply wp_get. split; [by apply own_refl|by eexists]. Qed.
Lemma works_Sleep d : works (Sleep d) (fun _ => True).
Proof.
  intros w Hwf. unfold Sleep. apply wp_in_env. intros a e [= <- <-].
  split; [|by exists tt]. apply ro_own, ro_quiet; [done|apply Redis.sleep_law].
Qed.
Lemma works_Now : works Now (fun _ => True).
Proof. intros w Hwf. eapply wp_mono; [by apply wp_Now|]. intros o w' (t & -> & Hr & _). split; [by apply ro_own|by exists t]. Qed.
Lemma works_connection db : works (GetDBConnection db) (fun _ => True).
Proof. intros w Hwf. eapply wp_mono; [by apply wp_GetDBConnection|]. intros o w' (-> & Hr & _). split; [by apply ro_own|by exists tt]. Qed.
Lemma works_read_record {A} db t k fail num (st : struct_type A) zero :
  works (read_record db t k fail num st zero) (fun _ => True).
Proof.
  intros w Hwf. unfold read_record. wp_call wp_GetDBConnection; [done|]. intros o w1 (-> & Hro & Hrd). wp_go.
  eapply wp_mono; [apply wp_Read; [apply Hro|done]|]. intros [[e|x]|] w2 [Hro2 Hp]; [| |done]; wp_go;
    (split; [eapply own_trans; by apply ro_own|by eexists]).
Qed.
Lemma works_AddSystemResetInfo id ty : works (AddSystemResetInfo id ty) (fun _ => True).
Proof.
  intros w Hwf. unfold AddSystemResetInfo. wp_call wp_GetDBConnection; [done|]. intros o w1 (-> & Hro & Hrd). wp_go.
  assert (Hend : forall w', maybe_written w1 InMemory (insert (reset_key id) (Text (JObj [("ResetType", JStr ty)]))) w' -> own_step w w').
  { intros w' [Hr|Hw]; [by eapply ro_own, ro_trans|]. eapply own_trans; [by apply ro_own|]. split; [apply Hw|..].
    - by rewrite (ev_view _ _ _ Hw), upd_ne.
    - intros k Hk. rewrite (ev_view _ _ _ Hw), upd_eq. apply lookup_insert_ne. intros E. by apply (Hk id). }
  eapply wp_mono; [apply wp_AddResourceData; [apply Hro|done]|]. intros o w2 Hp.
  split; [eapply Hend, add_post_maybe, Hp|]. destruct o as [e|]; [by exists e|done].
Qed.
Lemma works_GetTarget uuid : works (GetTarget uuid) (fun _ => True).
Proof. eapply works_bind; [apply works_read_record|]. intros a _. by apply works_ret. Qed.
Lemma works_GetAggregate uri : works (AgModel.GetAggregate uri) (fun _ => True).
Proof.
  intros w Hwf. eapply wp_mono; [by apply wp_GetAggregate|]. intros [[a e]|] w' (Hr & Hp & _); [|done].
  split; [by apply ro_own|by eexists].
Qed.
End own.

(** ** The plugins *)

(** The private key can be read, and a plugin that answers the request for its status (GET of
    /ODIM/v1/Status at the plugin's own address) with 200 and a document of the right form says in it what
    its status is.  Nothing is asked of any other answer of a plugin, nor of any other request.  Without
    the second the service panics: [read_status] of a document with no status. *)
Class FairPlugins `{Env, RSA, !PluginHTTP} : Prop := {
  key_decodes : pem_Decode RSAPrivateKey <> None;
  status_answered p token e rp text doc d :
    http_Do (status_request p token) e = inr rp -> rp_StatusCode rp = StatusOK -> rp_Body rp = inr (text, doc) ->
    Unmarshal StatusResponse_type doc zeroStatusResponse = (d, None) -> sr_Status d <> None;
}.

Create HintDb works.
Section plugins.
Context `{EnvLaws, SingleNode, !RSA, !MapIter, !PluginHTTP, !PluginConf, !FairPlugins}.
#[local] Hint Resolve works_connection works_Sleep works_Now works_read_record : works.

Ltac works_go :=
  repeat first
    [ progress eauto with works
    | (apply works_ret; by eauto)
    | (eapply works_bind; [solve [eauto with works]|intros ? ?])
    | match goal with |- works (match ?x with _ => _ end) _ => destruct x eqn:? end
    | progress cbv beta zeta ].

Lemma decrypt_ok c : exists r, DecryptWithPrivateKey c = Ok r.
Proof.
  unfold DecryptWithPrivateKey. pose proof key_decodes. destruct (pem_Decode _) as [b|]; [|done].
  repeat case_match; eexists; reflexivity.
Qed.
Lemma works_decrypt c : works (lift (DecryptWithPrivateKey c)) (fun _ => True).
Proof. apply works_lift. destruct (decrypt_ok c) as [r ->]. by exists r. Qed.
#[local] Hint Resolve works_decrypt : works.
Lemma works_GetPluginData id : works (GetPluginData id) (fun _ => True).
Proof. unfold GetPluginData. works_go. Qed.
Lemma works_exchange r : works (exchange r) (fun a => exists e, a = http_Do r e).
Proof. eapply works_bind; [apply works_get|]. intros w _. apply works_ret. by eexists. Qed.
#[local] Hint Resolve works_exchange : works.
Lemma works_login p : works (login p) (fun _ => True).
Proof. unfold login. works_go. Qed.
#[local] Hint Resolve works_login : works.

(** The result of a try: alive without an error, or not alive with one. *)
Definition fair_verdict (v : verdict) : Prop := v.1.2 = true <-> v.1.1 = None.
Lemma read_status_fair d : sr_Status d <> None -> exists v, read_status d = Ok v /\ fair_verdict v.
Proof.
  intros Hd. unfold read_status. destruct (sr_Status d) as [st|]; [|done].
  destruct (EqualFold _ _); (eexists; split; [done|]); done.
Qed.
Lemma dead_fair err : fair_verdict (dead err).
Proof. done. Qed.
#[local] Hint Resolve dead_fair : core.
Lemma works_getStatus p : works (getStatus p) fair_verdict.
Proof.
  unfold getStatus. destruct (http_NewRequest _ _); [by apply works_ret|].
  eapply works_bind with (P := fun _ => True).
  { destruct (EqualFold _ _); [|by apply works_ret]. works_go. }
  intros [err|token] _; [by apply works_ret|].
  eapply works_bind; [apply works_exchange|]. intros resp [e He]. destruct resp as [err|rp]; [by apply works_ret|].
  destruct (Z.eqb_spec (rp_StatusCode rp) StatusOK) as [Hok|]; [|by apply works_ret]. cbn [negb]. destruct (rp_Body rp) as [err|[text doc]] eqn:Eb; [by apply works_ret|].
  destruct (Unmarshal _ _ _) as [d [err|]] eqn:Eu; [by apply works_ret|].
  apply works_lift, read_status_fair. by eapply status_answered.
Qed.
Lemma works_try_status p : works (try_status p) fair_verdict.
Proof.
  eapply works_bind; [apply works_getStatus|]. intros v Hv. eapply works_bind; [apply works_get|]. intros w _.
  apply works_ret. by destruct (wait_exceeded _ _).
Qed.
Lemma works_check_from n p i log q : works (check_from n p i log q) (fun _ => True).
Proof.
  revert i log q. induction n as [|n IH]; intros i log q; cbn [check_from]; [by apply works_ret|].
  eapply works_bind; [apply works_try_status|]. intros [[err alive] q'] _. destruct alive; [by apply works_ret|].
  eapply works_bind; [apply works_Sleep|]. intros ? _. apply IH.
Qed.
Lemma works_GetPluginStatus p : works (GetPluginStatus p) (fun _ => True).
Proof.
  eapply works_bind; [apply works_check_from|]. intros [[[a b] c] [e|]] _; by apply works_ret.
Qed.
Lemma works_ContactPlugin url m t o b c : works (ContactPlugin url m t o b c) (fun _ => True).
Proof.
  unfold ContactPlugin. destruct (http_NewRequest _ _); [by apply works_ret|]. destruct TLS_error; [by apply works_ret|].
  eapply works_weaken; [apply works_exchange|done].
Qed.
Lemma works_callPlugin req : works (callPlugin req) (fun _ => True).
Proof. unfold callPlugin. destruct (EqualFold _ _); apply works_ContactPlugin. Qed.
Lemma works_call_polling req : works (call_polling req) (fun _ => True).
Proof.
  eapply works_bind; [apply works_callPlugin|]. intros [err|rp] _; [|by apply works_ret].
  destruct (gr_StatusPoll req); [|by apply works_ret]. eapply works_bind; [apply works_GetPluginStatus|]. intros [] _.
  - apply works_callPlugin.
  - by apply works_ret.
Qed.

(** An error comes with a status message and arguments that fit. *)
Definition fits (st : responseStatus) (em : string) : Prop :=
  args_ok {| ea_StatusMessage := rs_StatusMessage st; ea_ErrorMessage := em; ea_MessageArgs := rs_MsgArgs st |}.
Lemma works_contactPlugin req em :
  works (contactPlugin req em) (fun r => match r with inl (st, err) => fits st err | inr _ => True end).
Proof.
  unfold contactPlugin. eapply works_bind; [apply works_call_polling|]. intros [err|rp] _; [by apply works_ret|].
  destruct (rp_Body rp) as [err|[text doc]]; [by apply works_ret|]. cbv zeta.
  destruct (negb _ && negb _); [|by apply works_ret]. destruct (rp_StatusCode rp =? StatusUnauthorized)%Z; by apply works_ret.
Qed.
End plugins.

(** ** The task service *)

Class TasksReachable `{TaskPeer} : Prop := tasks_reachable e : tasks_client e = None.

Section tasks.
Context `{IndexLaws, Libs, SingleNode, !Network, !MessageBus, !TaskPeer, !TasksReachable}.
Context (fuel : nat) (topic : MessageBusQueue <> []).
#[local] Hint Extern 0 (TaskView TaskWorld) => exact (task_view fuel) : typeclass_instances.
Implicit Types (s : AgWorld).

(** The pools of all processes and the documents of tasks and sessions are well formed. *)
Definition steady s : Prop := wf (aw_own s) /\ sound (aw_task s).

Lemma wp_in_own {A} (m : IO A) Q s :
  wp m (fun o w' => Q o (mkAgWorld w' (with_task_env (w_env w') (aw_task s)) (aw_threads s))) (own_world s) ->
  wp (in_own m) Q s.
Proof. unfold wp, in_own. by destruct (m (own_world s)). Qed.
Lemma wp_in_tasks {A} (m : M TaskWorld A) Q s :
  wp m (fun o t => match o with
                   | Ok a => Q (Ok (Some a)) (with_tasks t s)
                   | Panic => Q (Ok None) (with_tasks (restart_tasks t) s)
                   end) (aw_task s) ->
  wp (in_tasks m) Q s.
Proof. unfold wp, in_tasks. by destruct (m (aw_task s)) as [[a|] t]. Qed.

Lemma own_sound w w' (t : TaskWorld) : own_step w w' -> w_env w = task_env t -> sound t -> sound (with_task_env (w_env w') t).
Proof.
  intros [Hwf Hd Hm] Ee (Ha & Hb & Hn & [Hs Hu Hr]). unfold task_env in Ee.
  assert (Hv : forall db, view w db = view (tw_world t) db) by (intros db; unfold view; by rewrite Ee).
  assert (Hk : forall k, (forall id, k <> reset_key id) -> view w' InMemory !! k = view (tw_world t) InMemory !! k).
  { intros k Hk. by rewrite Hm, Hv. }
  assert (Hdoc : forall id, task_doc (with_env (w_env w') (tw_world t)) id = task_doc (tw_world t) id).
  { intros id. unfold task_doc. apply Hk. intros id'. unfold task_key, reset_key, saveID. by intros [=]. }
  assert (Hdk : view (with_env (w_env w') (tw_world t)) OnDisk = view (tw_world t) OnDisk) by (rewrite <- Hv; exact Hd).
  split_and!; [by apply wf_with_env|done|intros id x; rewrite Hdoc; apply Hn|].
  split; cbn [tw_world with_task_env]; [|by rewrite Hdk..].
  intros k. specialize (Hs k). unfold stored in *. change (view (with_env (w_env w') (tw_world t)) InMemory) with (view w' InMemory).
  rewrite Hk; [done|]. intros id. unfold reset_key, saveID. by intros [=].
Qed.
Lemma steady_own {A} (m : IO A) P s : works m P -> steady s ->
  wp (in_own m) (fun o s' => steady s' /\ exists a, o = Ok a /\ P a) s.
Proof.
  intros Hm [Hw Ht]. apply wp_in_own. eapply wp_mono; [apply Hm; by apply wf_with_env|].
  intros o w' [Hs Ha]. split; [|done]. split; [apply Hs|]. by eapply own_sound.
Qed.
Lemma sound_restart t : sound t -> sound (restart_tasks t).
Proof. intros (Ha & Hb & Hn & Hty). repeat split; try done; try (by intros []); apply Hty. Qed.
Lemma steady_tasks {A} (m : M TaskWorld A) s : steady s ->
  wp m (fun _ t => sound t) (aw_task s) -> wp (in_tasks m) (fun o s' => steady s' /\ exists a, o = Ok a) s.
Proof.
  intros [Hw Ht] Hm. apply wp_in_tasks. eapply wp_mono; [exact Hm|]. intros [a|] t Hs.
  - split; [by split|by eexists].
  - split; [split; [done|by apply sound_restart]|by eexists].
Qed.
Lemma steady_ask {A} (m : M TaskWorld (string + A)) s : steady s ->
  wp m (fun _ t => sound t) (aw_task s) -> wp (ask_tasks m) (fun o s' => steady s' /\ exists r, o = Ok r) s.
Proof.
  intros Hs Hm. unfold ask_tasks. wp_go. rewrite tasks_reachable. wp_go. eapply wp_mono; [by apply steady_tasks|].
  intros o s' (Hs' & r & ->). wp_go. destruct r as [[e|a]|], (tasks_call (ag_env s')); wp_go; (split; [done|by eexists]).
Qed.

Lemma steady_CreateChildTask u p s : steady s ->
  wp (CreateChildTask fuel u p) (fun o s' => steady s' /\ exists r, o = Ok r) s.
Proof.
  intros Hs. apply steady_ask; [done|]. eapply wp_mono; [apply (serve_child_request fuel topic), Hs|]. by intros o t (Hp & _).
Qed.
Lemma int32_idem z : int32 (int32 z) = int32 z.
Proof. unfold int32. pose proof (wrap_signed_range 32 z eq_refl). by apply wrap_signed_id. Qed.
Lemma steady_UpdateTask id st status pc td t s : int32 pc = pc -> steady s ->
  wp (UpdateTask fuel id st status pc (payload_of td) t) (fun o s' => steady s' /\ exists e, o = Ok e) s.
Proof.
  intros Hpc Hs. unfold UpdateTask. destruct (TimestampProto t) as [e|ts]; [wp_go; split; [done|by eexists]|].
  apply wp_bind. eapply wp_mono.
  - apply steady_ask; [exact Hs|]. apply wp_bind. eapply wp_mono.
    + apply (serve_update_request fuel topic); [apply Hs|]. split; [exact Hpc|]. apply int32_idem.
    + intros [e|] t' (Hp & _); [by wp_go|done].
  - intros o s' (Hs' & r & ->). wp_go. split; [done|by eexists].
Qed.

(** The update of a task never answers that it is being cancelled, and ends the goroutine only when the
    task had made progress. *)
Lemma steady_UpdateTaskData td s : int32 (td_PercentComplete _ td) = td_PercentComplete _ td -> steady s ->
  wp (UpdateTaskData fuel td) (fun o s' => steady s' /\ exists r, o = Ok r /\ r <> Some (Some Cancelling) /\
    (r = None -> td_PercentComplete _ td <> 0%Z)) s.
Proof.
  intros Hpc Hs. unfold UpdateTaskData. apply wp_bind, wp_bind.
  eapply wp_mono; [apply (steady_own Now _ s works_Now Hs)|]. intros o s1 (Hs1 & t & -> & _). wp_go.
  eapply wp_mono; [by apply steady_UpdateTask|]. intros o s2 (Hs2 & e & ->). cbn [wp_cont].
  case_bool_decide; [|by wp_go; split; [done|exists (Some None)]].
  apply wp_bind, wp_bind. eapply wp_mono; [apply (steady_own Now _ s2 works_Now Hs2)|]. intros o s3 (Hs3 & t' & -> & _). wp_go.
  eapply wp_mono; [by apply steady_UpdateTask|]. intros o s4 (Hs4 & e' & ->). cbn [wp_cont]. wp_go. split; [done|].
  eexists. split; [done|]. destruct (Z.eqb_spec (td_PercentComplete _ td) 0); (split; [done|]); done.
Qed.
Lemma steady_TaskError code st em margs info s :
  args_ok {| ea_StatusMessage := st; ea_ErrorMessage := em; ea_MessageArgs := margs |} -> steady s ->
  wp (TaskError fuel code st em margs info)
     (fun o s' => steady s' /\ exists r, o = Ok r /\ forall rsp, r = Some rsp -> StatusCode rsp = code) s.
Proof.
  intros Ha Hs. unfold TaskError, GeneralErrorTask. destruct (@errorRPC_ok agBody code st em margs Ha) as [e ->].
  cbn [obind]. wp_go. destruct (negb _ && negb _ && _); [|wp_go; split; [done|eexists; split; [done|by intros ? [= <-]]]].
  eapply wp_bind, wp_mono; [by apply steady_UpdateTaskData|]. intros o s' (Hs' & r & -> & _). wp_go. split; [done|].
  eexists. split; [done|]. destruct r; [by intros ? [= <-]|done].
Qed.
End tasks.
