(* ===== verification/AgResetProps.v ===== *)
(** Resetting the systems of an aggregate: the goroutines of the systems neither panic nor find the task
    cancelled, so however they, the one that collects the statuses, and the handler interleave, the
    reset comes to an end, and its status is the greatest that was sent; except for a negative size of
    the batches, for which it waits for ever.  The same for the default boot orders. *)
From stdpp Require Import base gmap list strings.
From Stdlib Require Import Ascii.
From S2P Require Import Prelude Go GoTime GoText GoCodec Response Redis World ConnPool DBSpec AsModel AsSpec ResponseProps RedisIndex Index CaseValidator Auth Session Account Rpc System TModel THandle Services TaskSystem TaskSpec TModelProps TaskProps TaskCancel TaskFrame TaskStoreImpl TaskService SearchProps Search Http AgData AgModel Aggregates AgSpec AgPlugin AgTask AgBatch AgReset AgTaskProps.
Open Scope string_scope.

Lemma HasPrefix_refl s : HasPrefix s s = true.
Proof. induction s as [|c s IH]; [done|]. by rewrite HasPrefix_cons, Ascii.eqb_refl. Qed.
Lemma Contains_suffix s suf : HasSuffix s suf = true -> Contains s suf = true.
Proof.
  induction s as [|c s IH]; cbn [HasSuffix Contains].
  - intros E. destruct suf; [done|]. by cbn in E.
  - intros [E|E]%orb_true_iff.
    + apply String.eqb_eq in E as <-. by rewrite HasPrefix_refl.
    + by rewrite (IH E), orb_true_r.
Qed.
(** The identifier of a task is found in any text. *)
Lemma last_part_ok uri : exists id, THandle.last_part uri = Ok id.
Proof.
  unfold THandle.last_part. cbv zeta. pose proof (split_go_nonempty 0 uri "/") as Hn. fold (Split uri "/") in Hn.
  assert (Hl : (0 < length (Split uri "/"))%nat) by (destruct (Split uri "/"); [done|simpl; lia]).
  destruct (HasSuffix uri "/") eqn:Es.
  - pose proof (Split_length uri "/" (Contains_suffix _ _ Es) ltac:(done)) as H2.
    unfold GoTime.index. destruct (lookup_lt_is_Some_2 (Split uri "/") (length (Split uri "/") - 2)) as [x ->]; [lia|by exists x].
  - unfold GoTime.index. destruct (lookup_lt_is_Some_2 (Split uri "/") (length (Split uri "/") - 1)) as [x ->]; [lia|by exists x].
Qed.

Section reset.
Context `{IndexLaws, Libs, SingleNode, !Network, !MessageBus, !TaskPeer, !TasksReachable}.
Context `{!RSA, !MapIter, !PluginHTTP, !PluginConf, !FairPlugins}.
Context (fuel : nat) (topic : MessageBusQueue <> []).
#[local] Abbreviation steady := (steady fuel).
Implicit Types (s : AgWorld).

(** ** The goroutine of one system *)

Definition sends (m : worker) : Prop := forall s, steady s ->
  wp m (fun o s' => steady s' /\ exists st rest, o = Ok (st, rest) /\ safe steady rest) s.

Lemma sends_own {A} (m : IO A) P (k : A -> worker) : works m P -> (forall a, P a -> sends (k a)) ->
  sends (let! a := in_own m in k a).
Proof.
  intros Hm Hk s Hs. apply wp_bind. eapply wp_mono; [by apply (steady_own fuel m P)|].
  intros o s1 (Hs1 & a & -> & Ha). cbn [wp_cont]. by apply Hk.
Qed.
Lemma sends_lift {A} (a : A) (k : A -> worker) : sends (k a) -> sends (let! a := lift (Ok a) in k a).
Proof. intros Hk s Hs. by apply wp_bind, wp_lift, Hk. Qed.
Lemma sends_ret st rest : safe steady rest -> sends (ret (st, rest)).
Proof. intros Hr s Hs. apply wp_ret. split; [done|]. by exists st, rest. Qed.
Lemma sends_error_ok send code st em margs info :
  args_ok {| ea_StatusMessage := st; ea_ErrorMessage := em; ea_MessageArgs := margs |} ->
  sends (sends_error fuel send code st em margs info).
Proof.
  intros Ha. apply sends_ret. intros s Hs. apply wp_bind. eapply wp_mono; [by apply (steady_TaskError fuel topic)|].
  intros o s' (Hs' & r & -> & _). wp_go. done.
Qed.
Lemma sends_subtask u t k : (forall id, sends (k id)) -> sends (with_subtask fuel u t k).
Proof.
  intros Hk s Hs. unfold with_subtask. apply wp_bind. eapply wp_mono; [by apply (steady_CreateChildTask fuel topic)|].
  intros o s1 (Hs1 & [e|uri] & ->); cbn [wp_cont].
  - wp_go. split; [done|]. eexists _, _. split; [done|]. intros s2 Hs2. by wp_go.
  - destruct (last_part_ok uri) as [id ->]. wp_go. by apply Hk.
Qed.

Lemma works_ask_plugin p t oid em :
  works (ask_plugin p t oid em) (fun r => match r with inl (st, err) => fits st err | inr _ => True end).
Proof.
  unfold ask_plugin. eapply works_bind with (P := fun r => match r with inl (st, err) => fits st err | inr _ => True end).
  - unfold plugin_session. destruct (EqualFold _ _); [|by apply works_ret].
    eapply works_bind; [apply works_contactPlugin|]. intros [[st err]|[[b tok] st]] Hf; by apply works_ret.
  - intros [[st err]|[tok cr]] Hf; [by apply works_ret|].
    eapply works_bind; [apply works_contactPlugin|]. intros [[st err]|[[b tok'] st]] Hf'; by apply works_ret.
Qed.
Lemma sends_on_system uuid kind perr body oid em info k : (forall code, sends (k code)) ->
  sends (on_system fuel uuid kind perr body oid em info k).
Proof.
  intros Hk. unfold on_system. eapply sends_own; [apply works_GetTarget|]. intros [err|t] _; [by apply sends_error_ok|].
  destruct (decrypt_ok (default "" (tg_Password t))) as [r ->]. apply sends_lift.
  destruct r as [err|pw]; [by apply sends_error_ok|].
  eapply sends_own; [apply works_GetPluginData|]. intros [err|p] _; [by apply sends_error_ok|].
  eapply sends_own; [apply works_ask_plugin|]. intros [[st err]|st] Hf; [by apply sends_error_ok|apply Hk].
Qed.
Lemma sends_completes id uri body code after : safe steady after -> sends (completes fuel id uri body code after).
Proof.
  intros Ha. apply sends_ret. intros s Hs. apply wp_bind. eapply wp_mono; [by apply (steady_UpdateTaskData fuel topic)|].
  intros o s1 (Hs1 & r & -> & Hr & _). cbn [wp_cont]. destruct r as [e|]; [|by wp_go].
  rewrite bool_decide_false by congruence. by apply Ha.
Qed.
Lemma sends_resetSystem t body u ty e : sends (resetSystem fuel t body u ty e).
Proof.
  apply sends_subtask. intros id. cbv zeta. unfold SplitN2. destruct (cut _ ".") as [[uuid sys]|]; [|by apply sends_error_ok].
  apply sends_on_system. intros code. apply sends_completes. intros s Hs.
  destruct (code =? StatusOK)%Z; [|by wp_go]. apply wp_bind.
  eapply wp_mono; [apply (steady_own fuel _ _ s (works_AddSystemResetInfo e ty) Hs)|]. intros o s' (Hs' & a & -> & _). by wp_go.
Qed.

(** ** The reports *)

(** The percentage stays at zero until the last status. *)
Lemma percent_zero i n : (S i < n)%nat -> percent i n = 0%Z.
Proof. intros Hi. unfold percent. rewrite Z.div_small by lia. done. Qed.
Lemma report_ok t uri req n code i s : (S i < n)%nat -> steady s ->
  wp (report fuel t uri req n code i) (fun o s' => o = Ok (Some false) /\ steady s') s.
Proof.
  intros Hi Hs. unfold report. rewrite percent_zero by done. apply wp_bind.
  eapply wp_mono; [by apply (steady_UpdateTaskData fuel topic)|]. intros o s1 (Hs1 & r & -> & Hr & Hn). cbn [wp_cont].
  destruct r as [e|]; [|by destruct Hn]. rewrite bool_decide_false by congruence. by wp_go.
Qed.
Lemma reset_safe t uri req u p :
  SafeBatch (reset_one fuel t req u p) (report fuel t uri req (length (p_elements p))) (reset_pause p) (p_elements p) steady.
Proof.
  split.
  - intros e s _ Hs. by apply sends_resetSystem.
  - intros code i s Hi Hs. by apply report_ok.
  - intros s Hs. eapply wp_mono; [apply (steady_own fuel _ _ s (works_Sleep _) Hs)|].
    intros o s' (Hs' & [] & -> & _). done.
Qed.
Lemma steady_all_done t uri req b s : steady s ->
  wp (all_done fuel t uri req b) (fun o _ => exists r, o = Ok r /\ forall rsp, r = Some rsp -> StatusCode rsp = StatusOK) s.
Proof.
  intros Hs. unfold all_done, successRPC. cbn [CreateGenericErrorResponse extendedInfos obind ErrorArgs]. apply wp_bind, wp_lift. cbn [wp_cont].
  apply wp_bind. eapply wp_mono; [by apply (steady_UpdateTaskData fuel topic)|]. intros o s1 (Hs1 & r & -> & Hr & _). cbn [wp_cont].
  destruct r as [e|]; [|by wp_go; eexists]. rewrite bool_decide_false by congruence. wp_go. eexists. split; [done|]. by intros ? [= <-].
Qed.
Lemma steady_reset_end t uri req code b s : steady s ->
  wp (reset_end fuel t uri req code b) (fun o _ => exists r, o = Ok r /\ forall rsp, r = Some rsp -> StatusCode rsp = code) s.
Proof.
  intros Hs. unfold reset_end. destruct (Z.eqb_spec code StatusOK) as [->|Hn]; cbn [negb]; [by apply steady_all_done|].
  eapply wp_mono; [by apply (steady_TaskError fuel topic)|]. intros o s' (_ & r & -> & Hr). by exists r.
Qed.

(** C34: for every interleaving of the goroutines of a reset whose size of batches is not negative, and
    whatever commands of the databases, requests to plugins and calls of the task service fail: nothing
    panics, no run goes on for ever, and a run that cannot go on has ended with the handler having waited
    for all goroutines, each of which has sent one status.  The status of the response is then the
    greatest that was sent, and 200 if all were 200 or less; the code that watches for a cancelled task is
    never reached.  This is under what the code relies on: the private key can be decoded; a plugin that
    answers the request for its status with 200 and a document of the right form names the status in it;
    and the task service is there, so that a client for it can be made, though its calls may fail.
    A reset with a negative size never ends: [reset_negative_batch]. *)
Theorem reset_completes t uri req u p s l c :
  steady s -> (0 <= p_BatchSize p)%Z -> reset_run fuel t uri req u p (begin s) l c ->
  c_panic c = false /\ c_cancelled c = false /\ Acc (flip (reset_next fuel t uri req u p)) c /\
  (reset_stuck fuel t uri req u p c ->
     c_main c = Finished /\ c_workers c = [] /\ length l = length (p_elements p) /\
     wp (reset_end fuel t uri req (c_code c) (c_partial c)) (fun o _ => exists r, o = Ok r /\
       forall rsp, r = Some rsp -> StatusCode rsp = foldl Z.max StatusOK l) (c_world c)).
Proof.
  intros Hs Hb Hr. destruct (batch_completes _ _ _ _ _ _ (reset_safe t uri req u p) Hb _ _ _ Hs Hr) as (Ha & Hp & Hca & Hw & Hst).
  split_and!; [done|done|done|]. intros Hstuck. destruct (Hst Hstuck) as (Hm & Hwk & Hl & Hc & _).
  split_and!; [done|done|done|]. eapply wp_mono; [by apply steady_reset_end|]. intros o s' (r & -> & Hrsp).
  exists r. split; [done|]. intros rsp Er. by rewrite (Hrsp _ Er).
Qed.

(** A reset with a negative size of batches resets nothing and never ends: no goroutine of a system
    is started, the handler comes to wait for as many as there are systems, and nothing can happen any
    more. *)
Theorem reset_negative_batch t uri req u p s l c :
  (p_BatchSize p < 0)%Z -> p_elements p <> [] -> reset_run fuel t uri req u p (begin s) l c ->
  l = [] /\ c_world c = s /\ c_main c <> Finished /\ Acc (flip (reset_next fuel t uri req u p)) c /\
  (reset_stuck fuel t uri req u p c -> c_main c = Waiting /\ c_wg c = Z.of_nat (length (p_elements p))).
Proof.
  intros Hb He Hr. destruct (batch_negative _ _ _ _ _ _ _ _ Hb He Hr) as (-> & [Hw _ _ _ _ _ Hm] & Ha & Hst).
  split_and!; [done|done| |done|done]. intros E. by rewrite E in Hm.
Qed.
End reset.

(** * The default boot orders

    Setting the default boot orders comes to an end, with the status the goroutines sent; but one status
    of a plugin makes the second handler panic, and an empty URI makes the goroutine panic. *)

Section boot.
Context `{IndexLaws, Libs, SingleNode, !Network, !MessageBus, !TaskPeer, !TasksReachable}.
Context `{!RSA, !MapIter, !PluginHTTP, !PluginConf, !FairPlugins}.
Context (fuel : nat) (topic : MessageBusQueue <> []).
#[local] Abbreviation steady := (steady fuel).
Implicit Types (s : AgWorld).

(** ** The goroutine of one system *)

Lemma getIDs_ok uri : uri <> "" -> exists r, getIDsFromURI uri = Ok r.
Proof.
  intros Hn. unfold getIDsFromURI. destruct uri as [|c uri]; [done|]. cbv zeta.
  destruct (SplitN2 _ _) as [|a [|b [|]]]; by eexists.
Qed.
Lemma sends_default_order t body u uri : uri <> "" -> sends fuel (collectAndSetDefaultOrder fuel t body u uri).
Proof.
  intros Hn. apply (sends_subtask fuel topic). intros id. cbv zeta. destruct (getIDs_ok uri Hn) as [r ->]. apply sends_lift.
  destruct r as [err|[uuid sys]]; [by apply (sends_error_ok fuel topic)|].
  apply (sends_on_system fuel topic). intros code. apply (sends_completes fuel topic). intros s Hs. by wp_go.
Qed.
Lemma boot_safe t uri req u l : Forall (fun e => e <> "") l ->
  SafeGather (boot_one fuel t req u) (report fuel t uri req (length l)) l steady.
Proof.
  intros Hl. split.
  - intros e s He Hs. apply sends_default_order; [|done]. rewrite Forall_forall in Hl. by apply Hl.
  - intros code i s Hi Hs. by apply (report_ok fuel topic).
Qed.

(** ** The ends *)

(** The code of the response for the greatest status. *)
Definition boot_code (code : Z) : Z :=
  if (code =? StatusOK)%Z || (code =? StatusUnauthorized)%Z || (code =? StatusNotFound)%Z then code
  else StatusInternalServerError.
Definition answers_with (P : Z -> Prop) (o : outcome (option agRPC)) : Prop :=
  exists r, o = Ok r /\ forall rsp, r = Some rsp -> P (StatusCode rsp).
Lemma wp_boot_end arg t uri req code b s : steady s ->
  (code = StatusUnauthorized -> exists x, arg = IString x) ->
  wp (boot_end fuel arg t uri req code b) (fun o _ => answers_with (fun c => c = boot_code code) o) s.
Proof.
  intros Hs Harg. unfold boot_end, boot_code. cbv zeta.
  assert (Hend : forall code' st em margs, args_ok {| ea_StatusMessage := st; ea_ErrorMessage := em; ea_MessageArgs := margs |} ->
    wp (TaskError fuel code' st em margs (task_info t uri req)) (fun o _ => answers_with (fun c => c = code') o) s).
  { intros code' st em margs Ha. eapply wp_mono; [by apply (steady_TaskError fuel topic)|].
    intros o s' (_ & r & -> & Hr). by exists r. }
  destruct (Z.eqb_spec code StatusOK) as [->|Hn]; cbn [negb].
  { eapply wp_mono; [by apply (steady_all_done fuel topic)|]. intros o s' (r & -> & Hr). by exists r. }
  destruct (Z.eqb_spec code StatusUnauthorized) as [->|Hn1].
  { destruct (Harg eq_refl) as [x ->]. by apply Hend. }
  destruct (Z.eqb_spec code StatusNotFound) as [->|Hn2]; by apply Hend.
Qed.
(** The list of the elements does not fit the message. *)
Lemma wp_boot_end_panics l t uri req b s :
  wp (boot_end fuel (IStrings l) t uri req StatusUnauthorized b) (fun o s' => o = Panic /\ s' = s) s.
Proof. done. Qed.

(** For every interleaving of the goroutines of SetDefaultBootOrder, none of whose URIs is empty,
    and whatever commands, calls and plugins fail: nothing panics, no run goes on for ever, and a run
    that cannot go on has ended with the handler done and every goroutine ended.  As soon as the
    handler is done it has one status of every system, and its response has the greatest of them,
    taken at least 200, if that is 200, 401 or 404, and 500 otherwise. *)
Theorem default_order_completes systems t req u s l c :
  let elements := od_OdataID <$> systems in
  steady s -> Forall (fun e => e <> "") elements ->
  boot_run fuel t setOrderURI (ar_RequestText req) u elements (gather_begin elements s) l c ->
  g_panic c = false /\ g_main c <> Exited /\
  Acc (flip (boot_next fuel t setOrderURI (ar_RequestText req) u elements)) c /\
  (boot_stuck fuel t setOrderURI (ar_RequestText req) u elements c -> g_main c = Gathered /\ g_workers c = []) /\
  (g_main c = Gathered -> length l = length systems /\
     wp (SetDefaultBootOrder_end fuel systems t req (g_code c) (g_partial c))
        (fun o _ => answers_with (fun code => code = boot_code (foldl Z.max StatusOK l)) o) (g_world c)).
Proof.
  intros elements Hs He Hr.
  destruct (gather_completes _ _ _ _ (boot_safe t setOrderURI (ar_RequestText req) u elements He) _ _ _ Hs Hr)
    as (Ha & Hp & Hw & Hx & Hst & Hg).
  split_and!; [done..|]. intros Hm. destruct (Hg Hm) as (Hl & Hc & _).
  split; [by rewrite Hl; unfold elements; rewrite length_fmap|].
  unfold SetDefaultBootOrder_end. rewrite Hc. apply wp_boot_end; [done|]. by eexists.
Qed.

(** When the handler of the default boot orders of an aggregate has taken all statuses, in any
    interleaving and whatever fails, it has one of every element; its response has the greatest of
    them, taken at least 200, if that is 200 or 404, and 500 otherwise; but when it is 401, as when a
    plugin refuses the credentials of a system, the handler panics, and the process of the service
    dies, because the message for 401 is given the list of the elements where it takes a string. *)
Theorem default_order_elements_end elements t req u s l c :
  steady s -> Forall (fun e => e <> "") elements ->
  boot_run fuel t (ar_URL req) (request_text req) u elements (gather_begin elements s) l c -> g_main c = Gathered ->
  length l = length elements /\
  wp (SetDefaultBootOrderElements_end fuel elements t req (g_code c) (g_partial c))
     (fun o _ => if (foldl Z.max StatusOK l =? StatusUnauthorized)%Z then o = Panic
                 else answers_with (fun code => code = boot_code (foldl Z.max StatusOK l)) o) (g_world c).
Proof.
  intros Hs He Hr Hm.
  destruct (gather_completes _ _ _ _ (boot_safe t (ar_URL req) (request_text req) u elements He) _ _ _ Hs Hr)
    as (_ & _ & Hw & _ & _ & Hg).
  destruct (Hg Hm) as (Hl & Hc & _). split; [done|]. unfold SetDefaultBootOrderElements_end. rewrite Hc.
  change (foldl Z.max 200 l) with (foldl Z.max StatusOK l)%Z. destruct (Z.eqb_spec (foldl Z.max StatusOK l) StatusUnauthorized) as [->|Hn].
  - eapply wp_mono; [apply wp_boot_end_panics|]. by intros o s' [-> _].
  - apply wp_boot_end; [done|]. done.
Qed.

(** A system with an empty URI ends the process once its sub-task is there. *)
Theorem empty_uri_panics t body u s : steady s ->
  wp (collectAndSetDefaultOrder fuel t body u "") (fun o _ => o = Panic \/ exists rest, o = Ok (StatusInternalServerError, rest)) s.
Proof.
  intros Hs. unfold collectAndSetDefaultOrder, with_subtask. apply wp_bind. eapply wp_mono; [by apply (steady_CreateChildTask fuel topic)|].
  intros o s1 (Hs1 & [e|uri] & ->); cbn [wp_cont].
  - wp_go. right. by eexists.
  - destruct (last_part_ok uri) as [id ->]. wp_go. by left.
Qed.
End boot.
