(* ===== verification/AgRpc.v ===== *)
(** svc-aggregation/rpc: the gRPC handlers of the aggregation service, and the update of an aggregation
    source (system/update.go), which is the one operation that is only called from here.

    Each of the eighteen handlers whose request carries a session token first has the token checked for
    the privilege it asks for.  What takes long is left to a goroutine, which is put among those of the
    state, and the request is answered with the task to watch.  Of the three handlers whose requests have
    no token RediscoverSystemInventory is modelled, up to the goroutine it starts; UpdateSystemState and
    SendStartUpData are not.  A response is the RPC record before its body is turned into JSON. *)
From stdpp Require Import base gmap list strings.
From Stdlib Require Import Ascii.
From S2P Require Import Prelude Go GoTime GoText GoCodec Response Redis World ConnPool RedisIndex Index AsModel Auth Session Rpc System TModel THandle Services TaskSystem Search Http AgData AgModel Aggregates AgPlugin AgTask AgBatch AgReset.
Open Scope string_scope.

(** ** system/common.go: the request for a new source *)

(** ConnectionMethod of package system. *)
Record SourceMethod := mkSourceMethod {
  sm_OdataID : string;
}.
Definition zeroSourceMethod : SourceMethod := mkSourceMethod "".
Definition SourceMethod_type : struct_type SourceMethod := {|
  st_name := "ConnectionMethod";
  st_fields :=
    [("@odata.id", on sm_OdataID (fun x _ => mkSourceMethod x) dec_string)] |}.

(** Links of package system. *)
Record SourceLinks := mkSourceLinks {
  sl_ConnectionMethod : option SourceMethod;
}.
Definition zeroSourceLinks : SourceLinks := mkSourceLinks None.
Definition SourceLinks_type : struct_type SourceLinks := {|
  st_name := "Links";
  st_fields :=
    [("ConnectionMethod", on sl_ConnectionMethod (fun x _ => mkSourceLinks x) (dec_pointer (dec_struct "system." "Links.ConnectionMethod." SourceMethod_type) zeroSourceMethod))] |}.

(** AggregationSource of package system. *)
Record SourceRequest := mkSourceRequest {
  sq_HostName : string;
  sq_UserName : string;
  sq_Password : string;
  sq_Links : option SourceLinks;
}.
Definition zeroSourceRequest : SourceRequest := mkSourceRequest "" "" "" None.
Definition SourceRequest_type : struct_type SourceRequest := {|
  st_name := "AggregationSource";
  st_fields :=
    [("HostName", on sq_HostName (fun x r => mkSourceRequest x (sq_UserName r) (sq_Password r) (sq_Links r)) dec_string);
     ("UserName", on sq_UserName (fun x r => mkSourceRequest (sq_HostName r) x (sq_Password r) (sq_Links r)) dec_string);
     ("Password", on sq_Password (fun x r => mkSourceRequest (sq_HostName r) (sq_UserName r) x (sq_Links r)) dec_string);
     ("Links", on sq_Links (fun x r => mkSourceRequest (sq_HostName r) (sq_UserName r) (sq_Password r) x) (dec_pointer (dec_struct "system." "Links." SourceLinks_type) zeroSourceLinks))] |}.

(** ** net *)

(** [net.SplitHostPort]; every error gives an empty host. *)
Definition has (c : ascii) (s : string) : bool := string_exists (Ascii.eqb c) s.
Definition SplitHostPort (hostport : string) : option (string * string) :=
  if HasPrefix hostport "[" then
    match cut (TrimPrefix hostport "[") "]" with
    | Some (host, rest) =>
        let port := TrimPrefix rest ":" in
        if HasPrefix rest ":" && negb (has ":" port) && negb (has "[" host) && negb (has "[" port) && negb (has "]" port)
        then Some (host, port) else None
    | None => None
    end
  else
    match Split hostport ":" with
    | [host; port] => if has "[" hostport || has "]" hostport then None else Some (host, port)
    | _ => None
    end.
(** The error of [net.ResolveIPAddr("ip", addr)]. *)
Class Resolver : Type := { ResolveIPAddr : string -> option string }.

Definition validateManagerAddress `{Resolver} (managerAddress : string) : option string :=
  let addr := match SplitHostPort managerAddress with Some (addr, _) => addr | None => "" end in
  let addr := if String.eqb addr "" then managerAddress else addr in
  match ResolveIPAddr addr with
  | Some err => Some ("error: failed to resolve ManagerAddress: " +:+ err)
  | None => None
  end.
Definition validateLinks (req : option SourceLinks) : string :=
  match req with
  | None => "Links"
  | Some req =>
      match sl_ConnectionMethod req with
      | Some m => if no_text (sm_OdataID m) then "ConnectionMethod @odata.id" else ""
      | None => ""
      end
  end.
Definition validateAggregationSourceRequest (req : SourceRequest) : string :=
  (if no_text (sq_HostName req) then "HostName " else "") +:+ (if no_text (sq_Password req) then "Password " else "") +:+
  (if no_text (sq_UserName req) then "UserName " else "") +:+ validateLinks (sq_Links req).

(** ** system/update.go: a source is updated *)

(** The result of getConnectionMethodVariants. *)
Record connectionMethodVariants := {
  cv_PluginType : string;
  cv_PreferredAuthType : string;
  cv_PluginID : string;
  cv_FirmwareVersion : string;
}.
Definition getConnectionMethodVariants (connectionMethodVariant : string) : outcome connectionMethodVariants :=
  let cm := Split connectionMethodVariant ":" in
  obind (index cm 2) (fun pluginID =>
  obind (index cm 0) (fun pluginType => obind (index cm 1) (fun authType =>
  obind (index (Split pluginID "_") 1) (fun firmwareVersion =>
    Ok {| cv_PluginType := pluginType; cv_PreferredAuthType := authType; cv_PluginID := pluginID;
          cv_FirmwareVersion := firmwareVersion |})))).

(** [str[i-1]] is looked at only where the part is the identifier, and panics for the first part. *)
Definition collection_part (s : string) : bool :=
  existsb (EqualFold s) ["Systems"; "Chassis"; "Managers"; "FirmwareInventory"; "SoftwareInventory"].
Fixpoint key_parts (before : option string) (str : list string) (systemID DeviceUUID : string) : outcome (list string) :=
  match str with
  | [] => Ok []
  | id :: rest =>
      obind (if String.eqb id systemID
             then match before with Some s => Ok (collection_part s) | None => Panic end
             else Ok false) (fun named =>
      obind (key_parts (Some id) rest systemID DeviceUUID) (fun key =>
        Ok ((if named : bool then DeviceUUID +:+ "." +:+ id else id) :: key)))
  end.
Definition keyFormation (oid systemID DeviceUUID : string) : outcome string :=
  match oid with
  | EmptyString => Panic
  | _ =>
      let oid := if HasSuffix oid "/" then String.substring 0 (String.length oid - 1) oid else oid in
      obind (key_parts None (Split oid "/") systemID DeviceUUID) (fun key => Ok (Join key "/"))
  end.

(** MsgExtendedInfo, ErrorClass and CommonError of package errors. *)
Record ExtendedInfo := mkExtendedInfo {
  xi_OdataType : string;
  xi_MessageID : string;
  xi_Message : string;
  xi_Severity : string;
  xi_Resolution : string;
}.
Definition zeroExtendedInfo : ExtendedInfo := mkExtendedInfo "" "" "" "" "".
Definition ExtendedInfo_type : struct_type ExtendedInfo := {|
  st_name := "MsgExtendedInfo";
  st_fields :=
    [("@odata.type", on xi_OdataType (fun x r => mkExtendedInfo x (xi_MessageID r) (xi_Message r) (xi_Severity r) (xi_Resolution r)) dec_string);
     ("MessageId", on xi_MessageID (fun x r => mkExtendedInfo (xi_OdataType r) x (xi_Message r) (xi_Severity r) (xi_Resolution r)) dec_string);
     ("Message", on xi_Message (fun x r => mkExtendedInfo (xi_OdataType r) (xi_MessageID r) x (xi_Severity r) (xi_Resolution r)) dec_string);
     ("Severity", on xi_Severity (fun x r => mkExtendedInfo (xi_OdataType r) (xi_MessageID r) (xi_Message r) x (xi_Resolution r)) dec_string);
     ("Resolution", on xi_Resolution (fun x r => mkExtendedInfo (xi_OdataType r) (xi_MessageID r) (xi_Message r) (xi_Severity r) x) dec_string)] |}.
Record DeviceErrorClass := mkDeviceErrorClass {
  de_Code : string;
  de_Message : string;
  de_MessageExtendedInfo : slice ExtendedInfo;
}.
Definition zeroDeviceErrorClass : DeviceErrorClass := mkDeviceErrorClass "" "" None.
Definition DeviceErrorClass_type : struct_type DeviceErrorClass := {|
  st_name := "ErrorClass";
  st_fields :=
    [("code", on de_Code (fun x r => mkDeviceErrorClass x (de_Message r) (de_MessageExtendedInfo r)) dec_string);
     ("message", on de_Message (fun x r => mkDeviceErrorClass (de_Code r) x (de_MessageExtendedInfo r)) dec_string);
     ("@Message.ExtendedInfo", on de_MessageExtendedInfo (fun x r => mkDeviceErrorClass (de_Code r) (de_Message r) x)
        (dec_slice "errors.MsgExtendedInfo" (dec_struct "errors." "error.@Message.ExtendedInfo." ExtendedInfo_type) zeroExtendedInfo))] |}.
Record DeviceError := mkDeviceError {
  dr_Error : DeviceErrorClass;
}.
Definition zeroDeviceError : DeviceError := mkDeviceError zeroDeviceErrorClass.
Definition DeviceError_type : struct_type DeviceError := {|
  st_name := "CommonError";
  st_fields :=
    [("error", on dr_Error (fun x _ => mkDeviceError x) (dec_struct "errors." "error." DeviceErrorClass_type))] |}.

(** [json.Unmarshal(text, &m)] with [m] a nil [map[string]interface{}]: null leaves it nil. *)
Definition Unmarshal_object (t : jtext) : string + list (string * json) :=
  match t with
  | NotJson _ err => inl err
  | Text j =>
      match through_interface j with
      | JObj kvs => inr kvs
      | JNull => inr []
      | _ => inl ("json: cannot unmarshal " +:+ json_kind j +:+ " into Go value of type map[string]interface {}")
      end
  end.
(** [m[k]] of such a map, nil where there is none; and the assertion to a slice. *)
Definition map_get (m : list (string * json)) (k : string) : option json :=
  snd <$> List.find (fun kv => String.eqb kv.1 k) m.
Definition field (k : string) (m : list (string * json)) : json := default JNull (map_get m k).
Definition as_slice (j : json) : outcome (list json) := match j with JArr l => Ok l | _ => Panic end.
(** The fields that are empty; a value that is no string panics. *)
Fixpoint empty_fields (updateRequest : list (string * json)) : outcome string :=
  match updateRequest with
  | [] => Ok ""
  | (key, value) :: rest =>
      obind (as_string value) (fun v => obind (empty_fields rest) (fun param =>
        Ok ((if no_text v then key +:+ " " else "") +:+ param)))
  end.
Definition text_field (k : string) (m : list (string * json)) : option string :=
  match map_get m k with Some (JStr s) => Some s | _ => None end.

(** What is left of the request once all its values are known to be strings. *)
Record sourceUpdate := mkSourceUpdate {
  su_HostName : string;
  su_UserName : string;
  su_Password : option string;
}.

Section update.
Context `{Env, !IndexEnv, Config, !RSA, !RSAPublic, !MapIter, !PluginHTTP, !PluginConf, !Resolver, !JSONTexts}.
Context (fuel : nat).

(** An answer that ends the update, or what it goes on with.  The answers of the functions below that go
    on have no message, those that end the update have one. *)
Definition or_answer A : Type := agRPC + A.
Definition answer_with {A} (o : outcome agRPC) : IO (or_answer A) := let! r := lift o in ret (inl r).
Definition and_then {A B} (m : IO (or_answer A)) (k : A -> IO (or_answer B)) : IO (or_answer B) :=
  let! r := m in match r with inl answer => ret (inl answer) | inr a => k a end.
#[local] Notation "'let?' x ':=' m 'in' k" := (and_then m (fun x => k))
  (at level 200, x name, m at level 100, k at level 200).
Definition internal_error {A} (errMsg : string) : IO (or_answer A) :=
  answer_with (GeneralError StatusInternalServerError InternalError errMsg []).

(** The body and the token of a plugin's answer. *)
Definition contact (request : getResourceRequest) (errorMessage : string) : IO (or_answer (string * string)) :=
  let! r := contactPlugin request errorMessage in
  match r with
  | inl (st, err) => answer_with (GeneralError (rs_StatusCode st) (rs_StatusMessage st) err (rs_MsgArgs st))
  | inr (body, token, _) => ret (inr (body, token))
  end.
Definition asks (method OID : string) (request : getResourceRequest) : getResourceRequest := {|
  gr_DeviceInfo := gr_DeviceInfo request; gr_LoginCredentials := gr_LoginCredentials request; gr_OID := OID;
  gr_Plugin := gr_Plugin request; gr_HTTPMethodType := method; gr_Token := gr_Token request;
  gr_StatusPoll := gr_StatusPoll request |}.
Definition sends (deviceInfo : json) (request : getResourceRequest) : getResourceRequest := {|
  gr_DeviceInfo := deviceInfo; gr_LoginCredentials := gr_LoginCredentials request; gr_OID := gr_OID request;
  gr_Plugin := gr_Plugin request; gr_HTTPMethodType := gr_HTTPMethodType request; gr_Token := gr_Token request;
  gr_StatusPoll := gr_StatusPoll request |}.
(** The request all others are made from: with the token of a new session, or with the credentials. *)
Definition open_session (plugin : Plugin) (userKey errorMessage : string) : IO (or_answer getResourceRequest) :=
  let request token credentials info := {|
    gr_DeviceInfo := info; gr_LoginCredentials := credentials; gr_OID := "/ODIM/v1/Sessions"; gr_Plugin := plugin;
    gr_HTTPMethodType := "POST"; gr_Token := token; gr_StatusPoll := true |} in
  if EqualFold (pl_PreferredAuthType plugin) "XAuthToken" then
    let info := JObj [("Password", JStr (password plugin)); (userKey, JStr (pl_Username plugin))] in
    let? r := contact (request "" None info) errorMessage in
    ret (inr (request r.2 None info))
  else ret (inr (request "" (Some (<["UserName" := pl_Username plugin]> {[ "Password" := password plugin ]})) JNull)).
Definition details (OID : string) : string := "error while getting the details " +:+ OID +:+ ": ".

(** *** A source that is a plugin *)

Definition with_ManagerUUID (uuid : string) (p : Plugin) : Plugin :=
  mkPlugin (pl_IP p) (pl_Port p) (pl_Username p) (pl_Password p) (pl_ID p) (pl_PluginType p) (pl_PreferredAuthType p) uuid.
(** The UUID of the last manager that names one. *)
Definition manager_uuid (request : getResourceRequest) (managersMap : list (string * json)) (managerUUID : string)
  : IO (or_answer string) :=
  let! managerMembers := lift (as_slice (field "Members" managersMap)) in
  loopM managerMembers managerUUID (fun managerUUID object =>
    let! OID := lift (obind (member object "@odata.id") as_string) in
    let? r := contact (asks "GET" OID request) (details OID) in
    match Unmarshal_object (text_json r.1) with
    | inl err => internal_error ("Unable to parse the managers response" +:+ err)
    | inr managerData =>
        match map_get managerData "UUID" with
        | Some uuid => let! uuid := lift (as_string uuid) in ret (inr uuid)
        | None => ret (inr managerUUID)
        end
    end).
Definition updateManagerAggregationSource (pluginID : string) (update : sourceUpdate) (hostNameUpdated : bool)
  : IO (or_answer (option string)) :=
  let! stored := GetPluginData pluginID in
  match stored with
  | inl errs => answer_with (GeneralError StatusNotFound ResourceNotFound (errMsg errs) [IString "plugin"; IString pluginID])
  | inr stored =>
      let ipData := Split (su_HostName update) ":" in
      let! ip := lift (index ipData 0) in
      let! port := lift (index ipData 1) in
      let plugin := mkPlugin ip port (su_UserName update) (su_Password update) (pl_ID stored) (pl_PluginType stored)
                      (pl_PreferredAuthType stored) (pl_ManagerUUID stored) in
      let? request := open_session plugin "Username" "error while creating the session: " in
      let? _ := contact (asks "GET" "/ODIM/v1/Status" request) (details "/ODIM/v1/Status") in
      let request := asks "GET" "/ODIM/v1/Managers" request in
      let? r := contact request (details "/ODIM/v1/Managers") in
      match Unmarshal_object (text_json r.1) with
      | inl err => internal_error ("Unable to parse the managers resposne" +:+ err)
      | inr managersMap =>
          let? managerUUID := (if hostNameUpdated then
              let? managerUUID := manager_uuid request managersMap (pl_ManagerUUID plugin) in
              if negb (String.eqb managerUUID (pl_ManagerUUID plugin))
              then answer_with (GeneralError StatusBadRequest ResourceInUse
                     ("Manager UUID " +:+ managerUUID +:+ "is not matching plugin UUID: " +:+ pl_ManagerUUID plugin) [])
              else ret (inr managerUUID)
            else ret (inr (pl_ManagerUUID plugin))) in
          let! ciphertext := EncryptWithPublicKey (password plugin) in
          match ciphertext with
          | inl err => internal_error ("Encryption failed: " +:+ err)
          | inr ciphertext =>
              let! dbErr := UpdatePluginData (with_ManagerUUID managerUUID (with_Password ciphertext plugin)) pluginID in
              match dbErr with
              | Some dbErr => internal_error ("Unable to update plugin info: " +:+ errMsg dbErr)
              | None => ret (inr ciphertext)
              end
          end
      end
  end.

(** *** A source that is a server *)

(** One system of the server at the new address: it must be the one that is known by its UUID. *)
Definition same_system (aggregationSourceID hostName : string) (request : getResourceRequest) (object : json)
  : IO (or_answer unit) :=
  let! oDataID := lift (obind (member object "@odata.id") as_string) in
  let? r := contact (asks "GET" oDataID request) "error while trying to get system details: " in
  match Unmarshal_object (text_json r.1) with
  | inl err => internal_error ("Unable to unmarshal computer system: " +:+ err)
  | inr computeSystem =>
      let! computeSystemID := lift (as_string (field "Id" computeSystem)) in
      let! computeSystemUUID := lift (as_string (field "UUID" computeSystem)) in
      let! oidKey := lift (keyFormation oDataID computeSystemID aggregationSourceID) in
      let! indexList := GetString fuel "UUID" computeSystemUUID in
      if (length indexList <=? 0)%nat || negb (existsb (String.eqb oidKey) indexList)
      then answer_with (GeneralError StatusBadRequest ResourceInUse
             "UUID of the added bmc is not matching with given HostName" [])
      else
        let! err := UpdateIndex fuel [] oidKey computeSystemUUID hostName in
        match err with
        | Some err => internal_error ("error while trying updating index values: " +:+ err)
        | None => ret (inr tt)
        end
  end.
Definition same_systems (aggregationSourceID hostName : string) (request : getResourceRequest) : IO (or_answer unit) :=
  let request := asks "GET" "/redfish/v1/Systems" request in
  let? r := contact request "error while trying to get system collection details: " in
  match Unmarshal_object (text_json r.1) with
  | inl err => internal_error ("Unable to unmarshal systems collection: " +:+ err)
  | inr systemsMap =>
      let! systemMembers := lift (as_slice (field "Members" systemsMap)) in
      loopM systemMembers tt (fun _ object => same_system aggregationSourceID hostName request object)
  end.
Definition updateBMCAggregationSource (aggregationSourceID pluginID : string) (update : sourceUpdate) (hostNameUpdated : bool)
  : IO (or_answer (option string)) :=
  let! plugin := GetPluginData pluginID in
  match plugin with
  | inl errs => answer_with (GeneralError StatusNotFound ResourceNotFound (errMsg errs) [IString "plugin"; IString pluginID])
  | inr plugin =>
      let? request := open_session plugin "UserName" "error while logging in to plugin: " in
      let saveSystem := mkSaveSystem (su_HostName update) (su_Password update) (su_UserName update) "" "" in
      let request := asks "POST" "/ODIM/v1/validate" (sends (marshal_SaveSystem saveSystem) request) in
      let? r := contact request "error while trying to authenticate the compute server: " in
      match Unmarshal DeviceError_type (text_json r.1) zeroDeviceError with
      | (_, Some err) => internal_error err
      | (_, None) =>
          let? _ := (if hostNameUpdated then same_systems aggregationSourceID (su_HostName update) request
                     else ret (inr tt)) in
          let! ciphertext := EncryptWithPublicKey (default "" (ss_Password saveSystem)) in
          match ciphertext with
          | inl err => internal_error ("Unable to encrypt device password: " +:+ err)
          | inr ciphertext =>
              let! dbErr := UpdateSystemData (mkSaveSystem (su_HostName update) ciphertext (su_UserName update)
                                                aggregationSourceID pluginID) aggregationSourceID in
              match dbErr with
              | Some dbErr => internal_error ("Unable to update system info: " +:+ errMsg dbErr)
              | None => ret (inr ciphertext)
              end
          end
      end
  end.

(** The encrypted password, when the plugin has accepted the update. *)
Definition updateAggregationSourceWithConnectionMethod (url : string) (connectionMethodLink : json)
    (update : sourceUpdate) (hostNameUpdated : bool) : IO (or_answer (option string)) :=
  let! connectionMethodOdataID := lift (obind (member connectionMethodLink "@odata.id") as_string) in
  let! connectionMethod := GetConnectionMethod connectionMethodOdataID in
  match connectionMethod with
  | inl err => answer_with (notRead "ConnectionMethod" connectionMethodOdataID err)
  | inr connectionMethod =>
      let! cmVariants := lift (getConnectionMethodVariants (cm_ConnectionMethodVariant connectionMethod)) in
      let uuid := hd "" (SplitN2 (AgModel.last_part (Split url "/")) ".") in
      let! target := GetTarget uuid in
      match target with
      | inl _ =>
          let! _ := lift (index (Split url (aggregationSourcesURI +:+ "/")) 1) in
          updateManagerAggregationSource (cv_PluginID cmVariants) update hostNameUpdated
      | inr _ => updateBMCAggregationSource uuid (cv_PluginID cmVariants) update hostNameUpdated
      end
  end.

(** *** The request *)

(** The new host, and whether it is another one; an address that cannot be resolved is refused. *)
Definition new_host (aggregationSource : AggregationSource) (updateRequest : list (string * json)) : IO (or_answer (string * bool)) :=
  match text_field "HostName" updateRequest with
  | None => ret (inr (as_HostName aggregationSource, false))
  | Some host =>
      match validateManagerAddress host with
      | Some err => answer_with (GeneralError StatusBadRequest PropertyValueFormatError err [IString host; IString "HostName"])
      | None => ret (inr (host, negb (String.eqb host (as_HostName aggregationSource))))
      end
  end.
(** The new password, or the old one decrypted. *)
Definition new_password (aggregationSource : AggregationSource) (updateRequest : list (string * json)) : IO (or_answer (option string)) :=
  match text_field "Password" updateRequest with
  | Some password => ret (inr (Some password))
  | None =>
      let! r := lift (DecryptWithPrivateKey (default "" (as_Password aggregationSource))) in
      match r with
      | inl err => internal_error ("Unable to decrypt device password: " +:+ err)
      | inr password => ret (inr (Some password))
      end
  end.
(** No other server has the address. *)
Definition host_is_free (ipAddr : string) : IO (or_answer unit) :=
  let! indexList := GetString fuel "BMCAddress" ipAddr in
  if (0 <? length indexList)%nat
  then answer_with (GeneralError StatusConflict ResourceAlreadyExists ("Manager address already exist " +:+ ipAddr)
         [IString "ComputerSystem"; IString "HostName"; IString ipAddr])
  else ret (inr tt).
Definition updated_source (update : sourceUpdate) (password : option string) (a : AggregationSource) : AggregationSource :=
  mkAggregationSource (su_HostName update) (su_UserName update) password (as_Links a) (as_ODataContext a) (as_ODataEtag a)
    (as_ODataID a) (as_ODataType a) (as_Name a) (as_Actions a) (as_Description a) (as_ID a) (as_Oem a) (as_SNMP a).
(** The update of a source that was read, with a request that has fields and no empty ones. *)
Definition update_source (URL : string) (aggregationSource : AggregationSource) (updateRequest : list (string * json))
  : IO (or_answer agRPC) :=
  let userName := default (as_UserName aggregationSource) (text_field "UserName" updateRequest) in
  let? host := new_host aggregationSource updateRequest in
  let? password := new_password aggregationSource updateRequest in
  let? _ := (if host.2 then host_is_free host.1 else ret (inr tt)) in
  let update := mkSourceUpdate host.1 userName password in
  let! link := lift (member (as_Links aggregationSource) "ConnectionMethod") in
  let? ciphertext := updateAggregationSourceWithConnectionMethod URL link update host.2 in
  let! dbErr := UpdateAggregtionSource (updated_source update ciphertext aggregationSource) URL in
  match dbErr with
  | Some dbErr => internal_error ("error while trying to update aggregation source info: " +:+ errMsg dbErr)
  | None =>
      let! id := lift (index (Split URL (aggregationSourcesURI +:+ "/")) 1) in
      let! commonResponse := lift (CreateGenericResponse
        (mkResponse "#AggregationSource.v1_1_0.AggregationSource" URL
           "/redfish/v1/$metadata#AggregationSource.AggregationSource" id "Aggregation Source") Success) in
      ret (inr (mkRPC StatusOK Success []
             (Body (AggregationSourceBody (blank_message commonResponse) (su_HostName update) (su_UserName update)
                      (as_Links aggregationSource)))))
  end.
Definition UpdateAggregationSource (req : AggregatorRequest) : IO agRPC :=
  let! aggregationSource := GetAggregationSourceInfo (ar_URL req) in
  match aggregationSource with
  | inl dbErr => lift (notRead "AggregationSource" (ar_URL req) dbErr)
  | inr aggregationSource =>
      let missing param := lift (GeneralError StatusBadRequest PropertyMissing ("field " +:+ param +:+ " Missing") [IString param]) in
      match Unmarshal_object (ar_RequestBody req) with
      | inl err => lift (GeneralError StatusInternalServerError InternalError ("Unable to parse the add request" +:+ err) [])
      | inr [] => missing "HostName UserName Password "
      | inr updateRequest =>
          let! param := lift (empty_fields (map_iter updateRequest)) in
          if negb (no_text param) then missing param
          else
            let! r := update_source (ar_URL req) aggregationSource updateRequest in
            match r with inl rpc => ret rpc | inr rpc => ret rpc end
      end
  end.
End update.

Section AgRpc.
Context `{Env, !IndexEnv, Libs, Config, !Network, !MessageBus, !TaskPeer, !RSA, !RSAPublic, !MapIter, !PluginHTTP, !PluginConf, !Resolver, !JSONTexts}.
Context (fuel : nat).

(** ** What the handlers share *)

Definition Authorize (token : string) (privileges : list string) : M AgWorld agRPC :=
  Services.IsAuthorized in_session_service ag_env token privileges [].
Definition GetSessionUserName (token : string) : M AgWorld (string + string) :=
  Services.GetSessionUserName in_session_service ag_env token.
Definition authorised (privilege : string) (req : AggregatorRequest) (operation : M AgWorld agRPC) : M AgWorld agRPC :=
  let! authResp := Authorize (ar_SessionToken req) [privilege] in
  if negb (StatusCode authResp =? StatusOK)%Z then ret authResp else operation.
Definition with_user (req : AggregatorRequest) (k : string -> M AgWorld agRPC) : M AgWorld agRPC :=
  let! sessionUserName := GetSessionUserName (ar_SessionToken req) in
  match sessionUserName with
  | inl err => lift (GeneralError StatusUnauthorized NoValidSession ("Unable to get session username: " +:+ err) [])
  | inr sessionUserName => k sessionUserName
  end.
(** [article] is the one word in which the error texts differ. *)
Definition with_task (article sessionUserName : string) (k : string -> M AgWorld agRPC) : M AgWorld agRPC :=
  let! taskURI := CreateTask fuel sessionUserName in
  match taskURI with
  | inl err => lift (GeneralError StatusInternalServerError InternalError ("Unable to create " +:+ article +:+ "task: " +:+ err) [])
  | inr taskURI => k taskURI
  end.
Definition generateTaskRespone (taskID taskURI : string) (rpcResp : agRPC) : outcome agRPC :=
  let commonResponse := {|
    OdataType := "#Task.v1_5_1.Task"; OdataID := taskURI; OdataContext := "/redfish/v1/$metadata#Task.Task";
    Description := ""; ID := taskID; Name := "Task " +:+ taskID; Message := ""; MessageID := "";
    MessageArgs := [taskID]; NumberOfArgs := 0; Severity := ""; Resolution := "" |} in
  obind (CreateGenericResponse commonResponse (StatusMessage rpcResp)) (fun commonResponse =>
    Ok (mkRPC (StatusCode rpcResp) (StatusMessage rpcResp) (Header rpcResp) (Body (AgTaskBody commonResponse)))).
(** A goroutine is started, and the task is answered. *)
Definition accept (thread : agThread) (taskID taskURI : string) : M AgWorld agRPC :=
  modify (start thread) ;;;
  lift (generateTaskRespone taskID taskURI
          (mkRPC StatusAccepted TaskStarted [("Location", "/taskmon/" +:+ taskID)] NoBody)).
Definition trimmed_id (taskURI : string) : string := TrimPrefix taskURI "/redfish/v1/TaskService/Tasks/".

(** ** aggregator.go *)

Definition GetAggregationService (req : AggregatorRequest) : M AgWorld agRPC :=
  let! now := in_own Now in
  authorised PrivilegeLogin req (
    let isServiceEnabled := existsb (fun service => String.eqb service "AggregationService") (EnabledServices Data) in
    ret (mkRPC StatusOK Success
      [("Date", http_time now); ("Link", "</redfish/v1/SchemaStore/en/AggregationService.json>; rel=describedby")]
      (Body (AggregationServiceBody isServiceEnabled (if isServiceEnabled then "Enabled" else "Disabled"))))).

Definition RpcReset (req : AggregatorRequest) : M AgWorld agRPC :=
  authorised PrivilegeConfigureComponents req (with_user req (fun sessionUserName =>
    with_task "" sessionUserName (fun taskURI =>
      let taskID := trimmed_id taskURI in accept (ResetThread taskID sessionUserName req) taskID taskURI))).
Definition RpcResetElementsOfAggregate (req : AggregatorRequest) : M AgWorld agRPC :=
  authorised PrivilegeConfigureComponents req (with_user req (fun sessionUserName =>
    with_task "" sessionUserName (fun taskURI =>
      let taskID := trimmed_id taskURI in accept (ResetElementsThread taskID sessionUserName req) taskID taskURI))).
Definition RpcDeleteAggregationSource (req : AggregatorRequest) : M AgWorld agRPC :=
  authorised PrivilegeConfigureComponents req (with_user req (fun sessionUserName =>
    with_task "" sessionUserName (fun taskURI =>
      let! taskID := lift (THandle.last_part taskURI) in
      accept (DeleteAggregationSourceThread taskID (ar_URL req) req) taskID taskURI))).
(** The error of the first update is logged. *)
Definition running_first (taskID taskURI : string) (thread : agThread) : M AgWorld agRPC :=
  let! r := UpdateTaskData fuel (fillTaskData taskID taskURI "" (no_body_yet 0) Running StatusTextOK 0 "POST") in
  match r with
  | None => panic        (* the goroutine of the handler has ended: not with a percentage of 0 *)
  | Some _ => accept thread taskID taskURI
  end.
Definition RpcSetDefaultBootOrder (req : AggregatorRequest) : M AgWorld agRPC :=
  authorised PrivilegeConfigureComponents req (with_user req (fun sessionUserName =>
    with_task "" sessionUserName (fun taskURI =>
      let! taskID := lift (THandle.last_part taskURI) in
      running_first taskID taskURI (SetDefaultBootOrderThread taskID sessionUserName req)))).
Definition RpcSetDefaultBootOrderElementsOfAggregate (req : AggregatorRequest) : M AgWorld agRPC :=
  authorised PrivilegeConfigureComponents req (with_user req (fun sessionUserName =>
    with_task "" sessionUserName (fun taskURI =>
      let! taskID := lift (THandle.last_part taskURI) in
      running_first taskID taskURI (SetDefaultBootOrderElementsThread taskID sessionUserName req)))).

Definition RpcAddAggregationSource (req : AggregatorRequest) : M AgWorld agRPC :=
  authorised PrivilegeConfigureComponents req (with_user req (fun sessionUserName =>
    match Unmarshal SourceRequest_type (ar_RequestBody req) zeroSourceRequest with
    | (_, Some err) =>
        lift (GeneralError StatusInternalServerError InternalError ("Unable to parse the add request" +:+ err) [])
    | (addRequest, None) =>
        let invalidParam := validateAggregationSourceRequest addRequest in
        if negb (String.eqb invalidParam "")
        then lift (GeneralError StatusBadRequest PropertyMissing ("Mandatory field " +:+ invalidParam +:+ " Missing")
                     [IString invalidParam])
        else
          match validateManagerAddress (sq_HostName addRequest) with
          | Some err => lift (GeneralError StatusBadRequest PropertyValueFormatError err
                                [IString (sq_HostName addRequest); IString "ManagerAddress"])
          | None =>
              with_task "the " sessionUserName (fun taskURI =>
                let! taskID := lift (THandle.last_part taskURI) in
                accept (AddAggregationSourceThread taskID sessionUserName req) taskID taskURI)
          end
    end)).

Definition own_rpc (privilege : string) (req : AggregatorRequest) (operation : IO agRPC) : M AgWorld agRPC :=
  authorised privilege req (in_own operation).
Definition RpcGetAllAggregationSource (req : AggregatorRequest) : M AgWorld agRPC :=
  own_rpc PrivilegeConfigureComponents req GetAggregationSourceCollection.
Definition RpcGetAggregationSource (req : AggregatorRequest) : M AgWorld agRPC :=
  own_rpc PrivilegeConfigureComponents req (GetAggregationSource (ar_URL req)).
Definition RpcUpdateAggregationSource (req : AggregatorRequest) : M AgWorld agRPC :=
  own_rpc PrivilegeConfigureComponents req (UpdateAggregationSource fuel req).
Definition RpcCreateAggregate (req : AggregatorRequest) : M AgWorld agRPC :=
  own_rpc PrivilegeConfigureComponents req (CreateAggregate req).
Definition RpcGetAllAggregates (req : AggregatorRequest) : M AgWorld agRPC :=
  own_rpc PrivilegeConfigureComponents req (GetAllAggregates req).
Definition RpcGetAggregate (req : AggregatorRequest) : M AgWorld agRPC :=
  own_rpc PrivilegeConfigureComponents req (GetAggregate req).
Definition RpcDeleteAggregate (req : AggregatorRequest) : M AgWorld agRPC :=
  own_rpc PrivilegeConfigureComponents req (DeleteAggregate req).
Definition RpcAddElementsToAggregate (req : AggregatorRequest) : M AgWorld agRPC :=
  own_rpc PrivilegeConfigureComponents req (AddElementsToAggregate req).
Definition RpcRemoveElementsFromAggregate (req : AggregatorRequest) : M AgWorld agRPC :=
  own_rpc PrivilegeConfigureComponents req (RemoveElementsFromAggregate req).
Definition RpcGetAllConnectionMethods (req : AggregatorRequest) : M AgWorld agRPC :=
  own_rpc PrivilegeLogin req (GetAllConnectionMethods req).
Definition RpcGetConnectionMethod (req : AggregatorRequest) : M AgWorld agRPC :=
  own_rpc PrivilegeLogin req (GetConnectionMethodInfo req).

(** RediscoverSystemInventory: the response is empty, and nothing is asked of who sends the request. *)
Record RediscoverSystemInventoryRequest := { rd_SystemID : string; rd_SystemURL : string }.
Definition RpcRediscoverSystemInventory (req : RediscoverSystemInventoryRequest) : M AgWorld unit :=
  modify (start (RediscoverThread (rd_SystemID req) (rd_SystemURL req))).

(** What a goroutine does first; the operation follows even when the task was being cancelled. *)
Definition task_runs (taskID : string) : M AgWorld (option unit) :=
  let task state := fillTaskData taskID "" "" (no_body_yet 0) state StatusTextOK 0 "POST" in
  let! r := UpdateTaskData fuel (task Running) in
  match r with
  | None => ret None
  | Some e =>
      if bool_decide (e = Some Cancelling)
      then let! r := UpdateTaskData fuel (task Cancelled) in ret (match r with None => None | Some _ => Some tt end)
      else ret (Some tt)
  end.
Definition reset (taskID : string) (req : AggregatorRequest) : part plan :=
  let! r := task_runs taskID in
  match r with None => ret (inl None) | Some _ => Reset_begin fuel taskID req end.
Definition resetElements (taskID : string) (req : AggregatorRequest) : part plan :=
  let! r := task_runs taskID in
  match r with None => ret (inl None) | Some _ => ResetElementsOfAggregate_begin fuel taskID req end.

(** ** The service

    The calls whose request carries a session token: all of aggregator.proto but three.  The requests of
    those three - RediscoverSystemInventory, which is above, UpdateSystemState and SendStartUpData, which
    are not modelled - have no field for a token, and their handlers check nothing. *)

Inductive agCall :=
| CallGetAggregationService | CallReset | CallSetDefaultBootOrder | CallAddAggregationSource
| CallGetAllAggregationSource | CallGetAggregationSource | CallUpdateAggregationSource | CallDeleteAggregationSource
| CallCreateAggregate | CallGetAllAggregates | CallGetAggregate | CallDeleteAggregate | CallAddElementsToAggregate
| CallRemoveElementsFromAggregate | CallResetElementsOfAggregate | CallSetDefaultBootOrderElementsOfAggregate
| CallGetAllConnectionMethods | CallGetConnectionMethod.
Definition agPrivilege (c : agCall) : string :=
  match c with
  | CallGetAggregationService | CallGetAllConnectionMethods | CallGetConnectionMethod => PrivilegeLogin
  | _ => PrivilegeConfigureComponents
  end.
Definition serveCall (c : agCall) (req : AggregatorRequest) : M AgWorld agRPC :=
  match c with
  | CallGetAggregationService => GetAggregationService req
  | CallReset => RpcReset req
  | CallSetDefaultBootOrder => RpcSetDefaultBootOrder req
  | CallAddAggregationSource => RpcAddAggregationSource req
  | CallGetAllAggregationSource => RpcGetAllAggregationSource req
  | CallGetAggregationSource => RpcGetAggregationSource req
  | CallUpdateAggregationSource => RpcUpdateAggregationSource req
  | CallDeleteAggregationSource => RpcDeleteAggregationSource req
  | CallCreateAggregate => RpcCreateAggregate req
  | CallGetAllAggregates => RpcGetAllAggregates req
  | CallGetAggregate => RpcGetAggregate req
  | CallDeleteAggregate => RpcDeleteAggregate req
  | CallAddElementsToAggregate => RpcAddElementsToAggregate req
  | CallRemoveElementsFromAggregate => RpcRemoveElementsFromAggregate req
  | CallResetElementsOfAggregate => RpcResetElementsOfAggregate req
  | CallSetDefaultBootOrderElementsOfAggregate => RpcSetDefaultBootOrderElementsOfAggregate req
  | CallGetAllConnectionMethods => RpcGetAllConnectionMethods req
  | CallGetConnectionMethod => RpcGetConnectionMethod req
  end.
End AgRpc.
