(* ===== verification/AgRpcProps.v ===== *)
(** What the remote procedure calls of the aggregation service promise: those with a session token do
    nothing without a live session that holds the privilege of the call, and a call that takes long is answered with the task
    the goroutine it starts will report to. *)
From stdpp Require Import base gmap list strings.
From S2P Require Import Prelude Go GoTime GoText GoCodec Response Redis World ConnPool DBSpec AsModel AsSpec ResponseProps RedisIndex Index CaseValidator Auth AuthProps Session SessionSpec Account Rpc System IndexProps TModel THandle Services TaskSystem TaskSpec TModelProps TaskProps TaskCancel Frame TaskFrame TaskStoreImpl TaskService Search Http AgData AgModel Aggregates AgSpec AgPlugin AgTask AgBatch AgReset AgTaskProps AgRpc.
Open Scope string_scope.

Section rpc.
Context `{IndexLaws, Libs, SingleNode, !Network, !MessageBus, !TaskPeer, !TasksReachable, !RSA, !RSAPublic, !MapIter, !PluginHTTP, !PluginConf, !Resolver, !JSONTexts}.
Context (fuel : nat) (topic : MessageBusQueue <> []).
#[local] Hint Extern 0 (TaskView TaskWorld) => exact (task_view fuel) : typeclass_instances.
#[local] Instance store : TaskStore (task fuel) := task_store fuel topic.
Implicit Types (s : AgWorld).

(** ** Looking up a session *)

(** [s'] is later than [s], and at most sessions have been stored with another last-used time. *)
Record visits s s' : Prop := {
  vi_steady : steady fuel s';
  vi_clock : (clock (ag_env s) <= clock (ag_env s'))%Z;
  vi_threads : aw_threads s' = aw_threads s;
  vi_tasks : tw_threads (aw_task s') = tw_threads (aw_task s);
  vi_events : tw_events (aw_task s') = tw_events (aw_task s);
  vi_disk : view (tw_world (aw_task s')) OnDisk = view (tw_world (aw_task s)) OnDisk;
  vi_memory k : (forall tok, k <> session_key tok) ->
    view (tw_world (aw_task s')) InMemory !! k = view (tw_world (aw_task s)) InMemory !! k;
  vi_session tok x' : session_of (tw_world (aw_task s')) tok = Some x' ->
    exists x, session_of (tw_world (aw_task s)) tok = Some x /\ s_UserName x' = s_UserName x;
}.
Lemma visits_refl s : steady fuel s -> visits s s.
Proof. intros Hs. split; try done. intros tok x Hx. by exists x. Qed.
Lemma visits_trans s s1 s2 : visits s s1 -> visits s1 s2 -> visits s s2.
Proof.
  intros [a1 a2 a3 a4 a5 a6 a7 a8] [b1 b2 b3 b4 b5 b6 b7 b8]. split; try congruence; [lia|intros k Hk; by rewrite b7, a7|].
  intros tok x Hx. destruct (b8 _ _ Hx) as (y & Hy & ->). eauto.
Qed.
Lemma visits_docs s s' id : visits s s' -> docs (aw_task s') id = docs (aw_task s) id.
Proof. intros Hv. apply (vi_memory _ _ Hv). intros tok E. by apply (session_not_task tok id). Qed.
Lemma visits_user s s' tok u : visits s s' -> session_user (aw_task s') tok u -> session_user (aw_task s) tok u.
Proof. intros Hv (x & Hx & <-). destruct (vi_session _ _ Hv _ _ Hx) as (y & Hy & E). by exists y. Qed.

(** The process of the account-session service has done no more than that. *)
Lemma session_visits s tok w' : steady fuel s -> at_most_touched (session_world (aw_task s)) tok w' ->
  beside (session_world (aw_task s)) w' -> visits s (with_tasks (put_session_world w' (aw_task s)) s).
Proof.
  intros [Hw Ht] Hm Hb. pose proof (session_world_wf _ _ Ht) as Hwf. pose proof (session_world_typed _ _ Ht) as Hty.
  pose proof (touched_on_sessions _ _ _ Hty Hwf Hm) as Ho.
  assert (Hst : stays (aw_task s) (put_session_world w' (aw_task s))) by (by apply put_session_stays).
  split; try done; [split; [done|apply Hst]|apply Ho|apply Ho|..].
  - intros k Hk. change (view w' InMemory !! k = view (session_world (aw_task s)) InMemory !! k).
    destruct Hm as [Hr|(x & t & _ & Hx)]; [by rewrite (ro_view _ _ _ Hr)|].
    rewrite (ev_view _ _ _ Hx), upd_eq, lookup_insert_ne; [done|]. intros E. by apply (Hk (s_Token x)).
  - intros tok' x' Hx. destruct (os_session _ _ Ho tok' x' Hx) as (x & Hx' & E & _). by exists x.
Qed.

(** A call of the account-session service. *)
Lemma wp_in_session_service {A} (m : IO A) Q s :
  wp m (fun o w' => Q o (with_tasks (put_session_world w' (aw_task s)) s)) (session_world (aw_task s)) ->
  wp (in_session_service A m) Q s.
Proof. unfold wp, in_session_service, TaskSystem.in_session. by destruct (m (session_world (aw_task s))). Qed.
Lemma wp_service_call {A} (handler : IO A) Q s :
  (forall err, Q (Ok (inl err)) s) ->
  wp handler (fun o w' =>
    let s' := with_tasks (put_session_world w' (aw_task s)) s in
    match o with
    | Ok a => (forall err, Q (Ok (inr (inl err))) s') /\ Q (Ok (inr (inr a))) s'
    | Panic => Q Panic s'
    end) (session_world (aw_task s)) ->
  wp (Services.call in_session_service ag_env handler) Q s.
Proof.
  intros Hc Hw. unfold Services.call. wp_go. destruct (client_error (ag_env s)) as [err|]; [by wp_go|]. wp_go.
  apply wp_in_session_service. eapply wp_mono; [exact Hw|]. intros [a|] w' Ho; [|done]. destruct Ho as [Herr Hok].
  cbn [wp_cont]. wp_go. destruct (call_error _); by wp_go.
Qed.

(** An answer that refuses. *)
Lemma ag_error_500 em : exists e, GeneralError (B := agBody) StatusInternalServerError InternalError em [] =
  Ok (mkRPC StatusInternalServerError InternalError [] (ErrorBody e)).
Proof. eexists. reflexivity. Qed.
Lemma Authorize_spec tok ps Q s : steady fuel s ->
  (forall rsp s', visits s s' -> (exists e, RBody rsp = ErrorBody e) ->
     (StatusCode rsp = StatusOK -> live (aw_task s) tok /\ holds (aw_task s) tok ps) -> Q (Ok rsp) s') ->
  wp (Authorize tok ps) Q s.
Proof.
  intros Hs HQ. unfold Authorize, Services.IsAuthorized.
  assert (H500 : forall s' em, visits s s' -> wp (lift (GeneralError (B := agBody) StatusInternalServerError InternalError em [])) Q s').
  { intros s' em Hv. destruct (ag_error_500 em) as [e ->]. wp_go. apply HQ; [done|by eexists|done]. }
  apply wp_bind, wp_service_call; [intros err; cbn [wp_cont]; by apply H500, visits_refl|].
  pose proof (session_world_wf _ _ (proj2 Hs)) as Hwf.
  assert (Hb : wp (Rpc.IsAuthorized tok ps) (fun o w' => at_most_touched (session_world (aw_task s)) tok w' /\
      beside (session_world (aw_task s)) w') (session_world (aw_task s))).
  { eapply wp_mono; [by apply wp_Auth_beside|]. intros [[code msg]|] w' [Hp Hbe]; [|done]. split; [|done].
    destruct Hp as [(x & t & t' & _ & _ & Hx & _ & _ & _ & Ht & _)|[(_ & Hr & _)|[(x & _ & _ & Hr & _)|(_ & _ & Hm)]]].
    - right. by exists x, t'.
    - by left.
    - by left.
    - done. }
  pose proof (wp_Auth_session fuel tok ps (aw_task s) (proj2 Hs)) as Ha.
  eapply wp_mono; [exact (wp_both _ _ _ _ Ha Hb)|]. intros [[code msg]|] w' [Ho [Hm Hbe]]; [|done].
  destruct Ho as (_ & Ha' & Hok). pose proof (session_visits _ _ _ Hs Hm Hbe) as Hv. cbn zeta.
  split; [intros err; cbn [wp_cont]; by apply H500|]. cbn [wp_cont].
  destruct (GeneralError_auth (B := agBody) code msg "while checking the authorization"
    (InMemoryHost (ConfDB Data) +:+ ":" +:+ InMemoryPort (ConfDB Data)) Ha') as [e ->].
  wp_go. apply HQ; [done|by eexists|done].
Qed.
Lemma GetSessionUserName_spec tok Q s : steady fuel s ->
  (forall err s', visits s s' -> Q (Ok (inl err)) s') ->
  (forall u s', visits s s' -> session_user (aw_task s) tok u -> Q (Ok (inr u)) s') ->
  wp (GetSessionUserName tok) Q s.
Proof.
  intros Hs Herr Hok. pose proof (session_world_wf _ _ (proj2 Hs)) as Hwf.
  unfold GetSessionUserName, Services.GetSessionUserName, name_call.
  apply wp_bind, wp_service_call; [intros err; wp_go; by apply Herr, visits_refl|].
  eapply wp_mono; [by apply wp_session_field_beside|]. intros o w' [[Ht Ho] Hb].
  pose proof (session_visits _ _ _ Hs Ht Hb) as Hv. destruct o as [[e|u]|]; [| |done]; cbn [wp_cont].
  - split; [intros err|]; wp_go; by apply Herr.
  - destruct Ho as (sess & Hse & ->). split; [intros err|]; wp_go; [by apply Herr|]. apply Hok; [done|]. by exists sess.
Qed.

(** ** Authorisation *)

Definition permitted s (req : AggregatorRequest) (privilege : string) : Prop :=
  live (aw_task s) (ar_SessionToken req) /\ holds (aw_task s) (ar_SessionToken req) [privilege].
(** A request that is turned away has an error and another code than 200. *)
Definition turned_away s (o : outcome agRPC) s' : Prop :=
  visits s s' /\ exists rsp e, o = Ok rsp /\ RBody rsp = ErrorBody e /\ StatusCode rsp <> StatusOK.

Lemma wp_authorised p req op Q s : steady fuel s ->
  (forall o s', turned_away s o s' -> Q o s') ->
  (forall s', visits s s' -> permitted s req p -> wp op Q s') ->
  wp (authorised p req op) Q s.
Proof.
  intros Hs Haway Hop. apply wp_bind, Authorize_spec; [done|]. intros rsp s' Hv [e He] Hok. cbn [wp_cont].
  destruct (Z.eqb_spec (StatusCode rsp) StatusOK) as [E|Hn]; cbn [negb]; [apply Hop; [done|by apply Hok]|].
  wp_go. apply Haway. split; [done|]. by exists rsp, e.
Qed.

(** The clock is read: nothing is stored, and a session that is live then has been. *)
Lemma wp_clock Q s : steady fuel s ->
  (forall t s', visits s s' -> (forall req p, permitted s' req p -> permitted s req p) -> Q (Ok t) s') ->
  wp (in_own Now) Q s.
Proof.
  intros [Hw Ht] HQ. apply wp_in_own. eapply wp_mono; [apply wp_Now; by apply wf_with_env|].
  intros o w' (t & -> & Hr & _). pose proof (own_sound fuel _ _ _ (ro_own _ _ Hr) eq_refl Ht) as Hs'.
  assert (Hview : forall db, view (with_env (w_env w') (tw_world (aw_task s))) db = view (tw_world (aw_task s)) db).
  { intros db. apply (ro_view _ _ db Hr). }
  assert (Hses : forall tok, session_of (with_env (w_env w') (tw_world (aw_task s))) tok = session_of (tw_world (aw_task s)) tok).
  { intros tok. unfold session_of, stored. by rewrite Hview. }
  assert (Hclock : (clock (ag_env s) <= clock (w_env w'))%Z) by apply Hr.
  apply HQ.
  - split; try done; [split; [apply Hr|done]|..].
    + intros k _. cbn. by rewrite Hview.
    + intros tok x'. cbn. rewrite Hses. by exists x'.
  - intros req p [[Htok (x & Hx & Hf)] [Hp (y & Hy & Hpy)]]. cbn in Hx, Hy. rewrite Hses in Hx, Hy. split; (split; [done|]).
    + exists x. split; [done|]. by eapply fresh_earlier.
    + by exists y.
Qed.


(** A request to discover a system again starts its goroutine for anybody. *)
Lemma rediscover_unchecked req s :
  RpcRediscoverSystemInventory req s = (Ok tt, start (RediscoverThread (rd_SystemID req) (rd_SystemURL req)) s).
Proof. done. Qed.

(** ** Requests that take long *)

(** The goroutine a call starts for a task. *)
Definition job (c : agCall) (taskID userName : string) (req : AggregatorRequest) : option agThread :=
  match c with
  | CallReset => Some (ResetThread taskID userName req)
  | CallResetElementsOfAggregate => Some (ResetElementsThread taskID userName req)
  | CallDeleteAggregationSource => Some (DeleteAggregationSourceThread taskID (ar_URL req) req)
  | _ => None
  end.
(** The task is that of the session's user, new, and alone; the goroutine knows its identifier, and so
    does the client. *)
Definition accepted s c req (o : outcome agRPC) s' : Prop :=
  exists u id now thread rsp text, task_id id /\ session_user (aw_task s) (ar_SessionToken req) u /\
    (clock (ag_env s) <= now <= clock (ag_env s'))%Z /\
    (forall id', docs (aw_task s') id' = put id (doc (new_task u id now)) (docs (aw_task s)) id') /\
    job c id u req = Some thread /\ aw_threads s' = (aw_threads s ++ [thread])%list /\
    o = Ok rsp /\ StatusCode rsp = StatusAccepted /\ Header rsp = [("Location", "/taskmon/" +:+ id)] /\
    RBody rsp = Body (AgTaskBody text) /\ ID text = id /\ OdataID text = tasksURI +:+ "/" +:+ id.
(** No goroutine works on the request; a task may have been created whose identifier was lost. *)
Definition refused s (o : outcome agRPC) s' : Prop :=
  steady fuel s' /\ aw_threads s' = aw_threads s /\
  (forall id, docs (aw_task s') id = docs (aw_task s) id \/ task_id id) /\
  exists rsp e, o = Ok rsp /\ RBody rsp = ErrorBody e.
Lemma refused_visits s o s' : visits s s' -> (exists rsp e, o = Ok rsp /\ RBody rsp = ErrorBody e) -> refused s o s'.
Proof.
  intros Hv Ho. split_and!; [apply Hv|apply Hv| |done]. intros id. left. by apply visits_docs.
Qed.

(** The task service's answer to a request for a new task. *)
Definition creates (id u : string) (now : Z) (t t' : TaskWorld) : Prop :=
  task_id id /\ (clock (task_env t) <= now <= clock (task_env t'))%Z /\
  forall id', docs t' id' = put id (doc (new_task u id now)) (docs t) id'.
Definition created_post (u : string) (t : TaskWorld) (r : or_err string) (t' : TaskWorld) : Prop :=
  sound t' /\ (forall id, docs t' id = docs t id \/ task_id id) /\
  forall uri, r = inr uri -> exists id now, uri = tasksURI +:+ "/" +:+ id /\ creates id u now t t'.
Lemma wp_created u t : sound t ->
  wp (THandle.CreateTask (task fuel) {| ct_UserName := u; ct_ParentTaskID := "" |})
     (fun o t' => exists r, o = Ok r /\ created_post u t r t') t.
Proof.
  intros Ht. unfold THandle.CreateTask. law spawn_law. intros o t1 (Hb & _ & ->). wp_go. rewrite create_helper.
  eapply wp_mono; [apply wp_CreateTaskUtil, Hb|]. intros o t2 [_ Hp].
  assert (Hd1 : forall id, docs t1 id = docs t id) by (intros id; apply (becomes_docs _ _ _ id Hb)).
  pose proof (be_instant _ _ _ Hb) as Hc1. cbn in Hc1.
  assert (Hput : forall id now id', becomes (with_docs (put id (doc (new_task u id now)) (docs t1)) (shows t1)) t1 t2 ->
            docs t2 id' = put id (doc (new_task u id now)) (docs t) id').
  { intros id now id' Hb2. rewrite (becomes_docs _ _ _ id' Hb2). cbn [v_docs TaskSpec.with_docs]. unfold put. by case_decide. }
  assert (Hnew : forall id now, task_id id ->
            becomes (with_docs (put id (doc (new_task u id now)) (docs t1)) (shows t1)) t1 t2 ->
            forall id', docs t2 id' = docs t id' \/ task_id id').
  { intros id now Hid Hb2 id'. rewrite (Hput _ _ _ Hb2). unfold put. case_decide; [subst; by right|by left]. }
  destruct o as [[e|uri]|]; [| |done]; (eexists; split; [done|]).
  - destruct Hp as [[Hst _]|(_ & id & now & Hid & Hb2)].
    + split_and!; [by eapply stays_sound| |done]. intros id. left. by rewrite (stays_docs _ _ _ Hst), Hd1.
    + split_and!; [apply Hb2|by eapply Hnew|done].
  - destruct Hp as (id & now & Hid & -> & _ & _ & Hnow & Hb2 & _).
    split_and!; [apply Hb2|by eapply Hnew|]. intros uri [= <-]. exists id, now. split; [done|]. split; [done|].
    cbn in Hnow. split; [lia|]. intros id'. by apply Hput.
Qed.
Lemma wp_new_task u s Q : steady fuel s ->
  (forall err s', steady fuel s' -> aw_threads s' = aw_threads s ->
     (forall id, docs (aw_task s') id = docs (aw_task s) id \/ task_id id) -> Q (Ok (inl err)) s') ->
  (forall id now s', steady fuel s' -> aw_threads s' = aw_threads s -> creates id u now (aw_task s) (aw_task s') ->
     Q (Ok (inr (tasksURI +:+ "/" +:+ id))) s') ->
  wp (CreateTask fuel u) Q s.
Proof.
  intros [Hw Ht] Herr Hok. unfold CreateTask, ask_tasks. wp_go. rewrite tasks_reachable. wp_go. apply wp_in_tasks.
  eapply wp_mono; [by apply wp_created|]. intros o t (r & -> & Hs' & Hd & Hu). cbn [wp_cont]. wp_go.
  assert (Hst : steady fuel (with_tasks t s)) by done.
  destruct r as [e|uri], (tasks_call _); wp_go; try by apply Herr.
  destruct (Hu _ eq_refl) as (id & now & -> & Hc). by apply Hok with now.
Qed.

Lemma accept_spec c req u id now thread s s0 : job c id u req = Some thread ->
  session_user (aw_task s0) (ar_SessionToken req) u -> aw_threads s = aw_threads s0 ->
  (clock (ag_env s0) <= now <= clock (ag_env s))%Z -> task_id id ->
  (forall id', docs (aw_task s) id' = put id (doc (new_task u id now)) (docs (aw_task s0)) id') ->
  wp (accept thread id (tasksURI +:+ "/" +:+ id)) (accepted s0 c req) s.
Proof.
  intros Hj Hu Hth Hnow Hid Hd. unfold accept. wp_go.
  exists u, id, now, thread. do 2 eexists. split_and!; try done. - apply Hnow.
  - apply Hnow.
  - cbn. by rewrite Hth.
Qed.

(** The three handlers, up to the goroutine. *)
Definition long_request (idOf : string -> outcome string) (c : agCall) (req : AggregatorRequest) : M AgWorld agRPC :=
  authorised PrivilegeConfigureComponents req (with_user req (fun u => with_task fuel "" u (fun taskURI =>
    let! id := lift (idOf taskURI) in
    match job c id u req with Some thread => accept thread id taskURI | None => panic end))).
Lemma long_request_spec idOf c req s :
  (forall id, task_id id -> idOf (tasksURI +:+ "/" +:+ id) = Ok id) -> (forall id u, is_Some (job c id u req)) -> steady fuel s ->
  wp (long_request idOf c req) (fun o s' => refused s o s' \/ accepted s c req o s') s.
Proof.
  intros Hid Hj Hs. apply wp_authorised; [done|..].
  { intros o s' [Hv (rsp & e & -> & He & _)]. left. apply refused_visits; [done|by exists rsp, e]. }
  intros s1 Hv1 _. unfold with_user. apply wp_bind, GetSessionUserName_spec; [apply Hv1|..].
  - intros err s2 Hv2. cbn [wp_cont]. apply wp_lift. left. apply refused_visits; [by eapply visits_trans|]. do 2 eexists. done.
  - intros u s2 Hv2 Hu. cbn [wp_cont]. assert (Hv : visits s s2) by (by eapply visits_trans).
    unfold with_task. apply wp_bind, wp_new_task; [apply Hv|..].
    + intros err s3 Hs3 Hth Hd. cbn [wp_cont]. apply wp_lift. left. split_and!; [done|by rewrite Hth; apply Hv| |do 2 eexists; done].
      intros id. rewrite <- (visits_docs _ _ id Hv). apply Hd.
    + intros id now s3 Hs3 Hth (Htask & Hnow & Hd). cbn [wp_cont]. rewrite Hid by done. wp_go.
      destruct (Hj id u) as [thread Eth]. rewrite Eth. eapply wp_mono; [eapply (accept_spec c req u id now thread s3 s); try done|].
      * exact (visits_user _ _ _ _ Hv1 Hu).
      * rewrite Hth. apply Hv.
      * pose proof (vi_clock _ _ Hv). unfold ag_env in *. lia.
      * intros id'. rewrite Hd. unfold put. case_decide; [done|]. by apply visits_docs.
      * intros o s' Ha. by right.
Qed.
Lemma trimmed_task id : trimmed_id (tasksURI +:+ "/" +:+ id) = id.
Proof. unfold trimmed_id. rewrite String_append_assoc. apply (TrimPrefix_app (tasksURI +:+ "/")). Qed.

(** C36: A reset, a reset of the elements of an aggregate and the removal of an aggregation source are
    either refused, and no goroutine works on them, or accepted: with code 202, the one goroutine
    started for them works under the identifier of a new task of the session's user, which the
    response names and points to, and which is the only task that is created.  A client of the task
    service can be made, though its calls may fail; after a refusal a task may be left behind whose
    identifier was lost. *)
Theorem long_calls_accepted c req s : (forall id u, is_Some (job c id u req)) -> steady fuel s ->
  wp (serveCall fuel c req) (fun o s' => refused s o s' \/ accepted s c req o s') s.
Proof.
  intros Hj Hs. pose proof (fun idOf Hid => long_request_spec idOf c req s Hid Hj Hs) as Hspec.
  destruct c; try (by destruct (Hj "" "")).
  - apply (Hspec (fun uri => Ok (trimmed_id uri))). intros id _. by rewrite trimmed_task.
  - apply (Hspec THandle.last_part). intros id. apply last_part_task.
  - apply (Hspec (fun uri => Ok (trimmed_id uri))). intros id _. by rewrite trimmed_task.
Qed.
End rpc.
