(* ===== verification/AgScenario.v ===== *)
(** The aggregation service beside the task service on the simulated servers, with a plugin that
    answers every request: its properties at concrete inputs. *)
From stdpp Require Import base gmap list strings.
From S2P Require Import Prelude Go GoTime GoText GoCodec Response Redis World ConnPool DBSpec RedisIndex Index AsModel AsSpec Auth Scenario IndexProps TModel THandle Services TaskSystem TaskSpec TModelProps TaskProps TaskFrame TaskStoreImpl TaskService Search Http AgData AgModel Aggregates AgPlugin AgTask AgBatch AgReset AgTaskProps AgResetProps AgRpc AgRpcProps AggHistory.
Open Scope string_scope.

#[local] Existing Instances single single_node sim_network sim_bus.
#[local] Instance sim_tasks : TaskPeer := {|
  tasks_client _ := None; tasks_call _ := None;
  status_text e := "rpc error: code = Unknown desc = " +:+ e;
  tasks_lost := "rpc error: code = Unavailable desc = transport is closing";
  body_text _ := Some "{}"; request_text _ := "{}" |}.
#[local] Instance sim_tasks_reachable : TasksReachable := fun _ => eq_refl.
#[local] Instance sim_rsa : RSA := {|
  pem_block := string; private_key := unit; RSAPrivateKey := "key"; pem_Decode s := Some s;
  IsEncryptedPEMBlock _ := false; block_Bytes b := b; DecryptPEMBlock b := inr b;
  ParsePKCS1PrivateKey _ := inr tt; DecryptOAEP _ c := inr c |}.
#[local] Instance sim_iter : MapIter := {| map_iter _ l := l |}.
Definition up_document : json := JObj [("Status", JObj [("Available", JStr "yes")])].
#[local] Instance sim_plugin : PluginHTTP := {|
  http_NewRequest _ _ := None;
  http_Do r _ := inr {| rp_StatusCode := if HasSuffix (pr_URL r) "/Sessions" then StatusCreated else StatusOK;
                        rp_Token := "plugin-token";
                        rp_Body := inr (let j := if HasSuffix (pr_URL r) "/ODIM/v1/Status" then up_document else JObj [] in
                                          (json_text j, Text j)) |};
  TLS_error := None; wait_exceeded _ _ := false |}.
#[local] Instance sim_plugin_conf : PluginConf := {|
  SouthBoundURL := [("redfish", "ODIM")]; NorthBoundURL := [("ODIM", "redfish")];
  MaxRetryAttempt := 1; RetryIntervalInMins := 1 |}.
#[local] Instance sim_rsa_public : RSAPublic := {|
  public_block := string; public_key := unit; RSAPublicKey := "key"; pem_DecodePublic s := Some s;
  IsEncryptedPublicBlock _ := false; public_Bytes b := b; DecryptPublicBlock b := inr b;
  ParsePKIXPublicKey _ := inr (Some tt); EncryptOAEP _ p _ := inr ("enc:" +:+ p) |}.
#[local] Instance sim_ag_texts : JSONTexts := {| syntax_error _ := "invalid character"; other_json s := NotJson s "" |}.
#[local] Instance sim_resolver : Resolver := {| ResolveIPAddr _ := None |}.
#[local] Instance sim_fair : FairPlugins.
Proof.
  split; [done|]. intros p tok e rp text doc d [= <-] _ [= <- <-] Hd. cbn [status_request pr_URL] in Hd.
  rewrite HasSuffix_app, orb_true_r in Hd. vm_compute in Hd. injection Hd as <-. done.
Qed.
#[local] Hint Extern 0 (TaskView TaskWorld) => exact (task_view 2) : typeclass_instances.

(** A system whose plugin is known, and one that is not. *)
Definition a_system : string := "/redfish/v1/Systems/dev1.1".
Definition the_target : Target := mkTarget "10.0.0.1" (Some "secret") "root" None "dev1" "GRF".
Definition the_plugin : Plugin := mkPlugin "10.0.0.2" "45001" "admin" (Some "secret") "GRF" "RF-GENERIC" "XAuthToken" "".
Definition the_disk : gmap string jtext :=
  <[saveID "System" "dev1" := Text (marshal_Target the_target)]>
  (<[saveID "Plugin" "GRF" := Text (marshal_Plugin the_plugin)]> the_accounts).
Definition reset_world : @World Sim.sim_env :=
  with_env (Sim.mk {[ inmem_addr := the_tasks; ondisk_addr := the_disk ]} minute 10 []
              {[ (inmem_addr, CompletedTaskIndex) := the_index ]}) (sim_world ∅ ∅ 0 []).
Definition ag_world : AgWorld := mkAgWorld reset_world (mkTaskWorld reset_world reset_world [] []) [].

Lemma ag_steady : steady 2 ag_world.
Proof.
  assert (Hwf : wf reset_world) by (intros []; simpl; auto).
  split; [exact Hwf|]. destruct service_sound as (_ & _ & Hn & [h1 h2 h3]).
  split_and!; [exact Hwf|exact Hwf|exact Hn|]. split; [exact h1|..].
  - change (tab_typed "User" User_type zeroUser u_UserName the_disk).
    do 2 (apply tab_typed_insert_other; [intros k; by unfold saveID; intros [=]|]). exact h2.
  - change (tab_typed "role" Role_type zeroRole r_ID the_disk).
    do 2 (apply tab_typed_insert_other; [intros k; by unfold saveID; intros [=]|]). exact h3.
Qed.

(** The reset of one system: the status its plugin answers, and the note of it. *)
Definition worker_run (element : string) : outcome Z * bool :=
  match resetSystem 2 "taska" "{}" "alice" "ForceRestart" element ag_world with
  | (Ok (code, rest), s) =>
      (Ok code, match rest s with (Ok tt, s') => bool_decide (is_Some (view (own_world s') InMemory !! reset_key element)) | _ => false end)
  | (Panic, _) => (Panic, false)
  end.
Example reset_runs : worker_run a_system = (Ok StatusOK, true).
Proof. vm_compute. reflexivity. Qed.
Example reset_fails : worker_run "/redfish/v1/Systems/dev2.1" = (Ok StatusNotFound, false).
Proof. vm_compute. reflexivity. Qed.

(** ** The properties *)

Definition a_plan (size : Z) : plan := mkPlan [a_system; "/redfish/v1/Systems/dev2.1"] size 1 "ForceRestart".

(** A reset of two systems in batches of one, to the end of some run of it. *)
Lemma reset_completes_witness : exists l c,
  reset_run 2 "taska" resetURI "{}" "alice" (a_plan 1) (begin ag_world) l c /\ length l = 2%nat /\ c_panic c = false.
Proof.
  destruct (batch_reaches _ _ _ _ 1%Z _ (reset_safe 2 has_topic "taska" resetURI "{}" "alice" (a_plan 1)) ltac:(done) ag_world ag_steady)
    as (l & c & Hr & Hf & Hst).
  destruct (reset_completes 2 has_topic "taska" resetURI "{}" "alice" (a_plan 1) ag_world l c ag_steady ltac:(done) Hr)
    as (Hp & _ & _ & Hend).
  exists l, c. split; [exact Hr|]. split; [apply (Hend Hst)|exact Hp].
Defined.
Lemma reset_negative_batch_witness :
  c_main (begin ag_world) <> Finished /\ Acc (flip (reset_next 2 "taska" resetURI "{}" "alice" (a_plan (-1)))) (begin ag_world).
Proof.
  destruct (reset_negative_batch 2 "taska" resetURI "{}" "alice" (a_plan (-1)) ag_world [] (begin ag_world))
    as (_ & _ & Hm & Ha & _); [done|done|constructor|by split].
Defined.

Definition some_systems : list OdataRef := mkOdataRef <$> [a_system; "/redfish/v1/Systems/dev2.1"].
Lemma some_systems_named : Forall (fun e => e <> "") (od_OdataID <$> some_systems).
Proof. by repeat constructor. Qed.
Definition order_request (URL : string) : AggregatorRequest :=
  {| ar_SessionToken := "tok-admin"; ar_RequestBody := Text JNull; ar_RequestText := "{}"; ar_URL := URL |}.
Lemma default_order_completes_witness : exists l c,
  boot_run 2 "taska" setOrderURI "{}" "alice" (od_OdataID <$> some_systems) (gather_begin (od_OdataID <$> some_systems) ag_world) l c /\
  length l = 2%nat /\ g_workers c = [].
Proof.
  destruct (gather_reaches _ _ _ _ (boot_safe 2 has_topic "taska" setOrderURI "{}" "alice" _ some_systems_named) ag_world ag_steady)
    as (l & c & Hr & Hst).
  destruct (default_order_completes 2 has_topic some_systems "taska" (order_request setOrderURI) "alice" ag_world l c
    ag_steady some_systems_named Hr) as (_ & _ & _ & Hend & Hg).
  exists l, c. split; [exact Hr|]. split; [apply Hg, Hend, Hst|apply Hend, Hst].
Defined.
Lemma default_order_elements_end_witness : exists l c,
  boot_run 2 "taska" an_aggregate "{}" "alice" (od_OdataID <$> some_systems) (gather_begin (od_OdataID <$> some_systems) ag_world) l c /\
  length l = 2%nat.
Proof.
  destruct (gather_reaches _ _ _ _ (boot_safe 2 has_topic "taska" an_aggregate "{}" "alice" _ some_systems_named) ag_world ag_steady)
    as (l & c & Hr & Hst).
  pose proof (gather_completes _ _ _ _ (boot_safe 2 has_topic "taska" an_aggregate "{}" "alice" _ some_systems_named) _ _ _ ag_steady Hr)
    as (_ & _ & _ & _ & Hend & _).
  destruct (default_order_elements_end 2 has_topic (od_OdataID <$> some_systems) "taska" (order_request an_aggregate) "alice" ag_world l c
    ag_steady some_systems_named Hr (proj1 (Hend Hst))) as [Hl _].
  exists l, c. split; [exact Hr|exact Hl].
Defined.

Definition reset_request (tok : string) : AggregatorRequest :=
  {| ar_SessionToken := tok; ar_RequestBody := Text (JObj [("ResetType", JStr "ForceRestart")]);
     ar_RequestText := "{}"; ar_URL := resetURI |}.
Lemma long_calls_accepted_witness :
  wp (serveCall 2 CallReset (reset_request "tok-admin"))
     (fun o s' => refused 2 ag_world o s' \/ accepted 2 ag_world CallReset (reset_request "tok-admin") o s') ag_world.
Proof. apply (long_calls_accepted 2 has_topic); [intros id u; by eexists|exact ag_steady]. Defined.
(** The administrator's reset is accepted, alice's is not. *)
Definition served (tok : string) : option Z * list agThread :=
  let (o, s) := serveCall 2 CallReset (reset_request tok) ag_world in
  (match o with Ok rsp => Some (StatusCode rsp) | Panic => None end, aw_threads s).
Example admin_resets : exists id, served "tok-admin" = (Some StatusAccepted, [ResetThread id "admin" (reset_request "tok-admin")]).
Proof. eexists. vm_compute. reflexivity. Qed.
Example alice_refused : served "tok-alice" = (Some StatusForbidden, []).
Proof. vm_compute. reflexivity. Qed.

(** ** An update of an aggregation source *)

Definition a_method : string := "/redfish/v1/AggregationService/ConnectionMethods/cm1".
Definition a_source : string := aggregationSourcesURI +:+ "/dev1.1".
Definition the_source : AggregationSource :=
  mkAggregationSource "10.0.0.1" "root" (Some "secret") (JObj [("ConnectionMethod", JObj [("@odata.id", JStr a_method)])])
    "" "" a_source "" "Aggregation Source" None "" "dev1.1" None None.
Definition update_disk : gmap string jtext :=
  <[saveID "AggregationSource" a_source := Text (marshal_AggregationSource the_source)]>
  (<[saveID "ConnectionMethod" a_method := Text (marshal_ConnectionMethod (mkConnectionMethod "Redfish" "Compute:BasicAuth:GRF_v1.0.0" zeroCMLinks))]>
   (<[saveID "Plugin" "GRF_v1.0.0" := Text (marshal_Plugin the_plugin)]> the_disk)).
Definition update_ag_world : AgWorld :=
  let w := with_env (Sim.mk {[ inmem_addr := the_tasks; ondisk_addr := update_disk ]} minute 10 []
              {[ (inmem_addr, CompletedTaskIndex) := the_index ]}) (sim_world ∅ ∅ 0 []) in
  mkAgWorld w (mkTaskWorld w w [] []) [].
(** The passwords that are stored with the server and with the source, after a new one was sent. *)
Definition new_passwords (tok : string) (body : json) : option Z * (option string * option string) :=
  let (o, s) := serveCall 2 CallUpdateAggregationSource
    {| ar_SessionToken := tok; ar_RequestBody := Text body; ar_RequestText := ""; ar_URL := a_source |} update_ag_world in
  let disk := view (own_world s) OnDisk in
  (match o with Ok rsp => Some (StatusCode rsp) | Panic => None end,
   (stored Target_type zeroTarget disk (saveID "System" "dev1") ≫= tg_Password,
    stored AggregationSource_type zeroAggregationSource disk (saveID "AggregationSource" a_source) ≫= as_Password)).
Example password_updated : new_passwords "tok-admin" (JObj [("Password", JStr "new")]) =
  (Some StatusOK, (Some "enc:new", Some "enc:new")).
Proof. vm_compute. reflexivity. Qed.
Example password_missing : new_passwords "tok-admin" (JObj [("Password", JStr "")]) =
  (Some StatusBadRequest, (Some "secret", Some "secret")).
Proof. vm_compute. reflexivity. Qed.
Example update_refused : new_passwords "tok-alice" (JObj [("Password", JStr "new")]) =
  (Some StatusForbidden, (Some "secret", Some "secret")).
Proof. vm_compute. reflexivity. Qed.
(** A value that is not a string panics. *)
Example update_panics : new_passwords "tok-admin" (JObj [("Password", JNum 1)]) = (None, (Some "secret", Some "secret")).
Proof. vm_compute. reflexivity. Qed.
