(* ===== verification/Events.v ===== *)
(** svc-events: the subscriptions and undelivered events it stores (evmodel/events.go), which events go
    to which subscriber, and how they get there (events/publishevttosubscriber.go).

    Events and subscriptions are texts, which the service scans, changes as texts, and writes again.
    Sending an event depends on the state of the environment and does not change it; what was sent is
    kept.  A goroutine of the delivery is a step of its own; one that tries again is a step for each
    try. *)
From stdpp Require Import base gmap list strings pretty.
From S2P Require Import Prelude Go GoTime GoText GoCodec Response Redis World ConnPool RedisIndex Index Http AgData AgModel.
Open Scope string_scope.

(** ** The records *)

Definition no_int (n : Z) : bool := (n =? 0)%Z.
Definition no_strings (l : slice string) : bool := match l with None | Some [] => true | _ => false end.

(** Link of lib-utilities/common *)
Record EvLink := mkEvLink {
  li_Oid : string;
}.
Definition zeroEvLink : EvLink := mkEvLink "".
Definition EvLink_type : struct_type EvLink := {|
  st_name := "Link";
  st_fields :=
    [("@odata.id", on li_Oid (fun x _ => mkEvLink x) dec_string)] |}.
Definition marshal_EvLink (r : EvLink) : json :=
  JObj [("@odata.id", JStr (li_Oid r))].

(** Event. *)
Record Event := mkEvent {
  ev_MemberID : string;
  ev_EventType : string;
  ev_EventGroupID : Z;
  ev_EventID : string;
  ev_Severity : string;
  ev_EventTimestamp : string;
  ev_Message : string;
  ev_MessageArgs : slice string;
  ev_MessageID : string;
  ev_Oem : json;
  ev_OriginOfCondition : option EvLink;
}.
Definition zeroEvent : Event := mkEvent "" "" 0 "" "" "" "" None "" JNull None.
Definition Event_type : struct_type Event := {|
  st_name := "Event";
  st_fields :=
    [("MemberId", on ev_MemberID (fun x r => mkEvent x (ev_EventType r) (ev_EventGroupID r) (ev_EventID r) (ev_Severity r) (ev_EventTimestamp r) (ev_Message r) (ev_MessageArgs r) (ev_MessageID r) (ev_Oem r) (ev_OriginOfCondition r)) dec_string);
     ("EventType", on ev_EventType (fun x r => mkEvent (ev_MemberID r) x (ev_EventGroupID r) (ev_EventID r) (ev_Severity r) (ev_EventTimestamp r) (ev_Message r) (ev_MessageArgs r) (ev_MessageID r) (ev_Oem r) (ev_OriginOfCondition r)) dec_string);
     ("EventGroupId", on ev_EventGroupID (fun x r => mkEvent (ev_MemberID r) (ev_EventType r) x (ev_EventID r) (ev_Severity r) (ev_EventTimestamp r) (ev_Message r) (ev_MessageArgs r) (ev_MessageID r) (ev_Oem r) (ev_OriginOfCondition r)) dec_int);
     ("EventId", on ev_EventID (fun x r => mkEvent (ev_MemberID r) (ev_EventType r) (ev_EventGroupID r) x (ev_Severity r) (ev_EventTimestamp r) (ev_Message r) (ev_MessageArgs r) (ev_MessageID r) (ev_Oem r) (ev_OriginOfCondition r)) dec_string);
     ("Severity", on ev_Severity (fun x r => mkEvent (ev_MemberID r) (ev_EventType r) (ev_EventGroupID r) (ev_EventID r) x (ev_EventTimestamp r) (ev_Message r) (ev_MessageArgs r) (ev_MessageID r) (ev_Oem r) (ev_OriginOfCondition r)) dec_string);
     ("EventTimestamp", on ev_EventTimestamp (fun x r => mkEvent (ev_MemberID r) (ev_EventType r) (ev_EventGroupID r) (ev_EventID r) (ev_Severity r) x (ev_Message r) (ev_MessageArgs r) (ev_MessageID r) (ev_Oem r) (ev_OriginOfCondition r)) dec_string);
     ("Message", on ev_Message (fun x r => mkEvent (ev_MemberID r) (ev_EventType r) (ev_EventGroupID r) (ev_EventID r) (ev_Severity r) (ev_EventTimestamp r) x (ev_MessageArgs r) (ev_MessageID r) (ev_Oem r) (ev_OriginOfCondition r)) dec_string);
     ("MessageArgs", on ev_MessageArgs (fun x r => mkEvent (ev_MemberID r) (ev_EventType r) (ev_EventGroupID r) (ev_EventID r) (ev_Severity r) (ev_EventTimestamp r) (ev_Message r) x (ev_MessageID r) (ev_Oem r) (ev_OriginOfCondition r)) dec_strings);
     ("MessageId", on ev_MessageID (fun x r => mkEvent (ev_MemberID r) (ev_EventType r) (ev_EventGroupID r) (ev_EventID r) (ev_Severity r) (ev_EventTimestamp r) (ev_Message r) (ev_MessageArgs r) x (ev_Oem r) (ev_OriginOfCondition r)) dec_string);
     ("Oem", on ev_Oem (fun x r => mkEvent (ev_MemberID r) (ev_EventType r) (ev_EventGroupID r) (ev_EventID r) (ev_Severity r) (ev_EventTimestamp r) (ev_Message r) (ev_MessageArgs r) (ev_MessageID r) x (ev_OriginOfCondition r)) dec_any);
     ("OriginOfCondition", on ev_OriginOfCondition (fun x r => mkEvent (ev_MemberID r) (ev_EventType r) (ev_EventGroupID r) (ev_EventID r) (ev_Severity r) (ev_EventTimestamp r) (ev_Message r) (ev_MessageArgs r) (ev_MessageID r) (ev_Oem r) x) (dec_pointer (dec_struct "common." "Events.OriginOfCondition." EvLink_type) zeroEvLink))] |}.
Definition marshal_Event (r : Event) : json :=
  JObj (omit no_text (ev_MemberID r) ("MemberId", JStr (ev_MemberID r)) ++
        [("EventType", JStr (ev_EventType r))] ++
        omit no_int (ev_EventGroupID r) ("EventGroupId", JNum (ev_EventGroupID r)) ++
        [("EventId", JStr (ev_EventID r))] ++
        [("Severity", JStr (ev_Severity r))] ++
        [("EventTimestamp", JStr (ev_EventTimestamp r))] ++
        [("Message", JStr (ev_Message r))] ++
        omit no_strings (ev_MessageArgs r) ("MessageArgs", enc_strings (ev_MessageArgs r)) ++
        [("MessageId", JStr (ev_MessageID r))] ++
        omit nil_any (ev_Oem r) ("Oem", ev_Oem r) ++
        omit is_nil (ev_OriginOfCondition r) ("OriginOfCondition", enc_pointer marshal_EvLink (ev_OriginOfCondition r)))%list.

(** MessageData. *)
Record MessageData := mkMessageData {
  md_OdataType : string;
  md_Name : string;
  md_Context : string;
  md_Events : slice Event;
}.
Definition zeroMessageData : MessageData := mkMessageData "" "" "" None.
Definition MessageData_type : struct_type MessageData := {|
  st_name := "MessageData";
  st_fields :=
    [("@odata.type", on md_OdataType (fun x r => mkMessageData x (md_Name r) (md_Context r) (md_Events r)) dec_string);
     ("Name", on md_Name (fun x r => mkMessageData (md_OdataType r) x (md_Context r) (md_Events r)) dec_string);
     ("@odata.context", on md_Context (fun x r => mkMessageData (md_OdataType r) (md_Name r) x (md_Events r)) dec_string);
     ("Events", on md_Events (fun x r => mkMessageData (md_OdataType r) (md_Name r) (md_Context r) x) (dec_slice "common.Event" (dec_struct "common." "Events." Event_type) zeroEvent))] |}.
Definition marshal_MessageData (r : MessageData) : json :=
  JObj [("@odata.type", JStr (md_OdataType r));
        ("Name", JStr (md_Name r));
        ("@odata.context", JStr (md_Context r));
        ("Events", enc_slice marshal_Event (md_Events r))].

(** Subscription. *)
Record Subscription := mkSubscription {
  sb_UserName : string;
  sb_SubscriptionID : string;
  sb_Destination : string;
  sb_Name : string;
  sb_Context : string;
  sb_EventTypes : slice string;
  sb_MessageIds : slice string;
  sb_Protocol : string;
  sb_SubscriptionType : string;
  sb_EventFormatType : string;
  sb_SubordinateResources : bool;
  sb_ResourceTypes : slice string;
  sb_OriginResource : string;
  sb_OriginResources : slice string;
  sb_Hosts : slice string;
  sb_Location : string;
  sb_EventHostIP : string;
}.
Definition zeroSubscription : Subscription := mkSubscription "" "" "" "" "" None None "" "" "" false None "" None None "" "".
Definition Subscription_type : struct_type Subscription := {|
  st_name := "Subscription";
  st_fields :=
    [("UserName", on sb_UserName (fun x r => mkSubscription x (sb_SubscriptionID r) (sb_Destination r) (sb_Name r) (sb_Context r) (sb_EventTypes r) (sb_MessageIds r) (sb_Protocol r) (sb_SubscriptionType r) (sb_EventFormatType r) (sb_SubordinateResources r) (sb_ResourceTypes r) (sb_OriginResource r) (sb_OriginResources r) (sb_Hosts r) (sb_Location r) (sb_EventHostIP r)) dec_string);
     ("SubscriptionID", on sb_SubscriptionID (fun x r => mkSubscription (sb_UserName r) x (sb_Destination r) (sb_Name r) (sb_Context r) (sb_EventTypes r) (sb_MessageIds r) (sb_Protocol r) (sb_SubscriptionType r) (sb_EventFormatType r) (sb_SubordinateResources r) (sb_ResourceTypes r) (sb_OriginResource r) (sb_OriginResources r) (sb_Hosts r) (sb_Location r) (sb_EventHostIP r)) dec_string);
     ("Destination", on sb_Destination (fun x r => mkSubscription (sb_UserName r) (sb_SubscriptionID r) x (sb_Name r) (sb_Context r) (sb_EventTypes r) (sb_MessageIds r) (sb_Protocol r) (sb_SubscriptionType r) (sb_EventFormatType r) (sb_SubordinateResources r) (sb_ResourceTypes r) (sb_OriginResource r) (sb_OriginResources r) (sb_Hosts r) (sb_Location r) (sb_EventHostIP r)) dec_string);
     ("Name", on sb_Name (fun x r => mkSubscription (sb_UserName r) (sb_SubscriptionID r) (sb_Destination r) x (sb_Context r) (sb_EventTypes r) (sb_MessageIds r) (sb_Protocol r) (sb_SubscriptionType r) (sb_EventFormatType r) (sb_SubordinateResources r) (sb_ResourceTypes r) (sb_OriginResource r) (sb_OriginResources r) (sb_Hosts r) (sb_Location r) (sb_EventHostIP r)) dec_string);
     ("Context", on sb_Context (fun x r => mkSubscription (sb_UserName r) (sb_SubscriptionID r) (sb_Destination r) (sb_Name r) x (sb_EventTypes r) (sb_MessageIds r) (sb_Protocol r) (sb_SubscriptionType r) (sb_EventFormatType r) (sb_SubordinateResources r) (sb_ResourceTypes r) (sb_OriginResource r) (sb_OriginResources r) (sb_Hosts r) (sb_Location r) (sb_EventHostIP r)) dec_string);
     ("EventTypes", on sb_EventTypes (fun x r => mkSubscription (sb_UserName r) (sb_SubscriptionID r) (sb_Destination r) (sb_Name r) (sb_Context r) x (sb_MessageIds r) (sb_Protocol r) (sb_SubscriptionType r) (sb_EventFormatType r) (sb_SubordinateResources r) (sb_ResourceTypes r) (sb_OriginResource r) (sb_OriginResources r) (sb_Hosts r) (sb_Location r) (sb_EventHostIP r)) dec_strings);
     ("MessageIds", on sb_MessageIds (fun x r => mkSubscription (sb_UserName r) (sb_SubscriptionID r) (sb_Destination r) (sb_Name r) (sb_Context r) (sb_EventTypes r) x (sb_Protocol r) (sb_SubscriptionType r) (sb_EventFormatType r) (sb_SubordinateResources r) (sb_ResourceTypes r) (sb_OriginResource r) (sb_OriginResources r) (sb_Hosts r) (sb_Location r) (sb_EventHostIP r)) dec_strings);
     ("Protocol", on sb_Protocol (fun x r => mkSubscription (sb_UserName r) (sb_SubscriptionID r) (sb_Destination r) (sb_Name r) (sb_Context r) (sb_EventTypes r) (sb_MessageIds r) x (sb_SubscriptionType r) (sb_EventFormatType r) (sb_SubordinateResources r) (sb_ResourceTypes r) (sb_OriginResource r) (sb_OriginResources r) (sb_Hosts r) (sb_Location r) (sb_EventHostIP r)) dec_string);
     ("SubscriptionType", on sb_SubscriptionType (fun x r => mkSubscription (sb_UserName r) (sb_SubscriptionID r) (sb_Destination r) (sb_Name r) (sb_Context r) (sb_EventTypes r) (sb_MessageIds r) (sb_Protocol r) x (sb_EventFormatType r) (sb_SubordinateResources r) (sb_ResourceTypes r) (sb_OriginResource r) (sb_OriginResources r) (sb_Hosts r) (sb_Location r) (sb_EventHostIP r)) dec_string);
     ("EventFormatType", on sb_EventFormatType (fun x r => mkSubscription (sb_UserName r) (sb_SubscriptionID r) (sb_Destination r) (sb_Name r) (sb_Context r) (sb_EventTypes r) (sb_MessageIds r) (sb_Protocol r) (sb_SubscriptionType r) x (sb_SubordinateResources r) (sb_ResourceTypes r) (sb_OriginResource r) (sb_OriginResources r) (sb_Hosts r) (sb_Location r) (sb_EventHostIP r)) dec_string);
     ("SubordinateResources", on sb_SubordinateResources (fun x r => mkSubscription (sb_UserName r) (sb_SubscriptionID r) (sb_Destination r) (sb_Name r) (sb_Context r) (sb_EventTypes r) (sb_MessageIds r) (sb_Protocol r) (sb_SubscriptionType r) (sb_EventFormatType r) x (sb_ResourceTypes r) (sb_OriginResource r) (sb_OriginResources r) (sb_Hosts r) (sb_Location r) (sb_EventHostIP r)) dec_bool);
     ("ResourceTypes", on sb_ResourceTypes (fun x r => mkSubscription (sb_UserName r) (sb_SubscriptionID r) (sb_Destination r) (sb_Name r) (sb_Context r) (sb_EventTypes r) (sb_MessageIds r) (sb_Protocol r) (sb_SubscriptionType r) (sb_EventFormatType r) (sb_SubordinateResources r) x (sb_OriginResource r) (sb_OriginResources r) (sb_Hosts r) (sb_Location r) (sb_EventHostIP r)) dec_strings);
     ("OriginResource", on sb_OriginResource (fun x r => mkSubscription (sb_UserName r) (sb_SubscriptionID r) (sb_Destination r) (sb_Name r) (sb_Context r) (sb_EventTypes r) (sb_MessageIds r) (sb_Protocol r) (sb_SubscriptionType r) (sb_EventFormatType r) (sb_SubordinateResources r) (sb_ResourceTypes r) x (sb_OriginResources r) (sb_Hosts r) (sb_Location r) (sb_EventHostIP r)) dec_string);
     ("OriginResources", on sb_OriginResources (fun x r => mkSubscription (sb_UserName r) (sb_SubscriptionID r) (sb_Destination r) (sb_Name r) (sb_Context r) (sb_EventTypes r) (sb_MessageIds r) (sb_Protocol r) (sb_SubscriptionType r) (sb_EventFormatType r) (sb_SubordinateResources r) (sb_ResourceTypes r) (sb_OriginResource r) x (sb_Hosts r) (sb_Location r) (sb_EventHostIP r)) dec_strings);
     ("Hosts", on sb_Hosts (fun x r => mkSubscription (sb_UserName r) (sb_SubscriptionID r) (sb_Destination r) (sb_Name r) (sb_Context r) (sb_EventTypes r) (sb_MessageIds r) (sb_Protocol r) (sb_SubscriptionType r) (sb_EventFormatType r) (sb_SubordinateResources r) (sb_ResourceTypes r) (sb_OriginResource r) (sb_OriginResources r) x (sb_Location r) (sb_EventHostIP r)) dec_strings);
     ("location", on sb_Location (fun x r => mkSubscription (sb_UserName r) (sb_SubscriptionID r) (sb_Destination r) (sb_Name r) (sb_Context r) (sb_EventTypes r) (sb_MessageIds r) (sb_Protocol r) (sb_SubscriptionType r) (sb_EventFormatType r) (sb_SubordinateResources r) (sb_ResourceTypes r) (sb_OriginResource r) (sb_OriginResources r) (sb_Hosts r) x (sb_EventHostIP r)) dec_string);
     ("EventHostIP", on sb_EventHostIP (fun x r => mkSubscription (sb_UserName r) (sb_SubscriptionID r) (sb_Destination r) (sb_Name r) (sb_Context r) (sb_EventTypes r) (sb_MessageIds r) (sb_Protocol r) (sb_SubscriptionType r) (sb_EventFormatType r) (sb_SubordinateResources r) (sb_ResourceTypes r) (sb_OriginResource r) (sb_OriginResources r) (sb_Hosts r) (sb_Location r) x) dec_string)] |}.
Definition marshal_Subscription (r : Subscription) : json :=
  JObj ([("UserName", JStr (sb_UserName r))] ++
        [("SubscriptionID", JStr (sb_SubscriptionID r))] ++
        [("Destination", JStr (sb_Destination r))] ++
        [("Name", JStr (sb_Name r))] ++
        [("Context", JStr (sb_Context r))] ++
        [("EventTypes", enc_strings (sb_EventTypes r))] ++
        [("MessageIds", enc_strings (sb_MessageIds r))] ++
        [("Protocol", JStr (sb_Protocol r))] ++
        [("SubscriptionType", JStr (sb_SubscriptionType r))] ++
        [("EventFormatType", JStr (sb_EventFormatType r))] ++
        [("SubordinateResources", JBool (sb_SubordinateResources r))] ++
        [("ResourceTypes", enc_strings (sb_ResourceTypes r))] ++
        [("OriginResource", JStr (sb_OriginResource r))] ++
        [("OriginResources", enc_strings (sb_OriginResources r))] ++
        [("Hosts", enc_strings (sb_Hosts r))] ++
        omit no_text (sb_Location r) ("location", JStr (sb_Location r)) ++
        omit no_text (sb_EventHostIP r) ("EventHostIP", JStr (sb_EventHostIP r)))%list.

(** common.ResourceTypes *)
Definition ResourceTypes : list (string * string) :=
  [("AccelerationFunction", "AccelerationFunction"); ("AddressPool", "AddressPool");
   ("Assembly", "Assembly"); ("Bios", "Bios"); ("BootOption", "BootOptions"); ("Chassis", "Chassis");
   ("ComputerSystem", "Systems"); ("Drive", "Drive"); ("Endpoint", "Endpoint");
   ("EthernetInterface", "EthernetInterfaces"); ("Event", "Event");
   ("EventDestination", "EventDestination"); ("EventService", "EventService"); ("Fabric", "Fabric");
   ("HostInterface", "HostInterfaces"); ("IPAddresses", "IPAddresses"); ("Job", "Job");
   ("JobService", "JobService"); ("LogEntry", "LogEntry"); ("LogService", "LogServices");
   ("Manager", "Manager"); ("ManagerAccount", "ManagerAccount");
   ("ManagerNetworkProtocol", "ManagerNetworkProtocol"); ("Memory", "Memory");
   ("MemoryChunks", "MemoryChunks"); ("MemoryDomain", "MemoryDomains"); ("MemoryMetrics", "MemoryMetrics");
   ("Message", "Message"); ("MessageRegistry", "MessageRegistry");
   ("MessageRegistryFile", "MessageRegistryFile"); ("NetworkAdapter", "NetworkAdapters");
   ("NetworkDeviceFunction", "NetworkDeviceFunction"); ("NetworkInterface", "NetworkInterfaces");
   ("NetworkPort", "NetworkPort"); ("PCIeDevice", "PCIeDevices"); ("PCIeFunction", "PCIeFunction");
   ("PCIeSlots", "PCIeSlots"); ("PhysicalContext", "PhysicalContext"); ("Port", "Port"); ("Power", "Power");
   ("PrivilegeRegistry", "PrivilegeRegistry"); ("Privileges", "Privileges"); ("Processor", "Processors");
   ("ProcessorCollection", "ProcessorCollection"); ("ProcessorMetrics", "ProcessorMetrics");
   ("Protocol", "Protocol"); ("Redundancy", "Redundancy"); ("Resource", "Resource"); ("Role", "Role");
   ("SecureBoot", "SecureBoot"); ("Sensor", "Sensor"); ("SerialInterfaces", "SerialInterfaces");
   ("Session", "Session"); ("Storage", "Storage"); ("Switch", "Switch"); ("Task", "Task");
   ("Thermal", "Thermal"); ("VLanNetworkInterface", "VLanNetworkInterface"); ("Volume", "Volume");
   ("Zone", "Zone")].
Definition resource_type (k : string) : string := default "" (list_to_map (M := gmap string string) ResourceTypes !! k).

(** ** Which events go where *)

(** [v[len(v)-k]] *)
Definition from_end {A} (v : list A) (k : nat) : outcome A := if (length v <? k)%nat then Panic else index v (length v - k).
Definition parts (oid : string) : list string := Split (TrimSuffix oid "/") "/".

Definition isStringPresentInSlice (l : list string) (str : string) : bool :=
  if String.eqb str "" then true else existsb (String.eqb str) l.
(** The loop is that of the aggregates' elements. *)
Definition isHostPresent (hosts : list string) (hostip : string) : bool :=
  match hosts with [] => false | _ => found_in hostip hosts end.

Definition type_matches (originCond : list string) (subordinateResources : bool) (res : string) : outcome bool :=
  if subordinateResources then
    obind (from_end originCond 2) (fun resType =>
      if Contains res resType then Ok true
      else obind (from_end originCond 4) (fun resType => Ok (Contains res resType)))
  else obind (from_end originCond 2) (fun resType => Ok (Contains resType res)).
Fixpoint existsO {A} (f : A -> outcome bool) (l : list A) : outcome bool :=
  match l with
  | [] => Ok false
  | x :: l' => obind (f x) (fun b => if (b : bool) then Ok true else existsO f l')
  end.
Definition isResourceTypeSubscribed (resourceTypes : list string) (originOfCondition : string)
    (subordinateResources : bool) : outcome bool :=
  if String.eqb originOfCondition "" then Ok true
  else existsO (fun resourceType => type_matches (parts originOfCondition) subordinateResources (resource_type resourceType))
         resourceTypes.
(** [oid] is the origin of the event's condition, which the caller has looked at. *)
Definition filterEventsToBeForwarded (subscription : Subscription) (event : Event) (oid : string)
    (originResources : list string) : outcome bool :=
  let eventTypes := items (sb_EventTypes subscription) in
  let messageIds := items (sb_MessageIds subscription) in
  let resourceTypes := items (sb_ResourceTypes subscription) in
  let originCondition := TrimSuffix oid "/" in
  let unset {A} (l : list A) := match l with [] => true | _ => false end in
  if (unset eventTypes || isStringPresentInSlice eventTypes (ev_EventType event)) &&
     (unset messageIds || isStringPresentInSlice messageIds (ev_MessageID event))
  then
    obind (if unset resourceTypes then Ok true
           else isResourceTypeSubscribed resourceTypes oid (sb_SubordinateResources subscription)) (fun ok =>
      Ok (ok && existsb (fun origin => if sb_SubordinateResources subscription then Contains originCondition origin
                                       else String.eqb origin originCondition) originResources))
  else Ok false.

Definition getUUID (origin : string) : string :=
  match SplitN2 origin "." with
  | [resource; _] => AgModel.last_part (Split resource "/")
  | _ => ""
  end.
Definition formatEvent (event originResource hostIP : string) : string * string :=
  let deviceUUID := getUUID originResource in
  let put uri event := Replace event uri (uri +:+ deviceUUID +:+ ".") in
  (if Contains hostIP "Collection" then event
   else put "/redfish/v1/Managers/" (put "/redfish/v1/Chassis/"
          (put "/redfish/v1/systems/" (put "/redfish/v1/Systems/" event))), deviceUUID).

(** What the aggregation service is asked besides. *)
Inductive evCall := Rediscover (deviceUUID uri : string) | UpdatePower (deviceUUID uri messageID : string).
Abbreviation evMap := (gmap string (list Event)).
Definition add_event (destination : string) (e : Event) (eventMap : evMap) : evMap :=
  <[destination := (default [] (eventMap !! destination) ++ [e])%list]> eventMap.

(** The inner loop: every subscription of one event. *)
Fixpoint offer (subscriptions : list Subscription) (e : Event) (oid host : string) (origins : list string)
    (eventMap : evMap) (flag : bool) : outcome (evMap * bool) :=
  match subscriptions with
  | [] => Ok (eventMap, flag)
  | sub :: rest =>
      if String.eqb (sb_Destination sub) "" then offer rest e oid host origins eventMap flag
      else if isHostPresent (items (sb_Hosts sub)) host then
        obind (filterEventsToBeForwarded sub e oid origins) (fun forwarded =>
          if (forwarded : bool) then offer rest e oid host origins (add_event (sb_Destination sub) e eventMap) true
          else offer rest e oid host origins eventMap flag)
      else offer rest e oid host origins eventMap false
  end.
(** What an event makes the service ask; for added and removed resources it is the first event of the
    message that is looked at. *)
Definition asked (deviceUUID : string) (events : list Event) (e : Event) (oid : string) : outcome (list evCall) :=
  if EqualFold "Alert" (ev_EventType e) then
    let id := ev_MessageID e in
    Ok ((if Contains id "ServerPostDiscoveryComplete" || Contains id "ServerPostComplete" then [Rediscover deviceUUID oid] else []) ++
        (if Contains id "ServerPoweredOn" || Contains id "ServerPoweredOff" then [UpdatePower deviceUUID oid id] else []))%list
  else
    obind (index events 0) (fun first =>
      if EqualFold "ResourceAdded" (ev_EventType first) || EqualFold "ResourceRemoved" (ev_EventType first) then
        match ev_OriginOfCondition first with
        | None => Panic
        | Some o =>
            if Contains (li_Oid o) "Volumes" then
              let s := Split (li_Oid o) "/" in
              obind (index s 5) (fun _ =>
                Ok [Rediscover deviceUUID ("/" +:+ Join (take 5 (skipn 1 s)) "/" +:+ "/")])
            else Ok []
        end
      else Ok []).
Definition supported (oid : string) : outcome bool :=
  obind (from_end (parts oid) 2) (fun resType => Ok (existsb (fun kv => Contains resType kv.2) ResourceTypes)).
(** The outer loop. *)
Fixpoint forward (subscriptions : list Subscription) (deviceUUID host : string) (origins : list string)
    (all events : list Event) (eventMap : evMap) (flag : bool) (calls : list evCall)
  : outcome (evMap * bool * list evCall) :=
  match events with
  | [] => Ok (eventMap, flag, calls)
  | e :: rest =>
      let oid := match ev_OriginOfCondition e with None => "" | Some o => li_Oid o end in
      if String.eqb oid "" then forward subscriptions deviceUUID host origins all rest eventMap flag calls
      else
        obind (supported oid) (fun ok =>
          if negb ok then forward subscriptions deviceUUID host origins all rest eventMap flag calls
          else
            obind (offer subscriptions e oid host origins eventMap flag) (fun '(eventMap, flag) =>
              obind (asked deviceUUID all e oid) (fun new =>
                forward subscriptions deviceUUID host origins all rest eventMap
                  (match new with [] => flag | _ => true end) (calls ++ new)%list)))
  end.

(** ** evmodel *)

Definition UndeliveredEvents := "UndeliveredEvents".
Definition ReadInProgres := "ReadInProgres".
Definition SubscriptionIndex := "Subscription".
Definition DeviceSubscriptionIndex := "DeviceSubscription".

Section evmodel.
Context `{Env, !IndexEnv, Config, !JSONTexts}.
Context (fuel : nat).

Definition getSliceFromString (sliceString : string) : list string :=
  let slice := Replace (Replace sliceString "[" "") "]" "" in
  if (String.length slice <? 1)%nat then [] else Split slice " ".
(** The three parts of an entry; fewer of them panic. *)
Definition device_entry (entry : string) : outcome DeviceSubscription :=
  let devSub := Split entry "::" in
  obind (index devSub 0) (fun host => obind (index devSub 1) (fun location => obind (index devSub 2) (fun origins =>
    Ok (mkDeviceSubscription host location (getSliceFromString origins))))).
Definition GetDeviceSubscriptions (hostIP : string) : IO (string + DeviceSubscription) :=
  GetDBConnection OnDisk ;;;
  let! devSubscription := GetDeviceSubscription OnDisk DeviceSubscriptionIndex (hostIP +:+ "*") in
  match devSubscription with
  | inl gerr => ret (inl ("error while trying to get subscription of device " +:+ gerr))
  | inr devSubscription =>
      let! entry := lift (index devSubscription 0) in
      let! d := lift (device_entry entry) in ret (inr d)
  end.
Definition UpdateDeviceSubscriptionLocation (d : DeviceSubscription) : IO (option string) :=
  GetDBConnection OnDisk ;;;
  let! uerr := Index.UpdateDeviceSubscription OnDisk DeviceSubscriptionIndex (ds_EventHostIP d) (ds_Location d)
                 (ds_OriginResources d) in
  ret ((fun e => "error while trying to update subscription of device " +:+ e) <$> uerr).
Definition SaveDeviceSubscription (d : DeviceSubscription) : IO (option string) :=
  GetDBConnection OnDisk ;;;
  let! cerr := CreateDeviceSubscriptionIndex OnDisk DeviceSubscriptionIndex (ds_EventHostIP d) (ds_Location d)
                 (ds_OriginResources d) in
  ret ((fun e => "error while trying to save subscription of device " +:+ e) <$> cerr).
Definition DeleteDeviceSubscription (hostIP : string) : IO (option string) :=
  GetDBConnection OnDisk ;;;
  let! derr := Index.DeleteDeviceSubscription OnDisk DeviceSubscriptionIndex hostIP in
  ret ((fun e => "error while trying to delete subscription of device " +:+ e) <$> derr).

(** A scan that needs more rounds than the fuel is not a run of the model. *)
Definition scanned {A} (r : option A) : IO A := match r with Some a => ret a | None => panic end.
Definition SaveEventSubscription (evtSubscription : Subscription) : IO (option string) :=
  GetDBConnection OnDisk ;;;
  let! r := CreateEvtSubscriptionIndex fuel OnDisk SubscriptionIndex (json_text (marshal_Subscription evtSubscription)) in
  let! cerr := scanned r in
  ret ((fun e => "error while trying to save event subscriptions " +:+ e) <$> cerr).
Fixpoint decode_subscriptions (evtSub : list string) : string + list Subscription :=
  match evtSub with
  | [] => inr []
  | value :: rest =>
      match Unmarshal Subscription_type (text_json value) zeroSubscription with
      | (_, Some err) => inl ("error while unmarshalling event subscriptions: " +:+ err)
      | (eventSub, None) =>
          match decode_subscriptions rest with inl err => inl err | inr subs => inr (eventSub :: subs) end
      end
  end.
Definition GetEvtSubscriptions (searchKey : string) : IO (string + list Subscription) :=
  GetDBConnection OnDisk ;;;
  let! r := Index.GetEvtSubscriptions fuel OnDisk SubscriptionIndex ("*" +:+ searchKey +:+ "*") in
  let! evtSub := scanned r in
  match evtSub with
  | inl gerr => ret (inl ("error while trying to get subscription of device " +:+ gerr))
  | inr evtSub => ret (decode_subscriptions evtSub)
  end.
Definition DeleteEvtSubscription (key : string) : IO (option string) :=
  GetDBConnection OnDisk ;;;
  let! r := DeleteEvtSubscriptions fuel OnDisk SubscriptionIndex ("*" +:+ key +:+ "*") in
  let! derr := scanned r in
  ret ((fun e => "error while trying to delete subscription of device " +:+ e) <$> derr).
Definition UpdateEventSubscription (evtSubscription : Subscription) : IO (option string) :=
  GetDBConnection OnDisk ;;;
  let! r := UpdateEvtSubscriptions fuel OnDisk SubscriptionIndex ("*" +:+ sb_SubscriptionID evtSubscription +:+ "*")
              (json_text (marshal_Subscription evtSubscription)) in
  let! uerr := scanned r in
  ret ((fun e => "error while trying to update subscription of device " +:+ e) <$> uerr).

Definition GetAllMatching (table pattern : string) (db : DbType) : IO (result (list string)) :=
  GetDBConnection db ;;; ConnPool.GetAllMatchingDetails db table pattern.
Definition SaveUndeliveredEvents (key event : string) : IO (option string) :=
  GetDBConnection OnDisk ;;;
  let! err := AddResourceData OnDisk UndeliveredEvents key (JStr event) in
  ret ((fun e => "error while trying to add Undelivered Events to DB: " +:+ errMsg e) <$> err).
(** The bytes of the document. *)
Definition GetUndeliveredEvents (destination : string) : IO (string + string) :=
  GetDBConnection OnDisk ;;;
  let! eventData := Read OnDisk UndeliveredEvents destination in
  ret (match eventData with
       | inl err => inl ("error: while trying to fetch details: " +:+ errMsg err)
       | inr eventData => inr (raw_text eventData)
       end).
Definition delete_from (table key : string) : IO (option string) :=
  GetDBConnection OnDisk ;;;
  let! err := ConnPool.Delete OnDisk table key in ret (errMsg <$> err).
Definition DeleteUndeliveredEvents (destination : string) : IO (option string) := delete_from UndeliveredEvents destination.
(** What is stored is read again, and printed. *)
Definition SetUndeliveredEventsFlag (destination : string) : IO (option string) :=
  GetDBConnection OnDisk ;;;
  let! err := AddResourceData OnDisk ReadInProgres destination (JStr "true") in
  match err with
  | Some e => ret (Some ("error while trying to create new " +:+ ReadInProgres +:+ " resource: " +:+ errMsg e))
  | None => let! _ := Read OnDisk ReadInProgres destination in ret None
  end.
Definition GetUndeliveredEventsFlag (destination : string) : IO (bool * option string) :=
  GetDBConnection OnDisk ;;;
  let! r := Read OnDisk ReadInProgres destination in
  ret (match r with inl err => (false, Some (errMsg err)) | inr _ => (true, None) end).
Definition DeleteUndeliveredEventsFlag (destination : string) : IO (option string) := delete_from ReadInProgres destination.
End evmodel.

(** ** The delivery *)

(** What becomes of a request to a subscriber; [redirected] tells of the one error that comes with a
    response. *)
Inductive delivery := Delivered | Undelivered (err : string) (redirected : bool).
Class Subscribers `{Env} : Type := { deliver : string -> string -> env -> delivery }.
(** config.Data.EventConf and the flag of evcommon *)
Class EventConf : Type := {
  DeliveryRetryAttempts : Z;
  DeliveryRetryIntervalSeconds : Z;
  SaveUndeliveredEventsFlag : bool;
}.

(** The goroutines; one that tries again has tried [i] times. *)
Inductive evThread :=
| PostThread (destination eventUniqueID event : string)
| RetryThread (i : Z) (destination undeliveredEventID event : string)
| CheckThread (destination : string)
| AskThread (c : evCall).

Section Delivery.
Context `{Env, !IndexEnv, Libs, Config, !JSONTexts, !Subscribers, !EventConf}.
Context (fuel : nat).

Record EvWorld := mkEvWorld {
  es_own : World;
  es_sent : list (string * string);
  es_threads : list evThread;
}.
Definition in_ev {A} (m : IO A) : M EvWorld A := fun s =>
  let (o, w) := m (es_own s) in (o, mkEvWorld w (es_sent s) (es_threads s)).
Definition go_ev (t : evThread) : M EvWorld unit :=
  modify (fun s => mkEvWorld (es_own s) (es_sent s) (es_threads s ++ [t])%list).
Definition sent_to (destination event : string) (s : EvWorld) : EvWorld :=
  mkEvWorld (es_own s) (es_sent s ++ [(destination, event)])%list (es_threads s).

Definition sendEvent (destination event : string) : M EvWorld delivery :=
  let! s := get in
  match deliver destination event (w_env (es_own s)) with
  | Delivered => modify (sent_to destination event) ;;; ret Delivered
  | failure => ret failure
  end.
Definition saving (m : M EvWorld unit) : M EvWorld unit := if SaveUndeliveredEventsFlag then m else ret tt.

Definition postEvent (destination eventUniqueID event : string) : M EvWorld unit :=
  let! resp := sendEvent destination event in
  match resp with
  | Delivered => saving (go_ev (CheckThread destination))
  | Undelivered _ _ =>
      let undeliveredEventID := destination +:+ ":" +:+ eventUniqueID in
      saving (let! _ := in_ev (SaveUndeliveredEvents undeliveredEventID event) in ret tt) ;;;
      go_ev (RetryThread 0 destination undeliveredEventID event)
  end.
(** One round of reAttemptEvents; after the last the error is logged, which without any round is nil. *)
Definition reAttemptEvents (i : Z) (destination undeliveredEventID event : string) : M EvWorld unit :=
  if (DeliveryRetryAttempts <=? i)%Z then if (i =? 0)%Z then panic else ret tt
  else
    in_ev (Sleep (DeliveryRetryIntervalSeconds * nano)) ;;;
    let! published :=
      if SaveUndeliveredEventsFlag then
        let! eventString := in_ev (GetUndeliveredEvents undeliveredEventID) in
        ret (match eventString with inl _ => true | inr text => (String.length text <? 1)%nat end)
      else ret false in
    if (published : bool) then ret tt
    else
      let! resp := sendEvent destination event in
      match resp with
      | Delivered =>
          saving (let! _ := in_ev (DeleteUndeliveredEvents undeliveredEventID) in go_ev (CheckThread destination))
      | Undelivered _ _ => go_ev (RetryThread (i + 1) destination undeliveredEventID event)
      end.

(** The stored text as it is sent again. *)
Definition resent (event : string) : string :=
  let quote := String dquote "" in TrimSuffix (TrimPrefix (Replace event "\" "") quote) quote.
Definition resend (destination dest : string) : M EvWorld unit :=
  let! event := in_ev (GetUndeliveredEvents dest) in
  match event with
  | inl _ => ret tt
  | inr event =>
      let! resp := sendEvent destination (resent event) in
      match resp with
      | Undelivered _ redirected => if (redirected : bool) then ret tt else panic   (* resp is nil *)
      | Delivered => let! _ := in_ev (DeleteUndeliveredEvents dest) in ret tt
      end
  end.
Definition checkUndeliveredEvents (destination : string) : M EvWorld unit :=
  let! (flag, _) := in_ev (GetUndeliveredEventsFlag destination) in
  if (flag : bool) then ret tt
  else
    let! _ := in_ev (SetUndeliveredEventsFlag destination) in
    let! destData := in_ev (GetAllMatching UndeliveredEvents destination OnDisk) in
    forM_ (match destData with inl _ => [] | inr keys => keys end) (resend destination) ;;;
    let! _ := in_ev (DeleteUndeliveredEventsFlag destination) in ret tt.

(** A step of a goroutine, after which it has ended. *)
Definition runEvent (t : evThread) : M EvWorld unit :=
  match t with
  | PostThread destination eventUniqueID event => postEvent destination eventUniqueID event
  | RetryThread i destination undeliveredEventID event => reAttemptEvents i destination undeliveredEventID event
  | CheckThread destination => checkUndeliveredEvents destination
  | AskThread _ => ret tt
  end.

(** ** Publishing *)

Definition publishMetricReport (requestData : string) : M EvWorld bool :=
  let! eventUniqueID := in_ev NewV4 in
  let! subscriptions := in_ev (GetEvtSubscriptions fuel "MetricReport") in
  match subscriptions with
  | inl _ => ret false
  | inr subscriptions =>
      forM_ subscriptions (fun sub => go_ev (PostThread (sb_Destination sub) eventUniqueID requestData)) ;;; ret true
  end.
Definition SubscriptionKey (host : string) : string := "[^0-9]" +:+ host +:+ "[^0-9]".
Definition DeviceSubscriptionKey (host : string) : string := host +:+ "[^0-9]".
(** PublishEventsToDestination from the look-up of the device on; [message] is the event as it came. *)
Definition publishEvents (message : MessageData) (requestData host : string) : M EvWorld bool :=
  let! deviceSubscription := in_ev (GetDeviceSubscriptions (DeviceSubscriptionKey host)) in
  match deviceSubscription with
  | inl _ => ret false
  | inr deviceSubscription =>
      match ds_OriginResources deviceSubscription with
      | [] => ret false
      | origin :: _ as origins =>
          let '(requestData, deviceUUID) := formatEvent requestData origin host in
          let! subscriptions := in_ev (GetEvtSubscriptions fuel (SubscriptionKey host)) in
          match subscriptions with
          | inl _ => ret false
          | inr subscriptions =>
              match Unmarshal MessageData_type (text_json requestData) message with
              | (_, Some _) => ret false
              | (message, None) =>
                  let! eventUniqueID := in_ev NewV4 in
                  let events := items (md_Events message) in
                  let! (eventMap, flag, calls) :=
                    lift (forward subscriptions deviceUUID host origins events events ∅ false []) in
                  forM_ calls (fun c => go_ev (AskThread c)) ;;;
                  forM_ (map_to_list eventMap) (fun kv =>
                    go_ev (PostThread kv.1 eventUniqueID (json_text (marshal_MessageData
                      (mkMessageData (md_OdataType message) (md_Name message) (md_Context message) (Some kv.2)))))) ;;;
                  ret flag
              end
          end
      end
  end.
End Delivery.
