(* ===== verification/EventsProps.v ===== *)
(** Which events go where, that no stored event is lost, and how the delivery of stored events gets
    stuck. *)
From stdpp Require Import base gmap list strings pretty.
From Stdlib Require Import Ascii.
From S2P Require Import Prelude System Go GoTime GoText GoCodec Response Redis World ConnPool DBSpec RedisIndex Index IndexProps Http AgData AgModel AgSpec Events.
Open Scope string_scope.

(** ** The events of a subscriber *)

Lemma isHostPresent_spec hosts h : isHostPresent hosts h = bool_decide (h ∈ hosts).
Proof.
  symmetry. destruct (isHostPresent hosts h) eqn:E.
  - apply bool_decide_eq_true. destruct hosts; [done|]. by apply found_in_spec.
  - apply bool_decide_eq_false. intros Hin. destruct hosts as [|x l]; [by apply elem_of_nil in Hin|].
    apply found_in_spec in Hin. unfold isHostPresent in E. by rewrite E in Hin.
Qed.

(** What happens to a key of a map of lists when [l] is appended to it. *)
Definition appended (old : option (list Event)) (l : list Event) : option (list Event) :=
  match l with [] => old | _ => Some (default [] old ++ l)%list end.
Lemma appended_app old l l' : appended (appended old l) l' = appended old (l ++ l')%list.
Proof.
  destruct l as [|x l]; [done|]. destruct l' as [|y l']; [by rewrite app_nil_r|].
  simpl. by rewrite <- app_assoc.
Qed.

Section selection.
Context (subscriptions : list Subscription) (deviceUUID host : string) (origins : list string).

(** The subscription asks for the event, and has [d] for its destination. *)
Definition wants (d : string) (e : Event) (oid : string) (sub : Subscription) : Prop :=
  sb_Destination sub = d /\ d <> "" /\ host ∈ items (sb_Hosts sub) /\
  filterEventsToBeForwarded sub e oid origins = Ok true.
#[local] Instance wants_decision d e oid sub : Decision (wants d e oid sub).
Proof. unfold wants. repeat (apply and_dec || apply not_dec || apply _). destruct (filterEventsToBeForwarded _ _ _ _) as [[]|];
  [by left|by right|by right]. Defined.
(** One copy of the event for every subscription that asks for it. *)
Definition copies (subs : list Subscription) (d : string) (e : Event) (oid : string) : list Event :=
  (fun _ => e) <$> filter (wants d e oid) subs.
Definition copies_of (d : string) (e : Event) : list Event :=
  match ev_OriginOfCondition e with
  | None => []
  | Some o =>
      if String.eqb (li_Oid o) "" then []
      else match supported (li_Oid o) with Ok true => copies subscriptions d e (li_Oid o) | _ => [] end
  end.

Lemma copies_cons sub subs d e oid :
  copies (sub :: subs) d e oid = ((if decide (wants d e oid sub) then [e] else []) ++ copies subs d e oid)%list.
Proof. unfold copies. rewrite filter_cons. by destruct (decide _). Qed.
Lemma offer_copies subs e oid m flag m' flag' : offer subs e oid host origins m flag = Ok (m', flag') ->
  forall d, m' !! d = appended (m !! d) (copies subs d e oid).
Proof.
  revert m flag. induction subs as [|sub subs IH]; intros m flag Ho d; [by injection Ho as <- <-|].
  rewrite copies_cons. cbn [offer] in Ho.
  assert (Hskip : ~ wants d e oid sub -> m' !! d = appended (m !! d) (copies subs d e oid) ->
    m' !! d = appended (m !! d) ((if decide (wants d e oid sub) then [e] else []) ++ copies subs d e oid)).
  { intros Hn ->. by rewrite decide_False. }
  destruct (String.eqb_spec (sb_Destination sub) "") as [Hd|Hd].
  { apply Hskip; [|by eapply IH]. intros (<- & Hne & _). done. }
  rewrite isHostPresent_spec in Ho. case_bool_decide as Hh.
  2: { apply Hskip; [|by eapply IH]. by intros (_ & _ & Hin & _). }
  destruct (filterEventsToBeForwarded sub e oid origins) as [[]|] eqn:Ef; cbn [obind] in Ho; [| |done].
  2: { apply Hskip; [|by eapply IH]. intros (_ & _ & _ & Hf). congruence. }
  apply IH with (d := d) in Ho. rewrite Ho. unfold add_event. destruct (decide (d = sb_Destination sub)) as [->|Hne].
  - rewrite lookup_insert_eq, (decide_True _ _ (P := wants _ _ _ _)) by done. by rewrite <- appended_app.
  - rewrite lookup_insert_ne by done. rewrite decide_False; [done|]. intros (? & _). congruence.
Qed.

(** C38: The map of the events to forward, which is built with nested loops, two indices into the hosts of
    a subscription and several early ends, holds for every destination the events of the message, in their order, once for
    each subscription that names the destination, has the host of the device and lets the event pass its filters;
    events without an origin, and of resources that are not supported, are for nobody; a destination without any event
    has no entry. *)
Theorem forward_selects all events m flag calls m' flag' calls' :
  forward subscriptions deviceUUID host origins all events m flag calls = Ok (m', flag', calls') ->
  forall d, m' !! d = appended (m !! d) (events ≫= copies_of d).
Proof.
  revert m flag calls. induction events as [|e events IH]; intros m flag calls Hf d; [by injection Hf as <- <- <-|].
  cbn [forward] in Hf. rewrite bind_cons. unfold copies_of at 1. cbv zeta in Hf.
  destruct (ev_OriginOfCondition e) as [o|]; [|cbn [String.eqb] in Hf; by apply (IH _ _ _ Hf)].
  destruct (String.eqb (li_Oid o) ""); [by eapply IH|].
  destruct (supported (li_Oid o)) as [[]|]; cbn [obind negb] in Hf; [|by eapply IH|done].
  destruct (offer _ _ _ _ _ _ _) as [[m1 flag1]|] eqn:Eo; cbn [obind] in Hf; [|done].
  destruct (asked _ _ _ _) as [new|]; cbn [obind] in Hf; [|done].
  rewrite (IH _ _ _ Hf d), (offer_copies _ _ _ _ _ _ _ Eo d). apply appended_app.
Qed.
End selection.

(** ** An event is stored and sent again *)

(** The characters that are stored as they are, or with a backslash before them; and the separators, which
    are not. *)
Definition plain (c : ascii) : bool :=
  negb (Ascii.eqb c "\") && (Ascii.eqb c dquote || String.eqb (json_char c) (String c "")).
Fixpoint has_separator (s : string) : bool :=
  match s with EmptyString => false | String _ s' => starts_separator s || has_separator s' end.

Lemma Replace_char c d b new : c <> d -> Replace (String d b) (String c "") new = String d (Replace b (String c "") new).
Proof.
  intros Hne. unfold Replace. cbn [String.eqb]. unfold Split. rewrite split_go_cons, prefix_char.
  rewrite (proj2 (Ascii.eqb_neq d c)) by done.
  destruct (split_go 0 b (String c "")) as [|x [|y l]] eqn:E; [by apply split_go_nonempty in E|done|done].
Qed.
Lemma HasSuffix_char s c : HasSuffix (s +:+ String c "") (String c "") = true.
Proof. apply HasSuffix_app. Qed.
Lemma substring_app s t : String.substring 0 (String.length s) (s +:+ t) = s.
Proof. induction s as [|c s IH]; [by destruct t|]. change (String c (String.substring 0 (String.length s) (s +:+ t)) = String c s). by rewrite IH. Qed.
Lemma TrimSuffix_char s c : TrimSuffix (s +:+ String c "") (String c "") = s.
Proof.
  unfold TrimSuffix. rewrite HasSuffix_char. rewrite length_append. cbn [String.length].
  replace (String.length s + 1 - 1)%nat with (String.length s) by lia. apply substring_app.
Qed.

(** Taking out a character works on the parts of a text. *)
Lemma remove_char c b : Replace (String c b) (String c "") "" = Replace b (String c "") "".
Proof.
  unfold Replace. cbn [String.eqb]. unfold Split. rewrite split_go_cons, prefix_char, Ascii.eqb_refl.
  destruct (split_go 0 b (String c "")) as [|x l] eqn:E; [by apply split_go_nonempty in E|].
  cbn [String.length Nat.sub]. by rewrite E.
Qed.
Lemma remove_app a b c : Replace (a +:+ b) (String c "") "" = Replace a (String c "") "" +:+ Replace b (String c "") "".
Proof.
  induction a as [|d a IH]; [done|]. change (String d a +:+ b) with (String d (a +:+ b)).
  destruct (decide (c = d)) as [<-|Hne]; [by rewrite !remove_char|]. by rewrite !Replace_char, IH by done.
Qed.

(** What is left of a character that was stored, when it is sent again. *)
Definition stripped (c : ascii) : string := Replace (json_char c) "\" "".
Lemma stripped_plain c : plain c = String.eqb (stripped c) (String c "").
Proof. destruct c as [[] [] [] [] [] [] [] []]; reflexivity. Qed.
Lemma stripped_backslash c : no_char "\" (stripped c) = true.
Proof. destruct c as [[] [] [] [] [] [] [] []]; reflexivity. Qed.
Lemma stripped_length c : c <> "\"%char -> (1 <= String.length (stripped c))%nat.
Proof. destruct c as [[] [] [] [] [] [] [] []]; (by intros H; exfalso; apply H) || (intros _; vm_compute; lia). Qed.

Definition unescaped (e : string) : string := Replace (json_chars e) "\" "".
Lemma resent_unescaped e : resent (json_string e) = unescaped e.
Proof.
  unfold resent, json_string. rewrite Replace_char, remove_app by done. fold (unescaped e).
  change (Replace (String dquote "") "\" "") with (String dquote "").
  change (String dquote (unescaped e +:+ String dquote "")) with (String dquote "" +:+ (unescaped e +:+ String dquote "")).
  by rewrite TrimPrefix_app, TrimSuffix_char.
Qed.
Lemma unescaped_cons a e : starts_separator (String a e) = false -> unescaped (String a e) = stripped a +:+ unescaped e.
Proof. intros E. unfold unescaped. by rewrite json_chars_cons, remove_app by done. Qed.
Lemma unescaped_separator a b c e : separator a b c = true ->
  exists x, unescaped (String a (String b (String c e))) = x +:+ unescaped e /\ String.length x = 5%nat /\ no_char "\" x = true.
Proof.
  intros E. unfold unescaped. rewrite json_chars_separator by done.
  set (d := if is_char c (char 168) then "8"%char else "9"%char).
  change ("\u202" +:+ String d (json_chars e)) with (("\u202" +:+ String d "") +:+ json_chars e).
  eexists. split; [apply remove_app|]. unfold d. by destruct (is_char c (char 168)).
Qed.
Lemma unescaped_flat e : has_separator e = false -> unescaped e = flat_chars stripped e.
Proof.
  induction e as [|c e IH]; [done|]. cbn [has_separator]. intros [E Hs]%orb_false_iff.
  rewrite unescaped_cons by done. by rewrite IH.
Qed.
(** A text without backslashes gets no shorter, and longer by a separator. *)
Lemma unescaped_length e : no_char "\" e = true ->
  (String.length e + (if has_separator e then 1 else 0) <= String.length (unescaped e))%nat.
Proof.
  induction e as [|a e E IH|a b c e E IH] using json_chars_ind; intros Hn; [done|..]; unfold no_char in *; cbn [string_forall] in Hn.
  - apply andb_true_iff in Hn as [Hc Hn]. rewrite unescaped_cons, length_append by done.
    cbn [has_separator]. rewrite E. cbn [orb String.length]. specialize (IH Hn).
    apply negb_true_iff, Ascii.eqb_neq in Hc. pose proof (stripped_length a Hc). lia.
  - apply andb_true_iff in Hn as [_ Hn]. apply andb_true_iff in Hn as [_ Hn]. apply andb_true_iff in Hn as [_ Hn].
    specialize (IH Hn). destruct (unescaped_separator a b c e E) as (x & -> & Hx & _).
    rewrite length_append, Hx. cbn [String.length]. destruct (has_separator e), (has_separator (String a (String b (String c e)))); lia.
Qed.
Lemma unescaped_backslash e : no_char "\" (unescaped e) = true.
Proof.
  induction e as [|a e E IH|a b c e E IH] using json_chars_ind; [done|..].
  - rewrite unescaped_cons by done. unfold no_char in *. rewrite string_forall_app, IH, andb_true_r.
    apply (stripped_backslash a).
  - destruct (unescaped_separator a b c e E) as (x & -> & _ & Hx).
    unfold no_char in *. by rewrite string_forall_app, IH, Hx.
Qed.

(** C40: An event that was stored because it could not be sent is stored as a JSON string, from which every
    backslash is taken out when it is sent again.  What is sent is the event exactly when it consists of quotes
    and of characters JSON writes as they are, without a backslash and without a line separator of Unicode: an event
    with an escape in one of its texts, a line break, or one of the characters <, > and &, arrives as another text.
    Texts are taken to be valid UTF-8. *)
Theorem resent_exactly e : resent (json_string e) = e <-> string_forall plain e = true /\ has_separator e = false.
Proof.
  rewrite resent_unescaped. split.
  - intros He. assert (Hn : no_char "\" e = true) by (rewrite <- He; apply unescaped_backslash).
    pose proof (unescaped_length e Hn) as Hl. rewrite He in Hl.
    destruct (has_separator e) eqn:Hs; [lia|]. split; [|done]. clear Hl.
    induction e as [|c e IH]; [done|]. cbn [has_separator] in Hs. apply orb_false_iff in Hs as [E Hs].
    rewrite unescaped_cons in He by done. unfold no_char in Hn. cbn [string_forall] in *.
    apply andb_true_iff in Hn as [Hc Hn]. apply negb_true_iff, Ascii.eqb_neq in Hc.
    pose proof (f_equal String.length He) as He'. rewrite length_append in He'. cbn [String.length] in He'.
    pose proof (stripped_length c Hc) as H1. pose proof (unescaped_length e Hn) as H2. rewrite Hs in H2.
    rewrite stripped_plain. destruct (stripped c) as [|d [|? ?]]; cbn [String.length] in *; [lia| |lia].
    change (String d (unescaped e) = String c e) in He. injection He as -> He.
    rewrite String.eqb_refl. cbn [andb]. by apply IH.
  - intros [Hp Hs]. rewrite unescaped_flat by done. clear Hs. induction e as [|c e IH]; [done|]. revert Hp.
    cbn [string_forall flat_chars]. rewrite stripped_plain.
    intros [->%String.eqb_eq He]%andb_true_iff. by rewrite IH.
Qed.

(** ** The delivery *)

Section delivery.
Context `{IndexLaws, SingleNode, Libs, !JSONTexts, !Subscribers, !EventConf}.
Context (fuel : nat).
Implicit Types (w : World) (s : EvWorld).

Definition event_key (id : string) : string := saveID UndeliveredEvents id.
Definition flag_key (d : string) : string := saveID ReadInProgres d.
Lemma flag_not_event d id : flag_key d <> event_key id.
Proof. intros E. by injection E. Qed.
Lemma event_key_inj id id' : event_key id = event_key id' -> id = id'.
Proof. apply saveID_inj. Qed.

(** *** The functions of the model *)

(** A write that is reported, whatever came of it; in a healthy process it was made. *)
Definition wrote w (f : gmap string jtext -> gmap string jtext) {A} (o : outcome A) w' : Prop :=
  (exists a, o = Ok a) /\ maybe_written w OnDisk f w' /\ (healthy w -> written w OnDisk f w') /\ ready OnDisk w'.
Lemma wrote_wf {A} w f (o : outcome A) w' : wrote w f o w' -> wf w'.
Proof. intros (_ & Hw & _). by eapply maybe_written_wf. Qed.
Lemma wrote_ret {A B} w f (a : A) (b : B) w' : wrote w f (Ok a) w' -> wrote w f (Ok b) w'.
Proof. intros (_ & Hw). split; [by eexists|done]. Qed.
Lemma wp_add t k text w w1 : ro w w1 -> ready OnDisk w1 ->
  wp (AddResourceData OnDisk t k (JStr text)) (wrote w (insert (saveID t k) (Text (JStr text)))) w1.
Proof.
  intros Hr Hrd. eapply wp_mono; [apply wp_AddResourceData; [apply Hr|done]|]. intros o w' Hp.
  split; [destruct o; [by eexists|done]|]. apply add_post_maybe in Hp as Hm.
  split; [by eapply ro_maybe_written|]. split; [|by eapply maybe_written_ready]. intros Hh.
  destruct o as [[e|]|]; [|by eapply ro_written|done]. destruct Hp as [Hn _]. by destruct Hn; apply Hr.
Qed.
Lemma wp_remove t k w w1 : ro w w1 -> ready OnDisk w1 ->
  wp (ConnPool.Delete OnDisk t k) (wrote w (delete (saveID t k))) w1.
Proof.
  intros Hr Hrd. eapply wp_mono; [apply wp_Delete; [apply Hr|done]|]. intros o w' Hp.
  split; [destruct o; [by eexists|done]|]. apply delete_post_maybe in Hp as Hm.
  split; [by eapply ro_maybe_written|]. split; [|by eapply maybe_written_ready]. intros Hh.
  destruct o as [[e|]|]; [|destruct Hp; by eapply ro_written|done]. destruct Hp as [(_ & Hro & Hn)|(_ & Hn & _)].
  - eapply ro_written; [done|]. eapply evolves_ext; [|exact Hro]. intros db. unfold upd. destruct (decide _) as [->|]; [|done].
    by rewrite delete_id.
  - by destruct Hn; apply Hr.
Qed.

Lemma wp_SaveUndeliveredEvents id e w : wf w ->
  wp (SaveUndeliveredEvents id e) (wrote w (insert (event_key id) (Text (JStr e)))) w.
Proof.
  intros Hwf. unfold SaveUndeliveredEvents. wp_call wp_GetDBConnection; [done|]. intros o w1 (-> & Hr & Hrd). wp_go.
  eapply wp_mono; [by apply wp_add|]. intros [a|] w' Hw; [|by destruct Hw as [[? ?] _]]. wp_go. by eapply wrote_ret.
Qed.
Lemma wp_delete_from t k w : wf w -> wp (delete_from t k) (wrote w (delete (saveID t k))) w.
Proof.
  intros Hwf. unfold delete_from. wp_call wp_GetDBConnection; [done|]. intros o w1 (-> & Hr & Hrd). wp_go.
  eapply wp_mono; [by apply wp_remove|]. intros [a|] w' Hw; [|by destruct Hw as [[? ?] _]]. wp_go. by eapply wrote_ret.
Qed.
Lemma wp_SetUndeliveredEventsFlag d w : wf w ->
  wp (SetUndeliveredEventsFlag d) (wrote w (insert (flag_key d) (Text (JStr "true")))) w.
Proof.
  intros Hwf. unfold SetUndeliveredEventsFlag. wp_call wp_GetDBConnection; [done|]. intros o w1 (-> & Hr & Hrd). wp_go.
  eapply wp_mono; [by apply wp_add|]. intros [[e|]|] w2 Hw; [| |by destruct Hw as [[? ?] _]]; wp_go; [by eapply wrote_ret|].
  destruct Hw as (_ & Hm & Hw & Hrd2). eapply wp_mono; [apply wp_Read; [by eapply maybe_written_wf|done]|].
  intros [r|] w3 [Hr3 Hp]; [|done]. wp_go. split; [by eexists|]. split; [by eapply maybe_written_ro|].
  split; [|by apply Hr3]. intros Hh. eapply evolves_ro; [by apply Hw|done].
Qed.

Definition event_read w id (o : outcome (string + string)) : Prop :=
  match o with
  | Ok (inr text) => exists v, view w OnDisk !! event_key id = Some v /\ text = raw_text v
  | Ok (inl _) => view w OnDisk !! event_key id = None \/ ~ healthy w
  | Panic => False
  end.
Lemma wp_GetUndeliveredEvents id w : wf w ->
  wp (GetUndeliveredEvents id) (fun o w' => ro w w' /\ event_read w id o) w.
Proof.
  intros Hwf. unfold GetUndeliveredEvents. wp_call wp_GetDBConnection; [done|]. intros o w1 (-> & Hr & Hrd). wp_go.
  eapply wp_mono; [apply wp_Read; [apply Hr|done]|]. intros [[e|v]|] w2 [Hr2 Hp]; [| |done]; wp_go;
    (split; [by eapply ro_trans|]); simpl in Hp; rewrite (ro_view _ _ _ Hr) in Hp; [|by exists v].
  destruct Hp as [[_ Hp]|[_ Hp]]; [by left|right]. by eapply unhealthy_ro.
Qed.
Definition flag_read w d (o : outcome (bool * option string)) : Prop :=
  match o with
  | Ok (b, _) => (b = true -> is_Some (view w OnDisk !! flag_key d)) /\
                 (healthy w -> is_Some (view w OnDisk !! flag_key d) -> b = true)
  | Panic => False
  end.
Lemma wp_GetUndeliveredEventsFlag d w : wf w ->
  wp (GetUndeliveredEventsFlag d) (fun o w' => ro w w' /\ flag_read w d o) w.
Proof.
  intros Hwf. unfold GetUndeliveredEventsFlag. wp_call wp_GetDBConnection; [done|]. intros o w1 (-> & Hr & Hrd). wp_go.
  eapply wp_mono; [apply wp_Read; [apply Hr|done]|]. intros [[e|v]|] w2 [Hr2 Hp]; [| |done]; wp_go;
    (split; [by eapply ro_trans|]); simpl in Hp; rewrite (ro_view _ _ _ Hr) in Hp; simpl; (split; [done|]); try done.
  intros Hh [v Hv]. destruct Hp as [[_ Hp]|[_ Hp]]; [unfold flag_key in Hv; congruence|]. by destruct Hp; apply Hr.
Qed.
Lemma wp_GetAllMatching d w : wf w ->
  wp (GetAllMatching UndeliveredEvents d OnDisk) (fun o w' => ro w w' /\ matching_post w OnDisk UndeliveredEvents d o) w.
Proof.
  intros Hwf. unfold GetAllMatching. wp_call wp_GetDBConnection; [done|]. intros o w1 (-> & Hr & Hrd). wp_go.
  eapply wp_mono; [apply wp_GetAllMatchingDetails; [apply Hr|done|done]|]. intros [[e|ids]|] w2 [Hr2 Hp]; [| |done];
    (split; [by eapply ro_trans|]); simpl in *; [by eapply unhealthy_ro|].
  intros Hd id. by rewrite (Hp Hd id), (ro_view _ _ _ Hr).
Qed.

Lemma wp_in_ev {A} (m : IO A) Q s :
  wp m (fun o w' => Q o (mkEvWorld w' (es_sent s) (es_threads s))) (es_own s) -> wp (in_ev m) Q s.
Proof. unfold wp, in_ev. by destruct (m (es_own s)). Qed.
Lemma wp_sendEvent d e Q s :
  (deliver d e (w_env (es_own s)) = Delivered -> Q (Ok Delivered) (sent_to d e s)) ->
  (forall err r, deliver d e (w_env (es_own s)) = Undelivered err r -> Q (Ok (Undelivered err r)) s) ->
  wp (sendEvent d e) Q s.
Proof.
  intros Hd Hu. unfold sendEvent. wp_go. destruct (deliver _ _ _) as [|err r] eqn:E; wp_go; [by apply Hd|by apply Hu].
Qed.

(** *** No stored event is lost

    [ev_of] tells the event each identifier stands for: the identifiers of undelivered events end with a
    uuid that is made for the message. *)
Context (ev_of : string -> string).
Definition named (t : evThread) : Prop :=
  match t with
  | PostThread d uid e => ev_of (d +:+ ":" +:+ uid) = e
  | RetryThread _ d id e => ev_of id = e /\ exists uid, id = d +:+ ":" +:+ uid
  | _ => True
  end.
Lemma post_or_not (t : evThread) d uid e : t = PostThread d uid e \/ t <> PostThread d uid e.
Proof.
  destruct t as [d' uid' e'| | |]; try by right.
  destruct (decide (d' = d)), (decide (uid' = uid)), (decide (e' = e)); (left; congruence) || (right; congruence).
Qed.
Definition stored s (id : string) : option jtext := view (es_own s) OnDisk !! event_key id.
Record sound s : Prop := {
  so_wf : wf (es_own s);
  so_stored id v : stored s id = Some v -> v = Text (JStr (ev_of id));
  so_threads t : t ∈ es_threads s -> named t;
}.
(** The event was sent to its subscriber, or as it is sent again, to one whose address is a part of the
    identifier. *)
Definition arrived s (id : string) : Prop :=
  exists d x, (d, x) ∈ es_sent s /\
    ((x = ev_of id /\ exists uid, id = d +:+ ":" +:+ uid) \/
     (x = resent (json_string (ev_of id)) /\ (stars_only d = true -> glob_match ("*" +:+ d +:+ "*") id = true))).
Definition held s (id : string) : Prop := is_Some (stored s id) \/ arrived s id.
Definition posted s (id : string) : Prop :=
  exists d uid e, PostThread d uid e ∈ es_threads s /\ id = d +:+ ":" +:+ uid.

Record advances s s' : Prop := {
  ad_sound : sound s';
  ad_healthy : healthy (es_own s) -> healthy (es_own s');
  ad_sent : es_sent s `prefix_of` es_sent s';
  ad_threads : es_threads s `prefix_of` es_threads s';
  ad_held id : held s id -> held s' id;
}.
#[local] Instance advances_trans : Transitive advances.
Proof.
  intros s s1 s2 [a1 a2 a3 a4 a5] [b1 b2 b3 b4 b5]. split; auto; by etrans.
Qed.
Lemma advances_refl s : sound s -> advances s s.
Proof. intros Hs. by split; auto. Qed.

Lemma arrived_more s s' id : es_sent s `prefix_of` es_sent s' -> arrived s id -> arrived s' id.
Proof. intros [l Hl] (d & x & Hin & Hx). exists d, x. rewrite Hl. split; [set_solver|done]. Qed.
(** Steps of the process on its own database. *)
Definition with_own w' s : EvWorld := mkEvWorld w' (es_sent s) (es_threads s).
Lemma advances_ro s w' : sound s -> ro (es_own s) w' -> advances s (with_own w' s).
Proof.
  intros [Hw Hst Ht] Hr. assert (Hv : forall id, stored (with_own w' s) id = stored s id).
  { intros id. unfold stored. by rewrite <- (ro_view _ _ OnDisk Hr). }
  split; [split; [apply Hr| |done]|apply Hr|done|done|].
  - intros id v. rewrite Hv. apply Hst.
  - intros id [Hs|Ha]; [left|by right]. by rewrite Hv.
Qed.
Lemma stored_written s w' (f : gmap string jtext -> gmap string jtext) id :
  written (es_own s) OnDisk f w' -> stored (with_own w' s) id = f (view (es_own s) OnDisk) !! event_key id.
Proof. intros Hw. unfold stored. by rewrite (ev_view _ _ _ Hw), upd_eq. Qed.
Lemma advances_maybe s w' f : sound s -> maybe_written (es_own s) OnDisk f w' ->
  (forall id v, f (view (es_own s) OnDisk) !! event_key id = Some v -> v = Text (JStr (ev_of id))) ->
  (forall id, is_Some (stored s id) -> is_Some (f (view (es_own s) OnDisk) !! event_key id) \/ arrived s id) ->
  advances s (with_own w' s).
Proof.
  intros Hs [Hr|Hw] Hn Hk; [by apply advances_ro|].
  pose proof (fun id => stored_written s w' f id Hw) as Hv.
  split; [split; [apply Hw| |apply Hs]|apply Hw|done|done|].
  - intros id v. rewrite Hv. apply Hn.
  - intros id [Hi|Ha]; [|by right]. apply Hk in Hi as [Hi|Ha]; [left|by right]. by rewrite Hv.
Qed.
(** Setting and removing the flag of a subscriber. *)
Lemma advances_flag s w' d (f : gmap string jtext -> gmap string jtext) : sound s ->
  (forall m k, k <> flag_key d -> f m !! k = m !! k) -> maybe_written (es_own s) OnDisk f w' -> advances s (with_own w' s).
Proof.
  intros Hs Hf Hw. assert (Hv : forall id, f (view (es_own s) OnDisk) !! event_key id = stored s id).
  { intros id. rewrite Hf; [done|]. intros E. by apply (flag_not_event d id). }
  eapply advances_maybe; [done|exact Hw|..].
  - intros id v. rewrite Hv. apply Hs.
  - intros id. rewrite Hv. by left.
Qed.
Lemma advances_save s w' id e : sound s -> ev_of id = e ->
  maybe_written (es_own s) OnDisk (insert (event_key id) (Text (JStr e))) w' -> advances s (with_own w' s).
Proof.
  intros Hs He Hw. eapply advances_maybe; [done|exact Hw|..].
  - intros id' v. destruct (decide (id' = id)) as [->|Hne]; [rewrite lookup_insert_eq; by intros [= <-]; rewrite He|].
    rewrite lookup_insert_ne; [apply Hs|]. intros E. by apply Hne, event_key_inj.
  - intros id' Hi. left. destruct (decide (id' = id)) as [->|Hne]; [rewrite lookup_insert_eq; by eexists|].
    rewrite lookup_insert_ne; [done|]. intros E. by apply Hne, event_key_inj.
Qed.
Lemma advances_delete s w' id : sound s -> arrived s id ->
  maybe_written (es_own s) OnDisk (delete (event_key id)) w' -> advances s (with_own w' s).
Proof.
  intros Hs Ha Hw. eapply advances_maybe; [done|exact Hw|..].
  - intros id' v [_ Hv]%lookup_delete_Some. by apply Hs.
  - intros id' Hi. destruct (decide (id' = id)) as [->|Hne]; [by right|]. left.
    rewrite lookup_delete_ne; [done|]. intros E. by apply Hne, event_key_inj.
Qed.
Lemma advances_sent s d x : sound s -> advances s (sent_to d x s).
Proof.
  intros Hs. split; [by destruct Hs|done|by eexists|done|]. intros id [Hi|Ha]; [by left|right].
  eapply arrived_more; [|exact Ha]. by eexists.
Qed.
Lemma advances_go s t : sound s -> named t ->
  advances s (mkEvWorld (es_own s) (es_sent s) (es_threads s ++ [t])%list).
Proof.
  intros [Hw Hst Ht] Hn. split; [|done|done|by eexists|done]. split; [done|done|]. simpl. set_solver.
Qed.

(** *** The steps of the goroutines *)

Definition onward s {A} (o : outcome A) s' : Prop := advances s s'.
Lemma onward_save s id e : sound s -> ev_of id = e ->
  wp (in_ev (SaveUndeliveredEvents id e)) (fun o s' => advances s s' /\ (exists a, o = Ok a) /\
    (healthy (es_own s) -> held s' id)) s.
Proof.
  intros Hs He. apply wp_in_ev. eapply wp_mono; [apply wp_SaveUndeliveredEvents, Hs|].
  intros o w' (Ho & Hm & Hw & _). split_and!; [by eapply advances_save|done|]. intros Hh. left.
  exists (Text (JStr e)). etrans; [exact (stored_written s w' _ id (Hw Hh))|]. apply lookup_insert_eq.
Qed.
Lemma onward_delete s id : sound s -> arrived s id ->
  wp (in_ev (DeleteUndeliveredEvents id)) (fun o s' => advances s s' /\ exists a, o = Ok a) s.
Proof.
  intros Hs Ha. apply wp_in_ev. eapply wp_mono; [apply wp_delete_from, Hs|].
  intros o w' (Ho & Hm & _). split; [by eapply advances_delete|done].
Qed.
Lemma onward_go s t s0 : advances s0 s -> named t ->
  advances s0 (mkEvWorld (es_own s) (es_sent s) (es_threads s ++ [t])%list).
Proof. intros Ha Ht. etrans; [exact Ha|]. apply advances_go; [apply Ha|done]. Qed.

Lemma onward_postEvent s d uid e : sound s -> ev_of (d +:+ ":" +:+ uid) = e ->
  wp (postEvent d uid e) (fun o s' => advances s s' /\ o = Ok tt /\
    (SaveUndeliveredEventsFlag = true -> healthy (es_own s) -> held s' (d +:+ ":" +:+ uid))) s.
Proof.
  intros Hs He. unfold postEvent. wp_go. apply wp_sendEvent.
  - intros _. cbn [wp_cont]. pose proof (advances_sent s d e Hs) as Hsent.
    assert (Ha : arrived (sent_to d e s) (d +:+ ":" +:+ uid)).
    { exists d, e. split; [simpl; set_solver|]. left. split; [done|by exists uid]. }
    unfold saving. destruct SaveUndeliveredEventsFlag; unfold go_ev; wp_go.
    + split_and!; [by apply onward_go|done|]. intros _ _. by right.
    + by split_and!.
  - intros err r _. cbn [wp_cont]. set (id := d +:+ ":" +:+ uid) in *.
    assert (Hgo : forall s1, advances s s1 ->
      (SaveUndeliveredEventsFlag = true -> healthy (es_own s) -> held s1 id) ->
      wp (go_ev (RetryThread 0 d id e)) (fun o s' => advances s s' /\ o = Ok tt /\
        (SaveUndeliveredEventsFlag = true -> healthy (es_own s) -> held s' id)) s1).
    { intros s1 Ha Hh. unfold go_ev. wp_go. split_and!; [|done|exact Hh]. apply onward_go; [done|]. by split; [|exists uid]. }
    apply wp_bind. unfold saving. destruct SaveUndeliveredEventsFlag eqn:Ef.
    + wp_go. eapply wp_mono; [by apply (onward_save s id e)|]. intros o s1 (Ha & (a & ->) & Hh). wp_go. apply Hgo; auto.
    + wp_go. apply Hgo; [by apply advances_refl|done].
Qed.
Lemma onward_reAttempt s i d id e : sound s -> ev_of id = e -> (exists uid, id = d +:+ ":" +:+ uid) ->
  wp (reAttemptEvents i d id e) (onward s) s.
Proof.
  intros Hs He Hid. unfold reAttemptEvents, onward. pose proof (advances_refl s Hs) as Hrefl.
  destruct (_ <=? i)%Z; [destruct (i =? 0)%Z; by wp_go|]. wp_go. apply wp_in_ev. unfold Sleep. apply wp_in_env.
  intros [] w1 [= <-]. cbn [wp_cont].
  match goal with |- wp _ _ ?x => set (s1 := x) end.
  assert (Hv1 : advances s s1) by (apply advances_ro; [done|]; apply ro_quiet; [apply Hs|apply Redis.sleep_law]).
  assert (Htry : forall s2, advances s s2 ->
    wp (let! resp := sendEvent d e in
        match resp with
        | Delivered => saving (let! _ := in_ev (DeleteUndeliveredEvents id) in go_ev (CheckThread d))
        | Undelivered _ _ => go_ev (RetryThread (i + 1) d id e)
        end) (onward s) s2).
  { intros s2 Hv2. wp_go. apply wp_sendEvent.
    - intros _. cbn [wp_cont]. pose proof (advances_sent s2 d e (ad_sound _ _ Hv2)) as Hv3.
      unfold saving. destruct SaveUndeliveredEventsFlag; wp_go; [|unfold onward; by etrans].
      eapply wp_mono; [apply (onward_delete _ id); [apply Hv3|]|].
      { exists d, e. split; [simpl; set_solver|by left]. }
      intros o s4 (Hv4 & a & ->). unfold go_ev. wp_go. apply onward_go; [|done]. etrans; [exact Hv2|]. by etrans.
    - intros err r _. unfold go_ev. wp_go. by apply onward_go. }
  apply wp_bind. destruct SaveUndeliveredEventsFlag; [|apply wp_ret; cbn [wp_cont]; by apply Htry].
  apply wp_bind, wp_in_ev. eapply wp_mono; [apply wp_GetUndeliveredEvents, Hv1|]. intros o w2 [Hr Ho].
  assert (Hv2 : advances s (with_own w2 s1)) by (etrans; [exact Hv1|]; apply advances_ro; [apply Hv1|done]).
  destruct o as [[err|text]|]; [| |done]; cbn [wp_cont]; apply wp_ret; cbn [wp_cont]; [by wp_go|].
  destruct (_ <? 1)%nat; [by wp_go|by apply Htry].
Qed.
Lemma onward_resend s d id : sound s -> (stars_only d = true -> glob_match ("*" +:+ d +:+ "*") id = true) ->
  wp (resend d id) (onward s) s.
Proof.
  intros Hs Hm. unfold resend, onward. wp_go. apply wp_in_ev. eapply wp_mono; [apply wp_GetUndeliveredEvents, Hs|].
  intros o w1 [Hr Ho]. assert (Hv1 : advances s (with_own w1 s)) by (by apply advances_ro).
  destruct o as [[err|text]|]; [| |done]; cbn [wp_cont]; wp_go; [done|].
  destruct Ho as (v & Hv & ->). apply (so_stored _ Hs) in Hv as ->. cbn [raw_text json_text].
  apply wp_sendEvent.
  - intros _. cbn [wp_cont]. change (mkEvWorld w1 (es_sent s) (es_threads s)) with (with_own w1 s).
    match goal with |- context [sent_to d ?x _] => pose proof (advances_sent _ d x (ad_sound _ _ Hv1)) as Hv2 end.
    wp_go. eapply wp_mono; [apply (onward_delete _ id); [apply Hv2|]|].
    { exists d, (resent (json_string (ev_of id))). split; [simpl; set_solver|by right]. }
    intros o s4 (Hv4 & a & ->). wp_go. etrans; [exact Hv1|by etrans].
  - intros err r _. cbn [wp_cont]. destruct r; by wp_go.
Qed.
Lemma onward_check s d : sound s -> wp (checkUndeliveredEvents d) (onward s) s.
Proof.
  intros Hs. unfold checkUndeliveredEvents, onward. wp_go. apply wp_in_ev.
  eapply wp_mono; [apply wp_GetUndeliveredEventsFlag, Hs|]. intros o w1 [Hr Ho].
  assert (Hv1 : advances s (with_own w1 s)) by (by apply advances_ro).
  destruct o as [[b err]|]; [|done]. cbn [wp_cont]. destruct b; wp_go; [done|].
  apply wp_in_ev. eapply wp_mono; [apply wp_SetUndeliveredEventsFlag, Hv1|]. intros o w2 ((a & ->) & Hm & _). wp_go.
  assert (Hv2 : advances s (with_own w2 (with_own w1 s))).
  { etrans; [exact Hv1|]. eapply advances_flag; [apply Hv1| |exact Hm]. intros m k Hk. by apply lookup_insert_ne. }
  apply wp_in_ev. eapply wp_mono; [apply wp_GetAllMatching, Hv2|]. intros o w3 [Hr3 Ho3].
  assert (Hv3 : advances s (with_own w3 (with_own w2 (with_own w1 s)))) by (etrans; [exact Hv2|]; apply advances_ro; [apply Hv2|done]).
  destruct o as [r|]; [|done]. cbn [wp_cont]. wp_go.
  apply (wp_forM (fun _ s' => advances s s')); [exact Hv3|..].
  - intros done id s4 (todo & Hids) Hv4. eapply wp_mono; [apply onward_resend; [apply Hv4|]|].
    + intros Hd. destruct r as [e|ids]; [by destruct done|]. apply (Ho3 Hd). rewrite Hids. set_solver.
    + intros o s5 Hv5. assert (advances s s5) by (by etrans). by destruct o.
  - intros s4 Hv4. wp_go. apply wp_in_ev. eapply wp_mono; [apply wp_delete_from, Hv4|]. intros o w5 ((a5 & ->) & Hm5 & _). wp_go.
    etrans; [exact Hv4|]. eapply advances_flag; [apply Hv4| |exact Hm5]. intros m k Hk. by apply lookup_delete_ne.
Qed.
Lemma onward_run s t : sound s -> named t ->
  wp (runEvent t) (fun o s' => advances s s' /\
    forall d uid e, t = PostThread d uid e -> SaveUndeliveredEventsFlag = true -> healthy (es_own s) -> held s' (d +:+ ":" +:+ uid)) s.
Proof.
  intros Hs Ht. destruct t as [d uid e|i d id e|d|c]; cbn [runEvent named] in *.
  - eapply wp_mono; [by apply onward_postEvent|]. intros o s' (Ha & _ & Hh). split; [done|]. by intros ??? [= <- <- <-].
  - destruct Ht. eapply wp_mono; [by apply onward_reAttempt|]. by intros o s' Ha.
  - eapply wp_mono; [by apply onward_check|]. by intros o s' Ha.
  - wp_go. split; [by apply advances_refl|done].
Qed.

(** *** Publishing *)

(** A program that writes nothing. *)
Definition reads {A} (m : IO A) : Prop := forall w, wf w -> ready OnDisk w -> wp m (fun _ w' => ro w w') w.
Lemma reads_ret {A} (a : A) : reads (ret a).
Proof. intros w Hw _. apply wp_ret. by apply ro_refl. Qed.
Lemma reads_lift {A} (o : outcome A) : reads (lift o).
Proof. intros w Hw _. apply wp_lift. by apply ro_refl. Qed.
Lemma reads_bind {A B} (m : IO A) (k : A -> IO B) : reads m -> (forall a, reads (k a)) -> reads (bind m k).
Proof.
  intros Hm Hk w Hw Hrd. apply wp_bind. eapply wp_mono; [by apply Hm|]. intros o w1 Hr. destruct o as [a|]; [|done].
  cbn [wp_cont]. eapply wp_mono; [apply Hk; by apply Hr|]. intros o w2 Hr2. by eapply ro_trans.
Qed.
Lemma reads_zscan i c pat : reads (zscan OnDisk i c pat).
Proof. intros w Hw Hrd. eapply wp_mono; [by apply wp_zscan|]. intros o w' [Hz _]. by apply zro_ro. Qed.
Lemma reads_scanAll n i pat c collect : reads (scanAll n OnDisk i pat c collect).
Proof.
  unfold scanAll. generalize (c, [] : list string). induction n as [|n IH]; intros st; cbn [iterM]; [apply reads_ret|].
  apply reads_bind.
  - unfold scanPage. destruct st as [cur l]. apply reads_bind; [apply reads_zscan|].
    intros [err|[next data]]; [apply reads_ret|]. apply reads_bind; [apply reads_lift|]. intros found.
    destruct (String.eqb next "0"); [apply reads_ret|]. destruct (atoi next); apply reads_ret.
  - intros [r|st']; [apply reads_ret|apply IH].
Qed.
Lemma reads_connected {A} (m : IO A) w : reads m -> wf w ->
  wp (GetDBConnection OnDisk ;;; m) (fun _ w' => ro w w') w.
Proof.
  intros Hm Hw. wp_call wp_GetDBConnection; [done|]. intros o w1 (-> & Hr & Hrd). cbn [wp_cont].
  eapply wp_mono; [apply Hm; [apply Hr|done]|]. intros o w2 Hr2. by eapply ro_trans.
Qed.
Lemma reads_GetEvtSubscriptions key w : wf w -> wp (GetEvtSubscriptions fuel key) (fun _ w' => ro w w') w.
Proof.
  apply reads_connected. apply reads_bind; [apply reads_scanAll|]. intros r. apply reads_bind.
  - unfold scanned. destruct r; [apply reads_ret|apply (reads_lift Panic)].
  - intros [err|l]; apply reads_ret.
Qed.
Lemma reads_GetDeviceSubscriptions host w : wf w -> wp (GetDeviceSubscriptions host) (fun _ w' => ro w w') w.
Proof.
  apply reads_connected. apply reads_bind.
  - apply reads_bind; [apply reads_zscan|]. intros [err|[next data]]; [apply reads_ret|destruct data; apply reads_ret].
  - intros [err|l]; [apply reads_ret|]. apply reads_bind; [apply reads_lift|]. intros entry.
    apply reads_bind; [apply reads_lift|]. intros d. apply reads_ret.
Qed.

(** Publishing writes and sends nothing, and starts goroutines. *)
Record publishes s s' : Prop := {
  pu_own : ro (es_own s) (es_own s');
  pu_sent : es_sent s' = es_sent s;
  pu_threads : es_threads s `prefix_of` es_threads s';
}.
Lemma publishes_refl s : wf (es_own s) -> publishes s s.
Proof. intros Hw. split; [by apply ro_refl|done|done]. Qed.
Lemma publishes_trans s s1 s2 : publishes s s1 -> publishes s1 s2 -> publishes s s2.
Proof. intros [a1 a2 a3] [b1 b2 b3]. split; [by eapply ro_trans|congruence|by etrans]. Qed.
Lemma wp_publish_in {A B} (m : IO A) (k : A -> M EvWorld B) s0 s : publishes s0 s ->
  wp m (fun _ w' => ro (es_own s) w') (es_own s) ->
  (forall a s', publishes s0 s' -> wp (k a) (fun _ s'' => publishes s0 s'') s') ->
  wp (bind (in_ev m) k) (fun _ s' => publishes s0 s') s.
Proof.
  intros Hp Hm Hk. apply wp_bind, wp_in_ev. eapply wp_mono; [exact Hm|]. intros o w' Hr.
  assert (Hp' : publishes s0 (with_own w' s)) by (eapply publishes_trans; [exact Hp|]; by split).
  destruct o as [a|]; cbn [wp_cont]; [by apply Hk|done].
Qed.
Lemma wp_publish_go {A B} (l : list A) (f : A -> evThread) (k : unit -> M EvWorld B) s0 s : publishes s0 s ->
  (forall s', publishes s0 s' -> wp (k tt) (fun _ s'' => publishes s0 s'') s') ->
  wp (bind (forM_ l (fun a => go_ev (f a))) k) (fun _ s' => publishes s0 s') s.
Proof.
  intros Hp Hk. apply wp_bind. apply (wp_forM (fun _ s' => publishes s0 s')); [done| |intros s' Hs'; by apply Hk].
  intros done x s' _ Hs'. unfold go_ev. wp_go. eapply publishes_trans; [exact Hs'|].
  split; [apply ro_refl, Hs'|done|by eexists].
Qed.
Lemma wp_publish_ret {A} (a : A) s0 s : publishes s0 s -> wp (ret a) (fun _ s' => publishes s0 s') s.
Proof. intros Hp. by apply wp_ret. Qed.
Lemma wp_publish_NewV4 s0 s : publishes s0 s -> wp NewV4 (fun _ w' => ro (es_own s) w') (es_own s).
Proof. intros Hp. eapply wp_mono; [apply wp_NewV4, Hp|]. by intros o w' (x & -> & Hr & _). Qed.

Lemma wp_publishMetricReport requestData s : wf (es_own s) -> wp (publishMetricReport fuel requestData) (fun _ s' => publishes s s') s.
Proof.
  intros Hw. pose proof (publishes_refl s Hw) as Hp. unfold publishMetricReport.
  apply wp_publish_in; [done|by eapply wp_publish_NewV4|]. intros uid s1 Hp1.
  apply wp_publish_in; [done|apply reads_GetEvtSubscriptions, Hp1|]. intros [err|subs] s2 Hp2; [by apply wp_publish_ret|].
  apply (wp_publish_go subs (fun sub => PostThread (sb_Destination sub) uid requestData)); [done|].
  intros s3 Hp3. by apply wp_publish_ret.
Qed.
Lemma wp_publishEvents message requestData host s : wf (es_own s) ->
  wp (publishEvents fuel message requestData host) (fun _ s' => publishes s s') s.
Proof.
  intros Hw. pose proof (publishes_refl s Hw) as Hp. unfold publishEvents.
  apply wp_publish_in; [done|by apply reads_GetDeviceSubscriptions|]. intros [err|d] s1 Hp1; [by apply wp_publish_ret|].
  destruct (ds_OriginResources d) as [|origin rest]; [by apply wp_publish_ret|].
  destruct (formatEvent requestData origin host) as [text uuid].
  apply wp_publish_in; [done|apply reads_GetEvtSubscriptions, Hp1|]. intros [err|subs] s2 Hp2; [by apply wp_publish_ret|].
  destruct (Unmarshal _ _ _) as [m [err|]]; [by apply wp_publish_ret|].
  apply wp_publish_in; [done|by eapply wp_publish_NewV4|]. intros uid s3 Hp3. apply wp_bind, wp_lift.
  destruct (forward _ _ _ _ _ _ _ _ _) as [[[evs flag] calls]|]; cbn [wp_cont]; [|done].
  apply (wp_publish_go calls AskThread); [done|]. intros s4 Hp4.
  match goal with |- wp (bind (forM_ ?l (fun kv => go_ev (@?f kv))) _) _ _ => apply (wp_publish_go l f) end; [done|].
  intros s5 Hp5. by apply wp_publish_ret.
Qed.

(** *** Histories *)

(** While the process lives: a goroutine runs and ends or starts others, a message or a report is
    published, or another process works on the database.  Each runs without a panic. *)
Inductive ev_goes : EvWorld -> EvWorld -> Prop :=
| step_goroutine l t l' s s' : es_threads s = (l ++ t :: l')%list ->
    runEvent t (mkEvWorld (es_own s) (es_sent s) (l ++ l')%list) = (Ok tt, s') -> ev_goes s s'
| step_message message requestData host s b s' : publishEvents fuel message requestData host s = (Ok b, s') ->
    Forall named (es_threads s') -> ev_goes s s'
| step_report requestData s b s' : publishMetricReport fuel requestData s = (Ok b, s') ->
    Forall named (es_threads s') -> ev_goes s s'
| step_others w' s : wf w' -> (healthy (es_own s) -> healthy w') ->
    (forall id, view w' OnDisk !! event_key id = stored s id) -> ev_goes s (with_own w' s).
(** The process is started again: its goroutines and connections are gone, what it has stored and sent is not. *)
Definition restarted s : EvWorld := mkEvWorld (restart (es_own s)) (es_sent s) [].
(** A panic, in a goroutine or while something is published, ends the process with all goroutines, after
    what was done up to the panic; and the process may be ended from outside. *)
Inductive ev_dies : EvWorld -> EvWorld -> Prop :=
| dies_goroutine l t l' s s' : es_threads s = (l ++ t :: l')%list ->
    runEvent t (mkEvWorld (es_own s) (es_sent s) (l ++ l')%list) = (Panic, s') -> ev_dies s (restarted s')
| dies_message message requestData host s s' : publishEvents fuel message requestData host s = (Panic, s') ->
    ev_dies s (restarted s')
| dies_report requestData s s' : publishMetricReport fuel requestData s = (Panic, s') -> ev_dies s (restarted s')
| dies_killed s : ev_dies s (restarted s).
Definition ev_step s s' : Prop := ev_goes s s' \/ ev_dies s s'.

Record keeps s s' : Prop := {
  ke_sound : sound s';
  ke_healthy : healthy (es_own s) -> healthy (es_own s');
  ke_held id : held s id -> held s' id;
  ke_posted id : SaveUndeliveredEventsFlag = true -> healthy (es_own s) -> posted s id -> posted s' id \/ held s' id;
}.
Lemma sound_without s l t l' : sound s -> es_threads s = (l ++ t :: l')%list ->
  sound (mkEvWorld (es_own s) (es_sent s) (l ++ l')%list) /\ named t.
Proof.
  intros Hs Hl. split; [|apply Hs; rewrite Hl; set_solver].
  split; [apply Hs|apply Hs|]. intros t' Hin. apply Hs. rewrite Hl. simpl in Hin. set_solver.
Qed.
Lemma publishes_stored s s' : publishes s s' -> forall id, stored s' id = stored s id.
Proof. intros [Hr _ _] id. unfold stored. by rewrite (ro_view _ _ _ Hr). Qed.
Lemma publishes_held s s' id : publishes s s' -> held s id -> held s' id.
Proof.
  intros Hp [Hs|Ha]; [left; by rewrite (publishes_stored _ _ Hp)|right]. eapply arrived_more; [|exact Ha].
  by rewrite (pu_sent _ _ Hp).
Qed.
Lemma keeps_publishes s s' : sound s -> publishes s s' -> Forall named (es_threads s') -> keeps s s'.
Proof.
  intros [Hw Hst Ht] Hp Hn. rewrite Forall_forall in Hn. pose proof (publishes_stored _ _ Hp) as Hv.
  split; [split; [apply Hp| |]|apply Hp|..].
  - intros id v. rewrite Hv. apply Hst.
  - intros t Hin. by apply Hn.
  - intros id. by apply publishes_held.
  - intros id _ _ (d & uid & e & Hin & Hid). left. exists d, uid, e. destruct (pu_threads _ _ Hp) as [l ->].
    split; [set_solver|done].
Qed.
Lemma keeps_goes s s' : sound s -> ev_goes s s' -> keeps s s'.
Proof.
  intros Hs Hstep. destruct Hstep as [l t l' s s' Hl Hrun|m req host s b s' Hrun Hn|req s b s' Hrun Hn|w' s Hw Hh Hv].
  - destruct (sound_without _ _ _ _ Hs Hl) as [Hs0 Ht].
    destruct (wp_run _ _ _ _ _ (onward_run _ t Hs0 Ht) Hrun) as [Ha Hp].
    split; [apply Ha|apply (ad_healthy _ _ Ha)|apply (ad_held _ _ Ha)|].
    intros id Hf Hh (d & uid & e & Hin & ->). rewrite Hl in Hin.
    destruct (post_or_not t d uid e) as [->|Hne].
    + right. by eapply Hp.
    + left. exists d, uid, e. destruct (ad_threads _ _ Ha) as [new ->]. simpl. set_solver.
  - apply keeps_publishes; [done| |done].
    exact (wp_run _ _ _ _ _ (wp_publishEvents m req host s (so_wf _ Hs)) Hrun).
  - apply keeps_publishes; [done| |done].
    exact (wp_run _ _ _ _ _ (wp_publishMetricReport req s (so_wf _ Hs)) Hrun).
  - split; [split; [done| |apply Hs]|done|..].
    + intros id v. unfold stored. simpl. rewrite Hv. apply Hs.
    + intros id [Hi|Ha]; [left|by right]. unfold stored. simpl. by rewrite Hv.
    + intros id _ _ Hp. by left.
Qed.

(** After the end of the process the stored events are those that were stored then. *)
Lemma restarted_kept s s' : wf (es_own s') -> (forall id v, stored s' id = Some v -> v = Text (JStr (ev_of id))) ->
  (forall id, held s id -> held s' id) -> sound (restarted s') /\ forall id, held s id -> held (restarted s') id.
Proof.
  intros Hw Hst Hh. split; [|exact Hh]. split; [by intros []|exact Hst|]. intros t Hin. by apply elem_of_nil in Hin.
Qed.
Lemma dies_kept s s' : sound s -> ev_dies s s' -> sound s' /\ forall id, held s id -> held s' id.
Proof.
  assert (Hpub : forall s s', sound s -> publishes s s' -> sound (restarted s') /\ forall id, held s id -> held (restarted s') id).
  { intros s0 s1 Hs Hp. apply restarted_kept; [apply Hp| |by intros id; apply publishes_held].
    intros id v. rewrite (publishes_stored _ _ Hp). apply Hs. }
  intros Hs Hd. destruct Hd as [l t l' s s' Hl Hrun|m req host s s' Hrun|req s s' Hrun|s].
  - destruct (sound_without _ _ _ _ Hs Hl) as [Hs0 Ht].
    destruct (wp_run _ _ _ _ _ (onward_run _ t Hs0 Ht) Hrun) as [Ha _].
    apply restarted_kept; [apply Ha|apply (so_stored _ (ad_sound _ _ Ha))|apply (ad_held _ _ Ha)].
  - apply Hpub; [done|]. exact (wp_run _ _ _ _ _ (wp_publishEvents m req host s (so_wf _ Hs)) Hrun).
  - apply Hpub; [done|]. exact (wp_run _ _ _ _ _ (wp_publishMetricReport req s (so_wf _ Hs)) Hrun).
  - by apply restarted_kept; [apply Hs|apply Hs|].
Qed.


(** *** A subscriber that cannot be reached *)

(** The flag that some instance is sending the subscriber's events again. *)
Definition flagged s (d : string) : Prop := is_Some (view (es_own s) OnDisk !! flag_key d).
Definition unreachable (d : string) : Prop := forall x e, exists err, deliver d x e = Undelivered err false.

Lemma flagged_check s d : wf (es_own s) -> healthy (es_own s) -> flagged s d ->
  wp (checkUndeliveredEvents d) (fun o s' => o = Ok tt /\ es_sent s' = es_sent s /\ es_threads s' = es_threads s /\
    ro (es_own s) (es_own s')) s.
Proof.
  intros Hw Hh Hf. unfold checkUndeliveredEvents. wp_go. apply wp_in_ev.
  eapply wp_mono; [by apply wp_GetUndeliveredEventsFlag|]. intros o w' [Hr Ho]. destruct o as [[b err]|]; [|done].
  destruct Ho as [_ Ho]. rewrite (Ho Hh Hf). by wp_go.
Qed.
Lemma resend_panics s d id v : wf (es_own s) -> healthy (es_own s) -> unreachable d -> stored s id = Some v ->
  wp (resend d id) (fun o s' => o = Panic /\ es_sent s' = es_sent s /\ ro (es_own s) (es_own s')) s.
Proof.
  intros Hw Hh Hu Hv. unfold resend. wp_go. apply wp_in_ev. eapply wp_mono; [by apply wp_GetUndeliveredEvents|].
  intros o w' [Hr Ho]. destruct o as [[err|text]|]; [|cbn [wp_cont]|done].
  - destruct Ho as [Ho|Ho]; [|done]. unfold stored in Hv. congruence.
  - wp_go. destruct (Hu (resent text) (w_env w')) as [err He]. apply wp_sendEvent; cbn [es_own].
    + intros Hd. congruence.
    + intros err' r Hd. cbn [wp_cont]. replace r with false by congruence. by wp_go.
Qed.

Lemma unflagged_check s d id : wf (es_own s) -> healthy (es_own s) -> stars_only d = true -> unreachable d ->
  ~ flagged s d -> is_Some (stored s id) -> glob_match ("*" +:+ d +:+ "*") id = true ->
  wp (checkUndeliveredEvents d) (fun o s' => o = Panic /\ flagged s' d /\ es_sent s' = es_sent s /\
    forall id', stored s' id' = stored s id') s.
Proof.
  intros Hw Hh Hstar Hu Hnf Hid Hm. unfold checkUndeliveredEvents. wp_go. apply wp_in_ev.
  eapply wp_mono; [by apply wp_GetUndeliveredEventsFlag|]. intros o w1 [Hr Ho]. destruct o as [[b err]|]; [|done].
  destruct Ho as [Ho _]. cbn [wp_cont]. destruct b; [by destruct Hnf; apply Ho|]. wp_go. apply wp_in_ev.
  eapply wp_mono; [apply wp_SetUndeliveredEventsFlag, Hr|]. intros o w2 ((a & ->) & _ & Hw2 & _). wp_go.
  assert (Hwr : written (es_own s) OnDisk (insert (flag_key d) (Text (JStr "true"))) w2).
  { eapply ro_written; [exact Hr|]. by apply Hw2, Hr. }
  apply wp_in_ev. eapply wp_mono; [apply wp_GetAllMatching, Hwr|]. intros o w3 [Hr3 Ho3].
  assert (Hwr3 : written (es_own s) OnDisk (insert (flag_key d) (Text (JStr "true"))) w3) by (by eapply evolves_ro).
  assert (Hst : forall x w', view w' OnDisk = view w3 OnDisk -> stored (with_own w' x) = stored (with_own w3 s)).
  { intros x w' Hv. unfold stored. simpl. by rewrite Hv. }
  assert (Hsame : forall id', stored (with_own w3 s) id' = stored s id').
  { intros id'. rewrite (stored_written _ _ _ _ Hwr3). apply lookup_insert_ne, flag_not_event. }
  assert (Hflag : is_Some (view w3 OnDisk !! flag_key d)).
  { rewrite (ev_view _ _ _ Hwr3), upd_eq, lookup_insert_eq. by eexists. }
  assert (Hh3 : healthy w3) by (by apply Hwr3).
  destruct o as [[e|ids]|]; [by destruct Ho3; apply Hwr|cbn [wp_cont]|done]. specialize (Ho3 Hstar).
  assert (Hv2 : forall id', is_Some (stored s id') <-> is_Some (view w2 OnDisk !! saveID UndeliveredEvents id')).
  { intros id'. rewrite <- Hsame. unfold stored. simpl. by rewrite (ro_view _ _ _ Hr3). }
  destruct ids as [|id0 ids]; [exfalso; eapply not_elem_of_nil, Ho3; split; [by apply Hv2|exact Hm]|].
  destruct (proj1 (Ho3 id0)) as [Hs0 _]; [constructor|]. apply Hv2 in Hs0. rewrite <- Hsame in Hs0. destruct Hs0 as [v0 Hs0].
  cbn [forM_]. wp_go. eapply wp_mono; [eapply (resend_panics _ d id0); [apply Hwr3|exact Hh3|exact Hu|exact Hs0]|].
  intros o s4 (-> & Hsent & Hr4). cbn [wp_cont]. split_and!; [done| |exact Hsent|].
  - unfold flagged. by rewrite (ro_view _ _ _ Hr4).
  - intros id'. rewrite <- Hsame. unfold stored. by rewrite (ro_view _ _ _ Hr4).
Qed.

(** C39: Once an event that was stored is sent again to a subscriber that cannot be reached, the goroutine
    panics - it closes the body of a response that is nil -, which ends the service, and the flag it has set stays in the database.
    From then on every attempt to send stored events to this subscriber finds the flag, and ends without
    having sent anything. *)
Theorem unreachable_blocks d s id : wf (es_own s) -> healthy (es_own s) -> stars_only d = true -> unreachable d ->
  ~ flagged s d -> is_Some (stored s id) -> glob_match ("*" +:+ d +:+ "*") id = true ->
  (exists s1, checkUndeliveredEvents d s = (Panic, s1) /\ flagged s1 d /\ es_sent s1 = es_sent s /\
     forall id', stored s1 id' = stored s id') /\
  forall s2, wf (es_own s2) -> healthy (es_own s2) -> flagged s2 d ->
    exists s3, checkUndeliveredEvents d s2 = (Ok tt, s3) /\ flagged s3 d /\ es_sent s3 = es_sent s2 /\
      es_threads s3 = es_threads s2 /\ forall id', stored s3 id' = stored s2 id'.
Proof.
  intros Hw Hh Hstar Hu Hnf Hid Hm. split.
  - destruct (wp_elim _ _ _ (unflagged_check s d id Hw Hh Hstar Hu Hnf Hid Hm)) as (o & s1 & E & -> & Hp). by exists s1.
  - intros s2 Hw2 Hh2 Hf2. destruct (wp_elim _ _ _ (flagged_check s2 d Hw2 Hh2 Hf2)) as (o & s3 & E & -> & Hse & Hth & Hr).
    exists s3. unfold flagged, stored. rewrite (ro_view _ _ _ Hr). by split_and!.
Qed.
End delivery.

(** ** At concrete inputs

    The simulated servers, a subscriber that answers, and one that cannot be reached. *)
From S2P Require Import Scenario.

#[local] Existing Instances single single_node.
#[local] Instance sim_texts : JSONTexts := {| syntax_error _ := "invalid character"; other_json s := NotJson s "" |}.
#[local] Instance sim_subscribers : Subscribers := {|
  deliver d _ _ := if String.eqb d "https://client:9000/events" then Delivered
                   else Undelivered "connect: connection refused" false |}.
#[local] Instance sim_event_conf : EventConf := {|
  DeliveryRetryAttempts := 3; DeliveryRetryIntervalSeconds := 60; SaveUndeliveredEventsFlag := true |}.

Definition a_client : string := "https://client:9000/events".
Definition a_dead_client : string := "https://gone:9000/events".
Definition an_origin : string := "/redfish/v1/Systems/dev1.1".
Definition an_event : Event := mkEvent "1" "Alert" 0 "e1" "Critical" "" "overheated" None "iLOEvents.2.1.Hot" JNull (Some (mkEvLink an_origin)).
Definition a_subscription (d : string) : Subscription :=
  mkSubscription "admin" "sub1" d "" "" (Some ["Alert"]) None "Redfish" "RedfishEvent" "Event" false None an_origin
    (Some [an_origin]) (Some ["10.0.0.9"]) "" "10.0.0.9".

(** Two subscriptions of one client are sent the event twice, and one for another host takes the flag back. *)
Definition two_and_one : list Subscription :=
  [a_subscription a_client; a_subscription a_client;
   mkSubscription "admin" "sub2" a_client "" "" None None "Redfish" "RedfishEvent" "Event" false None an_origin None
     (Some ["10.0.0.8"]) "" "10.0.0.8"].
Example sent_twice : forward two_and_one "dev1" "10.0.0.9" [an_origin] [an_event] [an_event] ∅ false [] =
  Ok ({[ a_client := [an_event; an_event] ]}, false, []).
Proof. vm_compute. reflexivity. Qed.

Lemma forward_selects_witness : exists m flag calls,
  forward two_and_one "dev1" "10.0.0.9" [an_origin] [an_event] [an_event] ∅ false [] = Ok (m, flag, calls) /\
  m !! a_client = Some [an_event; an_event].
Proof.
  eexists _, _, _. split; [reflexivity|].
  etrans; [eapply (forward_selects two_and_one "dev1" "10.0.0.9" [an_origin] [an_event] [an_event] ∅ false []); reflexivity|].
  vm_compute. reflexivity.
Defined.

(** What sending again makes of three events: the second arrives as another text, the third as no JSON. *)
Definition event_text (message : string) : string := json_text (JObj [("Message", JStr message)]).
Definition sent_again (message : string) : string := resent (json_string (event_text message)).
Example resent_plain_text : sent_again "fan 3 failed" = event_text "fan 3 failed".
Proof. vm_compute. reflexivity. Qed.
Example resent_less_than : sent_again "speed < 10" = event_text "speed u003c 10".
Proof. vm_compute. reflexivity. Qed.
Example resent_no_json : parse_json (event_text (json_string "fan")) <> None /\ parse_json (sent_again (json_string "fan")) = None.
Proof. vm_compute. by split. Qed.

Definition ev_world (disk : gmap string jtext) (threads : list evThread) : EvWorld :=
  mkEvWorld (sim_world ∅ disk 0 []) [] threads.
Definition one_event (_ : string) : string := "event".
Definition the_id (d : string) : string := d +:+ ":" +:+ "u1".
Lemma ev_world_sound threads : Forall (named one_event) threads -> sound one_event (ev_world ∅ threads).
Proof.
  intros Ht. split; [apply sim_wf| |intros t Hin; by eapply Forall_forall in Ht].
  intros id v. unfold stored, ev_world. cbn [es_own]. by rewrite sim_view_disk, lookup_empty.
Qed.

Lemma dead_unreachable : unreachable a_dead_client.
Proof. intros x e. by eexists. Qed.
Definition stored_disk : gmap string jtext := {[ event_key (the_id a_dead_client) := Text (JStr "event") ]}.
Lemma stored_disk_ids id : is_Some (stored (ev_world stored_disk []) id) -> id = the_id a_dead_client.
Proof.
  unfold stored, ev_world. cbn [es_own]. rewrite sim_view_disk. intros [v Hv]. symmetry in Hv.
  unfold stored_disk in Hv. symmetry in Hv. apply lookup_singleton_Some in Hv as [E _]. symmetry. by apply event_key_inj.
Qed.
Lemma stored_disk_panics : exists s1, checkUndeliveredEvents a_dead_client (ev_world stored_disk [PostThread a_client "u1" "event"]) = (Panic, s1) /\
  es_sent s1 = [] /\ forall id, stored s1 id = stored (ev_world stored_disk []) id.
Proof.
  set (s := ev_world stored_disk [PostThread a_client "u1" "event"]).
  assert (Hn : ~ flagged s a_dead_client).
  { unfold flagged, s, ev_world. cbn [es_own]. rewrite sim_view_disk. intros [v Hv]. vm_compute in Hv. discriminate Hv. }
  assert (Hi : is_Some (stored s (the_id a_dead_client))).
  { unfold stored, s, ev_world. cbn [es_own]. rewrite sim_view_disk. exists (Text (JStr "event")). vm_compute. reflexivity. }
  destruct (wp_elim _ _ _ (unflagged_check s a_dead_client (the_id a_dead_client)
    (sim_wf _ _ _ _) (sim_healthy _ _ _) eq_refl dead_unreachable Hn Hi eq_refl)) as (o & s1 & E & -> & _ & Hse & Hst).
  exists s1. split; [exact E|]. split; [exact Hse|exact Hst].
Qed.
(** A goroutine that sends the stored events of a client that cannot be reached panics, and the event that
    another goroutine is to post to a client that answers is lost, although no command of the database fails. *)
Lemma panic_loses_posts : exists s s', sound one_event s /\ healthy (es_own s) /\ ev_dies 2 s s' /\
  posted s (the_id a_client) /\ ~ posted s' (the_id a_client) /\ ~ held one_event s' (the_id a_client).
Proof.
  destruct stored_disk_panics as (s1 & E & Hse & Hst).
  set (s := ev_world stored_disk [CheckThread a_dead_client; PostThread a_client "u1" "event"]).
  exists s, (restarted s1). split_and!.
  - split; [apply sim_wf| |].
    + intros id v. unfold stored, s, ev_world. cbn [es_own]. rewrite sim_view_disk. unfold stored_disk.
      intros [_ <-]%lookup_singleton_Some. reflexivity.
    + intros t [->|[->|[]%elem_of_nil]%elem_of_cons]%elem_of_cons; done.
  - apply sim_healthy.
  - eapply (dies_goroutine 2 [] (CheckThread a_dead_client) [PostThread a_client "u1" "event"]); [reflexivity|exact E].
  - exists a_client, "u1", "event". split; [constructor 2; constructor 1|reflexivity].
  - intros (d & uid & e & Hin & _). by apply elem_of_nil in Hin.
  - intros [Hs|(d & x & Hin & _)].
    + change (is_Some (stored s1 (the_id a_client))) in Hs. rewrite Hst in Hs. apply stored_disk_ids in Hs. discriminate Hs.
    + cbn [restarted es_sent] in Hin. rewrite Hse in Hin. by apply elem_of_nil in Hin.
Qed.
Lemma unreachable_blocks_witness : exists s1,
  checkUndeliveredEvents a_dead_client (ev_world stored_disk []) = (Panic, s1) /\ flagged s1 a_dead_client.
Proof.
  destruct (unreachable_blocks a_dead_client (ev_world stored_disk []) (the_id a_dead_client)) as [(s1 & E & Hf & _) _].
  - apply sim_wf.
  - apply sim_healthy.
  - reflexivity.
  - exact dead_unreachable.
  - unfold flagged, ev_world. cbn [es_own]. rewrite sim_view_disk. intros [v Hv]. vm_compute in Hv. discriminate Hv.
  - unfold stored, ev_world. cbn [es_own]. rewrite sim_view_disk. exists (Text (JStr "event")). vm_compute. reflexivity.
  - vm_compute. reflexivity.
  - exists s1. split; [exact E|exact Hf].
Defined.
